(* ===== verification/_CoqProject ===== *)
-Q . S2P
Prelude.v
Timer.v
CString.v
CookieJar.v
Client.v
ConnLimit.v
Server.v
Dns.v
Smm.v
Subscriptions.v
PathAlias.v
SetValues.v
Transfers.v
TransfersFacts.v
TransfersSpec.v
EngineTimers.v
SessionTimer.v
AcsTransfer.v
AcsTransferFacts.v
UpDownload.v
UpDownloadFacts.v
UpDownloadSpec.v
UpDownloadOnce.v
UpDownloadFirmware.v
TransferExamples.v
TransferTimers.v
ConnRequest.v
ConnRequestFacts.v
ConnRequestSpec.v
ConnRequestPort.v
ConnRequestAddress.v
ConnRequestExamples.v
Xmpp.v
ManageableDevice.v
ManageableDeviceText.v
ManageableDeviceFacts.v
ManageableDeviceSpec.v
ManageableDeviceRun.v
ManagedDevices.v
ManagedDeviceExamples.v
ACSConnection.v
ACSConnectionFacts.v
ACSConnectionExamples.v
SystemParameters.v
SystemConnection.v
SystemConnectionFacts.v
SystemConnectionExamples.v
IndexAlias.v
ParameterNames.v
ParameterNamesFacts.v
ParameterNamesExamples.v
ReadValues.v
ReadValuesFacts.v
ReadValuesExamples.v
InformParameters.v
SetValuesSupported.v
AddDelete.v
ScheduleDownload.v
ScheduleDownloadFacts.v
ScheduleDownloadExamples.v
SupportedModel.v
ParameterLists.v
ParameterListsFacts.v
ParameterListsExamples.v
SupportedNames.v
SupportedNamesExamples.v
AcsAddress.v
DaemonMain.v
UrlChange.v
ClientTls.v
PluginDaemon.v
AdapterLifecycle.v
BusHelpers.v
SupportedBuild.v
