(* ===== verification/Prelude.v ===== *)
(** * Verification of the TR-069 manager

    The repository holds a CWMP (TR-069) client for home gateways.  It consists
    of two processes that share the data model [ManagementServer]:

    - the daemon cwmpd ([src/src/dmmain]) talks to the auto-configuration server
      (ACS): an HTTP client, a server for connection requests, DNS resolution
      and timers around a CWMP engine that is a separate library; the device
      adapter ([src/src/dmdeviceadapter/amx/adapter], a library inside cwmpd)
      executes the requests of the engine on the data model bus;
    - the plugin ([src/src/dmdeviceadapter/amx/cwmp_plugin]) implements the
      object [ManagementServer]: scheduled downloads, software modules, file
      transfers, connection request address, manageable devices.

    The development is a shallow embedding of the C sources: a C function is a
    Rocq function of the same name on an explicit state, a struct is a record,
    the file statics of a component are one record.  Code that is not in the
    repository (libamx*, libevent, c-ares, libwebsockets, OpenSSL, the CWMP
    engine) appears in three ways: as a recorded call, as an input that holds
    its answer, or as a parameter of the section with its documented behaviour
    as a hypothesis where a theorem needs it.

    ** Conventions

    - A pointer is an address ([nat]) of an object in a list, or an [option]
      when only its nullity matters.  Addresses are fresh and never reused, so
      that use after free is visible.
    - [int] and [unsigned] are [Z], wrapped with [s32] and [u32] (this file)
      wherever the C expression can overflow; [atoi], [atol] saturate and
      truncate as the C library does.
    - Strings that are only compared and copied are [string]; strings that are
      parsed are lists of characters, [CString.cstr].
    - The outcome of an allocation is a boolean argument where the code tests
      it; an allocation whose result is not tested is assumed to succeed.
    - Undefined behaviour is [None] (or a constructor that says so) or a dangling
      pointer in the state (Transfers, Subscriptions); it is never silently
      repaired.
    - A transaction of the data model ([amxd_trans_apply]) is accepted or
      refused by an oracle indexed by the number of transactions so far; the
      events an accepted one raises wait in a queue and are dispatched by later
      steps, in the order the filters of the ODL file select them.
    - Components that react to events have a type of events, a function [step]
      and runs that are lists of events: all theorems about runs hold for every
      interleaving.

    ** Files and the sources they model

    - [Prelude] (this file): machine integers, nullable strings, [atoi], runs
      and their invariants ([run_steps], [run_invariant]), the hint database
      [tr069] and the tactics [case_goal], [bool_prop].
    - [Timer]: [cwmpd_timer.c].  Named timers of the engine; [timer_world] is
      the list and the log of library calls.  Every library timer is used
      between creation and deletion only and none leaks
      ([timer_calls_disciplined]); the list implements a finite map from names
      ([timer_refines_map]); the delay that is armed ([timer_start_arms]).
    - [CString]: functions of [string.h] and [ctype.h] on character lists.
    - [CookieJar]: [cwmpd_cookie.c].  The jar implements a finite map
      ([build_refines_map]), printing and parsing are inverse
      ([to_string_build]), and cookies whose name is a prefix of an attribute
      are lost ([attribute_prefix_dropped]).
    - [Client]: [cwmpd_client.c], on top of a [CookieStore].  [client] holds the
      server, the session and what outlives it, also the strings and the context
      that the static [lws_connect_info] points to, which can be released or null;
      [event] has one constructor for each callback of libwebsockets and entry
      point of the engine.  Exactly when a callback is undefined behaviour
      ([client_undefined_iff]) and that a started session is none
      ([started_session_sends]),
      sizes of the authentication header ([basic_header_fits]), reassembly of
      answers ([answer_delivered]), the session timer ([every_exchange_timed]),
      the choice of the address ([acsip_chosen]) and the unbounded repetition
      of refused credentials ([auth_retry_never_gives_up]).
    - [ConnLimit]: [cwmpd_connectionsecurity.c].  Bound on the accepted
      connection requests of a period ([accepted_per_period]) and that the bound
      is reached ([one_more_than_announced]).
    - [Server]: [cwmpd_server.c], on top of [ConnLimit]; a reply whose header or
      body cannot be written ends early.  A session is requested
      exactly for an authenticated request of the random path
      ([session_requires_authentication]); anybody can use up the quota
      ([wrong_requests_use_the_quota]); [server_start_outcome].
    - [Dns]: [cwmpd_dns.c].  [dns] is the record of the file statics with the
      list of resolvers, each with its c-ares channel, libevent events and
      timers; callbacks of c-ares are data ([ares_cb]).  [step_ok] is a preorder
      of what one callback may change, and carries all run invariants: events
      and queries are released exactly once and never outlive their resolver
      ([dns_resources_disciplined]), only the newest resolution has an effect
      ([dns_latest_resolution_counts]), a lookup is always planned or under way
      ([dns_next_lookup_pending]), and what an answer publishes
      ([dns_answer_published]).
    - [Smm]: [smm.c] and [DM_AmxChangeDUState.c].  A ChangeDUState request from
      the adapter through the plugin and back: every instance is reported at
      most once, with its result ([du_state_change_reported_once]), and the first
      operation of an accepted request is carried out and reported
      ([change_du_state_carried_out]).
    - [Subscriptions]: the subscription list of [DM_AmxCommon.c]; the
      registrations of the bus match the list and point to live objects
      ([subscriptions_consistent]).
    - [ACSConnection]: [DM_AmxACSConnection.c], the notifications, with the
      instances of [ManagementServer.Subscription] in [dm] and the list of
      [Subscriptions].  [ACSConnectionFacts]: an event is handled parameter by
      parameter ([notification_per_parameter]) unless one of them has no
      subscription ([unsubscribed_parameter_misread]); what the engine is told
      ([add_notification_result], [get_subscriptions_inverted]); the instances
      ([one_instance_per_path]) and the inverse requests ([add_remove]).
      [ACSConnectionExamples]: one parameter.
    - [PathAlias]: paths of [DM_AmxCommon.c]: wildcards ([wildcard_valid_iff]),
      aliases ([alias_path_valid], [extract_modify_id], [modify_merges]) and the
      bound of the buffer they are written to ([modified_path_fits]).
    - [SetValues]: the SetParameterValues RPC of [DM_AmxParameterValues.c] and
      [DM_DeviceAdapter.c]: nothing is set unless everything is valid
      ([validation_all_or_nothing]), a valid list is set completely and once
      ([valid_list_is_set]), the result of the RPC is that of the last group
      ([last_group_decides]).
    - [SetValuesSupported]: the same in the build with the supported data model,
      [DM_AmxParameterValues_prpl.c], where a path may have no parameter name:
      which lists are undefined, and that the others are answered alike
      ([supported_set_exact]).
    - [Transfers], [TransfersFacts], [TransfersSpec]: [transfers.c],
      [transfers_dm.c], [transfers_timewindow.c] and [transfers_firmware.c], the
      scheduled downloads.  The first file holds the state and the operations,
      the second the invariants and the measure, the third the properties: one
      download at a time ([one_download_in_flight]), a bound on the downloads
      from the retries of the windows, across restarts ([downloads_bounded]), use
      after free
      ([no_dangling_pointer], [delete_leaves_dangling_pointer]), restarts
      ([windows_survive_restart]), failures ([firmware_failure_reported],
      [pending_upgrade_resolved]) and the end of a window
      ([window_end_closes_transfer]).

    - [EngineTimers]: the contract of the engine's timers as the adapter uses it,
      a class with laws, and its implementation by [Timer].
    - [AcsTransfer], [AcsTransferFacts]: [cwmp_plugin_transfer.c], the file
      transfers in the plugin.  [plugin] holds the instances of ACSTransfer at
      their addresses, the timers and requests that point to them, and the
      registrations at the image service; [step] has an event for each callback.
      Exactly when a callback uses a freed object or a null request
      ([plugin_undefined_iff]), the delay of a download ([firmware_delay]), the
      index of a vendor file ([vendor_index]).
    - [UpDownload]: [DM_AmxUpDownload.c] and its callers, the Download and Upload
      RPCs.  [world] composes the plugin, the subscriptions, the timers and the
      engine; between two calls of the adapter the plugin runs ([gaps]).
      [UpDownloadFacts], [UpDownloadSpec]: an accepted transfer is reported in
      the end ([transfer_never_forgotten]), every state is well formed
      ([transfers_well_formed]), and a transfer that never began is reported as a
      success ([timeout_of_initial_reports_success]).  [UpDownloadOnce]: nothing
      is reported twice ([reported_at_most_once]).  [UpDownloadFirmware]: faults
      of the image service reach the ACS ([firmware_failure_reaches_acs]),
      upgrades across a restart ([pending_firmware_resolved]).
      [TransferExamples]: these theorems at concrete transfers.
    - [ConnRequest]: [cwmp_plugin_connection_request.c],
      [cwmp_plugin_intf_queries.c], [cwmp_plugin_service.c],
      [cwmp_plugin_proc.c] and the life cycle in [cwmp_plugin.c].  [world] holds
      the parameters, the queue of their events, the statics of the queries and
      the [daemon] with its process, restart timers and firewall service.
      [ConnRequestFacts]: what the callbacks change.  [ConnRequestSpec]: the URL
      follows its parameters ([url_follows_address]), the process is the state
      machine [dstep] ([process_refines_machine], [one_daemon_at_a_time]), it is
      restarted ([daemon_supervised]) unless a start fails
      ([failed_start_is_final]).  [ConnRequestPort]: when the port is closed
      ([port_closed_iff]) and which port is open ([open_port_is_current]).
      [ConnRequestAddress]: which address is published
      ([preferred_address_published]) and what the path depends on
      ([path_shape], [mac_path_of_four_bytes]).  [ConnRequestExamples]: a
      concrete gateway.
    - [Xmpp]: [cwmp_plugin_xmpp.c], the identifier for XMPP connection requests
      ([jabber_id_follows], [deletion_clears_name]).
    - [ManageableDevice]: [cwmp_plugin_manageable_device.c], the devices that the
      gateway manages.  [world] holds the table, the cache of devices that wait
      for a row of [Hosts.Host], and the subscription and query with their
      retries; [amx] with [AmxLaws] is what the libraries do.
      [ManageableDeviceText]: the lists of rows as text; [ManageableDeviceFacts],
      [ManageableDeviceSpec]: the table as a map from identities to rows, and
      what the operations are on this map; [ManageableDeviceRun]: the invariant.
      [ManagedDevices]: the table is well formed ([devices_well_formed]), matching
      registers one row ([matching_registers_first_row]) and its end undoes that
      ([matching_undone]) unless there are more rows ([second_row_prints_null]),
      late rows ([late_row_registered], [refused_row_added_again]), retries
      ([query_open_or_retried]).  [ManagedDeviceExamples]: a small network, and an
      identity with a quote ([quoted_identity_registered_twice]).
    - [SystemParameters]: the tables of [DM_AmxSystemConnection.c] from the
      parameters of the engine to objects and names, and the parameters that the
      ODL file of the plugin defines ([parameters_defined_by_plugin]).
    - [SystemConnection]: [DM_AmxSystemConnection.c] and the callers in
      [DM_DeviceAdapter.c], on a bus with the class [system_library].  [state]
      has what the handlers change of the engine.  [SystemConnectionFacts]: every
      parameter of the engine has its place ([config_places]), the wait for the
      objects of the bus ends ([startup_bounded]), events reach the
      engine ([system_events_delivered], [completion_announced],
      [completions_answer_requests], [instance_mode_follows]) and when a handler
      is undefined ([system_handler_undefined_iff]).  [SystemConnectionExamples]:
      a bus that is a map.
    - [IndexAlias]: [DM_ENG_Device_Common_IndexToAlias] of [DM_AmxCommon.c], paths
      with aliases for instance numbers ([index_to_alias_parts]).
    - [ParameterNames]: the GetParameterNames RPC of [DM_AmxParameterNames.c], a
      walk over descriptions of objects.  [ParameterNamesFacts]: the names are
      those of the tree of objects in preorder ([names_in_preorder]), each once
      ([names_listed_once]), only those the access rules show -- for the next
      level those of the parent -- ([only_permitted_names]), and an error below a child is forgotten
      ([failed_child_forgotten]).  [ParameterNamesExamples]: a small tree.
    - [ReadValues]: the GetParameterValues RPC and the complete answers in XML,
      [DM_AmxParameterValues.c], [DM_AmxParameterValues_prpl.c] and
      [DM_DeviceAdapter.c]; what libxml2 makes of a text with markup is a parameter
      ([xml_content]).  [ReadValuesFacts]: all values or an error
      ([values_all_or_nothing]), access ([values_permitted]), types
      ([type_fallback_unused]), the two builds ([builds_agree_on_values]), the
      complete answers ([all_values_match], [all_attributes_listed]).
      [ReadValuesExamples]: a small data model.
    - [InformParameters]: which parameters an Inform message has, in
      [DM_DeviceAdapter.c] ([inform_values], [count_selects_every]).
    - [AddDelete]: AddObject, DeleteObject, Reboot and FactoryReset,
      [DM_AmxAddDelete.c] and [DM_AmxReset.c]: the alias of a new instance
      ([alias_reaches_bus]), which is no way to delete it
      ([alias_cannot_be_deleted]), [added_object_deleted],
      [delete_undefined_iff].
    - [ScheduleDownload]: [DM_AmxScheduleDownload.c], composed with [Transfers]:
      [world] has the plugin, the timers of the engine, the notifications that
      wait and the reports.  [ScheduleDownloadFacts]: a request arrives as it was
      made ([request_arrives]), the end of a transfer is reported
      ([done_transfer_reported]) with the fields it has ([report_is_current]),
      [schedule_undefined_iff].  [ScheduleDownloadExamples]: a refused download,
      a transfer that is lost between the first look and the subscription, and a
      report that is refused.
    - [SupportedModel]: what is collected of the supported data model,
      [DM_ENG_Device_Common_Get_Gsdm_data] of [DM_AmxCommon.c]: listed objects are
      known ([gsdm_children_known]).
    - [ParameterLists]: [DM_AmxParameter.c], values and names for the second
      interface of the engine.  [ParameterListsFacts]: no name twice
      ([parameter_lists_unique]), access ([denied_lists_nothing]), objects below
      an object ([children_listed]), [gpv_undefined_iff].
      [ParameterListsExamples]: a small data model.
    - [SupportedNames]: [DM_AmxParameterNames_prpl.c], GetParameterNames of the
      build with the supported data model ([supported_names_listed]), which takes
      an unknown parameter for a success ([unknown_parameter_succeeds]);
      [names_undefined_only].  [SupportedNamesExamples]: both builds.
    - [AcsAddress]: [Dns] and [Client] in one world with the parameters URL and
      ACSIPLIST and the event of a changed URL: a session uses the host of the
      URL and an address of it ([session_uses_current_host]), unless the handler
      of the event could not read the URL ([unread_change_forgotten]).
    - [SessionTimer]: [Client] and [Timer] in one world: an exchange is watched
      until its session has failed ([session_always_watched]), and also when it
      has ended well ([ended_session_times_out]).  [TransferTimers]: the same with
      the transfers of [UpDownload], whose timers are in the same list
      ([transfers_keep_session_watched]), unless a CommandKey is the name of a
      timer ([command_key_takes_timer]).
    - [UrlChange]: [SystemConnection], [DaemonMain] and [AcsAddress] in one
      system: what a notification of the bus comes to at the resolver and the
      client ([notification_changes_url]).
    - [DaemonMain]: [cwmpd_main.c] and [cwmpd_evlp.c].  [world] has the settings,
      the variables of the event loop and the log of calls: once there is an event
      loop, the start and the clean-up are complete and in order
      ([main_cleans_up]), the exit code tells
      only about the end ([main_exit_code]), [server_runs_or_exit].
    - [ClientTls]: certificates and TLS context of the HTTP client, in
      [cwmpd_client.c] and [cwmpd_get_certificate_uri.c], from the settings of
      [DaemonMain]: when the start is undefined, with names of certificates that
      may be null ([daemon_tls_undefined_iff]), and
      what it holds afterwards ([client_start_references]).
    - [PluginDaemon]: the command line of [ConnRequest] read by the options of
      [DaemonMain]: every daemon that the plugin starts stays attached to it
      ([started_daemon_attached]) and, with the shipped configuration, has the
      names that [ClientTls] copies ([shipped_daemon_has_identity]).  Also the
      file that [cwmp_plugin.c] saves to ([saved_while_running]).
    - [AdapterLifecycle]: the start, sessions and end of the adapter in
      [DM_DeviceAdapter.c], and the way of an Inform request from [cwmp_plugin.c]
      through [DM_AmxRPCInterface.c] to the engine ([session_tells_address],
      [config_loaded], [inform_request_delivered], [init_modes]).
    - [BusHelpers]: [cwmp_plugin_common.c] and the functions of
      [DM_DeviceAdapter.c] that call the bus once ([subscription_helpers],
      [mapping_kept]).
    - [SupportedBuild]: [DM_DeviceAdapter_prpl.c] and
      [DM_AmxParameterValues_prpl.c], the adapter of the build with the supported
      data model.  Functions with the text of the other build are its models under
      this name; the request for all values is compared with that of the other
      build ([builds_agree_on_all_values], [missing_row_types]).

    ** Interaction of the components

    [Client] is verified against the class [CookieStore] of [CookieJar], whose
    law is that adding the text of a header always ends, and which the jar
    implements ([jar_store]); [Server] uses those of [ConnLimit]; [Smm] composes
    adapter, plugin and event dispatch in one state.  [Client] calls the resolver ([DnsResolve]) and
    the engine timers as recorded calls; the timers themselves are [Timer], and
    [SessionTimer] runs the two together.  [TransferTimers] adds the adapter's
    transfers and shows by a simulation that they leave the session timer alone.  The
    address list [Dns] publishes ([SetAcsIpList]) is the value [dm_acsiplist]
    that [Client] reads; [AcsAddress] runs both on it.  [UpDownload] composes [AcsTransfer], [Subscriptions]
    and any implementation of [EngineTimers] in one world; the theorems are proved
    against the laws of the class, and [Timer] discharges them.  [ScheduleDownload]
    does the same with [Transfers], whose instances it asks for and reports.  The
    requests of the ACS for names and values share the environment [amx_env] and
    the classes of [ParameterNames], [ReadValues] and [IndexAlias];
    [ParameterLists] reads what [SupportedModel] collects, and its theorem on the
    objects below an object uses the invariant of the collection.
    [AdapterLifecycle] reads the configuration through [SystemConnection] and
    finds the interface with [ACSConnection].

    ** Fuel and bounds

    Recursion is structural except for these loops with fuel.
    [PathAlias.alias_loop] gets one more than the length of the path,
    [SetValues.validate_all] and [SetValues.set_all] the number of parameters;
    that this is enough is proved in the same files, and the theorems that use
    the loops state their results outright.  The walk [ParameterNames.GetNames]
    gets more than a rank that decreases from each object to the objects below,
    and [names_in_preorder] proves that it then answers.  The wait
    [SystemConnection.wait_up] gets 25, more than the attempts of the code, which
    [startup_bounded] proves to be enough.  The loop of [CookieJar] that the C code
    can leave without progress is an [option], proved to be always defined.

    ** What is not modelled, and the plan

    Not modelled because they only call libraries or return a static: trace
    output, the accessors of the adapter and of the plugin, the functions that free
    the elements of a list, the tables of callbacks of libwebsockets, and the
    entry points of libevent in [cwmpd_evlp.c], one call each.  The ODL
    definitions are data for a library; those that the models rely on are quoted
    where they are used.  Long options of the daemon are not read by
    [PluginDaemon.getopt_long].

    In [DaemonMain] signals are delivered between the callbacks of the loop and
    not during them, and in [ScheduleDownload] the strings of a request are not
    null.  [AcsAddress] takes writes of the data model to
    succeed.  The engine itself ([libdmengine], [libdmcom]) is not part of the
    repository: when it starts sessions, in which order it sends messages and how
    it takes the end of a session are arguments of the runs, so that [UrlChange]
    and [TransferTimers] stop at its interface and there is no world with all
    parts of the daemon. *)

From Stdlib Require Import ZArith Lia Ascii String.
From stdpp Require Export base tactics list gmap strings.
#[global] Open Scope Z_scope.

(** ** Machine integers

    [int] and [unsigned int] are 32 bits wide on every target of the program;
    the values are kept as [Z] and wrapped where the C expression wraps. *)

Definition u32 (z : Z) : Z := z mod 2 ^ 32.

Definition s32 (z : Z) : Z := (z + 2 ^ 31) mod 2 ^ 32 - 2 ^ 31.

Lemma u32_id (z : Z) : 0 <= z < 2 ^ 32 -> u32 z = z.
Proof. intros H. unfold u32. by apply Z.mod_small. Qed.

Lemma s32_id (z : Z) : - 2 ^ 31 <= z < 2 ^ 31 -> s32 z = z.
Proof. intros H. unfold s32. rewrite Z.mod_small; lia. Qed.

Lemma u32_range (z : Z) : 0 <= u32 z < 2 ^ 32.
Proof. apply Z.mod_pos_bound. lia. Qed.

Lemma s32_range (z : Z) : - 2 ^ 31 <= s32 z < 2 ^ 31.
Proof.
  unfold s32. pose proof (Z.mod_pos_bound (z + 2 ^ 31) (2 ^ 32)). lia.
Qed.

Lemma s32_wrap (z : Z) : 2 ^ 31 <= z < 2 ^ 32 -> s32 z = z - 2 ^ 32.
Proof.
  intros H. unfold s32. rewrite <- (Z.mod_unique_pos (z + 2 ^ 31) (2 ^ 32) 1 (z - 2 ^ 31)); lia.
Qed.

Lemma u32_neg (z : Z) : - 2 ^ 32 <= z < 0 -> u32 z = z + 2 ^ 32.
Proof.
  intros H. unfold u32. by rewrite <- (Z.mod_unique_pos z (2 ^ 32) (-1) (z + 2 ^ 32)) by lia.
Qed.

(** ** Nullable C strings

    A [const char *] argument is an [option string]; [when_str_empty] of the
    C macros rejects both the null pointer and the empty string. *)

Definition str_empty (s : option string) : bool :=
  match s with
  | None => true
  | Some s => bool_decide (s = EmptyString)
  end.

Definition is_null {A} (p : option A) : bool :=
  match p with
  | None => true
  | Some _ => false
  end.

(** [strcmp (a, b) == 0] *)
Definition streq (a b : string) : bool := bool_decide (a = b).

Lemma streq_true (a b : string) : streq a b = true <-> a = b.
Proof. unfold streq. by rewrite bool_decide_eq_true. Qed.

Lemma streq_refl (a : string) : streq a a = true.
Proof. by apply streq_true. Qed.

Lemma streq_false (a b : string) : streq a b = false <-> a <> b.
Proof. unfold streq. by rewrite bool_decide_eq_false. Qed.

Lemma str_empty_false (s : option string) :
  str_empty s = false <-> exists t, s = Some t /\ t <> EmptyString.
Proof.
  destruct s as [t|]; simpl; [|naive_solver].
  rewrite bool_decide_eq_false. naive_solver.
Qed.

(** [p + 1] on a non-empty C string. *)
Definition str_tail (s : string) : string :=
  match s with
  | EmptyString => EmptyString
  | String _ t => t
  end.

(** ** [atol] and [atoi]

    White space, an optional sign, then digits up to the first other
    character; [strtol] saturates at 64 bits and the result is truncated to an
    [int]. *)

Definition is_space (c : ascii) : bool :=
  let n := Ascii.nat_of_ascii c in Nat.eqb n 32 || (Nat.leb 9 n && Nat.leb n 13).

Definition digit (c : ascii) : option Z :=
  let n := Ascii.nat_of_ascii c in
  if Nat.leb 48 n && Nat.leb n 57 then Some (Z.of_nat n - 48) else None.

Fixpoint skip_spaces (s : string) : string :=
  match s with
  | String c t => if is_space c then skip_spaces t else s
  | EmptyString => EmptyString
  end.

Fixpoint digits (acc : Z) (s : string) : Z :=
  match s with
  | String c t => match digit c with Some d => digits (10 * acc + d) t | None => acc end
  | EmptyString => acc
  end.

Definition saturate (z : Z) : Z := Z.max (- 2 ^ 63) (Z.min z (2 ^ 63 - 1)).

Definition atol (s : string) : Z :=
  saturate
    match skip_spaces s with
    | String "-" t => - digits 0 t
    | String "+" t => digits 0 t
    | t => digits 0 t
    end.

Definition atoi (s : string) : Z := s32 (atol s).

Lemma atoi_range (s : string) : - 2 ^ 31 <= atoi s < 2 ^ 31.
Proof. apply s32_range. Qed.

(** ** Lists *)

Lemma find_app {A} (f : A -> bool) (l1 l2 : list A) :
  List.find f (l1 ++ l2) = match List.find f l1 with Some x => Some x | None => List.find f l2 end.
Proof. induction l1 as [|x l1 IH]; simpl; [done|]. by destruct (f x). Qed.

(** A key without duplicates determines the element. *)
Lemma NoDup_map_inj {A B} (f : A -> B) (l : list A) (x y : A) :
  NoDup (map f l) -> x ∈ l -> y ∈ l -> f x = f y -> x = y.
Proof.
  intros H Hx Hy E. apply list_elem_of_lookup in Hx as [i Hi], Hy as [j Hj].
  assert (i = j) as ->; [|congruence].
  eapply (NoDup_lookup (f <$> l)); [exact H| |]; rewrite list_lookup_fmap, ?Hi, ?Hj; simpl; by rewrite ?E.
Qed.

Lemma NoDup_map_filter {A B} (f : A -> B) (P : A -> bool) (l : list A) : NoDup (map f l) -> NoDup (map f (List.filter P l)).
Proof.
  induction l as [|x l IH]; intros H; [done|]. cbn [map List.filter] in *. apply NoDup_cons in H as [H1 H2].
  destruct (P x); [|by apply IH]. cbn [map]. apply NoDup_cons. split; [|by apply IH]. contradict H1.
  apply list_elem_of_In, in_map_iff in H1 as [y [E H1]]. apply List.filter_In in H1 as [H1 _].
  apply list_elem_of_In, in_map_iff. by exists y.
Qed.

Lemma Forall_filter_l {A} (Q : A -> Prop) (P : A -> bool) (l : list A) : Forall Q l -> Forall Q (List.filter P l).
Proof. induction 1; simpl; [constructor|]. destruct (P _); [by constructor|done]. Qed.

(** ** Runs of a component

    A run executes a list of events; an invariant of the steps, for the events
    that satisfy a condition, is an invariant of the runs. *)

Definition run_steps {E S} (step : E -> S -> S) (es : list E) (w : S) : S :=
  foldl (fun w e => step e w) w es.

Lemma run_invariant {E S} (step : E -> S -> S) (Q : E -> Prop) (P : S -> Prop) (es : list E) (w : S) :
  (forall e w, Q e -> P w -> P (step e w)) -> Forall Q es -> P w -> P (run_steps step es w).
Proof.
  intros Hstep. revert w. induction es as [|e es IH]; intros w; [done|].
  intros [He Hes]%Forall_cons Hw. apply IH; auto.
Qed.

Lemma run_invariant_all {E S} (step : E -> S -> S) (P : S -> Prop) (es : list E) (w : S) :
  (forall e w, P w -> P (step e w)) -> P w -> P (run_steps step es w).
Proof. intros H. apply (run_invariant step (fun _ => True)); [auto|]. by apply Forall_true. Qed.

(** ** Automation *)

Create HintDb tr069.
Create Rewrite HintDb tr069.
#[export] Hint Rewrite streq_refl : tr069.
#[export] Hint Resolve u32_range s32_range : tr069.

(** Case analysis on the scrutinee of the first [match] or [if] of the goal. *)
Ltac case_goal :=
  match goal with
  | |- context [match ?x with _ => _ end] =>
      lazymatch x with
      | context [match _ with _ => _ end] => fail
      | _ => destruct x eqn:?
      end
  end.

(** Turns the boolean tests left by [case_goal] into propositions. *)
Ltac bool_prop :=
  repeat match goal with
  | H : streq _ _ = true |- _ => apply streq_true in H
  | H : streq _ _ = false |- _ => apply streq_false in H
  | H : bool_decide _ = true |- _ => apply bool_decide_eq_true in H
  | H : bool_decide _ = false |- _ => apply bool_decide_eq_false in H
  | H : _ && _ = true |- _ => apply andb_true_iff in H as [? ?]
  | H : _ || _ = false |- _ => apply orb_false_iff in H as [? ?]
  | H : negb _ = true |- _ => apply negb_true_iff in H
  | H : negb _ = false |- _ => apply negb_false_iff in H
  | H : (_ =? _) = true |- _ => apply Z.eqb_eq in H
  | H : (_ =? _) = false |- _ => apply Z.eqb_neq in H
  | H : (_ <? _) = true |- _ => apply Z.ltb_lt in H
  | H : (_ <? _) = false |- _ => apply Z.ltb_ge in H
  | H : (_ <=? _) = true |- _ => apply Z.leb_le in H
  | H : (_ <=? _) = false |- _ => apply Z.leb_gt in H
  end.
