(* ===== verification/Timer.v ===== *)
(** * Timer: the named timers of cwmpd ([src/src/dmmain/cwmpd_timer.c])

    The engine starts, stops and queries timers by name.  The daemon keeps a
    singly linked list of [timer_list_item], each owning one [amxp_timer_t] of
    the event library.  The list is the state [timer_world]; the library calls
    are recorded, in order, in the call log [tw_calls], so that the discipline
    the library asks for (a timer is used between its creation and its
    deletion only) is a statement about the log.

    The callbacks into the engine are recorded in the same log. *)

From Stdlib Require Import ZArith Lia.
From stdpp Require Import base list gmap strings.
From S2P Require Import Prelude.

Module Timer.

(** ** Data *)

(** Addresses of [amxp_timer_t] objects, fresh for each [amxp_timer_new]. *)
Definition addr := nat.

(** [timerHandler]: a code pointer of the engine. *)
Definition handler := nat.

Record timer_list_item := {
  ti_timer : addr;
  ti_name : string;
  ti_handler : option handler;
  ti_interval : bool;
}.

Inductive call :=
| AmxpNew (a : addr)
| AmxpSetInterval (a : addr) (ms : Z)
| AmxpStart (a : addr) (ms : Z)
| AmxpStop (a : addr)
| AmxpDelete (a : addr)
| Callback (h : handler) (name : string).

Record timer_world := {
  tw_list : list timer_list_item;
  tw_next : addr;
  tw_calls : list call;
}.

Definition initial : timer_world :=
  {| tw_list := []; tw_next := 0%nat; tw_calls := [] |}.

Inductive cwmp_status := cwmp_status_ok | cwmp_status_ko.

#[export] Instance cwmp_status_eq_dec : EqDecision cwmp_status.
Proof. solve_decision. Defined.

(** [timer_list = l] together with the library calls made on the way. *)
Definition update (w : timer_world) (l : list timer_list_item) (cs : list call) : timer_world :=
  {| tw_list := l; tw_next := tw_next w; tw_calls := tw_calls w ++ cs |}.

(** ** Operations *)

(** [timer_find] *)
Definition timer_find (name : option string) (l : list timer_list_item) : option timer_list_item :=
  match name with
  | None => None
  | Some n =>
      if streq n "" then None
      else List.find (fun t => streq (ti_name t) n) l
  end.

(** [timer_find_by_addr] *)
Definition timer_find_by_addr (a : addr) (l : list timer_list_item) : option timer_list_item :=
  List.find (fun t => Nat.eqb a (ti_timer t)) l.

(** [timer_free]: the library calls it makes. *)
Definition timer_free (t : timer_list_item) : list call :=
  [AmxpStop (ti_timer t); AmxpDelete (ti_timer t)].

(** [timer_remove]: unlinks and frees the first item of that name. *)
Fixpoint timer_unlink (name : string) (l : list timer_list_item) : list timer_list_item * list call :=
  match l with
  | [] => ([], [])
  | t :: l' =>
      if streq name (ti_name t) then (l', timer_free t)
      else let '(r, cs) := timer_unlink name l' in (t :: r, cs)
  end.

Definition timer_remove (name : option string) (w : timer_world) : timer_world :=
  match name with
  | None => w
  | Some n => let '(l, cs) := timer_unlink n (tw_list w) in update w l cs
  end.

(** [cwmp_timer_remove_all] *)
Definition cwmp_timer_remove_all (w : timer_world) : timer_world :=
  update w [] (concat (map timer_free (tw_list w))).

(** [timer_append] *)
Definition timer_append (t : timer_list_item) (l : list timer_list_item) : list timer_list_item :=
  l ++ [t].

(** [timer_timeout_handler]: [timer] is the library timer that fired and
    [priv] the name the timer was created with. *)
Definition timer_timeout_handler (timer : addr) (priv : string) (w : timer_world) : timer_world :=
  match timer_find_by_addr timer (tw_list w) with
  | None => w
  | Some item =>
      match ti_handler item with
      | None => w
      | Some h =>
          let w1 := if ti_interval item then w else timer_remove (Some priv) w in
          update w1 (tw_list w1) [Callback h priv]
      end
  end.

(** [cwmp_timer_start].  [malloc_ok] is the outcome of the [malloc] of the
    list item.  [waitTime * 1000] is computed in [int] and passed as an
    [unsigned int]. *)
Definition millis (seconds : Z) : Z := u32 (s32 (seconds * 1000)).

Definition cwmp_timer_start (malloc_ok : bool) (name : option string) (waitTime intervalTime : Z)
    (h : option handler) (w : timer_world) : timer_world * cwmp_status :=
  match name with
  | None => (w, cwmp_status_ko)
  | Some n =>
      if streq n "" then (w, cwmp_status_ko)
      else
        match timer_find (Some n) (tw_list w) with
        | None =>
            if negb malloc_ok then (w, cwmp_status_ko)
            else
              let a := tw_next w in
              let interval := negb (intervalTime =? 0) in
              let t := {| ti_timer := a; ti_name := n; ti_handler := h; ti_interval := interval |} in
              ({| tw_list := timer_append t (tw_list w);
                  tw_next := S a;
                  tw_calls := tw_calls w ++ [AmxpNew a]
                    ++ (if interval then [AmxpSetInterval a (millis intervalTime)] else [])
                    ++ [AmxpStart a (millis waitTime)] |}, cwmp_status_ok)
        | Some t =>
            (update w (tw_list w) [AmxpStop (ti_timer t); AmxpStart (ti_timer t) (millis waitTime)],
             cwmp_status_ok)
        end
  end.

(** [cwmp_timer_stop] *)
Definition cwmp_timer_stop (name : option string) (w : timer_world) : timer_world * cwmp_status :=
  match name with
  | None => (w, cwmp_status_ko)
  | Some n =>
      if streq n "" then (w, cwmp_status_ko)
      else
        match timer_find (Some n) (tw_list w) with
        | Some t => (timer_remove (Some n) (update w (tw_list w) [AmxpStop (ti_timer t)]), cwmp_status_ok)
        | None => (w, cwmp_status_ko)
        end
  end.

(** [cwmp_timer_remainingTime]; [amxp_timer_remaining_time] belongs to the
    event library. *)
Definition cwmp_timer_remainingTime (amxp_timer_remaining_time : addr -> Z)
    (name : option string) (w : timer_world) : Z :=
  match timer_find name (tw_list w) with
  | Some t => amxp_timer_remaining_time (ti_timer t)
  | None => 0
  end.

(** ** Runs: any sequence of the operations above *)

Inductive op :=
| OpStart (malloc_ok : bool) (name : option string) (waitTime intervalTime : Z) (h : option handler)
| OpStop (name : option string)
| OpFire (timer : addr)
| OpRemoveAll.

(** The library fires a timer with the [priv] it was created with: the name
    of the list item that owns it. *)
Definition run_op (o : op) (w : timer_world) : timer_world :=
  match o with
  | OpStart m n wt it h => fst (cwmp_timer_start m n wt it h w)
  | OpStop n => fst (cwmp_timer_stop n w)
  | OpFire a =>
      match timer_find_by_addr a (tw_list w) with
      | Some t => timer_timeout_handler a (ti_name t) w
      | None => w
      end
  | OpRemoveAll => cwmp_timer_remove_all w
  end.

Definition run : list op -> timer_world -> timer_world := run_steps run_op.

(** ** The discipline of the event library

    [check live cs] replays a call log against the set of live timers: a
    creation gives a timer that is not live, every other call names a live
    one, a deletion ends its life.  [None] is a use after free, a double free
    or a double creation. *)
Definition check_call (live : gset addr) (c : call) : option (gset addr) :=
  match c with
  | AmxpNew a => if decide (a ∈ live) then None else Some ({[a]} ∪ live)
  | AmxpSetInterval a _ | AmxpStart a _ | AmxpStop a => if decide (a ∈ live) then Some live else None
  | AmxpDelete a => if decide (a ∈ live) then Some (live ∖ {[a]}) else None
  | Callback _ _ => Some live
  end.

Fixpoint check (live : gset addr) (cs : list call) : option (gset addr) :=
  match cs with
  | [] => Some live
  | c :: cs' => match check_call live c with Some live' => check live' cs' | None => None end
  end.

(** The timers the list owns. *)
Definition owned (l : list timer_list_item) : gset addr := list_to_set (map ti_timer l).

(** ** Abstract view: a map from names *)

(** What the engine sees of a timer: its handler and whether it repeats. *)
Definition view (l : list timer_list_item) : gmap string (option handler * bool) :=
  list_to_map (map (fun t => (ti_name t, (ti_handler t, ti_interval t))) l).

Definition spec_start (n : string) (intervalTime : Z) (h : option handler)
    (m : gmap string (option handler * bool)) : gmap string (option handler * bool) :=
  match m !! n with
  | Some _ => m
  | None => <[n := (h, negb (intervalTime =? 0))]> m
  end.

(** Well-formedness of the state. *)
Record wf (w : timer_world) : Prop := {
  wf_names : NoDup (map ti_name (tw_list w));
  wf_named : Forall (fun t => ti_name t <> ""%string) (tw_list w);
  wf_timers : NoDup (map ti_timer (tw_list w));
  wf_next : Forall (fun t => (ti_timer t < tw_next w)%nat) (tw_list w);
  wf_calls : check ∅ (tw_calls w) = Some (owned (tw_list w));
}.

(** ** Lemmas *)

Lemma check_app live cs1 cs2 :
  check live (cs1 ++ cs2) = (check live cs1 ≫= fun l => check l cs2).
Proof.
  revert live. induction cs1 as [|c cs1 IH]; intros live; [done|].
  simpl. destruct (check_call live c); [apply IH|done].
Qed.

Lemma elem_of_owned a l : a ∈ owned l <-> exists t, t ∈ l /\ ti_timer t = a.
Proof.
  unfold owned. rewrite elem_of_list_to_set, list_elem_of_fmap. naive_solver.
Qed.

Lemma find_name_elem n l t :
  List.find (fun t => streq (ti_name t) n) l = Some t -> t ∈ l /\ ti_name t = n.
Proof.
  intros [Hin Hn]%List.find_some. bool_prop. by rewrite list_elem_of_In.
Qed.

Lemma find_name_None n l :
  List.find (fun t => streq (ti_name t) n) l = None -> n ∉ map ti_name l.
Proof.
  intros H Hin. apply list_elem_of_fmap in Hin as (t & -> & Ht).
  apply list_elem_of_In, (List.find_none _ _ H) in Ht.
  by rewrite streq_refl in Ht.
Qed.

Lemma timer_unlink_spec n l :
  (n ∉ map ti_name l /\ timer_unlink n l = (l, [])) \/
  (exists l1 t l2, l = l1 ++ t :: l2 /\ ti_name t = n /\ n ∉ map ti_name l1 /\
     timer_unlink n l = (l1 ++ l2, timer_free t)).
Proof.
  induction l as [|t l IH]; simpl.
  { left. split; [apply not_elem_of_nil|done]. }
  destruct (streq n (ti_name t)) eqn:E; bool_prop.
  { right. exists [], t, l. repeat split; [done|apply not_elem_of_nil]. }
  destruct IH as [[Hn ->]|(l1 & u & l2 & -> & Hu & Hn & ->)].
  - left. split; [|done]. by apply not_elem_of_cons.
  - right. exists (t :: l1), u, l2. repeat split; [done|]. simpl. by apply not_elem_of_cons.
Qed.

Lemma owned_cons t l : owned (t :: l) = {[ti_timer t]} ∪ owned l.
Proof. done. Qed.

Lemma owned_app l1 l2 : owned (l1 ++ l2) = owned l1 ∪ owned l2.
Proof. unfold owned. by rewrite map_app, list_to_set_app_L. Qed.

Lemma owned_unlink l1 t l2 :
  NoDup (map ti_timer (l1 ++ t :: l2)) -> owned (l1 ++ t :: l2) ∖ {[ti_timer t]} = owned (l1 ++ l2).
Proof.
  rewrite map_app. simpl. intros Hnd.
  rewrite !owned_app, owned_cons.
  apply NoDup_app in Hnd as (_ & H1 & [H2 _]%NoDup_cons).
  assert (ti_timer t ∉ owned l1).
  { unfold owned. rewrite elem_of_list_to_set. intros Hin. apply H1 in Hin. set_solver. }
  assert (ti_timer t ∉ owned l2) by (unfold owned; by rewrite elem_of_list_to_set).
  set_solver.
Qed.

Lemma check_timer_free t l :
  ti_timer t ∈ owned l -> check (owned l) (timer_free t) = Some (owned l ∖ {[ti_timer t]}).
Proof. intros H. simpl. by rewrite !decide_True. Qed.

Lemma wf_initial : wf initial.
Proof. split; simpl; try constructor. Qed.

(** Every operation replaces the list by a part of it, or extends it by one
    item; the log stays disciplined as long as the new calls are. *)
Lemma wf_update w l cs :
  wf w -> l `sublist_of` tw_list w -> check (owned (tw_list w)) cs = Some (owned l) -> wf (update w l cs).
Proof.
  intros [H1 H2 H3 H4 H5] Hsub Hcs.
  assert (Hin : forall t, t ∈ l -> t ∈ tw_list w) by (intros t; by apply sublist_subseteq).
  rewrite Forall_forall in H2, H4.
  split; simpl.
  - eapply sublist_NoDup; [exact H1|]. by apply (fmap_sublist ti_name).
  - apply Forall_forall. auto.
  - eapply sublist_NoDup; [exact H3|]. by apply (fmap_sublist ti_timer).
  - apply Forall_forall. auto.
  - by rewrite check_app, H5.
Qed.

Lemma wf_unlink n w : wf w -> wf (timer_remove (Some n) w).
Proof.
  intros Hw. simpl.
  destruct (timer_unlink_spec n (tw_list w)) as [[Hn ->]|(l1 & t & l2 & El & Ht & Hn & ->)].
  - by apply wf_update.
  - pose proof (wf_timers _ Hw) as Hnd. rewrite El in Hnd.
    apply wf_update; [done| |].
    + rewrite El. apply sublist_app; [done|]. by apply sublist_cons.
    + rewrite El, check_timer_free.
      * f_equal. by apply owned_unlink.
      * apply elem_of_owned. exists t. split; [|done]. set_solver.
Qed.

Lemma wf_log w cs :
  wf w -> check (owned (tw_list w)) cs = Some (owned (tw_list w)) -> wf (update w (tw_list w) cs).
Proof. intros. by apply wf_update. Qed.

Lemma check_free_all l :
  NoDup (map ti_timer l) -> check (owned l) (concat (map timer_free l)) = Some ∅.
Proof.
  induction l as [|t l IH]; [done|]. cbn [map concat]. intros Hnd.
  rewrite check_app, check_timer_free; [|apply elem_of_owned; exists t; set_solver].
  pose proof (owned_unlink [] t l Hnd) as E. simpl in E |- *. rewrite E. apply IH. by apply NoDup_cons in Hnd as [_ ?].
Qed.

Lemma find_addr_elem a l t :
  timer_find_by_addr a l = Some t -> t ∈ l /\ ti_timer t = a.
Proof.
  intros [Hin Ha]%List.find_some. apply Nat.eqb_eq in Ha. by rewrite list_elem_of_In.
Qed.

Lemma timer_find_name n l t : timer_find (Some n) l = Some t -> t ∈ l /\ ti_name t = n.
Proof. simpl. case_goal; [done|]. apply find_name_elem. Qed.

Lemma timer_find_fresh n l : n <> ""%string -> timer_find (Some n) l = None -> n ∉ map ti_name l.
Proof. intros Hn. simpl. apply streq_false in Hn. rewrite Hn. apply find_name_None. Qed.

Lemma wf_start m n wt it h w : wf w -> wf (fst (cwmp_timer_start m n wt it h w)).
Proof.
  intros Hw. unfold cwmp_timer_start. destruct n as [n|]; [|done].
  destruct (streq n "") eqn:En; [done|]. bool_prop.
  destruct (timer_find (Some n) (tw_list w)) as [t|] eqn:Ef.
  - apply timer_find_name in Ef as [Hin _]. apply wf_log; [done|].
    assert (ti_timer t ∈ owned (tw_list w)) by (apply elem_of_owned; eauto).
    simpl. by rewrite !decide_True by done.
  - destruct m; [|done]. apply timer_find_fresh in Ef; [|done].
    destruct Hw as [H1 H2 H3 H4 H5].
    assert (tw_next w ∉ map ti_timer (tw_list w)) as Hfresh.
    { intros (t & E & Ht)%list_elem_of_fmap. rewrite Forall_forall in H4. specialize (H4 t Ht). lia. }
    split; unfold timer_append; cbn [fst negb tw_list tw_next tw_calls].
    + rewrite map_app. apply NoDup_app. split; [done|]. split; [|apply NoDup_singleton]. set_solver.
    + apply Forall_app. by split; [|constructor].
    + rewrite map_app. apply NoDup_app. split; [done|]. split; [|apply NoDup_singleton]. set_solver.
    + apply Forall_app. split; [|by constructor; simpl; [lia|]]. eapply Forall_impl; [exact H4|]. simpl. lia.
    + rewrite check_app, H5, owned_app. simpl. rewrite decide_False by (unfold owned; by rewrite elem_of_list_to_set).
      destruct (negb (it =? 0)); simpl; rewrite !decide_True by set_solver; simpl;
        rewrite ?decide_True by set_solver; f_equal; rewrite owned_cons; cbn [ti_timer];
        unfold owned at 3; simpl; set_solver.
Qed.

Lemma wf_run_op o w : wf w -> wf (run_op o w).
Proof.
  intros Hw. destruct o as [m n wt it h|n|a|]; simpl.
  - by apply wf_start.
  - unfold cwmp_timer_stop. destruct n as [n|]; [|done].
    destruct (streq n "") eqn:En; [done|].
    destruct (timer_find (Some n) (tw_list w)) as [t|] eqn:Ef; [|done].
    apply wf_unlink, wf_log; [done|]. apply timer_find_name in Ef as [Hin _].
    simpl. by rewrite decide_True by (apply elem_of_owned; eauto).
  - destruct (timer_find_by_addr a (tw_list w)) as [t|] eqn:Ef; [|done].
    unfold timer_timeout_handler. rewrite Ef. destruct (ti_handler t) as [h|]; [|done].
    destruct (ti_interval t); [by apply wf_log|]. apply wf_log; [by apply wf_unlink|done].
  - apply wf_update; [done|apply sublist_nil_l|]. by apply check_free_all, wf_timers.
Qed.

Lemma wf_run os w : wf w -> wf (run os w).
Proof. apply run_invariant_all, wf_run_op. Qed.

(** The abstract view of the operations. *)
Lemma view_lookup n l t :
  NoDup (map ti_name l) -> t ∈ l -> ti_name t = n -> view l !! n = Some (ti_handler t, ti_interval t).
Proof.
  intros Hnd Ht <-. apply elem_of_list_to_map.
  - by rewrite <- list_fmap_compose.
  - apply list_elem_of_fmap. by exists t.
Qed.

Lemma view_lookup_None n l : n ∉ map ti_name l -> view l !! n = None.
Proof.
  intros Hn. apply not_elem_of_list_to_map_1. by rewrite <- list_fmap_compose.
Qed.

Lemma view_app l1 l2 : view (l1 ++ l2) = view l1 ∪ view l2.
Proof. unfold view. by rewrite map_app, list_to_map_app. Qed.

Lemma view_unlink n l : NoDup (map ti_name l) -> view (fst (timer_unlink n l)) = delete n (view l).
Proof.
  intros Hnd.
  destruct (timer_unlink_spec n l) as [[Hn ->]|(l1 & t & l2 & -> & Ht & Hn & ->)]; cbn [fst].
  - symmetry. by apply delete_id, view_lookup_None.
  - rewrite map_app in Hnd. apply NoDup_app in Hnd as (_ & Hd & [H2 _]%NoDup_cons).
    rewrite !view_app, delete_union, delete_id by by apply view_lookup_None.
    f_equal. unfold view. simpl. rewrite Ht, delete_insert_id; [done|].
    apply view_lookup_None. by rewrite <- Ht.
Qed.

Lemma view_start n wt it h w :
  wf w -> n <> ""%string ->
  view (tw_list (fst (cwmp_timer_start true (Some n) wt it h w))) = spec_start n it h (view (tw_list w)).
Proof.
  intros Hw Hn. unfold cwmp_timer_start, spec_start. rewrite (proj2 (streq_false n "") Hn).
  destruct (timer_find (Some n) (tw_list w)) as [t|] eqn:Ef.
  - apply timer_find_name in Ef as [Hin Ht].
    by rewrite (view_lookup n _ t) by (done || apply wf_names; done).
  - apply timer_find_fresh in Ef; [|done]. apply view_lookup_None in Ef. rewrite Ef.
    cbn [fst negb tw_list]. unfold timer_append. rewrite view_app.
    unfold view at 2. simpl. by rewrite <- insert_union_r, (right_id_L ∅ (∪)).
Qed.

Lemma view_stop n w :
  wf w -> n <> ""%string ->
  view (tw_list (fst (cwmp_timer_stop (Some n) w))) = delete n (view (tw_list w)).
Proof.
  intros Hw Hn. unfold cwmp_timer_stop. rewrite (proj2 (streq_false n "") Hn).
  destruct (timer_find (Some n) (tw_list w)) as [t|] eqn:Ef; cbn [fst].
  - simpl. rewrite <- view_unlink by by apply wf_names. by destruct (timer_unlink n (tw_list w)).
  - symmetry. by apply delete_id, view_lookup_None, timer_find_fresh.
Qed.

Lemma find_by_addr_unique l t :
  NoDup (map ti_timer l) -> t ∈ l -> timer_find_by_addr (ti_timer t) l = Some t.
Proof.
  induction l as [|u l IH]; intros Hnd Ht; [by apply elem_of_nil in Ht|].
  apply NoDup_cons in Hnd as [Hu Hnd]. simpl.
  apply elem_of_cons in Ht as [->|Ht]; [by rewrite Nat.eqb_refl|].
  destruct (Nat.eqb (ti_timer t) (ti_timer u)) eqn:E; [|by apply IH].
  apply Nat.eqb_eq in E. destruct Hu. rewrite <- E. apply list_elem_of_fmap. by exists t.
Qed.

Lemma view_fire t w :
  wf w -> t ∈ tw_list w -> ti_handler t <> None ->
  view (tw_list (run_op (OpFire (ti_timer t)) w)) =
    (if ti_interval t then view (tw_list w) else delete (ti_name t) (view (tw_list w))).
Proof.
  intros Hw Ht Hh. simpl. unfold timer_timeout_handler.
  rewrite (find_by_addr_unique _ _ (wf_timers _ Hw) Ht).
  destruct (ti_handler t); [|done]. destruct (ti_interval t); [done|]. simpl.
  rewrite <- view_unlink by by apply wf_names. by destruct (timer_unlink _ (tw_list w)).
Qed.

Lemma timer_start_last w n wt it h :
  n <> ""%string ->
  let w' := fst (cwmp_timer_start true (Some n) wt it h w) in
  exists t, timer_find (Some n) (tw_list w') = Some t /\
    last (tw_calls w') = Some (AmxpStart (ti_timer t) (millis wt)).
Proof.
  intros Hn. apply streq_false in Hn as Hn'. unfold cwmp_timer_start. rewrite Hn'.
  destruct (timer_find (Some n) (tw_list w)) as [t|] eqn:Ef.
  - exists t. split; [done|]. simpl. by rewrite last_app.
  - eexists. split.
    + simpl in *. rewrite Hn' in *. unfold timer_append. rewrite find_app, Ef. simpl. by rewrite streq_refl.
    + cbn [fst negb tw_calls]. by rewrite !app_assoc, last_snoc.
Qed.

(** ** Properties *)

(** C15: whatever sequence of starts, stops, expiries and remove-all calls the
    daemon performs, the event library is used correctly: no timer is used or
    deleted after its deletion, none is created twice, and at the end the live
    library timers are exactly those the list owns (nothing leaks). *)
Theorem timer_calls_disciplined (os : list op) :
  check ∅ (tw_calls (run os initial)) = Some (owned (tw_list (run os initial))).
Proof. apply wf_calls, wf_run, wf_initial. Qed.

(** C35: refinement of the list by a finite map keyed by the timer name.  In
    every reachable state [cwmp_timer_start] with memory adds the name if it is
    absent and otherwise leaves its handler and its interval mode untouched;
    [cwmp_timer_stop] deletes the name; the expiry of a one-shot timer deletes
    it and of an interval timer keeps it; remove-all empties the map. *)
Theorem timer_refines_map (os : list op) (n : string) (wt it : Z) (h : option handler)
    (t : timer_list_item) :
  let w := run os initial in
  n <> ""%string -> t ∈ tw_list w -> ti_handler t <> None ->
  view (tw_list (fst (cwmp_timer_start true (Some n) wt it h w))) = spec_start n it h (view (tw_list w)) /\
  view (tw_list (fst (cwmp_timer_stop (Some n) w))) = delete n (view (tw_list w)) /\
  view (tw_list (run_op (OpFire (ti_timer t)) w)) =
    (if ti_interval t then view (tw_list w) else delete (ti_name t) (view (tw_list w))) /\
  view (tw_list (run_op OpRemoveAll w)) = ∅.
Proof.
  intros w Hn Ht Hh. assert (Hw : wf w) by apply wf_run, wf_initial.
  pose proof (wf_names _ Hw) as Hnd.
  split; [by apply view_start|]. split; [by apply view_stop|]. split; [|done].
  by apply view_fire.
Qed.

Lemma timer_refines_map_witness :
  let w := run [OpStart true (Some "a"%string) 5 0 (Some 7%nat)] initial in
  let t := {| ti_timer := 0%nat; ti_name := "a"; ti_handler := Some 7%nat; ti_interval := false |} in
  view (tw_list (fst (cwmp_timer_start true (Some "b"%string) 1 1 None w)))
    = spec_start "b" 1 None (view (tw_list w)) /\
  view (tw_list (run_op (OpFire (ti_timer t)) w)) = delete "a"%string (view (tw_list w)).
Proof.
  pose proof (timer_refines_map [OpStart true (Some "a"%string) 5 0 (Some 7%nat)] "b" 1 1 None
    {| ti_timer := 0%nat; ti_name := "a"; ti_handler := Some 7%nat; ti_interval := false |}) as H.
  cbv zeta in H |- *.
  destruct H as (H1 & _ & H2 & _); [discriminate|by apply list_elem_of_here|discriminate|].
  split; [exact H1|exact H2].
Defined.

(** A successful [cwmp_timer_start] ends by arming the library timer the
    list holds under that name.  As long as [waitTime * 1000] fits an [int],
    a wait of at least zero seconds is armed with exactly its milliseconds; a
    negative wait is read as an unsigned number and arms the timer more than
    2^31 milliseconds (24 days) ahead instead of firing at once. *)
Theorem timer_start_arms (w : timer_world) (n : string) (wt it : Z) (h : option handler) :
  n <> ""%string -> - 2147483 <= wt <= 2147483 ->
  let w' := fst (cwmp_timer_start true (Some n) wt it h w) in
  exists t ms, timer_find (Some n) (tw_list w') = Some t /\
    last (tw_calls w') = Some (AmxpStart (ti_timer t) ms) /\
    (0 <= wt -> ms = wt * 1000) /\ (wt < 0 -> 2 ^ 31 < ms < 2 ^ 32).
Proof.
  intros Hn Hwt w'. destruct (timer_start_last w n wt it h Hn) as (t & Hf & Hl).
  exists t, (millis wt). split; [done|]. split; [done|]. unfold millis.
  rewrite s32_id by lia. split; intros Hs; [by rewrite u32_id; lia|rewrite u32_neg; lia].
Qed.

Lemma timer_start_arms_witness :
  exists t ms, timer_find (Some "a"%string)
      (tw_list (fst (cwmp_timer_start true (Some "a"%string) (-1) 0 None initial))) = Some t /\
    last (tw_calls (fst (cwmp_timer_start true (Some "a"%string) (-1) 0 None initial)))
      = Some (AmxpStart (ti_timer t) ms) /\
    (0 <= -1 -> ms = -1 * 1000) /\ (-1 < 0 -> 2 ^ 31 < ms < 2 ^ 32).
Proof. apply (timer_start_arms initial "a" (-1) 0 None); [discriminate|lia]. Defined.

End Timer.
