(* ===== verification/CString.v ===== *)
(** * CString: C strings as lists of characters

    Lists of [ascii] without the final NUL, and the functions of [string.h] and
    [ctype.h] that the parsers of the program use. *)

From Stdlib Require Import ZArith Lia Ascii.
From stdpp Require Import base list strings.
From S2P Require Import Prelude.

Module CString.

Definition cstr := list ascii.

Definition cs (s : string) : cstr := String.list_ascii_of_string s.

(** [strtok(s, sep)] and the calls that follow it: the non-empty pieces. *)
Fixpoint strtok (sep : ascii) (s cur : cstr) : list cstr :=
  let flush := match cur with [] => [] | _ => [cur] end in
  match s with
  | [] => flush
  | c :: s' => if Ascii.eqb c sep then flush ++ strtok sep s' [] else strtok sep s' (cur ++ [c])
  end.

(** [strchr(s, c)]: what comes before the character, and after it. *)
Fixpoint strchr (sep : ascii) (s : cstr) : option (cstr * cstr) :=
  match s with
  | [] => None
  | c :: s' =>
      if Ascii.eqb c sep then Some ([], s')
      else match strchr sep s' with Some (a, b) => Some (c :: a, b) | None => None end
  end.

Definition tolower (c : ascii) : ascii :=
  let n := Ascii.nat_of_ascii c in
  if Nat.leb 65 n && Nat.leb n 90 then Ascii.ascii_of_nat (n + 32) else c.

(** [isalpha] and [isalnum] of the C locale *)
Definition isalpha (c : ascii) : bool :=
  let n := Ascii.nat_of_ascii c in (Nat.leb 65 n && Nat.leb n 90) || (Nat.leb 97 n && Nat.leb n 122).

Definition isalnum (c : ascii) : bool :=
  let n := Ascii.nat_of_ascii c in isalpha c || (Nat.leb 48 n && Nat.leb n 57).

(** [strncasecmp(a, b, n) == 0] *)
Fixpoint strncasecmp0 (a b : cstr) (n : nat) {struct n} : bool :=
  match n with
  | O => true
  | S n' =>
      match a, b with
      | [], [] => true
      | x :: a', y :: b' => Ascii.eqb (tolower x) (tolower y) && strncasecmp0 a' b' n'
      | _, _ => false
      end
  end.

(** [strncmp(s, p, strlen(p)) == 0] *)
Fixpoint starts_with (p s : cstr) : bool :=
  match p, s with
  | [], _ => true
  | x :: p', y :: s' => Ascii.eqb x y && starts_with p' s'
  | _ :: _, [] => false
  end.

(** [strstr(s, p)]: the suffix that starts with [p]. *)
Fixpoint strstr (p s : cstr) : option cstr :=
  if starts_with p s then Some s
  else match s with [] => None | _ :: s' => strstr p s' end.

Definition contains (c : ascii) (s : cstr) : bool := existsb (Ascii.eqb c) s.

(** Printing with a separator between the pieces. *)
Fixpoint join (sep : ascii) (l : list cstr) : cstr :=
  match l with
  | [] => []
  | [a] => a
  | a :: l' => a ++ sep :: join sep l'
  end.

(** ** Lemmas *)

Lemma contains_elem c s : contains c s = true <-> c ∈ s.
Proof.
  unfold contains. rewrite existsb_exists. split.
  - intros (d & Hd & E). apply Ascii.eqb_eq in E as ->. by apply list_elem_of_In.
  - intros H. exists c. split; [by apply list_elem_of_In|apply Ascii.eqb_refl].
Qed.

Lemma strchr_app sep a b : sep ∉ a -> strchr sep (a ++ sep :: b) = Some (a, b).
Proof.
  induction a as [|c a IH]; intros Ha; simpl; [by rewrite Ascii.eqb_refl|].
  apply not_elem_of_cons in Ha as [Hc Ha]. destruct (Ascii.eqb c sep) eqn:E; [by apply Ascii.eqb_eq in E|].
  by rewrite IH.
Qed.

Lemma strchr_inv sep s a b : strchr sep s = Some (a, b) -> s = a ++ sep :: b /\ sep ∉ a.
Proof.
  revert a b. induction s as [|c s IH]; intros a b; simpl; [done|].
  destruct (Ascii.eqb c sep) eqn:E.
  - apply Ascii.eqb_eq in E as ->. intros [= <- <-]. split; [done|apply not_elem_of_nil].
  - destruct (strchr sep s) as [[a' b']|]; [|done]. intros [= <- <-].
    destruct (IH a' b' eq_refl) as [-> Ha]. split; [done|].
    apply not_elem_of_cons. split; [|done]. intros <-. by rewrite Ascii.eqb_refl in E.
Qed.

Lemma strncasecmp0_app n m a b : (n <= length a)%nat -> strncasecmp0 (a ++ b) m n = strncasecmp0 a m n.
Proof.
  revert m a. induction n as [|n IH]; intros m a Hn; [done|]. destruct a as [|x a]; simpl in *; [lia|].
  destruct m; [done|]. rewrite IH by lia. done.
Qed.

Lemma strtok_tokens sep s cur : sep ∉ cur -> Forall (fun t => sep ∉ t) (strtok sep s cur).
Proof.
  revert cur. induction s as [|c s IH]; intros cur Hc; simpl.
  - destruct cur; [constructor|by apply Forall_singleton].
  - destruct (Ascii.eqb c sep) eqn:E.
    + apply Forall_app. split; [destruct cur; [constructor|by apply Forall_singleton]|]. apply IH, not_elem_of_nil.
    + apply IH. rewrite not_elem_of_app, list_elem_of_singleton. split; [done|]. intros <-. by rewrite Ascii.eqb_refl in E.
Qed.

Lemma strtok_nonempty sep s cur : Forall (fun t => t <> []) (strtok sep s cur).
Proof.
  revert cur. induction s as [|c s IH]; intros cur; simpl.
  - destruct cur; [constructor|by apply Forall_singleton].
  - destruct (Ascii.eqb c sep); [|apply IH].
    apply Forall_app. split; [destruct cur; [constructor|by apply Forall_singleton]|apply IH].
Qed.

Lemma strtok_app_cur sep a s cur :
  sep ∉ a -> cur ++ a <> [] -> strtok sep (a ++ sep :: s) cur = (cur ++ a) :: strtok sep s [].
Proof.
  revert cur. induction a as [|c a IH]; intros cur Ha Hne; simpl.
  - rewrite Ascii.eqb_refl, app_nil_r in *. by destruct cur.
  - apply not_elem_of_cons in Ha as [Hc Ha]. destruct (Ascii.eqb c sep) eqn:E; [by apply Ascii.eqb_eq in E|].
    rewrite IH; rewrite <- ?app_assoc; done.
Qed.

Lemma strtok_app_sep sep a s : sep ∉ a -> a <> [] -> strtok sep (a ++ sep :: s) [] = a :: strtok sep s [].
Proof. intros Ha Hne. by apply (strtok_app_cur sep a s []). Qed.

Lemma strtok_last_cur sep a cur : sep ∉ a -> cur ++ a <> [] -> strtok sep a cur = [cur ++ a].
Proof.
  revert cur. induction a as [|c a IH]; intros cur Ha Hne; simpl.
  - rewrite app_nil_r in *. by destruct cur.
  - apply not_elem_of_cons in Ha as [Hc Ha]. destruct (Ascii.eqb c sep) eqn:E; [by apply Ascii.eqb_eq in E|].
    rewrite IH; rewrite <- ?app_assoc; done.
Qed.

Lemma strtok_last sep a : sep ∉ a -> a <> [] -> strtok sep a [] = [a].
Proof. intros Ha Hne. by apply (strtok_last_cur sep a []). Qed.

(** Cutting a joined text gives the pieces back. *)
Lemma strtok_join sep l :
  Forall (fun t => sep ∉ t) l -> Forall (fun t => t <> []) l -> strtok sep (join sep l) [] = l.
Proof.
  intros H1 H2. induction l as [|a l IH]; [done|].
  apply Forall_cons in H1 as [Ha H1]. apply Forall_cons in H2 as [Hn H2].
  destruct l as [|b l]; [by apply strtok_last|].
  change (join sep (a :: b :: l)) with (a ++ sep :: join sep (b :: l)).
  rewrite strtok_app_sep by done. by rewrite IH.
Qed.

(** A final separator adds nothing. *)
Lemma strtok_snoc_sep sep s cur : strtok sep (s ++ [sep]) cur = strtok sep s cur.
Proof.
  revert cur. induction s as [|c s IH]; intros cur; simpl.
  - rewrite Ascii.eqb_refl. simpl. by rewrite app_nil_r.
  - destruct (Ascii.eqb c sep); by rewrite IH.
Qed.

(** The pieces and the separators between them fit in the string. *)
Lemma strtok_length sep s cur :
  (sum_list_with length (strtok sep s cur) + (length (strtok sep s cur) - 1) <= length s + length cur)%nat.
Proof.
  revert cur. induction s as [|c s IH]; intros cur; simpl.
  - destruct cur; simpl; lia.
  - destruct (Ascii.eqb c sep).
    + specialize (IH []). rewrite sum_list_with_app, length_app. destruct cur; simpl in *; lia.
    + specialize (IH (cur ++ [c])). rewrite length_app in IH. simpl in IH. lia.
Qed.

Lemma cs_append (a b : string) : cs (String.append a b) = cs a ++ cs b.
Proof. induction a as [|c a IH]; [done|]. simpl. f_equal. exact IH. Qed.

Lemma cs_inj (a b : string) : cs a = cs b -> a = b.
Proof.
  intros H. rewrite <- (String.string_of_list_ascii_of_string a), <- (String.string_of_list_ascii_of_string b).
  unfold cs in H. by rewrite H.
Qed.

Lemma append_inj (a b c : string) : String.append a b = String.append a c -> b = c.
Proof. induction a as [|x a IH]; simpl; [done|]. intros [= H]. by apply IH. Qed.

Lemma append_inj_r (a b c : string) : String.append a c = String.append b c -> a = b.
Proof. intros H. apply (f_equal cs) in H. rewrite !cs_append in H. apply app_inj_2 in H as [H _]; [|done]. by apply cs_inj. Qed.

Lemma cs_of_chars (l : cstr) : cs (String.string_of_list_ascii l) = l.
Proof. apply String.list_ascii_of_string_of_list_ascii. Qed.

Lemma starts_with_elem c p s : starts_with p s = true -> c ∈ p -> c ∈ s.
Proof.
  revert s. induction p as [|x p IH]; intros [|y s]; simpl; intros H Hc; try done; [set_solver|].
  apply andb_true_iff in H as [E H]. apply Ascii.eqb_eq in E as ->.
  apply elem_of_cons in Hc as [->|Hc]; [by left|right; by apply IH].
Qed.

Lemma strstr_skip p x s : starts_with p (x :: s) = false -> strstr p (x :: s) = strstr p s.
Proof. intros H. cbn [strstr]. by rewrite H. Qed.

(** A text does not contain one with a character it does not have. *)
Lemma strstr_foreign c p s : c ∈ p -> c ∉ s -> strstr p s = None.
Proof.
  intros Hp. induction s as [|y s IH]; intros Hs; cbn [strstr].
  - destruct (starts_with p []) eqn:E; [|done]. by pose proof (starts_with_elem _ _ _ E Hp).
  - destruct (starts_with p (y :: s)) eqn:E; [by pose proof (starts_with_elem _ _ _ E Hp)|].
    apply IH. by apply not_elem_of_cons in Hs as [_ Hs].
Qed.

(** No occurrence of [q] begins inside [p], whatever follows [p]. *)
Fixpoint agree (a b : cstr) : bool :=
  match a, b with
  | x :: a', y :: b' => Ascii.eqb x y && agree a' b'
  | _, _ => true
  end.

Fixpoint misses (q p : cstr) : bool :=
  match p with
  | [] => true
  | _ :: p' => negb (agree q p) && misses q p'
  end.

Lemma agree_starts_with q p s : starts_with q (p ++ s) = true -> agree q p = true.
Proof.
  revert p. induction q as [|x q IH]; intros [|y p]; simpl; try done.
  intros [E H]%andb_true_iff. by rewrite E, IH.
Qed.

Lemma strstr_misses q p s : misses q p = true -> strstr q (p ++ s) = strstr q s.
Proof.
  induction p as [|x p IH]; [done|]. cbn [misses app]. intros [Ha Hm]%andb_true_iff.
  rewrite strstr_skip; [by apply IH|]. destruct (starts_with q (x :: p ++ s)) eqn:E; [|done].
  apply (agree_starts_with q (x :: p) s) in E. by rewrite E in Ha.
Qed.

End CString.
