(* ===== verification/CookieJar.v ===== *)
(** * CookieJar: the cookies of an ACS session ([src/src/dmmain/cwmpd_cookie.c])

    The jar is a list of named values.  [Set-Cookie] headers are cut with
    [strtok] and [strchr]; the C strings are lists of characters without the
    final NUL. *)

From Stdlib Require Import ZArith Lia Ascii.
From stdpp Require Import base list gmap strings.
From S2P Require Import Prelude CString.

Module CookieJar.

Import CString.

Record cookie_t := { c_name : cstr; c_value : cstr }.

Definition cookie_jar_t := list cookie_t.

Fixpoint skip_blanks (s : cstr) : cstr :=
  match s with
  | c :: s' => if Ascii.eqb c " " then skip_blanks s' else s
  | [] => []
  end.

(** ** The jar *)

(** [search_cookie] *)
Definition search_cookie (jar : cookie_jar_t) (name : cstr) : option cookie_t :=
  match name with
  | [] => None
  | _ => List.find (fun c => bool_decide (c_name c = name)) jar
  end.

(** [add_cookie] *)
Definition add_cookie (jar : cookie_jar_t) (name value : cstr) : cookie_jar_t :=
  match name with
  | [] => jar
  | _ => jar ++ [{| c_name := name; c_value := value |}]
  end.

(** [update_cookie] on the first cookie of that name. *)
Fixpoint update_cookie (jar : cookie_jar_t) (name value : cstr) : cookie_jar_t :=
  match jar with
  | [] => []
  | c :: jar' =>
      if bool_decide (c_name c = name) then {| c_name := name; c_value := value |} :: jar'
      else c :: update_cookie jar' name value
  end.

Definition attributes : list cstr := [cs "Path"; cs "Max-Age"; cs "Expires"; cs "SameSite"; cs "Domain"].

(** The body of the loop of [cwmpd_cookie_cookiejar_build] on one token;
    [None] is the [continue] that does not advance [tok]. *)
Definition build_token (jar : cookie_jar_t) (tok : cstr) : option cookie_jar_t :=
  match strchr "=" tok with
  | None => Some jar
  | Some (before, _) =>
      let start := skip_blanks tok in
      let blanks := (length tok - length start)%nat in
      let len := (length before - blanks)%nat in
      if Nat.ltb 0 len && forallb (fun a => negb (strncasecmp0 start a len)) attributes then
        match strchr "=" start with
        | None => None
        | Some (name, value) =>
            Some match search_cookie jar name with
                 | Some _ => update_cookie jar name value
                 | None => add_cookie jar name value
                 end
        end
      else Some jar
  end.

Fixpoint build_tokens (jar : cookie_jar_t) (toks : list cstr) : option cookie_jar_t :=
  match toks with
  | [] => Some jar
  | t :: toks' => match build_token jar t with Some jar' => build_tokens jar' toks' | None => None end
  end.

(** [cwmpd_cookie_cookiejar_build]: the new jar and the return value. *)
Definition cwmpd_cookie_cookiejar_build (jar : cookie_jar_t) (set_cookie_header : cstr) : option (cookie_jar_t * Z) :=
  match set_cookie_header with
  | [] => Some (jar, -1)
  | _ => match build_tokens jar (strtok ";" set_cookie_header []) with Some jar' => Some (jar', 0) | None => None end
  end.

(** [cwmpd_cookie_cookiejar_to_string]; [None] is the null pointer. *)
Definition cookie_text (c : cookie_t) : cstr := c_name c ++ "="%char :: c_value c.

Definition cwmpd_cookie_cookiejar_to_string (jar : cookie_jar_t) : option cstr :=
  match jar with
  | [] => None
  | _ => Some (foldl (fun acc c => match acc with
                                   | [] => cookie_text c
                                   | _ => acc ++ ";"%char :: cookie_text c
                                   end) [] jar)
  end.

(** ** Specification *)

(** The name and the value a token defines, if it defines a cookie. *)
Definition token_cookie (tok : cstr) : option (cstr * cstr) :=
  match strchr "=" tok with
  | None => None
  | Some (before, value) =>
      let name := skip_blanks before in
      if bool_decide (name = []) || existsb (fun a => strncasecmp0 name a (length name)) attributes then None
      else Some (name, value)
  end.

(** The jar as a finite map. *)
Definition jar_map (jar : cookie_jar_t) : gmap cstr cstr :=
  list_to_map (map (fun c => (c_name c, c_value c)) jar).

Definition add_token (m : gmap cstr cstr) (tok : cstr) : gmap cstr cstr :=
  match token_cookie tok with
  | Some (name, value) => <[name := value]> m
  | None => m
  end.

(** A jar the parser can produce: distinct, non-empty names without ["="] and
    without a leading blank that are not taken for an attribute. *)
Definition name_ok (n : cstr) : Prop :=
  n <> [] /\ "="%char ∉ n /\ ";"%char ∉ n /\ skip_blanks n = n /\
  existsb (fun a => strncasecmp0 n a (length n)) attributes = false.

Record jar_ok (jar : cookie_jar_t) : Prop := {
  jar_names : NoDup (map c_name jar);
  jar_name_ok : Forall (fun c => name_ok (c_name c)) jar;
  jar_values : Forall (fun c => ";"%char ∉ c_value c) jar;
}.

(** ** Lemmas *)

(** Blanks in front are dropped from the name, whatever follows it. *)
Lemma skip_blanks_spec s : exists n, s = repeat " "%char n ++ skip_blanks s /\ hd_error (skip_blanks s) <> Some " "%char.
Proof.
  induction s as [|c s (n & Hs & Hh)]; simpl; [by exists O|].
  destruct (Ascii.eqb c " ") eqn:E.
  - apply Ascii.eqb_eq in E as ->. exists (S n). simpl. by rewrite <- Hs.
  - exists O. split; [done|]. simpl. intros [= ->]. done.
Qed.

Lemma skip_blanks_app a b :
  hd_error b <> Some " "%char -> skip_blanks (a ++ b) = skip_blanks a ++ b.
Proof.
  intros Hb. induction a as [|c a IH]; simpl.
  - destruct b as [|c b]; [done|]. simpl in *. destruct (Ascii.eqb c " ") eqn:E; [|done].
    apply Ascii.eqb_eq in E. congruence.
  - destruct (Ascii.eqb c " "); [exact IH|done].
Qed.

Lemma skip_blanks_elem c s : c ∈ skip_blanks s -> c ∈ s.
Proof.
  induction s as [|d s IH]; simpl; [done|]. destruct (Ascii.eqb d " "); [|done].
  intros H. apply elem_of_cons. right. by apply IH.
Qed.

Lemma skip_blanks_length s : (length (skip_blanks s) <= length s)%nat.
Proof. induction s as [|c s IH]; simpl; [lia|]. destruct (Ascii.eqb c " "); simpl; lia. Qed.

(** A token is processed as [token_cookie] says; the loop never gets stuck. *)
Lemma build_token_spec jar tok :
  build_token jar tok = Some
    match token_cookie tok with
    | Some (name, value) =>
        match search_cookie jar name with
        | Some _ => update_cookie jar name value
        | None => add_cookie jar name value
        end
    | None => jar
    end.
Proof.
  unfold build_token, token_cookie. destruct (strchr "=" tok) as [[before value]|] eqn:E; [|done].
  apply strchr_inv in E as [-> Hb].
  assert (Hs : skip_blanks (before ++ "="%char :: value) = skip_blanks before ++ "="%char :: value) by (apply skip_blanks_app; discriminate).
  rewrite Hs. set (name := skip_blanks before).
  assert (Hlen : (length before - (length (before ++ "="%char :: value) - length (name ++ "="%char :: value)))%nat = length name).
  { rewrite !length_app. pose proof (skip_blanks_length before). unfold name. lia. }
  rewrite Hlen.
  assert (Hf : forallb (fun a => negb (strncasecmp0 (name ++ "="%char :: value) a (length name))) attributes =
    negb (existsb (fun a => strncasecmp0 name a (length name)) attributes)).
  { induction attributes as [|a l IH]; simpl; [done|]. by rewrite IH, strncasecmp0_app, negb_orb by lia. }
  rewrite Hf. destruct name as [|c name'] eqn:En; [done|]. cbn [length Nat.ltb Nat.leb andb].
  rewrite bool_decide_eq_false_2 by done. cbn [orb].
  destruct (existsb _ attributes); [done|]. cbn [negb]. rewrite strchr_app; [done|].
  intros Hin. apply Hb. apply skip_blanks_elem. fold name. by rewrite En.
Qed.

Lemma search_None jar name : name <> [] -> search_cookie jar name = None <-> name ∉ map c_name jar.
Proof.
  intros Hn. unfold search_cookie. destruct name as [|x name']; [done|]. set (n := x :: name').
  induction jar as [|c jar IH]; simpl; [split; [intros _; apply not_elem_of_nil|done]|].
  case_bool_decide as E; [subst n; split; [done|intros H; destruct H; rewrite E; left]|].
  rewrite IH, not_elem_of_cons. naive_solver.
Qed.

Lemma update_names jar name value : map c_name (update_cookie jar name value) = map c_name jar.
Proof. induction jar as [|c jar IH]; simpl; [done|]. case_bool_decide; simpl; congruence. Qed.

Lemma jar_map_cons c jar : jar_map (c :: jar) = <[c_name c := c_value c]> (jar_map jar).
Proof. done. Qed.

Lemma jar_map_update jar name value :
  name ∈ map c_name jar -> jar_map (update_cookie jar name value) = <[name := value]> (jar_map jar).
Proof.
  induction jar as [|c jar IH]; simpl; intros Hin; [by apply elem_of_nil in Hin|].
  case_bool_decide as E; rewrite !jar_map_cons; cbn [c_name c_value].
  - rewrite E. by rewrite insert_insert_eq.
  - apply elem_of_cons in Hin as [->|Hin]; [done|]. rewrite IH by done. by apply insert_insert_ne.
Qed.

Lemma jar_map_snoc jar c : c_name c ∉ map c_name jar -> jar_map (jar ++ [c]) = <[c_name c := c_value c]> (jar_map jar).
Proof.
  induction jar as [|d jar IH]; simpl; intros Hn; [done|].
  apply not_elem_of_cons in Hn as [Hd Hn]. rewrite !jar_map_cons, IH by done. by apply insert_insert_ne.
Qed.

(** The jar after one cookie. *)
Definition put (jar : cookie_jar_t) (name value : cstr) : cookie_jar_t :=
  match search_cookie jar name with
  | Some _ => update_cookie jar name value
  | None => add_cookie jar name value
  end.

Lemma jar_map_put jar name value : name <> [] -> jar_map (put jar name value) = <[name := value]> (jar_map jar).
Proof.
  intros Hn. unfold put. destruct (search_cookie jar name) eqn:E.
  - apply jar_map_update. destruct (decide (name ∈ map c_name jar)) as [|Hc]; [done|].
    apply (search_None jar name Hn) in Hc. congruence.
  - apply (search_None jar name Hn) in E. unfold add_cookie. destruct name; [done|]. by rewrite jar_map_snoc.
Qed.

Lemma token_cookie_inv tok name value :
  token_cookie tok = Some (name, value) ->
  name <> [] /\ exists before, tok = before ++ "="%char :: value /\ "="%char ∉ before /\ name = skip_blanks before /\
    existsb (fun a => strncasecmp0 name a (length name)) attributes = false.
Proof.
  unfold token_cookie. destruct (strchr "=" tok) as [[b v]|] eqn:E; [|done]. apply strchr_inv in E as [-> Hb].
  destruct (_ || _) eqn:Eo; [done|]. bool_prop. intros [= <- <-]. split; [done|]. by exists b.
Qed.

Lemma build_tokens_spec jar toks :
  build_tokens jar toks = Some (foldl (fun j t => match token_cookie t with Some (n, v) => put j n v | None => j end) jar toks).
Proof.
  revert jar. induction toks as [|t toks IH]; intros jar; [done|]. simpl. rewrite build_token_spec, IH.
  by destruct (token_cookie t) as [[n v]|].
Qed.

Lemma skip_blanks_idem s : skip_blanks (skip_blanks s) = skip_blanks s.
Proof. induction s as [|c s IH]; simpl; [done|]. destruct (Ascii.eqb c " ") eqn:E; [done|]. simpl. by rewrite E. Qed.

Lemma put_ok jar tok name value :
  jar_ok jar -> ";"%char ∉ tok -> token_cookie tok = Some (name, value) -> jar_ok (put jar name value).
Proof.
  intros [J1 J2 J3] Ht Hc. apply token_cookie_inv in Hc as (Hn & before & -> & Hb & -> & Ha).
  apply not_elem_of_app in Ht as [Ht1 Ht2]. apply not_elem_of_cons in Ht2 as [_ Ht2].
  set (name := skip_blanks before) in *.
  assert (Hok : name_ok name).
  { unfold name. split_and!; [done| | |apply skip_blanks_idem|done]; intros Hi%skip_blanks_elem; done. }
  unfold put. destruct (search_cookie jar name) as [found|] eqn:E.
  - split; [by rewrite update_names| |]; clear E found.
    + induction jar as [|c jar IH]; simpl; [done|]. apply Forall_cons in J2 as [? ?].
      apply NoDup_cons in J1 as [_ ?]. apply Forall_cons in J3 as [_ ?].
      case_bool_decide; constructor; auto.
    + clear J1 J2. induction jar as [|c jar IH]; simpl; [done|]. apply Forall_cons in J3 as [? ?].
      case_bool_decide; constructor; auto.
  - apply (search_None jar name Hn) in E. unfold add_cookie. destruct name as [|x name'] eqn:En; [done|]. rewrite <- En in *.
    split.
    + rewrite map_app. apply NoDup_app. split; [done|]. split; [|apply NoDup_singleton].
      intros y Hy Hy'. apply list_elem_of_singleton in Hy'. by subst y.
    + apply Forall_app. split; [done|]. by apply Forall_singleton.
    + apply Forall_app. split; [done|]. by apply Forall_singleton.
Qed.

(** *** Printing a jar and parsing it back *)

Lemma cookie_text_ne c : cookie_text c <> [].
Proof. unfold cookie_text. by destruct (c_name c). Qed.

Lemma cookie_text_nosep c : name_ok (c_name c) -> ";"%char ∉ c_value c -> ";"%char ∉ cookie_text c.
Proof.
  intros (_ & _ & H & _) Hv. unfold cookie_text. rewrite not_elem_of_app, not_elem_of_cons. by split_and!.
Qed.

Lemma token_cookie_text c : name_ok (c_name c) -> token_cookie (cookie_text c) = Some (c_name c, c_value c).
Proof.
  intros (Hn & He & _ & Hb & Ha). unfold token_cookie, cookie_text. rewrite strchr_app by done. rewrite Hb, Ha.
  by rewrite bool_decide_eq_false_2.
Qed.

(** The text of a non-empty jar. *)
Definition jar_text (jar : cookie_jar_t) : cstr := join ";" (map cookie_text jar).

Lemma to_string_text jar : jar <> [] -> cwmpd_cookie_cookiejar_to_string jar = Some (jar_text jar).
Proof.
  intros Hne. destruct jar as [|c jar]; [done|]. cbn [cwmpd_cookie_cookiejar_to_string]. f_equal. cbn [foldl].
  assert (H : forall jar acc, acc <> [] -> foldl (fun acc c => match acc with [] => cookie_text c
      | _ => acc ++ ";"%char :: cookie_text c end) acc jar =
      match jar with [] => acc | _ => acc ++ ";"%char :: jar_text jar end).
  { clear. induction jar as [|d jar IH]; intros acc Ha; [done|]. cbn [foldl].
    destruct acc as [|x acc]; [done|]. rewrite IH by done. destruct jar as [|d' jar]; [done|].
    by rewrite <- app_assoc. }
  rewrite H by apply cookie_text_ne. by destruct jar.
Qed.

Lemma strtok_jar_text jar : jar_ok jar -> strtok ";" (jar_text jar) [] = map cookie_text jar.
Proof.
  intros [_ H1 H2]. apply strtok_join.
  - apply Forall_forall. intros t (c & -> & Hc)%list_elem_of_fmap.
    rewrite Forall_forall in H1, H2. by apply cookie_text_nosep; [apply H1|apply H2].
  - apply Forall_forall. intros t (c & -> & Hc)%list_elem_of_fmap. apply cookie_text_ne.
Qed.

Lemma put_fresh jar c : jar_ok (jar ++ [c]) -> put jar (c_name c) (c_value c) = jar ++ [c].
Proof.
  intros [H1 H2 _]. apply Forall_app in H2 as [_ Hc]. rewrite Forall_singleton in Hc.
  rewrite map_app in H1. apply NoDup_app in H1 as (_ & Hd & _).
  assert (Hne : c_name c <> []) by apply Hc.
  assert (Hs : search_cookie jar (c_name c) = None).
  { apply search_None; [done|]. intros Hin. apply (Hd _ Hin). by apply list_elem_of_singleton. }
  unfold put, add_cookie. rewrite Hs. destruct c as [n v]. simpl in *. by destruct n.
Qed.

Lemma jar_ok_app jar1 jar2 : jar_ok (jar1 ++ jar2) -> jar_ok jar1.
Proof.
  intros [H1 H2 H3]. rewrite map_app in H1. apply NoDup_app in H1 as (? & _).
  apply Forall_app in H2 as [? _]. apply Forall_app in H3 as [? _]. by split.
Qed.

Lemma replay_jar jar :
  jar_ok jar ->
  foldl (fun j t => match token_cookie t with Some (n, v) => put j n v | None => j end) [] (map cookie_text jar) = jar.
Proof.
  induction jar as [|c jar IH] using rev_ind; [done|]. intros Hok.
  rewrite map_app, foldl_app, IH by by eapply jar_ok_app. simpl.
  rewrite token_cookie_text; [by apply put_fresh|].
  destruct Hok as [_ H _]. apply Forall_app in H as [_ H]. by rewrite Forall_singleton in H.
Qed.

(** ** Properties *)

(** C39: parsing a [Set-Cookie] header always terminates and implements the
    finite map: every token that defines a cookie, in order, sets its name to
    its value, the other tokens change nothing; names stay distinct, non-empty
    and free of separators. *)
Theorem build_refines_map (jar : cookie_jar_t) (header : cstr) :
  jar_ok jar ->
  exists jar', cwmpd_cookie_cookiejar_build jar header = Some (jar', if bool_decide (header = []) then -1 else 0) /\
    jar_map jar' = foldl add_token (jar_map jar) (strtok ";" header []) /\ jar_ok jar'.
Proof.
  intros Hok. unfold cwmpd_cookie_cookiejar_build. destruct header as [|x h] eqn:Eh; [by exists jar|].
  rewrite <- Eh. rewrite bool_decide_eq_false_2 by (by rewrite Eh). rewrite build_tokens_spec. eexists. split; [done|].
  assert (Ht : Forall (fun t => ";"%char ∉ t) (strtok ";" header [])) by apply strtok_tokens, not_elem_of_nil.
  clear Eh x h. revert jar Hok. induction Ht as [|t toks Ht _ IH]; intros jar Hok; [done|]. simpl.
  destruct (token_cookie t) as [[n v]|] eqn:E.
  - destruct (IH (put jar n v)) as [H1 H2]; [by eapply put_ok|]. split; [|done]. rewrite H1. f_equal.
    unfold add_token. rewrite E. apply jar_map_put. by apply token_cookie_inv in E as [? _].
  - destruct (IH jar Hok) as [H1 H2]. split; [|done]. rewrite H1. unfold add_token. by rewrite E.
Qed.

Lemma jar_ok_nil : jar_ok [].
Proof. split; constructor. Qed.

Lemma build_refines_map_witness :
  exists jar', cwmpd_cookie_cookiejar_build [] (cs " id=1; Path=/; id=2;k=v") = Some (jar', 0) /\
    jar_map jar' = foldl add_token (jar_map []) (strtok ";" (cs " id=1; Path=/; id=2;k=v") []) /\
    jar' = [{| c_name := cs "id"; c_value := cs "2" |}; {| c_name := cs "k"; c_value := cs "v" |}].
Proof.
  destruct (build_refines_map [] (cs " id=1; Path=/; id=2;k=v") jar_ok_nil) as (jar' & H1 & H2 & _).
  exists jar'. split; [exact H1|]. split; [exact H2|]. vm_compute in H1. injection H1 as <-. reflexivity.
Defined.

(** C18: round trip.  The text that a jar with cookies is sent as, parsed into an
    empty jar, gives the same cookies in the same order.  It holds for every jar
    with the invariant of the parser, which every jar made of headers has
    ([build_refines_map]). *)
Theorem to_string_build (jar : cookie_jar_t) :
  jar_ok jar -> jar <> [] ->
  exists text, cwmpd_cookie_cookiejar_to_string jar = Some text /\
    cwmpd_cookie_cookiejar_build [] text = Some (jar, 0).
Proof.
  intros Hok Hne. exists (jar_text jar). split; [by apply to_string_text|].
  unfold cwmpd_cookie_cookiejar_build. destruct (jar_text jar) as [|x t] eqn:E.
  - pose proof (strtok_jar_text jar Hok) as H. rewrite E in H. by destruct jar.
  - rewrite <- E, build_tokens_spec, strtok_jar_text by done. by rewrite replay_jar.
Qed.

Lemma to_string_build_witness :
  exists text, cwmpd_cookie_cookiejar_to_string [{| c_name := cs "id"; c_value := cs "2" |}] = Some text /\
    cwmpd_cookie_cookiejar_build [] text = Some ([{| c_name := cs "id"; c_value := cs "2" |}], 0).
Proof.
  apply to_string_build; [|discriminate]. split.
  - apply NoDup_singleton.
  - apply Forall_singleton. split_and!; [discriminate|apply (bool_decide_unpack _); vm_compute; exact I|
      apply (bool_decide_unpack _); vm_compute; exact I|reflexivity|reflexivity].
  - apply Forall_singleton. apply (bool_decide_unpack _). vm_compute. exact I.
Defined.

(** The attribute test compares only as many characters as the name of the
    cookie has.  A cookie whose name is a non-empty prefix, in any case, of an
    attribute name ("s", "p", "dom", "EXP") is never stored. *)
Theorem attribute_prefix_dropped (jar : cookie_jar_t) (name value attribute : cstr) :
  In attribute attributes -> name <> [] -> strncasecmp0 name attribute (length name) = true ->
  skip_blanks name = name -> "="%char ∉ name -> ";"%char ∉ name -> ";"%char ∉ value ->
  cwmpd_cookie_cookiejar_build jar (name ++ "="%char :: value) = Some (jar, 0).
Proof.
  intros Ha Hn Hp Hb He Hs Hv. unfold cwmpd_cookie_cookiejar_build.
  destruct (name ++ "="%char :: value) as [|x t] eqn:E; [by destruct name|]. rewrite <- E.
  rewrite strtok_last; [|rewrite not_elem_of_app, not_elem_of_cons; by split_and!|by rewrite E].
  rewrite build_tokens_spec. simpl. unfold token_cookie. rewrite strchr_app by done. rewrite Hb.
  rewrite (bool_decide_eq_false_2 _ Hn). cbn [orb].
  assert (existsb (fun a => strncasecmp0 name a (length name)) attributes = true) as ->; [|done].
  apply existsb_exists. by exists attribute.
Qed.

Lemma attribute_prefix_dropped_witness :
  cwmpd_cookie_cookiejar_build [] (cs "s=1") = Some ([], 0).
Proof.
  apply (attribute_prefix_dropped [] (cs "s") (cs "1") (cs "SameSite")).
  - right; right; right; left; reflexivity.
  - discriminate.
  - reflexivity.
  - reflexivity.
  - apply (bool_decide_unpack _). vm_compute. exact I.
  - apply (bool_decide_unpack _). vm_compute. exact I.
  - apply (bool_decide_unpack _). vm_compute. exact I.
Defined.

(** ** Interface

    What the HTTP client needs of a store of cookies: the text of any
    [Set-Cookie] header can be added, and an empty store sends no header. *)

Class CookieStore (J : Type) := {
  no_cookies : J;
  add_cookies : J -> cstr -> option J;
  cookie_header : J -> option cstr;
  add_cookies_total : forall j s, is_Some (add_cookies j s);
  no_cookies_header : cookie_header no_cookies = None;
}.

Lemma build_total (jar : cookie_jar_t) (s : cstr) : is_Some (fst <$> cwmpd_cookie_cookiejar_build jar s).
Proof.
  unfold cwmpd_cookie_cookiejar_build. destruct s as [|c s]; [by eexists|]. rewrite build_tokens_spec.
  by eexists.
Qed.

#[export] Instance jar_store : CookieStore cookie_jar_t := {
  no_cookies := [];
  add_cookies jar s := fst <$> cwmpd_cookie_cookiejar_build jar s;
  cookie_header := cwmpd_cookie_cookiejar_to_string;
  add_cookies_total := build_total;
  no_cookies_header := eq_refl;
}.

End CookieJar.
