(* ===== verification/Client.v ===== *)
(** * Client: the HTTP client of cwmpd ([src/src/dmmain/cwmpd_client.c])

    The engine hands SOAP messages to the client, which posts them to the ACS
    with libwebsockets and returns the answers to the engine.  The file statics
    are the record [client]: the server ([server]), the data of the current
    session ([session]) and what outlives it.  The callbacks of the library are
    the constructors of [event]; what the library, the clock and the data model
    answer is in their arguments.  Calls into the engine and the library are
    recorded in [calls].  The cookies are any store with the interface
    [CookieStore] of the file CookieJar, which the jar of the daemon implements.

    A value read with [DM_ENG_GetManagementServerValue] is [None] when the
    return code is not zero.  [None] as the result of a whole operation is
    undefined behaviour of the C code: a write past a buffer or the use of a
    null or freed pointer.  The model covers the client from a successful
    [cwmp_client_init] to [cwmp_client_stop]: the context of the library exists. *)

From Stdlib Require Import ZArith Lia Ascii.
From stdpp Require Import base list strings.
From S2P Require Import Prelude CString CookieJar.
Import CString CookieJar.

Module Client.

Definition DEFAULT_SESSION_TIMEOUT : Z := 45.
Definition HTTP_OK : Z := 200.
Definition HTTP_NO_CONTENT : Z := 204.
Definition HTTP_STATUS_UNAUTHORIZED : Z := 401.

(** The results of the callbacks *)
Inductive http_callback := CONTINUE | ERROR | SKIP.

Inductive cwmp_status := cwmp_status_ok | cwmp_status_ko.

(** ** Data *)

(** [auth_t] *)
Inductive auth_t := auth_basic | auth_digest | auth_unsupported | auth_none.

#[export] Instance auth_eq_dec : EqDecision auth_t.
Proof. solve_decision. Defined.

(** A value of the data model *)
Definition dm_value := option cstr.

Record server := {
  acs_server_host : option cstr;
  acs_server_ip : option cstr;
  acs_server_port : Z;
  acs_server_path : option cstr;
  acs_server_scheme : option cstr;
}.

Section Client.

(** The store of cookies *)
Context {J : Type} `{!CookieStore J}.

Record session := {
  auth_type : auth_t;
  http_status : Z;
  rcv_buf : option cstr;
  rcv_buf_len : nat;
  pending_msg : option cstr;
  jar : option J;
  auth_hdr : option cstr;
  connected : bool;
}.

(** The flags of [lws_connect_info.ssl_connection] *)
Record ssl_flags := {
  use_ssl : bool;
  skip_hostname_check : bool;
  allow_selfsigned : bool;
  allow_expired : bool;
}.

(** The pointer [lws_connect_info.path]: null, that of [acs_server_path], that
    of an earlier [acs_server_path], which nothing frees, or freed *)
Inductive path_ptr := PathNull | PathServer | PathReplaced (path : cstr) | PathFreed.

#[export] Instance path_ptr_eq_dec : EqDecision path_ptr.
Proof. solve_decision. Defined.

(** [lws_connect_info] once [cwmp_client_prepare_session] has filled it; before
    that it is zero, the context included. *)
Record connect_info_t := {
  ci_port : Z;
  ci_path : path_ptr;
  ci_ssl_connection : ssl_flags;
}.

(** The headers of a request *)
Inductive header :=
| UserAgent
| ContentLength (n : nat)
| Cookie (s : cstr)
| Authorization (s : cstr)
| ContentType
| SoapAction.

Inductive call :=
| CloseACSSession (success : bool)
| TimerStart (name : string) (wait interval : Z)
| Connect (host : cstr)
| CloseWsi
| RequestHeaders (hs : list header)
| RequestBody (s : cstr)
| ParseSoap (s : cstr)
| SetAcsIp (ip : option cstr)
| UpdateRetryBuffer (msg : cstr)
| UpdateQosInfo (enable : bool) (ip : option cstr) (port : Z)
| DnsResolve.

Record client := {
  cl_server : server;
  cl_session : session;
  connect_info : option connect_info_t;
  session_timeout : Z;
  qos_info_dst_ip : option cstr;
  qos_info_dst_port : Z;
  calls : list call;
}.

Definition no_server : server :=
  {| acs_server_host := None; acs_server_ip := None; acs_server_port := -1;
     acs_server_path := None; acs_server_scheme := None |}.

Definition no_session : session :=
  {| auth_type := auth_none; http_status := 0; rcv_buf := None; rcv_buf_len := 0; pending_msg := None;
     jar := None; auth_hdr := None; connected := false |}.

Definition initial : client :=
  {| cl_server := no_server; cl_session := no_session; connect_info := None; session_timeout := 0;
     qos_info_dst_ip := None; qos_info_dst_port := -1; calls := [] |}.

Definition log (c : call) (w : client) : client :=
  {| cl_server := cl_server w; cl_session := cl_session w; connect_info := connect_info w;
     session_timeout := session_timeout w; qos_info_dst_ip := qos_info_dst_ip w;
     qos_info_dst_port := qos_info_dst_port w; calls := calls w ++ [c] |}.

Definition with_server (s : server) (w : client) : client :=
  {| cl_server := s; cl_session := cl_session w; connect_info := connect_info w;
     session_timeout := session_timeout w; qos_info_dst_ip := qos_info_dst_ip w;
     qos_info_dst_port := qos_info_dst_port w; calls := calls w |}.

Definition with_session (s : session) (w : client) : client :=
  {| cl_server := cl_server w; cl_session := s; connect_info := connect_info w;
     session_timeout := session_timeout w; qos_info_dst_ip := qos_info_dst_ip w;
     qos_info_dst_port := qos_info_dst_port w; calls := calls w |}.

Definition with_connect_info (i : option connect_info_t) (t : Z) (w : client) : client :=
  {| cl_server := cl_server w; cl_session := cl_session w; connect_info := i;
     session_timeout := t; qos_info_dst_ip := qos_info_dst_ip w;
     qos_info_dst_port := qos_info_dst_port w; calls := calls w |}.

Definition with_qos (ip : option cstr) (port : Z) (w : client) : client :=
  {| cl_server := cl_server w; cl_session := cl_session w; connect_info := connect_info w;
     session_timeout := session_timeout w; qos_info_dst_ip := ip; qos_info_dst_port := port;
     calls := calls w |}.

Definition set_ip (ip : option cstr) (w : client) : client :=
  let s := cl_server w in
  with_server {| acs_server_host := acs_server_host s; acs_server_ip := ip;
                 acs_server_port := acs_server_port s; acs_server_path := acs_server_path s;
                 acs_server_scheme := acs_server_scheme s |} w.

Definition set_auth (t : auth_t) (h : option cstr) (w : client) : client :=
  let s := cl_session w in
  with_session {| auth_type := t; http_status := http_status s; rcv_buf := rcv_buf s;
                  rcv_buf_len := rcv_buf_len s; pending_msg := pending_msg s; jar := jar s;
                  auth_hdr := h; connected := connected s |} w.

Definition set_buffer (b : option cstr) (n : nat) (w : client) : client :=
  let s := cl_session w in
  with_session {| auth_type := auth_type s; http_status := http_status s; rcv_buf := b;
                  rcv_buf_len := n; pending_msg := pending_msg s; jar := jar s;
                  auth_hdr := auth_hdr s; connected := connected s |} w.

Definition set_pending (m : option cstr) (w : client) : client :=
  let s := cl_session w in
  with_session {| auth_type := auth_type s; http_status := http_status s; rcv_buf := rcv_buf s;
                  rcv_buf_len := rcv_buf_len s; pending_msg := m; jar := jar s;
                  auth_hdr := auth_hdr s; connected := connected s |} w.

Definition set_status (st : Z) (w : client) : client :=
  let s := cl_session w in
  with_session {| auth_type := auth_type s; http_status := st; rcv_buf := rcv_buf s;
                  rcv_buf_len := rcv_buf_len s; pending_msg := pending_msg s; jar := jar s;
                  auth_hdr := auth_hdr s; connected := connected s |} w.

Definition set_jar (j : option J) (w : client) : client :=
  let s := cl_session w in
  with_session {| auth_type := auth_type s; http_status := http_status s; rcv_buf := rcv_buf s;
                  rcv_buf_len := rcv_buf_len s; pending_msg := pending_msg s; jar := j;
                  auth_hdr := auth_hdr s; connected := connected s |} w.

Definition set_connected (w : client) : client :=
  let s := cl_session w in
  with_session {| auth_type := auth_type s; http_status := http_status s; rcv_buf := rcv_buf s;
                  rcv_buf_len := rcv_buf_len s; pending_msg := pending_msg s; jar := jar s;
                  auth_hdr := auth_hdr s; connected := true |} w.

(** [lws_b64_encode_string (s, n)] into a buffer of that size: the text, or
    [None] on failure *)
Context (b64_encode : cstr -> nat -> option cstr).
(** [DM_COM_GenerateDigestResponse_MD5] on the challenge, the nonce of the
    client, the path, the user name and the password *)
Context (digest_response : cstr -> cstr -> option cstr -> cstr -> cstr -> option cstr).
(** [DM_ENG_Mapping_smm_translate] for messages received and sent, and
    [DM_HttpCheckNamespace] *)
Context (translate : bool -> cstr -> cstr) (check_namespace : cstr -> cstr).
(** [DM_COM_ENV_TAG] *)
Context (env_tag : cstr).
(** [is_ipaddr] on a non-null string, and the fields of a CSV string *)
Context (is_ipaddr : cstr -> bool) (csv_fields : cstr -> list cstr).

(** ** Authentication *)

Definition hdr_size (len : nat) : nat := (6 + (4 * (len + 2)) / 3 + 2)%nat.

(** [cwmp_client_auth_basic], when its two allocations succeed *)
Definition cwmp_client_auth_basic (username passwd : cstr) : option cstr :=
  let len := (length username + length passwd + 1)%nat in
  let credentials := username ++ ":"%char :: passwd in
  match b64_encode credentials (hdr_size len - 6) with
  | Some encoded => Some (firstn (hdr_size len - 1) (cs "Basic " ++ encoded))
  | None => None
  end.

(** The credentials of the data model *)
Record credentials := { dm_username : dm_value; dm_password : dm_value }.

(** [cwmp_client_gen_auth_hdr]; [cnonce] is the random string. *)
Definition cwmp_client_gen_auth_hdr (type : auth_t) (auth_d cnonce : cstr) (c : credentials)
    (w : client) : client * cwmp_status :=
  match dm_username c, dm_password c with
  | Some username, Some passwd =>
      let h :=
        match type with
        | auth_basic => cwmp_client_auth_basic username passwd
        | auth_digest =>
            digest_response auth_d cnonce (acs_server_path (cl_server w)) username passwd
        | _ => None
        end in
      (set_auth (auth_type (cl_session w)) h w, if is_null h then cwmp_status_ko else cwmp_status_ok)
  | _, _ => (w, cwmp_status_ko)
  end.

Definition AUTH_D_SIZE : nat := 512.

(** [cwmp_client_get_authentication_hdr].  The length of the header is passed
    to [lws_hdr_copy] as the size of the buffer [auth_d], whatever the size of
    the buffer is. *)
Definition cwmp_client_get_authentication_hdr (www_authenticate cnonce : cstr) (copy_ok : bool)
    (c : credentials) (w : client) : option client :=
  let w := set_auth auth_unsupported (auth_hdr (cl_session w)) w in
  if negb copy_ok then Some w
  else if Nat.ltb AUTH_D_SIZE (length www_authenticate + 1) then None
  else
    let type :=
      if is_null (strstr (cs "Basic") www_authenticate) then
        if is_null (strstr (cs "Digest") www_authenticate) then auth_unsupported else auth_digest
      else auth_basic in
    let w := set_auth type (auth_hdr (cl_session w)) w in
    Some (cwmp_client_gen_auth_hdr type www_authenticate cnonce c w).1.

(** ** Callbacks of the connection *)

Definition cwmp_client_sessionTimedOut (w : client) : client := log (CloseACSSession false) w.

Definition cwmp_client_connection_error_cb (w : client) : client * http_callback :=
  (log (CloseACSSession false) w, CONTINUE).

Definition cwmp_client_new_wsi_cb (w : client) : client * http_callback :=
  (set_buffer None 0 w, CONTINUE).

(** [cwmp_client_handle_cookies].  [None]: the loop that adds the cookies does
    not end. *)
Definition cwmp_client_handle_cookies (set_cookie : cstr) (malloc_ok : bool) (w : client)
    : option (client * http_callback) :=
  match set_cookie with
  | [] => Some (w, CONTINUE)
  | _ =>
      if negb malloc_ok then Some (w, ERROR)
      else
        let j := default no_cookies (jar (cl_session w)) in
        match add_cookies j set_cookie with
        | Some j => Some (set_jar (Some j) w, CONTINUE)
        | None => None
        end
  end.

(** The response the library hands to the established callback *)
Record response := {
  r_status : Z;
  r_www_authenticate : cstr;
  r_copy_ok : bool;
  r_cnonce : cstr;
  r_set_cookie : cstr;
  r_malloc_ok : bool;
}.

(** [cwmp_client_connection_established_cb]; [ready_to_close] is
    [DM_ENG_IsReadyToClose && DM_COM_EmptyHTTPPostSent]. *)
Definition cwmp_client_connection_established_cb (r : response) (c : credentials)
    (ready_to_close : bool) (w : client) : option (client * http_callback) :=
  let w := set_status (r_status r) w in
  if r_status r =? HTTP_NO_CONTENT then
    let w := if ready_to_close then log CloseWsi w else w in
    Some (set_pending None w, CONTINUE)
  else if r_status r =? HTTP_STATUS_UNAUTHORIZED then
    match cwmp_client_get_authentication_hdr (r_www_authenticate r) (r_cnonce r) (r_copy_ok r) c w with
    | Some w => Some (log CloseWsi w, CONTINUE)
    | None => None
    end
  else if r_status r =? HTTP_OK then
    let w :=
      if connected (cl_session w) then w
      else log (SetAcsIp (acs_server_ip (cl_server w))) (set_connected w) in
    cwmp_client_handle_cookies (r_set_cookie r) (r_malloc_ok r) w
  else Some (w, CONTINUE).

(** [cwmp_client_recieve_raw_cb]: [lws_http_client_read] hands what it has read
    to [cwmp_client_receive_http_cb]; that is an event of its own. *)
Definition cwmp_client_recieve_raw_cb (read_ok : bool) (w : client) : client * http_callback :=
  (w, if read_ok then SKIP else ERROR).

(** [cwmp_client_receive_http_cb]: [alloc_ok] is the outcome of [malloc] or
    [realloc]; a failed [realloc] leaves a null pointer.  A new buffer has room
    for the chunk only, but is written from [rcv_buf_len] on. *)
Definition cwmp_client_receive_http_cb (msg : cstr) (alloc_ok : bool) (w : client)
    : option (client * http_callback) :=
  let s := cl_session w in
  if negb alloc_ok then Some (set_buffer None (rcv_buf_len s) w, ERROR)
  else
    let grown (buf : cstr) :=
      Some (set_buffer (Some (firstn (rcv_buf_len s) buf ++ msg)) (rcv_buf_len s + length msg) w, SKIP) in
    match rcv_buf s with
    | Some buf => grown buf
    | None => if Nat.eqb (rcv_buf_len s) 0 then grown [] else None
    end.

(** [cwmp_client_http_complete_cb]; [soap_ok] is
    [DM_AnalyseSoapMessage (...) == DM_OK].  [strstr] takes no null pointer. *)
Definition cwmp_client_http_complete_cb (soap_ok : bool) (w : client) : option (client * http_callback) :=
  if http_status (cl_session w) =? HTTP_OK then
    match rcv_buf (cl_session w) with
    | None => None
    | Some buf =>
        if is_null (strstr env_tag buf) then Some (w, CONTINUE)
        else
          let msg := check_namespace (translate true buf) in
          let w := set_buffer (Some msg) (length msg) w in
          Some (if soap_ok then log (ParseSoap msg) w else log (CloseACSSession false) w, CONTINUE)
    end
  else Some (w, CONTINUE).

(** The headers [cwmp_client_handshake_cb] adds, in order *)
Definition request_headers (s : session) (msg : cstr) : list header :=
  [UserAgent; ContentLength (length msg)]
  ++ (match jar s ≫= cookie_header with Some c => [Cookie c] | None => [] end)
  ++ (match auth_hdr s with Some h => [Authorization h] | None => [] end)
  ++ (if Nat.ltb 0 (length msg) then [ContentType; SoapAction] else []).

(** [cwmp_client_handshake_cb]; [fits h] tells whether the library can add the
    header. *)
Definition cwmp_client_handshake_cb (fits : header -> bool) (w : client) : client * http_callback :=
  match pending_msg (cl_session w) with
  | None => (w, ERROR)
  | Some msg =>
      let hs := request_headers (cl_session w) msg in
      if forallb fits hs then (log (RequestHeaders hs) w, CONTINUE) else (w, ERROR)
  end.

Definition cwmp_client_http_writable_cb (w : client) : client * http_callback :=
  match pending_msg (cl_session w) with
  | Some msg => (log (RequestBody msg) w, CONTINUE)
  | None => (w, CONTINUE)
  end.

(** [cwmp_client_connection_closed_cb] *)
Definition cwmp_client_connection_closed_cb (w : client) : client * http_callback :=
  let s := cl_session w in
  let w :=
    if http_status s =? HTTP_NO_CONTENT then log (CloseACSSession true) w
    else if http_status s =? HTTP_STATUS_UNAUTHORIZED then
      if negb (bool_decide (auth_type s = auth_unsupported)) && negb (is_null (auth_hdr s))
      then log (TimerStart "cwmp_client_auth_retry" 0 0) w
      else log (CloseACSSession false) w
    else if negb (http_status s =? HTTP_OK) then log (CloseACSSession false) w
    else w in
  (w, CONTINUE).

(** ** Sending *)

(** What [lws_client_connect_via_info] reads of [lws_connect_info] is there: the
    structure has been filled, and its path has not been freed. *)
Definition connect_info_usable (w : client) : bool :=
  match connect_info w with
  | Some i => negb (bool_decide (ci_path i = PathFreed))
  | None => false
  end.

(** [DM_SendHttpMessage] once [pending_msg] is set *)
Definition send_pending (connect_ok : bool) (w : client) : option (client * Z) :=
  match acs_server_host (cl_server w) with
  | None => Some (w, -1)
  | Some host =>
      if negb (connect_info_usable w) then None
      else
        let w := log (Connect host) w in
        if negb connect_ok then Some (set_pending None w, -1)
        else Some (log (TimerStart "Session-timer" (session_timeout w) 0) w, 0)
  end.

(** [DM_SendHttpMessage] on a message of the engine *)
Definition DM_SendHttpMessage (soap_msg : option cstr) (connect_ok : bool) (w : client) : option (client * Z) :=
  match soap_msg with
  | None => Some (w, -1)
  | Some msg =>
      send_pending connect_ok
        (log (UpdateRetryBuffer msg) (set_pending (Some (translate false msg)) w))
  end.

(** [cwmp_client_auth_retry]: [DM_SendHttpMessage] on [pending_msg] itself *)
Definition cwmp_client_auth_retry (connect_ok : bool) (w : client) : option client :=
  match pending_msg (cl_session w) with
  | None => Some w
  | Some _ => fst <$> send_pending connect_ok w
  end.

(** The pointer [lws_connect_info.path] when [acs_server_path] is freed, and
    when another string takes its place *)
Definition path_freed (p : path_ptr) : path_ptr :=
  match p with PathServer => PathFreed | _ => p end.

Definition path_replaced (old : option cstr) (p : path_ptr) : path_ptr :=
  match p with PathServer => match old with Some s => PathReplaced s | None => PathNull end | _ => p end.

Definition with_path (f : path_ptr -> path_ptr) (w : client) : client :=
  with_connect_info
    ((fun i => {| ci_port := ci_port i; ci_path := f (ci_path i); ci_ssl_connection := ci_ssl_connection i |})
       <$> connect_info w) (session_timeout w) w.

(** [DM_CloseHttpSession]: [lws_connect_info] keeps its pointers. *)
Definition DM_CloseHttpSession (w : client) : client :=
  with_session no_session
    (with_server {| acs_server_host := None; acs_server_ip := None;
                    acs_server_port := acs_server_port (cl_server w); acs_server_path := None;
                    acs_server_scheme := None |} (with_path path_freed w)).

Definition cwmp_client_clear_ACSIP (w : client) : client := set_ip None w.

(** ** Start of a session *)

Definition is_ip (s : option cstr) : bool :=
  match s with Some s => is_ipaddr s | None => false end.

(** [update_qos_info] *)
Definition update_qos_info (dstIP : option cstr) (dstPort : Z) (w : client) : client :=
  let ip_changed := negb (bool_decide (qos_info_dst_ip w = dstIP)) in
  let port_changed := negb (qos_info_dst_port w =? dstPort) in
  if ip_changed || port_changed then
    let w := with_qos dstIP dstPort w in
    log (UpdateQosInfo (is_ip dstIP && (0 <? dstPort)) dstIP dstPort) w
  else w.

(** [cwmp_get_random_ip]: [rand] is the value of [rand ()]. *)
Definition cwmp_get_random_ip (acsiplist : dm_value) (rand : nat) (ip : option cstr) : option cstr :=
  match acsiplist with
  | Some l =>
      if Nat.ltb 1 (length l) then
        let ips := csv_fields l in
        match ips with
        | [] => ip
        | _ => match ips !! (rand mod length ips)%nat with Some a => Some a | None => ip end
        end
      else ip
  | None => ip
  end.

(** What the data model answers while a session is started *)
Record start_env := {
  dm_crhost : dm_value;
  dm_url : option (option (cstr * cstr * Z * option cstr));
  dm_acsip : dm_value;
  dm_acsiplist : dm_value;
  env_rand : nat;
  dm_session_timeout : dm_value;
  dm_verify_hostname : dm_value;
  dm_accept_selfsigned : dm_value;
  dm_accept_expired : dm_value;
  dm_ntp_status : dm_value;
  env_credentials : credentials;
}.

(** [cwmp_client_get_acsip] *)
Definition cwmp_client_get_acsip (e : start_env) (w : client) : client * cwmp_status :=
  let finish (ip : option cstr) :=
    let w := set_ip ip w in
    (update_qos_info ip (acs_server_port (cl_server w)) w,
     if is_null ip then cwmp_status_ko else cwmp_status_ok) in
  if is_ip (acs_server_host (cl_server w)) then finish (acs_server_host (cl_server w))
  else
    let last := match dm_acsip e with Some a => Some a | None => acs_server_ip (cl_server w) end in
    match last with
    | Some ((_ :: _) as a) =>
        match dm_acsiplist e with
        | None => (set_ip last w, cwmp_status_ko)
        | Some l =>
            if is_null (strstr a l) then finish (cwmp_get_random_ip (dm_acsiplist e) (env_rand e) None)
            else finish last
        end
    | _ => finish (cwmp_get_random_ip (dm_acsiplist e) (env_rand e) None)
    end.

(** [cwmp_client_parse_url]: [dm_url] holds the result of [lws_parse_uri] on
    the URL: scheme, host, port and path. *)
Definition cwmp_client_parse_url (e : start_env) (w : client) : client * cwmp_status :=
  match mjoin (dm_url e) with
  | None => (w, cwmp_status_ko)
  | Some (scheme, host, port, path) =>
      let s := cl_server w in
      let new : option cstr :=
        match path with
        | Some ((c :: _) as p) => Some (if Ascii.eqb c "/" then p else "/"%char :: p)
        | Some [] => Some ["/"%char]
        | None => None
        end in
      let path := match new with Some _ => new | None => acs_server_path s end in
      let w := with_path (match new with Some _ => path_replaced (acs_server_path s) | None => fun p => p end) w in
      let w := with_server
        {| acs_server_host := Some host; acs_server_ip := acs_server_ip s;
           acs_server_port := if port <=? 0 then 7547 else port; acs_server_path := path;
           acs_server_scheme := Some scheme |} w in
      (update_qos_info (acs_server_ip s) (acs_server_port (cl_server w)) w, cwmp_status_ok)
  end.

(** [atol] of a value, or 0 *)
Definition flag (v : dm_value) : Z :=
  match v with Some s => atol (String.string_of_list_ascii s) | None => 0 end.

(** The flags of [cwmp_client_https_session_init] *)
Definition https_flags (e : start_env) : ssl_flags :=
  {| use_ssl := true;
     skip_hostname_check :=
       match dm_verify_hostname e with Some _ => flag (dm_verify_hostname e) =? 0 | None => false end;
     allow_selfsigned := negb (flag (dm_accept_selfsigned e) =? 0);
     allow_expired :=
       match dm_accept_expired e with
       | None => false
       | Some v =>
           if decide (v = cs "Always") then true
           else if decide (v = cs "NTP") then
             match dm_ntp_status e with
             | None => false
             | Some s => bool_decide (s <> cs "Synchronized")
             end
           else false
       end |}.

Definition no_ssl : ssl_flags :=
  {| use_ssl := false; skip_hostname_check := false; allow_selfsigned := false; allow_expired := false |}.

(** [cwmp_client_prepare_session]; [https] also generates basic credentials. *)
Definition cwmp_client_prepare_session (e : start_env) (w : client) : client :=
  let filled (flags : ssl_flags) :=
    with_connect_info
      (Some {| ci_port := acs_server_port (cl_server w);
               ci_path := if is_null (acs_server_path (cl_server w)) then PathNull else PathServer;
               ci_ssl_connection := flags |}) (session_timeout w) w in
  if bool_decide (acs_server_scheme (cl_server w) = Some (cs "https")) then
    (cwmp_client_gen_auth_hdr auth_basic [] [] (env_credentials e) (filled (https_flags e))).1
  else filled no_ssl.

(** The session timeout [client_startSession] settles on *)
Definition new_session_timeout (old : Z) (v : dm_value) : Z :=
  let t :=
    match v with
    | Some s => if old =? 0 then old else atoi (String.string_of_list_ascii s)
    | None => old
    end in
  if t <=? 0 then DEFAULT_SESSION_TIMEOUT else t.

(** [client_startSession] *)
Definition client_startSession (e : start_env) (w : client) : client * Z :=
  match dm_crhost e with
  | None | Some [] => (w, -1)
  | Some crhost =>
      if decide (crhost = cs "0.0.0.0") then (w, -1)
      else
        match cwmp_client_parse_url e w with
        | (w, cwmp_status_ko) => (w, -1)
        | (w, cwmp_status_ok) =>
            match cwmp_client_get_acsip e w with
            | (w, cwmp_status_ko) => (log DnsResolve w, -1)
            | (w, cwmp_status_ok) =>
                let w := cwmp_client_prepare_session e w in
                let w := with_connect_info (connect_info w)
                  (new_session_timeout (session_timeout w) (dm_session_timeout e)) w in
                (log (TimerStart "Session-timer" (session_timeout w) 0) w, 0)
            end
        end
  end.

(** ** Steps *)

Inductive event :=
| StartSession (e : start_env)
| Send (soap_msg : option cstr) (connect_ok : bool)
| AuthRetry (connect_ok : bool)
| SessionTimeout
| CloseSession
| NewWsi
| Handshake (fits : header -> bool)
| Writable
| Established (r : response) (c : credentials) (ready_to_close : bool)
| ReceiveRaw (read_ok : bool)
| Receive (msg : cstr) (alloc_ok : bool)
| Complete (soap_ok : bool)
| ConnectionError
| Closed.

Definition step (e : event) (w : client) : option client :=
  match e with
  | StartSession env => Some (client_startSession env w).1
  | Send soap_msg connect_ok => fst <$> DM_SendHttpMessage soap_msg connect_ok w
  | AuthRetry connect_ok => cwmp_client_auth_retry connect_ok w
  | SessionTimeout => Some (cwmp_client_sessionTimedOut w)
  | CloseSession => Some (DM_CloseHttpSession w)
  | NewWsi => Some (cwmp_client_new_wsi_cb w).1
  | Handshake fits => Some (cwmp_client_handshake_cb fits w).1
  | Writable => Some (cwmp_client_http_writable_cb w).1
  | Established r c ready => fst <$> cwmp_client_connection_established_cb r c ready w
  | ReceiveRaw read_ok => Some (cwmp_client_recieve_raw_cb read_ok w).1
  | Receive msg alloc_ok => fst <$> cwmp_client_receive_http_cb msg alloc_ok w
  | Complete soap_ok => fst <$> cwmp_client_http_complete_cb soap_ok w
  | ConnectionError => Some (cwmp_client_connection_error_cb w).1
  | Closed => Some (cwmp_client_connection_closed_cb w).1
  end.

Fixpoint run (es : list event) (w : client) : option client :=
  match es with
  | [] => Some w
  | e :: es' => w ← step e w; run es' w
  end.

Lemma run_app es1 es2 w : run (es1 ++ es2) w = run es1 w ≫= run es2.
Proof.
  revert w. induction es1 as [|e es1 IH]; intros w; simpl; [done|]. by destruct (step e w); simpl.
Qed.

(** ** Undefined behaviour *)

Lemma cookies_total set_cookie malloc_ok w :
  exists w' r, cwmp_client_handle_cookies set_cookie malloc_ok w = Some (w', r).
Proof.
  unfold cwmp_client_handle_cookies. destruct set_cookie as [|x h]; [by eexists _, _|].
  destruct malloc_ok; simpl; [|by eexists _, _].
  destruct (add_cookies_total (default no_cookies (jar (cl_session w))) (x :: h)) as [j ->].
  by eexists _, _.
Qed.

Lemma usable_false w :
  connect_info_usable w = false <->
  connect_info w = None \/ exists i, connect_info w = Some i /\ ci_path i = PathFreed.
Proof.
  unfold connect_info_usable. destruct (connect_info w) as [i|]; [|naive_solver].
  case_bool_decide; naive_solver.
Qed.

Lemma send_undefined_iff ok w :
  send_pending ok w = None <->
  acs_server_host (cl_server w) <> None /\
  (connect_info w = None \/ exists i, connect_info w = Some i /\ ci_path i = PathFreed).
Proof.
  rewrite <- usable_false. unfold send_pending. destruct (acs_server_host (cl_server w)); [|naive_solver].
  destruct (connect_info_usable w); cbn [negb]; [|naive_solver]. destruct ok; naive_solver.
Qed.

(** C4: which events of the client have undefined behaviour.  They are: a
    message of the engine, or the repetition of the pending one after a
    challenge, while a host is known but [lws_connect_info] has never been filled
    or holds the path that the end of a session has freed (a start of a session
    that fails after its URL was read leaves it so); a 401 answer whose challenge
    does not fit the 512 bytes of [auth_d]; the end of a 200 answer without a
    body; and a chunk after a failed reallocation.  Every other event of the
    library, the engine and the timers is handled. *)
Theorem client_undefined_iff (e : event) (w : client) :
  step e w = None <->
  match e with
  | Send soap_msg _ =>
      soap_msg <> None /\ acs_server_host (cl_server w) <> None /\
      (connect_info w = None \/ exists i, connect_info w = Some i /\ ci_path i = PathFreed)
  | AuthRetry _ =>
      pending_msg (cl_session w) <> None /\ acs_server_host (cl_server w) <> None /\
      (connect_info w = None \/ exists i, connect_info w = Some i /\ ci_path i = PathFreed)
  | Established r _ _ =>
      r_status r = HTTP_STATUS_UNAUTHORIZED /\ r_copy_ok r = true /\
      (AUTH_D_SIZE <= length (r_www_authenticate r))%nat
  | Complete _ => http_status (cl_session w) = HTTP_OK /\ rcv_buf (cl_session w) = None
  | Receive _ alloc_ok =>
      alloc_ok = true /\ rcv_buf (cl_session w) = None /\ rcv_buf_len (cl_session w) <> 0%nat
  | _ => False
  end.
Proof.
  destruct e as [env|m ok|ok| | | |fits| |r c ready|rd|m ok|ok| |]; try (simpl; by split).
  - cbn [step]. destruct m as [m|]; simpl; [|naive_solver].
    rewrite fmap_None, send_undefined_iff. simpl. naive_solver.
  - cbn [step]. unfold cwmp_client_auth_retry. destruct (pending_msg (cl_session w)); [|naive_solver].
    rewrite fmap_None, send_undefined_iff. naive_solver.
  - cbn [step]. unfold cwmp_client_connection_established_cb, HTTP_NO_CONTENT, HTTP_STATUS_UNAUTHORIZED.
    destruct (Z.eqb_spec (r_status r) 204) as [H|H]; [simpl; split; [done|lia]|].
    destruct (Z.eqb_spec (r_status r) 401) as [H1|H1].
    + unfold cwmp_client_get_authentication_hdr.
      destruct (r_copy_ok r); simpl; [|split; naive_solver].
      destruct (Nat.ltb_spec AUTH_D_SIZE (length (r_www_authenticate r) + 1)); simpl;
        split; try done; intros; lia.
    + destruct (r_status r =? HTTP_OK); simpl; [|split; naive_solver].
      edestruct cookies_total as (w' & x & ->). simpl. split; naive_solver.
  - cbn [step]. unfold cwmp_client_receive_http_cb. destruct ok; simpl; [|split; naive_solver].
    destruct (rcv_buf (cl_session w)); simpl; [split; naive_solver|].
    destruct (Nat.eqb_spec (rcv_buf_len (cl_session w)) 0); simpl; split; naive_solver.
  - cbn [step]. unfold cwmp_client_http_complete_cb.
    destruct (Z.eqb_spec (http_status (cl_session w)) HTTP_OK); simpl; [|split; naive_solver].
    destruct (rcv_buf (cl_session w)); simpl; [|split; naive_solver].
    destruct (is_null (strstr env_tag c)); simpl; split; naive_solver.
Qed.

(** The steps that leave [lws_connect_info] usable *)
Lemma usable_same w w' : connect_info w' = connect_info w -> connect_info_usable w' = connect_info_usable w.
Proof. unfold connect_info_usable. by intros ->. Qed.

Lemma info_gen_auth type d n c w : connect_info (cwmp_client_gen_auth_hdr type d n c w).1 = connect_info w.
Proof. unfold cwmp_client_gen_auth_hdr. by destruct (dm_username c), (dm_password c). Qed.

Lemma info_qos ip port w : connect_info (update_qos_info ip port w) = connect_info w.
Proof. unfold update_qos_info. by destruct (_ || _). Qed.

Lemma info_get_acsip e w : connect_info (cwmp_client_get_acsip e w).1 = connect_info w.
Proof.
  unfold cwmp_client_get_acsip.
  assert (Hf : forall ip port, connect_info (update_qos_info ip port (set_ip ip w)) = connect_info w)
    by (intros ip port; by rewrite info_qos).
  destruct (is_ip _); [apply Hf|].
  destruct (match dm_acsip e with Some a => Some a | None => _ end) as [[|x a]|]; try apply Hf.
  destruct (dm_acsiplist e); [|done]. destruct (is_null _); apply Hf.
Qed.

Lemma usable_path f w :
  (forall p, f p = PathFreed -> p = PathFreed) -> connect_info_usable w = true -> connect_info_usable (with_path f w) = true.
Proof.
  intros Hf. unfold connect_info_usable. simpl. destruct (connect_info w) as [i|]; [|done]. simpl.
  rewrite !negb_true_iff, !bool_decide_eq_false. auto.
Qed.

Lemma replaced_freed o p : path_replaced o p = PathFreed -> p = PathFreed.
Proof. by destruct p, o. Qed.

Lemma usable_parse_url e w :
  connect_info_usable w = true -> connect_info_usable (cwmp_client_parse_url e w).1 = true.
Proof.
  intros H. unfold cwmp_client_parse_url. destruct (mjoin _) as [[[[scheme host] port] path]|]; [|done].
  cbn [fst]. erewrite usable_same by apply info_qos.
  match goal with |- connect_info_usable (with_server ?x ?w1) = _ => change (connect_info_usable w1 = true) end.
  apply usable_path; [|done]. intros p. destruct path as [[|x path]|]; [by apply replaced_freed..|done].
Qed.

Lemma usable_prepare e w : connect_info_usable (cwmp_client_prepare_session e w) = true.
Proof.
  unfold cwmp_client_prepare_session.
  destruct (bool_decide _); [erewrite usable_same by apply info_gen_auth|];
    unfold connect_info_usable; simpl; by destruct (is_null _).
Qed.

Lemma start_usable e w :
  (client_startSession e w).2 = 0 \/ connect_info_usable w = true ->
  connect_info_usable (client_startSession e w).1 = true.
Proof.
  intros H. unfold client_startSession in *. destruct (dm_crhost e) as [[|x h]|]; try by destruct H.
  case_decide; [by destruct H|]. pose proof (usable_parse_url e w) as H1.
  destruct (cwmp_client_parse_url e w) as [w1 [|]]; [|destruct H; [done|auto]].
  pose proof (info_get_acsip e w1) as H2. destruct (cwmp_client_get_acsip e w1) as [w2 [|]]; cbn [fst snd] in *.
  - change (connect_info_usable (cwmp_client_prepare_session e w2) = true). apply usable_prepare.
  - destruct H as [|H]; [done|]. change (connect_info_usable w2 = true). rewrite (usable_same w1) by done. auto.
Qed.

Lemma send_keeps_info ok w w' x : send_pending ok w = Some (w', x) -> connect_info w' = connect_info w.
Proof. unfold send_pending. intros H. repeat case_match; by simplify_eq. Qed.

Lemma info_established r c ready w w' x :
  cwmp_client_connection_established_cb r c ready w = Some (w', x) -> connect_info w' = connect_info w.
Proof.
  unfold cwmp_client_connection_established_cb. cbv zeta.
  destruct (r_status r =? HTTP_NO_CONTENT); [intros [= <- _]; by destruct ready|].
  destruct (r_status r =? HTTP_STATUS_UNAUTHORIZED).
  { unfold cwmp_client_get_authentication_hdr. cbv zeta. destruct (r_copy_ok r); [|by intros [= <- _]]. cbn [negb].
    destruct (Nat.ltb _ _); [done|]. intros [= <- _].
    match goal with |- connect_info (log _ ?w1) = _ => change (connect_info w1 = connect_info w) end.
    by rewrite info_gen_auth. }
  destruct (r_status r =? HTTP_OK); [|by intros [= <- _]].
  unfold cwmp_client_handle_cookies. destruct (r_set_cookie r) as [|y h]; [intros [= <- _]; by case_match|].
  destruct (r_malloc_ok r); [|intros [= <- _]; by case_match]. cbn [negb].
  destruct (add_cookies _ _) as [j|]; [|done]. intros [= <- _]. simpl. by case_match.
Qed.

Lemma usable_step e w w' :
  e <> CloseSession -> step e w = Some w' -> connect_info_usable w = true -> connect_info_usable w' = true.
Proof.
  intros He Hs Hu. assert (H : (exists env, e = StartSession env) \/ connect_info w' = connect_info w).
  { destruct e as [env|m ok|ok| | | |fits| |r c ready|rd|m ok|ok| |]; cbn [step] in Hs; try (right; by simplify_eq).
    - left. eauto.
    - right. unfold DM_SendHttpMessage in Hs. destruct m as [m|]; [|by simplify_eq/=].
      apply fmap_Some in Hs as ([w1 x] & E & ->). by apply send_keeps_info in E.
    - right. unfold cwmp_client_auth_retry in Hs. destruct (pending_msg _); [|by simplify_eq/=].
      apply fmap_Some in Hs as ([w1 x] & E & ->). by apply send_keeps_info in E.
    - right. injection Hs as <-. unfold cwmp_client_handshake_cb. destruct (pending_msg _); [|done].
      by destruct (forallb _ _).
    - right. injection Hs as <-. unfold cwmp_client_http_writable_cb. by destruct (pending_msg _).
    - right. apply fmap_Some in Hs as ([w1 x] & E & ->). by eapply info_established.
    - right. apply fmap_Some in Hs as ([w1 x] & E & ->). unfold cwmp_client_receive_http_cb in E.
      cbv zeta in E. repeat case_match; by simplify_eq/=.
    - right. apply fmap_Some in Hs as ([w1 x] & E & ->). unfold cwmp_client_http_complete_cb in E.
      cbv zeta in E. repeat case_match; by simplify_eq/=.
    - right. injection Hs as <-. unfold cwmp_client_connection_closed_cb. simpl. repeat case_match; done. }
  destruct H as [[env ->]|H]; [|by rewrite (usable_same w)].
  cbn [step] in Hs. injection Hs as <-. apply start_usable. by right.
Qed.

(** From a successful start of a session until its data is freed every message
    of the engine can be sent. *)
Theorem started_session_sends (env : start_env) (es : list event) (w w' : client) (m : option cstr) (ok : bool)
    (Hs : (client_startSession env w).2 = 0) (He : Forall (fun e => e <> CloseSession) es)
    (Hr : run es (client_startSession env w).1 = Some w') :
  is_Some (step (Send m ok) w').
Proof.
  assert (Hu : connect_info_usable (client_startSession env w).1 = true) by (apply start_usable; by left).
  revert Hu Hr. generalize (client_startSession env w).1. induction He as [|e es He _ IH]; intros w1 Hu; simpl.
  - intros [= <-]. cbn [step]. unfold DM_SendHttpMessage. destruct m as [m|]; [|done].
    rewrite fmap_is_Some. apply not_eq_None_Some. rewrite send_undefined_iff. cbn. intros [_ H].
    apply usable_false in H. congruence.
  - destruct (step e w1) as [w2|] eqn:E; [|done]. simpl. apply IH. by eapply usable_step.
Qed.

(** ** The header of basic authentication *)

(** What [lws_b64_encode_string] documents: a text of four characters for
    each three bytes begun, when it is given two bytes more than that. *)
Definition b64_length (n : nat) : nat := (4 * ((n + 2) / 3))%nat.

Definition b64_documented (encoded : cstr -> cstr) : Prop :=
  forall s n, length (encoded s) = b64_length (length s) /\
    ((b64_length (length s) + 2 <= n)%nat -> b64_encode s n = Some (encoded s)).

(** The buffer of the basic authentication header is large enough for
    every user name and password: the header is never refused nor cut. *)
Theorem basic_header_fits (encoded : cstr -> cstr) (username passwd : cstr)
    (H : b64_documented encoded) :
  cwmp_client_auth_basic username passwd =
    Some (cs "Basic " ++ encoded (username ++ ":"%char :: passwd)).
Proof.
  unfold cwmp_client_auth_basic. set (s := username ++ ":"%char :: passwd).
  assert (Hl : (length username + length passwd + 1)%nat = length s).
  { unfold s. rewrite length_app. simpl. lia. }
  rewrite Hl. destruct (H s (hdr_size (length s) - 6)%nat) as [Hlen Henc].
  assert (Hb : (b64_length (length s) + 2 <= hdr_size (length s) - 6)%nat).
  { unfold b64_length, hdr_size.
    pose proof (Nat.div_mod_eq (length s + 2) 3). pose proof (Nat.div_mod_eq (4 * (length s + 2)) 3).
    pose proof (Nat.mod_upper_bound (length s + 2) 3). pose proof (Nat.mod_upper_bound (4 * (length s + 2)) 3).
    lia. }
  rewrite (Henc Hb). f_equal. rewrite firstn_all2; [done|]. rewrite length_app, Hlen.
  change (length (cs "Basic ")) with 6%nat. unfold hdr_size in *. lia.
Qed.

(** ** The body of an answer *)

Lemma receive_chunks chunks w b n :
  rcv_buf (cl_session w) = b -> rcv_buf_len (cl_session w) = n -> length (default [] b) = n ->
  exists w', run (map (fun m => Receive m true) chunks) w = Some w' /\
    rcv_buf (cl_session w') =
      (match chunks with [] => b | _ => Some (default [] b ++ concat chunks) end) /\
    http_status (cl_session w') = http_status (cl_session w) /\ calls w' = calls w.
Proof.
  revert w b n. induction chunks as [|m chunks IH]; intros w b n Hb Hn Hl; simpl; [by exists w|].
  unfold cwmp_client_receive_http_cb. simpl. rewrite Hb, Hn.
  assert (E : firstn n (default [] b) = default [] b) by (apply firstn_all2; lia).
  set (w1 := set_buffer (Some (default [] b ++ m)) (n + length m) w).
  assert (Hs : (match b with
      | Some buf => Some (set_buffer (Some (firstn n buf ++ m)) (n + length m) w, SKIP)
      | None => if Nat.eqb n 0 then
          Some (set_buffer (Some (firstn n [] ++ m)) (n + length m) w, SKIP) else None
      end) = Some (w1, SKIP)).
  { destruct b as [buf|]; simpl in E, Hl; [by rewrite E|]. unfold w1. by rewrite <- Hl. }
  rewrite Hs. simpl.
  destruct (IH w1 (Some (default [] b ++ m)) (n + length m)%nat) as (w' & H1 & H2 & H3 & H4); try done.
  { simpl. rewrite length_app. lia. }
  exists w'. split; [done|]. rewrite H2, H3, H4. split_and!; try done.
  destruct chunks; simpl; [by rewrite app_nil_r|]. by rewrite <- app_assoc.
Qed.

(** C32: the SOAP message of an answer reaches the engine whole, however the
    library cuts it into chunks. *)
Theorem answer_delivered (chunks : list cstr) (w : client) :
  chunks <> [] -> http_status (cl_session w) = HTTP_OK ->
  strstr env_tag (concat chunks) <> None ->
  exists w', run (NewWsi :: map (fun m => Receive m true) chunks ++ [Complete true]) w = Some w' /\
    calls w' = calls w ++ [ParseSoap (check_namespace (translate true (concat chunks)))].
Proof.
  intros Hc Hs Ht. simpl.
  destruct (receive_chunks chunks (set_buffer None 0 w) None 0) as (w1 & H1 & H2 & H3 & H4); try done.
  rewrite run_app, H1. simpl. unfold cwmp_client_http_complete_cb. rewrite H3. simpl. rewrite Hs. simpl.
  rewrite H2. destruct chunks as [|c chunks]; [done|]. simpl in *.
  destruct (strstr env_tag (c ++ concat chunks)); [|done]. simpl. eexists. split; [done|].
  simpl. by rewrite H4.
Qed.

(** ** The session timer *)

Definition positive_timer (c : call) : Prop :=
  match c with TimerStart n t i => i = 0 /\ (n = "Session-timer" -> 0 < t < 2 ^ 31) | _ => True end.

Definition timeout_ok (w : client) : Prop := 0 < session_timeout w < 2 ^ 31.

(** The calls made from [w] to [w'] start one-shot timers only, the session
    timer with a positive [int] as its delay, provided the timeout is one in [w];
    and it stays so. *)
Definition timed (w w' : client) : Prop :=
  (session_timeout w < 2 ^ 31 -> session_timeout w' < 2 ^ 31) /\
  exists new, calls w' = calls w ++ new /\
    (timeout_ok w -> timeout_ok w' /\ Forall positive_timer new).

Lemma timed_refl w : timed w w.
Proof. split; [done|]. exists []. by rewrite app_nil_r. Qed.

Lemma timed_trans w1 w2 w3 : timed w1 w2 -> timed w2 w3 -> timed w1 w3.
Proof.
  intros (I1 & n1 & E1 & H1) (I2 & n2 & E2 & H2). split; [auto|]. exists (n1 ++ n2). rewrite E2, E1, app_assoc.
  split; [done|]. intros Hw. destruct (H1 Hw) as [Hw2 Hn1]. destruct (H2 Hw2) as [Hw3 Hn2].
  split; [done|]. by apply Forall_app.
Qed.

#[local] Instance timed_preorder : PreOrder timed.
Proof. split; [exact timed_refl|exact timed_trans]. Qed.

Lemma timed_same w w' : calls w' = calls w -> session_timeout w' = session_timeout w -> timed w w'.
Proof.
  intros E1 E2. unfold timed, timeout_ok. rewrite E2. split; [done|]. exists []. by rewrite app_nil_r.
Qed.

Lemma timed_log c w : (timeout_ok w -> positive_timer c) -> timed w (log c w).
Proof. intros Hc. split; [done|]. exists [c]. split; [done|]. intros H. split; [done|]. auto. Qed.

Lemma timed_gen_auth type d n c w : timed w (cwmp_client_gen_auth_hdr type d n c w).1.
Proof.
  unfold cwmp_client_gen_auth_hdr. destruct (dm_username c), (dm_password c); simpl;
    try apply timed_refl. by apply timed_same.
Qed.

Lemma timed_qos ip port w : timed w (update_qos_info ip port w).
Proof.
  unfold update_qos_info. destruct (_ || _); [|apply timed_refl].
  etrans; [|by apply timed_log]. by apply timed_same.
Qed.

Lemma timed_parse_url e w : timed w (cwmp_client_parse_url e w).1.
Proof.
  unfold cwmp_client_parse_url. destruct (mjoin _) as [[[[scheme host] port] path]|];
    simpl; [|apply timed_refl].
  etrans; [|apply timed_qos]. by apply timed_same.
Qed.

Lemma timed_get_acsip e w : timed w (cwmp_client_get_acsip e w).1.
Proof.
  unfold cwmp_client_get_acsip.
  assert (Hf : forall ip, timed w (update_qos_info ip
    (acs_server_port (cl_server (set_ip ip w))) (set_ip ip w))).
  { intros ip. etrans; [|apply timed_qos]. by apply timed_same. }
  destruct (is_ip _); [apply Hf|].
  destruct (match dm_acsip e with Some a => Some a | None => _ end) as [[|x a]|]; try apply Hf.
  destruct (dm_acsiplist e); [|by apply timed_same].
  destruct (is_null _); apply Hf.
Qed.

Lemma timed_prepare e w : timed w (cwmp_client_prepare_session e w).
Proof.
  unfold cwmp_client_prepare_session. destruct (bool_decide _); [|by apply timed_same].
  etrans; [|apply timed_gen_auth]. by apply timed_same.
Qed.

Lemma new_timeout_range old v : old < 2 ^ 31 -> 0 < new_session_timeout old v < 2 ^ 31.
Proof.
  intros Ho. unfold new_session_timeout, DEFAULT_SESSION_TIMEOUT.
  assert (Hr : (match v with
     | Some s => if old =? 0 then old else atoi (String.string_of_list_ascii s)
     | None => old end) < 2 ^ 31).
  { destruct v as [s|]; [|done]. destruct (old =? 0); [done|].
    apply (atoi_range (String.string_of_list_ascii s)). }
  destruct (_ <=? 0) eqn:E; bool_prop; lia.
Qed.

(** The end of a successful [client_startSession] *)
Lemma timed_settled e w :
  let w1 := cwmp_client_prepare_session e w in
  let w2 := with_connect_info (connect_info w1)
    (new_session_timeout (session_timeout w1) (dm_session_timeout e)) w1 in
  timed w (log (TimerStart "Session-timer" (session_timeout w2) 0) w2).
Proof.
  intros w1 w2. etrans; [apply (timed_prepare e)|]. fold w1.
  split; [intros H; by apply new_timeout_range|].
  exists [TimerStart "Session-timer" (session_timeout w2) 0]. split; [done|]. intros H.
  assert (Ht : timeout_ok w2) by (apply new_timeout_range, H).
  split; [exact Ht|]. repeat constructor; apply Ht.
Qed.

Lemma timed_start e w : timed w (client_startSession e w).1.
Proof.
  unfold client_startSession. destruct (dm_crhost e) as [[|x h]|]; try apply timed_refl.
  case_decide; [apply timed_refl|].
  pose proof (timed_parse_url e w) as H1. destruct (cwmp_client_parse_url e w) as [w1 [|]]; [|done].
  etrans; [exact H1|]. pose proof (timed_get_acsip e w1) as H2.
  destruct (cwmp_client_get_acsip e w1) as [w2 [|]]; (etrans; [exact H2|]).
  - apply timed_settled.
  - by apply timed_log.
Qed.

Lemma timed_send_pending ok w w' x : send_pending ok w = Some (w', x) -> timed w w'.
Proof.
  unfold send_pending. destruct (acs_server_host (cl_server w)) as [host|]; [|intros [= <- _]; apply timed_refl].
  destruct (connect_info_usable w); [|done]. cbn [negb].
  intros E. etrans; [by apply (timed_log (Connect host))|].
  destruct ok; simplify_eq/=; [|by apply timed_same]. apply timed_log. intros H. split; [done|]. intros _. exact H.
Qed.

Lemma timed_closed w : timed w (cwmp_client_connection_closed_cb w).1.
Proof.
  unfold cwmp_client_connection_closed_cb. simpl.
  repeat case_match; try apply timed_refl; by apply timed_log.
Qed.

Lemma timed_established r c ready w w' x :
  cwmp_client_connection_established_cb r c ready w = Some (w', x) -> timed w w'.
Proof.
  unfold cwmp_client_connection_established_cb. set (w1 := set_status (r_status r) w).
  assert (H1 : timed w w1) by by apply timed_same.
  destruct (r_status r =? HTTP_NO_CONTENT).
  { intros [= <- _]. etrans; [exact H1|].
    destruct ready; [|by apply timed_same].
    etrans; [by apply (timed_log CloseWsi)|by apply timed_same]. }
  destruct (r_status r =? HTTP_STATUS_UNAUTHORIZED).
  { unfold cwmp_client_get_authentication_hdr. destruct (r_copy_ok r); simpl.
    - destruct (Nat.ltb _ _); [done|]. intros [= <- _].
      etrans; [exact H1|]. etrans; [|by apply timed_log].
      etrans; [|apply timed_gen_auth]. by apply timed_same.
    - intros [= <- _]. etrans; [exact H1|].
      etrans; [|by apply timed_log]. by apply timed_same. }
  destruct (r_status r =? HTTP_OK); [|by intros [= <- _]].
  set (w2 := if connected _ then _ else _).
  assert (H2 : timed w w2).
  { etrans; [exact H1|]. unfold w2. destruct (connected _); [apply timed_refl|].
    etrans; [|by apply timed_log]. by apply timed_same. }
  unfold cwmp_client_handle_cookies. destruct (r_set_cookie r) as [|y h]; [by intros [= <- _]|].
  destruct (r_malloc_ok r); [|by intros [= <- _]]. cbn [negb].
  destruct (add_cookies _ _) as [j|]; [|done].
  intros [= <- _]. etrans; [exact H2|]. by apply timed_same.
Qed.

#[local] Hint Resolve timed_refl timed_start timed_closed : tr069.

Lemma timed_step e w w' : step e w = Some w' -> timed w w'.
Proof.
  destruct e as [env|m ok|ok| | | |fits| |r c ready|rd|m ok|ok| |]; cbn [step].
  - intros [= <-]. auto with tr069.
  - unfold DM_SendHttpMessage. destruct m as [m|]; [|intros [= <-]; auto with tr069].
    intros ([w1 x] & E & ->)%fmap_Some. etrans; [|by eapply timed_send_pending].
    etrans; [|by apply timed_log]. by apply timed_same.
  - unfold cwmp_client_auth_retry. destruct (pending_msg _); [|intros [= <-]; auto with tr069].
    intros ([w1 x] & E & ->)%fmap_Some. by eapply timed_send_pending.
  - intros [= <-]. by apply timed_log.
  - intros [= <-]. by apply timed_same.
  - intros [= <-]. by apply timed_same.
  - intros [= <-]. unfold cwmp_client_handshake_cb. destruct (pending_msg _); [|auto with tr069].
    destruct (forallb _ _); [by apply timed_log|auto with tr069].
  - intros [= <-]. unfold cwmp_client_http_writable_cb.
    destruct (pending_msg _); [by apply timed_log|auto with tr069].
  - destruct (cwmp_client_connection_established_cb r c ready w) as [[w1 x]|] eqn:E; [|done].
    intros [= <-]. by eapply timed_established.
  - intros [= <-]. auto with tr069.
  - unfold cwmp_client_receive_http_cb. destruct ok; simpl; [|intros [= <-]; by apply timed_same].
    repeat case_match; intros [= <-]; by apply timed_same.
  - unfold cwmp_client_http_complete_cb. destruct (_ =? HTTP_OK); [|intros [= <-]; auto with tr069].
    destruct (rcv_buf _) as [buf|]; [|done]. destruct (is_null _); [intros [= <-]; auto with tr069|].
    intros [= <-]. destruct ok; (etrans; [|by apply timed_log]); by apply timed_same.
  - intros [= <-]. by apply timed_log.
  - intros [= <-]. auto with tr069.
Qed.

Lemma timed_run es w w' : run es w = Some w' -> timed w w'.
Proof.
  revert w. induction es as [|e es IH]; intros w; simpl; [intros [= <-]; apply timed_refl|].
  destruct (step e w) as [w1|] eqn:E; [|done]. simpl. intros H.
  etrans; [by eapply timed_step|by apply IH].
Qed.

Lemma start_success e w w' :
  client_startSession e w = (w', 0) -> session_timeout w < 2 ^ 31 -> timeout_ok w'.
Proof.
  unfold client_startSession. destruct (dm_crhost e) as [[|x h]|]; try done.
  case_decide; [done|].
  assert (Hp : session_timeout (cwmp_client_parse_url e w).1 = session_timeout w).
  { unfold cwmp_client_parse_url. destruct (mjoin _) as [[[[a b] c] d]|]; [|done].
    simpl. unfold update_qos_info. by destruct (_ || _). }
  destruct (cwmp_client_parse_url e w) as [w1 [|]]; [|done]. simpl in Hp.
  assert (Hg : session_timeout (cwmp_client_get_acsip e w1).1 = session_timeout w1).
  { unfold cwmp_client_get_acsip, update_qos_info. repeat (case_match; try done). }
  destruct (cwmp_client_get_acsip e w1) as [w2 [|]]; [|done]. simpl in Hg.
  intros [= <-] Ht. unfold timeout_ok. cbn [session_timeout log with_connect_info].
  apply new_timeout_range. unfold cwmp_client_prepare_session, cwmp_client_gen_auth_hdr.
  repeat case_match; simpl; lia.
Qed.

(** No exchange can hang.  After a successful [client_startSession] the
    session timeout is positive and fits an [int], whatever the configured
    value and whatever happens before and after; every timer that is started is
    a one-shot timer, the session timer with a delay in that range, and every
    message that is sent ends with a start of the session timer. *)
Theorem every_exchange_timed (es1 es2 : list event) (env : start_env) (w0 w1 w : client) (msg : cstr) :
  run es1 initial = Some w0 -> client_startSession env w0 = (w1, 0) -> run es2 w1 = Some w ->
  0 < session_timeout w < 2 ^ 31 /\
  (exists new, calls w = calls w1 ++ new /\ Forall positive_timer new) /\
  (forall ok w', DM_SendHttpMessage (Some msg) ok w = Some (w', 0) ->
     exists before, calls w' = before ++ [TimerStart "Session-timer" (session_timeout w) 0]).
Proof.
  intros H0 H1 H2. apply timed_run in H0 as [H0 _]. specialize (H0 eq_refl).
  pose proof (start_success _ _ _ H1 H0) as Hok.
  apply timed_run in H2 as (_ & new & E & Hn). destruct (Hn Hok) as [Hw Hnew].
  split_and!; [apply Hw..|by exists new|]. intros ok w'. simpl. unfold send_pending. simpl.
  destruct (acs_server_host (cl_server w)); [|done]. destruct (connect_info_usable _); [|done].
  destruct ok; [|done]. intros [= <-]. by eexists.
Qed.

(** The timeout configured in the data model is not used by the first
    session. *)
Lemma first_session_timeout (v : dm_value) :
  new_session_timeout (session_timeout initial) v = DEFAULT_SESSION_TIMEOUT.
Proof. unfold new_session_timeout. destruct v; reflexivity. Qed.

(** ** Authentication challenges *)

(** One exchange that the server answers with a challenge: the answer, the
    end of the connection, the retry timer, and the next request. *)
Definition challenge_round (r : response) (c : credentials) : list event :=
  [Established r c false; Closed; AuthRetry true; Handshake (fun _ => true); Writable].

(** The session once the credentials [h] answer the challenge *)
Definition answering (h : cstr) (s : session) : session :=
  {| auth_type := auth_basic; http_status := HTTP_STATUS_UNAUTHORIZED; rcv_buf := rcv_buf s;
     rcv_buf_len := rcv_buf_len s; pending_msg := pending_msg s; jar := jar s; auth_hdr := Some h;
     connected := connected s |}.

Definition round_calls (host msg : cstr) (t : Z) (s : session) : list call :=
  [CloseWsi; TimerStart "cwmp_client_auth_retry" 0 0; Connect host; TimerStart "Session-timer" t 0;
   RequestHeaders (request_headers s msg); RequestBody msg].

Lemma round_runs r c w host msg username passwd h :
  r_status r = HTTP_STATUS_UNAUTHORIZED -> r_copy_ok r = true ->
  (length (r_www_authenticate r) < AUTH_D_SIZE)%nat ->
  strstr (cs "Basic") (r_www_authenticate r) <> None ->
  dm_username c = Some username -> dm_password c = Some passwd ->
  cwmp_client_auth_basic username passwd = Some h ->
  acs_server_host (cl_server w) = Some host -> pending_msg (cl_session w) = Some msg ->
  connect_info_usable w = true ->
  exists w', run (challenge_round r c) w = Some w' /\ connect_info w' = connect_info w /\
    cl_server w' = cl_server w /\ cl_session w' = answering h (cl_session w) /\
    session_timeout w' = session_timeout w /\
    calls w' = calls w ++ round_calls host msg (session_timeout w) (answering h (cl_session w)).
Proof.
  intros Hs Hc Hl Hb Hu Hp Hh Hhost Hmsg Hi. unfold challenge_round. cbn [run step].
  unfold cwmp_client_connection_established_cb. rewrite Hs. cbn -[cwmp_client_get_authentication_hdr set_status].
  unfold cwmp_client_get_authentication_hdr. rewrite Hc. cbn [negb].
  replace (Nat.ltb AUTH_D_SIZE (length (r_www_authenticate r) + 1)) with false
    by (symmetry; apply Nat.ltb_ge; lia).
  destruct (strstr (cs "Basic") (r_www_authenticate r)) as [tl|]; [|done]. cbn [is_null].
  unfold cwmp_client_gen_auth_hdr. rewrite Hu, Hp, Hh.
  unfold cwmp_client_connection_closed_cb. simpl.
  unfold cwmp_client_auth_retry. simpl. rewrite Hmsg. unfold send_pending. simpl. rewrite Hhost.
  unfold connect_info_usable in Hi |- *. simpl. rewrite Hi. simpl.
  unfold cwmp_client_handshake_cb, cwmp_client_http_writable_cb. simpl. rewrite Hmsg.
  replace (forallb _ _) with true by (symmetry; apply forallb_forall; done). simpl. rewrite Hmsg.
  eexists. split; [done|]. split_and!; try done. simpl. rewrite <- !app_assoc. simpl.
  unfold answering. by rewrite Hmsg.
Qed.

(** The client never gives up on an authentication challenge.  As long as
    the server answers 401 with a basic challenge, the same message is sent
    again at once with the same credentials: [n] challenges cause [n] requests,
    each of which restarts the session timer, and the session is never closed. *)
Theorem auth_retry_never_gives_up (n : nat) (r : response) (c : credentials) (w : client)
    (host msg username passwd h : cstr)
    (Hs : r_status r = HTTP_STATUS_UNAUTHORIZED) (Hc : r_copy_ok r = true)
    (Hl : (length (r_www_authenticate r) < AUTH_D_SIZE)%nat)
    (Hb : strstr (cs "Basic") (r_www_authenticate r) <> None)
    (Hu : dm_username c = Some username) (Hp : dm_password c = Some passwd)
    (Hh : cwmp_client_auth_basic username passwd = Some h)
    (Hhost : acs_server_host (cl_server w) = Some host)
    (Hmsg : pending_msg (cl_session w) = Some msg) (Hi : connect_info_usable w = true) :
  exists w', run (concat (repeat (challenge_round r c) n)) w = Some w' /\
    calls w' = calls w ++
      concat (repeat (round_calls host msg (session_timeout w) (answering h (cl_session w))) n).
Proof.
  revert w Hhost Hmsg Hi. induction n as [|n IH]; intros w Hhost Hmsg Hi; cbn [repeat concat].
  { exists w. by rewrite app_nil_r. }
  destruct (round_runs r c w host msg username passwd h) as (w1 & H1 & E0 & E1 & E2 & E3 & E4); try done.
  destruct (IH w1) as (w2 & H2 & E5); [by rewrite E1|by rewrite E2|unfold connect_info_usable; by rewrite E0|].
  exists w2. split.
  - by rewrite run_app, H1.
  - rewrite E5, E4, E3, E2, <- app_assoc. done.
Qed.

(** ** The address of the ACS *)

(** The address a session uses is the host of the URL when that is a
    literal address; otherwise the address of the last session as long as it
    occurs in the text of the list of resolved addresses, and else an address
    of that list; and the QoS rule follows it. *)
Theorem acsip_chosen (e : start_env) (w w' : client) :
  cwmp_client_get_acsip e w = (w', cwmp_status_ok) ->
  exists ip, acs_server_ip (cl_server w') = Some ip /\
    qos_info_dst_ip w' = Some ip /\ qos_info_dst_port w' = acs_server_port (cl_server w) /\
    ((acs_server_host (cl_server w) = Some ip /\ is_ipaddr ip = true) \/
     (exists l, dm_acsiplist e = Some l /\
        ((ip <> [] /\ strstr ip l <> None /\
          (dm_acsip e = Some ip \/ acs_server_ip (cl_server w) = Some ip)) \/
         ip ∈ csv_fields l))).
Proof.
  assert (Hf : forall ip, update_qos_info ip (acs_server_port (cl_server w)) (set_ip ip w) = w' ->
    acs_server_ip (cl_server w') = ip /\ qos_info_dst_ip w' = ip /\
    qos_info_dst_port w' = acs_server_port (cl_server w)).
  { intros ip <-. unfold update_qos_info. simpl.
    destruct (bool_decide (qos_info_dst_ip w = ip)) eqn:E1; simpl; [|done].
    destruct (qos_info_dst_port w =? acs_server_port (cl_server w)) eqn:E2; simpl; [|done].
    bool_prop. done. }
  assert (Hr : forall ip, cwmp_get_random_ip (dm_acsiplist e) (env_rand e) None = Some ip ->
    exists l, dm_acsiplist e = Some l /\ ip ∈ csv_fields l).
  { intros ip. unfold cwmp_get_random_ip. destruct (dm_acsiplist e) as [l|]; [|done].
    destruct (Nat.ltb 1 (length l)); [|done]. destruct (csv_fields l) as [|a ips] eqn:El; [done|].
    destruct (_ !! _) as [b|] eqn:Eb; [|done]. intros [= <-]. exists l. split; [done|]. rewrite El.
    by eapply list_elem_of_lookup_2. }
  unfold cwmp_client_get_acsip. destruct (is_ip (acs_server_host (cl_server w))) eqn:Ei.
  { destruct (acs_server_host (cl_server w)) as [host|]; [|done].
    intros [= <-]. destruct (Hf (Some host) eq_refl) as (E1 & E2 & E3).
    exists host. split_and!; try done. left. done. }
  assert (Hrand : (update_qos_info (cwmp_get_random_ip (dm_acsiplist e) (env_rand e) None)
      (acs_server_port (cl_server w)) (set_ip (cwmp_get_random_ip (dm_acsiplist e) (env_rand e) None) w),
      if is_null (cwmp_get_random_ip (dm_acsiplist e) (env_rand e) None) then cwmp_status_ko
      else cwmp_status_ok) = (w', cwmp_status_ok) ->
    exists ip, acs_server_ip (cl_server w') = Some ip /\
      qos_info_dst_ip w' = Some ip /\ qos_info_dst_port w' = acs_server_port (cl_server w) /\
      exists l, dm_acsiplist e = Some l /\ ip ∈ csv_fields l).
  { destruct (cwmp_get_random_ip _ _ None) as [ip|] eqn:Er; [|done].
    intros [= Hw]. destruct (Hf _ Hw) as (E1 & E2 & E3). exists ip. split_and!; auto. }
  set (last := match dm_acsip e with Some a => Some a | None => _ end).
  assert (Hlast : forall a, last = Some a -> dm_acsip e = Some a \/ acs_server_ip (cl_server w) = Some a).
  { intros a. unfold last. destruct (dm_acsip e); auto. }
  destruct last as [[|x a]|];
    try (intros (ip & E1 & E2 & E3 & l & Hl & Hin)%Hrand; exists ip; split_and!; eauto 6).
  destruct (dm_acsiplist e) as [l|] eqn:Ea; [|done].
  destruct (strstr (x :: a) l) eqn:Es; cbn [is_null].
  - intros [= Hw]. destruct (Hf _ Hw) as (E1 & E2 & E3). exists (x :: a). split_and!; try done.
    right. exists l. split; [done|]. left. split_and!; [done|by rewrite Es|by apply Hlast].
  - intros (ip & E1 & E2 & E3 & l' & Hl & Hin)%Hrand. exists ip. split_and!; eauto 6.
Qed.

End Client.

(** ** Witnesses *)

Definition ex_encode (s : cstr) : cstr := repeat "A"%char (b64_length (length s)).

Definition ex_b64 (s : cstr) (n : nat) : option cstr :=
  if Nat.leb (b64_length (length s) + 2) n then Some (ex_encode s) else None.

Definition ex_digest (_ _ : cstr) (_ : option cstr) (_ _ : cstr) : option cstr := None.
Definition ex_is_ip (s : cstr) : bool := bool_decide (s = cs "192.0.2.1").
Definition ex_fields (s : cstr) : list cstr := strtok "," s [].

Lemma basic_header_fits_witness :
  cwmp_client_auth_basic ex_b64 (cs "cpe") (cs "secret") =
    Some (cs "Basic AAAAAAAAAAAAAAAA").
Proof.
  apply (basic_header_fits ex_b64 ex_encode (cs "cpe") (cs "secret")).
  intros s n. split.
  - apply repeat_length.
  - intros H. unfold ex_b64. apply Nat.leb_le in H. rewrite H. reflexivity.
Defined.

Notation ex_run := (run ex_b64 ex_digest (fun _ s => s) id (cs "<Env") ex_is_ip ex_fields).

Lemma answer_delivered_witness :
  exists w', ex_run (NewWsi :: map (fun m => Receive m true) [cs "<En"; cs "v>"] ++ [Complete true])
    (set_status 200 (initial (J := cookie_jar_t))) = Some w' /\
    calls w' = [ParseSoap (cs "<Env>")].
Proof.
  apply (answer_delivered ex_b64 ex_digest (fun _ s => s) id (cs "<Env") ex_is_ip ex_fields
    [cs "<En"; cs "v>"] (set_status 200 initial)).
  - discriminate.
  - reflexivity.
  - vm_compute. discriminate.
Defined.

Definition ex_credentials : credentials :=
  {| dm_username := Some (cs "cpe"); dm_password := Some (cs "secret") |}.

Definition ex_start : start_env :=
  {| dm_crhost := Some (cs "192.0.2.9");
     dm_url := Some (Some (cs "http", cs "192.0.2.1", 7547, Some (cs "acs")));
     dm_acsip := None; dm_acsiplist := None; env_rand := 0; dm_session_timeout := Some (cs "-5");
     dm_verify_hostname := None; dm_accept_selfsigned := None; dm_accept_expired := None;
     dm_ntp_status := None; env_credentials := ex_credentials |}.

Definition ex_started : client (J := cookie_jar_t) := (client_startSession ex_b64 ex_digest ex_is_ip ex_fields ex_start initial).1.

Lemma every_exchange_timed_witness :
  0 < session_timeout ex_started < 2 ^ 31 /\ session_timeout ex_started = 45.
Proof.
  split; [|reflexivity].
  apply (every_exchange_timed ex_b64 ex_digest (fun _ s => s) id (cs "<Env") ex_is_ip ex_fields
    [] [] ex_start initial ex_started ex_started []); reflexivity.
Defined.

Definition ex_challenge : response :=
  {| r_status := 401; r_www_authenticate := cs "Basic realm=acs"; r_copy_ok := true; r_cnonce := [];
     r_set_cookie := []; r_malloc_ok := true |}.

Definition ex_sent : client (J := cookie_jar_t) :=
  default ex_started (fst <$> DM_SendHttpMessage (fun _ s => s) (Some (cs "<Env>")) true ex_started).

Lemma auth_retry_never_gives_up_witness :
  exists w', ex_run (concat (repeat (challenge_round ex_challenge ex_credentials) 2)) ex_sent = Some w' /\
    calls w' = calls ex_sent ++
      concat (repeat (round_calls (cs "192.0.2.1") (cs "<Env>") 45
        (answering (cs "Basic AAAAAAAAAAAAAAAA") (cl_session ex_sent))) 2).
Proof.
  apply (auth_retry_never_gives_up ex_b64 ex_digest (fun _ s => s) id (cs "<Env") ex_is_ip ex_fields 2
    ex_challenge ex_credentials ex_sent (cs "192.0.2.1") (cs "<Env>") (cs "cpe") (cs "secret")
    (cs "Basic AAAAAAAAAAAAAAAA")); try reflexivity.
  - vm_compute. lia.
  - vm_compute. discriminate.
Defined.

Definition ex_failing : start_env :=
  {| dm_crhost := Some (cs "192.0.2.9");
     dm_url := Some (Some (cs "http", cs "acs.example", 7547, Some (cs "acs")));
     dm_acsip := None; dm_acsiplist := None; env_rand := 0; dm_session_timeout := None;
     dm_verify_hostname := None; dm_accept_selfsigned := None; dm_accept_expired := None;
     dm_ntp_status := None; env_credentials := ex_credentials |}.

(** A session ends, and the next start finds no address of the ACS: a message
    that the engine sends nevertheless uses the path that was freed. *)
Example failed_start_dangles :
  exists w, ex_run [CloseSession; StartSession ex_failing] ex_started = Some w /\
    (client_startSession ex_b64 ex_digest ex_is_ip ex_fields ex_failing (DM_CloseHttpSession ex_started)).2 = -1 /\
    ex_run [Send (Some (cs "<Env>")) true] w = None.
Proof. eexists. split; [vm_compute; reflexivity|]. split; vm_compute; reflexivity. Qed.

Lemma started_session_sends_witness :
  is_Some (step ex_b64 ex_digest (fun _ s => s) id (cs "<Env") ex_is_ip ex_fields (Send (Some (cs "<Env>")) true) ex_sent).
Proof.
  apply (started_session_sends ex_b64 ex_digest (fun _ s => s) id (cs "<Env") ex_is_ip ex_fields ex_start
    [Send (Some (cs "<Env>")) true] initial ex_sent (Some (cs "<Env>")) true).
  - reflexivity.
  - by apply Forall_singleton.
  - vm_compute. reflexivity.
Defined.

(** The last address is kept although it is no longer in the list: it is a
    prefix of another address. *)
Definition ex_stale : start_env :=
  {| dm_crhost := None; dm_url := None; dm_acsip := Some (cs "198.51.100.1");
     dm_acsiplist := Some (cs "198.51.100.12"); env_rand := 0; dm_session_timeout := None;
     dm_verify_hostname := None; dm_accept_selfsigned := None; dm_accept_expired := None;
     dm_ntp_status := None; env_credentials := ex_credentials |}.

Lemma acsip_chosen_witness :
  exists ip, acs_server_ip (cl_server (cwmp_client_get_acsip ex_is_ip ex_fields ex_stale (initial (J := cookie_jar_t))).1) = Some ip /\
    ip = cs "198.51.100.1" /\ ip ∉ ex_fields (cs "198.51.100.12").
Proof.
  destruct (acsip_chosen (J := cookie_jar_t) ex_is_ip ex_fields ex_stale initial
    (cwmp_client_get_acsip ex_is_ip ex_fields ex_stale initial).1) as (ip & H & _); [reflexivity|].
  exists ip. split; [exact H|]. vm_compute in H. injection H as <-.
  split; [reflexivity|]. apply (bool_decide_unpack _). vm_compute. exact I.
Defined.

End Client.
