(* ===== verification/ConnLimit.v ===== *)
(** * ConnLimit: the limit on connection requests
    ([src/src/dmmain/cwmpd_connectionsecurity.c])

    The daemon keeps the times of the connection requests it accepted and
    refuses a new one when too many fall inside the current period.  The times
    are the state; the clock, the outcome of [calloc] and the two data-model
    parameters are inputs. *)

From Stdlib Require Import ZArith Lia Sorted.
From stdpp Require Import base list strings.
From S2P Require Import Prelude.

Module ConnLimit.

(** [connection_timestamp_list], oldest first. *)
Definition timestamps := list Z.

(** [cwmp_server_initConnectionTimestampList] *)
Definition cwmp_server_initConnectionTimestampList : timestamps := [].

(** [cwmp_server_maxConnectionsAdd] *)
Definition cwmp_server_maxConnectionsAdd (calloc_ok : bool) (now : Z) (l : timestamps) : timestamps :=
  if calloc_ok then l ++ [now] else l.

(** [mc] and [fc]: the two parameters when both could be read, the defaults
    of the library otherwise. *)
Definition limits (default_max default_freq : Z) (values : option (string * string)) : Z * Z :=
  match values with
  | Some (max, freq) => (u32 (atoi max), u32 (atoi freq))
  | None => (u32 default_max, u32 default_freq)
  end.

(** The test of the loop: entries older than the period, or in the future. *)
Definition expired (now fc t : Z) : bool :=
  ((now >? t) && (now - t >? s32 fc)) || (t >? now).

(** [cwmp_server_maxConnectionsReached]: the list without the expired entries
    and the answer. *)
Definition cwmp_server_maxConnectionsReached (mc fc now : Z) (l : timestamps) : timestamps * bool :=
  let l' := List.filter (fun t => negb (expired now fc t)) l in
  (l', Z.of_nat (length l') >? u32 (2 * mc)).

(** [cwmp_server_maxConnectionsCleanup] *)
Definition cwmp_server_maxConnectionsCleanup (l : timestamps) : timestamps := [].

(** ** Sequences of connection requests *)

(** One request at time [now]: the test, then the new entry when accepted
    ([cwmp_server_check_availability] of [cwmpd_server.c]). *)
Definition request (mc fc now : Z) (l : timestamps) : timestamps * bool :=
  let '(l', reached) := cwmp_server_maxConnectionsReached mc fc now l in
  if reached then (l', false) else (cwmp_server_maxConnectionsAdd true now l', true).

(** The list and the times accepted so far, after requests at [nows]. *)
Fixpoint serve (mc fc : Z) (nows : list Z) (l accepted : list Z) : timestamps * list Z :=
  match nows with
  | [] => (l, accepted)
  | now :: nows' =>
      let '(l', ok) := request mc fc now l in
      serve mc fc nows' l' (if ok then accepted ++ [now] else accepted)
  end.

(** The entries of a list that lie in the period that ends at [now]. *)
Definition in_period (fc now : Z) (l : list Z) : list Z := List.filter (fun t => now - t <=? fc) l.

(** ** Lemmas *)

Lemma expired_past fc now t : 0 <= fc < 2 ^ 31 -> t <= now -> negb (expired now fc t) = (now - t <=? fc).
Proof.
  intros Hf Ht. unfold expired. rewrite s32_id by lia.
  destruct (now - t <=? fc) eqn:E; bool_prop.
  - apply negb_true_iff, orb_false_iff. split; [apply andb_false_iff; right|]; rewrite Z.gtb_ltb; apply Z.ltb_ge; lia.
  - apply negb_false_iff, orb_true_iff. left. apply andb_true_iff. rewrite !Z.gtb_ltb, !Z.ltb_lt. lia.
Qed.

Lemma filter_ext_all {A} (f g : A -> bool) l :
  Forall (fun x => f x = g x) l -> List.filter f l = List.filter g l.
Proof. induction 1 as [|x l Hx _ IH]; simpl; [done|]. rewrite Hx, IH. done. Qed.

Lemma filter_app_one {A} (f : A -> bool) l x :
  List.filter f (l ++ [x]) = List.filter f l ++ (if f x then [x] else []).
Proof. rewrite List.filter_app. simpl. by destruct (f x). Qed.

(** A later period sees only entries an earlier one saw. *)
Lemma in_period_later fc now now' l : now <= now' -> in_period fc now' (in_period fc now l) = in_period fc now' l.
Proof.
  intros H. unfold in_period. induction l as [|t l IH]; simpl; [done|].
  destruct (now - t <=? fc) eqn:E1; simpl; destruct (now' - t <=? fc) eqn:E2; bool_prop; try lia; rewrite ?IH; done.
Qed.

Lemma in_period_length fc now l : (length (in_period fc now l) <= length l)%nat.
Proof. apply List.filter_length_le. Qed.

(** The invariant of a run with a clock that never goes back: the list is the
    accepted requests of the last period, and it is never longer than one more
    than the limit. *)
Definition run_inv (mc fc now : Z) (l accepted : list Z) : Prop :=
  l = in_period fc now accepted /\ Forall (fun t => t <= now) accepted /\ Z.of_nat (length l) <= 2 * mc + 1.

Lemma reached_spec mc fc now l :
  0 <= fc < 2 ^ 31 -> 0 <= mc < 2 ^ 31 -> Forall (fun t => t <= now) l ->
  cwmp_server_maxConnectionsReached mc fc now l =
    (in_period fc now l, Z.of_nat (length (in_period fc now l)) >? 2 * mc).
Proof.
  intros Hf Hm Hl. unfold cwmp_server_maxConnectionsReached, in_period. rewrite u32_id by lia.
  rewrite (filter_ext_all _ (fun t => now - t <=? fc)); [done|].
  eapply Forall_impl; [exact Hl|]. intros t Ht. by apply expired_past.
Qed.

Lemma request_inv mc fc now now' l accepted :
  0 <= fc < 2 ^ 31 -> 0 <= mc < 2 ^ 31 -> now <= now' -> run_inv mc fc now l accepted ->
  run_inv mc fc now' (fst (request mc fc now' l))
    (if snd (request mc fc now' l) then accepted ++ [now'] else accepted).
Proof.
  intros Hf Hm Hn (Hl & Ha & Hlen).
  assert (Ha' : Forall (fun t => t <= now') accepted) by (eapply Forall_impl; [exact Ha|]; simpl; lia).
  assert (Hl' : Forall (fun t => t <= now') l).
  { rewrite Hl. unfold in_period. apply Forall_forall. intros t Ht.
    apply list_elem_of_In, List.filter_In in Ht as [Ht _]. rewrite Forall_forall in Ha'. by apply Ha', list_elem_of_In. }
  unfold request. rewrite reached_spec by done.
  assert (Hp : in_period fc now' l = in_period fc now' accepted) by (rewrite Hl; by apply in_period_later).
  rewrite Hp. assert (Hle : Z.of_nat (length (in_period fc now' accepted)) <= 2 * mc + 1).
  { rewrite <- Hp. pose proof (in_period_length fc now' l). lia. }
  destruct (_ >? 2 * mc) eqn:Er; cbn [fst snd].
  - by split_and!.
  - rewrite Z.gtb_ltb in Er. bool_prop. unfold cwmp_server_maxConnectionsAdd. split_and!.
    + unfold in_period. rewrite filter_app_one. simpl.
      destruct (now' - now' <=? fc) eqn:E; bool_prop; [done|lia].
    + apply Forall_app. split; [done|]. by apply Forall_singleton.
    + rewrite length_app. simpl. lia.
Qed.

Lemma serve_inv mc fc nows now l accepted :
  0 <= fc < 2 ^ 31 -> 0 <= mc < 2 ^ 31 -> StronglySorted Z.le (now :: nows) -> run_inv mc fc now l accepted ->
  run_inv mc fc (List.last nows now) (fst (serve mc fc nows l accepted)) (snd (serve mc fc nows l accepted)).
Proof.
  intros Hf Hm. revert now l accepted. induction nows as [|now' nows IH]; intros now l accepted Hs Hi; [done|].
  apply StronglySorted_inv in Hs as [Hs Hn]. apply Forall_cons in Hn as [Hn _].
  pose proof (request_inv mc fc now now' l accepted Hf Hm Hn Hi) as H.
  cbn [serve]. destruct (request mc fc now' l) as [l' ok]. cbn [fst snd] in H.
  replace (List.last (now' :: nows) now) with (List.last nows now'); [by apply IH|].
  clear. revert now'. induction nows as [|x nows IH]; intros now'; [done|]. simpl in *. destruct nows; [done|]. apply IH.
Qed.

Lemma in_period_same fc now n : 0 <= fc -> in_period fc now (repeat now n) = repeat now n.
Proof.
  intros Hf. unfold in_period. induction n as [|n IH]; simpl; [done|].
  destruct (now - now <=? fc) eqn:E; bool_prop; [by rewrite IH|lia].
Qed.

Lemma request_same mc fc now n :
  0 <= fc < 2 ^ 31 -> 0 <= mc < 2 ^ 31 ->
  request mc fc now (repeat now n) =
    if Z.of_nat n >? 2 * mc then (repeat now n, false) else (repeat now (S n), true).
Proof.
  intros Hf Hm. unfold request. rewrite reached_spec; [|done..|apply Forall_forall; intros t Ht].
  - rewrite in_period_same by lia. rewrite repeat_length. destruct (_ >? _); [done|].
    unfold cwmp_server_maxConnectionsAdd. by rewrite <- repeat_cons.
  - apply list_elem_of_In, repeat_spec in Ht. lia.
Qed.

Lemma serve_same mc fc now n m accepted :
  0 <= fc < 2 ^ 31 -> 0 <= mc < 2 ^ 31 -> Z.of_nat (n + m) <= 2 * mc + 1 ->
  serve mc fc (repeat now m) (repeat now n) accepted = (repeat now (n + m), accepted ++ repeat now m).
Proof.
  intros Hf Hm. revert n accepted. induction m as [|m IH]; intros n accepted Hn; cbn [serve repeat].
  - by rewrite Nat.add_0_r, app_nil_r.
  - rewrite request_same by done. destruct (Z.of_nat n >? 2 * mc) eqn:E.
    + rewrite Z.gtb_ltb in E. bool_prop. lia.
    + rewrite (IH (S n)) by lia. f_equal; [f_equal; lia|]. by rewrite <- app_assoc.
Qed.

(** ** Properties *)

(** With a clock that does not go back and limits that fit an [int], any
    sequence of connection requests leaves at most [2 * max + 1] accepted
    requests in the period that ends with the last one. *)
Theorem accepted_per_period (mc fc : Z) (nows : list Z) (now : Z) :
  0 <= fc < 2 ^ 31 -> 0 <= mc < 2 ^ 31 -> StronglySorted Z.le (now :: nows) ->
  Z.of_nat (length (in_period fc (List.last nows now) (snd (serve mc fc (now :: nows) [] [])))) <= 2 * mc + 1.
Proof.
  intros Hf Hm Hs.
  assert (Hs' : StronglySorted Z.le (now :: now :: nows)).
  { apply SSorted_cons; [done|]. apply Forall_cons. split; [lia|]. by apply StronglySorted_inv in Hs as [_ ?]. }
  destruct (serve_inv mc fc (now :: nows) now [] [] Hf Hm Hs') as (Hl & _ & Hlen).
  { split_and!; [done|constructor|simpl; lia]. }
  assert (Hlast : List.last (now :: nows) now = List.last nows now) by (simpl; by destruct nows).
  rewrite Hlast in Hl. by rewrite <- Hl.
Qed.

Lemma accepted_per_period_witness :
  Z.of_nat (length (in_period 60 70 (snd (serve 1 60 [0; 0; 0; 0; 70] [] [])))) <= 2 * 1 + 1 /\
  snd (serve 1 60 [0; 0; 0; 0; 70] [] []) = [0; 0; 0; 70].
Proof.
  split; [|reflexivity]. apply (accepted_per_period 1 60 [0; 0; 0; 70] 0); [lia|lia|].
  repeat constructor; lia.
Defined.

(** The bound is reached.  Of [2 * max + 2] requests that arrive together
    after a quiet period exactly the last is refused: one more than the
    [2 * max] the comment in the code announces is accepted. *)
Theorem one_more_than_announced (mc fc now : Z) :
  0 <= fc < 2 ^ 31 -> 0 <= mc < 2 ^ 31 ->
  snd (serve mc fc (repeat now (Z.to_nat (2 * mc + 2))) [] []) = repeat now (Z.to_nat (2 * mc + 1)).
Proof.
  intros Hf Hm. set (n := Z.to_nat (2 * mc + 1)).
  replace (Z.to_nat (2 * mc + 2)) with (n + 1)%nat by lia. rewrite repeat_app.
  assert (Hserve : forall l1 l2 l a, serve mc fc (l1 ++ l2) l a =
    serve mc fc l2 (fst (serve mc fc l1 l a)) (snd (serve mc fc l1 l a))).
  { induction l1 as [|x l1 IH]; intros l2 l a; [done|]. cbn [app serve]. destruct (request _ _ _ _). apply IH. }
  rewrite Hserve. pose proof (serve_same mc fc now 0 n [] Hf Hm) as H. simpl in H. rewrite H by lia.
  cbn [fst snd app serve repeat]. rewrite request_same by done.
  assert (Z.of_nat n >? 2 * mc = true) as ->; [|done]. rewrite Z.gtb_ltb. apply Z.ltb_lt. lia.
Qed.

Lemma one_more_than_announced_witness :
  snd (serve 1 60 (repeat 0 4) [] []) = [0; 0; 0].
Proof. apply (one_more_than_announced 1 60 0); lia. Defined.

End ConnLimit.
