(* ===== verification/Server.v ===== *)
(** * Server: the connection request server of cwmpd
    ([src/src/dmmain/cwmpd_server.c])

    An ACS asks for a session with an authenticated HTTP GET on a random path.
    The HTTP library (libwebsockets), the digest functions and the engine are
    outside: what they answer is in [http] and [services]; what the daemon
    sends back is the list of responses. *)

From Stdlib Require Import ZArith Lia Ascii.
From stdpp Require Import base list strings.
From S2P Require Import Prelude ConnLimit.

Module Server.

Inductive cwmp_status_t := cwmp_status_ok | cwmp_status_ko.

#[export] Instance cwmp_status_t_eq_dec : EqDecision cwmp_status_t.
Proof. solve_decision. Defined.

(** The parameters of the management server the server reads. *)
Inductive mgmt_param :=
| ENABLECWMP
| LOCALIPADDRESS
| CONNECTIONREQUESTPORT
| CONNECTIONREQUESTPATH
| CONNECTIONREQUESTUSERNAME
| CONNECTIONREQUESTPASSWORD.

(** A request as the HTTP library presents it: the URI it hands over with its
    length, which header tokens it has seen, and the Authorization header. *)
Record http := {
  h_in : string;
  h_len : Z;
  h_get_uri : Z;
  h_http : Z;
  h_authorization : option string;
  h_completed : bool;
}.

(** The static state of the file. *)
Record server := {
  g_randomCpeUrl : option string;
  vhost_name : option string;
  lws_server_ctx : bool;
  lws_server_vhost : bool;
  connection_timestamps : ConnLimit.timestamps;
}.

(** Responses: an HTTP status, or the headers of the digest challenge. *)
Inductive response :=
| Status (code : Z)
| Challenge
| NoContent.

(** The parts of a response that the server writes itself: its status, a header
    and the end of the headers, which sends them. *)
Inductive header_part :=
| StatusLine (code : Z)
| WwwAuthenticate
| ContentLengthZero
| FinalizeHeader.

(** The callbacks of the library the server distinguishes. *)
Inductive callback_reason := LWS_CALLBACK_ESTABLISHED | LWS_CALLBACK_HTTP | LWS_CALLBACK_HTTP_BODY_COMPLETION
| LWS_CALLBACK_OTHER.

(** What the engine and the digest functions answer.  [s_mgmt p] is the result
    code and the value of [DM_ENG_GetManagementServerValue]; [s_hdr_copy v] is
    the content of the 1024 byte buffer after [lws_hdr_copy] of a header of
    value [v]; [s_write] tells whether the library can write a part of a
    response. *)
Record services := {
  s_mgmt : mgmt_param -> Z * option string;
  s_check_digest : string -> bool;
  s_client_digest : string -> option string -> option string -> bool;
  s_request_connection : Z;
  s_create_context : bool;
  s_create_vhost : bool;
  s_authorization_token : string;
  s_hdr_copy : string -> string;
  s_write : header_part -> bool;
}.

Section Services.
Context (S : services).

(** ** Requests *)

(** [cwmp_server_validate_uri]: [requested_uri + 1] skips the slash. *)
Definition cwmp_server_validate_uri (h : http) (sv : server) : cwmp_status_t :=
  if (h_get_uri h =? 0) || (h_http h =? 0) then cwmp_status_ko
  else
    match g_randomCpeUrl sv with
    | None => cwmp_status_ko
    | Some url => if streq (str_tail (h_in h)) url then cwmp_status_ok else cwmp_status_ko
    end.

Definition with_timestamps (l : ConnLimit.timestamps) (sv : server) : server :=
  {| g_randomCpeUrl := g_randomCpeUrl sv; vhost_name := vhost_name sv; lws_server_ctx := lws_server_ctx sv;
     lws_server_vhost := lws_server_vhost sv; connection_timestamps := l |}.

(** [cwmp_server_check_availability] *)
Definition cwmp_server_check_availability (calloc_ok : bool) (mc fc now : Z) (sv : server) : server * cwmp_status_t :=
  let '(l, reached) := ConnLimit.cwmp_server_maxConnectionsReached mc fc now (connection_timestamps sv) in
  if reached then (with_timestamps l sv, cwmp_status_ko)
  else (with_timestamps (ConnLimit.cwmp_server_maxConnectionsAdd calloc_ok now l) sv, cwmp_status_ok).

(** The message given to the digest functions. *)
Definition digest_message (h : http) (value : string) : string :=
  let httpMethod := if negb (h_get_uri h =? 0) then "GET"%string else ""%string in
  (httpMethod +:+ " " +:+ h_in h +:+ String "010"%char (String "013"%char "") +:+ s_authorization_token S
     +:+ " " +:+ s_hdr_copy S value)%string.

(** [cwmp_server_validate_authentication]; the Authorization header is present
    when its length is not zero. *)
Definition cwmp_server_validate_authentication (h : http) : cwmp_status_t :=
  let '(rc_user, user) := s_mgmt S CONNECTIONREQUESTUSERNAME in
  if negb (rc_user =? 0) then cwmp_status_ko
  else
    let '(rc_pass, pass) := s_mgmt S CONNECTIONREQUESTPASSWORD in
    if negb (rc_pass =? 0) then cwmp_status_ko
    else
      match h_authorization h with
      | None => cwmp_status_ko
      | Some value =>
          if streq value "" then cwmp_status_ko
          else
            let digest_message := digest_message h value in
            if s_check_digest S digest_message then
              if s_client_digest S digest_message user pass then cwmp_status_ok else cwmp_status_ko
            else cwmp_status_ko
      end.

(** [cwmp_server_reply_http_unauthorized]: the responses sent and the result *)
Definition cwmp_server_reply_http_unauthorized : list response * cwmp_status_t :=
  if negb (s_write S (StatusLine 401)) then ([], cwmp_status_ko)
  else if negb (s_write S WwwAuthenticate) then ([], cwmp_status_ko)
  else if negb (s_write S ContentLengthZero) then ([], cwmp_status_ko)
  else if negb (s_write S FinalizeHeader) then ([], cwmp_status_ko)
  else ([Challenge], cwmp_status_ok).

(** [cwmp_server_reply_http_no_content] *)
Definition cwmp_server_reply_http_no_content : list response * Z :=
  if negb (s_write S (StatusLine 204)) then ([], 1)
  else if negb (s_write S ContentLengthZero) then ([], 1)
  else if negb (s_write S FinalizeHeader) then ([], 1)
  else ([NoContent], 0).

(** What handling a request did: the responses sent, whether the engine was
    asked for a session, and the return code ([-1] closes the connection). *)
Record handled := {
  r_server : server;
  r_responses : list response;
  r_requested : bool;
  r_rc : Z;
}.

(** [cwmp_server_handle_request] *)
Definition cwmp_server_handle_request (calloc_ok : bool) (mc fc now : Z) (h : http) (sv : server) : handled :=
  if h_len h <? 1 then {| r_server := sv; r_responses := [Status 400]; r_requested := false; r_rc := 0 |}
  else
    let '(sv1, available) := cwmp_server_check_availability calloc_ok mc fc now sv in
    if negb (bool_decide (available = cwmp_status_ok))
    then {| r_server := sv1; r_responses := [Status 503]; r_requested := false; r_rc := 0 |}
    else if negb (bool_decide (cwmp_server_validate_uri h sv1 = cwmp_status_ok))
    then {| r_server := sv1; r_responses := [Status 404]; r_requested := false; r_rc := 0 |}
    else if bool_decide (cwmp_server_validate_authentication h = cwmp_status_ko)
    then {| r_server := sv1; r_responses := cwmp_server_reply_http_unauthorized.1; r_requested := false;
            r_rc := if h_completed h then -1 else 0 |}
    else if s_request_connection S =? 0
    then {| r_server := sv1; r_responses := cwmp_server_reply_http_no_content.1; r_requested := true; r_rc := -1 |}
    else {| r_server := sv1; r_responses := [Status 503]; r_requested := true; r_rc := 0 |}.

(** [cwmp_server_http_callback]; [dummy_rc] is the result of
    [lws_callback_http_dummy]. *)
Definition cwmp_server_http_callback (reason : callback_reason) (dummy_rc : Z) (calloc_ok : bool) (mc fc now : Z)
    (h : http) (sv : server) : handled :=
  match reason with
  | LWS_CALLBACK_HTTP => cwmp_server_handle_request calloc_ok mc fc now h sv
  | LWS_CALLBACK_HTTP_BODY_COMPLETION =>
      {| r_server := sv; r_responses := [Status 200]; r_requested := false; r_rc := dummy_rc |}
  | LWS_CALLBACK_ESTABLISHED | LWS_CALLBACK_OTHER =>
      {| r_server := sv; r_responses := []; r_requested := false; r_rc := dummy_rc |}
  end.

(** ** Start and stop *)

(** [cwmp_server_init_lws] *)
Definition cwmp_server_init_lws (server_host : option string) (sv : server) : server * cwmp_status_t :=
  match server_host with
  | None => (sv, cwmp_status_ko)
  | Some host =>
      let sv1 := {| g_randomCpeUrl := g_randomCpeUrl sv; vhost_name := Some host;
                    lws_server_ctx := lws_server_ctx sv; lws_server_vhost := lws_server_vhost sv;
                    connection_timestamps := connection_timestamps sv |} in
      if streq host "" then (sv1, cwmp_status_ko)
      else
        let sv2 := {| g_randomCpeUrl := g_randomCpeUrl sv1; vhost_name := vhost_name sv1;
                      lws_server_ctx := s_create_context S; lws_server_vhost := lws_server_vhost sv1;
                      connection_timestamps := connection_timestamps sv1 |} in
        if s_create_context S then (sv2, cwmp_status_ok) else (sv2, cwmp_status_ko)
  end.

(** [cwmp_server_start]; [None] is the crash of [atoi] on a null port. *)
Definition cwmp_server_start (sv : server) : option (server * cwmp_status_t) :=
  let '(rc_enabled, enabled) := s_mgmt S ENABLECWMP in
  if negb (rc_enabled =? 0) then Some (sv, cwmp_status_ko)
  else if (match enabled with None => true | Some v => streq v "0" end) then Some (sv, cwmp_status_ko)
  else
    let '(rc_host, host) := s_mgmt S LOCALIPADDRESS in
    if negb (rc_host =? 0) then Some (sv, cwmp_status_ko)
    else if (match host with None => false | Some v => streq v "" || streq v "0.0.0.0" end)
    then Some (sv, cwmp_status_ok)
    else
      let '(rc_port, port) := s_mgmt S CONNECTIONREQUESTPORT in
      if negb (rc_port =? 0) then Some (sv, cwmp_status_ko)
      else
        let '(rc_path, path) := s_mgmt S CONNECTIONREQUESTPATH in
        let set_url u := {| g_randomCpeUrl := u; vhost_name := vhost_name sv;
                            lws_server_ctx := lws_server_ctx sv; lws_server_vhost := lws_server_vhost sv;
                            connection_timestamps := connection_timestamps sv |} in
        if negb (rc_path =? 0) then Some (set_url None, cwmp_status_ko)
        else
          let sv1 := with_timestamps ConnLimit.cwmp_server_initConnectionTimestampList (set_url path) in
          match port with
          | None => None
          | Some _ =>
              let '(sv2, st) := cwmp_server_init_lws host sv1 in
              if bool_decide (st = cwmp_status_ko) then Some (sv2, cwmp_status_ko)
              else
                let sv3 := {| g_randomCpeUrl := g_randomCpeUrl sv2; vhost_name := vhost_name sv2;
                              lws_server_ctx := lws_server_ctx sv2; lws_server_vhost := s_create_vhost S;
                              connection_timestamps := connection_timestamps sv2 |} in
                if s_create_vhost S then Some (sv3, cwmp_status_ok) else Some (sv3, cwmp_status_ko)
          end.

End Services.

(** [cwmp_server_stop] *)
Definition cwmp_server_stop (sv : server) : server * cwmp_status_t :=
  ({| g_randomCpeUrl := None; vhost_name := None; lws_server_ctx := false; lws_server_vhost := false;
      connection_timestamps := ConnLimit.cwmp_server_maxConnectionsCleanup (connection_timestamps sv) |},
   cwmp_status_ok).

(** The state before the first start. *)
Definition stopped : server :=
  {| g_randomCpeUrl := None; vhost_name := None; lws_server_ctx := false; lws_server_vhost := false;
     connection_timestamps := [] |}.

(** ** Lemmas *)

Lemma uri_valid h sv :
  cwmp_server_validate_uri h sv = cwmp_status_ok <->
  h_get_uri h <> 0 /\ h_http h <> 0 /\ g_randomCpeUrl sv = Some (str_tail (h_in h)).
Proof.
  unfold cwmp_server_validate_uri. destruct (_ || _) eqn:E.
  - split; [done|]. intros (H1 & H2 & _). apply orb_true_iff in E as [E|E]; apply Z.eqb_eq in E; done.
  - bool_prop. destruct (g_randomCpeUrl sv) as [url|]; [|naive_solver].
    destruct (streq (str_tail (h_in h)) url) eqn:Eu; bool_prop; [subst; naive_solver|].
    split; [done|]. intros (_ & _ & [= ->]). done.
Qed.

(** The credentials were read and the digest functions accept them. *)
Definition authenticated (S : services) (h : http) : Prop :=
  exists user pass value, s_mgmt S CONNECTIONREQUESTUSERNAME = (0, user) /\
    s_mgmt S CONNECTIONREQUESTPASSWORD = (0, pass) /\ h_authorization h = Some value /\ value <> ""%string /\
    s_check_digest S (digest_message S h value) = true /\
    s_client_digest S (digest_message S h value) user pass = true.

Local Ltac refuse := split; [discriminate|intros (? & ? & ? & ? & ? & ? & ? & ? & ?); congruence].

Lemma authentication_valid S h : cwmp_server_validate_authentication S h = cwmp_status_ok <-> authenticated S h.
Proof.
  unfold cwmp_server_validate_authentication, authenticated.
  destruct (s_mgmt S CONNECTIONREQUESTUSERNAME) as [ru u]. destruct (ru =? 0) eqn:Eu; bool_prop; cbn [negb]; [|refuse].
  destruct (s_mgmt S CONNECTIONREQUESTPASSWORD) as [rp p]. destruct (rp =? 0) eqn:Ep; bool_prop; cbn [negb]; [|refuse].
  destruct (h_authorization h) as [v|]; [|refuse].
  destruct (streq v "") eqn:Ev; bool_prop; [refuse|].
  destruct (s_check_digest S (digest_message S h v)) eqn:Ec; [|refuse].
  destruct (s_client_digest S (digest_message S h v) u p) eqn:Ed; [|refuse].
  split; [|done]. intros _. by exists u, p, v; subst.
Qed.

(** The two responses of the server are sent exactly if all parts are written. *)
Definition written (S : services) (parts : list header_part) : bool := forallb (s_write S) parts.

Definition challenge_parts : list header_part := [StatusLine 401; WwwAuthenticate; ContentLengthZero; FinalizeHeader].
Definition no_content_parts : list header_part := [StatusLine 204; ContentLengthZero; FinalizeHeader].

#[local] Arguments written : simpl never.

Lemma unauthorized_sent S :
  (cwmp_server_reply_http_unauthorized S).1 = if written S challenge_parts then [Challenge] else [].
Proof. unfold cwmp_server_reply_http_unauthorized, written, challenge_parts. simpl. by repeat destruct (s_write _ _). Qed.

Lemma no_content_sent S :
  (cwmp_server_reply_http_no_content S).1 = if written S no_content_parts then [NoContent] else [].
Proof. unfold cwmp_server_reply_http_no_content, written, no_content_parts. simpl. by repeat destruct (s_write _ _). Qed.

(** A request with a wrong URI is answered 404 (or 503) and leaves its time. *)
Lemma wrong_uri_step S mc fc now h sv n :
  0 <= fc < 2 ^ 31 -> 0 <= mc < 2 ^ 31 -> 1 <= h_len h -> g_randomCpeUrl sv <> Some (str_tail (h_in h)) ->
  connection_timestamps sv = repeat now n -> Z.of_nat n <= 2 * mc ->
  cwmp_server_handle_request S true mc fc now h sv =
    {| r_server := with_timestamps (repeat now (Datatypes.S n)) sv; r_responses := [Status 404];
       r_requested := false; r_rc := 0 |}.
Proof.
  intros Hf Hm Hl Hu Ht Hn. unfold cwmp_server_handle_request, cwmp_server_check_availability.
  pose proof (ConnLimit.request_same mc fc now n Hf Hm) as Hr. unfold ConnLimit.request in Hr. rewrite Ht.
  assert (h_len h <? 1 = false) as -> by (apply Z.ltb_ge; lia).
  destruct (ConnLimit.cwmp_server_maxConnectionsReached mc fc now (repeat now n)) as [l reached].
  assert (Z.of_nat n >? 2 * mc = false) as E by (rewrite Z.gtb_ltb; apply Z.ltb_ge; lia). rewrite E in Hr.
  unfold ConnLimit.cwmp_server_maxConnectionsAdd in *.
  destruct reached; [done|]. injection Hr as Hr. rewrite Hr. simpl. rewrite bool_decide_eq_false_2; [done|].
  rewrite uri_valid. simpl. naive_solver.
Qed.

(** The server after [n] requests at the same time. *)
Fixpoint repeat_request (S : services) (mc fc now : Z) (h : http) (n : nat) (sv : server) : server :=
  match n with
  | O => sv
  | Datatypes.S n' => repeat_request S mc fc now h n' (r_server (cwmp_server_handle_request S true mc fc now h sv))
  end.

Lemma repeat_wrong_uri S mc fc now h n m sv :
  0 <= fc < 2 ^ 31 -> 0 <= mc < 2 ^ 31 -> 1 <= h_len h -> g_randomCpeUrl sv <> Some (str_tail (h_in h)) ->
  connection_timestamps sv = repeat now n -> Z.of_nat (n + m) <= 2 * mc + 1 ->
  connection_timestamps (repeat_request S mc fc now h m sv) = repeat now (n + m).
Proof.
  intros Hf Hm Hl. revert n sv. induction m as [|m IH]; intros n sv Hu Ht Hn; simpl.
  - by rewrite Nat.add_0_r.
  - rewrite (wrong_uri_step S mc fc now h sv n) by (done || lia). simpl.
    rewrite (IH (Datatypes.S n)) by (done || (simpl; lia)). f_equal. lia.
Qed.

(** ** Properties *)

Local Ltac no_request :=
  split; [intros Hc; discriminate Hc|intros Hall; destruct_and? Hall; try discriminate; try congruence; try contradiction].

(** C38: no session without authentication.  In any callback of the library
    the engine is asked for a session exactly when it is that of a request that is
    not empty, the limit on connection requests is not reached, the request is a
    GET of the random path of the server, and the digest functions accept the
    credentials of the data model.  The callback of a request makes exactly one
    response, unless it is the challenge or the 204 and the library cannot write
    one of its parts: then none.  The 204 is sent exactly if a session was
    granted and its parts are written, and nothing of the server but the times of
    the requests changes. *)
Theorem session_requires_authentication (S : services) (reason : callback_reason) (dummy_rc : Z)
    (calloc_ok : bool) (mc fc now : Z) (h : http) (sv : server) :
  let r := cwmp_server_http_callback S reason dummy_rc calloc_ok mc fc now h sv in
  let granted := r_requested r = true /\ s_request_connection S = 0 in
  (r_requested r = true <->
     reason = LWS_CALLBACK_HTTP /\ 1 <= h_len h /\
     snd (ConnLimit.cwmp_server_maxConnectionsReached mc fc now (connection_timestamps sv)) = false /\
     h_get_uri h <> 0 /\ h_http h <> 0 /\ g_randomCpeUrl sv = Some (str_tail (h_in h)) /\ authenticated S h) /\
  (reason = LWS_CALLBACK_HTTP ->
     length (r_responses r) = 1%nat \/
     (r_responses r = [] /\
        ((r_requested r = false /\ ~ authenticated S h /\ written S challenge_parts = false) \/
         (granted /\ written S no_content_parts = false)))) /\
  (r_responses r = [NoContent] <-> granted /\ written S no_content_parts = true) /\
  r_server r = with_timestamps (connection_timestamps (r_server r)) sv.
Proof.
  intros r granted. subst granted r. destruct reason; cbn [cwmp_server_http_callback r_requested r_responses r_server];
    try (split_and!; [naive_solver..|by destruct sv]).
  unfold cwmp_server_handle_request, cwmp_server_check_availability.
  destruct (h_len h <? 1) eqn:El; bool_prop.
  { simpl. split_and!; [no_request; lia|by left|no_request|by destruct sv]. }
  destruct (ConnLimit.cwmp_server_maxConnectionsReached mc fc now (connection_timestamps sv)) as [l reached]. cbn [snd].
  destruct reached; [change (bool_decide (cwmp_status_ko = cwmp_status_ok)) with false; simpl;
    split_and!; [no_request|by left|no_request|done]|].
  set (l' := ConnLimit.cwmp_server_maxConnectionsAdd calloc_ok now l).
  change (bool_decide (cwmp_status_ok = cwmp_status_ok)) with true. cbn [negb].
  destruct (bool_decide (cwmp_server_validate_uri h (with_timestamps l' sv) = cwmp_status_ok)) eqn:Eu; bool_prop.
  2: { rewrite uri_valid in Eu. cbn in *. split_and!; [no_request; by destruct Eu|by left|no_request|done]. }
  apply uri_valid in Eu as (H1 & H2 & H3). simpl in H3. cbn [negb].
  destruct (bool_decide (cwmp_server_validate_authentication S h = cwmp_status_ko)) eqn:Ea; bool_prop.
  - assert (Hn : ~ authenticated S h) by (rewrite <- authentication_valid; congruence).
    cbn. rewrite unauthorized_sent. destruct (written S challenge_parts) eqn:E;
      (split_and!; [no_request|intros _; first [by left|right; naive_solver]|no_request|done]).
  - assert (Hy : authenticated S h).
    { apply authentication_valid. by destruct (cwmp_server_validate_authentication S h). }
    destruct (s_request_connection S =? 0) eqn:Er; bool_prop; cbn.
    + rewrite no_content_sent. destruct (written S no_content_parts) eqn:E; 
        (split_and!; [done|intros _; first [by left|right; naive_solver]|split; [intros Hc; try discriminate Hc; auto|intros [_ Hf]; by try discriminate Hf]|done]).
    + split_and!; [done|by left|no_request|done].
Qed.

(** The limit counts requests before they are authenticated.  From an
    empty list, [2 * max + 1] requests for a wrong path are enough to have the
    next request of the period refused with 503, whatever its credentials. *)
Theorem wrong_requests_use_the_quota (S : services) (mc fc now : Z) (bad h : http) (sv : server) :
  0 <= fc < 2 ^ 31 -> 0 <= mc < 2 ^ 31 -> 1 <= h_len bad -> 1 <= h_len h ->
  g_randomCpeUrl sv <> Some (str_tail (h_in bad)) -> connection_timestamps sv = [] ->
  let sv' := repeat_request S mc fc now bad (Z.to_nat (2 * mc + 1)) sv in
  r_responses (cwmp_server_handle_request S true mc fc now h sv') = [Status 503] /\
  r_requested (cwmp_server_handle_request S true mc fc now h sv') = false.
Proof.
  intros Hf Hm Hb Hl Hu Ht sv'. set (n := Z.to_nat (2 * mc + 1)) in *.
  assert (Hs : connection_timestamps sv' = repeat now n).
  { apply (repeat_wrong_uri S mc fc now bad 0 n); try done. lia. }
  unfold cwmp_server_handle_request, cwmp_server_check_availability. rewrite Hs.
  assert (h_len h <? 1 = false) as -> by (apply Z.ltb_ge; lia).
  rewrite ConnLimit.reached_spec; [|done..|].
  - rewrite ConnLimit.in_period_same, repeat_length by lia.
    assert (Z.of_nat n >? 2 * mc = true) as -> by (rewrite Z.gtb_ltb; apply Z.ltb_lt; lia). done.
  - apply Forall_forall. intros t Ht'. apply list_elem_of_In, repeat_spec in Ht'. lia.
Qed.

(** A server whose path is [p], services that accept every digest, and two
    requests. *)
Definition sample_services : services :=
  {| s_mgmt := fun _ => (0, Some "x"%string); s_check_digest := fun _ => true;
     s_client_digest := fun _ _ _ => true; s_request_connection := 0; s_create_context := true;
     s_create_vhost := true; s_authorization_token := "Authorization:"; s_hdr_copy := fun v => v;
     s_write := fun _ => true |}.

Definition sample_request (uri : string) : http :=
  {| h_in := uri; h_len := 2; h_get_uri := 2; h_http := 8; h_authorization := Some "Digest x"%string;
     h_completed := false |}.

Definition sample_server : server :=
  {| g_randomCpeUrl := Some "p"%string; vhost_name := None; lws_server_ctx := true; lws_server_vhost := true;
     connection_timestamps := [] |}.

Lemma wrong_requests_use_the_quota_witness :
  r_responses (cwmp_server_handle_request sample_services true 1 60 5 (sample_request "/p") sample_server) = [NoContent] /\
  r_responses (cwmp_server_handle_request sample_services true 1 60 5 (sample_request "/p")
    (repeat_request sample_services 1 60 5 (sample_request "/q") 3 sample_server)) = [Status 503].
Proof.
  split; [vm_compute; reflexivity|].
  apply (wrong_requests_use_the_quota sample_services 1 60 5 (sample_request "/q") (sample_request "/p") sample_server);
    try (simpl; lia); [discriminate|reflexivity].
Defined.

(** The outcome of [cwmp_server_start].  When it reports success, either
    the WAN is down (the local address is empty or 0.0.0.0) and nothing
    changed, or the server listens: context and virtual host exist, the virtual
    host is the local address, the path is the one of the data model and no
    connection request is remembered. *)
Theorem server_start_outcome (S : services) (sv sv' : server) :
  cwmp_server_start S sv = Some (sv', cwmp_status_ok) ->
  (exists v, s_mgmt S LOCALIPADDRESS = (0, Some v) /\ (v = ""%string \/ v = "0.0.0.0"%string) /\ sv' = sv) \/
  (exists host path, s_mgmt S LOCALIPADDRESS = (0, Some host) /\ host <> ""%string /\ host <> "0.0.0.0"%string /\
     s_mgmt S CONNECTIONREQUESTPATH = (0, path) /\
     sv' = {| g_randomCpeUrl := path; vhost_name := Some host; lws_server_ctx := true; lws_server_vhost := true;
              connection_timestamps := [] |}).
Proof.
  unfold cwmp_server_start. destruct (s_mgmt S ENABLECWMP) as [re en]. destruct (negb (re =? 0)); [done|].
  destruct (match en with None => true | Some v => streq v "0" end); [done|].
  destruct (s_mgmt S LOCALIPADDRESS) as [rh host] eqn:Eh. destruct (rh =? 0) eqn:Erh; bool_prop; [|done]. simpl. subst rh.
  destruct host as [host|]; simpl.
  2: { destruct (s_mgmt S CONNECTIONREQUESTPORT) as [rp port]. destruct (negb (rp =? 0)); [done|].
       destruct (s_mgmt S CONNECTIONREQUESTPATH) as [ru path]. destruct (negb (ru =? 0)); [done|]. by destruct port. }
  destruct (streq host "" || streq host "0.0.0.0") eqn:Ew.
  { intros [= <-]. left. exists host. apply orb_true_iff in Ew as [Ew|Ew]; bool_prop; naive_solver. }
  bool_prop.
  destruct (s_mgmt S CONNECTIONREQUESTPORT) as [rp port]. destruct (negb (rp =? 0)); [done|].
  destruct (s_mgmt S CONNECTIONREQUESTPATH) as [ru path] eqn:Ep. destruct (ru =? 0) eqn:Eru; bool_prop; [|done]. subst ru. simpl.
  destruct port as [port|]; [|done]. rewrite (proj2 (streq_false host "") ltac:(done)).
  destruct (s_create_context S); simpl; [|done]. destruct (s_create_vhost S); simpl; [|done].
  intros [= <-]. right. by exists host, path.
Qed.

Lemma server_start_outcome_witness :
  exists sv', cwmp_server_start sample_services stopped = Some (sv', cwmp_status_ok) /\ lws_server_vhost sv' = true.
Proof.
  eexists. split; [reflexivity|].
  destruct (server_start_outcome sample_services stopped _ eq_refl) as [(v & H & [-> | ->] & _)|(host & path & _ & _ & _ & _ & H)];
    [discriminate..|reflexivity].
Defined.

End Server.
