(* ===== verification/Dns.v ===== *)
(** * Dns: resolution of the ACS host ([src/src/dmmain/cwmpd_dns.c])

    cwmpd resolves the host of the ACS URL with c-ares.  Each resolution owns
    a [resolver_t] with its own c-ares channel, the libevent events of the
    sockets of the channel, and two timers; a newer resolution marks the older
    ones as dirty and their results are ignored.  A resolver is freed by its
    clean timer, two seconds after its last callback.

    The file statics are the record [dns]; what the code asks of libevent,
    c-ares and the engine is recorded in the call log [calls].  Callbacks of
    c-ares are the data [ares_cb], delivered to a live channel; the steps of
    the component are [dns_event].  The decomposition of the URL, the test for
    literal addresses and the two address printers are parameters. *)

From Stdlib Require Import ZArith Lia.
From stdpp Require Import base list gmap strings.
From S2P Require Import Prelude.

Module Dns.

Definition AF_UNSPEC : Z := 0.
Definition AF_INET : Z := 2.
Definition AF_INET6 : Z := 10.
Definition EV_READ : Z := 2.
Definition EV_WRITE : Z := 4.
Definition ARES_SOCKET_BAD : Z := -1.
Definition ARES_SUCCESS : Z := 0.
Definition ARES_EDESTRUCTION : Z := 16.
Definition INT_MAX : Z := 2 ^ 31 - 1.

(** ** Timers of the event library

    A pointer to a timer is an [option timer]; [tm_running] holds the delay of
    a started timer, [tm_interval] is zero for a one-shot timer.  All calls
    accept the null pointer. *)

Record timer := { tm_running : option Z; tm_interval : Z }.

Definition amxp_timer_new : option timer := Some {| tm_running := None; tm_interval := 0 |}.

Definition amxp_timer_start (ms : Z) (t : option timer) : option timer :=
  (fun t => {| tm_running := Some ms; tm_interval := tm_interval t |}) <$> t.

Definition amxp_timer_stop (t : option timer) : option timer :=
  (fun t => {| tm_running := None; tm_interval := tm_interval t |}) <$> t.

Definition amxp_timer_set_interval (ms : Z) (t : option timer) : option timer :=
  (fun t => {| tm_running := tm_running t; tm_interval := ms |}) <$> t.

Definition running (t : option timer) : bool :=
  match t with Some t => negb (is_null (tm_running t)) | None => false end.

(** The state of a timer when its callback runs: restarted or stopped. *)
Definition expire (t : option timer) : option timer :=
  (fun t => {| tm_running := if tm_interval t =? 0 then None else Some (tm_interval t);
               tm_interval := tm_interval t |}) <$> t.

(** ** Data *)

(** [event_pair_t]: [ep_event] is the address of the libevent event. *)
Record event_pair := { ep_event : option nat; ep_fd : Z }.

(** [resolver_t]: [rv_id] stands for its address. *)
Record resolver := {
  rv_id : nat;
  rv_host : string;
  rv_dirty : bool;
  rv_family : Z;
  rv_events : list event_pair;
  rv_clean_timer : option timer;
  rv_timeout_timer : option timer;
}.

(** [addr_info_t] *)
Record addr_info := { ip : string; ttl : Z }.

Inductive call :=
| EventNew (e : nat) (fd events : Z)
| EventAdd (e : nat)
| EventDel (e : nat)
| EventFree (e : nat)
| AresGetAddrInfo (rv : nat) (host : string) (family : Z)
| AresProcessFd (rv : nat) (read write : Z)
| AresDestroy (rv : nat)
| SetAcsIpList (s : string)
| BootstrapInform.

(** The file statics.  [queries] holds the resolvers whose
    [ares_getaddrinfo] has not called back yet, [next] the next free
    address. *)
Record dns := {
  dns_ttl_timer : option timer;
  dns_ttl_val : Z;
  ainfo_list : list addr_info;
  resolver_list : list resolver;
  send_bootstrap : bool;
  queries : list nat;
  next : nat;
  calls : list call;
}.

Definition with_timer (f : option timer -> option timer) (w : dns) : dns :=
  {| dns_ttl_timer := f (dns_ttl_timer w); dns_ttl_val := dns_ttl_val w; ainfo_list := ainfo_list w;
     resolver_list := resolver_list w; send_bootstrap := send_bootstrap w; queries := queries w;
     next := next w; calls := calls w |}.

Definition with_ainfo (v : Z) (l : list addr_info) (w : dns) : dns :=
  {| dns_ttl_timer := dns_ttl_timer w; dns_ttl_val := v; ainfo_list := l;
     resolver_list := resolver_list w; send_bootstrap := send_bootstrap w; queries := queries w;
     next := next w; calls := calls w |}.

Definition with_resolvers (l : list resolver) (w : dns) : dns :=
  {| dns_ttl_timer := dns_ttl_timer w; dns_ttl_val := dns_ttl_val w; ainfo_list := ainfo_list w;
     resolver_list := l; send_bootstrap := send_bootstrap w; queries := queries w;
     next := next w; calls := calls w |}.

Definition with_bootstrap (b : bool) (w : dns) : dns :=
  {| dns_ttl_timer := dns_ttl_timer w; dns_ttl_val := dns_ttl_val w; ainfo_list := ainfo_list w;
     resolver_list := resolver_list w; send_bootstrap := b; queries := queries w;
     next := next w; calls := calls w |}.

Definition with_queries (q : list nat) (w : dns) : dns :=
  {| dns_ttl_timer := dns_ttl_timer w; dns_ttl_val := dns_ttl_val w; ainfo_list := ainfo_list w;
     resolver_list := resolver_list w; send_bootstrap := send_bootstrap w; queries := q;
     next := next w; calls := calls w |}.

Definition fresh (w : dns) : dns :=
  {| dns_ttl_timer := dns_ttl_timer w; dns_ttl_val := dns_ttl_val w; ainfo_list := ainfo_list w;
     resolver_list := resolver_list w; send_bootstrap := send_bootstrap w; queries := queries w;
     next := S (next w); calls := calls w |}.

Definition log (cs : list call) (w : dns) : dns :=
  {| dns_ttl_timer := dns_ttl_timer w; dns_ttl_val := dns_ttl_val w; ainfo_list := ainfo_list w;
     resolver_list := resolver_list w; send_bootstrap := send_bootstrap w; queries := queries w;
     next := next w; calls := calls w ++ cs |}.

Definition rv_with_events (l : list event_pair) (r : resolver) : resolver :=
  {| rv_id := rv_id r; rv_host := rv_host r; rv_dirty := rv_dirty r; rv_family := rv_family r;
     rv_events := l; rv_clean_timer := rv_clean_timer r; rv_timeout_timer := rv_timeout_timer r |}.

Definition rv_with_timers (c t : option timer) (r : resolver) : resolver :=
  {| rv_id := rv_id r; rv_host := rv_host r; rv_dirty := rv_dirty r; rv_family := rv_family r;
     rv_events := rv_events r; rv_clean_timer := c; rv_timeout_timer := t |}.

Definition rv_mark_dirty (r : resolver) : resolver :=
  {| rv_id := rv_id r; rv_host := rv_host r; rv_dirty := true; rv_family := rv_family r;
     rv_events := rv_events r; rv_clean_timer := rv_clean_timer r;
     rv_timeout_timer := rv_timeout_timer r |}.

Section Dns.

(** [struct sockaddr] of the answers and the addresses inside *)
Context {sockaddr in_addr : Type}.
Context (sin_addr sin6_addr : sockaddr -> in_addr).
(** [inet_ntop] on the [sa_data] of the address, [ares_inet_ntop]: [None] on
    failure, where the buffer keeps its content *)
Context (inet_ntop : Z -> sockaddr -> option string).
Context (ares_inet_ntop : Z -> option in_addr -> option string).
(** [lws_parse_uri]: the host of an URL; [is_ipaddr] *)
Context (parse_uri : string -> option string) (is_ipaddr : string -> bool).

(** [struct ares_addrinfo_node] *)
Record ai_node := { ai_family : Z; ai_addr : sockaddr; ai_ttl : Z }.

(** ** Events of the sockets *)

Definition event_list_findby_fd (l : list event_pair) (fd : Z) : option event_pair :=
  List.find (fun p => ep_fd p =? fd) l.

(** Removal of the first pair of that descriptor ([amxc_llist_it_take]). *)
Fixpoint event_list_take (l : list event_pair) (fd : Z) : list event_pair :=
  match l with
  | [] => []
  | p :: l' => if ep_fd p =? fd then l' else p :: event_list_take l' fd
  end.

(** Update of the first pair of that descriptor. *)
Fixpoint event_list_set (l : list event_pair) (fd : Z) (e : option nat) : list event_pair :=
  match l with
  | [] => []
  | p :: l' =>
      if ep_fd p =? fd then {| ep_event := e; ep_fd := ep_fd p |} :: l'
      else p :: event_list_set l' fd e
  end.

Definition event_release (p : event_pair) : list call :=
  match ep_event p with
  | Some e => [EventDel e; EventFree e]
  | None => []
  end.

(** [amxc_llist_clean (&resolver->event_list, event_list_clean)] *)
Definition event_list_clean (l : list event_pair) : list call :=
  concat (map event_release l).

Definition cwmp_dns_fd_poll_stop (fd : Z) (r : resolver) (w : dns) : resolver * dns :=
  match event_list_findby_fd (rv_events r) fd with
  | None => (r, w)
  | Some p => (rv_with_events (event_list_take (rv_events r) fd) r, log (event_release p) w)
  end.

(** [malloc_ok]: the outcome of the [malloc] of the pair. *)
Definition cwmp_dns_fd_poll_start (malloc_ok : bool) (events fd : Z) (r : resolver) (w : dns)
    : resolver * dns :=
  let add (l : list event_pair) (w : dns) :=
    let e := next w in
    (rv_with_events (event_list_set l fd (Some e)) r,
     log [EventNew e fd events; EventAdd e] (fresh w)) in
  match event_list_findby_fd (rv_events r) fd with
  | None =>
      if negb malloc_ok then (r, w)
      else add (rv_events r ++ [{| ep_event := None; ep_fd := fd |}]) w
  | Some p => add (rv_events r) (log (event_release p) w)
  end.

Definition resolver_clean_timer_start (r : resolver) : resolver :=
  match rv_clean_timer r with
  | None => rv_with_timers (amxp_timer_start 2000 amxp_timer_new) (rv_timeout_timer r) r
  | Some _ => r
  end.

(** [cwmp_dns_ares_sock_cb] *)
Definition cwmp_dns_ares_sock_cb (malloc_ok : bool) (fd read write : Z) (r : resolver) (w : dns)
    : resolver * dns :=
  if read + write =? 0 then
    let '(r, w) := cwmp_dns_fd_poll_stop fd r w in
    match rv_events r with
    | [] =>
        (resolver_clean_timer_start
           (rv_with_timers (rv_clean_timer r) (amxp_timer_stop (rv_timeout_timer r)) r), w)
    | _ :: _ => (r, w)
    end
  else
    let events := Z.lor (if read =? 0 then 0 else EV_READ) (if write =? 0 then 0 else EV_WRITE) in
    let '(r, w) := cwmp_dns_fd_poll_start malloc_ok events fd r w in
    match rv_timeout_timer r with
    | None =>
        (rv_with_timers (rv_clean_timer r)
           (amxp_timer_start 2000 (amxp_timer_set_interval 2000 amxp_timer_new)) r, w)
    | Some _ => (r, w)
    end.

(** ** Results *)

(** One node of [cwmp_dns_read_ai]: [buf] is the buffer [ip], [nip] the
    address pointer, both kept from one node to the next. *)
Definition read_node (n : ai_node) (buf : string) (nip : option in_addr) : string * option in_addr :=
  let buf := default buf (inet_ntop (ai_family n) (ai_addr n)) in
  let nip :=
    if ai_family n =? AF_INET then Some (sin_addr (ai_addr n))
    else if ai_family n =? AF_INET6 then Some (sin6_addr (ai_addr n))
    else nip in
  (default buf (ares_inet_ntop (ai_family n) nip), nip).

Fixpoint read_nodes (nodes : list ai_node) (buf : string) (nip : option in_addr)
    (v : Z) (l : list addr_info) : Z * list addr_info :=
  match nodes with
  | [] => (v, l)
  | n :: nodes' =>
      let '(buf, nip) := read_node n buf nip in
      if streq buf "" then read_nodes nodes' buf nip v l
      else
        read_nodes nodes' buf nip (if ai_ttl n <? v then ai_ttl n else v)
          (l ++ [{| ip := buf; ttl := u32 (ai_ttl n) |}])
  end.

Definition cwmp_dns_read_ai (nodes : list ai_node) (w : dns) : dns :=
  let '(v, l) := read_nodes nodes "" None INT_MAX [] in
  with_ainfo v l w.

(** The string of [cwmp_dns_update_dm] *)
Fixpoint addr_list_str (l : list addr_info) : string :=
  match l with
  | [] => ""
  | [a] => ip a
  | a :: l' => String.append (ip a) (String.append "," (addr_list_str l'))
  end.

Definition cwmp_dns_update_dm (w : dns) : dns :=
  with_ainfo (dns_ttl_val w) [] (log [SetAcsIpList (addr_list_str (ainfo_list w))] w).

(** A value of the data model as [DM_ENG_GetManagementServerValue] delivers
    it: the outer [None] is a non-zero return code, the inner one NULL. *)
Definition ms_value := option (option string).

Definition ms_string (v : ms_value) : option string := mjoin v.

(** [cwmp_dns_schedule] *)
Definition cwmp_dns_schedule (interval : ms_value) (w : dns) : dns :=
  let v :=
    if (dns_ttl_val w <=? 0) || (dns_ttl_val w =? INT_MAX) then
      match ms_string interval with Some s => atoi s | None => 300 end
    else dns_ttl_val w in
  with_timer (amxp_timer_start (u32 (s32 (v * 1000)))) (with_ainfo v (ainfo_list w) w).

Definition flush_bootstrap (w : dns) : dns :=
  if send_bootstrap w then with_bootstrap false (log [BootstrapInform] w) else w.

Definition retry : dns -> dns := with_timer (amxp_timer_start (5 * 1000)).

(** [cwmp_dns_resolve_cb] *)
Definition cwmp_dns_resolve_cb (status : Z) (ai : option (list ai_node)) (interval : ms_value)
    (r : resolver) (w : dns) : resolver * dns :=
  let r := resolver_clean_timer_start
    (rv_with_timers (rv_clean_timer r) (amxp_timer_stop (rv_timeout_timer r)) r) in
  if rv_dirty r then (r, w)
  else
    let w :=
      match ai with
      | Some (n :: nodes) =>
          if status =? ARES_SUCCESS then
            cwmp_dns_schedule interval (cwmp_dns_update_dm (cwmp_dns_read_ai (n :: nodes) w))
          else retry w
      | _ => retry w
      end in
    (r, flush_bootstrap w).

(** The callbacks of [ares_destroy]: it completes the outstanding query of the
    channel with [ARES_EDESTRUCTION], then closes its sockets [fds]. *)
Definition ares_destroy (fds : list Z) (r : resolver) (w : dns) : resolver * dns :=
  let '(r, w) :=
    if decide (rv_id r ∈ queries w) then
      cwmp_dns_resolve_cb ARES_EDESTRUCTION None None r
        (with_queries (filter (.≠ rv_id r) (queries w)) w)
    else (r, w) in
  foldl (fun '(r, w) fd => cwmp_dns_ares_sock_cb true fd 0 0 r w) (r, w) fds.

(** [resolver_clean]: the events, then the channel; the timers, the name and
    the resolver itself are freed with it. *)
Definition resolver_clean (fds : list Z) (r : resolver) (w : dns) : dns :=
  (ares_destroy fds (rv_with_events [] r)
     (log [AresDestroy (rv_id r)] (log (event_list_clean (rv_events r)) w))).2.

(** ** Callbacks of the library *)

Inductive ares_cb :=
| CbSock (malloc_ok : bool) (fd read write : Z)
| CbResult (status : Z) (ai : option (list ai_node)) (interval : ms_value).

(** A callback on the resolver [r] of a channel; a result comes once for each
    outstanding query. *)
Definition callback (cb : ares_cb) (r : resolver) (w : dns) : resolver * dns :=
  match cb with
  | CbSock malloc_ok fd read write => cwmp_dns_ares_sock_cb malloc_ok fd read write r w
  | CbResult status ai interval =>
      if decide (rv_id r ∈ queries w) then
        cwmp_dns_resolve_cb status ai interval r
          (with_queries (filter (.≠ rv_id r) (queries w)) w)
      else (r, w)
  end.

Definition callbacks (cbs : list ares_cb) (r : resolver) (w : dns) : resolver * dns :=
  foldl (fun '(r, w) cb => callback cb r w) (r, w) cbs.

(** Access to the resolver at an address: [f] works on it, in place. *)
Fixpoint split_at (a : nat) (l : list resolver) : option (list resolver * resolver * list resolver) :=
  match l with
  | [] => None
  | r :: l' =>
      if Nat.eqb (rv_id r) a then Some ([], r, l')
      else
        match split_at a l' with
        | Some (l1, r', l2) => Some (r :: l1, r', l2)
        | None => None
        end
  end.

Definition on_resolver (a : nat) (f : resolver -> dns -> resolver * dns) (w : dns) : dns :=
  match split_at a (resolver_list w) with
  | Some (l1, r, l2) => let '(r, w) := f r w in with_resolvers (l1 ++ r :: l2) w
  | None => w
  end.

(** ** Resolution *)

Definition cwmp_dns_get_aifamily (ai_family_str : ms_value) : Z :=
  match ms_string ai_family_str with
  | Some s => if atoi s =? 4 then AF_INET else if atoi s =? 6 then AF_INET6 else AF_UNSPEC
  | None => AF_UNSPEC
  end.

(** What a call of [cwmp_dns_resolve] finds: the two values of the data
    model, the outcomes of [calloc] and [ares_init_options], the remaining
    time of the TTL timer, and the callbacks [ares_getaddrinfo] makes before
    it returns. *)
Record resolve_env := {
  acsurl : option string;
  ai_family_str : ms_value;
  calloc_ok : bool;
  ares_init_ok : bool;
  ttl_remaining : Z;
  sync_cbs : list ares_cb;
}.

Definition resolver_create (env : resolve_env) (host : string) (w : dns) : option resolver :=
  if streq host "" then None
  else if negb (calloc_ok env) then None
  else if negb (ares_init_ok env) then None
  else Some {| rv_id := next w; rv_host := host; rv_dirty := false;
               rv_family := cwmp_dns_get_aifamily (ai_family_str env); rv_events := [];
               rv_clean_timer := None; rv_timeout_timer := None |}.

Definition cwmp_dns_get_host (acsurl : string) : option string := parse_uri acsurl.

Definition cwmp_dns_set_static_ip (host : string) (w : dns) : dns :=
  log [SetAcsIpList host] (with_ainfo (dns_ttl_val w) [{| ip := host; ttl := 0 |}] w).

Definition mark_resolvers_as_dirty (w : dns) : dns :=
  with_resolvers (map rv_mark_dirty (resolver_list w)) w.

Definition cwmp_dns_ares_resolution (env : resolve_env) (host : string) (w : dns) : dns * bool :=
  match resolver_create env host w with
  | None => (w, false)
  | Some r =>
      let w := fresh (with_resolvers (resolver_list w ++ [r]) w) in
      let w := log [AresGetAddrInfo (rv_id r) (rv_host r) (rv_family r)]
        (with_queries (queries w ++ [rv_id r]) w) in
      (on_resolver (rv_id r) (callbacks (sync_cbs env)) w, true)
  end.

(** [cwmp_dns_resolve]: [true] is [cwmp_status_ok]. *)
Definition cwmp_dns_resolve (url_changed : bool) (env : resolve_env) (w : dns) : dns * bool :=
  match acsurl env ≫= cwmp_dns_get_host with
  | None => (retry w, false)
  | Some host =>
      let w :=
        if url_changed then
          with_bootstrap true (log [SetAcsIpList ""] (with_ainfo (dns_ttl_val w) [] w))
        else w in
      let w := if 0 <? ttl_remaining env then with_timer amxp_timer_stop w else w in
      let w := mark_resolvers_as_dirty w in
      if streq host "" then (w, true)
      else if is_ipaddr host then (flush_bootstrap (cwmp_dns_set_static_ip host w), true)
      else
        let '(w, ok) := cwmp_dns_ares_resolution env host w in
        if ok then (w, true) else (retry w, false)
  end.

(** [cwmp_dns_init], after [ares_library_init] *)
Definition cwmp_dns_init : dns :=
  {| dns_ttl_timer := amxp_timer_new; dns_ttl_val := 0; ainfo_list := []; resolver_list := [];
     send_bootstrap := false; queries := []; next := 0%nat; calls := [] |}.

(** [cwmp_dns_clean]: [fds r] are the sockets the channel of [r] closes. *)
Definition cwmp_dns_clean (fds : nat -> list Z) (w : dns) : dns :=
  let w := with_timer (fun _ => None) w in
  let w := with_ainfo (dns_ttl_val w) [] w in
  foldl (fun w r => resolver_clean (fds (rv_id r)) r w) (with_resolvers [] w) (resolver_list w).

(** ** Steps *)

Inductive dns_event :=
| EvResolve (url_changed : bool) (env : resolve_env)
| EvTtl (env : resolve_env)
| EvFd (rv : nat) (fd flags : Z) (cbs : list ares_cb)
| EvTimeout (rv : nat) (cbs : list ares_cb)
| EvClean (rv : nat) (fds : list Z).

(** [cwmp_dns_fd_event_cb] *)
Definition cwmp_dns_fd_event_cb (fd flags : Z) (cbs : list ares_cb) (r : resolver) (w : dns)
    : resolver * dns :=
  let read := if Z.land flags EV_READ =? 0 then ARES_SOCKET_BAD else fd in
  let write := if Z.land flags EV_WRITE =? 0 then ARES_SOCKET_BAD else fd in
  callbacks cbs r (log [AresProcessFd (rv_id r) read write] w).

(** [resolver_timeout_timer_cb] *)
Definition resolver_timeout_timer_cb (cbs : list ares_cb) (r : resolver) (w : dns) : resolver * dns :=
  callbacks cbs r (log [AresProcessFd (rv_id r) ARES_SOCKET_BAD ARES_SOCKET_BAD] w).

(** [resolver_clean_timer_cb] *)
Definition resolver_clean_timer_cb (fds : list Z) (a : nat) (w : dns) : dns :=
  match split_at a (resolver_list w) with
  | Some (l1, r, l2) =>
      if running (rv_clean_timer r) then
        resolver_clean fds (rv_with_timers (expire (rv_clean_timer r)) (rv_timeout_timer r) r)
          (with_resolvers (l1 ++ l2) w)
      else w
  | None => w
  end.

(** [dns_ttl_timer_cb] *)
Definition dns_ttl_timer_cb (env : resolve_env) (w : dns) : dns :=
  if running (dns_ttl_timer w) then (cwmp_dns_resolve false env (with_timer expire w)).1 else w.

(** One step; events that are not possible in the state change nothing. *)
Definition dns_step (e : dns_event) (w : dns) : dns :=
  match e with
  | EvResolve url_changed env => (cwmp_dns_resolve url_changed env w).1
  | EvTtl env => dns_ttl_timer_cb env w
  | EvFd a fd flags cbs =>
      on_resolver a (fun r w =>
        match event_list_findby_fd (rv_events r) fd with
        | Some _ => cwmp_dns_fd_event_cb fd flags cbs r w
        | None => (r, w)
        end) w
  | EvTimeout a cbs =>
      on_resolver a (fun r w =>
        if running (rv_timeout_timer r) then
          resolver_timeout_timer_cb cbs
            (rv_with_timers (rv_clean_timer r) (expire (rv_timeout_timer r)) r) w
        else (r, w)) w
  | EvClean a fds => resolver_clean_timer_cb fds a w
  end.

Definition dns_run : list dns_event -> dns -> dns := run_steps dns_step.

(** ** The discipline of the libevent events

    [ev_run] replays the log: an event is added, deleted and freed between its
    creation and its release only; the result lists the events alive. *)

Fixpoint ev_run (alive : list nat) (cs : list call) : option (list nat) :=
  match cs with
  | [] => Some alive
  | EventNew e _ _ :: cs' => if decide (e ∈ alive) then None else ev_run (e :: alive) cs'
  | EventAdd e :: cs' | EventDel e :: cs' => if decide (e ∈ alive) then ev_run alive cs' else None
  | EventFree e :: cs' =>
      if decide (e ∈ alive) then ev_run (filter (.≠ e) alive) cs' else None
  | _ :: cs' => ev_run alive cs'
  end.

Definition events_of (r : resolver) : list nat := omap ep_event (rv_events r).

Definition held (l : list resolver) : list nat := l ≫= events_of.

(** The log is disciplined and leaves exactly the events [F]. *)
Definition owns (w : dns) (F : list nat) : Prop :=
  exists alive, ev_run [] (calls w) = Some alive /\ alive ≡ₚ F /\ NoDup F /\
    Forall (fun e => (e < next w)%nat) F.

Lemma ev_run_app alive cs1 cs2 :
  ev_run alive (cs1 ++ cs2) = ev_run alive cs1 ≫= fun alive => ev_run alive cs2.
Proof.
  revert alive. induction cs1 as [|c cs1 IH]; intros alive; [done|].
  destruct c; simpl; try case_decide; try done; apply IH.
Qed.

#[local] Instance owns_proper w : Proper ((≡ₚ) ==> iff) (owns w).
Proof. intros F F' HP. unfold owns. by setoid_rewrite HP. Qed.

Lemma owns_perm w F F' : F ≡ₚ F' -> owns w F -> owns w F'.
Proof. by intros ->. Qed.

(** Calls that are not about events. *)
Definition eventless (c : call) : bool :=
  match c with
  | EventNew _ _ _ | EventAdd _ | EventDel _ | EventFree _ => false
  | _ => true
  end.

Lemma owns_log_eventless w F c : eventless c = true -> owns w F -> owns (log [c] w) F.
Proof.
  intros Hc (alive & H1 & H2). exists alive. simpl. rewrite ev_run_app, H1. by destruct c.
Qed.

Lemma owns_same w w' F : calls w' = calls w -> next w' = next w -> owns w F -> owns w' F.
Proof. unfold owns. by intros -> ->. Qed.

Lemma filter_other (e : nat) (F : list nat) : e ∉ F -> filter (.≠ e) F = F.
Proof.
  induction F as [|x F IH]; [done|]. intros [Hx HF]%not_elem_of_cons.
  rewrite filter_cons_True by done. by rewrite IH.
Qed.

Lemma owns_release w p F : owns w (option_list (ep_event p) ++ F) -> owns (log (event_release p) w) F.
Proof.
  intros (alive & H1 & H2 & H3 & H4). unfold event_release, owns.
  destruct (ep_event p) as [e|]; simpl in *; rewrite ev_run_app, H1; [|by exists alive].
  apply NoDup_cons in H3 as [Hn H3]. apply Forall_cons in H4 as [_ H4].
  assert (He : e ∈ alive) by (rewrite H2; set_solver).
  simpl. rewrite !decide_True by done. eexists. split; [done|].
  split_and!; [|done..]. rewrite H2. rewrite filter_cons_False by naive_solver.
  by rewrite filter_other.
Qed.

Lemma owns_new w F fd events :
  owns w F -> owns (log [EventNew (next w) fd events; EventAdd (next w)] (fresh w)) (next w :: F).
Proof.
  intros (alive & H1 & H2 & H3 & H4). unfold owns. simpl. rewrite ev_run_app, H1. simpl.
  assert (Hn : next w ∉ F).
  { intros HF. rewrite Forall_forall in H4. specialize (H4 _ HF). lia. }
  rewrite decide_False by (by rewrite H2). rewrite decide_True by set_solver.
  eexists. split; [done|]. split_and!; [by rewrite H2|by apply NoDup_cons|].
  apply Forall_cons. split; [simpl; lia|]. eapply Forall_impl; [done|]. simpl. lia.
Qed.

Lemma owns_clean_list w l F :
  owns w (omap ep_event l ++ F) -> owns (log (event_list_clean l) w) F.
Proof.
  revert w F. induction l as [|p l IH]; intros w F H; unfold event_list_clean; simpl.
  - eapply owns_same, H; [simpl; by rewrite app_nil_r|done].
  - assert (H' : owns (log (event_release p) w) (omap ep_event l ++ F)).
    { apply owns_release. simpl in H. by destruct (ep_event p). }
    apply IH in H'. eapply owns_same, H'; [|done]. simpl. by rewrite <- app_assoc.
Qed.

(** The pair of a descriptor, its removal and its update. *)
Lemma findby_fd_split l fd p :
  event_list_findby_fd l fd = Some p ->
  exists l1 l2, l = l1 ++ p :: l2 /\ event_list_take l fd = l1 ++ l2 /\
    (forall e, event_list_set l fd e = l1 ++ {| ep_event := e; ep_fd := ep_fd p |} :: l2).
Proof.
  unfold event_list_findby_fd. induction l as [|q l IH]; simpl; [done|].
  destruct (ep_fd q =? fd) eqn:E.
  - intros [= ->]. by exists [], l.
  - intros H. destruct (IH H) as (l1 & l2 & -> & Ht & Hs).
    exists (q :: l1), l2. split_and!; [done|by rewrite Ht|intros e; by rewrite Hs].
Qed.

Lemma findby_fd_add l fd e :
  event_list_findby_fd l fd = None ->
  event_list_set (l ++ [{| ep_event := None; ep_fd := fd |}]) fd e =
    l ++ [{| ep_event := e; ep_fd := fd |}].
Proof.
  unfold event_list_findby_fd. induction l as [|q l IH]; simpl; [by rewrite Z.eqb_refl|].
  destruct (ep_fd q =? fd); [done|]. intros H. by rewrite IH.
Qed.

(** ** What a callback may do

    [visible] is what the rest of the daemon sees: the next lookup, the
    addresses, the pending bootstrap and the calls into the engine. *)

Definition engine_call (c : call) : option call :=
  match c with
  | SetAcsIpList _ | BootstrapInform => Some c
  | _ => None
  end.

Definition visible (w : dns) :=
  (dns_ttl_timer w, dns_ttl_val w, ainfo_list w, send_bootstrap w, omap engine_call (calls w)).

Definition pending (r : resolver) (w : dns) : Prop :=
  running (dns_ttl_timer w) = true \/ (rv_dirty r = false /\ rv_id r ∈ queries w).

Record step_ok (r : resolver) (w : dns) (r' : resolver) (w' : dns) : Prop := {
  so_id : rv_id r' = rv_id r;
  so_dirty : rv_dirty r' = rv_dirty r;
  so_list : resolver_list w' = resolver_list w;
  so_ttl : is_Some (dns_ttl_timer w) -> is_Some (dns_ttl_timer w');
  so_running : running (dns_ttl_timer w) = true -> running (dns_ttl_timer w') = true;
  so_next : (next w <= next w')%nat;
  so_queries : forall a, a ∈ queries w' -> a ∈ queries w;
  so_others : forall a, a <> rv_id r -> a ∈ queries w -> a ∈ queries w';
  so_pending : is_Some (dns_ttl_timer w) -> pending r w -> pending r' w';
  so_visible : rv_dirty r = true -> visible w' = visible w;
  so_owns : forall F, owns w (events_of r ++ F) -> owns w' (events_of r' ++ F);
}.

Lemma step_ok_refl r w : step_ok r w r w.
Proof. by constructor. Qed.

Lemma step_ok_trans r w r1 w1 r2 w2 :
  step_ok r w r1 w1 -> step_ok r1 w1 r2 w2 -> step_ok r w r2 w2.
Proof.
  intros [I1 D1 L1 T1 R1 N1 Q1 O1 P1 V1 W1] [I2 D2 L2 T2 R2 N2 Q2 O2 P2 V2 W2].
  constructor; try congruence; eauto; [lia|..].
  - intros a Ha Hq. apply O2; [congruence|]. by apply O1.
  - intros Hd. rewrite V2 by congruence. by apply V1.
Qed.

Lemma pending_same r w r' w' :
  rv_id r' = rv_id r -> rv_dirty r' = rv_dirty r -> dns_ttl_timer w' = dns_ttl_timer w ->
  queries w' = queries w -> pending r w -> pending r' w'.
Proof. unfold pending. by intros -> -> -> ->. Qed.

(** A change of the timers of the resolver only. *)
Lemma step_ok_timers r w c t : step_ok r w (rv_with_timers c t r) w.
Proof. by constructor. Qed.

Lemma step_ok_clean_timer r w : step_ok r w (resolver_clean_timer_start r) w.
Proof. unfold resolver_clean_timer_start. destruct (rv_clean_timer r); by constructor. Qed.

Lemma step_ok_log r w c : eventless c = true -> engine_call c = None -> step_ok r w r (log [c] w).
Proof.
  intros Hc He. constructor; try done.
  - intros _. unfold visible. simpl. rewrite omap_app. simpl. rewrite He. by rewrite app_nil_r.
  - intros F. by apply owns_log_eventless.
Qed.

Lemma omap_engine_release p : omap engine_call (event_release p) = [].
Proof. unfold event_release. by destruct (ep_event p). Qed.

Lemma step_ok_poll_stop fd r w :
  step_ok r w (cwmp_dns_fd_poll_stop fd r w).1 (cwmp_dns_fd_poll_stop fd r w).2.
Proof.
  unfold cwmp_dns_fd_poll_stop.
  destruct (event_list_findby_fd (rv_events r) fd) as [p|] eqn:E; [|apply step_ok_refl].
  constructor; try done.
  - intros _. unfold visible. simpl. by rewrite omap_app, omap_engine_release, app_nil_r.
  - intros F H. simpl. destruct (findby_fd_split _ _ _ E) as (l1 & l2 & Hl & Ht & _).
    apply owns_release. eapply owns_perm, H. unfold events_of. simpl. rewrite Ht, Hl.
    rewrite !omap_app. simpl. destruct (ep_event p); simpl; solve_Permutation.
Qed.

Lemma step_ok_poll_start ok events fd r w :
  step_ok r w (cwmp_dns_fd_poll_start ok events fd r w).1 (cwmp_dns_fd_poll_start ok events fd r w).2.
Proof.
  unfold cwmp_dns_fd_poll_start.
  destruct (event_list_findby_fd (rv_events r) fd) as [p|] eqn:E;
    [|destruct ok; simpl; [|apply step_ok_refl]]; constructor; simpl; try done; try lia.
  - intros _. unfold visible. simpl.
    by rewrite !omap_app, omap_engine_release; simpl; rewrite !app_nil_r.
  - intros F H. destruct (findby_fd_split _ _ _ E) as (l1 & l2 & Hl & _ & Hs).
    unfold events_of. simpl. rewrite Hs.
    eapply owns_perm, (owns_new (log (event_release p) w) (omap ep_event (l1 ++ l2) ++ F)).
    + rewrite !omap_app. simpl. solve_Permutation.
    + apply owns_release. eapply owns_perm, H. unfold events_of. rewrite Hl, !omap_app. simpl.
      destruct (ep_event p); simpl; solve_Permutation.
  - intros _. unfold visible. simpl. rewrite omap_app. simpl. by rewrite app_nil_r.
  - intros F H. unfold events_of. simpl. rewrite (findby_fd_add _ _ _ E).
    eapply owns_perm, owns_new, H. unfold events_of. rewrite omap_app. simpl. solve_Permutation.
Qed.

Lemma step_ok_sock ok fd read write r w :
  step_ok r w (cwmp_dns_ares_sock_cb ok fd read write r w).1
    (cwmp_dns_ares_sock_cb ok fd read write r w).2.
Proof.
  unfold cwmp_dns_ares_sock_cb. destruct (read + write =? 0).
  - pose proof (step_ok_poll_stop fd r w) as H.
    destruct (cwmp_dns_fd_poll_stop fd r w) as [r1 w1]. destruct (rv_events r1); [|done].
    eapply step_ok_trans; [exact H|].
    eapply step_ok_trans; [apply step_ok_timers|apply step_ok_clean_timer].
  - set (events := Z.lor _ _). pose proof (step_ok_poll_start ok events fd r w) as H.
    destruct (cwmp_dns_fd_poll_start ok events fd r w) as [r1 w1].
    destruct (rv_timeout_timer r1); [done|].
    eapply step_ok_trans; [exact H|apply step_ok_timers].
Qed.

(** Changes outside the resolver, made for a resolver that is not dirty. *)
Record outside (w w' : dns) : Prop := {
  ou_list : resolver_list w' = resolver_list w;
  ou_queries : queries w' = queries w;
  ou_next : next w' = next w;
  ou_ttl : is_Some (dns_ttl_timer w) -> is_Some (dns_ttl_timer w');
  ou_running : running (dns_ttl_timer w) = true -> running (dns_ttl_timer w') = true;
  ou_owns : forall F, owns w F -> owns w' F;
}.

Lemma outside_refl w : outside w w.
Proof. by constructor. Qed.

Lemma outside_trans w1 w2 w3 : outside w1 w2 -> outside w2 w3 -> outside w1 w3.
Proof. intros [] []. constructor; eauto; congruence. Qed.

#[local] Instance outside_preorder : PreOrder outside.
Proof. split; [exact outside_refl|exact outside_trans]. Qed.

Lemma outside_start ms w : outside w (with_timer (amxp_timer_start ms) w).
Proof.
  constructor; simpl; try done.
  - by intros [t ->].
  - by destruct (dns_ttl_timer w).
Qed.

Lemma outside_ainfo v l w : outside w (with_ainfo v l w).
Proof. by constructor. Qed.

Lemma outside_log c w : eventless c = true -> outside w (log [c] w).
Proof. intros Hc. constructor; simpl; try done. intros F. by apply owns_log_eventless. Qed.

Lemma outside_flush w : outside w (flush_bootstrap w).
Proof.
  unfold flush_bootstrap. destruct (send_bootstrap w); [|apply outside_refl].
  etrans; [by apply (outside_log BootstrapInform)|]. by constructor.
Qed.

Lemma outside_read_ai nodes w : outside w (cwmp_dns_read_ai nodes w).
Proof. unfold cwmp_dns_read_ai. destruct (read_nodes _ _ _ _ _). apply outside_ainfo. Qed.

Lemma outside_update_dm w : outside w (cwmp_dns_update_dm w).
Proof.
  etrans; [|apply outside_ainfo].
  by apply (outside_log (SetAcsIpList (addr_list_str (ainfo_list w)))).
Qed.

Lemma outside_schedule interval w : outside w (cwmp_dns_schedule interval w).
Proof. etrans; [apply outside_ainfo|apply outside_start]. Qed.

Lemma outside_result status ai interval w :
  outside w
    match ai with
    | Some (n :: nodes) =>
        if status =? ARES_SUCCESS then
          cwmp_dns_schedule interval (cwmp_dns_update_dm (cwmp_dns_read_ai (n :: nodes) w))
        else retry w
    | _ => retry w
    end.
Proof.
  destruct ai as [[|n nodes]|]; try apply outside_start.
  destruct (status =? ARES_SUCCESS); [|apply outside_start].
  etrans; [apply (outside_read_ai (n :: nodes))|].
  etrans; [apply outside_update_dm|apply outside_schedule].
Qed.

Lemma running_start ms t : is_Some t -> running (amxp_timer_start ms t) = true.
Proof. by intros [? ->]. Qed.

Lemma flush_timer w : dns_ttl_timer (flush_bootstrap w) = dns_ttl_timer w.
Proof. unfold flush_bootstrap. by destruct (send_bootstrap w). Qed.

(** A result for a resolver that is not dirty always plans the next lookup. *)
Lemma resolve_cb_running status ai interval r w :
  rv_dirty r = false -> is_Some (dns_ttl_timer w) ->
  running (dns_ttl_timer (cwmp_dns_resolve_cb status ai interval r w).2) = true.
Proof.
  intros Hd Ht. unfold cwmp_dns_resolve_cb.
  assert (E : forall r1, rv_dirty (resolver_clean_timer_start r1) = rv_dirty r1).
  { intros r1. unfold resolver_clean_timer_start. by destruct (rv_clean_timer r1). }
  rewrite E. simpl. rewrite Hd. simpl. rewrite flush_timer.
  destruct ai as [[|n nodes]|]; try by apply running_start.
  destruct (status =? ARES_SUCCESS); [|by apply running_start].
  unfold cwmp_dns_schedule, cwmp_dns_read_ai. destruct (read_nodes _ _ _ _ _).
  by apply running_start.
Qed.

Lemma step_ok_outside r w w' : rv_dirty r = false -> outside w w' -> step_ok r w r w'.
Proof.
  intros Hd [L Q N T R O]. constructor; eauto; try congruence; try (by rewrite Q); try lia.
  intros _. unfold pending. rewrite Q. naive_solver.
Qed.

Lemma step_ok_resolve status ai interval r w :
  step_ok r w (cwmp_dns_resolve_cb status ai interval r w).1
    (cwmp_dns_resolve_cb status ai interval r w).2.
Proof.
  unfold cwmp_dns_resolve_cb. set (r1 := resolver_clean_timer_start _).
  assert (H : step_ok r w r1 w).
  { eapply step_ok_trans; [apply step_ok_timers|apply step_ok_clean_timer]. }
  destruct (rv_dirty r1) eqn:E; [done|]. eapply step_ok_trans; [exact H|].
  apply step_ok_outside; [done|]. etrans; [apply outside_result|apply outside_flush].
Qed.

(** The completion of the query of the resolver. *)
Lemma step_ok_complete status ai interval r w :
  let w1 := with_queries (filter (.≠ rv_id r) (queries w)) w in
  step_ok r w (cwmp_dns_resolve_cb status ai interval r w1).1
    (cwmp_dns_resolve_cb status ai interval r w1).2.
Proof.
  intros w1. pose proof (step_ok_resolve status ai interval r w1) as H.
  pose proof (resolve_cb_running status ai interval r w1) as Hr.
  destruct (cwmp_dns_resolve_cb status ai interval r w1) as [r' w']. simpl in *.
  destruct H as [I D L T R N Q O P V W]. constructor; try done.
  - intros a Ha. apply Q in Ha. unfold w1 in Ha. simpl in Ha.
    by apply list_elem_of_filter in Ha as [_ ?].
  - intros a Ha Hq. apply O; [done|]. unfold w1. simpl. by apply list_elem_of_filter.
  - intros Ht [Hp|[Hd _]]; left; auto.
Qed.

Lemma step_ok_callback cb r w : step_ok r w (callback cb r w).1 (callback cb r w).2.
Proof.
  destruct cb; simpl; [apply step_ok_sock|]. case_decide; [|apply step_ok_refl].
  apply step_ok_complete.
Qed.

Lemma step_ok_callbacks cbs r w : step_ok r w (callbacks cbs r w).1 (callbacks cbs r w).2.
Proof.
  unfold callbacks. revert r w. induction cbs as [|cb cbs IH]; intros r w; simpl;
    [apply step_ok_refl|].
  pose proof (step_ok_callback cb r w) as H. destruct (callback cb r w) as [r1 w1].
  eapply step_ok_trans; [exact H|apply IH].
Qed.

Lemma step_ok_fd_event fd flags cbs r w :
  step_ok r w (cwmp_dns_fd_event_cb fd flags cbs r w).1 (cwmp_dns_fd_event_cb fd flags cbs r w).2.
Proof. eapply step_ok_trans; [|apply step_ok_callbacks]. by apply step_ok_log. Qed.

Lemma step_ok_timeout cbs r w :
  step_ok r w (resolver_timeout_timer_cb cbs r w).1 (resolver_timeout_timer_cb cbs r w).2.
Proof. eapply step_ok_trans; [|apply step_ok_callbacks]. by apply step_ok_log. Qed.

(** ** Destruction of a resolver *)

Lemma step_ok_close fds r w :
  let rw := foldl (fun '(r, w) fd => cwmp_dns_ares_sock_cb true fd 0 0 r w) (r, w) fds in
  step_ok r w rw.1 rw.2.
Proof.
  revert r w. induction fds as [|fd fds IH]; intros r w; simpl; [apply step_ok_refl|].
  pose proof (step_ok_sock true fd 0 0 r w) as H.
  destruct (cwmp_dns_ares_sock_cb true fd 0 0 r w) as [r1 w1].
  eapply step_ok_trans; [exact H|apply IH].
Qed.

Lemma step_ok_ares_destroy fds r w : step_ok r w (ares_destroy fds r w).1 (ares_destroy fds r w).2.
Proof.
  unfold ares_destroy. case_decide.
  - pose proof (step_ok_complete ARES_EDESTRUCTION None None r w) as Hc. simpl in Hc.
    destruct (cwmp_dns_resolve_cb _ _ _ _ _) as [r1 w1].
    eapply step_ok_trans; [exact Hc|apply step_ok_close].
  - apply step_ok_close.
Qed.

Lemma sock_close_events fd r w :
  rv_events r = [] ->
  rv_events (cwmp_dns_ares_sock_cb true fd 0 0 r w).1 = [] /\
  queries (cwmp_dns_ares_sock_cb true fd 0 0 r w).2 = queries w.
Proof.
  intros H. unfold cwmp_dns_ares_sock_cb, cwmp_dns_fd_poll_stop. simpl. rewrite H. simpl. rewrite H.
  simpl. split; [|done]. unfold resolver_clean_timer_start. by case_match.
Qed.

Lemma close_events fds r w :
  rv_events r = [] ->
  let rw := foldl (fun '(r, w) fd => cwmp_dns_ares_sock_cb true fd 0 0 r w) (r, w) fds in
  rv_events rw.1 = [] /\ queries rw.2 = queries w.
Proof.
  revert r w. induction fds as [|fd fds IH]; intros r w H; [done|]. simpl.
  pose proof (sock_close_events fd r w H) as [H1 H2].
  destruct (cwmp_dns_ares_sock_cb true fd 0 0 r w) as [r1 w1]. simpl in *.
  rewrite <- H2. by apply IH.
Qed.

Lemma resolve_cb_events status ai interval r w :
  rv_events (cwmp_dns_resolve_cb status ai interval r w).1 = rv_events r.
Proof.
  unfold cwmp_dns_resolve_cb, resolver_clean_timer_start. simpl.
  by destruct (rv_clean_timer r); simpl; destruct (rv_dirty r).
Qed.

Lemma resolve_cb_queries status ai interval r w :
  queries (cwmp_dns_resolve_cb status ai interval r w).2 = queries w.
Proof.
  unfold cwmp_dns_resolve_cb. case_match; [done|]. simpl.
  rewrite (ou_queries _ _ (outside_flush _)). apply ou_queries, outside_result.
Qed.

Lemma destroyed_events fds r w :
  rv_events r = [] ->
  rv_events (ares_destroy fds r w).1 = [] /\ rv_id r ∉ queries (ares_destroy fds r w).2.
Proof.
  intros H. unfold ares_destroy. case_decide as Hq.
  - set (w1 := with_queries _ w).
    pose proof (resolve_cb_events ARES_EDESTRUCTION None None r w1) as He.
    pose proof (resolve_cb_queries ARES_EDESTRUCTION None None r w1) as Hr.
    destruct (cwmp_dns_resolve_cb ARES_EDESTRUCTION None None r w1) as [r1 w2]. simpl in *.
    destruct (close_events fds r1 w2) as [H1 H2]; [congruence|]. split; [done|].
    rewrite H2, Hr. unfold w1. simpl. rewrite list_elem_of_filter. naive_solver.
  - destruct (close_events fds r w H) as [H1 H2]. by rewrite H2.
Qed.

(** ** The invariant of the component *)

(** No flag but the last one may be false. *)
Fixpoint latest (l : list bool) : Prop :=
  match l with
  | [] => True
  | b :: l' => (b = true \/ l' = []) /\ latest l'
  end.

Lemma latest_true {A} (l : list A) b : latest (map (fun _ => true) l ++ [b]).
Proof. induction l; simpl; naive_solver. Qed.

Lemma latest_remove l1 b l2 : latest (l1 ++ b :: l2) -> latest (l1 ++ l2).
Proof.
  induction l1 as [|b1 l1 IH]; simpl; [naive_solver|]. intros [[->|H] H2]; split; auto.
  by apply app_nil in H as [_ ?].
Qed.

Record dns_inv (w : dns) : Prop := {
  inv_ttl : is_Some (dns_ttl_timer w);
  inv_ids : NoDup (map rv_id (resolver_list w));
  inv_next : Forall (fun a => (a < next w)%nat) (map rv_id (resolver_list w));
  inv_queries : forall a, a ∈ queries w -> a ∈ map rv_id (resolver_list w);
  inv_latest : latest (map rv_dirty (resolver_list w));
  inv_owns : owns w (held (resolver_list w));
}.

(** A lookup is planned, or under way with a result that will count. *)
Definition lookup_pending (w : dns) : Prop :=
  running (dns_ttl_timer w) = true \/
  exists r, r ∈ resolver_list w /\ rv_dirty r = false /\ rv_id r ∈ queries w.

Lemma split_at_Some a l l1 r l2 :
  split_at a l = Some (l1, r, l2) -> l = l1 ++ r :: l2 /\ rv_id r = a.
Proof.
  revert l1. induction l as [|x l IH]; intros l1; simpl; [done|].
  destruct (Nat.eqb (rv_id x) a) eqn:E.
  - intros [= <- -> ->]. by apply Nat.eqb_eq in E.
  - destruct (split_at a l) as [[[l1' r'] l2']|]; [|done]. intros [= <- -> ->].
    by destruct (IH l1') as [-> ?].
Qed.

Lemma split_at_last a l r : a ∉ map rv_id l -> rv_id r = a -> split_at a (l ++ [r]) = Some (l, r, []).
Proof.
  intros H Hr. induction l as [|x l IH]; simpl.
  - rewrite Hr. by rewrite Nat.eqb_refl.
  - simpl in H. apply not_elem_of_cons in H as [H1 H2].
    destruct (Nat.eqb_spec (rv_id x) a); [congruence|]. by rewrite IH.
Qed.

Lemma held_middle l1 r l2 : held (l1 ++ r :: l2) ≡ₚ events_of r ++ held (l1 ++ l2).
Proof. unfold held. rewrite !bind_app. simpl. solve_Permutation. Qed.

Lemma map_middle {A} (f : resolver -> A) l1 r r' l2 :
  f r' = f r -> map f (l1 ++ r' :: l2) = map f (l1 ++ r :: l2).
Proof. rewrite !map_app. simpl. by intros ->. Qed.

Lemma member_middle x l1 r l2 :
  NoDup (map rv_id (l1 ++ r :: l2)) -> x ∈ l1 ++ r :: l2 ->
  x = r \/ (x ∈ l1 ++ l2 /\ rv_id x <> rv_id r).
Proof.
  rewrite map_app. simpl. intros (_ & H1 & [H2 _]%NoDup_cons)%NoDup_app Hx.
  assert (H : x = r \/ x ∈ l1 ++ l2) by set_solver. destruct H as [->|H]; [by left|]. right.
  split; [done|]. intros Heq. apply elem_of_app in H as [H|H].
  - apply (H1 (rv_id x)); [apply list_elem_of_fmap; by exists x|]. rewrite Heq. set_solver.
  - apply H2. rewrite <- Heq. apply list_elem_of_fmap. by exists x.
Qed.

Lemma inv_replace w w' l1 r r' l2 :
  resolver_list w = l1 ++ r :: l2 -> step_ok r w r' w' -> dns_inv w ->
  dns_inv (with_resolvers (l1 ++ r' :: l2) w').
Proof.
  intros Hl [I D L T R N Q O P V W] [Ht Hi Hn Hq Hd Ho]. rewrite Hl in *.
  constructor; simpl; auto; rewrite ?(map_middle _ l1 r r' l2) by done; auto.
  - eapply Forall_impl; [exact Hn|]. simpl. lia.
  - eapply owns_same; [done..|]. eapply owns_perm; [symmetry; apply held_middle|].
    apply W. eapply owns_perm; [apply held_middle|done].
Qed.

Lemma pending_replace w w' l1 r r' l2 :
  resolver_list w = l1 ++ r :: l2 -> step_ok r w r' w' -> dns_inv w ->
  lookup_pending w -> lookup_pending (with_resolvers (l1 ++ r' :: l2) w').
Proof.
  intros Hl [I D L T R N Q O P V W] [Ht Hi _ _ _ _] [Hp|(x & Hx & Hxd & Hxq)]; [left; simpl; auto|].
  rewrite Hl in *. destruct (member_middle _ _ _ _ Hi Hx) as [->|[Hin Hne]].
  - destruct P as [Hr|[Hr1 Hr2]]; [done|by right|by left|].
    right. exists r'. split_and!; simpl; auto. set_solver.
  - right. exists x. simpl. split_and!; auto. set_solver.
Qed.

Lemma inv_on_resolver a f w :
  (forall r w, step_ok r w (f r w).1 (f r w).2) -> dns_inv w ->
  dns_inv (on_resolver a f w) /\ (lookup_pending w -> lookup_pending (on_resolver a f w)).
Proof.
  intros Hf H. unfold on_resolver. destruct (split_at a _) as [[[l1 r] l2]|] eqn:E; [|done].
  apply split_at_Some in E as [E _]. specialize (Hf r w). destruct (f r w) as [r' w']. split.
  - by eapply inv_replace.
  - by eapply pending_replace.
Qed.

(** [resolver_clean] on a resolver taken from the list *)
Lemma omap_engine_clean l : omap engine_call (event_list_clean l) = [].
Proof.
  unfold event_list_clean. induction l as [|p l IH]; simpl; [done|].
  by rewrite omap_app, IH, omap_engine_release.
Qed.

Lemma resolver_clean_frame fds r w :
  let w' := resolver_clean fds r w in
  resolver_list w' = resolver_list w /\
  (is_Some (dns_ttl_timer w) -> is_Some (dns_ttl_timer w')) /\
  (next w <= next w')%nat /\
  (forall a, a ∈ queries w' -> a ∈ queries w /\ a <> rv_id r) /\
  (forall a, a <> rv_id r -> a ∈ queries w -> a ∈ queries w') /\
  (running (dns_ttl_timer w) = true -> running (dns_ttl_timer w') = true) /\
  (is_Some (dns_ttl_timer w) -> rv_dirty r = false -> rv_id r ∈ queries w ->
   running (dns_ttl_timer w') = true) /\
  (rv_dirty r = true -> visible w' = visible w).
Proof.
  intros w'. unfold w', resolver_clean.
  set (r1 := rv_with_events [] r).
  set (w1 := log [AresDestroy (rv_id r)] (log (event_list_clean (rv_events r)) w)).
  pose proof (step_ok_ares_destroy fds r1 w1) as H.
  destruct (destroyed_events fds r1 w1 eq_refl) as [_ Hq].
  destruct (ares_destroy fds r1 w1) as [r2 w2]. destruct H as [I D L T R N Q O P V W]. simpl in *.
  split_and!; auto.
  - intros a Ha. split; [auto|]. by intros ->.
  - intros Ht Hd Hin. destruct P as [?|[_ ?]]; auto; [by right|].
    exfalso. apply Hq. by rewrite <- I.
  - intros Hd. rewrite V by done. unfold visible. simpl. rewrite !omap_app. simpl.
    by rewrite omap_engine_clean, !app_nil_r.
Qed.

Lemma resolver_clean_owns fds r w F :
  owns w (events_of r ++ F) -> owns (resolver_clean fds r w) F.
Proof.
  intros H. unfold resolver_clean.
  set (r1 := rv_with_events [] r).
  set (w1 := log [AresDestroy (rv_id r)] (log (event_list_clean (rv_events r)) w)).
  pose proof (step_ok_ares_destroy fds r1 w1) as Hs.
  destruct (destroyed_events fds r1 w1 eq_refl) as [He _].
  destruct (ares_destroy fds r1 w1) as [r2 w2]. simpl in *.
  eapply owns_perm, (so_owns _ _ _ _ Hs F); [by unfold events_of; rewrite He|].
  apply owns_log_eventless; [done|]. by apply owns_clean_list.
Qed.

Lemma inv_clean fds a w :
  dns_inv w -> dns_inv (resolver_clean_timer_cb fds a w) /\
  (lookup_pending w -> lookup_pending (resolver_clean_timer_cb fds a w)).
Proof.
  intros H. unfold resolver_clean_timer_cb.
  destruct (split_at a _) as [[[l1 r] l2]|] eqn:E; [|done].
  destruct (running (rv_clean_timer r)); [|done].
  apply split_at_Some in E as [E _]. set (r1 := rv_with_timers _ _ r).
  set (w1 := with_resolvers (l1 ++ l2) w). destruct H as [Ht Hi Hn Hq Hd Ho].
  destruct (resolver_clean_frame fds r1 w1) as (L & T & N & Q & O & R & P & _).
  rewrite E in *. split.
  - rewrite map_app in *. simpl in *. constructor; rewrite ?L; simpl; auto; rewrite ?map_app.
    + apply NoDup_app in Hi as (H1 & H2 & [_ H3]%NoDup_cons). apply NoDup_app. split_and!; auto.
      intros x Hx Hx2. apply (H2 x Hx). set_solver.
    + apply Forall_app in Hn as [H1 [_ H2]%Forall_cons]. apply Forall_app.
      split; (eapply Forall_impl; [done|]); simpl; lia.
    + intros x [Hx Hne]%Q. specialize (Hq x Hx). set_solver.
    + by eapply latest_remove.
    + apply resolver_clean_owns. eapply owns_same; [done..|].
      eapply owns_perm, Ho. apply (held_middle l1 r l2).
  - intros [Hp|(x & Hx & Hxd & Hxq)]; [left; auto|]. rewrite E in Hx.
    destruct (member_middle _ _ _ _ Hi Hx) as [->|[Hin Hne]]; [left; by apply P|].
    right. exists x. rewrite L. split_and!; [done..|]. by apply O.
Qed.

(** ** Resolution keeps the invariant *)

Lemma inv_outside w w' : outside w w' -> dns_inv w -> dns_inv w'.
Proof.
  intros [L Q N T R O] [Ht Hi Hn Hq Hd Ho].
  constructor; rewrite ?L, ?N, ?Q; auto.
Qed.

Lemma inv_timer f w :
  (forall t, is_Some t -> is_Some (f t)) -> dns_inv w -> dns_inv (with_timer f w).
Proof. intros Hf [Ht Hi Hn Hq Hd Ho]. constructor; simpl; auto. Qed.

Lemma is_Some_fmap_timer (f : timer -> timer) t : is_Some t -> is_Some (f <$> t).
Proof. by intros [x ->]. Qed.

Lemma map_mark {A} (f : resolver -> A) l :
  (forall r, f (rv_mark_dirty r) = f r) -> map f (map rv_mark_dirty l) = map f l.
Proof. intros H. rewrite map_map. apply map_ext. exact H. Qed.

Lemma held_mark l : held (map rv_mark_dirty l) = held l.
Proof. unfold held. induction l as [|r l IH]; [done|]. cbn. by f_equal. Qed.

Lemma latest_mark l b : latest (map rv_dirty (map rv_mark_dirty l) ++ [b]).
Proof. rewrite map_map. apply latest_true. Qed.

Lemma inv_mark w : dns_inv w -> dns_inv (mark_resolvers_as_dirty w).
Proof.
  intros [Ht Hi Hn Hq Hd Ho]. constructor; simpl; rewrite ?(map_mark rv_id), ?held_mark by done; auto.
  rewrite <- (app_nil_r (map rv_dirty _)). eapply latest_remove, (latest_mark _ true).
Qed.

(** The state in which [ares_getaddrinfo] is called *)
Definition queried (r : resolver) (w : dns) : dns :=
  log [AresGetAddrInfo (rv_id r) (rv_host r) (rv_family r)]
    (with_queries (queries w ++ [rv_id r]) (fresh (with_resolvers (resolver_list w ++ [r]) w))).

Lemma inv_queried r w :
  dns_inv w -> rv_id r = next w -> rv_events r = [] -> rv_dirty r = false ->
  dns_inv (queried r (mark_resolvers_as_dirty w)).
Proof.
  intros H Hid He Hd. apply inv_mark in H as [Ht Hi Hn Hq _ Ho]. simpl in *. constructor; simpl; auto.
  - rewrite map_app. simpl. apply NoDup_app. split_and!; [done| |apply NoDup_singleton].
    intros x Hx. rewrite list_elem_of_singleton, Hid. intros ->.
    rewrite Forall_forall in Hn. specialize (Hn _ Hx). lia.
  - rewrite map_app. simpl. apply Forall_app. split.
    + eapply Forall_impl; [exact Hn|]. simpl. lia.
    + apply Forall_cons. split; [lia|done].
  - intros a. rewrite map_app, !elem_of_app. simpl. rewrite !list_elem_of_singleton. naive_solver.
  - rewrite map_app. apply latest_mark.
  - unfold held. rewrite bind_app. simpl. unfold events_of at 2. rewrite He. simpl. rewrite app_nil_r.
    apply owns_log_eventless; [done|]. destruct Ho as (alive & H1 & H2 & H3 & H4).
    exists alive. split_and!; try done. eapply Forall_impl; [exact H4|]. simpl. lia.
Qed.

(** The resolutions that ask the name servers: neither an empty host nor a
    literal address. *)
Definition looked_up (env : resolve_env) : Prop :=
  match acsurl env ≫= cwmp_dns_get_host with
  | None => True
  | Some host => host <> "" /\ is_ipaddr host = false
  end.

Lemma pending_retry w : is_Some (dns_ttl_timer w) -> lookup_pending (retry w).
Proof. intros H. left. simpl. by apply running_start. Qed.

Lemma inv_resolve url_changed env w :
  dns_inv w ->
  dns_inv (cwmp_dns_resolve url_changed env w).1 /\
  (looked_up env -> lookup_pending (cwmp_dns_resolve url_changed env w).1).
Proof.
  intros H. unfold cwmp_dns_resolve, looked_up.
  destruct (acsurl env ≫= cwmp_dns_get_host) as [host|].
  2: { split; [by eapply inv_outside; [apply outside_start|]|].
       intros _. apply pending_retry, H. }
  set (w1 := if url_changed then _ else w).
  assert (H1 : dns_inv w1).
  { unfold w1. destruct url_changed; [|done]. eapply (inv_outside _ _ (outside_ainfo (dns_ttl_val w) [] w)) in H.
    eapply (inv_outside _ _ (outside_log (SetAcsIpList "") _ eq_refl)) in H. by destruct H. }
  set (w2 := if 0 <? ttl_remaining env then _ else w1).
  assert (H2 : dns_inv w2).
  { unfold w2. destruct (0 <? ttl_remaining env); [|done].
    apply inv_timer; [|done]. intros t. apply is_Some_fmap_timer. }
  clearbody w2. clear H H1 w1. destruct (streq host "") eqn:Eh; [|destruct (is_ipaddr host) eqn:Ei].
  - bool_prop. split; [by apply inv_mark|naive_solver].
  - split; [|naive_solver]. eapply inv_outside; [apply outside_flush|].
    eapply inv_outside; [by apply (outside_log (SetAcsIpList host))|].
    eapply inv_outside; [apply outside_ainfo|]. by apply inv_mark.
  - unfold cwmp_dns_ares_resolution, resolver_create. rewrite Eh.
    destruct (calloc_ok env); simpl; [destruct (ares_init_ok env); simpl|].
    2,3: split; [eapply inv_outside; [apply outside_start|by apply inv_mark]|];
         intros _; by apply pending_retry, inv_ttl, inv_mark.
    set (r := {| rv_id := next w2; rv_host := host |}).
    destruct (inv_on_resolver (next w2) (callbacks (sync_cbs env))
      (queried r (mark_resolvers_as_dirty w2))) as [Ha Hb].
    + apply step_ok_callbacks.
    + by apply inv_queried.
    + split; [exact Ha|]. intros _. apply Hb. right. exists r. simpl. split_and!; [|done|]; set_solver.
Qed.

Lemma inv_ttl_cb env w :
  dns_inv w ->
  dns_inv (dns_ttl_timer_cb env w) /\
  (looked_up env -> lookup_pending w -> lookup_pending (dns_ttl_timer_cb env w)).
Proof.
  intros H. unfold dns_ttl_timer_cb. destruct (running (dns_ttl_timer w)); [|done].
  destruct (inv_resolve false env (with_timer expire w)) as [Ha Hb].
  - apply inv_timer; [|done]. intros t. apply is_Some_fmap_timer.
  - split; [done|]. auto.
Qed.

(** The events of the run whose resolutions ask the name servers. *)
Definition event_looked_up (e : dns_event) : Prop :=
  match e with
  | EvResolve _ env | EvTtl env => looked_up env
  | _ => True
  end.

Lemma inv_step e w :
  dns_inv w -> dns_inv (dns_step e w) /\
  (event_looked_up e -> lookup_pending w -> lookup_pending (dns_step e w)).
Proof.
  intros H. destruct e as [c env|env|a fd flags cbs|a cbs|a fds]; simpl.
  - destruct (inv_resolve c env w H). auto.
  - by apply inv_ttl_cb.
  - edestruct (inv_on_resolver a) as [Ha Hb]; [|exact H|split; [exact Ha|intros _; exact Hb]].
    intros r w'. simpl. destruct (event_list_findby_fd _ _); [apply step_ok_fd_event|apply step_ok_refl].
  - edestruct (inv_on_resolver a) as [Ha Hb]; [|exact H|split; [exact Ha|intros _; exact Hb]].
    intros r w'. simpl. destruct (running (rv_timeout_timer r)); [|apply step_ok_refl].
    eapply step_ok_trans; [apply step_ok_timers|apply step_ok_timeout].
  - destruct (inv_clean fds a w H). auto.
Qed.

Lemma inv_run es w :
  dns_inv w -> dns_inv (dns_run es w) /\
  (Forall event_looked_up es -> lookup_pending w -> lookup_pending (dns_run es w)).
Proof.
  intros H. split.
  - apply (run_invariant_all dns_step dns_inv); [|done]. intros e w1 H1. by apply inv_step.
  - intros He Hp. apply (run_invariant dns_step event_looked_up (fun w => dns_inv w /\ lookup_pending w));
      [|done..]. intros e w1 Hq [H1 Hp1]. destruct (inv_step e w1 H1). auto.
Qed.

Lemma inv_init : dns_inv cwmp_dns_init.
Proof.
  constructor; simpl; try done; try apply NoDup_nil_2; try set_solver.
  exists []. split_and!; try done. apply NoDup_nil_2.
Qed.

(** ** Shutdown *)

Lemma clean_all fds l w :
  owns w (held l) -> (forall a, a ∈ queries w -> a ∈ map rv_id l) ->
  let w' := foldl (fun w r => resolver_clean (fds (rv_id r)) r w) w l in
  owns w' [] /\ queries w' = [] /\ resolver_list w' = resolver_list w.
Proof.
  revert w. induction l as [|r l IH]; intros w Ho Hq; simpl.
  - split_and!; [done| |done]. destruct (queries w) as [|a q]; [done|]. specialize (Hq a). set_solver.
  - destruct (resolver_clean_frame (fds (rv_id r)) r w) as (L & _ & _ & Q & _).
    rewrite <- L. apply IH; [by apply resolver_clean_owns|].
    intros a [Ha Hne]%Q. specialize (Hq a Ha). set_solver.
Qed.

(** ** Properties *)

(** Whatever the order of resolutions, socket events, timeouts and clean
    timers, and whatever c-ares calls back, every libevent event is used
    between its creation and its release only and the live events are those of
    the resolvers of the list; every outstanding query belongs to a resolver of
    the list, so that no callback meets a freed resolver; and
    [cwmp_dns_clean] leaves no event, no query and no resolver. *)
Theorem dns_resources_disciplined (es : list dns_event) (fds : nat -> list Z) :
  let w := dns_run es cwmp_dns_init in
  let w' := cwmp_dns_clean fds w in
  (exists alive, ev_run [] (calls w) = Some alive /\ alive ≡ₚ held (resolver_list w)) /\
  (forall a, a ∈ queries w -> a ∈ map rv_id (resolver_list w)) /\
  ev_run [] (calls w') = Some [] /\ queries w' = [] /\ resolver_list w' = [].
Proof.
  intros w w'. destruct (inv_run es cwmp_dns_init inv_init) as [[_ _ _ Hq _ Ho] _]. fold w in Hq, Ho.
  split_and!; [destruct Ho as (alive & H1 & H2 & _); eauto|done|..];
    destruct (clean_all fds (resolver_list w)
      (with_resolvers [] (with_ainfo (dns_ttl_val w) [] (with_timer (fun _ => None) w))))
      as ((alive & H1 & H2 & _) & H3 & H4); try done.
  apply Permutation_nil_r in H2. by subst.
Qed.

(** The resolver whose callback an event runs. *)
Definition event_target (e : dns_event) : option nat :=
  match e with
  | EvFd a _ _ _ | EvTimeout a _ | EvClean a _ => Some a
  | EvResolve _ _ | EvTtl _ => None
  end.

Lemma visible_on_resolver a f w :
  (forall r w, step_ok r w (f r w).1 (f r w).2) ->
  (forall l1 r l2, split_at a (resolver_list w) = Some (l1, r, l2) -> rv_dirty r = true) ->
  visible (on_resolver a f w) = visible w.
Proof.
  intros Hf Hd. unfold on_resolver. destruct (split_at a _) as [[[l1 r] l2]|] eqn:E; [|done].
  specialize (Hf r w). destruct (f r w) as [r' w'].
  rewrite <- (so_visible _ _ _ _ Hf (Hd _ _ _ eq_refl)). done.
Qed.

(** Only the newest resolution counts.  In every reachable state all
    resolvers but the last one of the list are dirty, and no event of a dirty
    resolver -- an answer, a failure, a timeout, its destruction -- changes the
    published addresses, the planned lookup, the pending bootstrap or calls
    the engine. *)
Theorem dns_latest_resolution_counts (es : list dns_event) :
  let w := dns_run es cwmp_dns_init in
  latest (map rv_dirty (resolver_list w)) /\
  forall e a, event_target e = Some a ->
    (forall r, r ∈ resolver_list w -> rv_id r = a -> rv_dirty r = true) ->
    visible (dns_step e w) = visible w.
Proof.
  intros w. destruct (inv_run es cwmp_dns_init inv_init) as [H _]. fold w in H.
  split; [apply H|]. intros e a He Hd.
  assert (Hs : forall l1 r l2, split_at a (resolver_list w) = Some (l1, r, l2) -> rv_dirty r = true).
  { intros l1 r l2 [Hl Hr]%split_at_Some. apply Hd; [rewrite Hl; set_solver|done]. }
  destruct e as [| |b fd flags cbs|b cbs|b fds]; simpl in He; try done; injection He as ->; simpl.
  - apply visible_on_resolver; [|done].
    intros r w'. destruct (event_list_findby_fd _ _); [apply step_ok_fd_event|apply step_ok_refl].
  - apply visible_on_resolver; [|done].
    intros r w'. destruct (running (rv_timeout_timer r)); [|apply step_ok_refl].
    eapply step_ok_trans; [apply step_ok_timers|apply step_ok_timeout].
  - unfold resolver_clean_timer_cb. destruct (split_at a _) as [[[l1 r] l2]|] eqn:E; [|done].
    destruct (running (rv_clean_timer r)); [|done]. set (r1 := rv_with_timers _ _ r).
    destruct (resolver_clean_frame fds r1 (with_resolvers (l1 ++ l2) w))
      as (_ & _ & _ & _ & _ & _ & _ & Hv).
    rewrite Hv; [done|]. by apply (Hs l1 r l2).
Qed.

(** C8: the daemon never stops looking for the ACS.  From the first resolution
    on, as long as the URL of the ACS neither names a literal address nor an
    empty host, at every moment the TTL timer runs or a query of the newest
    resolver is outstanding -- also when the URL cannot be read or parsed, an
    allocation fails, c-ares reports an error or drops the query. *)
Theorem dns_next_lookup_pending (url_changed : bool) (env : resolve_env) (es : list dns_event)
    (H : Forall event_looked_up (EvResolve url_changed env :: es)) :
  lookup_pending (dns_run (EvResolve url_changed env :: es) cwmp_dns_init).
Proof.
  apply Forall_cons in H as [He H]. simpl.
  destruct (inv_resolve url_changed env cwmp_dns_init inv_init) as [Ha Hb].
  apply inv_run; auto.
Qed.

(** The address a node prints as *)
Definition printed (n : ai_node) : option string :=
  ares_inet_ntop (ai_family n)
    (Some (if ai_family n =? AF_INET then sin_addr (ai_addr n) else sin6_addr (ai_addr n))).

Definition prints_as (n : ai_node) (s : string) : Prop :=
  (ai_family n = AF_INET \/ ai_family n = AF_INET6) /\ printed n = Some s /\ s <> "".

Lemma read_node_prints n s buf nip : prints_as n s -> (read_node n buf nip).1 = s.
Proof.
  intros ([Hf|Hf] & Hp & _); unfold read_node, printed in *; rewrite Hf in *; simpl in *; by rewrite Hp.
Qed.

Lemma read_nodes_prints nodes names buf nip v l :
  Forall2 prints_as nodes names ->
  read_nodes nodes buf nip v l =
    (foldl Z.min v (map ai_ttl nodes),
     l ++ zip_with (fun n s => {| ip := s; ttl := u32 (ai_ttl n) |}) nodes names).
Proof.
  intros H. revert buf nip v l. induction H as [|n s nodes names Hn _ IH]; intros buf nip v l.
  - simpl. by rewrite app_nil_r.
  - cbn [read_nodes map foldl zip_with]. pose proof (read_node_prints n s buf nip Hn) as E.
    destruct (read_node n buf nip) as [buf' nip']. simpl in E. subst buf'.
    destruct Hn as (_ & _ & Hs). apply streq_false in Hs. rewrite Hs, IH.
    rewrite <- app_assoc. simpl. do 2 f_equal. destruct (ai_ttl n <? v) eqn:E; bool_prop; lia.
Qed.

Lemma ips_of_names nodes names :
  Forall2 prints_as nodes names ->
  map ip (zip_with (fun n s => {| ip := s; ttl := u32 (ai_ttl n) |}) nodes names) = names.
Proof. induction 1; simpl; by f_equal. Qed.

Lemma addr_list_str_concat l : addr_list_str l = String.concat "," (map ip l).
Proof.
  induction l as [|a l IH]; [done|]. destruct l as [|b l]; [done|].
  change (addr_list_str (a :: b :: l)) with
    (String.append (ip a) (String.append "," (addr_list_str (b :: l)))).
  by rewrite IH.
Qed.

(** A successful answer to the newest resolution publishes all addresses,
    in order and separated by commas, sends a pending bootstrap once, and plans
    the next lookup: after the smallest time to live of the answer when that
    is positive and its milliseconds fit an [int]. *)
Theorem dns_answer_published (nodes : list ai_node) (names : list string) (interval : ms_value)
    (r : resolver) (w : dns)
    (Hn : nodes <> []) (Hp : Forall2 prints_as nodes names)
    (Hd : rv_dirty r = false) (Ht : is_Some (dns_ttl_timer w)) :
  let w' := (cwmp_dns_resolve_cb ARES_SUCCESS (Some nodes) interval r w).2 in
  let v := foldl Z.min INT_MAX (map ai_ttl nodes) in
  calls w' = calls w ++ SetAcsIpList (String.concat "," names)
    :: (if send_bootstrap w then [BootstrapInform] else []) /\
  send_bootstrap w' = false /\
  running (dns_ttl_timer w') = true /\
  (0 < v <= 2147483 -> (tm_running <$> dns_ttl_timer w') = Some (Some (1000 * v))).
Proof.
  intros w' v.
  pose proof (resolve_cb_running ARES_SUCCESS (Some nodes) interval r w Hd Ht) as Hr. fold w' in Hr.
  assert (E : w' = flush_bootstrap (cwmp_dns_schedule interval (cwmp_dns_update_dm
                (cwmp_dns_read_ai nodes w)))).
  { unfold w', cwmp_dns_resolve_cb, resolver_clean_timer_start. simpl.
    destruct nodes; [done|]. by destruct (rv_clean_timer r); simpl; rewrite Hd. }
  unfold cwmp_dns_read_ai in E. rewrite (read_nodes_prints _ _ _ _ _ _ Hp) in E. fold v in E. simpl in E.
  unfold cwmp_dns_update_dm in E. simpl in E. rewrite addr_list_str_concat, (ips_of_names _ _ Hp) in E.
  unfold flush_bootstrap in E. simpl in E. split_and!; [..|exact Hr|].
  - rewrite E. destruct (send_bootstrap w); simpl; by rewrite <- ?app_assoc.
  - rewrite E. by destruct (send_bootstrap w) eqn:Eb; simpl.
  - intros Hv. rewrite E. destruct (send_bootstrap w); unfold cwmp_dns_schedule; simpl;
      destruct Ht as [t ->]; simpl; replace (v <=? 0) with false by lia;
      replace (v =? INT_MAX) with false by (unfold INT_MAX; lia); simpl;
      rewrite s32_id, u32_id by lia; do 2 f_equal; lia.
Qed.

End Dns.

(** ** Witnesses *)

(** Addresses that are their own printed form, one literal address, and URLs
    that are their own host *)
Definition ex_ntop (_ : Z) (s : string) : option string := None.
Definition ex_ares_ntop (_ : Z) (s : option string) : option string := s.
Definition ex_is_ip (s : string) : bool := streq s "10.0.0.1".

Definition ex_env (url : string) : resolve_env (sockaddr := string) :=
  {| acsurl := Some url; ai_family_str := Some (Some "4"); calloc_ok := true; ares_init_ok := true;
     ttl_remaining := 0; sync_cbs := [CbSock true 7 1 0] |}.

Definition ex_run :=
  dns_run id id ex_ntop ex_ares_ntop Some ex_is_ip
    [EvResolve true (ex_env "acs.example"); EvResolve false (ex_env "acs.example")] cwmp_dns_init.

Lemma dns_latest_resolution_counts_witness :
  map rv_dirty (resolver_list ex_run) = [true; false] /\
  visible (dns_step id id ex_ntop ex_ares_ntop Some ex_is_ip
    (EvFd 0 7 EV_READ [CbResult ARES_SUCCESS (Some [{| ai_family := AF_INET; ai_addr := "192.0.2.1"; ai_ttl := 60 |}])
       None]) ex_run) = visible ex_run.
Proof.
  split; [reflexivity|].
  apply (dns_latest_resolution_counts id id ex_ntop ex_ares_ntop Some ex_is_ip
    [EvResolve true (ex_env "acs.example"); EvResolve false (ex_env "acs.example")]) with (a := 0%nat).
  - reflexivity.
  - intros r Hr Hid. unfold cwmp_dns_init in Hr. vm_compute in Hr.
    apply elem_of_cons in Hr as [->|Hr]; [reflexivity|].
    apply list_elem_of_singleton in Hr as ->. discriminate Hid.
Defined.

Lemma dns_next_lookup_pending_witness :
  looked_up Some ex_is_ip (ex_env "acs.example") /\
  lookup_pending (dns_run id id ex_ntop ex_ares_ntop Some ex_is_ip
    [EvResolve true (ex_env "acs.example"); EvTimeout 0 [CbSock true 7 0 0]; EvClean 0 [7]] cwmp_dns_init).
Proof.
  split; [split; [discriminate|reflexivity]|].
  apply dns_next_lookup_pending. repeat constructor; discriminate.
Defined.

Definition ex_nodes : list (ai_node (sockaddr := string)) :=
  [{| ai_family := AF_INET; ai_addr := "192.0.2.1"; ai_ttl := 60 |};
   {| ai_family := AF_INET6; ai_addr := "2001:db8::1"; ai_ttl := 30 |}].

Definition ex_resolver : resolver :=
  {| rv_id := 0; rv_host := "acs.example"; rv_dirty := false; rv_family := 0; rv_events := [];
     rv_clean_timer := None; rv_timeout_timer := None |}.

Lemma dns_answer_published_witness :
  calls (cwmp_dns_resolve_cb id id ex_ntop ex_ares_ntop ARES_SUCCESS (Some ex_nodes) None ex_resolver
    (with_bootstrap true cwmp_dns_init)).2 =
    [SetAcsIpList "192.0.2.1,2001:db8::1"; BootstrapInform].
Proof.
  apply (dns_answer_published id id ex_ntop ex_ares_ntop ex_nodes ["192.0.2.1"; "2001:db8::1"] None
    ex_resolver (with_bootstrap true cwmp_dns_init)).
  - discriminate.
  - constructor; [|constructor; [|constructor]]; (split; [|split; [reflexivity|discriminate]]);
      [by left|by right].
  - reflexivity.
  - eexists. reflexivity.
Defined.

End Dns.
