(* ===== verification/Smm.v ===== *)
(** * Smm: software modules ([src/src/dmdeviceadapter/amx/cwmp_plugin/smm.c]
    and [src/src/dmdeviceadapter/amx/adapter/DM_AmxChangeDUState.c])

    A ChangeDUState request of the ACS travels through three processes: the
    device adapter of cwmpd turns it into a call of
    [ManagementServer.SMM.changeDUState]; the plugin runs the operation with
    the software-module service and records it as an instance of
    [DUStateChangeComplete] with one child of [Operations]; the result of the
    service is added to that child; when all operations are done the instance
    becomes done, and the adapter reports it to the ACS.

    The data model is the list [dsccs]; transactions are accepted or refused by
    the data model ([accepts], indexed by the number of transactions so far);
    the events the data model raises wait in [pending] until they are
    dispatched.  Calls into other processes are recorded in [calls]. *)

From Stdlib Require Import ZArith Lia.
From stdpp Require Import base list gmap strings.
From S2P Require Import Prelude.

Module Smm.

(** ** Data *)

(** [op_status_t] *)
Inductive op_status_t := op_status_none | op_status_in_progress | op_status_done.

#[export] Instance op_status_eq_dec : EqDecision op_status_t.
Proof. solve_decision. Defined.

Inductive amxd_status := amxd_status_ok | amxd_status_invalid_arg | amxd_status_failed.

(** A string of a hash table, as [GET_CHAR] reads it. *)
Definition table := gmap string string.

(** An element of the argument [Operations].  [Type] is never absent: without
    it [op_run] compares a null pointer. *)
Record operation := { o_type : string; o_args : table }.

(** The structure [OpResultStruct] of the notification of the service. *)
Record op_result := {
  res_strings : table;
  res_fault_code : Z;
  res_resolved : bool;
  res_start_time : option string;
  res_complete_time : option string;
}.

Inductive value := VString (s : string) | VUint (n : Z) | VBool (b : bool) | VTime (t : string).

(** An instance of [Results] *)
Definition result_obj := list (string * value).

(** An instance of [Operations] *)
Record op_obj := {
  op_index : nat;
  op_type : string;
  op_status : string;
  op_id : Z;
  op_params : list (string * string);
  op_results : list result_obj;
}.

(** An instance of [DUStateChangeComplete] *)
Record dscc := {
  ds_index : nat;
  ds_command_key : string;
  ds_initiator : string;
  ds_status : string;
  ds_operations : list op_obj;
}.

(** Events of the data model: the [Status] of an operation, and of a
    [DUStateChangeComplete], becomes "Done". *)
Inductive dm_event := OpDone (ds op : nat) | DsccDone (ds : nat).

Inductive call :=
| ServiceCall (rpc : string) (args : list (string * string))
| SendDUStateChangeComplete (results : list result_obj) (command_key : string) (ds : nat).

Record smm := {
  dsccs : list dscc;
  last_index : nat;
  pending : list dm_event;
  transactions : nat;
  calls : list call;
}.

Definition initial : smm :=
  {| dsccs := []; last_index := 0; pending := []; transactions := 0; calls := [] |}.

Definition log (c : call) (w : smm) : smm :=
  {| dsccs := dsccs w; last_index := last_index w; pending := pending w;
     transactions := transactions w; calls := calls w ++ [c] |}.

Definition with_dsccs (l : list dscc) (evs : list dm_event) (w : smm) : smm :=
  {| dsccs := l; last_index := last_index w; pending := pending w ++ evs;
     transactions := transactions w; calls := calls w |}.

Definition op_with_status (s : string) (o : op_obj) : op_obj :=
  {| op_index := op_index o; op_type := op_type o; op_status := s; op_id := op_id o;
     op_params := op_params o; op_results := op_results o |}.

Definition op_with_result (r : result_obj) (o : op_obj) : op_obj :=
  {| op_index := op_index o; op_type := op_type o; op_status := op_status o; op_id := op_id o;
     op_params := op_params o; op_results := op_results o ++ [r] |}.

Definition ds_with_status (s : string) (d : dscc) : dscc :=
  {| ds_index := ds_index d; ds_command_key := ds_command_key d; ds_initiator := ds_initiator d;
     ds_status := s; ds_operations := ds_operations d |}.

Definition ds_with_operations (l : list op_obj) (d : dscc) : dscc :=
  {| ds_index := ds_index d; ds_command_key := ds_command_key d; ds_initiator := ds_initiator d;
     ds_status := ds_status d; ds_operations := l |}.

(** ** Access to the data model *)

Definition find_dscc (i : nat) (w : smm) : option dscc :=
  List.find (fun d => Nat.eqb (ds_index d) i) (dsccs w).

Definition find_op (i j : nat) (w : smm) : option op_obj :=
  d ← find_dscc i w; List.find (fun o => Nat.eqb (op_index o) j) (ds_operations d).

Definition alter_dscc (i : nat) (f : dscc -> dscc) (l : list dscc) : list dscc :=
  map (fun d => if Nat.eqb (ds_index d) i then f d else d) l.

Definition alter_op (i j : nat) (f : op_obj -> op_obj) : list dscc -> list dscc :=
  alter_dscc i (fun d =>
    ds_with_operations
      (map (fun o => if Nat.eqb (op_index o) j then f o else o) (ds_operations d)) d).

Section Smm.

(** The answer of the data model to its n-th transaction *)
Context (accepts : nat -> bool).

(** [amxd_trans_apply]: [f] changes the objects and raises the events. *)
Definition trans_apply (f : smm -> smm) (w : smm) : smm * bool :=
  let w1 := {| dsccs := dsccs w; last_index := last_index w; pending := pending w;
               transactions := S (transactions w); calls := calls w |} in
  if accepts (transactions w) then (f w1, true) else (w1, false).

(** ** Status of an operation *)

Definition op_status_get (o : op_obj) : op_status_t :=
  if streq (op_status o) "In Progress" then op_status_in_progress
  else if streq (op_status o) "Done" then op_status_done
  else op_status_none.

Definition op_status_string (s : op_status_t) : string :=
  match s with
  | op_status_in_progress => "In Progress"
  | op_status_done => "Done"
  | op_status_none => ""
  end.

(** [op_status_set]; the data model raises an event when the value changes. *)
Definition op_status_set (i j : nat) (s : op_status_t) (w : smm) : smm :=
  let v := op_status_string s in
  (trans_apply (fun w =>
     match find_op i j w with
     | Some o =>
         with_dsccs (alter_op i j (op_with_status v) (dsccs w))
           (if streq v "Done" && negb (streq (op_status o) "Done") then [OpDone i j] else []) w
     | None => w
     end) w).1.

(** [dscc_status_done] *)
Definition dscc_status_done (i : nat) (w : smm) : smm :=
  (trans_apply (fun w =>
     match find_dscc i w with
     | Some d =>
         with_dsccs (alter_dscc i (ds_with_status "Done") (dsccs w))
           (if streq (ds_status d) "Done" then [] else [DsccDone i]) w
     | None => w
     end) w).1.

(** [op_obj_get_by_id]: the first operation of that identifier. *)
Fixpoint op_obj_search (id : Z) (l : list dscc) : option (nat * nat) :=
  match l with
  | [] => None
  | d :: l' =>
      match List.find (fun o => op_id o =? id) (ds_operations d) with
      | Some o => Some (ds_index d, op_index o)
      | None => op_obj_search id l'
      end
  end.

Definition op_obj_get_by_id (id : Z) (w : smm) : option (nat * nat) :=
  if id =? 0 then None else op_obj_search id (dsccs w).

(** ** Running an operation *)

(** The arguments a type requires, in the order of the checks *)
Definition required (type : string) : option (string * list string) :=
  if streq type "Install" then
    Some ("InstallDU", ["URL"; "UUID"; "Username"; "Password"; "ExecutionEnvRef"])
  else if streq type "Update" then
    Some ("UpdateDU", ["UUID"; "Version"; "URL"; "Username"; "Password"])
  else if streq type "Uninstall" then
    Some ("UninstallDU", ["UUID"; "Version"; "ExecutionEnvRef"])
  else None.

(** The order in which the arguments are added to the call *)
Definition argument_order : list string :=
  ["URL"; "UUID"; "Username"; "Password"; "ExecutionEnvRef"; "Version"].

Definition present (o : operation) (k : string) : bool := negb (is_null (o_args o !! k)).

(** The remote procedure and its arguments; [None] is the early return. *)
Definition op_request (o : operation) : option (string * list (string * string)) :=
  match required (o_type o) with
  | None => None
  | Some (rpc, keys) =>
      if forallb (present o) keys then
        Some (rpc, omap (fun k => if decide (k ∈ keys) then pair k <$> o_args o !! k else None)
                     argument_order)
      else None
  end.

(** [op_run].  [reply] is the answer of the service: [None] on failure, or the
    returned [OperationId]. *)
Definition op_run (o : operation) (reply : option Z) (w : smm) : smm * option Z :=
  match op_request o with
  | None => (w, None)
  | Some (rpc, args) => (log (ServiceCall rpc args) w, reply)
  end.

(** The parameters [_changeDUState] writes into the new instance, in order *)
Definition recorded (type : string) : list string :=
  if streq type "Install" then ["URL"; "UUID"; "Username"; "Password"; "ExecutionEnvRef"]
  else if streq type "Update" then ["UUID"; "Version"; "URL"; "Username"; "Password"]
  else if streq type "Uninstall" then ["UUID"; "Version"; "ExecutionEnvRef"]
  else [].

Definition new_op (o : operation) (id : Z) : op_obj :=
  {| op_index := 1; op_type := o_type o; op_status := "In Progress"; op_id := id;
     op_params := omap (fun k => pair k <$> o_args o !! k) (recorded (o_type o)); op_results := [] |}.

(** The new instance of [DUStateChangeComplete] *)
Definition add_dscc (initiator commandKey : string) (o : op_obj) (w : smm) : smm :=
  let i := S (last_index w) in
  {| dsccs := dsccs w ++ [{| ds_index := i; ds_command_key := commandKey; ds_initiator := initiator;
                             ds_status := ""; ds_operations := [o] |}];
     last_index := i; pending := pending w; transactions := transactions w; calls := calls w |}.

(** [_changeDUState]; only the first element of [Operations] is used. *)
Definition changeDUState (initiator commandKey : string) (operations : list operation)
    (reply : option Z) (w : smm) : smm * amxd_status :=
  match operations with
  | [] => (w, amxd_status_invalid_arg)
  | o :: _ =>
      let '(w, r) := op_run o reply w in
      match r with
      | None => (w, amxd_status_invalid_arg)
      | Some id =>
          if id =? 0 then (w, amxd_status_invalid_arg)
          else
            let '(w, ok) := trans_apply (add_dscc initiator commandKey (new_op o id)) w in
            (w, if ok then amxd_status_ok else amxd_status_failed)
      end
  end.

(** ** Results *)

Definition string_field (r : op_result) (k : string) : result_obj :=
  match res_strings r !! k with
  | Some s => [(k, VString s)]
  | None => []
  end.

Definition time_field (k : string) (t : option string) : result_obj :=
  match t with
  | Some t => [(k, VTime t)]
  | None => []
  end.

(** The instance [op_add_result] creates *)
Definition op_result_obj (r : op_result) : result_obj :=
  string_field r "CurrentState" ++ string_field r "DeploymentUnitRef"
  ++ string_field r "ExecutionUnitRefList" ++ [("FaultCode", VUint (res_fault_code r))]
  ++ string_field r "FaultString" ++ [("Resolved", VBool (res_resolved r))]
  ++ time_field "StartTime" (res_start_time r) ++ time_field "CompleteTime" (res_complete_time r)
  ++ string_field r "UUID" ++ string_field r "Version".

Definition op_add_result (i j : nat) (r : option op_result) (w : smm) : smm * bool :=
  match r with
  | None => (w, false)
  | Some r =>
      trans_apply (fun w => with_dsccs (alter_op i j (op_with_result (op_result_obj r)) (dsccs w)) [] w) w
  end.

(** [op_handle_results], the handler of [OpResultDU!] *)
Definition op_handle_results (id : Z) (r : option op_result) (w : smm) : smm :=
  match op_obj_get_by_id id w with
  | None => w
  | Some (i, j) =>
      match find_op i j w with
      | Some o =>
          if decide (op_status_get o = op_status_in_progress) then
            let '(w, ok) := op_add_result i j r w in
            if ok then op_status_set i j op_status_done w else w
          else w
      | None => w
      end
  end.

(** [_dscc_op_done]; [NumberOfOperations] counts the instances. *)
Definition dscc_op_done (i j : nat) (w : smm) : smm :=
  match find_op i j w, find_dscc i w with
  | Some _, Some d =>
      let number_of_operations := length (ds_operations d) in
      if Nat.eqb number_of_operations 0 then w
      else
        let count := length (List.filter (fun o => streq (op_status o) "Done") (ds_operations d)) in
        if Nat.eqb count number_of_operations then dscc_status_done i w else w
  | _, _ => w
  end.

(** ** Availability of the service *)

Inductive monitor := NotMonitoring | WaitingForService | Monitoring.

(** [monitor_smm]; [has_ctx] and [subscribe_ok] are what the bus answers. *)
Definition monitor_smm (has_ctx subscribe_ok : bool) (m : monitor) : monitor * bool :=
  if negb has_ctx then (m, false)
  else if negb subscribe_ok then (m, false)
  else (Monitoring, true).

Definition smm_init (has_ctx connect_ok subscribe_ok : bool) : monitor * bool :=
  if negb has_ctx then
    if connect_ok then (WaitingForService, true) else (NotMonitoring, false)
  else monitor_smm has_ctx subscribe_ok NotMonitoring.

Definition smm_available_cb (has_ctx subscribe_ok : bool) (m : monitor) : monitor :=
  match m with
  | WaitingForService => (monitor_smm has_ctx subscribe_ok m).1
  | _ => m
  end.

(** ** The device adapter *)

(** [OperationStruct] of the engine; its strings are never null. *)
Inductive operation_struct :=
| OPERATION_TYPE_INSTALL (url uuid username password executionEnvRef : string)
| OPERATION_TYPE_UPDATE (uuid version url username password : string)
| OPERATION_TYPE_UNINSTALL (uuid version executionEnvRef : string)
| OPERATION_TYPE_UNKNOWN.

Definition DM_ENG_FAULTCODE_9002 : Z := 9002.

(** The element of [Operations] [DM_ENG_Device_DoChangeDUState] builds *)
Definition adapter_operation (s : operation_struct) : option operation :=
  match s with
  | OPERATION_TYPE_INSTALL url uuid username password executionEnvRef =>
      Some {| o_type := "Install";
              o_args := {[ "URL" := url; "UUID" := uuid; "Username" := username;
                           "Password" := password; "ExecutionEnvRef" := executionEnvRef ]} |}
  | OPERATION_TYPE_UPDATE uuid version url username password =>
      Some {| o_type := "Update";
              o_args := {[ "UUID" := uuid; "Version" := version; "URL" := url;
                           "Username" := username; "Password" := password ]} |}
  | OPERATION_TYPE_UNINSTALL uuid version executionEnvRef =>
      Some {| o_type := "Uninstall";
              o_args := {[ "UUID" := uuid; "Version" := version;
                           "ExecutionEnvRef" := executionEnvRef ]} |}
  | OPERATION_TYPE_UNKNOWN => None
  end.

(** [DM_ENG_Device_DoChangeDUState]: the call of the plugin succeeds when
    [_changeDUState] returns [amxd_status_ok]. *)
Definition DM_ENG_Device_DoChangeDUState (operations : list operation_struct)
    (commandKey : option string) (reply : option Z) (w : smm) : smm * Z :=
  match commandKey, operations with
  | Some commandKey, s :: _ =>
      match adapter_operation s with
      | None => (w, DM_ENG_FAULTCODE_9002)
      | Some o =>
          let '(w, status) := changeDUState "ACS" commandKey [o] reply w in
          (w, match status with amxd_status_ok => 0 | _ => DM_ENG_FAULTCODE_9002 end)
      end
  | _, _ => (w, DM_ENG_FAULTCODE_9002)
  end.

(** [handle_dustatechangecomplete]: the results of all operations are sent. *)
Definition handle_dustatechangecomplete (i : nat) (w : smm) : smm :=
  match find_dscc i w with
  | None => w
  | Some d =>
      log (SendDUStateChangeComplete (ds_operations d ≫= op_results) (ds_command_key d) i) w
  end.

(** [dustatechangecomplete_notification]; the subscription
    [DUSTATECHANGECOMPLETE_SUB] is restricted to the initiator ACS. *)
Definition dustatechangecomplete_notification (i : nat) (w : smm) : smm :=
  match find_dscc i w with
  | None => w
  | Some d => if streq (ds_initiator d) "ACS" then handle_dustatechangecomplete i w else w
  end.

(** [DM_AmxChangeDUState_init]: the instances that are reported by a timer
    without delay, because they were done before the subscription. *)
Definition DM_AmxChangeDUState_init (w : smm) : list nat :=
  map ds_index (List.filter (fun d => streq (ds_initiator d) "ACS" && streq (ds_status d) "Done") (dsccs w)).

(** ** Steps *)

Inductive smm_event :=
| Request (operations : list operation_struct) (commandKey : option string) (reply : option Z)
| Rpc (initiator commandKey : string) (operations : list operation) (reply : option Z)
| OpResultDU (id : Z) (r : option op_result)
| Dispatch
| Delete (i : nat).

Definition dispatch (w : smm) : smm :=
  match pending w with
  | [] => w
  | e :: es =>
      let w := {| dsccs := dsccs w; last_index := last_index w; pending := es;
                  transactions := transactions w; calls := calls w |} in
      match e with
      | OpDone i j => dscc_op_done i j w
      | DsccDone i => dustatechangecomplete_notification i w
      end
  end.

Definition smm_step (e : smm_event) (w : smm) : smm :=
  match e with
  | Request operations commandKey reply =>
      (DM_ENG_Device_DoChangeDUState operations commandKey reply w).1
  | Rpc initiator commandKey operations reply =>
      (changeDUState initiator commandKey operations reply w).1
  | OpResultDU id r => op_handle_results id r w
  | Dispatch => dispatch w
  | Delete i => with_dsccs (List.filter (fun d => negb (Nat.eqb (ds_index d) i)) (dsccs w)) [] w
  end.

Definition smm_run : list smm_event -> smm -> smm := run_steps smm_step.

(** ** The invariant *)

Definition is_send (i : nat) (c : call) : bool :=
  match c with SendDUStateChangeComplete _ _ k => Nat.eqb k i | _ => false end.

Definition is_done (i : nat) (e : dm_event) : bool :=
  match e with DsccDone k => Nat.eqb k i | _ => false end.

(** The reports of an instance: those sent and those under way. *)
Definition sent (i : nat) (w : smm) : nat := length (List.filter (is_send i) (calls w)).
Definition reports (i : nat) (w : smm) : nat :=
  (sent i w + length (List.filter (is_done i) (pending w)))%nat.

(** An operation is in progress, or done with a result. *)
Definition op_ok (o : op_obj) : Prop :=
  op_index o = 1%nat /\
  (op_status o = "In Progress" \/ (op_status o = "Done" /\ op_results o <> [])).

(** An instance has one operation, and is done only after it. *)
Definition dscc_ok (d : dscc) : Prop :=
  exists o, ds_operations d = [o] /\ op_ok o /\
    (ds_status d = "" \/ (ds_status d = "Done" /\ op_status o = "Done")).

Record smm_inv (w : smm) : Prop := {
  inv_indices : NoDup (map ds_index (dsccs w));
  inv_last : Forall (fun d => (ds_index d <= last_index w)%nat) (dsccs w);
  inv_ok : Forall dscc_ok (dsccs w);
  inv_once : forall i, (reports i w <= 1)%nat;
  inv_reported : forall i, (0 < reports i w)%nat ->
    (i <= last_index w)%nat /\ forall d, d ∈ dsccs w -> ds_index d = i -> ds_status d = "Done";
  inv_acs : forall d, d ∈ dsccs w -> ds_initiator d = "ACS" -> ds_status d = "Done" ->
    reports (ds_index d) w = 1%nat;
  inv_results : forall rs ck i, SendDUStateChangeComplete rs ck i ∈ calls w -> rs <> [];
}.

Lemma find_dscc_Some i w d : find_dscc i w = Some d -> d ∈ dsccs w /\ ds_index d = i.
Proof.
  intros H. apply find_some in H as [H1 H2]. apply Nat.eqb_eq in H2.
  by rewrite list_elem_of_In.
Qed.

Lemma find_op_Some i j w o :
  find_op i j w = Some o ->
  exists d, find_dscc i w = Some d /\ o ∈ ds_operations d /\ op_index o = j.
Proof.
  unfold find_op. destruct (find_dscc i w) as [d|] eqn:E; simpl; [|done].
  intros H. apply find_some in H as [H1 H2]. apply Nat.eqb_eq in H2.
  exists d. by rewrite list_elem_of_In.
Qed.

Lemma unique_index (l : list dscc) d1 d2 :
  NoDup (map ds_index l) -> d1 ∈ l -> d2 ∈ l -> ds_index d1 = ds_index d2 -> d1 = d2.
Proof.
  induction l as [|d l IH]; simpl; [set_solver|]. intros [Hn H]%NoDup_cons.
  assert (Hx : forall x, x ∈ l -> ds_index x <> ds_index d).
  { intros x Hx Heq. apply Hn. rewrite <- Heq. apply list_elem_of_fmap. by exists x. }
  intros [->|H1]%elem_of_cons [->|H2]%elem_of_cons Heq; auto; exfalso; by eapply Hx; eauto.
Qed.

Lemma map_alter_dscc {A} (g : dscc -> A) i f l :
  (forall d, g (f d) = g d) -> map g (alter_dscc i f l) = map g l.
Proof.
  intros H. unfold alter_dscc. rewrite map_map. apply map_ext. intros d.
  by destruct (Nat.eqb (ds_index d) i).
Qed.

Lemma Forall_alter_dscc (P : dscc -> Prop) i f l :
  Forall P l -> (forall d, d ∈ l -> ds_index d = i -> P d -> P (f d)) -> Forall P (alter_dscc i f l).
Proof.
  intros H Hf. unfold alter_dscc. apply Forall_map. rewrite Forall_forall in *.
  intros d Hd. simpl. destruct (Nat.eqb_spec (ds_index d) i); auto.
Qed.

Lemma elem_of_alter_dscc d i f l :
  d ∈ alter_dscc i f l ->
  exists d0, d0 ∈ l /\ ((ds_index d0 = i /\ d = f d0) \/ (ds_index d0 <> i /\ d = d0)).
Proof.
  unfold alter_dscc. intros (d0 & -> & H)%list_elem_of_fmap. exists d0. split; [done|].
  destruct (Nat.eqb_spec (ds_index d0) i); auto.
Qed.

(** A change of the instances that keeps their indices, statuses and
    initiators, and raises no report. *)
Lemma inv_alter i f w evs :
  (forall d, ds_index (f d) = ds_index d /\ ds_status (f d) = ds_status d /\
     ds_initiator (f d) = ds_initiator d) ->
  (forall d, d ∈ dsccs w -> ds_index d = i -> dscc_ok d -> dscc_ok (f d)) ->
  Forall (fun e => forall k, is_done k e = false) evs ->
  smm_inv w -> smm_inv (with_dsccs (alter_dscc i f (dsccs w)) evs w).
Proof.
  intros Hf Hok Hev [H1 H2 H3 H4 H5 H6 H7].
  assert (Hr : forall k, reports k (with_dsccs (alter_dscc i f (dsccs w)) evs w) = reports k w).
  { intros k. unfold reports, sent. simpl. rewrite List.filter_app, length_app.
    replace (List.filter (is_done k) evs) with (@nil dm_event); [simpl; lia|].
    induction Hev as [|e evs He _ IH]; simpl; [done|]. by rewrite He. }
  assert (Hs : forall d, d ∈ alter_dscc i f (dsccs w) -> exists d0, d0 ∈ dsccs w /\
    ds_index d = ds_index d0 /\ ds_status d = ds_status d0 /\ ds_initiator d = ds_initiator d0).
  { intros d (d0 & Hd0 & [[_ ->]|[_ ->]])%elem_of_alter_dscc; exists d0; naive_solver. }
  constructor; simpl; auto.
  - rewrite map_alter_dscc; [done|apply Hf].
  - apply Forall_alter_dscc; [done|]. intros d _ _. by rewrite (proj1 (Hf d)).
  - by apply Forall_alter_dscc.
  - intros k. by rewrite Hr.
  - intros k. rewrite Hr. intros Hk. destruct (H5 k Hk) as [Ha Hb]. split; [done|].
    intros d (d0 & Hd0 & E1 & E2 & _)%Hs. rewrite E1, E2. by apply Hb.
  - intros d (d0 & Hd0 & E1 & E2 & E3)%Hs. rewrite Hr, E1, E2, E3. by apply H6.
Qed.

(** The parts of the state the invariant does not read. *)
Lemma inv_transactions w n :
  smm_inv w -> smm_inv {| dsccs := dsccs w; last_index := last_index w; pending := pending w;
                          transactions := n; calls := calls w |}.
Proof. by intros []. Qed.

(** A transaction keeps the invariant when its change does, on the same
    objects. *)
Lemma inv_trans_apply f w :
  (forall w1, dsccs w1 = dsccs w -> smm_inv w1 -> smm_inv (f w1)) -> smm_inv w ->
  smm_inv (trans_apply f w).1.
Proof.
  intros Hf H. unfold trans_apply. pose proof (inv_transactions w (S (transactions w)) H).
  destruct (accepts (transactions w)); simpl; auto.
Qed.

(** A service call is no report. *)
Lemma inv_service_call rpc args w : smm_inv w -> smm_inv (log (ServiceCall rpc args) w).
Proof.
  intros [H1 H2 H3 H4 H5 H6 H7].
  assert (Hr : forall k, reports k (log (ServiceCall rpc args) w) = reports k w).
  { intros k. unfold reports, sent. simpl. rewrite List.filter_app. simpl. by rewrite app_nil_r. }
  constructor; simpl; auto.
  - intros k. by rewrite Hr.
  - intros k. rewrite Hr. auto.
  - intros d. rewrite Hr. auto.
  - intros rs ck i. rewrite elem_of_app, list_elem_of_singleton. intros [Hc|Hc]; [by eapply H7|done].
Qed.

Lemma inv_op_run o reply w : smm_inv w -> smm_inv (op_run o reply w).1.
Proof.
  intros H. unfold op_run. destruct (op_request o) as [[rpc args]|]; [by apply inv_service_call|done].
Qed.

Lemma inv_add_dscc initiator ck o id w : smm_inv w -> smm_inv (add_dscc initiator ck (new_op o id) w).
Proof.
  intros [H1 H2 H3 H4 H5 H6 H7].
  assert (Hn : S (last_index w) ∉ map ds_index (dsccs w)).
  { intros (d & Hd & Hin)%list_elem_of_fmap. rewrite Forall_forall in H2. specialize (H2 _ Hin). lia. }
  constructor; simpl; auto.
  - rewrite map_app. simpl. apply NoDup_app. split_and!; [done| |apply NoDup_singleton].
    intros x Hx. rewrite list_elem_of_singleton. by intros ->.
  - apply Forall_app. split; [eapply Forall_impl; [exact H2|]; simpl; lia|].
    apply Forall_cons. simpl. split; [lia|done].
  - apply Forall_app. split; [done|]. apply Forall_cons. split; [|done].
    exists (new_op o id). simpl. split; [done|]. split; [|by left]. split; [done|by left].
  - intros i Hi. destruct (H5 i Hi) as [Ha Hb]. split; [lia|].
    intros d [Hd|Hd]%elem_of_app; [by apply Hb|]. apply list_elem_of_singleton in Hd as ->. simpl. lia.
  - intros d [Hd|Hd]%elem_of_app; [by apply H6|]. by apply list_elem_of_singleton in Hd as ->.
Qed.

Lemma inv_changeDUState initiator ck ops reply w :
  smm_inv w -> smm_inv (changeDUState initiator ck ops reply w).1.
Proof.
  intros H. unfold changeDUState. destruct ops as [|o ops]; [done|].
  pose proof (inv_op_run o reply w H) as H1. destruct (op_run o reply w) as [w1 [id|]]; [|done].
  destruct (id =? 0); [done|].
  pose proof (inv_trans_apply (add_dscc initiator ck (new_op o id)) w1) as H2.
  specialize (H2 (fun w2 _ => inv_add_dscc _ _ _ _ w2) H1).
  by destruct (trans_apply _ w1).
Qed.

Lemma inv_alter_op i j f w evs :
  (forall o, op_index (f o) = op_index o) ->
  (forall d o, d ∈ dsccs w -> ds_index d = i -> ds_operations d = [o] -> op_index o = j -> op_ok o ->
     op_ok (f o) /\ (op_status o = "Done" -> op_status (f o) = "Done")) ->
  Forall (fun e => forall k, is_done k e = false) evs ->
  smm_inv w -> smm_inv (with_dsccs (alter_op i j f (dsccs w)) evs w).
Proof.
  intros Hi Hf Hev H. apply inv_alter; try done.
  intros d Hd Hdi (o & Ho & Hok & Hst). unfold dscc_ok. simpl. rewrite Ho. simpl.
  eexists. split; [done|]. destruct (Nat.eqb_spec (op_index o) j) as [Hj|Hj]; [|done].
  destruct (Hf d o) as [Ha Hb]; try done. split; [done|]. naive_solver.
Qed.

Lemma inv_add_result i j r w : smm_inv w -> smm_inv (op_add_result i j r w).1.
Proof.
  intros H. unfold op_add_result. destruct r as [r|]; [|done].
  apply inv_trans_apply; [|done]. intros w1 _ H1. apply inv_alter_op; try done.
  intros d o _ _ _ _ [Ha Hb]. split; [|done]. split; [done|]. simpl.
  destruct Hb as [Hb|[Hb Hc]]; [by left|right]. split; [done|]. by destruct (op_results o).
Qed.

(** The operations [i.j] have a result. *)
Definition has_result (i j : nat) (w : smm) : Prop :=
  forall d o, d ∈ dsccs w -> ds_index d = i -> o ∈ ds_operations d -> op_index o = j ->
    op_results o <> [].

Lemma add_result_has_result i j r w w1 : op_add_result i j r w = (w1, true) -> has_result i j w1.
Proof.
  unfold op_add_result, trans_apply. destruct r as [r|]; [|done].
  destruct (accepts (transactions w)); [|done]. intros [= <-] d o Hd Hi Ho Hj. simpl in Hd.
  apply elem_of_alter_dscc in Hd as (d0 & Hd0 & [[Hi0 ->]|[Hi0 ->]]); [|done].
  simpl in Ho. apply list_elem_of_fmap in Ho as (o0 & -> & Ho0).
  destruct (Nat.eqb_spec (op_index o0) j); [|done]. simpl. by destruct (op_results o0).
Qed.

Lemma inv_op_status_done i j w :
  has_result i j w -> smm_inv w -> smm_inv (op_status_set i j op_status_done w).
Proof.
  intros Hr H. unfold op_status_set. apply inv_trans_apply; [|done]. intros w1 E H1.
  destruct (find_op i j w1) as [o|]; [|done]. apply inv_alter_op; try done.
  - intros d o' Hd Hi Ho Hj [Ha _]. split; [|done]. split; [done|]. right. split; [done|].
    apply (Hr d o'); [by rewrite <- E|done| |done]. rewrite Ho. set_solver.
  - simpl. destruct (negb _); repeat constructor.
Qed.

Lemma inv_handle_results id r w : smm_inv w -> smm_inv (op_handle_results id r w).
Proof.
  intros H. unfold op_handle_results. destruct (op_obj_get_by_id id w) as [[i j]|]; [|done].
  destruct (find_op i j w) as [o|]; [|done]. case_decide; [|done].
  pose proof (inv_add_result i j r w H) as H1.
  destruct (op_add_result i j r w) as [w1 [|]] eqn:E; [|done].
  apply inv_op_status_done; [|done]. by eapply add_result_has_result.
Qed.

Lemma alter_dscc_id i f l : (forall d, d ∈ l -> ds_index d = i -> f d = d) -> alter_dscc i f l = l.
Proof.
  intros H. unfold alter_dscc. induction l as [|d l IH]; simpl; [done|]. f_equal.
  - destruct (Nat.eqb_spec (ds_index d) i); [|done]. apply H; [set_solver|done].
  - apply IH. set_solver.
Qed.

Lemma reports_event i k w :
  reports k (with_dsccs (alter_dscc i (ds_with_status "Done") (dsccs w)) [DsccDone i] w) =
    (reports k w + if Nat.eqb i k then 1 else 0)%nat.
Proof.
  unfold reports, sent. simpl. rewrite List.filter_app, length_app. simpl.
  destruct (Nat.eqb i k); simpl; lia.
Qed.

Lemma inv_ds_status_done i d o w :
  find_dscc i w = Some d -> ds_operations d = [o] -> op_status o = "Done" ->
  smm_inv w ->
  smm_inv (with_dsccs (alter_dscc i (ds_with_status "Done") (dsccs w))
             (if streq (ds_status d) "Done" then [] else [DsccDone i]) w).
Proof.
  intros Hd Ho Hs H. apply find_dscc_Some in Hd as [Hd Hdi].
  assert (Hu : forall d', d' ∈ dsccs w -> ds_index d' = i -> d' = d).
  { intros d' Hd' Hi'. eapply unique_index; [apply H|done..|congruence]. }
  destruct (streq (ds_status d) "Done") eqn:E; bool_prop.
  - rewrite alter_dscc_id.
    + destruct H. constructor; simpl; rewrite ?app_nil_r; auto; unfold reports, sent; simpl;
        by rewrite ?app_nil_r.
    + intros d' Hd' Hi'. rewrite (Hu d' Hd' Hi'). destruct d. simpl in *. by subst.
  - destruct H as [H1 H2 H3 H4 H5 H6 H7].
    assert (H0 : reports i w = 0%nat).
    { destruct (Nat.eq_dec (reports i w) 0%nat); [done|]. exfalso. apply E.
      destruct (H5 i) as [_ Hb]; [lia|]. by apply Hb. }
    constructor; simpl; auto.
    + by rewrite map_alter_dscc.
    + apply Forall_alter_dscc; [done|]. done.
    + apply Forall_alter_dscc; [done|]. intros d' Hd' Hi' (o' & Ho' & Hok' & _).
      exists o'. simpl. split_and!; [done|done|]. right. split; [done|].
      rewrite (Hu d' Hd' Hi') in Ho'. rewrite Ho in Ho'. by injection Ho' as <-.
    + intros k. rewrite reports_event. destruct (Nat.eqb_spec i k) as [<-|]; [lia|]. specialize (H4 k). lia.
    + intros k. rewrite reports_event. destruct (Nat.eqb_spec i k) as [<-|Hk].
      * intros _. split.
        { rewrite Forall_forall in H2. specialize (H2 d Hd). lia. }
        intros d' (d0 & Hd0 & [[_ ->]|[Hn ->]])%elem_of_alter_dscc Hi'; [done|congruence].
      * intros Hr. destruct (H5 k) as [Ha Hb]; [lia|]. split; [done|].
        intros d' (d0 & Hd0 & [[_ ->]|[Hn ->]])%elem_of_alter_dscc Hi'; [done|by apply Hb].
    + intros d' (d0 & Hd0 & [[Hi0 ->]|[Hn ->]])%elem_of_alter_dscc Ha Hst; rewrite reports_event; simpl in *.
      * rewrite Hi0, Nat.eqb_refl. lia.
      * destruct (Nat.eqb_spec i (ds_index d0)); [congruence|]. rewrite (H6 d0); auto.
Qed.

Lemma inv_dscc_op_done i j w : smm_inv w -> smm_inv (dscc_op_done i j w).
Proof.
  intros H. unfold dscc_op_done. destruct (find_op i j w) as [o|] eqn:Eo; [|done].
  destruct (find_dscc i w) as [d|] eqn:Ed; [|done].
  destruct (Nat.eqb _ 0); [done|]. destruct (Nat.eqb _ _) eqn:Ec; [|done]. apply Nat.eqb_eq in Ec.
  pose proof (find_dscc_Some _ _ _ Ed) as [Hd _].
  pose proof (inv_ok _ H) as Hok. rewrite Forall_forall in Hok. destruct (Hok d Hd) as (o' & Ho' & _).
  rewrite Ho' in Ec. simpl in Ec. destruct (streq (op_status o') "Done") eqn:Es; [|done].
  apply streq_true in Es. unfold dscc_status_done. apply inv_trans_apply; [|done].
  intros w1 E1 H1.
  assert (Ed1 : find_dscc i w1 = Some d) by (unfold find_dscc; by rewrite E1). rewrite Ed1.
  by eapply inv_ds_status_done.
Qed.

(** The state after an event is taken from the queue *)
Definition popped (es : list dm_event) (w : smm) : smm :=
  {| dsccs := dsccs w; last_index := last_index w; pending := es;
     transactions := transactions w; calls := calls w |}.

Lemma reports_popped e es k w :
  pending w = e :: es ->
  reports k w = (reports k (popped es w) + if is_done k e then 1 else 0)%nat.
Proof.
  intros Hp. unfold reports, sent. rewrite Hp. simpl. destruct (is_done k e); simpl; lia.
Qed.

Lemma reports_send rs ck i k w :
  reports k (log (SendDUStateChangeComplete rs ck i) w) =
    (reports k w + if Nat.eqb i k then 1 else 0)%nat.
Proof.
  unfold reports, sent. simpl. rewrite List.filter_app, length_app. simpl.
  destruct (Nat.eqb i k); simpl; lia.
Qed.

(** A state with the reports of [w], except that the report of [i] may have
    been dropped, which is allowed when no ACS instance of that index exists. *)
Lemma inv_notified i es w w' :
  smm_inv w -> pending w = DsccDone i :: es ->
  dsccs w' = dsccs w -> last_index w' = last_index w ->
  (forall k, (reports k w' <= reports k w)%nat /\ (k <> i -> reports k w' = reports k w)) ->
  (forall d, d ∈ dsccs w -> ds_index d = i -> ds_initiator d = "ACS" -> reports i w' = 1%nat) ->
  (forall rs ck k, SendDUStateChangeComplete rs ck k ∈ calls w' -> rs <> []) ->
  smm_inv w'.
Proof.
  intros [H1 H2 H3 H4 H5 H6 H7] Hp El Ei Hr Ha Hc. constructor; rewrite ?El, ?Ei; auto.
  - intros k. destruct (Hr k) as [Hle _]. specialize (H4 k). lia.
  - intros k Hk. apply H5. destruct (Hr k) as [Hle _]. lia.
  - intros d Hd Hin Hs. destruct (Nat.eq_dec (ds_index d) i) as [Hi|Hi].
    + rewrite Hi. by eapply Ha.
    + rewrite (proj2 (Hr _) Hi). auto.
Qed.

Lemma inv_notification i es w :
  smm_inv w -> pending w = DsccDone i :: es ->
  smm_inv (dustatechangecomplete_notification i (popped es w)).
Proof.
  intros H Hp.
  assert (Hle : forall k, (reports k (popped es w) <= reports k w)%nat /\
    (k <> i -> reports k (popped es w) = reports k w)).
  { intros k. rewrite (reports_popped _ es k w Hp). simpl. destruct (Nat.eqb_spec i k); split; lia. }
  unfold dustatechangecomplete_notification. destruct (find_dscc i (popped es w)) as [d|] eqn:Ed.
  2: { eapply inv_notified; eauto; try apply H. intros d Hd Hi. exfalso.
       eapply find_none in Ed; [|by apply list_elem_of_In]. by rewrite Hi, Nat.eqb_refl in Ed. }
  apply find_dscc_Some in Ed as Hd. simpl in Hd. destruct Hd as [Hd Hdi].
  assert (Hu : forall d', d' ∈ dsccs w -> ds_index d' = i -> d' = d).
  { intros d' Hd' Hi'. eapply unique_index; [apply H|done..|congruence]. }
  destruct (streq (ds_initiator d) "ACS") eqn:Ea; bool_prop.
  2: { eapply inv_notified; eauto; try apply H. intros d' Hd' Hi'. by rewrite (Hu d' Hd' Hi'). }
  unfold handle_dustatechangecomplete. rewrite Ed.
  assert (Hone : reports i w = 1%nat /\ ds_status d = "Done").
  { pose proof (inv_once _ H i). pose proof (reports_popped _ es i w Hp) as E. simpl in E.
    rewrite Nat.eqb_refl in E. split; [lia|]. destruct (inv_reported _ H i) as [_ Hb]; [lia|]. by apply Hb. }
  destruct Hone as [Hone Hst].
  pose proof (reports_popped _ es i w Hp) as E. simpl in E. rewrite Nat.eqb_refl in E.
  eapply inv_notified; eauto.
  - intros k. rewrite reports_send. destruct (Hle k) as [Ha Hb]. destruct (Nat.eqb_spec i k) as [<-|]; split; auto; lia.
  - intros _ _ _ _. rewrite reports_send, Nat.eqb_refl. lia.
  - intros rs ck k. simpl. rewrite elem_of_app, list_elem_of_singleton. intros [Hc|Hc].
    + by eapply (inv_results _ H).
    + injection Hc as -> _ _. pose proof (inv_ok _ H) as Hok. rewrite Forall_forall in Hok.
      destruct (Hok d Hd) as (o & Ho & Hoo & Hs). rewrite Ho. simpl. rewrite app_nil_r.
      destruct Hs as [Hs|[_ Hs]]; [by rewrite Hs in Hst|].
      destruct Hoo as [_ [Hx|[_ Hx]]]; [by rewrite Hx in Hs|done].
Qed.

Lemma inv_dispatch w : smm_inv w -> smm_inv (dispatch w).
Proof.
  intros H. unfold dispatch. destruct (pending w) as [|e es] eqn:Ep; [done|].
  fold (popped es w). destruct e as [i j|i]; [|by apply inv_notification].
  apply inv_dscc_op_done. pose proof (fun k => reports_popped _ es k w Ep) as Hr. simpl in Hr.
  assert (Hr' : forall k, reports k (popped es w) = reports k w) by (intros k; rewrite Hr; lia).
  destruct H as [H1 H2 H3 H4 H5 H6 H7].
  constructor; simpl; auto; intros k; rewrite Hr'; auto.
Qed.

Lemma inv_delete i w : smm_inv w -> smm_inv (smm_step (Delete i) w).
Proof.
  intros [H1 H2 H3 H4 H5 H6 H7]. simpl.
  set (l := List.filter _ _).
  assert (Hl : forall d, d ∈ l -> d ∈ dsccs w).
  { intros d. unfold l. rewrite !list_elem_of_In, filter_In. by intros [? _]. }
  assert (Hr : forall k, reports k (with_dsccs l [] w) = reports k w).
  { intros k. unfold reports, sent. simpl. by rewrite app_nil_r. }
  constructor; simpl; auto.
  - clear -H1. unfold l. clear l. induction (dsccs w) as [|d ds IH]; simpl; [done|].
    simpl in H1. apply NoDup_cons in H1 as [Ha Hb]. destruct (negb _); simpl; [|auto].
    apply NoDup_cons. split; [|auto]. intros (x & Hx & Hin)%list_elem_of_fmap. apply Ha.
    apply list_elem_of_fmap. exists x. split; [done|].
    rewrite list_elem_of_In in *. by apply filter_In in Hin as [? _].
  - rewrite Forall_forall in *. auto.
  - rewrite Forall_forall in *. auto.
  - intros k. by rewrite Hr.
  - intros k. rewrite Hr. intros Hk. destruct (H5 k Hk). split; auto.
  - intros d Hd. rewrite Hr. auto.
Qed.

Lemma smm_inv_step e w : smm_inv w -> smm_inv (smm_step e w).
Proof.
  intros H. destruct e as [ops ck reply|initiator ck ops reply|id r| |i].
  - simpl. unfold DM_ENG_Device_DoChangeDUState. destruct ck as [ck|], ops as [|s ops]; try done.
    destruct (adapter_operation s) as [o|]; [|done].
    pose proof (inv_changeDUState "ACS" ck [o] reply w H) as H1.
    by destruct (changeDUState "ACS" ck [o] reply w).
  - by apply inv_changeDUState.
  - by apply inv_handle_results.
  - by apply inv_dispatch.
  - by apply inv_delete.
Qed.

Lemma smm_inv_run es w : smm_inv w -> smm_inv (smm_run es w).
Proof. apply run_invariant_all, smm_inv_step. Qed.

Lemma inv_initial : smm_inv initial.
Proof.
  constructor; simpl; try done; try (intros; set_solver); try apply NoDup_nil_2.
  intros i. unfold reports, sent. simpl. lia.
Qed.

(** ** Properties *)

(** C30: whatever the order of requests, results (missing, repeated or for
    unknown operations), dispatched events, deletions and refused transactions,
    every instance of [DUStateChangeComplete] is reported to the ACS at most
    once, only with a result, and only after it is done; an instance is done
    only when its operation is done and has a result; and an instance of the
    ACS that is done has been reported or its report is under way. *)
Theorem du_state_change_reported_once (es : list smm_event) :
  let w := smm_run es initial in
  (forall i, (sent i w <= 1)%nat) /\
  (forall rs ck i, SendDUStateChangeComplete rs ck i ∈ calls w -> rs <> []) /\
  (forall d, d ∈ dsccs w ->
     ((0 < sent (ds_index d) w)%nat -> ds_status d = "Done") /\
     (ds_status d = "Done" ->
        (exists o, ds_operations d = [o] /\ op_status o = "Done" /\ op_results o <> []) /\
        (ds_initiator d = "ACS" -> reports (ds_index d) w = 1%nat))).
Proof.
  intros w. pose proof (smm_inv_run es initial inv_initial) as H. fold w in H.
  assert (Hs : forall i, (sent i w <= reports i w)%nat) by (intros i; unfold reports; lia).
  split_and!; [|apply H|].
  - intros i. specialize (Hs i). pose proof (inv_once _ H i). lia.
  - intros d Hd. split.
    + intros Hp. destruct (inv_reported _ H (ds_index d)) as [_ Hb]; [specialize (Hs (ds_index d)); lia|].
      by apply Hb.
    + intros Hst. split; [|intros Ha; by apply (inv_acs _ H)].
      pose proof (inv_ok _ H) as Hok. rewrite Forall_forall in Hok.
      destruct (Hok d Hd) as (o & Ho & [_ Hoo] & [Hx|[_ Hx]]); [by rewrite Hx in Hst|].
      exists o. destruct Hoo as [Hoo|[_ Hoo]]; [by rewrite Hoo in Hx|done].
Qed.

(** What the service is asked to do for a request of the ACS *)
Definition service_request (s : operation_struct) : option call :=
  match s with
  | OPERATION_TYPE_INSTALL url uuid username password env =>
      Some (ServiceCall "InstallDU" [("URL", url); ("UUID", uuid); ("Username", username);
        ("Password", password); ("ExecutionEnvRef", env)])
  | OPERATION_TYPE_UPDATE uuid version url username password =>
      Some (ServiceCall "UpdateDU" [("URL", url); ("UUID", uuid); ("Username", username);
        ("Password", password); ("Version", version)])
  | OPERATION_TYPE_UNINSTALL uuid version env =>
      Some (ServiceCall "UninstallDU" [("UUID", uuid); ("ExecutionEnvRef", env); ("Version", version)])
  | OPERATION_TYPE_UNKNOWN => None
  end.

Lemma adapter_request s c :
  service_request s = Some c ->
  exists o rpc args, adapter_operation s = Some o /\ op_request o = Some (rpc, args) /\
    c = ServiceCall rpc args.
Proof. destruct s; intros [= <-]; do 3 eexists; (split; [done|]); split; reflexivity. Qed.

Lemma op_obj_search_app id l1 l2 :
  op_obj_search id (l1 ++ l2) =
    match op_obj_search id l1 with Some p => Some p | None => op_obj_search id l2 end.
Proof.
  induction l1 as [|d l1 IH]; simpl; [done|]. by destruct (List.find _ _).
Qed.

Lemma find_dscc_last l d i :
  Forall (fun d => ds_index d <> i) l -> ds_index d = i ->
  List.find (fun d => Nat.eqb (ds_index d) i) (l ++ [d]) = Some d.
Proof.
  intros H Hi. rewrite find_app. induction H as [|x l Hx _ IH]; simpl.
  - by rewrite Hi, Nat.eqb_refl.
  - destruct (Nat.eqb_spec (ds_index x) i); [done|]. exact IH.
Qed.

Lemma alter_dscc_last l d i f :
  Forall (fun d => ds_index d <> i) l -> ds_index d = i ->
  alter_dscc i f (l ++ [d]) = l ++ [f d].
Proof.
  intros H Hi. unfold alter_dscc. rewrite map_app. simpl. rewrite Hi, Nat.eqb_refl. f_equal.
  apply alter_dscc_id. intros x Hx He. rewrite Forall_forall in H. by apply H in Hx.
Qed.

(** The state in which the instances are [l] and a last one, [d] *)
Definition at_last (l : list dscc) (d : dscc) (evs : list dm_event) (cs : list call) (w : smm) : Prop :=
  dsccs w = l ++ [d] /\ pending w = evs /\ calls w = cs.

Section Accepted.

Hypothesis all_accepted : forall n, accepts n = true.

Definition counted (w : smm) : smm :=
  {| dsccs := dsccs w; last_index := last_index w; pending := pending w;
     transactions := S (transactions w); calls := calls w |}.

Lemma trans_accepted f w : trans_apply f w = (f (counted w), true).
Proof. unfold trans_apply. by rewrite all_accepted. Qed.

Definition new_dscc (i : nat) (ck status : string) (o : op_obj) : dscc :=
  {| ds_index := i; ds_command_key := ck; ds_initiator := "ACS"; ds_status := status;
     ds_operations := [o] |}.

Lemma request_step s rest c ck id w :
  service_request s = Some c -> id <> 0 -> pending w = [] ->
  exists o, op_id o = id /\ op_index o = 1%nat /\ op_status o = "In Progress" /\ op_results o = [] /\
    at_last (dsccs w) (new_dscc (S (last_index w)) ck "" o) [] (calls w ++ [c])
      (smm_step (Request (s :: rest) (Some ck) (Some id)) w) /\
    (DM_ENG_Device_DoChangeDUState (s :: rest) (Some ck) (Some id) w).2 = 0.
Proof.
  intros (o & rpc & args & Ho & Hr & ->)%adapter_request Hid Hp.
  exists (new_op o id). simpl. unfold DM_ENG_Device_DoChangeDUState. rewrite Ho.
  unfold changeDUState, op_run. rewrite Hr. simpl.
  destruct (Z.eqb_spec id 0); [done|]. rewrite trans_accepted. simpl. split_and!; done.
Qed.

Lemma result_step l d o id r evs cs w :
  Forall (fun d' => ds_index d' <> ds_index d) l ->
  op_obj_search id l = None -> id <> 0 -> ds_operations d = [o] ->
  op_id o = id -> op_index o = 1%nat -> op_status o = "In Progress" ->
  at_last l d evs cs w ->
  at_last l (ds_with_operations [op_with_status "Done" (op_with_result (op_result_obj r) o)] d)
    (evs ++ [OpDone (ds_index d) 1]) cs (smm_step (OpResultDU id (Some r)) w).
Proof.
  intros Hl Hs Hid Ho Hoid Hoi Host (E1 & E2 & E3). simpl. unfold op_handle_results, op_obj_get_by_id.
  destruct (Z.eqb_spec id 0); [done|]. rewrite E1, op_obj_search_app, Hs. simpl. rewrite Ho. simpl.
  rewrite Hoid, Z.eqb_refl, Hoi.
  assert (Hf : forall w1 d1 o1, dsccs w1 = l ++ [d1] -> ds_index d1 = ds_index d ->
    ds_operations d1 = [o1] -> op_index o1 = 1%nat -> find_op (ds_index d) 1 w1 = Some o1).
  { intros w1 d1 o1 Hw Hi1 Ho1 Hoi1. unfold find_op, find_dscc. rewrite Hw.
    rewrite find_dscc_last by done. simpl. rewrite Ho1. simpl. by rewrite Hoi1. }
  rewrite (Hf w d o) by done. unfold op_status_get. rewrite Host. simpl.
  rewrite trans_accepted. unfold op_status_set. rewrite trans_accepted. simpl.
  set (w2 := counted (with_dsccs _ _ _)).
  assert (E : dsccs w2 = l ++ [ds_with_operations [op_with_result (op_result_obj r) o] d]).
  { unfold w2. simpl. rewrite E1. unfold alter_op. rewrite alter_dscc_last by done. simpl. rewrite Ho. simpl.
    by rewrite Hoi. }
  erewrite (Hf _ (ds_with_operations [op_with_result (op_result_obj r) o] d)) by (done || exact E).
  simpl. rewrite Host. simpl. unfold at_last. simpl. rewrite app_nil_r, E2. split_and!; [|done|done].
  unfold w2 in E. simpl in E. rewrite E. unfold alter_op. rewrite alter_dscc_last by done. simpl. by rewrite Hoi.
Qed.

Lemma op_done_step l d o i cs w :
  Forall (fun d' => ds_index d' <> i) l -> ds_index d = i -> ds_operations d = [o] ->
  op_index o = 1%nat -> op_status o = "Done" -> ds_status d = "" ->
  at_last l d [OpDone i 1] cs w ->
  at_last l (ds_with_status "Done" d) [DsccDone i] cs (smm_step Dispatch w).
Proof.
  intros Hl Hi Ho Hoi Host Hst (E1 & E2 & E3). simpl. unfold dispatch. rewrite E2.
  unfold dscc_op_done, find_op, find_dscc. simpl. rewrite E1, find_dscc_last by done. simpl.
  rewrite Ho. simpl. rewrite Hoi, Host. simpl. unfold dscc_status_done.
  rewrite trans_accepted. unfold find_dscc. simpl. rewrite find_dscc_last by done.
  rewrite Hst. simpl. unfold at_last. simpl. by rewrite alter_dscc_last.
Qed.

Lemma dscc_done_step l d o i cs w :
  Forall (fun d' => ds_index d' <> i) l -> ds_index d = i -> ds_operations d = [o] ->
  ds_initiator d = "ACS" -> at_last l d [DsccDone i] cs w ->
  at_last l d [] (cs ++ [SendDUStateChangeComplete (op_results o) (ds_command_key d) i])
    (smm_step Dispatch w).
Proof.
  intros Hl Hi Ho Ha (E1 & E2 & E3). simpl. unfold dispatch. rewrite E2.
  unfold dustatechangecomplete_notification, find_dscc. simpl. rewrite E1, find_dscc_last by done.
  rewrite Ha. simpl. unfold handle_dustatechangecomplete, find_dscc. simpl.
  rewrite find_dscc_last by done. rewrite Ho. simpl. rewrite app_nil_r, E3. done.
Qed.

(** C31: a ChangeDUState request of the ACS is carried out, as far as its first
    operation goes.  When the data model accepts the transactions, no event waits,
    and the service starts the first operation under an identifier of no recorded
    operation, the request succeeds, the service is asked for exactly this
    operation, and once the result arrives and the two events it causes are
    dispatched, the ACS gets exactly that one result under its command key.  The
    further operations [rest] of the request leave no trace. *)
Theorem change_du_state_carried_out (s : operation_struct) (rest : list operation_struct) (c : call) (ck : string) (id : Z)
    (r : op_result) (es : list smm_event) :
  let w := smm_run es initial in
  let i := S (last_index w) in
  service_request s = Some c -> id <> 0 -> pending w = [] -> op_obj_search id (dsccs w) = None ->
  (DM_ENG_Device_DoChangeDUState (s :: rest) (Some ck) (Some id) w).2 = 0 /\
  let w' := smm_run [Request (s :: rest) (Some ck) (Some id); OpResultDU id (Some r); Dispatch; Dispatch] w in
  calls w' = calls w ++ [c; SendDUStateChangeComplete [op_result_obj r] ck i] /\ pending w' = [].
Proof.
  intros w i Hs Hid Hp Hf. pose proof (smm_inv_run es initial inv_initial) as H. fold w in H.
  assert (Hl : Forall (fun d => ds_index d <> i) (dsccs w)).
  { eapply Forall_impl; [apply H|]. simpl. unfold i. lia. }
  destruct (request_step s rest c ck id w Hs Hid Hp) as (o & Ho1 & Ho2 & Ho3 & Ho4 & H1 & Hret).
  split; [exact Hret|]. intros w'. unfold w', smm_run, run_steps. cbn [foldl].
  apply (result_step _ _ o id r) in H1; [|done..]. rewrite app_nil_l in H1.
  eapply op_done_step in H1; [|done..]. eapply dscc_done_step in H1; [|done..].
  destruct H1 as (_ & H2 & H3). rewrite H2, H3, <- app_assoc. simpl. by rewrite Ho4.
Qed.

End Accepted.

End Smm.

(** ** Witness *)

Definition ex_result : op_result :=
  {| res_strings := {[ "CurrentState" := "Installed"; "UUID" := "1234" ]}; res_fault_code := 0;
     res_resolved := true; res_start_time := None; res_complete_time := None |}.

Lemma change_du_state_carried_out_witness :
  calls (smm_run (fun _ => true)
    [Request [OPERATION_TYPE_UNINSTALL "1234" "v1.2" "MyEnv"] (Some "240391") (Some 1);
     OpResultDU 1 (Some ex_result); Dispatch; Dispatch] initial) =
  [ServiceCall "UninstallDU" [("UUID", "1234"); ("ExecutionEnvRef", "MyEnv"); ("Version", "v1.2")];
   SendDUStateChangeComplete
     [[("CurrentState", VString "Installed"); ("FaultCode", VUint 0); ("Resolved", VBool true);
       ("UUID", VString "1234")]] "240391" 1].
Proof.
  apply (change_du_state_carried_out (fun _ => true) (fun _ => eq_refl)
    (OPERATION_TYPE_UNINSTALL "1234" "v1.2" "MyEnv") [] _ "240391" 1 ex_result []);
    try reflexivity; discriminate.
Defined.

End Smm.
