(* ===== verification/Subscriptions.v ===== *)
(** * Subscriptions: notifications of the device adapter
    ([src/src/dmdeviceadapter/amx/adapter/DM_AmxCommon.c])

    The adapter subscribes to the data model once for each object, and keeps in
    that subscription one entry for each watched parameter, identified by a
    hash.  The bus holds a pointer to the subscription as the argument of the
    notification handler.  The state has the list, the registrations of the bus
    with their pointers, and the addresses that were freed. *)

From Stdlib Require Import ZArith Lia Ascii.
From stdpp Require Import base list strings.
From S2P Require Import Prelude.

Module Subscriptions.

(** ** Data *)

(** [DM_Subscription_info_t] *)
Record info := { uniqueID : Z; parameter : string }.

(** [DM_Subscription_t] at its address *)
Record sub := { addr : nat; objectpath : string; cb : nat; infos : list info }.

Record state := {
  slist : list sub;
  bus : list (string * nat);
  freed : list nat;
  next : nat;
}.

Definition initial : state := {| slist := []; bus := []; freed := []; next := 0 |}.

Definition FAULT_9000 : Z := 9000.

Definition with_slist (l : list sub) (w : state) : state :=
  {| slist := l; bus := bus w; freed := freed w; next := next w |}.

Definition free (a : nat) (w : state) : state :=
  {| slist := slist w; bus := bus w; freed := a :: freed w; next := next w |}.

Definition add_info (i : info) (s : sub) : sub :=
  {| addr := addr s; objectpath := objectpath s; cb := cb s; infos := infos s ++ [i] |}.

Definition with_infos (l : list info) (s : sub) : sub :=
  {| addr := addr s; objectpath := objectpath s; cb := cb s; infos := l |}.

Section Subscriptions.

(** [amxd_path_get (path, AMXD_OBJECT_TERMINATE)], [amxd_path_get_param] and
    [amxc_AP_hash_string], truncated to an [int] *)
Context (object_of param_of : string -> string) (hash : string -> Z).

(** ** Search *)

Definition has_id (id : Z) (s : sub) : bool := existsb (fun i => uniqueID i =? id) (infos s).

Definition FindSubscriptionByID (l : list sub) (id : Z) : option sub := List.find (has_id id) l.

Definition FindSubscription (l : list sub) (path : string) : option sub :=
  List.find (fun s => streq (objectpath s) path) l.

(** Update in place of the subscription at an address. *)
Definition update (a : nat) (f : sub -> sub) (l : list sub) : list sub :=
  map (fun s => if Nat.eqb (addr s) a then f s else s) l.

(** ** Adding *)

(** The outcomes of the two allocations and of [amxb_subscribe] *)
Record add_env := { info_ok : bool; sub_ok : bool; subscribe_ok : bool }.

(** [path[pathlen - 1] == '.'] *)
Definition ends_with_dot (path : string) : bool :=
  match String.get (String.length path - 1) path with
  | Some c => Ascii.eqb c "."
  | None => false
  end.

Definition new_info (path filter : string) : info :=
  {| uniqueID := hash (String.append path filter);
     parameter := if ends_with_dot path then path else param_of path |}.

(** The error exit of [AddSubscription], with the pointer [sub] it frees. *)
Definition add_error (s : option sub) (w : state) : state * Z :=
  (match s with Some s => free (addr s) w | None => w end, FAULT_9000).

(** [DM_ENG_Device_Common_AddSubscription] *)
Definition AddSubscription (env : add_env) (path filter : string) (handler : nat) (w : state) : state * Z :=
  let object := object_of path in
  let s := FindSubscription (slist w) object in
  if streq object "." then add_error s w
  else if negb (info_ok env) then add_error s w
  else
    let i := new_info path filter in
    match s with
    | Some s => (with_slist (update (addr s) (add_info i) (slist w)) w, 0)
    | None =>
        if negb (sub_ok env) then add_error None w
        else
          let s := {| addr := next w; objectpath := object; cb := handler; infos := [] |} in
          let w := {| slist := slist w; bus := bus w; freed := freed w; next := S (next w) |} in
          if negb (subscribe_ok env) then add_error (Some s) w
          else
            ({| slist := slist w ++ [add_info i s]; bus := bus w ++ [(object, addr s)];
                freed := freed w; next := next w |}, 0)
    end.

(** ** Deleting *)

(** [DM_ENG_Device_Common_DeleteSubscriptionInfo]: the first entry of that
    identifier. *)
Fixpoint DeleteSubscriptionInfo (l : list info) (id : Z) : list info :=
  match l with
  | [] => []
  | i :: l' => if uniqueID i =? id then l' else i :: DeleteSubscriptionInfo l' id
  end.

(** [DM_ENG_Device_Common_DeleteSubscriptionFromList] *)
Definition DeleteSubscriptionFromList (a : nat) (w : state) : state :=
  free a (with_slist (List.filter (fun s => negb (Nat.eqb (addr s) a)) (slist w)) w).

Definition unsubscribe (a : nat) (w : state) : state :=
  {| slist := slist w; bus := List.filter (fun r => negb (Nat.eqb r.2 a)) (bus w);
     freed := freed w; next := next w |}.

(** [DM_ENG_Device_Common_DeleteSubscription] *)
Definition DeleteSubscription (unsubscribe_ok : bool) (id : Z) (w : state) : state * Z :=
  match FindSubscriptionByID (slist w) id with
  | None => (w, FAULT_9000)
  | Some s =>
      let l := DeleteSubscriptionInfo (infos s) id in
      let w := with_slist (update (addr s) (with_infos l) (slist w)) w in
      match l with
      | _ :: _ => (w, 0)
      | [] =>
          if negb unsubscribe_ok then (w, FAULT_9000)
          else (DeleteSubscriptionFromList (addr s) (unsubscribe (addr s) w), 0)
      end
  end.

(** [DM_ENG_Device_Common_Cleanup_Subscription] with a bus *)
Definition Cleanup_Subscription (unsubscribe_ok : sub -> bool) (w : state) : state :=
  {| slist := [];
     bus := List.filter (fun r => negb (existsb (fun s => Nat.eqb r.2 (addr s) && unsubscribe_ok s) (slist w)))
       (bus w);
     freed := map addr (slist w) ++ freed w; next := next w |}.

(** [DM_ENG_Device_Common_NotificationHandler] for an event of [path]: the
    handlers it calls; [None] is the use of a freed pointer. *)
Definition deliver (path : string) (w : state) : option (list (nat * string)) :=
  mapM (fun r : string * nat =>
    (fun s => (cb s, objectpath s)) <$> List.find (fun s => Nat.eqb (addr s) r.2) (slist w))
    (List.filter (fun r => streq r.1 path) (bus w)).

Inductive op :=
| Add (env : add_env) (path filter : string) (handler : nat)
| Delete (unsubscribe_ok : bool) (id : Z).

Definition step (o : op) (w : state) : state :=
  match o with
  | Add env path filter handler => (AddSubscription env path filter handler w).1
  | Delete ok id => (DeleteSubscription ok id w).1
  end.

Definition run : list op -> state -> state := run_steps step.

(** ** The invariant *)

Definition registration (s : sub) : string * nat := (objectpath s, addr s).

Record inv (w : state) : Prop := {
  inv_paths : NoDup (map objectpath (slist w));
  inv_addrs : NoDup (map addr (slist w));
  inv_live : forall s, s ∈ slist w -> addr s ∉ freed w /\ (addr s < next w)%nat;
  inv_freed : forall a, a ∈ freed w -> (a < next w)%nat;
  inv_bus : bus w = map registration (slist w);
}.

Lemma find_some_elem {A} (f : A -> bool) l x : List.find f l = Some x -> x ∈ l /\ f x = true.
Proof. intros [H1 H2]%find_some. by rewrite list_elem_of_In. Qed.

Lemma map_update {A} (g : sub -> A) a f l : (forall s, g (f s) = g s) -> map g (update a f l) = map g l.
Proof.
  intros H. unfold update. rewrite map_map. apply map_ext. intros s. by destruct (Nat.eqb (addr s) a).
Qed.

Lemma elem_of_update s a f l :
  (forall s, addr (f s) = addr s) -> s ∈ update a f l -> exists s', s' ∈ l /\ addr s = addr s'.
Proof.
  intros Hf (s' & -> & H)%list_elem_of_fmap. exists s'. split; [done|].
  by destruct (Nat.eqb (addr s') a).
Qed.

(** A change of the entries of a subscription. *)
Lemma inv_update a f w :
  (forall s, addr (f s) = addr s /\ objectpath (f s) = objectpath s) -> inv w ->
  inv (with_slist (update a f (slist w)) w).
Proof.
  intros Hf [H1 H2 H3 H4 H5]. constructor; simpl; auto.
  - rewrite map_update; [done|apply Hf].
  - rewrite map_update; [done|apply Hf].
  - intros s (s' & Hs & ->)%elem_of_update; [auto|apply Hf].
  - rewrite map_update; [done|]. intros s. unfold registration. by destruct (Hf s) as [-> ->].
Qed.

Lemma filter_map_addr a l :
  List.filter (fun r : string * nat => negb (Nat.eqb r.2 a)) (map registration l) =
    map registration (List.filter (fun s => negb (Nat.eqb (addr s) a)) l).
Proof. induction l as [|s l IH]; simpl; [done|]. destruct (negb _); simpl; by rewrite IH. Qed.

Lemma inv_remove a w : inv w -> (a < next w)%nat -> inv (DeleteSubscriptionFromList a (unsubscribe a w)).
Proof.
  intros [H1 H2 H3 H4 H5] Ha. constructor; simpl.
  - by apply NoDup_map_filter.
  - by apply NoDup_map_filter.
  - intros s. rewrite list_elem_of_In, filter_In, <- list_elem_of_In. intros [Hs Hne].
    destruct (Nat.eqb_spec (addr s) a); [done|]. destruct (H3 s Hs) as [Hf Hl]. split; [|done].
    by apply not_elem_of_cons.
  - intros x [->|Hx]%elem_of_cons; [done|auto].
  - rewrite H5. apply filter_map_addr.
Qed.

Lemma inv_fresh_free w :
  inv w -> inv (free (next w) {| slist := slist w; bus := bus w; freed := freed w; next := S (next w) |}).
Proof.
  intros [H1 H2 H3 H4 H5]. constructor; simpl; auto.
  - intros s Hs. destruct (H3 s Hs). split; [|lia]. apply not_elem_of_cons. split; [lia|done].
  - intros a [->|Ha]%elem_of_cons; [lia|]. specialize (H4 a Ha). lia.
Qed.

Lemma find_none_path l p : FindSubscription l p = None -> p ∉ map objectpath l.
Proof.
  intros H (s & -> & Hs)%list_elem_of_fmap. apply list_elem_of_In in Hs.
  pose proof (find_none _ _ H _ Hs) as E. simpl in E. by rewrite streq_refl in E.
Qed.

Lemma inv_append i p h w :
  inv w -> FindSubscription (slist w) p = None ->
  let s := {| addr := next w; objectpath := p; cb := h; infos := [] |} in
  inv {| slist := slist w ++ [add_info i s]; bus := bus w ++ [(p, addr s)]; freed := freed w;
         next := S (next w) |}.
Proof.
  intros [H1 H2 H3 H4 H5] Hf s. apply find_none_path in Hf.
  constructor; simpl; rewrite ?map_app; simpl.
  - apply NoDup_app. split_and!; [done| |apply NoDup_singleton].
    intros x Hx. rewrite list_elem_of_singleton. by intros ->.
  - apply NoDup_app. split_and!; [done| |apply NoDup_singleton].
    intros x (y & -> & Hy)%list_elem_of_fmap. rewrite list_elem_of_singleton.
    destruct (H3 y Hy). lia.
  - intros x [Hx|Hx]%elem_of_app.
    + destruct (H3 x Hx). split; [done|lia].
    + apply list_elem_of_singleton in Hx as ->. simpl. split; [|lia].
      intros Ha. specialize (H4 _ Ha). lia.
  - intros a Ha. specialize (H4 a Ha). lia.
  - by rewrite H5.
Qed.

(** The only failure that frees a subscription still in the list is that of
    the first allocation. *)
Definition op_allocated (o : op) : Prop :=
  match o with Add env _ _ _ => info_ok env = true | Delete _ _ => True end.

(** The root is never subscribed. *)
Definition no_root (w : state) : Prop := "." ∉ map objectpath (slist w).

Lemma find_root w : no_root w -> FindSubscription (slist w) "." = None.
Proof.
  intros H. destruct (FindSubscription (slist w) ".") as [s|] eqn:E; [|done].
  apply find_some_elem in E as [Hs E]. apply streq_true in E. destruct H. rewrite <- E.
  apply list_elem_of_fmap. by exists s.
Qed.

Lemma root_add w env path filter h : no_root w -> no_root (AddSubscription env path filter h w).1.
Proof.
  intros H. unfold AddSubscription. destruct (streq (object_of path) ".") eqn:E; bool_prop.
  - by rewrite E, find_root.
  - destruct (info_ok env); simpl; [|by destruct (FindSubscription (slist w) (object_of path))].
    destruct (FindSubscription (slist w) (object_of path)) as [s|]; simpl.
    + unfold no_root. simpl. by rewrite map_update.
    + destruct (sub_ok env); [|done]. destruct (subscribe_ok env); simpl; [|done].
      unfold no_root. simpl. rewrite map_app, not_elem_of_app. split; [done|].
      simpl. rewrite list_elem_of_singleton. congruence.
Qed.

Lemma root_delete w ok id : no_root w -> no_root (DeleteSubscription ok id w).1.
Proof.
  intros H. unfold DeleteSubscription. destruct (FindSubscriptionByID _ _) as [s|]; [|done].
  assert (Hu : forall l, "." ∉ map objectpath (update (addr s) (with_infos l) (slist w)))
    by (intros l; by rewrite map_update).
  destruct (DeleteSubscriptionInfo _ _); simpl; [|apply Hu].
  destruct ok; simpl; [|apply Hu]. unfold no_root. simpl.
  intros (x & Hx & Hin)%list_elem_of_fmap. apply (Hu []). rewrite Hx. apply list_elem_of_fmap.
  exists x. split; [done|]. rewrite list_elem_of_In in *. by apply filter_In in Hin as [? _].
Qed.

Lemma subs_inv_step o w :
  op_allocated o -> no_root w -> inv w -> inv (step o w).
Proof.
  intros Ho Hr H. destruct o as [env path filter h|ok id]; simpl in *.
  - unfold AddSubscription. destruct (streq (object_of path) ".") eqn:E.
    { apply streq_true in E. by rewrite E, find_root. }
    rewrite Ho. simpl. destruct (FindSubscription _ _) as [s|] eqn:Ef; simpl; [by apply inv_update|].
    destruct (sub_ok env); [|done]. destruct (subscribe_ok env); simpl; [|by apply inv_fresh_free].
    by apply (inv_append _ _ h w).
  - unfold DeleteSubscription. destruct (FindSubscriptionByID _ _) as [s|] eqn:Ef; [|done].
    apply find_some_elem in Ef as [Hs _].
    assert (Hu : forall l, inv (with_slist (update (addr s) (with_infos l) (slist w)) w))
      by (intros l; by apply inv_update).
    destruct (DeleteSubscriptionInfo _ _) as [|i l]; simpl; [|apply Hu].
    destruct ok; simpl; [|apply Hu].
    apply (inv_remove (addr s) (with_slist (update (addr s) (with_infos []) (slist w)) w));
      [apply Hu|]. simpl. by apply (inv_live _ H).
Qed.

Lemma root_step o w : no_root w -> no_root (step o w).
Proof. destruct o; [apply root_add|apply root_delete]. Qed.

Lemma subscriptions_inv os w :
  Forall op_allocated os -> no_root w -> inv w -> inv (run os w).
Proof.
  intros Ha Hr H. apply (run_invariant step op_allocated (fun w => no_root w /\ inv w)); [|done..].
  intros o w1 Ho [H1 H2]. split; [by apply root_step|by apply subs_inv_step].
Qed.

Lemma subs_inv_initial : inv initial.
Proof. constructor; simpl; try apply NoDup_nil_2; try (intros; set_solver); done. Qed.

(** A registration of a path that no subscription watches, and of one that one
    does. *)
Lemma filter_unwatched p (l : list sub) :
  p ∉ map objectpath l -> List.filter (fun r : string * nat => streq r.1 p) (map registration l) = [].
Proof.
  induction l as [|x l IH]; simpl; [done|]. intros [Hx Hl]%not_elem_of_cons.
  destruct (streq (objectpath x) p) eqn:E; [apply streq_true in E; congruence|auto].
Qed.

Lemma deliver_unwatched w p : inv w -> p ∉ map objectpath (slist w) -> deliver p w = Some [].
Proof. intros Hi Hp. unfold deliver. by rewrite (inv_bus _ Hi), filter_unwatched. Qed.

Lemma deliver_watched w s : inv w -> s ∈ slist w -> deliver (objectpath s) w = Some [(cb s, objectpath s)].
Proof.
  intros Hi Hs. unfold deliver. rewrite (inv_bus _ Hi).
  apply list_elem_of_split in Hs as (l1 & l2 & El).
  pose proof (inv_paths _ Hi) as Hp. pose proof (inv_addrs _ Hi) as Ha. rewrite El in *.
  rewrite map_app in Hp, Ha. simpl in Hp, Ha.
  apply NoDup_app in Hp as (_ & Hp1 & [Hp2 _]%NoDup_cons).
  apply NoDup_app in Ha as (_ & Ha1 & _).
  rewrite map_app, List.filter_app, filter_unwatched by (intros Hin; by apply (Hp1 _ Hin), elem_of_cons; left).
  simpl. rewrite streq_refl, (filter_unwatched _ l2) by done. simpl.
  assert (Hf : List.find (fun x => Nat.eqb (addr x) (addr s)) (l1 ++ s :: l2) = Some s).
  { rewrite find_app. destruct (List.find _ l1) as [x|] eqn:E.
    - apply find_some_elem in E as [Hx E]. apply Nat.eqb_eq in E. exfalso.
      apply (Ha1 (addr x)); [apply list_elem_of_fmap; by exists x|]. rewrite E. by apply elem_of_cons; left.
    - simpl. by rewrite Nat.eqb_refl. }
  by rewrite Hf.
Qed.

(** ** Properties *)

(** C33: as long as the entries can be allocated, whatever the bus answers, the
    subscriptions stay consistent: no subscription of the list is freed, the
    bus has exactly one registration for each watched object, every
    registration points to the live subscription of its object -- so an event
    reaches the handler registered for it -- and an entry that is present can be
    deleted. *)
Theorem subscriptions_consistent (os : list op) (H : Forall op_allocated os) :
  let w := run os initial in
  (forall s, s ∈ slist w -> addr s ∉ freed w) /\
  bus w = map registration (slist w) /\ NoDup (map objectpath (slist w)) /\
  (forall s, s ∈ slist w -> deliver (objectpath s) w = Some [(cb s, objectpath s)]) /\
  (forall s i, s ∈ slist w -> i ∈ infos s -> (DeleteSubscription true (uniqueID i) w).2 = 0).
Proof.
  intros w. assert (Hi : inv w) by (by apply subscriptions_inv; [|apply not_elem_of_nil|apply subs_inv_initial]).
  split_and!; try apply Hi.
  - intros s Hs. by apply deliver_watched.
  - intros s i Hs Hin. unfold DeleteSubscription.
    destruct (FindSubscriptionByID (slist w) (uniqueID i)) as [s'|] eqn:E.
    + destruct (DeleteSubscriptionInfo _ _); done.
    + exfalso. apply list_elem_of_In in Hs. pose proof (find_none _ _ E _ Hs) as Hn.
      unfold has_id in Hn. assert (existsb (fun j => uniqueID j =? uniqueID i) (infos s) = true).
      { apply existsb_exists. exists i. rewrite <- list_elem_of_In. split; [done|apply Z.eqb_refl]. }
      congruence.
Qed.

End Subscriptions.

(** ** Witness *)

Definition ex_env : add_env := {| info_ok := true; sub_ok := true; subscribe_ok := true |}.

Definition ex_ops : list op :=
  [Add ex_env "Device.Time." "changed" 1; Add ex_env "Device.Time." "added" 1; Delete true 17].

Definition ex_hash (s : string) : Z := Z.of_nat (String.length s).

Lemma subscriptions_consistent_witness :
  deliver "Device.Time." (run id id ex_hash ex_ops initial) = Some [(1%nat, "Device.Time.")] /\
  map (fun s => length (infos s)) (slist (run id id ex_hash ex_ops initial)) = [1%nat].
Proof.
  destruct (subscriptions_consistent id id ex_hash ex_ops) as (_ & _ & _ & H & _).
  - repeat constructor.
  - split; [|reflexivity].
    apply (H {| addr := 0; objectpath := "Device.Time."; cb := 1;
                infos := [{| uniqueID := 19; parameter := "Device.Time." |}] |}).
    vm_compute. left.
Defined.

End Subscriptions.
