(* ===== verification/PathAlias.v ===== *)
(** * PathAlias: TR-069 paths, wildcards and aliases
    ([DM_AmxCommon.c] of [src/src/dmdeviceadapter/amx/adapter])

    Paths are C strings ([CString]); a nullable path is an option.  The bus
    resolution of wildcards ([amxb_resolve]) and the two functions of the path
    library are parameters. *)

From Stdlib Require Import ZArith Lia Ascii.
From stdpp Require Import base list strings.
From S2P Require Import Prelude CString.

Module PathAlias.
Import CString.

(** ** Parameter types *)

(** The variant types of the data model library. *)
Inductive amxc_var_id :=
| AMXC_VAR_ID_INT8 | AMXC_VAR_ID_INT16 | AMXC_VAR_ID_INT32 | AMXC_VAR_ID_INT64
| AMXC_VAR_ID_UINT8 | AMXC_VAR_ID_UINT16 | AMXC_VAR_ID_UINT32 | AMXC_VAR_ID_UINT64
| AMXC_VAR_ID_CSTRING | AMXC_VAR_ID_CSV_STRING | AMXC_VAR_ID_SSV_STRING
| AMXC_VAR_ID_BOOL | AMXC_VAR_ID_TIMESTAMP | AMXC_VAR_ID_ANY
| AMXC_VAR_ID_OTHER (n : Z).

Inductive DM_ENG_ParameterType :=
| DM_ENG_ParameterType_INT | DM_ENG_ParameterType_LONG | DM_ENG_ParameterType_UINT
| DM_ENG_ParameterType_ULONG | DM_ENG_ParameterType_STRING | DM_ENG_ParameterType_BOOLEAN
| DM_ENG_ParameterType_DATE | DM_ENG_ParameterType_ANY | DM_ENG_ParameterType_UNDEFINED.

#[export] Instance DM_ENG_ParameterType_eq_dec : EqDecision DM_ENG_ParameterType.
Proof. solve_decision. Defined.

(** [DM_ENG_Device_Common_ConvertParameterType] *)
Definition ConvertParameterType (type : amxc_var_id) : DM_ENG_ParameterType :=
  match type with
  | AMXC_VAR_ID_INT8 | AMXC_VAR_ID_INT16 | AMXC_VAR_ID_INT32 => DM_ENG_ParameterType_INT
  | AMXC_VAR_ID_INT64 => DM_ENG_ParameterType_LONG
  | AMXC_VAR_ID_UINT8 | AMXC_VAR_ID_UINT16 | AMXC_VAR_ID_UINT32 => DM_ENG_ParameterType_UINT
  | AMXC_VAR_ID_UINT64 => DM_ENG_ParameterType_ULONG
  | AMXC_VAR_ID_CSTRING | AMXC_VAR_ID_CSV_STRING | AMXC_VAR_ID_SSV_STRING => DM_ENG_ParameterType_STRING
  | AMXC_VAR_ID_BOOL => DM_ENG_ParameterType_BOOLEAN
  | AMXC_VAR_ID_TIMESTAMP => DM_ENG_ParameterType_DATE
  | AMXC_VAR_ID_ANY => DM_ENG_ParameterType_ANY
  | AMXC_VAR_ID_OTHER _ => DM_ENG_ParameterType_UNDEFINED
  end.

(** ** Paths and wildcards *)

(** [DM_ENG_Device_Common_IsValidPath] *)
Definition IsValidPath (path : option cstr) : bool :=
  match path with
  | None => false
  | Some p =>
      match p with
      | [] => true
      | c :: _ => starts_with (cs "Device.") p && negb (Ascii.eqb c ".") && negb (Ascii.eqb c "*")
      end
  end.

(** [DM_ENG_Device_Common_IsWildcardPath] *)
Definition IsWildcardPath (path : option cstr) : bool :=
  match path with
  | None => false
  | Some p => contains "*" p
  end.

(** The loop over the stars: [prev] is the character before the current one. *)
Fixpoint stars_ok (prev : ascii) (s : cstr) : bool :=
  match s with
  | [] => true
  | c :: s' =>
      if Ascii.eqb c "*" then
        Ascii.eqb prev "." && (match s' with [] => true | d :: _ => Ascii.eqb d "." end) && stars_ok c s'
      else stars_ok c s'
  end.

(** [DM_ENG_Device_Common_IsWildcardPathValid]; [iwcs] is the answer to
    DM_ENG_INSTANCEWILDCARDSSUPPORTED. *)
Definition IsWildcardPathValid (iwcs : Z * option string) (path : option cstr) : bool :=
  if negb (IsWildcardPath path) then true
  else
    match iwcs with
    | (0, Some v) =>
        if streq v "0" then false
        else
          match path with
          | Some (c :: s) => if Ascii.eqb c "*" then false else stars_ok c s
          | _ => true
          end
    | _ => false
    end.

(** [DM_ENG_Device_Common_EndsWithDot] *)
Definition EndsWithDot (s : cstr) : bool :=
  match last s with
  | Some c => Ascii.eqb c "."
  | None => false
  end.

(** [DM_ENG_Device_Common_IsParameterPath] *)
Definition IsParameterPath (path : option cstr) : bool :=
  match path with
  | None | Some [] => false
  | Some p => negb (EndsWithDot p) && negb (IsWildcardPath path)
  end.

(** [DM_ENG_Device_Common_Resolve_Path]: the list of resolved paths, [None]
    when the path cannot be resolved.  [prefix] is [amx->prefix]. *)
Definition Resolve_Path (iwcs : Z * option string) (is_search_path : cstr -> bool) (get_param : cstr -> cstr)
    (amxb_resolve : cstr -> option (list cstr)) (prefix path : cstr) : option (list cstr) :=
  if IsWildcardPath (Some path) then
    if negb (IsWildcardPathValid iwcs (Some path)) || negb (is_search_path path) then None
    else
      match amxb_resolve path with
      | None => None
      | Some result =>
          Some (map (fun r => if EndsWithDot path then r else r ++ get_param path) result)
      end
  else if bool_decide (path = []) || bool_decide (prefix = path) then Some [cs "Device."]
  else Some [path].

(** ** Aliases *)

(** [is_valid_alias] *)
Definition is_valid_alias (alias : cstr) : bool :=
  match alias with
  | [] => false
  | c :: rest =>
      (isalpha c || Ascii.eqb c "_") &&
      forallb (fun d => isalnum d || Ascii.eqb d "_" || Ascii.eqb d "-") rest
  end.

(** The loop of [Is_Valid_Alias_Path]: each turn consumes at least the three
    characters of [".["] and ["]"], so the length of the path is enough fuel;
    [None] is no fuel left. *)
Fixpoint alias_loop (fuel : nat) (path_ptr : cstr) : option bool :=
  match fuel with
  | O => None
  | S fuel' =>
      match strstr (cs ".[") path_ptr with
      | None => Some true
      | Some start =>
          match strchr "]" start with
          | None => Some true
          | Some (before, after) =>
              let substring := skipn 2 before in
              if Nat.ltb (length substring) 256 && negb (is_valid_alias substring) then Some false
              else alias_loop fuel' after
          end
      end
  end.

(** [DM_ENG_Device_Common_Is_Valid_Alias_Path] *)
Definition Is_Valid_Alias_Path (path : option cstr) : bool :=
  match path with
  | None | Some [] => false
  | Some p =>
      if contains "*" p then false
      else default false (alias_loop (S (length p)) p)
  end.

(** [DM_ENG_Device_Common_Is_Alias_Based] *)
Fixpoint Is_Alias_Based (p : cstr) : bool :=
  match p with
  | [] => false
  | c :: p' =>
      if Ascii.eqb c "[" && (match strchr "]" p' with Some (_ :: _, _) => true | _ => false end)
      then true else Is_Alias_Based p'
  end.

Record alias_entry_t := { ae_index : Z; ae_alias : cstr }.

Record alias_list_t := {
  al_entries : list alias_entry_t;
  al_total_alias_length : Z;
}.

(** [(len >= 3) && token[0] == '[' && token[len - 1] == ']'] *)
Definition is_alias_token (token : cstr) : bool :=
  match token with
  | c :: _ :: _ :: _ => Ascii.eqb c "[" && (match last token with Some d => Ascii.eqb d "]" | None => false end)
  | _ => false
  end.

Fixpoint extract_loop (tokens : list cstr) (token_index : Z) (result : alias_list_t) : alias_list_t :=
  match tokens with
  | [] => result
  | t :: tokens' =>
      let result' :=
        if is_alias_token t
        then {| al_entries := al_entries result ++ [{| ae_index := token_index; ae_alias := t |}];
                al_total_alias_length := al_total_alias_length result + Z.of_nat (length t) |}
        else result in
      extract_loop tokens' (token_index + 1) result'
  end.

(** [DM_ENG_Device_Common_Extract_Aliases] *)
Definition Extract_Aliases (path : cstr) : alias_list_t :=
  extract_loop (strtok "." path []) 0 {| al_entries := []; al_total_alias_length := 0 |}.

(** The replacement of the token at [index]. *)
Definition replacement (entries : list alias_entry_t) (index : Z) (token : cstr) : cstr :=
  match List.find (fun e => ae_index e =? index) entries with
  | Some e => ae_alias e
  | None => token
  end.

(** The loop of [Modify_Path_With_Aliases], with the text written so far. *)
Fixpoint modify_loop (entries : list alias_entry_t) (is_partial_path : bool) (tokens : list cstr) (index : Z)
    (new_path : cstr) : cstr :=
  match tokens with
  | [] => new_path
  | t :: tokens' =>
      let new_path := new_path ++ replacement entries index t in
      let new_path :=
        if negb (match tokens' with [] => true | _ => false end) || is_partial_path
        then new_path ++ ["."%char] else new_path in
      modify_loop entries is_partial_path tokens' (index + 1) new_path
  end.

(** [DM_ENG_Device_Common_Modify_Path_With_Aliases], and the size of the buffer
    it allocates. *)
Definition Modify_Path_With_Aliases (path : cstr) (aliases : alias_list_t) : cstr :=
  modify_loop (al_entries aliases) (EndsWithDot path) (strtok "." path []) 0 [].

Definition buf_size (path : cstr) (aliases : alias_list_t) : Z :=
  Z.of_nat (length path) + al_total_alias_length aliases + 1.

(** ** Specifications *)

(** The pieces of a path between the dots, the empty ones included. *)
Fixpoint elements (s cur : cstr) : list cstr :=
  match s with
  | [] => [cur]
  | c :: s' => if Ascii.eqb c "." then cur :: elements s' [] else elements s' (cur ++ [c])
  end.

(** Token [t] of the index path replaced by token [a] of the alias path where
    that one is an alias. *)
Fixpoint merge (ts acs : list cstr) : list cstr :=
  match ts, acs with
  | t :: ts', a :: acs' => (if is_alias_token a then a else t) :: merge ts' acs'
  | _, _ => ts
  end.

(** ** Lemmas *)

(** The text [modify_loop] writes. *)
Lemma modify_loop_text entries partial tokens index acc :
  modify_loop entries partial tokens index acc =
    acc ++ join "." (imap (fun i t => replacement entries (index + Z.of_nat i) t) tokens)
        ++ (if partial && negb (match tokens with [] => true | _ => false end) then ["."%char] else []).
Proof.
  revert index acc. induction tokens as [|t tokens IH]; intros index acc; simpl.
  - by rewrite andb_false_r, app_nil_r.
  - rewrite IH. rewrite Z.add_0_r.
    assert (Himap : imap (fun i t => replacement entries (index + 1 + Z.of_nat i) t) tokens =
      imap ((fun i t => replacement entries (index + Z.of_nat i) t) ∘ S) tokens).
    { apply imap_ext. intros i x _. simpl. f_equal. lia. }
    rewrite Himap. destruct tokens as [|u tokens]; simpl.
    + rewrite andb_false_r, app_nil_r. destruct partial; simpl; [by rewrite <- app_assoc|by rewrite app_nil_r].
    + rewrite !andb_true_r. by rewrite <- !app_assoc.
Qed.

Lemma join_length (l : list cstr) : length (join "." l) = (sum_list_with length l + (length l - 1))%nat.
Proof.
  induction l as [|a l IH]; [done|]. destruct l as [|b l]; [simpl; lia|].
  change (join "." (a :: b :: l)) with (a ++ "."%char :: join "." (b :: l)).
  rewrite length_app. cbn [length]. rewrite IH. simpl. lia.
Qed.

(** *** The buffer of [Modify_Path_With_Aliases] *)

Definition alias_sum (entries : list alias_entry_t) : Z :=
  foldr (fun e acc => Z.of_nat (length (ae_alias e)) + acc) 0 entries.

(** The aliases of the entries from index [k] on. *)
Definition later_sum (k : Z) (entries : list alias_entry_t) : Z :=
  foldr (fun e acc => (if k <=? ae_index e then Z.of_nat (length (ae_alias e)) else 0) + acc) 0 entries.

Lemma later_sum_le k entries : 0 <= later_sum (k + 1) entries <= later_sum k entries.
Proof.
  induction entries as [|e l IH]; simpl; [lia|].
  destruct (k + 1 <=? ae_index e) eqn:E1; destruct (k <=? ae_index e) eqn:E2; bool_prop; lia.
Qed.

Lemma later_sum_alias k entries : later_sum k entries <= alias_sum entries.
Proof. induction entries as [|e l IH]; simpl; [lia|]. destruct (k <=? ae_index e); lia. Qed.

Lemma replacement_length entries k t :
  Z.of_nat (length (replacement entries k t)) + later_sum (k + 1) entries
    <= Z.of_nat (length t) + later_sum k entries.
Proof.
  unfold replacement. induction entries as [|e l IH]; simpl; [lia|].
  destruct (ae_index e =? k) eqn:E.
  - bool_prop. subst k. pose proof (later_sum_le (ae_index e) l).
    destruct (ae_index e + 1 <=? ae_index e) eqn:E1; destruct (ae_index e <=? ae_index e) eqn:E2; bool_prop; lia.
  - bool_prop. destruct (k + 1 <=? ae_index e) eqn:E1; destruct (k <=? ae_index e) eqn:E2; bool_prop; lia.
Qed.

Definition sum_length (l : list cstr) : Z := Z.of_nat (sum_list_with length l).

Lemma replacements_length entries ts k :
  sum_length (imap (fun i t => replacement entries (k + Z.of_nat i) t) ts) <= sum_length ts + later_sum k entries.
Proof.
  revert k. induction ts as [|t ts IH]; intros k.
  - unfold sum_length. simpl. pose proof (later_sum_le (k - 1) entries). rewrite Z.sub_add in *. lia.
  - cbn [imap]. rewrite Z.add_0_r. pose proof (replacement_length entries k t). specialize (IH (k + 1)).
    assert (Himap : imap (fun i t => replacement entries (k + 1 + Z.of_nat i) t) ts =
      imap ((fun i t => replacement entries (k + Z.of_nat i) t) ∘ S) ts).
    { apply imap_ext. intros i x _. simpl. f_equal. lia. }
    rewrite Himap in IH. unfold sum_length in *. simpl. lia.
Qed.

Lemma EndsWithDot_snoc s : EndsWithDot s = true -> exists q, s = q ++ ["."%char].
Proof.
  unfold EndsWithDot. destruct s as [|c s] using rev_ind; [done|]. rewrite last_snoc.
  intros E. apply Ascii.eqb_eq in E as ->. by exists s.
Qed.

Lemma path_length path :
  let ts := strtok "." path [] in
  sum_length ts + Z.of_nat (length ts - 1) + (if EndsWithDot path && negb (match ts with [] => true | _ => false end) then 1 else 0)
    <= Z.of_nat (length path).
Proof.
  intros ts. unfold sum_length. destruct (EndsWithDot path) eqn:E.
  - apply EndsWithDot_snoc in E as (q & ->). subst ts. rewrite strtok_snoc_sep.
    pose proof (strtok_length "." q []) as H. simpl in H. rewrite length_app. simpl.
    destruct (strtok "." q []); simpl in *; lia.
  - pose proof (strtok_length "." path []) as H. simpl in H. subst ts. simpl. lia.
Qed.

Lemma modify_length path aliases :
  Z.of_nat (length (Modify_Path_With_Aliases path aliases)) <= Z.of_nat (length path) + alias_sum (al_entries aliases).
Proof.
  unfold Modify_Path_With_Aliases. rewrite modify_loop_text. cbn [app].
  pose proof (path_length path) as Hp. cbv zeta in Hp.
  set (ts := strtok "." path []) in *. rewrite length_app, join_length.
  pose proof (replacements_length (al_entries aliases) ts 0) as Hr. unfold sum_length in *.
  pose proof (later_sum_alias 0 (al_entries aliases)). rewrite length_imap.
  destruct (EndsWithDot path && _); simpl in *; lia.
Qed.

(** *** Extraction *)

Fixpoint entries_of (tokens : list cstr) (k : Z) : list alias_entry_t :=
  match tokens with
  | [] => []
  | t :: tokens' =>
      (if is_alias_token t then [{| ae_index := k; ae_alias := t |}] else []) ++ entries_of tokens' (k + 1)
  end.

Lemma extract_entries tokens k r :
  al_entries (extract_loop tokens k r) = al_entries r ++ entries_of tokens k /\
  al_total_alias_length (extract_loop tokens k r) = al_total_alias_length r + alias_sum (entries_of tokens k).
Proof.
  revert k r. induction tokens as [|t ts IH]; intros k r; simpl.
  - rewrite app_nil_r. split; [done|lia].
  - destruct (IH (k + 1) (if is_alias_token t
      then {| al_entries := al_entries r ++ [{| ae_index := k; ae_alias := t |}];
              al_total_alias_length := al_total_alias_length r + Z.of_nat (length t) |} else r)) as [H1 H2].
    rewrite H1, H2. destruct (is_alias_token t); simpl; [|done]. rewrite <- app_assoc. split; [done|lia].
Qed.

Lemma find_entries_before tokens k j : j < k -> List.find (fun e => ae_index e =? j) (entries_of tokens k) = None.
Proof.
  revert k. induction tokens as [|t ts IH]; intros k Hj; simpl; [done|].
  destruct (is_alias_token t); simpl; [|apply IH; lia].
  destruct (k =? j) eqn:E; bool_prop; [lia|]. apply IH. lia.
Qed.

Lemma replacements_merge entries0 ts acs k :
  (forall j, k <= j -> List.find (fun e => ae_index e =? j) entries0 = None) ->
  imap (fun i t => replacement (entries0 ++ entries_of acs k) (k + Z.of_nat i) t) ts = merge ts acs.
Proof.
  revert entries0 acs k. induction ts as [|t ts IH]; intros e0 acs k H0; [done|]. cbn [imap]. rewrite Z.add_0_r.
  assert (Hshift : forall es, imap ((fun i t => replacement es (k + Z.of_nat i) t) ∘ S) ts =
    imap (fun i t => replacement es (k + 1 + Z.of_nat i) t) ts).
  { intros es. apply imap_ext. intros i x _. simpl. f_equal. lia. }
  rewrite Hshift. destruct acs as [|a acs]; cbn [entries_of merge].
  - rewrite app_nil_r. f_equal; [unfold replacement; by rewrite H0|].
    pose proof (IH e0 [] (k + 1)) as H. cbn [entries_of] in H. rewrite app_nil_r in H.
    rewrite H; [by destruct ts|]. intros j Hj. apply H0. lia.
  - f_equal.
    + unfold replacement. rewrite find_app, H0 by lia. destruct (is_alias_token a); simpl; [by rewrite Z.eqb_refl|].
      rewrite find_entries_before; [done|lia].
    + rewrite app_assoc. apply IH. intros j Hj. rewrite find_app, H0 by lia.
      destruct (is_alias_token a); simpl; [|done]. destruct (k =? j) eqn:E; bool_prop; [lia|done].
Qed.

Lemma modify_extract_text path acs :
  Modify_Path_With_Aliases path (Extract_Aliases acs) =
    join "." (merge (strtok "." path []) (strtok "." acs []))
      ++ (if EndsWithDot path && negb (match strtok "." path [] with [] => true | _ => false end) then ["."%char] else []).
Proof.
  unfold Modify_Path_With_Aliases. rewrite modify_loop_text. cbn [app]. f_equal. f_equal.
  unfold Extract_Aliases. destruct (extract_entries (strtok "." acs []) 0 {| al_entries := []; al_total_alias_length := 0 |}) as [-> _].
  simpl. by apply (replacements_merge []).
Qed.

Lemma merge_Forall (P : cstr -> Prop) ts acs : Forall P ts -> Forall P acs -> Forall P (merge ts acs).
Proof.
  intros H. revert acs. induction H as [|t ts Ht _ IH]; intros acs Ha; [done|]. destruct acs as [|a acs].
  - constructor; [done|]. specialize (IH [] Ha). by destruct ts.
  - apply Forall_cons in Ha as [Ha Has]. simpl. constructor; [by destruct (is_alias_token a)|by apply IH].
Qed.

Lemma merge_same ts : merge ts ts = ts.
Proof. induction ts as [|t ts IH]; simpl; [done|]. rewrite IH. by destruct (is_alias_token t). Qed.

(** *** Wildcards *)

(** A star stands alone between dots. *)
Definition whole_star (e : cstr) : Prop := "*"%char ∈ e -> e = ["*"%char].

Lemma elements_head s cur : exists x rest, elements s cur = (cur ++ x) :: rest.
Proof.
  revert cur. induction s as [|c s IH]; intros cur; simpl; [exists [], []; by rewrite app_nil_r|].
  destruct (Ascii.eqb c "."); [exists [], (elements s []); by rewrite app_nil_r|].
  destruct (IH (cur ++ [c])) as (x & rest & ->). exists (c :: x), rest. by rewrite <- app_assoc.
Qed.

Lemma bad_head s cur c : cur <> [] \/ (exists d s', s = d :: s' /\ d <> "."%char) -> c = "*"%char ->
  ~ Forall whole_star (elements s (cur ++ [c])).
Proof.
  intros H -> Hf. destruct H as [Hcur|(d & s' & -> & Hd)].
  - destruct (elements_head s (cur ++ ["*"%char])) as (x & rest & E). rewrite E in Hf.
    apply Forall_cons in Hf as [Hf _]. specialize (Hf ltac:(set_solver)).
    apply (f_equal length) in Hf. rewrite !length_app in Hf. simpl in Hf. destruct cur; [done|]. simpl in Hf. lia.
  - simpl in Hf. destruct (Ascii.eqb d ".") eqn:E; [by apply Ascii.eqb_eq in E|].
    destruct (elements_head s' ((cur ++ ["*"%char]) ++ [d])) as (x & rest & Ee). rewrite Ee in Hf.
    apply Forall_cons in Hf as [Hf _]. specialize (Hf ltac:(set_solver)).
    apply (f_equal length) in Hf. rewrite !length_app in Hf. simpl in Hf. lia.
Qed.

Lemma stars_ok_spec n s cur prev :
  (length s <= n)%nat -> "*"%char ∉ cur -> (prev = "."%char <-> cur = []) ->
  stars_ok prev s = true <-> Forall whole_star (elements s cur).
Proof.
  revert s cur prev. induction n as [|n IH]; intros s cur prev Hlen Hcur Hprev; destruct s as [|c s]; cbn [length] in Hlen; try lia.
  1,2: cbn; split; [intros _; apply Forall_singleton; by intros ?|done].
  cbn [stars_ok elements]. destruct (Ascii.eqb c "*") eqn:Ec.
  - apply Ascii.eqb_eq in Ec as ->. change (Ascii.eqb "*" ".") with false. cbv iota.
    destruct (Ascii.eqb prev ".") eqn:Ep; cbn [andb].
    2: { apply Ascii.eqb_neq in Ep. split; [done|]. intros Hf. exfalso. revert Hf. apply bad_head; [|done]. left. naive_solver. }
    apply Ascii.eqb_eq in Ep. apply Hprev in Ep as ->. destruct s as [|d s].
    + cbn. split; [|done]. intros _. apply Forall_singleton. by intros _.
    + destruct (Ascii.eqb d ".") eqn:Ed; cbn [andb].
      * apply Ascii.eqb_eq in Ed as ->. cbn [stars_ok elements app]. change (Ascii.eqb "." "*") with false.
        change (Ascii.eqb "." ".") with true. cbv iota.
        rewrite (IH s []); [|cbn [length] in Hlen; lia|apply not_elem_of_nil|done].
        rewrite Forall_cons. split; [|by intros []]. intros Hf. split; [by intros _|done].
      * apply Ascii.eqb_neq in Ed. split; [done|]. intros Hf. exfalso. revert Hf. apply (bad_head (d :: s) []); [|done].
        right. by exists d, s.
  - apply Ascii.eqb_neq in Ec. destruct (Ascii.eqb c ".") eqn:Ed.
    + apply Ascii.eqb_eq in Ed as ->. rewrite (IH s []); [|lia|apply not_elem_of_nil|done].
      rewrite Forall_cons. split; [|by intros []]. intros Hf. split; [by intros ?|done].
    + apply Ascii.eqb_neq in Ed. apply IH; [lia| |].
      * rewrite not_elem_of_app, list_elem_of_singleton. split; [done|]. congruence.
      * split; [done|]. by destruct cur.
Qed.

(** *** Alias validation *)

Lemma strstr_length p s t : strstr p s = Some t -> (length t <= length s)%nat.
Proof.
  revert t. induction s as [|c s IH]; intros t; cbn [strstr]; destruct (starts_with p _); try done.
  - by intros [= <-].
  - by intros [= <-].
  - intros H. apply IH in H. simpl. lia.
Qed.

(** Enough fuel: every turn drops at least one character. *)
Lemma alias_loop_total fuel p : (length p < fuel)%nat -> alias_loop fuel p <> None.
Proof.
  revert p. induction fuel as [|fuel IH]; intros p Hf; [lia|]. cbn [alias_loop].
  destruct (strstr (cs ".[") p) as [start|] eqn:Es; [|done].
  destruct (strchr "]" start) as [[before after]|] eqn:Ec; [|done].
  destruct (_ && _); [done|]. apply IH. apply strstr_length in Es as Hl.
  apply strchr_inv in Ec as [-> _]. rewrite length_app in Hl. simpl in Hl. lia.
Qed.

Lemma starts_with_no_bracket c s : (hd_error s <> Some "["%char) -> starts_with (cs ".[") (c :: s) = false.
Proof.
  intros H. destruct s as [|d s].
  - change (Ascii.eqb "." c && false = false). apply andb_false_r.
  - change (Ascii.eqb "." c && (Ascii.eqb "[" d && true) = false).
    destruct (Ascii.eqb "[" d) eqn:E; [apply Ascii.eqb_eq in E; simpl in H; congruence|]. apply andb_false_r.
Qed.

Lemma strstr_no_bracket p : "["%char ∉ p -> strstr (cs ".[") p = None.
Proof.
  induction p as [|c p IH]; intros H; [done|]. apply not_elem_of_cons in H as [Hc H].
  cbn [strstr]. rewrite starts_with_no_bracket; [by apply IH|].
  destruct p; [done|]. apply not_elem_of_cons in H as [Hd _]. simpl. congruence.
Qed.

Lemma strstr_first pre rest : "["%char ∉ pre -> strstr (cs ".[") (pre ++ cs ".[" ++ rest) = Some (cs ".[" ++ rest).
Proof.
  induction pre as [|c pre IH]; intros H; [done|]. apply not_elem_of_cons in H as [Hc H].
  cbn [app strstr]. change (starts_with (cs ".[") (c :: (pre ++ cs ".[" ++ rest))) with
    (starts_with (cs ".[") (c :: (pre ++ (cs ".[" ++ rest)))).
  rewrite starts_with_no_bracket; [by apply IH|].
  destruct pre; [done|]. apply not_elem_of_cons in H as [Hd _]. simpl. congruence.
Qed.

(** ** Properties *)

(** C40: memory safety of [Modify_Path_With_Aliases].  For every path and every
    alias path the aliases were extracted from, the rebuilt path and its NUL
    fit in the allocated buffer. *)
Theorem modified_path_fits (path acs : cstr) :
  Z.of_nat (length (Modify_Path_With_Aliases path (Extract_Aliases acs))) + 1 <= buf_size path (Extract_Aliases acs).
Proof.
  pose proof (modify_length path (Extract_Aliases acs)) as H. unfold buf_size.
  unfold Extract_Aliases in *.
  destruct (extract_entries (strtok "." acs []) 0 {| al_entries := []; al_total_alias_length := 0 |}) as [H1 H2].
  rewrite H1 in H. rewrite H2. simpl in *. lia.
Qed.

(** The elements of the rebuilt path are those of the index path, except
    where the alias path has an alias at the same position, which replaces it;
    a final dot is kept. *)
Theorem modify_merges (path acs : cstr) :
  let p := Modify_Path_With_Aliases path (Extract_Aliases acs) in
  strtok "." p [] = merge (strtok "." path []) (strtok "." acs []) /\
  (strtok "." path [] <> [] -> EndsWithDot p = EndsWithDot path).
Proof.
  intros p. unfold p. rewrite modify_extract_text. set (m := merge _ _).
  assert (Hn : Forall (fun t => t <> []) m) by (apply merge_Forall; apply strtok_nonempty).
  assert (Hd : Forall (fun t => "."%char ∉ t) m) by (apply merge_Forall; apply strtok_tokens, not_elem_of_nil).
  split.
  - destruct (EndsWithDot path && _); [rewrite strtok_snoc_sep|rewrite app_nil_r]; by apply strtok_join.
  - intros Hne. assert (Hm : m <> []).
    { unfold m. destruct (strtok "." path []); [done|]. by destruct (strtok "." acs []). }
    destruct (EndsWithDot path); cbn [andb].
    + destruct (strtok "." path []); [done|]. unfold EndsWithDot. simpl. by rewrite last_snoc.
    + rewrite app_nil_r. unfold EndsWithDot. destruct (last (join "." m)) as [c|] eqn:E; [|done].
      apply Ascii.eqb_neq. intros ->. clearbody m. clear Hne.
      induction m as [|a m IH]; [done|]. apply Forall_cons in Hn as [Ha Hn]. apply Forall_cons in Hd as [Hda Hd].
      destruct m as [|b m].
      * simpl in E. apply last_Some in E as (q & ->). apply Hda. set_solver.
      * change (join "." (a :: b :: m)) with (a ++ "."%char :: join "." (b :: m)) in E.
        rewrite last_app_cons, last_cons in E. destruct (last (join "." (b :: m))) eqn:El; [by apply IH|].
        apply last_None in El. assert (strtok "." (join "." (b :: m)) [] = b :: m) as Hs by by apply strtok_join.
        rewrite El in Hs. done.
Qed.

Lemma modify_merges_witness :
  EndsWithDot (Modify_Path_With_Aliases (cs "Device.IP.Interface.3.") (Extract_Aliases (cs "Device.IP.Interface.[lan].")))
    = true /\
  Modify_Path_With_Aliases (cs "Device.IP.Interface.3.") (Extract_Aliases (cs "Device.IP.Interface.[lan]."))
    = cs "Device.IP.Interface.[lan].".
Proof.
  split; [|vm_compute; reflexivity].
  refine (eq_trans (proj2 (modify_merges (cs "Device.IP.Interface.3.") (cs "Device.IP.Interface.[lan].")) _) _);
    [discriminate|reflexivity].
Defined.

(** Round trip.  A path without empty elements is rebuilt unchanged from
    its own aliases. *)
Theorem extract_modify_id (tokens : list cstr) (partial : bool) :
  tokens <> [] -> Forall (fun t => t <> []) tokens -> Forall (fun t => "."%char ∉ t) tokens ->
  let path := join "." tokens ++ (if partial then ["."%char] else []) in
  Modify_Path_With_Aliases path (Extract_Aliases path) = path.
Proof.
  intros Hne Hn Hd path. rewrite modify_extract_text.
  assert (Ht : strtok "." path [] = tokens).
  { unfold path. destruct partial; [rewrite strtok_snoc_sep|rewrite app_nil_r]; by apply strtok_join. }
  rewrite Ht, merge_same. assert (EndsWithDot path = partial) as ->.
  { unfold path, EndsWithDot. destruct partial; [by rewrite last_snoc|]. rewrite app_nil_r.
    destruct (last (join "." tokens)) as [c|] eqn:E; [|done]. apply Ascii.eqb_neq. intros ->.
    clear path Ht. induction tokens as [|a m IH]; [done|]. apply Forall_cons in Hn as [Ha Hn]. apply Forall_cons in Hd as [Hda Hd].
    destruct m as [|b m].
    - simpl in E. apply last_Some in E as (q & ->). apply Hda. set_solver.
    - change (join "." (a :: b :: m)) with (a ++ "."%char :: join "." (b :: m)) in E.
      rewrite last_app_cons, last_cons in E. destruct (last (join "." (b :: m))) eqn:El; [by apply IH|].
      apply last_None in El. assert (strtok "." (join "." (b :: m)) [] = b :: m) as Hs by by apply strtok_join.
      rewrite El in Hs. done. }
  unfold path. destruct tokens; [done|]. by destruct partial.
Qed.

Lemma extract_modify_id_witness :
  Modify_Path_With_Aliases (cs "Device.[a].B") (Extract_Aliases (cs "Device.[a].B")) = cs "Device.[a].B".
Proof.
  apply (extract_modify_id [cs "Device"; cs "[a]"; cs "B"] false); [discriminate|repeat constructor; discriminate|].
  repeat (apply Forall_cons; split; [apply (bool_decide_unpack _); vm_compute; exact I|]). constructor.
Defined.

(** With wildcards enabled, a path with wildcards is valid exactly when it
    does not start with a star and every star is a whole path element. *)
Theorem wildcard_valid_iff (v : string) (c : ascii) (s : cstr) :
  v <> "0"%string -> "*"%char ∈ c :: s ->
  IsWildcardPathValid (0, Some v) (Some (c :: s)) = true <->
  c <> "*"%char /\ Forall whole_star (elements (c :: s) []).
Proof.
  intros Hv Hs. unfold IsWildcardPathValid, IsWildcardPath.
  rewrite (proj2 (contains_elem "*" (c :: s)) Hs). cbn [negb].
  rewrite (proj2 (streq_false v "0") Hv). destruct (Ascii.eqb c "*") eqn:Ec.
  - apply Ascii.eqb_eq in Ec. split; [done|]. by intros [].
  - apply Ascii.eqb_neq in Ec. cbn [elements app]. destruct (Ascii.eqb c ".") eqn:Ed.
    + apply Ascii.eqb_eq in Ed as ->. rewrite (stars_ok_spec (length s) s []); [|done|apply not_elem_of_nil|done].
      rewrite Forall_cons. split; [|by intros (_ & _ & ?)]. intros H. split_and!; [done|by intros ?%elem_of_nil|done].
    + apply Ascii.eqb_neq in Ed. rewrite (stars_ok_spec (length s) s [c]); [naive_solver|done| |done].
      rewrite list_elem_of_singleton. congruence.
Qed.

Lemma wildcard_valid_iff_witness :
  IsWildcardPathValid (0, Some "1"%string) (Some (cs "Device.WiFi.SSID.*.Name")) = true /\
  ("D"%char <> "*"%char /\ Forall whole_star (elements (cs "Device.WiFi.SSID.*.Name") [])).
Proof.
  split; [vm_compute; reflexivity|].
  apply (wildcard_valid_iff "1" "D" (cs "evice.WiFi.SSID.*.Name")); [discriminate| |vm_compute; reflexivity].
  apply (bool_decide_unpack _). vm_compute. exact I.
Defined.

(** Validation of aliases.  In a path with one alias, an alias shorter than
    256 characters is accepted exactly when it is a letter or an underscore
    followed by letters, digits, underscores and dashes; an alias of 256
    characters or more is accepted whatever it contains. *)
Theorem alias_path_valid (pre alias post : cstr) :
  "["%char ∉ pre -> "]"%char ∉ alias -> "["%char ∉ post ->
  "*"%char ∉ pre ++ cs ".[" ++ alias ++ "]"%char :: post ->
  Is_Valid_Alias_Path (Some (pre ++ cs ".[" ++ alias ++ "]"%char :: post)) =
    Nat.leb 256 (length alias) || is_valid_alias alias.
Proof.
  intros Hpre Ha Hpost Hstar. set (p := pre ++ cs ".[" ++ alias ++ "]"%char :: post) in *.
  assert (Hp : Is_Valid_Alias_Path (Some p) = default false (alias_loop (S (length p)) p)).
  { unfold Is_Valid_Alias_Path. destruct p as [|x p'] eqn:E; [by destruct pre|]. rewrite <- E in *.
    destruct (contains "*" p) eqn:Ec; [|done]. by apply contains_elem in Ec. }
  assert (Hstr : strstr (cs ".[") p = Some (cs ".[" ++ alias ++ "]"%char :: post)) by by apply strstr_first.
  rewrite Hp. cbn [alias_loop]. rewrite Hstr.
  assert (strchr "]" (cs ".[" ++ alias ++ "]"%char :: post) = Some (cs ".[" ++ alias, post)) as ->.
  { rewrite app_assoc. apply strchr_app. rewrite not_elem_of_app. split; [|done].
    apply (bool_decide_unpack _). vm_compute. exact I. }
  change (skipn 2 (cs ".[" ++ alias)) with alias.
  destruct (Nat.ltb (length alias) 256) eqn:El.
  - apply Nat.ltb_lt in El. assert (Nat.leb 256 (length alias) = false) as -> by (apply Nat.leb_gt; lia).
    destruct (is_valid_alias alias); [|done]. cbn [andb negb orb].
    assert (exists n, length p = S n) as (n & ->).
    { unfold p. rewrite !length_app. simpl. eexists. rewrite Nat.add_comm. simpl. reflexivity. }
    cbn [alias_loop]. by rewrite strstr_no_bracket.
  - apply Nat.ltb_ge in El. assert (Nat.leb 256 (length alias) = true) as -> by (apply Nat.leb_le; lia).
    cbn [andb orb].
    assert (exists n, length p = S n) as (n & ->).
    { unfold p. rewrite !length_app. simpl. eexists. rewrite Nat.add_comm. simpl. reflexivity. }
    cbn [alias_loop]. by rewrite strstr_no_bracket.
Qed.

Lemma alias_path_valid_witness :
  Is_Valid_Alias_Path (Some (cs "Device.X" ++ cs ".[" ++ repeat "!"%char 256 ++ "]"%char :: cs ".Y")) = true.
Proof.
  refine (eq_trans (alias_path_valid (cs "Device.X") (repeat "!"%char 256) (cs ".Y") _ _ _ _) _);
    try (apply (bool_decide_unpack _); vm_compute; exact I).
Defined.

End PathAlias.
