(* ===== verification/SetValues.v ===== *)
(** * SetValues: the SetParameterValues RPC
    ([DM_AmxParameterValues.c] and [DM_ENG_Device_SetParameterValues] of
    [DM_DeviceAdapter.c])

    The ACS sends a list of parameters.  The adapter validates them, grouped by
    object so that each object is described once, and then sets each group with
    one bus call.  The path library, the access control library and the bus are
    in [env]; the calls the adapter makes are recorded in order. *)

From Stdlib Require Import ZArith Lia Ascii.
From stdpp Require Import base list strings.
From S2P Require Import Prelude CString PathAlias.

Module SetValues.
Import CString PathAlias.

(** The fault codes of the engine that the RPC uses. *)
Inductive fault_code :=
| DM_ENG_INTERNAL_ERROR
| DM_ENG_INVALID_ARGUMENTS
| DM_ENG_INVALID_PARAMETER_NAME
| DM_ENG_INVALID_PARAMETER_TYPE
| DM_ENG_INVALID_PARAMETER_VALUE
| DM_ENG_READ_ONLY_PARAMETER.

#[export] Instance fault_code_eq_dec : EqDecision fault_code.
Proof. solve_decision. Defined.

Inductive DM_ENG_ParameterStatus := DM_ENG_ParameterStatus_APPLIED | DM_ENG_ParameterStatus_UNDEFINED.

(** [DM_ENG_ParameterValueStruct] *)
Record pvs := {
  parameterName : option cstr;
  p_type : DM_ENG_ParameterType;
  p_value : option cstr;
}.

(** [DM_ENG_SetParameterValuesFault] *)
Definition spv_fault : Type := option cstr * fault_code.

(** What [amxb_describe] says of a parameter. *)
Record param_desc := {
  pd_type_id : amxc_var_id;
  pd_read_only : Z;
}.

Inductive amxd_status := amxd_status_invalid_value | amxd_status_invalid_type | amxd_status_other.

(** The answer of [amxb_set]: on failure, the first entry of the returned
    variant: the object it names and the error code per parameter. *)
Inductive set_result :=
| SetOk
| SetFailed (obj_key : cstr) (errors : list (option cstr * amxd_status)).

Record env := {
  e_connected : bool;
  e_object : cstr -> cstr;
  e_param : cstr -> cstr;
  e_is_search_path : cstr -> bool;
  e_path_text : cstr -> cstr;
  e_describe : cstr -> option (cstr -> option param_desc);
  e_verify_type : Z * option string;
  e_uint_as_bool : Z * option string;
  e_set_allowed : cstr -> cstr -> bool;
  e_amxb_set : nat -> cstr -> list (cstr * option cstr) -> set_result;
}.

(** The calls that have an effect outside. *)
Inductive call :=
| CacheValue (name : option cstr) (value : option cstr)
| AmxbSet (object : cstr) (values : list (cstr * option cstr)).

Section Env.
Context (E : env).

Definition name_of (p : pvs) : cstr := default [] (parameterName p).
Definition object_of (p : pvs) : cstr := e_object E (name_of p).
Definition param_of (p : pvs) : cstr := e_param E (name_of p).

(** A configuration value read as a boolean; unset or unreadable is false. *)
Definition config_bool (v : Z * option string) : bool :=
  match v with
  | (0, Some s) => negb (atoi s =? 0)
  | _ => false
  end.

(** ** Validation *)

(** [DM_ENG_Device_SetParameterValues_CheckForDuplicates]: [before] is the
    list up to the current item. *)
Definition CheckForDuplicates (before : list pvs) (p : pvs) : bool :=
  existsb (fun q => match parameterName p, parameterName q with
                    | Some a, Some b => bool_decide (a = b)
                    | _, _ => false
                    end) before.

(** The checks on one parameter of a described object. *)
Definition check_parameter (parameters : cstr -> option param_desc) (before : list pvs) (p : pvs) : option fault_code :=
  match parameters (param_of p) with
  | None => Some DM_ENG_INVALID_PARAMETER_NAME
  | Some parameter =>
      let dmType := ConvertParameterType (pd_type_id parameter) in
      if config_bool (e_verify_type E) && negb (bool_decide (p_type p = dmType)) &&
         (negb (config_bool (e_uint_as_bool E)) || negb (bool_decide (p_type p = DM_ENG_ParameterType_UINT)) ||
          negb (bool_decide (dmType = DM_ENG_ParameterType_BOOLEAN)))
      then Some DM_ENG_INVALID_PARAMETER_TYPE
      else if CheckForDuplicates before p then Some DM_ENG_INVALID_ARGUMENTS
      else if negb (pd_read_only parameter =? 0) then Some DM_ENG_READ_ONLY_PARAMETER
      else if negb (e_set_allowed E (object_of p) (param_of p)) then Some DM_ENG_READ_ONLY_PARAMETER
      else None
  end.

(** The outcome of one call of [Validate]: the faults added, the return code,
    and the list split where the caller goes on (after its [i++]). *)
Record validated := {
  v_faults : list spv_fault;
  v_error : option fault_code;
  v_before : list pvs;
  v_rest : list pvs;
}.

Definition fault_at (p : pvs) (f : fault_code) (before rest : list pvs) : validated :=
  {| v_faults := [(parameterName p, f)]; v_error := Some DM_ENG_INVALID_ARGUMENTS;
     v_before := before ++ [p]; v_rest := rest |}.

(** The loop over the parameters of [object_path]. *)
Fixpoint validate_loop (object_path : cstr) (parameters : cstr -> option param_desc) (before rest : list pvs) : validated :=
  match rest with
  | [] => {| v_faults := []; v_error := None; v_before := before; v_rest := [] |}
  | p :: rest' =>
      if bool_decide (object_of p = object_path) then
        match check_parameter parameters before p with
        | Some f => fault_at p f before rest'
        | None =>
            match rest' with
            | [] => {| v_faults := []; v_error := None; v_before := before ++ [p]; v_rest := [] |}
            | q :: rest'' =>
                if negb (IsValidPath (parameterName q))
                then fault_at q DM_ENG_INVALID_PARAMETER_NAME (before ++ [p]) rest''
                else validate_loop object_path parameters (before ++ [p]) rest'
            end
        end
      else {| v_faults := []; v_error := None; v_before := before; v_rest := rest |}
  end.

(** Not a complete object path. *)
Definition incomplete (object : cstr) : bool :=
  e_is_search_path E object && negb (Is_Valid_Alias_Path (Some (e_path_text E object))).

(** [DM_ENG_Device_SetParameterValues_Validate] on a non-empty list. *)
Definition Validate (before : list pvs) (p : pvs) (rest : list pvs) : validated :=
  if negb (IsValidPath (parameterName p)) then fault_at p DM_ENG_INVALID_PARAMETER_NAME before rest
  else if incomplete (object_of p) then fault_at p DM_ENG_INVALID_PARAMETER_NAME before rest
  else
    match e_describe E (object_of p) with
    | None => fault_at p DM_ENG_INVALID_PARAMETER_NAME before rest
    | Some parameters => validate_loop (object_of p) parameters before (p :: rest)
    end.

(** The first loop of [SetParameterValues]; every turn consumes a parameter, so
    the length of the list is enough fuel. *)
Fixpoint validate_all (fuel : nat) (before rest : list pvs) (faults : list spv_fault) (error : option fault_code) :
    option (list spv_fault * option fault_code) :=
  match rest with
  | [] => Some (faults, error)
  | p :: rest' =>
      match fuel with
      | O => None
      | S fuel' =>
          let v := Validate before p rest' in
          validate_all fuel' (v_before v) (v_rest v) (faults ++ v_faults v)
            (match error with None => v_error v | Some _ => error end)
      end
  end.

(** ** Setting *)

(** [tr069_spv_amxd_status_to_spv_fault_code] *)
Definition tr069_spv_amxd_status_to_spv_fault_code (status : amxd_status) : fault_code :=
  match status with
  | amxd_status_invalid_value => DM_ENG_INVALID_PARAMETER_VALUE
  | amxd_status_invalid_type => DM_ENG_INVALID_PARAMETER_TYPE
  | amxd_status_other => DM_ENG_INTERNAL_ERROR
  end.

(** [tr069_spv_build_spv_faults] *)
Definition tr069_spv_build_spv_faults (obj_key : cstr) (errors : list (option cstr * amxd_status)) : list spv_fault :=
  omap (fun e => match fst e with
                 | None | Some [] => None
                 | Some k => Some (Some (obj_key ++ k), tr069_spv_amxd_status_to_spv_fault_code (snd e))
                 end) errors.

(** The parameters that follow in the list and belong to [object]. *)
Fixpoint take_group (object : cstr) (rest : list pvs) : list pvs * list pvs :=
  match rest with
  | p :: rest' =>
      if bool_decide (object_of p = object)
      then let '(g, r) := take_group object rest' in (p :: g, r)
      else ([], rest)
  | [] => ([], [])
  end.

(** [DM_ENG_Device_SetParameterValues_SetValues] on the group of [p]; [n] is
    the number of [amxb_set] calls made before. *)
Definition SetValues (n : nat) (p : pvs) (rest : list pvs) : list call * list spv_fault * option fault_code * list pvs :=
  let object_path := object_of p in
  let '(group, rest') := take_group object_path (p :: rest) in
  let values := map (fun q => (param_of q, p_value q)) group in
  let calls := map (fun q => CacheValue (parameterName q) (p_value q)) group ++ [AmxbSet object_path values] in
  match e_amxb_set E n object_path values with
  | SetOk => (calls, [], None, rest')
  | SetFailed k errors => (calls, tr069_spv_build_spv_faults k errors, Some DM_ENG_INVALID_ARGUMENTS, rest')
  end.

(** The second loop: the error of each group replaces the one before. *)
Fixpoint set_all (fuel : nat) (n : nat) (rest : list pvs) (calls : list call) (faults : list spv_fault)
    (error : option fault_code) : option (list call * list spv_fault * option fault_code) :=
  match rest with
  | [] => Some (calls, faults, error)
  | p :: rest' =>
      match fuel with
      | O => None
      | S fuel' =>
          let '(cs, fs, e, r) := SetValues n p rest' in
          set_all fuel' (S n) r (calls ++ cs) (faults ++ fs) e
      end
  end.

(** ** The RPC *)

Record outcome := {
  o_error : option fault_code;
  o_status : option DM_ENG_ParameterStatus;
  o_faults : list spv_fault;
  o_calls : list call;
}.

(** [DM_ENG_Device_SetParameterValues]; [o_status] is [None] when [*pStatus]
    is not written. *)
Definition SetParameterValues (parameterList : list pvs) : option outcome :=
  if negb (e_connected E)
  then Some {| o_error := Some DM_ENG_INTERNAL_ERROR; o_status := None; o_faults := []; o_calls := [] |}
  else
    match validate_all (length parameterList) [] parameterList [] None with
    | None => None
    | Some (faults, Some e) => Some {| o_error := Some e; o_status := None; o_faults := faults; o_calls := [] |}
    | Some (faults, None) =>
        match set_all (length parameterList) 0 parameterList [] faults None with
        | None => None
        | Some (calls, faults', e) =>
            Some {| o_error := e;
                    o_status := Some match e with
                                     | None => DM_ENG_ParameterStatus_APPLIED
                                     | Some _ => DM_ENG_ParameterStatus_UNDEFINED
                                     end;
                    o_faults := faults'; o_calls := calls |}
        end
    end.

(** ** Specification *)

(** The fault of one parameter, looked at alone: [before] are the parameters
    in front of it in the list. *)
Definition parameter_fault (before : list pvs) (p : pvs) : option fault_code :=
  if negb (IsValidPath (parameterName p)) then Some DM_ENG_INVALID_PARAMETER_NAME
  else if incomplete (object_of p) then Some DM_ENG_INVALID_PARAMETER_NAME
  else
    match e_describe E (object_of p) with
    | None => Some DM_ENG_INVALID_PARAMETER_NAME
    | Some parameters => check_parameter parameters before p
    end.

Fixpoint list_faults (before rest : list pvs) : list spv_fault :=
  match rest with
  | [] => []
  | p :: rest' =>
      (match parameter_fault before p with Some f => [(parameterName p, f)] | None => [] end)
        ++ list_faults (before ++ [p]) rest'
  end.

(** The assignments a list of calls makes. *)
Definition assignments (calls : list call) : list (cstr * cstr * option cstr) :=
  concat (map (fun c => match c with
                        | AmxbSet object values => map (fun v => (object, fst v, snd v)) values
                        | CacheValue _ _ => []
                        end) calls).

(** ** Lemmas *)

(** The loop over a group gives the faults of the parameters it consumed. *)
Lemma validate_loop_spec object parameters before rest :
  e_describe E object = Some parameters -> incomplete object = false ->
  (match rest with p :: _ => IsValidPath (parameterName p) = true | [] => True end) ->
  let v := validate_loop object parameters before rest in
  list_faults before rest = v_faults v ++ list_faults (v_before v) (v_rest v) /\
  v_error v = (match v_faults v with [] => None | _ => Some DM_ENG_INVALID_ARGUMENTS end) /\
  before ++ rest = v_before v ++ v_rest v.
Proof.
  intros Hd Hi. revert before. induction rest as [|p rest IH]; intros before Hv; [done|].
  cbn [validate_loop]. case_bool_decide as Ho; [|done].
  assert (Hf : parameter_fault before p = check_parameter parameters before p).
  { unfold parameter_fault. by rewrite Hv, Ho, Hi, Hd. }
  destruct (check_parameter parameters before p) as [f|] eqn:Ec.
  { cbn. rewrite Hf. rewrite <- app_assoc. done. }
  destruct rest as [|q rest].
  { cbn. rewrite Hf. split_and!; [done|done|by rewrite app_nil_r]. }
  destruct (IsValidPath (parameterName q)) eqn:Eq; cbn [negb].
  - specialize (IH (before ++ [p]) eq_refl). destruct IH as (H1 & H2 & H3).
    split_and!; [|done|by rewrite <- H3, <- app_assoc].
    change (list_faults before (p :: q :: rest)) with
      ((match parameter_fault before p with Some f => [(parameterName p, f)] | None => [] end)
        ++ list_faults (before ++ [p]) (q :: rest)).
    by rewrite Hf.
  - cbn. rewrite Hf. unfold parameter_fault. rewrite Eq. rewrite <- !app_assoc. done.
Qed.

Lemma Validate_spec before p rest :
  let v := Validate before p rest in
  list_faults before (p :: rest) = v_faults v ++ list_faults (v_before v) (v_rest v) /\
  v_error v = (match v_faults v with [] => None | _ => Some DM_ENG_INVALID_ARGUMENTS end) /\
  (length (v_rest v) <= length rest)%nat.
Proof.
  unfold Validate. cbv zeta. destruct (IsValidPath (parameterName p)) eqn:Ev; cbn [negb].
  2: { cbn. unfold parameter_fault. rewrite Ev. done. }
  destruct (incomplete (object_of p)) eqn:Ei.
  { cbn. unfold parameter_fault. rewrite Ev, Ei. done. }
  destruct (e_describe E (object_of p)) as [ps|] eqn:Ed.
  2: { cbn. unfold parameter_fault. rewrite Ev, Ei, Ed. done. }
  destruct (validate_loop_spec (object_of p) ps before (p :: rest) Ed Ei Ev) as (H1 & H2 & H3).
  split_and!; [done|done|].
  (* the first parameter is always consumed *)
  cbn [validate_loop]. rewrite bool_decide_eq_true_2 by done.
  destruct (check_parameter ps before p); [done|]. destruct rest as [|q rest]; [done|].
  destruct (negb _); [cbn; lia|]. clear.
  assert (Hl : forall rest before, (length (v_rest (validate_loop (object_of p) ps before rest)) <= length rest)%nat).
  { induction rest0 as [|x l IH]; intros b; cbn [validate_loop]; [done|]. case_bool_decide; [|done].
    destruct (check_parameter ps b x); [cbn; lia|]. destruct l as [|y l]; [cbn; lia|].
    destruct (negb _); [cbn; lia|]. specialize (IH (b ++ [x])). cbn [length] in *. lia. }
  apply Hl.
Qed.

Lemma validate_all_spec fuel before rest faults error :
  (length rest <= fuel)%nat ->
  (error = match faults with [] => None | _ => Some DM_ENG_INVALID_ARGUMENTS end) ->
  validate_all fuel before rest faults error =
    Some (faults ++ list_faults before rest,
          match faults ++ list_faults before rest with [] => None | _ => Some DM_ENG_INVALID_ARGUMENTS end).
Proof.
  revert before rest faults error. induction fuel as [|fuel IH]; intros before rest faults error Hl He.
  - destruct rest; [|simpl in Hl; lia]. simpl. by rewrite app_nil_r, He.
  - destruct rest as [|p rest]; [simpl; by rewrite app_nil_r, He|].
    cbn [validate_all length] in *. destruct (Validate_spec before p rest) as (H1 & H2 & H3).
    rewrite IH; [by rewrite H1, <- app_assoc|lia|].
    rewrite H2, He. destruct faults as [|x l]; [by destruct (v_faults _)|done].
Qed.

Lemma take_group_spec object rest :
  let '(g, r) := take_group object rest in
  rest = g ++ r /\ Forall (fun p => object_of p = object) g.
Proof.
  induction rest as [|p rest IH]; simpl; [by split|]. case_bool_decide as Ho; [|by split].
  destruct (take_group object rest) as [g r]. destruct IH as [-> Hg]. split; [done|by constructor].
Qed.

Lemma assignments_app c1 c2 : assignments (c1 ++ c2) = assignments c1 ++ assignments c2.
Proof. unfold assignments. by rewrite map_app, concat_app. Qed.

Definition triple (p : pvs) : cstr * cstr * option cstr := (object_of p, param_of p, p_value p).

Lemma group_assignments object g :
  Forall (fun p => object_of p = object) g ->
  assignments (map (fun q => CacheValue (parameterName q) (p_value q)) g ++
    [AmxbSet object (map (fun q => (param_of q, p_value q)) g)]) = map triple g.
Proof.
  intros Hg. rewrite assignments_app.
  assert (assignments (map (fun q => CacheValue (parameterName q) (p_value q)) g) = []) as ->.
  { clear. induction g as [|p g IH]; [done|]. unfold assignments in *. simpl. exact IH. }
  unfold assignments. simpl. rewrite app_nil_r, map_map. apply map_ext_Forall.
  eapply Forall_impl; [exact Hg|]. intros p Hp. unfold triple. by rewrite Hp.
Qed.

Lemma SetValues_spec n p rest :
  let '(cs, fs, e, r) := SetValues n p rest in
  assignments cs ++ map triple r = map triple (p :: rest) /\ (length r <= length rest)%nat /\
  (e = None -> fs = []).
Proof.
  unfold SetValues. pose proof (take_group_spec (object_of p) (p :: rest)) as H.
  cbn [take_group] in *. rewrite bool_decide_eq_true_2 in * by done.
  destruct (take_group (object_of p) rest) as [g r]. destruct H as [H Hg].
  pose proof (group_assignments (object_of p) (p :: g) Hg) as Ha.
  assert (Hr : (length r <= length rest)%nat).
  { injection H as ->. rewrite length_app. lia. }
  destruct (e_amxb_set E n _ _); (split_and!; [|done|done]);
    rewrite Ha, <- map_app; by rewrite H.
Qed.

Lemma set_all_spec fuel n rest calls faults error :
  (length rest <= fuel)%nat ->
  exists calls' faults' e, set_all fuel n rest calls faults error = Some (calls ++ calls', faults ++ faults', e) /\
    assignments calls' = map triple rest.
Proof.
  revert n rest calls faults error. induction fuel as [|fuel IH]; intros n rest calls faults error Hl.
  - destruct rest; [|simpl in Hl; lia]. exists [], [], error. simpl. by rewrite !app_nil_r.
  - destruct rest as [|p rest]; [exists [], [], error; simpl; by rewrite !app_nil_r|].
    cbn [set_all length] in *. pose proof (SetValues_spec n p rest) as H.
    destruct (SetValues n p rest) as [[[cs fs] e] r]. destruct H as (H1 & H2 & _).
    destruct (IH (S n) r (calls ++ cs) (faults ++ fs) e) as (c' & f' & e' & H3 & H4); [lia|].
    exists (cs ++ c'), (fs ++ f'), e'. rewrite H3, !app_assoc. split; [done|].
    by rewrite assignments_app, H4.
Qed.

Definition count_sets (calls : list call) : nat :=
  length (List.filter (fun c => match c with AmxbSet _ _ => true | _ => false end) calls).

Lemma count_sets_app c1 c2 : count_sets (c1 ++ c2) = (count_sets c1 + count_sets c2)%nat.
Proof. unfold count_sets. by rewrite List.filter_app, length_app. Qed.

Lemma count_sets_cache (g : list pvs) : count_sets (map (fun q => CacheValue (parameterName q) (p_value q)) g) = 0%nat.
Proof. induction g; [done|]. simpl. exact IHg. Qed.

(** The last call and the result it had. *)
Definition last_set_decides (n : nat) (calls : list call) (e : option fault_code) : Prop :=
  exists cs object values, calls = cs ++ [AmxbSet object values] /\
    (e = None <-> e_amxb_set E (n + count_sets cs) object values = SetOk).

Lemma SetValues_last n p rest :
  let '(cs, _, e, _) := SetValues n p rest in last_set_decides n cs e /\ count_sets cs = 1%nat.
Proof.
  unfold SetValues. destruct (take_group (object_of p) (p :: rest)) as [g r].
  set (values := map (fun q => (param_of q, p_value q)) g).
  destruct (e_amxb_set E n (object_of p) values) eqn:E1;
    (split; [|rewrite count_sets_app, count_sets_cache; done]);
    eexists _, _, _; (split; [reflexivity|]); rewrite count_sets_cache, Nat.add_0_r, E1; done.
Qed.

Lemma set_all_last fuel n rest calls faults error :
  (length rest <= fuel)%nat -> rest <> [] ->
  exists calls' faults' e, set_all fuel n rest calls faults error = Some (calls ++ calls', faults ++ faults', e) /\
    last_set_decides n calls' e.
Proof.
  revert n rest calls faults error. induction fuel as [|fuel IH]; intros n rest calls faults error Hl Hne.
  - destruct rest; [done|simpl in Hl; lia].
  - destruct rest as [|p rest]; [done|]. cbn [set_all length] in *.
    pose proof (SetValues_last n p rest) as H. pose proof (SetValues_spec n p rest) as H'.
    destruct (SetValues n p rest) as [[[cs fs] e] r]. destruct H as [Hd Hc]. destruct H' as (_ & Hr & _).
    destruct r as [|q r].
    + exists cs, fs, e. by destruct fuel.
    + destruct (IH (S n) (q :: r) (calls ++ cs) (faults ++ fs) e) as (c' & f' & e' & H3 & c1 & ob & vs & H4 & H5);
        [lia|done|].
      exists (cs ++ c'), (fs ++ f'), e'. rewrite H3, !app_assoc. split; [done|].
      exists (cs ++ c1), ob, vs. rewrite H4, app_assoc. split; [done|].
      by rewrite count_sets_app, Hc, Nat.add_succ_r.
Qed.

(** ** Properties *)

(** C36: the RPC is all-or-nothing in its validation, and grouping the
    parameters by object does not change the result: it always terminates; when
    a parameter looked at alone is faulty (bad path, unknown object or
    parameter, wrong type, duplicate, read-only, no access), the answer is 9003
    with the faults of all faulty parameters in order, nothing is set and the
    status is not written. *)
Theorem validation_all_or_nothing (ps : list pvs) :
  e_connected E = true -> list_faults [] ps <> [] ->
  SetParameterValues ps = Some {| o_error := Some DM_ENG_INVALID_ARGUMENTS; o_status := None;
                                  o_faults := list_faults [] ps; o_calls := [] |}.
Proof.
  intros Hc Hf. unfold SetParameterValues. rewrite Hc. cbn [negb].
  rewrite validate_all_spec by done. cbn [app]. by destruct (list_faults [] ps).
Qed.

(** When no parameter is faulty, every parameter of the list is set exactly
    once, in the order of the list, with its value, whatever the bus answers to
    the groups; the answer reports success exactly when the status is APPLIED. *)
Theorem valid_list_is_set (ps : list pvs) :
  e_connected E = true -> list_faults [] ps = [] ->
  exists o, SetParameterValues ps = Some o /\ assignments (o_calls o) = map triple ps /\
    (o_error o = None <-> o_status o = Some DM_ENG_ParameterStatus_APPLIED).
Proof.
  intros Hc Hf. unfold SetParameterValues. rewrite Hc. cbn [negb].
  rewrite validate_all_spec by done. rewrite Hf. cbn [app].
  destruct (set_all_spec (length ps) 0 ps [] [] None (le_n _)) as (cs & fs & e & H1 & H2).
  rewrite H1. eexists. split; [done|]. split; [done|]. cbn. by destruct e.
Qed.

(** Only the last group decides.  Of a valid list, the answer is success if
    and only if the last bus call succeeded: the failure of an earlier group is
    forgotten, and no value set before a failure is undone (every bus call is
    one of the list, see the theorem above). *)
Theorem last_group_decides (ps : list pvs) :
  e_connected E = true -> list_faults [] ps = [] -> ps <> [] ->
  exists o cs object values, SetParameterValues ps = Some o /\ o_calls o = cs ++ [AmxbSet object values] /\
    (o_error o = None <-> e_amxb_set E (count_sets cs) object values = SetOk).
Proof.
  intros Hc Hf Hne. unfold SetParameterValues. rewrite Hc. cbn [negb].
  rewrite validate_all_spec by done. rewrite Hf. cbn [app].
  destruct (set_all_last (length ps) 0 ps [] [] None (le_n _) Hne) as (calls & fs & e & H1 & cs & ob & vs & H2 & H3).
  rewrite H1. eexists _, cs, ob, vs. split; [done|]. split; [exact H2|]. exact H3.
Qed.

End Env.

(** Two objects of one parameter each: "Device.A.p" and "Device.B.p".  The bus
    refuses the first set. *)
Definition sample_env : env :=
  {| e_connected := true;
     e_object := fun n => firstn 9 n;
     e_param := fun n => skipn 9 n;
     e_is_search_path := fun _ => false;
     e_path_text := fun n => n;
     e_describe := fun _ => Some (fun n => if bool_decide (n = cs "p")
        then Some {| pd_type_id := AMXC_VAR_ID_CSTRING; pd_read_only := 0 |} else None);
     e_verify_type := (0, Some "1"%string);
     e_uint_as_bool := (0, None);
     e_set_allowed := fun _ _ => true;
     e_amxb_set := fun n o _ => match n with O => SetFailed o [(Some (cs "p"), amxd_status_invalid_value)] | _ => SetOk end |}.

Definition sample_param (name : string) : pvs :=
  {| parameterName := Some (cs name); p_type := DM_ENG_ParameterType_STRING; p_value := Some (cs "v") |}.

Lemma validation_all_or_nothing_witness :
  SetParameterValues sample_env [sample_param "Device.A.p"; sample_param "Device.A.p"; sample_param "Device.B.x"] =
    Some {| o_error := Some DM_ENG_INVALID_ARGUMENTS; o_status := None;
            o_faults := [(Some (cs "Device.A.p"), DM_ENG_INVALID_ARGUMENTS);
                         (Some (cs "Device.B.x"), DM_ENG_INVALID_PARAMETER_NAME)]; o_calls := [] |}.
Proof.
  refine (eq_trans (validation_all_or_nothing sample_env _ eq_refl _) _); [vm_compute; discriminate|vm_compute; reflexivity].
Defined.

Lemma valid_list_is_set_witness :
  exists o, SetParameterValues sample_env [sample_param "Device.A.p"; sample_param "Device.B.p"] = Some o /\
    assignments (o_calls o) = [(cs "Device.A.", cs "p", Some (cs "v")); (cs "Device.B.", cs "p", Some (cs "v"))].
Proof.
  destruct (valid_list_is_set sample_env [sample_param "Device.A.p"; sample_param "Device.B.p"] eq_refl) as (o & H1 & H2 & _).
  - vm_compute. reflexivity.
  - exists o. split; [exact H1|]. rewrite H2. vm_compute. reflexivity.
Defined.

(** The first group fails and the RPC reports APPLIED. *)
Lemma last_group_decides_witness :
  exists o cs object values,
    SetParameterValues sample_env [sample_param "Device.A.p"; sample_param "Device.B.p"] = Some o /\
    o_calls o = cs ++ [AmxbSet object values] /\
    (o_error o = None <-> e_amxb_set sample_env (count_sets cs) object values = SetOk) /\
    o_status o = Some DM_ENG_ParameterStatus_APPLIED /\ length (o_faults o) = 1%nat.
Proof.
  destruct (last_group_decides sample_env [sample_param "Device.A.p"; sample_param "Device.B.p"] eq_refl)
    as (o & c & object & values & H1 & H2 & H3).
  - vm_compute. reflexivity.
  - discriminate.
  - exists o, c, object, values. split; [exact H1|]. split; [exact H2|]. split; [exact H3|].
    vm_compute in H1. injection H1 as <-. split; reflexivity.
Defined.

End SetValues.
