(* ===== verification/Transfers.v ===== *)
(** * Transfers: scheduled downloads inside time windows

    Models [transfers.c], [transfers_dm.c], [transfers_timewindow.c] and
    [transfers_firmware.c] of [src/src/dmdeviceadapter/amx/cwmp_plugin]: the
    state machine that performs a firmware upgrade requested with
    ScheduleDownload inside one of at most two time windows.

    The state [world] holds the [ScheduleDownload] instances of the data model
    (with the private data the plugin hangs on the objects), the static pointer
    [transfer_in_progress] and the queue of data-model events that were raised
    and not delivered yet.  Object pointers are instance indices; an index that
    is not in the map is a dangling (or null) pointer and dereferencing it sets
    [w_fault].

    The data model library, the event library and the bus are outside the
    program: which transactions are accepted, which writes raise an event and
    what the bus call answers are functions of the environment [env], and the
    moments timers fire or events are delivered are steps of [op]. *)

From Stdlib Require Import ZArith Lia.
From stdpp Require Import base list gmap strings.
From S2P Require Import Prelude.

Module Transfers.

(** ** Constants and enumerations of [transfers.h] *)

Definition FAULT_CODE_INTERNAL_ERROR : Z := 9002.
Definition FAULT_CODE_FILE_TRANSFER_FAILURE : Z := 9010.
Definition FAULT_CODE_UNSUPPORTED_PROTOCOL_FOR_FILE_TRANSFER : Z := 9013.
Definition FILETYPE_1_FIRMWARE_UPGRADE_IMAGE : string := "1 Firmware Upgrade Image".

Inductive transfer_status_t :=
| transfer_status_undefined
| transfer_status_idle
| transfer_status_in_progress
| transfer_status_failed
| transfer_status_done.

Inductive timewindow_status_t :=
| timewindow_status_undefined
| timewindow_status_idle
| timewindow_status_started
| timewindow_status_ended.

Inductive timewindow_mode_t :=
| timewindow_mode_undefined
| timewindow_mode_at_any_time
| timewindow_mode_immediately
| timewindow_mode_when_idle
| timewindow_mode_confirmation_needed.

#[export] Instance transfer_status_t_eq_dec : EqDecision transfer_status_t.
Proof. solve_decision. Defined.
#[export] Instance timewindow_status_t_eq_dec : EqDecision timewindow_status_t.
Proof. solve_decision. Defined.
#[export] Instance timewindow_mode_t_eq_dec : EqDecision timewindow_mode_t.
Proof. solve_decision. Defined.

(** ** Data *)

(** A C pointer to private data: null, valid, or freed but still stored. *)
Inductive pointer (A : Type) :=
| Null
| Valid (a : A)
| Freed.
Arguments Null {A}.
Arguments Valid {A} a.
Arguments Freed {A}.

(** An [amxp_timer_t]: the milliseconds it runs for, when it runs. *)
Record timer := { t_armed : option Z }.

Record timewindow_info_t := {
  twi_start : option timer;
  twi_end : option timer;
}.

Record timewindow := {
  tw_Status : string;
  tw_WindowStart : Z;
  tw_WindowEnd : Z;
  tw_WindowMode : string;
  tw_UserMessage : string;
  tw_MaxRetries : Z;
  tw_priv : option timewindow_info_t;
}.

Record transfer_complete := {
  tc_Status : string;
  tc_TransferType : string;
  tc_CommandKey : string;
  tc_Initiator : string;
  tc_StartTime : Z;
  tc_CompleteTime : Z;
  tc_FaultCode : Z;
  tc_FaultString : string;
}.

Record transfer_info_t := {
  ti_numberOfTimeWindow : Z;
  ti_lastTimeWindow : Z;
  ti_withinTimeWindow : bool;
}.

Record schedule_download := {
  sd_CommandKey : string;
  sd_FileType : string;
  sd_URL : string;
  sd_Username : string;
  sd_Password : string;
  sd_FileSize : Z;
  sd_TargetFileName : string;
  sd_TimeWindowList : gmap Z timewindow;
  sd_TransferComplete : transfer_complete;
  sd_priv : pointer transfer_info_t;
}.

(** Events of the data model the plugin listens to (the [on event] clauses of
    [cwmp_plugin-definition.odl]). *)
Inductive event :=
| EvAdded (i : nat)
| EvTimewindowStarted (i : nat) (k : Z)
| EvTimewindowEnded (i : nat) (k : Z)
| EvTransferFailed (i : nat).

(** Transactions the plugin applies. *)
Inductive trans :=
| SetTimewindowStatus (i : nat) (k : Z) (v : string)
| SetMaxRetries (i : nat) (k : Z) (v : Z)
| SetWindowStart (i : nat) (k : Z) (v : Z)
| SetWindowEnd (i : nat) (k : Z) (v : Z)
| SetTransferStatus (i : nat) (v : string)
| SetTransferComplete (i : nat) (start_time complete_time fault_code : option Z) (fault_string : option string)
| AddScheduleDownload (i : nat) (sd : schedule_download).

(** One call of [DeviceInfo.FirmwareImage.active.Download()] on the bus. *)
Record download := {
  dl_transfer : nat;
  dl_URL : string;
  dl_Username : string;
  dl_Password : string;
  dl_retval : Z;
}.

Record world := {
  w_objs : gmap nat schedule_download;
  w_last_index : nat;
  transfer_in_progress : option nat;
  w_pending : list event;
  w_trans : nat;
  w_downloads : list download;
  w_fault : bool;
}.

(** What lies outside: whether the [n]-th transaction is applied, whether
    writing a status over another raises [dm:object-changed], and the answer of
    the [n]-th bus call. *)
Record env := {
  e_accepts : nat -> trans -> bool;
  e_notifies : string -> string -> bool;
  e_download : nat -> string -> string -> string -> Z;
}.

(** *** Record updates *)

Definition set_tw_Status v (t : timewindow) : timewindow :=
  {| tw_Status := v; tw_WindowStart := tw_WindowStart t; tw_WindowEnd := tw_WindowEnd t;
     tw_WindowMode := tw_WindowMode t; tw_UserMessage := tw_UserMessage t;
     tw_MaxRetries := tw_MaxRetries t; tw_priv := tw_priv t |}.
Definition set_tw_WindowStart v (t : timewindow) : timewindow :=
  {| tw_Status := tw_Status t; tw_WindowStart := v; tw_WindowEnd := tw_WindowEnd t;
     tw_WindowMode := tw_WindowMode t; tw_UserMessage := tw_UserMessage t;
     tw_MaxRetries := tw_MaxRetries t; tw_priv := tw_priv t |}.
Definition set_tw_WindowEnd v (t : timewindow) : timewindow :=
  {| tw_Status := tw_Status t; tw_WindowStart := tw_WindowStart t; tw_WindowEnd := v;
     tw_WindowMode := tw_WindowMode t; tw_UserMessage := tw_UserMessage t;
     tw_MaxRetries := tw_MaxRetries t; tw_priv := tw_priv t |}.
Definition set_tw_MaxRetries v (t : timewindow) : timewindow :=
  {| tw_Status := tw_Status t; tw_WindowStart := tw_WindowStart t; tw_WindowEnd := tw_WindowEnd t;
     tw_WindowMode := tw_WindowMode t; tw_UserMessage := tw_UserMessage t;
     tw_MaxRetries := v; tw_priv := tw_priv t |}.
Definition set_tw_priv v (t : timewindow) : timewindow :=
  {| tw_Status := tw_Status t; tw_WindowStart := tw_WindowStart t; tw_WindowEnd := tw_WindowEnd t;
     tw_WindowMode := tw_WindowMode t; tw_UserMessage := tw_UserMessage t;
     tw_MaxRetries := tw_MaxRetries t; tw_priv := v |}.

Definition set_tc_Status v (c : transfer_complete) : transfer_complete :=
  {| tc_Status := v; tc_TransferType := tc_TransferType c; tc_CommandKey := tc_CommandKey c;
     tc_Initiator := tc_Initiator c; tc_StartTime := tc_StartTime c; tc_CompleteTime := tc_CompleteTime c;
     tc_FaultCode := tc_FaultCode c; tc_FaultString := tc_FaultString c |}.
Definition set_tc_times_fault st ct fc fs (c : transfer_complete) : transfer_complete :=
  {| tc_Status := tc_Status c; tc_TransferType := tc_TransferType c; tc_CommandKey := tc_CommandKey c;
     tc_Initiator := tc_Initiator c; tc_StartTime := default (tc_StartTime c) st;
     tc_CompleteTime := default (tc_CompleteTime c) ct;
     tc_FaultCode := default (tc_FaultCode c) fc; tc_FaultString := default (tc_FaultString c) fs |}.

Definition set_sd_TimeWindowList l (s : schedule_download) : schedule_download :=
  {| sd_CommandKey := sd_CommandKey s; sd_FileType := sd_FileType s; sd_URL := sd_URL s;
     sd_Username := sd_Username s; sd_Password := sd_Password s; sd_FileSize := sd_FileSize s;
     sd_TargetFileName := sd_TargetFileName s; sd_TimeWindowList := l;
     sd_TransferComplete := sd_TransferComplete s; sd_priv := sd_priv s |}.
Definition set_sd_TransferComplete c (s : schedule_download) : schedule_download :=
  {| sd_CommandKey := sd_CommandKey s; sd_FileType := sd_FileType s; sd_URL := sd_URL s;
     sd_Username := sd_Username s; sd_Password := sd_Password s; sd_FileSize := sd_FileSize s;
     sd_TargetFileName := sd_TargetFileName s; sd_TimeWindowList := sd_TimeWindowList s;
     sd_TransferComplete := c; sd_priv := sd_priv s |}.
Definition set_sd_priv p (s : schedule_download) : schedule_download :=
  {| sd_CommandKey := sd_CommandKey s; sd_FileType := sd_FileType s; sd_URL := sd_URL s;
     sd_Username := sd_Username s; sd_Password := sd_Password s; sd_FileSize := sd_FileSize s;
     sd_TargetFileName := sd_TargetFileName s; sd_TimeWindowList := sd_TimeWindowList s;
     sd_TransferComplete := sd_TransferComplete s; sd_priv := p |}.

Definition set_objs o (w : world) : world :=
  {| w_objs := o; w_last_index := w_last_index w; transfer_in_progress := transfer_in_progress w;
     w_pending := w_pending w; w_trans := w_trans w; w_downloads := w_downloads w; w_fault := w_fault w |}.
Definition set_in_progress p (w : world) : world :=
  {| w_objs := w_objs w; w_last_index := w_last_index w; transfer_in_progress := p;
     w_pending := w_pending w; w_trans := w_trans w; w_downloads := w_downloads w; w_fault := w_fault w |}.
Definition set_pending q (w : world) : world :=
  {| w_objs := w_objs w; w_last_index := w_last_index w; transfer_in_progress := transfer_in_progress w;
     w_pending := q; w_trans := w_trans w; w_downloads := w_downloads w; w_fault := w_fault w |}.
Definition add_download d (w : world) : world :=
  {| w_objs := w_objs w; w_last_index := w_last_index w; transfer_in_progress := transfer_in_progress w;
     w_pending := w_pending w; w_trans := w_trans w; w_downloads := w_downloads w ++ [d]; w_fault := w_fault w |}.
Definition fault (w : world) : world :=
  {| w_objs := w_objs w; w_last_index := w_last_index w; transfer_in_progress := transfer_in_progress w;
     w_pending := w_pending w; w_trans := w_trans w; w_downloads := w_downloads w; w_fault := true |}.

Definition upd_sd (i : nat) (f : schedule_download -> schedule_download) (w : world) : world :=
  set_objs (alter f i (w_objs w)) w.
Definition upd_tw (i : nat) (k : Z) (f : timewindow -> timewindow) (w : world) : world :=
  upd_sd i (fun s => set_sd_TimeWindowList (alter f k (sd_TimeWindowList s)) s) w.

(** [amxd_object_findf(obj, ".TimeWindowList.%d.", k)] *)
Definition find_timewindow (i : nat) (k : Z) (w : world) : option timewindow :=
  match w_objs w !! i with
  | Some s => sd_TimeWindowList s !! k
  | None => None
  end.

(** *** Transactions *)

Definition trans_write (t : trans) (w : world) : world :=
  match t with
  | SetTimewindowStatus i k v => upd_tw i k (set_tw_Status v) w
  | SetMaxRetries i k v => upd_tw i k (set_tw_MaxRetries v) w
  | SetWindowStart i k v => upd_tw i k (set_tw_WindowStart v) w
  | SetWindowEnd i k v => upd_tw i k (set_tw_WindowEnd v) w
  | SetTransferStatus i v =>
      upd_sd i (fun s => set_sd_TransferComplete (set_tc_Status v (sd_TransferComplete s)) s) w
  | SetTransferComplete i st ct fc fs =>
      upd_sd i (fun s => set_sd_TransferComplete (set_tc_times_fault st ct fc fs (sd_TransferComplete s)) s) w
  | AddScheduleDownload i sd =>
      {| w_objs := <[i := sd]> (w_objs w); w_last_index := i; transfer_in_progress := transfer_in_progress w;
         w_pending := w_pending w; w_trans := w_trans w; w_downloads := w_downloads w; w_fault := w_fault w |}
  end.

Section Env.
Context (E : env).

(** The events the plugin receives because of a transaction. *)
Definition trans_events (t : trans) (w : world) : list event :=
  match t with
  | SetTimewindowStatus i k v =>
      match find_timewindow i k w with
      | Some tw =>
          if e_notifies E (tw_Status tw) v then
            if streq v "Started" then [EvTimewindowStarted i k]
            else if streq v "Ended" then [EvTimewindowEnded i k]
            else []
          else []
      | None => []
      end
  | SetTransferStatus i v =>
      match w_objs w !! i with
      | Some s =>
          if e_notifies E (tc_Status (sd_TransferComplete s)) v then
            if streq v "Failed" then [EvTransferFailed i] else []
          else []
      | None => []
      end
  | AddScheduleDownload i _ => [EvAdded i]
  | _ => []
  end.

(** [amxd_trans_apply]; [true] is [amxd_status_ok]. *)
Definition amxd_trans_apply (t : trans) (w : world) : world * bool :=
  let w0 := {| w_objs := w_objs w; w_last_index := w_last_index w;
               transfer_in_progress := transfer_in_progress w; w_pending := w_pending w;
               w_trans := S (w_trans w); w_downloads := w_downloads w; w_fault := w_fault w |} in
  if e_accepts E (w_trans w) t
  then (set_pending (w_pending w ++ trans_events t w) (trans_write t w0), true)
  else (w0, false).

(** ** transfers_timewindow.c *)

Definition timewindow_status_value (status : timewindow_status_t) : option string :=
  match status with
  | timewindow_status_idle => Some "Idle"%string
  | timewindow_status_started => Some "Started"%string
  | timewindow_status_ended => Some "Ended"%string
  | _ => None
  end.

Definition timewindow_set_status (i : nat) (k : Z) (status : timewindow_status_t) (w : world) : world :=
  match find_timewindow i k w, timewindow_status_value status with
  | Some _, Some value => fst (amxd_trans_apply (SetTimewindowStatus i k value) w)
  | _, _ => w
  end.

Definition transfers_timewindow_set_maxretries (i : nat) (k : Z) (value : Z) (w : world) : world :=
  match find_timewindow i k w with
  | Some _ => fst (amxd_trans_apply (SetMaxRetries i k value) w)
  | None => w
  end.

Definition transfers_timewindow_get_maxretries (obj : option timewindow) : Z :=
  match obj with
  | None => -1
  | Some t => tw_MaxRetries t
  end.

Definition transfers_timewindow_get_mode (obj : option timewindow) : timewindow_mode_t :=
  match obj with
  | None => timewindow_mode_undefined
  | Some t =>
      let value := tw_WindowMode t in
      if streq value "1 At Any Time" then timewindow_mode_at_any_time
      else if streq value "2 Immediately" then timewindow_mode_immediately
      else if streq value "3 When Idle" then timewindow_mode_when_idle
      else if streq value "4 Confirmation Needed" then timewindow_mode_confirmation_needed
      else timewindow_mode_undefined
  end.

Definition transfers_timewindow_get_status (obj : option timewindow) : timewindow_status_t :=
  match obj with
  | None => timewindow_status_undefined
  | Some t =>
      let value := tw_Status t in
      if streq value "Idle" then timewindow_status_idle
      else if streq value "Started" then timewindow_status_started
      else if streq value "Ended" then timewindow_status_ended
      else timewindow_status_undefined
  end.

(** The timer callbacks; the timers belong to window [k] of transfer [i]. *)
Definition timewindow_start_timer_cb (i : nat) (k : Z) (w : world) : world :=
  timewindow_set_status i k timewindow_status_started w.

Definition timewindow_end_timer_cb (i : nat) (k : Z) (w : world) : world :=
  timewindow_set_status i k timewindow_status_ended w.

Definition timewindow_internal_del_info (i : nat) (k : Z) (w : world) : world :=
  upd_tw i k (set_tw_priv None) w.

(** A new timer is not running. *)
Definition amxp_timer_new : option timer := Some {| t_armed := None |}.

Definition timewindow_new_info (t : timewindow) : timewindow_info_t :=
  match transfers_timewindow_get_status (Some t) with
  | timewindow_status_idle => {| twi_start := amxp_timer_new; twi_end := amxp_timer_new |}
  | timewindow_status_started => {| twi_start := None; twi_end := amxp_timer_new |}
  | _ => {| twi_start := None; twi_end := None |}
  end.

Definition timewindow_internal_add_info (i : nat) (k : Z) (w : world) : world :=
  upd_tw i k (fun t => match tw_priv t with
                       | Some _ => t
                       | None => set_tw_priv (Some (timewindow_new_info t)) t
                       end) w.

(** The walk over the windows [1] and [2] shared by the four functions below:
    nothing is done without a window [1]. *)
Definition on_windows (f : nat -> Z -> world -> world) (i : nat) (w : world) : world :=
  match find_timewindow i 1 w with
  | None => w
  | Some _ =>
      let w1 := f i 1 w in
      match find_timewindow i 2 w1 with
      | Some _ => f i 2 w1
      | None => w1
      end
  end.

Definition transfers_timewindow_add_info : nat -> world -> world := on_windows timewindow_internal_add_info.

Definition transfers_timewindow_del_info : nat -> world -> world := on_windows timewindow_internal_del_info.

(** [value * 1000] in [uint32_t] *)
Definition timewindow_get_time_offset (value : Z) : Z := u32 (value * 1000).

(** [amxp_timer_start]: fails on a null timer. *)
Definition amxp_timer_start (t : option timer) (ms : Z) : option timer :=
  match t with
  | Some _ => Some {| t_armed := Some ms |}
  | None => None
  end.

Definition timewindow_start_info (t : timewindow) (info : timewindow_info_t) : timewindow_info_t :=
  match transfers_timewindow_get_status (Some t) with
  | timewindow_status_idle =>
      {| twi_start := amxp_timer_start (twi_start info) (timewindow_get_time_offset (tw_WindowStart t));
         twi_end := amxp_timer_start (twi_end info) (timewindow_get_time_offset (tw_WindowEnd t)) |}
  | timewindow_status_started =>
      {| twi_start := twi_start info;
         twi_end := amxp_timer_start (twi_end info) (timewindow_get_time_offset (tw_WindowEnd t)) |}
  | _ => info
  end.

Definition timewindow_internal_start (i : nat) (k : Z) (w : world) : world :=
  upd_tw i k (fun t => match tw_priv t with
                       | Some info => set_tw_priv (Some (timewindow_start_info t info)) t
                       | None => t
                       end) w.

Definition transfers_timewindow_start : nat -> world -> world := on_windows timewindow_internal_start.

(** [amxp_timer_remaining_time] of the two timers of window [k] of transfer
    [i], in milliseconds. *)
Record remaining := {
  rem_start : nat -> Z -> Z;
  rem_end : nat -> Z -> Z;
}.

Definition timewindow_set_time_offset (t : trans) (w : world) : world := fst (amxd_trans_apply t w).

Definition timewindow_internal_save (r : remaining) (i : nat) (k : Z) (w : world) : world :=
  match find_timewindow i k w with
  | None => w
  | Some t =>
      match tw_priv t with
      | None => w
      | Some info =>
          match transfers_timewindow_get_status (Some t) with
          | timewindow_status_idle =>
              let windowStart := rem_start r i k / 1000 in
              let windowEnd := rem_end r i k / 1000 in
              timewindow_set_time_offset (SetWindowEnd i k windowEnd)
                (timewindow_set_time_offset (SetWindowStart i k windowStart) w)
          | timewindow_status_started =>
              let windowEnd := rem_end r i k / 1000 in
              timewindow_set_time_offset (SetWindowEnd i k windowEnd)
                (timewindow_set_time_offset (SetWindowStart i k 0) w)
          | _ => w
          end
      end
  end.

Definition transfers_timewindow_save (r : remaining) : nat -> world -> world :=
  on_windows (timewindow_internal_save r).

(** ** transfers_firmware.c *)

Definition upgrade_firmware (i : nat) (url username password : string) (w : world) : world * Z :=
  let retval := e_download E (length (w_downloads w)) url username password in
  (add_download {| dl_transfer := i; dl_URL := url; dl_Username := username;
                   dl_Password := password; dl_retval := retval |} w, retval).

Definition transfers_firmware_do_firmwareupgrade (i : nat) (w : world) : world * Z :=
  match transfer_in_progress w with
  | Some _ => (w, -1)
  | None =>
      let w1 := set_in_progress (Some i) w in
      match w_objs w1 !! i with
      | None => (fault w1, -1)
      | Some s =>
          let '(w2, r) := upgrade_firmware i (sd_URL s) (sd_Username s) (sd_Password s) w1 in
          if r =? 0 then (w2, 0) else (set_in_progress None w2, -1)
      end
  end.

Definition transfers_firmware_transfer_done (i : nat) (w : world) : world :=
  match transfer_in_progress w with
  | None => w
  | Some j => if Nat.eqb j i then set_in_progress None w else w
  end.

(** ** transfers.c *)

Definition transfers_update_transfercomplete (i : nat) (start_time complete_time fault_code : option Z)
    (fault_string : option string) (w : world) : world :=
  match w_objs w !! i with
  | None => fault w
  | Some _ =>
      fst (amxd_trans_apply (SetTransferComplete i start_time complete_time fault_code fault_string) w)
  end.

Definition transfers_get_status (s : schedule_download) : transfer_status_t :=
  let value := tc_Status (sd_TransferComplete s) in
  if streq value "Idle" then transfer_status_idle
  else if streq value "In Progress" then transfer_status_in_progress
  else if streq value "Failed" then transfer_status_failed
  else if streq value "Done" then transfer_status_done
  else transfer_status_undefined.

Definition transfer_status_value (status : transfer_status_t) : option string :=
  match status with
  | transfer_status_idle => Some "Idle"%string
  | transfer_status_in_progress => Some "In Progress"%string
  | transfer_status_failed => Some "Failed"%string
  | transfer_status_done => Some "Done"%string
  | transfer_status_undefined => None
  end.

Definition transfers_set_status (i : nat) (status : transfer_status_t) (w : world) : world :=
  match w_objs w !! i with
  | None => fault w
  | Some _ =>
      match transfer_status_value status with
      | Some value => fst (amxd_trans_apply (SetTransferStatus i value) w)
      | None => w
      end
  end.

Definition transfer_is_done (s : schedule_download) : bool :=
  bool_decide (transfer_status_done = transfers_get_status s).

Definition transfers_start_transfer (i : nat) (w : world) : world :=
  match w_objs w !! i with
  | None => fault w
  | Some s =>
      if streq (sd_FileType s) FILETYPE_1_FIRMWARE_UPGRADE_IMAGE then
        let w1 := transfers_set_status i transfer_status_in_progress w in
        let '(w2, r) := transfers_firmware_do_firmwareupgrade i w1 in
        if negb (r =? 0) then
          transfers_set_status i transfer_status_failed
            (transfers_update_transfercomplete i None None (Some FAULT_CODE_INTERNAL_ERROR)
               (Some "Failed to perform upgrade"%string) w2)
        else w2
      else w
  end.

Definition transfers_transfer_done (i : nat) (w : world) : world :=
  match w_objs w !! i with
  | None => fault w
  | Some s =>
      if streq (sd_FileType s) "" then w
      else
        let w1 := if streq (sd_FileType s) FILETYPE_1_FIRMWARE_UPGRADE_IMAGE
                  then transfers_firmware_transfer_done i w else w in
        transfers_set_status i transfer_status_done w1
  end.

(** The modes in which the plugin acts by itself. *)
Definition automatic_mode (m : timewindow_mode_t) : bool :=
  bool_decide (m = timewindow_mode_immediately) || bool_decide (m = timewindow_mode_at_any_time).

Definition transfers_firmwareupgrade_done (i : nat) (fault_code : Z) (fault_string : string) (w : world) : world :=
  match w_objs w !! i with
  | None => fault w
  | Some s =>
      match sd_priv s with
      | Null => w
      | Freed => fault w
      | Valid info =>
          if ti_lastTimeWindow info =? 0 then w
          else
            let mode := transfers_timewindow_get_mode (find_timewindow i (ti_lastTimeWindow info) w) in
            if automatic_mode mode then
              if ti_withinTimeWindow info then
                let w1 := transfers_update_transfercomplete i None None (Some fault_code) (Some fault_string) w in
                if fault_code =? 0 then transfers_transfer_done i w1
                else transfers_set_status i transfer_status_failed w1
              else w
            else w
      end
  end.

Definition transfers_handle_transfer (i : nat) (w : world) : world :=
  match w_objs w !! i with
  | None => fault w
  | Some s =>
      if transfer_is_done s then w
      else
        match sd_priv s with
        | Null => w
        | Freed => fault w
        | Valid info =>
            if ti_lastTimeWindow info =? 0 then w
            else
              let mode := transfers_timewindow_get_mode (find_timewindow i (ti_lastTimeWindow info) w) in
              if automatic_mode mode then
                if ti_withinTimeWindow info then transfers_start_transfer i w
                else if ti_numberOfTimeWindow info =? ti_lastTimeWindow info then
                  transfers_transfer_done i
                    (transfers_update_transfercomplete i None None (Some FAULT_CODE_INTERNAL_ERROR)
                       (Some "TimeWindow(s) ended"%string) w)
                else w
              else w
        end
  end.

(** The loop of [transfers_transfer_add_info] over the window indices; [None]
    is the early exit on a missing window, which leaves [info] as it is. *)
Fixpoint scan_windows (l : gmap Z timewindow) (ks : list Z) (info : transfer_info_t) : transfer_info_t * bool :=
  match ks with
  | [] => (info, true)
  | k :: ks' =>
      match l !! k with
      | None => (info, false)
      | Some t =>
          let info' :=
            match transfers_timewindow_get_status (Some t) with
            | timewindow_status_started =>
                {| ti_numberOfTimeWindow := ti_numberOfTimeWindow info; ti_lastTimeWindow := k; ti_withinTimeWindow := true |}
            | timewindow_status_ended =>
                {| ti_numberOfTimeWindow := ti_numberOfTimeWindow info; ti_lastTimeWindow := k; ti_withinTimeWindow := false |}
            | _ => info
            end in
          scan_windows l ks' info'
      end
  end.

Definition transfers_transfer_add_info (i : nat) (w : world) : world :=
  match w_objs w !! i with
  | None => fault w
  | Some s =>
      match sd_priv s with
      | Null =>
          let n := Z.of_nat (size (sd_TimeWindowList s)) in
          let info0 := {| ti_numberOfTimeWindow := n; ti_lastTimeWindow := 0; ti_withinTimeWindow := false |} in
          let '(info, complete) := scan_windows (sd_TimeWindowList s) (seqZ 1 n) info0 in
          let w1 := upd_sd i (set_sd_priv (Valid info)) w in
          if (n =? 0) || negb complete then w1 else transfers_timewindow_add_info i w1
      | _ => w
      end
  end.

Definition transfers_transfer_del_info (i : nat) (w : world) : world :=
  match w_objs w !! i with
  | None => fault w
  | Some s =>
      match sd_priv s with
      | Null => w
      | Freed => fault w
      | Valid _ => transfers_timewindow_del_info i (upd_sd i (set_sd_priv Freed) w)
      end
  end.

(** [status] is the answer of the bus for [DeviceInfo.FirmwareImage.[active].]. *)
Definition handle_pending_upgrade (status : option string) (i : nat) (w : world) : world :=
  match status with
  | None => transfers_firmwareupgrade_done i FAULT_CODE_INTERNAL_ERROR "Internal failure" w
  | Some s =>
      if negb (streq s "Active")
      then transfers_firmwareupgrade_done i FAULT_CODE_INTERNAL_ERROR "Failed to apply firmware" w
      else transfers_firmwareupgrade_done i 0 "" w
  end.

Definition transfers_handle_in_progress_transfer (status : option string) (i : nat) (w : world) : world :=
  match w_objs w !! i with
  | None => fault w
  | Some s =>
      if streq (tc_Status (sd_TransferComplete s)) "In Progress" &&
         streq (sd_FileType s) FILETYPE_1_FIRMWARE_UPGRADE_IMAGE
      then handle_pending_upgrade status i w
      else w
  end.

(** [amxd_object_for_each(instance, ...)]: instances are linked in the order
    of their indices. *)
Definition for_each_instance (f : nat -> world -> world) (w : world) : world :=
  foldl (fun w i => match w_objs w !! i with Some _ => f i w | None => w end) w (seq 1 (w_last_index w)).

Definition transfers_save (r : remaining) (w : world) : world :=
  for_each_instance (transfers_timewindow_save r) w.

Definition deferred_init_timer_cb (status : option string) (w : world) : world :=
  for_each_instance (fun i w =>
    transfers_timewindow_start i
      (transfers_handle_in_progress_transfer status i (transfers_transfer_add_info i w))) w.

Definition transfers_clean (w : world) : world :=
  set_in_progress None (for_each_instance transfers_transfer_del_info w).

(** *** The notification of the firmware component ([transfers_firmware.c]) *)

Definition upgrade_failed (status : string) : bool :=
  streq status "DownloadFailed" || streq status "ValidationFailed" ||
  streq status "InstallationFailed" || streq status "ActivationFailed".

Definition firmwareimage_notification (status bootFailureLog : option string) (r : remaining) (w : world) : world :=
  match transfer_in_progress w with
  | None => w
  | Some i =>
      match status with
      | None => w
      | Some st =>
          let log := default ""%string bootFailureLog in
          if upgrade_failed st then
            let fault_code := if streq log "Protocol not supported"
                              then FAULT_CODE_UNSUPPORTED_PROTOCOL_FOR_FILE_TRANSFER
                              else FAULT_CODE_FILE_TRANSFER_FAILURE in
            set_in_progress None (transfers_firmwareupgrade_done i fault_code log w)
          else if streq st "Validating" then transfers_save r w
          else w
      end
  end.

(** ** transfers_dm.c *)

Record timewindow_args := {
  twa_WindowStart : Z;
  twa_WindowEnd : Z;
  twa_WindowMode : string;
  twa_UserMessage : string;
  twa_MaxRetries : Z;
}.

Record schedule_download_args := {
  sda_Initiator : string;
  sda_CommandKey : string;
  sda_FileType : string;
  sda_URL : string;
  sda_Username : string;
  sda_Password : string;
  sda_FileSize : Z;
  sda_TargetFileName : string;
  sda_TimeWindowList : list timewindow_args;
}.

Inductive amxd_status := amxd_status_ok | amxd_status_invalid_arg | amxd_status_trans_failed.

Definition new_timewindow (a : timewindow_args) : timewindow :=
  {| tw_Status := "Idle"; tw_WindowStart := twa_WindowStart a; tw_WindowEnd := twa_WindowEnd a;
     tw_WindowMode := twa_WindowMode a; tw_UserMessage := twa_UserMessage a;
     tw_MaxRetries := twa_MaxRetries a; tw_priv := None |}.

Definition new_schedule_download (a : schedule_download_args) (first : timewindow_args)
    (second : option timewindow_args) : schedule_download :=
  {| sd_CommandKey := sda_CommandKey a; sd_FileType := sda_FileType a; sd_URL := sda_URL a;
     sd_Username := sda_Username a; sd_Password := sda_Password a; sd_FileSize := sda_FileSize a;
     sd_TargetFileName := sda_TargetFileName a;
     sd_TimeWindowList :=
       match second with
       | Some b => {[1 := new_timewindow first; 2 := new_timewindow b]}
       | None => {[1 := new_timewindow first]}
       end;
     sd_TransferComplete :=
       {| tc_Status := "Idle"; tc_TransferType := "ScheduleDownload"; tc_CommandKey := sda_CommandKey a;
          tc_Initiator := sda_Initiator a; tc_StartTime := 0; tc_CompleteTime := 0;
          tc_FaultCode := 0; tc_FaultString := "" |};
     sd_priv := Null |}.

(** [i] is the index the data model gives to the new instance. *)
Definition addScheduleDownload (i : nat) (a : schedule_download_args) (w : world) : world * amxd_status :=
  match sda_TimeWindowList a with
  | [] => (w, amxd_status_invalid_arg)
  | first :: rest =>
      let '(w', ok) := amxd_trans_apply (AddScheduleDownload i (new_schedule_download a first (head rest))) w in
      (w', if ok : bool then amxd_status_ok else amxd_status_trans_failed)
  end.

Definition scheduleDownload_added (i : nat) (w : world) : world :=
  match w_objs w !! i with
  | None => w
  | Some _ => transfers_timewindow_start i (transfers_transfer_add_info i w)
  end.

Definition set_within (b : bool) (info : transfer_info_t) : transfer_info_t :=
  {| ti_numberOfTimeWindow := ti_numberOfTimeWindow info; ti_lastTimeWindow := ti_lastTimeWindow info;
     ti_withinTimeWindow := b |}.

Definition set_last (k : Z) (info : transfer_info_t) : transfer_info_t :=
  {| ti_numberOfTimeWindow := ti_numberOfTimeWindow info; ti_lastTimeWindow := k;
     ti_withinTimeWindow := ti_withinTimeWindow info |}.

(** [transfer_obj->priv] of an object that may be gone. *)
Definition timewindow_started (i : nat) (k : Z) (w : world) : world :=
  match find_timewindow i k w, w_objs w !! i with
  | Some _, Some s =>
      match sd_priv s with
      | Null => w
      | Freed => fault w
      | Valid info =>
          transfers_handle_transfer i (upd_sd i (set_sd_priv (Valid (set_last k (set_within true info)))) w)
      end
  | _, _ => fault w
  end.

Definition timewindow_ended (i : nat) (k : Z) (w : world) : world :=
  match find_timewindow i k w, w_objs w !! i with
  | Some _, Some s =>
      match sd_priv s with
      | Null => w
      | Freed => fault w
      | Valid info =>
          transfers_handle_transfer i (upd_sd i (set_sd_priv (Valid (set_within false info))) w)
      end
  | _, _ => fault w
  end.

Definition schedule_download_transfer_failed (i : nat) (w : world) : world :=
  match w_objs w !! i with
  | None => fault w
  | Some s =>
      match sd_priv s with
      | Null => w
      | Freed => fault w
      | Valid info =>
          match find_timewindow i (ti_lastTimeWindow info) w with
          | None => w
          | Some t =>
              if automatic_mode (transfers_timewindow_get_mode (Some t)) then
                if ti_withinTimeWindow info then
                  let maxretries := transfers_timewindow_get_maxretries (Some t) in
                  if maxretries <=? 0 then
                    if ti_numberOfTimeWindow info =? ti_lastTimeWindow info
                    then transfers_transfer_done i w else w
                  else
                    transfers_start_transfer i
                      (transfers_timewindow_set_maxretries i (ti_lastTimeWindow info) (maxretries - 1) w)
                else w
              else w
          end
      end
  end.

(** The deletion of an instance: the action, then the removal of the object
    by the data model. *)
Definition scheduleDownload_del_inst (i : nat) (w : world) : world :=
  match w_objs w !! i with
  | None => w
  | Some _ =>
      let w1 := transfers_transfer_del_info i w in
      set_objs (delete i (w_objs w1)) w1
  end.

Definition app_stopped (r : remaining) (w : world) : world := transfers_save r w.

(** ** Steps of the plugin *)

Inductive op :=
| OpAdd (i : nat) (a : schedule_download_args)
| OpDelete (i : nat)
| OpEvent
| OpStartTimer (i : nat) (k : Z)
| OpEndTimer (i : nat) (k : Z)
| OpFirmware (status bootFailureLog : option string) (r : remaining)
| OpAppStop (r : remaining)
| OpInit (status : option string)
| OpClean.

Definition deliver (e : event) (w : world) : world :=
  match e with
  | EvAdded i => scheduleDownload_added i w
  | EvTimewindowStarted i k => timewindow_started i k w
  | EvTimewindowEnded i k => timewindow_ended i k w
  | EvTransferFailed i => schedule_download_transfer_failed i w
  end.

Definition disarm_start (t : timewindow) : timewindow :=
  match tw_priv t with
  | Some info => set_tw_priv (Some {| twi_start := Some {| t_armed := None |}; twi_end := twi_end info |}) t
  | None => t
  end.

Definition disarm_end (t : timewindow) : timewindow :=
  match tw_priv t with
  | Some info => set_tw_priv (Some {| twi_start := twi_start info; twi_end := Some {| t_armed := None |} |}) t
  | None => t
  end.

Definition is_armed (t : option timer) : bool :=
  match t with
  | Some {| t_armed := Some _ |} => true
  | _ => false
  end.

Definition start_armed (t : timewindow) : bool :=
  match tw_priv t with Some info => is_armed (twi_start info) | None => false end.

Definition end_armed (t : timewindow) : bool :=
  match tw_priv t with Some info => is_armed (twi_end info) | None => false end.

(** One step; only a running timer fires, once per start, and a new instance
    has an index above those given before.  After a fault the process is gone. *)
Definition step (o : op) (w : world) : world :=
  if w_fault w then w
  else
    match o with
    | OpAdd i a => if Nat.ltb (w_last_index w) i then fst (addScheduleDownload i a w) else w
    | OpDelete i => scheduleDownload_del_inst i w
    | OpEvent =>
        match w_pending w with
        | [] => w
        | e :: q => deliver e (set_pending q w)
        end
    | OpStartTimer i k =>
        match find_timewindow i k w with
        | Some t => if start_armed t then timewindow_start_timer_cb i k (upd_tw i k disarm_start w) else w
        | None => w
        end
    | OpEndTimer i k =>
        match find_timewindow i k w with
        | Some t => if end_armed t then timewindow_end_timer_cb i k (upd_tw i k disarm_end w) else w
        | None => w
        end
    | OpFirmware st log r => firmwareimage_notification st log r w
    | OpAppStop r => app_stopped r w
    | OpInit st => deferred_init_timer_cb st w
    | OpClean => transfers_clean w
    end.

Definition run (os : list op) (w : world) : world := foldl (fun w o => step o w) w os.

End Env.

(** [transfers_init] on an empty data model. *)
Definition empty_world : world :=
  {| w_objs := ∅; w_last_index := 0; transfer_in_progress := None; w_pending := []; w_trans := 0;
     w_downloads := []; w_fault := false |}.

(** The persistent part of the state, as a restart of the plugin finds it:
    private data and queued events are gone, and [transfers_firmware_init]
    clears [transfer_in_progress]. *)
Definition restart (w : world) : world :=
  {| w_objs := (fun s => set_sd_priv Null (set_sd_TimeWindowList (set_tw_priv None <$> sd_TimeWindowList s) s)) <$> w_objs w;
     w_last_index := w_last_index w; transfer_in_progress := None; w_pending := []; w_trans := w_trans w;
     w_downloads := w_downloads w; w_fault := false |}.

End Transfers.
