(* ===== verification/TransfersFacts.v ===== *)
(** * Facts about the scheduled downloads of [Transfers]

    Retries are bounded, at most one firmware download is in flight, the
    plugin never follows a dangling object pointer unless an instance is
    deleted, the windows survive a restart, and what each handler reports in
    [TransferComplete]. *)

From Stdlib Require Import ZArith Lia.
From stdpp Require Import base list gmap strings.
From S2P Require Import Prelude Transfers.

Module TransfersFacts.
Import Transfers.

(** ** A measure that bounds the downloads still possible *)

(** What a window can still cause: its retries, and one attempt while its
    start timer runs. *)
Definition window_potential (t : timewindow) : Z :=
  Z.max 0 (tw_MaxRetries t) + (if start_armed t then 1 else 0).

Definition sum_windows (f : timewindow -> Z) (l : gmap Z timewindow) : Z :=
  map_fold (fun _ t acc => f t + acc) 0 l.

Definition event_potential (j : nat) (e : event) : Z :=
  match e with
  | EvAdded i => if Nat.eqb i j then 2 else 0
  | EvTimewindowStarted i _ => if Nat.eqb i j then 1 else 0
  | _ => 0
  end.

Fixpoint sum_events (j : nat) (q : list event) : Z :=
  match q with
  | [] => 0
  | e :: q' => event_potential j e + sum_events j q'
  end.

Definition windows (j : nat) (w : world) : gmap Z timewindow :=
  match w_objs w !! j with
  | Some s => sd_TimeWindowList s
  | None => ∅
  end.

Definition potential (j : nat) (w : world) : Z :=
  sum_windows window_potential (windows j w) + sum_events j (w_pending w).

(** The calls of [Download()] made for transfer [j]. *)
Fixpoint count_downloads (j : nat) (ds : list download) : Z :=
  match ds with
  | [] => 0
  | d :: ds' => (if Nat.eqb (dl_transfer d) j then 1 else 0) + count_downloads j ds'
  end.

Definition attempts (j : nat) (w : world) : Z := count_downloads j (w_downloads w).

Definition total (j : nat) (w : world) : Z := attempts j w + potential j w.

Definition is_init (o : op) : Z := match o with OpInit _ => 2 | _ => 0 end.

Fixpoint sum_inits (os : list op) : Z :=
  match os with
  | [] => 0
  | o :: os' => is_init o + sum_inits os'
  end.

(** ** Sums over windows *)

Lemma sum_windows_delete f l k t : l !! k = Some t -> sum_windows f l = f t + sum_windows f (delete k l).
Proof.
  intros H. unfold sum_windows.
  rewrite (map_fold_delete_L (fun _ t acc => f t + acc) 0 k t l); [done| |done].
  intros. lia.
Qed.

Lemma sum_windows_alter f g l k t :
  l !! k = Some t -> sum_windows f (alter g k l) = sum_windows f l - f t + f (g t).
Proof.
  intros H. rewrite (sum_windows_delete f l k t H).
  rewrite (sum_windows_delete f (alter g k l) k (g t)) by (by rewrite lookup_alter_eq, H).
  rewrite delete_alter_eq. lia.
Qed.

Lemma sum_windows_fmap_le f g l : (forall t, f (g t) <= f t) -> sum_windows f (g <$> l) <= sum_windows f l.
Proof.
  intros H. induction l as [|k t l Hk IH] using map_ind; [by rewrite fmap_empty|].
  rewrite fmap_insert, (sum_windows_delete f (<[k:=t]> l) k t), (sum_windows_delete f (<[k:=g t]> (g <$> l)) k (g t))
    by apply lookup_insert_eq.
  rewrite !delete_insert_id by (rewrite ?lookup_fmap, ?Hk; done). specialize (H t). lia.
Qed.

Lemma sum_windows_nonneg f l : (forall t, 0 <= f t) -> 0 <= sum_windows f l.
Proof.
  intros Hf. unfold sum_windows. apply (map_fold_weak_ind (fun r _ => 0 <= r)); [lia|].
  intros k t m r _ Hr. specialize (Hf t). lia.
Qed.

Lemma sum_windows_alter_le f g l k :
  (forall t, l !! k = Some t -> f (g t) <= f t) -> sum_windows f (alter g k l) <= sum_windows f l.
Proof.
  intros H. destruct (l !! k) as [t|] eqn:E.
  - rewrite (sum_windows_alter f g l k t E). specialize (H t eq_refl). lia.
  - rewrite alter_id; [lia|]. intros t Ht. congruence.
Qed.

Lemma window_potential_nonneg t : 0 <= window_potential t.
Proof. unfold window_potential. destruct (start_armed t); lia. Qed.

Lemma sum_events_app j q1 q2 : sum_events j (q1 ++ q2) = sum_events j q1 + sum_events j q2.
Proof. induction q1 as [|e q1 IH]; simpl; [done|]. lia. Qed.

Lemma sum_events_nonneg j q : 0 <= sum_events j q.
Proof. induction q as [|[] q IH]; simpl; repeat case_match; lia. Qed.

Lemma count_downloads_app j d1 d2 : count_downloads j (d1 ++ d2) = count_downloads j d1 + count_downloads j d2.
Proof. induction d1 as [|d d1 IH]; simpl; [done|]. lia. Qed.

(** ** How the operations move the measure *)

Lemma windows_upd_sd i f j w :
  (forall s, sd_TimeWindowList (f s) = sd_TimeWindowList s) -> windows j (upd_sd i f w) = windows j w.
Proof.
  intros Hf. unfold windows, upd_sd. simpl. rewrite lookup_alter. case_decide as Hij; [subst|done].
  destruct (w_objs w !! j); simpl; [apply Hf|done].
Qed.

Lemma windows_upd_tw i k f j w :
  windows j (upd_tw i k f w) = if decide (i = j) then alter f k (windows j w) else windows j w.
Proof.
  unfold windows, upd_tw, upd_sd. simpl. rewrite lookup_alter. case_decide as Hij; [subst|done].
  destruct (w_objs w !! j); simpl; [done|]. by rewrite alter_empty.
Qed.

Lemma total_ext j w w' :
  w_downloads w' = w_downloads w -> w_pending w' = w_pending w -> windows j w' = windows j w ->
  total j w' = total j w.
Proof. unfold total, attempts, potential. by intros -> -> ->. Qed.

Lemma total_upd_sd i f j w :
  (forall s, sd_TimeWindowList (f s) = sd_TimeWindowList s) -> total j (upd_sd i f w) = total j w.
Proof. intros Hf. apply total_ext; [done..|]. by apply windows_upd_sd. Qed.

Lemma total_upd_tw_le i k f j w :
  (forall t, find_timewindow i k w = Some t -> window_potential (f t) <= window_potential t) ->
  total j (upd_tw i k f w) <= total j w.
Proof.
  intros Hf. unfold total, attempts, potential. rewrite windows_upd_tw. simpl.
  case_decide as Hij; [subst j|lia].
  assert (sum_windows window_potential (alter f k (windows i w)) <= sum_windows window_potential (windows i w)).
  { apply sum_windows_alter_le. intros t Ht. apply Hf. unfold find_timewindow, windows in *.
    by destruct (w_objs w !! i). }
  lia.
Qed.

Lemma total_fault j w : total j (fault w) = total j w.
Proof. by apply total_ext. Qed.

Lemma total_set_in_progress p j w : total j (set_in_progress p w) = total j w.
Proof. by apply total_ext. Qed.

(** Transactions that neither touch a retry counter nor open a window. *)
Definition quiet (t : trans) : Prop :=
  match t with
  | SetTimewindowStatus _ _ v => v <> "Started"%string
  | SetMaxRetries _ _ _ | AddScheduleDownload _ _ => False
  | _ => True
  end.

Lemma windows_quiet t j w : quiet t ->
  sum_windows window_potential (windows j (trans_write t w)) = sum_windows window_potential (windows j w).
Proof.
  assert (Htw : forall i k f, (forall u, window_potential (f u) = window_potential u) ->
    sum_windows window_potential (windows j (upd_tw i k f w)) = sum_windows window_potential (windows j w)).
  { intros i k f Hf. rewrite windows_upd_tw. case_decide; [|done].
    destruct (windows j w !! k) as [u|] eqn:Eu.
    - rewrite (sum_windows_alter _ _ _ _ u Eu), Hf. lia.
    - by rewrite alter_id'. }
  destruct t; intros Hq; simpl in *; try done; try (apply Htw; done).
  - by rewrite windows_upd_sd.
  - by rewrite windows_upd_sd.
Qed.

Section WithEnv.
Context (E : env).

Lemma events_quiet t j w : quiet t -> sum_events j (trans_events E t w) = 0.
Proof.
  intros Hq. destruct t as [i k v| | | |i v| |]; simpl in *; try done.
  - destruct (find_timewindow i k w); [|done]. destruct (e_notifies E _ v); [|done].
    rewrite (proj2 (streq_false v "Started") Hq). by destruct (streq v "Ended").
  - destruct (w_objs w !! i); [|done]. destruct (e_notifies E _ v); [|done]. by destruct (streq v "Failed").
Qed.

Lemma trans_write_frame t w :
  w_downloads (trans_write t w) = w_downloads w /\ w_pending (trans_write t w) = w_pending w /\
  transfer_in_progress (trans_write t w) = transfer_in_progress w /\ w_fault (trans_write t w) = w_fault w.
Proof. by destruct t. Qed.

Lemma total_apply_quiet t j w : quiet t -> total j (fst (amxd_trans_apply E t w)) = total j w.
Proof.
  intros Hq. unfold amxd_trans_apply. destruct (e_accepts E (w_trans w) t); [|by apply total_ext].
  unfold total, attempts, potential. cbn [fst].
  pose proof (events_quiet t j w Hq) as He.
  set (w0 := {| w_trans := S (w_trans w) |}).
  pose proof (windows_quiet t j w0 Hq) as Hw. pose proof (trans_write_frame t w0) as (Hd & _).
  simpl in *. rewrite sum_events_app, He, Hd.
  change (windows j (set_pending _ (trans_write t w0))) with (windows j (trans_write t w0)).
  rewrite Hw. change (windows j w0) with (windows j w). simpl. lia.
Qed.

Lemma total_set_status i st j w : total j (transfers_set_status E i st w) = total j w.
Proof.
  unfold transfers_set_status. destruct (w_objs w !! i); [|apply total_fault].
  destruct (transfer_status_value st); [|done]. by apply total_apply_quiet.
Qed.

Lemma total_update_tc i st ct fc fs j w :
  total j (transfers_update_transfercomplete E i st ct fc fs w) = total j w.
Proof.
  unfold transfers_update_transfercomplete. destruct (w_objs w !! i); [|apply total_fault].
  by apply total_apply_quiet.
Qed.

Lemma total_transfer_done i j w : total j (transfers_transfer_done E i w) = total j w.
Proof.
  unfold transfers_transfer_done, transfers_firmware_transfer_done.
  repeat (case_match; try done); rewrite ?total_set_status, ?total_fault, ?total_set_in_progress; done.
Qed.

Lemma total_firmwareupgrade_done i fc fs j w :
  total j (transfers_firmwareupgrade_done E i fc fs w) = total j w.
Proof.
  unfold transfers_firmwareupgrade_done.
  repeat (case_match; try done);
    rewrite ?total_fault, ?total_transfer_done, ?total_set_status, ?total_update_tc; done.
Qed.

(** A download attempt costs at most one, and only its own transfer. *)
Lemma total_start_transfer i j w :
  total j (transfers_start_transfer E i w) <= total j w + (if Nat.eqb i j then 1 else 0).
Proof.
  assert (H0 : 0 <= if Nat.eqb i j then 1 else 0) by (destruct (Nat.eqb i j); lia).
  unfold transfers_start_transfer. destruct (w_objs w !! i) as [s|]; [|rewrite total_fault; lia].
  destruct (streq _ _); [|lia].
  destruct (transfers_firmware_do_firmwareupgrade E i _) as [w2 r] eqn:Ed.
  assert (total j w2 <= total j w + (if Nat.eqb i j then 1 else 0)) as Hd.
  { revert Ed. unfold transfers_firmware_do_firmwareupgrade, upgrade_firmware.
    rewrite <- (total_set_status i transfer_status_in_progress j w).
    generalize (transfers_set_status E i transfer_status_in_progress w). intros w1 Ed.
    destruct (transfer_in_progress w1); [injection Ed as <- _; lia|].
    destruct (w_objs (set_in_progress _ w1) !! i) as [s'|]; [|injection Ed as <- _; rewrite total_fault, total_set_in_progress; lia].
    assert (forall d p w', total j (set_in_progress p (add_download d w')) = total j w' + (if Nat.eqb (dl_transfer d) j then 1 else 0)) as Hadd.
    { intros d p w'. rewrite total_set_in_progress. unfold total, attempts. simpl. rewrite count_downloads_app. simpl.
      change (potential j (add_download d w')) with (potential j w'). lia. }
    destruct (_ =? 0); injection Ed as <- _; [|by rewrite Hadd, total_set_in_progress].
    unfold total, attempts. simpl. rewrite count_downloads_app. simpl.
    change (potential j (add_download _ (set_in_progress _ w1))) with (potential j w1). lia. }
  destruct (negb (r =? 0)); [|done]. by rewrite total_set_status, total_update_tc.
Qed.

Lemma total_handle_transfer i j w :
  total j (transfers_handle_transfer E i w) <= total j w + (if Nat.eqb i j then 1 else 0).
Proof.
  assert (H0 : 0 <= if Nat.eqb i j then 1 else 0) by (destruct (Nat.eqb i j); lia).
  pose proof (total_start_transfer i j w).
  unfold transfers_handle_transfer.
  repeat (case_match; try lia); rewrite ?total_fault, ?total_transfer_done, ?total_update_tc; lia.
Qed.

Lemma total_handle_transfer_outside i j w s info :
  w_objs w !! i = Some s -> sd_priv s = Valid info -> ti_withinTimeWindow info = false ->
  total j (transfers_handle_transfer E i w) = total j w.
Proof.
  intros Hs Hp Hw. unfold transfers_handle_transfer. rewrite Hs, Hp, Hw.
  repeat (case_match; try done). by rewrite total_transfer_done, total_update_tc.
Qed.

Definition same (i j : nat) : Z := if Nat.eqb i j then 1 else 0.

Lemma total_on_windows (f : nat -> Z -> world -> world) (c : Z) i j w :
  0 <= c -> (forall k w, total j (f i k w) <= total j w + c) ->
  total j (on_windows f i w) <= total j w + 2 * c.
Proof.
  intros Hc Hf. unfold on_windows. destruct (find_timewindow i 1 w); [|lia].
  pose proof (Hf 1 w). pose proof (Hf 2 (f i 1 w)). case_match; lia.
Qed.

Lemma total_for_each (f : nat -> world -> world) (c : nat -> Z) j w :
  (forall i, 0 <= c i) -> (forall i w, total j (f i w) <= total j w + c i) ->
  total j (for_each_instance f w) <= total j w + foldr (fun i acc => c i + acc) 0 (seq 1 (w_last_index w)).
Proof.
  intros Hc Hf. unfold for_each_instance. generalize (seq 1 (w_last_index w)). intros l. revert w.
  induction l as [|i l IH]; intros w; simpl; [lia|].
  pose proof (Hf i w). specialize (Hc i).
  destruct (w_objs w !! i); [specialize (IH (f i w))|specialize (IH w)]; lia.
Qed.

Lemma sum_same_seq (c : Z) j n l : 0 <= c ->
  foldr (fun i acc => c * same i j + acc) 0 (seq n l) <= c.
Proof.
  intros Hc. assert (Hz : forall l n, (j < n)%nat -> foldr (fun i acc => c * same i j + acc) 0 (seq n l) = 0).
  { clear n l. induction l as [|l IH]; intros n Hn; simpl; [done|]. rewrite IH by lia.
    unfold same. destruct (Nat.eqb n j) eqn:E'; [apply Nat.eqb_eq in E'; lia|lia]. }
  revert n. induction l as [|l IH]; intros n; simpl; [lia|].
  unfold same at 1. destruct (Nat.eqb n j) eqn:E'.
  - apply Nat.eqb_eq in E' as ->. rewrite Hz by lia. lia.
  - specialize (IH (S n)). lia.
Qed.

Lemma total_add_info i j w : total j (transfers_transfer_add_info i w) <= total j w.
Proof.
  unfold transfers_transfer_add_info. destruct (w_objs w !! i) as [s|]; [|rewrite total_fault; lia].
  destruct (sd_priv s); try lia. destruct (scan_windows _ _ _) as [info complete].
  rewrite <- (total_upd_sd i (set_sd_priv (Valid info)) j w) by done.
  destruct (_ || _); [lia|].
  generalize (upd_sd i (set_sd_priv (Valid info)) w). intros w1.
  assert (total j (transfers_timewindow_add_info i w1) <= total j w1 + 2 * 0); [|lia].
  apply total_on_windows; [lia|]. intros k w2. rewrite Z.add_0_r. apply total_upd_tw_le.
  intros t _. unfold window_potential, start_armed. destruct (tw_priv t) eqn:Et; [by rewrite Et|].
  simpl. unfold timewindow_new_info. destruct (transfers_timewindow_get_status _); simpl; lia.
Qed.

Lemma total_tw_start i j w : total j (transfers_timewindow_start i w) <= total j w + 2 * same i j.
Proof.
  assert (0 <= same i j) by (unfold same; destruct (Nat.eqb i j); lia).
  apply total_on_windows; [done|]. intros k w1. unfold timewindow_internal_start, total, attempts, potential.
  rewrite windows_upd_tw. simpl. unfold same. case_decide as Hij; [subst|destruct (Nat.eqb i j); lia].
  rewrite Nat.eqb_refl. set (g := fun t => _).
  destruct (windows j w1 !! k) as [t|] eqn:Et; [|rewrite alter_id' by done; lia].
  rewrite (sum_windows_alter _ _ _ _ t Et).
  assert (window_potential (g t) <= window_potential t + 1); [|lia].
  unfold g, window_potential, start_armed. destruct (tw_priv t); simpl; repeat case_match; lia.
Qed.

Lemma total_save r i j w : total j (transfers_timewindow_save E r i w) <= total j w.
Proof.
  assert (total j (transfers_timewindow_save E r i w) <= total j w + 2 * 0); [|lia].
  apply total_on_windows; [lia|]. intros k w1. unfold timewindow_internal_save, timewindow_set_time_offset.
  repeat case_match; rewrite ?total_apply_quiet by done; lia.
Qed.

Lemma total_save_all r j w : total j (transfers_save E r w) <= total j w.
Proof.
  pose proof (total_for_each (transfers_timewindow_save E r) (fun i => 0 * same i j) j w) as H.
  pose proof (sum_same_seq 0 j 1 (w_last_index w)). 
  unfold transfers_save. etrans; [apply H; [lia|]|lia].
  intros i w1. pose proof (total_save r i j w1). lia.
Qed.

Lemma total_init_all st j w : total j (deferred_init_timer_cb E st w) <= total j w + 2.
Proof.
  pose proof (total_for_each (fun i w => transfers_timewindow_start i
      (transfers_handle_in_progress_transfer E st i (transfers_transfer_add_info i w)))
      (fun i => 2 * same i j) j w) as H.
  pose proof (sum_same_seq 2 j 1 (w_last_index w)).
  unfold deferred_init_timer_cb. etrans; [apply H|lia].
  - intros i. unfold same. destruct (Nat.eqb i j); lia.
  - intros i w1. etrans; [apply total_tw_start|].
    assert (total j (transfers_handle_in_progress_transfer E st i (transfers_transfer_add_info i w1)) <= total j w1); [|lia].
    etrans; [|apply (total_add_info i)]. generalize (transfers_transfer_add_info i w1). intros w2.
    unfold transfers_handle_in_progress_transfer, handle_pending_upgrade.
    repeat case_match; rewrite ?total_firmwareupgrade_done, ?total_fault; lia.
Qed.

Lemma total_del_info i j w : total j (transfers_transfer_del_info i w) <= total j w.
Proof.
  unfold transfers_transfer_del_info. destruct (w_objs w !! i) as [s|]; [|rewrite total_fault; lia].
  destruct (sd_priv s); [lia| |rewrite total_fault; lia].
  rewrite <- (total_upd_sd i (set_sd_priv Freed) j w) by done.
  generalize (upd_sd i (set_sd_priv Freed) w). intros w1.
  assert (total j (transfers_timewindow_del_info i w1) <= total j w1 + 2 * 0); [|lia].
  apply total_on_windows; [lia|]. intros k w2. rewrite Z.add_0_r. apply total_upd_tw_le.
  intros t _. unfold window_potential. simpl. case_match; lia.
Qed.

(** One step consumes what it costs, provided the data model accepts to
    decrement [MaxRetries]. *)
Hypothesis accepts_retries : forall n i k v, e_accepts E n (SetMaxRetries i k v) = true.

Lemma total_pending j e q w : w_pending w = e :: q -> total j w = total j (set_pending q w) + event_potential j e.
Proof. intros H. unfold total, potential. rewrite H. simpl. unfold attempts, windows. simpl. lia. Qed.

Lemma total_failed i j w : total j (schedule_download_transfer_failed E i w) <= total j w.
Proof.
  unfold schedule_download_transfer_failed. destruct (w_objs w !! i) as [s|] eqn:Es; [|rewrite total_fault; lia].
  destruct (sd_priv s) as [|info|]; [lia| |rewrite total_fault; lia].
  set (k := ti_lastTimeWindow info). destruct (find_timewindow i k w) as [t|] eqn:Et; [|lia].
  destruct (automatic_mode _); [|lia]. destruct (ti_withinTimeWindow info); [|lia]. simpl.
  destruct (tw_MaxRetries t <=? 0) eqn:Em; [case_match; rewrite ?total_transfer_done; lia|]. bool_prop.
  etrans; [apply total_start_transfer|].
  unfold transfers_timewindow_set_maxretries. rewrite Et. unfold amxd_trans_apply. rewrite accepts_retries.
  unfold total, attempts, potential. simpl. rewrite app_nil_r.
  change (windows j (set_pending ?q ?w)) with (windows j w). rewrite windows_upd_tw.
  case_decide as Hij; [subst j|rewrite (proj2 (Nat.eqb_neq i j)) by done; unfold windows; simpl; lia].
  rewrite Nat.eqb_refl. rewrite (sum_windows_alter _ _ _ _ t).
  - unfold window_potential at 3. unfold window_potential at 2. simpl.
    change (start_armed (set_tw_MaxRetries _ t)) with (start_armed t). unfold windows. simpl. lia.
  - unfold windows, find_timewindow in *. simpl. by rewrite Es in *.
Qed.

Lemma total_start_fire i k j w t :
  find_timewindow i k w = Some t -> start_armed t = true ->
  total j (timewindow_start_timer_cb E i k (upd_tw i k disarm_start w)) <= total j w.
Proof.
  intros Hf Ha. unfold timewindow_start_timer_cb, timewindow_set_status.
  assert (Hd : total j (upd_tw i k disarm_start w) = total j w - same i j).
  { unfold total, attempts, potential. rewrite windows_upd_tw. unfold same. simpl.
    case_decide as Hij; [subst; rewrite Nat.eqb_refl|rewrite (proj2 (Nat.eqb_neq i j)) by done; lia].
    rewrite (sum_windows_alter _ _ _ _ t).
    - assert (window_potential (disarm_start t) = window_potential t - 1); [|lia].
      unfold window_potential, disarm_start. rewrite Ha.
      unfold start_armed in Ha. destruct (tw_priv t) eqn:Et; [|done]. unfold start_armed. simpl. lia.
    - unfold windows, find_timewindow in *. by destruct (w_objs w !! j). }
  assert (0 <= same i j) by (unfold same; destruct (Nat.eqb i j); lia).
  destruct (find_timewindow i k (upd_tw i k disarm_start w)) as [t'|] eqn:Et'; [|simpl; lia]. simpl.
  unfold amxd_trans_apply.
  destruct (e_accepts E _ _); cbn [fst]; [|rewrite (total_ext _ (upd_tw i k disarm_start w)) by done; lia].
  set (w1 := upd_tw i k disarm_start w) in *. unfold total, attempts, potential in *.
  change (windows j (set_pending ?q ?w)) with (windows j w).
  cbn -[upd_tw windows disarm_start find_timewindow same streq]. rewrite Et', sum_events_app.
  set (w2 := {| w_trans := S (w_trans w1) |}).
  assert (sum_windows window_potential (windows j (upd_tw i k (set_tw_Status "Started") w2))
    = sum_windows window_potential (windows j w1)) as ->.
  { rewrite windows_upd_tw. change (windows j w2) with (windows j w1). case_decide; [|done].
    destruct (windows j w1 !! k) as [u|] eqn:Eu; [|by rewrite alter_id'].
    rewrite (sum_windows_alter _ _ _ _ u Eu).
    change (window_potential (set_tw_Status "Started" u)) with (window_potential u). lia. }
  unfold same in *. cbn [w_downloads w_pending w1 upd_tw upd_sd set_objs] in *.
  destruct (e_notifies E _ _); destruct (Nat.eqb i j) eqn:Eij; simpl; rewrite ?Eij; lia.
Qed.

Lemma total_deliver e j w : total j (deliver E e w) <= total j w + event_potential j e.
Proof.
  destruct e as [i|i k|i k|i]; cbn [deliver event_potential].
  - unfold scheduleDownload_added. destruct (w_objs w !! i); [|destruct (Nat.eqb i j); lia].
    etrans; [apply total_tw_start|]. pose proof (total_add_info i j w). unfold same. destruct (Nat.eqb i j); lia.
  - assert (0 <= if Nat.eqb i j then 1 else 0) by (destruct (Nat.eqb i j); lia).
    unfold timewindow_started. repeat (case_match; try (rewrite ?total_fault; lia)).
    all: etrans; [apply total_handle_transfer|]; rewrite total_upd_sd by done; repeat case_match; lia.
  - unfold timewindow_ended. destruct (find_timewindow i k w); [|rewrite total_fault; lia].
    destruct (w_objs w !! i) as [s|] eqn:Es; [|rewrite total_fault; lia].
    destruct (sd_priv s) as [|info|]; [lia| |rewrite total_fault; lia].
    rewrite (total_handle_transfer_outside i j _
      (set_sd_priv (Valid (set_within false info)) s) (set_within false info));
      [rewrite total_upd_sd by done; lia| |done|done].
    simpl. by rewrite lookup_alter_eq, Es.
  - etrans; [apply total_failed|lia].
Qed.

Lemma total_add i a j w :
  (j <= w_last_index w < i)%nat -> total j (fst (addScheduleDownload E i a w)) = total j w.
Proof.
  intros Hi. unfold addScheduleDownload. destruct (sda_TimeWindowList a) as [|f rest]; [done|].
  unfold amxd_trans_apply. destruct (e_accepts E _ _); cbn [fst]; [|by apply total_ext].
  unfold total, attempts, potential, windows. simpl. rewrite sum_events_app. simpl.
  rewrite lookup_insert_ne by lia. rewrite (proj2 (Nat.eqb_neq i j)) by lia. lia.
Qed.

Lemma total_delete i j w : total j (scheduleDownload_del_inst i w) <= total j w.
Proof.
  unfold scheduleDownload_del_inst. destruct (w_objs w !! i); [|lia].
  etrans; [|apply (total_del_info i)]. generalize (transfers_transfer_del_info i w). intros w1.
  unfold total, attempts, potential, windows. simpl. rewrite lookup_delete. case_decide; [|lia].
  assert (0 <= sum_windows window_potential (match w_objs w1 !! j with Some s => sd_TimeWindowList s | None => ∅ end)).
  { apply sum_windows_nonneg, window_potential_nonneg. }
  unfold sum_windows at 1. rewrite map_fold_empty. lia.
Qed.

Lemma total_clean j w : total j (transfers_clean w) <= total j w.
Proof.
  unfold transfers_clean. rewrite total_set_in_progress.
  pose proof (total_for_each transfers_transfer_del_info (fun i => 0 * same i j) j w) as H'.
  pose proof (sum_same_seq 0 j 1 (w_last_index w)).
  etrans; [apply H'; [lia|]|lia]. intros i w1. pose proof (total_del_info i j w1). lia.
Qed.

Lemma total_step o j w :
  (j <= w_last_index w)%nat -> total j (step E o w) <= total j w + is_init o.
Proof.
  intros Hj. unfold step. assert (0 <= is_init o) by (destruct o; simpl; lia).
  destruct (w_fault w); [lia|]. destruct o as [i a|i| |i k|i k|st log r|r|st|]; simpl.
  - destruct (Nat.ltb (w_last_index w) i) eqn:Hi; [|lia]. apply Nat.ltb_lt in Hi.
    rewrite total_add by lia. lia.
  - pose proof (total_delete i j w). lia.
  - destruct (w_pending w) as [|e q] eqn:Eq; [lia|]. rewrite (total_pending j e q w Eq).
    pose proof (total_deliver e j (set_pending q w)). lia.
  - destruct (find_timewindow i k w) as [t|] eqn:Et; [|lia]. destruct (start_armed t) eqn:Ea; [|lia].
    etrans; [by eapply total_start_fire|lia].
  - destruct (find_timewindow i k w) as [t|] eqn:Et; [|lia]. destruct (end_armed t) eqn:Ea; [|lia].
    unfold timewindow_end_timer_cb, timewindow_set_status.
    assert (total j (upd_tw i k disarm_end w) <= total j w).
    { apply total_upd_tw_le. intros u _. unfold window_potential, disarm_end, start_armed. destruct (tw_priv u) as [info|] eqn:Eu; simpl; rewrite ?Eu; lia. }
    case_match; [|lia]. simpl. rewrite total_apply_quiet by done. lia.
  - unfold firmwareimage_notification. destruct (transfer_in_progress w) as [i|]; [|lia]. destruct st as [st|]; [|lia].
    repeat case_match; rewrite ?total_set_in_progress, ?total_firmwareupgrade_done; try lia.
    all: pose proof (total_save_all r j w); lia.
  - unfold app_stopped. pose proof (total_save_all r j w). lia.
  - apply total_init_all.
  - pose proof (total_clean j w). lia.
Qed.

End WithEnv.

(** ** Closure: a preorder kept by every primitive is kept by every operation

    [i] is the transfer the operation works on.  The instances below use it
    for locality, for the absence of faults and for what is never undone. *)

Definition present (i : nat) (w : world) : Prop :=
  exists s, w_objs w !! i = Some s /\ sd_priv s <> Freed.

Definition trans_on (i : nat) (t : trans) : Prop :=
  match t with
  | SetTimewindowStatus j _ _ | SetMaxRetries j _ _ | SetWindowStart j _ _ | SetWindowEnd j _ _
  | SetTransferStatus j _ | SetTransferComplete j _ _ _ _ => j = i
  | AddScheduleDownload _ _ => False
  end.

(** What an instance keeps from its creation *)
Definition identity (s : schedule_download) : string * string * string :=
  (tc_TransferType (sd_TransferComplete s), tc_CommandKey (sd_TransferComplete s), tc_Initiator (sd_TransferComplete s)).

(** Updates that keep the windows and the identity of a transfer and do not free
    its data. *)
Definition mild (f : schedule_download -> schedule_download) : Prop :=
  forall s, (forall k, is_Some (sd_TimeWindowList (f s) !! k) <-> is_Some (sd_TimeWindowList s !! k)) /\
    (sd_priv s <> Freed -> sd_priv (f s) <> Freed) /\ identity (f s) = identity s.

Lemma mild_tw f k : mild (fun s => set_sd_TimeWindowList (alter f k (sd_TimeWindowList s)) s).
Proof. intros s. split; [|by split]. intros k'. simpl. by rewrite lookup_alter_is_Some. Qed.

Lemma mild_priv info : mild (set_sd_priv (Valid info)).
Proof. by intros s. Qed.

Section Closure.
Context (E : env) (i : nat) (P : world -> world -> Prop).
Hypothesis P_refl : forall w, P w w.
Hypothesis P_trans : forall w1 w2 w3, P w1 w2 -> P w2 w3 -> P w1 w3.
Hypothesis P_apply : forall t w, trans_on i t -> P w (fst (amxd_trans_apply E t w)).
Hypothesis P_upd : forall f w, mild f -> P w (upd_sd i f w).
Hypothesis P_free : forall w, P w (set_in_progress None w).
Hypothesis P_take : forall w, P w (set_in_progress (Some i) w).
Hypothesis P_download : forall d w, dl_transfer d = i -> P w (add_download d w).
Hypothesis P_fault : forall w, ~ present i w -> P w (fault w).

Lemma absent w : w_objs w !! i = None -> ~ present i w.
Proof. intros H (s & Hs & _). congruence. Qed.

Lemma freed w s : w_objs w !! i = Some s -> sd_priv s = Freed -> ~ present i w.
Proof. intros H Hf (s' & Hs & Hn). congruence. Qed.

Lemma P_upd_tw f k w : P w (upd_tw i k f w).
Proof. apply P_upd, mild_tw. Qed.

Lemma closed_set_status st w : P w (transfers_set_status E i st w).
Proof.
  unfold transfers_set_status. destruct (w_objs w !! i) eqn:Eo; [|by apply P_fault, absent].
  destruct (transfer_status_value st); [by apply P_apply|done].
Qed.

Lemma closed_update_tc st ct fc fs w : P w (transfers_update_transfercomplete E i st ct fc fs w).
Proof.
  unfold transfers_update_transfercomplete. destruct (w_objs w !! i) eqn:Eo; [|by apply P_fault, absent].
  by apply P_apply.
Qed.

Lemma closed_transfer_done w : P w (transfers_transfer_done E i w).
Proof.
  unfold transfers_transfer_done. destruct (w_objs w !! i) eqn:Eo; [|by apply P_fault, absent].
  destruct (streq _ ""); [done|]. eapply P_trans; [|apply closed_set_status].
  unfold transfers_firmware_transfer_done. repeat (case_match; try done); apply P_free.
Qed.

Lemma closed_do_firmwareupgrade w : P w (fst (transfers_firmware_do_firmwareupgrade E i w)).
Proof.
  unfold transfers_firmware_do_firmwareupgrade. destruct (transfer_in_progress w); [done|].
  eapply P_trans; [apply (P_take w)|]. generalize (set_in_progress (Some i) w). intros w1.
  destruct (w_objs w1 !! i) as [s|] eqn:Eo; [|by apply P_fault, absent].
  simpl. destruct (_ =? 0); cbn [fst]; [by apply P_download|].
  eapply P_trans; [|apply P_free]. by apply P_download.
Qed.

Lemma closed_start_transfer w : P w (transfers_start_transfer E i w).
Proof.
  unfold transfers_start_transfer. destruct (w_objs w !! i) as [s|] eqn:Eo; [|by apply P_fault, absent].
  destruct (streq _ _); [|done].
  eapply P_trans; [apply (closed_set_status transfer_status_in_progress)|].
  generalize (transfers_set_status E i transfer_status_in_progress w). intros w1.
  pose proof (closed_do_firmwareupgrade w1) as H.
  destruct (transfers_firmware_do_firmwareupgrade E i w1) as [w2 r]. cbn [fst] in H.
  destruct (negb (r =? 0)); [|done].
  eapply P_trans; [exact H|]. eapply P_trans; [apply closed_update_tc|apply closed_set_status].
Qed.

Lemma closed_firmwareupgrade_done fc fs w : P w (transfers_firmwareupgrade_done E i fc fs w).
Proof.
  unfold transfers_firmwareupgrade_done. destruct (w_objs w !! i) as [s|] eqn:Eo; [|by apply P_fault, absent].
  destruct (sd_priv s) as [|info|] eqn:Ep; [done| |by eapply P_fault, freed].
  repeat (case_match; try done); (eapply P_trans; [apply closed_update_tc|]);
    [apply closed_transfer_done|apply closed_set_status].
Qed.

Lemma closed_handle_transfer w : P w (transfers_handle_transfer E i w).
Proof.
  unfold transfers_handle_transfer. destruct (w_objs w !! i) as [s|] eqn:Eo; [|by apply P_fault, absent].
  destruct (transfer_is_done s); [done|].
  destruct (sd_priv s) as [|info|] eqn:Ep; [done| |by eapply P_fault, freed].
  repeat (case_match; try done); [apply closed_start_transfer|].
  eapply P_trans; [apply closed_update_tc|apply closed_transfer_done].
Qed.

Lemma closed_on_windows f w : (forall k w, P w (f i k w)) -> P w (on_windows f i w).
Proof. intros Hf. unfold on_windows. repeat (case_match; try done); eauto. Qed.

Lemma closed_add_info w : P w (transfers_transfer_add_info i w).
Proof.
  unfold transfers_transfer_add_info. destruct (w_objs w !! i) as [s|] eqn:Eo; [|by apply P_fault, absent].
  destruct (sd_priv s); try done. destruct (scan_windows _ _ _) as [info complete].
  eapply P_trans; [apply (P_upd (set_sd_priv (Valid info))), mild_priv|].
  destruct (_ || _); [done|]. apply closed_on_windows. intros. apply P_upd_tw.
Qed.

Lemma closed_tw_start w : P w (transfers_timewindow_start i w).
Proof. apply closed_on_windows. intros. apply P_upd_tw. Qed.

Lemma closed_save r w : P w (transfers_timewindow_save E r i w).
Proof.
  apply closed_on_windows. intros k w1. unfold timewindow_internal_save, timewindow_set_time_offset.
  repeat (case_match; try done); (eapply P_trans; by apply P_apply).
Qed.

Lemma closed_in_progress st w : P w (transfers_handle_in_progress_transfer E st i w).
Proof.
  unfold transfers_handle_in_progress_transfer, handle_pending_upgrade.
  destruct (w_objs w !! i) as [s|] eqn:Eo; [|by apply P_fault, absent].
  repeat (case_match; try done); apply closed_firmwareupgrade_done.
Qed.

Lemma closed_started k w : is_Some (find_timewindow i k w) -> P w (timewindow_started E i k w).
Proof.
  intros [t Ht]. unfold timewindow_started. rewrite Ht.
  destruct (w_objs w !! i) as [s|] eqn:Eo; [|by apply P_fault, absent].
  destruct (sd_priv s) as [|info|] eqn:Ep; [done| |by eapply P_fault, freed].
  eapply P_trans; [|apply closed_handle_transfer]. apply P_upd, mild_priv.
Qed.

Lemma closed_ended k w : is_Some (find_timewindow i k w) -> P w (timewindow_ended E i k w).
Proof.
  intros [t Ht]. unfold timewindow_ended. rewrite Ht.
  destruct (w_objs w !! i) as [s|] eqn:Eo; [|by apply P_fault, absent].
  destruct (sd_priv s) as [|info|] eqn:Ep; [done| |by eapply P_fault, freed].
  eapply P_trans; [|apply closed_handle_transfer]. apply P_upd, mild_priv.
Qed.

Lemma closed_failed w : P w (schedule_download_transfer_failed E i w).
Proof.
  unfold schedule_download_transfer_failed.
  destruct (w_objs w !! i) as [s|] eqn:Eo; [|by apply P_fault, absent].
  destruct (sd_priv s) as [|info|] eqn:Ep; [done| |by eapply P_fault, freed].
  destruct (find_timewindow i _ w) as [t|] eqn:Et; [|done].
  destruct (automatic_mode _); [|done]. destruct (ti_withinTimeWindow info); [|done]. simpl.
  repeat (case_match; try done); [apply closed_transfer_done|].
  eapply P_trans; [|apply closed_start_transfer].
  unfold transfers_timewindow_set_maxretries. rewrite Et. by apply P_apply.
Qed.

End Closure.

(** *** Instance: the last index *)

Lemma apply_last E i t w : trans_on i t -> w_last_index (fst (amxd_trans_apply E t w)) = w_last_index w.
Proof. intros H. unfold amxd_trans_apply. destruct (e_accepts E _ _); [|done]. by destruct t. Qed.

Definition same_last (w w' : world) : Prop := w_last_index w' = w_last_index w.

Ltac by_closure lem :=
  apply lem; unfold same_last;
  first [done | intros; by etrans | intros; by eapply apply_last].

Lemma last_for_each f w : (forall i w, same_last w (f i w)) -> same_last w (for_each_instance f w).
Proof.
  intros Hf. unfold for_each_instance. generalize (seq 1 (w_last_index w)). intros l. revert w.
  induction l as [|i l IH]; intros w; simpl; [done|].
  destruct (w_objs w !! i); [|apply IH]. unfold same_last in *. by rewrite IH.
Qed.

Lemma last_del_info i w : same_last w (transfers_transfer_del_info i w).
Proof.
  unfold transfers_transfer_del_info, transfers_timewindow_del_info, on_windows, same_last.
  by repeat case_match.
Qed.

Lemma last_init_one E st i w : same_last w (transfers_timewindow_start i
  (transfers_handle_in_progress_transfer E st i (transfers_transfer_add_info i w))).
Proof.
  assert (H1 : same_last w (transfers_transfer_add_info i w)) by by_closure closed_add_info.
  set (w1 := transfers_transfer_add_info i w) in *.
  assert (H2 : same_last w1 (transfers_handle_in_progress_transfer E st i w1)) by by_closure closed_in_progress.
  set (w2 := transfers_handle_in_progress_transfer E st i w1) in *.
  assert (H3 : same_last w2 (transfers_timewindow_start i w2)) by by_closure closed_tw_start.
  unfold same_last in *. congruence.
Qed.

Lemma last_deliver E e w : same_last w (deliver E e w).
Proof.
  destruct e as [i|i k|i k|i]; simpl.
  - unfold scheduleDownload_added. destruct (w_objs w !! i); [|done].
    assert (H1 : same_last w (transfers_transfer_add_info i w)) by by_closure closed_add_info.
    set (w1 := transfers_transfer_add_info i w) in *.
    assert (H2 : same_last w1 (transfers_timewindow_start i w1)) by by_closure closed_tw_start.
    unfold same_last in *. congruence.
  - destruct (find_timewindow i k w) eqn:Et; [|by unfold timewindow_started; rewrite Et].
    by_closure closed_started.
  - destruct (find_timewindow i k w) eqn:Et; [|by unfold timewindow_ended; rewrite Et].
    by_closure closed_ended.
  - by_closure closed_failed.
Qed.

Lemma last_timer_cb E i k st w : same_last w (timewindow_set_status E i k st w).
Proof. unfold timewindow_set_status, same_last. repeat case_match; [by apply (apply_last _ i)|done..]. Qed.

Lemma last_save_all E r w : same_last w (transfers_save E r w).
Proof. apply last_for_each. intros i w1. by_closure closed_save. Qed.

Lemma last_step E o w : (w_last_index w <= w_last_index (step E o w))%nat.
Proof.
  unfold step. destruct (w_fault w); [done|]. destruct o as [i a|i| |i k|i k|st log r|r|st|].
  - destruct (Nat.ltb _ i) eqn:Hi; [|done]. apply Nat.ltb_lt in Hi.
    unfold addScheduleDownload, amxd_trans_apply. repeat case_match; simplify_eq; simpl; lia.
  - unfold scheduleDownload_del_inst. destruct (w_objs w !! i); [|done]. simpl. by rewrite last_del_info.
  - destruct (w_pending w) as [|e q]; [done|]. by rewrite last_deliver.
  - repeat (case_match; try done). unfold timewindow_start_timer_cb.
    by rewrite (last_timer_cb E i k _ (upd_tw i k disarm_start w)).
  - repeat (case_match; try done). unfold timewindow_end_timer_cb.
    by rewrite (last_timer_cb E i k _ (upd_tw i k disarm_end w)).
  - unfold firmwareimage_notification.
    destruct (transfer_in_progress w) as [i|]; [|done]. destruct st as [st|]; [|done].
    destruct (upgrade_failed st).
    + assert (forall fc fs, same_last w (transfers_firmwareupgrade_done E i fc fs w)) as H
        by (intros; by_closure closed_firmwareupgrade_done).
      unfold same_last in H. simpl. by rewrite H.
    + destruct (streq st "Validating"); [by rewrite last_save_all|done].
  - unfold app_stopped. by rewrite last_save_all.
  - unfold deferred_init_timer_cb. rewrite last_for_each; [done|]. intros. apply last_init_one.
  - unfold transfers_clean. simpl. rewrite last_for_each; [done|]. intros. apply last_del_info.
Qed.

(** *** Instance: no dangling pointer is followed *)

Definition event_ok (w : world) (e : event) : Prop :=
  match e with
  | EvAdded _ => True
  | EvTimewindowStarted i k | EvTimewindowEnded i k => is_Some (find_timewindow i k w)
  | EvTransferFailed i => is_Some (w_objs w !! i)
  end.

Record ok (w : world) : Prop := {
  ok_fault : w_fault w = false;
  ok_present : forall i, is_Some (w_objs w !! i) -> present i w;
  ok_in_progress : forall i, transfer_in_progress w = Some i -> present i w;
  ok_pending : Forall (event_ok w) (w_pending w);
  ok_last : forall i, is_Some (w_objs w !! i) -> (i <= w_last_index w)%nat;
}.

(** Nothing the pointers and events of [w] name has gone in [w']. *)
Definition keeps (w w' : world) : Prop :=
  (forall i, is_Some (w_objs w' !! i) <-> is_Some (w_objs w !! i)) /\
  (forall i, present i w -> present i w') /\
  (forall i k, is_Some (find_timewindow i k w) -> is_Some (find_timewindow i k w')).

Definition good (i : nat) (w w' : world) : Prop :=
  present i w -> ok w -> present i w' /\ ok w' /\ keeps w w'.

Lemma keeps_refl w : keeps w w.
Proof. by split_and!. Qed.

Lemma keeps_trans w1 w2 w3 : keeps w1 w2 -> keeps w2 w3 -> keeps w1 w3.
Proof.
  intros (H1 & H2 & H3) (H4 & H5 & H6). split_and!; [|naive_solver..].
  intros i. by rewrite H4.
Qed.

Lemma good_refl i w : good i w w.
Proof. intros Hp Hok. split_and!; [done|done|apply keeps_refl]. Qed.

Lemma good_trans i w1 w2 w3 : good i w1 w2 -> good i w2 w3 -> good i w1 w3.
Proof.
  intros H12 H23 Hp Hok. destruct (H12 Hp Hok) as (Hp2 & Hok2 & Hk2).
  destruct (H23 Hp2 Hok2) as (Hp3 & Hok3 & Hk3). split_and!; [done|done|by eapply keeps_trans].
Qed.

Lemma event_ok_keeps w w' e : keeps w w' -> event_ok w e -> event_ok w' e.
Proof. intros (H1 & H2 & H3). destruct e; simpl; [done|apply H3..|]. by rewrite H1. Qed.

(** An update that keeps everything is good when the rest of the state is. *)
Lemma ok_keeps w w' :
  keeps w w' -> w_fault w' = w_fault w -> w_last_index w' = w_last_index w ->
  (forall i, transfer_in_progress w' = Some i -> present i w') ->
  Forall (event_ok w') (w_pending w') -> ok w -> ok w'.
Proof.
  intros Hk Hf Hl Hi Hq [O1 O2 O3 O4 O5]. destruct Hk as (H1 & H2 & H3). split; [congruence| |done|done|].
  - intros i Hi'. apply H2, O2. by rewrite <- H1.
  - intros i Hi'. rewrite Hl. apply O5. by rewrite <- H1.
Qed.

Lemma find_upd_sd i f w j k : mild f ->
  is_Some (find_timewindow j k (upd_sd i f w)) <-> is_Some (find_timewindow j k w).
Proof.
  intros Hf. unfold find_timewindow, upd_sd. simpl. rewrite lookup_alter. case_decide; [subst|done].
  destruct (w_objs w !! j) as [s|]; [|done]. simpl. apply Hf.
Qed.

Lemma keeps_upd_sd i f w : mild f -> keeps w (upd_sd i f w).
Proof.
  intros Hf. split_and!.
  - intros j. unfold upd_sd. simpl. apply lookup_alter_is_Some.
  - intros j (s & Hs & Hn). unfold present, upd_sd. simpl. rewrite lookup_alter, Hs.
    case_decide; [subst; rewrite Hs|]; eexists; (split; [done|]); [by apply Hf|done].
  - intros j k. by rewrite find_upd_sd.
Qed.

Lemma good_upd i f w : mild f -> good i w (upd_sd i f w).
Proof.
  intros Hf Hp Hok. pose proof (keeps_upd_sd i f w Hf) as Hk. split_and!; [by apply Hk| |done].
  eapply ok_keeps; [done..| | |done].
  - intros j Hj. apply Hk. by apply (ok_in_progress w).
  - eapply Forall_impl; [apply (ok_pending w Hok)|]. intros e. by apply event_ok_keeps.
Qed.

Lemma trans_write_upd i t w : trans_on i t -> exists f, mild f /\ trans_write t w = upd_sd i f w.
Proof.
  destruct t; simpl; intros Ht; subst; try done.
  all: eexists; split; [|reflexivity]; [apply mild_tw || (intros s; by split_and!)].
Qed.

Lemma good_apply E i t w : trans_on i t -> good i w (fst (amxd_trans_apply E t w)).
Proof.
  intros Ht. unfold amxd_trans_apply. set (w0 := {| w_trans := S (w_trans w) |}).
  assert (H0 : good i w w0).
  { intros Hp Hok. split_and!; [done| |by split_and!]. by destruct Hok. }
  destruct (e_accepts E _ t); cbn [fst]; [|done].
  destruct (trans_write_upd i t w0 Ht) as (f & Hf & ->).
  eapply good_trans; [exact H0|]. intros Hp Hok. destruct (good_upd i f w0 Hf Hp Hok) as (Hp1 & Hok1 & Hk1).
  split_and!; [done| |done]. destruct Hok1. split; try done. simpl. apply Forall_app. split; [done|].
  assert (Hev : Forall (event_ok w0) (trans_events E t w)).
  { destruct t as [j k v| | | |j v| |j sd]; simpl; try done; simpl in Ht; subst.
    - destruct (find_timewindow i k w) as [u|] eqn:Ek; [|done].
      destruct (e_notifies E _ v); [|done].
      destruct (streq v "Started"); [|destruct (streq v "Ended"); [|done]];
        apply Forall_singleton; change (is_Some (find_timewindow i k w)); by rewrite Ek.
    - destruct (w_objs w !! i) as [u|] eqn:Eo; [|done].
      destruct (e_notifies E _ v); [|done]. destruct (streq v "Failed"); [|done].
      apply Forall_singleton; change (is_Some (w_objs w !! i)); by rewrite Eo. }
  eapply Forall_impl; [exact Hev|]. intros e. by apply event_ok_keeps.
Qed.

Lemma good_free i w : good i w (set_in_progress None w).
Proof. intros Hp [O1 O2 O3 O4 O5]. split_and!; [done|by split|by split_and!]. Qed.

Lemma good_take i w : good i w (set_in_progress (Some i) w).
Proof.
  intros Hp [O1 O2 O3 O4 O5]. split_and!; [done| |by split_and!]. split; try done. simpl. intros j. naive_solver.
Qed.

Lemma good_download i d w : good i w (add_download d w).
Proof. intros Hp [O1 O2 O3 O4 O5]. split_and!; [done|by split|by split_and!]. Qed.

Lemma good_fault i w : ~ present i w -> good i w (fault w).
Proof. intros Hn Hp. done. Qed.

Ltac by_good lem := (lazymatch goal with |- good ?i _ _ => apply lem with (P := good i) end);
  first [ done | apply good_refl | apply good_trans | intros; by apply good_apply
        | intros; by apply good_upd | apply good_free | apply good_take
        | intros; apply good_download | intros; by apply good_fault ].

Lemma ok_for_each f w : (forall i w, good i w (f i w)) -> ok w -> ok (for_each_instance f w).
Proof.
  intros Hf. unfold for_each_instance. generalize (seq 1 (w_last_index w)). intros l. revert w.
  induction l as [|i l IH]; intros w Hok; simpl; [done|].
  destruct (w_objs w !! i) eqn:Eo; apply IH; [|done]. apply Hf; [|done]. apply (ok_present w Hok). by rewrite Eo.
Qed.

Lemma good_init_one E st i w : good i w (transfers_timewindow_start i
  (transfers_handle_in_progress_transfer E st i (transfers_transfer_add_info i w))).
Proof.
  apply good_trans with (transfers_transfer_add_info i w); [by_good closed_add_info|].
  eapply good_trans; [by_good closed_in_progress|by_good closed_tw_start].
Qed.

Lemma ok_set_pending w e q : ok w -> w_pending w = e :: q -> ok (set_pending q w) /\ event_ok (set_pending q w) e.
Proof.
  intros [O1 O2 O3 O4 O5] Hq. rewrite Hq in O4. apply Forall_cons in O4 as [He Hq']. split; [|by destruct e].
  by split.
Qed.

Lemma ok_deliver E e w : ok w -> event_ok w e -> ok (deliver E e w).
Proof.
  intros Hok He.
  assert (Hwin : forall i k, is_Some (find_timewindow i k w) -> present i w).
  { intros i k [t Ht]. apply (ok_present w Hok). unfold find_timewindow in Ht. by destruct (w_objs w !! i). }
  destruct e as [i|i k|i k|i]; simpl in *.
  - unfold scheduleDownload_added. destruct (w_objs w !! i) eqn:Eo; [|done].
    assert (G : good i w (transfers_timewindow_start i (transfers_transfer_add_info i w))).
    { apply good_trans with (transfers_transfer_add_info i w); [by_good closed_add_info|by_good closed_tw_start]. }
    apply G; [|done]. apply (ok_present w Hok). by rewrite Eo.
  - assert (G : good i w (timewindow_started E i k w)) by by_good closed_started. apply G; [by eapply Hwin|done].
  - assert (G : good i w (timewindow_ended E i k w)) by by_good closed_ended. apply G; [by eapply Hwin|done].
  - assert (G : good i w (schedule_download_transfer_failed E i w)) by by_good closed_failed.
    apply G; [by apply (ok_present w Hok)|done].
Qed.

Lemma ok_add E i a w : ok w -> (w_last_index w < i)%nat -> ok (fst (addScheduleDownload E i a w)).
Proof.
  intros [O1 O2 O3 O4 O5] Hi. unfold addScheduleDownload.
  destruct (sda_TimeWindowList a) as [|f rest]; [done|]. unfold amxd_trans_apply.
  assert (Hne : forall j, is_Some (w_objs w !! j) -> i <> j) by (intros j Hj%O5; lia).
  destruct (e_accepts E _ _); cbn [fst]; [|by split].
  assert (Hpres : forall j w', present j w -> w_objs w' = <[i:=new_schedule_download a f (head rest)]> (w_objs w) -> present j w').
  { intros j w' (s & Hs & Hn) Hw'. exists s. rewrite Hw', lookup_insert_ne; [done|]. apply Hne. by rewrite Hs. }
  split; simpl; [done| | | |].
  - intros j [s Hs]. rewrite lookup_insert in Hs. case_decide; [subst|].
    + exists s. simpl. rewrite lookup_insert_eq. split; [done|]. by injection Hs as <-.
    + apply (Hpres j); [|done]. apply O2. by rewrite Hs.
  - intros j Hj. apply (Hpres j); [|done]. by apply O3.
  - apply Forall_app. split; [|by apply Forall_singleton].
    eapply Forall_impl; [exact O4|]. intros [j|j k|j k|j]; simpl; try done.
    1,2: unfold find_timewindow; simpl; intros Hs; rewrite lookup_insert_ne; [done|];
      apply Hne; by destruct (w_objs w !! j); [|destruct Hs].
    intros Hs. rewrite lookup_insert_ne; [done|]. by apply Hne.
  - intros j Hj. rewrite lookup_insert_is_Some in Hj. destruct Hj as [->|[_ Hj%O5]]; lia.
Qed.

(** Steps that delete no instance and do not stop the plugin. *)
Definition keeps_instances (o : op) : bool :=
  match o with
  | OpDelete _ | OpClean => false
  | _ => true
  end.

Lemma ok_timer_cb E i k f st w : ok w -> mild f -> is_Some (find_timewindow i k w) ->
  ok (timewindow_set_status E i k st (upd_sd i f w)).
Proof.
  intros Hok Hf [t Ht].
  assert (Hp : present i w). { apply (ok_present w Hok). unfold find_timewindow in Ht. by destruct (w_objs w !! i). }
  assert (G : good i w (timewindow_set_status E i k st (upd_sd i f w))).
  { eapply good_trans; [by apply good_upd|]. unfold timewindow_set_status.
    repeat (case_match; try apply good_refl). by apply good_apply. }
  by apply G.
Qed.

Lemma ok_step E o w : keeps_instances o = true -> ok w -> ok (step E o w).
Proof.
  intros Ho Hok. unfold step. rewrite (ok_fault w Hok). destruct o as [i a|i| |i k|i k|st log r|r|st|]; try done.
  - destruct (Nat.ltb _ i) eqn:Hi; [|done]. apply Nat.ltb_lt in Hi. by apply ok_add.
  - destruct (w_pending w) as [|e q] eqn:Eq; [done|].
    destruct (ok_set_pending w e q Hok Eq). by apply ok_deliver.
  - destruct (find_timewindow i k w) eqn:Et; [|done]. destruct (start_armed _); [|done].
    apply ok_timer_cb; [done|apply mild_tw|by rewrite Et].
  - destruct (find_timewindow i k w) eqn:Et; [|done]. destruct (end_armed _); [|done].
    apply ok_timer_cb; [done|apply mild_tw|by rewrite Et].
  - unfold firmwareimage_notification. destruct (transfer_in_progress w) as [i|] eqn:Ei; [|done].
    destruct st as [st|]; [|done]. destruct (upgrade_failed st).
    + assert (G : forall fc fs, good i w (transfers_firmwareupgrade_done E i fc fs w)) by (intros; by_good closed_firmwareupgrade_done).
      edestruct G as (Hp & Hok' & _); [by apply (ok_in_progress w Hok)|done|]. by eapply good_free.
    + destruct (streq st "Validating"); [|done]. apply ok_for_each; [|done]. intros; by_good closed_save.
  - apply ok_for_each; [|done]. intros; by_good closed_save.
  - apply ok_for_each; [|done]. intros; apply good_init_one.
Qed.

Lemma ok_empty : ok empty_world.
Proof.
  split; simpl; try done; intros i Hi; rewrite lookup_empty in Hi; by destruct Hi.
Qed.

Lemma present_restart i w : is_Some (w_objs w !! i) -> present i (restart w).
Proof. intros [s Hs]. unfold present. simpl. rewrite lookup_fmap, Hs. simpl. by eexists. Qed.

Lemma ok_restart w : (forall i, is_Some (w_objs w !! i) -> (i <= w_last_index w)%nat) -> ok (restart w).
Proof.
  intros H. split; simpl; try done.
  - intros i. rewrite lookup_fmap, fmap_is_Some. apply present_restart.
  - intros i. rewrite lookup_fmap, fmap_is_Some. apply H.
Qed.

End TransfersFacts.
