(* ===== verification/TransfersSpec.v ===== *)
(** * What the scheduled downloads guarantee

    The properties of [Transfers] for every environment: at most one firmware
    download in flight, bounded retries, no dangling pointer unless an instance
    is deleted, time windows that survive a restart, and the faults reported in
    [TransferComplete]. *)

From Stdlib Require Import ZArith Lia.
From stdpp Require Import base list gmap strings.
From S2P Require Import Prelude Transfers TransfersFacts.

Module TransfersSpec.
Import Transfers TransfersFacts.

(** ** Downloads in flight *)

(** Neither downloads nor takes or releases [transfer_in_progress]. *)
Definition still (w w' : world) : Prop :=
  w_downloads w' = w_downloads w /\ transfer_in_progress w' = transfer_in_progress w.

(** Does not download; may release [transfer_in_progress]. *)
Definition calm (w w' : world) : Prop :=
  w_downloads w' = w_downloads w /\
  (transfer_in_progress w' = transfer_in_progress w \/ transfer_in_progress w' = None).

(** One call of [Download()], made while nothing was in progress. *)
Definition launch (w w' : world) : Prop :=
  transfer_in_progress w = None /\
  exists d, w_downloads w' = w_downloads w ++ [d] /\
    transfer_in_progress w' = if dl_retval d =? 0 then Some (dl_transfer d) else None.

(** ** States the plugin can reach *)

Inductive reachable (E : env) : world -> Prop :=
| reach_empty : reachable E empty_world
| reach_step w o : reachable E w -> keeps_instances o = true -> reachable E (step E o w)
| reach_restart w : reachable E w -> reachable E (restart (transfers_clean w)).

(** ** Lives of the plugin *)

(** A step of the plugin, or its clean stop and a new start of the process, which
    finds what the data model keeps *)
Inductive action := Step (o : op) | Restart.

Definition act (E : env) (w : world) (a : action) : world :=
  match a with Step o => step E o w | Restart => restart (transfers_clean w) end.

Definition live (E : env) (l : list action) (w : world) : world := foldl (act E) w l.

(** The initialisations, which each arm the windows *)
Definition initialisations (l : list action) : Z :=
  Z.of_nat (length (List.filter (fun a => match a with Step (OpInit _) => true | _ => false end) l)).

(** ** Time windows across a restart *)

(** What a clean stop followed by the start of the plugin arms for a window. *)
Definition saved_ms (ms : Z) : Z := ms / 1000 * 1000.

(** The windows after [transfers_save] with remaining times [r]. *)
Definition saved_window (r : remaining) (i : nat) (k : Z) (t : timewindow) : timewindow :=
  match tw_priv t, transfers_timewindow_get_status (Some t) with
  | Some _, timewindow_status_idle =>
      set_tw_WindowEnd (rem_end r i k / 1000) (set_tw_WindowStart (rem_start r i k / 1000) t)
  | Some _, timewindow_status_started =>
      set_tw_WindowEnd (rem_end r i k / 1000) (set_tw_WindowStart 0 t)
  | _, _ => t
  end.

Definition on_one_or_two (f : Z -> timewindow -> timewindow) (l : gmap Z timewindow) : gmap Z timewindow :=
  match l !! 1 with
  | None => l
  | Some _ => alter (f 2) 2 (alter (f 1) 1 l)
  end.

(** A transfer has one window, or two. *)
Definition one_or_two (l : gmap Z timewindow) : Prop := dom l = {[1]} \/ dom l = {[1; 2]}.

(** The data [deferred_init_timer_cb] hangs on a window found without any. *)
Definition armed_info (t : timewindow) : timewindow_info_t := timewindow_start_info t (timewindow_new_info t).

(** ** Lemmas *)

Lemma one_or_two_first l : one_or_two l -> is_Some (l !! 1).
Proof. intros Hl. apply elem_of_dom. destruct Hl as [-> | ->]; set_solver. Qed.

Lemma one_or_two_dom l l' : dom l' = dom l -> one_or_two l -> one_or_two l'.
Proof. unfold one_or_two. by intros ->. Qed.

Lemma still_refl w : still w w.
Proof. done. Qed.

Lemma still_trans w1 w2 w3 : still w1 w2 -> still w2 w3 -> still w1 w3.
Proof. intros [? ?] [? ?]. split; congruence. Qed.

Lemma calm_refl w : calm w w.
Proof. split; [done|by left]. Qed.

Lemma calm_trans w1 w2 w3 : calm w1 w2 -> calm w2 w3 -> calm w1 w3.
Proof. unfold calm. intros [? []] [? []]; split; try congruence; (left; congruence) || (right; congruence). Qed.

Lemma still_calm w w' : still w w' -> calm w w'.
Proof. intros [? ?]. split; [done|by left]. Qed.

Lemma still_apply E t w : still w (fst (amxd_trans_apply E t w)).
Proof.
  unfold amxd_trans_apply. destruct (e_accepts E _ t); [|done]. split; simpl; by destruct t.
Qed.

Lemma still_launch w1 w2 w3 w4 : still w1 w2 -> launch w2 w3 -> still w3 w4 -> launch w1 w4.
Proof.
  intros [H1 H2] (H3 & d & H4 & H5) [H6 H7]. split; [congruence|]. exists d. split; congruence.
Qed.

Ltac by_still lem := apply lem with (P := still);
  first [ apply still_refl | apply still_trans | intros; apply still_apply | done ].

Ltac by_calm lem := apply lem with (P := calm);
  first [ apply calm_refl | apply calm_trans | intros; apply still_calm, still_apply
        | intros; by apply still_calm | intros; split; [done|by right] | done ].

Lemma set_status_present E i st w :
  is_Some (w_objs w !! i) -> is_Some (w_objs (transfers_set_status E i st w) !! i).
Proof.
  intros Hi. unfold transfers_set_status. destruct (w_objs w !! i) as [s|] eqn:Es; [|by destruct Hi].
  destruct (transfer_status_value st); [|by rewrite Es]. unfold amxd_trans_apply.
  destruct (e_accepts E _ _); simpl; [|by rewrite Es]. by rewrite lookup_alter_eq, Es.
Qed.

Lemma start_flight E i w :
  calm w (transfers_start_transfer E i w) \/ launch w (transfers_start_transfer E i w).
Proof.
  unfold transfers_start_transfer. destruct (w_objs w !! i) as [s|] eqn:Eo; [|left; by apply still_calm].
  destruct (streq _ _); [|left; by apply still_calm].
  set (w1 := transfers_set_status E i transfer_status_in_progress w).
  assert (S1 : still w w1) by by_still closed_set_status.
  assert (S2 : forall fs w2, still w2 (transfers_set_status E i transfer_status_failed
     (transfers_update_transfercomplete E i None None (Some FAULT_CODE_INTERNAL_ERROR) fs w2))).
  { intros fs w2. eapply still_trans; [by_still closed_update_tc|by_still closed_set_status]. }
  unfold transfers_firmware_do_firmwareupgrade.
  destruct (transfer_in_progress w1) as [p|] eqn:Ep; simpl.
  { left. apply still_calm. eapply still_trans; [exact S1|apply S2]. }
  destruct (w_objs w1 !! i) as [s1|] eqn:Eo1; simpl.
  - right. destruct (e_download E _ _ _ _ =? 0) eqn:Er; simpl;
      (eapply still_launch; [exact S1| |try apply S2; apply still_refl]);
      (split; [done|]); eexists; (split; [reflexivity|]); simpl; by rewrite Er.
  - exfalso. destruct (set_status_present E i transfer_status_in_progress w) as [x Hx]; [by rewrite Eo|].
    subst w1. congruence.
Qed.

Lemma handle_flight E i w :
  calm w (transfers_handle_transfer E i w) \/ launch w (transfers_handle_transfer E i w).
Proof.
  unfold transfers_handle_transfer. destruct (w_objs w !! i) as [s|]; [|left; by apply still_calm].
  repeat (case_match; try (left; by apply still_calm)).
  - apply start_flight.
  - left. eapply calm_trans; [by_calm closed_update_tc|by_calm closed_transfer_done].
Qed.

Lemma flight_upd i f w w' :
  calm (upd_sd i f w) w' \/ launch (upd_sd i f w) w' -> calm w w' \/ launch w w'.
Proof. done. Qed.

Lemma calm_for_each f w : (forall i w, calm w (f i w)) -> calm w (for_each_instance f w).
Proof.
  intros Hf. unfold for_each_instance. generalize (seq 1 (w_last_index w)). intros l. revert w.
  induction l as [|i l IH]; intros w; simpl; [apply calm_refl|].
  eapply calm_trans; [|apply IH]. destruct (w_objs w !! i); [apply Hf|apply calm_refl].
Qed.

Lemma deliver_flight E e w : calm w (deliver E e w) \/ launch w (deliver E e w).
Proof.
  destruct e as [i|i k|i k|i]; simpl.
  - left. unfold scheduleDownload_added. destruct (w_objs w !! i); [|apply calm_refl].
    eapply calm_trans; [by_calm closed_add_info|by_calm closed_tw_start].
  - unfold timewindow_started. repeat (case_match; try (left; by apply still_calm)). eapply flight_upd, handle_flight.
  - unfold timewindow_ended. repeat (case_match; try (left; by apply still_calm)). eapply flight_upd, handle_flight.
  - unfold schedule_download_transfer_failed. repeat (case_match; try (left; by apply still_calm)).
    + left. by_calm closed_transfer_done.
    + assert (S : forall k v, still w (transfers_timewindow_set_maxretries E i k v w)).
      { intros k v. unfold transfers_timewindow_set_maxretries. case_match; [apply still_apply|done]. }
      edestruct start_flight as [H'|H']; [left|right].
      * eapply calm_trans; [apply still_calm, S|exact H'].
      * eapply still_launch; [apply S|exact H'|done].
Qed.

Lemma calm_timer_cb E i k f st w : calm w (timewindow_set_status E i k st (upd_sd i f w)).
Proof.
  apply still_calm, still_trans with (upd_sd i f w); [done|]. unfold timewindow_set_status.
  repeat (case_match; try done). apply still_apply.
Qed.

Lemma step_flight E o w : calm w (step E o w) \/ launch w (step E o w).
Proof.
  unfold step. destruct (w_fault w); [left; apply calm_refl|].
  destruct o as [i a|i| |i k|i k|st log r|r|st|]; [left|left| |left..].
  - destruct (Nat.ltb _ i); [|apply calm_refl]. unfold addScheduleDownload.
    destruct (sda_TimeWindowList a); [apply calm_refl|].
    pose proof (still_apply E (AddScheduleDownload i (new_schedule_download a t (head l))) w) as H.
    destruct (amxd_trans_apply E _ w). by apply still_calm.
  - unfold scheduleDownload_del_inst. destruct (w_objs w !! i); [|apply calm_refl]. apply still_calm.
    unfold transfers_transfer_del_info, transfers_timewindow_del_info, on_windows, still.
    by repeat case_match.
  - destruct (w_pending w) as [|e q]; [left; apply calm_refl|].
    destruct (deliver_flight E e (set_pending q w)) as [[? ?]|(? & d & ? & ?)]; [by left|right].
    split; [done|]. by exists d.
  - repeat (case_match; try apply calm_refl). apply calm_timer_cb.
  - repeat (case_match; try apply calm_refl). apply calm_timer_cb.
  - unfold firmwareimage_notification.
    destruct (transfer_in_progress w) as [i|]; [|apply calm_refl]. destruct st as [st|]; [|apply calm_refl].
    destruct (upgrade_failed st).
    + eapply calm_trans; [by_calm closed_firmwareupgrade_done|split; [done|by right]].
    + destruct (streq st "Validating"); [|apply calm_refl]. apply calm_for_each. intros. by_calm closed_save.
  - apply calm_for_each. intros. by_calm closed_save.
  - apply calm_for_each. intros. eapply calm_trans; [by_calm closed_add_info|].
    eapply calm_trans; [by_calm closed_in_progress|by_calm closed_tw_start].
  - unfold transfers_clean. eapply calm_trans; [apply calm_for_each|split; [done|by right]].
    intros i w1. apply still_calm.
    unfold transfers_transfer_del_info, transfers_timewindow_del_info, on_windows, still.
    by repeat case_match.
Qed.

(** *** Restarts *)

(** Only transfer [i] changes. *)
Definition local (i : nat) (w w' : world) : Prop := forall j, j <> i -> w_objs w' !! j = w_objs w !! j.

Lemma local_trans i w1 w2 w3 : local i w1 w2 -> local i w2 w3 -> local i w1 w3.
Proof. intros H1 H2 j Hj. by rewrite H2, H1. Qed.

Lemma local_upd i f w : local i w (upd_sd i f w).
Proof. intros j Hj. simpl. by rewrite lookup_alter_ne. Qed.

Lemma local_apply E i t w : trans_on i t -> local i w (fst (amxd_trans_apply E t w)).
Proof.
  intros Ht. unfold amxd_trans_apply. destruct (e_accepts E _ t); [|done]. intros j Hj.
  destruct t; simpl in *; subst; try done; by rewrite lookup_alter_ne.
Qed.

Ltac by_local lem := (lazymatch goal with |- local ?i _ _ => apply lem with (P := local i) end);
  first [ done | apply local_trans | intros; by apply local_apply | intros; apply local_upd ].

(** What a loop over the instances does to instance [i]. *)
Lemma for_each_at f i w :
  (forall j w, local j w (f j w)) -> (1 <= i <= w_last_index w)%nat -> is_Some (w_objs w !! i) ->
  exists w1, w_objs w1 !! i = w_objs w !! i /\ w_objs (for_each_instance f w) !! i = w_objs (f i w1) !! i.
Proof.
  intros Hf Hi Hs. unfold for_each_instance.
  set (g := fun w i => match w_objs w !! i with Some _ => f i w | None => w end).
  assert (Hg : forall l w, i ∉ l -> w_objs (foldl g w l) !! i = w_objs w !! i).
  { induction l as [|j l IH]; intros w1 Hl; simpl; [done|].
    apply not_elem_of_cons in Hl as [Hj Hl]. rewrite IH by done. unfold g.
    destruct (w_objs w1 !! j); [by apply Hf|done]. }
  assert (Hin : i ∈ seq 1 (w_last_index w)) by (apply elem_of_seq; lia).
  apply list_elem_of_split in Hin as (l1 & l2 & Hl).
  assert (NoDup (l1 ++ i :: l2)) as Hnd by (rewrite <- Hl; apply NoDup_seq).
  apply NoDup_app in Hnd as (_ & Hd & [H2 _]%NoDup_cons).
  assert (i ∉ l1) by (intros Hi1; apply (Hd i Hi1); by left).
  rewrite Hl, foldl_app. exists (foldl g w l1). split; [by apply Hg|]. simpl. rewrite Hg by done.
  unfold g at 1. rewrite Hg by done. by destruct (w_objs w !! i); [|destruct Hs].
Qed.

Lemma find_windows i k w : find_timewindow i k w = windows i w !! k.
Proof. unfold find_timewindow, windows. by destruct (w_objs w !! i). Qed.

Lemma windows_ext i w w' : w_objs w' !! i = w_objs w !! i -> windows i w' = windows i w.
Proof. unfold windows. by intros ->. Qed.

(** The loop over windows 1 and 2, as a function of the windows. *)
Lemma on_windows_spec f g i w :
  (forall k w, windows i (f i k w) = alter (g k) k (windows i w)) ->
  windows i (on_windows f i w) = on_one_or_two g (windows i w).
Proof.
  intros Hf. unfold on_windows, on_one_or_two. rewrite find_windows.
  destruct (windows i w !! 1) eqn:E1; [|done]. rewrite find_windows.
  destruct (windows i (f i 1 w) !! 2) eqn:E2; rewrite ?Hf; [done|].
  rewrite Hf in E2. by rewrite alter_id' with (i := 2).
Qed.

Lemma windows_apply_tc E i t w :
  (match t with SetTransferStatus _ _ | SetTransferComplete _ _ _ _ _ => True | _ => False end) ->
  windows i (fst (amxd_trans_apply E t w)) = windows i w.
Proof.
  intros Ht. unfold amxd_trans_apply. destruct (e_accepts E _ t); [|done]. cbn [fst].
  set (w0 := {| w_trans := S (w_trans w) |}).
  change (windows i (set_pending ?q ?w)) with (windows i w). change (windows i w) with (windows i w0).
  destruct t; try done; simpl; by rewrite windows_upd_sd.
Qed.

Lemma windows_firmwareupgrade_done E i fc fs j w :
  windows j (transfers_firmwareupgrade_done E i fc fs w) = windows j w.
Proof.
  assert (Hs : forall st w, windows j (transfers_set_status E i st w) = windows j w).
  { intros st w1. unfold transfers_set_status. repeat (case_match; try done). by apply windows_apply_tc. }
  assert (Hu : forall a b c d w, windows j (transfers_update_transfercomplete E i a b c d w) = windows j w).
  { intros. unfold transfers_update_transfercomplete. case_match; [by apply windows_apply_tc|done]. }
  unfold transfers_firmwareupgrade_done, transfers_transfer_done, transfers_firmware_transfer_done.
  repeat (case_match; try done); rewrite ?Hs;
    try (change (windows j (set_in_progress ?p ?w)) with (windows j w)); try apply Hu.
Qed.

Lemma windows_in_progress E st i j w :
  windows j (transfers_handle_in_progress_transfer E st i w) = windows j w.
Proof.
  unfold transfers_handle_in_progress_transfer, handle_pending_upgrade.
  repeat (case_match; try done); apply windows_firmwareupgrade_done.
Qed.

Section Restart.
Context (E : env).
Hypothesis accepts_all : forall n t, e_accepts E n t = true.

Lemma windows_save r i k w :
  windows i (timewindow_internal_save E r i k w) = alter (saved_window r i k) k (windows i w).
Proof.
  assert (Hap : forall t f w, (forall w, windows i (trans_write t w) = alter f k (windows i w)) ->
    windows i (fst (amxd_trans_apply E t w)) = alter f k (windows i w)).
  { intros t f w1 Ht. unfold amxd_trans_apply. rewrite accepts_all. cbn [fst].
    change (windows i (set_pending ?q ?w)) with (windows i w). by rewrite Ht. }
  unfold timewindow_internal_save, timewindow_set_time_offset. rewrite find_windows.
  destruct (windows i w !! k) as [t|] eqn:Et; [|by rewrite alter_id'].
  assert (Hk : forall f w, windows i (upd_tw i k f w) = alter f k (windows i w)).
  { intros. rewrite windows_upd_tw. by rewrite decide_True. }
  assert (He : forall f g, f t = g t -> alter f k (windows i w) = alter g k (windows i w)).
  { intros f g Hfg. apply map_eq. intros k'. rewrite !lookup_alter. case_decide; [subst; rewrite Et; simpl; by rewrite Hfg|done]. }
  destruct (tw_priv t) eqn:Ep.
  - destruct (transfers_timewindow_get_status (Some t)) eqn:Es.
    1,4: rewrite alter_id; [done|]; intros t' Ht'; simplify_eq; unfold saved_window; by rewrite Ep, Es.
    all: rewrite (Hap _ (set_tw_WindowEnd (rem_end r i k / 1000))) by (intros; apply Hk);
      (erewrite Hap by (intros; apply Hk)); rewrite alter_alter_eq;
      apply He; unfold saved_window; by rewrite Ep, Es.
  - rewrite alter_id; [done|]. intros t' Ht'. simplify_eq. unfold saved_window. by rewrite Ep.
Qed.

Lemma windows_save_all r i w :
  (1 <= i <= w_last_index w)%nat -> is_Some (w_objs w !! i) ->
  windows i (transfers_save E r w) = on_one_or_two (saved_window r i) (windows i w).
Proof.
  intros Hi Hs. unfold transfers_save.
  destruct (for_each_at (transfers_timewindow_save E r) i w) as (w1 & H1 & H2);
    [intros; by_local closed_save|done..|].
  rewrite (windows_ext i _ _ H2), <- (windows_ext i _ _ H1).
  apply on_windows_spec. intros. apply windows_save.
Qed.

Lemma scan_one_or_two l n info :
  one_or_two l -> n = Z.of_nat (size l) -> n <> 0 /\ snd (scan_windows l (seqZ 1 n) info) = true.
Proof.
  intros Hl ->. rewrite <- size_dom.
  assert (H1 : is_Some (l !! 1)) by by apply one_or_two_first.
  destruct H1 as [t Ht]. destruct Hl as [Hl|Hl]; rewrite Hl.
  - split; [done|]. change (seqZ 1 _) with [1]. simpl. by rewrite Ht.
  - assert (H2 : is_Some (l !! 2)) by (apply elem_of_dom; rewrite Hl; set_solver). destruct H2 as [u Hu].
    split; [done|]. change (seqZ 1 _) with [1; 2]. simpl. by rewrite Ht, Hu.
Qed.

Lemma lookup_one_or_two f l k :
  is_Some (l !! 1) -> (k = 1 \/ k = 2) -> on_one_or_two f l !! k = f k <$> l !! k.
Proof.
  intros [t Ht] Hk. unfold on_one_or_two. rewrite Ht. destruct Hk as [-> | ->].
  - by rewrite lookup_alter_ne, lookup_alter_eq, Ht by done.
  - by rewrite lookup_alter_eq, lookup_alter_ne by done.
Qed.

Lemma windows_add_info i w s k :
  w_objs w !! i = Some s -> sd_priv s = Null -> one_or_two (sd_TimeWindowList s) ->
  (forall k t, sd_TimeWindowList s !! k = Some t -> tw_priv t = None) -> (k = 1 \/ k = 2) ->
  windows i (transfers_transfer_add_info i w) !! k =
    (fun t => set_tw_priv (Some (timewindow_new_info t)) t) <$> sd_TimeWindowList s !! k.
Proof.
  intros Hs Hp Hl Hn Hk. unfold transfers_transfer_add_info. rewrite Hs, Hp.
  set (info0 := {| ti_lastTimeWindow := 0 |}).
  destruct (scan_one_or_two _ _ info0 Hl eq_refl) as [Hz Hc].
  destruct (scan_windows _ _ _) as [info complete]. simpl in Hc. subst complete.
  apply Z.eqb_neq in Hz. rewrite Hz. cbn [orb negb]. unfold transfers_timewindow_add_info.
  set (w1 := upd_sd i (set_sd_priv (Valid info)) w).
  assert (Hw1 : windows i w1 = sd_TimeWindowList s).
  { unfold w1. rewrite windows_upd_sd by done. unfold windows. by rewrite Hs. }
  rewrite (on_windows_spec _ (fun _ t => match tw_priv t with
    | Some _ => t | None => set_tw_priv (Some (timewindow_new_info t)) t end)).
  2: { intros k' w2. unfold timewindow_internal_add_info. by rewrite windows_upd_tw, decide_True. }
  rewrite Hw1, lookup_one_or_two by (done || by apply one_or_two_first).
  destruct (sd_TimeWindowList s !! k) as [t|] eqn:Et; [|done]. simpl. by rewrite (Hn k t Et).
Qed.

Lemma windows_tw_start i w k t info :
  is_Some (windows i w !! 1) -> (k = 1 \/ k = 2) -> windows i w !! k = Some t -> tw_priv t = Some info ->
  windows i (transfers_timewindow_start i w) !! k = Some (set_tw_priv (Some (timewindow_start_info t info)) t).
Proof.
  intros H1 Hk Ht Hp. unfold transfers_timewindow_start.
  rewrite (on_windows_spec _ (fun _ t => match tw_priv t with
    | Some info => set_tw_priv (Some (timewindow_start_info t info)) t | None => t end)).
  2: { intros k' w2. unfold timewindow_internal_start. by rewrite windows_upd_tw, decide_True. }
  rewrite lookup_one_or_two by done. rewrite Ht. simpl. by rewrite Hp.
Qed.

(** The start of the plugin arms every window it finds. *)
Lemma windows_init st i w s k t :
  (1 <= i <= w_last_index w)%nat -> w_objs w !! i = Some s -> sd_priv s = Null ->
  one_or_two (sd_TimeWindowList s) -> (forall k t, sd_TimeWindowList s !! k = Some t -> tw_priv t = None) ->
  (k = 1 \/ k = 2) -> sd_TimeWindowList s !! k = Some t ->
  windows i (deferred_init_timer_cb E st w) !! k = Some (set_tw_priv (Some (armed_info t)) t).
Proof.
  intros Hi Hs Hp Hl Hn Hk Ht. unfold deferred_init_timer_cb. set (f := fun i w => transfers_timewindow_start i _).
  destruct (for_each_at f i w) as (w1 & H1 & H2); [|done|by rewrite Hs|].
  { intros j w1. unfold f. apply local_trans with (transfers_transfer_add_info j w1); [by_local closed_add_info|].
    eapply local_trans; [by_local closed_in_progress|by_local closed_tw_start]. }
  rewrite (windows_ext i _ _ H2). unfold f. rewrite Hs in H1.
  pose proof (windows_add_info i w1 s) as Ha. pose proof (one_or_two_first _ Hl) as [t1 Ht1].
  rewrite (windows_tw_start i _ k (set_tw_priv (Some (timewindow_new_info t)) t) (timewindow_new_info t));
    [reflexivity| |done| |].
  - rewrite windows_in_progress, Ha by (done || by left). rewrite Ht1. by eexists.
  - rewrite windows_in_progress, Ha by done. by rewrite Ht.
  - done.
Qed.

End Restart.

(** *** Resumption of a window after a stop and a start *)

Lemma windows_restart i w :
  windows i (restart w) = set_tw_priv None <$> windows i w.
Proof.
  unfold windows. simpl. rewrite lookup_fmap. destruct (w_objs w !! i); simpl; [done|]. by rewrite fmap_empty.
Qed.

Lemma set_priv_none_alter (f : timewindow -> timewindow) (k : Z) (l : gmap Z timewindow) :
  (forall t, set_tw_priv None (f t) = set_tw_priv None t) ->
  set_tw_priv None <$> alter f k l = set_tw_priv None <$> l.
Proof.
  intros Hf. apply map_eq. intros k'. rewrite !lookup_fmap, lookup_alter. case_decide; [subst|done].
  destruct (l !! k'); simpl; [by rewrite Hf|done].
Qed.

Lemma windows_clean_one i j w :
  set_tw_priv None <$> windows i (transfers_transfer_del_info j w) = set_tw_priv None <$> windows i w.
Proof.
  assert (Hd : forall k w, set_tw_priv None <$> windows i (timewindow_internal_del_info j k w) = set_tw_priv None <$> windows i w).
  { intros k w1. unfold timewindow_internal_del_info. rewrite windows_upd_tw.
    case_decide; [by apply set_priv_none_alter|done]. }
  unfold transfers_transfer_del_info, transfers_timewindow_del_info, on_windows.
  repeat (case_match; try done); rewrite ?Hd, ?windows_upd_sd; done.
Qed.

Lemma clean_objs w i : is_Some (w_objs (transfers_clean w) !! i) <-> is_Some (w_objs w !! i).
Proof.
  unfold transfers_clean, for_each_instance. simpl. generalize (seq 1 (w_last_index w)). intros l. revert w.
  induction l as [|j l IH]; intros w; simpl; [done|]. rewrite IH. destruct (w_objs w !! j); [|done].
  unfold transfers_transfer_del_info, transfers_timewindow_del_info, on_windows, timewindow_internal_del_info.
  repeat (case_match; try done); simpl; by rewrite !lookup_alter_is_Some.
Qed.

Lemma windows_clean i w : set_tw_priv None <$> windows i (transfers_clean w) = set_tw_priv None <$> windows i w.
Proof.
  unfold transfers_clean, for_each_instance. change (windows i (set_in_progress None ?w)) with (windows i w).
  generalize (seq 1 (w_last_index w)). intros l. revert w.
  induction l as [|j l IH]; intros w; simpl; [done|]. rewrite IH.
  destruct (w_objs w !! j); [apply windows_clean_one|done].
Qed.

Lemma u32_saved ms : 0 <= ms < 2 ^ 32 -> timewindow_get_time_offset (ms / 1000) = saved_ms ms.
Proof.
  intros H. unfold timewindow_get_time_offset, saved_ms. apply u32_id.
  pose proof (Z.mul_div_le ms 1000). pose proof (Z.div_pos ms 1000). lia.
Qed.

Lemma dom_on_one_or_two f l : dom (on_one_or_two f l) = dom l.
Proof. unfold on_one_or_two. destruct (l !! 1); [|done]. by rewrite !dom_alter_L. Qed.

(** Armed timers of a window resumed from its saved offsets. *)
Definition resumed (r : remaining) (i : nat) (k : Z) (t : timewindow) : timewindow_info_t :=
  match transfers_timewindow_get_status (Some t) with
  | timewindow_status_idle =>
      {| twi_start := Some {| t_armed := Some (saved_ms (rem_start r i k)) |};
         twi_end := Some {| t_armed := Some (saved_ms (rem_end r i k)) |} |}
  | timewindow_status_started =>
      {| twi_start := None; twi_end := Some {| t_armed := Some (saved_ms (rem_end r i k)) |} |}
  | _ => {| twi_start := None; twi_end := None |}
  end.

Lemma armed_saved r i k t :
  tw_priv t <> None -> 0 <= rem_start r i k < 2 ^ 32 -> 0 <= rem_end r i k < 2 ^ 32 ->
  armed_info (set_tw_priv None (saved_window r i k t)) = resumed r i k t.
Proof.
  intros Hp Hs He. unfold saved_window, resumed. destruct (tw_priv t) as [info|]; [|done].
  destruct (transfers_timewindow_get_status (Some t)) eqn:Est.
  all: unfold armed_info, timewindow_start_info, timewindow_new_info.
  all: unfold transfers_timewindow_get_status in *; simpl in *; rewrite ?Est.
  all: simpl; rewrite ?u32_saved by done; done.
Qed.

Lemma status_saved r i k t : tw_Status (saved_window r i k t) = tw_Status t.
Proof. unfold saved_window. by repeat case_match. Qed.

Lemma windows_of w i s : w_objs w !! i = Some s -> windows i w = sd_TimeWindowList s.
Proof. unfold windows. by intros ->. Qed.

Lemma save_keeps_objs E r w i : is_Some (w_objs w !! i) -> is_Some (w_objs (transfers_save E r w) !! i).
Proof.
  unfold transfers_save, for_each_instance. generalize (seq 1 (w_last_index w)). intros l. revert w.
  induction l as [|j l IH]; intros w Hi; simpl; [done|]. apply IH. destruct (w_objs w !! j); [|done].
  unfold transfers_timewindow_save. 
  assert (Hap : forall t w, trans_on j t -> is_Some (w_objs w !! i) -> is_Some (w_objs (fst (amxd_trans_apply E t w)) !! i)).
  { intros t w1 Ht H1. unfold amxd_trans_apply. destruct (e_accepts E _ t); [|done]. cbn [fst].
    destruct (trans_write_upd j t {| w_objs := w_objs w1; w_last_index := w_last_index w1;
      transfer_in_progress := transfer_in_progress w1; w_pending := w_pending w1; w_trans := S (w_trans w1);
      w_downloads := w_downloads w1; w_fault := w_fault w1 |} Ht) as (f & _ & ->).
    simpl. by apply lookup_alter_is_Some. }
  unfold on_windows, timewindow_internal_save, timewindow_set_time_offset.
  repeat (case_match; try done); repeat (apply Hap; [done|]); done.
Qed.

(** What [TransferComplete] holds after a report. *)
Definition reported (status : string) (fc : Z) (fs : string) (s : schedule_download) : schedule_download :=
  set_sd_TransferComplete (set_tc_Status status
    (set_tc_times_fault None None (Some fc) (Some fs) (sd_TransferComplete s))) s.

Lemma objs_apply_upd E i t f w :
  (forall n t, e_accepts E n t = true) -> (forall w, trans_write t w = upd_sd i f w) ->
  w_objs (fst (amxd_trans_apply E t w)) !! i = f <$> w_objs w !! i.
Proof.
  intros Ha Ht. unfold amxd_trans_apply. rewrite Ha. cbn [fst]. simpl. rewrite Ht. simpl.
  by rewrite lookup_alter_eq.
Qed.

Lemma objs_update_tc E i fc fs w s :
  (forall n t, e_accepts E n t = true) -> w_objs w !! i = Some s ->
  w_objs (transfers_update_transfercomplete E i None None (Some fc) (Some fs) w) !! i =
    Some (set_sd_TransferComplete (set_tc_times_fault None None (Some fc) (Some fs) (sd_TransferComplete s)) s).
Proof.
  intros Ha Hs. unfold transfers_update_transfercomplete. rewrite Hs.
  erewrite objs_apply_upd; [|done|reflexivity]. by rewrite Hs.
Qed.

Lemma objs_set_status E i st v w s :
  (forall n t, e_accepts E n t = true) -> w_objs w !! i = Some s -> transfer_status_value st = Some v ->
  w_objs (transfers_set_status E i st w) !! i =
    Some (set_sd_TransferComplete (set_tc_Status v (sd_TransferComplete s)) s).
Proof.
  intros Ha Hs Hv. unfold transfers_set_status. rewrite Hs, Hv.
  erewrite objs_apply_upd; [|done|reflexivity]. by rewrite Hs.
Qed.

Lemma objs_transfer_done E i w s :
  (forall n t, e_accepts E n t = true) -> w_objs w !! i = Some s ->
  sd_FileType s = FILETYPE_1_FIRMWARE_UPGRADE_IMAGE ->
  w_objs (transfers_transfer_done E i w) !! i =
    Some (set_sd_TransferComplete (set_tc_Status "Done" (sd_TransferComplete s)) s) /\
  (transfer_in_progress w = Some i -> transfer_in_progress (transfers_transfer_done E i w) = None).
Proof.
  intros Ha Hs Ht. unfold transfers_transfer_done. rewrite Hs, Ht. simpl.
  set (w1 := transfers_firmware_transfer_done i w).
  assert (H1 : w_objs w1 !! i = Some s) by (unfold w1, transfers_firmware_transfer_done; by repeat case_match).
  split; [by apply objs_set_status|]. intros Hp.
  assert (still w1 (transfers_set_status E i transfer_status_done w1)) as [_ ->] by by_still closed_set_status.
  unfold w1, transfers_firmware_transfer_done. by rewrite Hp, Nat.eqb_refl.
Qed.

(** The transfer is inside (or just after) a window the plugin handles by
    itself. *)
Definition in_automatic_window (w : world) (i : nat) (info : transfer_info_t) : Prop :=
  ti_lastTimeWindow info <> 0 /\
  automatic_mode (transfers_timewindow_get_mode (find_timewindow i (ti_lastTimeWindow info) w)) = true.

Lemma firmwareupgrade_done_reports E i fc fs w s info :
  (forall n t, e_accepts E n t = true) -> w_objs w !! i = Some s -> sd_priv s = Valid info ->
  in_automatic_window w i info -> ti_withinTimeWindow info = true ->
  sd_FileType s = FILETYPE_1_FIRMWARE_UPGRADE_IMAGE ->
  w_objs (transfers_firmwareupgrade_done E i fc fs w) !! i =
    Some (reported (if fc =? 0 then "Done" else "Failed") fc fs s).
Proof.
  intros Ha Hs Hp [Hl Hm] Hw Ht. unfold transfers_firmwareupgrade_done.
  apply Z.eqb_neq in Hl. rewrite Hs, Hp, Hl, Hm, Hw.
  pose proof (objs_update_tc E i fc fs w s Ha Hs) as Hu. destruct (fc =? 0).
  - destruct (objs_transfer_done E i _ _ Ha Hu Ht) as [-> _]. done.
  - by erewrite objs_set_status; [|done|exact Hu|reflexivity].
Qed.

(** ** Properties *)

(** C1: the plugin never has two firmware downloads in flight.  For every
    environment and every step from any state: [Download()] is called at most
    once, only when [transfer_in_progress] is null, and afterwards
    [transfer_in_progress] is the transfer it was called for if the call
    succeeded and null otherwise.  While a transfer is in progress, no step
    calls [Download()] or makes another transfer the one in progress. *)
Theorem one_download_in_flight (E : env) (o : op) (w : world) :
  let w' := step E o w in
  (w_downloads w' = w_downloads w /\
     (transfer_in_progress w' = transfer_in_progress w \/ transfer_in_progress w' = None)) \/
  (transfer_in_progress w = None /\
     exists d, w_downloads w' = w_downloads w ++ [d] /\
       transfer_in_progress w' = if dl_retval d =? 0 then Some (dl_transfer d) else None).
Proof. apply step_flight. Qed.

Lemma total_restart j w : total j (restart w) <= total j w.
Proof.
  unfold total, attempts, potential. rewrite windows_restart. simpl.
  pose proof (sum_windows_fmap_le window_potential (set_tw_priv None) (windows j w)) as H.
  pose proof (sum_events_nonneg j (w_pending w)). etrans; [apply Z.add_le_mono_l, Z.add_le_mono_r, H|lia].
  intros t. unfold window_potential, start_armed. simpl. case_match; lia.
Qed.

Lemma total_live E l j w :
  (forall n i k v, e_accepts E n (SetMaxRetries i k v) = true) -> (j <= w_last_index w)%nat ->
  total j (live E l w) <= total j w + 2 * initialisations l.
Proof.
  intros Ha. unfold initialisations. revert w. induction l as [|a l IH]; intros w Hj; simpl; [lia|].
  assert (H : (j <= w_last_index (act E w a))%nat /\ total j (act E w a) <= total j w +
      2 * (match a with Step (OpInit _) => 1 | _ => 0 end)).
  { destruct a as [o|]; simpl.
    - pose proof (last_step E o w). split; [lia|]. pose proof (total_step E Ha o j w Hj).
      destruct o; simpl in *; lia.
    - split.
      + change ((j <= w_last_index (transfers_clean w))%nat).
        assert (w_last_index (transfers_clean w) = w_last_index w) as ->; [|done].
        unfold transfers_clean. simpl. apply last_for_each. intros. apply last_del_info.
      + pose proof (total_restart j (transfers_clean w)). pose proof (total_clean j w). lia. }
  destruct H as [Hl Ht]. specialize (IH _ Hl). destruct a as [[]|]; simpl in *; lia.
Qed.

(** C2: retries are bounded, and survive restarts.  If the data model accepts
    every decrement of [MaxRetries], then in every life of the plugin (any
    interleaving of timers, queued events, notifications, additions, deletions,
    and clean stops each followed by a start of the process on what the data
    model keeps) the number of [Download()] calls made for transfer [j] is at
    most the sum of the positive [MaxRetries] of its windows, plus one per window
    whose start timer runs, plus the window openings already queued (two for an
    instance whose addition is), plus two for every initialisation of the
    plugin, which arms the at most two windows again. *)
Theorem downloads_bounded (E : env) (l : list action) (w : world) (j : nat) :
  (forall n i k v, e_accepts E n (SetMaxRetries i k v) = true) -> (j <= w_last_index w)%nat ->
  attempts j (live E l w) <= attempts j w + potential j w + 2 * initialisations l.
Proof.
  intros Ha Hj. pose proof (total_live E l j w Ha Hj) as Ht.
  assert (0 <= potential j (live E l w)); [|unfold total in Ht; lia].
  unfold potential. pose proof (sum_events_nonneg j (w_pending (live E l w))).
  pose proof (sum_windows_nonneg window_potential (windows j (live E l w)) window_potential_nonneg). lia.
Qed.

(** An environment that accepts every transaction, notifies every change and
    whose bus refuses every download. *)
Definition refusing_env : env :=
  {| e_accepts := fun _ _ => true; e_notifies := fun a b => negb (streq a b); e_download := fun _ _ _ _ => 1 |}.

Definition sample_args (retries : Z) : schedule_download_args :=
  {| sda_Initiator := "ACS"; sda_CommandKey := "key"; sda_FileType := FILETYPE_1_FIRMWARE_UPGRADE_IMAGE;
     sda_URL := "http://u/"; sda_Username := ""; sda_Password := ""; sda_FileSize := 0; sda_TargetFileName := "";
     sda_TimeWindowList := [ {| twa_WindowStart := 10; twa_WindowEnd := 100; twa_WindowMode := "2 Immediately";
                                twa_UserMessage := ""; twa_MaxRetries := retries |} ] |}.

(** One window with two retries: the run below makes three calls. *)
Definition sample_run : list op :=
  [OpAdd 1 (sample_args 2); OpEvent; OpStartTimer 1 1; OpEvent; OpEvent; OpEvent; OpEvent].

(** Two calls before a restart, and none after it: the window has begun. *)
Definition sample_life : list action :=
  map Step (firstn 4 (tail sample_run)) ++ [Restart; Step (OpInit None)] ++ map Step [OpStartTimer 1 1; OpEvent; OpEvent].

Lemma downloads_bounded_witness :
  let w := step refusing_env (OpAdd 1 (sample_args 2)) empty_world in
  attempts 1 (live refusing_env sample_life w) = 2 /\
  attempts 1 (live refusing_env sample_life w) <= attempts 1 w + potential 1 w + 2 * initialisations sample_life.
Proof.
  split; [vm_compute; reflexivity|].
  apply (downloads_bounded refusing_env sample_life); [reflexivity|vm_compute; lia].
Defined.

(** C3: as long as no instance is deleted, the plugin never dereferences a
    null, dangling or freed object: no reachable state (through any steps,
    stops and restarts) is faulty, for every environment. *)
Theorem no_dangling_pointer (E : env) (w : world) : reachable E w -> w_fault w = false.
Proof.
  intros Hr. apply ok_fault. induction Hr as [|w o Hr IH Ho|w Hr IH].
  - apply ok_empty.
  - by apply ok_step.
  - apply ok_restart. intros i Hi. rewrite clean_objs in Hi. apply (ok_last w IH) in Hi.
    assert (w_last_index (transfers_clean w) = w_last_index w) as ->; [|done].
    unfold transfers_clean. simpl. apply last_for_each. intros. apply last_del_info.
Qed.

Lemma no_dangling_pointer_witness : w_fault (run refusing_env sample_run empty_world) = false.
Proof.
  apply (no_dangling_pointer refusing_env). unfold run, sample_run. simpl foldl.
  repeat (apply reach_step; [|reflexivity]). apply reach_empty.
Defined.

(** Deleting an instance does not reset [transfer_in_progress]: when the
    transfer whose download is in flight is deleted, the next failure
    notification of the firmware component dereferences the deleted object. *)
Theorem delete_leaves_dangling_pointer (E : env) (w : world) (i : nat) (log : option string) (r : remaining) :
  w_fault w = false -> transfer_in_progress w = Some i -> present i w ->
  w_fault (step E (OpFirmware (Some "DownloadFailed"%string) log r) (step E (OpDelete i) w)) = true.
Proof.
  intros Hf Hi (s & Hs & Hn). unfold step at 2. rewrite Hf. unfold scheduleDownload_del_inst. rewrite Hs.
  set (w1 := transfers_transfer_del_info i w).
  assert (H1 : w_fault w1 = false /\ transfer_in_progress w1 = Some i).
  { unfold w1, transfers_transfer_del_info, transfers_timewindow_del_info, on_windows.
    rewrite Hs. destruct (sd_priv s); try done; by repeat case_match. }
  destruct H1 as [Hf1 Hi1]. unfold step. simpl. rewrite Hf1. unfold firmwareimage_notification. simpl.
  rewrite Hi1. simpl. unfold transfers_firmwareupgrade_done. simpl. by rewrite lookup_delete_eq.
Qed.

(** An environment whose bus accepts the downloads. *)
Definition accepting_env : env :=
  {| e_accepts := fun _ _ => true; e_notifies := fun a b => negb (streq a b); e_download := fun _ _ _ _ => 0 |}.

Definition no_time : remaining := {| rem_start := fun _ _ => 0; rem_end := fun _ _ => 0 |}.

Lemma delete_leaves_dangling_pointer_witness :
  w_fault (step accepting_env (OpFirmware (Some "DownloadFailed"%string) None no_time)
    (step accepting_env (OpDelete 1) (run accepting_env (take 4 sample_run) empty_world))) = true.
Proof.
  apply (delete_leaves_dangling_pointer accepting_env _ 1); [vm_compute; reflexivity..|].
  eexists. split; [vm_compute; reflexivity|discriminate].
Defined.

(** The time windows survive a restart.  If all transactions are applied,
    then after a stop (app:stop, then the clean up) and a start of the plugin,
    every window of a transfer with one or two windows has the status it had;
    the timers that ran are armed again with their remaining time rounded down
    to a second, and no other timer is armed. *)
Theorem windows_survive_restart (E : env) (r : remaining) (st : option string) (w : world)
    (i : nat) (k : Z) (s : schedule_download) (t : timewindow) :
  (forall n t, e_accepts E n t = true) -> w_fault w = false -> (1 <= i <= w_last_index w)%nat ->
  w_objs w !! i = Some s -> one_or_two (sd_TimeWindowList s) -> (k = 1 \/ k = 2) ->
  sd_TimeWindowList s !! k = Some t -> tw_priv t <> None ->
  0 <= rem_start r i k < 2 ^ 32 -> 0 <= rem_end r i k < 2 ^ 32 ->
  let w' := step E (OpInit st) (restart (transfers_clean (step E (OpAppStop r) w))) in
  exists t', windows i w' !! k = Some t' /\ tw_Status t' = tw_Status t /\ tw_priv t' = Some (resumed r i k t) /\
    rem_end r i k - 1000 < saved_ms (rem_end r i k) <= rem_end r i k.
Proof.
  intros Ha Hf Hi Hs Hl Hk Ht Hp Hrs Hre w'.
  assert (Hw1 : step E (OpAppStop r) w = transfers_save E r w) by (unfold step; by rewrite Hf).
  set (w1 := transfers_save E r w) in *.
  assert (Hs1 : is_Some (w_objs w1 !! i)) by (apply save_keeps_objs; by rewrite Hs).
  assert (Hd : windows i w1 = on_one_or_two (saved_window r i) (sd_TimeWindowList s)).
  { unfold w1. rewrite windows_save_all by (done || by rewrite Hs). by rewrite (windows_of w i s). }
  set (w2 := restart (transfers_clean w1)).
  assert (Hw2 : windows i w2 = set_tw_priv None <$> windows i w1).
  { unfold w2. by rewrite windows_restart, windows_clean. }
  assert (Hs2 : present i w2) by (apply present_restart; by apply clean_objs).
  destruct Hs2 as (s2 & Hs2 & _).
  assert (Hn2 : sd_priv s2 = Null).
  { unfold w2 in Hs2. simpl in Hs2. rewrite lookup_fmap in Hs2.
    by apply fmap_Some in Hs2 as (x & _ & ->). }
  assert (Hs2w : sd_TimeWindowList s2 = set_tw_priv None <$> on_one_or_two (saved_window r i) (sd_TimeWindowList s)).
  { by rewrite <- (windows_of w2 i s2 Hs2), Hw2, Hd. }
  exists (set_tw_priv (Some (resumed r i k t)) (set_tw_priv None (saved_window r i k t))).
  assert (Hl2 : w_last_index w2 = w_last_index w).
  { unfold w2. simpl. unfold transfers_clean. simpl. rewrite last_for_each by (intros; apply last_del_info).
    apply last_save_all. }
  split; [|split; [apply status_saved|split; [done|unfold saved_ms; pose proof (Z.mod_pos_bound (rem_end r i k) 1000); pose proof (Z.div_mod (rem_end r i k) 1000); lia]]].
  subst w'. rewrite Hw1. fold w2. change (step E (OpInit st) w2) with (deferred_init_timer_cb E st w2).
  rewrite <- armed_saved by done.
  apply (windows_init E st i w2 s2 k (set_tw_priv None (saved_window r i k t))); try done.
  - by rewrite Hl2.
  - rewrite Hs2w. eapply one_or_two_dom; [|exact Hl]. by rewrite dom_fmap_L, dom_on_one_or_two.
  - intros k' t'. rewrite Hs2w, lookup_fmap. destruct (_ !! k'); simpl; [|done]. by intros [= <-].
  - rewrite Hs2w, lookup_fmap, lookup_one_or_two by (done || by apply one_or_two_first). by rewrite Ht.
Qed.

(** The transfer of [sample_run] while its window is open. *)
Definition open_world : world := run accepting_env (take 4 sample_run) empty_world.

Definition open_window : timewindow :=
  {| tw_Status := "Started"; tw_WindowStart := 10; tw_WindowEnd := 100; tw_WindowMode := "2 Immediately";
     tw_UserMessage := ""; tw_MaxRetries := 2;
     tw_priv := Some {| twi_start := Some {| t_armed := None |}; twi_end := Some {| t_armed := Some 100000 |} |} |}.

Definition open_info : transfer_info_t :=
  {| ti_numberOfTimeWindow := 1; ti_lastTimeWindow := 1; ti_withinTimeWindow := true |}.

Definition open_transfer : schedule_download :=
  {| sd_CommandKey := "key"; sd_FileType := FILETYPE_1_FIRMWARE_UPGRADE_IMAGE; sd_URL := "http://u/";
     sd_Username := ""; sd_Password := ""; sd_FileSize := 0; sd_TargetFileName := "";
     sd_TimeWindowList := {[1 := open_window]};
     sd_TransferComplete :=
       {| tc_Status := "In Progress"; tc_TransferType := "ScheduleDownload"; tc_CommandKey := "key";
          tc_Initiator := "ACS"; tc_StartTime := 0; tc_CompleteTime := 0; tc_FaultCode := 0; tc_FaultString := "" |};
     sd_priv := Valid open_info |}.

Definition two_and_a_half_seconds : remaining :=
  {| rem_start := fun _ _ => 0; rem_end := fun _ _ => 2500 |}.

Lemma windows_survive_restart_witness :
  exists t', windows 1 (step accepting_env (OpInit None)
      (restart (transfers_clean (step accepting_env (OpAppStop two_and_a_half_seconds) open_world)))) !! 1 = Some t' /\
    tw_Status t' = "Started"%string /\
    tw_priv t' = Some {| twi_start := None; twi_end := Some {| t_armed := Some 2000 |} |}.
Proof.
  destruct (windows_survive_restart accepting_env two_and_a_half_seconds None open_world 1 1 open_transfer open_window)
    as (t' & H1 & H2 & H3 & _).
  - reflexivity.
  - vm_compute. reflexivity.
  - vm_compute. lia.
  - vm_compute. reflexivity.
  - left. reflexivity.
  - by left.
  - reflexivity.
  - discriminate.
  - simpl. lia.
  - simpl. lia.
  - exists t'. split; [exact H1|]. split; [exact H2|exact H3].
Defined.

(** A failure of the firmware component while a transfer is inside its
    window is reported: the transfer becomes Failed with fault 9013 when the
    boot log says the protocol is not supported and 9010 otherwise, the boot
    log is the fault string, and [transfer_in_progress] is released. *)
Theorem firmware_failure_reported (E : env) (w : world) (i : nat) (s : schedule_download)
    (info : transfer_info_t) (st : string) (log : option string) (r : remaining) :
  (forall n t, e_accepts E n t = true) -> w_fault w = false -> transfer_in_progress w = Some i ->
  w_objs w !! i = Some s -> sd_priv s = Valid info -> in_automatic_window w i info ->
  ti_withinTimeWindow info = true -> sd_FileType s = FILETYPE_1_FIRMWARE_UPGRADE_IMAGE ->
  In st ["DownloadFailed"; "ValidationFailed"; "InstallationFailed"; "ActivationFailed"]%string ->
  let w' := step E (OpFirmware (Some st) log r) w in
  let fs := default ""%string log in
  w_objs w' !! i = Some (reported "Failed" (if streq fs "Protocol not supported" then 9013 else 9010) fs s) /\
  transfer_in_progress w' = None.
Proof.
  intros Ha Hf Hi Hs Hp Hin Hw Ht Hst w' fs. subst w'. unfold step. rewrite Hf.
  unfold firmwareimage_notification. rewrite Hi.
  assert (upgrade_failed st = true) as ->.
  { repeat destruct Hst as [<-|Hst]; try reflexivity. destruct Hst. }
  fold fs. split; [|done]. simpl. erewrite firmwareupgrade_done_reports; try done. by destruct (streq _ _).
Qed.

Lemma firmware_failure_reported_witness :
  w_objs (step accepting_env (OpFirmware (Some "DownloadFailed"%string) (Some "Protocol not supported"%string) no_time)
    open_world) !! 1%nat = Some (reported "Failed" 9013 "Protocol not supported" open_transfer).
Proof.
  apply (firmware_failure_reported accepting_env open_world 1 open_transfer open_info "DownloadFailed"
    (Some "Protocol not supported"%string) no_time).
  - reflexivity.
  - vm_compute. reflexivity.
  - vm_compute. reflexivity.
  - vm_compute. reflexivity.
  - reflexivity.
  - split; [discriminate|vm_compute; reflexivity].
  - reflexivity.
  - reflexivity.
  - by left.
Defined.

(** An upgrade that was in progress when the device rebooted is resolved
    at start.  The transfer becomes Done with fault code 0 if and only if the
    active firmware image is reported Active; otherwise it becomes Failed with
    fault 9002 and the reason. *)
Theorem pending_upgrade_resolved (E : env) (w : world) (i : nat) (s : schedule_download)
    (info : transfer_info_t) (st : option string) :
  (forall n t, e_accepts E n t = true) -> w_objs w !! i = Some s -> sd_priv s = Valid info ->
  in_automatic_window w i info -> ti_withinTimeWindow info = true ->
  sd_FileType s = FILETYPE_1_FIRMWARE_UPGRADE_IMAGE -> tc_Status (sd_TransferComplete s) = "In Progress"%string ->
  w_objs (transfers_handle_in_progress_transfer E st i w) !! i = Some
    match st with
    | None => reported "Failed" 9002 "Internal failure" s
    | Some image =>
        if streq image "Active" then reported "Done" 0 "" s
        else reported "Failed" 9002 "Failed to apply firmware" s
    end.
Proof.
  intros Ha Hs Hp Hin Hw Ht Hst. unfold transfers_handle_in_progress_transfer. rewrite Hs, Hst, Ht.
  unfold handle_pending_upgrade. simpl. destruct st as [image|].
  - destruct (streq image "Active"); simpl; by erewrite firmwareupgrade_done_reports.
  - by erewrite firmwareupgrade_done_reports.
Qed.

Lemma pending_upgrade_resolved_witness :
  w_objs (transfers_handle_in_progress_transfer accepting_env (Some "Active"%string) 1 open_world) !! 1%nat
    = Some (reported "Done" 0 "" open_transfer).
Proof.
  apply (pending_upgrade_resolved accepting_env open_world 1 open_transfer open_info (Some "Active"%string)).
  - reflexivity.
  - vm_compute. reflexivity.
  - reflexivity.
  - split; [discriminate|vm_compute; reflexivity].
  - reflexivity.
  - reflexivity.
  - reflexivity.
Defined.

(** When the last window of a transfer ends and the transfer is not done,
    it is closed as Done with fault 9002, and a download in flight for it is no
    longer in progress; when another window follows, nothing is reported. *)
Theorem window_end_closes_transfer (E : env) (w : world) (i : nat) (k : Z) (s : schedule_download)
    (info : transfer_info_t) :
  (forall n t, e_accepts E n t = true) -> w_objs w !! i = Some s -> sd_priv s = Valid info ->
  is_Some (find_timewindow i k w) -> in_automatic_window w i info ->
  sd_FileType s = FILETYPE_1_FIRMWARE_UPGRADE_IMAGE -> transfer_is_done s = false ->
  let s1 := set_sd_priv (Valid (set_within false info)) s in
  let w' := timewindow_ended E i k w in
  w_objs w' !! i = Some (if ti_numberOfTimeWindow info =? ti_lastTimeWindow info
                         then reported "Done" 9002 "TimeWindow(s) ended" s1 else s1) /\
  (ti_numberOfTimeWindow info = ti_lastTimeWindow info -> transfer_in_progress w = Some i ->
   transfer_in_progress w' = None).
Proof.
  intros Ha Hs Hp [t Ht] [Hl Hm] Hft Hd s1 w'. subst w'. unfold timewindow_ended. rewrite Ht, Hs, Hp.
  set (w1 := upd_sd i (set_sd_priv (Valid (set_within false info))) w).
  assert (Hs1 : w_objs w1 !! i = Some s1) by (simpl; by rewrite lookup_alter_eq, Hs).
  assert (Hfw : find_timewindow i (ti_lastTimeWindow info) w1 = find_timewindow i (ti_lastTimeWindow info) w).
  { unfold find_timewindow. by rewrite Hs1, Hs. }
  unfold transfers_handle_transfer. rewrite Hs1. change (transfer_is_done s1) with (transfer_is_done s). rewrite Hd.
  change (sd_priv s1) with (Valid (set_within false info)). cbn [ti_lastTimeWindow ti_withinTimeWindow ti_numberOfTimeWindow set_within].
  apply Z.eqb_neq in Hl. rewrite Hl, Hfw, Hm. destruct (_ =? ti_lastTimeWindow info) eqn:En; bool_prop.
  - pose proof (objs_update_tc E i FAULT_CODE_INTERNAL_ERROR "TimeWindow(s) ended" w1 s1 Ha Hs1) as Hu.
    destruct (objs_transfer_done E i _ _ Ha Hu Hft) as [-> Hq]. split; [done|]. intros _ Hi. apply Hq.
    assert (still w1 (transfers_update_transfercomplete E i None None (Some FAULT_CODE_INTERNAL_ERROR)
      (Some "TimeWindow(s) ended"%string) w1)) as [_ ->] by by_still closed_update_tc. done.
  - split; [done|]. intros Hn. congruence.
Qed.

Lemma window_end_closes_transfer_witness :
  w_objs (timewindow_ended accepting_env 1 1 open_world) !! 1%nat
    = Some (reported "Done" 9002 "TimeWindow(s) ended"
             (set_sd_priv (Valid (set_within false open_info)) open_transfer)).
Proof.
  apply (window_end_closes_transfer accepting_env open_world 1 1 open_transfer open_info).
  - reflexivity.
  - vm_compute. reflexivity.
  - reflexivity.
  - exists open_window. vm_compute. reflexivity.
  - split; [discriminate|vm_compute; reflexivity].
  - reflexivity.
  - reflexivity.
Defined.

End TransfersSpec.
