(* ===== verification/EngineTimers.v ===== *)
(** * EngineTimers: what the device adapter relies on of the timers

    [DM_ENG_NotificationInterface_timerStart] and [_timerStop] end, through the
    callbacks the daemon registers, in [cwmp_timer_start] and [cwmp_timer_stop].
    The class [EngineTimers] is the part of their contract the adapter uses for
    its one-shot timers: at most one timer bears a name, a second start of the
    same name keeps the handler of the first, a timer without a name is never
    started, and an expired timer is gone before its handler runs.  The timers
    of [Timer] implement it. *)

From Stdlib Require Import ZArith Lia.
From stdpp Require Import base list gmap strings.
From S2P Require Import Prelude Timer.

Class EngineTimers (T : Type) := {
  no_timers : T;
  armed : T -> string -> option nat;
  start : string -> Z -> nat -> T -> T;
  stop : string -> T -> T;
  expire : string -> T -> T;
}.

(** The laws, on the states that the operations reach. *)
Class EngineTimersLaws (T : Type) {E : EngineTimers T} := {
  timers_ok : T -> Prop;
  ok_none : timers_ok no_timers;
  ok_start t n d h : timers_ok t -> timers_ok (start n d h t);
  ok_stop t n : timers_ok t -> timers_ok (stop n t);
  ok_expire t n : timers_ok t -> timers_ok (expire n t);
  armed_none n : armed no_timers n = None;
  armed_nameless t : timers_ok t -> armed t "" = None;
  armed_start t n d h m : timers_ok t ->
    armed (start n d h t) m =
      if streq n "" then armed t m else if streq m n then Some (default h (armed t n)) else armed t m;
  armed_stop t n m : timers_ok t -> armed (stop n t) m = if streq m n then None else armed t m;
  armed_expire t n m : timers_ok t -> armed (expire n t) m = if streq m n then None else armed t m;
}.

Module Cwmpd.
Import Timer.

#[export] Instance cwmpd_timers : EngineTimers timer_world := {
  no_timers := initial;
  armed t n := match view (tw_list t) !! n with Some (Some h, _) => Some h | _ => None end;
  start n d h t := (cwmp_timer_start true (Some n) d 0 (Some h) t).1;
  stop n t := (cwmp_timer_stop (Some n) t).1;
  expire n t :=
    match timer_find (Some n) (tw_list t) with
    | Some x => run_op (OpFire (ti_timer x)) t
    | None => t
    end;
}.

(** The adapter starts one-shot timers with a handler only. *)
Definition one_shot (m : gmap string (option handler * bool)) : Prop :=
  map_Forall (fun _ v => exists h, v = (Some h, false)) m.

Definition wf_one_shot (t : timer_world) : Prop := wf t /\ one_shot (view (tw_list t)).

Lemma view_start_any n wt h w :
  wf w ->
  view (tw_list (fst (cwmp_timer_start true (Some n) wt 0 (Some h) w))) =
    if streq n "" then view (tw_list w) else spec_start n 0 (Some h) (view (tw_list w)).
Proof.
  intros Hw. destruct (streq n "") eqn:E; [|by apply view_start, streq_false].
  unfold cwmp_timer_start. by rewrite E.
Qed.

Lemma view_nameless w : wf w -> view (tw_list w) !! ""%string = None.
Proof.
  intros Hw. apply view_lookup_None. intros (t & E & Ht)%list_elem_of_fmap.
  pose proof (wf_named _ Hw) as Hn. rewrite Forall_forall in Hn. by apply (Hn t Ht).
Qed.

Lemma view_stop_any n w :
  wf w -> view (tw_list (fst (cwmp_timer_stop (Some n) w))) = delete n (view (tw_list w)).
Proof.
  intros Hw. destruct (decide (n = ""%string)) as [->|Hn]; [|by apply view_stop].
  symmetry. by apply delete_id, view_nameless.
Qed.

Lemma view_expire n w :
  wf_one_shot w -> view (tw_list (expire n w)) = delete n (view (tw_list w)).
Proof.
  intros [Hw Ho]. cbn [expire cwmpd_timers].
  destruct (timer_find (Some n) (tw_list w)) as [t|] eqn:E.
  - apply timer_find_name in E as [Ht <-].
    destruct (map_Forall_lookup_1 _ _ _ _ Ho (view_lookup _ _ t (wf_names _ Hw) Ht eq_refl)) as [h [= E1 E2]].
    by rewrite view_fire, E2 by (done || congruence).
  - symmetry. apply delete_id. destruct (decide (n = ""%string)) as [->|Hn]; [by apply view_nameless|].
    by apply view_lookup_None, timer_find_fresh.
Qed.

Lemma wf_expire n w : wf w -> wf (expire n w).
Proof. intros Hw. cbn [expire cwmpd_timers]. destruct (timer_find _ _); [by apply wf_run_op|done]. Qed.

Definition handler_of (v : option (option handler * bool)) : option nat :=
  match v with Some (Some h, _) => Some h | _ => None end.

Lemma armed_view t n : armed t n = handler_of (view (tw_list t) !! n).
Proof. done. Qed.

#[export] Instance cwmpd_timers_laws : EngineTimersLaws timer_world.
Proof.
  refine {| timers_ok := wf_one_shot |}.
  - split; [apply wf_initial|apply map_Forall_empty].
  - intros t n d h [Hw Ho]. split; [by apply wf_start|]. cbn [start cwmpd_timers].
    rewrite view_start_any by done. destruct (streq n ""); [done|]. unfold spec_start.
    destruct (_ !! n); [done|]. apply map_Forall_insert_2; [by eexists|done].
  - intros t n [Hw Ho]. split; [by apply (wf_run_op (OpStop (Some n)))|]. cbn [stop cwmpd_timers].
    rewrite view_stop_any by done. by apply map_Forall_delete.
  - intros t n H. split; [by apply wf_expire, H|]. rewrite view_expire by done. by apply map_Forall_delete, H.
  - done.
  - intros t [Hw _]. by rewrite armed_view, view_nameless.
  - intros t n d h m [Hw Ho]. rewrite !armed_view. cbn [start cwmpd_timers]. rewrite view_start_any by done.
    destruct (streq n "") eqn:En; [done|]. unfold spec_start.
    destruct (view (tw_list t) !! n) as [v|] eqn:E; destruct (streq m n) eqn:Em; bool_prop; subst.
    + rewrite E. by destruct (map_Forall_lookup_1 _ _ _ _ Ho E) as [h' ->].
    + done.
    + by rewrite lookup_insert_eq.
    + by rewrite lookup_insert_ne.
  - intros t n m [Hw Ho]. rewrite !armed_view. cbn [stop cwmpd_timers]. rewrite view_stop_any by done.
    destruct (streq m n) eqn:Em; bool_prop; [subst; by rewrite lookup_delete_eq|by rewrite lookup_delete_ne].
  - intros t n m H. rewrite !armed_view, view_expire by done.
    destruct (streq m n) eqn:Em; bool_prop; [subst; by rewrite lookup_delete_eq|by rewrite lookup_delete_ne].
Qed.

End Cwmpd.
