(* ===== verification/SessionTimer.v ===== *)
(** * SessionTimer: the client and the timers of the daemon together
    ([cwmpd_client.c], [cwmpd_timer.c] and the timers of [DM_AmxUpDownload.c])

    The client watches each exchange with the ACS by a timer of the engine,
    "Session-timer", whose handler ends the session, and sends a message again
    from the timer "cwmp_client_auth_retry".  Both live in the list of named
    timers that [Timer] models, beside those of the device adapter, which names
    the timer of a transfer by the CommandKey that the ACS chose.  This file puts
    [Client] and [Timer] into one world, shows that an exchange is watched until
    its session has failed, and what happens when a CommandKey is the name of
    that timer. *)

From Stdlib Require Import ZArith Lia Ascii.
From stdpp Require Import base list gmap strings relations.
From S2P Require Import Prelude CString CookieJar Timer Client EngineTimers.

Module SessionTimer.
Import CString CookieJar.
Import (hints) Cwmpd.

(** ** The timer of a library timer's log *)

(** The delay that a library timer runs with, if it runs *)
Definition run_call (a : Timer.addr) (delay : option Z) (c : Timer.call) : option Z :=
  match c with
  | Timer.AmxpStart b ms => if Nat.eqb a b then Some ms else delay
  | Timer.AmxpStop b | Timer.AmxpDelete b => if Nat.eqb a b then None else delay
  | _ => delay
  end.

Definition running (a : Timer.addr) (w : Timer.timer_world) : option Z :=
  foldl (run_call a) None (Timer.tw_calls w).

(** ** World *)

(** The handlers [cwmp_client_sessionTimedOut] and [cwmp_client_auth_retry], apart
    from those of the device adapter *)
Definition SESSION_TIMED_OUT : Timer.handler := 5%nat.
Definition AUTH_RETRY : Timer.handler := 6%nat.

Definition SESSION_TIMER : string := "Session-timer".
Definition AUTH_TIMER : string := "cwmp_client_auth_retry".

Definition handler_named (name : string) : Timer.handler :=
  if streq name SESSION_TIMER then SESSION_TIMED_OUT else AUTH_RETRY.

Section SessionTimer.

(** The libraries, as in [Client] *)
Context {J : Type} `{!CookieStore J}.
Context (b64_encode : cstr -> nat -> option cstr).
Context (digest_response : cstr -> cstr -> option cstr -> cstr -> cstr -> option cstr).
Context (translate : bool -> cstr -> cstr) (check_namespace : cstr -> cstr) (env_tag : cstr).
Context (is_ipaddr : cstr -> bool) (csv_fields : cstr -> list cstr).

Notation client_state := (Client.client (J := J)).
Notation client_step := (Client.step b64_encode digest_response translate check_namespace env_tag is_ipaddr csv_fields).

Record world := { client : client_state; timers : Timer.timer_world }.

Definition initial : world := {| client := Client.initial; timers := Timer.initial |}.

(** The timers that the calls of the client start; [malloc_ok] is the outcome
    of the allocation of a list item. *)
Definition start_timer (malloc_ok : bool) (t : Timer.timer_world) (c : Client.call) : Timer.timer_world :=
  match c with
  | Client.TimerStart name wait interval =>
      (Timer.cwmp_timer_start malloc_ok (Some name) wait interval (Some (handler_named name)) t).1
  | _ => t
  end.

(** The world once the client has reached [c] *)
Definition client_reaches (malloc_ok : bool) (c : client_state) (w : world) : world :=
  {| client := c;
     timers := foldl (start_timer malloc_ok) (timers w) (drop (length (Client.calls (client w))) (Client.calls c)) |}.

(** The events of the client that a timer causes *)
Definition timer_event (e : Client.event) : bool :=
  match e with Client.AuthRetry _ | Client.SessionTimeout => true | _ => false end.

(** What a handler does with the client; [None] is undefined. *)
Definition handle (connect_ok : bool) (h : Timer.handler) (c : client_state) : option client_state :=
  if Nat.eqb h SESSION_TIMED_OUT then Some (Client.cwmp_client_sessionTimedOut c)
  else if Nat.eqb h AUTH_RETRY then Client.cwmp_client_auth_retry connect_ok c
  else Some c.

(** The library timer [a] expires: the item goes, then its handler runs. *)
Definition fire (malloc_ok connect_ok : bool) (a : Timer.addr) (w : world) : option world :=
  let w' := {| client := client w; timers := Timer.run_op (Timer.OpFire a) (timers w) |} in
  match Timer.timer_find_by_addr a (Timer.tw_list (timers w)) with
  | Some item =>
      match Timer.ti_handler item with
      | Some h => (fun c => client_reaches malloc_ok c w') <$> handle connect_ok h (client w)
      | None => Some w'
      end
  | None => Some w'
  end.

(** The operations of the rest of the engine and of the device adapter on the
    timers: they name others than the two of the client and have other
    handlers. *)
Definition others_name (name : option string) : Prop :=
  name <> Some SESSION_TIMER /\ name <> Some AUTH_TIMER.

Definition others_op (o : Timer.op) : Prop :=
  match o with
  | Timer.OpStart _ name _ _ h => others_name name /\ h <> Some SESSION_TIMED_OUT /\ h <> Some AUTH_RETRY
  | Timer.OpStop name => others_name name
  | Timer.OpFire _ | Timer.OpRemoveAll => False
  end.

Inductive step (w : world) : world -> Prop :=
| step_client e malloc_ok c :
    timer_event e = false -> client_step e (client w) = Some c -> step w (client_reaches malloc_ok c w)
| step_fire a malloc_ok connect_ok w' : fire malloc_ok connect_ok a w = Some w' -> step w w'
| step_other o : others_op o -> step w {| client := client w; timers := Timer.run_op o (timers w) |}.

(** ** Lemmas on the timers *)

Lemma running_update a w l cs : running a (Timer.update w l cs) = foldl (run_call a) (running a w) cs.
Proof. unfold running. cbn [Timer.update Timer.tw_calls]. by rewrite foldl_app. Qed.

Lemma running_others a w l cs :
  Forall (fun c => forall d, run_call a d c = d) cs -> running a (Timer.update w l cs) = running a w.
Proof.
  rewrite running_update. generalize (running a w) as d.
  induction cs as [|c cs IH]; intros d H; [done|]. apply Forall_cons in H as [H1 H2]. simpl. rewrite H1. by apply IH.
Qed.

(** The operations that leave an item alone *)
Definition spares (x : Timer.timer_list_item) (o : Timer.op) : Prop :=
  match o with
  | Timer.OpStart _ name _ _ _ | Timer.OpStop name => name <> Some (Timer.ti_name x)
  | Timer.OpFire a => a <> Timer.ti_timer x
  | Timer.OpRemoveAll => False
  end.

Lemma distinct_timers w x t :
  Timer.wf w -> x ∈ Timer.tw_list w -> t ∈ Timer.tw_list w -> Timer.ti_name t <> Timer.ti_name x ->
  Timer.ti_timer x <> Timer.ti_timer t.
Proof.
  intros Hw Hx Ht Hn E. pose proof (Timer.find_by_addr_unique _ _ (Timer.wf_timers _ Hw) Hx) as H.
  rewrite E, (Timer.find_by_addr_unique _ _ (Timer.wf_timers _ Hw) Ht) in H. by injection H as <-.
Qed.

Lemma same_name w x t :
  Timer.wf w -> x ∈ Timer.tw_list w -> t ∈ Timer.tw_list w -> Timer.ti_name x = Timer.ti_name t -> x = t.
Proof.
  intros Hw Hx Ht E. pose proof (Timer.wf_names _ Hw) as H.
  apply list_elem_of_lookup in Hx as [i Hi], Ht as [j Hj].
  assert (i = j) as <-; [|congruence].
  apply (NoDup_lookup _ i j (Timer.ti_name x) H); rewrite list_lookup_fmap; [by rewrite Hi|by rewrite Hj, E].
Qed.

Lemma remove_spares n w x :
  Timer.wf w -> x ∈ Timer.tw_list w -> n <> Timer.ti_name x ->
  x ∈ Timer.tw_list (Timer.timer_remove (Some n) w) /\
  running (Timer.ti_timer x) (Timer.timer_remove (Some n) w) = running (Timer.ti_timer x) w.
Proof.
  intros Hw Hx Hn. cbn [Timer.timer_remove].
  destruct (Timer.timer_unlink_spec n (Timer.tw_list w)) as [[_ ->]|(l1 & t & l2 & E & Ht & _ & ->)].
  - split; [done|by apply running_others, Forall_nil_2].
  - assert (Hd : Timer.ti_timer x <> Timer.ti_timer t).
    { apply (distinct_timers w); [done|done|rewrite E; set_solver|congruence]. }
    apply Nat.eqb_neq in Hd. split.
    + cbn [Timer.update Timer.tw_list]. rewrite E in Hx. apply elem_of_app in Hx as [|[->|]%elem_of_cons]; [set_solver|done|set_solver].
    + apply running_others. repeat constructor; intros d; simpl; by rewrite Hd.
Qed.

Lemma run_op_spares w x o :
  Timer.wf w -> x ∈ Timer.tw_list w -> spares x o ->
  x ∈ Timer.tw_list (Timer.run_op o w) /\ running (Timer.ti_timer x) (Timer.run_op o w) = running (Timer.ti_timer x) w.
Proof.
  intros Hw Hx Ho. destruct o as [m [n|] wt it h|[n|]|a|]; cbn [Timer.run_op]; try done.
  - unfold Timer.cwmp_timer_start. destruct (streq n ""); [done|].
    destruct (Timer.timer_find (Some n) (Timer.tw_list w)) as [t|] eqn:E.
    + apply Timer.timer_find_name in E as [Ht <-].
      assert (Hn : Timer.ti_name t <> Timer.ti_name x) by (intros E; apply Ho; by rewrite E).
      assert (Hd : Timer.ti_timer x <> Timer.ti_timer t) by by apply (distinct_timers w).
      apply Nat.eqb_neq in Hd. split; [done|]. apply running_others.
      repeat constructor; intros d; simpl; by rewrite Hd.
    + destruct m; [|done]. split; [by apply elem_of_app; left|].
      assert (Hd : Timer.ti_timer x <> Timer.tw_next w).
      { pose proof (Timer.wf_next _ Hw) as H. rewrite Forall_forall in H. specialize (H x Hx). lia. }
      apply Nat.eqb_neq in Hd. unfold running. cbn [fst negb Timer.tw_calls]. rewrite foldl_app.
      destruct (negb (it =? 0)); simpl; by rewrite Hd.
  - unfold Timer.cwmp_timer_stop. destruct (streq n ""); [done|].
    destruct (Timer.timer_find (Some n) (Timer.tw_list w)) as [t|] eqn:E; [|done].
    apply Timer.timer_find_name in E as [Ht <-]. cbn [fst].
    assert (Hn : Timer.ti_name t <> Timer.ti_name x) by (intros E; apply Ho; by rewrite E).
    assert (Hd : Timer.ti_timer x <> Timer.ti_timer t) by by apply (distinct_timers w).
    apply Nat.eqb_neq in Hd. set (w1 := Timer.update w _ _).
    assert (Hw1 : Timer.wf w1).
    { apply Timer.wf_log; [done|]. simpl. by rewrite decide_True by (apply Timer.elem_of_owned; eauto). }
    destruct (remove_spares (Timer.ti_name t) w1 x) as [H1 ->]; [done..|]. split; [done|].
    apply running_others. repeat constructor; intros d; simpl; by rewrite Hd.
  - destruct (Timer.timer_find_by_addr a (Timer.tw_list w)) as [t|] eqn:E; [|done].
    unfold Timer.timer_timeout_handler. rewrite E. destruct (Timer.ti_handler t) as [h|]; [|done].
    apply Timer.find_addr_elem in E as [Ht <-].
    assert (Hn : Timer.ti_name t <> Timer.ti_name x).
    { intros E. apply Ho. by rewrite (same_name w t x). }
    destruct (Timer.ti_interval t).
    + split; [done|]. by apply running_others, Forall_singleton.
    + destruct (remove_spares (Timer.ti_name t) w x) as [H1 H2]; [done..|]. split; [done|].
      rewrite <- H2. by apply running_others, Forall_singleton.
Qed.

(** The item of a name once [cwmp_timer_start] has been called for it *)
Lemma start_runs m w n d i h :
  n <> ""%string -> m = true \/ n ∈ map Timer.ti_name (Timer.tw_list w) ->
  let w' := (Timer.cwmp_timer_start m (Some n) d i h w).1 in
  exists x, x ∈ Timer.tw_list w' /\ Timer.ti_name x = n /\ running (Timer.ti_timer x) w' = Some (Timer.millis d).
Proof.
  intros Hn Hm. unfold Timer.cwmp_timer_start. rewrite (proj2 (streq_false n "") Hn).
  destruct (Timer.timer_find (Some n) (Timer.tw_list w)) as [t|] eqn:E.
  - apply Timer.timer_find_name in E as [Ht <-]. exists t. cbn [fst]. rewrite running_update. simpl.
    rewrite Nat.eqb_refl. naive_solver.
  - apply Timer.timer_find_fresh in E; [|done]. destruct Hm as [->|]; [|done]. cbn [negb fst].
    eexists. split; [apply elem_of_app; right; by apply list_elem_of_here|]. split; [done|].
    unfold running. cbn [Timer.tw_calls Timer.ti_timer]. rewrite foldl_app.
    destruct (negb (i =? 0)); simpl; by rewrite Nat.eqb_refl.
Qed.

(** The items after [cwmp_timer_start] *)
Lemma start_items m w n d i h x :
  x ∈ Timer.tw_list (Timer.cwmp_timer_start m n d i h w).1 ->
  x ∈ Timer.tw_list w \/ (n = Some (Timer.ti_name x) /\ Timer.ti_handler x = h).
Proof.
  unfold Timer.cwmp_timer_start. destruct n as [n|]; [|by left]. destruct (streq n ""); [by left|].
  destruct (Timer.timer_find (Some n) (Timer.tw_list w)); [by left|]. destruct m; [|by left].
  intros [H| ->%list_elem_of_singleton]%elem_of_app; [by left|by right].
Qed.

Lemma unlink_items n l x : x ∈ (Timer.timer_unlink n l).1 -> x ∈ l.
Proof.
  destruct (Timer.timer_unlink_spec n l) as [[_ ->]|(l1 & t & l2 & -> & _ & _ & ->)]; [done|]. cbn [fst]. set_solver.
Qed.

(** ** The session timer has its own handler *)

Definition ours (w : Timer.timer_world) : Prop :=
  Timer.wf w /\
  forall x, x ∈ Timer.tw_list w -> Timer.ti_name x = SESSION_TIMER -> Timer.ti_handler x = Some SESSION_TIMED_OUT.

(** ... and runs with a delay that is an [int]. *)
Definition watched (w : Timer.timer_world) : Prop :=
  exists x t, x ∈ Timer.tw_list w /\ Timer.ti_name x = SESSION_TIMER /\ 0 < t < 2 ^ 31 /\
    running (Timer.ti_timer x) w = Some (Timer.millis t).

Lemma remove_items n w x : x ∈ Timer.tw_list (Timer.timer_remove (Some n) w) -> x ∈ Timer.tw_list w.
Proof.
  cbn [Timer.timer_remove]. pose proof (unlink_items n (Timer.tw_list w) x) as H.
  by destruct (Timer.timer_unlink n (Timer.tw_list w)).
Qed.

Lemma fire_items a w x : x ∈ Timer.tw_list (Timer.run_op (Timer.OpFire a) w) -> x ∈ Timer.tw_list w.
Proof.
  cbn [Timer.run_op]. destruct (Timer.timer_find_by_addr a (Timer.tw_list w)) as [t|] eqn:E; [|done].
  unfold Timer.timer_timeout_handler. rewrite E. destruct (Timer.ti_handler t); [|done].
  destruct (Timer.ti_interval t); [done|]. apply remove_items.
Qed.

Lemma ours_fire a w : ours w -> ours (Timer.run_op (Timer.OpFire a) w).
Proof.
  intros [Hw H]. split; [by apply Timer.wf_run_op|]. intros x Hx. apply H. by apply fire_items in Hx.
Qed.

Lemma ours_other o w : others_op o -> ours w -> ours (Timer.run_op o w).
Proof.
  intros Ho [Hw H]. split; [by apply Timer.wf_run_op|]. intros x Hx Hn.
  destruct o as [m n wt it h|n|a|]; cbn [Timer.run_op] in Hx; try done.
  - apply start_items in Hx as [Hx|[-> _]]; [by apply H|]. destruct Ho as [[Ho _] _]. by rewrite Hn in Ho.
  - apply H; [|done]. unfold Timer.cwmp_timer_stop in Hx. destruct n as [n|]; [|done]. destruct (streq n ""); [done|].
    destruct (Timer.timer_find _ _); [|done]. cbn [fst] in Hx. by apply remove_items in Hx.
Qed.

Lemma watched_spares o w :
  Timer.wf w -> (forall x, x ∈ Timer.tw_list w -> Timer.ti_name x = SESSION_TIMER -> spares x o) ->
  watched w -> watched (Timer.run_op o w).
Proof.
  intros Hw Ho (x & t & Hx & Hn & Ht & Hr). exists x, t.
  destruct (run_op_spares w x o Hw Hx (Ho x Hx Hn)) as [H1 H2]. by rewrite H2.
Qed.

Lemma watched_other o w : Timer.wf w -> others_op o -> watched w -> watched (Timer.run_op o w).
Proof.
  intros Hw Ho. apply watched_spares; [done|]. intros x _ Hn.
  destruct o as [m n wt it h|n|a|]; cbn [spares others_op] in *; try done; rewrite Hn; apply Ho.
Qed.

(** ** The timers that the client starts *)

Lemma ours_start ok c w : ours w -> ours (start_timer ok w c).
Proof.
  intros [Hw H]. destruct c; try done. cbn [start_timer]. split; [by apply Timer.wf_start|].
  intros x [Hx|[[= ->] ->]]%start_items Hn; [by apply H|]. unfold handler_named. by rewrite Hn, streq_refl.
Qed.

Lemma ours_starts ok cs w : ours w -> ours (foldl (start_timer ok) w cs).
Proof. revert w. induction cs as [|c cs IH]; intros w H; [done|]. by apply IH, ours_start. Qed.

Lemma watched_start ok c w :
  Timer.wf w -> Client.positive_timer c ->
  watched w \/ (ok = true /\ exists t, c = Client.TimerStart SESSION_TIMER t 0) -> watched (start_timer ok w c).
Proof.
  intros Hw Hc Hor. destruct c as [|n t i| | | | | | | | |]; try by destruct Hor as [|[_ [? ?]]].
  cbn [start_timer]. destruct (decide (n = SESSION_TIMER)) as [->|Hn].
  - destruct (start_runs ok w SESSION_TIMER t i (Some (handler_named SESSION_TIMER))) as (x & H1 & H2 & H3); [done| |].
    { destruct Hor as [(x & _ & Hx & <- & _)|[-> _]]; [right; by apply list_elem_of_fmap_2|by left]. }
    destruct Hc as [_ Hc]. exists x, t. auto.
  - destruct Hor as [Hor|(_ & t' & [= -> _ _])]; [|done].
    apply (watched_spares (Timer.OpStart ok (Some n) t i (Some (handler_named n)))); [done| |done].
    intros x _ Hx. cbn [spares]. by rewrite Hx; intros [= ->].
Qed.

Lemma watched_starts ok cs w :
  ours w -> Forall Client.positive_timer cs -> watched w -> watched (foldl (start_timer ok) w cs).
Proof.
  revert w. induction cs as [|c cs IH]; intros w Ho Hc Hw; [done|]. apply Forall_cons in Hc as [H1 H2].
  apply IH; [by apply ours_start|done|]. apply watched_start; [apply Ho|done|by left].
Qed.

(** ** The client *)

Notation timed := (Client.timed (J := J)).
Notation client_start := (Client.client_startSession b64_encode digest_response is_ipaddr csv_fields).

(** A successful start ends with a start of the session timer. *)
Lemma start_settles e (c c1 : client_state) :
  client_start e c = (c1, 0) ->
  exists mid, Client.calls c1 = Client.calls c ++ mid ++ [Client.TimerStart SESSION_TIMER (Client.session_timeout c1) 0].
Proof.
  unfold Client.client_startSession. destruct (Client.dm_crhost e) as [[|x h]|]; try done.
  case_decide; [done|]. pose proof (Client.timed_parse_url is_ipaddr e c) as H1.
  destruct (Client.cwmp_client_parse_url is_ipaddr e c) as [c2 [|]]; [|done].
  pose proof (Client.timed_get_acsip is_ipaddr csv_fields e c2) as H2.
  destruct (Client.cwmp_client_get_acsip is_ipaddr csv_fields e c2) as [c3 [|]]; [|done].
  pose proof (Client.timed_prepare b64_encode digest_response e c3) as H3. intros [= <-].
  destruct (Client.timed_trans _ _ _ (Client.timed_trans _ _ _ H1 H2) H3) as (_ & mid & E & _). exists mid.
  cbn [Client.log Client.with_connect_info Client.calls Client.session_timeout]. by rewrite E, <- app_assoc.
Qed.

(** What holds after each step *)
Record inv (w : world) : Prop := {
  inv_ours : ours (timers w);
  inv_timeout : Client.session_timeout (client w) < 2 ^ 31;
}.

(** What holds after each step from a successful start on; [n] calls of the
    client were made until it. *)
Record guarded (n : nat) (w : world) : Prop := {
  guarded_inv : inv w;
  guarded_timeout : Client.timeout_ok (client w);
  guarded_calls : (n <= length (Client.calls (client w)))%nat;
  guarded_timer : Client.CloseACSSession false ∈ drop n (Client.calls (client w)) \/ watched (timers w);
}.

Lemma timers_reaches ok c w new :
  Client.calls c = Client.calls (client w) ++ new ->
  timers (client_reaches ok c w) = foldl (start_timer ok) (timers w) new.
Proof. intros E. cbn [timers client_reaches]. by rewrite E, drop_app_length. Qed.

Lemma session_inv_initial : inv initial.
Proof. split; [|done]. split; [apply Timer.wf_initial|]. intros x Hx. by apply elem_of_nil in Hx. Qed.

Lemma inv_reaches ok c w : timed (client w) c -> inv w -> inv (client_reaches ok c w).
Proof. intros [Ht _] [Ho Hl]. split; [by apply ours_starts|by apply Ht]. Qed.

Lemma guarded_reaches ok n c w : timed (client w) c -> guarded n w -> guarded n (client_reaches ok c w).
Proof.
  intros Ht [Hi Hok Hn Hw]. pose proof Ht as (_ & new & E & Hnew). destruct (Hnew Hok) as [Hc Hpos].
  constructor; [by apply inv_reaches|done| |].
  - cbn [client client_reaches]. rewrite E, length_app. lia.
  - cbn [client timers client_reaches]. rewrite E, drop_app_length. destruct Hw as [Hw|Hw].
    + left. rewrite drop_app_le by done. apply elem_of_app. by left.
    + right. apply watched_starts; [apply Hi|done|done].
Qed.

(** The handlers are events of the client. *)
Lemma timed_handle ok h (c c' : client_state) : handle ok h c = Some c' -> timed c c'.
Proof.
  unfold handle. destruct (Nat.eqb h SESSION_TIMED_OUT).
  - by apply (Client.timed_step b64_encode digest_response translate check_namespace env_tag is_ipaddr csv_fields
      Client.SessionTimeout).
  - destruct (Nat.eqb h AUTH_RETRY); [|intros [= <-]; apply Client.timed_refl].
    by apply (Client.timed_step b64_encode digest_response translate check_namespace env_tag is_ipaddr csv_fields
      (Client.AuthRetry ok)).
Qed.

Lemma fire_reaches ok k a w w' :
  fire ok k a w = Some w' ->
  exists c, w' = client_reaches ok c {| client := client w; timers := Timer.run_op (Timer.OpFire a) (timers w) |} /\
    timed (client w) c.
Proof.
  assert (Hid : exists c, {| client := client w; timers := Timer.run_op (Timer.OpFire a) (timers w) |} =
      client_reaches ok c {| client := client w; timers := Timer.run_op (Timer.OpFire a) (timers w) |} /\ timed (client w) c).
  { exists (client w). split; [|apply Client.timed_refl]. unfold client_reaches. cbn [client timers]. by rewrite drop_all. }
  unfold fire. destruct (Timer.timer_find_by_addr a _) as [x|]; [destruct (Timer.ti_handler x) as [h|]|].
  - intros (c & E & ->)%fmap_Some. exists c. split; [done|by apply timed_handle in E].
  - by intros [= <-].
  - by intros [= <-].
Qed.

(** The expiry of the session timer *)
Lemma fire_session ok k x w :
  ours (timers w) -> x ∈ Timer.tw_list (timers w) -> Timer.ti_name x = SESSION_TIMER ->
  client <$> fire ok k (Timer.ti_timer x) w = Some (Client.log (Client.CloseACSSession false) (client w)).
Proof.
  intros [Hw Ho] Hx Hn. unfold fire. rewrite (Timer.find_by_addr_unique _ _ (Timer.wf_timers _ Hw) Hx).
  by rewrite (Ho x Hx Hn).
Qed.

Lemma session_inv_step w w' : step w w' -> inv w -> inv w'.
Proof.
  intros [e ok c _ E|a ok k w2 E|o Ho] Hi.
  - apply inv_reaches; [|done]. by eapply (Client.timed_step _ _ _ _ _ _ _ e).
  - destruct (fire_reaches ok k a w _ E) as (c & -> & Ht). apply inv_reaches; [done|].
    split; [apply ours_fire, Hi|apply Hi].
  - split; [apply ours_other; [done|apply Hi]|apply Hi].
Qed.

Lemma guarded_step n w w' : step w w' -> guarded n w -> guarded n w'.
Proof.
  intros [e ok c _ E|a ok k w2 E|o Ho] Hg.
  - apply guarded_reaches; [|done]. by eapply (Client.timed_step _ _ _ _ _ _ _ e).
  - pose proof Hg as [[Ho Hl] Ht Hn Hw]. destruct (fire_reaches ok k a w _ E) as (c & E2 & Hc).
    destruct Hw as [Hw|(x & t & Hx & Hname & Hr)].
    + rewrite E2. apply guarded_reaches; [done|].
      constructor; [split; [by apply ours_fire|done]|done|done|by left].
    + destruct (decide (a = Timer.ti_timer x)) as [->|Ha].
      * pose proof (fire_session ok k x w Ho Hx Hname) as E1. rewrite E in E1. injection E1 as E1.
        constructor; [|rewrite E1; done|rewrite E1; cbn [Client.log Client.calls]; rewrite length_app; lia|].
        { rewrite E2. apply inv_reaches; [done|]. split; [by apply ours_fire|done]. }
        left. rewrite E1. cbn [Client.log Client.calls]. rewrite drop_app_le by done. apply elem_of_app. right. by left.
      * rewrite E2. apply guarded_reaches; [done|].
        constructor; [split; [by apply ours_fire|done]|done|done|].
        right. apply watched_spares; [apply Ho| |by exists x, t].
        intros y Hy Hyn. cbn [spares]. rewrite (same_name (timers w) y x); [done|apply Ho|done..|congruence].
  - destruct Hg as [Hi Ht Hn Hw]. constructor; [split; [apply ours_other; [done|apply Hi]|apply Hi]|done|done|].
    destruct Hw as [Hw|Hw]; [by left|]. right. by apply watched_other; [apply Hi|..].
Qed.

Lemma inv_reachable w w' : rtc step w w' -> inv w -> inv w'.
Proof. induction 1; eauto using session_inv_step. Qed.

Lemma guarded_reachable n w w' : rtc step w w' -> guarded n w -> guarded n w'.
Proof. induction 1; eauto using guarded_step. Qed.

Lemma guarded_start e c w :
  client_start e (client w) = (c, 0) -> inv w -> guarded (length (Client.calls c)) (client_reaches true c w).
Proof.
  intros E [Ho Hl]. pose proof (Client.start_success _ _ _ _ _ _ _ E Hl) as Hok.
  assert (Ht : timed (client w) c).
  { pose proof (Client.timed_start b64_encode digest_response is_ipaddr csv_fields e (client w)) as H. by rewrite E in H. }
  constructor; [by apply inv_reaches|done|done|]. right. cbn [timers client_reaches].
  destruct (start_settles _ _ _ E) as [mid ->]. rewrite drop_app_length, foldl_app. cbn [foldl].
  apply watched_start; [by apply ours_starts|by split|]. right. eauto.
Qed.

(** A delay of 0 ms *)
Lemma millis_zero t : Timer.millis t = 0 -> (2 ^ 29 | t).
Proof.
  intros H. assert (E : (t * 1000) mod 2 ^ 32 = 0).
  { unfold Timer.millis, u32, s32 in H. rewrite Zminus_mod_idemp_l in H. by rewrite Z.add_simpl_r in H. }
  apply Z.mod_divide in E; [|done]. change (2 ^ 32) with (8 * 2 ^ 29) in E.
  replace (t * 1000) with (8 * (125 * t)) in E by lia. apply Z.mul_divide_cancel_l in E; [|done].
  by apply Z.gauss in E.
Qed.

(** ** Properties *)

(** C14: an exchange with the ACS is watched until its session has failed.
    After a session was started with success, whatever the client does and
    whatever timers expire, and whatever timers of other names the engine and the
    adapter start and stop (the session timer itself is started by the client
    only; nobody stops it by its name, and the timers are not all removed, which
    is the end of the daemon): the engine has been told since that the session
    has failed, or the session timer is in the list of timers and its library
    timer runs, with the session timeout in milliseconds modulo 2^32 as its delay
    (which is positive unless the timeout is a multiple of 2^29 s), and its expiry
    tells the engine so. *)
Theorem session_always_watched (e : Client.start_env) (w0 w : world) (c : client_state) :
  rtc step initial w0 -> client_start e (client w0) = (c, 0) -> rtc step (client_reaches true c w0) w ->
  Client.CloseACSSession false ∈ drop (length (Client.calls c)) (Client.calls (client w)) \/
  exists x t, x ∈ Timer.tw_list (timers w) /\ Timer.ti_name x = SESSION_TIMER /\ 0 < t < 2 ^ 31 /\
    running (Timer.ti_timer x) (timers w) = Some (Timer.millis t) /\ (Timer.millis t = 0 -> (2 ^ 29 | t)) /\
    forall ok k, client <$> fire ok k (Timer.ti_timer x) w = Some (Client.log (Client.CloseACSSession false) (client w)).
Proof.
  intros H0 Hs H. apply inv_reachable in H0; [|apply session_inv_initial].
  pose proof (guarded_start _ _ _ Hs H0) as Hg.
  apply (guarded_reachable _ _ _ H) in Hg as [Hi _ _ [Hw|(x & t & Hx & Hn & Ht & Hr)]]; [by left|].
  right. exists x, t. do 4 (split; [done|]). split; [apply millis_zero|]. intros ok k. apply fire_session; [apply Hi|done|done].
Qed.

(** Nothing stops the session timer when a session has ended.  The
    server answers 204 to the last request, the connection is closed, the
    engine is told that the session has ended with success and frees its data:
    the timers are as before, and when the session timer expires the engine is
    told that the session has failed. *)
Theorem ended_session_times_out (r : Client.response) (cr : Client.credentials) (w : world) (x : Timer.timer_list_item) :
  rtc step initial w -> Client.r_status r = Client.HTTP_NO_CONTENT ->
  x ∈ Timer.tw_list (timers w) -> Timer.ti_name x = SESSION_TIMER ->
  exists w', rtc step w w' /\ timers w' = timers w /\
    Client.calls (client w') = Client.calls (client w) ++ [Client.CloseWsi; Client.CloseACSSession true] /\
    Client.cl_session (client w') = Client.no_session /\
    forall ok k, (Client.calls ∘ client) <$> fire ok k (Timer.ti_timer x) w' =
      Some (Client.calls (client w') ++ [Client.CloseACSSession false]).
Proof.
  intros H0 Hr Hx Hn. apply inv_reachable in H0 as [Ho _]; [|apply session_inv_initial].
  set (c1 := Client.set_pending None (Client.log Client.CloseWsi (Client.set_status Client.HTTP_NO_CONTENT (client w)))).
  assert (E1 : client_step (Client.Established r cr true) (client w) = Some c1).
  { cbn [Client.step]. unfold Client.cwmp_client_connection_established_cb. by rewrite Hr. }
  set (w1 := client_reaches true c1 w). set (c2 := Client.log (Client.CloseACSSession true) c1).
  assert (E2 : client_step Client.Closed (client w1) = Some c2).
  { cbn [Client.step]. done. }
  set (w2 := client_reaches true c2 w1). set (w3 := client_reaches true (Client.DM_CloseHttpSession c2) w2).
  assert (Ht1 : timers w1 = timers w) by by apply (timers_reaches true c1 w [Client.CloseWsi]).
  assert (Ht2 : timers w2 = timers w1) by by apply (timers_reaches true c2 w1 [Client.CloseACSSession true]).
  assert (Ht3 : timers w3 = timers w2) by (apply (timers_reaches true _ w2 []); by rewrite app_nil_r).
  exists w3. split_and!.
  - apply (rtc_l _ _ w1); [exact (step_client w (Client.Established r cr true) true c1 eq_refl E1)|]. apply (rtc_l _ _ w2); [exact (step_client w1 Client.Closed true c2 eq_refl E2)|].
    apply rtc_once. exact (step_client w2 Client.CloseSession true _ eq_refl eq_refl).
  - by rewrite Ht3, Ht2, Ht1.
  - cbn. by rewrite <- app_assoc.
  - done.
  - intros ok k. rewrite option_fmap_compose, fire_session; [done|by rewrite Ht3, Ht2, Ht1..|done].
Qed.

End SessionTimer.

(** ** Witnesses *)

Notation ex_step := (step Client.ex_b64 Client.ex_digest (fun _ s => s) id (cs "<Env") Client.ex_is_ip Client.ex_fields).

Definition ex_started : world (J := cookie_jar_t) := client_reaches true Client.ex_started initial.

(** A message is sent, and the server answers with a challenge. *)
Definition ex_sent : world := client_reaches true Client.ex_sent ex_started.

Definition ex_item : Timer.timer_list_item :=
  {| Timer.ti_timer := 0%nat; Timer.ti_name := SESSION_TIMER; Timer.ti_handler := Some SESSION_TIMED_OUT;
     Timer.ti_interval := false |}.

Lemma ex_sends : Client.step Client.ex_b64 Client.ex_digest (fun _ s => s) id (cs "<Env") Client.ex_is_ip Client.ex_fields
  (Client.Send (Some (cs "<Env>")) true) (client ex_started) = Some Client.ex_sent.
Proof. vm_compute. reflexivity. Qed.

Lemma ex_reaches_sent : rtc ex_step ex_started ex_sent.
Proof.
  apply rtc_once. unfold ex_sent.
  exact (step_client _ _ _ _ _ _ _ ex_started (Client.Send (Some (cs "<Env>")) true) true Client.ex_sent eq_refl ex_sends).
Qed.

Lemma session_always_watched_witness :
  Timer.tw_calls (timers ex_sent) = [Timer.AmxpNew 0%nat; Timer.AmxpStart 0%nat 45000; Timer.AmxpStop 0%nat; Timer.AmxpStart 0%nat 45000] /\
  exists x t, x ∈ Timer.tw_list (timers ex_sent) /\ Timer.ti_name x = SESSION_TIMER /\ 0 < t < 2 ^ 31 /\
    running (Timer.ti_timer x) (timers ex_sent) = Some (Timer.millis t).
Proof.
  split; [reflexivity|].
  destruct (session_always_watched Client.ex_b64 Client.ex_digest (fun _ s => s) id (cs "<Env") Client.ex_is_ip
    Client.ex_fields Client.ex_start initial ex_sent Client.ex_started (rtc_refl _ _) eq_refl ex_reaches_sent)
    as [H|(x & t & H1 & H2 & H3 & H4 & _)].
  - vm_compute in H. by repeat (apply elem_of_cons in H as [?|H]); [..|apply elem_of_nil in H].
  - exists x, t. auto.
Defined.

Lemma ex_starts : Client.step Client.ex_b64 Client.ex_digest (fun _ s => s) id (cs "<Env") Client.ex_is_ip Client.ex_fields
  (Client.StartSession Client.ex_start) (client initial) = Some Client.ex_started.
Proof. vm_compute. reflexivity. Qed.

Lemma ex_initial_sent : rtc ex_step initial ex_sent.
Proof.
  apply (rtc_l _ _ ex_started); [|exact ex_reaches_sent]. unfold ex_started.
  exact (step_client _ _ _ _ _ _ _ initial (Client.StartSession Client.ex_start) true Client.ex_started eq_refl ex_starts).
Qed.

Definition ex_no_content : Client.response :=
  {| Client.r_status := 204; Client.r_www_authenticate := []; Client.r_copy_ok := true; Client.r_cnonce := [];
     Client.r_set_cookie := []; Client.r_malloc_ok := true |}.

Lemma ended_session_times_out_witness :
  exists w', rtc ex_step ex_sent w' /\ timers w' = timers ex_sent /\
    (last ∘ Client.calls ∘ client) <$> fire true true 0%nat w' = Some (Some (Client.CloseACSSession false)).
Proof.
  destruct (ended_session_times_out Client.ex_b64 Client.ex_digest (fun _ s => s) id (cs "<Env") Client.ex_is_ip
    Client.ex_fields ex_no_content Client.ex_credentials ex_sent ex_item ex_initial_sent eq_refl)
    as (w' & H1 & H2 & _ & _ & H3).
  - apply (list_elem_of_lookup_2 _ 0). reflexivity.
  - reflexivity.
  - exists w'. split; [exact H1|]. split; [exact H2|].
    specialize (H3 true true). cbn [Timer.ti_timer ex_item] in H3. destruct (fire true true 0%nat w') as [v|]; [|discriminate H3].
    simpl in H3 |- *. injection H3 as H3. rewrite H3. f_equal. apply last_snoc.
Defined.

End SessionTimer.
