(* ===== verification/AcsTransfer.v ===== *)
(** * AcsTransfer: file transfers in the plugin
    ([src/src/dmdeviceadapter/amx/cwmp_plugin/cwmp_plugin_transfer.c])

    The instances of [ManagementServer.ACSTransfers.ACSTransfer] are [objs].
    The plugin serves [AddTransfer]: a firmware image is handed to the image
    service, other downloads go through the file transfer library, uploads
    through [DeviceInfo].  Its state outside the data model are the timers that
    delay the start ([timers]), the requests of the file transfer library
    ([ftxs]), the lists [selftest_requests] and [upload_requests], and the
    registrations at the image service, each with the address of the object it
    works for ([fw_subs]).  The callbacks are events; [emitted] holds the changes
    of [Status] the data model announces; [undefined] records a use of a freed
    object or of a null pointer. *)

From Stdlib Require Import ZArith Lia Ascii.
From stdpp Require Import base list strings.
From S2P Require Import Prelude CString.

Module AcsTransfer.
Import CString.

(** ** Data *)

(** The values of [Status] the object definition admits. *)
Inductive status := Initial | Applying | Finished.

#[export] Instance status_eq_dec : EqDecision status.
Proof. solve_decision. Defined.

(** An instance of [ACSTransfer], at its address. *)
Record transfer := {
  addr : nat;
  index : Z;
  initiator : string;
  commandKey : string;
  isDownload : bool;
  url : option string;
  fileType : option string;
  state : status;
  fileSize : Z;
  targetFileName : option string;
  saveFileName : option string;
  username : option string;
  password : option string;
  startTime : Z;
  completeTime : Z;
  faultCode : Z;
  faultString : option string;
  successURL : option string;
  failureURL : option string;
  subscriptionId : Z;
}.

(** What one transaction of the plugin writes to an instance; the fields that
    are [None] are left alone. *)
Record update := {
  u_status : option status;
  u_start : option Z;
  u_complete : option Z;
  u_fault : option (Z * option string);
}.

Definition write (u : update) (t : transfer) : transfer :=
  {| addr := addr t; index := index t; initiator := initiator t; commandKey := commandKey t;
     isDownload := isDownload t; url := url t; fileType := fileType t;
     state := default (state t) (u_status u);
     fileSize := fileSize t; targetFileName := targetFileName t; saveFileName := saveFileName t;
     username := username t; password := password t;
     startTime := default (startTime t) (u_start u);
     completeTime := default (completeTime t) (u_complete u);
     faultCode := match u_fault u with Some f => f.1 | None => faultCode t end;
     faultString := match u_fault u with Some f => f.2 | None => faultString t end;
     successURL := successURL t; failureURL := failureURL t; subscriptionId := subscriptionId t |}.

Definition with_saveFileName (f : string) (t : transfer) : transfer :=
  {| addr := addr t; index := index t; initiator := initiator t; commandKey := commandKey t;
     isDownload := isDownload t; url := url t; fileType := fileType t; state := state t;
     fileSize := fileSize t; targetFileName := targetFileName t; saveFileName := Some f;
     username := username t; password := password t; startTime := startTime t;
     completeTime := completeTime t; faultCode := faultCode t; faultString := faultString t;
     successURL := successURL t; failureURL := failureURL t; subscriptionId := subscriptionId t |}.

Definition with_subscriptionId (uid : Z) (t : transfer) : transfer :=
  {| addr := addr t; index := index t; initiator := initiator t; commandKey := commandKey t;
     isDownload := isDownload t; url := url t; fileType := fileType t; state := state t;
     fileSize := fileSize t; targetFileName := targetFileName t; saveFileName := saveFileName t;
     username := username t; password := password t; startTime := startTime t;
     completeTime := completeTime t; faultCode := faultCode t; faultString := faultString t;
     successURL := successURL t; failureURL := failureURL t; subscriptionId := uid |}.

(** The arguments of [AddTransfer].  [a_delay] is the value [GET_INT32] reads. *)
Record args := {
  a_index : Z;
  a_isDownload : bool;
  a_delay : Z;
  a_fileType : option string;
  a_url : option string;
  a_username : option string;
  a_password : option string;
  a_target : option string;
  a_key : string;
}.

(** [ftx_request_t]; [f_data] is the heap cell with the index. *)
Record ftx := {
  f_id : nat;
  f_download : bool;
  f_data : option Z;
  f_url : option string;
  f_username : option string;
  f_password : option string;
  f_max_time : Z;
  f_target : option string;
}.

(** [upload_context_t] *)
Record upload_context := {
  up_index : Z;
  up_url : string;
  up_username : string;
  up_password : string;
  up_time : Z;
}.

(** The private data of a timer and the callback it was created with. *)
Inductive task :=
| DownloadTimer (obj : nat)
| StartTimer (req : nat)
| UploadTimer (a : args).

Record timer := { tm_id : nat; tm_ms : Z; tm_task : task }.

Inductive call :=
| SendRequest (req : nat)
| DeleteRequest (req : nat)
| RunScript (script file : string)
| FirmwareDownload (url username password : string)
| SelfTestDiagnostics (req : nat)
| VendorLogUpload (i : Z) (url username password : string)
| VendorConfigBackup (i : Z) (url username password : string)
| SaveDm.

Record plugin := {
  objs : list transfer;
  freed : list nat;
  next : nat;
  last_index : Z;
  timers : list timer;
  ftxs : list ftx;
  selftest_requests : list (nat * args);
  upload_requests : list upload_context;
  fw_subs : list nat;
  emitted : list (Z * status);
  calls : list call;
  ntrans : nat;
  undefined : bool;
}.

Definition initial : plugin :=
  {| objs := []; freed := []; next := 0; last_index := 0; timers := []; ftxs := []; selftest_requests := [];
     upload_requests := []; fw_subs := []; emitted := []; calls := []; ntrans := 0; undefined := false |}.

(** The answers of the system during one callback. *)
Record env := {
  now : Z;
  bus_ok : bool;
  subscribe_ok : bool;
  call_ok : bool;
  async_ok : bool;
  timer_ok : bool;
  start_ok : bool;
  alloc_ok : bool;
  ftx_ok : bool;
  proc_ok : bool;
}.

(** ** Setters *)

Definition with_objs (l : list transfer) (w : plugin) : plugin :=
  {| objs := l; freed := freed w; next := next w; last_index := last_index w; timers := timers w; ftxs := ftxs w;
     selftest_requests := selftest_requests w; upload_requests := upload_requests w;
     fw_subs := fw_subs w; emitted := emitted w; calls := calls w; ntrans := ntrans w;
     undefined := undefined w |}.

Definition with_next (n : nat) (w : plugin) : plugin :=
  {| objs := objs w; freed := freed w; next := n; last_index := last_index w; timers := timers w; ftxs := ftxs w;
     selftest_requests := selftest_requests w; upload_requests := upload_requests w;
     fw_subs := fw_subs w; emitted := emitted w; calls := calls w; ntrans := ntrans w;
     undefined := undefined w |}.

Definition with_timers (l : list timer) (w : plugin) : plugin :=
  {| objs := objs w; freed := freed w; next := next w; last_index := last_index w; timers := l; ftxs := ftxs w;
     selftest_requests := selftest_requests w; upload_requests := upload_requests w;
     fw_subs := fw_subs w; emitted := emitted w; calls := calls w; ntrans := ntrans w;
     undefined := undefined w |}.

Definition with_ftxs (l : list ftx) (w : plugin) : plugin :=
  {| objs := objs w; freed := freed w; next := next w; last_index := last_index w; timers := timers w; ftxs := l;
     selftest_requests := selftest_requests w; upload_requests := upload_requests w;
     fw_subs := fw_subs w; emitted := emitted w; calls := calls w; ntrans := ntrans w;
     undefined := undefined w |}.

Definition with_selftests (l : list (nat * args)) (w : plugin) : plugin :=
  {| objs := objs w; freed := freed w; next := next w; last_index := last_index w; timers := timers w; ftxs := ftxs w;
     selftest_requests := l; upload_requests := upload_requests w;
     fw_subs := fw_subs w; emitted := emitted w; calls := calls w; ntrans := ntrans w;
     undefined := undefined w |}.

Definition with_uploads (l : list upload_context) (w : plugin) : plugin :=
  {| objs := objs w; freed := freed w; next := next w; last_index := last_index w; timers := timers w; ftxs := ftxs w;
     selftest_requests := selftest_requests w; upload_requests := l;
     fw_subs := fw_subs w; emitted := emitted w; calls := calls w; ntrans := ntrans w;
     undefined := undefined w |}.

Definition with_fw_subs (l : list nat) (w : plugin) : plugin :=
  {| objs := objs w; freed := freed w; next := next w; last_index := last_index w; timers := timers w; ftxs := ftxs w;
     selftest_requests := selftest_requests w; upload_requests := upload_requests w;
     fw_subs := l; emitted := emitted w; calls := calls w; ntrans := ntrans w;
     undefined := undefined w |}.

Definition log (c : call) (w : plugin) : plugin :=
  {| objs := objs w; freed := freed w; next := next w; last_index := last_index w; timers := timers w; ftxs := ftxs w;
     selftest_requests := selftest_requests w; upload_requests := upload_requests w;
     fw_subs := fw_subs w; emitted := emitted w; calls := calls w ++ [c]; ntrans := ntrans w;
     undefined := undefined w |}.

(** A use of a freed object or of a null pointer. *)
Definition fault (w : plugin) : plugin :=
  {| objs := objs w; freed := freed w; next := next w; last_index := last_index w; timers := timers w; ftxs := ftxs w;
     selftest_requests := selftest_requests w; upload_requests := upload_requests w;
     fw_subs := fw_subs w; emitted := emitted w; calls := calls w; ntrans := ntrans w;
     undefined := true |}.

Definition FAULTCODE_INTERNAL_ERROR : Z := 9002.

(** [UNKNOWN_TIME], "0001-01-01T00:00:00Z", in seconds of the epoch *)
Definition UNKNOWN_TIME : Z := -62135596800.

Definition FIRMWARE : string := "1 Firmware Upgrade Image".

Definition DL_WEB_CONTENT_SCRIPT : string := "tr069_2_webcontent".
Definition DL_CONF_FILE_SCRIPT : string := "tr069_3_conf_apply".

(** [strstr(s, p) != NULL] *)
Definition has_substring (p s : string) : bool := negb (is_null (strstr (cs p) (cs s))).

(** ** Objects *)

Definition obj_at (a : nat) (w : plugin) : option transfer := List.find (fun t => Nat.eqb (addr t) a) (objs w).

(** [amxd_dm_findf] of the path of the instance: what [get_transfer_obj_by_index]
    and [transfer_update_status] find. *)
Definition get_transfer_obj_by_index (i : Z) (w : plugin) : option transfer :=
  List.find (fun t => index t =? i) (objs w).

(** Change in place of the instance at an address. *)
Definition alter (a : nat) (f : transfer -> transfer) (l : list transfer) : list transfer :=
  map (fun t => if Nat.eqb (addr t) a then f t else t) l.

(** [_FAULT_MESSAGES] *)
Definition FAULT_MESSAGES : list string :=
  ["Method not supported"; "Request denied (no reason specified)"; "Internal error"; "Invalid arguments";
   "Resources exceeded"; "Invalid parameter name"; "Invalid parameter type"; "Invalid parameter value";
   "Attempt to set a non-writable parameter"; "Notification request rejected"; "Download failure";
   "Upload failure"; "File transfer server authentication failure";
   "Unsupported protocol for file transfer"; "Download failure: unable to join multicast group";
   "Download failure: unable to contact file server"; "Download failure: unable to access file";
   "Download failure: unable to complete download"; "Download failure: file corrupted";
   "Download failure: file authentication failure"; "Vendor specific fault"]%string.

Definition MAX_FAULT_MESSAGES : Z := 20.

(** [cwmp_plugin_getFaultString] *)
Definition getFaultString (code : Z) : option string :=
  let i := code - 9000 in
  if (0 <=? i) && (i <? MAX_FAULT_MESSAGES) then FAULT_MESSAGES !! Z.to_nat i
  else if (800 <=? i) && (i <=? 899) then FAULT_MESSAGES !! Z.to_nat MAX_FAULT_MESSAGES
  else None.

(** What belongs to the libraries: the transactions the data model accepts, by
    their number; [amxd_dm_findf] of the path [[CommandKey == '...']];
    [amxc_string_split_word] and [amxc_string_is_numeric]. *)
Class library := {
  accepts : nat -> bool;
  find_by_key : string -> list transfer -> option transfer;
  split_word : cstr -> list cstr;
  is_numeric : cstr -> bool;
}.

Section Plugin.

Context {L : library}.

(** One transaction on the live object [t]; an accepted one that changes
    [Status] is announced. *)
Definition trans_apply (t : transfer) (u : update) (w : plugin) : plugin :=
  let ok := accepts (ntrans w) in
  {| objs := if ok then alter (addr t) (write u) (objs w) else objs w;
     freed := freed w; next := next w; last_index := last_index w; timers := timers w; ftxs := ftxs w;
     selftest_requests := selftest_requests w; upload_requests := upload_requests w;
     fw_subs := fw_subs w;
     emitted := emitted w ++
       (if ok && bool_decide (state (write u t) <> state t) then [(index t, state (write u t))] else []);
     calls := calls w; ntrans := S (ntrans w); undefined := undefined w |}.

(** [update_transfer_obj] on the object the pointer [p] designates *)
Definition update_transfer_obj (p : option nat) (status : option status)
    (start_time complete_time fault_code : option Z) (w : plugin) : plugin :=
  match p with
  | None => w
  | Some a =>
      match obj_at a w with
      | None => fault w
      | Some t =>
          trans_apply t
            {| u_status := status; u_start := start_time; u_complete := complete_time;
               u_fault := (fun c => (c, getFaultString (s32 c))) <$> fault_code |} w
      end
  end.

(** [transfer_update_status] *)
Definition transfer_update_status (i : Z) (status : status) (start_time complete_time error_code : Z)
    (error_string : option string) (w : plugin) : plugin :=
  match get_transfer_obj_by_index i w with
  | None => w
  | Some t =>
      trans_apply t
        {| u_status := Some status; u_start := Some start_time;
           u_complete := Some (if error_code =? 0 then complete_time else 0);
           u_fault := Some (error_code, error_string) |} w
  end.

(** ** Downloads through the file transfer library *)

(** [proc_build_cb]: the command line of the script *)
Definition proc_build_cb (script fileName : option string) : option (list string) :=
  match script, fileName with Some s, Some f => Some [s; f] | _, _ => None end.

(** [filetransfer_run_task] *)
Definition filetransfer_run_task (e : env) (fileName script : string) (w : plugin) : plugin * Z :=
  match proc_build_cb (Some script) (Some fileName) with
  | Some [s; f] => if proc_ok e then (log (RunScript s f) w, 0) else (w, -1)
  | _ => (w, -1)
  end.

(** [filetransfer_download_finished] *)
Definition filetransfer_download_finished (e : env) (i : Z) (w : plugin) : plugin :=
  match get_transfer_obj_by_index i w with
  | None => w
  | Some t =>
      match fileType t, saveFileName t with
      | Some ft, Some file =>
          if has_substring "2" ft then (filetransfer_run_task e file DL_WEB_CONTENT_SCRIPT w).1
          else if has_substring "3" ft then (filetransfer_run_task e file DL_CONF_FILE_SCRIPT w).1
          else w
      | _, _ => w
      end
  end.

Definition find_ftx (id : nat) (w : plugin) : option ftx := List.find (fun r => Nat.eqb (f_id r) id) (ftxs w).

Definition remove_ftx (id : nat) (w : plugin) : plugin :=
  with_ftxs (List.filter (fun r => negb (Nat.eqb (f_id r) id)) (ftxs w)) w.

(** [filetransfer_request_cb]: the library reports the end of a request. *)
Definition filetransfer_request_cb (e : env) (id : nat) (error_code ts_start ts_end : Z)
    (error_reason : option string) (w : plugin) : plugin :=
  match find_ftx id w with
  | None => w
  | Some r =>
      match f_data r with
      | None => w
      | Some i =>
          let w := if (error_code =? 0) && f_download r then filetransfer_download_finished e i w else w in
          let w := transfer_update_status i Finished ts_start ts_end error_code error_reason w in
          remove_ftx id (log (DeleteRequest id) w)
      end
  end.

(** [filetransfer_set_common_data] on a new request *)
Definition filetransfer_set_common_data (e : env) (r : ftx) (a : args) : option ftx :=
  if alloc_ok e then
    Some {| f_id := f_id r; f_download := f_download r; f_data := Some (a_index a); f_url := a_url a;
            f_username := a_username a; f_password := a_password a; f_max_time := 3600;
            f_target := f_target r |}
  else None.

Definition target_file (a : args) : string :=
  match a_target a with
  | Some f => if streq f "" then String.append "/tmp/dl_" (a_key a) else String.append "/tmp/" f
  | None => String.append "/tmp/dl_" (a_key a)
  end.

Definition with_target (f : string) (r : ftx) : ftx :=
  {| f_id := f_id r; f_download := f_download r; f_data := f_data r; f_url := f_url r;
     f_username := f_username r; f_password := f_password r; f_max_time := f_max_time r;
     f_target := Some f |}.

(** [filetransfer_download_set_target_file] *)
Definition filetransfer_download_set_target_file (r : ftx) (a : args) (w : plugin) : plugin * ftx :=
  match find_by_key (a_key a) (objs w) with
  | None => (w, r)
  | Some t =>
      (with_objs (alter (addr t) (with_saveFileName (target_file a)) (objs w)) w, with_target (target_file a) r)
  end.

Definition add_timer (ms : Z) (k : task) (w : plugin) : plugin :=
  with_next (S (next w)) (with_timers (timers w ++ [{| tm_id := next w; tm_ms := ms; tm_task := k |}]) w).

(** [delaySeconds * 1000] in [uint32_t] *)
Definition millis (delaySeconds : Z) : Z := u32 (delaySeconds * 1000).

(** [start_filetransfer_request] *)
Definition start_filetransfer_request (e : env) (req : nat) (delay : Z) (w : plugin) : plugin * Z :=
  if timer_ok e then (add_timer (millis delay) (StartTimer req) w, 0) else (w, -1).

(** [start_timer_cb] *)
Definition start_timer_cb (req : nat) (w : plugin) : plugin := log (SendRequest req) w.

(** ** Firmware *)

(** [firmwareimage_add_subscription] *)
Definition firmwareimage_add_subscription (e : env) (p : option nat) (w : plugin) : plugin * Z :=
  match p with
  | Some a => if subscribe_ok e then (with_fw_subs (fw_subs w ++ [a]) w, 0) else (w, -1)
  | None => (w, -1)
  end.

(** [firmwareimage_del_subscription] *)
Definition firmwareimage_del_subscription (p : option nat) (w : plugin) : plugin :=
  match p with
  | Some a => with_fw_subs (List.filter (fun b => negb (Nat.eqb b a)) (fw_subs w)) w
  | None => w
  end.

(** [firmwareimage_download] *)
Definition firmwareimage_download (e : env) (p : option nat) (w : plugin) : plugin * Z :=
  match p with
  | None => (w, -1)
  | Some a =>
      match obj_at a w with
      | None => (fault w, -1)
      | Some t =>
          match url t, username t, password t with
          | Some u, Some n, Some pw => (log (FirmwareDownload u n pw) w, if call_ok e then 0 else -1)
          | _, _, _ => (w, -1)
          end
      end
  end.

(** [firmware_upgrade] *)
Definition firmware_upgrade (e : env) (p : option nat) (w : plugin) : plugin * Z :=
  match p with
  | None => (w, -1)
  | Some _ =>
      let '(w, r) := firmwareimage_add_subscription e p w in
      if negb (r =? 0) then (w, -1)
      else
        let '(w, r) := firmwareimage_download e p w in
        if negb (r =? 0) then (w, -1) else (w, 0)
  end.

(** [download_timer_cb] *)
Definition download_timer_cb (e : env) (p : option nat) (w : plugin) : plugin :=
  match p with
  | None => w
  | Some _ =>
      let w := update_transfer_obj p (Some Applying) None None None w in
      let '(w, r) := firmware_upgrade e p w in
      let w :=
        if negb (r =? 0) then
          firmwareimage_del_subscription p (update_transfer_obj p (Some Finished) None None (Some 9002) w)
        else w in
      log SaveDm w
  end.

(** [firmwareimage_notification] for the registration of [p] *)
Definition firmware_fault (bootFailureLog : string) : Z :=
  if streq bootFailureLog "Protocol not supported" then 9013
  else if streq bootFailureLog "(67) Error" then 9012
  else 9010.

Definition firmware_failed (status : string) : bool :=
  streq status "DownloadFailed" || streq status "ValidationFailed" || streq status "InstallationFailed"
  || streq status "ActivationFailed".

Definition firmwareimage_notification (status bootFailureLog : option string) (p : option nat)
    (w : plugin) : plugin :=
  match p, status with
  | Some _, Some s =>
      if firmware_failed s then
        firmwareimage_del_subscription p
          (update_transfer_obj p (Some Finished) None (Some UNKNOWN_TIME)
             (Some (firmware_fault (default "" bootFailureLog))) w)
      else w
  | _, _ => w
  end.

(** The bus calls the handler of every registration that is still there. *)
Definition firmware_changed (status bootFailureLog : option string) (w : plugin) : plugin :=
  foldl (fun w a => if existsb (Nat.eqb a) (fw_subs w)
                    then firmwareimage_notification status bootFailureLog (Some a) w else w) w (fw_subs w).

(** ** Uploads *)

(** [vendorfile_get_index] *)
Definition vendorfile_get_index (fileType : option string) : Z :=
  match fileType with
  | None => 0
  | Some ft =>
      if streq ft "" then 0
      else if has_substring "2 Vendor Log File" ft || has_substring "4 Vendor Log File 1" ft
              || has_substring "1 Vendor Configuration File" ft
              || has_substring "3 Vendor Configuration File 1" ft then 1
      else if has_substring "3 Vendor Configuration File" ft || has_substring "4 Vendor Log File" ft then
        match split_word (cs ft) !! 8%nat with
        | Some word => if is_numeric word then atoi (String.string_of_list_ascii word) else 0
        | None => 0
        end
      else 0
  end.

(** What the two upload handlers read from the arguments: the index of the
    vendor file, the address and the credentials; [None] when one is missing. *)
Definition upload_arguments (a : args) : option (Z * string * string * string) :=
  if str_empty (a_fileType a) then None
  else
    let i := vendorfile_get_index (a_fileType a) in
    if i =? 0 then None
    else if str_empty (a_url a) then None
    else
      match a_url a, a_username a, a_password a with
      | Some u, Some n, Some p => Some (i, u, n, p)
      | _, _, _ => None
      end.

(** [upload_context_new], appended to the list of requests *)
Definition upload_context_new (e : env) (i : Z) (u n p : string) (w : plugin) : plugin :=
  with_uploads (upload_requests w ++
    [{| up_index := i; up_url := u; up_username := n; up_password := p; up_time := now e |}]) w.

(** The call of a vendor file, common to the two handlers: it returns 0 when
    the upload is under way. *)
Definition upload_call (e : env) (c : Z -> string -> string -> string -> call) (a : args)
    (w : plugin) : plugin * Z :=
  match upload_arguments a with
  | None => (w, -1)
  | Some (i, u, n, p) =>
      let w := log (c i u n p) w in
      if call_ok e then (upload_context_new e (a_index a) u n p w, 0) else (w, -1)
  end.

(** [amxc_llist_it_take (&req->it)] and [amxb_close_request] *)
Definition close_request (req : option nat) (w : plugin) : plugin :=
  match req with
  | None => fault w
  | Some r => with_selftests (List.filter (fun x => negb (Nat.eqb x.1 r)) (selftest_requests w)) w
  end.

(** [filetransfer_upload_selftest_call_done] *)
Definition filetransfer_upload_selftest_call_done (e : env) (req : option nat) (status : Z) (a : args)
    (w : plugin) : plugin :=
  if a_index a =? 0 then w
  else
    let '(w, retval) := if negb (status =? 0) then (w, -1) else upload_call e VendorLogUpload a w in
    let w :=
      if negb (retval =? 0) then
        transfer_update_status (a_index a) Finished (now e) (now e) FAULTCODE_INTERNAL_ERROR
          (Some "Internal error"%string) w
      else w in
    close_request req w.

(** [upload_vendor_config_file] *)
Definition upload_vendor_config_file (e : env) (a : args) (w : plugin) : plugin :=
  if a_index a =? 0 then w
  else
    let '(w, retval) := upload_call e VendorConfigBackup a w in
    if negb (retval =? 0) then
      transfer_update_status (a_index a) Finished UNKNOWN_TIME UNKNOWN_TIME FAULTCODE_INTERNAL_ERROR
        (Some "Internal error"%string) w
    else w.

(** The three ways to serve an upload, by its file type *)
Inductive upload_kind := SelfTestFirst | LogFile | ConfigFile | NotSupported.

Definition kind_of_upload (ft : string) : upload_kind :=
  if has_substring "2 Vendor Log File" ft || has_substring "4 Vendor Log File 1" ft then SelfTestFirst
  else if has_substring "4 Vendor Log File" ft then LogFile
  else if has_substring "1 Vendor Configuration File" ft || has_substring "3 Vendor Configuration File" ft
       then ConfigFile
  else NotSupported.

(** [filetransfer_upload_prepare] *)
Definition filetransfer_upload_prepare (e : env) (a : args) (w : plugin) : plugin :=
  if negb (bus_ok e) then w
  else
    match a_fileType a with
    | None => w
    | Some ft =>
        if streq ft "" then w
        else
          match kind_of_upload ft with
          | SelfTestFirst =>
              if negb (async_ok e) then w
              else
                let w := log (SelfTestDiagnostics (next w)) w in
                with_next (S (next w)) (with_selftests (selftest_requests w ++ [(next w, a)]) w)
          | LogFile => filetransfer_upload_selftest_call_done e None 0 a w
          | ConfigFile => upload_vendor_config_file e a w
          | NotSupported => w
          end
    end.

(** [filetransfer_upload_find] *)
Definition filetransfer_upload_find (transferurl : string) (w : plugin) : option upload_context :=
  List.find (fun u => streq (up_url u) transferurl) (upload_requests w).

(** The entry that [filetransfer_upload_find] returned leaves the list. *)
Fixpoint take_upload (transferurl : string) (l : list upload_context) : list upload_context :=
  match l with
  | [] => []
  | u :: l' => if streq (up_url u) transferurl then l' else u :: take_upload transferurl l'
  end.

(** The part of a notification the handler reads *)
Record complete_data := { d_url : option string; d_fault_code : Z; d_fault_string : option string }.

(** [filetransfer_upload_complete_notification]; without data the handler
    cleans a string it has not initialised. *)
Definition filetransfer_upload_complete_notification (e : env) (data : option (option complete_data))
    (w : plugin) : plugin :=
  match data with
  | None => fault w
  | Some adata =>
      match upload_requests w, adata with
      | [], _ | _, None => w
      | _ :: _, Some d =>
          match d_url d with
          | None => w
          | Some transferurl =>
              if streq transferurl "" then w
              else
                match filetransfer_upload_find transferurl w with
                | None => w
                | Some u =>
                    let w := transfer_update_status (up_index u) Finished (up_time u) (now e)
                               (d_fault_code d) (d_fault_string d) w in
                    with_uploads (take_upload transferurl (upload_requests w)) w
                end
          end
      end
  end.

(** [filetransfer_upload_start] *)
Definition filetransfer_upload_start (e : env) (a : args) (w : plugin) : plugin :=
  if negb (timer_ok e) then w else add_timer (millis (u32 (a_delay a))) (UploadTimer a) w.

(** ** AddTransfer *)

(** The firmware branch of [filetransfer_request_prepare] *)
Definition prepare_firmware (e : env) (a : args) (w : plugin) : plugin * Z :=
  match get_transfer_obj_by_index (a_index a) w with
  | None => (w, -1)
  | Some t =>
      let delaySeconds := u32 (a_delay a) in
      if negb (timer_ok e) then (w, -1)
      else if negb (start_ok e) then (w, -1)
      else
        let w := add_timer (millis delaySeconds) (DownloadTimer (addr t)) w in
        let w := if delaySeconds <=? 1
                 then update_transfer_obj (Some (addr t)) (Some Applying) None None None w else w in
        (log SaveDm w, 0)
  end.

(** The other downloads of [filetransfer_request_prepare] *)
Definition prepare_download (e : env) (a : args) (w : plugin) : plugin * Z :=
  if negb (ftx_ok e) then (w, -1)
  else
    let r := {| f_id := next w; f_download := true; f_data := None; f_url := None; f_username := None;
                f_password := None; f_max_time := 0; f_target := None |} in
    let w := with_next (S (next w)) w in
    match filetransfer_set_common_data e r a with
    | None => (w, -1)
    | Some r =>
        let '(w, r) := filetransfer_download_set_target_file r a w in
        let w := with_ftxs (ftxs w ++ [r]) w in
        ((start_filetransfer_request e (f_id r) (u32 (a_delay a)) w).1, 0)
    end.

(** [filetransfer_request_prepare] *)
Definition filetransfer_request_prepare (e : env) (a : args) (w : plugin) : plugin * Z :=
  if a_isDownload a then
    match a_fileType a with
    | Some ft => if streq ft FIRMWARE then prepare_firmware e a w else prepare_download e a w
    | None => prepare_download e a w
    end
  else (filetransfer_upload_start e a w, 0).

Inductive amxd_status := amxd_status_ok.

(** [_AddTransfer]: the status of the RPC and the value it returns *)
Definition AddTransfer (e : env) (a : args) (w : plugin) : plugin * amxd_status * bool :=
  let '(w, r) := filetransfer_request_prepare e a w in
  (w, amxd_status_ok, r =? 0).

(** [cwmp_plugin_transfer_clean] *)
Definition cwmp_plugin_transfer_clean (w : plugin) : plugin := with_uploads [] (with_selftests [] w).

(** ** The bus *)

(** What a client of the bus sets in a new instance *)
Record values := {
  v_key : string;
  v_isDownload : bool;
  v_url : option string;
  v_fileType : option string;
  v_fileSize : Z;
  v_target : option string;
  v_username : option string;
  v_password : option string;
  v_success : option string;
  v_failure : option string;
  v_start : Z;
  v_complete : Z;
}.

(** [amxb_add]: the next index, the defaults of the object definition. *)
Definition add_instance (v : values) (w : plugin) : plugin * Z :=
  let i := last_index w + 1 in
  let t :=
    {| addr := next w; index := i; initiator := "ACS"; commandKey := v_key v; isDownload := v_isDownload v;
       url := v_url v; fileType := v_fileType v; state := Initial; fileSize := v_fileSize v;
       targetFileName := v_target v; saveFileName := v_target v; username := v_username v;
       password := v_password v; startTime := v_start v; completeTime := v_complete v; faultCode := 0;
       faultString := Some ""%string; successURL := v_success v; failureURL := v_failure v;
       subscriptionId := 0 |} in
  ({| objs := objs w ++ [t]; freed := freed w; next := S (next w); last_index := i; timers := timers w;
      ftxs := ftxs w; selftest_requests := selftest_requests w; upload_requests := upload_requests w;
      fw_subs := fw_subs w; emitted := emitted w; calls := calls w; ntrans := ntrans w;
      undefined := undefined w |}, i).

(** [amxb_set] of another process on a live instance *)
Definition bus_set (u : update) (t : transfer) (w : plugin) : plugin :=
  {| objs := alter (addr t) (write u) (objs w);
     freed := freed w; next := next w; last_index := last_index w; timers := timers w; ftxs := ftxs w;
     selftest_requests := selftest_requests w; upload_requests := upload_requests w;
     fw_subs := fw_subs w;
     emitted := emitted w ++
       (if bool_decide (state (write u t) <> state t) then [(index t, state (write u t))] else []);
     calls := calls w; ntrans := ntrans w; undefined := undefined w |}.

Definition bus_set_subscriptionId (uid : Z) (t : transfer) (w : plugin) : plugin :=
  with_objs (alter (addr t) (with_subscriptionId uid) (objs w)) w.

(** ** Callbacks *)

(** An instance is deleted: the pointers to it dangle. *)
Definition delete_object (i : Z) (w : plugin) : plugin :=
  match get_transfer_obj_by_index i w with
  | None => w
  | Some t =>
      {| objs := List.filter (fun x => negb (Nat.eqb (addr x) (addr t))) (objs w);
         freed := addr t :: freed w; next := next w; last_index := last_index w; timers := timers w; ftxs := ftxs w;
         selftest_requests := selftest_requests w; upload_requests := upload_requests w;
         fw_subs := fw_subs w; emitted := emitted w; calls := calls w; ntrans := ntrans w;
         undefined := undefined w |}
  end.

Definition run_task (e : env) (k : task) (w : plugin) : plugin :=
  match k with
  | DownloadTimer a => download_timer_cb e (Some a) w
  | StartTimer req => start_timer_cb req w
  | UploadTimer a => filetransfer_upload_prepare e a w
  end.

(** A timer expires; every callback deletes its timer. *)
Definition timer_expired (e : env) (id : nat) (w : plugin) : plugin :=
  match List.find (fun t => Nat.eqb (tm_id t) id) (timers w) with
  | None => w
  | Some t =>
      let w := run_task e (tm_task t) w in
      with_timers (List.filter (fun t => negb (Nat.eqb (tm_id t) id)) (timers w)) w
  end.

(** The answer of [SelfTestDiagnostics] *)
Definition selftest_done (e : env) (req : nat) (status : Z) (w : plugin) : plugin :=
  match List.find (fun x => Nat.eqb x.1 req) (selftest_requests w) with
  | None => w
  | Some x => filetransfer_upload_selftest_call_done e (Some req) status x.2 w
  end.

Inductive event :=
| TimerExpired (e : env) (id : nat)
| RequestDone (e : env) (id : nat) (error_code ts_start ts_end : Z) (error_reason : option string)
| SelfTestDone (e : env) (req : nat) (status : Z)
| UploadComplete (e : env) (data : option (option complete_data))
| FirmwareChanged (status bootFailureLog : option string)
| ObjectDeleted (i : Z).

Definition step (ev : event) (w : plugin) : plugin :=
  match ev with
  | TimerExpired e id => timer_expired e id w
  | RequestDone e id code t1 t2 reason => filetransfer_request_cb e id code t1 t2 reason w
  | SelfTestDone e req st => selftest_done e req st w
  | UploadComplete e data => filetransfer_upload_complete_notification e data w
  | FirmwareChanged st l => firmware_changed st l w
  | ObjectDeleted i => delete_object i w
  end.

End Plugin.

End AcsTransfer.
