(* ===== verification/AcsTransferFacts.v ===== *)
(** * AcsTransferFacts: what holds of the file transfers of the plugin

    Every callback keeps the identity of the instances ([ext]) and the plugin
    well formed ([wf]); the properties are the exact condition of undefined
    behaviour, the delay that is armed and the index of a vendor file. *)

From Stdlib Require Import ZArith Lia Ascii.
From stdpp Require Import base list strings.
From S2P Require Import Prelude CString AcsTransfer.

Module AcsTransferFacts.
Import CString AcsTransfer.

Section Facts.

Context {L : library}.

(** ** What the callbacks leave alone *)

(** The identity of an instance *)
Definition ident (t : transfer) : nat * Z * string * option string * bool :=
  (addr t, index t, commandKey t, fileType t, isDownload t).

(** What only the adapter changes *)
Definition full_ident (t : transfer) : (nat * Z * string * option string * bool) * Z :=
  (ident t, subscriptionId t).

(** No instance appears, none changes its key, no address and no index is used
    again. *)
Record ext_by {B} (key : transfer -> B) (w w' : plugin) : Prop := {
  ext_ident : map key (objs w') `sublist_of` map key (objs w);
  ext_next : (next w <= next w')%nat;
  ext_last : last_index w' = last_index w;
}.

Notation ext := (ext_by full_ident).
Notation ext0 := (ext_by ident).

#[export] Instance ext_preorder {B} (key : transfer -> B) : PreOrder (ext_by key).
Proof.
  split; [by intros w|]. intros w1 w2 w3 [] []. constructor; [by etrans|lia|congruence].
Qed.

Lemma ext_weaken w w' : ext w w' -> ext0 w w'.
Proof.
  intros [H H1 H2]. constructor; [|done|done].
  assert (E : forall l, map ident l = map fst (map full_ident l)) by (intros l; by rewrite map_map).
  rewrite !E. by apply fmap_sublist.
Qed.

Lemma map_alter {A} (g : transfer -> A) a f l : (forall t, g (f t) = g t) -> map g (alter a f l) = map g l.
Proof.
  intros H. unfold alter. rewrite map_map. apply map_ext. intros t. by destruct (Nat.eqb (addr t) a).
Qed.

Lemma ext_same {B} (key : transfer -> B) w w' :
  map key (objs w') = map key (objs w) -> (next w <= next w')%nat -> last_index w' = last_index w ->
  ext_by key w w'.
Proof. intros E ? ?. constructor; [by rewrite E|done..]. Qed.

(** A step that leaves the instances and the counters alone. *)
Lemma ext_frame {B} (key : transfer -> B) w w1 w2 :
  ext_by key w w1 -> objs w2 = objs w1 -> next w2 = next w1 -> last_index w2 = last_index w1 ->
  ext_by key w w2.
Proof. intros [] E1 E2 E3. constructor; by rewrite ?E1, ?E2, ?E3. Qed.

Lemma ext_trans_apply t u w : ext w (trans_apply t u w).
Proof. apply ext_same; try done. simpl. destruct (accepts _); [by rewrite map_alter|done]. Qed.

Lemma ext_bus_set u t w : ext w (bus_set u t w).
Proof. apply ext_same; try done. simpl. by rewrite map_alter. Qed.

Lemma ext_update_transfer_obj p st t1 t2 f w : ext w (update_transfer_obj p st t1 t2 f w).
Proof. unfold update_transfer_obj. repeat case_goal; try done. apply ext_trans_apply. Qed.

Lemma ext_transfer_update_status i st t1 t2 c r w : ext w (transfer_update_status i st t1 t2 c r w).
Proof. unfold transfer_update_status. case_goal; [apply ext_trans_apply|done]. Qed.

Lemma ext_run_task_script e f s w : ext w (filetransfer_run_task e f s w).1.
Proof. unfold filetransfer_run_task. simpl. by destruct (proc_ok e). Qed.

Lemma ext_download_finished e i w : ext w (filetransfer_download_finished e i w).
Proof. unfold filetransfer_download_finished. repeat case_goal; try done; apply ext_run_task_script. Qed.

Lemma ext_firmware_upgrade e p w : ext w (firmware_upgrade e p w).1.
Proof.
  unfold firmware_upgrade, firmwareimage_add_subscription, firmwareimage_download.
  destruct p as [a|]; [|done]. destruct (subscribe_ok e); [|done]. simpl.
  repeat (case_goal; simpl; try done).
Qed.

Lemma ext_firmware_download_timer e p w : ext w (download_timer_cb e p w).
Proof.
  unfold download_timer_cb. destruct p as [a|]; [|done].
  set (w1 := update_transfer_obj _ _ _ _ _ w). pose proof (ext_firmware_upgrade e (Some a) w1) as H.
  destruct (firmware_upgrade e (Some a) w1) as [w2 r]. cbn [fst] in H.
  assert (H2 : ext w w2) by (etrans; [apply ext_update_transfer_obj|exact H]).
  destruct (negb (r =? 0)); [|by apply (ext_frame _ w w2)].
  apply (ext_frame _ w (update_transfer_obj (Some a) (Some Finished) None None (Some 9002) w2)); [|done..].
  etrans; [exact H2|apply ext_update_transfer_obj].
Qed.

Lemma ext_notification st l p w : ext w (firmwareimage_notification st l p w).
Proof.
  unfold firmwareimage_notification. destruct p as [a|]; [|done]. destruct st as [s|]; [|done].
  destruct (firmware_failed s); [|done].
  eapply ext_frame; [apply (ext_update_transfer_obj (Some a))|done..].
Qed.

Lemma ext_upload_call e c a w : ext w (upload_call e c a w).1.
Proof. unfold upload_call. repeat (case_goal; simpl; try done). Qed.

Lemma ext_upload_result e c a w i t1 t2 code r :
  ext w (let '(w, x) := upload_call e c a w in
         if negb (x =? 0) then transfer_update_status i Finished t1 t2 code r w else w).
Proof.
  pose proof (ext_upload_call e c a w) as H. destruct (upload_call e c a w) as [w' x]. simpl in H.
  destruct (negb (x =? 0)); [|done]. etrans; [done|apply ext_transfer_update_status].
Qed.

Lemma ext_close_request req w : ext w (close_request req w).
Proof. by destruct req. Qed.

Lemma ext_selftest_call_done e req st a w : ext w (filetransfer_upload_selftest_call_done e req st a w).
Proof.
  unfold filetransfer_upload_selftest_call_done. destruct (a_index a =? 0); [done|].
  destruct (negb (st =? 0)); cbn [negb].
  - simpl. etrans; [apply ext_transfer_update_status|apply ext_close_request].
  - etrans; [apply (ext_upload_result e VendorLogUpload a w)|].
    destruct (upload_call e VendorLogUpload a w). apply ext_close_request.
Qed.

Lemma ext_upload_prepare e a w : ext w (filetransfer_upload_prepare e a w).
Proof.
  unfold filetransfer_upload_prepare. destruct (bus_ok e); [|done]. simpl.
  destruct (a_fileType a) as [ft|]; [|done]. destruct (streq ft ""); [done|].
  destruct (kind_of_upload ft); [|apply ext_selftest_call_done| |done].
  - destruct (async_ok e); [|done]. simpl. apply ext_same; [done|simpl; lia|done].
  - unfold upload_vendor_config_file. destruct (a_index a =? 0); [done|apply ext_upload_result].
Qed.

Lemma ext_step ev w : ext w (step ev w).
Proof.
  destruct ev as [e id|e id code t1 t2 r|e req st|e d|st l|i]; simpl.
  - unfold timer_expired. destruct (List.find _ _) as [t|]; [|done].
    apply (ext_frame _ w (run_task e (tm_task t) w)); [|done..]. unfold run_task.
    destruct (tm_task t); [apply ext_firmware_download_timer|done|apply ext_upload_prepare].
  - unfold filetransfer_request_cb. destruct (find_ftx id w) as [x|]; [|done]. destruct (f_data x) as [i|]; [|done].
    set (w1 := if (code =? 0) && f_download x then filetransfer_download_finished e i w else w).
    apply (ext_frame _ w (transfer_update_status i Finished t1 t2 code r w1)); [|done..].
    etrans; [|apply ext_transfer_update_status]. unfold w1. destruct (_ && _); [apply ext_download_finished|done].
  - unfold selftest_done. destruct (List.find _ _); [apply ext_selftest_call_done|done].
  - unfold filetransfer_upload_complete_notification.
    repeat (case_goal; try done). eapply ext_frame; [apply ext_transfer_update_status|done..].
  - unfold firmware_changed. generalize (fw_subs w); intros l0. revert w.
    induction l0 as [|a l0 IH]; intros w; cbn [foldl]; [done|]. etrans; [|apply IH].
    destruct (existsb _ _); [apply ext_notification|done].
  - unfold delete_object. destruct (get_transfer_obj_by_index i w) as [t|]; [|done].
    constructor; simpl; [|done..]. apply fmap_sublist.
    induction (objs w) as [|x l IH]; simpl; [done|]. destruct (negb _); [by apply sublist_skip|by apply sublist_cons].
Qed.

(** ** Well-formedness *)

(** The plugin holds the address of an object. *)
Definition pointer (a : nat) (w : plugin) : Prop :=
  a ∈ fw_subs w \/ exists t, t ∈ timers w /\ tm_task t = DownloadTimer a.

Definition firmware_at (a : nat) (w : plugin) : Prop :=
  forall t, t ∈ objs w -> addr t = a -> fileType t = Some FIRMWARE.

(** Only firmware is applied, and a transfer that has not begun has no fault. *)
Definition obj_ok (t : transfer) : Prop :=
  (state t = Applying -> fileType t = Some FIRMWARE) /\ (state t = Initial -> faultCode t = 0).

Record wf (w : plugin) : Prop := {
  wf_objs : forall t, t ∈ objs w -> obj_ok t;
  wf_addrs : NoDup (map addr (objs w));
  wf_indices : NoDup (map index (objs w));
  wf_bounds : forall t, t ∈ objs w -> (addr t < next w)%nat /\ 1 <= index t <= last_index w;
  wf_pointer : forall a, pointer a w -> (a < next w)%nat /\ firmware_at a w;
  wf_freed : forall a, a ∈ freed w -> (a < next w)%nat /\ a ∉ map addr (objs w);
  wf_ftxs : forall r, r ∈ ftxs w -> f_data r <> None /\ f_download r = true;
  wf_last : 0 <= last_index w;
}.

Lemma map_of_ident {A} (g : nat * Z * string * option string * bool -> A) (f : transfer -> A) l :
  (forall t, f t = g (ident t)) -> map f l = map g (map ident l).
Proof. intros H. rewrite map_map. by apply map_ext. Qed.

Lemma ext_map {A} (g : nat * Z * string * option string * bool -> A) (f : transfer -> A) w w' :
  (forall t, f t = g (ident t)) -> ext0 w w' -> map f (objs w') `sublist_of` map f (objs w).
Proof. intros H []. rewrite !(map_of_ident g f) by done. by apply fmap_sublist. Qed.

(** An instance after the step was there before, with the same identity. *)
Lemma ext_elem {B} (key : transfer -> B) w w' t :
  ext_by key w w' -> t ∈ objs w' -> exists t0, t0 ∈ objs w /\ key t0 = key t.
Proof.
  intros [H _ _] Ht. assert (Hi : key t ∈ map key (objs w)).
  { eapply elem_of_submseteq; [|by apply sublist_submseteq]. apply list_elem_of_fmap. by exists t. }
  apply list_elem_of_fmap in Hi as (t0 & E & Ht0). by exists t0.
Qed.

Lemma wf_frame w w' :
  wf w -> ext0 w w' ->
  (forall t, t ∈ objs w' -> obj_ok t) ->
  (forall a, pointer a w' -> pointer a w) ->
  (forall a, a ∈ freed w' -> a ∈ freed w \/ (a < next w)%nat /\ a ∉ map addr (objs w')) ->
  (forall r, r ∈ ftxs w' -> r ∈ ftxs w) -> wf w'.
Proof.
  intros H He H1 H2 H3 H4.
  assert (Ha : map addr (objs w') `sublist_of` map addr (objs w))
    by (by apply (ext_map (fun x => x.1.1.1.1))).
  assert (Hi : map index (objs w') `sublist_of` map index (objs w))
    by (by apply (ext_map (fun x => x.1.1.1.2))).
  constructor; [done| | | | | | |].
  - eapply sublist_NoDup; [|done]. apply (wf_addrs _ H).
  - eapply sublist_NoDup; [|done]. apply (wf_indices _ H).
  - intros t Ht. destruct (ext_elem _ _ _ _ He Ht) as (t0 & Ht0 & [= E1 E2 _ _ _]).
    rewrite <- E1, <- E2, (ext_last _ _ _ He). destruct (wf_bounds _ H _ Ht0). pose proof (ext_next _ _ _ He). lia.
  - intros a Hp. destruct (wf_pointer _ H a (H2 a Hp)) as [Hn Hf]. split; [pose proof (ext_next _ _ _ He); lia|].
    intros t Ht E. destruct (ext_elem _ _ _ _ He Ht) as (t0 & Ht0 & [= E1 E2 _ E4 _]).
    rewrite <- E4. apply Hf; congruence.
  - intros a [Hf|[Hn Hf]]%H3.
    + destruct (wf_freed _ H a Hf) as [Hn Hf']. split; [pose proof (ext_next _ _ _ He); lia|].
      intros Hin. apply Hf'. eapply elem_of_submseteq; [done|]. by apply sublist_submseteq.
    + split; [pose proof (ext_next _ _ _ He); lia|done].
  - intros r Hr. by apply (wf_ftxs _ H), H4.
  - rewrite (ext_last _ _ _ He). apply (wf_last _ H).
Qed.

(** A step that leaves the instances alone. *)
Lemma wf_quiet w w' :
  wf w -> objs w' = objs w -> freed w' = freed w -> (next w <= next w')%nat -> last_index w' = last_index w ->
  (forall a, pointer a w' -> pointer a w) -> (forall r, r ∈ ftxs w' -> r ∈ ftxs w) -> wf w'.
Proof.
  intros H E1 E2 Hn E3 H1 H2. apply (wf_frame w); [done| |rewrite E1|done|rewrite E1, E2|done].
  - apply ext_same; by rewrite ?E1.
  - apply (wf_objs _ H).
  - intros a Ha. by left.
Qed.

Lemma elem_of_alter t a f l :
  t ∈ alter a f l -> exists t0, t0 ∈ l /\ t = if Nat.eqb (addr t0) a then f t0 else t0.
Proof. intros (t0 & -> & H)%list_elem_of_fmap. by exists t0. Qed.

(** Writing [Applying] needs a firmware object, and a fault ends the transfer. *)
Definition write_ok (u : update) (a : nat) (w : plugin) : Prop :=
  (u_status u = Some Applying -> firmware_at a w) /\ u_status u <> Some Initial /\
  (u_fault u <> None -> u_status u = Some Finished).

Lemma obj_ok_alter a u w :
  wf w -> write_ok u a w -> forall t, t ∈ alter a (write u) (objs w) -> obj_ok t.
Proof.
  intros H (H1 & H2 & H3) t (t0 & Ht0 & ->)%elem_of_alter. pose proof (wf_objs _ H t0 Ht0) as [H4 H5].
  destruct (Nat.eqb_spec (addr t0) a) as [E|E]; [|done].
  unfold obj_ok. simpl. destruct (u_status u) as [[| |]|] eqn:Eu; simpl; try done.
  - split; [|done]. intros _. by apply H1.
  - split; [done|]. intros Es. destruct (u_fault u) as [f|]; [|auto]. by discriminate H3.
Qed.

Lemma wf_trans_apply t u w : wf w -> write_ok u (addr t) w -> wf (trans_apply t u w).
Proof.
  intros H Hu. apply (wf_frame w); auto using ext_weaken, ext_trans_apply. simpl.
  destruct (accepts _); [by apply obj_ok_alter|apply (wf_objs _ H)].
Qed.

Lemma wf_bus_set t u w : wf w -> write_ok u (addr t) w -> wf (bus_set u t w).
Proof. intros H Hu. apply (wf_frame w); auto using ext_weaken, ext_bus_set. simpl. by apply obj_ok_alter. Qed.

Lemma find_obj_at a w t : obj_at a w = Some t -> t ∈ objs w /\ addr t = a.
Proof. intros [H E]%find_some. apply Nat.eqb_eq in E. by rewrite list_elem_of_In. Qed.

Lemma find_by_index i w t : get_transfer_obj_by_index i w = Some t -> t ∈ objs w /\ index t = i.
Proof. intros [H E]%find_some. apply Z.eqb_eq in E. by rewrite list_elem_of_In. Qed.

Lemma wf_same_addr w t t' : wf w -> t ∈ objs w -> t' ∈ objs w -> addr t = addr t' -> t = t'.
Proof. intros H. apply (NoDup_map_inj addr (objs w)), (wf_addrs _ H). Qed.

Lemma wf_update_transfer_obj p st t1 t2 f w :
  wf w -> (st = Some Applying -> forall a, p = Some a -> firmware_at a w) -> st <> Some Initial ->
  (f <> None -> st = Some Finished) -> wf (update_transfer_obj p st t1 t2 f w).
Proof.
  intros H H1 H2 H3. unfold update_transfer_obj. destruct p as [a|]; [|done].
  destruct (obj_at a w) as [t|] eqn:E; [|by apply (wf_quiet w)].
  apply find_obj_at in E as [Ht <-]. apply wf_trans_apply; [done|].
  split_and!; simpl; [intros E; by apply H1|done|]. intros Hf. apply H3. by destruct f.
Qed.

Lemma wf_transfer_update_status i t1 t2 c r w : wf w -> wf (transfer_update_status i Finished t1 t2 c r w).
Proof. intros H. unfold transfer_update_status. case_goal; [by apply wf_trans_apply|done]. Qed.

Lemma wf_plugin_log c w : wf w -> wf (log c w).
Proof. intros H. by apply (wf_quiet w). Qed.

Lemma wf_fault w : wf w -> wf (fault w).
Proof. intros H. by apply (wf_quiet w). Qed.

Lemma wf_del_subscription p w : wf w -> wf (firmwareimage_del_subscription p w).
Proof.
  intros H. destruct p as [a|]; [|done]. apply (wf_quiet w); try done. intros b [Hb|Hb]; [left|by right].
  simpl in Hb. rewrite list_elem_of_In in *. by apply filter_In in Hb as [? _].
Qed.

Lemma wf_firmware_upgrade e a w : wf w -> pointer a w -> wf (firmware_upgrade e (Some a) w).1.
Proof.
  intros H Hp. unfold firmware_upgrade, firmwareimage_add_subscription. destruct (subscribe_ok e); [|done]. simpl.
  assert (H1 : wf (with_fw_subs (fw_subs w ++ [a]) w)).
  { apply (wf_quiet w); try done. intros b [[Hb| ->%list_elem_of_singleton]%elem_of_app|Hb];
      [by left|done|by right]. }
  repeat (case_goal; simpl; auto using wf_plugin_log, wf_fault).
Qed.

(** The timer that runs still counts as a pointer to its object. *)
Lemma wf_download_timer_cb e a w : wf w -> pointer a w -> wf (download_timer_cb e (Some a) w).
Proof.
  intros H Hp. unfold download_timer_cb.
  assert (H1 : wf (update_transfer_obj (Some a) (Some Applying) None None None w)).
  { apply wf_update_transfer_obj; try done. intros _ b [= <-]. by apply (wf_pointer _ H). }
  set (w1 := update_transfer_obj _ _ _ _ _ w) in *.
  assert (Hp1 : pointer a w1) by (unfold w1, update_transfer_obj; by case_goal).
  pose proof (wf_firmware_upgrade e a w1 H1 Hp1) as H2. destruct (firmware_upgrade e (Some a) w1) as [w2 r].
  cbn [fst] in H2. apply wf_plugin_log. destruct (negb (r =? 0)); [|done].
  by apply wf_del_subscription, wf_update_transfer_obj.
Qed.

Lemma wf_notification st l p w : wf w -> wf (firmwareimage_notification st l p w).
Proof.
  intros H. unfold firmwareimage_notification. destruct p as [a|]; [|done]. destruct st as [s|]; [|done].
  destruct (firmware_failed s); [|done]. by apply wf_del_subscription, wf_update_transfer_obj.
Qed.

Lemma wf_download_finished e i w : wf w -> wf (filetransfer_download_finished e i w).
Proof.
  intros H. unfold filetransfer_download_finished, filetransfer_run_task. simpl.
  repeat (case_goal; simpl; auto using wf_plugin_log).
Qed.

Lemma wf_upload_call e c a w : wf w -> wf (upload_call e c a w).1.
Proof.
  intros H. unfold upload_call. repeat (case_goal; simpl; auto using wf_plugin_log).
  apply (wf_quiet w); done.
Qed.

Lemma wf_upload_result e c a w i t1 t2 code r :
  wf w -> wf (let '(w, x) := upload_call e c a w in
              if negb (x =? 0) then transfer_update_status i Finished t1 t2 code r w else w).
Proof.
  intros H. pose proof (wf_upload_call e c a w H) as H1. destruct (upload_call e c a w) as [w' x].
  cbn [fst] in H1. destruct (negb (x =? 0)); [|done]. by apply wf_transfer_update_status.
Qed.

Lemma wf_close_request req w : wf w -> wf (close_request req w).
Proof. intros H. destruct req; by apply (wf_quiet w). Qed.

Lemma wf_selftest_call_done e req st a w : wf w -> wf (filetransfer_upload_selftest_call_done e req st a w).
Proof.
  intros H. unfold filetransfer_upload_selftest_call_done. destruct (a_index a =? 0); [done|].
  destruct (negb (st =? 0)).
  - by apply wf_close_request, wf_transfer_update_status.
  - pose proof (wf_upload_result e VendorLogUpload a w (a_index a) (now e) (now e) FAULTCODE_INTERNAL_ERROR
      (Some "Internal error"%string) H) as H1.
    destruct (upload_call e VendorLogUpload a w) as [w' x]. by apply wf_close_request.
Qed.

Lemma wf_upload_prepare e a w : wf w -> wf (filetransfer_upload_prepare e a w).
Proof.
  intros H. unfold filetransfer_upload_prepare. destruct (bus_ok e); [|done]. simpl.
  destruct (a_fileType a) as [ft|]; [|done]. destruct (streq ft ""); [done|].
  destruct (kind_of_upload ft); [|by apply wf_selftest_call_done| |done].
  - destruct (async_ok e); [|done]. simpl. apply (wf_quiet w); try done. simpl. lia.
  - unfold upload_vendor_config_file. destruct (a_index a =? 0); [done|]. by apply wf_upload_result.
Qed.

Lemma wf_delete_object i w : wf w -> wf (delete_object i w).
Proof.
  intros H. pose proof (ext_weaken _ _ (ext_step (ObjectDeleted i) w)) as He. simpl in He.
  unfold delete_object in *. destruct (get_transfer_obj_by_index i w) as [t|] eqn:E; [|done].
  apply find_by_index in E as [Ht _].
  apply (wf_frame w); try done; simpl.
  - intros x. rewrite list_elem_of_In, filter_In, <- list_elem_of_In. intros [Hx _]. by apply (wf_objs _ H).
  - intros a [->|Ha]%elem_of_cons; [right|by left]. split; [by apply (wf_bounds _ H)|].
    intros (x & Ex & Hx)%list_elem_of_fmap. rewrite list_elem_of_In, filter_In in Hx. destruct Hx as [_ Hx].
    by rewrite Ex, Nat.eqb_refl in Hx.
Qed.

(** Every callback keeps the plugin well formed. *)
Lemma wf_step ev w : wf w -> wf (step ev w).
Proof.
  intros H. destruct ev as [e id|e id code t1 t2 r|e req st|e d|st l|i]; simpl.
  - unfold timer_expired. destruct (List.find _ _) as [t|] eqn:E; [|done].
    apply find_some in E as [Ht _]. apply list_elem_of_In in Ht.
    assert (H1 : wf (run_task e (tm_task t) w)).
    { unfold run_task. destruct (tm_task t) as [a|q|a] eqn:Ek; [|by apply wf_plugin_log|by apply wf_upload_prepare].
      apply wf_download_timer_cb; [done|]. right. by exists t. }
    apply (wf_quiet (run_task e (tm_task t) w)); try done. intros a [Ha|(x & Hx & Ex)]; [by left|right].
    exists x. split; [|done]. simpl in Hx. rewrite list_elem_of_In in *. by apply filter_In in Hx as [? _].
  - unfold filetransfer_request_cb. destruct (find_ftx id w) as [x|]; [|done]. destruct (f_data x) as [i|]; [|done].
    set (w1 := if (code =? 0) && f_download x then filetransfer_download_finished e i w else w).
    assert (H1 : wf (transfer_update_status i Finished t1 t2 code r w1)).
    { apply wf_transfer_update_status. unfold w1. destruct (_ && _); [by apply wf_download_finished|done]. }
    apply (wf_quiet (transfer_update_status i Finished t1 t2 code r w1)); try done.
    intros y. simpl. rewrite !list_elem_of_In, filter_In. tauto.
  - unfold selftest_done. destruct (List.find _ _); [by apply wf_selftest_call_done|done].
  - unfold filetransfer_upload_complete_notification.
    repeat (case_goal; auto using wf_fault). eapply wf_quiet; [by apply wf_transfer_update_status|done..].
  - unfold firmware_changed. generalize (fw_subs w). intros l0. revert w H.
    induction l0 as [|a l0 IH]; intros w H; cbn [foldl]; [done|]. apply IH.
    destruct (existsb _ _); [by apply wf_notification|done].
  - by apply wf_delete_object.
Qed.

(** The instance the arguments name, if it is still there, has their file type. *)
Definition args_match (a : args) (w : plugin) : Prop :=
  forall t, get_transfer_obj_by_index (a_index a) w = Some t -> fileType t = a_fileType a.

Lemma wf_add_timer ms k w :
  wf w -> (forall a, k = DownloadTimer a -> (a < next w)%nat /\ firmware_at a w) -> wf (add_timer ms k w).
Proof.
  intros H Hk.
  assert (Hb : forall t, t ∈ objs w -> (addr t < S (next w))%nat /\ 1 <= index t <= last_index w).
  { intros t Ht. destruct (wf_bounds _ H t Ht). lia. }
  assert (Hp : forall a, pointer a (add_timer ms k w) -> (a < S (next w))%nat /\ firmware_at a w).
  { intros a [Ha|(x & [Hx| ->%list_elem_of_singleton]%elem_of_app & Ex)].
    - destruct (wf_pointer _ H a); [by left|]. split; [lia|done].
    - destruct (wf_pointer _ H a); [right; by exists x|]. split; [lia|done].
    - destruct (Hk a Ex). split; [lia|done]. }
  destruct H. constructor; simpl; auto. intros a Ha. destruct (wf_freed0 a Ha). split; [lia|done].
Qed.

Lemma ext_alter w a f : (forall t, ident (f t) = ident t) -> ext0 w (with_objs (alter a f (objs w)) w).
Proof. intros H. apply ext_same; try done. simpl. by rewrite map_alter. Qed.

(** A change of an instance that concerns neither its identity nor its status. *)
Lemma wf_alter_quiet w a f :
  (forall t, ident (f t) = ident t /\ state (f t) = state t /\ faultCode (f t) = faultCode t) -> wf w -> wf (with_objs (alter a f (objs w)) w).
Proof.
  intros Hf H.
  assert (He : ext0 w (with_objs (alter a f (objs w)) w)) by (apply ext_alter; intros t; apply Hf).
  apply (wf_frame w); try done.
  - intros t (t0 & Ht0 & ->)%elem_of_alter. destruct (Nat.eqb (addr t0) a); [|by apply (wf_objs _ H)].
    destruct (Hf t0) as ([= _ _ _ E _] & E2 & E3). unfold obj_ok. rewrite E, E2, E3. by apply (wf_objs _ H).
  - intros b Hb. by left.
Qed.

Lemma wf_set_target_file r a w : wf w -> wf (filetransfer_download_set_target_file r a w).1.
Proof.
  intros H. unfold filetransfer_download_set_target_file. case_goal; [|done].
  by apply (wf_alter_quiet w).
Qed.

Lemma set_target_file_data r a w :
  let r' := (filetransfer_download_set_target_file r a w).2 in
  f_data r' = f_data r /\ f_download r' = f_download r /\ f_id r' = f_id r.
Proof. unfold filetransfer_download_set_target_file. by case_goal. Qed.

Lemma wf_with_ftx r w : f_data r <> None -> f_download r = true -> wf w -> wf (with_ftxs (ftxs w ++ [r]) w).
Proof.
  intros H1 H2 []. constructor; simpl; auto.
  intros x [Hx| ->%list_elem_of_singleton]%elem_of_app; auto.
Qed.

Lemma wf_prepare_download e a w : wf w -> wf (prepare_download e a w).1.
Proof.
  intros H. unfold prepare_download. destruct (ftx_ok e); [|done]. simpl.
  assert (H1 : wf (with_next (S (next w)) w)) by (apply (wf_quiet w); try done; simpl; lia).
  unfold filetransfer_set_common_data. destruct (alloc_ok e); [|done].
  set (r := {| f_id := _ |}). set (w1 := with_next _ w) in *.
  pose proof (wf_set_target_file r a w1 H1) as H2. pose proof (set_target_file_data r a w1) as (E1 & E2 & _).
  destruct (filetransfer_download_set_target_file r a w1) as [w2 r2]. cbn [fst snd] in *.
  unfold start_filetransfer_request. destruct (timer_ok e); simpl.
  - apply wf_add_timer; [|done]. apply wf_with_ftx; [by rewrite E1|by rewrite E2|done].
  - apply wf_with_ftx; [by rewrite E1|by rewrite E2|done].
Qed.

Lemma wf_prepare_firmware e a w :
  a_fileType a = Some FIRMWARE -> args_match a w -> wf w -> wf (prepare_firmware e a w).1.
Proof.
  intros Ha Hm H. unfold prepare_firmware. destruct (get_transfer_obj_by_index _ w) as [t|] eqn:E; [|done].
  assert (Hf : firmware_at (addr t) w).
  { intros t' Ht' Ea. specialize (Hm _ E). apply find_by_index in E as [Ht _].
    rewrite (wf_same_addr w t' t) by done. by rewrite Hm. }
  apply find_by_index in E as [Ht _].
  destruct (timer_ok e), (start_ok e); simpl; try done. apply wf_plugin_log.
  assert (H1 : wf (add_timer (millis (u32 (a_delay a))) (DownloadTimer (addr t)) w)).
  { apply wf_add_timer; [done|]. intros b [= <-]. split; [by apply (wf_bounds _ H)|done]. }
  destruct (_ <=? 1); [|done].
  apply (wf_update_transfer_obj (Some (addr t)) (Some Applying) None None None _ H1); try done.
  by intros _ b [= <-].
Qed.

Lemma wf_AddTransfer e a w : args_match a w -> wf w -> wf (AddTransfer e a w).1.1.
Proof.
  intros Hm H. unfold AddTransfer.
  assert (H1 : wf (filetransfer_request_prepare e a w).1).
  { unfold filetransfer_request_prepare, filetransfer_upload_start. destruct (a_isDownload a).
    - destruct (a_fileType a) as [ft|] eqn:E; [|by apply wf_prepare_download].
      destruct (streq ft FIRMWARE) eqn:Ef; [|by apply wf_prepare_download].
      apply streq_true in Ef as ->. by apply wf_prepare_firmware.
    - simpl. destruct (timer_ok e); [|done]. by apply wf_add_timer. }
  by destruct (filetransfer_request_prepare e a w).
Qed.

Lemma ext_AddTransfer e a w : ext w (AddTransfer e a w).1.1.
Proof.
  unfold AddTransfer, filetransfer_request_prepare, filetransfer_upload_start.
  assert (Hd : ext w (prepare_download e a w).1).
  { unfold prepare_download, filetransfer_set_common_data, filetransfer_download_set_target_file,
      start_filetransfer_request.
    repeat (case_goal; simpl; try done); apply ext_same; simpl; rewrite ?map_alter; try done; simpl; lia. }
  assert (Hf : ext w (prepare_firmware e a w).1).
  { unfold prepare_firmware. destruct (get_transfer_obj_by_index _ w) as [t|]; [|done].
    destruct (timer_ok e), (start_ok e); simpl; try done.
    set (w1 := add_timer _ _ w). assert (H1 : ext w w1) by (apply ext_same; try done; simpl; lia).
    destruct (_ <=? 1); [|by apply (ext_frame _ w w1)].
    apply (ext_frame _ w (update_transfer_obj (Some (addr t)) (Some Applying) None None None w1)); [|done..].
    etrans; [exact H1|apply ext_update_transfer_obj]. }
  destruct (a_isDownload a).
  - destruct (a_fileType a) as [ft|].
    + destruct (streq ft FIRMWARE); [by destruct (prepare_firmware e a w)|by destruct (prepare_download e a w)].
    + by destruct (prepare_download e a w).
  - simpl. destruct (timer_ok e); [|done]. apply ext_same; try done. simpl. lia.
Qed.

(** [AddTransfer] keeps every instance. *)
Lemma idents_AddTransfer e a w : map full_ident (objs (AddTransfer e a w).1.1) = map full_ident (objs w).
Proof.
  unfold AddTransfer, filetransfer_request_prepare, filetransfer_upload_start, prepare_firmware, prepare_download,
    filetransfer_set_common_data, filetransfer_download_set_target_file, start_filetransfer_request,
    update_transfer_obj, trans_apply.
  repeat (case_goal; simplify_eq; simpl; rewrite ?map_alter; try done).
Qed.

Lemma wf_plugin_initial : wf initial.
Proof.
  constructor; simpl; try (intros; set_solver); try apply NoDup_nil_2; try lia.
  intros a [Ha|(x & Hx & _)]; set_solver.
Qed.

Lemma wf_add_instance v w : wf w -> wf (add_instance v w).1.
Proof.
  intros H. pose proof (wf_bounds _ H) as Hb. pose proof (wf_last _ H).
  constructor; simpl; rewrite ?map_app.
  - intros t [Ht| ->%list_elem_of_singleton]%elem_of_app; [by apply (wf_objs _ H)|done].
  - apply NoDup_app. split_and!; [apply (wf_addrs _ H)| |apply NoDup_singleton].
    intros x (t & -> & Ht)%list_elem_of_fmap. simpl. rewrite list_elem_of_singleton. specialize (Hb _ Ht). lia.
  - apply NoDup_app. split_and!; [apply (wf_indices _ H)| |apply NoDup_singleton].
    intros x (t & -> & Ht)%list_elem_of_fmap. simpl. rewrite list_elem_of_singleton. specialize (Hb _ Ht). lia.
  - intros t [Ht| ->%list_elem_of_singleton]%elem_of_app; simpl; [specialize (Hb _ Ht); lia|lia].
  - intros a Ha. destruct (wf_pointer _ H a) as [Hn Hf]; [destruct Ha as [Ha|Ha]; [by left|by right]|].
    split; [lia|]. intros t [Ht| ->%list_elem_of_singleton]%elem_of_app Ea; [by apply Hf|]. simpl in Ea. lia.
  - intros a Ha. destruct (wf_freed _ H a Ha). split; [lia|]. rewrite not_elem_of_app. split; [done|].
    simpl. rewrite list_elem_of_singleton. lia.
  - apply (wf_ftxs _ H).
  - lia.
Qed.

(** ** Undefined behaviour *)

Definition log_file_upload (a : args) : bool :=
  match a_fileType a with
  | Some ft => negb (streq ft "") && match kind_of_upload ft with LogFile => true | _ => false end
  | None => false
  end.

(** The callbacks that use a freed object or a null pointer *)
Definition dangerous (ev : event) (w : plugin) : bool :=
  match ev with
  | TimerExpired e id =>
      match List.find (fun t => Nat.eqb (tm_id t) id) (timers w) with
      | Some t =>
          match tm_task t with
          | DownloadTimer a => is_null (obj_at a w)
          | UploadTimer a => bus_ok e && log_file_upload a && negb (a_index a =? 0)
          | StartTimer _ => false
          end
      | None => false
      end
  | UploadComplete _ None => true
  | FirmwareChanged (Some s) _ => firmware_failed s && existsb (fun a => is_null (obj_at a w)) (fw_subs w)
  | _ => false
  end.

Lemma find_alter a f l b :
  (forall t, addr (f t) = addr t) ->
  is_null (List.find (fun t => Nat.eqb (addr t) b) (alter a f l)) =
    is_null (List.find (fun t => Nat.eqb (addr t) b) l).
Proof.
  intros Hf. unfold alter. induction l as [|x l IH]; simpl; [done|]. destruct (Nat.eqb (addr x) a); rewrite ?Hf;
    by destruct (Nat.eqb (addr x) b).
Qed.

Lemma null_trans_apply t u w b : is_null (obj_at b (trans_apply t u w)) = is_null (obj_at b w).
Proof. unfold obj_at. simpl. destruct (accepts _); [by rewrite find_alter|done]. Qed.

Lemma update_transfer_obj_undefined a st t1 t2 f w :
  undefined (update_transfer_obj (Some a) st t1 t2 f w) = undefined w || is_null (obj_at a w) /\
  forall b, is_null (obj_at b (update_transfer_obj (Some a) st t1 t2 f w)) = is_null (obj_at b w).
Proof.
  unfold update_transfer_obj. destruct (obj_at a w) eqn:E; simpl.
  - rewrite orb_false_r. split; [done|]. intros b. apply null_trans_apply.
  - rewrite orb_true_r. by split.
Qed.

Lemma transfer_update_status_undefined i st t1 t2 c r w :
  undefined (transfer_update_status i st t1 t2 c r w) = undefined w.
Proof. unfold transfer_update_status. by case_goal. Qed.

Lemma firmware_upgrade_undefined e a w :
  is_null (obj_at a w) = false -> undefined (firmware_upgrade e (Some a) w).1 = undefined w /\
    objs (firmware_upgrade e (Some a) w).1 = objs w.
Proof.
  intros H. unfold firmware_upgrade, firmwareimage_add_subscription, firmwareimage_download.
  destruct (subscribe_ok e); [|done]. simpl. unfold obj_at in *. simpl.
  destruct (List.find _ (objs w)); [|done]. repeat (case_goal; simpl; try done).
Qed.

Lemma firmware_upgrade_faulted e a w :
  undefined w = true -> undefined (firmware_upgrade e (Some a) w).1 = true.
Proof.
  intros H. unfold firmware_upgrade, firmwareimage_add_subscription, firmwareimage_download.
  destruct (subscribe_ok e); [|done]. simpl. repeat (case_goal; simpl; try done).
Qed.

Lemma download_timer_undefined e a w :
  undefined (download_timer_cb e (Some a) w) = undefined w || is_null (obj_at a w).
Proof.
  unfold download_timer_cb.
  destruct (update_transfer_obj_undefined a (Some Applying) None None None w) as [H1 H2].
  set (w1 := update_transfer_obj _ _ _ _ _ w) in *. specialize (H2 a).
  destruct (is_null (obj_at a w)) eqn:E.
  - rewrite orb_true_r in *. pose proof (firmware_upgrade_faulted e a w1 H1) as H3.
    destruct (firmware_upgrade e (Some a) w1) as [w2 r]. cbn [fst] in H3.
    destruct (negb (r =? 0)); [|done].
    change (undefined (update_transfer_obj (Some a) (Some Finished) None None (Some 9002) w2) = true).
    destruct (update_transfer_obj_undefined a (Some Finished) None None (Some 9002) w2) as [-> _]. by rewrite H3.
  - rewrite orb_false_r in *. destruct (firmware_upgrade_undefined e a w1 H2) as [H3 H4].
    destruct (firmware_upgrade e (Some a) w1) as [w2 r]. cbn [fst] in H3, H4.
    destruct (negb (r =? 0)); [|simpl; congruence].
    change (undefined (update_transfer_obj (Some a) (Some Finished) None None (Some 9002) w2) = undefined w).
    destruct (update_transfer_obj_undefined a (Some Finished) None None (Some 9002) w2) as [-> _].
    unfold obj_at in *. rewrite H4, H2, orb_false_r. congruence.
Qed.

Lemma upload_call_undefined e c a w : undefined (upload_call e c a w).1 = undefined w.
Proof. unfold upload_call. repeat (case_goal; simpl; try done). Qed.

Lemma selftest_call_done_undefined e req st a w :
  undefined (filetransfer_upload_selftest_call_done e req st a w) =
    undefined w || (is_null req && negb (a_index a =? 0)).
Proof.
  unfold filetransfer_upload_selftest_call_done. destruct (a_index a =? 0); [by rewrite andb_false_r, orb_false_r|].
  rewrite andb_true_r. destruct (negb (st =? 0)).
  - change (negb (-1 =? 0)) with true. cbv iota.
    rewrite <- (transfer_update_status_undefined (a_index a) Finished (now e) (now e) FAULTCODE_INTERNAL_ERROR
      (Some "Internal error"%string) w).
    destruct req; simpl; by rewrite ?orb_false_r, ?orb_true_r.
  - rewrite <- (upload_call_undefined e VendorLogUpload a w).
    destruct (upload_call e VendorLogUpload a w) as [w1 x]. cbn [fst].
    destruct (negb (x =? 0)), req; simpl; rewrite ?orb_false_r, ?orb_true_r; try done;
      apply transfer_update_status_undefined.
Qed.

Lemma upload_prepare_undefined e a w :
  undefined (filetransfer_upload_prepare e a w) =
    undefined w || (bus_ok e && log_file_upload a && negb (a_index a =? 0)).
Proof.
  unfold filetransfer_upload_prepare, log_file_upload. destruct (bus_ok e); simpl; [|by rewrite orb_false_r].
  destruct (a_fileType a) as [ft|]; simpl; [|by rewrite orb_false_r].
  destruct (streq ft ""); simpl; [by rewrite orb_false_r|].
  destruct (kind_of_upload ft); simpl; rewrite ?orb_false_r.
  - by destruct (async_ok e).
  - apply selftest_call_done_undefined.
  - unfold upload_vendor_config_file. destruct (a_index a =? 0); [done|].
    rewrite <- (upload_call_undefined e VendorConfigBackup a w).
    destruct (upload_call e VendorConfigBackup a w) as [w1 x]. simpl.
    destruct (negb (x =? 0)); [apply transfer_update_status_undefined|done].
  - done.
Qed.

Lemma notification_undefined s l a w :
  undefined (firmwareimage_notification (Some s) l (Some a) w) =
    undefined w || (firmware_failed s && is_null (obj_at a w)) /\
  (forall b, is_null (obj_at b (firmwareimage_notification (Some s) l (Some a) w)) = is_null (obj_at b w)) /\
  (forall b, b <> a -> existsb (Nat.eqb b) (fw_subs (firmwareimage_notification (Some s) l (Some a) w)) =
    existsb (Nat.eqb b) (fw_subs w)).
Proof.
  unfold firmwareimage_notification. destruct (firmware_failed s) eqn:E; [|by rewrite orb_false_r].
  destruct (update_transfer_obj_undefined a (Some Finished) None (Some UNKNOWN_TIME)
    (Some (firmware_fault (default ""%string l))) w) as [H1 H2].
  set (w1 := update_transfer_obj _ _ _ _ _ w) in *.
  assert (Hs : fw_subs w1 = fw_subs w) by (unfold w1, update_transfer_obj; by case_goal).
  cbn [firmwareimage_del_subscription]. split_and!; [exact H1|exact H2|]. intros b Hb.
  cbn [fw_subs with_fw_subs]. rewrite Hs. clear Hs.
  induction (fw_subs w) as [|x m IH]; simpl; [done|]. destruct (Nat.eqb_spec x a) as [->|Hx]; simpl.
  - rewrite IH. destruct (Nat.eqb_spec b a); [congruence|done].
  - by rewrite IH.
Qed.

Lemma firmware_changed_undefined s l m w :
  undefined (foldl (fun w a => if existsb (Nat.eqb a) (fw_subs w)
               then firmwareimage_notification (Some s) l (Some a) w else w) w m) =
    undefined w || (firmware_failed s &&
                    existsb (fun a => is_null (obj_at a w) && existsb (Nat.eqb a) (fw_subs w)) m).
Proof.
  revert w. induction m as [|a m IH]; intros w; cbn [foldl existsb]; [by rewrite andb_false_r, orb_false_r|].
  rewrite IH. clear IH. destruct (existsb (Nat.eqb a) (fw_subs w)) eqn:Ea; [|by rewrite andb_false_r].
  rewrite andb_true_r.
  destruct (notification_undefined s l a w) as (H1 & H2 & H3).
  rewrite H1. destruct (firmware_failed s) eqn:Ef; simpl; [|by rewrite !orb_false_r].
  destruct (is_null (obj_at a w)) eqn:En; [by rewrite !orb_true_r|]. rewrite orb_false_r. f_equal. simpl.
  induction m as [|b m IH]; simpl; [done|]. rewrite H2, IH. f_equal.
  destruct (decide (b = a)) as [->|Hb]; [by rewrite En|]. by rewrite H3.
Qed.

Lemma existsb_self (f : nat -> bool) l :
  existsb (fun a => f a && existsb (Nat.eqb a) l) l = existsb f l.
Proof.
  assert (H : forall m, (forall a, a ∈ m -> a ∈ l) ->
    existsb (fun a => f a && existsb (Nat.eqb a) l) m = existsb f m); [|by apply H].
  induction m as [|x m IH]; intros Hm; simpl; [done|]. rewrite IH by (intros a Ha; apply Hm; by right).
  f_equal. assert (existsb (Nat.eqb x) l = true) as ->; [|by rewrite andb_true_r].
  apply existsb_exists. exists x. rewrite Nat.eqb_refl, <- list_elem_of_In. split; [apply Hm; by left|done].
Qed.

(** C17: exactly when a callback of the plugin is undefined behaviour: the delay
    timer of a firmware download expires, or the image service reports a failure,
    after the transfer object was deleted; the delay timer of an upload of "4
    Vendor Log File" expires (the handler takes a null request from a list); or
    the bus passes no data.  A call of [AddTransfer] never is. *)
Theorem plugin_undefined_iff (ev : event) (w : plugin) (e : env) (a : args) :
  undefined (step ev w) = undefined w || dangerous ev w /\
  undefined (AddTransfer e a w).1.1 = undefined w.
Proof.
  split.
  - destruct ev as [e1 id|e1 id code t1 t2 r|e1 req st|e1 d|st l|i]; cbn [step dangerous]; rewrite ?orb_false_r.
    + unfold timer_expired. destruct (List.find _ _) as [t|]; [|by rewrite orb_false_r]. simpl.
      destruct (tm_task t) as [x|q|x]; simpl;
        [apply download_timer_undefined|by rewrite orb_false_r|apply upload_prepare_undefined].
    + unfold filetransfer_request_cb. destruct (find_ftx id w) as [x|]; [|done].
      destruct (f_data x) as [i|]; [|done]. simpl. rewrite transfer_update_status_undefined.
      destruct (_ && _); [|done]. unfold filetransfer_download_finished, filetransfer_run_task. simpl.
      repeat (case_goal; simpl; try done).
    + unfold selftest_done. destruct (List.find _ _); [|done].
      by rewrite selftest_call_done_undefined, orb_false_r.
    + unfold filetransfer_upload_complete_notification. destruct d as [d|]; simpl; [|by rewrite orb_true_r].
      rewrite orb_false_r. repeat (case_goal; simpl; try done). apply transfer_update_status_undefined.
    + unfold firmware_changed. destruct st as [s|].
      * by rewrite firmware_changed_undefined, existsb_self.
      * rewrite orb_false_r. generalize (fw_subs w). intros m. revert w. induction m as [|x m IH]; intros w; [done|].
        cbn [foldl]. rewrite IH. by case_goal.
    + unfold delete_object. by case_goal.
  - unfold AddTransfer, filetransfer_request_prepare, filetransfer_upload_start, prepare_firmware, prepare_download,
      filetransfer_set_common_data, filetransfer_download_set_target_file, start_filetransfer_request.
    destruct (a_isDownload a); [|simpl; by destruct (timer_ok e)].
    destruct (get_transfer_obj_by_index (a_index a) w) as [t|] eqn:Et.
    + assert (Hn : is_null (obj_at (addr t) (add_timer (millis (u32 (a_delay a))) (DownloadTimer (addr t)) w)) = false).
      { apply find_by_index in Et as [Ht _]. unfold obj_at. simpl.
        destruct (List.find _ _) eqn:Ef; [done|]. rewrite list_elem_of_In in Ht.
        pose proof (find_none _ _ Ef _ Ht) as Hx. simpl in Hx. by rewrite Nat.eqb_refl in Hx. }
      destruct (update_transfer_obj_undefined (addr t) (Some Applying) None None None
        (add_timer (millis (u32 (a_delay a))) (DownloadTimer (addr t)) w)) as [Hu _].
      rewrite Hn, orb_false_r in Hu.
      repeat (case_goal; simpl; try done); simplify_eq; try done; exact Hu.
    + repeat (case_goal; simpl; try done); by simplify_eq.
Qed.

(** ** The delay *)

Lemma millis_exact (d : Z) : 0 <= d < 2 ^ 31 -> millis (u32 d) = 1000 * d <-> d <= 4294967.
Proof.
  intros H. unfold millis. rewrite (u32_id d) by lia. split.
  - intros E. pose proof (u32_range (d * 1000)). lia.
  - intros Hd. rewrite u32_id; lia.
Qed.

(** A firmware download whose object exists is delayed by one new timer on
    that object; the delay is the requested one exactly up to 4294967 seconds
    (49 days), a longer one wraps around and the download starts early.  With a
    delay of at most one second the object is [Applying] at once. *)
Theorem firmware_delay (e : env) (a : args) (t : transfer) (w : plugin)
    (Hok : timer_ok e = true /\ start_ok e = true) (Hd : 0 <= a_delay a < 2 ^ 31)
    (Ha : a_isDownload a = true /\ a_fileType a = Some FIRMWARE)
    (Ht : get_transfer_obj_by_index (a_index a) w = Some t) :
  exists ms, timers (AddTransfer e a w).1.1 =
               timers w ++ [{| tm_id := next w; tm_ms := ms; tm_task := DownloadTimer (addr t) |}] /\
    (ms = 1000 * a_delay a <-> a_delay a <= 4294967) /\ 0 <= ms <= 1000 * a_delay a /\
    (AddTransfer e a w).2 = true /\
    (accepts (ntrans w) = true -> a_delay a <= 1 -> wf w ->
     exists t', get_transfer_obj_by_index (a_index a) (AddTransfer e a w).1.1 = Some t' /\ state t' = Applying).
Proof.
  exists (millis (u32 (a_delay a))). destruct Hok as [H1 H2], Ha as [H3 H4].
  assert (Er : AddTransfer e a w = (log SaveDm
    (let w := add_timer (millis (u32 (a_delay a))) (DownloadTimer (addr t)) w in
     if u32 (a_delay a) <=? 1 then update_transfer_obj (Some (addr t)) (Some Applying) None None None w else w),
    amxd_status_ok, true)).
  { unfold AddTransfer, filetransfer_request_prepare, prepare_firmware.
    by rewrite H3, H4, streq_refl, Ht, H1, H2. }
  rewrite Er. clear Er. cbn [fst snd]. split_and!; [|by apply millis_exact|apply u32_range| |done|].
  - destruct (_ <=? 1); [|done]. unfold update_transfer_obj. by case_goal.
  - unfold millis. rewrite (u32_id (a_delay a)) by lia. unfold u32.
    etrans; [apply Z.mod_le; lia|lia].
  - intros Hacc Hd1 Hw. rewrite u32_id by lia. rewrite (proj2 (Z.leb_le _ _)) by lia. cbv zeta.
    set (w1 := add_timer _ _ w).
    assert (Hf : obj_at (addr t) w1 = Some t).
    { apply find_by_index in Ht as [Ht _]. destruct (obj_at (addr t) w1) as [t1|] eqn:E.
      - apply find_obj_at in E as [Ht1 Ea]. f_equal. by apply (wf_same_addr w).
      - apply list_elem_of_In in Ht. pose proof (find_none _ _ E _ Ht) as Hx. simpl in Hx.
        by rewrite Nat.eqb_refl in Hx. }
    unfold update_transfer_obj. rewrite Hf. unfold get_transfer_obj_by_index, trans_apply. simpl.
    rewrite Hacc. unfold get_transfer_obj_by_index in Ht. clear Hf.
    revert Ht. induction (objs w) as [|x l IH]; simpl; [done|]. destruct (Nat.eqb_spec (addr x) (addr t)) as [E|E].
    + simpl. destruct (index x =? a_index a); [intros _; by eexists|apply IH].
    + destruct (index x =? a_index a); [intros [= ->]; congruence|apply IH].
Qed.

(** ** The index of a vendor file *)

Definition digit_char (c : ascii) : bool := negb (is_null (digit c)).

(** The words of a text and the blanks between them *)
Fixpoint separate (ws : list cstr) : list cstr :=
  match ws with
  | [] => []
  | [a] => [a]
  | a :: ws' => a :: [" "%char] :: separate ws'
  end.

Lemma is_digit_char c : digit_char c = true -> isalnum c = true /\ c <> " "%char.
Proof.
  unfold digit_char, digit, isalnum. destruct (_ && _) eqn:E; [|done]. intros _. split; [apply orb_true_r|].
  intros ->. done.
Qed.

Lemma no_blank_in_digits d : forallb digit_char d = true -> " "%char ∉ d.
Proof.
  intros H Hin. rewrite forallb_forall in H. apply list_elem_of_In in Hin. by apply H, is_digit_char in Hin as [_ ?].
Qed.

Lemma has_substring_digits q p d :
  misses (cs q) (cs p) = true -> " "%char ∈ cs q -> " "%char ∉ d ->
  has_substring q (String.append p (String.string_of_list_ascii d)) = false.
Proof.
  intros Hm Hq Hd. unfold has_substring. rewrite cs_append, cs_of_chars, strstr_misses by done.
  by rewrite (strstr_foreign " ").
Qed.

(** A text whose last character stands where the digits begin. *)
Lemma has_substring_last p c d :
  misses (cs p ++ [c]) (tail (cs p)) = true -> " "%char ∈ cs p -> " "%char ∉ d ->
  has_substring (String.append p (String c "")) (String.append p (String.string_of_list_ascii d)) =
    bool_decide (head d = Some c).
Proof.
  intros Hm Hq Hd. unfold has_substring. rewrite !cs_append, cs_of_chars. change (cs (String c "")) with [c].
  assert (Hs : forall l, starts_with (l ++ [c]) (l ++ d) = bool_decide (head d = Some c)).
  { induction l as [|x l IH]; simpl; [|by rewrite Ascii.eqb_refl, IH].
    destruct d as [|y d]; [done|]. rewrite andb_true_r. simpl. destruct (Ascii.eqb_spec c y) as [->|Hc].
    - by rewrite bool_decide_eq_true_2.
    - rewrite bool_decide_eq_false_2; congruence. }
  destruct (cs p) as [|x l] eqn:E; [by apply not_elem_of_nil in Hq|].
  specialize (Hs (x :: l)). cbn [app tail] in *. cbn [strstr]. rewrite Hs.
  destruct (bool_decide _) eqn:Eh; [done|]. rewrite strstr_misses by done.
  rewrite (strstr_foreign " "); [done| |done]. change (x :: l ++ [c]) with ((x :: l) ++ [c]).
  apply elem_of_app. by left.
Qed.

(** The file types "4 Vendor Log File <i>" and "3 Vendor Configuration File
    <i>" name the file of index i -- except when i begins with the digit 1,
    for then the file is always the first one. *)
Theorem vendor_index (d : cstr)
    (Hsplit : forall ws, Forall (fun t => forallb isalnum t = true /\ t <> []) ws ->
       split_word (join " " ws) = separate ws)
    (Hnumeric : forall t, is_numeric t = negb (bool_decide (t = [])) && forallb digit_char t)
    (Hd : forallb digit_char d = true /\ d <> []) :
  forall p, p = "4 Vendor Log File "%string \/ p = "3 Vendor Configuration File "%string ->
  vendorfile_get_index (Some (String.append p (String.string_of_list_ascii d))) =
    (if bool_decide (head d = Some "1"%char) then 1 else atoi (String.string_of_list_ascii d)).
Proof.
  destruct Hd as [Hd1 Hd2]. pose proof (no_blank_in_digits d Hd1) as Hb.
  assert (Ha : forallb isalnum d = true).
  { apply forallb_forall. intros c Hc. rewrite forallb_forall in Hd1. by apply is_digit_char, Hd1. }
  assert (Hw : forall a b c, forallb isalnum a = true /\ a <> [] -> forallb isalnum b = true /\ b <> [] ->
    forallb isalnum c = true /\ c <> [] ->
    split_word (join " " [a; b; c; cs "File"; d]) = separate [a; b; c; cs "File"; d]).
  { intros. apply Hsplit. rewrite !Forall_cons. split_and!; try done; try tauto. }
  assert (Hn : is_numeric d = true) by (by rewrite Hnumeric, Hd1, bool_decide_eq_false_2).
  intros p [->| ->]; unfold vendorfile_get_index.
  - change (streq _ ""%string) with false. cbv iota.
    rewrite (has_substring_digits "2 Vendor Log File"), (has_substring_digits "1 Vendor Configuration File"),
      (has_substring_digits "3 Vendor Configuration File 1"), (has_substring_digits "3 Vendor Configuration File")
      by (reflexivity || done || (apply (bool_decide_unpack _); vm_compute; exact I)).
    change "4 Vendor Log File 1"%string with (String.append "4 Vendor Log File " (String "1" "")).
    rewrite has_substring_last by (reflexivity || done || (apply (bool_decide_unpack _); vm_compute; exact I)).
    rewrite cs_append, cs_of_chars. simpl orb. destruct (bool_decide (head d = _)); [done|]. cbn [orb].
    change (cs "4 Vendor Log File " ++ d) with (join " " [cs "4"; cs "Vendor"; cs "Log"; cs "File"; d]).
    rewrite Hw by done. simpl. by rewrite Hn.
  - change (streq _ ""%string) with false. cbv iota.
    rewrite (has_substring_digits "2 Vendor Log File"), (has_substring_digits "1 Vendor Configuration File"),
      (has_substring_digits "4 Vendor Log File 1")
      by (reflexivity || done || (apply (bool_decide_unpack _); vm_compute; exact I)).
    change "3 Vendor Configuration File 1"%string with
      (String.append "3 Vendor Configuration File " (String "1" "")).
    rewrite has_substring_last by (reflexivity || done || (apply (bool_decide_unpack _); vm_compute; exact I)).
    rewrite cs_append, cs_of_chars. simpl orb. destruct (bool_decide (head d = _)); [done|]. cbn [orb].
    change (cs "3 Vendor Configuration File " ++ d) with
      (join " " [cs "3"; cs "Vendor"; cs "Configuration"; cs "File"; d]).
    rewrite Hw by done. simpl. by rewrite Hn.
Qed.

End Facts.

End AcsTransferFacts.
