(* ===== verification/UpDownload.v ===== *)
(** * UpDownload: Download and Upload requests of the ACS
    ([src/src/dmdeviceadapter/amx/adapter/DM_AmxUpDownload.c] and its callers in
    [DM_DeviceAdapter.c])

    The adapter turns a request into an instance of [ACSTransfer], asks the
    plugin to carry it out, watches its status and reports its end to the ACS; a
    timer named after the command key reports it after an hour at the latest.
    The world is the plugin with the data model ([AcsTransfer]), the
    subscriptions ([Subscriptions]), the timers (the interface [EngineTimers]),
    the notifications on their way to the adapter ([inbox]) and what was said to
    the engine ([sent], [replies]).  A call of the adapter on the bus lets the
    plugin run: the events of a [gaps] happen between the calls of one request.

    The instance paths are [entry_path]; instances are read in the order of the
    data model. *)

From Stdlib Require Import ZArith Lia Ascii.
From stdpp Require Import base list strings pretty.
From S2P Require Import Prelude CString Subscriptions EngineTimers AcsTransfer.

Module UpDownload.
Import AcsTransfer.

(** ** Data *)

Definition TRANSFER_ENTRY_PATH : string := "ManagementServer.ACSTransfers.ACSTransfer.".

Definition entry_path (i : Z) : string := String.append TRANSFER_ENTRY_PATH (String.append (pretty i) ".").

(** [EVENT_DM_FILTER_OBJECT_CHANGED] *)
Definition filter_changed : string := "notification in ['dm:object-changed']".

(** [DM_ENG_TransferCompleteStruct] *)
Record transfer_complete := {
  tc_autonomous : bool;
  tc_url : option string;
  tc_fileType : option string;
  tc_fileSize : Z;
  tc_target : option string;
  tc_isDownload : bool;
  tc_key : string;
  tc_faultCode : Z;
  tc_faultString : option string;
  tc_start : Z;
  tc_complete : Z;
  tc_path : string;
}.

(** The arguments of the RPCs Download and Upload *)
Record request := {
  rq_key : string;
  rq_fileType : option string;
  rq_url : option string;
  rq_username : option string;
  rq_password : option string;
  rq_fileSize : Z;
  rq_target : option string;
  rq_delay : Z;
  rq_success : option string;
  rq_failure : option string;
}.

(** What belongs to the libraries and to the headers of the engine: the paths
    of [libamxd], the hash of [libamxc], the reading of an unsigned variant as [int32_t], the fault codes. *)
Class adapter_library := {
  object_of : string -> string;
  param_of : string -> string;
  hash : string -> Z;
  var_int32 : Z -> Z;
  DM_ENG_REQUEST_DENIED : Z;
  DM_ENG_INVALID_ARGUMENTS : Z;
  DM_ENG_INVALID_PARAMETER_NAME : Z;
  DM_ENG_DOWNLOAD_FAILURE : Z;
  DM_ENG_UPLOAD_FAILURE : Z;
  DM_ENG_INTERNAL_ERROR : Z;
}.

(** The answers of the system during one callback of the adapter.  A call of
    [AddTransfer] that fails may have reached the plugin ([rpc_lost]). *)
Record env := {
  e_now : Z;
  get_ok : bool;
  set_ok : bool;
  add_ok : bool;
  rpc_ok : bool;
  rpc_lost : bool;
  unsub_ok : bool;
  tcs_ok : bool;
  e_sub : Subscriptions.add_env;
  e_plugin : AcsTransfer.env;
  image_status : option string;
}.

(** What the plugin does while the adapter waits for the bus *)
Record gaps := {
  before_call : list event;
  before_subscribe : list event;
  before_set : list event;
}.

Definition no_gaps : gaps := {| before_call := []; before_subscribe := []; before_set := [] |}.

(** The handlers of the adapter, as the engine's timers and the subscriptions
    know them *)
Definition TRANSFER_TIMED_OUT : nat := 1.
Definition RESTART_TRANSFER : nat := 2.
Definition TRANSFER_COMPLETE_EVENT : nat := 3.
Definition TRANSFER_NOTIFICATION : nat := 4.

Section Adapter.

Context {L : library} {A : adapter_library} {T : Type} {ET : EngineTimers T}.

Record world := {
  pl : plugin;
  subs : Subscriptions.state;
  engine : T;
  inbox : list (Z * status);
  sent : list transfer_complete;
  replies : list (string * Z);
}.

Definition with_pl (p : plugin) (w : world) : world :=
  {| pl := p; subs := subs w; engine := engine w; inbox := inbox w; sent := sent w; replies := replies w |}.

Definition with_subs (s : Subscriptions.state) (w : world) : world :=
  {| pl := pl w; subs := s; engine := engine w; inbox := inbox w; sent := sent w; replies := replies w |}.

Definition with_engine (t : T) (w : world) : world :=
  {| pl := pl w; subs := subs w; engine := t; inbox := inbox w; sent := sent w; replies := replies w |}.

Definition with_inbox (l : list (Z * status)) (w : world) : world :=
  {| pl := pl w; subs := subs w; engine := engine w; inbox := l; sent := sent w; replies := replies w |}.

Definition send (tc : transfer_complete) (w : world) : world :=
  {| pl := pl w; subs := subs w; engine := engine w; inbox := inbox w; sent := sent w ++ [tc];
     replies := replies w |}.

Definition reply (key : string) (error : Z) (w : world) : world :=
  {| pl := pl w; subs := subs w; engine := engine w; inbox := inbox w; sent := sent w;
     replies := replies w ++ [(key, error)] |}.

(** ** The bus *)

Definition registered (path : string) (w : world) : bool :=
  existsb (fun r => streq r.1 path) (Subscriptions.bus (subs w)).

(** The data model was changed: the bus takes the announcements of watched
    objects. *)
Definition flush (w : world) : world :=
  let p := pl w in
  with_pl
    {| objs := objs p; freed := freed p; next := next p; last_index := last_index p; timers := timers p;
       ftxs := ftxs p; selftest_requests := selftest_requests p; upload_requests := upload_requests p;
       fw_subs := fw_subs p; emitted := []; calls := calls p; ntrans := ntrans p;
       undefined := undefined p |}
    (with_inbox (inbox w ++ List.filter (fun n => registered (entry_path n.1) w) (emitted p)) w).

Definition plugin_event (ev : event) (w : world) : world := flush (with_pl (AcsTransfer.step ev (pl w)) w).

Definition plugin_events (evs : list event) (w : world) : world := run_steps plugin_event evs w.

Definition find_path (path : string) (w : world) : option transfer :=
  List.find (fun t => streq (entry_path (index t)) path) (objs (pl w)).

(** [amxb_get] of an instance *)
Definition amxb_get (e : env) (path : string) (w : world) : option transfer :=
  if get_ok e then find_path path w else None.

(** [amxb_set] of an instance *)
Definition amxb_set (e : env) (path : string) (u : update) (w : world) : world :=
  if set_ok e then
    match find_path path w with
    | Some t => flush (with_pl (bus_set u t (pl w)) w)
    | None => w
    end
  else w.

(** [DM_ENG_NotificationInterface_timerStart] and [_timerStop] *)
Definition timerStart (name : string) (seconds : Z) (h : nat) (w : world) : world :=
  with_engine (start name (s32 seconds) h (engine w)) w.

Definition timerStop (name : string) (w : world) : world := with_engine (stop name (engine w)) w.

(** [DM_ENG_Device_Common_DeleteSubscription] on [transferSubsList] *)
Definition delete_subscription (e : env) (uid : Z) (w : world) : world :=
  with_subs (Subscriptions.DeleteSubscription (unsub_ok e) uid (subs w)).1 w.

(** ** The end of a transfer *)

(** [DM_ENG_Device_UpdateTransferState] *)
Definition UpdateTransferState (e : env) (path : string) (code : Z) (text : string)
    (time : option Z) (w : world) : world :=
  if streq path "" then w
  else amxb_set e path
         {| u_status := Some Finished; u_start := None; u_complete := time;
            u_fault := Some (code, Some text) |} w.

(** [DM_ENG_Device_BuildTransferCompleteResponse] *)
Definition BuildTransferCompleteResponse (t : transfer) (path : string) : transfer_complete :=
  {| tc_autonomous := CString.starts_with (CString.cs "Autonomous") (CString.cs (initiator t));
     tc_url := url t; tc_fileType := fileType t; tc_fileSize := fileSize t; tc_target := targetFileName t;
     tc_isDownload := isDownload t; tc_key := commandKey t; tc_faultCode := faultCode t;
     tc_faultString := faultString t; tc_start := startTime t; tc_complete := completeTime t;
     tc_path := path |}.

(** [DM_ENG_Device_TransferCompleteEvent] *)
Definition TransferCompleteEvent (e : env) (path : string) (w : world) : world :=
  match amxb_get e path w with
  | None => w
  | Some t =>
      let w := timerStop (commandKey t) w in
      if negb (tcs_ok e) then w
      else delete_subscription e (subscriptionId t) (send (BuildTransferCompleteResponse t path) w)
  end.

(** [DM_ENG_Device_TransferTimedOut] *)
Definition TransferTimedOut (e : env) (cmdkey : string) (w : world) : world :=
  if negb (get_ok e) then w
  else
    match List.find (fun t => streq (commandKey t) cmdkey) (objs (pl w)) with
    | None => w
    | Some t =>
        let path := entry_path (index t) in
        let w := delete_subscription e (subscriptionId t) w in
        let w :=
          if bool_decide (state t <> Initial) then
            UpdateTransferState e path
              (if isDownload t then DM_ENG_DOWNLOAD_FAILURE else DM_ENG_UPLOAD_FAILURE)
              "Transfer timed out" None w
          else w in
        TransferCompleteEvent e path w
    end.

(** [DM_ENG_Device_TransferNotification] for a change of [Status] *)
Definition TransferNotification (e : env) (n : Z * status) (w : world) : world :=
  match n.2 with
  | Finished => TransferCompleteEvent e (entry_path n.1) w
  | _ => w
  end.

(** The first notification of the inbox reaches its handlers. *)
Definition dispatch (e : env) (w : world) : world :=
  match inbox w with
  | [] => w
  | n :: rest =>
      let w := with_inbox rest w in
      match Subscriptions.deliver (entry_path n.1) (subs w) with
      | None => with_pl (fault (pl w)) w
      | Some handlers => foldl (fun w _ => TransferNotification e n w) w handlers
      end
  end.

(** ** Starting a transfer *)

(** [DM_ENG_Device_AddTransferSubscription] *)
Definition AddTransferSubscription (e : env) (g : gaps) (instance : Z) (w : world) : world * Z :=
  let path := entry_path instance in
  let '(s, error) :=
    Subscriptions.AddSubscription object_of param_of hash (e_sub e) path filter_changed
      TRANSFER_NOTIFICATION (subs w) in
  let w := with_subs s w in
  if negb (error =? 0) then (w, -1)
  else
    let uid := hash (String.append path filter_changed) in
    let w := plugin_events (before_set g) w in
    let w :=
      match (if set_ok e then find_path path w else None) with
      | Some t => with_pl (bus_set_subscriptionId uid t (pl w)) w
      | None => w
      end in
    (w, 0).

(** The values of the request, for the new instance *)
Definition values_of (e : env) (isDownload : bool) (r : request) : values :=
  {| v_key := rq_key r; v_isDownload := isDownload; v_url := rq_url r; v_fileType := rq_fileType r;
     v_fileSize := rq_fileSize r; v_target := rq_target r; v_username := rq_username r;
     v_password := rq_password r; v_success := rq_success r; v_failure := rq_failure r;
     v_start := e_now e + rq_delay r; v_complete := e_now e + 3600 |}.

(** [DM_ENG_Device_new_dm_entry] *)
Definition new_dm_entry (e : env) (v : values) (w : world) : world * option Z :=
  if add_ok e then let '(p, i) := add_instance v (pl w) in (with_pl p w, Some i) else (w, None).

Definition args_of (isDownload : bool) (r : request) (instance : Z) : args :=
  {| a_index := instance; a_isDownload := isDownload; a_delay := var_int32 (rq_delay r);
     a_fileType := rq_fileType r; a_url := rq_url r; a_username := rq_username r;
     a_password := rq_password r; a_target := rq_target r; a_key := rq_key r |}.

(** The call of [AddTransfer] in the plugin; its value is not looked at. *)
Definition call_AddTransfer (e : env) (a : args) (w : world) : world * bool :=
  (if rpc_ok e || rpc_lost e then flush (with_pl (AcsTransfer.AddTransfer (e_plugin e) a (pl w)).1.1 w) else w,
   rpc_ok e).

(** [DM_ENG_Device_AddTransfer] *)
Definition AddTransfer (e : env) (g : gaps) (isDownload : bool) (r : request) (instanceID : Z)
    (w : world) : world * Z :=
  let '(w, instance) :=
    if instanceID <=? 0 then new_dm_entry e (values_of e isDownload r) w else (w, Some instanceID) in
  match instance with
  | None => (w, DM_ENG_REQUEST_DENIED)
  | Some i =>
      if i <=? 0 then (w, DM_ENG_REQUEST_DENIED)
      else
        let w := plugin_events (before_call g) w in
        let '(w, ok) := call_AddTransfer e (args_of isDownload r i) w in
        if negb ok then (w, DM_ENG_REQUEST_DENIED)
        else AddTransferSubscription e g i (plugin_events (before_subscribe g) w)
  end.

(** The common end of [DoDownload], [DoUpload] and [RestartTransfer]: the timer
    of an accepted transfer *)
Definition start_timeout (key : string) (seconds : Z) (x : world * Z) : world * Z :=
  (if x.2 =? 0 then timerStart key (u32 seconds) TRANSFER_TIMED_OUT x.1 else x.1, x.2).

(** [DM_ENG_Device_DoDownload] *)
Definition DoDownload (e : env) (g : gaps) (r : request) (w : world) : world * Z :=
  start_timeout (rq_key r) (rq_delay r + 3600) (AddTransfer e g true r (-1) w).

(** What an upload leaves out *)
Definition upload_request (r : request) : request :=
  {| rq_key := rq_key r; rq_fileType := rq_fileType r; rq_url := rq_url r; rq_username := rq_username r;
     rq_password := rq_password r; rq_fileSize := 0; rq_target := Some ""%string; rq_delay := rq_delay r;
     rq_success := Some ""%string; rq_failure := Some ""%string |}.

(** [DM_ENG_Device_DoUpload] *)
Definition DoUpload (e : env) (g : gaps) (r : request) (w : world) : world * Z :=
  start_timeout (rq_key r) (rq_delay r + 3600) (AddTransfer e g false (upload_request r) (-1) w).

(** [DM_ENG_Device_Download] and [DM_ENG_Device_Upload]; [bus_ctx] is the
    result of [CheckSystem]. *)
Definition Device_Download (bus_ctx : bool) (e : env) (g : gaps) (r : request) (w : world) : world * Z :=
  if bus_ctx then DoDownload e g r w else (w, DM_ENG_INVALID_ARGUMENTS).

Definition Device_Upload (bus_ctx : bool) (e : env) (g : gaps) (r : request) (w : world) : world * Z :=
  if bus_ctx then DoUpload e g r w else (w, DM_ENG_INVALID_ARGUMENTS).

(** The request an instance was made of *)
Definition request_of (t : transfer) : request :=
  {| rq_key := commandKey t; rq_fileType := fileType t; rq_url := url t; rq_username := username t;
     rq_password := password t; rq_fileSize := fileSize t; rq_target := targetFileName t; rq_delay := 5;
     rq_success := successURL t; rq_failure := failureURL t |}.

(** [DM_ENG_Device_RestartTransfer] *)
Definition RestartTransfer (e : env) (g : gaps) (path : string) (w : world) : world :=
  if streq path "" then w
  else
    match amxb_get e path w with
    | None => w
    | Some t =>
        (start_timeout (commandKey t) 3600
           (AddTransfer e g (isDownload t) (request_of t) (index t) w)).1
    end.

(** ** Start of the daemon *)

(** [handle_pending_upgrade] *)
Definition handle_pending_upgrade (e : env) (path : string) (w : world) : world :=
  let '(code, text) :=
    match image_status e with
    | None => (DM_ENG_INTERNAL_ERROR, "Internal failure"%string)
    | Some s => if streq s "Active" then (0, ""%string)
                else (DM_ENG_DOWNLOAD_FAILURE, "Failed to apply firmware"%string)
    end in
  UpdateTransferState e path code text (if code =? 0 then Some UNKNOWN_TIME else None) w.

(** One round of the loop of [DM_ENG_Device_UpDownloadInitialize] *)
Definition initialize_transfer (e : env) (t : transfer) (w : world) : world :=
  let path := entry_path (index t) in
  match state t with
  | Initial =>
      if completeTime t <? e_now e then timerStart (commandKey t) 0 TRANSFER_TIMED_OUT w
      else timerStart path 0 RESTART_TRANSFER w
  | Finished => timerStart path 0 TRANSFER_COMPLETE_EVENT w
  | Applying =>
      if bool_decide (fileType t = Some FIRMWARE) then
        timerStart path 0 TRANSFER_COMPLETE_EVENT (handle_pending_upgrade e path w)
      else w
  end.

(** [DM_ENG_Device_UpDownloadInitialize] *)
Definition UpDownloadInitialize (e : env) (w : world) : world * bool :=
  if get_ok e then (foldl (fun w t => initialize_transfer e t w) w (objs (pl w)), true) else (w, false).

(** A new process: its timers, its subscriptions and what was on the way to it
    are gone, the data model and the plugin stay. *)
Definition restart (e : env) (w : world) : world :=
  (UpDownloadInitialize e
     {| pl := pl w; subs := Subscriptions.initial; engine := no_timers; inbox := []; sent := sent w;
        replies := replies w |}).1.

(** ** Other requests of the engine *)

(** [DM_ENG_Device_TransferDoneAcknowledged] *)
Definition TransferDoneAcknowledged (del_ok : bool) (path : string) (w : world) : world * Z :=
  if del_ok then
    match find_path path w with
    | Some t => (plugin_event (ObjectDeleted (index t)) w, 0)
    | None => (w, -1)
    end
  else (w, -1).

(** [DM_ENG_AllQueuedTransferStruct] *)
Record queued := {
  q_isDownload : bool;
  q_state : Z;
  q_fileType : option string;
  q_fileSize : Z;
  q_target : option string;
  q_key : string;
}.

Definition queued_of (t : transfer) : queued :=
  {| q_isDownload := isDownload t;
     q_state := match state t with Initial => 1 | Applying => 2 | Finished => 3 end;
     q_fileType := fileType t; q_fileSize := fileSize t; q_target := targetFileName t;
     q_key := commandKey t |}.

(** [DM_ENG_Device_GetQueuedTransfers] and [DM_ENG_Device_GetAllQueuedTransfers] *)
Definition GetQueuedTransfers (e : env) (w : world) : option (list queued) * Z :=
  if get_ok e then (Some (map queued_of (objs (pl w))), 0) else (None, DM_ENG_INVALID_PARAMETER_NAME).

Definition GetAllQueuedTransfers (bus_ctx : bool) (e : env) (w : world) : option (list queued) * Z :=
  if bus_ctx then GetQueuedTransfers e w else (None, DM_ENG_INVALID_ARGUMENTS).

(** ** Runs *)

Definition run_handler (e : env) (g : gaps) (h : nat) (name : string) (w : world) : world :=
  if Nat.eqb h TRANSFER_TIMED_OUT then TransferTimedOut e name w
  else if Nat.eqb h RESTART_TRANSFER then RestartTransfer e g name w
  else if Nat.eqb h TRANSFER_COMPLETE_EVENT then TransferCompleteEvent e name w
  else w.

(** The timer of a name expires; it is gone before its handler runs. *)
Definition timer_fires (e : env) (g : gaps) (name : string) (w : world) : world :=
  match armed (engine w) name with
  | None => w
  | Some h => run_handler e g h name (with_engine (expire name (engine w)) w)
  end.

Definition record_reply (key : string) (x : world * Z) : world := reply key x.2 x.1.

Inductive action :=
| Download (bus_ctx : bool) (e : env) (g : gaps) (r : request)
| Upload (bus_ctx : bool) (e : env) (g : gaps) (r : request)
| PluginEvent (ev : event)
| Dispatch (e : env)
| TimerFires (e : env) (g : gaps) (name : string)
| Acknowledged (del_ok : bool) (path : string)
| Restart (e : env).

Definition act (a : action) (w : world) : world :=
  match a with
  | Download b e g r => record_reply (rq_key r) (Device_Download b e g r w)
  | Upload b e g r => record_reply (rq_key r) (Device_Upload b e g r w)
  | PluginEvent ev => plugin_event ev w
  | Dispatch e => dispatch e w
  | TimerFires e g name => timer_fires e g name w
  | Acknowledged ok path => (TransferDoneAcknowledged ok path w).1
  | Restart e => restart e w
  end.

Definition run : list action -> world -> world := run_steps act.

Definition start_world : world :=
  {| pl := AcsTransfer.initial; subs := Subscriptions.initial; engine := no_timers; inbox := []; sent := [];
     replies := [] |}.

End Adapter.

End UpDownload.
