(* ===== verification/UpDownloadFacts.v ===== *)
(** * UpDownloadFacts: invariants of Download and Upload requests

    The callbacks of the adapter keep the identity of the instances, and with it
    the invariant [inv] from which [UpDownloadSpec] derives that no accepted
    transfer is forgotten, and [once], which says why none is reported twice. *)

From Stdlib Require Import ZArith Lia Ascii.
From stdpp Require Import base list strings pretty.
From S2P Require Import Prelude CString Subscriptions EngineTimers AcsTransfer AcsTransferFacts UpDownload.

Module UpDownloadFacts.
Import AcsTransfer AcsTransferFacts UpDownload.

(** ** Paths *)

Lemma entry_path_inj i j : entry_path i = entry_path j -> i = j.
Proof. intros H. apply CString.append_inj, CString.append_inj_r in H. by apply (inj pretty). Qed.

Lemma entry_path_not_empty i : streq (entry_path i) "" = false.
Proof. by apply streq_false. Qed.

Lemma entry_path_not_root i : streq (entry_path i) "." = false.
Proof. by apply streq_false. Qed.

Definition is_path (n : string) : Prop := exists i, n = entry_path i.

(** A command key that can name a timer: not empty, and not an instance path. *)
Definition valid_key (k : string) : Prop := k <> ""%string /\ ~ is_path k.

(** The identifier of the subscription of an instance *)
Definition uid {A : adapter_library} (i : Z) : Z := hash (String.append (entry_path i) filter_changed).

(** What the adapter relies on: an instance path is the path of its object, the
    identifiers of the instances do not collide, the fault codes are not 0. *)
Class AdapterLaws {A : adapter_library} := {
  law_path i : object_of (entry_path i) = entry_path i;
  law_uid i j : uid i = uid j -> i = j;
  law_denied : DM_ENG_REQUEST_DENIED <> 0;
  law_invalid : DM_ENG_INVALID_ARGUMENTS <> 0;
}.

Section Facts.

Context {L : library} {A : adapter_library} {AL : AdapterLaws}.
Context {T : Type} {ET : EngineTimers T} {LT : EngineTimersLaws T}.

Notation world := (@world T).
Notation ext := (ext_by full_ident).
Notation ext0 := (ext_by ident).
Implicit Types w : world.

(** ** What the adapter leaves alone *)

Lemma ext_plugin_event ev w : ext (pl w) (pl (plugin_event ev w)).
Proof. apply (ext_frame _ _ (AcsTransfer.step ev (pl w))); [apply ext_step|done..]. Qed.

Lemma ext_plugin_events evs w : ext (pl w) (pl (plugin_events evs w)).
Proof.
  revert w. induction evs as [|ev evs IH]; intros w; [done|].
  etrans; [apply ext_plugin_event|apply (IH (plugin_event ev w))].
Qed.

(** A step of the plugin side: nothing else of the adapter changes. *)
Record quiet w w' : Prop := {
  quiet_ext : ext0 (pl w) (pl w');
  quiet_wf : wf (pl w) -> wf (pl w');
  quiet_engine : engine w' = engine w;
  quiet_sent : sent w' = sent w;
  quiet_replies : replies w' = replies w;
}.

#[export] Instance quiet_preorder : PreOrder quiet.
Proof.
  split; [by intros w|]. intros w1 w2 w3 [] []. constructor; [by etrans|auto|congruence..].
Qed.

Lemma wf_flush w : wf (pl w) -> wf (pl (flush w)).
Proof. intros H. by apply (wf_quiet (pl w)). Qed.

Lemma quiet_flush w : quiet w (flush w).
Proof. constructor; try done. apply wf_flush. Qed.

Lemma quiet_plugin_event ev w : quiet w (plugin_event ev w).
Proof. constructor; try done; [apply ext_weaken, ext_plugin_event|]. intros H. by apply wf_flush, wf_step. Qed.

Lemma quiet_plugin_events evs w : quiet w (plugin_events evs w).
Proof.
  revert w. induction evs as [|ev evs IH]; intros w; [done|].
  etrans; [apply quiet_plugin_event|apply (IH (plugin_event ev w))].
Qed.

Lemma quiet_subs s w : quiet w (with_subs s w).
Proof. done. Qed.

Lemma quiet_inbox l w : quiet w (with_inbox l w).
Proof. done. Qed.

Lemma quiet_set_finished e path u w :
  u_status u = Some Finished -> quiet w (amxb_set e path u w).
Proof.
  intros Hu. unfold amxb_set. destruct (set_ok e); [|done]. destruct (find_path path w) as [t|]; [|done].
  etrans; [|apply quiet_flush]. constructor; try done; [apply ext_weaken, ext_bus_set|].
  intros H. apply wf_bus_set; [done|]. split_and!; rewrite Hu; done.
Qed.

Lemma quiet_UpdateTransferState e path c s t w : quiet w (UpdateTransferState e path c s t w).
Proof. unfold UpdateTransferState. destruct (streq path ""); [done|]. by apply quiet_set_finished. Qed.

Lemma quiet_subscription_id t uid w : quiet w (with_pl (bus_set_subscriptionId uid t (pl w)) w).
Proof.
  constructor; try done; simpl.
  - by apply (ext_alter (pl w)).
  - intros H. by apply (wf_alter_quiet (pl w)).
Qed.

(** An instance of that index has that file type. *)
Definition matches (i : Z) (ft : option string) w : Prop :=
  forall t, t ∈ objs (pl w) -> index t = i -> fileType t = ft.

Lemma matches_ext i ft w w' : ext0 (pl w) (pl w') -> matches i ft w -> matches i ft w'.
Proof.
  intros He H t Ht E. destruct (ext_elem _ _ _ _ He Ht) as (t0 & Ht0 & [= _ E1 _ E2 _]).
  rewrite <- E2. apply H; congruence.
Qed.

Lemma quiet_call e a w :
  matches (a_index a) (a_fileType a) w -> quiet w (call_AddTransfer e a w).1.
Proof.
  intros Hm. unfold call_AddTransfer. cbn [fst]. destruct (_ || _); [|done].
  etrans; [|apply quiet_flush]. constructor; try done; [apply ext_weaken, ext_AddTransfer|].
  intros H. apply wf_AddTransfer; [|done]. intros t Ht. apply find_by_index in Ht as [Ht E]. by apply Hm.
Qed.

Lemma quiet_AddTransferSubscription e g i w : quiet w (AddTransferSubscription e g i w).1.
Proof.
  unfold AddTransferSubscription. destruct (Subscriptions.AddSubscription _ _ _ _ _ _ _ _) as [s error].
  destruct (negb (error =? 0)); [apply quiet_subs|]. cbn [fst].
  set (w1 := plugin_events (before_set g) (with_subs s w)).
  assert (H1 : quiet w w1) by (etrans; [apply (quiet_subs s)|apply quiet_plugin_events]).
  destruct (if set_ok e then _ else _) as [t|]; [|done]. etrans; [exact H1|apply quiet_subscription_id].
Qed.

(** [AddTransfer] on an instance that exists *)
Lemma quiet_AddTransfer e g d r i w :
  0 < i -> matches i (rq_fileType r) w -> quiet w (AddTransfer e g d r i w).1.
Proof.
  intros Hi Hm. unfold AddTransfer. rewrite (proj2 (Z.leb_gt i 0)) by lia.
  rewrite (proj2 (Z.leb_gt i 0)) by lia.
  set (w1 := plugin_events (before_call g) w).
  assert (H1 : quiet w w1) by apply quiet_plugin_events.
  assert (Hm1 : matches i (rq_fileType r) w1) by (eapply matches_ext; [apply H1|done]).
  pose proof (quiet_call e (args_of d r i) w1 Hm1) as H2.
  destruct (call_AddTransfer e (args_of d r i) w1) as [w2 ok]. cbn [fst] in H2.
  assert (H3 : quiet w w2) by (by etrans).
  destruct (negb ok); [done|].
  etrans; [exact H3|]. etrans; [apply (quiet_plugin_events (before_subscribe g))|].
  apply quiet_AddTransferSubscription.
Qed.

Lemma same_index w t t' : wf (pl w) -> t ∈ objs (pl w) -> t' ∈ objs (pl w) -> index t = index t' -> t = t'.
Proof. intros H. apply (NoDup_map_inj index (objs (pl w))), (wf_indices _ H). Qed.

(** [AddTransfer] for the restart of an instance *)
Lemma quiet_again e g t w :
  wf (pl w) -> t ∈ objs (pl w) -> quiet w (AddTransfer e g (isDownload t) (request_of t) (index t) w).1.
Proof.
  intros H Ht. apply quiet_AddTransfer; [destruct (wf_bounds _ H t Ht); lia|].
  intros t' Ht' Ei. simpl. f_equal. by apply (same_index w).
Qed.

(** A new instance *)
Definition added (e : env) (d : bool) (r : request) w : world :=
  with_pl (add_instance (values_of e d r) (pl w)).1 w.

Lemma AddTransfer_new e g d r w :
  wf (pl w) ->
  AddTransfer e g d r (-1) w =
    if add_ok e then AddTransfer e g d r (last_index (pl w) + 1) (added e d r w)
    else (w, DM_ENG_REQUEST_DENIED).
Proof.
  intros H. pose proof (wf_last _ H). unfold AddTransfer, new_dm_entry, added. change (-1 <=? 0) with true. cbv iota.
  destruct (add_ok e); [|done].
  change (add_instance (values_of e d r) (pl w)) with
    ((add_instance (values_of e d r) (pl w)).1, last_index (pl w) + 1).
  cbv iota. cbn [fst]. by rewrite !(proj2 (Z.leb_gt (last_index (pl w) + 1) 0)) by lia.
Qed.

Lemma matches_added e d r w :
  wf (pl w) -> matches (last_index (pl w) + 1) (rq_fileType r) (added e d r w).
Proof.
  intros H t. simpl. intros [Ht| ->%list_elem_of_singleton]%elem_of_app; [|done].
  destruct (wf_bounds _ H t Ht). lia.
Qed.

Lemma wf_added e d r w : wf (pl w) -> wf (pl (added e d r w)).
Proof. apply wf_add_instance. Qed.

(** ** The invariant of accepted transfers *)

Definition reported (k : string) w : Prop := exists tc, tc ∈ sent w /\ tc_key tc = k.

(** A timer will end the transfer. *)
Definition waiting (t : transfer) w : Prop :=
  armed (engine w) (commandKey t) <> None \/ armed (engine w) (entry_path (index t)) <> None.

Definition covered (t : transfer) w : Prop := reported (commandKey t) w \/ waiting t w.

(** [used] are the command keys of the requests so far. *)
Record base (used : list string) w : Prop := {
  base_wf : wf (pl w);
  base_timers : timers_ok (engine w);
  base_keys : NoDup (map commandKey (objs (pl w)));
  base_used : forall t, t ∈ objs (pl w) -> commandKey t ∈ used;
  base_handlers : forall n h, armed (engine w) n = Some h ->
    (is_path n -> h = RESTART_TRANSFER \/ h = TRANSFER_COMPLETE_EVENT) /\ (~ is_path n -> h = TRANSFER_TIMED_OUT);
  base_valid : forall k, k ∈ used -> valid_key k;
  base_replies : forall k c, (k, c) ∈ replies w -> k ∈ used;
  base_sent : forall tc, tc ∈ sent w -> tc_key tc ∈ used;
}.

(** Every accepted transfer is covered, but for those a name stands for. *)
Definition accepted_covered (skip : option string) w : Prop :=
  forall t, t ∈ objs (pl w) -> (commandKey t, 0) ∈ replies w ->
  skip <> Some (commandKey t) -> skip <> Some (entry_path (index t)) -> covered t w.

Definition inv (used : list string) w : Prop := base used w /\ accepted_covered None w.

Lemma ext_keys w w' : ext0 (pl w) (pl w') ->
  map commandKey (objs (pl w')) `sublist_of` map commandKey (objs (pl w)).
Proof. by apply (ext_map (fun x => x.1.1.2)). Qed.

Lemma base_quiet used w w' : quiet w w' -> base used w -> base used w'.
Proof.
  intros [He Hw En Es Er] []. constructor; rewrite ?En, ?Er, ?Es; auto.
  - eapply sublist_NoDup; [done|by apply ext_keys].
  - intros t Ht. destruct (ext_elem _ _ _ _ He Ht) as (t0 & Ht0 & [= _ _ E _ _]). rewrite <- E. auto.
Qed.

Lemma covered_quiet skip w w' : quiet w w' -> accepted_covered skip w -> accepted_covered skip w'.
Proof.
  intros [He Hw En Es Er] H t Ht. destruct (ext_elem _ _ _ _ He Ht) as (t0 & Ht0 & [= _ E1 E2 _ _]).
  rewrite Er. unfold covered, reported, waiting. rewrite En, Es, <- E1, <- E2. by apply H.
Qed.

Lemma inv_quiet used w w' : quiet w w' -> inv used w -> inv used w'.
Proof. intros Hq [H1 H2]. split; [by eapply base_quiet|by eapply covered_quiet]. Qed.

(** *** Timers *)

Lemma armed_start_mono t n d h m :
  timers_ok t -> armed t m <> None -> armed (start n d h t) m <> None.
Proof. intros Ht H. rewrite armed_start by done. by repeat case_goal. Qed.

Lemma armed_start_same t n d h : timers_ok t -> n <> ""%string -> armed (start n d h t) n <> None.
Proof. intros Ht Hn. rewrite armed_start by done. apply streq_false in Hn. by rewrite Hn, streq_refl. Qed.

Lemma base_start used n d h w :
  (is_path n -> h = RESTART_TRANSFER \/ h = TRANSFER_COMPLETE_EVENT) ->
  (~ is_path n -> h = TRANSFER_TIMED_OUT) -> base used w -> base used (timerStart n d h w).
Proof.
  intros H1 H2 []. constructor; simpl; auto using ok_start.
  intros m h'. rewrite armed_start by done. destruct (streq n ""); [auto|].
  destruct (streq m n) eqn:E; [|auto]. apply streq_true in E as ->.
  destruct (armed (engine w) n) as [h0|] eqn:E0; simpl; intros [= <-]; auto.
Qed.

Lemma covered_start skip n d h w :
  timers_ok (engine w) -> accepted_covered skip w -> accepted_covered skip (timerStart n d h w).
Proof.
  intros Ht H t Hin Hr H1 H2. destruct (H t Hin Hr H1 H2) as [Hc|[Hc|Hc]]; [by left|right; left|right; right];
    by apply armed_start_mono.
Qed.

(** The timer of a name goes away. *)
Lemma base_unarm used n w (f : T -> T) :
  (forall m, armed (f (engine w)) m = if streq m n then None else armed (engine w) m) ->
  timers_ok (f (engine w)) -> base used w -> base used (with_engine (f (engine w)) w).
Proof.
  intros Hf Hok []. constructor; simpl; auto. intros m h. rewrite Hf. destruct (streq m n); [done|auto].
Qed.

Lemma covered_unarm n w (f : T -> T) :
  (forall m, armed (f (engine w)) m = if streq m n then None else armed (engine w) m) ->
  accepted_covered None w -> accepted_covered (Some n) (with_engine (f (engine w)) w).
Proof.
  intros Hf H t Hin Hr H1 H2. unfold covered, waiting. simpl. rewrite !Hf.
  rewrite (proj2 (streq_false (commandKey t) n)), (proj2 (streq_false (entry_path (index t)) n)) by congruence.
  by apply H.
Qed.

(** *** Objects by path and by key *)

Lemma find_path_elem path w t : find_path path w = Some t -> t ∈ objs (pl w) /\ entry_path (index t) = path.
Proof. intros [H E]%find_some. apply streq_true in E. by rewrite list_elem_of_In. Qed.

Lemma find_path_none path w t : find_path path w = None -> t ∈ objs (pl w) -> entry_path (index t) <> path.
Proof.
  intros H Ht E. apply list_elem_of_In in Ht. pose proof (find_none _ _ H _ Ht) as Hx. simpl in Hx.
  by rewrite E, streq_refl in Hx.
Qed.

Lemma find_path_index w t : wf (pl w) -> t ∈ objs (pl w) -> find_path (entry_path (index t)) w = Some t.
Proof.
  intros H Ht. destruct (find_path _ w) as [t'|] eqn:E.
  - apply find_path_elem in E as [Ht' E%entry_path_inj]. f_equal. by apply (same_index w).
  - by apply (find_path_none _ _ t) in E.
Qed.

(** *** The end of a transfer *)

Lemma reported_send k tc w : reported k w \/ tc_key tc = k -> reported k (send tc w).
Proof.
  intros [(x & Hx & E)|E]; [exists x|exists tc]; split; try done; simpl; apply elem_of_app; [by left|right].
  by apply list_elem_of_singleton.
Qed.

(** The world after a transfer complete event that finds its object [t]. *)
Definition completed (e : env) (t : transfer) (path : string) w : world :=
  delete_subscription e (subscriptionId t)
    (send (BuildTransferCompleteResponse t path) (timerStop (commandKey t) w)).

Lemma TransferCompleteEvent_eq e path w :
  tcs_ok e = true ->
  TransferCompleteEvent e path w =
    match amxb_get e path w with Some t => completed e t path w | None => w end.
Proof. intros H. unfold TransferCompleteEvent. destruct (amxb_get e path w); [|done]. by rewrite H. Qed.

Lemma base_completed used e t path w : t ∈ objs (pl w) -> base used w -> base used (completed e t path w).
Proof.
  intros Ht H. apply (base_quiet _ (send (BuildTransferCompleteResponse t path) (timerStop (commandKey t) w))); [done|].
  assert (Hb : base used (timerStop (commandKey t) w)).
  { apply (base_unarm used (commandKey t) w (stop (commandKey t))); [|by apply ok_stop, H|done].
    intros m. by apply armed_stop, H. }
  pose proof (base_used _ _ H t Ht). destruct Hb. constructor; try done. simpl.
  intros tc [Htc| ->%list_elem_of_singleton]%elem_of_app; [auto|done].
Qed.

Lemma covered_completed used skip e t path w :
  base used w -> t ∈ objs (pl w) -> accepted_covered skip w -> accepted_covered skip (completed e t path w).
Proof.
  intros Hb Ht H t' Hin Hr H1 H2. destruct (decide (commandKey t' = commandKey t)) as [E|E].
  - left. by apply (reported_send (commandKey t')); right.
  - destruct (H t' Hin Hr H1 H2) as [Hc|[Hc|Hc]].
    + left. by apply (reported_send (commandKey t')); left.
    + right. left. simpl. rewrite armed_stop by apply Hb. by rewrite (proj2 (streq_false _ _) E).
    + right. right. simpl. rewrite armed_stop by apply Hb.
      rewrite (proj2 (streq_false (entry_path (index t')) (commandKey t))); [done|].
      intros Ep. destruct (base_valid _ _ Hb (commandKey t)) as [_ Hv]; [by apply (base_used _ _ Hb)|].
      apply Hv. by exists (index t').
Qed.

Lemma amxb_get_elem e path w t : amxb_get e path w = Some t -> t ∈ objs (pl w).
Proof. unfold amxb_get. destruct (get_ok e); [|done]. intros H. by apply find_path_elem in H as [? _]. Qed.

Lemma inv_complete used skip e path w :
  tcs_ok e = true -> base used w -> accepted_covered skip w ->
  base used (TransferCompleteEvent e path w) /\ accepted_covered skip (TransferCompleteEvent e path w).
Proof.
  intros He Hb Hc. rewrite TransferCompleteEvent_eq by done.
  destruct (amxb_get e path w) as [t|] eqn:E; [|done]. apply amxb_get_elem in E.
  split; [by apply base_completed|by eapply covered_completed].
Qed.

Lemma complete_reports e path w t :
  tcs_ok e = true -> amxb_get e path w = Some t -> reported (commandKey t) (TransferCompleteEvent e path w).
Proof.
  intros He E. rewrite TransferCompleteEvent_eq, E by done. by apply (reported_send (commandKey t)); right.
Qed.

Lemma complete_objs e path w : pl (TransferCompleteEvent e path w) = pl w.
Proof. unfold TransferCompleteEvent. destruct (amxb_get e path w); [|done]. by destruct (tcs_ok e). Qed.

(** *** Time out *)

Lemma idents_amxb_set e path u w : map ident (objs (pl (amxb_set e path u w))) = map ident (objs (pl w)).
Proof.
  unfold amxb_set. destruct (set_ok e); [|done]. destruct (find_path path w); [|done]. simpl. by rewrite map_alter.
Qed.

(** The world in which a timed-out transfer [t] is reported *)
Definition timed_out (e : env) (t : transfer) w : world :=
  let w := delete_subscription e (subscriptionId t) w in
  if bool_decide (state t <> Initial) then
    UpdateTransferState e (entry_path (index t))
      (if isDownload t then DM_ENG_DOWNLOAD_FAILURE else DM_ENG_UPLOAD_FAILURE) "Transfer timed out" None w
  else w.

Lemma quiet_timed_out e t w : quiet w (timed_out e t w).
Proof.
  unfold timed_out. transitivity (delete_subscription e (subscriptionId t) w); [done|].
  destruct (bool_decide _); [|done]. apply quiet_UpdateTransferState.
Qed.

Lemma idents_timed_out e t w : map ident (objs (pl (timed_out e t w))) = map ident (objs (pl w)).
Proof.
  unfold timed_out, UpdateTransferState. destruct (bool_decide _); [|done]. destruct (streq _ _); [done|].
  etrans; [apply idents_amxb_set|done].
Qed.

(** An instance keeps its place. *)
Lemma ident_elem w w' t :
  map ident (objs (pl w')) = map ident (objs (pl w)) -> t ∈ objs (pl w) ->
  exists t', t' ∈ objs (pl w') /\ ident t' = ident t.
Proof.
  intros E Ht. assert (Hi : ident t ∈ map ident (objs (pl w'))).
  { rewrite E. apply list_elem_of_fmap. by exists t. }
  apply list_elem_of_fmap in Hi as (t' & -> & Ht'). by exists t'.
Qed.

Lemma TransferTimedOut_eq e k w :
  get_ok e = true ->
  TransferTimedOut e k w =
    match List.find (fun t => streq (commandKey t) k) (objs (pl w)) with
    | Some t => TransferCompleteEvent e (entry_path (index t)) (timed_out e t w)
    | None => w
    end.
Proof. intros H. unfold TransferTimedOut. by rewrite H. Qed.

Lemma inv_timed_out used skip e k w :
  tcs_ok e = true -> base used w -> accepted_covered skip w ->
  base used (TransferTimedOut e k w) /\ accepted_covered skip (TransferTimedOut e k w).
Proof.
  intros He Hb Hc. destruct (get_ok e) eqn:Eg; [|unfold TransferTimedOut; by rewrite Eg].
  rewrite TransferTimedOut_eq by done. destruct (List.find _ _) as [t|]; [|done].
  apply inv_complete; [done| |].
  - eapply base_quiet; [apply quiet_timed_out|done].
  - eapply covered_quiet; [apply quiet_timed_out|done].
Qed.

Lemma timed_out_reports e w t :
  get_ok e = true -> tcs_ok e = true -> wf (pl w) -> t ∈ objs (pl w) -> reported (commandKey t) (TransferTimedOut e (commandKey t) w).
Proof.
  intros Hg He Hw Ht. rewrite TransferTimedOut_eq by done.
  destruct (List.find _ _) as [t0|] eqn:E.
  - apply find_some in E as [Ht0 E]. apply streq_true in E. apply list_elem_of_In in Ht0.
    destruct (ident_elem w (timed_out e t0 w) t0) as (t1 & Ht1 & [= _ E2 E3 _ _]);
      [apply idents_timed_out|done|]. rewrite <- E, <- E3, <- E2.
    apply complete_reports; [done|]. unfold amxb_get. rewrite Hg. apply find_path_index; [|done].
    by apply (quiet_wf _ _ (quiet_timed_out e t0 w)).
  - apply list_elem_of_In in Ht. pose proof (find_none _ _ E _ Ht) as Hx. simpl in Hx. by rewrite streq_refl in Hx.
Qed.

(** *** Restart of a transfer *)

Definition answers_ok (e : env) : Prop :=
  get_ok e = true /\ rpc_ok e = true /\ tcs_ok e = true /\
  Subscriptions.info_ok (e_sub e) = true /\ Subscriptions.sub_ok (e_sub e) = true /\
  Subscriptions.subscribe_ok (e_sub e) = true.

Lemma AddSubscription_answer e path handler s :
  Subscriptions.info_ok (e_sub e) = true -> Subscriptions.sub_ok (e_sub e) = true ->
  Subscriptions.subscribe_ok (e_sub e) = true -> object_of path <> "."%string ->
  (Subscriptions.AddSubscription object_of param_of hash (e_sub e) path filter_changed handler s).2 = 0.
Proof.
  intros H1 H2 H3 Hp. unfold Subscriptions.AddSubscription. apply streq_false in Hp. rewrite Hp, H1, H2, H3. simpl.
  by destruct (Subscriptions.FindSubscription _ _).
Qed.

Lemma AddTransfer_answer e g d r i w : answers_ok e -> 0 < i -> (AddTransfer e g d r i w).2 = 0.
Proof.
  intros (H1 & H2 & H3 & H4 & H5 & H6) Hi. unfold AddTransfer, call_AddTransfer, AddTransferSubscription.
  rewrite !(proj2 (Z.leb_gt i 0)) by lia. rewrite H2. simpl.
  match goal with |- context [Subscriptions.AddSubscription ?a ?b ?c ?d ?p ?f ?h ?s] =>
    pose proof (AddSubscription_answer e (entry_path i) h s H4 H5 H6) as Hs;
    destruct (Subscriptions.AddSubscription a b c d p f h s) as [s' error] end.
  rewrite law_path in Hs. simpl in Hs. rewrite Hs by (by apply streq_false, entry_path_not_root). done.
Qed.

Lemma restart_inv used skip e g path w :
  base used w -> accepted_covered skip w ->
  base used (RestartTransfer e g path w) /\ accepted_covered skip (RestartTransfer e g path w).
Proof.
  intros Hb Hc. unfold RestartTransfer. destruct (streq path ""); [done|].
  destruct (amxb_get e path w) as [t|] eqn:E; [|done]. apply amxb_get_elem in E.
  pose proof (quiet_again e g t w (base_wf _ _ Hb) E) as Hq.
  set (x := AddTransfer _ _ _ _ _ _) in *. unfold start_timeout. cbn [fst].
  assert (Hb1 : base used x.1) by (by eapply base_quiet).
  assert (Hc1 : accepted_covered skip x.1) by (by eapply covered_quiet).
  destruct (x.2 =? 0); [|done]. split.
  - apply base_start; [|done|done]. intros Hp.
    destruct (base_valid _ _ Hb (commandKey t)) as [_ Hv]; [by apply (base_used _ _ Hb)|]. by destruct Hv.
  - apply covered_start; [apply Hb1|done].
Qed.

Lemma restart_waits used e g w t t' :
  answers_ok e -> base used w -> t ∈ objs (pl w) ->
  t' ∈ objs (pl (RestartTransfer e g (entry_path (index t)) w)) -> index t' = index t ->
  armed (engine (RestartTransfer e g (entry_path (index t)) w)) (commandKey t') <> None.
Proof.
  intros Ha Hb Ht. unfold RestartTransfer. rewrite entry_path_not_empty. unfold amxb_get.
  destruct (Ha) as (Hg & _). rewrite Hg, find_path_index by (done || apply Hb).
  destruct (wf_bounds _ (base_wf _ _ Hb) t Ht) as [_ Hi].
  pose proof (quiet_again e g t w (base_wf _ _ Hb) Ht) as Hq.
  pose proof (AddTransfer_answer e g (isDownload t) (request_of t) (index t) w Ha ltac:(lia)) as H0.
  set (x := AddTransfer _ _ _ _ _ _) in *. unfold start_timeout. rewrite H0. cbn [fst].
  assert (Hb1 : base used x.1) by (by eapply base_quiet).
  intros Ht' Ei. simpl in Ht'. simpl.
  destruct (ext_elem _ _ _ _ (quiet_ext _ _ Hq) Ht') as (t0 & Ht0 & [= _ E1 E2 _ _]).
  assert (t0 = t) as -> by (apply (same_index w); [apply Hb|done|done|congruence]).
  rewrite <- E2. apply armed_start_same; [apply Hb1|].
  by destruct (base_valid _ _ Hb (commandKey t)) as [? _]; [by apply (base_used _ _ Hb)|].
Qed.

(** *** Start of the daemon *)

(** What the loop keeps: everything but the timers, which are only added. *)
Record growing w w' : Prop := {
  grow_ext : ext0 (pl w) (pl w');
  grow_wf : wf (pl w) -> wf (pl w');
  grow_sent : sent w' = sent w;
  grow_replies : replies w' = replies w;
  grow_ok : timers_ok (engine w) -> timers_ok (engine w');
  grow_armed : timers_ok (engine w) -> forall m, armed (engine w) m <> None -> armed (engine w') m <> None;
}.

#[export] Instance growing_preorder : PreOrder growing.
Proof. split; [by intros w|]. intros w1 w2 w3 [] []. constructor; [by etrans|auto|congruence..|auto|auto]. Qed.

Lemma growing_quiet w w' : quiet w w' -> growing w w'.
Proof. intros [? ? E ? ?]. by constructor; try rewrite E. Qed.

Lemma growing_start n d h w : growing w (timerStart n d h w).
Proof. constructor; try done; simpl; [apply ok_start|]. intros Ht m. by apply armed_start_mono. Qed.

Lemma quiet_pending_upgrade e path w : quiet w (handle_pending_upgrade e path w).
Proof.
  unfold handle_pending_upgrade. destruct (image_status e) as [s|]; [destruct (streq s "Active")|];
    apply quiet_UpdateTransferState.
Qed.

Lemma base_initialize used e t w :
  base used w -> commandKey t ∈ used -> base used (initialize_transfer e t w).
Proof.
  intros Hb Hk. unfold initialize_transfer. destruct (base_valid _ _ Hb _ Hk) as [Hv1 Hv2].
  assert (Hp : is_path (entry_path (index t))) by (by exists (index t)).
  destruct (state t).
  - destruct (_ <? _); apply base_start; try done; by left.
  - destruct (bool_decide _); [|done]. apply base_start; [by right|done|].
    eapply base_quiet; [apply quiet_pending_upgrade|done].
  - apply base_start; [by right|done|done].
Qed.

Lemma growing_initialize e t w : growing w (initialize_transfer e t w).
Proof.
  unfold initialize_transfer. destruct (state t).
  - destruct (_ <? _); apply growing_start.
  - destruct (bool_decide _); [|done]. etrans; [apply growing_quiet, quiet_pending_upgrade|apply growing_start].
  - apply growing_start.
Qed.

Lemma initialize_waits e t w :
  timers_ok (engine w) -> valid_key (commandKey t) -> (state t = Applying -> fileType t = Some FIRMWARE) ->
  waiting t (initialize_transfer e t w).
Proof.
  intros Ht [Hk _] Ha. assert (Hp : entry_path (index t) <> ""%string) by (by apply streq_false).
  unfold initialize_transfer. destruct (state t).
  - destruct (_ <? _); [left|right]; by apply armed_start_same.
  - rewrite bool_decide_eq_true_2 by auto. right. apply armed_start_same; [|done].
    by rewrite (quiet_engine _ _ (quiet_pending_upgrade _ _ _)).
  - right. by apply armed_start_same.
Qed.

Lemma waiting_growing t w w' : timers_ok (engine w) -> growing w w' -> waiting t w -> waiting t w'.
Proof. intros Ht Hg [H|H]; [left|right]; by apply (grow_armed _ _ Hg). Qed.

Lemma growing_fold e l w : growing w (foldl (fun w t => initialize_transfer e t w) w l).
Proof.
  revert w. induction l as [|t l IH]; intros w; simpl; [done|]. etrans; [apply growing_initialize|apply IH].
Qed.

Lemma base_fold used e l w :
  base used w -> (forall t, t ∈ l -> commandKey t ∈ used) ->
  base used (foldl (fun w t => initialize_transfer e t w) w l).
Proof.
  revert w. induction l as [|t l IH]; intros w Hb Hl; simpl; [done|].
  apply IH; [apply base_initialize; [done|apply Hl; by left]|]. intros t' Ht'. apply Hl. by right.
Qed.

Lemma waiting_fold e l w t :
  timers_ok (engine w) -> (forall t, t ∈ l -> valid_key (commandKey t) /\ (state t = Applying -> fileType t = Some FIRMWARE)) ->
  t ∈ l -> waiting t (foldl (fun w t => initialize_transfer e t w) w l).
Proof.
  revert w. induction l as [|x l IH]; intros w Ht Hl; [by intros ?%elem_of_nil|].
  assert (Ht' : timers_ok (engine (initialize_transfer e x w))) by (by apply (growing_initialize e x w)).
  intros [->|Hin]%elem_of_cons; simpl.
  - eapply waiting_growing; [done|apply growing_fold|]. destruct (Hl x) as [H1 H2]; [by left|].
    by apply initialize_waits.
  - apply IH; [done| |done]. intros y Hy. apply Hl. by right.
Qed.

Lemma inv_restart used e w : get_ok e = true -> base used w -> inv used (restart e w).
Proof.
  intros Hg Hb. unfold restart, UpDownloadInitialize. rewrite Hg. cbn [fst].
  set (w0 := {| pl := pl w |}).
  assert (Hb0 : base used w0).
  { destruct Hb. constructor; simpl; auto using ok_none. intros n h. by rewrite armed_none. }
  split; [apply base_fold; [done|apply (base_used _ _ Hb0)]|].
  intros t Ht Hr _ _. right.
  destruct (ext_elem _ _ _ _ (grow_ext _ _ (growing_fold e (objs (pl w0)) w0)) Ht) as (t0 & Ht0 & [= _ E1 E2 _ _]).
  unfold waiting. rewrite <- E1, <- E2.
  apply (waiting_fold e (objs (pl w0)) w0 t0); [apply Hb0| |done].
  intros x Hx. split; [by apply (base_valid _ _ Hb0), (base_used _ _ Hb0)|by apply (wf_objs _ (base_wf _ _ Hb0))].
Qed.

(** *** Expiry of a timer *)

Lemma covered_all n w :
  accepted_covered (Some n) w ->
  (forall t, t ∈ objs (pl w) -> commandKey t = n \/ entry_path (index t) = n -> covered t w) ->
  accepted_covered None w.
Proof.
  intros H1 H2 t Ht Hr _ _. destruct (decide (commandKey t = n)); [by apply H2; [|left]|].
  destruct (decide (entry_path (index t) = n)); [by apply H2; [|right]|]. apply H1; congruence.
Qed.

(** A handler changes the instances like a step of the plugin. *)
Lemma ext_handler e g h n w :
  wf (pl w) -> ext0 (pl w) (pl (run_handler e g h n w)) /\ wf (pl (run_handler e g h n w)).
Proof.
  intros Hw. unfold run_handler. destruct (Nat.eqb h TRANSFER_TIMED_OUT); [|destruct (Nat.eqb h RESTART_TRANSFER)].
  - unfold TransferTimedOut. destruct (get_ok e); [|done]. simpl. destruct (List.find _ _) as [t|]; [|done].
    rewrite complete_objs. by split; apply (quiet_timed_out e t w).
  - unfold RestartTransfer. destruct (streq n ""); [done|]. destruct (amxb_get e n w) as [t|] eqn:E; [|done].
    apply amxb_get_elem in E. unfold start_timeout. cbn [fst].
    pose proof (quiet_again e g t w Hw E) as [He Hwf _ _ _]. destruct (_ =? 0); split; auto.
  - destruct (Nat.eqb h TRANSFER_COMPLETE_EVENT); [by rewrite complete_objs|done].
Qed.

(** When a timer expires, the transfer it stands for is reported or started. *)
Lemma timer_covers used e g n h w t :
  answers_ok e -> base used w ->
  (is_path n -> h = RESTART_TRANSFER \/ h = TRANSFER_COMPLETE_EVENT) /\ (~ is_path n -> h = TRANSFER_TIMED_OUT) ->
  t ∈ objs (pl (run_handler e g h n w)) -> commandKey t = n \/ entry_path (index t) = n ->
  reported (commandKey t) (run_handler e g h n w) \/
  h = RESTART_TRANSFER /\ armed (engine (run_handler e g h n w)) (commandKey t) <> None.
Proof.
  intros Ha Hb [Hh1 Hh2] Ht Hn. pose proof Ha as (Hg & _ & Hs & _).
  destruct (ext_elem _ _ _ _ (proj1 (ext_handler e g h n w (base_wf _ _ Hb))) Ht) as (t0 & Ht0 & [= _ E1 E2 _ _]).
  destruct Hn as [Hn|Hn].
  - assert (Hk : ~ is_path n) by (rewrite <- Hn, <- E2; apply (base_valid _ _ Hb), (base_used _ _ Hb t0 Ht0)).
    rewrite (Hh2 Hk). left. unfold run_handler. simpl. rewrite <- Hn, <- E2. apply timed_out_reports; auto. apply Hb.
  - destruct (Hh1 (ex_intro _ (index t) (eq_sym Hn))) as [->| ->]; unfold run_handler in *; simpl in *.
    + right. split; [done|]. rewrite <- Hn, <- E1 in *. by apply (restart_waits used e g w t0 t).
    + left. rewrite <- E2, <- Hn, <- E1. apply complete_reports; [done|]. unfold amxb_get. rewrite Hg.
      apply find_path_index; [apply Hb|done].
Qed.

Lemma inv_handler used skip e g h n w :
  tcs_ok e = true -> base used w -> accepted_covered skip w ->
  base used (run_handler e g h n w) /\ accepted_covered skip (run_handler e g h n w).
Proof.
  intros He Hb Hc. unfold run_handler. destruct (Nat.eqb h TRANSFER_TIMED_OUT); [by apply inv_timed_out|].
  destruct (Nat.eqb h RESTART_TRANSFER); [by apply restart_inv|].
  destruct (Nat.eqb h TRANSFER_COMPLETE_EVENT); [by apply inv_complete|done].
Qed.

Lemma ud_inv_timer used e g n w : answers_ok e -> inv used w -> inv used (timer_fires e g n w).
Proof.
  intros Ha [Hb Hc]. unfold timer_fires. destruct (armed (engine w) n) as [h|] eqn:E; [|done].
  pose proof (base_handlers _ _ Hb n h E) as Hh.
  assert (Hb1 : base used (with_engine (expire n (engine w)) w)).
  { apply (base_unarm used n w (expire n)); [|by apply ok_expire, Hb|done]. intros m. by apply armed_expire, Hb. }
  assert (Hc1 : accepted_covered (Some n) (with_engine (expire n (engine w)) w)).
  { apply (covered_unarm n w (expire n)); [|done]. intros m. by apply armed_expire, Hb. }
  set (w1 := with_engine _ w) in *.
  destruct (inv_handler used (Some n) e g h n w1) as [Hb2 Hc2]; [apply Ha|done|done|].
  split; [done|]. apply (covered_all n); [done|]. intros t Ht Hn.
  destruct (timer_covers used e g n h w1 t Ha Hb1 Hh Ht Hn) as [Hr|[_ Hr]]; [by left|right; by left].
Qed.

(** *** New requests *)

Lemma base_added used e d r w :
  base used w -> valid_key (rq_key r) -> rq_key r ∉ used -> base (used ++ [rq_key r]) (added e d r w).
Proof.
  intros [] Hv Hn. constructor; simpl; auto.
  - by apply wf_added.
  - rewrite map_app. apply NoDup_app. split_and!; [done| |apply NoDup_singleton]. simpl.
    intros k (t & -> & Ht)%list_elem_of_fmap. rewrite list_elem_of_singleton. intros E. apply Hn. rewrite <- E. auto.
  - intros t [Ht| ->%list_elem_of_singleton]%elem_of_app; apply elem_of_app; [left; auto|right; simpl; by left].
  - intros k [Hk| ->%list_elem_of_singleton]%elem_of_app; auto.
  - intros k c Hk. apply elem_of_app. left. by eapply base_replies0.
  - intros tc Htc. apply elem_of_app. left. auto.
Qed.

Lemma base_more used k w : base used w -> valid_key k -> base (used ++ [k]) w.
Proof.
  intros [] Hv. constructor; auto.
  - intros t Ht. apply elem_of_app. left. auto.
  - intros x [Hx| ->%list_elem_of_singleton]%elem_of_app; auto.
  - intros x c Hx. apply elem_of_app. left. by eapply base_replies0.
  - intros tc Htc. apply elem_of_app. left. auto.
Qed.

Lemma base_reply used k c w : k ∈ used -> base used w -> base used (reply k c w).
Proof.
  intros Hk []. constructor; simpl; auto.
  intros k' c' [H|[= -> ->]%list_elem_of_singleton]%elem_of_app; [by eapply base_replies0|done].
Qed.

(** A request that was refused *)
Lemma inv_refused used k c w w' :
  c <> 0 -> k ∉ used -> quiet w w' -> base (used ++ [k]) w' -> accepted_covered None w ->
  inv (used ++ [k]) (reply k c w').
Proof.
  intros Hc Hk Hq Hb H. split.
  - apply base_reply; [|done]. apply elem_of_app. right. by left.
  - intros t Ht Hr _ _. apply (covered_quiet None _ _ Hq H t Ht); [|done..].
    simpl in Hr. apply elem_of_app in Hr as [Hr|[= _ E]%list_elem_of_singleton]; [done|congruence].
Qed.

Lemma inv_request used e g d r w :
  inv used w -> valid_key (rq_key r) -> rq_key r ∉ used ->
  inv (used ++ [rq_key r])
    (record_reply (rq_key r) (start_timeout (rq_key r) (rq_delay r + 3600) (AddTransfer e g d r (-1) w))).
Proof.
  intros [Hb Hc] Hv Hk. rewrite AddTransfer_new by apply Hb. unfold record_reply, start_timeout.
  pose proof law_denied as H1.
  destruct (add_ok e).
  - pose proof (base_added used e d r w Hb Hv Hk) as Hb1.
    pose proof (wf_last _ (base_wf _ _ Hb)) as Hl.
    assert (Hq : quiet (added e d r w) (AddTransfer e g d r (last_index (pl w) + 1) (added e d r w)).1).
    { apply quiet_AddTransfer; [lia|]. apply matches_added, Hb. }
    assert (Hc1 : accepted_covered None (added e d r w)).
    { intros t. simpl. intros [Ht| ->%list_elem_of_singleton]%elem_of_app Hr _ _; [by apply Hc|].
      exfalso. apply Hk. by apply (base_replies _ _ Hb _ 0). }
    set (x := AddTransfer _ _ _ _ _ _) in *. cbn [fst snd].
    assert (Hb2 : base (used ++ [rq_key r]) x.1) by (by eapply base_quiet).
    destruct (x.2 =? 0) eqn:E.
    + apply Z.eqb_eq in E. split.
      * apply base_reply; [apply elem_of_app; right; by left|]. apply base_start; [|done|done]. by destruct Hv.
      * intros t Ht Hr _ _. simpl in Ht.
        destruct (decide (commandKey t = rq_key r)) as [Ek|Ek].
        { right. left. simpl. rewrite Ek. apply armed_start_same; [apply Hb2|]. by destruct Hv. }
        simpl in Hr. apply elem_of_app in Hr as [Hr|[= Er _]%list_elem_of_singleton]; [|congruence].
        apply (covered_start None (rq_key r) (u32 (rq_delay r + 3600)) TRANSFER_TIMED_OUT x.1);
          [apply Hb2|by eapply covered_quiet|done..].
    + apply Z.eqb_neq in E. by eapply inv_refused.
  - cbn [fst snd]. rewrite (proj2 (Z.eqb_neq _ _) H1).
    apply (inv_refused used (rq_key r) _ w w); try done. by apply base_more.
Qed.

(** ** Every action *)

Definition keys_of (a : action) : list string :=
  match a with Download _ _ _ r | Upload _ _ _ r => [rq_key r] | _ => [] end.

(** The answers that end a transfer: reading its object when a timer expires or
    the daemon starts, and the memory of the message. *)
Definition answered (a : action) : Prop :=
  match a with
  | TimerFires e _ _ => answers_ok e
  | Restart e => get_ok e = true
  | Dispatch e => tcs_ok e = true
  | _ => True
  end.

Lemma ud_inv_dispatch used e w : tcs_ok e = true -> inv used w -> inv used (dispatch e w).
Proof.
  intros He H. unfold dispatch. destruct (inbox w) as [|n l]; [done|].
  assert (H1 : inv used (with_inbox l w)) by (by apply (inv_quiet _ w)).
  destruct (Subscriptions.deliver _ _) as [hs|].
  - clear H. revert H1. generalize (with_inbox l w). induction hs as [|x hs IH]; intros w1 H1; simpl; [done|].
    apply IH. unfold TransferNotification. destruct n.2; try done. by apply inv_complete; [|apply H1..].
  - apply (inv_quiet _ (with_inbox l w)); [|done]. constructor; try done. apply wf_fault.
Qed.

Lemma inv_act used a w :
  inv used w -> answered a -> Forall valid_key (keys_of a) -> Forall (fun k => k ∉ used) (keys_of a) ->
  inv (used ++ keys_of a) (act a w).
Proof.
  intros H Ha Hv Hk.
  assert (Hno : forall k b x, valid_key k -> k ∉ used -> DM_ENG_INVALID_ARGUMENTS <> 0 -> b = (w, DM_ENG_INVALID_ARGUMENTS) ->
    x = record_reply k b -> inv (used ++ [k]) x).
  { intros k b x Hvk Hkk Hne -> ->. destruct H as [Hb Hc].
    apply (inv_refused used k _ w w); [done|done|done| |done]. by apply base_more. }
  destruct a as [b e g r|b e g r|ev|e|e g n|ok path|e]; cbn [act keys_of answered] in *; rewrite ?app_nil_r.
  - rewrite Forall_singleton in Hv, Hk. destruct b; [by apply (inv_request used e g true r w)|].
    by eapply Hno; [..|apply law_invalid| |].
  - rewrite Forall_singleton in Hv, Hk. destruct b; [by apply (inv_request used e g false (upload_request r) w)|].
    by eapply Hno; [..|apply law_invalid| |].
  - eapply inv_quiet; [apply quiet_plugin_event|done].
  - by apply ud_inv_dispatch.
  - by apply ud_inv_timer.
  - unfold TransferDoneAcknowledged. destruct ok; [|done]. destruct (find_path path w); [|done].
    eapply inv_quiet; [apply quiet_plugin_event|done].
  - apply inv_restart; [done|apply H].
Qed.

Lemma ud_inv_run used l w :
  inv used w -> Forall answered l -> Forall valid_key (concat (map keys_of l)) ->
  NoDup (used ++ concat (map keys_of l)) -> inv (used ++ concat (map keys_of l)) (run l w).
Proof.
  revert used w. induction l as [|a l IH]; intros used w H Ha Hv Hn; simpl in *.
  - by rewrite app_nil_r.
  - apply Forall_cons in Ha as [Ha1 Ha2]. apply Forall_app in Hv as [Hv1 Hv2].
    rewrite app_assoc in *. apply IH; try done. apply inv_act; try done.
    apply NoDup_app in Hn as (Hn & _ & _). apply NoDup_app in Hn as (_ & Hn & _).
    apply Forall_forall. intros k Hk Hu. by apply (Hn k).
Qed.

Lemma inv_start : inv [] start_world.
Proof.
  split.
  - constructor; simpl; try (intros; set_solver); [apply wf_plugin_initial|apply ok_none|apply NoDup_nil_2|].
    intros n h. by rewrite armed_none.
  - intros t Ht. simpl in Ht. set_solver.
Qed.

(** ** Well-formedness of the plugin in every run *)

Lemma wf_request e g d r w : wf (pl w) -> wf (pl (AddTransfer e g d r (-1) w).1).
Proof.
  intros H. rewrite AddTransfer_new by done. destruct (add_ok e); [|done].
  apply quiet_AddTransfer; [pose proof (wf_last _ H); lia|by apply matches_added|by apply wf_added].
Qed.

Lemma wf_dispatch e w : wf (pl w) -> wf (pl (dispatch e w)).
Proof.
  intros H. unfold dispatch. destruct (inbox w) as [|n l]; [done|].
  destruct (Subscriptions.deliver _ _) as [hs|]; [|by apply wf_fault].
  assert (H1 : wf (pl (with_inbox l w))) by done. revert H1. generalize (with_inbox l w). clear H.
  induction hs as [|x hs IH]; intros w1 H1; simpl; [done|]. apply IH.
  unfold TransferNotification. destruct n.2; try done. by rewrite complete_objs.
Qed.

Lemma wf_act a w : wf (pl w) -> wf (pl (act a w)).
Proof.
  intros H. destruct a as [b e g r|b e g r|ev|e|e g n|ok path|e]; cbn [act].
  - destruct b; [|done]. pose proof (wf_request e g true r w H) as H1. simpl.
    unfold DoDownload, start_timeout. cbn [fst]. by destruct (_ =? 0).
  - destruct b; [|done]. pose proof (wf_request e g false (upload_request r) w H) as H1. simpl.
    unfold DoUpload, start_timeout. cbn [fst]. by destruct (_ =? 0).
  - by apply (quiet_plugin_event ev w).
  - by apply wf_dispatch.
  - unfold timer_fires. destruct (armed (engine w) n); [|done]. by apply ext_handler.
  - unfold TransferDoneAcknowledged. destruct ok; [|done]. destruct (find_path path w); [|done].
    by apply (quiet_plugin_event _ w).
  - unfold restart, UpDownloadInitialize. destruct (get_ok e); [|done]. by apply growing_fold.
Qed.

End Facts.

End UpDownloadFacts.
