(* ===== verification/UpDownloadSpec.v ===== *)
(** * UpDownloadSpec: what becomes of a Download or Upload request

    No accepted transfer is forgotten, one that never ends is reported as a
    success, and a firmware upgrade that was under way when the device started
    again is reported with its outcome. *)

From Stdlib Require Import ZArith Lia Ascii.
From stdpp Require Import base list strings pretty.
From S2P Require Import Prelude CString Timer Subscriptions EngineTimers AcsTransfer AcsTransferFacts UpDownload.
From S2P Require Import UpDownloadFacts.

Module UpDownloadSpec.
Import AcsTransfer AcsTransferFacts UpDownload UpDownloadFacts.

Section Spec.

Context {L : library} {A : adapter_library} {AL : AdapterLaws}.
Context {T : Type} {ET : EngineTimers T} {LT : EngineTimersLaws T}.

Notation world := (@world T).
Implicit Types w : world.

(** ** A timer that expires *)

Lemma key_timer used w t h :
  base used w -> t ∈ objs (pl w) -> armed (engine w) (commandKey t) = Some h -> h = TRANSFER_TIMED_OUT.
Proof.
  intros Hb Ht E. apply (base_handlers _ _ Hb _ _ E), (base_valid _ _ Hb), (base_used _ _ Hb t Ht).
Qed.

Lemma path_timer used w t h :
  base used w -> armed (engine w) (entry_path (index t)) = Some h ->
  h = RESTART_TRANSFER \/ h = TRANSFER_COMPLETE_EVENT.
Proof. intros Hb E. apply (base_handlers _ _ Hb _ _ E). by exists (index t). Qed.

Lemma key_timer_reports used e g w t :
  answers_ok e -> base used w -> t ∈ objs (pl w) -> armed (engine w) (commandKey t) <> None ->
  reported (commandKey t) (timer_fires e g (commandKey t) w).
Proof.
  intros (Hg & _ & Hs & _) Hb Ht Ha. unfold timer_fires.
  destruct (armed (engine w) (commandKey t)) as [h|] eqn:E; [|done].
  rewrite (key_timer used w t h) by done. unfold run_handler. simpl.
  apply timed_out_reports; try done. apply Hb.
Qed.

Lemma idents_again e d r i w :
  0 < i -> map ident (objs (pl (UpDownload.AddTransfer e no_gaps d r i w).1)) = map ident (objs (pl w)).
Proof.
  intros Hi. unfold UpDownload.AddTransfer, call_AddTransfer, AddTransferSubscription.
  rewrite !(proj2 (Z.leb_gt i 0)) by lia.
  assert (E : forall l : list transfer, map ident l = map fst (map full_ident l)) by (intros l; by rewrite map_map).
  assert (Ec : map ident (objs (pl (if rpc_ok e || rpc_lost e
                then flush (with_pl (AcsTransfer.AddTransfer (e_plugin e) (args_of d r i) (pl w)).1.1 w) else w))) =
               map ident (objs (pl w))).
  { destruct (_ || _); [|done]. rewrite !E. f_equal. apply idents_AddTransfer. }
  cbn [plugin_events before_call no_gaps run_steps foldl]. destruct (rpc_ok e); cbn [negb]; [|exact Ec].
  match type of Ec with map _ (objs (pl ?x)) = _ => set (w1 := x) in * end. cbn [before_subscribe before_set no_gaps].
  change (plugin_events [] w1) with w1.
  destruct (Subscriptions.AddSubscription _ _ _ _ _ _ _ _) as [s error].
  destruct (negb (error =? 0)); [exact Ec|]. cbn [fst]. change (plugin_events [] (with_subs s w1)) with (with_subs s w1).
  destruct (if set_ok e then _ else _); [|exact Ec]. simpl. by rewrite map_alter.
Qed.

(** An instance that a path timer restarts is there afterwards. *)
Lemma path_timer_acts used e w t :
  answers_ok e -> base used w -> t ∈ objs (pl w) -> armed (engine w) (entry_path (index t)) <> None ->
  let w' := timer_fires e no_gaps (entry_path (index t)) w in
  reported (commandKey t) w' \/
  exists t', t' ∈ objs (pl w') /\ commandKey t' = commandKey t /\ armed (engine w') (commandKey t') <> None.
Proof.
  intros Ha Hb Ht Hn w'. unfold w', timer_fires. clear w'.
  destruct (armed (engine w) (entry_path (index t))) as [h|] eqn:E; [|done].
  pose proof (path_timer used w t h Hb E) as Hh.
  assert (Hb1 : base used (with_engine (expire (entry_path (index t)) (engine w)) w)).
  { apply (base_unarm used (entry_path (index t)) w (expire (entry_path (index t)))); [|by apply ok_expire, Hb|done].
    intros m. by apply armed_expire, Hb. }
  set (w1 := with_engine _ w) in *.
  assert (Hc : forall t', t' ∈ objs (pl (run_handler e no_gaps h (entry_path (index t)) w1)) ->
    index t' = index t -> commandKey t' = commandKey t).
  { intros t' Ht' Ei. destruct (ext_elem _ _ _ _ (proj1 (ext_handler e no_gaps h _ w1 (base_wf _ _ Hb1))) Ht')
      as (t0 & Ht0 & [= _ E1 E2 _ _]).
    assert (t0 = t) as -> by (apply (same_index w); [apply Hb|done|done|congruence]). done. }
  assert (Hex : exists t', t' ∈ objs (pl (run_handler e no_gaps h (entry_path (index t)) w1)) /\ index t' = index t).
  { assert (Ei : map ident (objs (pl (run_handler e no_gaps h (entry_path (index t)) w1))) = map ident (objs (pl w))).
    { unfold run_handler. destruct Hh as [->| ->]; simpl; [|by rewrite complete_objs].
      unfold RestartTransfer. rewrite entry_path_not_empty. destruct (amxb_get _ _ w1) as [t1|] eqn:Eg; [|done].
      apply amxb_get_elem in Eg. unfold start_timeout. cbn [fst].
      pose proof (wf_bounds _ (base_wf _ _ Hb1) t1 Eg) as [_ Hp].
      destruct (_ =? 0); apply (idents_again e _ _ _ w1); lia. }
    destruct (ident_elem w (run_handler e no_gaps h (entry_path (index t)) w1) t Ei Ht) as (t' & Ht' & [= _ E1 _ _ _]).
    by exists t'. }
  destruct Hex as (t' & Ht' & Ei).
  destruct (timer_covers used e no_gaps _ h w1 t' Ha Hb1 (base_handlers _ _ Hb _ _ E) Ht') as [Hr|[_ Hr]].
  - right. by rewrite Ei.
  - left. by rewrite <- (Hc t').
  - right. exists t'. auto.
Qed.

(** C5: no accepted transfer is forgotten.  In every run of the adapter and the
    plugin -- whatever the plugin does between two calls of the adapter, whatever
    fails in a request, across deletions and restarts of the daemon -- as long as
    the command keys of the requests are different, not empty, not instance
    paths and not the names of other timers of the daemon (here the timers are
    those of the transfers alone), the data model can be read and the bus answers
    when a timer expires and when the daemon starts, and memory lasts for the
    messages: a transfer whose request was answered with success and whose
    instance exists has been reported to the ACS, or will be when at most two of
    the timers that are armed expire. *)
Theorem transfer_never_forgotten (l : list action) (k : string) (e : env)
    (Hl : Forall answered l) (Hv : Forall valid_key (concat (map keys_of l)))
    (Hn : NoDup (concat (map keys_of l))) (He : answers_ok e) :
  let w := run l (@start_world T ET) in
  (k, 0) ∈ replies w -> (exists t, t ∈ objs (pl w) /\ commandKey t = k) ->
  exists names, (length names <= 2)%nat /\ reported k (run (map (TimerFires e no_gaps) names) w).
Proof.
  intros w Hr (t & Ht & Hk).
  assert (Hi : inv (concat (map keys_of l)) w) by (by apply (ud_inv_run [] l start_world inv_start)).
  pose proof Hi as [Hb Hc].
  assert (Hkey : forall w t, inv (concat (map keys_of l)) w -> t ∈ objs (pl w) -> commandKey t = k ->
    armed (engine w) (commandKey t) <> None -> reported k (run [TimerFires e no_gaps k] w)).
  { intros w1 t1 [Hb1 _] Ht1 <- Ha. by apply (key_timer_reports (concat (map keys_of l))). }
  destruct (Hc t Ht) as [H|[H|H]]; rewrite ?Hk in *; try done.
  - exists []. split; [simpl; lia|done].
  - exists [k]. split; [simpl; lia|]. apply (Hkey w t); [done..|by rewrite Hk].
  - destruct (path_timer_acts _ e w t He Hb Ht H) as [H1|(t' & Ht' & E' & H1)]; rewrite Hk in *.
    + exists [entry_path (index t)]. split; [simpl; lia|done].
    + exists [entry_path (index t); k]. split; [simpl; lia|].
      apply (Hkey (timer_fires e no_gaps (entry_path (index t)) w) t'); try done. by apply ud_inv_timer.
Qed.

(** C16: in every run whatsoever the plugin is well formed: the instances have
    distinct addresses and indices, only a firmware image is ever [Applying],
    a transfer that has not begun has no fault code, every address the plugin
    holds in a timer or gave to the image service belonged to a firmware
    transfer and is never used for another object, and every request of the
    file transfer library has the index it reports to. *)
Theorem transfers_well_formed (l : list action) : wf (pl (run l (@start_world T ET))).
Proof. apply (run_invariant_all act (fun w => wf (pl w))); [intros a w; apply wf_act|apply wf_plugin_initial]. Qed.

(** A transfer that never ends is reported as a success.  When the timer of
    a transfer that is still [Initial] expires -- and a transfer through the file
    transfer library, an upload that waits for its completion and one of a file
    type the plugin does not serve are [Initial] all the time -- the ACS gets a
    TransferComplete with fault code 0, and the instance stays [Initial]. *)
Theorem timeout_of_initial_reports_success (l : list action) (t : transfer) (e : env) (g : gaps)
    (Hl : Forall answered l) (Hv : Forall valid_key (concat (map keys_of l)))
    (Hn : NoDup (concat (map keys_of l))) (He : answers_ok e) :
  let w := run l (@start_world T ET) in
  t ∈ objs (pl w) -> state t = Initial -> armed (engine w) (commandKey t) <> None ->
  let w' := timer_fires e g (commandKey t) w in
  (exists tc, sent w' = sent w ++ [tc] /\ tc_key tc = commandKey t /\ tc_faultCode tc = 0) /\
  t ∈ objs (pl w').
Proof.
  intros w Ht Hs Ha w'. pose proof He as (Hg & _ & Htc & _).
  assert (Hi : inv (concat (map keys_of l)) w) by (by apply (ud_inv_run [] l start_world inv_start)).
  destruct Hi as [Hb _]. unfold w', timer_fires. clear w'.
  destruct (armed (engine w) (commandKey t)) as [h|] eqn:E; [|done].
  rewrite (key_timer _ w t h Hb Ht E). unfold run_handler. simpl.
  set (w1 := with_engine _ w). assert (Hw1 : wf (pl w1)) by apply Hb.
  rewrite TransferTimedOut_eq by done.
  assert (Ef : List.find (fun x => streq (commandKey x) (commandKey t)) (objs (pl w1)) = Some t).
  { destruct (List.find _ _) as [t0|] eqn:Ef.
    - apply find_some in Ef as [Ht0 Ek]. apply streq_true in Ek. rewrite <- list_elem_of_In in Ht0. f_equal.
      by apply (NoDup_map_inj commandKey (objs (pl w)) t0 t (base_keys _ _ Hb)).
    - rewrite list_elem_of_In in Ht. pose proof (find_none _ _ Ef _ Ht) as Hx. simpl in Hx. by rewrite streq_refl in Hx. }
  rewrite Ef. unfold timed_out. rewrite bool_decide_eq_false_2 by (intros Hx; by apply Hx).
  set (w2 := delete_subscription e (subscriptionId t) w1).
  rewrite TransferCompleteEvent_eq by done. unfold amxb_get. rewrite Hg.
  rewrite (find_path_index w2 t) by done. split; [|done].
  eexists. split_and!; [done..|]. apply (wf_objs _ (base_wf _ _ Hb) t Ht), Hs.
Qed.

End Spec.

End UpDownloadSpec.
