(* ===== verification/UpDownloadOnce.v ===== *)
(** * UpDownloadOnce: no transfer is reported twice

    Between two starts of the daemon every transfer is reported at most once:
    [once] says that a transfer that was reported has neither a timer nor a
    subscription left, and [tidy] that the subscriptions are those of
    [Subscriptions], one entry for each watched instance. *)

From Stdlib Require Import ZArith Lia Ascii.
From stdpp Require Import base list strings pretty.
From S2P Require Import Prelude CString Timer Subscriptions EngineTimers AcsTransfer AcsTransferFacts UpDownload.
From S2P Require Import UpDownloadFacts.

Module UpDownloadOnce.
Import AcsTransfer AcsTransferFacts UpDownload UpDownloadFacts.

Section Once.

Context {L : library} {A : adapter_library} {AL : AdapterLaws}.
Context {T : Type} {ET : EngineTimers T} {LT : EngineTimersLaws T}.

Notation world := (@world T).
Notation ext := (ext_by full_ident).
Notation ext0 := (ext_by ident).
Implicit Types w : world.

(** ** Subscriptions *)

Definition watched (p : string) (s : Subscriptions.state) : Prop := p ∈ map Subscriptions.objectpath (Subscriptions.slist s).

Record tidy (last : Z) (s : Subscriptions.state) : Prop := {
  td_inv : Subscriptions.inv s;
  td_root : Subscriptions.no_root s;
  td_subs : forall x, x ∈ Subscriptions.slist s -> exists i p, 1 <= i <= last /\
    Subscriptions.objectpath x = entry_path i /\
    Subscriptions.infos x = [{| Subscriptions.uniqueID := uid i; Subscriptions.parameter := p |}];
}.

Lemma tidy_initial last : tidy last Subscriptions.initial.
Proof. split; [apply Subscriptions.subs_inv_initial|by apply not_elem_of_nil|intros x Hx; by apply elem_of_nil in Hx]. Qed.

Lemma tidy_more last last' s : last <= last' -> tidy last s -> tidy last' s.
Proof.
  intros Hl [H1 H2 H3]. split; try done. intros x Hx. destruct (H3 x Hx) as (i & p & Hi & Hx2). exists i, p.
  split; [lia|done].
Qed.

Lemma tidy_watched last s p : tidy last s -> watched p s -> exists i, 1 <= i <= last /\ p = entry_path i.
Proof.
  intros H (x & -> & Hx)%list_elem_of_fmap. destruct (td_subs _ _ H x Hx) as (i & q & Hi & E & _). by exists i.
Qed.

(** The entry of the identifier that is deleted is the one of its instance. *)
Lemma tidy_delete last id s :
  tidy last s ->
  let s' := (Subscriptions.DeleteSubscription true id s).1 in
  tidy last s' /\ (forall p, watched p s' -> watched p s) /\
  (forall i, id = uid i -> ~ watched (entry_path i) s').
Proof.
  intros H s'.
  assert (Hinv : Subscriptions.inv s' /\ Subscriptions.no_root s').
  { split; [|by apply Subscriptions.root_delete, H].
    by apply (Subscriptions.subs_inv_step object_of param_of hash (Subscriptions.Delete true id)); try apply H. }
  unfold s', Subscriptions.DeleteSubscription in *. clear s'.
  destruct (Subscriptions.FindSubscriptionByID (Subscriptions.slist s) id) as [x|] eqn:Ef.
  - apply Subscriptions.find_some_elem in Ef as [Hx Eid].
    destruct (td_subs _ _ H x Hx) as (j & p & Hj & Ep & Einf). unfold Subscriptions.has_id in Eid. rewrite Einf in *.
    simpl in Eid. rewrite orb_false_r in Eid. apply Z.eqb_eq in Eid. simpl in Hinv |- *.
    rewrite Eid, Z.eqb_refl in *. cbn [fst] in *.
    match goal with |- tidy _ ?x /\ _ => set (s' := x) in * end.
    assert (Hl : forall y, y ∈ Subscriptions.slist s' -> y ∈ Subscriptions.slist s /\ y <> x).
    { intros y. unfold s'. simpl. rewrite list_elem_of_In, filter_In, <- list_elem_of_In.
      intros [(y0 & -> & Hy0)%list_elem_of_fmap Hne].
      destruct (Nat.eqb_spec (Subscriptions.addr y0) (Subscriptions.addr x)) as [E|E].
      - exfalso. simpl in Hne. by rewrite E, Nat.eqb_refl in Hne.
      - split; [done|]. by intros ->. }
    split_and!.
    + split; [apply Hinv|apply Hinv|]. intros y Hy. by apply (td_subs _ _ H), Hl.
    + intros q (y & -> & Hy)%list_elem_of_fmap. apply list_elem_of_fmap. exists y. split; [done|]. by apply Hl.
    + intros i -> (y & Ey & Hy)%list_elem_of_fmap. destruct (Hl y Hy) as [Hy1 Hy2]. apply Hy2.
      apply (NoDup_map_inj Subscriptions.objectpath (Subscriptions.slist s)); try done.
      { apply (Subscriptions.inv_paths _ (td_inv _ _ H)). }
      rewrite <- Ey, Ep. by rewrite (law_uid _ _ Eid).
  - split; [done|]. split; [done|]. intros i -> (x & Ex & Hx)%list_elem_of_fmap.
    destruct (td_subs _ _ H x Hx) as (j & p & Hj & Ep & Einf).
    rewrite Ep in Ex. apply entry_path_inj in Ex as ->.
    apply list_elem_of_In in Hx. pose proof (find_none _ _ Ef _ Hx) as Hn. unfold Subscriptions.has_id in Hn.
    rewrite Einf in Hn. simpl in Hn. by rewrite Z.eqb_refl in Hn.
Qed.

Lemma tidy_add last e i h s :
  tidy last s -> 1 <= i <= last -> ~ watched (entry_path i) s ->
  let x := Subscriptions.AddSubscription object_of param_of hash (e_sub e) (entry_path i) filter_changed h s in
  tidy last x.1 /\ (forall p, watched p x.1 -> watched p s \/ x.2 = 0 /\ p = entry_path i).
Proof.
  intros H Hi Hw. cbv zeta.
  destruct (Subscriptions.info_ok (e_sub e)) eqn:Eok.
  - assert (H1 : Subscriptions.inv (Subscriptions.AddSubscription object_of param_of hash (e_sub e) (entry_path i)
      filter_changed h s).1).
    { by apply (Subscriptions.subs_inv_step object_of param_of hash
        (Subscriptions.Add (e_sub e) (entry_path i) filter_changed h)); try apply H. }
    assert (H2 := Subscriptions.root_add object_of param_of hash s (e_sub e) (entry_path i) filter_changed h
      (td_root _ _ H)).
    revert H1 H2. unfold Subscriptions.AddSubscription. rewrite law_path, entry_path_not_root, Eok. simpl.
    destruct (Subscriptions.FindSubscription (Subscriptions.slist s) (entry_path i)) as [x|] eqn:Ef.
    { apply Subscriptions.find_some_elem in Ef as [Hx Ex]. apply streq_true in Ex. destruct Hw.
      apply list_elem_of_fmap. by exists x. }
    destruct (Subscriptions.sub_ok (e_sub e)); simpl; [|intros; split; [done|by left]].
    destruct (Subscriptions.subscribe_ok (e_sub e)); simpl; intros H1 H2.
    + split; [split; try done|].
      * intros x. simpl. intros [Hx| ->%list_elem_of_singleton]%elem_of_app; [by apply (td_subs _ _ H)|].
        exists i. by eexists.
      * intros p. unfold watched. simpl. rewrite map_app. intros [Hp|Hp]%elem_of_app; [by left|right].
        split; [done|]. simpl in Hp. by apply list_elem_of_singleton in Hp.
    + split; [split; try done; apply (td_subs _ _ H)|by left].
  - unfold Subscriptions.AddSubscription. rewrite law_path, entry_path_not_root, Eok. simpl.
    destruct (Subscriptions.FindSubscription (Subscriptions.slist s) (entry_path i)) as [x|] eqn:Ef.
    { apply Subscriptions.find_some_elem in Ef as [Hx Ex]. apply streq_true in Ex. destruct Hw.
      apply list_elem_of_fmap. by exists x. }
    split; [done|by left].
Qed.

(** An event of an instance reaches at most one handler. *)
Lemma tidy_deliver last s i :
  tidy last s ->
  Subscriptions.deliver (entry_path i) s = Some [] \/
  exists h, Subscriptions.deliver (entry_path i) s = Some [h] /\ watched (entry_path i) s.
Proof.
  intros H. destruct (decide (entry_path i ∈ map Subscriptions.objectpath (Subscriptions.slist s))) as [Hw|Hw].
  - right. pose proof Hw as (x & Ex & Hx)%list_elem_of_fmap. rewrite Ex.
    rewrite (Subscriptions.deliver_watched _ _ (td_inv _ _ H) Hx). eexists. split; [done|]. by rewrite <- Ex.
  - left. by apply Subscriptions.deliver_unwatched; [apply H|].
Qed.

(** ** The invariant *)

(** The transfer was reported since the first [n] messages. *)
Definition since (n : nat) (k : string) w : Prop := exists tc, tc ∈ drop n (sent w) /\ tc_key tc = k.

(** [skip] is an instance whose subscription has just been made. *)
Record once (skip : option Z) (n : nat) (used : list string) w : Prop := {
  on_base : base used w;
  on_tidy : tidy (last_index (pl w)) (subs w);
  on_len : (n <= length (sent w))%nat;
  on_nodup : NoDup (map tc_key (drop n (sent w)));
  on_reported : forall t, t ∈ objs (pl w) -> since n (commandKey t) w ->
    armed (engine w) (commandKey t) = None /\ armed (engine w) (entry_path (index t)) = None /\
    ~ watched (entry_path (index t)) (subs w);
  on_uid : forall t, t ∈ objs (pl w) -> skip <> Some (index t) -> watched (entry_path (index t)) (subs w) ->
    subscriptionId t = uid (index t);
  on_excl : forall t, t ∈ objs (pl w) -> armed (engine w) (entry_path (index t)) <> None ->
    armed (engine w) (commandKey t) = None /\ ~ watched (entry_path (index t)) (subs w);
  on_path : forall i, armed (engine w) (entry_path i) <> None -> i <= last_index (pl w);
}.

(** A step of the plugin, also as far as the subscription identifiers go *)
Record still w w' : Prop := {
  still_quiet : quiet w w';
  still_ext : ext (pl w) (pl w');
  still_subs : subs w' = subs w;
}.

#[export] Instance still_preorder : PreOrder still.
Proof. split; [by intros w|]. intros w1 w2 w3 [] []. constructor; [by etrans|by etrans|congruence]. Qed.

Lemma still_plugin_event ev w : still w (plugin_event ev w).
Proof. constructor; [apply quiet_plugin_event|apply ext_plugin_event|done]. Qed.

Lemma still_plugin_events evs w : still w (plugin_events evs w).
Proof.
  revert w. induction evs as [|ev evs IH]; intros w; [done|].
  etrans; [apply still_plugin_event|apply (IH (plugin_event ev w))].
Qed.

Lemma still_UpdateTransferState e path c s t w : still w (UpdateTransferState e path c s t w).
Proof.
  constructor; [apply quiet_UpdateTransferState| |]; unfold UpdateTransferState, amxb_set;
    destruct (streq path ""); try done; destruct (set_ok e); try done; destruct (find_path path w); try done.
  apply (ext_frame _ _ (bus_set {| u_status := Some Finished; u_start := None; u_complete := t;
    u_fault := Some (c, Some s) |} t0 (pl w))); [apply ext_bus_set|done..].
Qed.

Lemma still_call e a w :
  matches (a_index a) (a_fileType a) w -> still w (call_AddTransfer e a w).1.
Proof.
  intros Hm. constructor; [by apply quiet_call| |]; unfold call_AddTransfer; cbn [fst]; destruct (_ || _); try done.
  apply (ext_frame _ _ (AcsTransfer.AddTransfer (e_plugin e) a (pl w)).1.1); [apply ext_AddTransfer|done..].
Qed.

Lemma once_still skip n used w w' : still w w' -> once skip n used w -> once skip n used w'.
Proof.
  intros [Hq He Es] H. pose proof Hq as [_ _ En Et _].
  assert (Hold : forall t, t ∈ objs (pl w') -> exists t0, t0 ∈ objs (pl w) /\ commandKey t0 = commandKey t /\
    index t0 = index t /\ subscriptionId t0 = subscriptionId t).
  { intros t Ht. destruct (ext_elem _ _ _ _ He Ht) as (t0 & Ht0 & [= _ E1 E2 _ _ E3]). by exists t0. }
  assert (El : last_index (pl w') = last_index (pl w)) by (by apply (ext_last _ _ _ He)).
  destruct H. constructor; unfold since in *; rewrite ?En, ?Et, ?Es, ?El; try done.
  - by eapply base_quiet.
  - intros t Ht. destruct (Hold t Ht) as (t0 & Ht0 & <- & <- & _). by apply on_reported0.
  - intros t Ht. destruct (Hold t Ht) as (t0 & Ht0 & _ & <- & <-). by apply on_uid0.
  - intros t Ht. destruct (Hold t Ht) as (t0 & Ht0 & <- & <- & _). by apply on_excl0.
Qed.

(** A subscription goes away. *)
Lemma once_delete skip n used e id w :
  unsub_ok e = true -> once skip n used w -> once skip n used (delete_subscription e id w).
Proof.
  intros He H. unfold delete_subscription. rewrite He.
  destruct (tidy_delete _ id _ (on_tidy _ _ _ _ H)) as (Ht & Hm & _). destruct H.
  constructor; unfold since in *; simpl; try done.
  - by apply (base_quiet _ w).
  - intros t Hin Hs. destruct (on_reported0 t Hin Hs) as (H1 & H2 & H3). split_and!; [done..|]. by intros Hw%Hm.
  - intros t Hin Hk Hw%Hm. by apply on_uid0.
  - intros t Hin Hs. destruct (on_excl0 t Hin Hs) as (H1 & H3). split; [done|]. by intros Hw%Hm.
Qed.

(** A timer goes away. *)
Lemma once_unarm skip n used m w (f : T -> T) :
  (forall x, armed (f (engine w)) x = if streq x m then None else armed (engine w) x) ->
  timers_ok (f (engine w)) -> once skip n used w -> once skip n used (with_engine (f (engine w)) w).
Proof.
  intros Hf Hok H.
  assert (Hmono : forall x, armed (f (engine w)) x <> None -> armed (engine w) x <> None).
  { intros x. rewrite Hf. by destruct (streq x m). }
  assert (Hnone : forall x, armed (engine w) x = None -> armed (f (engine w)) x = None).
  { intros x Hx. rewrite Hf. by destruct (streq x m). }
  pose proof (base_unarm used m w f Hf Hok (on_base _ _ _ _ H)) as Hb. destruct H.
  constructor; unfold since in *; simpl; try done.
  - intros t Hin Hs. destruct (on_reported0 t Hin Hs) as (H1 & H2 & H3). split_and!; auto.
  - intros t Hin Hs%Hmono. destruct (on_excl0 t Hin Hs) as (H1 & H3). auto.
  - intros i Hi%Hmono. auto.
Qed.

(** A transfer is reported that was not yet, and has no timer on its path. *)
Lemma once_completed n used e t w :
  unsub_ok e = true -> once None n used w -> t ∈ objs (pl w) -> ~ since n (commandKey t) w ->
  armed (engine w) (entry_path (index t)) = None ->
  once None n used (completed e t (entry_path (index t)) w).
Proof.
  intros He H Ht Hs Ha. unfold completed.
  assert (H1 : once None n used (timerStop (commandKey t) w)).
  { apply (once_unarm None n used (commandKey t) w (stop (commandKey t))); [|by apply ok_stop, H|done].
    intros m. by apply armed_stop, H. }
  assert (Hw : watched (entry_path (index t)) (subs w) -> subscriptionId t = uid (index t)) by (by apply H).
  destruct (tidy_delete _ (subscriptionId t) _ (on_tidy _ _ _ _ H)) as (Htd & Hm & Hd).
  assert (Hk : armed (engine (timerStop (commandKey t) w)) (commandKey t) = None).
  { simpl. rewrite armed_stop by apply H. by rewrite streq_refl. }
  assert (Hb : base used (completed e t (entry_path (index t)) w)) by (apply base_completed; [done|apply H]).
  assert (Hp : armed (engine (timerStop (commandKey t) w)) (entry_path (index t)) = None).
  { simpl. rewrite armed_stop by apply H. by destruct (streq _ _). }
  set (tc := BuildTransferCompleteResponse t (entry_path (index t))).
  assert (Hdrop : drop n (sent w ++ [tc]) = drop n (sent w) ++ [tc]).
  { rewrite drop_app_le; [done|apply H]. }
  assert (Hsince : forall k, since n k (completed e t (entry_path (index t)) w) -> since n k w \/ k = commandKey t).
  { intros k (x & Hx & <-). unfold completed in Hx. simpl in Hx. fold tc in Hx. rewrite Hdrop in Hx.
    apply elem_of_app in Hx as [Hx| ->%list_elem_of_singleton]; [left; by exists x|by right]. }
  assert (Hkeys : forall t', t' ∈ objs (pl w) -> commandKey t' = commandKey t -> t' = t).
  { intros t' Ht' E. apply (NoDup_map_inj commandKey (objs (pl w))); try done. apply (base_keys _ _ (on_base _ _ _ _ H)). }
  unfold completed in Hb, Hsince. unfold delete_subscription in *. rewrite He in *.
  pose proof H as H0. destruct H1. constructor; try done; simpl.
  - rewrite length_app. simpl in *. lia.
  - fold tc. rewrite Hdrop, map_app. apply NoDup_app. split_and!; [apply H| |apply NoDup_singleton].
    intros k (x & -> & Hx)%list_elem_of_fmap. simpl. rewrite list_elem_of_singleton. intros E. apply Hs. by exists x.
  - intros t' Ht' [Hs'|E]%Hsince.
    + destruct (on_reported0 t' Ht' Hs') as (G1 & G2 & G3). split_and!; [done..|]. by intros G%Hm.
    + rewrite (Hkeys t' Ht' E). split_and!; [done..|]. intros G. pose proof (Hm _ G) as G'.
      by apply (Hd (index t) (Hw G')).
  - intros t' Ht' Hx G%Hm. by apply (on_uid _ _ _ _ H).
  - intros t' Ht' G. destruct (on_excl0 t' Ht' G) as [G1 G2]. split; [done|]. by intros G3%Hm.
Qed.

(** A path timer or a subscription, or the timer of the command key, belongs to
    a transfer that was not reported. *)
Lemma not_since skip n used w t :
  once skip n used w -> t ∈ objs (pl w) ->
  armed (engine w) (commandKey t) <> None \/ armed (engine w) (entry_path (index t)) <> None \/
    watched (entry_path (index t)) (subs w) -> ~ since n (commandKey t) w.
Proof. intros H Ht Hl Hs. destruct (on_reported _ _ _ _ H t Ht Hs) as (H1 & H2 & H3). naive_solver. Qed.

Lemma once_complete_event n used e i w :
  unsub_ok e = true -> tcs_ok e = true -> once None n used w ->
  (forall t, t ∈ objs (pl w) -> index t = i -> ~ since n (commandKey t) w) ->
  armed (engine w) (entry_path i) = None -> once None n used (TransferCompleteEvent e (entry_path i) w).
Proof.
  intros He Hs H Hn Ha. rewrite TransferCompleteEvent_eq by done. unfold amxb_get.
  destruct (get_ok e); [|done]. destruct (find_path (entry_path i) w) as [t|] eqn:E; [|done].
  apply find_path_elem in E as [Ht Ei%entry_path_inj]. subst i. apply once_completed; auto.
Qed.

(** ** The handlers *)

Lemma once_timed_out n used e t w :
  unsub_ok e = true -> once None n used w -> once None n used (timed_out e t w) /\
    sent (timed_out e t w) = sent w /\ engine (timed_out e t w) = engine w /\
    ext0 (pl w) (pl (timed_out e t w)).
Proof.
  intros He H. pose proof (quiet_timed_out e t w) as [Hx _ En Es _]. split_and!; try done.
  unfold timed_out. assert (H1 := once_delete None n used e (subscriptionId t) w He H).
  destruct (bool_decide _); [|done]. eapply once_still; [apply still_UpdateTransferState|done].
Qed.

Lemma once_handler_timed_out n used e k w :
  unsub_ok e = true -> tcs_ok e = true -> once None n used w ->
  (forall t, t ∈ objs (pl w) -> commandKey t = k ->
     ~ since n k w /\ armed (engine w) (entry_path (index t)) = None) ->
  once None n used (TransferTimedOut e k w).
Proof.
  intros He Hs H Hk. destruct (get_ok e) eqn:Eg; [|unfold TransferTimedOut; by rewrite Eg].
  rewrite TransferTimedOut_eq by done. destruct (List.find _ _) as [t|] eqn:Ef; [|done].
  apply find_some in Ef as [Ht Ek]. apply streq_true in Ek. rewrite <- list_elem_of_In in Ht.
  destruct (once_timed_out n used e t w He H) as (H1 & E1 & E2 & Hx).
  destruct (Hk t Ht Ek) as [Hk1 Hk2]. apply once_complete_event; try done; [|by rewrite E2].
  intros t' Ht' Ei. unfold since. rewrite E1. destruct (ext_elem _ _ _ _ Hx Ht') as (t0 & Ht0 & [= _ G1 G2 _ _]).
  assert (t0 = t) as -> by (apply (same_index w); [apply H|done|done|congruence]). by rewrite <- G2, Ek.
Qed.

(** A timer is started under the name of a command key. *)
Lemma once_start_key n used k d w :
  valid_key k -> once None n used w ->
  (forall t, t ∈ objs (pl w) -> commandKey t = k ->
     ~ since n k w /\ armed (engine w) (entry_path (index t)) = None) ->
  once None n used (timerStart k d TRANSFER_TIMED_OUT w).
Proof.
  intros [Hv1 Hv2] H Hk.
  assert (Hb : base used (timerStart k d TRANSFER_TIMED_OUT w)) by (by apply base_start; [|done|apply H]).
  assert (Hp : forall i, armed (engine (timerStart k d TRANSFER_TIMED_OUT w)) (entry_path i) = armed (engine w) (entry_path i)).
  { intros i. simpl. rewrite armed_start by apply H. destruct (streq k ""); [done|].
    rewrite (proj2 (streq_false (entry_path i) k)); [done|]. intros E. apply Hv2. by exists i. }
  assert (Ho : forall m, m <> k -> armed (engine (timerStart k d TRANSFER_TIMED_OUT w)) m = armed (engine w) m).
  { intros m Hm. simpl. rewrite armed_start by apply H. destruct (streq k ""); [done|].
    by rewrite (proj2 (streq_false m k)). }
  pose proof H as H0. destruct H. constructor; unfold since in *; try done.
  - intros t Ht Hs. rewrite Hp. destruct (on_reported0 t Ht Hs) as (G1 & G2 & G3). split_and!; try done.
    destruct (decide (commandKey t = k)) as [E|E]; [|by rewrite Ho].
    destruct (Hk t Ht E) as [G _]. by rewrite <- E in G.
  - intros t Ht. rewrite Hp. intros Ha. destruct (on_excl0 t Ht Ha) as [G1 G2]. split; [|done].
    destruct (decide (commandKey t = k)) as [E|E]; [|by rewrite Ho]. by destruct (Hk t Ht E) as [_ G].
  - intros i. rewrite Hp. apply on_path0.
Qed.

Lemma armed_path_still w w' i : still w w' -> armed (engine w') (entry_path i) = armed (engine w) (entry_path i).
Proof. intros [[_ _ E _ _] _ _]. by rewrite E. Qed.

(** [AddTransferSubscription] on an instance that is not watched *)
Lemma once_subscription n used e g i w :
  set_ok e = true -> once None n used w -> 1 <= i <= last_index (pl w) ->
  ~ watched (entry_path i) (subs w) -> armed (engine w) (entry_path i) = None ->
  (forall t, t ∈ objs (pl w) -> index t = i -> ~ since n (commandKey t) w) ->
  once None n used (AddTransferSubscription e g i w).1 /\
  sent (AddTransferSubscription e g i w).1 = sent w /\ engine (AddTransferSubscription e g i w).1 = engine w /\
  ext0 (pl w) (pl (AddTransferSubscription e g i w).1).
Proof.
  intros Hset H Hi Hw Ha Hn.
  pose proof (quiet_AddTransferSubscription e g i w) as [Hq _ Eq1 Eq2 _]. split_and!; try done. clear Hq Eq1 Eq2.
  destruct (tidy_add _ e i TRANSFER_NOTIFICATION _ (on_tidy _ _ _ _ H) Hi Hw) as [Htd Hwa].
  unfold AddTransferSubscription.
  destruct (Subscriptions.AddSubscription _ _ _ _ _ _ _ _) as [s error]. cbn [fst snd] in Htd, Hwa.
  assert (H1 : once (Some i) n used (with_subs s w)).
  { assert (Hb : base used (with_subs s w)) by (apply (base_quiet _ w); [done|apply H]).
    destruct H. constructor; unfold since in *; simpl; try done.
    - intros t Ht Hs. destruct (on_reported0 t Ht Hs) as (G1 & G2 & G3). split_and!; try done.
      intros [G|[_ G%entry_path_inj]]%Hwa; [done|]. by apply (Hn t Ht).
    - intros t Ht Hk [G|[_ G%entry_path_inj]]%Hwa; [by apply on_uid0|congruence].
    - intros t Ht G1. destruct (on_excl0 t Ht G1) as [G2 G3]. split; [done|].
      intros [G|[_ G%entry_path_inj]]%Hwa; [done|]. by rewrite G in G1. }
  destruct (error =? 0) eqn:Ee; cbn [negb].
  - cbn [fst]. rewrite Hset. set (w1 := plugin_events (before_set g) (with_subs s w)).
    assert (H2 : once (Some i) n used w1) by (eapply once_still; [apply still_plugin_events|done]).
    assert (Hfin : forall w2, once (Some i) n used w2 ->
      (forall t, t ∈ objs (pl w2) -> index t = i -> subscriptionId t = uid i) -> once None n used w2).
    { intros w2 G Gu. destruct G. constructor; try done. intros t Ht _ Gw.
      destruct (decide (index t = i)) as [E|E]; [rewrite E; by apply Gu|]. apply on_uid0; congruence. }
    destruct (find_path (entry_path i) w1) as [t|] eqn:Ef.
    + apply find_path_elem in Ef as [Ht Et%entry_path_inj].
      assert (Hal : forall t', t' ∈ alter (addr t) (with_subscriptionId (uid i)) (objs (pl w1)) ->
        (index t' = i /\ subscriptionId t' = uid i /\ ident t' = ident t) \/ (t' ∈ objs (pl w1) /\ index t' <> i)).
      { intros t' (t0 & Ht0 & ->)%elem_of_alter. destruct (Nat.eqb_spec (addr t0) (addr t)) as [E|E].
        - assert (t0 = t) as -> by (apply (wf_same_addr (pl w1)); [apply H2|done..]). left. by simpl.
        - right. split; [done|]. intros E'. apply E. f_equal. apply (same_index w1); [apply H2|done|done|congruence]. }
      apply Hfin.
      * assert (Hb : base used (with_pl (bus_set_subscriptionId (uid i) t (pl w1)) w1)).
        { eapply base_quiet; [apply quiet_subscription_id|apply H2]. }
        destruct H2. constructor; unfold since in *; simpl; try done.
        -- intros t' [(E1 & _ & [= _ E2 E3 _ _])|[Ht' _]]%Hal; [rewrite E2, E3; by apply on_reported0|by apply on_reported0].
        -- intros t' [(E1 & _)|[Ht' _]]%Hal; [congruence|by apply on_uid0].
        -- intros t' [(E1 & _ & [= _ E2 E3 _ _])|[Ht' _]]%Hal; [rewrite E2, E3; by apply on_excl0|by apply on_excl0].
      * simpl. intros t' [(_ & E & _)|[_ Hne]]%Hal Ei; [done|congruence].
    + apply Hfin; [done|]. intros t Ht Ei. exfalso. by apply (find_path_none _ _ t Ef Ht); rewrite Ei.
  - cbn [fst]. destruct H1. constructor; try done. simpl. intros t Ht _ [G|[G _]]%Hwa; [by apply (on_uid _ _ _ _ H)|].
    by rewrite G in Ee.
Qed.

Lemma once_AddTransfer n used e g d r i w :
  set_ok e = true -> once None n used w -> 1 <= i <= last_index (pl w) -> matches i (rq_fileType r) w ->
  ~ watched (entry_path i) (subs w) -> armed (engine w) (entry_path i) = None ->
  (forall t, t ∈ objs (pl w) -> index t = i -> ~ since n (commandKey t) w) ->
  let w' := (AddTransfer e g d r i w).1 in
  once None n used w' /\ sent w' = sent w /\ engine w' = engine w /\ ext0 (pl w) (pl w').
Proof.
  intros Hset H Hi Hm Hw Ha Hn w'.
  pose proof (quiet_AddTransfer e g d r i w ltac:(lia) Hm) as [Hx _ Eq1 Eq2 _]. fold w' in Hx, Eq1, Eq2.
  split_and!; try done. unfold w', AddTransfer. clear w' Hx Eq1 Eq2.
  rewrite !(proj2 (Z.leb_gt i 0)) by lia.
  set (w1 := plugin_events (before_call g) w). assert (S1 : still w w1) by apply still_plugin_events.
  assert (Hm1 : matches i (rq_fileType r) w1) by (eapply matches_ext; [apply S1|done]).
  pose proof (still_call e (args_of d r i) w1 Hm1) as S2.
  destruct (call_AddTransfer e (args_of d r i) w1) as [w2 ok]. cbn [fst] in S2.
  destruct (negb ok); [eapply once_still; [|done]; by etrans|].
  set (w3 := plugin_events (before_subscribe g) w2).
  assert (S3 : still w w3) by (etrans; [exact S1|]; etrans; [exact S2|apply still_plugin_events]).
  apply once_subscription; try done.
  - by eapply once_still.
  - by rewrite (ext_last _ _ _ (still_ext _ _ S3)).
  - by rewrite (still_subs _ _ S3).
  - by rewrite (armed_path_still w w3).
  - intros t Ht Ei. destruct (ext_elem _ _ _ _ (still_ext _ _ S3) Ht) as (t0 & Ht0 & [= _ E1 E2 _ _ _]).
    unfold since. rewrite (quiet_sent _ _ (still_quiet _ _ S3)), <- E2. apply Hn; congruence.
Qed.

Lemma once_restart_transfer n used e g i w :
  set_ok e = true -> once None n used w ->
  (forall t, t ∈ objs (pl w) -> index t = i -> ~ since n (commandKey t) w) ->
  ~ watched (entry_path i) (subs w) -> armed (engine w) (entry_path i) = None ->
  once None n used (RestartTransfer e g (entry_path i) w).
Proof.
  intros Hset H Hn Hw Ha. unfold RestartTransfer. rewrite entry_path_not_empty.
  destruct (amxb_get e (entry_path i) w) as [t|] eqn:Eg; [|done].
  assert (Ht : t ∈ objs (pl w)) by (by eapply amxb_get_elem).
  assert (Ei : index t = i).
  { unfold amxb_get in Eg. destruct (get_ok e); [|done]. apply find_path_elem in Eg as [_ E]. by apply entry_path_inj. }
  subst i. assert (Hw0 : wf (pl w)) by apply H. destruct (wf_bounds _ Hw0 t Ht) as [_ Hb].
  destruct (once_AddTransfer n used e g (isDownload t) (request_of t) (index t) w) as (H1 & E1 & E2 & Hx); try done.
  { intros t' Ht' Ei. simpl. f_equal. by apply (same_index w). }
  unfold start_timeout. cbn [fst]. destruct (_ =? 0); [|done].
  apply once_start_key; [|done|].
  - apply (base_valid _ _ (on_base _ _ _ _ H)), (base_used _ _ (on_base _ _ _ _ H)), Ht.
  - intros t' Ht' Ek. destruct (ext_elem _ _ _ _ Hx Ht') as (t0 & Ht0 & [= _ G1 G2 _ _]).
    assert (t0 = t) as ->.
    { apply (NoDup_map_inj commandKey (objs (pl w))); try done; [apply (base_keys _ _ (on_base _ _ _ _ H))|congruence]. }
    unfold since. rewrite E1, E2, <- G1. split; [by apply Hn|done].
Qed.

(** ** Every action but a start of the daemon *)

(** The answers that keep the subscriptions of the adapter known to it *)
Definition env_faithful (e : env) : Prop := set_ok e = true /\ unsub_ok e = true /\ tcs_ok e = true.

Definition faithful (a : action) : Prop :=
  match a with
  | Download _ e _ _ | Upload _ e _ _ | Dispatch e | TimerFires e _ _ => env_faithful e
  | PluginEvent _ | Acknowledged _ _ => True
  | Restart _ => False
  end.

Lemma once_timer n used e g name w :
  env_faithful e -> once None n used w -> once None n used (timer_fires e g name w).
Proof.
  intros (Hset & Hun & Hs) H. unfold timer_fires. destruct (armed (engine w) name) as [h|] eqn:E; [|done].
  assert (Hf : forall m, armed (expire name (engine w)) m = if streq m name then None else armed (engine w) m).
  { intros m. by apply armed_expire, H. }
  assert (H1 : once None n used (with_engine (expire name (engine w)) w)).
  { apply (once_unarm None n used name w (expire name)); [done|by apply ok_expire, H|done]. }
  set (w1 := with_engine _ w) in *.
  assert (Hnone : armed (engine w1) name = None) by (simpl; by rewrite Hf, streq_refl).
  destruct (base_handlers _ _ (on_base _ _ _ _ H) name h E) as [Hh1 Hh2].
  assert (Hpath : forall t, t ∈ objs (pl w) -> entry_path (index t) = name ->
    ~ since n (commandKey t) w1 /\ ~ watched name (subs w1)).
  { intros t Ht <-. split.
    - apply (not_since None n used w t H Ht). right. left. by rewrite E.
    - apply (on_excl _ _ _ _ H t Ht). by rewrite E. }
  unfold run_handler. destruct (Nat.eqb_spec h TRANSFER_TIMED_OUT) as [Eh|Eh];
    [|destruct (Nat.eqb_spec h RESTART_TRANSFER) as [Eh2|Eh2];
      [|destruct (Nat.eqb_spec h TRANSFER_COMPLETE_EVENT) as [Eh3|Eh3]; [|done]]].
  - apply once_handler_timed_out; try done. intros t Ht Ek. split.
    + rewrite <- Ek. apply (not_since None n used w t H Ht). left. by rewrite Ek, E.
    + simpl. rewrite Hf. destruct (streq _ _) eqn:Es; [done|].
      destruct (armed (engine w) (entry_path (index t))) eqn:Ea; [|done].
      destruct (on_excl _ _ _ _ H t Ht) as [G _]; [by rewrite Ea|]. by rewrite Ek, E in G.
  - unfold RestartTransfer at 1. destruct (streq name "") eqn:Ee; [done|].
    destruct (find_path name w1) as [t|] eqn:Ef.
    + apply find_path_elem in Ef as [Ht <-]. destruct (Hpath t Ht eq_refl) as [G1 G2].
      pose proof (once_restart_transfer n used e g (index t) w1 Hset H1) as G. unfold RestartTransfer in G.
      rewrite entry_path_not_empty in G. apply G; try done.
      intros t' Ht' Ei. by assert (t' = t) as -> by (apply (same_index w); [apply H|done..]).
    + unfold amxb_get. rewrite Ef. by destruct (get_ok e).
  - destruct (find_path name w1) as [t|] eqn:Ef.
    + apply find_path_elem in Ef as [Ht <-]. destruct (Hpath t Ht eq_refl) as [G1 G2].
      apply once_complete_event; try done.
      intros t' Ht' Ei. by assert (t' = t) as -> by (apply (same_index w); [apply H|done..]).
    + unfold TransferCompleteEvent, amxb_get. rewrite Ef. by destruct (get_ok e).
Qed.

Lemma once_dispatch n used e w : env_faithful e -> once None n used w -> once None n used (dispatch e w).
Proof.
  intros (Hset & Hun & Hs) H. unfold dispatch. destruct (inbox w) as [|[i st] l]; [done|].
  assert (H1 : once None n used (with_inbox l w)) by (by apply (once_still None n used w)).
  cbn [fst]. change (subs (with_inbox l w)) with (subs w).
  destruct (tidy_deliver _ _ i (on_tidy _ _ _ _ H)) as [->|(h & -> & Hw)]; [done|]. cbn [foldl].
  unfold TransferNotification. cbn [fst snd]. destruct st; try done.
  destruct (tidy_watched _ _ _ (on_tidy _ _ _ _ H) Hw) as (j & Hj & E%entry_path_inj). subst j.
  unfold TransferCompleteEvent. destruct (amxb_get e (entry_path i) (with_inbox l w)) as [t|] eqn:Eg; [|done].
  assert (Ht : t ∈ objs (pl w)) by (by apply amxb_get_elem in Eg).
  assert (Ei : index t = i).
  { unfold amxb_get in Eg. destruct (get_ok e); [|done]. apply find_path_elem in Eg as [_ E]. by apply entry_path_inj. }
  subst i. rewrite Hs. cbn [negb]. apply once_completed; try done.
  - apply (not_since None n used w t H Ht). by right; right.
  - destruct (armed (engine w) (entry_path (index t))) eqn:Ea; [|done].
    destruct (on_excl _ _ _ _ H t Ht) as [_ G]; [by rewrite Ea|done].
Qed.

Lemma once_added n used e d r w :
  once None n used w -> valid_key (rq_key r) -> rq_key r ∉ used ->
  once None n (used ++ [rq_key r]) (added e d r w).
Proof.
  intros H Hv Hk. pose proof (base_added used e d r w (on_base _ _ _ _ H) Hv Hk) as Hb.
  pose proof (on_path _ _ _ _ H) as Hp. pose proof (on_tidy _ _ _ _ H) as Htd.
  assert (Hw : forall p, p = entry_path (last_index (pl w) + 1) -> ~ watched p (subs w)).
  { intros p -> G. destruct (tidy_watched _ _ _ Htd G) as (j & Hj & E%entry_path_inj). lia. }
  destruct H. constructor; unfold since in *; simpl; try done.
  - apply (tidy_more (last_index (pl w))); [lia|done].
  - intros t [Ht| ->%list_elem_of_singleton]%elem_of_app; [by apply on_reported0|]. simpl.
    intros (tc & Htc & E). exfalso. apply Hk. rewrite <- E. apply (base_sent _ _ on_base0).
    by eapply elem_of_submseteq; [exact Htc|apply sublist_submseteq, sublist_drop].
  - intros t [Ht| ->%list_elem_of_singleton]%elem_of_app; [by apply on_uid0|]. simpl. intros _ G. by apply Hw in G.
  - intros t [Ht| ->%list_elem_of_singleton]%elem_of_app; [by apply on_excl0|]. simpl. intros G%Hp. lia.
  - intros i G%Hp. lia.
Qed.

Lemma once_more n used k w : valid_key k -> once None n used w -> once None n (used ++ [k]) w.
Proof.
  intros Hv H. pose proof (base_more used k w (on_base _ _ _ _ H) Hv). destruct H. by constructor.
Qed.

Lemma once_reply n used k c w : k ∈ used -> once None n used w -> once None n used (reply k c w).
Proof.
  intros Hk H. pose proof (base_reply used k c w Hk (on_base _ _ _ _ H)). destruct H. by constructor.
Qed.

Lemma once_request n used e g d r w :
  env_faithful e -> once None n used w -> valid_key (rq_key r) -> rq_key r ∉ used ->
  once None n (used ++ [rq_key r])
    (record_reply (rq_key r) (start_timeout (rq_key r) (rq_delay r + 3600) (AddTransfer e g d r (-1) w))).
Proof.
  intros (Hset & Hun & Hs) H Hv Hk. unfold record_reply.
  apply once_reply; [apply elem_of_app; right; by left|].
  assert (Hw0 : wf (pl w)) by apply H. rewrite AddTransfer_new by done.
  unfold start_timeout. destruct (add_ok e); cbn [fst snd].
  - pose proof (once_added n used e d r w H Hv Hk) as H1. pose proof (wf_last _ Hw0) as Hl.
    pose proof (on_path _ _ _ _ H) as Hp.
    assert (Ha : armed (engine w) (entry_path (last_index (pl w) + 1)) = None).
    { destruct (armed _ (entry_path (last_index (pl w) + 1))) eqn:Ea; [|done].
      pose proof (Hp (last_index (pl w) + 1)) as G. rewrite Ea in G. specialize (G ltac:(done)). lia. }
    assert (Hnew : forall t, t ∈ objs (pl (added e d r w)) -> commandKey t = rq_key r \/ index t = last_index (pl w) + 1 ->
      commandKey t = rq_key r /\ index t = last_index (pl w) + 1).
    { intros t. simpl. intros [Ht| ->%list_elem_of_singleton]%elem_of_app [E|E]; try done.
      - exfalso. apply Hk. rewrite <- E. by apply (base_used _ _ (on_base _ _ _ _ H)).
      - destruct (wf_bounds _ Hw0 t Ht). lia. }
    assert (Hns : ~ since n (rq_key r) (added e d r w)).
    { intros (tc & Htc & E). apply Hk. rewrite <- E. apply (base_sent _ _ (on_base _ _ _ _ H)).
      by eapply elem_of_submseteq; [exact Htc|apply sublist_submseteq, sublist_drop]. }
    destruct (once_AddTransfer n (used ++ [rq_key r]) e g d r (last_index (pl w) + 1) (added e d r w))
      as (H2 & E1 & E2 & Hx); try done.
    + simpl. lia.
    + by apply matches_added.
    + intros G. destruct (tidy_watched _ _ _ (on_tidy _ _ _ _ H) G) as (j & Hj & E%entry_path_inj). lia.
    + intros t Ht Ei. destruct (Hnew t Ht) as [-> _]; [by right|done].
    + destruct (_ =? 0); [|done]. apply once_start_key; try done.
      intros t Ht Ek. destruct (ext_elem _ _ _ _ Hx Ht) as (t0 & Ht0 & [= _ G1 G2 _ _]).
      destruct (Hnew t0 Ht0) as [_ G]; [left; congruence|]. unfold since. rewrite E1, E2, <- G1, G. done.
  - destruct (_ =? 0) eqn:E0; [apply Z.eqb_eq in E0; by destruct law_denied|]. by apply once_more.
Qed.

Lemma once_act n used a w :
  once None n used w -> faithful a -> Forall valid_key (keys_of a) -> Forall (fun k => k ∉ used) (keys_of a) ->
  once None n (used ++ keys_of a) (act a w).
Proof.
  intros H Ha Hv Hk.
  destruct a as [b e g r|b e g r|ev|e|e g m|ok path|e]; cbn [act keys_of faithful] in *; rewrite ?app_nil_r.
  - rewrite Forall_singleton in Hv, Hk. destruct b; [by apply (once_request n used e g true r w)|].
    apply once_reply; [apply elem_of_app; right; by left|by apply once_more].
  - rewrite Forall_singleton in Hv, Hk. destruct b; [by apply (once_request n used e g false (upload_request r) w)|].
    apply once_reply; [apply elem_of_app; right; by left|by apply once_more].
  - eapply once_still; [apply still_plugin_event|done].
  - by apply once_dispatch.
  - by apply once_timer.
  - unfold TransferDoneAcknowledged. destruct ok; [|done]. destruct (find_path path w); [|done].
    eapply once_still; [apply still_plugin_event|done].
  - done.
Qed.

Lemma once_run n used l w :
  once None n used w -> Forall faithful l -> Forall valid_key (concat (map keys_of l)) ->
  NoDup (used ++ concat (map keys_of l)) -> once None n (used ++ concat (map keys_of l)) (run l w).
Proof.
  revert used w. induction l as [|a l IH]; intros used w H Ha Hv Hn; simpl in *.
  - by rewrite app_nil_r.
  - apply Forall_cons in Ha as [Ha1 Ha2]. apply Forall_app in Hv as [Hv1 Hv2].
    rewrite app_assoc in *. apply IH; try done. apply once_act; try done.
    apply NoDup_app in Hn as (Hn & _ & _). apply NoDup_app in Hn as (_ & Hn & _).
    apply Forall_forall. intros k Hk Hu. by apply (Hn k).
Qed.

(** ** A start of the daemon *)

Lemma once_start_path n used i d h w :
  h = RESTART_TRANSFER \/ h = TRANSFER_COMPLETE_EVENT -> once None n used w ->
  i <= last_index (pl w) -> ~ watched (entry_path i) (subs w) ->
  (forall t, t ∈ objs (pl w) -> index t = i -> ~ since n (commandKey t) w /\ armed (engine w) (commandKey t) = None) ->
  once None n used (timerStart (entry_path i) d h w).
Proof.
  intros Hh H Hi Hw Hk.
  assert (Hb : base used (timerStart (entry_path i) d h w)).
  { apply base_start; [done| |apply H]. intros Hp. destruct Hp. by exists i. }
  assert (Ho : forall m, m <> entry_path i -> armed (engine (timerStart (entry_path i) d h w)) m = armed (engine w) m).
  { intros m Hm. simpl. rewrite armed_start, entry_path_not_empty by apply H.
    by rewrite (proj2 (streq_false m (entry_path i))). }
  assert (Hkey : forall t, t ∈ objs (pl w) -> commandKey t <> entry_path i).
  { intros t Ht E. destruct (base_valid _ _ Hb (commandKey t)) as [_ G]; [by apply (base_used _ _ Hb)|].
    apply G. by exists i. }
  destruct H. constructor; unfold since in *; try done.
  - intros t Ht Hs. destruct (on_reported0 t Ht Hs) as (G1 & G2 & G3).
    rewrite Ho by auto. split_and!; try done. rewrite Ho; [done|]. intros E%entry_path_inj. by apply (Hk t Ht).
  - intros t Ht. rewrite (Ho (commandKey t)) by auto. destruct (decide (index t = i)) as [E|E].
    + intros _. rewrite E. split; [by apply Hk|done].
    + rewrite Ho; [by apply on_excl0|]. by intros E'%entry_path_inj.
  - intros j. destruct (decide (j = i)) as [->|E]; [done|]. rewrite Ho; [apply on_path0|]. by intros E'%entry_path_inj.
Qed.

(** The transfers the loop has yet to visit have no timers. *)
Definition unvisited (l : list transfer) w : Prop :=
  forall t, t ∈ l -> armed (engine w) (commandKey t) = None /\ armed (engine w) (entry_path (index t)) = None.

(** The instances are those the loop iterates over. *)
Definition from (l : list transfer) w : Prop :=
  forall t, t ∈ objs (pl w) -> exists t0, t0 ∈ l /\ ident t0 = ident t.

Lemma from_ext l w w' : ext0 (pl w) (pl w') -> from l w -> from l w'.
Proof.
  intros He H t Ht. destruct (ext_elem _ _ _ _ He Ht) as (t1 & Ht1 & E1).
  destruct (H t1 Ht1) as (t0 & Ht0 & E0). exists t0. split; [done|congruence].
Qed.

Lemma once_initialize n used e l t w :
  NoDup (map index l) -> NoDup (map commandKey l) -> t ∈ l -> from l w ->
  (forall x, x ∈ l -> commandKey x ∈ used /\ index x <= last_index (pl w)) ->
  once None n used w -> (forall k, ~ since n k w) -> (forall p, ~ watched p (subs w)) ->
  armed (engine w) (commandKey t) = None -> armed (engine w) (entry_path (index t)) = None ->
  once None n used (initialize_transfer e t w).
Proof.
  intros Hni Hnk Ht Hf Hl H Hs Hw Hk Hp.
  assert (Hid : forall w', ext0 (pl w) (pl w') -> forall x, x ∈ objs (pl w') ->
    commandKey x = commandKey t \/ index x = index t -> commandKey x = commandKey t /\ index x = index t).
  { intros w' He x Hx E. destruct (from_ext l w w' He Hf x Hx) as (x0 & Hx0 & [= _ E1 E2 _ _]).
    assert (x0 = t) as ->; [|done]. destruct E as [E|E].
    - apply (NoDup_map_inj commandKey l); [done..|congruence].
    - apply (NoDup_map_inj index l); [done..|congruence]. }
  destruct (Hl t Ht) as [Hl1 Hl2].
  assert (Hkeyed : forall w' d, once None n used w' -> sent w' = sent w -> engine w' = engine w -> ext0 (pl w) (pl w') ->
    once None n used (timerStart (commandKey t) d TRANSFER_TIMED_OUT w')).
  { intros w' d G1 G2 G3 G4. apply once_start_key; [by apply (base_valid _ _ (on_base _ _ _ _ H))|done|].
    intros x Hx E. unfold since. rewrite G2, G3. split; [apply Hs|].
    destruct (Hid w' G4 x Hx) as [_ ->]; [by left|done]. }
  assert (Hpathed : forall w' d h, h = RESTART_TRANSFER \/ h = TRANSFER_COMPLETE_EVENT -> once None n used w' ->
    sent w' = sent w -> engine w' = engine w -> subs w' = subs w -> ext0 (pl w) (pl w') ->
    once None n used (timerStart (entry_path (index t)) d h w')).
  { intros w' d h Gh G1 G2 G3 G4 G5. apply once_start_path; try done.
    - by rewrite (ext_last _ _ _ G5).
    - by rewrite G4.
    - intros x Hx E. unfold since. rewrite G2, G3. split; [apply Hs|].
      destruct (Hid w' G5 x Hx) as [-> _]; [by right|done]. }
  unfold initialize_transfer. destruct (state t).
  - destruct (_ <? _); [by apply Hkeyed|apply Hpathed; try done; by left].
  - destruct (bool_decide _); [|done].
    assert (Hst : still w (handle_pending_upgrade e (entry_path (index t)) w)).
    { unfold handle_pending_upgrade. destruct (image_status e) as [s|]; [destruct (streq s "Active")|];
        apply still_UpdateTransferState. }
    pose proof Hst as [[G1 _ G2 G3 _] _ G4]. apply Hpathed; try done; [by right|by eapply once_still].
  - apply Hpathed; try done. by right.
Qed.

Lemma initialize_still e t w :
  sent (initialize_transfer e t w) = sent w /\ subs (initialize_transfer e t w) = subs w /\
  ext0 (pl w) (pl (initialize_transfer e t w)) /\
  (timers_ok (engine w) -> forall m, m <> commandKey t -> m <> entry_path (index t) ->
     armed (engine (initialize_transfer e t w)) m = armed (engine w) m).
Proof.
  pose proof (growing_initialize e t w) as [Hx _ Es _ _ _]. split_and!; try done.
  - unfold initialize_transfer, handle_pending_upgrade. destruct (state t); simpl.
    + by destruct (_ <? _).
    + destruct (bool_decide _); [|done]. simpl.
      destruct (image_status e) as [s|]; [destruct (streq s "Active")|]; apply still_UpdateTransferState.
    + done.
  - intros Hok m H1 H2. apply streq_false in H1, H2. unfold initialize_transfer. destruct (state t).
    + destruct (_ <? _); simpl; rewrite armed_start by done; rewrite ?H1, ?H2; by destruct (streq _ "").
    + destruct (bool_decide _); [|done]. simpl.
      rewrite (quiet_engine _ _ (quiet_pending_upgrade _ _ _)), armed_start by done.
      by rewrite H2; destruct (streq _ "").
    + simpl. rewrite armed_start by done. by rewrite H2; destruct (streq _ "").
Qed.

Lemma once_fold n used e l0 l w :
  NoDup (map index l0) -> NoDup (map commandKey l0) -> l `sublist_of` l0 -> from l0 w ->
  (forall x, x ∈ l0 -> commandKey x ∈ used /\ index x <= last_index (pl w)) ->
  once None n used w -> (forall k, ~ since n k w) -> (forall p, ~ watched p (subs w)) -> unvisited l w ->
  once None n used (foldl (fun w t => initialize_transfer e t w) w l).
Proof.
  intros Hni Hnk. revert w. induction l as [|t l IH]; intros w Hl Hf Hu H Hs Hw Hv; [done|]. cbn [foldl].
  assert (Ht : t ∈ l0) by (eapply elem_of_submseteq; [by left|by apply sublist_submseteq]).
  destruct (initialize_still e t w) as (E1 & E2 & Hx & Ha).
  assert (Hok : timers_ok (engine w)) by apply H.
  assert (Hl' : l `sublist_of` l0) by (etrans; [|exact Hl]; by apply sublist_cons).
  apply IH; try done.
  - by eapply from_ext.
  - intros x Hx0. rewrite (ext_last _ _ _ Hx). by apply Hu.
  - destruct (Hv t) as [G1 G2]; [by left|]. by apply (once_initialize n used e l0).
  - intros k. unfold since. rewrite E1. apply Hs.
  - intros p. rewrite E2. apply Hw.
  - intros x Hxl. destruct (Hv x) as [G1 G2]; [by right|].
    assert (Hx0 : x ∈ l0) by (eapply elem_of_submseteq; [exact Hxl|by apply sublist_submseteq]).
    assert (Hne : x <> t).
    { intros ->. assert (Hd : NoDup (t :: l)); [|by apply NoDup_cons in Hd as [? _]].
      eapply sublist_NoDup; [|exact Hl]. by eapply NoDup_fmap_1. }
    assert (Hik : commandKey x <> commandKey t) by (intros E; apply Hne; by apply (NoDup_map_inj commandKey l0)).
    assert (Hii : index x <> index t) by (intros E; apply Hne; by apply (NoDup_map_inj index l0)).
    assert (Hpk : forall a b, a ∈ l0 -> commandKey a <> entry_path b).
    { intros a b Ha0 E. destruct (base_valid _ _ (on_base _ _ _ _ H) (commandKey a)) as [_ G]; [by apply Hu|].
      apply G. by exists b. }
    split.
    + rewrite Ha; auto.
    + rewrite Ha; auto; [|by intros E%entry_path_inj]. intros E. by apply (Hpk t (index x)).
Qed.

Lemma once_restart used e w :
  base used w -> once None (length (sent w)) used (restart e w).
Proof.
  intros Hb. unfold restart, UpDownloadInitialize.
  set (w0 := {| pl := pl w |}).
  assert (Hb0 : base used w0).
  { destruct Hb. constructor; simpl; auto using ok_none. intros n h. by rewrite armed_none. }
  assert (Hs : forall k, ~ since (length (sent w)) k w0).
  { intros k (tc & Htc & _). simpl in Htc. rewrite drop_all in Htc. by apply elem_of_nil in Htc. }
  assert (Hw : forall p, ~ watched p (subs w0)) by (intros p; apply not_elem_of_nil).
  assert (H0 : once None (length (sent w)) used w0).
  { constructor; try done.
    - apply tidy_initial.
    - simpl. rewrite drop_all. apply NoDup_nil_2.
    - intros t Ht G. by apply Hs in G.
    - intros t Ht _ G. by apply Hw in G.
    - intros t Ht G. simpl in G. by rewrite armed_none in G.
    - intros i G. simpl in G. by rewrite armed_none in G. }
  destruct (get_ok e); [|done]. cbn [fst].
  apply (once_fold _ used e (objs (pl w0))); try done.
  - apply (wf_indices _ (base_wf _ _ Hb0)).
  - apply (base_keys _ _ Hb0).
  - intros t Ht. by exists t.
  - intros x Hx. split; [by apply (base_used _ _ Hb0)|by apply (wf_bounds _ (base_wf _ _ Hb0))].
  - intros t Ht. simpl. by rewrite !armed_none.
Qed.

(** ** Property *)

(** C6: between two starts of the daemon no transfer is reported twice.  After
    any run and a start of the daemon, whatever notifications, expiries,
    acknowledgements, requests and events of the plugin follow in whatever order
    -- in particular when a transfer finishes while its timer expires -- the
    TransferComplete messages are for different command keys, as long as the
    command keys of the requests are different (not empty, not instance paths)
    and the adapter's writes and unsubscriptions succeed. *)
Theorem reported_at_most_once (l1 l2 : list action) (e : env)
    (Ha : Forall answered l1) (Hf : Forall faithful l2)
    (Hv : Forall valid_key (concat (map keys_of (l1 ++ l2)))) (Hn : NoDup (concat (map keys_of (l1 ++ l2)))) :
  let w1 := run l1 (@start_world T ET) in
  let w2 := run l2 (act (Restart e) w1) in
  NoDup (map tc_key (drop (length (sent w1)) (sent w2))).
Proof.
  intros w1 w2. rewrite map_app, concat_app in *. apply Forall_app in Hv as [Hv1 Hv2].
  assert (Hi : inv (concat (map keys_of l1)) w1).
  { apply (ud_inv_run [] l1 start_world inv_start); try done. by apply NoDup_app in Hn as (? & _). }
  assert (H : once None (length (sent w1)) (concat (map keys_of l1)) (act (Restart e) w1))
    by apply once_restart, Hi.
  by apply (once_run _ _ l2), on_nodup in H.
Qed.

End Once.

End UpDownloadOnce.
