(* ===== verification/UpDownloadFirmware.v ===== *)
(** * UpDownloadFirmware: firmware downloads from end to end

    A failure the image service announces, and an upgrade that was under way when
    the device started again, reach the ACS with their fault code. *)

From Stdlib Require Import ZArith Lia Ascii.
From stdpp Require Import base list strings pretty.
From S2P Require Import Prelude CString Timer Subscriptions EngineTimers AcsTransfer AcsTransferFacts UpDownload.
From S2P Require Import UpDownloadFacts UpDownloadOnce.

Module UpDownloadFirmware.
Import AcsTransfer AcsTransferFacts UpDownload UpDownloadFacts UpDownloadOnce.

Section Firmware.

Context {L : library} {A : adapter_library} {AL : AdapterLaws}.
Context {T : Type} {ET : EngineTimers T} {LT : EngineTimersLaws T}.

Notation world := (@world T).
Implicit Types w : world.

(** ** Pending upgrades *)

(** The fault code a pending upgrade ends with *)
Definition upgrade_fault (image : option string) : Z :=
  match image with
  | None => DM_ENG_INTERNAL_ERROR
  | Some s => if streq s "Active" then 0 else DM_ENG_DOWNLOAD_FAILURE
  end.

Lemma alter_elem (u : update) (t x : transfer) p :
  wf p -> t ∈ objs p -> x ∈ objs p -> index t <> index x -> t ∈ alter (addr x) (write u) (objs p).
Proof.
  intros H Ht Hx Hi. apply list_elem_of_fmap. exists t. split; [|done].
  destruct (Nat.eqb_spec (addr t) (addr x)) as [E|E]; [|done].
  exfalso. apply Hi. f_equal. by apply (wf_same_addr p).
Qed.

Lemma alter_self (u : update) (t : transfer) p :
  t ∈ objs p -> write u t ∈ alter (addr t) (write u) (objs p).
Proof. intros Ht. apply list_elem_of_fmap. exists t. by rewrite Nat.eqb_refl. Qed.

Lemma set_other e x u t w :
  wf (pl w) -> t ∈ objs (pl w) -> index t <> x -> t ∈ objs (pl (amxb_set e (entry_path x) u w)).
Proof.
  intros H Ht Hi. unfold amxb_set. destruct (set_ok e); [|done].
  destruct (find_path (entry_path x) w) as [t0|] eqn:E; [|done]. apply find_path_elem in E as [Ht0 E%entry_path_inj].
  simpl. apply alter_elem; try done. congruence.
Qed.

Lemma upgrade_other e x t w :
  wf (pl w) -> t ∈ objs (pl w) -> index t <> x -> t ∈ objs (pl (handle_pending_upgrade e (entry_path x) w)).
Proof.
  intros H Ht Hi. unfold handle_pending_upgrade, UpdateTransferState.
  destruct (image_status e) as [s|]; [destruct (streq s "Active")|]; rewrite entry_path_not_empty; by apply set_other.
Qed.

Lemma initialize_other e x t w :
  wf (pl w) -> t ∈ objs (pl w) -> index t <> index x -> t ∈ objs (pl (initialize_transfer e x w)).
Proof.
  intros H Ht Hi. unfold initialize_transfer. destruct (state x).
  - by destruct (_ <? _).
  - destruct (bool_decide _); [|done]. simpl. by apply upgrade_other.
  - done.
Qed.

(** What the loop leaves of an instance and of its timers as long as it visits
    others *)
Lemma fold_other e l t w :
  wf (pl w) -> timers_ok (engine w) -> t ∈ objs (pl w) -> index t ∉ map index l ->
  (forall x, x ∈ l -> valid_key (commandKey x)) ->
  let w' := foldl (fun w t => initialize_transfer e t w) w l in
  t ∈ objs (pl w') /\ armed (engine w') (entry_path (index t)) = armed (engine w) (entry_path (index t)).
Proof.
  revert w. induction l as [|x l IH]; intros w Hw Hok Ht Hn Hv; [done|]. cbn [foldl].
  simpl in Hn. apply not_elem_of_cons in Hn as [Hx Hn].
  pose proof (growing_initialize e x w) as G. destruct (initialize_still e x w) as (_ & _ & _ & Ha).
  destruct (IH (initialize_transfer e x w)) as [G1 G2]; try done.
  - by apply G.
  - by apply G.
  - by apply initialize_other.
  - intros y Hy. apply Hv. by right.
  - split; [done|]. rewrite G2. apply Ha; [done| |by intros E%entry_path_inj].
    intros E. destruct (Hv x) as [_ G']; [by left|]. apply G'. by exists (index t).
Qed.

Lemma upgrade_self e t w :
  set_ok e = true -> wf (pl w) -> t ∈ objs (pl w) -> state t = Applying ->
  exists t', t' ∈ objs (pl (initialize_transfer e t w)) /\ ident t' = ident t /\ state t' = Finished /\
    faultCode t' = upgrade_fault (image_status e) /\
    completeTime t' = (if upgrade_fault (image_status e) =? 0 then UNKNOWN_TIME else completeTime t).
Proof.
  intros He H Ht Hs. unfold initialize_transfer. rewrite Hs.
  rewrite bool_decide_eq_true_2 by (by apply (wf_objs _ H)). simpl.
  unfold handle_pending_upgrade, upgrade_fault.
  assert (Hset : forall c s, exists t', t' ∈ objs (pl (UpdateTransferState e (entry_path (index t)) c s
      (if c =? 0 then Some UNKNOWN_TIME else None) w)) /\ ident t' = ident t /\ state t' = Finished /\
      faultCode t' = c /\ completeTime t' = (if c =? 0 then UNKNOWN_TIME else completeTime t)).
  { intros c s. unfold UpdateTransferState. rewrite entry_path_not_empty. unfold amxb_set.
    rewrite He, find_path_index by done.
    exists (write {| u_status := Some Finished; u_start := None;
      u_complete := if c =? 0 then Some UNKNOWN_TIME else None; u_fault := Some (c, Some s) |} t).
    split; [by apply (alter_self _ t (pl w))|]. split_and!; try done. simpl. by destruct (c =? 0). }
  destruct (image_status e) as [s|]; [destruct (streq s "Active")|]; apply Hset.
Qed.

(** A firmware upgrade that was under way when the device started again is
    resolved.  When the daemon starts, the instance becomes [Finished], without
    a fault if the active image has the status "Active", and as soon as the
    timer of the instance expires the ACS gets a TransferComplete with that
    outcome.  A successful upgrade is reported with the unknown time as its
    completion time, a failed one with the time that was planned. *)
Theorem pending_firmware_resolved (l : list action) (t : transfer) (e e2 : env) (g : gaps)
    (Hl : Forall answered l) (Hv : Forall valid_key (concat (map keys_of l)))
    (Hn : NoDup (concat (map keys_of l))) (He : get_ok e = true /\ set_ok e = true) (He2 : answers_ok e2) :
  let w := run l (@start_world T ET) in
  t ∈ objs (pl w) -> state t = Applying ->
  exists tc, tc ∈ sent (run [Restart e; TimerFires e2 g (entry_path (index t))] w) /\
    tc_key tc = commandKey t /\ tc_faultCode tc = upgrade_fault (image_status e) /\
    tc_complete tc = (if upgrade_fault (image_status e) =? 0 then UNKNOWN_TIME else completeTime t).
Proof.
  intros w Ht Hs. destruct He as [Hg Hset].
  assert (Hi : inv (concat (map keys_of l)) w) by (by apply (ud_inv_run [] l start_world inv_start)).
  destruct Hi as [Hb _].
  pose proof (inv_restart _ e w Hg Hb) as [Hbr _].
  unfold run. cbn [run_steps foldl act]. unfold restart, UpDownloadInitialize in *. rewrite Hg in *. cbn [fst] in *.
  set (w0 := {| pl := pl w |}) in *. change (t ∈ objs (pl w0)) in Ht.
  assert (Hw0 : wf (pl w0)) by apply Hb. assert (Hok : timers_ok (engine w0)) by apply ok_none.
  assert (Hval : forall x, x ∈ objs (pl w0) -> valid_key (commandKey x)).
  { intros x Hx. by apply (base_valid _ _ Hb), (base_used _ _ Hb). }
  pose proof (wf_indices _ Hw0) as Hni.
  assert (Hfold : exists t', t' ∈ objs (pl (foldl (fun w t => initialize_transfer e t w) w0 (objs (pl w0)))) /\
    ident t' = ident t /\ faultCode t' = upgrade_fault (image_status e) /\
    completeTime t' = (if upgrade_fault (image_status e) =? 0 then UNKNOWN_TIME else completeTime t) /\
    armed (engine (foldl (fun w t => initialize_transfer e t w) w0 (objs (pl w0)))) (entry_path (index t)) =
      Some TRANSFER_COMPLETE_EVENT).
  { revert Hni Hval. pose proof Ht as Ht0. apply list_elem_of_split in Ht0 as (l1 & l2 & El).
    rewrite El, map_app. cbn [map]. intros Hni Hval.
    apply NoDup_app in Hni as (_ & Hn1 & [Hn2 _]%NoDup_cons). rewrite foldl_app. cbn [foldl].
    destruct (fold_other e l1 t w0) as [G1 G2]; try done.
    { intros Hin. apply (Hn1 _ Hin). by left. }
    { intros x Hx. apply Hval, elem_of_app. by left. }
    set (w1 := foldl _ w0 l1) in *. pose proof (growing_fold e l1 w0) as Gr1. fold w1 in Gr1.
    assert (Hw1 : wf (pl w1)) by (by apply Gr1). assert (Hok1 : timers_ok (engine w1)) by (by apply Gr1).
    destruct (upgrade_self e t w1 Hset Hw1 G1 Hs) as (t' & Ht' & Ei & Es & Ef & Ec).
    pose proof (growing_initialize e t w1) as Gr2.
    assert (Ex : index t' = index t) by (by injection Ei).
    destruct (fold_other e l2 t' (initialize_transfer e t w1)) as [G3 G4]; try done.
    { by apply Gr2. }
    { by apply Gr2. }
    { by rewrite Ex. }
    { intros x Hx. apply Hval, elem_of_app. right. by right. }
    exists t'. split_and!; try done. rewrite <- Ex, G4, Ex.
    unfold initialize_transfer. rewrite Hs, bool_decide_eq_true_2 by (by apply (wf_objs _ Hw1)). simpl.
    rewrite (quiet_engine _ _ (quiet_pending_upgrade _ _ _)), armed_start, entry_path_not_empty, streq_refl by done.
    rewrite G2. simpl. by rewrite armed_none. }
  destruct Hfold as (t' & Ht' & Ei & Ef & Ec & Ea).
  set (w1 := foldl _ w0 (objs (pl w0))) in *. unfold timer_fires. rewrite Ea. unfold run_handler. simpl.
  destruct He2 as (Hg2 & _ & Hs2 & _). rewrite TransferCompleteEvent_eq by done. unfold amxb_get. rewrite Hg2.
  injection Ei as _ Ex Ek _ _. rewrite <- Ex. set (w2 := with_engine _ w1).
  rewrite (find_path_index w2 t'); [|apply Hbr|done].
  exists (BuildTransferCompleteResponse t' (entry_path (index t'))). split; [|done].
  simpl. apply elem_of_app. right. by left.
Qed.

(** ** Announced failures *)

(** Between two actions everything the data model announced was passed on. *)
Definition calm w : Prop := emitted (pl w) = [].

Lemma calm_events evs w : calm w -> calm (plugin_events evs w).
Proof. revert w. induction evs as [|ev evs IH]; intros w H; [done|]. by apply (IH (plugin_event ev w)). Qed.

Lemma calm_set e path c s t w : calm w -> calm (UpdateTransferState e path c s t w).
Proof.
  intros H. unfold UpdateTransferState, amxb_set. destruct (streq path ""); [done|]. destruct (set_ok e); [|done].
  by destruct (find_path path w).
Qed.

Lemma calm_AddTransfer e g d r i w : calm w -> calm (AddTransfer e g d r i w).1.
Proof.
  intros H. unfold AddTransfer, new_dm_entry. destruct (i <=? 0); [destruct (add_ok e)|]; simpl; try done;
    (destruct (_ <=? 0); [done|]); unfold call_AddTransfer;
    match goal with |- context [plugin_events (before_call g) ?x] =>
      assert (H1 : calm (plugin_events (before_call g) x)) by (by apply calm_events) end;
    set (w1 := plugin_events (before_call g) _) in *; simpl;
    (destruct (rpc_ok e); simpl; [|by destruct (rpc_lost e)]);
    set (w2 := plugin_events (before_subscribe g) _);
    assert (H2 : calm w2) by (by apply calm_events); unfold AddTransferSubscription;
    destruct (Subscriptions.AddSubscription _ _ _ _ _ _ _ _) as [s error];
    (destruct (negb (error =? 0)); [done|]); cbn [fst];
    set (w3 := plugin_events (before_set g) _);
    assert (H3 : calm w3) by (by apply calm_events); by destruct (if set_ok e then _ else _).
Qed.

Lemma calm_fold e l w : calm w -> calm (foldl (fun w t => initialize_transfer e t w) w l).
Proof.
  revert w. induction l as [|t l IH]; intros w H; [done|]. apply IH. unfold initialize_transfer.
  destruct (state t); [by destruct (_ <? _)| |done]. destruct (bool_decide _); [|done]. unfold calm. simpl.
  unfold handle_pending_upgrade. destruct (image_status e) as [s|]; [destruct (streq s "Active")|]; by apply calm_set.
Qed.

Lemma calm_complete e path w : calm w -> calm (TransferCompleteEvent e path w).
Proof. unfold calm. by rewrite complete_objs. Qed.

Lemma calm_act a w : calm w -> calm (act a w).
Proof.
  intros H. destruct a as [b e g r|b e g r|ev|e|e g n|ok path|e]; cbn [act].
  - destruct b; [|done]. unfold record_reply, Device_Download, DoDownload, start_timeout. cbn [fst snd].
    pose proof (calm_AddTransfer e g true r (-1) w H). by destruct (_ =? 0).
  - destruct b; [|done]. unfold record_reply, Device_Upload, DoUpload, start_timeout. cbn [fst snd].
    pose proof (calm_AddTransfer e g false (upload_request r) (-1) w H). by destruct (_ =? 0).
  - done.
  - unfold dispatch. destruct (inbox w) as [|n l]; [done|]. destruct (Subscriptions.deliver _ _) as [hs|]; [|done].
    assert (H1 : calm (with_inbox l w)) by done. revert H1. generalize (with_inbox l w).
    induction hs as [|x hs IH]; intros w1 H1; [done|]. apply IH. unfold TransferNotification.
    destruct n.2; try done. by apply calm_complete.
  - unfold timer_fires. destruct (armed _ _) as [h|]; [|done]. set (w1 := with_engine _ w).
    assert (H1 : calm w1) by done. unfold run_handler. destruct (Nat.eqb h _).
    + unfold TransferTimedOut. destruct (get_ok e); [|done]. simpl. destruct (List.find _ _); [|done].
      apply calm_complete. destruct (bool_decide _); [by apply calm_set|done].
    + destruct (Nat.eqb h _).
      * unfold RestartTransfer, start_timeout. destruct (streq n ""); [done|].
        destruct (amxb_get e n w1) as [t|]; [|done]. cbn [fst].
        pose proof (calm_AddTransfer e g (isDownload t) (request_of t) (index t) w1 H1). by destruct (_ =? 0).
      * destruct (Nat.eqb h _); [by apply calm_complete|done].
  - unfold TransferDoneAcknowledged. destruct ok; [|done]. by destruct (find_path path w).
  - unfold restart, UpDownloadInitialize. destruct (get_ok e); [|done]. by apply calm_fold.
Qed.

Lemma calm_run l : calm (run l (@start_world T ET)).
Proof. by apply (run_invariant_all act calm); [intros a w; apply calm_act|]. Qed.

Lemma registered_watched last p w :
  tidy last (subs w) -> registered p w = true <-> watched p (subs w).
Proof.
  intros H. unfold registered, watched. rewrite (Subscriptions.inv_bus _ (td_inv _ _ H)).
  induction (Subscriptions.slist (subs w)) as [|x l IH]; [split; [done|by intros ?%elem_of_nil]|].
  simpl. rewrite orb_true_iff, IH, streq_true, elem_of_cons. naive_solver.
Qed.

(** What the plugin makes of the failed image of the transfer [t] *)
Definition failed_update (log : option string) : update :=
  {| u_status := Some Finished; u_start := None; u_complete := Some UNKNOWN_TIME;
     u_fault := Some (firmware_fault (default ""%string log),
                      getFaultString (s32 (firmware_fault (default ""%string log)))) |}.

Lemma obj_at_self p t : wf p -> t ∈ objs p -> obj_at (addr t) p = Some t.
Proof.
  intros Hw Ht. unfold obj_at. destruct (List.find _ _) as [t0|] eqn:E.
  - apply find_some in E as [Ht0 E]. apply Nat.eqb_eq in E. rewrite <- list_elem_of_In in Ht0. f_equal.
    by apply (wf_same_addr p).
  - rewrite list_elem_of_In in Ht. pose proof (find_none _ _ E _ Ht) as Hx. simpl in Hx. by rewrite Nat.eqb_refl in Hx.
Qed.

Lemma failed_image_event p t s log :
  wf p -> t ∈ objs p -> fw_subs p = [addr t] -> firmware_failed s = true ->
  AcsTransfer.step (FirmwareChanged (Some s) log) p = with_fw_subs [] (trans_apply t (failed_update log) p).
Proof.
  intros Hw Ht Hfw Hs. cbn [AcsTransfer.step]. unfold firmware_changed. rewrite Hfw. cbn [foldl]. rewrite Hfw.
  simpl existsb. rewrite Nat.eqb_refl. cbn [orb]. unfold firmwareimage_notification. rewrite Hs.
  unfold update_transfer_obj. rewrite (obj_at_self p t) by done. simpl. by rewrite Hfw; simpl; rewrite Nat.eqb_refl.
Qed.

(** A failure the image service announces reaches the ACS.  When the service
    reports that the download, the validation, the installation or the activation
    failed, the transfer that waits for it is [Finished] with the fault of the
    failure -- 9012 for a refused authentication, 9013 for an unsupported
    protocol, 9010 otherwise -- the plugin stops watching the image, and the
    notification makes the adapter send exactly one TransferComplete with that
    fault and the unknown completion time. *)
Theorem firmware_failure_reaches_acs (l1 l2 : list action) (e0 e : env) (t : transfer) (s : string)
    (log : option string)
    (Ha : Forall answered l1) (Hf : Forall faithful l2)
    (Hv : Forall valid_key (concat (map keys_of (l1 ++ l2)))) (Hn : NoDup (concat (map keys_of (l1 ++ l2))))
    (Hacc : forall n, accepts n = true) (He : env_faithful e /\ get_ok e = true) (Hs : firmware_failed s = true) :
  let w := run l2 (act (Restart e0) (run l1 (@start_world T ET))) in
  t ∈ objs (pl w) -> state t <> Finished -> fw_subs (pl w) = [addr t] ->
  registered (entry_path (index t)) w = true -> inbox w = [] ->
  let w' := run [PluginEvent (FirmwareChanged (Some s) log); Dispatch e] w in
  fw_subs (pl w') = [] /\
  exists tc, sent w' = sent w ++ [tc] /\ tc_key tc = commandKey t /\
    tc_faultCode tc = firmware_fault (default "" log)%string /\ tc_complete tc = UNKNOWN_TIME.
Proof.
  intros w Ht Hst Hfw Hreg Hin. destruct He as [(Hset & Hun & Htc) Hg].
  assert (Hc : calm w).
  { apply (run_invariant_all act calm); [intros a x; apply calm_act|]. apply calm_act, calm_run. }
  assert (Ho : once None (length (sent (run l1 (@start_world T ET)))) (concat (map keys_of (l1 ++ l2))) w).
  { rewrite map_app, concat_app in *. apply Forall_app in Hv as [Hv1 Hv2]. apply once_run; try done.
    apply once_restart, (ud_inv_run [] l1 start_world inv_start); try done. by apply NoDup_app in Hn as (? & _). }
  clearbody w. assert (Hw : wf (pl w)) by apply Ho.
  set (u := failed_update log).
  set (w1 := plugin_event (FirmwareChanged (Some s) log) w).
  pose proof (failed_image_event (pl w) t s log Hw Ht Hfw Hs) as E1. fold u in E1.
  assert (Hobjs : objs (pl w1) = alter (addr t) (write u) (objs (pl w))).
  { unfold w1, plugin_event. rewrite E1. simpl. by rewrite Hacc. }
  assert (Hinbox : inbox w1 = [(index t, Finished)]).
  { unfold w1, plugin_event. rewrite E1. simpl. rewrite Hacc, Hin, Hc. simpl.
    rewrite bool_decide_eq_true_2 by congruence. simpl.
    change (registered (entry_path (index t)) (with_pl (with_fw_subs [] (trans_apply t u (pl w))) w))
      with (registered (entry_path (index t)) w). by rewrite Hreg. }
  assert (Hw1 : wf (pl w1)) by (by apply (quiet_plugin_event _ w)).
  unfold run. cbn [run_steps foldl act]. fold w1. unfold dispatch. rewrite Hinbox.
  assert (Hwat : watched (entry_path (index t)) (subs w)).
  { eapply registered_watched; [apply Ho|done]. }
  cbn [fst]. change (subs (with_inbox [] w1)) with (subs w).
  destruct (tidy_deliver _ _ (index t) (on_tidy _ _ _ _ Ho)) as [E|(h & -> & _)].
  { exfalso. pose proof Hwat as (x & Ex & Hx)%list_elem_of_fmap. rewrite Ex in E.
    by rewrite (Subscriptions.deliver_watched _ _ (td_inv _ _ (on_tidy _ _ _ _ Ho)) Hx) in E. }
  cbn [foldl]. unfold TransferNotification. cbn [fst snd].
  rewrite TransferCompleteEvent_eq by done. unfold amxb_get. rewrite Hg.
  assert (Hself : write u t ∈ objs (pl (with_inbox [] w1))).
  { change (write u t ∈ objs (pl w1)). rewrite Hobjs. by apply alter_self. }
  change (index t) with (index (write u t)). rewrite (find_path_index (with_inbox [] w1) (write u t)) by done.
  split.
  - unfold completed, w1, plugin_event. by rewrite E1.
  - exists (BuildTransferCompleteResponse (write u t) (entry_path (index (write u t)))). by split_and!.
Qed.

End Firmware.

End UpDownloadFirmware.
