(* ===== verification/TransferExamples.v ===== *)
(** * TransferExamples: concrete transfers

    The theorems on file transfers at a concrete adapter: the timers are those of
    [Timer], an object path is its own path, the hash is an injective one, the
    fault codes are those of TR-069; [find_by_key] is the first instance with the
    key, [split_word] separates at blanks, and every transaction is accepted. *)

From Stdlib Require Import ZArith Lia Ascii.
From stdpp Require Import base list strings pretty countable.
From S2P Require Import Prelude CString Timer Subscriptions EngineTimers AcsTransfer AcsTransferFacts.
From S2P Require Import UpDownload UpDownloadFacts UpDownloadSpec UpDownloadOnce UpDownloadFirmware.

Module TransferExamples.
Import CString AcsTransfer AcsTransferFacts UpDownload UpDownloadFacts UpDownloadOnce UpDownloadFirmware.
Import (hints) Cwmpd.

#[local] Instance some_library : library := {
  accepts _ := true;
  find_by_key k l := List.find (fun t => streq (commandKey t) k) l;
  split_word s := separate (strtok " " s []);
  is_numeric t := negb (bool_decide (t = [])) && forallb digit_char t;
}.

#[local] Instance some_adapter : adapter_library := {
  object_of p := p;
  param_of _ := ""%string;
  hash s := Z.pos (encode s);
  var_int32 z := z;
  DM_ENG_REQUEST_DENIED := 9001;
  DM_ENG_INVALID_ARGUMENTS := 9003;
  DM_ENG_INVALID_PARAMETER_NAME := 9005;
  DM_ENG_DOWNLOAD_FAILURE := 9010;
  DM_ENG_UPLOAD_FAILURE := 9011;
  DM_ENG_INTERNAL_ERROR := 9002;
}.

#[local] Instance some_adapter_laws : AdapterLaws.
Proof.
  constructor; [done| |done|done]. intros i j H. apply entry_path_inj. unfold uid in H. cbn [hash some_adapter] in H.
  apply Pos2Z.inj, (inj encode) in H. by apply append_inj_r in H.
Qed.

Definition plugin_env : AcsTransfer.env :=
  {| now := 100; bus_ok := true; subscribe_ok := true; call_ok := true; async_ok := true; timer_ok := true;
     start_ok := true; alloc_ok := true; ftx_ok := true; proc_ok := true |}.

Definition good : env :=
  {| e_now := 100; get_ok := true; set_ok := true; add_ok := true; rpc_ok := true; rpc_lost := false;
     unsub_ok := true; tcs_ok := true;
     e_sub := {| Subscriptions.info_ok := true; Subscriptions.sub_ok := true; Subscriptions.subscribe_ok := true |};
     e_plugin := plugin_env; image_status := Some "Active"%string |}.

Definition request_for (key fileType : string) : request :=
  {| rq_key := key; rq_fileType := Some fileType; rq_url := Some "http://acs/image"%string;
     rq_username := Some "user"%string; rq_password := Some "secret"%string; rq_fileSize := 1000;
     rq_target := Some ""%string; rq_delay := 0; rq_success := Some ""%string; rq_failure := Some ""%string |}.

(** A firmware download, an upload of a file type that the plugin does not
    serve, and a download of a configuration. *)
Definition firmware_download : action := Download true good no_gaps (request_for "fw" FIRMWARE).
Definition odd_upload : action := Upload true good no_gaps (request_for "odd" "7 Something else").
Definition config_download : action := Download true good no_gaps (request_for "conf" "3 Vendor Configuration File").

(** The file transfer library reports the end of the request 1. *)
Definition conf_done : action := PluginEvent (RequestDone plugin_env 1 0 100 110 None).

Notation begin := (@start_world Timer.timer_world Cwmpd.cwmpd_timers).

Definition some_transfer : transfer :=
  hd {| addr := 0; index := 0; initiator := ""; commandKey := ""; isDownload := true; url := None; fileType := None;
        state := Initial; fileSize := 0; targetFileName := None; saveFileName := None; username := None;
        password := None; startTime := 0; completeTime := 0; faultCode := 0; faultString := None;
        successURL := None; failureURL := None; subscriptionId := 0 |}
     (objs (AcsTransfer.add_instance (values_of good true (request_for "fw" FIRMWARE)) AcsTransfer.initial).1).

Definition first_transfer (w : @world Timer.timer_world) : transfer := hd some_transfer (objs (pl w)).

(** A firmware download whose timer has expired: the image service works on it. *)
Definition firmware_under_way : list action := [firmware_download; PluginEvent (TimerExpired plugin_env 1)].

Ltac concrete := vm_compute; reflexivity.

Ltac a_member := apply (list_elem_of_lookup_2 _ 0); concrete.

Lemma not_a_path (n : string) : head (cs n) <> Some "M"%char -> ~ is_path n.
Proof. intros H [i ->]. done. Qed.

Ltac keys := apply (Forall_cons_2 _ _ _); [split; [done|by apply not_a_path]|]; try apply Forall_nil_2.

(** An upload nobody serves is reported when its timer expires. *)
Lemma transfer_never_forgotten_witness :
  let w := run [odd_upload] begin in
  exists names, (length names <= 2)%nat /\ reported "odd" (run (map (TimerFires good no_gaps) names) w).
Proof.
  apply (UpDownloadSpec.transfer_never_forgotten [odd_upload] "odd" good).
  - repeat constructor.
  - keys.
  - apply (bool_decide_unpack _). concrete.
  - done.
  - a_member.
  - exists (first_transfer (run [odd_upload] begin)). split; [a_member|concrete].
Defined.

(** ... as a success. *)
Lemma timeout_of_initial_reports_success_witness :
  let w := run [odd_upload] begin in
  let t := first_transfer w in
  let w' := timer_fires good no_gaps (commandKey t) w in
  commandKey t = "odd"%string /\
  (exists tc, sent w' = sent w ++ [tc] /\ tc_key tc = commandKey t /\ tc_faultCode tc = 0) /\ t ∈ objs (pl w').
Proof.
  split; [concrete|].
  apply (UpDownloadSpec.timeout_of_initial_reports_success [odd_upload] (first_transfer (run [odd_upload] begin)) good no_gaps).
  - repeat constructor.
  - keys.
  - apply (bool_decide_unpack _). concrete.
  - done.
  - a_member.
  - concrete.
  - vm_compute. discriminate.
Defined.

(** A download that is finished when its timer expires *)
Lemma reported_at_most_once_witness :
  let w := run [config_download; conf_done; TimerFires good no_gaps "conf"; Dispatch good] (act (Restart good) begin) in
  length (sent w) = 1%nat /\ NoDup (map tc_key (drop 0 (sent w))).
Proof.
  split; [concrete|].
  apply (UpDownloadOnce.reported_at_most_once [] [config_download; conf_done; TimerFires good no_gaps "conf"; Dispatch good] good).
  - constructor.
  - repeat constructor.
  - keys.
  - apply (bool_decide_unpack _). concrete.
Defined.

(** Different keys are necessary: when the ACS uses a key again, the timer of the
    second request finds the first instance by its key, which is reported a second
    time, with the fault of a timeout. *)
Example reused_key_reported_twice :
  map (fun tc => (tc_key tc, tc_faultCode tc))
    (sent (run [config_download; conf_done; Dispatch good; config_download; TimerFires good no_gaps "conf"]
      (act (Restart good) begin))) =
    [("conf"%string, 0); ("conf"%string, 9010)].
Proof. concrete. Qed.

Lemma pending_firmware_resolved_witness :
  let w := run firmware_under_way begin in
  let t := first_transfer w in
  commandKey t = "fw"%string /\
  exists tc, tc ∈ sent (run [Restart good; TimerFires good no_gaps (entry_path (index t))] w) /\
    tc_key tc = commandKey t /\ tc_faultCode tc = 0 /\ tc_complete tc = UNKNOWN_TIME.
Proof.
  split; [concrete|].
  apply (UpDownloadFirmware.pending_firmware_resolved firmware_under_way
           (first_transfer (run firmware_under_way begin)) good good no_gaps).
  - repeat constructor.
  - keys.
  - apply (bool_decide_unpack _). concrete.
  - done.
  - done.
  - a_member.
  - concrete.
Defined.

Lemma firmware_failure_reaches_acs_witness :
  let w := run firmware_under_way (act (Restart good) begin) in
  let w' := run [PluginEvent (FirmwareChanged (Some "DownloadFailed"%string) (Some "(67) Error"%string)); Dispatch good] w in
  fw_subs (pl w') = [] /\
  exists tc, sent w' = sent w ++ [tc] /\ tc_key tc = commandKey (first_transfer w) /\ tc_faultCode tc = 9012 /\
    tc_complete tc = UNKNOWN_TIME.
Proof.
  apply (UpDownloadFirmware.firmware_failure_reaches_acs [] firmware_under_way good good
           (first_transfer (run firmware_under_way (act (Restart good) begin)))
           "DownloadFailed" (Some "(67) Error"%string)).
  - constructor.
  - repeat constructor.
  - keys.
  - apply (bool_decide_unpack _). concrete.
  - done.
  - done.
  - done.
  - a_member.
  - vm_compute. discriminate.
  - concrete.
  - concrete.
  - concrete.
Defined.

Definition firmware_args (delay : Z) : args :=
  {| a_index := 1; a_isDownload := true; a_delay := delay; a_fileType := Some FIRMWARE; a_url := None;
     a_username := None; a_password := None; a_target := None; a_key := "fw" |}.

(** 4294968 seconds become 704 milliseconds. *)
Lemma firmware_delay_witness :
  let w := (AcsTransfer.add_instance (values_of good true (request_for "fw" FIRMWARE)) AcsTransfer.initial).1 in
  millis 4294968 = 704 /\
  exists ms, timers (AcsTransfer.AddTransfer plugin_env (firmware_args 4294968) w).1.1 =
               timers w ++ [{| tm_id := 1; tm_ms := ms; tm_task := DownloadTimer 0 |}] /\
    (ms = 1000 * 4294968 <-> 4294968 <= 4294967) /\ 0 <= ms <= 1000 * 4294968 /\
    (AcsTransfer.AddTransfer plugin_env (firmware_args 4294968) w).2 = true /\
    (accepts (ntrans w) = true -> 4294968 <= 1 -> wf w ->
     exists t', get_transfer_obj_by_index 1 (AcsTransfer.AddTransfer plugin_env (firmware_args 4294968) w).1.1 = Some t'
       /\ state t' = Applying).
Proof.
  split; [concrete|].
  apply (AcsTransferFacts.firmware_delay plugin_env (firmware_args 4294968) some_transfer).
  - done.
  - cbn. lia.
  - done.
  - concrete.
Defined.

(** The twelfth configuration file is taken for the first. *)
Lemma vendor_index_witness :
  vendorfile_get_index (Some "3 Vendor Configuration File 12"%string) = 1.
Proof.
  apply (AcsTransferFacts.vendor_index (cs "12")) with (p := "3 Vendor Configuration File "%string).
  - intros ws H. cbn [split_word some_library]. f_equal. apply strtok_join.
    + apply (Forall_impl _ _ _ H). intros t [Ht _] Hin.
      rewrite forallb_forall in Ht. specialize (Ht " "%char). rewrite <- list_elem_of_In in Ht. by apply Ht in Hin.
    + apply (Forall_impl _ _ _ H). by intros t [_ Ht].
  - done.
  - done.
  - by right.
Defined.

End TransferExamples.
