(* ===== verification/TransferTimers.v ===== *)
(** * TransferTimers: the session timer beside the timers of the transfers
    ([DM_AmxUpDownload.c], [cwmpd_client.c] and [cwmpd_timer.c])

    The daemon and the device adapter that it loads share one list of named
    timers.  This file puts the client of [SessionTimer] and the transfers of
    [UpDownload] into one system whose timers are that list, shows that its steps
    are steps of [SessionTimer] as long as no CommandKey is the name of a timer of
    the client, and what a CommandKey does that is. *)

From Stdlib Require Import ZArith Lia Ascii.
From stdpp Require Import base list gmap strings relations pretty.
From S2P Require Import Prelude CString CookieJar Timer Client Subscriptions EngineTimers AcsTransfer AcsTransferFacts.
From S2P Require Import UpDownload UpDownloadFacts TransferExamples SessionTimer.

Module TransferTimers.
Import CString CookieJar AcsTransfer AcsTransferFacts UpDownload UpDownloadFacts.
Import (hints) Cwmpd.

(** ** A key that names another timer *)

Section Key.

Context {L : library} {A : adapter_library}.
Context {T : Type} {ET : EngineTimers T} {LT : EngineTimersLaws T}.

Implicit Types w : @UpDownload.world T.

Lemma engine_request e g d r w : AcsTransferFacts.wf (pl w) -> engine (AddTransfer e g d r (-1) w).1 = engine w.
Proof.
  intros Hw. rewrite AddTransfer_new by done. destruct (add_ok e); [|done]. pose proof (wf_last _ Hw).
  etrans; [apply quiet_engine, quiet_AddTransfer; [lia|by apply matches_added]|done].
Qed.

(** A CommandKey may be the name of a timer that runs already, such as
    the session timer of the client.  A Download or Upload with such a key that
    is accepted leaves the timer with its handler: the transfer gets no timeout
    of its own, and an expiry of the timer reports nothing of it; the end of the
    transfer stops the timer of the other. *)
Theorem command_key_takes_timer (e : env) (g : gaps) (r : UpDownload.request) w (h : nat) (x : @UpDownload.world T * Z) :
  AcsTransferFacts.wf (pl w) -> timers_ok (engine w) -> armed (engine w) (rq_key r) = Some h ->
  h <> TRANSFER_TIMED_OUT -> h <> RESTART_TRANSFER -> h <> TRANSFER_COMPLETE_EVENT ->
  x = DoDownload e g r w \/ x = DoUpload e g r w -> x.2 = 0 ->
  armed (engine x.1) (rq_key r) = Some h /\
  (forall e' g', sent (timer_fires e' g' (rq_key r) x.1) = sent x.1 /\
     armed (engine (timer_fires e' g' (rq_key r) x.1)) (rq_key r) = None) /\
  (forall e' path t, amxb_get e' path x.1 = Some t -> commandKey t = rq_key r ->
     armed (engine (TransferCompleteEvent e' path x.1)) (rq_key r) = None).
Proof.
  intros Hw Ht E H1 H2 H3 Hx H0.
  assert (Hn : streq (rq_key r) "" = false).
  { apply streq_false. intros Ek. by rewrite Ek, armed_nameless in E. }
  assert (He : exists d, engine x.1 = start (rq_key r) (s32 d) TRANSFER_TIMED_OUT (engine w)).
  { exists (u32 (rq_delay r + 3600)). destruct Hx as [-> | ->]; unfold DoDownload, DoUpload, start_timeout in *;
      cbn [fst snd] in *; rewrite H0; cbn [Z.eqb timerStart with_engine engine]; by rewrite engine_request. }
  destruct He as [d He].
  assert (Ho : timers_ok (engine x.1)) by (rewrite He; by apply ok_start).
  assert (Hh : armed (engine x.1) (rq_key r) = Some h) by (by rewrite He, armed_start, Hn, streq_refl, E by done).
  split; [done|]. split.
  - intros e' g'. unfold timer_fires. rewrite Hh. unfold run_handler. apply Nat.eqb_neq in H1, H2, H3. rewrite H1, H2, H3.
    split; [done|]. cbn [engine with_engine]. by rewrite armed_expire, streq_refl.
  - intros e' path t Hg Hk. unfold TransferCompleteEvent. rewrite Hg.
    destruct (tcs_ok e'); cbn; by rewrite armed_stop, Hk, streq_refl.
Qed.

End Key.

Section System.

Context {L : library} {A : adapter_library}.

Notation tworld := (@UpDownload.world Timer.timer_world).
Implicit Types w : tworld.

(** ** Names *)

(** A name that is no timer of the client *)
Definition free_name (n : string) : Prop := n <> SessionTimer.SESSION_TIMER /\ n <> SessionTimer.AUTH_TIMER.

(** No transfer bears the name of a timer of the client. *)
Record apart w : Prop := {
  apart_wf : AcsTransferFacts.wf (pl w);
  apart_keys : forall t, t ∈ objs (pl w) -> free_name (commandKey t);
}.

Lemma free_path i : free_name (entry_path i).
Proof. by split. Qed.

Lemma apart_ext w w' : ext_by ident (pl w) (pl w') -> (AcsTransferFacts.wf (pl w) -> AcsTransferFacts.wf (pl w')) -> apart w -> apart w'.
Proof.
  intros He Hw [H1 H2]. constructor; [auto|]. intros t Ht.
  destruct (ext_elem _ _ _ _ He Ht) as (t0 & Ht0 & [= _ _ <- _ _]). by apply H2.
Qed.

Lemma apart_quiet w w' : quiet w w' -> apart w -> apart w'.
Proof. intros [He Hw _ _ _]. by apply apart_ext. Qed.

(** ** What the adapter does with the timers *)

Definition foreign : relation Timer.timer_world :=
  rtc (fun t t' => exists o, SessionTimer.others_op o /\ t' = Timer.run_op o t).

#[export] Instance foreign_preorder : PreOrder foreign.
Proof. apply rtc_po. Qed.

Lemma foreign_once o t : SessionTimer.others_op o -> foreign t (Timer.run_op o t).
Proof. intros H. apply rtc_once. by exists o. Qed.

(** A step of the adapter that keeps apart and does only that *)
Definition leaves w w' : Prop := apart w -> apart w' /\ foreign (engine w) (engine w').

#[export] Instance leaves_preorder : PreOrder leaves.
Proof.
  split; [by intros w H|]. intros w1 w2 w3 H1 H2 H. destruct (H1 H) as [Ha Hf]. destruct (H2 Ha) as [Hb Hg].
  split; [done|]. by transitivity (engine w2).
Qed.

Lemma leaves_quiet w w' : quiet w w' -> leaves w w'.
Proof. intros Hq Ha. split; [by eapply apart_quiet|]. by rewrite (quiet_engine _ _ Hq). Qed.

Lemma leaves_start n d h w :
  free_name n -> h <> SessionTimer.SESSION_TIMED_OUT -> h <> SessionTimer.AUTH_RETRY -> leaves w (timerStart n d h w).
Proof.
  intros [H1 H2] H3 H4 Ha. split; [by destruct Ha|].
  apply (foreign_once (Timer.OpStart true (Some n) (s32 d) 0 (Some h))). split_and!; [split|..]; congruence.
Qed.

Lemma leaves_stop n w : free_name n -> leaves w (timerStop n w).
Proof.
  intros [H1 H2] Ha. split; [by destruct Ha|]. apply (foreign_once (Timer.OpStop (Some n))). split; congruence.
Qed.

Lemma leaves_complete e path w : leaves w (TransferCompleteEvent e path w).
Proof.
  intros Ha. unfold TransferCompleteEvent. destruct (amxb_get e path w) as [t|] eqn:E; [|done].
  apply amxb_get_elem in E. apply (apart_keys _ Ha) in E.
  destruct (leaves_stop (commandKey t) w E Ha) as [[H1 H2] H3]. destruct (tcs_ok e); (split; [by constructor|done]).
Qed.

Lemma leaves_timed_out e k w : leaves w (TransferTimedOut e k w).
Proof.
  destruct (get_ok e) eqn:E; [|unfold TransferTimedOut; by rewrite E].
  rewrite TransferTimedOut_eq by done. destruct (List.find _ _) as [t|]; [|done].
  etrans; [apply leaves_quiet, (quiet_timed_out e t)|apply leaves_complete].
Qed.

Lemma leaves_timeout k d x w : free_name k -> leaves w x.1 -> leaves w (start_timeout k d x).1.
Proof.
  intros Hk Hx. unfold start_timeout. cbn [fst]. destruct (x.2 =? 0); [|done].
  etrans; [exact Hx|by apply leaves_start].
Qed.

Lemma leaves_restart_transfer e g path w : leaves w (RestartTransfer e g path w).
Proof.
  intros Ha. unfold RestartTransfer. destruct (streq path ""); [done|].
  destruct (amxb_get e path w) as [t|] eqn:E; [|done]. apply amxb_get_elem in E.
  apply leaves_timeout; [by apply (apart_keys _ Ha)| |done]. apply leaves_quiet, quiet_again; [apply Ha|done].
Qed.

Lemma leaves_handler e g h n w : leaves w (run_handler e g h n w).
Proof.
  unfold run_handler. destruct (Nat.eqb h TRANSFER_TIMED_OUT); [apply leaves_timed_out|].
  destruct (Nat.eqb h RESTART_TRANSFER); [apply leaves_restart_transfer|].
  destruct (Nat.eqb h TRANSFER_COMPLETE_EVENT); [apply leaves_complete|done].
Qed.

Lemma leaves_dispatch e w : leaves w (dispatch e w).
Proof.
  unfold dispatch. destruct (inbox w) as [|n l]; [done|].
  transitivity (with_inbox l w); [by apply leaves_quiet|].
  destruct (Subscriptions.deliver _ _) as [hs|].
  - generalize (with_inbox l w). induction hs as [|x hs IH]; intros w1; simpl; [done|].
    etrans; [|apply IH]. unfold TransferNotification. destruct n.2; [done..|apply leaves_complete].
  - apply leaves_quiet. constructor; try done. apply wf_fault.
Qed.

(** A request with a free name *)
Lemma leaves_request e g d r w : free_name (rq_key r) -> leaves w (AddTransfer e g d r (-1) w).1.
Proof.
  intros Hk Ha. pose proof (apart_wf _ Ha) as Hw. rewrite AddTransfer_new by done. destruct (add_ok e); [|done].
  assert (H1 : apart (added e d r w)).
  { constructor; [by apply wf_added|]. simpl. intros t [Ht| ->%list_elem_of_singleton]%elem_of_app; [by apply Ha|done]. }
  pose proof (wf_last _ Hw) as Hl.
  assert (Hq : quiet (added e d r w) (AddTransfer e g d r (last_index (pl w) + 1) (added e d r w)).1).
  { apply quiet_AddTransfer; [lia|by apply matches_added]. }
  destruct (leaves_quiet _ _ Hq H1) as [H2 H3]. by split.
Qed.

(** ** The system *)

Context {J : Type} `{!CookieStore J}.
Context (b64_encode : cstr -> nat -> option cstr).
Context (digest_response : cstr -> cstr -> option cstr -> cstr -> cstr -> option cstr).
Context (translate : bool -> cstr -> cstr) (check_namespace : cstr -> cstr) (env_tag : cstr).
Context (is_ipaddr : cstr -> bool) (csv_fields : cstr -> list cstr).

Notation client_state := (Client.client (J := J)).
Notation client_step := (Client.step b64_encode digest_response translate check_namespace env_tag is_ipaddr csv_fields).
Notation client_start := (Client.client_startSession b64_encode digest_response is_ipaddr csv_fields).
Notation step := (SessionTimer.step b64_encode digest_response translate check_namespace env_tag is_ipaddr csv_fields).

Record system := { client : client_state; transfers : tworld }.

(** The client and the timers of the system *)
Definition view (s : system) : SessionTimer.world (J := J) :=
  {| SessionTimer.client := client s; SessionTimer.timers := engine (transfers s) |}.

Definition with_view (v : SessionTimer.world (J := J)) (s : system) : system :=
  {| client := SessionTimer.client v; transfers := with_engine (SessionTimer.timers v) (transfers s) |}.

(** The daemon starts: [DM_ENG_Device_UpDownloadInitialize] on what the data
    model has kept of the transfers *)
Definition started (e : env) (w : tworld) : system := {| client := Client.initial; transfers := restart e w |}.

(** The actions of the adapter but the expiry of a timer and its restart *)
Definition request (a : action) : bool :=
  match a with TimerFires _ _ _ | Restart _ => false | _ => true end.

Definition client_handler (h : nat) : bool :=
  Nat.eqb h SessionTimer.SESSION_TIMED_OUT || Nat.eqb h SessionTimer.AUTH_RETRY.

Inductive sys_step (s : system) : system -> Prop :=
| sys_client e ok c :
    SessionTimer.timer_event e = false -> client_step e (client s) = Some c ->
    sys_step s (with_view (SessionTimer.client_reaches ok c (view s)) s)
| sys_client_timer n h ok k x v :
    armed (engine (transfers s)) n = Some h -> client_handler h = true ->
    Timer.timer_find (Some n) (Timer.tw_list (engine (transfers s))) = Some x ->
    SessionTimer.fire ok k (Timer.ti_timer x) (view s) = Some v ->
    sys_step s (with_view v s)
| sys_adapter_timer n h e g :
    armed (engine (transfers s)) n = Some h -> client_handler h = false ->
    sys_step s {| client := client s; transfers := timer_fires e g n (transfers s) |}
| sys_transfers a :
    request a = true -> Forall free_name (keys_of a) ->
    sys_step s {| client := client s; transfers := act a (transfers s) |}.

(** The state in which [view] is a state of [SessionTimer] *)
Record sound (s : system) : Prop := {
  sound_apart : apart (transfers s);
  sound_timers : Timer.wf (engine (transfers s));
}.

Lemma leaves_act a w : request a = true -> Forall free_name (keys_of a) -> leaves w (act a w).
Proof.
  intros Hr Hk. destruct a as [b e g r|b e g r|ev|e|e g n|ok path|e]; cbn [act keys_of] in *; try done.
  - rewrite Forall_singleton in Hk. destruct b; [|by intros [? ?]].
    transitivity (DoDownload e g r w).1; [by apply leaves_timeout, leaves_request|]. by intros [? ?].
  - rewrite Forall_singleton in Hk. destruct b; [|by intros [? ?]].
    transitivity (DoUpload e g r w).1; [by apply leaves_timeout, (leaves_request e g false (upload_request r))|]. by intros [? ?].
  - apply leaves_quiet, quiet_plugin_event.
  - apply leaves_dispatch.
  - unfold TransferDoneAcknowledged. destruct ok; [|done]. destruct (find_path path w); [|done].
    apply leaves_quiet, quiet_plugin_event.
Qed.

Lemma foreign_steps c t t' :
  foreign t t' ->
  rtc step {| SessionTimer.client := c; SessionTimer.timers := t |} {| SessionTimer.client := c; SessionTimer.timers := t' |}.
Proof.
  induction 1 as [t|t t1 t2 (o & Ho & ->) _ IH]; [done|]. eapply rtc_l; [|exact IH].
  by apply (SessionTimer.step_other _ _ _ _ _ _ _ {| SessionTimer.client := c; SessionTimer.timers := t |} o).
Qed.

(** The item of an armed name *)
Lemma armed_item t n h :
  Timer.wf t -> armed t n = Some h ->
  exists x, Timer.timer_find (Some n) (Timer.tw_list t) = Some x /\ Timer.ti_handler x = Some h /\ x ∈ Timer.tw_list t.
Proof.
  intros Hw E. rewrite Cwmpd.armed_view in E. destruct (Timer.timer_find (Some n) (Timer.tw_list t)) as [x|] eqn:Ex.
  - apply Timer.timer_find_name in Ex as Hx. destruct Hx as [Hx Hn]. exists x. split; [done|].
    rewrite (Timer.view_lookup n _ x (Timer.wf_names _ Hw) Hx Hn) in E. simpl in E.
    destruct (Timer.ti_handler x); by simplify_eq.
  - destruct (decide (n = ""%string)) as [->|Hn]; [by rewrite Cwmpd.view_nameless in E|].
    by rewrite (Timer.view_lookup_None n _ (Timer.timer_find_fresh n _ Hn Ex)) in E.
Qed.

(** An expiry whose handler is not the client's *)
Lemma fire_foreign ok k x h (s : system) :
  Timer.wf (engine (transfers s)) -> x ∈ Timer.tw_list (engine (transfers s)) -> Timer.ti_handler x = Some h ->
  client_handler h = false ->
  SessionTimer.fire ok k (Timer.ti_timer x) (view s) =
    Some {| SessionTimer.client := client s;
            SessionTimer.timers := Timer.run_op (Timer.OpFire (Timer.ti_timer x)) (engine (transfers s)) |}.
Proof.
  intros Hw Hx Hh [H1 H2]%orb_false_iff. unfold SessionTimer.fire. cbn [SessionTimer.timers SessionTimer.client view].
  rewrite (Timer.find_by_addr_unique _ _ (Timer.wf_timers _ Hw) Hx), Hh. unfold SessionTimer.handle. rewrite H1, H2. simpl. f_equal.
  unfold SessionTimer.client_reaches. cbn [SessionTimer.timers SessionTimer.client]. by rewrite drop_all.
Qed.

Lemma view_with v s : view (with_view v s) = v.
Proof. by destruct v. Qed.

Lemma apart_engine t w : apart w -> apart (with_engine t w).
Proof. by intros [? ?]. Qed.

(** Each step of the system is some of [SessionTimer]. *)
Lemma sys_simulates s s' :
  sys_step s s' -> SessionTimer.inv (view s) -> apart (transfers s) -> rtc step (view s) (view s') /\ apart (transfers s').
Proof.
  intros Hs [[Hw Ho] Hl] Ha. change (Timer.wf (engine (transfers s))) in Hw. destruct Hs as [e ok c He E|n h ok k x v E Eh Ex Ef|n h e g E Eh|a Hr Hk].
  - rewrite view_with. split; [|by apply apart_engine]. apply rtc_once. by apply (SessionTimer.step_client _ _ _ _ _ _ _ (view s) e ok c).
  - rewrite view_with. split; [|by apply apart_engine]. apply rtc_once. by eapply (SessionTimer.step_fire _ _ _ _ _ _ _ (view s)).
  - cbn [transfers view client]. unfold timer_fires. rewrite E.
    destruct (armed_item _ _ _ Hw E) as (x & Ex & Hx & Hin).
    destruct (leaves_handler e g h n (with_engine (expire n (engine (transfers s))) (transfers s))) as [H1 H2];
      [by apply apart_engine|]. split; [|exact H1].
    eapply rtc_l; [apply (SessionTimer.step_fire _ _ _ _ _ _ _ (view s) (Timer.ti_timer x) true true);
      by apply (fire_foreign true true x h)|]. apply foreign_steps.
    assert (Ee : expire n (engine (transfers s)) = Timer.run_op (Timer.OpFire (Timer.ti_timer x)) (engine (transfers s))).
    { cbn [expire Cwmpd.cwmpd_timers]. by rewrite Ex. }
    by rewrite <- Ee.
  - destruct (leaves_act a (transfers s) Hr Hk Ha) as [H1 H2]. split; [|exact H1]. by apply foreign_steps.
Qed.

Lemma sys_simulates_all s s' :
  rtc sys_step s s' -> SessionTimer.inv (view s) -> apart (transfers s) -> rtc step (view s) (view s') /\ apart (transfers s').
Proof.
  induction 1 as [s|s1 s2 s3 H12 _ IH]; intros Hi Ha; [done|].
  destruct (sys_simulates _ _ H12 Hi Ha) as [H1 H2].
  destruct IH as [H3 H4]; [by apply (SessionTimer.inv_reachable _ _ _ _ _ _ _ _ _ H1)|done|].
  split; [by etrans|done].
Qed.

Lemma started_reached e w : apart w -> rtc step SessionTimer.initial (view (started e w)) /\ apart (transfers (started e w)).
Proof.
  intros Ha. unfold view, started, restart, UpDownloadInitialize. cbn [transfers client]. set (w0 := {| pl := pl w |}).
  assert (Ha0 : apart w0) by by destruct Ha.
  assert (H : forall l, (forall t, t ∈ l -> free_name (commandKey t)) ->
    forall w, leaves w (foldl (fun w t => initialize_transfer e t w) w l)).
  { induction l as [|t l IH]; intros Hl w1; simpl; [done|]. etrans; [|apply IH; intros; apply Hl; by right].
    assert (Ht : free_name (commandKey t)) by (apply Hl; by left).
    pose proof (free_path (index t)). unfold initialize_transfer. destruct (state t).
    - destruct (_ <? _); by apply leaves_start.
    - destruct (bool_decide _); [|done]. etrans; [apply leaves_quiet, quiet_pending_upgrade|by apply leaves_start].
    - by apply leaves_start. }
  destruct (get_ok e); cbn [fst]; [|by split; [apply rtc_refl|]]. destruct (H (objs (pl w0)) (apart_keys _ Ha0) w0 Ha0) as [H1 H2].
  split; [by apply foreign_steps|done].
Qed.

(** ** Properties *)

(** C13: refinement.  The daemon with its client, its timers and the transfers
    of the device adapter behaves, for the client and the timers, as the system
    in which every exchange is watched: from its start on, whatever requests the
    ACS makes under other keys than the names of the client's two timers, after
    a session was started with success the engine has been told since that it
    has failed, or the session timer runs and its expiry tells the engine so. *)
Theorem transfers_keep_session_watched (e : env) (w : tworld) (se : Client.start_env) (s0 s : system) (c : client_state) :
  apart w -> rtc sys_step (started e w) s0 -> client_start se (client s0) = (c, 0) ->
  rtc sys_step (with_view (SessionTimer.client_reaches true c (view s0)) s0) s ->
  Client.CloseACSSession false ∈ drop (length (Client.calls c)) (Client.calls (client s)) \/
  exists x t, x ∈ Timer.tw_list (engine (transfers s)) /\ Timer.ti_name x = SessionTimer.SESSION_TIMER /\
    0 < t < 2 ^ 31 /\ SessionTimer.running (Timer.ti_timer x) (engine (transfers s)) = Some (Timer.millis t) /\
    forall ok k, SessionTimer.client <$> SessionTimer.fire ok k (Timer.ti_timer x) (view s) =
      Some (Client.log (Client.CloseACSSession false) (client s)).
Proof.
  intros Ha H0 Hs H. destruct (started_reached e w Ha) as [Hr Ha1].
  assert (Hi : SessionTimer.inv (view (started e w))) by (eapply SessionTimer.inv_reachable; [exact Hr|apply SessionTimer.session_inv_initial]).
  destruct (sys_simulates_all _ _ H0 Hi Ha1) as [H1 Ha2].
  assert (Hi2 : SessionTimer.inv (view s0)) by (by eapply SessionTimer.inv_reachable).
  assert (Hg : SessionTimer.guarded (length (Client.calls c)) (SessionTimer.client_reaches true c (view s0)))
    by by eapply SessionTimer.guarded_start.
  destruct (sys_simulates_all _ _ H) as [H2 _]; [apply Hg|by apply apart_engine|].
  eapply SessionTimer.guarded_reachable in Hg; [|exact H2].
  destruct Hg as [Hi3 _ _ [Hc|(x & t & Hx & Hn & Ht & Hd)]]; [by left|].
  right. exists x, t. do 4 (split; [done|]). intros ok k. by apply SessionTimer.fire_session; [apply Hi3|..].
Qed.

End System.

(** ** Witnesses *)

#[local] Existing Instances TransferExamples.some_library TransferExamples.some_adapter TransferExamples.some_adapter_laws.

Definition ex_world : @UpDownload.world Timer.timer_world :=
  with_engine (SessionTimer.timers SessionTimer.ex_sent) start_world.

Lemma ex_timers_ok : timers_ok (engine ex_world).
Proof.
  replace (engine ex_world) with
    (start SessionTimer.SESSION_TIMER 45 SessionTimer.SESSION_TIMED_OUT
      (start SessionTimer.SESSION_TIMER 45 SessionTimer.SESSION_TIMED_OUT no_timers)) by (vm_compute; reflexivity).
  apply ok_start, ok_start, ok_none.
Qed.

Definition ex_request : UpDownload.request := TransferExamples.request_for "Session-timer" "3 Vendor Configuration File".

Lemma command_key_takes_timer_witness :
  armed (engine ex_world) "Session-timer" = Some SessionTimer.SESSION_TIMED_OUT /\
  (forall e g, sent (timer_fires e g "Session-timer" (DoDownload TransferExamples.good no_gaps ex_request ex_world).1) = []).
Proof.
  split; [vm_compute; reflexivity|].
  destruct (command_key_takes_timer TransferExamples.good no_gaps ex_request ex_world SessionTimer.SESSION_TIMED_OUT
    (DoDownload TransferExamples.good no_gaps ex_request ex_world)) as (_ & H & _).
  - apply wf_plugin_initial.
  - exact ex_timers_ok.
  - vm_compute. reflexivity.
  - discriminate.
  - discriminate.
  - discriminate.
  - left. reflexivity.
  - vm_compute. reflexivity.
  - intros e g. destruct (H e g) as [E _]. etransitivity; [exact E|]. vm_compute. reflexivity.
Defined.

Notation ex_sys_step := (sys_step (J := cookie_jar_t) Client.ex_b64 Client.ex_digest (fun _ s => s) id (cs "<Env")
  Client.ex_is_ip Client.ex_fields).

Definition ex_begin : system (J := cookie_jar_t) := started TransferExamples.good start_world.

Definition ex_session : system := with_view (SessionTimer.client_reaches true Client.ex_started (view ex_begin)) ex_begin.

Definition ex_download : system :=
  {| client := client ex_session; transfers := act TransferExamples.config_download (transfers ex_session) |}.

Lemma ex_downloads : rtc ex_sys_step ex_session ex_download.
Proof. apply rtc_once. apply (sys_transfers _ _ _ _ _ _ _ ex_session); [done|]. by apply Forall_singleton. Qed.

Lemma transfers_keep_session_watched_witness :
  length (Timer.tw_list (engine (transfers ex_download))) = 2%nat /\
  exists x t, x ∈ Timer.tw_list (engine (transfers ex_download)) /\ Timer.ti_name x = SessionTimer.SESSION_TIMER /\
    SessionTimer.running (Timer.ti_timer x) (engine (transfers ex_download)) = Some (Timer.millis t).
Proof.
  split; [vm_compute; reflexivity|].
  destruct (transfers_keep_session_watched Client.ex_b64 Client.ex_digest (fun _ s => s) id (cs "<Env") Client.ex_is_ip
    Client.ex_fields TransferExamples.good start_world Client.ex_start ex_begin ex_download Client.ex_started)
    as [H|(x & t & H1 & H2 & _ & H3 & _)].
  - split; [apply wf_plugin_initial|]. intros t Ht. by apply elem_of_nil in Ht.
  - apply rtc_refl.
  - vm_compute. reflexivity.
  - exact ex_downloads.
  - vm_compute in H. by apply elem_of_nil in H.
  - exists x, t. auto.
Defined.

End TransferTimers.
