(* ===== verification/ConnRequest.v ===== *)
(** * ConnRequest: connection request address and daemon process
    ([src/src/dmdeviceadapter/amx/cwmp_plugin/cwmp_plugin_connection_request.c],
    [cwmp_plugin_intf_queries.c], [cwmp_plugin_service.c],
    [cwmp_plugin_proc.c] and the life cycle in [cwmp_plugin.c])

    NetModel queries tell the plugin the addresses of the WAN interface; the
    preferred one becomes [ConnRequestHost], whose change event assembles the
    ConnectionRequestURL, makes the random path, opens the port in the firewall
    and starts the process cwmpd.  The plugin restarts cwmpd ten seconds after it
    ended.

    [dm] are the parameters of [ManagementServer] the plugin uses, [world] adds
    the file statics, the armed timers, the processes and the firewall.  A
    transaction that changes a parameter with an event handler puts the event in
    [queue]; the event loop dispatches it later. *)

From Stdlib Require Import ZArith Lia Ascii.
From stdpp Require Import base list strings pretty.
From S2P Require Import Prelude CString.

Module ConnRequest.
Import CString.

(** ** Data *)

Definition DEFAULT_CRH : string := "0.0.0.0".
Definition CPE_URL_SIZE : nat := 16.

(** [wan_ip_mode_t] *)
Inductive wan_ip_mode_t := IPv4ONLY | IPv6PREFERRED | IPANY.

#[export] Instance wan_ip_mode_t_eq_dec : EqDecision wan_ip_mode_t.
Proof. solve_decision. Defined.

(** [internal_settings] are the 32-bit parameters of the object
    [InternalSettings], by name. *)
Record dm := {
  ConnRequestHost : string;
  LocalIPAddress : string;
  ConnRequestPort : Z;
  ConnRequestPath : string;
  ConnRequestPathType : string;
  UpdateConnRequestURL : bool;
  ConnectionRequestURL : string;
  ParameterKey : string;
  Interface : string;
  AllowConnectionRequestFromAddress : string;
  PreferredIPVersion : string;
  internal_settings : list (string * Z);
}.

(** The arguments of [set_service] *)
Record service := {
  fw_interface : string;
  fw_port : Z;
  fw_source : string;
  fw_ipversion : Z;
}.

(** The events with a handler; the last two carry the new value. *)
Inductive dm_event :=
| HostChanged
| PathChanged
| PortChanged
| InterfaceChanged (to : option string)
| PreferredIPVersionChanged (to : option string).

#[export] Instance dm_event_eq_dec : EqDecision dm_event.
Proof. solve_decision. Defined.

(** An entry of the interface list of the kernel: [if_text] is the printed
    address, [None] for another family; [if_hw] is the answer of SIOCGIFHWADDR. *)
Record if_item := { if_inet : bool; if_text : option string; if_hw : option (list Z) }.

(** The answers of the system during one callback.  [rand] are the values of
    rand(); [first4] and [first6] are the results NetModel reports while the
    query is opened, if it does. *)
Record env := {
  start_ok : bool;
  ctx_ok : bool;
  fw_ok : bool;
  sock_ok : bool;
  conf_ok : bool;
  if_items : list if_item;
  rand : nat -> Z;
  open4_ok : bool;
  open6_ok : bool;
  first4 : option (option string);
  first6 : option (option string);
}.

(** What the process inherits, and the libraries: the environment variables
    CWMPD_STANDALONE (set and not empty), TR069_URL_PATH and AMXRT_PREFIX_PATH,
    the setting [odl_config], inet_pton for IPv6, and the transactions the data
    model accepts. *)
Class system := {
  standalone : bool;
  TR069_URL_PATH : option string;
  AMXRT_PREFIX_PATH : option string;
  odl_config : string;
  inet_pton6 : string -> bool;
  accepts : nat -> bool;
}.

(** [cwmp_proc_ctx_t]; the callbacks are numbers. *)
Record cwmp_proc_ctx_t := { ctx_proc : option nat; ctx_cb : nat; ctx_clean_cb : option nat }.

(** The statics of [cwmp_plugin_intf_queries.c]: the two queries are open or
    not; [wait_timers] are the armed timers that wait for an IPv6 address, with
    their delays, whether or not [ipv6_timer] points to them. *)
Record interface_state := {
  ipv4address : string;
  ipv6address : string;
  wanipmode : wan_ip_mode_t;
  query_ipv4 : bool;
  query_ipv6 : bool;
  ipv6_timer : option nat;
  wait_timers : list (nat * Z);
}.

(** The handle [cwmpd_proc] of the process with the context of the slot of its
    signal "stop", the processes that run, the command lines of all that were started, the armed restart timers, and the service in the firewall *)
Record daemon := {
  cwmpd_proc : option nat;
  context : option cwmp_proc_ctx_t;
  running : list nat;
  commands : list (list string);
  restart_timers : list nat;
  fw : option service;
}.

Record world := {
  data : dm;
  queue : list dm_event;
  ntrans : nat;
  next : nat;
  intf : interface_state;
  proc : daemon;
  conn_req_path_created : bool;
  cwmpd_start_avoided : bool;
  init_done : bool;
  deferred_init_timer : bool;
  stopped : bool;
}.

(** ** Setters *)

Definition set_host (v : string) (d : dm) : dm :=
  {| ConnRequestHost := v; LocalIPAddress := LocalIPAddress d; ConnRequestPort := ConnRequestPort d;
     ConnRequestPath := ConnRequestPath d; ConnRequestPathType := ConnRequestPathType d;
     UpdateConnRequestURL := UpdateConnRequestURL d; ConnectionRequestURL := ConnectionRequestURL d;
     ParameterKey := ParameterKey d; Interface := Interface d; AllowConnectionRequestFromAddress :=
     AllowConnectionRequestFromAddress d; PreferredIPVersion := PreferredIPVersion d; internal_settings :=
     internal_settings d |}.

Definition set_local_ip (v : string) (d : dm) : dm :=
  {| ConnRequestHost := ConnRequestHost d; LocalIPAddress := v; ConnRequestPort := ConnRequestPort d;
     ConnRequestPath := ConnRequestPath d; ConnRequestPathType := ConnRequestPathType d;
     UpdateConnRequestURL := UpdateConnRequestURL d; ConnectionRequestURL := ConnectionRequestURL d;
     ParameterKey := ParameterKey d; Interface := Interface d; AllowConnectionRequestFromAddress :=
     AllowConnectionRequestFromAddress d; PreferredIPVersion := PreferredIPVersion d; internal_settings :=
     internal_settings d |}.

Definition set_port (v : Z) (d : dm) : dm :=
  {| ConnRequestHost := ConnRequestHost d; LocalIPAddress := LocalIPAddress d; ConnRequestPort := v;
     ConnRequestPath := ConnRequestPath d; ConnRequestPathType := ConnRequestPathType d;
     UpdateConnRequestURL := UpdateConnRequestURL d; ConnectionRequestURL := ConnectionRequestURL d;
     ParameterKey := ParameterKey d; Interface := Interface d; AllowConnectionRequestFromAddress :=
     AllowConnectionRequestFromAddress d; PreferredIPVersion := PreferredIPVersion d; internal_settings :=
     internal_settings d |}.

Definition set_path (v : string) (d : dm) : dm :=
  {| ConnRequestHost := ConnRequestHost d; LocalIPAddress := LocalIPAddress d; ConnRequestPort :=
     ConnRequestPort d; ConnRequestPath := v; ConnRequestPathType := ConnRequestPathType d;
     UpdateConnRequestURL := UpdateConnRequestURL d; ConnectionRequestURL := ConnectionRequestURL d;
     ParameterKey := ParameterKey d; Interface := Interface d; AllowConnectionRequestFromAddress :=
     AllowConnectionRequestFromAddress d; PreferredIPVersion := PreferredIPVersion d; internal_settings :=
     internal_settings d |}.

Definition set_path_type (v : string) (d : dm) : dm :=
  {| ConnRequestHost := ConnRequestHost d; LocalIPAddress := LocalIPAddress d; ConnRequestPort :=
     ConnRequestPort d; ConnRequestPath := ConnRequestPath d; ConnRequestPathType := v; UpdateConnRequestURL
     := UpdateConnRequestURL d; ConnectionRequestURL := ConnectionRequestURL d; ParameterKey := ParameterKey
     d; Interface := Interface d; AllowConnectionRequestFromAddress := AllowConnectionRequestFromAddress d;
     PreferredIPVersion := PreferredIPVersion d; internal_settings := internal_settings d |}.

Definition set_update_url (v : bool) (d : dm) : dm :=
  {| ConnRequestHost := ConnRequestHost d; LocalIPAddress := LocalIPAddress d; ConnRequestPort :=
     ConnRequestPort d; ConnRequestPath := ConnRequestPath d; ConnRequestPathType := ConnRequestPathType d;
     UpdateConnRequestURL := v; ConnectionRequestURL := ConnectionRequestURL d; ParameterKey := ParameterKey
     d; Interface := Interface d; AllowConnectionRequestFromAddress := AllowConnectionRequestFromAddress d;
     PreferredIPVersion := PreferredIPVersion d; internal_settings := internal_settings d |}.

Definition set_url (v : string) (d : dm) : dm :=
  {| ConnRequestHost := ConnRequestHost d; LocalIPAddress := LocalIPAddress d; ConnRequestPort :=
     ConnRequestPort d; ConnRequestPath := ConnRequestPath d; ConnRequestPathType := ConnRequestPathType d;
     UpdateConnRequestURL := UpdateConnRequestURL d; ConnectionRequestURL := v; ParameterKey := ParameterKey
     d; Interface := Interface d; AllowConnectionRequestFromAddress := AllowConnectionRequestFromAddress d;
     PreferredIPVersion := PreferredIPVersion d; internal_settings := internal_settings d |}.

Definition set_parameter_key (v : string) (d : dm) : dm :=
  {| ConnRequestHost := ConnRequestHost d; LocalIPAddress := LocalIPAddress d; ConnRequestPort :=
     ConnRequestPort d; ConnRequestPath := ConnRequestPath d; ConnRequestPathType := ConnRequestPathType d;
     UpdateConnRequestURL := UpdateConnRequestURL d; ConnectionRequestURL := ConnectionRequestURL d;
     ParameterKey := v; Interface := Interface d; AllowConnectionRequestFromAddress :=
     AllowConnectionRequestFromAddress d; PreferredIPVersion := PreferredIPVersion d; internal_settings :=
     internal_settings d |}.

Definition set_interface (v : string) (d : dm) : dm :=
  {| ConnRequestHost := ConnRequestHost d; LocalIPAddress := LocalIPAddress d; ConnRequestPort :=
     ConnRequestPort d; ConnRequestPath := ConnRequestPath d; ConnRequestPathType := ConnRequestPathType d;
     UpdateConnRequestURL := UpdateConnRequestURL d; ConnectionRequestURL := ConnectionRequestURL d;
     ParameterKey := ParameterKey d; Interface := v; AllowConnectionRequestFromAddress :=
     AllowConnectionRequestFromAddress d; PreferredIPVersion := PreferredIPVersion d; internal_settings :=
     internal_settings d |}.

Definition set_allowed (v : string) (d : dm) : dm :=
  {| ConnRequestHost := ConnRequestHost d; LocalIPAddress := LocalIPAddress d; ConnRequestPort :=
     ConnRequestPort d; ConnRequestPath := ConnRequestPath d; ConnRequestPathType := ConnRequestPathType d;
     UpdateConnRequestURL := UpdateConnRequestURL d; ConnectionRequestURL := ConnectionRequestURL d;
     ParameterKey := ParameterKey d; Interface := Interface d; AllowConnectionRequestFromAddress := v;
     PreferredIPVersion := PreferredIPVersion d; internal_settings := internal_settings d |}.

Definition set_preferred (v : string) (d : dm) : dm :=
  {| ConnRequestHost := ConnRequestHost d; LocalIPAddress := LocalIPAddress d; ConnRequestPort :=
     ConnRequestPort d; ConnRequestPath := ConnRequestPath d; ConnRequestPathType := ConnRequestPathType d;
     UpdateConnRequestURL := UpdateConnRequestURL d; ConnectionRequestURL := ConnectionRequestURL d;
     ParameterKey := ParameterKey d; Interface := Interface d; AllowConnectionRequestFromAddress :=
     AllowConnectionRequestFromAddress d; PreferredIPVersion := v; internal_settings := internal_settings d |}.

Definition set_ipv4 (v : string) (i : interface_state) : interface_state :=
  {| ipv4address := v; ipv6address := ipv6address i; wanipmode := wanipmode i; query_ipv4 := query_ipv4 i;
     query_ipv6 := query_ipv6 i; ipv6_timer := ipv6_timer i; wait_timers := wait_timers i |}.

Definition set_ipv6 (v : string) (i : interface_state) : interface_state :=
  {| ipv4address := ipv4address i; ipv6address := v; wanipmode := wanipmode i; query_ipv4 := query_ipv4 i;
     query_ipv6 := query_ipv6 i; ipv6_timer := ipv6_timer i; wait_timers := wait_timers i |}.

Definition set_mode (v : wan_ip_mode_t) (i : interface_state) : interface_state :=
  {| ipv4address := ipv4address i; ipv6address := ipv6address i; wanipmode := v; query_ipv4 := query_ipv4 i;
     query_ipv6 := query_ipv6 i; ipv6_timer := ipv6_timer i; wait_timers := wait_timers i |}.

Definition set_ipv6_timer (v : option nat) (i : interface_state) : interface_state :=
  {| ipv4address := ipv4address i; ipv6address := ipv6address i; wanipmode := wanipmode i; query_ipv4 :=
     query_ipv4 i; query_ipv6 := query_ipv6 i; ipv6_timer := v; wait_timers := wait_timers i |}.

Definition set_wait_timers (v : list (nat * Z)) (i : interface_state) : interface_state :=
  {| ipv4address := ipv4address i; ipv6address := ipv6address i; wanipmode := wanipmode i; query_ipv4 :=
     query_ipv4 i; query_ipv6 := query_ipv6 i; ipv6_timer := ipv6_timer i; wait_timers := v |}.

Definition set_proc (v : option nat) (d : daemon) : daemon :=
  {| cwmpd_proc := v; context := context d; running := running d; commands := commands d; restart_timers :=
     restart_timers d; fw := fw d |}.

Definition set_running (v : list nat) (d : daemon) : daemon :=
  {| cwmpd_proc := cwmpd_proc d; context := context d; running := v; commands := commands d; restart_timers
     := restart_timers d; fw := fw d |}.

Definition set_restart_timers (v : list nat) (d : daemon) : daemon :=
  {| cwmpd_proc := cwmpd_proc d; context := context d; running := running d; commands := commands d;
     restart_timers := v; fw := fw d |}.

Definition set_fw (v : option service) (d : daemon) : daemon :=
  {| cwmpd_proc := cwmpd_proc d; context := context d; running := running d; commands := commands d;
     restart_timers := restart_timers d; fw := v |}.

Definition with_data (v : dm) (w : world) : world :=
  {| data := v; queue := queue w; ntrans := ntrans w; next := next w; intf := intf w; proc := proc w;
     conn_req_path_created := conn_req_path_created w; cwmpd_start_avoided := cwmpd_start_avoided w;
     init_done := init_done w; deferred_init_timer := deferred_init_timer w; stopped := stopped w |}.

Definition with_queue (v : list dm_event) (w : world) : world :=
  {| data := data w; queue := v; ntrans := ntrans w; next := next w; intf := intf w; proc := proc w;
     conn_req_path_created := conn_req_path_created w; cwmpd_start_avoided := cwmpd_start_avoided w;
     init_done := init_done w; deferred_init_timer := deferred_init_timer w; stopped := stopped w |}.

Definition with_intf (v : interface_state) (w : world) : world :=
  {| data := data w; queue := queue w; ntrans := ntrans w; next := next w; intf := v; proc := proc w;
     conn_req_path_created := conn_req_path_created w; cwmpd_start_avoided := cwmpd_start_avoided w;
     init_done := init_done w; deferred_init_timer := deferred_init_timer w; stopped := stopped w |}.

Definition with_proc (v : daemon) (w : world) : world :=
  {| data := data w; queue := queue w; ntrans := ntrans w; next := next w; intf := intf w; proc := v;
     conn_req_path_created := conn_req_path_created w; cwmpd_start_avoided := cwmpd_start_avoided w;
     init_done := init_done w; deferred_init_timer := deferred_init_timer w; stopped := stopped w |}.

Definition with_next (v : nat) (w : world) : world :=
  {| data := data w; queue := queue w; ntrans := ntrans w; next := v; intf := intf w; proc := proc w;
     conn_req_path_created := conn_req_path_created w; cwmpd_start_avoided := cwmpd_start_avoided w;
     init_done := init_done w; deferred_init_timer := deferred_init_timer w; stopped := stopped w |}.

Definition with_path_created (v : bool) (w : world) : world :=
  {| data := data w; queue := queue w; ntrans := ntrans w; next := next w; intf := intf w; proc := proc w;
     conn_req_path_created := v; cwmpd_start_avoided := cwmpd_start_avoided w; init_done := init_done w;
     deferred_init_timer := deferred_init_timer w; stopped := stopped w |}.

Definition with_start_avoided (v : bool) (w : world) : world :=
  {| data := data w; queue := queue w; ntrans := ntrans w; next := next w; intf := intf w; proc := proc w;
     conn_req_path_created := conn_req_path_created w; cwmpd_start_avoided := v; init_done := init_done w;
     deferred_init_timer := deferred_init_timer w; stopped := stopped w |}.

Definition with_stopped (v : bool) (w : world) : world :=
  {| data := data w; queue := queue w; ntrans := ntrans w; next := next w; intf := intf w; proc := proc w;
     conn_req_path_created := conn_req_path_created w; cwmpd_start_avoided := cwmpd_start_avoided w;
     init_done := init_done w; deferred_init_timer := deferred_init_timer w; stopped := v |}.

Section Plugin.

Context {Sys : system}.

(** One transaction: [f] changes the parameters and [evs] are the events of the
    parameters it sets to a new value. *)
Definition trans_apply (f : dm -> dm) (evs : list dm_event) (w : world) : world :=
  let ok := accepts (ntrans w) in
  {| data := if ok then f (data w) else data w; queue := queue w ++ (if ok then evs else []);
     ntrans := S (ntrans w); next := next w; intf := intf w; proc := proc w;
     conn_req_path_created := conn_req_path_created w; cwmpd_start_avoided := cwmpd_start_avoided w;
     init_done := init_done w; deferred_init_timer := deferred_init_timer w; stopped := stopped w |}.

(** [e] if the parameter changes *)
Definition changed (old new : string) (e : dm_event) : list dm_event := if streq old new then [] else [e].

(** ** The path of the URL *)

Definition token : cstr := cs "abcdefghijklmnopqrstuvwxyzABCDEFGHIJKLMNOPQRSTUVWXYZ1234567890".

Definition mac_token : cstr := cs "ABCDE67FGHqrtuvwSTU48VWabcdefIJKL39MNPQRghijkmnpxyz2".

(** [token[i]] *)
Definition char_at (t : cstr) (i : Z) : ascii := List.nth (Z.to_nat i) t "000"%char.

(** [generate_random_url_path] *)
Definition generate_random_url_path (e : env) (size : nat) : cstr :=
  map (fun x => char_at token (u32 (rand e x) mod Z.of_nat (length token))) (seq 0 size).

Definition hex_digits : cstr := cs "0123456789abcdef".

(** [%02hhx] of a byte *)
Definition hhx (b : Z) : cstr := [char_at hex_digits (b / 16 mod 16); char_at hex_digits (b mod 16)].

(** [%02x] of a [char]: a negative one is printed as a 32-bit number. *)
Definition x02 (b : Z) : cstr := if b <? 128 then hhx b else cs "ffffff" ++ hhx b.

(** The text of a hardware address, as snprintf of 40 bytes writes it *)
Definition print_mac (m : list Z) : cstr :=
  let b := fun i => List.nth i m 0 in
  hhx (b 0%nat) ++ [":"%char] ++ hhx (b 1%nat) ++ [":"%char] ++ hhx (b 2%nat) ++ [":"%char]
  ++ hhx (b 3%nat) ++ [":"%char] ++ x02 (b 4%nat) ++ [":"%char] ++ hhx (b 5%nat) ++ ["010"%char].

(** The loop of [get_hw_addr_from_ip]; [ipbuf] keeps the text of the last
    address that was printed. *)
Fixpoint scan_items (ip ipbuf : string) (macbuf : cstr) (items : list if_item) : cstr * Z :=
  match items with
  | [] => (macbuf, 0)
  | it :: items' =>
      match (if if_inet it then if_text it else Some ipbuf) with
      | None => (macbuf, -1)
      | Some ipbuf =>
          if streq ipbuf ip then
            match if_hw it with
            | None => (macbuf, 1)
            | Some m => scan_items ip ipbuf (print_mac m) items'
            end
          else scan_items ip ipbuf macbuf items'
      end
  end.

Definition get_hw_addr_from_ip (e : env) (ip : string) : cstr * Z :=
  if negb (sock_ok e) then ([], 1) else if negb (conf_ok e) then ([], 1) else scan_items ip "" [] (if_items e).

(** A [char] as an integer *)
Definition char_value (c : ascii) : Z :=
  let n := Z.of_nat (nat_of_ascii c) in if n <? 128 then n else n - 256.

(** The loop of [generate_mac_based_url_path]; [seed] is the rest of the text,
    which the terminating zero follows. *)
Fixpoint mac_loop (n : nat) (rnd_idx : Z) (seed macAddress : cstr) : cstr :=
  match n with
  | O => []
  | S n' =>
      let seed := match seed with [] => macAddress | _ => seed end in
      let c := match seed with [] => 0 | c :: _ => char_value c end in
      let rnd_idx := Z.land (Z.lxor (Z.shiftl rnd_idx 1) c) 65535 in
      char_at mac_token (rnd_idx mod Z.of_nat (length mac_token)) :: mac_loop n' rnd_idx (tail seed) macAddress
  end.

Definition generate_mac_based_url_path (e : env) (ip : string) : cstr :=
  let macAddress := (get_hw_addr_from_ip e ip).1 in mac_loop CPE_URL_SIZE 59 macAddress macAddress.

(** The path that is made for a type, [None] if the parameter is left alone *)
Definition new_path (e : env) (pathType ip : string) : option string :=
  match TR069_URL_PATH with
  | Some url => Some url
  | None =>
      if streq pathType "Fixed-Default" then None
      else if starts_with (cs "Random") (cs pathType)
           then Some (String.string_of_list_ascii (generate_random_url_path e CPE_URL_SIZE))
      else if streq pathType "Fixed-MacBased"
           then Some (String.string_of_list_ascii (generate_mac_based_url_path e ip))
      else Some (String.string_of_list_ascii (generate_random_url_path e CPE_URL_SIZE))
  end.

(** [cwmp_plugin_create_conreq_path] *)
Definition cwmp_plugin_create_conreq_path (e : env) (ip : string) (w : world) : world :=
  match new_path e (ConnRequestPathType (data w)) ip with
  | Some path => trans_apply (set_path path) (changed (ConnRequestPath (data w)) path PathChanged) w
  | None => w
  end.

(** ** The URL *)

(** [isAddressIpV6] *)
Definition isAddressIpV6 (address : option string) : bool :=
  match address with Some a => inet_pton6 a | None => false end.

(** [assembleConnectionRequestURL] *)
Definition assembleConnectionRequestURL (d : dm) (host : string) (port : Z) : string :=
  let isIPV6 := isAddressIpV6 (Some host) in
  String.append "http://" (String.append (if isIPV6 then "[" else "") (String.append host
    (String.append (if isIPV6 then "]" else "") (String.append ":" (String.append (pretty port)
      (String.append "/" (ConnRequestPath d))))))).

(** [transac_new_connection_request_url] *)
Definition transac_new_connection_request_url (url : string) (w : world) : world := trans_apply (set_url url) [] w.

(** [update_conn_req_url] *)
Definition update_conn_req_url (w : world) : world :=
  if negb (UpdateConnRequestURL (data w)) then w
  else
    transac_new_connection_request_url
      (assembleConnectionRequestURL (data w) (ConnRequestHost (data w)) (ConnRequestPort (data w))) w.

(** [cwmp_plugin_update_conreq_host] *)
Definition cwmp_plugin_update_conreq_host (ip : string) (w : world) : world :=
  let w := with_data (set_local_ip ip (data w)) w in
  if UpdateConnRequestURL (data w)
  then trans_apply (set_host ip) (changed (ConnRequestHost (data w)) ip HostChanged) w
  else w.

(** [cwmp_plugin_update_conreq_port] *)
Definition cwmp_plugin_update_conreq_port (port : Z) (w : world) : world :=
  if UpdateConnRequestURL (data w)
  then trans_apply (set_port port) (if ConnRequestPort (data w) =? port then [] else [PortChanged]) w
  else w.

(** [_ManagementServer_updateConnectionRequestURL], with the port as uint16_t *)
Inductive amxd_status := amxd_status_ok | amxd_status_invalid_value | amxd_status_unknown_error.

Definition ManagementServer_updateConnectionRequestURL (update : bool) (host : option string) (port : Z)
    (w : world) : world * amxd_status :=
  let w := with_data (set_update_url (negb update) (data w)) w in
  if negb update then (w, amxd_status_ok)
  else
    let port := Z.land port 65535 in
    match host with
    | None => (w, amxd_status_invalid_value)
    | Some h =>
        if streq h "" || (port =? 0) then (w, amxd_status_invalid_value)
        else (transac_new_connection_request_url (assembleConnectionRequestURL (data w) h port) w, amxd_status_ok)
    end.

(** [_ManagementServer_updateParameterKey] *)
Definition ManagementServer_updateParameterKey (paramKey : string) (w : world) : world * amxd_status :=
  (trans_apply (set_parameter_key paramKey) [] w,
   if accepts (ntrans w) then amxd_status_ok else amxd_status_unknown_error).

(** ** The process *)

(** [build_cwmpd_proc_args] *)
Definition build_cwmpd_proc_args : list string :=
  match AMXRT_PREFIX_PATH with
  | Some prefix =>
      if streq prefix "" then ["cwmpd"; String.append "-c" odl_config; "-D"]%string
      else [String.append prefix "/usr/bin/cwmpd"; String.append "-c" (String.append prefix odl_config); "-f"]%string
  | None => ["cwmpd"; String.append "-c" odl_config; "-D"]%string
  end.

(** [open_cwmpd_listening_port] *)
Definition the_service (d : dm) : service :=
  {| fw_interface := Interface d; fw_port := ConnRequestPort d; fw_source := AllowConnectionRequestFromAddress d;
     fw_ipversion := if isAddressIpV6 (Some (LocalIPAddress d)) then 6 else 4 |}.

Definition open_cwmpd_listening_port (e : env) (w : world) : world :=
  if fw_ok e then with_proc (set_fw (Some (the_service (data w))) (proc w)) w else w.

(** [close_cwmpd_listening_port] *)
Definition close_cwmpd_listening_port (w : world) : world :=
  match cwmpd_proc (proc w) with
  | None => w
  | Some _ => with_proc (set_fw None (proc w)) w
  end.

(** [get_cwmpd_subproc], and whether its process runs *)
Definition get_cwmpd_subproc (w : world) : option nat := cwmpd_proc (proc w).

Definition is_running (p : nat) (w : world) : bool := existsb (Nat.eqb p) (running (proc w)).

(** [cwmp_proc_ctx_new] *)
Definition cwmp_proc_ctx_new (alloc : bool) (process : option nat) (cb clean_cb : option nat) : option cwmp_proc_ctx_t :=
  match cb with
  | None => None
  | Some f => if alloc then Some {| ctx_proc := process; ctx_cb := f; ctx_clean_cb := clean_cb |} else None
  end.

(** The callback [start_cwmpd] registers *)
Definition CWMPD_PROC_STOPPED : nat := 1.

(** [amxp_proc_ctrl_new] and [amxp_proc_ctrl_start] of the command line *)
Definition spawn (e : env) (w : world) : world :=
  let p := next w in
  with_next (S p)
    (with_proc
       {| cwmpd_proc := Some p; context := cwmp_proc_ctx_new (ctx_ok e) None (Some CWMPD_PROC_STOPPED) None;
          running := running (proc w) ++ (if start_ok e then [p] else []);
          commands := commands (proc w) ++ [build_cwmpd_proc_args];
          restart_timers := restart_timers (proc w); fw := fw (proc w) |} w).

(** [start_cwmpd] *)
Definition start_cwmpd (e : env) (w : world) : world :=
  if standalone then open_cwmpd_listening_port e w
  else
    match cwmpd_proc (proc w) with
    | Some _ => w
    | None => open_cwmpd_listening_port e (spawn e w)
    end.

(** [stop_cwmpd]: the process is killed, its handle and its signals deleted. *)
Definition stop_cwmpd (w : world) : world :=
  if standalone then close_cwmpd_listening_port w
  else
    match cwmpd_proc (proc w) with
    | Some p =>
        with_proc (set_proc None (set_running (List.filter (fun q => negb (Nat.eqb q p)) (running (proc w))) (proc w))) w
    | None => w
    end.

(** [cwmpd_proc_stopped] *)
Definition cwmpd_proc_stopped (w : world) : world :=
  let w := with_proc (set_proc None (proc w)) w in
  let w := close_cwmpd_listening_port w in
  with_next (S (next w))
    (with_proc (set_restart_timers (restart_timers (proc w) ++ [next w]) (proc w)) w).

Definition call_back (f : nat) (w : world) : world := if Nat.eqb f CWMPD_PROC_STOPPED then cwmpd_proc_stopped w else w.

(** [proc_finished_cb] on a context of [start_cwmpd], which has no process and
    no clean-up of its own *)
Definition proc_finished_cb (ctx : option cwmp_proc_ctx_t) (w : world) : world :=
  match ctx with
  | None => w
  | Some c =>
      let w := call_back (ctx_cb c) w in
      match ctx_clean_cb c with Some f => call_back f w | None => w end
  end.

(** ** Events of the data model *)

(** [_updateConnectionRequestPath] *)
Definition updateConnectionRequestPath (w : world) : world := update_conn_req_url w.

(** [_updateConnectionRequestPort] *)
Definition updateConnectionRequestPort (e : env) (w : world) : world :=
  open_cwmpd_listening_port e (update_conn_req_url w).

(** A host the ACS can reach *)
Definition usable (host : string) : bool := negb (streq host "") && negb (streq DEFAULT_CRH host).

(** [_updateConnectionRequestURL] *)
Definition updateConnectionRequestURL (e : env) (w : world) : world :=
  if negb (UpdateConnRequestURL (data w)) then w
  else
    let host := ConnRequestHost (data w) in
    let w := transac_new_connection_request_url (assembleConnectionRequestURL (data w) host (ConnRequestPort (data w))) w in
    if usable host then
      let w := if conn_req_path_created w then w
               else with_path_created true (cwmp_plugin_create_conreq_path e host w) in
      if match get_cwmpd_subproc w with None => true | Some p => negb (is_running p w) end then
        if init_done w then start_cwmpd e w else with_start_avoided true w
      else open_cwmpd_listening_port e w
    else close_cwmpd_listening_port w.

(** ** Addresses of the interface *)

(** [getLocalIP] *)
Definition getLocalIP (i : interface_state) : string :=
  let v4 := ipv4address i in
  let v6 := ipv6address i in
  match wanipmode i with
  | IPv4ONLY => if streq v4 "" then DEFAULT_CRH else v4
  | IPv6PREFERRED => if streq v6 "" then (if streq v4 "" then DEFAULT_CRH else v4) else v6
  | IPANY => if streq v4 "" then (if streq v6 "" then DEFAULT_CRH else v6) else v4
  end.

(** [amxp_timer_stop] and [amxp_timer_delete] of [ipv6_timer] *)
Definition delete_ipv6_timer (i : interface_state) : interface_state :=
  match ipv6_timer i with
  | None => i
  | Some t => set_ipv6_timer None (set_wait_timers (List.filter (fun x => negb (Nat.eqb x.1 t)) (wait_timers i)) i)
  end.

(** [updateLocalIP] *)
Definition updateLocalIP (w : world) : world :=
  let w := with_intf (delete_ipv6_timer (intf w)) w in
  cwmp_plugin_update_conreq_host (getLocalIP (intf w)) w.

(** [ipv6_timer_cb] *)
Definition ipv6_timer_cb (w : world) : world := updateLocalIP w.

(** [ipv6address_changed_cb] *)
Definition ipv6address_changed_cb (new_ip : option string) (w : world) : world :=
  let w := with_intf (set_ipv6 (default ""%string new_ip) (intf w)) w in
  match wanipmode (intf w) with
  | IPv4ONLY => w
  | IPv6PREFERRED | IPANY => updateLocalIP w
  end.

(** A parameter of [InternalSettings]; one that does not exist reads as 0. *)
Definition get_setting (name : string) (d : dm) : Z :=
  match List.find (fun x => streq x.1 name) (internal_settings d) with Some x => x.2 | None => 0 end.

(** [amxp_timer_new] into [ipv6_timer] and [amxp_timer_start] *)
Definition start_ipv6_timer (ms : Z) (w : world) : world :=
  with_next (S (next w))
    (with_intf (set_ipv6_timer (Some (next w)) (set_wait_timers (wait_timers (intf w) ++ [(next w, ms)]) (intf w))) w).

(** [ipv4address_changed_cb] *)
Definition ipv4address_changed_cb (new_ip : option string) (w : world) : world :=
  let timeout := get_setting "IPV4IPV6WANMaxWaitTime" (data w) in
  let w := with_intf (set_ipv4 (default ""%string new_ip) (intf w)) w in
  match wanipmode (intf w) with
  | IPv4ONLY | IPANY => updateLocalIP w
  | IPv6PREFERRED =>
      if negb (streq (ipv6address (intf w)) "") then updateLocalIP w
      else start_ipv6_timer (u32 (timeout * 1000)) w
  end.

(** [cwmp_plugin_netmodel_close_queries] *)
Definition cwmp_plugin_netmodel_close_queries (w : world) : world :=
  let i := delete_ipv6_timer (intf w) in
  with_intf
    {| ipv4address := ""; ipv6address := ""; wanipmode := wanipmode i; query_ipv4 := false; query_ipv6 := false;
       ipv6_timer := ipv6_timer i; wait_timers := wait_timers i |} w.

(** [cwmp_plugin_netmodel_open_queries] *)
Definition cwmp_plugin_netmodel_open_queries (e : env) (w : world) : world :=
  let w := match first6 e with Some r => ipv6address_changed_cb r w | None => w end in
  let w := match first4 e with Some r => ipv4address_changed_cb r w | None => w end in
  let i := intf w in
  with_intf
    {| ipv4address := ipv4address i; ipv6address := ipv6address i; wanipmode := wanipmode i;
       query_ipv4 := open4_ok e; query_ipv6 := open6_ok e;
       ipv6_timer := ipv6_timer i; wait_timers := wait_timers i |} w.

(** [_writeInterface] *)
Definition writeInterface (e : env) (to : option string) (w : world) : world :=
  match to with
  | None => w
  | Some i => if streq i "" then w else cwmp_plugin_netmodel_open_queries e (cwmp_plugin_netmodel_close_queries w)
  end.

(** [_writePreferredIPVersion] *)
Definition mode_of (mode : string) : wan_ip_mode_t :=
  if streq mode "IPV4ONLY" then IPv4ONLY else if streq mode "IPV6PREFERRED" then IPv6PREFERRED else IPANY.

Definition writePreferredIPVersion (to : option string) (w : world) : world :=
  match to with None => w | Some m => with_intf (set_mode (mode_of m) (intf w)) w end.

(** [cwmp_plugin_netmodel_find_ip] *)
Definition cwmp_plugin_netmodel_find_ip (e : env) (w : world) : world :=
  if streq (Interface (data w)) "" then w else cwmp_plugin_netmodel_open_queries e w.

(** ** Life cycle *)

(** [deferred_init_timer_cb] *)
Definition deferred_init_timer_cb (e : env) (w : world) : world :=
  let w :=
    {| data := data w; queue := queue w; ntrans := ntrans w; next := next w; intf := intf w; proc := proc w;
       conn_req_path_created := conn_req_path_created w; cwmpd_start_avoided := cwmpd_start_avoided w;
       init_done := true; deferred_init_timer := false; stopped := stopped w |} in
  let w := cwmp_plugin_netmodel_find_ip e w in
  if cwmpd_start_avoided w then start_cwmpd e w else w.

(** [_cwmp_plugin_main] for AMXO_START, on the parameters that were loaded; the
    deferred initialisation needs its timer ([cwmp_plugin_deferred_init]). *)
Definition cwmp_plugin_start (timer_ok : bool) (d : dm) : world :=
  {| data := d; queue := []; ntrans := 0; next := 0;
     intf := {| ipv4address := ""; ipv6address := ""; wanipmode := IPANY; query_ipv4 := false; query_ipv6 := false;
                ipv6_timer := None; wait_timers := [] |};
     proc := {| cwmpd_proc := None; context := None; running := []; commands := []; restart_timers := []; fw := None |};
     conn_req_path_created := false; cwmpd_start_avoided := false; init_done := false;
     deferred_init_timer := timer_ok; stopped := false |}.

(** [cwmp_plugin_exit], for AMXO_STOP *)
Definition cwmp_plugin_exit (w : world) : world :=
  with_stopped true (cwmp_plugin_netmodel_close_queries (stop_cwmpd w)).

(** ** Steps *)

Definition handle (e : env) (ev : dm_event) (w : world) : world :=
  match ev with
  | HostChanged => updateConnectionRequestURL e w
  | PathChanged => updateConnectionRequestPath w
  | PortChanged => updateConnectionRequestPort e w
  | InterfaceChanged to => writeInterface e to w
  | PreferredIPVersionChanged to => writePreferredIPVersion to w
  end.

Definition dispatch (e : env) (w : world) : world :=
  match queue w with
  | [] => w
  | ev :: q => handle e ev (with_queue q w)
  end.

(** What other processes set; [check_range] and [check_enum] refuse other values. *)
Inductive write :=
| WriteHost (v : string)
| WritePort (v : Z)
| WritePath (v : string)
| WritePathType (v : string)
| WriteInterface (v : string)
| WriteAllowed (v : string)
| WritePreferred (v : string).

Definition path_types : list string := ["Fixed-Default"; "Random"; "Randomize"; "Fixed-MacBased"]%string.

Definition ip_versions : list string := ["IPV4ONLY"; "IPV6PREFERRED"; "IPANY"]%string.

Definition bus_set (x : write) (w : world) : world :=
  let d := data w in
  match x with
  | WriteHost v => trans_apply (set_host v) (changed (ConnRequestHost d) v HostChanged) w
  | WritePort v =>
      if (0 <=? v) && (v <=? 65535)
      then trans_apply (set_port v) (if ConnRequestPort d =? v then [] else [PortChanged]) w else w
  | WritePath v => trans_apply (set_path v) (changed (ConnRequestPath d) v PathChanged) w
  | WritePathType v => if existsb (streq v) path_types then trans_apply (set_path_type v) [] w else w
  | WriteInterface v => trans_apply (set_interface v) (changed (Interface d) v (InterfaceChanged (Some v))) w
  | WriteAllowed v => trans_apply (set_allowed v) [] w
  | WritePreferred v =>
      if existsb (streq v) ip_versions
      then trans_apply (set_preferred v) (changed (PreferredIPVersion d) v (PreferredIPVersionChanged (Some v))) w
      else w
  end.

Inductive event :=
| Dispatch (e : env)
| BusSet (x : write)
| UpdateURL (update : bool) (host : option string) (port : Z)
| UpdateKey (key : string)
| Ipv4Changed (ip : option string)
| Ipv6Changed (ip : option string)
| WaitTimer (id : nat)
| RestartTimer (e : env) (id : nat)
| DeferredInit (e : env)
| ProcStopped (p : nat)
| Exit.

(** A timer expires once. *)
Definition wait_timer_expires (id : nat) (w : world) : world :=
  if existsb (fun x => Nat.eqb x.1 id) (wait_timers (intf w)) then
    ipv6_timer_cb
      (with_intf (set_wait_timers (List.filter (fun x => negb (Nat.eqb x.1 id)) (wait_timers (intf w))) (intf w)) w)
  else w.

(** [cwmp_timer_cb] *)
Definition restart_timer_expires (e : env) (id : nat) (w : world) : world :=
  if existsb (Nat.eqb id) (restart_timers (proc w)) then
    start_cwmpd e
      (with_proc (set_restart_timers (List.filter (fun x => negb (Nat.eqb x id)) (restart_timers (proc w))) (proc w)) w)
  else w.

(** The process ends; the signal reaches the slot of its handle. *)
Definition process_stops (p : nat) (w : world) : world :=
  if is_running p w then
    let w := with_proc (set_running (List.filter (fun q => negb (Nat.eqb q p)) (running (proc w))) (proc w)) w in
    if bool_decide (cwmpd_proc (proc w) = Some p)
    then proc_finished_cb (context (proc w)) w else w
  else w.

Definition step (ev : event) (w : world) : world :=
  if stopped w then w
  else
    match ev with
    | Dispatch e => dispatch e w
    | BusSet x => bus_set x w
    | UpdateURL update host port => (ManagementServer_updateConnectionRequestURL update host port w).1
    | UpdateKey k => (ManagementServer_updateParameterKey k w).1
    | Ipv4Changed ip => if query_ipv4 (intf w) then ipv4address_changed_cb ip w else w
    | Ipv6Changed ip => if query_ipv6 (intf w) then ipv6address_changed_cb ip w else w
    | WaitTimer id => wait_timer_expires id w
    | RestartTimer e id => restart_timer_expires e id w
    | DeferredInit e => if deferred_init_timer w then deferred_init_timer_cb e w else w
    | ProcStopped p => process_stops p w
    | Exit => cwmp_plugin_exit w
    end.

Definition run : list event -> world -> world := run_steps step.

End Plugin.

End ConnRequest.
