(* ===== verification/ConnRequestFacts.v ===== *)
(** * ConnRequestFacts: what the callbacks of [ConnRequest] change

    [kept] is the preorder of the callbacks that leave the parameters of the URL
    alone or announce their change; [weight] bounds the events a dispatch can
    add, so that the event loop empties the queue. *)

From Stdlib Require Import ZArith Lia Ascii.
From stdpp Require Import base list strings pretty.
From S2P Require Import Prelude CString ConnRequest.

Module ConnRequestFacts.
Import ConnRequest.

Definition address (d : dm) : string * Z * string := (ConnRequestHost d, ConnRequestPort d, ConnRequestPath d).

(** The events whose handler assembles the URL *)
Definition refreshes (ev : dm_event) : bool :=
  match ev with HostChanged | PathChanged | PortChanged => true | _ => false end.

Definition refreshing (q : list dm_event) : bool := existsb refreshes q.

Lemma refreshing_app q r : refreshing (q ++ r) = refreshing q || refreshing r.
Proof. apply existsb_app. Qed.

(** The number of dispatches an event can need: the handler of a host announces
    a path at most, that of an interface two hosts. *)
Definition cost (ev : dm_event) : nat :=
  match ev with HostChanged => 2 | InterfaceChanged _ => 5 | _ => 1 end.

Definition weight (q : list dm_event) : nat := sum_list_with cost q.

Lemma weight_app q r : weight (q ++ r) = (weight q + weight r)%nat.
Proof. unfold weight. apply sum_list_with_app. Qed.

Section Facts.

Context {Sys : system}.
Implicit Types w : world.

Definition expected (d : dm) : string := assembleConnectionRequestURL d (ConnRequestHost d) (ConnRequestPort d).

Lemma expected_address d d' : address d' = address d -> expected d' = expected d.
Proof. unfold expected, assembleConnectionRequestURL. by intros [= -> -> ->]. Qed.

(** A change of the host, the port or the path is announced in [q]. *)
Definition announced (q : list dm_event) (d d' : dm) : Prop :=
  (HostChanged ∈ q \/ ConnRequestHost d' = ConnRequestHost d) /\
  (PortChanged ∈ q \/ ConnRequestPort d' = ConnRequestPort d) /\
  (PathChanged ∈ q \/ ConnRequestPath d' = ConnRequestPath d).

(** [n] bounds the weight of what is announced. *)
Record kept (n : nat) w w' : Prop := {
  k_queue : exists q, queue w' = queue w ++ q /\ (weight q <= n)%nat /\ announced q (data w) (data w');
  k_url : ConnectionRequestURL (data w') = ConnectionRequestURL (data w);
  k_update : UpdateConnRequestURL (data w') = UpdateConnRequestURL (data w);
  k_stopped : stopped w' = stopped w;
}.

Lemma announced_same q d d' : address d' = address d -> announced q d d'.
Proof. intros [= H1 H2 H3]. split_and!; by right. Qed.

Lemma announced_app q r d1 d2 d3 : announced q d1 d2 -> announced r d2 d3 -> announced (q ++ r) d1 d3.
Proof.
  intros (H1 & H2 & H3) (K1 & K2 & K3). unfold announced. rewrite !elem_of_app.
  split_and!; [destruct H1, K1|destruct H2, K2|destruct H3, K3]; try tauto; right; congruence.
Qed.

Lemma announced_refreshing q d d' : announced q d d' -> refreshing q = true \/ address d' = address d.
Proof.
  assert (H : forall ev, refreshes ev = true -> ev ∈ q -> refreshing q = true).
  { intros ev Hr Hin. apply existsb_exists. exists ev. by rewrite <- list_elem_of_In. }
  unfold announced, address. intros (H1 & H2 & H3). destruct H1 as [|H1]; [left; by apply (H HostChanged)|].
  destruct H2 as [|H2]; [left; by apply (H PortChanged)|]. destruct H3 as [|H3]; [left; by apply (H PathChanged)|]. right. congruence.
Qed.

Lemma kept_refl w : kept 0 w w.
Proof. constructor; [|done..]. exists []. rewrite app_nil_r. split_and!; [done|done|by apply announced_same]. Qed.

Lemma kept_trans n m w1 w2 w3 : kept n w1 w2 -> kept m w2 w3 -> kept (n + m) w1 w3.
Proof.
  intros [(q & E1 & Hn & H1) ? Hu1 Hs1] [(r & E2 & Hm & H2) ? Hu2 Hs2]. constructor; [|congruence..].
  exists (q ++ r). rewrite E2, E1, app_assoc, weight_app. split_and!; [done|lia|by eapply announced_app].
Qed.

Lemma kept_weaken n m w w' : (n <= m)%nat -> kept n w w' -> kept m w w'.
Proof. intros Hle [(q & ? & ? & ?) ? ? ?]. constructor; [|done..]. exists q. split_and!; [done|lia|done]. Qed.

(** A change of anything but the parameters and the queue *)
Lemma kept_frame w w' :
  address (data w') = address (data w) -> ConnectionRequestURL (data w') = ConnectionRequestURL (data w) ->
  UpdateConnRequestURL (data w') = UpdateConnRequestURL (data w) -> queue w' = queue w -> stopped w' = stopped w ->
  kept 0 w w'.
Proof.
  intros ? ? ? E ?. constructor; [|done..]. exists []. rewrite app_nil_r. split_and!; [done|done|by apply announced_same].
Qed.

Lemma kept_trans_apply f evs w :
  UpdateConnRequestURL (f (data w)) = UpdateConnRequestURL (data w) ->
  ConnectionRequestURL (f (data w)) = ConnectionRequestURL (data w) ->
  announced evs (data w) (f (data w)) ->
  kept (weight evs) w (trans_apply f evs w).
Proof.
  intros Hu Hurl H. unfold trans_apply. destruct (accepts (ntrans w)).
  - constructor; [|done..]. exists evs. by split_and!.
  - apply (kept_weaken 0); [lia|]. apply kept_frame; try done. simpl. by rewrite app_nil_r.
Qed.

Lemma kept_set_host ip w : kept 2 w (trans_apply (set_host ip) (changed (ConnRequestHost (data w)) ip HostChanged) w).
Proof.
  unfold changed. destruct (streq _ ip) eqn:E.
  - apply (kept_weaken 0); [lia|]. apply (kept_trans_apply _ []); [done..|]. apply streq_true in E.
    apply announced_same. unfold address. simpl. by rewrite E.
  - apply (kept_trans_apply _ [HostChanged]); [done..|]. split_and!; [left; by left|by right..].
Qed.

Lemma kept_set_path p w : kept 1 w (trans_apply (set_path p) (changed (ConnRequestPath (data w)) p PathChanged) w).
Proof.
  unfold changed. destruct (streq _ p) eqn:E.
  - apply (kept_weaken 0); [lia|]. apply (kept_trans_apply _ []); [done..|]. apply streq_true in E.
    apply announced_same. unfold address. simpl. by rewrite E.
  - apply (kept_trans_apply _ [PathChanged]); [done..|]. split_and!; [by right..|left; by left].
Qed.

Lemma kept_update_host ip w : kept 2 w (cwmp_plugin_update_conreq_host ip w).
Proof.
  unfold cwmp_plugin_update_conreq_host. set (w1 := with_data _ w).
  assert (H : kept 0 w w1) by (by apply kept_frame). destruct (UpdateConnRequestURL (data w1)); [|by eapply kept_weaken; [|exact H]; lia].
  apply (kept_trans 0 2 _ w1); [done|].
  apply kept_set_host.
Qed.

Lemma kept_updateLocalIP w : kept 2 w (updateLocalIP w).
Proof.
  unfold updateLocalIP. set (w1 := with_intf _ w).
  apply (kept_trans 0 2 _ w1); [by apply kept_frame|apply kept_update_host].
Qed.

Lemma kept_ipv6 ip w : kept 2 w (ipv6address_changed_cb ip w).
Proof.
  unfold ipv6address_changed_cb. set (w1 := with_intf _ w).
  apply (kept_trans 0 2 _ w1); [by apply kept_frame|].
  destruct (wanipmode (intf w1)); [by eapply kept_weaken; [|apply kept_refl]; lia|apply kept_updateLocalIP..].
Qed.

Lemma kept_ipv4 ip w : kept 2 w (ipv4address_changed_cb ip w).
Proof.
  unfold ipv4address_changed_cb. set (w1 := with_intf _ w).
  apply (kept_trans 0 2 _ w1); [by apply kept_frame|].
  destruct (wanipmode (intf w1)); [apply kept_updateLocalIP| |apply kept_updateLocalIP].
  destruct (negb _); [apply kept_updateLocalIP|]. apply (kept_weaken 0); [lia|by apply kept_frame].
Qed.

Lemma kept_open_queries e w : kept 4 w (cwmp_plugin_netmodel_open_queries e w).
Proof.
  unfold cwmp_plugin_netmodel_open_queries.
  set (w1 := match first6 e with Some r => _ | None => w end).
  set (w2 := match first4 e with Some r => _ | None => w1 end).
  assert (H1 : kept 2 w w1) by (subst w1; destruct (first6 e);
    [apply kept_ipv6|by eapply kept_weaken; [|apply kept_refl]; lia]).
  assert (H2 : kept 2 w1 w2) by (subst w2; destruct (first4 e);
    [apply kept_ipv4|by eapply kept_weaken; [|apply kept_refl]; lia]).
  apply (kept_trans 4 0 _ w2); [by apply (kept_trans 2 2 _ w1)|by apply kept_frame].
Qed.

Lemma kept_find_ip e w : kept 4 w (cwmp_plugin_netmodel_find_ip e w).
Proof.
  unfold cwmp_plugin_netmodel_find_ip. destruct (streq _ _); [|apply kept_open_queries].
  eapply kept_weaken; [|apply kept_refl]; lia.
Qed.

Lemma kept_interface e to w : kept 4 w (writeInterface e to w).
Proof.
  assert (H : kept 4 w w) by (eapply kept_weaken; [|apply kept_refl]; lia).
  unfold writeInterface. destruct to as [i|]; [|done]. destruct (streq i ""); [done|].
  apply (kept_trans 0 4 _ (cwmp_plugin_netmodel_close_queries w)); [by apply kept_frame|apply kept_open_queries].
Qed.

(** ** The process leaves the parameters alone *)

Lemma kept_open_port e w : kept 0 w (open_cwmpd_listening_port e w).
Proof. unfold open_cwmpd_listening_port. destruct (fw_ok e); by apply kept_frame. Qed.

Lemma kept_close_port w : kept 0 w (close_cwmpd_listening_port w).
Proof. unfold close_cwmpd_listening_port. destruct (cwmpd_proc (proc w)); by apply kept_frame. Qed.

Lemma kept_start e w : kept 0 w (start_cwmpd e w).
Proof.
  unfold start_cwmpd. destruct standalone; [apply kept_open_port|]. destruct (cwmpd_proc (proc w)); [apply kept_refl|].
  apply (kept_trans 0 0 _ (spawn e w)); [by apply kept_frame|apply kept_open_port].
Qed.

Lemma kept_stopped w : kept 0 w (cwmpd_proc_stopped w).
Proof. by apply kept_frame. Qed.

Lemma kept_call_back f w : kept 0 w (call_back f w).
Proof. unfold call_back. destruct (Nat.eqb f _); [apply kept_stopped|apply kept_refl]. Qed.

Lemma kept_finished c w : kept 0 w (proc_finished_cb c w).
Proof.
  unfold proc_finished_cb. destruct c as [c|]; [|apply kept_refl].
  apply (kept_trans 0 0 _ (call_back (ctx_cb c) w)); [apply kept_call_back|].
  destruct (ctx_clean_cb c); [apply kept_call_back|apply kept_refl].
Qed.

Lemma kept_process_stops p w : kept 0 w (process_stops p w).
Proof.
  unfold process_stops. destruct (is_running p w); [|apply kept_refl]. set (w1 := with_proc _ w).
  apply (kept_trans 0 0 _ w1); [by apply kept_frame|].
  destruct (bool_decide _); [apply kept_finished|apply kept_refl].
Qed.

Lemma kept_deferred e w : kept 4 w (deferred_init_timer_cb e w).
Proof.
  unfold deferred_init_timer_cb.
  match goal with |- context [cwmp_plugin_netmodel_find_ip e ?x] => set (w1 := x) end.
  assert (H : kept 4 w (cwmp_plugin_netmodel_find_ip e w1))
    by (apply (kept_trans 0 4 _ w1); [by apply kept_frame|apply kept_find_ip]).
  destruct (cwmpd_start_avoided (cwmp_plugin_netmodel_find_ip e w1)); [|done]. apply (kept_trans 4 0 _ _ _ H), kept_start.
Qed.

Lemma kept_create_path e ip w : kept 1 w (cwmp_plugin_create_conreq_path e ip w).
Proof.
  unfold cwmp_plugin_create_conreq_path.
  destruct (new_path _ _ _) as [p|]; [|by eapply kept_weaken; [|apply kept_refl]; lia].
  apply kept_set_path.
Qed.

(** ** What other processes set *)

(** The actions after which the URL is still the one of the parameters: not
    the RPC that takes the URL over, and not the end of the plugin *)
Definition automatic (ev : event) : bool :=
  match ev with UpdateURL _ _ _ | Exit => false | _ => true end.

Lemma kept_bus_set x w : exists n, kept n w (bus_set x w).
Proof.
  assert (H0 : exists n, kept n w w) by (exists 0%nat; apply kept_refl).
  destruct x as [v|v|v|v|v|v|v]; cbn [bus_set].
  - eexists. apply kept_set_host.
  - destruct (_ && _); [|done]. eexists. apply kept_trans_apply; [done..|]. destruct (_ =? v) eqn:E.
    + apply Z.eqb_eq in E. apply announced_same. unfold address. simpl. by rewrite E.
    + split_and!; [by right|left; by left|by right].
  - eexists. apply kept_set_path.
  - destruct (existsb _ _); [|done]. eexists. apply kept_trans_apply; [done..|by apply announced_same].
  - eexists. apply kept_trans_apply; [done..|by apply announced_same].
  - eexists. apply kept_trans_apply; [done..|by apply announced_same].
  - destruct (existsb _ _); [|done]. eexists. apply kept_trans_apply; [done..|by apply announced_same].
Qed.

(** Every step but a dispatch announces what it changes. *)
Lemma kept_step ev w :
  automatic ev = true -> (forall e, ev <> Dispatch e) -> exists n, kept n w (step ev w).
Proof.
  intros Ha Hd. unfold step.
  destruct (stopped w) eqn:Es; [exists 0%nat; apply kept_refl|].
  destruct ev as [e|x|u h p|k|ip|ip|id|e id|e|p|]; try done.
  - by destruct (Hd e).
  - apply kept_bus_set.
  - exists 0%nat. apply (kept_trans_apply (set_parameter_key k) []); [done..|by apply announced_same].
  - destruct (query_ipv4 _); [exists 2%nat; apply kept_ipv4|exists 0%nat; apply kept_refl].
  - destruct (query_ipv6 _); [exists 2%nat; apply kept_ipv6|exists 0%nat; apply kept_refl].
  - unfold wait_timer_expires. destruct (existsb _ _); [|exists 0%nat; apply kept_refl].
    exists 2%nat. unfold ipv6_timer_cb. set (w1 := with_intf _ w).
    apply (kept_trans 0 2 _ w1); [by apply kept_frame|apply kept_updateLocalIP].
  - unfold restart_timer_expires. destruct (existsb _ _); [|exists 0%nat; apply kept_refl].
    exists 0%nat. set (w1 := with_proc _ w). apply (kept_trans 0 0 _ w1); [by apply kept_frame|apply kept_start].
  - destruct (deferred_init_timer w); [exists 4%nat; apply kept_deferred|exists 0%nat; apply kept_refl].
  - exists 0%nat. apply kept_process_stops.
Qed.

(** ** Dispatch *)

Section Accepting.

Context (Hacc : forall n, accepts n = true).

(** The URL is that of the parameters, or an event that will make it so waits. *)
Definition fresh w : Prop :=
  refreshing (queue w) = true \/ ConnectionRequestURL (data w) = expected (data w).

Lemma fresh_kept n w w' : kept n w w' -> fresh w -> fresh w'.
Proof.
  intros [(q & E & _ & H) Hu _ _] Hf. unfold fresh in *. rewrite E, refreshing_app.
  destruct (announced_refreshing _ _ _ H) as [->|Ha]; [left; apply orb_true_r|].
  rewrite (expected_address _ _ Ha), Hu. destruct Hf as [->|Hf]; [by left|by right].
Qed.

Lemma update_url_eq w :
  UpdateConnRequestURL (data w) = true ->
  update_conn_req_url w = transac_new_connection_request_url (expected (data w)) w.
Proof. intros H. unfold update_conn_req_url. by rewrite H. Qed.

Lemma fresh_url w : fresh (transac_new_connection_request_url (expected (data w)) w).
Proof. right. unfold transac_new_connection_request_url, trans_apply. by rewrite Hacc. Qed.

Lemma url_keeps url w :
  queue (transac_new_connection_request_url url w) = queue w /\
  UpdateConnRequestURL (data (transac_new_connection_request_url url w)) = UpdateConnRequestURL (data w) /\
  stopped (transac_new_connection_request_url url w) = stopped w.
Proof. unfold transac_new_connection_request_url, trans_apply. simpl. rewrite Hacc, app_nil_r. done. Qed.

(** The rest of [updateConnectionRequestURL], after the URL *)
Definition after_url (e : env) (host : string) w : world :=
  if usable host then
    let w := if conn_req_path_created w then w
             else with_path_created true (cwmp_plugin_create_conreq_path e host w) in
    if match get_cwmpd_subproc w with None => true | Some p => negb (is_running p w) end then
      if init_done w then start_cwmpd e w else with_start_avoided true w
    else open_cwmpd_listening_port e w
  else close_cwmpd_listening_port w.

Lemma host_changed_eq e w :
  UpdateConnRequestURL (data w) = true ->
  updateConnectionRequestURL e w =
    after_url e (ConnRequestHost (data w)) (transac_new_connection_request_url (expected (data w)) w).
Proof. intros H. unfold updateConnectionRequestURL. by rewrite H. Qed.

Lemma kept_after_url e host w : kept 1 w (after_url e host w).
Proof.
  unfold after_url. destruct (usable host); [|by eapply kept_weaken; [|apply kept_close_port]; lia].
  set (w1 := if conn_req_path_created w then _ else _).
  assert (H : kept 1 w w1).
  { subst w1. destruct (conn_req_path_created w); [by eapply kept_weaken; [|apply kept_refl]; lia|].
    apply (kept_trans 1 0 _ (cwmp_plugin_create_conreq_path e host w)); [apply kept_create_path|by apply kept_frame]. }
  destruct (match get_cwmpd_subproc w1 with None => true | Some p => _ end).
  - destruct (init_done w1); [apply (kept_trans 1 0 _ _ _ H), kept_start|].
    apply (kept_trans 1 0 _ _ _ H). by apply kept_frame.
  - apply (kept_trans 1 0 _ _ _ H), kept_open_port.
Qed.

Lemma url_then_kept n w w' :
  UpdateConnRequestURL (data w) = true ->
  kept n (transac_new_connection_request_url (expected (data w)) w) w' ->
  fresh w' /\ UpdateConnRequestURL (data w') = true /\ stopped w' = stopped w /\
  (weight (queue w') <= weight (queue w) + n)%nat.
Proof.
  intros Hu H. split; [by apply (fresh_kept _ _ _ H), fresh_url|].
  destruct (url_keeps (expected (data w)) w) as (E1 & E2 & E3). destruct H as [(r & E & Hr & _) _ H1 H2].
  rewrite E, E1, H1, H2, E2, E3, weight_app. split_and!; [done..|lia].
Qed.

(** A dispatch keeps the URL fresh and makes the queue lighter. *)
Lemma dispatch_fresh e w :
  UpdateConnRequestURL (data w) = true ->
  let w' := dispatch e w in
  (fresh w -> fresh w') /\ UpdateConnRequestURL (data w') = true /\ stopped w' = stopped w /\
  (queue w <> [] -> weight (queue w') < weight (queue w))%nat.
Proof.
  intros Hu. unfold dispatch. destruct (queue w) as [|ev q] eqn:Eq; [done|]. cbv zeta.
  set (w0 := with_queue q w). change (UpdateConnRequestURL (data w0) = true) in Hu.
  assert (Hk : forall n w', kept n w0 w' -> (n < cost ev)%nat ->
    UpdateConnRequestURL (data w') = true /\ stopped w' = stopped w /\ (weight (queue w') < cost ev + weight q)%nat).
  { intros n w' [(r & E & Hr & _) _ H1 H2] Hn. rewrite E, weight_app. simpl. split_and!; [congruence|done|lia]. }
  assert (Hother : refreshes ev = false -> fresh w -> fresh w0).
  { intros E Hf. destruct Hf as [Hf|Hf]; [|by right]. left. rewrite Eq in Hf. simpl in Hf. by rewrite E in Hf. }
  change (weight (ev :: q)) with (cost ev + weight q)%nat.
  destruct ev as [| | |to|to]; cbn [handle].
  - rewrite host_changed_eq by done.
    destruct (url_then_kept 1 w0 _ Hu (kept_after_url e (ConnRequestHost (data w0)) _)) as (? & ? & ? & ?).
    split_and!; [done..|intros _; simpl in *; lia].
  - unfold updateConnectionRequestPath. rewrite update_url_eq by done.
    destruct (url_then_kept 0 w0 _ Hu (kept_refl _)) as (? & ? & ? & ?). split_and!; [done..|intros _; simpl in *; lia].
  - unfold updateConnectionRequestPort. rewrite update_url_eq by done.
    destruct (url_then_kept 0 w0 _ Hu (kept_open_port e _)) as (? & ? & ? & ?). split_and!; [done..|intros _; simpl in *; lia].
  - pose proof (kept_interface e to w0) as H. split; [intros Hf; by apply (fresh_kept _ _ _ H), Hother|].
    destruct (Hk _ _ H) as (? & ? & ?); [simpl; lia|]. by split_and!.
  - assert (H : kept 0 w0 (writePreferredIPVersion to w0)) by (destruct to; by apply kept_frame).
    split; [intros Hf; by apply (fresh_kept _ _ _ H), Hother|]. destruct (Hk _ _ H) as (? & ? & ?); [simpl; lia|]. by split_and!.
Qed.

Lemma fresh_step ev w :
  automatic ev = true -> UpdateConnRequestURL (data w) = true -> fresh w ->
  fresh (step ev w) /\ UpdateConnRequestURL (data (step ev w)) = true /\ stopped (step ev w) = stopped w.
Proof.
  intros Ha Hu Hf. assert (Hd : (exists e, ev = Dispatch e) \/ forall e, ev <> Dispatch e) by (destruct ev; naive_solver).
  destruct Hd as [[e ->]|Hd].
  - unfold step. destruct (stopped w) eqn:Es; [by rewrite Es|].
    destruct (dispatch_fresh e w Hu) as (Hf' & ? & E & _). rewrite E, Es. split_and!; [by apply Hf'|done|done].
  - destruct (kept_step ev w Ha Hd) as [n Hk]. split; [by apply (fresh_kept _ _ _ Hk)|].
    destruct Hk as [_ _ E1 E2]. by rewrite E1, E2.
Qed.

Lemma fresh_drain es w :
  UpdateConnRequestURL (data w) = true -> stopped w = false -> fresh w -> (weight (queue w) <= length es)%nat ->
  queue (run (map Dispatch es) w) = [] /\ fresh (run (map Dispatch es) w).
Proof.
  revert w. induction es as [|e es IH]; intros w Hu Hs Hf Hle; simpl in *.
  - split; [|done]. destruct (queue w) as [|ev q]; [done|]. destruct ev; simpl in Hle; lia.
  - unfold step. rewrite Hs. destruct (dispatch_fresh e w Hu) as (H1 & H2 & H3 & H4).
    apply IH; [done|congruence|by apply H1|]. destruct (queue w) as [|ev q] eqn:Eq.
    + unfold dispatch. rewrite Eq, Eq. simpl. lia.
    + specialize (H4 ltac:(done)). lia.
Qed.

End Accepting.

End Facts.

End ConnRequestFacts.
