(* ===== verification/ConnRequestSpec.v ===== *)
(** * ConnRequestSpec: properties of the connection request address and of the
    supervision of cwmpd

    The URL follows the parameters; the process is the state machine [dstep]:
    at most one runs, and one that ended is started again.  [calm] is the
    preorder of the callbacks that leave the process and the start-up alone. *)

From Stdlib Require Import ZArith Lia Ascii.
From stdpp Require Import base list strings pretty relations.
From S2P Require Import Prelude CString ConnRequest ConnRequestFacts.

Module ConnRequestSpec.
Import ConnRequest ConnRequestFacts.

Section Spec.

Context {Sys : system}.
Implicit Types w : world.
Implicit Types d : daemon.

(** ** The URL *)

Lemma kept_changed n w w' : kept n w w' -> address (data w') <> address (data w) -> fresh w'.
Proof.
  intros [(q & E & _ & H) _ _ _] Hne. left. rewrite E, refreshing_app.
  destruct (announced_refreshing _ _ _ H) as [->|]; [apply orb_true_r|done].
Qed.

Lemma changed_fresh ev w :
  (forall n, accepts n = true) -> automatic ev = true -> UpdateConnRequestURL (data w) = true ->
  address (data (step ev w)) <> address (data w) -> fresh (step ev w).
Proof.
  intros Hacc Ha Hu Hne. assert (Hd : (exists e, ev = Dispatch e) \/ forall e, ev <> Dispatch e) by (destruct ev; naive_solver).
  destruct Hd as [[e ->]|Hd].
  - unfold step in *. destruct (stopped w); [done|]. unfold dispatch in *. destruct (queue w) as [|x q]; [done|].
    set (w0 := with_queue q w) in *. change (UpdateConnRequestURL (data w0) = true) in Hu.
    change (address (data (handle e x w0)) <> address (data w0)) in Hne.
    destruct x as [| | |to|to]; cbn [handle] in *.
    + rewrite host_changed_eq by done. by apply (url_then_kept Hacc 1 w0), kept_after_url.
    + unfold updateConnectionRequestPath. rewrite update_url_eq by done. by apply (url_then_kept Hacc 0 w0), kept_refl.
    + unfold updateConnectionRequestPort. rewrite update_url_eq by done. by apply (url_then_kept Hacc 0 w0), kept_open_port.
    + by apply (kept_changed 4 w0); [apply kept_interface|].
    + by apply (kept_changed 0 w0); [destruct to; by apply kept_frame|].
  - destruct (kept_step ev w Ha Hd) as [n Hk]. by apply (kept_changed n w).
Qed.

(** C10: the connection request URL follows its parameters.  In every state with
    automatic updates and a plugin that is not stopped, when a step changes the
    host, the port or the path -- a new address of the interface, a new random
    path, a write of another process -- and every transaction is accepted, then,
    whatever [automatic] events happen before the event loop has emptied its queue
    -- all but the RPC that takes over a URL and the exit of the plugin --, the
    loop empties it after at most [weight] dispatches and ConnectionRequestURL is
    http://host:port/path of the current parameters. *)
Theorem url_follows_address (w : world) (change : event) (l : list event) (es : list env)
    (Hacc : forall n, accepts n = true) (Hc : automatic change = true)
    (Hl : Forall (fun ev => automatic ev = true) l) (Hw : UpdateConnRequestURL (data w) = true /\ stopped w = false) :
  let w1 := step change w in
  let w2 := run l w1 in
  address (data w1) <> address (data w) -> (weight (queue w2) <= length es)%nat ->
  let w3 := run (map Dispatch es) w2 in
  queue w3 = [] /\ ConnectionRequestURL (data w3) = expected (data w3).
Proof.
  intros w1 w2 Hne Hle w3. destruct Hw as [Hu Hs].
  assert (H : fresh w2 /\ UpdateConnRequestURL (data w2) = true /\ stopped w2 = false).
  { apply (run_invariant step (fun ev => automatic ev = true)
      (fun w => fresh w /\ UpdateConnRequestURL (data w) = true /\ stopped w = false)); [|done|].
    - intros ev x Ha (H1 & H2 & H3). rewrite <- H3. by apply fresh_step.
    - split; [by apply changed_fresh|]. assert (Hd : UpdateConnRequestURL (data w1) = true /\ stopped w1 = stopped w);
        [|destruct Hd as [-> ->]; done].
      assert (Hd : (exists e, change = Dispatch e) \/ forall e, change <> Dispatch e) by (destruct change; naive_solver).
      destruct Hd as [[e ->]|Hd]; [|unfold w1; by destruct (kept_step change w Hc Hd) as [n [_ _ -> ->]]].
      unfold w1, step. rewrite Hs. by destruct (dispatch_fresh Hacc e w Hu) as (_ & -> & -> & _). }
  destruct H as (Hf & Hu2 & Hs2). destruct (fresh_drain Hacc es w2 Hu2 Hs2 Hf Hle) as [E Hf3]. fold w3 in E, Hf3.
  split; [done|]. destruct Hf3 as [Hf3|Hf3]; [by rewrite E in Hf3|done].
Qed.

(** ** The process *)

(** What can happen to the process until the plugin stops: the service of the
    firewall changes; without a handle a process is started, which may fail; a
    process ends, and if its slot is connected its handle is dropped and a restart
    timer armed; a timer expires.  In the stand-alone set-up nothing is started. *)
Definition slot : cwmp_proc_ctx_t := {| ctx_proc := None; ctx_cb := CWMPD_PROC_STOPPED; ctx_clean_cb := None |}.

Definition without (p : nat) : list nat -> list nat := List.filter (fun q => negb (Nat.eqb q p)).

Inductive dstep : daemon -> daemon -> Prop :=
| d_fw v d : dstep d (set_fw v d)
| d_spawn p (ok connected : bool) d :
    standalone = false -> cwmpd_proc d = None ->
    dstep d {| cwmpd_proc := Some p; context := if connected then Some slot else None;
               running := running d ++ (if ok then [p] else []);
               commands := commands d ++ [build_cwmpd_proc_args]; restart_timers := restart_timers d; fw := fw d |}
| d_end p d :
    p ∈ running d -> cwmpd_proc d <> Some p \/ context d = None -> dstep d (set_running (without p (running d)) d)
| d_restart p id d :
    p ∈ running d -> cwmpd_proc d = Some p -> context d = Some slot ->
    dstep d (set_restart_timers (restart_timers d ++ [id]) (set_proc None (set_running (without p (running d)) d)))
| d_timer id d : dstep d (set_restart_timers (without id (restart_timers d)) d).

Definition slotted d : Prop := context d = None \/ context d = Some slot.

Lemma dstep_slotted d d' : dstep d d' -> slotted d -> slotted d'.
Proof. intros H. destruct H as [ |p ok connected d _ _| | | ]; try done. destruct connected; [by right|by left]. Qed.

(** *** Callbacks that leave the process alone *)

Record calm w w' : Prop := {
  c_proc : proc w' = proc w;
  c_init : init_done w' = init_done w;
  c_avoided : cwmpd_start_avoided w' = cwmpd_start_avoided w;
  c_deferred : deferred_init_timer w' = deferred_init_timer w;
}.

#[export] Instance calm_preorder : PreOrder calm.
Proof. split; [by intros w|]. intros w1 w2 w3 [] []. constructor; congruence. Qed.

Lemma calm_trans_apply f evs w : calm w (trans_apply f evs w).
Proof. done. Qed.

Lemma calm_update_url w : calm w (update_conn_req_url w).
Proof. unfold update_conn_req_url. by destruct (negb _). Qed.

Lemma calm_update_host ip w : calm w (cwmp_plugin_update_conreq_host ip w).
Proof. unfold cwmp_plugin_update_conreq_host. by destruct (UpdateConnRequestURL _). Qed.

Lemma calm_updateLocalIP w : calm w (updateLocalIP w).
Proof. unfold updateLocalIP. set (w1 := with_intf _ w). etrans; [|apply calm_update_host]. done. Qed.

Lemma calm_ipv6 ip w : calm w (ipv6address_changed_cb ip w).
Proof.
  unfold ipv6address_changed_cb. set (w1 := with_intf _ w). assert (calm w w1) by done.
  destruct (wanipmode _); [done|etrans; [done|apply calm_updateLocalIP]..].
Qed.

Lemma calm_ipv4 ip w : calm w (ipv4address_changed_cb ip w).
Proof.
  unfold ipv4address_changed_cb. set (w1 := with_intf _ w). assert (calm w w1) by done.
  destruct (wanipmode _); [etrans; [done|apply calm_updateLocalIP]| |etrans; [done|apply calm_updateLocalIP]].
  destruct (negb _); [etrans; [done|apply calm_updateLocalIP]|done].
Qed.

Lemma calm_open_queries e w : calm w (cwmp_plugin_netmodel_open_queries e w).
Proof.
  unfold cwmp_plugin_netmodel_open_queries.
  set (w1 := match first6 e with Some r => _ | None => w end).
  set (w2 := match first4 e with Some r => _ | None => w1 end).
  assert (H1 : calm w w1) by (subst w1; destruct (first6 e); [apply calm_ipv6|done]).
  assert (H2 : calm w1 w2) by (subst w2; destruct (first4 e); [apply calm_ipv4|done]).
  transitivity w2; [by etrans|done].
Qed.

Lemma calm_find_ip e w : calm w (cwmp_plugin_netmodel_find_ip e w).
Proof. unfold cwmp_plugin_netmodel_find_ip. destruct (streq _ _); [done|apply calm_open_queries]. Qed.

Lemma calm_interface e to w : calm w (writeInterface e to w).
Proof.
  unfold writeInterface. destruct to as [i|]; [|done]. destruct (streq i ""); [done|].
  transitivity (cwmp_plugin_netmodel_close_queries w); [done|apply calm_open_queries].
Qed.

Lemma calm_create_path e ip w : calm w (cwmp_plugin_create_conreq_path e ip w).
Proof. unfold cwmp_plugin_create_conreq_path. by destruct (new_path _ _ _). Qed.

Lemma calm_bus_set x w : calm w (bus_set x w).
Proof. destruct x; cbn [bus_set]; try done; by case_goal. Qed.

Lemma calm_update_rpc update host port w : calm w (ManagementServer_updateConnectionRequestURL update host port w).1.
Proof.
  unfold ManagementServer_updateConnectionRequestURL. destruct (negb update); [done|]. destruct host as [h|]; [|done].
  by destruct (_ || _).
Qed.

(** *** Callbacks that change it *)

Lemma dsteps_open e w : rtc dstep (proc w) (proc (open_cwmpd_listening_port e w)).
Proof. unfold open_cwmpd_listening_port. destruct (fw_ok e); [|done]. apply rtc_once. constructor. Qed.

Lemma dsteps_close w : rtc dstep (proc w) (proc (close_cwmpd_listening_port w)).
Proof. unfold close_cwmpd_listening_port. destruct (cwmpd_proc _); [|done]. apply rtc_once. constructor. Qed.

Lemma dsteps_start e w : rtc dstep (proc w) (proc (start_cwmpd e w)).
Proof.
  unfold start_cwmpd. destruct standalone eqn:Hsa; [apply dsteps_open|]. destruct (cwmpd_proc (proc w)) eqn:E; [done|].
  etrans; [|apply (dsteps_open e (spawn e w))]. apply rtc_once. unfold spawn. simpl.
  by apply (d_spawn (next w) (start_ok e) (ctx_ok e) (proc w)).
Qed.

Lemma dsteps_stop p w : slotted (proc w) -> rtc dstep (proc w) (proc (process_stops p w)).
Proof.
  intros Hs. unfold process_stops. destruct (is_running p w) eqn:Er; [|done].
  assert (Hin : p ∈ running (proc w)).
  { unfold is_running in Er. apply existsb_exists in Er as (q & Hq & E). apply Nat.eqb_eq in E as <-. by apply list_elem_of_In. }
  destruct (bool_decide _) eqn:Eb.
  - apply bool_decide_eq_true in Eb. simpl in Eb. apply rtc_once. destruct Hs as [Hs|Hs]; simpl; rewrite Hs; simpl.
    + apply d_end; [done|by right].
    + by apply (d_restart p).
  - apply bool_decide_eq_false in Eb. apply rtc_once. simpl. apply d_end; [done|by left].
Qed.

Lemma dsteps_after_url e host w : rtc dstep (proc w) (proc (after_url e host w)).
Proof.
  unfold after_url. destruct (usable host); [|apply dsteps_close].
  set (w1 := if conn_req_path_created w then _ else _).
  assert (H : calm w w1).
  { subst w1. destruct (conn_req_path_created w); [done|]. etrans; [apply (calm_create_path e host)|done]. }
  rewrite <- (c_proc _ _ H).
  destruct (match get_cwmpd_subproc w1 with None => true | Some p => _ end); [|apply dsteps_open].
  destruct (init_done w1); [apply dsteps_start|done].
Qed.

Lemma dsteps_step ev w : ev <> Exit -> slotted (proc w) -> rtc dstep (proc w) (proc (step ev w)).
Proof.
  intros He Hs. unfold step. destruct (stopped w); [done|].
  destruct ev as [e|x|u h p|k|ip|ip|id|e id|e|p|]; try done.
  - unfold dispatch. destruct (queue w) as [|x q]; [done|]. change (proc w) with (proc (with_queue q w)).
    set (w0 := with_queue q w). destruct x as [| | |to|to]; cbn [handle].
    + unfold updateConnectionRequestURL. destruct (UpdateConnRequestURL (data w0)); [|done].
      apply (dsteps_after_url e (ConnRequestHost (data w0)) (transac_new_connection_request_url _ w0)).
    + unfold updateConnectionRequestPath. by rewrite (c_proc _ _ (calm_update_url w0)).
    + unfold updateConnectionRequestPort. etrans; [|apply dsteps_open]. by rewrite (c_proc _ _ (calm_update_url w0)).
    + by rewrite (c_proc _ _ (calm_interface e to w0)).
    + by destruct to.
  - by rewrite (c_proc _ _ (calm_bus_set x w)).
  - by rewrite (c_proc _ _ (calm_update_rpc u h p w)).
  - destruct (query_ipv4 _); [|done]. by rewrite (c_proc _ _ (calm_ipv4 ip w)).
  - destruct (query_ipv6 _); [|done]. by rewrite (c_proc _ _ (calm_ipv6 ip w)).
  - unfold wait_timer_expires, ipv6_timer_cb. destruct (existsb _ _); [|done].
    by rewrite (c_proc _ _ (calm_updateLocalIP _)).
  - unfold restart_timer_expires. destruct (existsb _ _); [|done]. etrans; [|apply dsteps_start].
    apply rtc_once. apply d_timer.
  - destruct (deferred_init_timer w); [|done]. unfold deferred_init_timer_cb.
    match goal with |- context [cwmp_plugin_netmodel_find_ip e ?x] => set (w1 := x) end.
    pose proof (c_proc _ _ (calm_find_ip e w1)) as E. change (proc w) with (proc w1).
    destruct (cwmpd_start_avoided (cwmp_plugin_netmodel_find_ip e w1)); rewrite <- E; [apply dsteps_start|done].
  - by apply dsteps_stop.
Qed.

(** *** One process *)

Lemma exit_or (ev : event) : ev = Exit \/ ev <> Exit.
Proof. destruct ev; auto. Qed.

Definition single d : Prop := running d = [] \/ exists p, cwmpd_proc d = Some p /\ running d = [p].

Lemma without_self p : without p [p] = [].
Proof. unfold without. simpl. by rewrite Nat.eqb_refl. Qed.

Lemma dstep_single d d' : dstep d d' -> single d -> single d'.
Proof.
  intros H Hs. destruct H as [v d|p ok c d _ Hn|p d Hin Hc|p id d Hin Hp Hc|id d]; try done.
  - destruct Hs as [Hs|(q & E & _)]; [|congruence]. unfold single. simpl. rewrite Hs.
    destruct ok; [right; by exists p|by left].
  - left. destruct Hs as [Hs|(q & E & Hs)]; simpl; rewrite Hs in *; [done|].
    apply list_elem_of_singleton in Hin as ->. apply without_self.
  - left. destruct Hs as [Hs|(q & E & Hs)]; simpl; rewrite Hs in *; [done|].
    apply list_elem_of_singleton in Hin as ->. apply without_self.
Qed.

Lemma stop_single w : single (proc w) -> slotted (proc w) -> single (proc (stop_cwmpd w)) /\ slotted (proc (stop_cwmpd w)).
Proof.
  intros H Hs. unfold stop_cwmpd, close_cwmpd_listening_port. destruct standalone; [by destruct (cwmpd_proc (proc w))|].
  destruct (cwmpd_proc (proc w)) as [p|] eqn:E; [|done]. split; [|done]. left. simpl.
  destruct H as [->|(q & E' & ->)]; [done|]. rewrite E in E'. injection E' as ->. apply without_self.
Qed.

Lemma step_single ev w : single (proc w) /\ slotted (proc w) -> single (proc (step ev w)) /\ slotted (proc (step ev w)).
Proof.
  intros [H Hs]. destruct (exit_or ev) as [->|He].
  - unfold step. destruct (stopped w); [done|]. by apply (stop_single w).
  - pose proof (dsteps_step ev w He Hs) as Hr. revert Hr H Hs. generalize (proc w), (proc (step ev w)).
    induction 1 as [|x y z Hxy _ IH]; [done|]. intros H Hs. apply IH; [by eapply dstep_single|by eapply dstep_slotted].
Qed.

(** At most one cwmpd runs at a time, and it is the one the plugin has a
    handle of -- in every run of the plugin, whatever the order of addresses,
    expired timers, ended processes, failed starts and the end of the plugin. *)
Theorem one_daemon_at_a_time (t : bool) (d : dm) (l : list event) :
  let x := proc (run l (cwmp_plugin_start t d)) in
  (length (running x) <= 1)%nat /\ forall p, p ∈ running x -> cwmpd_proc x = Some p.
Proof.
  intros x. assert (H : single x /\ slotted x).
  { apply (run_invariant_all step (fun w => single (proc w) /\ slotted (proc w))); [intros; by apply step_single|].
    split; by left. }
  destruct H as [[->|(p & E & ->)] _]; simpl; (split; [lia|]); intros q Hq; [by apply elem_of_nil in Hq|].
  by apply list_elem_of_singleton in Hq as ->.
Qed.

(** C34: until it is stopped the plugin implements the state machine of a
    supervised process, [dstep]: it starts a process only without a handle, and
    the end of a process whose slot is connected drops the handle and arms a
    restart timer. *)
Theorem process_refines_machine (t : bool) (d : dm) (l : list event) (Hl : Exit ∉ l) :
  rtc dstep (proc (cwmp_plugin_start t d)) (proc (run l (cwmp_plugin_start t d))).
Proof.
  apply (run_invariant step (fun ev => ev <> Exit)
    (fun w => rtc dstep (proc (cwmp_plugin_start t d)) (proc w) /\ slotted (proc w))).
  - intros ev w He [Hr Hs]. pose proof (dsteps_step ev w He Hs) as H. split; [by etrans|].
    revert H Hs. generalize (proc w), (proc (step ev w)).
    induction 1 as [|x y z Hxy _ IH]; [done|]. intros Hs. apply IH. by eapply dstep_slotted.
  - rewrite Forall_forall. by intros ev Hin ->.
  - split; [done|by left].
Qed.

(** A start that fails is final.  If the process cannot be created -- the
    result of the start is not looked at and the handle stays -- cwmpd never
    runs again, whatever happens until the plugin stops, and neither the next
    address nor a restart timer tries again. *)
Theorem failed_start_is_final (w : world) (e : env) (l : list event)
    (Hw : cwmpd_proc (proc w) = None /\ running (proc w) = []) (He : start_ok e = false)
    (Hs : standalone = false /\ slotted (proc w)) :
  let w1 := start_cwmpd e w in
  cwmpd_proc (proc w1) <> None /\ running (proc (run l w1)) = [].
Proof.
  intros w1. destruct Hs as [Hsa Hs], Hw as [Hp Hr].
  assert (H1 : cwmpd_proc (proc w1) <> None /\ running (proc w1) = [] /\ slotted (proc w1)).
  { unfold w1, start_cwmpd, open_cwmpd_listening_port. rewrite Hsa, Hp.
    assert (Hc : slotted (proc (spawn e w))) by (unfold slotted; simpl; destruct (ctx_ok e); auto).
    destruct (fw_ok e); simpl; rewrite Hr, He; by split_and!. }
  split; [apply H1|].
  assert (H : (stopped (run l w1) = true \/ cwmpd_proc (proc (run l w1)) <> None) /\
    running (proc (run l w1)) = [] /\ slotted (proc (run l w1))); [|apply H].
  apply (run_invariant_all step (fun w => (stopped w = true \/ cwmpd_proc (proc w) <> None) /\
    running (proc w) = [] /\ slotted (proc w))); [|split; [right|]; apply H1].
  clear. intros ev w ([Hst|Hp] & Hr & Hs); [unfold step; rewrite Hst; auto|].
  destruct (exit_or ev) as [->|He].
  - unfold step. destruct (stopped w) eqn:Est; [auto|]. split; [by left|].
    unfold cwmp_plugin_exit, stop_cwmpd, close_cwmpd_listening_port. simpl.
    destruct standalone; destruct (cwmpd_proc (proc w)); simpl; rewrite ?Hr; done.
  - pose proof (dsteps_step ev w He Hs) as H.
    assert (K : cwmpd_proc (proc (step ev w)) <> None /\ running (proc (step ev w)) = [] /\ slotted (proc (step ev w)));
      [|split; [right|]; apply K].
    revert H Hp Hr Hs. generalize (proc w), (proc (step ev w)).
    induction 1 as [|x y z Hxy _ IH]; [done|]. intros Hp Hr Hs.
    assert (Hs' : slotted y) by (by eapply dstep_slotted).
    destruct Hxy as [v d|p ok c d _ Hn|p d Hin Hc|p id d Hin|id d]; try (by apply IH); exfalso;
      rewrite Hr in Hin; by apply elem_of_nil in Hin.
Qed.

(** *** Supervision *)

(** A process runs, or a timer will start one. *)
Definition alive d : Prop := running d <> [] \/ restart_timers d <> [].

(** The handle is that of a running process whose slot is connected. *)
Definition healthy d : Prop :=
  (cwmpd_proc d = None /\ running d = []) \/
  exists p, cwmpd_proc d = Some p /\ running d = [p] /\ context d = Some slot.

(** Automatic steps in which a start of the process succeeds *)
Definition starts_ok (e : env) : Prop := start_ok e = true /\ ctx_ok e = true.

Definition supervisable (ev : event) : Prop :=
  match ev with
  | Dispatch e | RestartTimer e _ | DeferredInit e => starts_ok e
  | UpdateURL _ _ _ | Exit => False
  | _ => True
  end.

Lemma supervisable_automatic ev : supervisable ev -> automatic ev = true.
Proof. by destruct ev. Qed.

(** A usable host is known to whoever starts the process. *)
Definition due w : Prop :=
  usable (ConnRequestHost (data w)) = true ->
  HostChanged ∈ queue w \/ alive (proc w) \/ (cwmpd_start_avoided w = true /\ deferred_init_timer w = true).

Record supervised w : Prop := {
  s_healthy : healthy (proc w);
  s_update : UpdateConnRequestURL (data w) = true;
  s_init : init_done w = true \/ deferred_init_timer w = true;
  s_due : due w;
}.

Lemma healthy_open e w : healthy (proc w) -> healthy (proc (open_cwmpd_listening_port e w)).
Proof. unfold open_cwmpd_listening_port. by destruct (fw_ok e). Qed.

Lemma alive_open e w : alive (proc w) -> alive (proc (open_cwmpd_listening_port e w)).
Proof. unfold open_cwmpd_listening_port. by destruct (fw_ok e). Qed.

Lemma start_running e w :
  standalone = false -> starts_ok e -> healthy (proc w) ->
  healthy (proc (start_cwmpd e w)) /\ running (proc (start_cwmpd e w)) <> [].
Proof.
  intros Hsa [H1 H2] H. unfold start_cwmpd. rewrite Hsa.
  destruct (cwmpd_proc (proc w)) as [p|] eqn:E.
  - split; [done|]. destruct H as [[]|(q & _ & -> & _)]; [congruence|done].
  - assert (Hr : running (proc w) = []) by (destruct H as [[]|(q & ? & _)]; [done|congruence]).
    unfold open_cwmpd_listening_port, spawn, healthy. destruct (fw_ok e); simpl; rewrite Hr, H1, H2; simpl;
      (split; [right; by exists (next w)|done]).
Qed.

Lemma healthy_close w : healthy (proc w) -> healthy (proc (close_cwmpd_listening_port w)).
Proof. unfold close_cwmpd_listening_port. by destruct (cwmpd_proc (proc w)). Qed.

Lemma process_stops_supervised p w :
  healthy (proc w) ->
  healthy (proc (process_stops p w)) /\ (alive (proc w) -> alive (proc (process_stops p w))).
Proof.
  intros H. unfold process_stops. destruct (is_running p w) eqn:Er; [|done].
  unfold is_running in Er. destruct H as [[E1 E2]|(q & E1 & E2 & E3)]; [by rewrite E2 in Er|].
  assert (q = p) as ->.
  { rewrite E2 in Er. simpl in Er. rewrite orb_false_r in Er. symmetry. by apply Nat.eqb_eq. }
  rewrite bool_decide_eq_true_2 by done. simpl. rewrite E3. simpl. split.
  - left. split; [done|]. simpl. rewrite E2. apply without_self.
  - intros _. right. simpl. by destruct (restart_timers _).
Qed.

Lemma due_kept n w w' :
  kept n w w' -> (alive (proc w) -> alive (proc w')) ->
  (cwmpd_start_avoided w = true -> deferred_init_timer w = true ->
    alive (proc w') \/ (cwmpd_start_avoided w' = true /\ deferred_init_timer w' = true)) ->
  due w -> due w'.
Proof.
  intros [(q & E & _ & [Hh|Hh] & _) _ _ _] Ha Hd H Hu; rewrite E, elem_of_app.
  - by left; right.
  - rewrite Hh in Hu. destruct (H Hu) as [?|[?|[? ?]]]; [by left; left|right; left; auto|right; auto].
Qed.

Lemma supervised_calm n w w' :
  kept n w w' -> calm w w' -> supervised w -> supervised w'.
Proof.
  intros Hk [E1 E2 E3 E4] [H1 H2 H3 H4]. pose proof (k_update _ _ _ Hk) as E5.
  constructor; [by rewrite E1|congruence|by rewrite E2, E4|].
  apply (due_kept n w); [done|by rewrite E1| |done]. intros ? ?. right. by rewrite E3, E4.
Qed.

(** The handler of a host keeps the process supervised. *)
Lemma supervised_after_url e host w :
  standalone = false -> starts_ok e -> healthy (proc w) -> UpdateConnRequestURL (data w) = true ->
  (init_done w = true \/ deferred_init_timer w = true) -> ConnRequestHost (data w) = host ->
  supervised (after_url e host w).
Proof.
  intros Hsa He Hh Hu Hi Eh. pose proof (kept_after_url e host w) as Hk. pose proof (k_update _ _ _ Hk) as Eu.
  unfold after_url in *. destruct (usable host) eqn:Us.
  - set (w1 := if conn_req_path_created w then w else _) in *.
    assert (Hc : calm w w1).
    { subst w1. destruct (conn_req_path_created w); [done|]. etrans; [apply (calm_create_path e host)|done]. }
    destruct Hc as [E1 E2 E3 E4]. rewrite <- E1 in Hh. rewrite <- E2, <- E4 in Hi. clearbody w1.
    destruct (match get_cwmpd_subproc w1 with None => true | Some p => _ end) eqn:Er.
    + destruct (init_done w1) eqn:Ei.
      * destruct (start_running e w1 Hsa He Hh) as [H1 H2].
        constructor; [done|congruence| |intros _; right; left; by left].
        left. unfold start_cwmpd, open_cwmpd_listening_port. rewrite Hsa.
        by destruct (cwmpd_proc (proc w1)), (fw_ok e).
      * constructor; [done|congruence|by right; destruct Hi|]. intros _. right. right. by destruct Hi.
    + assert (Hr : running (proc w1) <> []).
      { unfold get_cwmpd_subproc, is_running in Er. destruct (cwmpd_proc (proc w1)); [|done].
        intros E. by rewrite E in Er. }
      constructor; [by apply healthy_open|congruence|by unfold open_cwmpd_listening_port; destruct (fw_ok e)|].
      intros _. right. left. apply alive_open. by left.
  - constructor; [by apply healthy_close|congruence| |].
    + unfold close_cwmpd_listening_port. by destruct (cwmpd_proc (proc w)).
    + intros H. unfold close_cwmpd_listening_port in H. destruct (cwmpd_proc (proc w)); simpl in H; congruence.
Qed.

(** A step that leaves the start-up alone and at least as alive *)
Lemma supervised_alive n w w' :
  kept n w w' -> healthy (proc w') -> (alive (proc w) -> alive (proc w')) ->
  init_done w' = init_done w -> cwmpd_start_avoided w' = cwmpd_start_avoided w ->
  deferred_init_timer w' = deferred_init_timer w -> supervised w -> supervised w'.
Proof.
  intros Hk Hh Ha E1 E2 E3 [H1 H2 H3 H4]. pose proof (k_update _ _ _ Hk) as E5.
  constructor; [done|congruence|by rewrite E1, E3|]. apply (due_kept n w); [done..| |done].
  intros ? ?. right. by rewrite E2, E3.
Qed.

Lemma supervised_url url w : supervised w -> supervised (transac_new_connection_request_url url w).
Proof.
  intros [H1 H2 H3 H4]. unfold transac_new_connection_request_url, trans_apply.
  constructor; simpl; [done|by destruct (accepts _)|done|]. unfold due in *. simpl.
  by destruct (accepts _); rewrite app_nil_r.
Qed.

Lemma supervised_dispatch e w :
  standalone = false -> starts_ok e -> supervised w -> supervised (dispatch e w).
Proof.
  intros Hsa He H. unfold dispatch. destruct (queue w) as [|x q] eqn:Eq; [done|]. set (w0 := with_queue q w).
  assert (Hpop : x <> HostChanged -> supervised w0).
  { intros Hx. destruct H as [H1 H2 H3 H4]. constructor; try done. intros Hu.
    destruct (H4 Hu) as [Hin|]; [|by right]. left. rewrite Eq in Hin. by apply elem_of_cons in Hin as [|]. }
  destruct x as [| | |to|to]; cbn [handle]; try specialize (Hpop ltac:(done)).
  - unfold updateConnectionRequestURL. change (UpdateConnRequestURL (data w0)) with (UpdateConnRequestURL (data w)).
    rewrite (s_update _ H). cbn [negb]. set (w1 := transac_new_connection_request_url _ w0).
    assert (E : proc w1 = proc w /\ init_done w1 = init_done w /\ deferred_init_timer w1 = deferred_init_timer w /\
      UpdateConnRequestURL (data w1) = true /\ ConnRequestHost (data w1) = ConnRequestHost (data w0)).
    { subst w1. unfold transac_new_connection_request_url, trans_apply. simpl. pose proof (s_update _ H).
      by destruct (accepts _). }
    destruct E as (E1 & E2 & E3 & E4 & E5).
    apply (supervised_after_url e (ConnRequestHost (data w0)) w1); try done; rewrite ?E1, ?E2, ?E3; apply H.
  - unfold updateConnectionRequestPath, update_conn_req_url. rewrite (s_update _ Hpop). by apply supervised_url.
  - unfold updateConnectionRequestPort, update_conn_req_url. rewrite (s_update _ Hpop).
    apply (supervised_url (assembleConnectionRequestURL (data w0) (ConnRequestHost (data w0)) (ConnRequestPort (data w0)))) in Hpop.
    set (w1 := transac_new_connection_request_url _ w0) in *.
    apply (supervised_alive 0 w1); [apply kept_open_port|apply healthy_open, Hpop|apply alive_open|..];
      try (unfold open_cwmpd_listening_port; by destruct (fw_ok e)).
  - apply (supervised_calm 4 w0); [apply kept_interface|apply calm_interface|done].
  - apply (supervised_calm 0 w0); [destruct to; by apply kept_frame|by destruct to|done].
Qed.

Lemma dispatch_stopped e w : stopped (dispatch e w) = stopped w.
Proof.
  unfold dispatch. destruct (queue w) as [|x q]; [done|]. change (stopped w) with (stopped (with_queue q w)).
  set (w0 := with_queue q w). destruct x as [| | |to|to]; cbn [handle].
  - unfold updateConnectionRequestURL. destruct (negb _); [done|].
    apply (k_stopped _ _ _ (kept_after_url e (ConnRequestHost (data w0)) (transac_new_connection_request_url _ w0))).
  - unfold updateConnectionRequestPath, update_conn_req_url. by destruct (negb _).
  - unfold updateConnectionRequestPort. rewrite (k_stopped _ _ _ (kept_open_port e _)).
    unfold update_conn_req_url. by destruct (negb _).
  - apply (k_stopped _ _ _ (kept_interface e to w0)).
  - by destruct to.
Qed.

Lemma dispatch_update e w :
  UpdateConnRequestURL (data w) = true -> UpdateConnRequestURL (data (dispatch e w)) = true.
Proof.
  intros Hu. unfold dispatch. destruct (queue w) as [|x q]; [done|].
  set (w0 := with_queue q w). change (UpdateConnRequestURL (data w0) = true) in Hu.
  assert (Hurl : forall url, UpdateConnRequestURL (data (transac_new_connection_request_url url w0)) = true).
  { intros url. unfold transac_new_connection_request_url, trans_apply. simpl. by destruct (accepts _). }
  destruct x as [| | |to|to]; cbn [handle].
  - unfold updateConnectionRequestURL. rewrite Hu. cbn [negb].
    set (w1 := transac_new_connection_request_url _ w0).
    pose proof (k_update _ _ _ (kept_after_url e (ConnRequestHost (data w0)) w1)) as E.
    unfold w1 in E. rewrite Hurl in E. exact E.
  - unfold updateConnectionRequestPath, update_conn_req_url. by destruct (negb _).
  - unfold updateConnectionRequestPort. rewrite (k_update _ _ _ (kept_open_port e _)).
    unfold update_conn_req_url. by destruct (negb _).
  - by rewrite (k_update _ _ _ (kept_interface e to w0)).
  - by destruct to.
Qed.

Lemma update_step ev w :
  automatic ev = true -> UpdateConnRequestURL (data w) = true -> UpdateConnRequestURL (data (step ev w)) = true.
Proof.
  intros Ha Hu. assert (Hc : (exists e, ev = Dispatch e) \/ forall e, ev <> Dispatch e) by (destruct ev; naive_solver).
  destruct Hc as [[e ->]|Hc].
  - unfold step. destruct (stopped w); [done|by apply dispatch_update].
  - destruct (kept_step ev w Ha Hc) as [n Hk]. by rewrite (k_update _ _ _ Hk).
Qed.

Lemma step_stopped ev w : automatic ev = true -> stopped (step ev w) = stopped w.
Proof.
  intros Ha. assert (Hc : (exists e, ev = Dispatch e) \/ forall e, ev <> Dispatch e) by (destruct ev; naive_solver).
  destruct Hc as [[e ->]|Hc].
  - unfold step. destruct (stopped w) eqn:E; [done|by rewrite dispatch_stopped].
  - destruct (kept_step ev w Ha Hc) as [n Hk]. apply (k_stopped _ _ _ Hk).
Qed.

Lemma supervised_step ev w :
  standalone = false -> supervisable ev -> supervised w -> supervised (step ev w).
Proof.
  intros Hsa Hev H. unfold step. destruct (stopped w); [done|].
  destruct ev as [e|x|u h p|k|ip|ip|id|e id|e|p|]; try done.
  - by apply supervised_dispatch.
  - destruct (kept_bus_set x w) as [n Hk]. apply (supervised_calm n w); [done|apply calm_bus_set|done].
  - apply (supervised_calm 0 w); [|done|done]. apply (kept_trans_apply (set_parameter_key k) []); [done..|by apply announced_same].
  - destruct (query_ipv4 _); [|done]. apply (supervised_calm 2 w); [apply kept_ipv4|apply calm_ipv4|done].
  - destruct (query_ipv6 _); [|done]. apply (supervised_calm 2 w); [apply kept_ipv6|apply calm_ipv6|done].
  - unfold wait_timer_expires, ipv6_timer_cb. destruct (existsb _ _); [|done]. set (w1 := with_intf _ w).
    assert (H1 : supervised w1) by (apply (supervised_calm 0 w); [by apply kept_frame|done..]).
    apply (supervised_calm 2 w1); [apply kept_updateLocalIP|apply calm_updateLocalIP|done].
  - unfold restart_timer_expires. destruct (existsb _ _); [|done]. set (w1 := with_proc _ w).
    destruct (start_running e w1 Hsa Hev (s_healthy _ H)) as [H1 H2].
    apply (supervised_alive 0 w); [|done|by intros _; left|..]; try done;
      [|unfold start_cwmpd, open_cwmpd_listening_port; rewrite Hsa; by destruct (cwmpd_proc (proc w1)), (fw_ok e)..].
    apply (kept_trans 0 0 _ w1); [by apply kept_frame|apply kept_start].
  - destruct (deferred_init_timer w) eqn:Ed; [|done]. unfold deferred_init_timer_cb.
    match goal with |- context [cwmp_plugin_netmodel_find_ip e ?x] => set (w1 := x) end.
    pose proof (calm_find_ip e w1) as Hc. pose proof (kept_find_ip e w1) as Hk. pose proof (k_update _ _ _ Hk) as Eu.
    destruct Hc as [E1 E2 E3 E4]. destruct (cwmpd_start_avoided (cwmp_plugin_netmodel_find_ip e w1)) eqn:Ea.
    + destruct (start_running e (cwmp_plugin_netmodel_find_ip e w1) Hsa Hev) as [H1 H2]; [rewrite E1; apply H|].
      pose proof (kept_start e (cwmp_plugin_netmodel_find_ip e w1)) as Hk2. pose proof (k_update _ _ _ Hk2) as Eu2.
      constructor; [done|rewrite Eu2, Eu; apply H| |intros _; right; left; by left].
      left. unfold start_cwmpd, open_cwmpd_listening_port. rewrite Hsa.
      by destruct (cwmpd_proc (proc (cwmp_plugin_netmodel_find_ip e w1))), (fw_ok e).
    + constructor; [rewrite E1; apply H|rewrite Eu; apply H|left; by rewrite E2|].
      apply (due_kept 4 w1); [done|by rewrite E1| |].
      * intros _ Hdf. by simpl in Hdf.
      * intros Hu. destruct (s_due _ H Hu) as [?|[?|[Ha _]]]; [by left|by right; left|].
        exfalso. unfold w1 in E3. simpl in E3. congruence.
  - pose proof (kept_process_stops p w) as Hk. destruct (process_stops_supervised p w (s_healthy _ H)) as [H1 H2].
    apply (supervised_alive 0 w); try done; unfold process_stops, proc_finished_cb, call_back;
      destruct (is_running p w); try done; destruct (bool_decide _); try done; simpl;
      destruct (context (proc w)) as [c|]; try done; destruct (Nat.eqb _ _), (ctx_clean_cb c); try done;
      destruct (Nat.eqb _ _); done.
Qed.

(** C9: cwmpd is supervised.  In every run of a plugin that is not stand-alone and
    starts with the default host and automatic updates of the URL, in which every
    start of the process succeeds and neither the RPC that takes over a URL nor the
    exit of the plugin occurs ([supervisable]): as soon as the host is usable and
    its event dispatched, cwmpd runs, or a timer is armed whose expiry starts it --
    the restart timer of a process that ended, or the deferred initialisation when
    the address came before it.  A start that fails is final
    ([failed_start_is_final]). *)
Theorem daemon_supervised (d : dm) (l : list event) (e : env)
    (Hsa : standalone = false) (Hd : ConnRequestHost d = DEFAULT_CRH /\ UpdateConnRequestURL d = true)
    (Hl : Forall supervisable l) (He : starts_ok e) :
  let w := run l (cwmp_plugin_start true d) in
  usable (ConnRequestHost (data w)) = true -> HostChanged ∉ queue w ->
  running (proc w) <> [] \/
  exists ev, supervisable ev /\ (ev = DeferredInit e \/ exists id, ev = RestartTimer e id) /\
    running (proc (step ev w)) <> [].
Proof.
  intros w Hu Hq.
  assert (H : supervised w /\ stopped w = false).
  { apply (run_invariant step supervisable (fun w => supervised w /\ stopped w = false)).
    - intros ev x Hev [H1 H2]. split; [by apply supervised_step|]. rewrite <- H2.
      by apply step_stopped, supervisable_automatic.
    - done.
    - split; [|done]. constructor; [by left|apply Hd|by right|].
      intros Hus. unfold cwmp_plugin_start in Hus. cbn [data] in Hus. destruct Hd as [E _]. by rewrite E in Hus. }
  destruct H as [[H1 H2 H3 H4] Hs]. destruct (H4 Hu) as [?|[[?|Ht]|[Ha Hdf]]]; [done|by left| |]; right.
  - destruct (restart_timers (proc w)) as [|id ts] eqn:Et; [done|].
    exists (RestartTimer e id). split_and!; [done|by right; exists id|]. unfold step. rewrite Hs.
    unfold restart_timer_expires. rewrite Et. simpl existsb. rewrite Nat.eqb_refl. cbn [orb].
    by apply start_running.
  - exists (DeferredInit e). split_and!; [done|by left|]. unfold step. rewrite Hs, Hdf. unfold deferred_init_timer_cb.
    match goal with |- context [cwmp_plugin_netmodel_find_ip e ?x] => set (w1 := x) end.
    destruct (calm_find_ip e w1) as [E1 E2 E3 E4]. rewrite E3. simpl. rewrite Ha. apply start_running; try done. by rewrite E1.
Qed.

End Spec.

End ConnRequestSpec.
