(* ===== verification/ConnRequestAddress.v ===== *)
(** * ConnRequestAddress: the published address and the path of the URL

    Which address of the interface becomes the host of the connection request
    ([preferred_address_published]), and what the path
    in the URL depends on ([path_shape], [mac_path_of_four_bytes]). *)

From Stdlib Require Import ZArith Lia Ascii.
From stdpp Require Import base list strings pretty.
From S2P Require Import Prelude CString ConnRequest ConnRequestFacts ConnRequestSpec.

Module ConnRequestAddress.
Import CString ConnRequest ConnRequestFacts ConnRequestSpec.

Section Address.

Context {Sys : system}.
Implicit Types w : world.

(** ** The published address *)

(** The addresses a mode takes, in the order of preference *)
Definition preferred (m : wan_ip_mode_t) (v4 v6 : string) : list string :=
  match m with IPv4ONLY => [v4] | IPv6PREFERRED => [v6; v4] | IPANY => [v4; v6] end.

Definition best (i : interface_state) : option string :=
  List.find (fun a => negb (streq a "")) (preferred (wanipmode i) (ipv4address i) (ipv6address i)).

Lemma getLocalIP_best i : getLocalIP i = default DEFAULT_CRH (best i).
Proof.
  unfold getLocalIP, best. destruct (wanipmode i); simpl;
    destruct (streq (ipv4address i) ""), (streq (ipv6address i) ""); done.
Qed.

(** The events that leave the interface and the host alone *)
Record still w w' : Prop := {
  st_intf : intf w' = intf w;
  st_host : ConnRequestHost (data w') = ConnRequestHost (data w);
}.

#[local] Instance still_preorder : PreOrder still.
Proof. split; [by intros w|]. intros w1 w2 w3 [] []. constructor; congruence. Qed.

Lemma still_trans_apply f evs w :
  ConnRequestHost (f (data w)) = ConnRequestHost (data w) -> still w (trans_apply f evs w).
Proof. intros H. constructor; [done|]. unfold trans_apply. simpl. by destruct (accepts _). Qed.

Lemma still_update_url w : still w (update_conn_req_url w).
Proof. unfold update_conn_req_url. destruct (negb _); [done|by apply still_trans_apply]. Qed.

Lemma still_open e w : still w (open_cwmpd_listening_port e w).
Proof. unfold open_cwmpd_listening_port. by destruct (fw_ok e). Qed.

Lemma still_close w : still w (close_cwmpd_listening_port w).
Proof. unfold close_cwmpd_listening_port. by destruct (cwmpd_proc (proc w)). Qed.

Lemma still_start e w : still w (start_cwmpd e w).
Proof.
  unfold start_cwmpd. destruct standalone; [apply still_open|]. destruct (cwmpd_proc (proc w)); [done|].
  transitivity (spawn e w); [done|apply still_open].
Qed.

Lemma still_create_path e ip w : still w (cwmp_plugin_create_conreq_path e ip w).
Proof. unfold cwmp_plugin_create_conreq_path. destruct (new_path _ _ _); [by apply still_trans_apply|done]. Qed.

Lemma still_after_url e host w : still w (after_url e host w).
Proof.
  unfold after_url. destruct (usable host); [|apply still_close].
  set (w1 := if conn_req_path_created w then _ else _).
  assert (H : still w w1).
  { subst w1. destruct (conn_req_path_created w); [done|]. etrans; [apply (still_create_path e host)|done]. }
  destruct (match get_cwmpd_subproc w1 with None => true | Some p => _ end); [|etrans; [exact H|apply still_open]].
  destruct (init_done w1); [etrans; [exact H|apply still_start]|etrans; [exact H|done]].
Qed.

Lemma still_process_stops p w : still w (process_stops p w).
Proof.
  assert (H : forall f x, still x (call_back f x)) by (intros f x; unfold call_back; by destruct (Nat.eqb f _)).
  unfold process_stops, proc_finished_cb. destruct (is_running p w); [|done]. set (w1 := with_proc _ w).
  transitivity w1; [done|]. destruct (bool_decide _); [|done]. destruct (context (proc w1)) as [c|]; [|done].
  destruct (ctx_clean_cb c); [etrans; [|apply H]; apply H|apply H].
Qed.

(** A timer waits for an IPv6 address. *)
Definition waiting (i : interface_state) : Prop :=
  wanipmode i = IPv6PREFERRED /\ exists t ms, ipv6_timer i = Some t /\ (t, ms) ∈ wait_timers i.

Definition published w : Prop :=
  forall a, best (intf w) = Some a -> ConnRequestHost (data w) = a \/ waiting (intf w).

(** Automatic steps in which nobody else sets the host and no new preference
    takes effect *)
Definition untouched (ev : event) w : Prop :=
  match ev with
  | UpdateURL _ _ _ | Exit | BusSet (WriteHost _) => False
  | Dispatch _ => match queue w with PreferredIPVersionChanged _ :: _ => False | _ => True end
  | _ => True
  end.

(** What such steps reach *)
Inductive reach w0 : world -> Prop :=
| reach_start : reach w0 w0
| reach_step ev w : reach w0 w -> untouched ev w -> reach w0 (step ev w).

Section Accepting.

Context (Hacc : forall n, accepts n = true).

Lemma published_still w w' : still w w' -> published w -> published w'.
Proof. intros [E1 E2] H a Ha. rewrite E1, E2 in *. by apply H. Qed.

Lemma update_published w : UpdateConnRequestURL (data w) = true -> published (updateLocalIP w).
Proof.
  intros Hu a Ha. left. revert Ha. unfold updateLocalIP, cwmp_plugin_update_conreq_host. simpl. rewrite Hu.
  unfold trans_apply. simpl. rewrite Hacc. simpl. intros Ha. by rewrite getLocalIP_best, Ha.
Qed.

Lemma published_ipv6 ip w :
  UpdateConnRequestURL (data w) = true -> published w -> published (ipv6address_changed_cb ip w).
Proof.
  intros Hu H. unfold ipv6address_changed_cb. set (w1 := with_intf _ w).
  destruct (wanipmode (intf w1)) eqn:Em; [|by apply update_published..].
  intros a Ha. unfold best in Ha. rewrite Em in Ha. simpl in Em. specialize (H a). unfold best in H. rewrite Em in H.
  destruct (H Ha) as [?|[E _]]; [by left|congruence].
Qed.

Lemma published_ipv4 ip w :
  UpdateConnRequestURL (data w) = true -> published w -> published (ipv4address_changed_cb ip w).
Proof.
  intros Hu H. unfold ipv4address_changed_cb. set (w1 := with_intf _ w).
  destruct (wanipmode (intf w1)) eqn:Em; [by apply update_published| |by apply update_published].
  destruct (negb _); [by apply update_published|]. intros a _. right. split; [done|]. do 2 eexists. split; [done|].
  simpl. apply elem_of_app. right. by apply list_elem_of_singleton.
Qed.

Lemma update_ipv6 ip w : UpdateConnRequestURL (data (ipv6address_changed_cb ip w)) = UpdateConnRequestURL (data w).
Proof. apply (k_update _ _ _ (kept_ipv6 ip w)). Qed.

Lemma published_open_queries e w :
  UpdateConnRequestURL (data w) = true -> published w -> published (cwmp_plugin_netmodel_open_queries e w).
Proof.
  intros Hu H. unfold cwmp_plugin_netmodel_open_queries.
  set (w1 := match first6 e with Some r => _ | None => w end).
  set (w2 := match first4 e with Some r => _ | None => w1 end).
  assert (H1 : published w1 /\ UpdateConnRequestURL (data w1) = true).
  { subst w1. destruct (first6 e); [|done]. split; [by apply published_ipv6|by rewrite update_ipv6]. }
  assert (H2 : published w2) by (subst w2; destruct (first4 e); [by apply published_ipv4; apply H1|apply H1]).
  exact H2.
Qed.

Lemma published_interface e to w :
  UpdateConnRequestURL (data w) = true -> published w -> published (writeInterface e to w).
Proof.
  intros Hu H. unfold writeInterface. destruct to as [i|]; [|done]. destruct (streq i ""); [done|].
  apply published_open_queries; [done|]. intros a Ha. unfold best in Ha. simpl in Ha.
  by destruct (wanipmode (delete_ipv6_timer (intf w))).
Qed.

Lemma published_dispatch e w :
  untouched (Dispatch e) w -> UpdateConnRequestURL (data w) = true -> published w -> published (dispatch e w).
Proof.
  unfold untouched, dispatch. intros Hev Hu H. destruct (queue w) as [|x q]; [done|]. set (w0 := with_queue q w).
  assert (H0 : published w0) by done. destruct x as [| | |to|to]; cbn [handle]; [| | | |done].
  - unfold updateConnectionRequestURL. destruct (negb _); [done|].
    set (w1 := transac_new_connection_request_url _ w0).
    apply (published_still w1); [apply (still_after_url e (ConnRequestHost (data w0)) w1)|].
    apply (published_still w0); [by apply still_trans_apply|done].
  - by apply (published_still w0); [apply still_update_url|].
  - apply (published_still (update_conn_req_url w0)); [apply still_open|].
    by apply (published_still w0); [apply still_update_url|].
  - by apply published_interface.
Qed.

Lemma published_step ev w :
  untouched ev w -> UpdateConnRequestURL (data w) = true -> published w -> published (step ev w).
Proof.
  intros Hev Hu H. unfold step. destruct (stopped w); [done|].
  destruct ev as [e|x|u h p|k|ip|ip|id|e id|e|p|]; try done.
  - by apply published_dispatch.
  - apply (published_still w); [|done]. destruct x as [v|v|v|v|v|v|v]; cbn [bus_set]; [done|..];
      try case_goal; try done; by apply still_trans_apply.
  - apply (published_still w); [|done]. by apply (still_trans_apply (set_parameter_key k)).
  - destruct (query_ipv4 _); [by apply published_ipv4|done].
  - destruct (query_ipv6 _); [by apply published_ipv6|done].
  - unfold wait_timer_expires. destruct (existsb _ _); [by apply update_published|done].
  - unfold restart_timer_expires. destruct (existsb _ _); [|done]. set (w1 := with_proc _ w).
    apply (published_still w1); [apply still_start|done].
  - destruct (deferred_init_timer w); [|done]. unfold deferred_init_timer_cb.
    match goal with |- context [cwmp_plugin_netmodel_find_ip e ?x] => set (w1 := x) end.
    assert (H1 : published (cwmp_plugin_netmodel_find_ip e w1)).
    { unfold cwmp_plugin_netmodel_find_ip. destruct (streq _ _); [done|by apply published_open_queries]. }
    destruct (cwmpd_start_avoided (cwmp_plugin_netmodel_find_ip e w1)); [|done].
    by apply (published_still (cwmp_plugin_netmodel_find_ip e w1)); [apply still_start|].
  - by apply (published_still w); [apply still_process_stops|].
Qed.

Lemma untouched_automatic ev w : untouched ev w -> automatic ev = true.
Proof. by destruct ev as [e|[]| | | | | | | | |]. Qed.

(** The preferred address of the interface is published.  From a state that
    knows no address -- at the start and after a change of the interface -- in
    every sequence of steps in which nobody else sets the host and no new
    preference takes effect: as soon as the interface has an address the mode
    accepts, ConnRequestHost is the most preferred one, or a timer is armed that
    will publish it (IPv6 is preferred, and there is none yet). *)
Theorem preferred_address_published (w0 w : world) (a : string)
    (Hw0 : ipv4address (intf w0) = ""%string /\ ipv6address (intf w0) = ""%string)
    (Hu : UpdateConnRequestURL (data w0) = true /\ stopped w0 = false) (Hr : reach w0 w) (Ha : best (intf w) = Some a) :
  ConnRequestHost (data w) = a \/
  exists id, ConnRequestHost (data (step (WaitTimer id) w)) = a.
Proof.
  assert (H : published w /\ UpdateConnRequestURL (data w) = true /\ stopped w = false).
  { clear Ha. induction Hr as [|ev w Hr (H1 & H2 & H3) Hev].
    - split_and!; [|apply Hu..]. intros b Hb. unfold best in Hb. destruct Hw0 as [E4 E6]. rewrite E4, E6 in Hb.
      by destruct (wanipmode _).
    - pose proof (untouched_automatic _ _ Hev) as Hau.
      split_and!; [by apply published_step|by apply update_step|by rewrite step_stopped]. }
  destruct H as (Hp & Hu1 & Hs). destruct (Hp a Ha) as [?|(Em & t & ms & Et & Hin)]; [by left|right]. exists t.
  unfold step. rewrite Hs. unfold wait_timer_expires.
  assert (existsb (fun x => Nat.eqb x.1 t) (wait_timers (intf w)) = true) as ->.
  { apply existsb_exists. exists (t, ms). rewrite <- list_elem_of_In. split; [done|apply Nat.eqb_refl]. }
  set (w1 := with_intf _ w). unfold ipv6_timer_cb.
  destruct (update_published w1 Hu1 a) as [?|[_ (t' & ms' & E & _)]]; [|done|].
  - unfold updateLocalIP, cwmp_plugin_update_conreq_host. simpl. rewrite Hu1. unfold trans_apply. simpl.
    unfold delete_ipv6_timer. simpl. by rewrite Et.
  - exfalso. revert E. unfold updateLocalIP, cwmp_plugin_update_conreq_host. simpl. rewrite Hu1.
    unfold trans_apply, delete_ipv6_timer. simpl. by rewrite Et.
Qed.

End Accepting.

(** ** The path *)

Lemma char_at_elem (t : cstr) i : 0 <= i < Z.of_nat (length t) -> char_at t i ∈ t.
Proof.
  intros H. unfold char_at. rewrite list_elem_of_In. apply nth_In. lia.
Qed.

Lemma alnum_at (t : cstr) x : forallb isalnum t = true -> t <> [] -> isalnum (char_at t (x mod Z.of_nat (length t))) = true.
Proof.
  intros H Hn. rewrite forallb_forall in H. apply H. rewrite <- list_elem_of_In. apply char_at_elem.
  apply Z.mod_pos_bound. destruct t; [done|simpl; lia].
Qed.

Lemma random_path_chars e n : forallb isalnum (generate_random_url_path e n) = true.
Proof.
  apply forallb_forall. intros c. unfold generate_random_url_path. rewrite in_map_iff. intros (x & <- & _).
  by apply alnum_at.
Qed.

Lemma mac_loop_chars n r s m : forallb isalnum (mac_loop n r s m) = true /\ length (mac_loop n r s m) = n.
Proof.
  revert r s. induction n as [|n IH]; intros r s; cbn [mac_loop]; [done|]. simpl forallb. simpl length.
  rewrite alnum_at by done. match goal with |- context [mac_loop n ?r ?s m] => destruct (IH r s) as [-> ->] end. done.
Qed.

(** A path that is made has sixteen letters and digits, whatever the random
    numbers and the interfaces are; without the variable TR069_URL_PATH a new
    path is made for every type but "Fixed-Default". *)
Theorem path_shape (e : env) (pathType ip : string) (Henv : TR069_URL_PATH = None) :
  match new_path e pathType ip with
  | None => pathType = "Fixed-Default"%string
  | Some p => pathType <> "Fixed-Default"%string /\ length (cs p) = 16%nat /\ forallb isalnum (cs p) = true
  end.
Proof.
  unfold new_path. rewrite Henv. destruct (streq pathType "Fixed-Default") eqn:E; bool_prop; [done|].
  assert (Hr : length (generate_random_url_path e CPE_URL_SIZE) = 16%nat).
  { unfold generate_random_url_path. by rewrite length_map, length_seq. }
  pose proof (mac_loop_chars CPE_URL_SIZE 59 (get_hw_addr_from_ip e ip).1 (get_hw_addr_from_ip e ip).1) as [Hm1 Hm2].
  destruct (starts_with _ _); [|destruct (streq pathType _)]; rewrite cs_of_chars; (split; [done|]);
    split; try done; try apply random_path_chars.
Qed.

Lemma mac_loop_prefix p r s s' m m' :
  mac_loop (length p) r (p ++ s) m = mac_loop (length p) r (p ++ s') m'.
Proof. revert r. induction p as [|c p IH]; intros r; [done|]. cbn [length app mac_loop tail]. by rewrite IH. Qed.

(** The path that is made of the hardware address does not depend on its last
    digit, and of an address whose fifth byte is 128 or more it depends on the
    first four bytes only, since that byte is printed as a 32-bit number. *)
Theorem mac_path_of_four_bytes (e e' : env) (ip ip' : string) (m m' : list Z)
    (Hm : (get_hw_addr_from_ip e ip).1 = print_mac m) (Hm' : (get_hw_addr_from_ip e' ip').1 = print_mac m')
    (H4 : forall i, (i < 4)%nat -> List.nth i m 0 = List.nth i m' 0)
    (H5 : (128 <= List.nth 4 m 0 /\ 128 <= List.nth 4 m' 0) \/
          (List.nth 4 m 0 = List.nth 4 m' 0 /\ List.nth 5 m 0 / 16 = List.nth 5 m' 0 / 16)) :
  generate_mac_based_url_path e ip = generate_mac_based_url_path e' ip'.
Proof.
  unfold generate_mac_based_url_path. rewrite Hm, Hm'.
  assert (H : exists p s s', length p = CPE_URL_SIZE /\ print_mac m = p ++ s /\ print_mac m' = p ++ s').
  { unfold print_mac. rewrite !(H4 0%nat), !(H4 1%nat), !(H4 2%nat), !(H4 3%nat) by lia.
    set (four := hhx (List.nth 0 m' 0) ++ [":"%char] ++ hhx (List.nth 1 m' 0) ++ [":"%char] ++
                 hhx (List.nth 2 m' 0) ++ [":"%char] ++ hhx (List.nth 3 m' 0) ++ [":"%char]).
    assert (Hneg : forall b, 128 <= b -> x02 b = cs "ffffff" ++ hhx b).
    { intros b Hb. unfold x02. by replace (b <? 128) with false by (symmetry; apply Z.ltb_ge; lia). }
    destruct (Z.lt_ge_cases (List.nth 4 m 0) 128) as [Hlt|Hge].
    - destruct H5 as [[H5 _]|[E4 E5]]; [lia|]. rewrite <- E4. unfold x02.
      replace (List.nth 4 m 0 <? 128) with true by (symmetry; apply Z.ltb_lt; lia).
      exists (four ++ hhx (List.nth 4 m 0) ++ [":"%char; char_at hex_digits (List.nth 5 m 0 / 16 mod 16)]).
      do 2 eexists. split_and!; [done|reflexivity|]. rewrite E5. reflexivity.
    - assert (H5' : 128 <= List.nth 4 m' 0) by (destruct H5 as [[_ H5]|[<- _]]; done).
      rewrite !Hneg by done. exists (four ++ cs "ffff"). do 2 eexists. split_and!; [done|reflexivity..]. }
  destruct H as (p & s & s' & Hl & -> & ->). rewrite <- Hl. apply mac_loop_prefix.
Qed.

End Address.

End ConnRequestAddress.
