(* ===== verification/ConnRequestExamples.v ===== *)
(** * ConnRequestExamples: a concrete gateway

    The theorems on the connection request address at a gateway whose data model
    accepts every transaction; an address with a colon is an IPv6 address, and
    rand() counts. *)

From Stdlib Require Import ZArith Lia Ascii.
From stdpp Require Import base list strings pretty relations.
From S2P Require Import Prelude CString ConnRequest ConnRequestFacts ConnRequestSpec ConnRequestPort ConnRequestAddress.

Module ConnRequestExamples.
Import CString ConnRequest ConnRequestFacts ConnRequestSpec ConnRequestPort ConnRequestAddress.

#[local] Instance gateway : system := {
  standalone := false;
  TR069_URL_PATH := None;
  AMXRT_PREFIX_PATH := None;
  odl_config := "/etc/amx/cwmp_plugin/cwmpd-config.odl";
  inet_pton6 a := contains ":"%char (cs a);
  accepts _ := true;
}.

Lemma gateway_accepts n : @accepts gateway n = true.
Proof. done. Qed.

Definition good : env :=
  {| start_ok := true; ctx_ok := true; fw_ok := true; sock_ok := true; conf_ok := true;
     if_items := [{| if_inet := true; if_text := Some "10.0.0.1"%string; if_hw := Some [0; 22; 33; 44; 200; 66] |}];
     rand := fun n => Z.of_nat n; open4_ok := true; open6_ok := true; first4 := None; first6 := None |}.

Definition other : env :=
  {| start_ok := false; ctx_ok := true; fw_ok := true; sock_ok := true; conf_ok := true;
     if_items := [{| if_inet := true; if_text := Some "10.0.0.2"%string; if_hw := Some [0; 22; 33; 44; 128; 1] |}];
     rand := fun n => Z.of_nat n; open4_ok := true; open6_ok := true; first4 := None; first6 := None |}.

Definition loaded : dm :=
  {| ConnRequestHost := DEFAULT_CRH; LocalIPAddress := DEFAULT_CRH; ConnRequestPort := 50805;
     ConnRequestPath := "default_path"; ConnRequestPathType := "Random"; UpdateConnRequestURL := true;
     ConnectionRequestURL := ""; ParameterKey := ""; Interface := "Device.Logical.Interface.1";
     AllowConnectionRequestFromAddress := ""; PreferredIPVersion := "IPANY";
     internal_settings := [("IPv6WaitTime"%string, 20)] |}.

Definition begin : world := cwmp_plugin_start true loaded.

(** The plugin is initialised and learns the address of the interface. *)
Definition online : list event := [DeferredInit good; Ipv4Changed (Some "10.0.0.1"%string)].

Ltac concrete := vm_compute; reflexivity.

Lemma url_follows_address_witness :
  let w := step (DeferredInit good) begin in
  let w1 := step (Ipv4Changed (Some "10.0.0.1"%string)) w in
  let w3 := run (map Dispatch [good; good; good]) (run [Ipv6Changed (Some "fd00::1"%string)] w1) in
  ConnectionRequestURL (data w3) = "http://10.0.0.1:50805/abcdefghijklmnop"%string /\
  queue w3 = [] /\ ConnectionRequestURL (data w3) = expected (data w3).
Proof.
  split; [concrete|].
  apply (ConnRequestSpec.url_follows_address (step (DeferredInit good) begin) (Ipv4Changed (Some "10.0.0.1"%string))
           [Ipv6Changed (Some "fd00::1"%string)] [good; good; good]).
  - done.
  - done.
  - repeat constructor.
  - done.
  - vm_compute. discriminate.
  - vm_compute. lia.
Defined.

Lemma process_refines_machine_witness :
  rtc dstep (proc begin) (proc (run (online ++ [Dispatch good; ProcStopped 0]) begin)).
Proof.
  apply (ConnRequestSpec.process_refines_machine true loaded (online ++ [Dispatch good; ProcStopped 0])).
  intros H. repeat (apply elem_of_cons in H as [H|H]; [done|]). by apply elem_of_nil in H.
Defined.

Lemma failed_start_is_final_witness :
  let w1 := start_cwmpd other (run online begin) in
  cwmpd_proc (proc w1) <> None /\ running (proc (run [Dispatch good; RestartTimer good 1; DeferredInit good] w1)) = [].
Proof.
  apply (ConnRequestSpec.failed_start_is_final (run online begin) other [Dispatch good; RestartTimer good 1; DeferredInit good]).
  - done.
  - done.
  - split; [done|by left].
Defined.

(** The process has ended; its restart timer is armed. *)
Lemma daemon_supervised_witness :
  let w := run (online ++ [Dispatch good; ProcStopped 0]) begin in
  running (proc w) <> [] \/
  exists ev, supervisable ev /\ (ev = DeferredInit good \/ exists id, ev = RestartTimer good id) /\
    running (proc (step ev w)) <> [].
Proof.
  apply (ConnRequestSpec.daemon_supervised loaded (online ++ [Dispatch good; ProcStopped 0]) good).
  - done.
  - done.
  - repeat constructor.
  - done.
  - concrete.
  - apply (bool_decide_unpack _). concrete.
Defined.

Lemma open_port_is_current_witness :
  let w := run (online ++ [Dispatch good; BusSet (WritePort 7547); Dispatch good; Dispatch good]) begin in
  exists s, fw (proc w) = Some s /\ fw_port s = ConnRequestPort (data w).
Proof.
  apply (ConnRequestPort.open_port_is_current true loaded
           (online ++ [Dispatch good; BusSet (WritePort 7547); Dispatch good; Dispatch good])).
  - repeat constructor.
  - done.
  - vm_compute. discriminate.
  - concrete.
  - apply (bool_decide_unpack _). concrete.
  - apply (bool_decide_unpack _). concrete.
Defined.

Lemma preferred_address_published_witness :
  let w := step (Ipv4Changed (Some "10.0.0.1"%string)) (step (DeferredInit good) begin) in
  ConnRequestHost (data w) = "10.0.0.1"%string \/
  exists id, ConnRequestHost (data (step (WaitTimer id) w)) = "10.0.0.1"%string.
Proof.
  apply (ConnRequestAddress.preferred_address_published gateway_accepts begin
           (step (Ipv4Changed (Some "10.0.0.1"%string)) (step (DeferredInit good) begin)) "10.0.0.1").
  - done.
  - done.
  - repeat constructor.
  - concrete.
Defined.

Lemma path_shape_witness :
  match new_path good "Fixed-MacBased" "10.0.0.1" with
  | None => "Fixed-MacBased"%string = "Fixed-Default"%string
  | Some p => "Fixed-MacBased"%string <> "Fixed-Default"%string /\ length (cs p) = 16%nat /\ forallb isalnum (cs p) = true
  end.
Proof. apply (ConnRequestAddress.path_shape good "Fixed-MacBased" "10.0.0.1"). done. Defined.

(** Two different hardware addresses with the same path *)
Lemma mac_path_of_four_bytes_witness :
  generate_mac_based_url_path good "10.0.0.1" = generate_mac_based_url_path other "10.0.0.2".
Proof.
  apply (ConnRequestAddress.mac_path_of_four_bytes good other "10.0.0.1" "10.0.0.2"
           [0; 22; 33; 44; 200; 66] [0; 22; 33; 44; 128; 1]).
  - concrete.
  - concrete.
  - intros i Hi. destruct i as [|[|[|[|i]]]]; [done..|lia].
  - left. vm_compute. split; discriminate.
Defined.

End ConnRequestExamples.
