(* ===== verification/Xmpp.v ===== *)
(** * Xmpp: the Jabber identifier of XMPP connection requests
    ([src/src/dmdeviceadapter/amx/cwmp_plugin/cwmp_plugin_xmpp.c])

    [ConnReqXMPPConnection] names an instance of [Device.XMPP.Connection]; the
    plugin copies its JabberID to [ConnReqJabberID] while it is enabled.  It
    subscribes to the named instance, follows a change of the name, and clears the
    name when the instance is deleted.  [connections] are the instances of the
    other process, [inbox] their notifications on the way to the plugin, [queue]
    the change events of its own parameter. *)

From Stdlib Require Import ZArith Lia Ascii.
From stdpp Require Import base list strings pretty.
From S2P Require Import Prelude.

Module Xmpp.

(** An instance of [Device.XMPP.Connection] *)
Record connection := { Enable : bool; JabberID : option string }.

Inductive notification :=
| Updated (path : string)
| Removed (path : option string) (index : Z).

(** The event of [ConnReqXMPPConnection] *)
Record change := { from : option string; to : option string }.

(** [subs] are the subscriptions with [xmpp_connection_updated_cb], [removed_sub]
    that with [xmpp_connection_deleted_cb]. *)
Record world := {
  ConnReqXMPPConnection : string;
  ConnReqJabberID : string;
  connections : list (string * connection);
  subs : list string;
  removed_sub : bool;
  inbox : list notification;
  queue : list change;
  timer : bool;
  ntrans : nat;
}.

(** The answers of the bus during one callback *)
Record env := { get_ok : bool; subscribe_ok : bool }.

Class oracle := { accepts : nat -> bool }.

Definition CONNECTIONS : string := "Device.XMPP.Connection.".

Section Plugin.

Context {O : oracle}.

Definition with_subs (l : list string) (w : world) : world :=
  {| ConnReqXMPPConnection := ConnReqXMPPConnection w; ConnReqJabberID := ConnReqJabberID w;
     connections := connections w; subs := l; removed_sub := removed_sub w; inbox := inbox w; queue := queue w;
     timer := timer w; ntrans := ntrans w |}.

Definition with_inbox (l : list notification) (w : world) : world :=
  {| ConnReqXMPPConnection := ConnReqXMPPConnection w; ConnReqJabberID := ConnReqJabberID w;
     connections := connections w; subs := subs w; removed_sub := removed_sub w; inbox := l; queue := queue w;
     timer := timer w; ntrans := ntrans w |}.

Definition with_queue (l : list change) (w : world) : world :=
  {| ConnReqXMPPConnection := ConnReqXMPPConnection w; ConnReqJabberID := ConnReqJabberID w;
     connections := connections w; subs := subs w; removed_sub := removed_sub w; inbox := inbox w; queue := l;
     timer := timer w; ntrans := ntrans w |}.

Definition with_connections (l : list (string * connection)) (w : world) : world :=
  {| ConnReqXMPPConnection := ConnReqXMPPConnection w; ConnReqJabberID := ConnReqJabberID w;
     connections := l; subs := subs w; removed_sub := removed_sub w; inbox := inbox w; queue := queue w;
     timer := timer w; ntrans := ntrans w |}.

(** Transactions on [ManagementServer] *)
Definition set_jabber_id (jid : string) (w : world) : world :=
  {| ConnReqXMPPConnection := ConnReqXMPPConnection w;
     ConnReqJabberID := if accepts (ntrans w) then jid else ConnReqJabberID w;
     connections := connections w; subs := subs w; removed_sub := removed_sub w; inbox := inbox w; queue := queue w;
     timer := timer w; ntrans := S (ntrans w) |}.

Definition set_connection (cnx : string) (w : world) : world :=
  let ok := accepts (ntrans w) in
  {| ConnReqXMPPConnection := if ok then cnx else ConnReqXMPPConnection w; ConnReqJabberID := ConnReqJabberID w;
     connections := connections w; subs := subs w; removed_sub := removed_sub w; inbox := inbox w;
     queue := queue w ++ (if ok && negb (streq (ConnReqXMPPConnection w) cnx)
                          then [{| from := Some (ConnReqXMPPConnection w); to := Some cnx |}] else []);
     timer := timer w; ntrans := S (ntrans w) |}.

(** [is_current_cnx] *)
Definition is_current_cnx (cnx : string) (w : world) : bool :=
  if streq cnx "" then false else streq cnx (ConnReqXMPPConnection w).

(** [set_connreq_jabber_id] *)
Definition set_connreq_jabber_id (jid : option string) (w : world) : world :=
  match jid with Some j => set_jabber_id j w | None => w end.

Definition find_connection (cnx : string) (w : world) : option connection :=
  snd <$> List.find (fun x => streq x.1 cnx) (connections w).

(** [update_connreq_jabber_id] *)
Definition update_connreq_jabber_id (e : env) (cnx : option string) (w : world) : world :=
  match cnx with
  | None => w
  | Some c =>
      if streq c "" then set_connreq_jabber_id (Some ""%string) w
      else
        match (if get_ok e then find_connection c w else None) with
        | None => w
        | Some x => if Enable x then set_connreq_jabber_id (JabberID x) w else set_connreq_jabber_id (Some ""%string) w
        end
  end.

(** [xmpp_connection_deleted_cb] *)
Definition xmpp_connection_deleted_cb (data : option (option string * Z)) (w : world) : world :=
  match data with
  | None => w
  | Some (path, index) =>
      if index =? 0 then w
      else
        match path with
        | None => w
        | Some p =>
            if streq p "" then w
            else if is_current_cnx (String.append p (String.append (pretty index) ".")) w then set_connection "" w else w
        end
  end.

(** [xmpp_connection_updated_cb] *)
Definition xmpp_connection_updated_cb (e : env) (cnx : option string) (w : world) : world :=
  update_connreq_jabber_id e cnx w.

(** [xmpp_connection_add_sub] *)
Definition xmpp_connection_add_sub (e : env) (cnx : option string) (w : world) : world :=
  match cnx with
  | None => w
  | Some c => if streq c "" then w else if subscribe_ok e then with_subs (subs w ++ [c]) w else w
  end.

(** [xmpp_connection_del_sub] *)
Definition xmpp_connection_del_sub (cnx : option string) (w : world) : world :=
  match cnx with
  | None => w
  | Some c => if streq c "" then w else with_subs (List.filter (fun s => negb (streq s c)) (subs w)) w
  end.

(** [_connreq_xmpp_connection_changed] *)
Definition connreq_xmpp_connection_changed (e : env) (data : change) (w : world) : world :=
  let w := xmpp_connection_del_sub (from data) w in
  let w := xmpp_connection_add_sub e (to data) w in
  update_connreq_jabber_id e (to data) w.

(** [deferred_init_timer_cb] *)
Definition deferred_init_timer_cb (e : env) (w : world) : world :=
  let w :=
    {| ConnReqXMPPConnection := ConnReqXMPPConnection w; ConnReqJabberID := ConnReqJabberID w;
       connections := connections w; subs := subs w; removed_sub := removed_sub w || subscribe_ok e; inbox := inbox w;
       queue := queue w; timer := false; ntrans := ntrans w |} in
  if negb (subscribe_ok e) then w
  else
    let cnx := Some (ConnReqXMPPConnection w) in
    update_connreq_jabber_id e cnx (xmpp_connection_add_sub e cnx w).

(** [cwmp_plugin_xmpp_init], on the loaded parameters and the connections of the
    other process *)
Definition cwmp_plugin_xmpp_init (new_ok start_ok : bool) (cnx : string) (l : list (string * connection)) : world * Z :=
  ({| ConnReqXMPPConnection := cnx; ConnReqJabberID := ""; connections := l; subs := []; removed_sub := false;
      inbox := []; queue := []; timer := new_ok && start_ok; ntrans := 0 |},
   if new_ok && start_ok then 0 else -1).

(** ** Steps *)

Definition path_of (index : Z) : string := String.append CONNECTIONS (String.append (pretty index) ".").

(** What the other process does: an instance appears, its parameters change, it
    is deleted.  The bus takes the notifications that were subscribed to. *)
Definition add_connection (index : Z) (x : connection) (w : world) : world :=
  match find_connection (path_of index) w with
  | Some _ => w
  | None => with_connections ((path_of index, x) :: connections w) w
  end.

Definition change_connection (index : Z) (x : connection) (w : world) : world :=
  let path := path_of index in
  match find_connection path w with
  | None => w
  | Some _ =>
      with_inbox (inbox w ++ (if existsb (streq path) (subs w) then [Updated path] else []))
        (with_connections ((path, x) :: List.filter (fun y => negb (streq y.1 path)) (connections w)) w)
  end.

Definition delete_connection (index : Z) (w : world) : world :=
  let path := path_of index in
  match find_connection path w with
  | None => w
  | Some _ =>
      with_inbox (inbox w ++ (if removed_sub w then [Removed (Some CONNECTIONS) index] else []))
        (with_connections (List.filter (fun y => negb (streq y.1 path)) (connections w)) w)
  end.

(** A notification reaches its handler if the subscription is still there. *)
Definition receive (e : env) (w : world) : world :=
  match inbox w with
  | [] => w
  | Updated p :: l =>
      let w := with_inbox l w in
      if existsb (streq p) (subs w) then xmpp_connection_updated_cb e (Some p) w else w
  | Removed p i :: l =>
      let w := with_inbox l w in
      if removed_sub w then xmpp_connection_deleted_cb (Some (p, i)) w else w
  end.

Definition dispatch (e : env) (w : world) : world :=
  match queue w with
  | [] => w
  | c :: q => connreq_xmpp_connection_changed e c (with_queue q w)
  end.

Inductive event :=
| DeferredInit (e : env)
| Write (cnx : string)
| Receive (e : env)
| Dispatch (e : env)
| AddConnection (index : Z) (x : connection)
| ChangeConnection (index : Z) (x : connection)
| DeleteConnection (index : Z).

Definition step (ev : event) (w : world) : world :=
  match ev with
  | DeferredInit e => if timer w then deferred_init_timer_cb e w else w
  | Write c => set_connection c w
  | Receive e => receive e w
  | Dispatch e => dispatch e w
  | AddConnection i x => add_connection i x w
  | ChangeConnection i x => change_connection i x w
  | DeleteConnection i => delete_connection i w
  end.

Definition run : list event -> world -> world := run_steps step.

(** ** Properties *)

(** The identifier the ACS should see, if the connection exists and has one *)
Definition wanted (w : world) : option string :=
  if streq (ConnReqXMPPConnection w) "" then Some ""%string
  else match find_connection (ConnReqXMPPConnection w) w with
       | None => None
       | Some x => if Enable x then JabberID x else Some ""%string
       end.

(** The changes lead from one connection to another. *)
Fixpoint chain (a : string) (q : list change) (b : string) : Prop :=
  match q with
  | [] => a = b
  | c :: q' => from c = Some a /\ exists t, to c = Some t /\ chain t q' b
  end.

Lemma chain_snoc a q b c :
  chain a q b -> chain a (q ++ [{| from := Some b; to := Some c |}]) c.
Proof.
  revert a. induction q as [|x q IH]; intros a; simpl.
  - intros ->. split; [done|]. by exists c.
  - intros (E & t & Et & H). split; [done|]. exists t. auto.
Qed.

Definition good (e : env) : Prop := get_ok e = true /\ subscribe_ok e = true.

(** Steps in which the bus works and no connection appears under a name that is
    already in use *)
Definition works (ev : event) (w : world) : Prop :=
  match ev with
  | DeferredInit e | Receive e | Dispatch e => good e
  | AddConnection i _ => path_of i <> ConnReqXMPPConnection w
  | ChangeConnection i _ | DeleteConnection i => 0 < i
  | Write _ => True
  end.

Inductive reach w0 : world -> Prop :=
| reach_start : reach w0 w0
| reach_step ev w : reach w0 w -> works ev w -> reach w0 (step ev w).

Lemma path_not_empty i : path_of i <> ""%string.
Proof. done. Qed.

Section Accepting.

Context (Hacc : forall n, accepts n = true).

Definition synced w : Prop := forall j, wanted w = Some j -> ConnReqJabberID w = j.

(** [a] is the connection the plugin is subscribed to. *)
Record inv (a : string) w : Prop := {
  i_timer : timer w = false;
  i_removed : removed_sub w = true;
  i_chain : chain a (queue w) (ConnReqXMPPConnection w);
  i_subs : forall p, p ∈ subs w <-> p = a /\ p <> ""%string;
  i_synced : queue w <> [] \/
    (ConnReqXMPPConnection w <> ""%string /\ Updated (ConnReqXMPPConnection w) ∈ inbox w) \/ synced w;
}.

Lemma update_frame e c w :
  timer (update_connreq_jabber_id e c w) = timer w /\
  removed_sub (update_connreq_jabber_id e c w) = removed_sub w /\
  queue (update_connreq_jabber_id e c w) = queue w /\ subs (update_connreq_jabber_id e c w) = subs w /\
  inbox (update_connreq_jabber_id e c w) = inbox w /\
  ConnReqXMPPConnection (update_connreq_jabber_id e c w) = ConnReqXMPPConnection w /\
  connections (update_connreq_jabber_id e c w) = connections w.
Proof.
  unfold update_connreq_jabber_id. destruct c as [c|]; [|done]. destruct (streq c ""); [done|].
  destruct (if get_ok e then _ else _) as [x|]; [|done]. destruct (Enable x); [by destruct (JabberID x)|done].
Qed.

Lemma wanted_same w w' :
  ConnReqXMPPConnection w' = ConnReqXMPPConnection w -> connections w' = connections w -> wanted w' = wanted w.
Proof. intros E1 E2. unfold wanted, find_connection. by rewrite E1, E2. Qed.

Lemma update_synced e w :
  good e -> synced (update_connreq_jabber_id e (Some (ConnReqXMPPConnection w)) w).
Proof.
  intros [Hg _] j. destruct (update_frame e (Some (ConnReqXMPPConnection w)) w) as (_ & _ & _ & _ & _ & E1 & E2).
  rewrite (wanted_same w) by done. clear E1 E2. unfold wanted, update_connreq_jabber_id. rewrite Hg.
  destruct (streq _ ""); [intros [= <-]; simpl; by rewrite Hacc|].
  destruct (find_connection _ w) as [x|]; [|done].
  destruct (Enable x); [intros ->; simpl; by rewrite Hacc|intros [= <-]; simpl; by rewrite Hacc].
Qed.

Lemma xmpp_inv_init e w :
  good e -> timer w = true -> queue w = [] -> subs w = [] -> inv (ConnReqXMPPConnection w) (step (DeferredInit e) w).
Proof.
  intros He Ht Hq Hs. unfold step. rewrite Ht. unfold deferred_init_timer_cb. pose proof He as [_ Hsub]. rewrite Hsub.
  cbn [negb]. set (w0 := {| timer := false |}). cbn [ConnReqXMPPConnection].
  set (w1 := xmpp_connection_add_sub e _ w0).
  assert (F : timer w1 = false /\ removed_sub w1 = true /\ queue w1 = [] /\
    ConnReqXMPPConnection w1 = ConnReqXMPPConnection w /\
    (forall p, p ∈ subs w1 <-> p = ConnReqXMPPConnection w /\ p <> ""%string)).
  { subst w1. unfold xmpp_connection_add_sub. rewrite Hsub. change (ConnReqXMPPConnection w0) with (ConnReqXMPPConnection w).
    destruct (streq (ConnReqXMPPConnection w) "") eqn:E; bool_prop; simpl; rewrite ?Hq, ?Hs, orb_true_r; split_and!; try done; intros p.
    - rewrite elem_of_nil. naive_solver.
    - simpl. rewrite list_elem_of_singleton. naive_solver. }
  destruct F as (F1 & F2 & F3 & F4 & F5). change (ConnReqXMPPConnection w0) with (ConnReqXMPPConnection w). rewrite <- F4.
  destruct (update_frame e (Some (ConnReqXMPPConnection w1)) w1) as (E1 & E2 & E3 & E4 & _ & E6 & _).
  constructor; rewrite ?E1, ?E2, ?E3, ?E4, ?E6; [done|done|by rewrite F3|by rewrite F4|].
  right. right. by apply update_synced.
Qed.

Lemma inv_write a c w : inv a w -> inv a (set_connection c w).
Proof.
  intros [H1 H2 H3 H4 H5]. constructor; try done; simpl; rewrite Hacc; simpl.
  - destruct (streq _ c) eqn:E; bool_prop; simpl; [subst; by rewrite app_nil_r|by apply chain_snoc].
  - destruct (streq _ c) eqn:E; bool_prop; simpl.
    + subst c. rewrite app_nil_r. destruct H5 as [?|[?|H5]]; [by left|by right; left|right; right].
      intros j Hj. apply H5. rewrite <- Hj. symmetry. apply wanted_same; [simpl; by rewrite Hacc|done].
    + left. by destruct (queue w).
Qed.

Lemma xmpp_inv_dispatch e w a : good e -> inv a w -> exists a', inv a' (dispatch e w).
Proof.
  intros He [H1 H2 H3 H4 H5]. unfold dispatch. destruct (queue w) as [|[f t] q] eqn:Eq.
  { exists a. by constructor; rewrite ?Eq. }
  destruct H3 as (Ef & c & Et & Hc). simpl in Ef, Et. subst f t. exists c.
  unfold connreq_xmpp_connection_changed. cbn [from to].
  set (w1 := xmpp_connection_del_sub _ _). set (w2 := xmpp_connection_add_sub e _ w1).
  assert (F1 : timer w1 = false /\ removed_sub w1 = true /\ queue w1 = q /\ inbox w1 = inbox w /\
    ConnReqXMPPConnection w1 = ConnReqXMPPConnection w /\ subs w1 = []).
  { subst w1. unfold xmpp_connection_del_sub. destruct (streq a "") eqn:E; bool_prop; simpl; split_and!; try done.
    - simpl. destruct (subs w) as [|p l] eqn:Es; [done|]. destruct (proj1 (H4 p)) as [-> Hp]; [by left|done].
    - simpl. assert (Hall : Forall (fun s => streq s a = true) (subs w)).
      { apply Forall_forall. intros s Hs. apply H4 in Hs as [-> _]. apply streq_refl. }
      revert Hall. generalize (subs w). induction 1 as [|s l Hs _ IH]; simpl; [done|]. by rewrite Hs. }
  destruct F1 as (A1 & A2 & A3 & A4 & A5 & A6).
  assert (F2 : timer w2 = false /\ removed_sub w2 = true /\ queue w2 = q /\ inbox w2 = inbox w /\
    ConnReqXMPPConnection w2 = ConnReqXMPPConnection w /\ (forall p, p ∈ subs w2 <-> p = c /\ p <> ""%string)).
  { subst w2. unfold xmpp_connection_add_sub. destruct He as [_ ->]. destruct (streq c "") eqn:E; bool_prop; simpl.
    - split_and!; try done. intros p. rewrite A6, elem_of_nil. naive_solver.
    - split_and!; try done. intros p. rewrite A6. simpl. rewrite list_elem_of_singleton. naive_solver. }
  destruct F2 as (B1 & B2 & B3 & B4 & B5 & B6).
  destruct (update_frame e (Some c) w2) as (E1 & E2 & E3 & E4 & E5 & E6 & _).
  constructor; rewrite ?E1, ?E2, ?E3, ?E4, ?E5, ?E6; try done; [by rewrite B3, B5|].
  destruct q as [|x q]; [|left; by rewrite B3]. simpl in Hc. subst c. right. right. rewrite <- B5. by apply update_synced.
Qed.

Lemma inv_receive e w a : good e -> inv a w -> inv a (receive e w).
Proof.
  intros He H. pose proof H as [H1 H2 H3 H4 H5]. unfold receive. destruct (inbox w) as [|n l] eqn:El; [done|].
  set (w0 := with_inbox l w).
  assert (Hpop : n <> Updated (ConnReqXMPPConnection w) \/ queue w <> [] -> inv a w0).
  { intros Hn. constructor; try done. destruct H5 as [?|[[Hne Hin]|?]]; [by left| |by right; right].
    destruct Hn as [Hn|]; [|by left]. apply elem_of_cons in Hin as [E|Hin]; [by destruct Hn|by right; left]. }
  destruct n as [p|p i].
  - change (subs w0) with (subs w).
    assert (Hq : forall c, queue w = c -> (c = [] -> p <> ConnReqXMPPConnection w) -> inv a w0).
    { intros c Ec Hc. apply Hpop. destruct c; [left; intros [= E]; by apply Hc|right; by rewrite Ec]. }
    destruct (existsb (streq p) (subs w)) eqn:Ex.
    + apply existsb_exists in Ex as (p' & Hp & E). apply streq_true in E as <-. rewrite <- list_elem_of_In in Hp.
      apply H4 in Hp as [-> Hne]. unfold xmpp_connection_updated_cb.
      destruct (update_frame e (Some a) w0) as (E1 & E2 & E3 & E4 & E5 & E6 & _).
      constructor; rewrite ?E1, ?E2, ?E3, ?E4, ?E5, ?E6; try done. change (queue w0) with (queue w).
      destruct (queue w) as [|c q]; [|by left]. simpl in H3. right. right. rewrite H3. by apply (update_synced e w0).
    + destruct (queue w) as [|c q] eqn:Eq; [|by apply (Hq (c :: q))].
      simpl in H3. subst a. destruct (decide (p = ConnReqXMPPConnection w)) as [->|Hp]; [|by apply (Hq [])].
      destruct (decide (ConnReqXMPPConnection w = ""%string)) as [E|E].
      * constructor; try done; change (queue w0) with (queue w); rewrite Eq; [done|].
        destruct H5 as [?|[[? _]|?]]; [done..|by right; right].
      * assert (Hin : ConnReqXMPPConnection w ∈ subs w) by (by apply H4).
        assert (existsb (streq (ConnReqXMPPConnection w)) (subs w) = true); [|congruence].
        apply existsb_exists. exists (ConnReqXMPPConnection w). rewrite <- list_elem_of_In. by rewrite streq_refl.
  - destruct (removed_sub w0); [|by apply Hpop; left].
    assert (H0 : inv a w0) by (by apply Hpop; left).
    unfold xmpp_connection_deleted_cb. destruct (i =? 0); [done|]. destruct p as [p|]; [|done].
    destruct (streq p ""); [done|]. destruct (is_current_cnx _ _); [by apply inv_write|done].
Qed.

Notation lookup p l := (@List.find (string * connection) (fun y => streq y.1 p) l).
Notation other q l := (List.filter (fun y : string * connection => negb (streq y.1 q)) l).

Lemma lookup_other p q l : p <> q -> lookup p (other q l) = lookup p l.
Proof.
  intros Hne. induction l as [|[k y] l IH]; simpl; [done|]. destruct (streq k q) eqn:E; simpl.
  - apply streq_true in E as ->. by rewrite IH, (proj2 (streq_false q p)).
  - by rewrite IH.
Qed.

Lemma lookup_self q l : lookup q (other q l) = None.
Proof. induction l as [|[k y] l IH]; simpl; [done|]. destruct (streq k q) eqn:E; simpl; [done|by rewrite E]. Qed.

(** The connections change, but not the one in use. *)
Lemma synced_other l w w' :
  w' = with_connections l w -> lookup (ConnReqXMPPConnection w) l = lookup (ConnReqXMPPConnection w) (connections w) ->
  synced w -> synced w'.
Proof.
  intros -> E H j. unfold wanted, find_connection. simpl. rewrite E. apply H.
Qed.

Lemma inv_connections l more w a :
  inv a w ->
  (synced w -> synced (with_connections l w) \/
     (ConnReqXMPPConnection w <> ""%string /\ Updated (ConnReqXMPPConnection w) ∈ more) \/ queue w <> []) ->
  inv a (with_inbox (inbox w ++ more) (with_connections l w)).
Proof.
  intros [H1 H2 H3 H4 H5] Hs. constructor; try done. simpl. rewrite elem_of_app.
  destruct H5 as [?|[[? ?]|H5]]; [by left|right; left; auto|].
  destruct (Hs H5) as [?|[[? ?]|?]]; [by right; right|right; left; auto|by left].
Qed.

Lemma xmpp_inv_step ev w a : works ev w -> inv a w -> exists a', inv a' (step ev w).
Proof.
  intros Hw H. destruct ev as [e|c|e|e|i x|i x|i]; cbn [step works] in *.
  - rewrite (i_timer _ _ H). by exists a.
  - exists a. by apply inv_write.
  - exists a. by apply inv_receive.
  - by apply (xmpp_inv_dispatch e w a).
  - exists a. unfold add_connection. destruct (find_connection _ _); [done|].
    pose proof (inv_connections ((path_of i, x) :: connections w) [] w a H) as Hc. rewrite app_nil_r in Hc.
    apply Hc. intros Hs. left. eapply synced_other; [done| |done]. simpl.
    by rewrite (proj2 (streq_false (path_of i) _)).
  - exists a. unfold change_connection. destruct (find_connection _ _); [|done]. apply inv_connections; [done|].
    intros Hs. destruct (decide (path_of i = ConnReqXMPPConnection w)) as [E|E].
    + right. destruct (queue w) as [|x0 q] eqn:Eq; [left|by right]. rewrite <- E. split; [done|].
      pose proof (i_chain _ _ H) as Ha. rewrite Eq in Ha. simpl in Ha.
      assert (Hin : path_of i ∈ subs w) by (apply (i_subs _ _ H); by rewrite Ha, <- E).
      assert (existsb (streq (path_of i)) (subs w) = true) as ->; [|by apply list_elem_of_singleton].
      apply existsb_exists. exists (path_of i). rewrite <- list_elem_of_In. by rewrite streq_refl.
    + left. eapply synced_other; [done| |done]. simpl. rewrite (proj2 (streq_false (path_of i) _)) by done.
      by apply lookup_other.
  - exists a. unfold delete_connection. destruct (find_connection _ _); [|done]. apply inv_connections; [done|].
    intros Hs. left. destruct (decide (path_of i = ConnReqXMPPConnection w)) as [E|E].
    + intros j. unfold wanted, find_connection. simpl. rewrite <- E, lookup_self. done.
    + eapply synced_other; [done| |done]. by apply lookup_other.
Qed.

Lemma reach_inv e cnx l w :
  good e -> reach (step (DeferredInit e) (cwmp_plugin_xmpp_init true true cnx l).1) w -> exists a, inv a w.
Proof.
  intros He Hr. induction Hr as [|ev w Hr [a IH] Hw].
  - eexists. by apply xmpp_inv_init.
  - by apply (xmpp_inv_step ev w a).
Qed.

(** The Jabber identifier follows the connection.  From the deferred
    initialisation on, as long as the bus works and no instance appears under the
    name that is in use, for every order of writes, changes and deletions of
    instances: whenever no event and no notification waits, the plugin is
    subscribed to exactly the named connection, and ConnReqJabberID is empty if
    the name is, the identifier of the named connection if that is enabled, and
    empty if it is disabled. *)
Theorem jabber_id_follows (e : env) (cnx : string) (l : list (string * connection)) (w : world) (He : good e)
    (Hr : reach (step (DeferredInit e) (cwmp_plugin_xmpp_init true true cnx l).1) w)
    (Hq : queue w = [] /\ inbox w = []) :
  (forall p, p ∈ subs w <-> p = ConnReqXMPPConnection w /\ p <> ""%string) /\
  forall j, wanted w = Some j -> ConnReqJabberID w = j.
Proof.
  destruct (reach_inv e cnx l w He Hr) as [a [_ _ H3 H4 H5]], Hq as [Hq Hi]. rewrite Hq, Hi in *. simpl in H3. subst a.
  split; [done|]. destruct H5 as [?|[[_ Hin]|?]]; [done|by apply elem_of_nil in Hin|done].
Qed.

(** Deleting the connection in use ends its use: one notification and one
    event later the name and the identifier are empty and the plugin is
    subscribed to nothing. *)
Theorem deletion_clears_name (e : env) (cnx : string) (l : list (string * connection)) (w : world) (i : Z)
    (e1 e2 : env) (He : good e /\ good e1 /\ good e2) (Hi : 0 < i)
    (Hr : reach (step (DeferredInit e) (cwmp_plugin_xmpp_init true true cnx l).1) w)
    (Hq : queue w = [] /\ inbox w = [])
    (Hc : ConnReqXMPPConnection w = path_of i /\ find_connection (path_of i) w <> None) :
  let w' := run [DeleteConnection i; Receive e1; Dispatch e2] w in
  ConnReqXMPPConnection w' = ""%string /\ ConnReqJabberID w' = ""%string /\ subs w' = [].
Proof.
  destruct He as (He & _ & _). destruct (reach_inv e cnx l w He Hr) as [a [_ H2 H3 H4 _]], Hq as [Hq Hib], Hc as [Hc Hf].
  rewrite Hq in H3. simpl in H3. subst a. unfold run, run_steps. cbn [foldl step].
  unfold delete_connection. destruct (find_connection (path_of i) w); [|done]. rewrite H2, Hib. simpl app.
  unfold receive. simpl inbox. cbv iota. simpl removed_sub. rewrite H2. unfold xmpp_connection_deleted_cb.
  replace (i =? 0) with false by (symmetry; apply Z.eqb_neq; lia). change (streq CONNECTIONS "") with false.
  unfold is_current_cnx. change (String.append CONNECTIONS (String.append (pretty i) ".")) with (path_of i).
  change (streq (path_of i) "") with false. cbv iota. simpl ConnReqXMPPConnection. rewrite Hc, streq_refl.
  unfold set_connection, dispatch. simpl queue. rewrite Hacc, Hq, Hc. change (streq (path_of i) "") with false. simpl app. cbv iota.
  unfold connreq_xmpp_connection_changed. cbn [from to]. unfold xmpp_connection_del_sub. change (streq (path_of i) "") with false.
  simpl. rewrite !Hacc. split_and!; [done|done|].
  assert (Hall : Forall (fun s => streq s (path_of i) = true) (subs w)).
  { apply Forall_forall. intros s Hs. apply H4 in Hs as [-> _]. rewrite Hc. apply streq_refl. }
  revert Hall. generalize (subs w). induction 1 as [|s ss Hs _ IH]; simpl; [done|]. by rewrite Hs.
Qed.

End Accepting.

End Plugin.

(** ** A concrete connection *)

#[local] Instance all_accepted : oracle := { accepts _ := true }.

Lemma all_accepts n : @accepts all_accepted n = true.
Proof. done. Qed.

Definition works_env : env := {| get_ok := true; subscribe_ok := true |}.

Definition one : connection := {| Enable := true; JabberID := Some "cpe@example.org"%string |}.

Definition started : world :=
  step (DeferredInit works_env) (cwmp_plugin_xmpp_init true true "" [(path_of 1, one)]).1.

(** The name is written, then the instance is disabled and enabled again. *)
Definition in_use : world :=
  step (Receive works_env) (step (ChangeConnection 1 one) (step (Dispatch works_env) (step (Write (path_of 1)) started))).

Lemma in_use_reached : reach started in_use.
Proof. do 4 (apply reach_step; [|done]). apply reach_start. Qed.

Lemma jabber_id_follows_witness :
  (forall p, p ∈ subs in_use <-> p = ConnReqXMPPConnection in_use /\ p <> ""%string) /\
  forall j, wanted in_use = Some j -> ConnReqJabberID in_use = j.
Proof.
  apply (jabber_id_follows all_accepts works_env "" [(path_of 1, one)]).
  - done.
  - apply in_use_reached.
  - done.
Defined.

Lemma deletion_clears_name_witness :
  let w' := run [DeleteConnection 1; Receive works_env; Dispatch works_env] in_use in
  ConnReqXMPPConnection w' = ""%string /\ ConnReqJabberID w' = ""%string /\ subs w' = [].
Proof.
  apply (deletion_clears_name all_accepts works_env "" [(path_of 1, one)]).
  - done.
  - done.
  - apply in_use_reached.
  - done.
  - done.
Defined.

End Xmpp.
