(* ===== verification/ManageableDevice.v ===== *)
(** * ManageableDevice: the devices that the gateway manages
    ([src/src/dmdeviceadapter/amx/cwmp_plugin/cwmp_plugin_manageable_device.c])

    A query of the device map reports the devices of the local network that
    identify themselves.  [ManagementServer.ManageableDevice] has an instance for
    each identity (manufacturer, serial number, product class), with the rows of
    [Hosts.Host] that belong to it in [Host], each followed by a comma.  A device
    without such a row waits in [md_requests], here [cache], until a row gets its
    hardware address.

    The class [amx] holds what the libraries do: variants, the search by an
    expression, the cutting of a text, the order in which a hash table is walked,
    and the transactions that are accepted; [AmxLaws] is what the code relies on.
    An [answers] is what the bus says during one callback. *)

From Stdlib Require Import ZArith Lia Ascii.
From stdpp Require Import base list gmap strings pretty.
From S2P Require Import Prelude CString.

Module ManageableDevice.
Import CString.

(** An instance of [ManagementServer.ManageableDevice] *)
Record instance := { ManufacturerOUI : string; SerialNumber : string; ProductClass : string; Host : string }.

#[global] Instance instance_eq_dec : EqDecision instance.
Proof. solve_decision. Defined.

Class amx := {
  variant : Type;
  is_table : variant -> Prop;
  vtable : variant;
  vclean : variant -> variant;
  vadd : variant -> string -> option string -> variant;
  vget : variant -> string -> option string;
  findf : list (Z * instance) -> string -> option Z;
  split_to_llist : string -> option (list string);
  iterate : forall {A : Type}, list (string * A) -> list (string * A);
  accepts : nat -> bool;
}.

(** An answer of [amxb_get] *)
Inductive answer (A : Type) :=
| GetFailed
| NullAnswer
| Answered (a : A).
Arguments GetFailed {A}.
Arguments NullAnswer {A}.
Arguments Answered {A} a.

(** [get_hosts] are the rows of [Hosts.Host] with their [PhysAddress];
    [get_device] is the [PhysAddress] of a path under [Devices.Device]. *)
Record answers := {
  who_has_hosts : bool;
  get_hosts : answer (list (string * option string));
  who_has_devices : bool;
  get_device : string -> answer (option string);
  who_has_management : bool;
  get_management_ok : bool;
  who_has_gmap : bool;
  subscribe_ok : bool;
  query_open_ok : bool;
}.

(** A device of the device map: its parameters *)
Notation gdevice := (gmap string string).

Inductive gmap_query_action_t :=
| gmap_query_expression_start_matching
| gmap_query_expression_stop_matching
| gmap_query_other_action.

(** The event of [PhysAddress]: the path of the row and the new address, where
    each part may be missing. *)
Record phys_event := { parameters : option (option (option string)); path : option string }.

(** The subscription, the query and the timers that retry them *)
Record life := {
  subscribed : bool;
  manageable_gmap_query : bool;
  host_retry_timer : option Z;
  gmap_retry_timer : option Z;
  host_timeout : Z;
  gmap_timeout : Z;
}.

Definition MANAGEABLE_DEVICE_PATH : string := "ManagementServer.ManageableDevice.".

Definition DEVICES_DEVICE_PATH : string := "Devices.Device.".

Definition instance_path (i : Z) : string :=
  String.append MANAGEABLE_DEVICE_PATH (String.append (pretty i) ".").

(** The expression that [cwmp_plugin_add_manageable_device] looks for *)
Definition device_expression (moui sn pc : string) : string :=
  foldr String.append ""%string
    [MANAGEABLE_DEVICE_PATH; "[ManufacturerOUI == '"; moui; "' && SerialNumber == '"; sn;
     "' && ProductClass == '"; pc; "']."]%string.

(** [strstr(s, p) != NULL] *)
Definition has_substring (s p : string) : bool := negb (is_null (strstr (cs p) (cs s))).

(** [strcasecmp(a, b) == 0] *)
Definition strcasecmp0 (a b : string) : bool := bool_decide (map tolower (cs a) = map tolower (cs b)).

(** [check_maximum] of the object definition *)
Definition check_maximum (n : nat) (s : string) : bool := Nat.leb (String.length s) n.

Definition host_fits (hosts : string) : bool := check_maximum 1024 hosts.

Definition instance_fits (x : instance) : bool :=
  check_maximum 6 (ManufacturerOUI x) && check_maximum 64 (SerialNumber x) && check_maximum 64 (ProductClass x)
  && host_fits (Host x).

Section Plugin.

Context {A : amx}.

(** [undefined] records a null pointer printed with [%s]. *)
Record world := {
  table : list (Z * instance);
  next_index : Z;
  cache : list variant;
  lf : life;
  ntrans : nat;
  undefined : bool;
}.

Definition with_cache (c : list variant) (w : world) : world :=
  {| table := table w; next_index := next_index w; cache := c; lf := lf w; ntrans := ntrans w; undefined := undefined w |}.

Definition with_life (l : life) (w : world) : world :=
  {| table := table w; next_index := next_index w; cache := cache w; lf := l; ntrans := ntrans w; undefined := undefined w |}.

Definition set_undefined (w : world) : world :=
  {| table := table w; next_index := next_index w; cache := cache w; lf := lf w; ntrans := ntrans w; undefined := true |}.

(** [amxd_trans_apply]: the transaction has its effect if it is valid and the
    library accepts it. *)
Definition trans_apply (valid : bool) (t : list (Z * instance)) (next : Z) (w : world) : world * Z :=
  let ok := valid && accepts (ntrans w) in
  ({| table := if ok then t else table w; next_index := if ok then next else next_index w; cache := cache w; lf := lf w;
      ntrans := S (ntrans w); undefined := undefined w |}, if ok then 0 else -1).

Definition set_host (hosts : string) (x : instance) : instance :=
  {| ManufacturerOUI := ManufacturerOUI x; SerialNumber := SerialNumber x; ProductClass := ProductClass x; Host := hosts |}.

Definition update_at (i : Z) (f : instance -> instance) (t : list (Z * instance)) : list (Z * instance) :=
  map (fun x => if x.1 =? i then (x.1, f x.2) else x) t.

Definition remove_at (i : Z) (t : list (Z * instance)) : list (Z * instance) :=
  List.filter (fun x => negb (x.1 =? i)) t.

Definition instance_at (i : Z) (t : list (Z * instance)) : option instance :=
  snd <$> List.find (fun x => x.1 =? i) t.

(** [amxd_dm_findf(dm, "%s", path)] *)
Definition find_path (p : string) (t : list (Z * instance)) : option (Z * instance) :=
  List.find (fun x => streq (instance_path x.1) p) t.

(** [cwmp_plugin_get_matching_path] *)
Definition cwmp_plugin_get_matching_path (htable : list (string * instance)) (host_path : string) : option string :=
  fst <$> List.find (fun x => has_substring (Host x.2) host_path) (iterate htable).

(** [cwmp_plugin_search_for_manageable_device]: [None] is a failure, otherwise
    the path that was found. *)
Definition cwmp_plugin_search_for_manageable_device (a : answers) (host_path : string) (w : world) :
    option (option string) :=
  if negb (who_has_management a) then None
  else if negb (get_management_ok a) then None
  else Some (cwmp_plugin_get_matching_path (map (fun x => (instance_path x.1, x.2)) (table w)) host_path).

(** [cwmp_plugin_set_manageable_host_param] *)
Definition cwmp_plugin_set_manageable_host_param (i : Z) (host_list : string) (w : world) : world * Z :=
  trans_apply (host_fits host_list) (update_at i (set_host host_list) (table w)) (next_index w) w.

(** [cwmp_plugin_add_manageable_host] *)
Definition cwmp_plugin_add_manageable_host (i : Z) (host : string) (w : world) : world * Z :=
  match instance_at i (table w) with
  | None => (w, -1)
  | Some x =>
      if has_substring (Host x) host then (w, 0)
      else cwmp_plugin_set_manageable_host_param i (String.append (Host x) (String.append host ",")) w
  end.

(** [cwmp_plugin_create_manageable_device] *)
Definition cwmp_plugin_create_manageable_device (moui sn pc host : string) (w : world) : world * Z :=
  let x := {| ManufacturerOUI := moui; SerialNumber := sn; ProductClass := pc; Host := String.append host "," |} in
  trans_apply (instance_fits x) (table w ++ [(next_index w, x)]) (next_index w + 1) w.

(** [cwmp_plugin_del_manageable_device] *)
Definition cwmp_plugin_del_manageable_device (index : Z) (w : world) : world * Z :=
  trans_apply true (remove_at index (table w)) (next_index w) w.

(** The new list of [cwmp_plugin_update_manageable_device] *)
Definition remaining_hosts (pieces : list string) (host : string) : string :=
  foldr (fun val acc => if negb (streq val "") && negb (streq host val) then String.append val (String.append "," acc) else acc)
    ""%string pieces.

(** [cwmp_plugin_update_manageable_device] *)
Definition cwmp_plugin_update_manageable_device (manageable : option string) (host : string) (w : world) : world * Z :=
  match manageable with
  | None => (set_undefined w, -1)
  | Some p =>
      match find_path p (table w) with
      | None => (w, -1)
      | Some (i, x) =>
          match split_to_llist (Host x) with
          | None => (w, -1)
          | Some pieces =>
              let new := remaining_hosts pieces host in
              if negb (has_substring new "Host") then cwmp_plugin_del_manageable_device i w
              else cwmp_plugin_set_manageable_host_param i new w
          end
      end
  end.

(** [cwmp_plugin_add_manageable_device] *)
Definition cwmp_plugin_add_manageable_device (info : option variant) (w : world) : world * Z :=
  match info with
  | None => (w, -1)
  | Some v =>
      match vget v "ManufacturerOUI", vget v "SerialNumber", vget v "ProductClass", vget v "Host" with
      | Some moui, Some sn, Some pc, Some host =>
          match findf (table w) (device_expression moui sn pc) with
          | Some i => cwmp_plugin_add_manageable_host i host w
          | None => cwmp_plugin_create_manageable_device moui sn pc host w
          end
      | _, _, _, _ => (w, -1)
      end
  end.

(** [cwmp_plugin_search_for_hosts]: the paths of the rows with the address, and
    0 if there is one. *)
Definition cwmp_plugin_search_for_hosts (a : answers) (mac : option string) : list string * Z :=
  match mac with
  | None => ([], -1)
  | Some m =>
      if negb (who_has_hosts a) then ([], -1)
      else
        match get_hosts a with
        | GetFailed | NullAnswer => ([], -1)
        | Answered rows =>
            let found :=
              List.filter (fun x => match x.2 with Some h => strcasecmp0 h m | None => false end) (iterate rows) in
            (map (fun x => String.append "Device." x.1) found, match found with [] => -1 | _ => 0 end)
        end
  end.

(** [cwmp_plugin_search_for_hosts_by_device_key] *)
Definition cwmp_plugin_search_for_hosts_by_device_key (a : answers) (device_key : string) : list string * Z :=
  if negb (who_has_devices a) then ([], -1)
  else
    match get_device a (String.append DEVICES_DEVICE_PATH (String.append device_key ".PhysAddress")) with
    | GetFailed | NullAnswer | Answered None => ([], -1)
    | Answered (Some physaddress) => cwmp_plugin_search_for_hosts a (Some physaddress)
    end.

(** [cwmp_plugin_set_manageable_deviceinfo]: [None] is a failure. *)
Definition cwmp_plugin_set_manageable_deviceinfo (v : variant) (device : gdevice) (host_path : option string) : option variant :=
  if bool_decide (device = ∅) then None
  else
    let v := vadd v "Host" host_path in
    let v := vadd v "Key" (device !! "Key"%string) in
    let v := vadd v "PhysAddress" (device !! "PhysAddress"%string) in
    let v := vadd v "ManufacturerOUI" (device !! "OUI"%string) in
    let v := vadd v "SerialNumber" (device !! "SerialNumber"%string) in
    Some (vadd v "ProductClass" (device !! "ProductClass"%string)).

(** [cwmp_plugin_md_cache_find]: the position and the entry. *)
Definition cwmp_plugin_md_cache_find (parameter value : string) (w : world) : option (nat * variant) :=
  list_find (fun v => vget v parameter = Some value) (cache w).

(** [cwmp_plugin_add_manageable_device_to_cache] *)
Definition cwmp_plugin_add_manageable_device_to_cache (v : variant) (w : world) : world :=
  with_cache (cache w ++ [v]) w.

(** [amxc_llist_it_take] and [cwmp_plugin_md_cache_free] *)
Definition cache_remove (i : nat) (w : world) : world := with_cache (delete i (cache w)) w.

(** [cwmp_plugin_clean_manageable_device_cache] *)
Definition cwmp_plugin_clean_manageable_device_cache (key : string) (w : world) : world :=
  match cwmp_plugin_md_cache_find "Key" key w with
  | None => w
  | Some (i, _) => cache_remove i w
  end.

(** The loops of [cwmp_plugin_manageable_query] over the paths of the rows *)
Fixpoint add_hosts (device : gdevice) (paths : list string) (v : variant) (w : world) : world :=
  match paths with
  | [] => w
  | host_path :: rest =>
      match cwmp_plugin_set_manageable_deviceinfo v device (Some host_path) with
      | None => w
      | Some v' =>
          let r := cwmp_plugin_add_manageable_device (Some v') w in
          if r.2 =? 0 then add_hosts device rest (vclean v') r.1 else r.1
      end
  end.

Fixpoint remove_hosts (a : answers) (paths : list string) (w : world) : world :=
  match paths with
  | [] => w
  | host_path :: rest =>
      match cwmp_plugin_search_for_manageable_device a host_path w with
      | None => w
      | Some manageable =>
          let r := cwmp_plugin_update_manageable_device manageable host_path w in
          if r.2 =? 0 then remove_hosts a rest r.1 else r.1
      end
  end.

(** [cwmp_plugin_manageable_query] *)
Definition cwmp_plugin_manageable_query (a : answers) (key : option string) (device : option gdevice)
    (action : gmap_query_action_t) (w : world) : world :=
  match key with
  | None => w
  | Some k =>
      match action with
      | gmap_query_expression_start_matching =>
          match device with
          | None => w
          | Some d =>
              let r := cwmp_plugin_search_for_hosts a (d !! "PhysAddress"%string) in
              if r.2 =? 0 then add_hosts d r.1 vtable w
              else
                match cwmp_plugin_set_manageable_deviceinfo vtable d None with
                | None => w
                | Some v => cwmp_plugin_add_manageable_device_to_cache v w
                end
          end
      | gmap_query_expression_stop_matching =>
          let w := cwmp_plugin_clean_manageable_device_cache k w in
          let r := cwmp_plugin_search_for_hosts_by_device_key a k in
          if r.2 =? 0 then remove_hosts a r.1 w else w
      | gmap_query_other_action => w
      end
  end.

(** [cwmp_plugin_host_phys_changed]: the entry of the cache gets the row before
    it is added. *)
Definition cwmp_plugin_host_phys_changed (data : option phys_event) (w : world) : world :=
  match data with
  | None => w
  | Some e =>
      match parameters e with
      | Some (Some (Some physaddress)) =>
          if streq physaddress "" then w
          else
            match cwmp_plugin_md_cache_find "PhysAddress" physaddress w with
            | None => w
            | Some (i, v) =>
                match path e with
                | None => w
                | Some p =>
                    if streq p "" then w
                    else
                      let v := vadd v "Host" (Some (String.append "Device." p)) in
                      let r := cwmp_plugin_add_manageable_device (Some v) (with_cache (<[i := v]> (cache w)) w) in
                      if r.2 =? 0 then cache_remove i r.1 else r.1
                end
            end
      | _ => w
      end
  end.

(** ** The subscription, the query and their timers *)

Definition next_timeout (t : Z) : Z := if t <? 20000 then s32 (t * 2) else t.

(** [cwmp_plugin_try_open_gmap_query] *)
Definition cwmp_plugin_try_open_gmap_query (a : answers) (l : life) : life :=
  if manageable_gmap_query l then l
  else if query_open_ok a then
    {| subscribed := subscribed l; manageable_gmap_query := true; host_retry_timer := host_retry_timer l;
       gmap_retry_timer := gmap_retry_timer l; host_timeout := host_timeout l; gmap_timeout := gmap_timeout l |}
  else
    {| subscribed := subscribed l; manageable_gmap_query := false; host_retry_timer := host_retry_timer l;
       gmap_retry_timer := Some (gmap_timeout l); host_timeout := host_timeout l;
       gmap_timeout := next_timeout (gmap_timeout l) |}.

(** [cwmp_plugin_try_add_manageabledevice_subscriptions] *)
Definition cwmp_plugin_try_add_manageabledevice_subscriptions (a : answers) (l : life) : life :=
  if subscribe_ok a then
    cwmp_plugin_try_open_gmap_query a
      {| subscribed := true; manageable_gmap_query := manageable_gmap_query l; host_retry_timer := host_retry_timer l;
         gmap_retry_timer := gmap_retry_timer l; host_timeout := host_timeout l; gmap_timeout := gmap_timeout l |}
  else
    {| subscribed := subscribed l; manageable_gmap_query := manageable_gmap_query l;
       host_retry_timer := Some (host_timeout l); gmap_retry_timer := gmap_retry_timer l;
       host_timeout := next_timeout (host_timeout l); gmap_timeout := gmap_timeout l |}.

(** [cwmp_plugin_manageabledevice_init] *)
Definition cwmp_plugin_manageabledevice_init (a : answers) (w : world) : world :=
  if negb (who_has_gmap a) then w
  else with_life (cwmp_plugin_try_add_manageabledevice_subscriptions a (lf w)) (with_cache [] w).

(** [cwmp_plugin_manageabledevice_clean] *)
Definition cwmp_plugin_manageabledevice_clean (w : world) : world :=
  with_life
    {| subscribed := false; manageable_gmap_query := false; host_retry_timer := host_retry_timer (lf w);
       gmap_retry_timer := gmap_retry_timer (lf w); host_timeout := host_timeout (lf w); gmap_timeout := gmap_timeout (lf w) |}
    (with_cache [] w).

(** The timers expire once. *)
Definition host_timer_expires (a : answers) (l : life) : life :=
  match host_retry_timer l with
  | None => l
  | Some _ =>
      cwmp_plugin_try_add_manageabledevice_subscriptions a
        {| subscribed := subscribed l; manageable_gmap_query := manageable_gmap_query l; host_retry_timer := None;
           gmap_retry_timer := gmap_retry_timer l; host_timeout := host_timeout l; gmap_timeout := gmap_timeout l |}
  end.

Definition gmap_timer_expires (a : answers) (l : life) : life :=
  match gmap_retry_timer l with
  | None => l
  | Some _ =>
      cwmp_plugin_try_open_gmap_query a
        {| subscribed := subscribed l; manageable_gmap_query := manageable_gmap_query l;
           host_retry_timer := host_retry_timer l; gmap_retry_timer := None; host_timeout := host_timeout l;
           gmap_timeout := gmap_timeout l |}
  end.

(** The loaded plugin, before [cwmp_plugin_manageabledevice_init] *)
Definition loaded : world :=
  {| table := []; next_index := 1; cache := [];
     lf := {| subscribed := false; manageable_gmap_query := false; host_retry_timer := None; gmap_retry_timer := None;
              host_timeout := 1000; gmap_timeout := 1000 |};
     ntrans := 0; undefined := false |}.

Inductive event :=
| Query (a : answers) (key : option string) (device : option gdevice) (action : gmap_query_action_t)
| PhysChanged (data : option phys_event)
| HostTimer (a : answers)
| GmapTimer (a : answers).

Definition step (ev : event) (w : world) : world :=
  match ev with
  | Query a key device action =>
      if manageable_gmap_query (lf w) then cwmp_plugin_manageable_query a key device action w else w
  | PhysChanged data => if subscribed (lf w) then cwmp_plugin_host_phys_changed data w else w
  | HostTimer a => with_life (host_timer_expires a (lf w)) w
  | GmapTimer a => with_life (gmap_timer_expires a (lf w)) w
  end.

Definition run : list event -> world -> world := run_steps step.

End Plugin.

(** What the code relies on.  A variant is a hash table after [amxc_var_set_type]
    and no longer one after [amxc_var_clean]; a key is added to a hash table that
    does not have it, a null value is none; the search finds the instance of an
    identity without quotes and backslashes; cutting at commas gives the pieces back;
    walking a hash table visits each entry once. *)
Definition plain (s : string) : Prop := "'"%char ∉ cs s /\ "\"%char ∉ cs s.

Definition word (s : string) : Prop := s <> ""%string /\ forall c, c ∈ cs s -> isalnum c = true \/ c = "."%char.

(** The text of a list of rows: each followed by a comma *)
Definition print_hosts (l : list string) : string :=
  foldr (fun h acc => String.append h (String.append "," acc)) ""%string l.

Definition identity (x : instance) : string * string * string := (ManufacturerOUI x, SerialNumber x, ProductClass x).

Definition plain_identity (i : string * string * string) : Prop := plain i.1.1 /\ plain i.1.2 /\ plain i.2.

Class AmxLaws (A : amx) : Prop := {
  vtable_table : is_table vtable;
  vclean_table v : ~ is_table (vclean v);
  vadd_table v k x : is_table (vadd v k x) <-> is_table v;
  vget_vtable k : vget vtable k = None;
  vget_clean v k : vget (vclean v) k = None;
  vget_vadd v k x : is_table v -> vget v k = None -> vget (vadd v k x) k = x;
  vget_vadd_none v k x k' : ~ is_table v -> vget (vadd v k x) k' = vget v k';
  vget_vadd_there v k x k' s : vget v k = Some s -> vget (vadd v k x) k' = vget v k';
  vget_vadd_ne v k x k' : k' <> k -> vget (vadd v k x) k' = vget v k';
  findf_identity t moui sn pc :
    plain_identity (moui, sn, pc) ->
    Forall (fun x => plain_identity (identity x.2)) t -> NoDup (map (fun x => identity x.2) t) ->
    findf t (device_expression moui sn pc) =
      fst <$> List.find (fun x => bool_decide (identity x.2 = (moui, sn, pc))) t;
  split_print l : Forall word l ->
    exists pieces, split_to_llist (print_hosts l) = Some pieces /\ List.filter (fun s => negb (streq s "")) pieces = l;
  iterate_permutation {B : Type} (l : list (string * B)) : iterate l ≡ₚ l;
}.

End ManageableDevice.
