(* ===== verification/ManageableDeviceText.v ===== *)
(** * ManageableDeviceText: the lists of rows as text

    [Host] holds the paths of rows, each followed by a comma; the code looks for a
    path with [strstr], which is right because a path of [Hosts.Host] is not part
    of another one.  [hosts_of] reads the text back. *)

From Stdlib Require Import ZArith Lia Ascii.
From stdpp Require Import base list gmap strings pretty.
From S2P Require Import Prelude CString ManageableDevice.

Module ManageableDeviceText.
Import CString ManageableDevice.

(** The path of a row: its number between dots *)
Definition row_path (p : string) : Prop :=
  exists d, cs p = cs "Device.Hosts.Host." ++ d ++ ["."%char] /\ Forall (fun c => digit c <> None) d.

Definition hosts_of (s : string) : list string :=
  map String.string_of_list_ascii (strtok "," (cs s) []).

(** ** Parts of a text *)

Definition infix (p s : cstr) : Prop := exists a b, s = a ++ p ++ b.

Lemma starts_with_spec p s : starts_with p s = true <-> exists b, s = p ++ b.
Proof.
  revert s. induction p as [|x p IH]; intros s; simpl; [naive_solver|].
  destruct s as [|y s]; [naive_solver|]. rewrite andb_true_iff, Ascii.eqb_eq, IH. naive_solver.
Qed.

Lemma strstr_spec p s : is_null (strstr p s) = false <-> infix p s.
Proof.
  induction s as [|c s IH]; cbn [strstr]; destruct (starts_with p _) eqn:E; cbn [is_null].
  - split; [|done]. intros _. apply starts_with_spec in E as [b E]. by exists [], b.
  - split; [done|]. intros (a & b & H). symmetry in H. apply app_nil in H as [-> [-> ->]%app_nil]. done.
  - split; [|done]. intros _. apply starts_with_spec in E as [b E]. by exists [], b.
  - rewrite IH. split; intros (a & b & H).
    + exists (c :: a), b. by rewrite H.
    + destruct a as [|x a]; simpl in H.
      * assert (starts_with p (c :: s) = true) by (apply starts_with_spec; eauto). congruence.
      * injection H as -> ->. by exists a, b.
Qed.

Lemma has_substring_spec s p : has_substring s p = true <-> infix (cs p) (cs s).
Proof. unfold has_substring. rewrite negb_true_iff. apply strstr_spec. Qed.

Lemma prefix_split (sep : ascii) (p a b v : cstr) : sep ∉ p -> a ++ sep :: b = p ++ v -> exists k, a = p ++ k.
Proof.
  revert a. induction p as [|z p IH]; intros a Hp H; [by exists a|].
  apply not_elem_of_cons in Hp as [Hz Hp]. destruct a as [|t a]; simpl in H; injection H as E H; [by destruct Hz|].
  subst t. destruct (IH a Hp H) as [k ->]. by exists k.
Qed.

(** A text without the separator is part of one of the pieces. *)
Lemma infix_split (sep : ascii) (p a b : cstr) : sep ∉ p -> infix p (a ++ sep :: b) -> infix p a \/ infix p b.
Proof.
  intros Hp (u & v & H). revert u H. induction a as [|c a IH]; intros u H.
  - destruct u as [|x u].
    + destruct (prefix_split sep p [] b v Hp H) as [k E]. left. by exists [], k.
    + injection H as -> H. right. by exists u, v.
  - destruct u as [|x u].
    + destruct (prefix_split sep p (c :: a) b v Hp H) as [k ->]. left. by exists [], k.
    + injection H as -> H. destruct (IH u H) as [(u' & v' & ->)|?]; [|by right]. left. by exists (x :: u'), v'.
Qed.

Lemma infix_app_l p a b : infix p a -> infix p (a ++ b).
Proof. intros (u & v & ->). exists u, (v ++ b). by rewrite <- !app_assoc. Qed.

Lemma infix_app_r p a b : infix p b -> infix p (a ++ b).
Proof. intros (u & v & ->). exists (a ++ u), v. by rewrite <- !app_assoc. Qed.

(** ** The paths *)

Lemma digit_bounds c : digit c <> None -> (48 <= Ascii.nat_of_ascii c <= 57)%nat.
Proof.
  unfold digit. destruct (_ && _) eqn:E; [|done]. intros _. apply andb_true_iff in E as [H1 H2].
  apply Nat.leb_le in H1, H2. lia.
Qed.

Lemma digit_not c d : digit c <> None -> (Ascii.nat_of_ascii d < 48 \/ 57 < Ascii.nat_of_ascii d)%nat -> c <> d.
Proof. intros H%digit_bounds Hd ->. lia. Qed.

Lemma digits_not d l : Forall (fun c => digit c <> None) l -> (Ascii.nat_of_ascii d < 48 \/ 57 < Ascii.nat_of_ascii d)%nat -> d ∉ l.
Proof. intros H Hd Hin. rewrite Forall_forall in H. by eapply digit_not; [apply H| |]. Qed.

Lemma row_word p : row_path p -> word p.
Proof.
  intros (d & E & Hd). split.
  - intros ->. destruct d; discriminate E.
  - intros c. rewrite E, !elem_of_app, list_elem_of_singleton. intros [H|[H|H]]; [| |by right].
    + assert (Forall (fun c => isalnum c = true \/ c = "."%char) (cs "Device.Hosts.Host.")) as Hall.
      { repeat constructor; (by left) || by right. }
      rewrite Forall_forall in Hall. by apply Hall.
    + left. rewrite Forall_forall in Hd. apply Hd, digit_bounds in H. unfold isalnum.
      apply orb_true_iff. right. apply andb_true_iff. split; apply Nat.leb_le; lia.
Qed.

Lemma word_comma p : word p -> ","%char ∉ cs p.
Proof. intros [_ H] Hc. by destruct (H _ Hc) as [?|?]. Qed.

Lemma word_nonempty p : word p -> cs p <> [].
Proof. intros [H _] E. apply H. by destruct p. Qed.

(** A path that is part of another one is that one. *)
Lemma row_infix p q : row_path p -> row_path q -> infix (cs p) (cs q) -> p = q.
Proof.
  intros (d & Ep & Hd) (e & Eq & He) (a & b & H). rewrite Eq, Ep in H. destruct a as [|c a].
  - rewrite app_nil_l, <- !app_assoc in H. apply app_inv_head in H. simpl in H.
    apply (f_equal (strchr ".")) in H.
    rewrite !strchr_app in H by (apply digits_not; [done|vm_compute; lia]).
    injection H as -> _. apply cs_inj. by rewrite Ep, Eq.
  - exfalso. apply (f_equal (drop 1)) in H. cbn [app drop] in H. rewrite drop_0 in H.
    assert (Hin : "D"%char ∈ a ++ (cs "Device.Hosts.Host." ++ d ++ ["."%char]) ++ b).
    { rewrite !elem_of_app. right; left; left. by left. }
    rewrite <- H in Hin. cbn in Hin. repeat (apply elem_of_cons in Hin as [Hin|Hin]; [discriminate Hin|]).
    rewrite elem_of_app, list_elem_of_singleton in Hin. destruct Hin as [Hin|Hin]; [|done].
    revert Hin. apply digits_not; [done|vm_compute; lia].
Qed.

(** ** The lists *)

Lemma cs_print_cons h l : cs (print_hosts (h :: l)) = cs h ++ ","%char :: cs (print_hosts l).
Proof.
  change (print_hosts (h :: l)) with (String.append h (String.append "," (print_hosts l))). by rewrite cs_append.
Qed.

Lemma print_hosts_snoc l h : print_hosts (l ++ [h]) = String.append (print_hosts l) (String.append h ",").
Proof.
  apply cs_inj. induction l as [|x l IH].
  - rewrite app_nil_l, cs_print_cons, !cs_append. done.
  - cbn [app]. rewrite cs_print_cons, IH, !cs_append, cs_print_cons, <- app_assoc. done.
Qed.

Lemma has_row l p : row_path p -> Forall row_path l -> has_substring (print_hosts l) p = bool_decide (p ∈ l).
Proof.
  intros Hp Hl. apply eq_true_iff_eq. rewrite has_substring_spec, bool_decide_eq_true.
  induction Hl as [|h l Hh Hl IH].
  - split; [|by intros ?%elem_of_nil]. intros (a & b & H). symmetry in H. apply app_nil in H as [_ [H _]%app_nil].
    by apply row_word, word_nonempty in Hp.
  - rewrite cs_print_cons, elem_of_cons. split.
    + intros [H|H]%infix_split; [| |by apply word_comma, row_word].
      * left. by apply row_infix.
      * right. by apply IH.
    + intros [->|H].
      * by exists [], (","%char :: cs (print_hosts l)).
      * apply infix_app_r. rewrite <- (app_nil_l (_ :: _)), <- (app_nil_l (cs _)), app_nil_l.
        change (infix (cs p) ([","%char] ++ cs (print_hosts l))). apply infix_app_r. by apply IH.
Qed.

Lemma has_host l : Forall row_path l -> has_substring (print_hosts l) "Host" = negb (bool_decide (l = [])).
Proof.
  intros Hl. destruct Hl as [|h l Hh Hl]; [done|]. rewrite bool_decide_eq_false_2 by done. apply has_substring_spec.
  rewrite cs_print_cons. apply infix_app_l. destruct Hh as (d & -> & _). apply infix_app_l.
  by exists (cs "Device."), (cs "s.Host.").
Qed.

Lemma hosts_of_print l : Forall word l -> hosts_of (print_hosts l) = l.
Proof.
  unfold hosts_of. induction 1 as [|h l Hh Hl IH]; [done|].
  rewrite cs_print_cons, strtok_app_sep by (apply word_comma || apply word_nonempty; done).
  cbn [map]. unfold cs at 1. rewrite String.string_of_list_ascii_of_string. by rewrite IH.
Qed.

Lemma remaining_filter pieces h :
  remaining_hosts pieces h =
  print_hosts (List.filter (fun s => negb (streq h s)) (List.filter (fun s => negb (streq s "")) pieces)).
Proof.
  unfold remaining_hosts. induction pieces as [|s pieces IH]; [done|]. cbn [foldr List.filter].
  destruct (negb (streq s "")) eqn:E; simpl andb; [|exact IH]. cbn [List.filter].
  destruct (negb (streq h s)); [|exact IH]. by rewrite IH.
Qed.

Lemma string_length_append (a b : string) : String.length (String.append a b) = (String.length a + String.length b)%nat.
Proof. induction a as [|c a IH]; simpl; [done|]. by rewrite IH. Qed.

Lemma print_hosts_length l : String.length (print_hosts l) = sum_list_with (fun h => String.length h + 1)%nat l.
Proof.
  induction l as [|h l IH]; [done|]. change (print_hosts (h :: l)) with (String.append h (String.append "," (print_hosts l))).
  rewrite !string_length_append, IH. simpl. lia.
Qed.

Lemma instance_path_inj i j : instance_path i = instance_path j -> i = j.
Proof. unfold instance_path. intros H. apply append_inj, append_inj_r in H. by apply (inj pretty). Qed.

End ManageableDeviceText.
