(* ===== verification/ManageableDeviceFacts.v ===== *)
(** * ManageableDeviceFacts: the table of manageable devices as a registry

    [table_ok] is the invariant of the table; a table that has it stands for the
    map [registry] from identities to lists of rows, and the operations on the
    table are [register] and [unregister] on the map. *)

From Stdlib Require Import ZArith Lia Ascii.
From stdpp Require Import base list gmap strings pretty.
From S2P Require Import Prelude CString ManageableDevice ManageableDeviceText.

Module ManageableDeviceFacts.
Import CString ManageableDevice ManageableDeviceText.

Notation ident := (string * string * string)%type.

Record well_formed (x : instance) : Prop := {
  wf_plain : plain_identity (identity x);
  wf_fits : instance_fits x = true;
  wf_hosts : exists l, Host x = print_hosts l /\ l <> [] /\ NoDup l /\ Forall row_path l;
}.

Record table_ok (t : list (Z * instance)) (next : Z) : Prop := {
  ok_keys : NoDup (map fst t);
  ok_fresh : Forall (fun x => x.1 < next) t;
  ok_ids : NoDup (map (fun x => identity x.2) t);
  ok_wf : Forall (fun x => well_formed x.2) t;
}.

Definition registry (t : list (Z * instance)) : gmap ident (list string) :=
  list_to_map (map (fun x => (identity x.2, hosts_of (Host x.2))) t).

Definition register (id : ident) (h : string) (m : gmap ident (list string)) : gmap ident (list string) :=
  let l := default [] (m !! id) in
  if bool_decide (h ∈ l) then m else <[id := l ++ [h]]> m.

Definition without (h : string) (l : list string) : list string := List.filter (fun s => negb (streq h s)) l.

Definition unregister (id : ident) (h : string) (m : gmap ident (list string)) : gmap ident (list string) :=
  match m !! id with
  | None => m
  | Some l => if bool_decide (without h l = []) then delete id m else <[id := without h l]> m
  end.

(** ** The table and the map *)

Lemma registry_cons i x t : registry ((i, x) :: t) = <[identity x := hosts_of (Host x)]> (registry t).
Proof. done. Qed.

Lemma registry_none id t : id ∉ map (fun x : Z * instance => identity x.2) t -> registry t !! id = None.
Proof.
  intros H. apply not_elem_of_list_to_map_1. contradict H. revert H. unfold fmap. rewrite map_map. done.
Qed.

Lemma registry_some id l t : registry t !! id = Some l ->
  exists i x, (i, x) ∈ t /\ identity x = id /\ hosts_of (Host x) = l.
Proof.
  intros H%elem_of_list_to_map_2. apply list_elem_of_In, in_map_iff in H as [[i x] [[= <- <-] H]].
  exists i, x. split; [by apply list_elem_of_In|done].
Qed.

Lemma registry_lookup i x t : NoDup (map (fun x => identity x.2) t) -> (i, x) ∈ t ->
  registry t !! identity x = Some (hosts_of (Host x)).
Proof.
  intros Hn Hin. apply elem_of_list_to_map_1.
  - unfold fmap. by rewrite map_map.
  - apply list_elem_of_In, in_map_iff. exists (i, x). split; [done|by apply list_elem_of_In].
Qed.

Lemma instance_at_elem i x t : NoDup (map fst t) -> (i, x) ∈ t -> instance_at i t = Some x.
Proof.
  intros Hn Hin. unfold instance_at. destruct (List.find _ t) as [[j y]|] eqn:E.
  - apply List.find_some in E as [Hy E]. apply Z.eqb_eq in E. simpl in E. subst j. apply list_elem_of_In in Hy.
    pose proof (NoDup_map_inj fst t (i, y) (i, x) Hn Hy Hin eq_refl) as [= ->]. done.
  - apply List.find_none with (x := (i, x)) in E; [|by apply list_elem_of_In]. simpl in E. by rewrite Z.eqb_refl in E.
Qed.

Lemma update_at_skip i f t : i ∉ map fst t -> update_at i f t = t.
Proof.
  unfold update_at. induction t as [|[k y] t IH]; intros Hn; [done|]. simpl in *. apply not_elem_of_cons in Hn as [Hk Hn].
  rewrite IH by done. by rewrite (proj2 (Z.eqb_neq k i)) by congruence.
Qed.

Lemma remove_at_skip i t : i ∉ map fst t -> remove_at i t = t.
Proof.
  unfold remove_at. induction t as [|[k y] t IH]; intros Hn; [done|]. simpl in *. apply not_elem_of_cons in Hn as [Hk Hn].
  rewrite IH by done. by rewrite (proj2 (Z.eqb_neq k i)) by congruence.
Qed.

Lemma update_at_cons i f k y t :
  update_at i f ((k, y) :: t) = (if k =? i then (k, f y) else (k, y)) :: update_at i f t.
Proof. done. Qed.

Lemma remove_at_cons i k y t : remove_at i ((k, y) :: t) = if k =? i then remove_at i t else (k, y) :: remove_at i t.
Proof. unfold remove_at. cbn [List.filter fst]. by destruct (k =? i). Qed.

Lemma registry_update i x f t :
  NoDup (map fst t) -> NoDup (map (fun x => identity x.2) t) -> (i, x) ∈ t -> (forall y, identity (f y) = identity y) ->
  registry (update_at i f t) = <[identity x := hosts_of (Host (f x))]> (registry t).
Proof.
  intros Hk Hi Hin Hf. induction t as [|[k y] t IH]; [by apply elem_of_nil in Hin|].
  cbn [map fst snd] in Hk, Hi. apply NoDup_cons in Hk as [Hk Hk'], Hi as [Hi Hi'].
  rewrite update_at_cons. apply elem_of_cons in Hin as [[= <- <-]|Hin].
  - rewrite Z.eqb_refl, update_at_skip, !registry_cons, Hf by done. by rewrite insert_insert_eq.
  - assert (k <> i). { intros ->. apply Hk. apply list_elem_of_In, in_map_iff. exists (i, x). by rewrite <- list_elem_of_In. }
    rewrite (proj2 (Z.eqb_neq k i)), !registry_cons, IH by done. apply insert_insert_ne. intros E. apply Hi.
    apply list_elem_of_In, in_map_iff. exists (i, x). by rewrite <- list_elem_of_In.
Qed.

Lemma registry_remove i x t :
  NoDup (map fst t) -> NoDup (map (fun x => identity x.2) t) -> (i, x) ∈ t ->
  registry (remove_at i t) = delete (identity x) (registry t).
Proof.
  intros Hk Hi Hin. induction t as [|[k y] t IH]; [by apply elem_of_nil in Hin|].
  cbn [map fst snd] in Hk, Hi. apply NoDup_cons in Hk as [Hk Hk'], Hi as [Hi Hi'].
  rewrite remove_at_cons. apply elem_of_cons in Hin as [[= <- <-]|Hin].
  - rewrite Z.eqb_refl, remove_at_skip, registry_cons, delete_insert_id; [done|by apply registry_none|done].
  - assert (k <> i). { intros ->. apply Hk. apply list_elem_of_In, in_map_iff. exists (i, x). by rewrite <- list_elem_of_In. }
    rewrite (proj2 (Z.eqb_neq k i)), !registry_cons, IH by done. rewrite delete_insert_ne; [done|]. intros E. apply Hi.
    apply list_elem_of_In, in_map_iff. exists (i, x). by rewrite <- list_elem_of_In.
Qed.

Lemma registry_snoc n x t : identity x ∉ map (fun x => identity x.2) t ->
  registry (t ++ [(n, x)]) = <[identity x := hosts_of (Host x)]> (registry t).
Proof.
  induction t as [|[k y] t IH]; intros H; [done|]. cbn [app map snd] in *. apply not_elem_of_cons in H as [H1 H2].
  rewrite !registry_cons, IH by done. apply insert_insert_ne. congruence.
Qed.

(** ** The invariant *)

Lemma keys_update i f t : map fst (update_at i f t) = map fst t.
Proof. unfold update_at. rewrite map_map. apply map_ext. intros [k y]. simpl. by destruct (k =? i). Qed.

Lemma ids_update i f t : (forall y, identity (f y) = identity y) ->
  map (fun x => identity x.2) (update_at i f t) = map (fun x => identity x.2) t.
Proof. intros Hf. unfold update_at. rewrite map_map. apply map_ext. intros [k y]. simpl. destruct (k =? i); simpl; [apply Hf|done]. Qed.

Lemma table_ok_update i f t n :
  table_ok t n -> (forall y, identity (f y) = identity y) -> (forall y, instance_at i t = Some y -> well_formed (f y)) ->
  table_ok (update_at i f t) n.
Proof.
  intros [H1 H2 H3 H4] Hf Hw. constructor.
  - by rewrite keys_update.
  - unfold update_at. rewrite Forall_forall in *. intros z Hz. apply list_elem_of_In, in_map_iff in Hz as [[k y] [<- Hy]].
    apply list_elem_of_In in Hy. pose proof (H2 _ Hy). simpl. by destruct (k =? i).
  - by rewrite ids_update.
  - unfold update_at. rewrite Forall_forall in *. intros z Hz. apply list_elem_of_In, in_map_iff in Hz as [[k y] [<- Hy]].
    apply list_elem_of_In in Hy. simpl. destruct (k =? i) eqn:E; [|by apply (H4 (k, y))].
    apply Z.eqb_eq in E as ->. apply Hw. by apply instance_at_elem.
Qed.

Lemma table_ok_remove i t n : table_ok t n -> table_ok (remove_at i t) n.
Proof.
  intros [H1 H2 H3 H4]. unfold remove_at.
  constructor; [by apply NoDup_map_filter|by apply Forall_filter_l|by apply NoDup_map_filter|by apply Forall_filter_l].
Qed.

Lemma table_ok_snoc x t n :
  table_ok t n -> well_formed x -> identity x ∉ map (fun x => identity x.2) t -> table_ok (t ++ [(n, x)]) (n + 1).
Proof.
  intros [H1 H2 H3 H4] Hx Hn. constructor; rewrite ?map_app, ?Forall_app; cbn [map fst snd].
  - apply NoDup_app. split; [done|]. split; [|apply NoDup_singleton]. intros k Hk. rewrite list_elem_of_singleton. intros ->.
    apply list_elem_of_In, in_map_iff in Hk as [[k y] [E Hk]]. simpl in E. subst k. apply list_elem_of_In in Hk.
    rewrite Forall_forall in H2. apply H2 in Hk. simpl in Hk. lia.
  - split; [|repeat constructor; simpl; lia]. eapply Forall_impl; [exact H2|]. simpl. lia.
  - apply NoDup_app. split; [done|]. split; [|apply NoDup_singleton]. intros k Hk. rewrite list_elem_of_singleton. by intros ->.
  - split; [done|]. by apply Forall_singleton.
Qed.

End ManageableDeviceFacts.
