(* ===== verification/ManageableDeviceSpec.v ===== *)
(** * ManageableDeviceSpec: what the events do to the registry

    Adding a device is [register], the end of a match is [unregister], on every
    branch; the invariant [good] of the plugin is kept by every event. *)

From Stdlib Require Import ZArith Lia Ascii.
From stdpp Require Import base list gmap strings pretty.
From S2P Require Import Prelude CString ManageableDevice ManageableDeviceText ManageableDeviceFacts.

Module ManageableDeviceSpec.
Import CString ManageableDevice ManageableDeviceText ManageableDeviceFacts.

(** There is room for one more row: the sizes of the object definition. *)
Definition room (id : ident) (h : string) (m : gmap ident (list string)) : bool :=
  check_maximum 6 id.1.1 && check_maximum 64 id.1.2 && check_maximum 64 id.2
  && host_fits (print_hosts (default [] (m !! id) ++ [h])).

Section Spec.

Context {A : amx} {L : AmxLaws A}.

(** What a variant says: the identity and the row *)
Record describes (v : variant) (id : ident) (h : string) : Prop := {
  d_oui : vget v "ManufacturerOUI" = Some id.1.1;
  d_sn : vget v "SerialNumber" = Some id.1.2;
  d_pc : vget v "ProductClass" = Some id.2;
  d_host : vget v "Host" = Some h;
}.

Lemma find_identity id t i :
  fst <$> List.find (fun x : Z * instance => bool_decide (identity x.2 = id)) t = Some i ->
  exists x, (i, x) ∈ t /\ identity x = id.
Proof.
  destruct (List.find _ t) as [[j x]|] eqn:E; [|done]. intros [= <-]. apply List.find_some in E as [H E].
  exists x. split; [by apply list_elem_of_In|]. by apply bool_decide_eq_true in E.
Qed.

Lemma find_identity_none id t :
  fst <$> List.find (fun x : Z * instance => bool_decide (identity x.2 = id)) t = None ->
  id ∉ map (fun x => identity x.2) t.
Proof.
  destruct (List.find _ t) as [[j x]|] eqn:E; [done|]. intros _ Hin. apply list_elem_of_In, in_map_iff in Hin as [y [Hy Hin]].
  apply List.find_none with (x := y) in E; [|done]. by apply bool_decide_eq_false in E.
Qed.

Lemma registry_hosts t next x i l :
  table_ok t next -> (i, x) ∈ t -> Host x = print_hosts l -> Forall row_path l -> registry t !! identity x = Some l.
Proof.
  intros H Hin E Hl. rewrite (registry_lookup i) by (apply H || done).
  rewrite E, hosts_of_print; [done|]. eapply Forall_impl; [exact Hl|]. apply row_word.
Qed.

Lemma elem_wf t next i x : table_ok t next -> (i, x) ∈ t -> well_formed x.
Proof. intros H Hin. pose proof (ok_wf _ _ H) as Hw. rewrite Forall_forall in Hw. by apply (Hw (i, x)). Qed.

Lemma set_host_wf x l h :
  well_formed x -> Host x = print_hosts l -> NoDup (l ++ [h]) -> Forall row_path (l ++ [h]) ->
  host_fits (print_hosts (l ++ [h])) = true -> well_formed (set_host (print_hosts (l ++ [h])) x).
Proof.
  intros [H1 H2 H3] E Hn Hr Hf. constructor; [done| |].
  - unfold instance_fits in *. cbn [set_host ManufacturerOUI SerialNumber ProductClass Host].
    apply andb_true_iff in H2 as [H2 _]. by rewrite H2, Hf.
  - exists (l ++ [h]). split; [done|]. split; [by destruct l|done].
Qed.

(** Everything but the table *)
Record frame (w w' : world) : Prop := {
  f_cache : cache w' = cache w;
  f_life : lf w' = lf w;
  f_undefined : undefined w' = undefined w;
}.

Lemma frame_refl w : frame w w.
Proof. done. Qed.

Lemma frame_trans b t n w : frame w (trans_apply b t n w).1.
Proof. done. Qed.

(** Adding a device with a row: [register], unless the row is new and there is
    no room for it or the transaction is refused. *)
Definition registered (w : world) (id : ident) (h : string) : bool :=
  bool_decide (h ∈ default [] (registry (table w) !! id))
  || (room id h (registry (table w)) && accepts (ntrans w)).

Record adds (w : world) (id : ident) (h : string) (r : world * Z) : Prop := {
  a_registry : registry (table r.1) = (if registered w id h then register id h (registry (table w)) else registry (table w));
  a_result : r.2 = (if registered w id h then 0 else -1);
  a_ok : table_ok (table r.1) (next_index r.1);
  a_frame : frame w r.1;
}.

Lemma add_host_spec w i x l h :
  table_ok (table w) (next_index w) -> (i, x) ∈ table w -> Host x = print_hosts l -> NoDup l -> Forall row_path l ->
  row_path h -> adds w (identity x) h (cwmp_plugin_add_manageable_host i h w).
Proof.
  intros Hok Hin E Hn Hl Hh. pose proof (elem_wf _ _ _ _ Hok Hin) as Hw.
  assert (Hm : registry (table w) !! identity x = Some l) by (eapply registry_hosts; done).
  assert (Hroom : room (identity x) h (registry (table w)) = host_fits (print_hosts (l ++ [h]))).
  { unfold room. rewrite Hm. pose proof (wf_fits _ Hw) as Hf. unfold instance_fits in Hf.
    apply andb_true_iff in Hf as [Hf _]. cbn [identity fst snd default]. by rewrite Hf. }
  unfold cwmp_plugin_add_manageable_host. rewrite (instance_at_elem i x) by (apply Hok || done).
  rewrite E, has_row by done. case_bool_decide as Hd.
  - assert (registered w (identity x) h = true) as Hr by (unfold registered; rewrite Hm; by rewrite bool_decide_eq_true_2).
    constructor; rewrite ?Hr; try done. unfold register. rewrite Hm. by rewrite bool_decide_eq_true_2.
  - rewrite <- print_hosts_snoc. unfold cwmp_plugin_set_manageable_host_param.
    assert (Hr : registered w (identity x) h = host_fits (print_hosts (l ++ [h])) && accepts (ntrans w)).
    { unfold registered. rewrite Hm, Hroom. by rewrite bool_decide_eq_false_2. }
    constructor; rewrite ?Hr; try done; unfold trans_apply; cbn [fst snd table next_index];
      destruct (host_fits _ && _) eqn:Ef; try done.
    + rewrite (registry_update i x) by (apply Hok || done). unfold register. rewrite Hm. cbn [default].
      rewrite bool_decide_eq_false_2 by done. cbn [set_host Host]. rewrite hosts_of_print; [done|].
      apply Forall_app. split; [eapply Forall_impl; [exact Hl|]; apply row_word|]. apply Forall_singleton. by apply row_word.
    + apply table_ok_update; [done|done|]. intros y Hy. rewrite (instance_at_elem i x) in Hy by (apply Hok || done).
      injection Hy as <-. apply andb_true_iff in Ef as [Ef _]. apply set_host_wf; try done.
      * apply NoDup_app. split; [done|]. split; [|apply NoDup_singleton]. intros z Hz. rewrite list_elem_of_singleton. by intros ->.
      * apply Forall_app. split; [done|]. by apply Forall_singleton.
Qed.

Lemma create_spec w id h :
  table_ok (table w) (next_index w) -> id ∉ map (fun x => identity x.2) (table w) -> plain_identity id -> row_path h ->
  adds w id h (cwmp_plugin_create_manageable_device id.1.1 id.1.2 id.2 h w).
Proof.
  intros Hok Hid Hp Hh. pose proof (registry_none id _ Hid) as Hm.
  unfold cwmp_plugin_create_manageable_device.
  set (x := {| ManufacturerOUI := id.1.1; SerialNumber := id.1.2; ProductClass := id.2; Host := String.append h "," |}).
  assert (Eid : identity x = id) by (by destruct id as [[? ?] ?]).
  assert (Ex : Host x = print_hosts ([] ++ [h])) by (by rewrite print_hosts_snoc).
  assert (Hrow : Forall row_path ([] ++ [h])) by (by apply Forall_singleton).
  assert (Hr : registered w id h = instance_fits x && accepts (ntrans w)).
  { unfold registered. rewrite Hm. unfold room. rewrite Hm. cbn [default]. rewrite bool_decide_eq_false_2 by apply not_elem_of_nil.
    unfold instance_fits. rewrite Ex. done. }
  constructor; rewrite ?Hr; try done; unfold trans_apply; cbn [fst snd table next_index];
    destruct (instance_fits x && _) eqn:Ef; try done.
  - rewrite registry_snoc by (by rewrite Eid). unfold register. rewrite Hm. cbn [default].
    rewrite bool_decide_eq_false_2 by apply not_elem_of_nil. rewrite Eid, Ex, hosts_of_print; [done|].
    eapply Forall_impl; [exact Hrow|]. apply row_word.
  - apply table_ok_snoc; [done| |by rewrite Eid]. apply andb_true_iff in Ef as [Ef _]. constructor; [by rewrite Eid|done|].
    exists ([] ++ [h]). split; [done|]. split; [done|]. split; [apply NoDup_singleton|done].
Qed.

Lemma add_spec w v id h :
  table_ok (table w) (next_index w) -> describes v id h -> plain_identity id -> row_path h ->
  adds w id h (cwmp_plugin_add_manageable_device (Some v) w).
Proof.
  intros Hok [H1 H2 H3 H4] Hp Hh. cbn [cwmp_plugin_add_manageable_device]. rewrite H1, H2, H3, H4.
  rewrite findf_identity; [|by destruct id as [[? ?] ?]| |apply Hok].
  2:{ eapply Forall_impl; [apply (ok_wf _ _ Hok)|]. intros x Hx. apply Hx. }
  replace (id.1.1, id.1.2, id.2) with id by (by destruct id as [[? ?] ?]).
  destruct (fst <$> _) as [i|] eqn:E.
  - apply find_identity in E as (x & Hin & <-). pose proof (elem_wf _ _ _ _ Hok Hin) as Hw.
    destruct (wf_hosts _ Hw) as (l & El & _ & Hn & Hl). by apply (add_host_spec w i x l).
  - apply find_identity_none in E. by apply create_spec.
Qed.

(** ** The end of a match *)

Record removes (w : world) (id : ident) (h : string) (r : world * Z) : Prop := {
  r_registry : registry (table r.1) = (if accepts (ntrans w) then unregister id h (registry (table w)) else registry (table w));
  r_result : r.2 = (if accepts (ntrans w) then 0 else -1);
  r_ok : table_ok (table r.1) (next_index r.1);
  r_frame : frame w r.1;
}.

Lemma find_path_instance i x t : NoDup (map fst t) -> (i, x) ∈ t -> find_path (instance_path i) t = Some (i, x).
Proof.
  intros Hn Hin. unfold find_path. destruct (List.find _ t) as [[j y]|] eqn:E.
  - apply List.find_some in E as [Hy E]. apply streq_true, instance_path_inj in E. simpl in E. subst j.
    apply list_elem_of_In in Hy. f_equal. by apply (NoDup_map_inj fst t).
  - apply List.find_none with (x := (i, x)) in E; [|by apply list_elem_of_In]. simpl in E. by rewrite streq_refl in E.
Qed.

Lemma without_fits h l : host_fits (print_hosts l) = true -> host_fits (print_hosts (without h l)) = true.
Proof.
  unfold host_fits, check_maximum. rewrite !Nat.leb_le. intros H. etransitivity; [|exact H].
  rewrite !print_hosts_length. clear H. induction l as [|x l IH]; [done|]. unfold without in *. cbn [List.filter].
  destruct (negb _); simpl; lia.
Qed.

Lemma without_rows h l : Forall row_path l -> Forall row_path (without h l).
Proof. apply Forall_filter_l. Qed.

Lemma without_NoDup h l : NoDup l -> NoDup (without h l).
Proof. intros H. rewrite <- (map_id l) in H. apply (NoDup_map_filter (fun x => x) (fun s => negb (streq h s)) l) in H. by rewrite map_id in H. Qed.

Lemma update_spec w i x h :
  table_ok (table w) (next_index w) -> (i, x) ∈ table w ->
  removes w (identity x) h (cwmp_plugin_update_manageable_device (Some (instance_path i)) h w).
Proof.
  intros Hok Hin. pose proof (elem_wf _ _ _ _ Hok Hin) as Hw. destruct (wf_hosts _ Hw) as (l & El & _ & Hn & Hl).
  assert (Hm : registry (table w) !! identity x = Some l) by (by eapply registry_hosts).
  unfold cwmp_plugin_update_manageable_device. rewrite (find_path_instance i x) by (apply Hok || done). rewrite El.
  destruct (split_print l) as (pieces & -> & Hp); [eapply Forall_impl; [exact Hl|]; apply row_word|].
  rewrite remaining_filter, Hp. change (List.filter _ l) with (without h l).
  rewrite has_host by (by apply without_rows). rewrite negb_involutive.
  assert (Hu : unregister (identity x) h (registry (table w)) =
    if bool_decide (without h l = []) then delete (identity x) (registry (table w))
    else <[identity x := without h l]> (registry (table w))) by (unfold unregister; by rewrite Hm).
  case_bool_decide as Hd.
  - unfold cwmp_plugin_del_manageable_device, trans_apply. constructor; cbn [fst snd table next_index andb];
      destruct (accepts _) eqn:Ea; try done.
    + rewrite Hu. apply registry_remove; (apply Hok || done).
    + by apply table_ok_remove.
  - unfold cwmp_plugin_set_manageable_host_param.
    assert (Hf : host_fits (print_hosts (without h l)) = true).
    { apply without_fits. rewrite <- El. pose proof (wf_fits _ Hw) as Hf. unfold instance_fits in Hf.
      by apply andb_true_iff in Hf as [_ Hf]. }
    unfold trans_apply. rewrite Hf. constructor; cbn [fst snd table next_index andb]; destruct (accepts _) eqn:Ea; try done.
    + rewrite Hu. rewrite (registry_update i x) by (apply Hok || done). cbn [set_host Host].
      rewrite hosts_of_print; [done|]. eapply Forall_impl; [by apply without_rows|]. apply row_word.
    + apply table_ok_update; [done|done|]. intros y Hy. rewrite (instance_at_elem i x) in Hy by (apply Hok || done).
      injection Hy as <-. constructor; [apply Hw| |].
      * pose proof (wf_fits _ Hw) as Hf'. unfold instance_fits in *. cbn [set_host ManufacturerOUI SerialNumber ProductClass Host].
        apply andb_true_iff in Hf' as [Hf' _]. by rewrite Hf', Hf.
      * exists (without h l). split; [done|]. split; [done|]. split; [by apply without_NoDup|by apply without_rows].
Qed.

(** The search finds a device that has the row, if there is one. *)
Definition owned (h : string) (m : gmap ident (list string)) : Prop := exists id l, m !! id = Some l /\ h ∈ l.

Lemma search_spec w h :
  table_ok (table w) (next_index w) -> row_path h ->
  match cwmp_plugin_get_matching_path (map (fun x => (instance_path x.1, x.2)) (table w)) h with
  | None => ~ owned h (registry (table w))
  | Some p => exists i x l, (i, x) ∈ table w /\ p = instance_path i /\ registry (table w) !! identity x = Some l /\ h ∈ l
  end.
Proof.
  intros Hok Hh. unfold cwmp_plugin_get_matching_path.
  destruct (List.find _ _) as [[p x]|] eqn:E; cbn [fmap option_fmap option_map fst].
  - apply List.find_some in E as [Hin E]. apply list_elem_of_In in Hin. rewrite iterate_permutation in Hin.
    apply list_elem_of_In, in_map_iff in Hin as [[i y] [[= <- <-] Hin]]. apply list_elem_of_In in Hin.
    pose proof (elem_wf _ _ _ _ Hok Hin) as Hw. destruct (wf_hosts _ Hw) as (l & El & _ & _ & Hl).
    exists i, y, l. split; [done|]. split; [done|]. split; [by eapply registry_hosts|].
    cbn [snd] in E. rewrite El, has_row in E by done. by apply bool_decide_eq_true in E.
  - intros (id & l & Hm & Hin). apply registry_some in Hm as (i & x & Hx & <- & El).
    pose proof (elem_wf _ _ _ _ Hok Hx) as Hw. destruct (wf_hosts _ Hw) as (l' & El' & _ & _ & Hl).
    rewrite El', hosts_of_print in El by (eapply Forall_impl; [exact Hl|]; apply row_word). subst l'.
    apply List.find_none with (x := (instance_path i, x)) in E.
    + cbn [snd] in E. rewrite El', has_row in E by done. by apply bool_decide_eq_false in E.
    + apply list_elem_of_In. rewrite iterate_permutation. apply list_elem_of_In, in_map_iff. exists (i, x).
      split; [done|]. by apply list_elem_of_In.
Qed.

End Spec.
End ManageableDeviceSpec.
