(* ===== verification/ManageableDeviceRun.v ===== *)
(** * ManageableDeviceRun: matches, late rows and retries

    The events one after the other: the first row of a device is registered and
    the end of the match takes it away; a device without a row waits for it; the
    query is opened or retried.  [good] is the invariant of the plugin. *)

From Stdlib Require Import ZArith Lia Ascii.
From stdpp Require Import base list gmap strings pretty.
From S2P Require Import Prelude CString ManageableDevice ManageableDeviceText ManageableDeviceFacts ManageableDeviceSpec.

Module ManageableDeviceRun.
Import CString ManageableDevice ManageableDeviceText ManageableDeviceFacts ManageableDeviceSpec.

(** What comes from outside: the identities have no quotes and backslashes, the rows
    are rows of [Hosts.Host]. *)
Definition honest_device (d : gdevice) : Prop := forall k s, d !! k = Some s -> plain s.

Definition honest_answers (a : answers) : Prop :=
  forall rows, get_hosts a = Answered rows -> Forall (fun x => row_path (String.append "Device." x.1)) rows.

Definition honest_phys (e : phys_event) : Prop :=
  forall p, path e = Some p -> p <> ""%string -> row_path (String.append "Device." p).

Definition honest (ev : event) : Prop :=
  match ev with
  | Query a _ d _ => honest_answers a /\ (forall x, d = Some x -> honest_device x)
  | PhysChanged data => forall e, data = Some e -> honest_phys e
  | _ => True
  end.

Section Run.

Context {A : amx} {L : AmxLaws A}.

Record entry_ok (v : variant) : Prop := {
  e_table : is_table v;
  e_oui s : vget v "ManufacturerOUI" = Some s -> plain s;
  e_sn s : vget v "SerialNumber" = Some s -> plain s;
  e_pc s : vget v "ProductClass" = Some s -> plain s;
  e_host h : vget v "Host" = Some h -> row_path h;
}.

Record good (w : world) : Prop := {
  g_table : table_ok (table w) (next_index w);
  g_cache : Forall entry_ok (cache w);
}.

(** ** The variant of a device *)

Definition info_fields (d : gdevice) (host : option string) : list (string * option string) :=
  [("Host"%string, host); ("Key"%string, d !! "Key"%string); ("PhysAddress"%string, d !! "PhysAddress"%string);
   ("ManufacturerOUI"%string, d !! "OUI"%string); ("SerialNumber"%string, d !! "SerialNumber"%string);
   ("ProductClass"%string, d !! "ProductClass"%string)].

Definition vadds (l : list (string * option string)) (v : variant) : variant :=
  foldl (fun v kx => vadd v kx.1 kx.2) v l.

Definition assoc (k : string) (l : list (string * option string)) : option (option string) :=
  snd <$> List.find (fun kx => streq kx.1 k) l.

Lemma vadds_table l v : is_table (vadds l v) <-> is_table v.
Proof. revert v. induction l as [|[k x] l IH]; intros v; [done|]. simpl. rewrite IH. apply vadd_table. Qed.

Lemma vadds_get l v k :
  is_table v -> NoDup (map fst l) -> Forall (fun kx => vget v kx.1 = None) l ->
  vget (vadds l v) k = match assoc k l with Some x => x | None => vget v k end.
Proof.
  revert v. induction l as [|[k1 x] l IH]; intros v Hv Hn Hf; [done|].
  cbn [map fst] in Hn. apply NoDup_cons in Hn as [Hk Hn]. apply Forall_cons in Hf as [H1 Hf]. simpl in H1.
  change (vadds ((k1, x) :: l) v) with (vadds l (vadd v k1 x)). rewrite IH; [|by apply vadd_table|done|].
  - unfold assoc. cbn [List.find fst]. destruct (streq k1 k) eqn:E; cbn [fmap option_fmap option_map snd].
    + apply streq_true in E. subst k1. destruct (List.find _ l) as [[k2 y]|] eqn:Ef; cbn [fmap option_fmap option_map snd].
      * apply List.find_some in Ef as [Hin E]. apply streq_true in E. simpl in E. subst k2. destruct Hk.
        apply list_elem_of_In, in_map_iff. by exists (k, y).
      * by apply vget_vadd.
    + destruct (List.find _ l); [done|]. apply vget_vadd_ne. intros ->. by rewrite streq_refl in E.
  - rewrite Forall_forall in *. intros [k2 y] Hin. simpl. rewrite vget_vadd_ne; [by apply (Hf (k2, y))|].
    intros ->. apply Hk. apply list_elem_of_In, in_map_iff. exists (k1, y). by rewrite <- list_elem_of_In.
Qed.

Lemma vadds_no_table l v k : ~ is_table v -> vget (vadds l v) k = vget v k.
Proof.
  revert v. induction l as [|[k1 x] l IH]; intros v Hv; [done|]. simpl. rewrite IH.
  - by apply vget_vadd_none.
  - by rewrite vadd_table.
Qed.

Lemma info_some v d host : d <> ∅ ->
  cwmp_plugin_set_manageable_deviceinfo v d host = Some (vadds (info_fields d host) v).
Proof. intros H. unfold cwmp_plugin_set_manageable_deviceinfo. by rewrite bool_decide_eq_false_2. Qed.

Lemma info_get d host k :
  vget (vadds (info_fields d host) vtable) k = match assoc k (info_fields d host) with Some x => x | None => None end.
Proof.
  rewrite vadds_get.
  - by rewrite vget_vtable.
  - apply vtable_table.
  - apply (bool_decide_unpack (NoDup ["Host"; "Key"; "PhysAddress"; "ManufacturerOUI"; "SerialNumber"; "ProductClass"]%string)).
    by vm_compute.
  - apply Forall_forall. intros x _. apply vget_vtable.
Qed.

(** A device that says who it is *)
Record identifies (d : gdevice) (id : ident) : Prop := {
  i_oui : d !! "OUI"%string = Some id.1.1;
  i_sn : d !! "SerialNumber"%string = Some id.1.2;
  i_pc : d !! "ProductClass"%string = Some id.2;
}.

Lemma identifies_nonempty d id : identifies d id -> d <> ∅.
Proof. intros [H _ _] ->. by rewrite lookup_empty in H. Qed.

Lemma identifies_plain d id : identifies d id -> honest_device d -> plain_identity id.
Proof. intros [H1 H2 H3] Hd. by split; [|split]; eapply Hd. Qed.

Lemma info_describes d id h : identifies d id -> describes (vadds (info_fields d (Some h)) vtable) id h.
Proof. intros [H1 H2 H3]. by constructor; rewrite info_get. Qed.

Lemma info_entry_ok d host : honest_device d -> (forall h, host = Some h -> row_path h) -> entry_ok (vadds (info_fields d host) vtable).
Proof.
  intros Hd Hh. constructor; [apply vadds_table, vtable_table|..]; intros s; rewrite info_get; cbn; [by apply Hd..|by apply Hh].
Qed.

(** After [amxc_var_clean] the variant takes no keys: a second row is not added. *)
Lemma add_hosts_first d h rest w : d <> ∅ ->
  add_hosts d (h :: rest) vtable w = (cwmp_plugin_add_manageable_device (Some (vadds (info_fields d (Some h)) vtable)) w).1.
Proof.
  intros Hd. cbn [add_hosts]. rewrite info_some by done. cbv zeta.
  set (r := cwmp_plugin_add_manageable_device _ w). destruct (r.2 =? 0); [|done].
  destruct rest as [|h2 rest]; [done|]. cbn [add_hosts]. rewrite info_some by done. cbv zeta.
  cbn [cwmp_plugin_add_manageable_device]. rewrite vadds_no_table by apply vclean_table. by rewrite vget_clean.
Qed.

(** ** The invariant *)

Lemma search_rows a mac : honest_answers a -> Forall row_path (cwmp_plugin_search_for_hosts a mac).1.
Proof.
  intros Ha. unfold cwmp_plugin_search_for_hosts. destruct mac as [m|]; [|constructor].
  destruct (who_has_hosts a); [|constructor]. cbn [negb]. destruct (get_hosts a) as [| |rows] eqn:E; [constructor..|].
  apply Ha in E. cbn [fst]. apply Forall_map. apply Forall_filter_l. by rewrite iterate_permutation.
Qed.

Lemma search_result a mac : (cwmp_plugin_search_for_hosts a mac).2 = 0 <-> (cwmp_plugin_search_for_hosts a mac).1 <> [].
Proof.
  unfold cwmp_plugin_search_for_hosts. destruct mac as [m|]; [|done].
  destruct (who_has_hosts a); [|done]. cbn [negb]. destruct (get_hosts a) as [| |rows]; [done..|]. cbn [fst snd].
  by destruct (List.filter _ _).
Qed.

Lemma add_keeps v w : entry_ok v -> table_ok (table w) (next_index w) ->
  let r := cwmp_plugin_add_manageable_device (Some v) w in
  table_ok (table r.1) (next_index r.1) /\ frame w r.1.
Proof.
  intros [_ H1 H2 H3 H4] Hok. cbv zeta.
  destruct (vget v "ManufacturerOUI") as [moui|] eqn:E1; [|cbn [cwmp_plugin_add_manageable_device]; by rewrite E1].
  destruct (vget v "SerialNumber") as [sn|] eqn:E2; [|cbn [cwmp_plugin_add_manageable_device]; by rewrite E1, E2].
  destruct (vget v "ProductClass") as [pc|] eqn:E3; [|cbn [cwmp_plugin_add_manageable_device]; by rewrite E1, E2, E3].
  destruct (vget v "Host") as [h|] eqn:E4; [|cbn [cwmp_plugin_add_manageable_device]; by rewrite E1, E2, E3, E4].
  destruct (add_spec w v (moui, sn, pc) h) as [_ _ Ha Hf]; try done.
  - split; [by apply H1|split; [by apply H2|by apply H3]].
  - by apply H4.
Qed.

Lemma remove_keeps a l w : Forall row_path l -> table_ok (table w) (next_index w) ->
  let w' := remove_hosts a l w in
  table_ok (table w') (next_index w') /\ cache w' = cache w /\ lf w' = lf w.
Proof.
  revert w. induction l as [|h l IH]; intros w Hl Hok; [done|]. apply Forall_cons in Hl as [Hh Hl]. cbn [remove_hosts].
  unfold cwmp_plugin_search_for_manageable_device.
  destruct (who_has_management a); [|done]. cbn [negb]. destruct (get_management_ok a); [|done]. cbn [negb].
  pose proof (search_spec w h Hok Hh) as Hs. destruct (cwmp_plugin_get_matching_path _ h) as [p|].
  - destruct Hs as (i & x & _ & Hin & -> & _). destruct (update_spec w i x h Hok Hin) as [_ _ H1 H2]. cbv zeta.
    destruct (_ =? 0); [|split; [done|split; apply H2]].
    destruct (IH (cwmp_plugin_update_manageable_device (Some (instance_path i)) h w).1 Hl H1) as (? & -> & ->).
    split; [done|]. split; apply H2.
  - done.
Qed.

Lemma good_cache w c : good w -> Forall entry_ok c -> good (with_cache c w).
Proof. intros [H1 H2] Hc. by constructor. Qed.

Lemma good_frame w w' : table_ok (table w') (next_index w') -> frame w w' -> good w -> good w'.
Proof. intros H1 [H2 _ _] [_ H3]. constructor; [done|by rewrite H2]. Qed.

Lemma start_good a k d w : honest_answers a -> honest_device d -> good w ->
  good (cwmp_plugin_manageable_query a (Some k) (Some d) gmap_query_expression_start_matching w).
Proof.
  intros Ha Hd Hw. cbn [cwmp_plugin_manageable_query]. cbv zeta.
  pose proof (search_rows a (d !! "PhysAddress"%string) Ha) as Hr.
  destruct (decide (d = ∅)) as [->|Hne].
  - assert (forall v h, cwmp_plugin_set_manageable_deviceinfo v ∅ h = None) as Hi.
    { intros v h. unfold cwmp_plugin_set_manageable_deviceinfo. by rewrite bool_decide_eq_true_2. }
    destruct (_ =? 0); [|by rewrite Hi]. destruct (_.1) as [|h rest]; [done|]. cbn [add_hosts]. by rewrite Hi.
  - destruct (_ =? 0).
    + destruct (_.1) as [|h rest]; [done|]. rewrite add_hosts_first by done. apply Forall_cons in Hr as [Hh _].
      destruct (add_keeps (vadds (info_fields d (Some h)) vtable) w) as [H1 H2]; [|apply Hw|by eapply good_frame].
      apply info_entry_ok; [done|]. by intros ? [= <-].
    + rewrite info_some by done. apply good_cache; [done|]. apply Forall_app. split; [apply Hw|]. apply Forall_singleton.
      by apply info_entry_ok.
Qed.

Lemma clean_cache_good k w : good w -> good (cwmp_plugin_clean_manageable_device_cache k w).
Proof.
  intros Hw. unfold cwmp_plugin_clean_manageable_device_cache. destruct (cwmp_plugin_md_cache_find _ _ _) as [[i v]|]; [|done].
  apply good_cache; [done|]. apply Forall_delete, Hw.
Qed.

Lemma by_key_rows a k : honest_answers a -> Forall row_path (cwmp_plugin_search_for_hosts_by_device_key a k).1.
Proof.
  intros Ha. unfold cwmp_plugin_search_for_hosts_by_device_key. destruct (who_has_devices a); [|constructor]. cbn [negb].
  destruct (get_device a _) as [| |[m|]]; try constructor. by apply search_rows.
Qed.

Lemma stop_good a k d w : honest_answers a -> good w ->
  good (cwmp_plugin_manageable_query a (Some k) d gmap_query_expression_stop_matching w).
Proof.
  intros Ha Hw. cbn [cwmp_plugin_manageable_query]. cbv zeta. apply (clean_cache_good k) in Hw.
  destruct (_ =? 0); [|done].
  destruct (remove_keeps a _ _ (by_key_rows a k Ha) (g_table _ Hw)) as (H1 & H2 & _).
  constructor; [done|]. rewrite H2. apply Hw.
Qed.

Lemma late_entry_ok v p : entry_ok v -> row_path (String.append "Device." p) -> entry_ok (vadd v "Host" (Some (String.append "Device." p))).
Proof.
  intros [H1 H2 H3 H4 H5] Hp. constructor; [by apply vadd_table|..]; intros s; rewrite ?vget_vadd_ne by done; [by auto..|].
  destruct (vget v "Host") as [h|] eqn:E.
  - rewrite (vget_vadd_there v _ _ _ h) by done. rewrite E. apply H5.
  - rewrite vget_vadd by done. by intros [= <-].
Qed.

Lemma phys_good data w : (forall e, data = Some e -> honest_phys e) -> good w -> good (cwmp_plugin_host_phys_changed data w).
Proof.
  intros Hd Hw. unfold cwmp_plugin_host_phys_changed. destruct data as [e|]; [|done].
  destruct (parameters e) as [[[m|]|]|]; try done. destruct (streq m ""); [done|].
  destruct (cwmp_plugin_md_cache_find _ _ _) as [[i v]|] eqn:Ef; [|done].
  destruct (path e) as [p|] eqn:Ep; [|done]. destruct (streq p "") eqn:Es; [done|]. apply streq_false in Es. cbv zeta.
  assert (Hv : entry_ok v).
  { unfold cwmp_plugin_md_cache_find in Ef. apply list_find_Some in Ef as (Hl & _ & _).
    pose proof (g_cache _ Hw) as Hc. rewrite Forall_forall in Hc. apply Hc. by eapply list_elem_of_lookup_2. }
  pose proof (late_entry_ok v p Hv (Hd e eq_refl p Ep Es)) as Hv'.
  set (v' := vadd v _ _) in *. set (w0 := with_cache _ w).
  assert (H0 : good w0). { apply good_cache; [done|]. apply Forall_insert; [apply Hw|done]. }
  destruct (add_keeps v' w0 Hv' (g_table _ H0)) as [H1 H2]. apply (good_frame w0 _ H1 H2) in H0.
  destruct (_ =? 0); [|done]. apply good_cache; [done|]. apply Forall_delete, H0.
Qed.

Lemma step_good ev w : honest ev -> good w -> good (step ev w).
Proof.
  intros Hh Hw. destruct ev as [a k d act|data|a|a]; cbn [step honest] in *; try (destruct Hw; by constructor).
  - destruct (manageable_gmap_query _); [|done]. destruct Hh as [Ha Hd]. destruct k as [k|]; [|done].
    destruct act; [| |done].
    + destruct d as [d|]; [|done]. apply start_good; auto.
    + by apply stop_good.
  - destruct (subscribed _); [|done]. by apply phys_good.
Qed.

End Run.
End ManageableDeviceRun.
