(* ===== verification/ManagedDevices.v ===== *)
(** * ManagedDevices: the theorems on manageable devices

    The properties of [ManageableDevice], each at a concrete library at the end. *)

From Stdlib Require Import ZArith Lia Ascii.
From stdpp Require Import base list gmap strings pretty.
From S2P Require Import Prelude CString ManageableDevice ManageableDeviceText ManageableDeviceFacts ManageableDeviceSpec.
From S2P Require Import ManageableDeviceRun.

Module ManagedDevices.
Import CString ManageableDevice ManageableDeviceText ManageableDeviceFacts ManageableDeviceSpec ManageableDeviceRun.

Section Theorems.

Context {A : amx} {L : AmxLaws A}.

Lemma loaded_good : good loaded.
Proof. constructor; [|constructor]. constructor; constructor. Qed.

Lemma init_good a w : good w -> good (cwmp_plugin_manageabledevice_init a w).
Proof. intros Hw. unfold cwmp_plugin_manageabledevice_init. destruct (who_has_gmap a); [|done]. destruct Hw. by constructor. Qed.

Lemma run_good es w : Forall honest es -> good w -> good (run es w).
Proof. apply (run_invariant step honest good). intros e w'. apply step_good. Qed.

(** C29: the table of manageable devices is well formed.  In every run in which the
    devices of the device map have no quote and no backslash in their parameters and
    the rows that the bus names are rows [Device.Hosts.Host.<n>.] ([honest]), no two
    instances have the same identity, and each instance lists at least one row, no
    row twice, within the sizes of the object definition.  The condition on quotes is
    needed: an identity goes into the search expression as it is
    ([quoted_identity_registered_twice] of ManagedDeviceExamples). *)
Theorem devices_well_formed (a : answers) (es : list event) (Hes : Forall honest es) :
  let t := table (run es (cwmp_plugin_manageabledevice_init a loaded)) in
  NoDup (map (fun x => identity x.2) t) /\
  Forall (fun x => instance_fits x.2 = true /\
            exists l, Host x.2 = print_hosts l /\ l <> [] /\ NoDup l /\ Forall row_path l) t.
Proof.
  pose proof (run_good es _ Hes (init_good a _ loaded_good)) as [[_ _ H1 H2] _].
  split; [exact H1|]. eapply Forall_impl; [exact H2|]. by intros x [_ ? ?].
Qed.

Lemma start_rows a k d h rest w : d <> ∅ ->
  cwmp_plugin_search_for_hosts a (d !! "PhysAddress"%string) = (h :: rest, 0) ->
  cwmp_plugin_manageable_query a (Some k) (Some d) gmap_query_expression_start_matching w =
    (cwmp_plugin_add_manageable_device (Some (vadds (info_fields d (Some h)) vtable)) w).1.
Proof. intros Hd E. cbn [cwmp_plugin_manageable_query]. rewrite E. cbn [snd fst Z.eqb]. by apply add_hosts_first. Qed.

Lemma start_adds a k d id h rest w :
  good w -> honest_device d -> identifies d id -> honest_answers a ->
  cwmp_plugin_search_for_hosts a (d !! "PhysAddress"%string) = (h :: rest, 0) ->
  adds w id h (cwmp_plugin_manageable_query a (Some k) (Some d) gmap_query_expression_start_matching w,
               if registered w id h then 0 else -1).
Proof.
  intros Hw Hd Hi Ha E. rewrite (start_rows a k d h rest) by (done || by eapply identifies_nonempty).
  pose proof (search_rows a (d !! "PhysAddress"%string) Ha) as Hr. rewrite E in Hr. apply Forall_cons in Hr as [Hh _].
  destruct (add_spec w (vadds (info_fields d (Some h)) vtable) id h) as [H1 H2 H3 H4]; try done.
  - apply Hw.
  - by apply info_describes.
  - by eapply identifies_plain.
Qed.

(** When a device with an identity begins to match, the first of its rows is
    registered for the identity, if there is room and the transaction is
    accepted, and nothing else changes; the other rows of the device are not
    registered, however many there are. *)
Theorem matching_registers_first_row (a : answers) (k : string) (d : gdevice) (id : ident) (h : string)
    (rest : list string) (w : world) (Hw : good w) (Hd : honest_device d) (Hi : identifies d id)
    (Ha : honest_answers a) (Hr : cwmp_plugin_search_for_hosts a (d !! "PhysAddress"%string) = (h :: rest, 0)) :
  let w' := cwmp_plugin_manageable_query a (Some k) (Some d) gmap_query_expression_start_matching w in
  registry (table w') = (if registered w id h then register id h (registry (table w)) else registry (table w)) /\
  frame w w'.
Proof. by destruct (start_adds a k d id h rest w). Qed.

Lemma stop_rows a k d w l :
  cwmp_plugin_search_for_hosts_by_device_key a k = (l, 0) ->
  cwmp_plugin_manageable_query a (Some k) d gmap_query_expression_stop_matching w =
    remove_hosts a l (cwmp_plugin_clean_manageable_device_cache k w).
Proof. intros E. cbn [cwmp_plugin_manageable_query]. by rewrite E. Qed.

Lemma clean_cache_table k w :
  table (cwmp_plugin_clean_manageable_device_cache k w) = table w /\ ntrans (cwmp_plugin_clean_manageable_device_cache k w) = ntrans w /\
  undefined (cwmp_plugin_clean_manageable_device_cache k w) = undefined w /\ next_index (cwmp_plugin_clean_manageable_device_cache k w) = next_index w.
Proof. unfold cwmp_plugin_clean_manageable_device_cache. by destruct (cwmp_plugin_md_cache_find _ _ _) as [[i v]|]. Qed.

(** One turn of the loop at the end of a match *)
Lemma remove_turn a h l w :
  table_ok (table w) (next_index w) -> row_path h -> who_has_management a = true -> get_management_ok a = true ->
  (owned h (registry (table w)) -> exists id lh, registry (table w) !! id = Some lh /\ h ∈ lh /\
     exists r, removes w id h r /\ remove_hosts a (h :: l) w = if r.2 =? 0 then remove_hosts a l r.1 else r.1) /\
  (~ owned h (registry (table w)) -> remove_hosts a (h :: l) w = set_undefined w).
Proof.
  intros Hok Hh Hm Hg. cbn [remove_hosts]. unfold cwmp_plugin_search_for_manageable_device. rewrite Hm, Hg. cbn [negb].
  pose proof (search_spec w h Hok Hh) as Hs. destruct (cwmp_plugin_get_matching_path _ h) as [p|].
  - destruct Hs as (i & x & lh & Hin & -> & Hl & Hhl). split; [|intros []; by exists (identity x), lh]. intros _.
    exists (identity x), lh. split; [done|]. split; [done|].
    exists (cwmp_plugin_update_manageable_device (Some (instance_path i)) h w). split; [by apply update_spec|done].
  - split; [done|]. by intros _.
Qed.

Lemma remove_one a h w :
  table_ok (table w) (next_index w) -> row_path h -> who_has_management a = true -> get_management_ok a = true ->
  owned h (registry (table w)) ->
  exists id lh, registry (table w) !! id = Some lh /\ h ∈ lh /\
    registry (table (remove_hosts a [h] w)) =
      (if accepts (ntrans w) then unregister id h (registry (table w)) else registry (table w)) /\
    undefined (remove_hosts a [h] w) = undefined w.
Proof.
  intros Hok Hh Hm Hg Ho. destruct (remove_turn a h [] w Hok Hh Hm Hg) as [H _].
  destruct (H Ho) as (id & lh & H1 & H2 & r & [Hr1 Hr2 _ Hf] & ->). exists id, lh. split; [done|]. split; [done|].
  cbn [remove_hosts]. destruct (r.2 =? 0); split; (exact Hr1 || apply Hf).
Qed.

Lemma without_absent h l : h ∉ l -> without h l = l.
Proof.
  unfold without. induction l as [|x l IH]; intros H; [done|]. apply not_elem_of_cons in H as [H1 H2]. cbn [List.filter].
  rewrite (proj2 (streq_false h x)) by done. cbn [negb]. by rewrite IH.
Qed.

Lemma without_snoc h l : h ∉ l -> without h (l ++ [h]) = l.
Proof.
  intros H. unfold without. rewrite List.filter_app. cbn [List.filter]. rewrite streq_refl. cbn [negb].
  rewrite app_nil_r. by apply without_absent.
Qed.

Lemma unregister_register id h m : ~ owned h m -> (forall l, m !! id = Some l -> l <> []) ->
  unregister id h (register id h m) = m.
Proof.
  intros Ho Hn. unfold register. assert (Hh : h ∉ default [] (m !! id)).
  { destruct (m !! id) as [l|] eqn:E; [|apply not_elem_of_nil]. intros Hin. apply Ho. by exists id, l. }
  rewrite bool_decide_eq_false_2 by done. unfold unregister. rewrite lookup_insert_eq, without_snoc by done.
  destruct (m !! id) as [l|] eqn:E; cbn [default].
  - rewrite bool_decide_eq_false_2 by (by apply Hn). by rewrite insert_insert_eq, insert_id.
  - rewrite bool_decide_eq_true_2 by done. by rewrite delete_insert_id.
Qed.

Lemma owned_register id h m x : ~ owned h m -> owned x (register id h m) -> x = h \/ owned x m.
Proof.
  intros Ho (id' & l & Hl & Hx). unfold register in Hl. case_bool_decide; [right; by exists id', l|].
  destruct (decide (id' = id)) as [->|Hne].
  - rewrite lookup_insert_eq in Hl. injection Hl as <-. apply elem_of_app in Hx as [Hx|Hx].
    + right. destruct (m !! id) as [l|] eqn:E; [by exists id, l|by apply elem_of_nil in Hx].
    + left. by apply list_elem_of_singleton in Hx.
  - rewrite lookup_insert_ne in Hl by done. right. by exists id', l.
Qed.

Lemma register_owned id h m : ~ owned h m -> owned h (register id h m).
Proof.
  intros Ho. exists id, (default [] (m !! id) ++ [h]). unfold register. rewrite bool_decide_eq_false_2.
  - rewrite lookup_insert_eq. split; [done|]. apply elem_of_app. right. by apply list_elem_of_singleton.
  - intros Hin. apply Ho. destruct (m !! id) as [l|] eqn:E; [by exists id, l|by apply elem_of_nil in Hin].
Qed.

Lemma owner_register id h m id' l : ~ owned h m -> register id h m !! id' = Some l -> h ∈ l -> id' = id.
Proof.
  intros Ho Hl Hh. destruct (decide (id' = id)) as [|Hne]; [done|]. exfalso. apply Ho. exists id', l. split; [|done].
  unfold register in Hl. case_bool_decide; [done|]. by rewrite lookup_insert_ne in Hl.
Qed.

Lemma registry_nonempty w id l : table_ok (table w) (next_index w) -> registry (table w) !! id = Some l -> l <> [].
Proof.
  intros Hok Hl. apply registry_some in Hl as (i & x & Hin & _ & El). pose proof (elem_wf _ _ _ _ Hok Hin) as Hx.
  destruct (wf_hosts _ Hx) as (l' & E' & Hne & _ & Hr). rewrite E', hosts_of_print in El; [by rewrite <- El|].
  eapply Forall_impl; [exact Hr|]. apply row_word.
Qed.

Lemma by_key_honest a k l z : honest_answers a -> cwmp_plugin_search_for_hosts_by_device_key a k = (l, z) -> Forall row_path l.
Proof. intros Ha E. pose proof (by_key_rows a k Ha) as H. by rewrite E in H. Qed.

Lemma frame_undefined w w' : frame w w' -> undefined w' = undefined w.
Proof. by intros [_ _ ?]. Qed.

(** The end of a match undoes its beginning: if the only row of the device was in
    no list before, and there is room and the transactions are accepted, the
    registry is again what it was. *)
Theorem matching_undone (a : answers) (k : string) (d : gdevice) (id : ident) (h : string) (w : world)
    (Hw : good w) (Hd : honest_device d) (Hi : identifies d id) (Ha : honest_answers a)
    (Hr : cwmp_plugin_search_for_hosts a (d !! "PhysAddress"%string) = ([h], 0))
    (Hs : cwmp_plugin_search_for_hosts_by_device_key a k = ([h], 0))
    (Hm : who_has_management a = true /\ get_management_ok a = true)
    (Ho : ~ owned h (registry (table w))) (Hroom : room id h (registry (table w)) = true)
    (Hacc : forall n, accepts n = true) :
  let w1 := cwmp_plugin_manageable_query a (Some k) (Some d) gmap_query_expression_start_matching w in
  let w2 := cwmp_plugin_manageable_query a (Some k) (Some d) gmap_query_expression_stop_matching w1 in
  registry (table w1) = register id h (registry (table w)) /\
  registry (table w2) = registry (table w) /\ undefined w2 = undefined w.
Proof.
  destruct (start_adds a k d id h [] w) as [H1 _ Hok Hf]; try done. cbn [fst snd] in *.
  assert (registered w id h = true) as Ereg by (unfold registered; by rewrite Hroom, Hacc, orb_true_r).
  rewrite Ereg in H1. set (w1 := cwmp_plugin_manageable_query a _ _ _ w) in *. cbv zeta. split; [exact H1|].
  rewrite (stop_rows a k _ w1 [h] Hs). destruct (clean_cache_table k w1) as (Et & En & Eu & Ex).
  pose proof (by_key_honest _ _ _ _ Ha Hs) as Hh. apply Forall_cons in Hh as [Hh _].
  assert (Hin : owned h (register id h (registry (table w)))) by (by apply register_owned).
  destruct (remove_one a h (cwmp_plugin_clean_manageable_device_cache k w1)) as (id' & lh & Hl & Hhl & -> & ->);
    [by rewrite Et, Ex|done|apply Hm|apply Hm|by rewrite Et, H1|].
  rewrite Et, H1 in *. rewrite Hacc. apply (owner_register id h) in Hl; [|done|done]. subst id'.
  split; [|rewrite Eu; by apply frame_undefined]. apply unregister_register; [done|].
  intros l. apply registry_nonempty, Hw.
Qed.

(** A device with two or more rows prints a null path when its match ends: only
    one row was registered, and for the first other row the search returns no
    device, in whatever order the rows are found. *)
Theorem second_row_prints_null (a b : answers) (k : string) (d : gdevice) (id : ident) (h1 h2 : string)
    (rest rows : list string) (w : world)
    (Hw : good w) (Hd : honest_device d) (Hi : identifies d id) (Ha : honest_answers a /\ honest_answers b)
    (Hr : cwmp_plugin_search_for_hosts a (d !! "PhysAddress"%string) = (h1 :: h2 :: rest, 0))
    (Hs : cwmp_plugin_search_for_hosts_by_device_key b k = (rows, 0)) (Hp : rows ≡ₚ h1 :: h2 :: rest) (Hn : NoDup rows)
    (Hm : who_has_management b = true /\ get_management_ok b = true)
    (Ho : Forall (fun h => ~ owned h (registry (table w))) rows) (Hroom : room id h1 (registry (table w)) = true)
    (Hacc : forall n, accepts n = true) :
  let w1 := cwmp_plugin_manageable_query a (Some k) (Some d) gmap_query_expression_start_matching w in
  undefined w1 = undefined w /\
  undefined (cwmp_plugin_manageable_query b (Some k) (Some d) gmap_query_expression_stop_matching w1) = true.
Proof.
  destruct Ha as [Ha Hb]. destruct (start_adds a k d id h1 (h2 :: rest) w) as [H1 _ Hok Hf]; try done. cbn [fst snd] in *.
  assert (registered w id h1 = true) as Ereg by (unfold registered; by rewrite Hroom, Hacc, orb_true_r).
  rewrite Ereg in H1. set (w1 := cwmp_plugin_manageable_query a _ _ _ w) in *. cbv zeta.
  split; [by apply frame_undefined|]. rewrite (stop_rows b k _ w1 rows Hs).
  destruct (clean_cache_table k w1) as (Et & _ & _ & Ex). set (w0 := cwmp_plugin_clean_manageable_device_cache k w1) in *.
  pose proof (by_key_honest _ _ _ _ Hb Hs) as Hh. clearbody w0 w1.
  assert (Hh1 : ~ owned h1 (registry (table w))).
  { rewrite Forall_forall in Ho. apply Ho. rewrite Hp. by left. }
  destruct rows as [|x [|y rows]]; [by apply Permutation_nil_cons in Hp| |].
  { apply Permutation_length in Hp. simpl in Hp. lia. }
  apply Forall_cons in Hh as [Hx Hh]. apply Forall_cons in Hh as [Hy Hh].
  apply Forall_cons in Ho as [Hox Ho]. apply Forall_cons in Ho as [Hoy Ho].
  apply NoDup_cons in Hn as [Hn _]. apply not_elem_of_cons in Hn as [Hxy _].
  destruct (remove_turn b x (y :: rows) w0) as [T1 T2]; [by rewrite Et, Ex|done|apply Hm|apply Hm|]. rewrite Et, H1 in T1, T2.
  destruct (decide (x = h1)) as [->|Hne].
  - destruct T1 as (id' & lh & Hl & Hlh & r & [Q1 Q2 Q3 _] & ->); [by apply register_owned|].
    rewrite Et, H1, Hacc in Q1. rewrite Hacc in Q2. rewrite Q2. cbn [Z.eqb].
    apply (owner_register id h1) in Hl; [|done|done]. subst id'.
    rewrite unregister_register in Q1; [|done|intros l; apply registry_nonempty, Hw].
    destruct (remove_turn b y rows r.1) as [_ T]; [done|done|apply Hm|apply Hm|]. rewrite T; [done|]. by rewrite Q1.
  - rewrite T2; [done|]. intros Hin. by apply owned_register in Hin as [?|?].
Qed.

(** The change of the address of a row *)
Definition phys_change (m p : string) : option phys_event := Some {| parameters := Some (Some (Some m)); path := Some p |}.

Lemma phys_found m p i v w :
  m <> ""%string -> p <> ""%string -> cwmp_plugin_md_cache_find "PhysAddress" m w = Some (i, v) ->
  cwmp_plugin_host_phys_changed (phys_change m p) w =
    let v := vadd v "Host" (Some (String.append "Device." p)) in
    let r := cwmp_plugin_add_manageable_device (Some v) (with_cache (<[i := v]> (cache w)) w) in
    if r.2 =? 0 then cache_remove i r.1 else r.1.
Proof.
  intros Hm Hp Hf. cbn [cwmp_plugin_host_phys_changed phys_change parameters path].
  rewrite (proj2 (streq_false m "")), Hf, (proj2 (streq_false p "")) by done. done.
Qed.

Lemma registered_cache c w id h : registered (with_cache c w) id h = registered w id h.
Proof. done. Qed.

Lemma find_snoc m v w w' :
  cwmp_plugin_md_cache_find "PhysAddress" m w = None -> vget v "PhysAddress" = Some m -> cache w' = cache w ++ [v] ->
  cwmp_plugin_md_cache_find "PhysAddress" m w' = Some (length (cache w), v).
Proof.
  unfold cwmp_plugin_md_cache_find. intros Hn Hv ->. rewrite list_find_app_r by done. cbn [list_find].
  by rewrite decide_True.
Qed.

Lemma delete_last {B} (l : list B) x : delete (length l) (l ++ [x]) = l.
Proof. induction l as [|y l IH]; [done|]. cbn. by f_equal. Qed.

Lemma describes_late v id h x :
  is_table v -> vget v "Host" = None -> describes x id h -> (forall k, k <> "Host"%string -> vget v k = vget x k) ->
  describes (vadd v "Host" (Some h)) id h.
Proof. intros Hv Hh [H1 H2 H3 _] He. constructor; [rewrite vget_vadd_ne, He by done; done..|]. by apply vget_vadd. Qed.

(** A device without a row waits: when a row gets its hardware address, spelled the
    same, the row is registered for the identity and the device waits no longer.
    If that is refused the device keeps waiting, with this row. *)
Theorem late_row_registered (a : answers) (k m p : string) (d : gdevice) (id : ident) (w : world)
    (Hw : good w) (Hd : honest_device d) (Hi : identifies d id) (Hm : d !! "PhysAddress"%string = Some m)
    (Hne : m <> ""%string /\ p <> ""%string) (Hr : cwmp_plugin_search_for_hosts a (Some m) = ([], -1))
    (Hf : cwmp_plugin_md_cache_find "PhysAddress" m w = None) (Hp : row_path (String.append "Device." p)) :
  let h := String.append "Device." p in
  let w1 := cwmp_plugin_manageable_query a (Some k) (Some d) gmap_query_expression_start_matching w in
  let w2 := cwmp_plugin_host_phys_changed (phys_change m p) w1 in
  table w1 = table w /\
  registry (table w2) = (if registered w id h then register id h (registry (table w)) else registry (table w)) /\
  (if registered w id h then cache w2 = cache w
   else exists v, cwmp_plugin_md_cache_find "PhysAddress" m w2 = Some (length (cache w), v) /\ describes v id h).
Proof.
  cbv zeta. set (h := String.append "Device." p) in *. set (v := vadds (info_fields d None) vtable).
  assert (E1 : cwmp_plugin_manageable_query a (Some k) (Some d) gmap_query_expression_start_matching w = with_cache (cache w ++ [v]) w).
  { cbn [cwmp_plugin_manageable_query]. rewrite Hm, Hr. cbn [snd Z.eqb]. by rewrite info_some by (by eapply identifies_nonempty). }
  rewrite E1. split; [done|].
  set (w1 := with_cache (cache w ++ [v]) w).
  assert (Hv : forall k', k' <> "Host"%string -> vget v k' = vget (vadds (info_fields d (Some h)) vtable) k').
  { intros k' Hk. unfold v. rewrite !info_get. unfold info_fields, assoc. cbn [List.find fst].
    by rewrite (proj2 (streq_false "Host" k')). }
  assert (Hp1 : vget v "PhysAddress" = Some m) by (unfold v; rewrite info_get; exact Hm).
  assert (Hd1 : describes (vadd v "Host" (Some h)) id h).
  { eapply describes_late; [apply vadds_table, vtable_table|by unfold v; rewrite info_get|by apply info_describes|done]. }
  rewrite (phys_found m p (length (cache w)) v w1) by (apply Hne || by eapply find_snoc). cbv zeta. fold h.
  set (v1 := vadd v "Host" (Some h)) in *.
  replace (<[length (cache w):=v1]> (cache w1)) with (cache w ++ [v1])
    by (unfold w1; cbn [with_cache cache]; rewrite <- (Nat.add_0_r (length (cache w))), insert_app_r; done).
  destruct (add_spec (with_cache (cache w ++ [v1]) w1) v1 id h) as [H1 H2 _ Hf1];
    [apply Hw|done|by eapply identifies_plain|done|].
  change (registered (with_cache (cache w ++ [v1]) w1) id h) with (registered w id h) in *. rewrite H2.
  destruct (registered w id h); cbn [Z.eqb].
  - split; [exact H1|]. cbn [cache_remove with_cache cache]. rewrite (f_cache _ _ Hf1). cbn [with_cache cache]. apply delete_last.
  - split; [exact H1|]. exists v1. split; [|done]. apply find_snoc; [done| |apply Hf1].
    unfold v1. by rewrite vget_vadd_ne.
Qed.

(** The row that was refused is kept with the device: at the next change of an
    address that fits, this row is registered, not the one that changed. *)
Theorem refused_row_added_again (m p : string) (i : nat) (v : variant) (id : ident) (h : string) (w : world)
    (Hw : good w) (Hne : m <> ""%string /\ p <> ""%string)
    (Hf : cwmp_plugin_md_cache_find "PhysAddress" m w = Some (i, v)) (Hd : describes v id h) :
  registry (table (cwmp_plugin_host_phys_changed (phys_change m p) w)) =
    (if registered w id h then register id h (registry (table w)) else registry (table w)).
Proof.
  rewrite (phys_found m p i v w) by (apply Hne || done). cbv zeta.
  assert (Hv : entry_ok v).
  { apply list_find_Some in Hf as (Hl & _). pose proof (g_cache _ Hw) as Hc. rewrite Forall_forall in Hc.
    apply Hc. by eapply list_elem_of_lookup_2. }
  destruct Hd as [D1 D2 D3 D4]. set (v1 := vadd v "Host" _).
  assert (Hd1 : describes v1 id h) by (constructor; unfold v1; rewrite (vget_vadd_there v _ _ _ h) by done; done).
  destruct (add_spec (with_cache (<[i:=v1]> (cache w)) w) v1 id h) as [H1 _ _ _]; [apply Hw|done| |by eapply e_host|].
  - by split; [|split]; [eapply e_oui|eapply e_sn|eapply e_pc].
  - by destruct (_ =? 0).
Qed.

(** ** The retries *)

Definition interval_ok (t : Z) : Prop := t ∈ [1000; 2000; 4000; 8000; 16000; 32000].

Lemma interval_bounds t : interval_ok t -> 1000 <= t <= 32000.
Proof. unfold interval_ok. rewrite !elem_of_cons, elem_of_nil. lia. Qed.

Record alive (l : life) : Prop := {
  al_pending : (subscribed l = true /\ (manageable_gmap_query l = true \/ gmap_retry_timer l <> None)) \/ host_retry_timer l <> None;
  al_host : interval_ok (host_timeout l);
  al_gmap : interval_ok (gmap_timeout l);
  al_host_timer t : host_retry_timer l = Some t -> interval_ok t;
  al_gmap_timer t : gmap_retry_timer l = Some t -> interval_ok t;
}.

Lemma next_timeout_ok t : interval_ok t -> interval_ok (next_timeout t).
Proof.
  unfold interval_ok. rewrite !elem_of_cons, elem_of_nil.
  intros [->|[->|[->|[->|[->|[->|[]]]]]]]; vm_compute; tauto.
Qed.

Lemma open_alive a l :
  subscribed l = true -> interval_ok (host_timeout l) -> interval_ok (gmap_timeout l) ->
  (forall t, host_retry_timer l = Some t -> interval_ok t) -> (forall t, gmap_retry_timer l = Some t -> interval_ok t) ->
  alive (cwmp_plugin_try_open_gmap_query a l).
Proof.
  intros H1 H2 H3 H4 H5. unfold cwmp_plugin_try_open_gmap_query.
  destruct (manageable_gmap_query l) eqn:E; [by constructor; auto|].
  destruct (query_open_ok a); constructor; cbn; try done; [by auto|by left; auto|by apply next_timeout_ok|].
  by intros t [= <-].
Qed.

Lemma subscribe_alive a l :
  interval_ok (host_timeout l) -> interval_ok (gmap_timeout l) ->
  (forall t, host_retry_timer l = Some t -> interval_ok t) -> (forall t, gmap_retry_timer l = Some t -> interval_ok t) ->
  alive (cwmp_plugin_try_add_manageabledevice_subscriptions a l).
Proof.
  intros H1 H2 H3 H4. unfold cwmp_plugin_try_add_manageabledevice_subscriptions. destruct (subscribe_ok a).
  - by apply open_alive.
  - constructor; cbn; try done; [by right|by apply next_timeout_ok|]. by intros t [= <-].
Qed.

Lemma query_keeps_life a k d act w : honest (Query a k d act) -> good w -> lf (cwmp_plugin_manageable_query a k d act w) = lf w.
Proof.
  intros [Ha Hd] Hw. destruct k as [k|]; [|done]. destruct act; [| |done].
  - destruct d as [d|]; [|done]. cbn [cwmp_plugin_manageable_query]. cbv zeta.
    pose proof (search_rows a (d !! "PhysAddress"%string) Ha) as Hr.
    destruct (decide (d = ∅)) as [->|Hne].
    + destruct (_ =? 0); [|done]. by destruct (_.1).
    + destruct (_ =? 0).
      * destruct (_.1) as [|h rest]; [done|]. rewrite add_hosts_first by done. apply Forall_cons in Hr as [Hh _].
        apply (add_keeps (vadds (info_fields d (Some h)) vtable) w); [|apply Hw].
        apply info_entry_ok; [by apply Hd|]. by intros ? [= <-].
      * by rewrite info_some.
  - cbn [cwmp_plugin_manageable_query]. cbv zeta. pose proof (clean_cache_good k w Hw) as Hc.
    assert (lf (cwmp_plugin_clean_manageable_device_cache k w) = lf w) as El.
    { unfold cwmp_plugin_clean_manageable_device_cache. by destruct (cwmp_plugin_md_cache_find _ _ _) as [[i v]|]. }
    destruct (_ =? 0); [|done]. rewrite <- El. apply (remove_keeps a _ _ (by_key_rows a k Ha) (g_table _ Hc)).
Qed.

Lemma phys_keeps_life data w : (forall e, data = Some e -> honest_phys e) -> good w ->
  lf (cwmp_plugin_host_phys_changed data w) = lf w.
Proof.
  intros Hd Hw. unfold cwmp_plugin_host_phys_changed. destruct data as [e|]; [|done].
  destruct (parameters e) as [[[m|]|]|]; try done. destruct (streq m ""); [done|].
  destruct (cwmp_plugin_md_cache_find _ _ _) as [[i v]|] eqn:Ef; [|done].
  destruct (path e) as [p|] eqn:Ep; [|done]. destruct (streq p "") eqn:Es; [done|]. apply streq_false in Es. cbv zeta.
  assert (Hv : entry_ok v).
  { apply list_find_Some in Ef as (Hl & _). pose proof (g_cache _ Hw) as Hc. rewrite Forall_forall in Hc. apply Hc.
    by eapply list_elem_of_lookup_2. }
  pose proof (late_entry_ok v p Hv (Hd e eq_refl p Ep Es)) as Hv'.
  destruct (add_keeps (vadd v "Host" (Some (String.append "Device." p))) (with_cache (<[i:=vadd v "Host" (Some (String.append "Device." p))]> (cache w)) w)) as [_ Hf];
    [done|apply Hw|]. destruct (_ =? 0); apply Hf.
Qed.

Lemma step_alive ev w : honest ev -> good w /\ alive (lf w) -> good (step ev w) /\ alive (lf (step ev w)).
Proof.
  intros Hh [Hw Ha]. split; [by apply step_good|]. destruct ev as [a k d act|data|a|a]; cbn [step].
  - destruct (manageable_gmap_query _); [|done]. by rewrite query_keeps_life.
  - destruct (subscribed _); [|done]. by rewrite phys_keeps_life.
  - unfold host_timer_expires. cbn [with_life lf]. destruct (host_retry_timer _) eqn:E; [|done]. destruct Ha. by apply subscribe_alive.
  - unfold gmap_timer_expires. cbn [with_life lf]. destruct (gmap_retry_timer (lf w)) eqn:E; [|done]. destruct Ha as [Hp H1 H2 H3 H4].
    destruct (subscribed (lf w)) eqn:Es; [by apply open_alive|].
    destruct Hp as [[? _]|Hp]; [done|]. unfold cwmp_plugin_try_open_gmap_query. cbn.
    destruct (manageable_gmap_query _); [by constructor; cbn; auto|].
    destruct (query_open_ok a); constructor; cbn; auto using next_timeout_ok; by intros t [= <-].
Qed.

Lemma run_alive es w : Forall honest es -> good w /\ alive (lf w) -> good (run es w) /\ alive (lf (run es w)).
Proof. apply (run_invariant step honest (fun w => good w /\ alive (lf w))). intros e w'. apply step_alive. Qed.

(** Once the device map was there at the start, the subscription and the query
    are open or a timer of 1 to 32 seconds is armed that retries, after every run;
    when the bus answers, the expiry of the two timers opens the query. *)
Theorem query_open_or_retried (a b : answers) (es : list event) (Ha : who_has_gmap a = true) (Hes : Forall honest es)
    (Hb : subscribe_ok b = true /\ query_open_ok b = true) :
  let w := run es (cwmp_plugin_manageabledevice_init a loaded) in
  let l := lf w in
  ((subscribed l = true /\ (manageable_gmap_query l = true \/ exists t, gmap_retry_timer l = Some t /\ 1000 <= t <= 32000)) \/
   exists t, host_retry_timer l = Some t /\ 1000 <= t <= 32000) /\
  let l' := lf (run [HostTimer b; GmapTimer b] w) in
  subscribed l' = true /\ manageable_gmap_query l' = true.
Proof.
  cbv zeta. destruct (run_alive es (cwmp_plugin_manageabledevice_init a loaded) Hes) as [_ [Hp H1 H2 H3 H4]].
  { split; [by apply init_good, loaded_good|]. unfold cwmp_plugin_manageabledevice_init. rewrite Ha. apply subscribe_alive; (done || by left). }
  set (w := run es _) in *. clearbody w. split.
  - destruct Hp as [[Hs Hp]|Hp].
    + left. split; [done|]. destruct Hp as [?|Hp]; [by left|right]. destruct (gmap_retry_timer _) as [t|] eqn:E; [|done].
      exists t. split; [done|]. by apply interval_bounds, H4.
    + right. destruct (host_retry_timer _) as [t|] eqn:E; [|done]. exists t. split; [done|]. by apply interval_bounds, H3.
  - unfold run, run_steps. cbn [foldl step with_life lf]. unfold gmap_timer_expires, host_timer_expires,
      cwmp_plugin_try_add_manageabledevice_subscriptions, cwmp_plugin_try_open_gmap_query.
    destruct Hb as [-> ->]. destruct (host_retry_timer (lf w)) eqn:Eh.
    + cbn. destruct (manageable_gmap_query (lf w)) eqn:Eq; cbn; destruct (gmap_retry_timer (lf w)) eqn:Eg; cbn; rewrite ?Eq; done.
    + destruct Hp as [[Hs Hp]|]; [|done]. cbn. destruct (gmap_retry_timer (lf w)) eqn:Eg; cbn.
      * destruct (manageable_gmap_query (lf w)) eqn:Eq; cbn; by rewrite ?Eq.
      * by destruct Hp.
Qed.

End Theorems.
End ManagedDevices.
