(* ===== verification/ManagedDeviceExamples.v ===== *)
(** * ManagedDeviceExamples: the theorems on manageable devices at work

    A library that has the laws: a variant is a map or nothing, the search compares
    the expressions of the instances, hash tables are walked in their order, every
    transaction is accepted or, in [refusing], none.  The devices and rows are those
    of a small network. *)

From Stdlib Require Import ZArith Lia Ascii.
From stdpp Require Import base list gmap strings pretty.
From S2P Require Import Prelude CString ManageableDevice ManageableDeviceText ManageableDeviceFacts ManageableDeviceSpec.
From S2P Require Import ManageableDeviceRun ManagedDevices.

Module ManagedDeviceExamples.
Import CString ManageableDevice ManageableDeviceText ManageableDeviceFacts ManageableDeviceSpec ManageableDeviceRun ManagedDevices.

Definition expression_of (x : instance) : string := device_expression (ManufacturerOUI x) (SerialNumber x) (ProductClass x).

Definition library (acc : nat -> bool) : amx := {|
  variant := option (gmap string string);
  is_table v := is_Some v;
  vtable := Some ∅;
  vclean _ := None;
  vadd v k x :=
    match v, x with
    | Some m, Some s => match m !! k with Some _ => v | None => Some (<[k := s]> m) end
    | _, _ => v
    end;
  vget v k := match v with Some m => m !! k | None => None end;
  findf t e := fst <$> List.find (fun x => streq (expression_of x.2) e) t;
  split_to_llist s := Some (hosts_of s);
  iterate _ l := l;
  accepts := acc;
|}.

Lemma quoted_inj (a b r s : cstr) : "'"%char ∉ a -> "'"%char ∉ b -> a ++ "'"%char :: r = b ++ "'"%char :: s -> a = b /\ r = s.
Proof. intros Ha Hb H. apply (f_equal (strchr "'")) in H. rewrite !strchr_app in H by done. by injection H. Qed.

Lemma expression_chars a b c :
  cs (device_expression a b c) =
    cs "ManagementServer.ManageableDevice.[ManufacturerOUI == '" ++ cs a ++ "'"%char ::
    cs " && SerialNumber == '" ++ cs b ++ "'"%char :: cs " && ProductClass == '" ++ cs c ++ "'"%char :: cs "].".
Proof. unfold device_expression. cbn [foldr]. rewrite !cs_append, app_nil_r. done. Qed.

Lemma expression_inj a b c a' b' c' :
  plain_identity (a, b, c) -> plain_identity (a', b', c') ->
  device_expression a b c = device_expression a' b' c' -> (a, b, c) = (a', b', c').
Proof.
  intros ([H1 _] & [H2 _] & [H3 _]) ([H1' _] & [H2' _] & [H3' _]) E. apply (f_equal cs) in E. rewrite !expression_chars in E.
  apply app_inv_head in E. apply quoted_inj in E as [Ea E]; [|done|done]. apply app_inv_head in E.
  apply quoted_inj in E as [Eb E]; [|done|done]. apply app_inv_head in E. apply quoted_inj in E as [Ec _]; [|done|done].
  apply cs_inj in Ea, Eb, Ec. simpl in *. by subst.
Qed.

Lemma library_laws acc : AmxLaws (library acc).
Proof.
  constructor; cbn.
  - by eexists.
  - intros _ [? H]. discriminate H.
  - intros [m|] k [s|]; try done. destruct (m !! k); split; intros _; by eexists.
  - intros k. apply lookup_empty.
  - done.
  - intros [m|] k x [? H] Hn; [|done]. destruct x as [s|]; [|done]. by rewrite Hn, lookup_insert_eq.
  - intros [m|] k [s|] k' H; try done. destruct H. by eexists.
  - intros [m|] k x k' s H; [|done]. destruct x as [y|]; [|done]. by rewrite H.
  - intros [m|] k [s|] k' H; try done. destruct (m !! k); [done|]. by rewrite lookup_insert_ne.
  - intros t moui sn pc Hp Hall _. f_equal. induction Hall as [|x t Hx Hall IH]; [done|]. cbn [List.find].
    rewrite IH. destruct (streq _ _) eqn:E.
    + apply streq_true, expression_inj in E; [|by destruct x as [? []]|done]. by rewrite bool_decide_eq_true_2.
    + rewrite bool_decide_eq_false_2; [done|]. intros E'. apply streq_false in E. apply E. unfold expression_of.
      destruct x as [? []]. by injection E' as -> -> ->.
  - intros l Hl. exists l. split; [by rewrite hosts_of_print|]. induction Hl as [|h l [Hh _] Hl IH]; [done|]. cbn [List.filter].
    by rewrite (proj2 (streq_false h "")), IH.
  - done.
Qed.

#[local] Instance some_library : amx := library (fun _ => true).

#[local] Instance some_laws : AmxLaws some_library := library_laws _.

(** The network *)
Definition rows (l : list (string * string)) : answers :=
  {| who_has_hosts := true; get_hosts := Answered (map (fun x => (x.1, Some x.2)) l);
     who_has_devices := true; get_device := fun _ => Answered (Some "00:00:00:00:00:01"%string);
     who_has_management := true; get_management_ok := true; who_has_gmap := true; subscribe_ok := true;
     query_open_ok := true |}.

Definition one_row : answers := rows [("Hosts.Host.1."%string, "00:00:00:00:00:01"%string)].

Definition two_rows : answers :=
  rows [("Hosts.Host.1."%string, "00:00:00:00:00:01"%string); ("Hosts.Host.12."%string, "00:00:00:00:00:01"%string)].

Definition device : gdevice :=
  list_to_map [("Key"%string, "ID-1"%string); ("PhysAddress"%string, "00:00:00:00:00:01"%string); ("OUI"%string, "1883BF"%string);
               ("SerialNumber"%string, "115"%string); ("ProductClass"%string, "TEST"%string)].

Definition device_id : ident := ("1883BF", "115", "TEST")%string.

Definition started : world := cwmp_plugin_manageabledevice_init one_row loaded.

Lemma row_of (p : string) (d : cstr) :
  cs p = cs "Device.Hosts.Host." ++ d ++ ["."%char] -> forallb (fun c => negb (is_null (digit c))) d = true -> row_path p.
Proof.
  intros H Hd. exists d. split; [done|]. apply Forall_forall. intros c Hc. rewrite forallb_forall in Hd.
  apply list_elem_of_In, Hd in Hc. by destruct (digit c).
Qed.

Lemma device_honest : honest_device device.
Proof.
  intros k s H. apply elem_of_list_to_map_2 in H.
  assert (Forall (fun x => plain x.2)
    [("Key"%string, "ID-1"%string); ("PhysAddress"%string, "00:00:00:00:00:01"%string); ("OUI"%string, "1883BF"%string);
     ("SerialNumber"%string, "115"%string); ("ProductClass"%string, "TEST"%string)]) as Hall.
  { repeat constructor; apply (bool_decide_unpack _); vm_compute; reflexivity. }
  rewrite Forall_forall in Hall. by apply (Hall (k, s)).
Qed.

Lemma device_identifies : identifies device device_id.
Proof. by constructor. Qed.

Lemma two_rows_honest : honest_answers two_rows.
Proof. intros l [= <-]. repeat constructor; [by apply (row_of _ (cs "1"))|by apply (row_of _ (cs "12"))]. Qed.

Lemma one_row_honest : honest_answers one_row.
Proof. intros l [= <-]. repeat constructor. by apply (row_of _ (cs "1")). Qed.

Lemma started_good : good started.
Proof. apply init_good, loaded_good. Qed.

Lemma started_free h : ~ owned h (registry (table started)).
Proof. intros (id & l & H & _). unfold started in H. cbn in H. by rewrite lookup_empty in H. Qed.

Definition the_events : list event :=
  [Query two_rows (Some "ID-1"%string) (Some device) gmap_query_expression_start_matching; HostTimer one_row].

Lemma the_events_honest : Forall honest the_events.
Proof.
  apply Forall_cons. split; [|by apply Forall_singleton]. split; [apply two_rows_honest|].
  intros x [= <-]. apply device_honest.
Qed.

Lemma devices_well_formed_witness :
  let t := table (run the_events (cwmp_plugin_manageabledevice_init one_row loaded)) in
  length t = 1%nat /\ NoDup (map (fun x => identity x.2) t).
Proof.
  split; [vm_compute; reflexivity|]. apply (devices_well_formed one_row the_events the_events_honest).
Defined.

Lemma matching_registers_first_row_witness :
  let w' := cwmp_plugin_manageable_query two_rows (Some "ID-1"%string) (Some device) gmap_query_expression_start_matching started in
  registry (table w') =
    (if registered started device_id "Device.Hosts.Host.1." then register device_id "Device.Hosts.Host.1." (registry (table started))
     else registry (table started)) /\ registered started device_id "Device.Hosts.Host.1." = true.
Proof.
  split; [|vm_compute; reflexivity].
  apply (matching_registers_first_row two_rows "ID-1" device device_id "Device.Hosts.Host.1." ["Device.Hosts.Host.12."%string] started
           started_good device_honest device_identifies two_rows_honest).
  vm_compute. reflexivity.
Defined.

Lemma matching_undone_witness :
  let w1 := cwmp_plugin_manageable_query one_row (Some "ID-1"%string) (Some device) gmap_query_expression_start_matching started in
  let w2 := cwmp_plugin_manageable_query one_row (Some "ID-1"%string) (Some device) gmap_query_expression_stop_matching w1 in
  length (table w1) = 1%nat /\ registry (table w2) = registry (table started).
Proof.
  split; [vm_compute; reflexivity|].
  apply (matching_undone one_row "ID-1" device device_id "Device.Hosts.Host.1." started started_good device_honest
           device_identifies one_row_honest); try (vm_compute; reflexivity).
  - split; reflexivity.
  - apply started_free.
Defined.

Lemma second_row_prints_null_witness :
  let w1 := cwmp_plugin_manageable_query two_rows (Some "ID-1"%string) (Some device) gmap_query_expression_start_matching started in
  undefined (cwmp_plugin_manageable_query two_rows (Some "ID-1"%string) (Some device) gmap_query_expression_stop_matching w1) = true.
Proof.
  apply (second_row_prints_null two_rows two_rows "ID-1" device device_id "Device.Hosts.Host.1." "Device.Hosts.Host.12." []
           ["Device.Hosts.Host.1."; "Device.Hosts.Host.12."]%string started started_good device_honest device_identifies
           (conj two_rows_honest two_rows_honest)); try (vm_compute; reflexivity).
  - apply (bool_decide_unpack _). vm_compute. reflexivity.
  - split; reflexivity.
  - repeat constructor; apply started_free.
Defined.

Lemma late_row_registered_witness :
  let w1 := cwmp_plugin_manageable_query (rows []) (Some "ID-1"%string) (Some device) gmap_query_expression_start_matching started in
  let w2 := cwmp_plugin_host_phys_changed (phys_change "00:00:00:00:00:01" "Hosts.Host.4.") w1 in
  table w1 = [] /\ length (cache w1) = 1%nat /\ length (table w2) = 1%nat /\
  registry (table w2) =
    (if registered started device_id "Device.Hosts.Host.4." then register device_id "Device.Hosts.Host.4." (registry (table started))
     else registry (table started)).
Proof.
  split; [vm_compute; reflexivity|]. split; [vm_compute; reflexivity|]. split; [vm_compute; reflexivity|].
  apply (late_row_registered (rows []) "ID-1" "00:00:00:00:00:01" "Hosts.Host.4." device device_id started started_good
           device_honest device_identifies); try (vm_compute; reflexivity).
  - split; discriminate.
  - by apply (row_of _ (cs "4")).
Defined.

Lemma query_open_or_retried_witness :
  let deaf := {| who_has_hosts := true; get_hosts := GetFailed; who_has_devices := true; get_device := fun _ => GetFailed;
                 who_has_management := true; get_management_ok := true; who_has_gmap := true; subscribe_ok := false;
                 query_open_ok := false |} in
  let w := run [HostTimer deaf; HostTimer deaf] (cwmp_plugin_manageabledevice_init deaf loaded) in
  host_retry_timer (lf w) = Some 4000 /\ manageable_gmap_query (lf (run [HostTimer one_row; GmapTimer one_row] w)) = true.
Proof.
  intros deaf w. split; [vm_compute; reflexivity|].
  apply (query_open_or_retried deaf one_row [HostTimer deaf; HostTimer deaf]); [reflexivity|repeat constructor|split; reflexivity].
Defined.

(** ** An identity with a quote *)

(** The search of a library that refuses an expression whose quotes are not in
    pairs around the three values. *)
Definition quotes (s : string) : nat := length (List.filter (Ascii.eqb "'") (cs s)).

Definition strict_library : amx := {|
  variant := @variant some_library; is_table := is_table; vtable := vtable; vclean := vclean; vadd := vadd; vget := vget;
  findf t e := if Nat.eqb (quotes e) 6 then findf t e else None;
  split_to_llist := split_to_llist; iterate := fun B => iterate; accepts := accepts;
|}.

(** It has the laws as well. *)
Lemma plain_unquoted s : plain s -> List.filter (Ascii.eqb "'") (cs s) = [].
Proof.
  intros [H _]. induction (cs s) as [|c l IH]; [done|]. apply not_elem_of_cons in H as [Hc H]. cbn [List.filter].
  rewrite (proj2 (Ascii.eqb_neq _ _) Hc). by apply IH.
Qed.

Lemma strict_laws : AmxLaws strict_library.
Proof.
  destruct some_laws as [L1 L2 L3 L4 L5 L6 L7 L8 L9 Lf Ls Li]. constructor; try done.
  intros t moui sn pc Hp Hall Hnd. rewrite <- (Lf t moui sn pc Hp Hall Hnd). cbn [findf strict_library].
  unfold quotes. rewrite expression_chars. destruct Hp as (H1%plain_unquoted & H2%plain_unquoted & H3%plain_unquoted).
  repeat (rewrite List.filter_app; cbn [List.filter cs]). simpl in *. by rewrite H1, H2, H3.
Qed.

(** A device whose serial number has a quote and that begins to match twice -- here
    with the end of its first match lost -- has two instances. *)
Definition quoted_device : gdevice := <["SerialNumber"%string := "O'115"%string]> device.

Example quoted_identity_registered_twice :
  let q := Query one_row (Some "ID-1"%string) (Some quoted_device) gmap_query_expression_start_matching in
  let t := @table strict_library (@run strict_library [q; q] (cwmp_plugin_manageabledevice_init one_row loaded)) in
  map (fun x => (x.1, identity x.2)) t = [(1, ("1883BF", "O'115", "TEST")); (2, ("1883BF", "O'115", "TEST"))]%string.
Proof. vm_compute. reflexivity. Qed.

End ManagedDeviceExamples.
