(* ===== verification/ACSConnection.v ===== *)
(** * ACSConnection: the notifications of the adapter
    ([src/src/dmdeviceadapter/amx/adapter/DM_AmxACSConnection.c] and the functions
    of [DM_DeviceAdapter.c] that call it)

    The engine asks for the notification of a parameter with a mode; the adapter
    keeps an instance of [ManagementServer.Subscription] for it and, unless the mode
    is off or passive, a subscription on the bus ([Subscriptions]).  A change of
    an object that reaches the handler updates the value of the instance and is
    handed to the scheduler of inform messages.  The class [acs_library] has the
    paths and the hash of [Subscriptions], the engine's cache of attributes, the
    access rights and the bus; an answer that can change is indexed by the number
    of calls so far. *)

From Stdlib Require Import ZArith Lia Ascii.
From stdpp Require Import base list strings.
From S2P Require Import Prelude CString PathAlias Subscriptions.

Module ACSConnection.
Import CString.

Inductive DM_ENG_NotificationMode := OFF | PASSIVE | ACTIVE | FORCED.

(** An instance of [ManagementServer.Subscription] *)
Record entry := { Path : string; Type_ : option string; Value : option string }.

Class acs_library := {
  object_of : string -> string;
  param_of : string -> string;
  hash : string -> Z;
  mode_string : DM_ENG_NotificationMode -> string;
  matches : string -> entry -> bool;
  cache_path : Z -> option string;
  mode_of : string -> option DM_ENG_NotificationMode;
  was_cached : nat -> string -> option string -> bool;
  get_values : nat -> string -> option (list string);
  set_status : nat -> Z;
  del_ok : nat -> bool;
  filter_notif : list (string * option string) -> list (string * option string);
  is_subs_allowed : string -> bool;
}.

(** [informs] is what the scheduler got: parameter and mode. *)
Record world := {
  subs : Subscriptions.state;
  dm : list entry;
  informs : list (string * DM_ENG_NotificationMode);
  calls : nat;
}.

(** The answers during [AddNotification] *)
Record add_answers := {
  get_ok : bool;
  param_value : option string;
  add_ok : bool;
  sub_env : Subscriptions.add_env;
}.

Definition EVENT_DM_FILTER_OBJECT_CHANGED : string := "notification in ['dm:object-changed']".

(** [DM_ENG_Device_ACSConnectionHandleNotification] as a handler of [Subscriptions] *)
Definition ACS_HANDLER : nat := 1.

Section Adapter.

Context {L : acs_library}.

Definition with_subs (s : Subscriptions.state) (w : world) : world :=
  {| subs := s; dm := dm w; informs := informs w; calls := calls w |}.

Definition with_dm (l : list entry) (w : world) : world :=
  {| subs := subs w; dm := l; informs := informs w; calls := calls w |}.

Definition called (w : world) : world :=
  {| subs := subs w; dm := dm w; informs := informs w; calls := S (calls w) |}.

Definition inform (l : list (string * DM_ENG_NotificationMode)) (w : world) : world :=
  {| subs := subs w; dm := dm w; informs := informs w ++ l; calls := calls w |}.

(** ** The changes of the instances *)

Definition set_value (v : string) (x : entry) : entry := {| Path := Path x; Type_ := Type_ x; Value := Some v |}.

Definition set_type (t : string) (x : entry) : entry := {| Path := Path x; Type_ := Some t; Value := Value x |}.

Definition on_matching (path : string) (f : entry -> entry) (l : list entry) : list entry :=
  map (fun x => if matches path x then f x else x) l.

(** [amxb_set] with the expression [Path == 'path'] *)
Definition amxb_set (path : string) (f : entry -> entry) (w : world) : world * Z :=
  let status := set_status (calls w) in
  (called (if status =? 0 then with_dm (on_matching path f (dm w)) w else w), status).

(** [set_subscription_new_value]; a null value is no key, so that nothing is
    set. *)
Definition set_subscription_new_value (path : string) (value : option string) (w : world) : world :=
  (amxb_set path (match value with Some v => set_value v | None => fun x => x end) w).1.

(** ** The handler *)

(** [acs_path] starts with [Device.IP.Interface.] and there is no value. *)
Definition empty_interface_value (acs_path : string) (value : option string) : bool :=
  starts_with (cs "Device.IP.Interface.") (cs acs_path) && str_empty value.

Definition info_of (s : Subscriptions.sub) (key : string) : option Subscriptions.info :=
  List.find (fun i => streq (Subscriptions.parameter i) key) (Subscriptions.infos s).

(** The loop over the changed parameters; [id] and [mode] keep their values from
    one turn to the next. *)
Fixpoint handle_parameters (s : Subscriptions.sub) (params : list (string * option string)) (id : Z)
    (mode : DM_ENG_NotificationMode) (w : world) : world :=
  match params with
  | [] => w
  | (key, value) :: rest =>
      let id := match info_of s key with Some i => Subscriptions.uniqueID i | None => id end in
      if id =? -1 then w
      else
        match cache_path id with
        | None => w
        | Some acs_path =>
            if empty_interface_value acs_path value then w
            else
              let w := set_subscription_new_value acs_path value w in
              let cached := was_cached (calls w) acs_path value in
              let w := called w in
              if cached then handle_parameters s rest id mode w
              else
                let mode := default mode (mode_of acs_path) in
                match get_values (calls w) acs_path with
                | None => called w
                | Some names => handle_parameters s rest id mode (inform (map (fun n => (n, mode)) names) (called w))
                end
        end
  end.

(** [DM_ENG_Device_ACSConnectionHandleNotification] *)
Definition DM_ENG_Device_ACSConnectionHandleNotification (path : string) (data : list (string * option string))
    (w : world) : world :=
  match Subscriptions.FindSubscription (Subscriptions.slist (subs w)) path with
  | None => w
  | Some s => handle_parameters s (filter_notif data) (-1) OFF w
  end.

(** ** The requests of the engine *)

(** [find_subscription_by_path]: the first instance, if the bus answers *)
Definition find_subscription_by_path (ok : bool) (path : string) (w : world) : option entry :=
  if ok then List.find (matches path) (dm w) else None.

(** [add_subscription_to_dm] *)
Definition add_subscription_to_dm (a : add_answers) (path : string) (mode : DM_ENG_NotificationMode) (w : world) : world :=
  if add_ok a then
    with_dm (dm w ++ [{| Path := path; Type_ := Some (mode_string mode); Value := param_value a |}]) w
  else w.

(** [remove_subscription_from_dm] *)
Definition remove_subscription_from_dm (path : string) (w : world) : world :=
  called (if del_ok (calls w) then with_dm (List.filter (fun x => negb (matches path x)) (dm w)) w else w).

(** [update_subscription_in_dm]: the status of [amxb_set] as a [bool] *)
Definition update_subscription_in_dm (path notification_mode : string) (mode : DM_ENG_NotificationMode) (w : world) :
    world * bool :=
  if streq notification_mode (mode_string mode) then (w, false)
  else
    let r := amxb_set path (set_type (mode_string mode)) w in
    (r.1, negb (r.2 =? 0)).

Definition watches (mode : DM_ENG_NotificationMode) : bool :=
  match mode with FORCED | ACTIVE => true | _ => false end.

Definition is_forced (mode : DM_ENG_NotificationMode) : bool :=
  match mode with FORCED => true | _ => false end.

(** [DM_ENG_Device_ACSConnectionAddSubscription] *)
Definition DM_ENG_Device_ACSConnectionAddSubscription (a : add_answers) (path : string)
    (mode : DM_ENG_NotificationMode) (w : world) : world * bool :=
  if negb (PathAlias.IsValidPath (Some (cs path))) then (w, false)
  else if negb (is_subs_allowed path) then (w, false)
  else
    let added :=
      if watches mode then
        Subscriptions.AddSubscription object_of param_of hash (sub_env a) path EVENT_DM_FILTER_OBJECT_CHANGED
          ACS_HANDLER (subs w)
      else (subs w, 0) in
    let w := with_subs added.1 w in
    if negb (added.2 =? 0) then (w, false)
    else if is_forced mode then (w, false)
    else
      match find_subscription_by_path (get_ok a) path w with
      | None => (add_subscription_to_dm a path mode w, true)
      | Some x =>
          match Type_ x with
          | None => (w, false)
          | Some t => update_subscription_in_dm path t mode w
          end
      end.

(** [DM_ENG_Device_ACSConnectionRemoveSubscription] *)
Definition DM_ENG_Device_ACSConnectionRemoveSubscription (unsubscribe_ok : bool) (path : string) (id : Z) (w : world) :
    world * bool :=
  let w := remove_subscription_from_dm path w in
  let r := Subscriptions.DeleteSubscription unsubscribe_ok id (subs w) in
  (with_subs r.1 w, r.2 =? 0).

(** [DM_ENG_Device_ACSConnectionGetSubscriptions]: the instances in the order of
    the answer, and the result; [amxb_get] answers [None] on an error. *)
Definition DM_ENG_Device_ACSConnectionGetSubscriptions (answer : option (list entry))
    (new_ok : entry -> bool) : list (string * option string) * Z :=
  match answer with
  | None => ([], -1)
  | Some l => (map (fun x => (Path x, Type_ x)) (List.filter new_ok l), 0)
  end.

(** [DM_ENG_Device_AddNotification] *)
Definition DM_ENG_Device_AddNotification (a : add_answers) (path : string) (mode : DM_ENG_NotificationMode) (w : world) :
    world * Z :=
  let r := DM_ENG_Device_ACSConnectionAddSubscription a path mode w in
  (r.1, if r.2 then 0 else -1).

(** [DM_ENG_Device_RemoveNotification] *)
Definition DM_ENG_Device_RemoveNotification (unsubscribe_ok : bool) (path : string) (id : Z) (w : world) : world * Z :=
  let r := DM_ENG_Device_ACSConnectionRemoveSubscription unsubscribe_ok path id w in
  (r.1, if r.2 then 0 else -1).

(** [DM_ENG_Device_GetSubscriptions]: an [int] compared with [false] *)
Definition DM_ENG_Device_GetSubscriptions (answer : option (list entry)) (new_ok : entry -> bool) :
    list (string * option string) * Z :=
  let r := DM_ENG_Device_ACSConnectionGetSubscriptions answer new_ok in
  (r.1, if r.2 =? 0 then -1 else 0).

(** [DM_ENG_Device_ACSConnectionCleanup] *)
Definition DM_ENG_Device_ACSConnectionCleanup (unsubscribe_ok : Subscriptions.sub -> bool) (w : world) : world :=
  with_subs (Subscriptions.Cleanup_Subscription unsubscribe_ok (subs w)) w.

(** [DM_ENG_Device_ACSConnectionInitialize], on the instances that were loaded *)
Definition DM_ENG_Device_ACSConnectionInitialize (connected : bool) (l : list entry) : option world :=
  if connected then Some {| subs := Subscriptions.initial; dm := l; informs := []; calls := 0 |} else None.

(** ** Steps *)

Inductive event :=
| AddNotification (a : add_answers) (path : string) (mode : DM_ENG_NotificationMode)
| RemoveNotification (unsubscribe_ok : bool) (path : string) (id : Z)
| Changed (object : string) (data : list (string * option string)).

Definition step (ev : event) (w : world) : world :=
  match ev with
  | AddNotification a path mode => (DM_ENG_Device_AddNotification a path mode w).1
  | RemoveNotification ok path id => (DM_ENG_Device_RemoveNotification ok path id w).1
  | Changed object data =>
      match Subscriptions.deliver object (subs w) with
      | Some l => foldl (fun w h => DM_ENG_Device_ACSConnectionHandleNotification h.2 data w) w l
      | None => w
      end
  end.

Definition run : list event -> world -> world := run_steps step.

End Adapter.

(** What the code relies on: the search by a path without quotes finds the
    instances of that path. *)
Definition plain (s : string) : Prop := "'"%char ∉ cs s.

Class AcsLaws (L : acs_library) : Prop := {
  matches_path p x : plain p -> matches p x = streq (Path x) p;
}.

(** ** The interface of an address *)

(** [DM_ENG_Device_ACSConnectionHandleGetwaninterface]: [inet6] is the test of
    [inet_pton], [get] the key of the first object the bus finds, if it answers. *)
Definition DM_ENG_Device_ACSConnectionHandleGetwaninterface (has_ip : bool) (inet6 : string -> bool)
    (get : string -> option (option string)) (prefix : string) (ipaddress : option string) : option string :=
  match ipaddress with
  | None => None
  | Some ip =>
      if streq ip "" || streq ip "0.0.0.0" then None
      else if negb has_ip then None
      else
        let path := foldr String.append ""%string
          ["IP.Interface.*."; if inet6 ip then "IPv6Address" else "IPv4Address"; ".[IPAddress=='"; ip; "']"]%string in
        match get path with
        | None => None
        | Some key =>
            if str_empty key then None
            else Some (String.append prefix (String.append (default ""%string key) "IPAddress"))
        end
  end.

End ACSConnection.
