(* ===== verification/ACSConnectionFacts.v ===== *)
(** * ACSConnectionFacts: the theorems on notifications

    The handler against a definition that takes each parameter by itself
    ([notify_one]), what happens to parameters that nobody asked for, the results
    the engine gets, and the table of subscriptions. *)

From Stdlib Require Import ZArith Lia Ascii.
From stdpp Require Import base list strings.
From S2P Require Import Prelude CString PathAlias Subscriptions ACSConnection.

Module ACSConnectionFacts.
Import CString ACSConnection.

Section Facts.

Context {L : acs_library}.

(** ** The handler *)

(** A subscribed parameter that the engine knows: its path, its mode and the
    names of its values *)
Record known (s : Subscriptions.sub) (key : string) (p : string) (m : DM_ENG_NotificationMode) : Prop := {
  k_info : exists i, info_of s key = Some i /\ Subscriptions.uniqueID i <> -1 /\ cache_path (Subscriptions.uniqueID i) = Some p;
  k_mode : mode_of p = Some m;
  k_values n : get_values n p <> None;
}.

(** What the handler owes to one parameter with path [p] and mode [m] *)
Definition notify_one (p : string) (m : DM_ENG_NotificationMode) (value : option string) (w : world) : world :=
  let w := set_subscription_new_value p value w in
  let cached := was_cached (calls w) p value in
  let w := called w in
  if cached then w else inform (map (fun n => (n, m)) (default [] (get_values (calls w) p))) (called w).

Lemma handle_turn s key value rest id mode w p m x :
  match info_of s key with Some i => Subscriptions.uniqueID i | None => id end = x -> x <> -1 ->
  cache_path x = Some p -> mode_of p = Some m -> (forall n, get_values n p <> None) -> empty_interface_value p value = false ->
  exists mode', handle_parameters s ((key, value) :: rest) id mode w =
    handle_parameters s rest x mode' (notify_one p m value w).
Proof.
  intros Hx Hne Hp Hm Hv He. cbn [handle_parameters]. rewrite Hx, (proj2 (Z.eqb_neq _ _) Hne), Hp, He.
  unfold notify_one. cbv zeta. set (w1 := set_subscription_new_value p value w).
  destruct (was_cached (calls w1) p value); [by exists mode|].
  rewrite Hm. cbn [default]. specialize (Hv (calls (called w1))).
  destruct (get_values (calls (called w1)) p) as [names|]; [|done]. by exists m.
Qed.

(** An event whose parameters are all subscribed is handled parameter by
    parameter: each sets the value of its own instances and, if the engine had
    another value, is reported with its own mode. *)
Theorem notification_per_parameter (s : Subscriptions.sub) (object : string) (w : world)
    (data : list (string * option string)) (known_as : string -> string * DM_ENG_NotificationMode)
    (Hs : Subscriptions.FindSubscription (Subscriptions.slist (subs w)) object = Some s)
    (Hk : Forall (fun x => known s x.1 (known_as x.1).1 (known_as x.1).2 /\
                     empty_interface_value (known_as x.1).1 x.2 = false) (filter_notif data)) :
  DM_ENG_Device_ACSConnectionHandleNotification object data w =
    foldl (fun w x => notify_one (known_as x.1).1 (known_as x.1).2 x.2 w) w (filter_notif data).
Proof.
  unfold DM_ENG_Device_ACSConnectionHandleNotification. rewrite Hs. generalize (-1) OFF. clear Hs. revert w.
  induction Hk as [|[key value] l [Hx He] Hk IH]; intros w id mode; [done|]. cbn [fst snd] in Hx, He.
  destruct Hx as [(i & Hi & Hne & Hp) Hm Hv].
  destruct (handle_turn s key value l id mode w (known_as key).1 (known_as key).2 (Subscriptions.uniqueID i)) as (mode' & ->);
    [by rewrite Hi|done..|]. cbn [foldl fst snd]. apply IH.
Qed.

Lemma handle_unsubscribed s key value rest w : info_of s key = None ->
  handle_parameters s ((key, value) :: rest) (-1) OFF w = w.
Proof. intros H. cbn [handle_parameters]. by rewrite H. Qed.

Lemma amxb_set_ok p f w : set_status (calls w) = 0 -> amxb_set p f w = (called (with_dm (on_matching p f (dm w)) w), 0).
Proof. intros H. unfold amxb_set. by rewrite H. Qed.

Lemma on_matching_twice p v u l :
  (forall x y, Path x = Path y -> matches p x = matches p y) ->
  on_matching p (set_value u) (on_matching p (set_value v) l) = on_matching p (set_value u) l.
Proof.
  intros H. unfold on_matching. rewrite map_map. apply map_ext. intros x. destruct (matches p x) eqn:E.
  - rewrite (H (set_value v x) x), E by done. done.
  - by rewrite E.
Qed.

Lemma notify_one_dm p m v w : set_status (calls w) = 0 ->
  dm (notify_one p m (Some v) w) = on_matching p (set_value v) (dm w).
Proof.
  intros H. unfold notify_one, set_subscription_new_value. cbv zeta. rewrite amxb_set_ok by done. cbn [fst].
  by destruct (was_cached _ _ _).
Qed.

(** A changed parameter that nobody subscribed disturbs the others of its
    object.  If it comes first the event is dropped, with all that follows; after
    a subscribed parameter it is taken for that parameter, whose value it
    overwrites. *)
Theorem unsubscribed_parameter_misread (s : Subscriptions.sub) (object key other p u v : string)
    (m : DM_ENG_NotificationMode) (rest data : list (string * option string)) (w : world)
    (Hs : Subscriptions.FindSubscription (Subscriptions.slist (subs w)) object = Some s)
    (Ho : info_of s other = None) (Hk : known s key p m)
    (He : empty_interface_value p (Some v) = false /\ empty_interface_value p (Some u) = false)
    (Hset : forall n, set_status n = 0) (Hm : forall x y, Path x = Path y -> matches p x = matches p y) :
  (filter_notif data = (other, Some u) :: rest -> DM_ENG_Device_ACSConnectionHandleNotification object data w = w) /\
  (filter_notif data = [(key, Some v); (other, Some u)] ->
   dm (DM_ENG_Device_ACSConnectionHandleNotification object data w) = on_matching p (set_value u) (dm w)).
Proof.
  unfold DM_ENG_Device_ACSConnectionHandleNotification. rewrite Hs. destruct He as [He1 He2]. split; intros ->.
  - by apply handle_unsubscribed.
  - destruct Hk as [(i & Hi & Hne & Hp) Hmode Hv].
    destruct (handle_turn s key (Some v) [(other, Some u)] (-1) OFF w p m (Subscriptions.uniqueID i)) as (mode1 & ->);
      [by rewrite Hi|done..|].
    destruct (handle_turn s other (Some u) [] (Subscriptions.uniqueID i) mode1 (notify_one p m (Some v) w) p m
                (Subscriptions.uniqueID i)) as (mode2 & ->); [by rewrite Ho|done..|].
    cbn [handle_parameters]. rewrite !notify_one_dm by done. by apply on_matching_twice.
Qed.

(** ** The results *)

(** The engine is told that a notification was added exactly if the path is
    allowed, the bus accepted the subscription it may need, the mode is not
    forced, and either a new instance was due, or the instance had another type
    and setting it has failed.  An instance that is changed as asked, or needs no
    change, is reported as an error, and so is every forced notification. *)
Theorem add_notification_result (a : add_answers) (path : string) (mode : DM_ENG_NotificationMode) (w : world) :
  (DM_ENG_Device_AddNotification a path mode w).2 = 0 <->
  PathAlias.IsValidPath (Some (cs path)) = true /\ is_subs_allowed path = true /\ mode <> FORCED /\
  (mode = ACTIVE -> (Subscriptions.AddSubscription object_of param_of hash (sub_env a) path
                       EVENT_DM_FILTER_OBJECT_CHANGED ACS_HANDLER (subs w)).2 = 0) /\
  match find_subscription_by_path (get_ok a) path w with
  | None => True
  | Some x => exists t, Type_ x = Some t /\ t <> mode_string mode /\ set_status (calls w) <> 0
  end.
Proof.
  unfold DM_ENG_Device_AddNotification, DM_ENG_Device_ACSConnectionAddSubscription.
  destruct (PathAlias.IsValidPath (Some (cs path))); cbn [negb snd]; [|naive_solver].
  destruct (is_subs_allowed path); cbn [negb snd]; [|naive_solver]. cbv zeta.
  set (added := Subscriptions.AddSubscription _ _ _ _ _ _ _ _).
  assert (Hf : forall s, find_subscription_by_path (get_ok a) path (with_subs s w) = find_subscription_by_path (get_ok a) path w) by done.
  destruct mode; cbn [watches is_forced negb fst snd Z.eqb]; rewrite ?Hf.
  1-2: destruct (find_subscription_by_path _ _ _) as [x|]; cbn [snd]; [|naive_solver].
  1-2: destruct (Type_ x) as [t|]; cbn [snd]; [|naive_solver].
  1-2: unfold update_subscription_in_dm; destruct (streq t _) eqn:E; bool_prop; cbn [fst snd amxb_set with_subs calls]; [naive_solver|].
  1-2: destruct (set_status _ =? 0) eqn:Es; cbn; bool_prop; naive_solver.
  - destruct (added.2 =? 0) eqn:Ea; bool_prop; cbn [negb snd]; [|naive_solver]. rewrite ?Hf.
    destruct (find_subscription_by_path _ _ _) as [x|]; cbn [snd]; [|naive_solver].
    destruct (Type_ x) as [t|]; cbn [snd]; [|naive_solver].
    unfold update_subscription_in_dm. destruct (streq t _) eqn:E; bool_prop; cbn [fst snd amxb_set with_subs calls]; [naive_solver|].
    destruct (set_status _ =? 0) eqn:Es; cbn; bool_prop; naive_solver.
  - destruct (added.2 =? 0); cbn; naive_solver.
Qed.

(** The list of subscriptions is reported as an error when the bus has answered,
    and as a success, with no instance, when it has not. *)
Theorem get_subscriptions_inverted (answer : option (list entry)) (new_ok : entry -> bool) :
  (DM_ENG_Device_GetSubscriptions answer new_ok).2 = (match answer with Some _ => -1 | None => 0 end).
Proof. by destruct answer. Qed.

(** ** The table of subscriptions *)

Lemma paths_matching p f l : (forall x, Path (f x) = Path x) -> map Path (on_matching p f l) = map Path l.
Proof. intros H. unfold on_matching. rewrite map_map. apply map_ext. intros x. by destruct (matches p x). Qed.

Lemma paths_set p f w : (forall x, Path (f x) = Path x) -> map Path (dm (amxb_set p f w).1) = map Path (dm w).
Proof. intros H. unfold amxb_set. destruct (_ =? 0); [|done]. by apply paths_matching. Qed.

Lemma paths_value p v w : map Path (dm (set_subscription_new_value p v w)) = map Path (dm w).
Proof. unfold set_subscription_new_value. apply paths_set. by destruct v. Qed.

Lemma paths_handle s params id mode w : map Path (dm (handle_parameters s params id mode w)) = map Path (dm w).
Proof.
  revert id mode w. induction params as [|[key value] rest IH]; intros id mode w; [done|]. cbn [handle_parameters].
  destruct (_ =? -1); [done|]. destruct (cache_path _) as [p|]; [|done]. destruct (empty_interface_value p value); [done|].
  cbv zeta. destruct (was_cached _ _ _); [by rewrite IH; apply paths_value|].
  destruct (get_values _ _); [|apply paths_value]. rewrite IH. apply paths_value.
Qed.

Lemma paths_notification object data w : map Path (dm (DM_ENG_Device_ACSConnectionHandleNotification object data w)) = map Path (dm w).
Proof. unfold DM_ENG_Device_ACSConnectionHandleNotification. destruct (Subscriptions.FindSubscription _ _); [apply paths_handle|done]. Qed.

Context {Laws : AcsLaws L}.

(** The requests have paths without quotes, and the bus answers the search. *)
Definition orderly (ev : event) : Prop :=
  match ev with
  | AddNotification a path _ => plain path /\ get_ok a = true
  | RemoveNotification _ path _ => plain path
  | Changed _ _ => True
  end.

Lemma unique_add a path mode w : plain path -> get_ok a = true -> NoDup (map Path (dm w)) ->
  NoDup (map Path (dm (DM_ENG_Device_AddNotification a path mode w).1)).
Proof.
  intros Hp Ha Hn. unfold DM_ENG_Device_AddNotification, DM_ENG_Device_ACSConnectionAddSubscription.
  destruct (PathAlias.IsValidPath _); [|done]. destruct (is_subs_allowed path); [|done]. cbn [negb]. cbv zeta.
  destruct (negb (_ =? 0)); [done|]. destruct (is_forced mode); [done|].
  set (w1 := with_subs _ w). destruct (find_subscription_by_path (get_ok a) path w1) as [x|] eqn:E; cbn [fst].
  - destruct (Type_ x) as [t|]; [|done]. unfold update_subscription_in_dm. destruct (streq t _); [done|]. cbn [fst].
    by rewrite paths_set.
  - unfold add_subscription_to_dm. destruct (add_ok a); [|done]. cbn [with_dm dm].
    rewrite map_app. cbn [map Path]. apply NoDup_app. split; [done|]. split; [|apply NoDup_singleton].
    intros q Hq. rewrite list_elem_of_singleton. intros ->. unfold find_subscription_by_path in E. rewrite Ha in E.
    apply list_elem_of_In, in_map_iff in Hq as [x [Hx Hq]]. apply List.find_none with (x := x) in E; [|done].
    rewrite matches_path, Hx, streq_refl in E by done. done.
Qed.

Lemma unique_step ev w : orderly ev -> NoDup (map Path (dm w)) -> NoDup (map Path (dm (step ev w))).
Proof.
  intros Ho Hn. destruct ev as [a path mode|ok path id|object data]; cbn [step].
  - destruct Ho. by apply unique_add.
  - unfold DM_ENG_Device_RemoveNotification, DM_ENG_Device_ACSConnectionRemoveSubscription, remove_subscription_from_dm.
    cbn. destruct (del_ok _); [|done]. by apply NoDup_map_filter.
  - destruct (Subscriptions.deliver _ _) as [l|]; [|done]. revert w Hn. induction l as [|h l IH]; intros w Hn; [done|].
    apply IH. by rewrite paths_notification.
Qed.

(** As long as the bus answers the search for them, there is at most one
    instance of [ManagementServer.Subscription] for each path, in every run of
    requests and events. *)
Theorem one_instance_per_path (es : list event) (w : world) (Ho : Forall orderly es) (Hn : NoDup (map Path (dm w))) :
  NoDup (map Path (dm (run es w))).
Proof. apply (run_invariant step orderly (fun w => NoDup (map Path (dm w)))); [|done..]. intros ev w'. apply unique_step. Qed.

(** ** Adding and removing *)

(** What is watched: the objects with the entries of their parameters *)
Definition watched (s : Subscriptions.state) : list (string * list Subscriptions.info) :=
  map (fun x => (Subscriptions.objectpath x, Subscriptions.infos x)) (Subscriptions.slist s).

Definition all_ok : Subscriptions.add_env :=
  {| Subscriptions.info_ok := true; Subscriptions.sub_ok := true; Subscriptions.subscribe_ok := true |}.

Definition id_of (path : string) : Z := hash (String.append path EVENT_DM_FILTER_OBJECT_CHANGED).

Lemma delete_info_last l i : Forall (fun j => Subscriptions.uniqueID j <> Subscriptions.uniqueID i) l ->
  Subscriptions.DeleteSubscriptionInfo (l ++ [i]) (Subscriptions.uniqueID i) = l.
Proof.
  induction 1 as [|j l Hj Hl IH]; cbn [app Subscriptions.DeleteSubscriptionInfo]; [by rewrite Z.eqb_refl|].
  rewrite (proj2 (Z.eqb_neq _ _) Hj). by rewrite IH.
Qed.

Lemma find_by_id_none l id :
  Forall (fun s => Forall (fun j => Subscriptions.uniqueID j <> id) (Subscriptions.infos s)) l ->
  Subscriptions.FindSubscriptionByID l id = None.
Proof.
  unfold Subscriptions.FindSubscriptionByID. induction 1 as [|s l Hs Hl IH]; [done|]. cbn [List.find].
  assert (Subscriptions.has_id id s = false) as ->; [|done]. unfold Subscriptions.has_id.
  induction Hs as [|j k Hj Hk IHk]; [done|]. cbn [existsb]. by rewrite (proj2 (Z.eqb_neq _ _) Hj).
Qed.

(** No entry has the identifier, and each subscription has one. *)
Definition fresh_id (id : Z) (w : Subscriptions.state) : Prop :=
  Forall (fun s => Subscriptions.infos s <> [] /\ Forall (fun j => Subscriptions.uniqueID j <> id) (Subscriptions.infos s))
    (Subscriptions.slist w).

Lemma fresh_no_id id l :
  Forall (fun s => Subscriptions.infos s <> [] /\ Forall (fun j => Subscriptions.uniqueID j <> id) (Subscriptions.infos s)) l ->
  Forall (fun s => Forall (fun j => Subscriptions.uniqueID j <> id) (Subscriptions.infos s)) l.
Proof. intros H. eapply Forall_impl; [exact H|]. by intros s [_ ?]. Qed.

Lemma update_middle l1 s l2 f :
  NoDup (map Subscriptions.addr (l1 ++ s :: l2)) ->
  Subscriptions.update (Subscriptions.addr s) f (l1 ++ s :: l2) = l1 ++ f s :: l2.
Proof.
  intros Hn. rewrite map_app in Hn. cbn [map] in Hn. apply NoDup_app in Hn as (_ & H1 & Hn). apply NoDup_cons in Hn as [H2 _].
  assert (Hskip : forall l, Subscriptions.addr s ∉ map Subscriptions.addr l -> Subscriptions.update (Subscriptions.addr s) f l = l).
  { intros l. unfold Subscriptions.update. induction l as [|x l IH]; intros H; [done|]. cbn [map] in *.
    apply not_elem_of_cons in H as [H Hl]. rewrite IH by done. by rewrite (proj2 (Nat.eqb_neq _ _)) by congruence. }
  unfold Subscriptions.update in *. rewrite map_app. cbn [map]. rewrite Nat.eqb_refl, !Hskip; [done|done|].
  intros H. apply (H1 _ H). by left.
Qed.

Lemma find_middle l1 s l2 i :
  Forall (fun s => Forall (fun j => Subscriptions.uniqueID j <> Subscriptions.uniqueID i) (Subscriptions.infos s)) l1 ->
  Subscriptions.FindSubscriptionByID (l1 ++ Subscriptions.add_info i s :: l2) (Subscriptions.uniqueID i) =
    Some (Subscriptions.add_info i s).
Proof.
  intros Hi. pose proof (find_by_id_none l1 _ Hi) as E. unfold Subscriptions.FindSubscriptionByID in *. rewrite find_app, E.
  cbn [List.find]. unfold Subscriptions.has_id at 1. cbn [Subscriptions.add_info Subscriptions.infos].
  by rewrite existsb_app; cbn; rewrite Z.eqb_refl, orb_true_r.
Qed.

Lemma delete_middle_entry l1 s l2 i w :
  Subscriptions.slist w = l1 ++ Subscriptions.add_info i s :: l2 -> NoDup (map Subscriptions.addr (Subscriptions.slist w)) ->
  Forall (fun s => Forall (fun j => Subscriptions.uniqueID j <> Subscriptions.uniqueID i) (Subscriptions.infos s)) (l1 ++ [s]) ->
  let d := Subscriptions.DeleteSubscription true (Subscriptions.uniqueID i) w in
  d.2 = 0 /\
  watched d.1 = map (fun x => (Subscriptions.objectpath x, Subscriptions.infos x))
                  (l1 ++ (match Subscriptions.infos s with [] => [] | _ => [s] end) ++ l2).
Proof.
  intros E Hn Hi. apply Forall_app in Hi as [Hi Hs]. apply Forall_cons in Hs as [Hs _]. rewrite E in Hn.
  cbv zeta. unfold Subscriptions.DeleteSubscription. rewrite E, find_middle by done.
  cbn [Subscriptions.add_info Subscriptions.infos]. rewrite delete_info_last by done.
  change (Subscriptions.addr {| Subscriptions.addr := Subscriptions.addr s; Subscriptions.objectpath := Subscriptions.objectpath s;
    Subscriptions.cb := Subscriptions.cb s; Subscriptions.infos := Subscriptions.infos s ++ [i] |})
    with (Subscriptions.addr (Subscriptions.add_info i s)).
  rewrite update_middle by done.
  destruct (Subscriptions.infos s) as [|x l] eqn:El; cbn [negb fst snd].
  - split; [done|]. unfold watched. cbn [Subscriptions.DeleteSubscriptionFromList Subscriptions.free Subscriptions.unsubscribe
      Subscriptions.with_slist Subscriptions.slist].
    rewrite map_app in Hn. cbn [map] in Hn. apply NoDup_app in Hn as (_ & H1 & Hn). apply NoDup_cons in Hn as [H2 _].
    assert (Hskip : forall l, Subscriptions.addr s ∉ map Subscriptions.addr l ->
      List.filter (fun x => negb (Nat.eqb (Subscriptions.addr x) (Subscriptions.addr s))) l = l).
    { intros k. induction k as [|y k IH]; intros H; [done|]. cbn [map List.filter] in *. apply not_elem_of_cons in H as [H Hk].
      by rewrite (proj2 (Nat.eqb_neq _ _)), IH by congruence. }
    rewrite List.filter_app. cbn [List.filter Subscriptions.with_infos Subscriptions.add_info Subscriptions.addr].
    rewrite Nat.eqb_refl. cbn [negb app]. rewrite !Hskip; [done|done|]. intros H. apply (H1 _ H). by left.
  - split; [done|]. unfold watched. cbn [Subscriptions.with_slist Subscriptions.slist]. rewrite !map_app. cbn. by rewrite El.
Qed.

Lemma add_delete path w :
  Subscriptions.inv w -> object_of path <> "."%string -> fresh_id (id_of path) w ->
  let r := Subscriptions.AddSubscription object_of param_of hash all_ok path EVENT_DM_FILTER_OBJECT_CHANGED ACS_HANDLER w in
  let d := Subscriptions.DeleteSubscription true (id_of path) r.1 in
  r.2 = 0 /\ d.2 = 0 /\ watched d.1 = watched w.
Proof.
  intros Hinv Hr Hf. pose proof (fresh_no_id _ _ Hf) as Hid. cbv zeta.
  set (i := Subscriptions.new_info param_of hash path EVENT_DM_FILTER_OBJECT_CHANGED).
  change (id_of path) with (Subscriptions.uniqueID i) in *.
  unfold Subscriptions.AddSubscription. rewrite (proj2 (streq_false _ _) Hr). cbn [all_ok Subscriptions.info_ok negb]. fold i.
  destruct (Subscriptions.FindSubscription _ _) as [s|] eqn:E; cbn [Subscriptions.sub_ok Subscriptions.subscribe_ok negb fst snd].
  - apply Subscriptions.find_some_elem in E as [Hin _]. apply list_elem_of_split in Hin as (l1 & l2 & El).
    pose proof (Subscriptions.inv_addrs _ Hinv) as Hn. unfold fresh_id in Hf. rewrite El in *. rewrite update_middle by done.
    destruct (delete_middle_entry l1 s l2 i (Subscriptions.with_slist (l1 ++ Subscriptions.add_info i s :: l2) w)) as [H1 H2].
    + done.
    + cbn [Subscriptions.with_slist Subscriptions.slist]. rewrite !map_app in *. exact Hn.
    + apply Forall_app in Hid as [Hid1 Hid2]. apply Forall_cons in Hid2 as [Hid2 _]. apply Forall_app. split; [done|]. by apply Forall_singleton.
    + split; [done|]. split; [done|]. rewrite H2. unfold watched. rewrite El. apply Forall_app in Hf as [_ Hf].
      apply Forall_cons in Hf as [[Hf _] _]. by destruct (Subscriptions.infos s).
  - pose proof (Subscriptions.inv_append i (object_of path) ACS_HANDLER w Hinv E) as Hinv'. cbv zeta in Hinv'.
    set (s := {| Subscriptions.addr := Subscriptions.next w; Subscriptions.objectpath := object_of path;
                 Subscriptions.cb := ACS_HANDLER; Subscriptions.infos := [] |}) in *.
    match goal with |- context [Subscriptions.DeleteSubscription true _ ?w1] =>
      destruct (delete_middle_entry (Subscriptions.slist w) s [] i w1) as [H1 H2] end.
    + done.
    + apply Hinv'.
    + apply Forall_app. split; [done|]. apply Forall_singleton. by constructor.
    + split; [done|]. split; [done|]. etransitivity; [exact H2|]. cbn. by rewrite app_nil_r.
Qed.

(** An active notification of a parameter that is added and removed leaves no
    trace: both requests succeed, the instances and what is watched are what they
    were, whether the object was watched before or not. *)
Theorem add_remove (a : add_answers) (path : string) (w : world)
    (Hv : PathAlias.IsValidPath (Some (cs path)) = true /\ is_subs_allowed path = true /\ plain path /\ object_of path <> "."%string)
    (Ha : get_ok a = true /\ add_ok a = true /\ sub_env a = all_ok) (Hd : forall n, del_ok n = true)
    (Hi : Subscriptions.inv (subs w)) (Hf : fresh_id (id_of path) (subs w)) (Hp : path ∉ map Path (dm w)) :
  let r1 := DM_ENG_Device_AddNotification a path ACTIVE w in
  let r2 := DM_ENG_Device_RemoveNotification true path (id_of path) r1.1 in
  r1.2 = 0 /\ r2.2 = 0 /\ map Path (dm r1.1) = map Path (dm w) ++ [path] /\
  dm r2.1 = dm w /\ watched (subs r2.1) = watched (subs w).
Proof.
  destruct Hv as (Hv & Hall & Hpl & Hr). destruct Ha as (Hg & Hadd & Hs). cbv zeta.
  destruct (add_delete path (subs w) Hi Hr Hf) as (H1 & H2 & H3).
  set (added := Subscriptions.AddSubscription _ _ _ _ _ _ _ (subs w)) in *.
  assert (Hfilter : forall l, path ∉ map Path l -> List.filter (fun x => negb (matches path x)) l = l).
  { induction l as [|x l IH]; intros Hl; [done|]. cbn [map List.filter] in *. apply not_elem_of_cons in Hl as [Hx Hl].
    rewrite matches_path, (proj2 (streq_false (Path x) path)) by (done || congruence). cbn [negb]. by rewrite IH. }
  assert (Hnone : forall s, find_subscription_by_path true path (with_subs s w) = None).
  { intros s. cbn. clear - Hp Hpl Laws. induction (dm w) as [|x l IH]; [done|]. cbn [map List.find] in *.
    apply not_elem_of_cons in Hp as [Hx Hl].
    rewrite matches_path, (proj2 (streq_false (Path x) path)) by (done || congruence). by apply IH. }
  assert (E : DM_ENG_Device_AddNotification a path ACTIVE w = (add_subscription_to_dm a path ACTIVE (with_subs added.1 w), 0)).
  { unfold DM_ENG_Device_AddNotification, DM_ENG_Device_ACSConnectionAddSubscription. rewrite Hv, Hall, Hs, Hg.
    cbn [watches is_forced negb]. fold added. cbv zeta. rewrite H1. cbn [Z.eqb negb]. by rewrite Hnone. }
  rewrite E. cbn [fst snd]. unfold add_subscription_to_dm. rewrite Hadd. split; [done|].
  unfold DM_ENG_Device_RemoveNotification, DM_ENG_Device_ACSConnectionRemoveSubscription, remove_subscription_from_dm.
  cbn [with_subs with_dm called dm subs calls fst snd]. rewrite Hd. cbn [with_subs with_dm called dm subs calls fst snd].
  rewrite H2. split; [done|]. split; [by rewrite map_app|]. split; [|exact H3].
  rewrite List.filter_app, Hfilter by done. cbn [List.filter]. rewrite matches_path by done. cbn [Path].
  by rewrite streq_refl, app_nil_r.
Qed.

End Facts.
End ACSConnectionFacts.
