(* ===== verification/ACSConnectionExamples.v ===== *)
(** * ACSConnectionExamples: the theorems on notifications at work

    A library with the laws: paths end at the last dot, the hash is an injective
    encoding, the engine knows one parameter, everything is allowed and accepted. *)

From Stdlib Require Import ZArith Lia Ascii.
From stdpp Require Import base list strings countable.
From S2P Require Import Prelude CString PathAlias Subscriptions ACSConnection ACSConnectionFacts.

Module ACSConnectionExamples.
Import CString ACSConnection ACSConnectionFacts.

Definition LOCAL_TIME_ZONE : string := "Device.Time.LocalTimeZone".

(** The text after the last dot, and what is before it *)
Definition last_piece (p : string) : cstr := List.last (strtok "." (cs p) []) [].

Definition text (l : cstr) : string := String.string_of_list_ascii l.

Definition the_hash (s : string) : Z := Z.pos (encode s).

#[local] Instance the_library : acs_library := {
  object_of p := text (take (length (cs p) - length (last_piece p)) (cs p));
  param_of p := text (last_piece p);
  hash := the_hash;
  mode_string m := match m with OFF => "Off" | PASSIVE => "Passive" | ACTIVE => "Active" | FORCED => "Forced" end%string;
  matches p x := streq (Path x) p;
  cache_path id := if id =? the_hash (String.append LOCAL_TIME_ZONE EVENT_DM_FILTER_OBJECT_CHANGED) then Some LOCAL_TIME_ZONE else None;
  mode_of _ := Some ACTIVE;
  was_cached _ _ _ := false;
  get_values _ p := Some [p];
  set_status _ := 0;
  del_ok _ := true;
  filter_notif l := l;
  is_subs_allowed _ := true;
}.

#[local] Instance the_laws : AcsLaws the_library.
Proof. by constructor. Qed.

Definition answering : add_answers := {| get_ok := true; param_value := Some "CET"%string; add_ok := true; sub_env := all_ok |}.

Definition empty : world := {| subs := Subscriptions.initial; dm := []; informs := []; calls := 0 |}.

Definition watching : world := (DM_ENG_Device_AddNotification answering LOCAL_TIME_ZONE ACTIVE empty).1.

Definition the_sub : Subscriptions.sub :=
  {| Subscriptions.addr := 0; Subscriptions.objectpath := "Device.Time."; Subscriptions.cb := ACS_HANDLER;
     Subscriptions.infos := [{| Subscriptions.uniqueID := id_of LOCAL_TIME_ZONE; Subscriptions.parameter := "LocalTimeZone" |}] |}.

Lemma time_zone_known : known the_sub "LocalTimeZone" LOCAL_TIME_ZONE ACTIVE.
Proof.
  constructor; [|done|done]. exists {| Subscriptions.uniqueID := id_of LOCAL_TIME_ZONE; Subscriptions.parameter := "LocalTimeZone" |}.
  split; [reflexivity|]. split; [discriminate|]. vm_compute. reflexivity.
Qed.

Lemma notification_per_parameter_witness :
  let data := [("LocalTimeZone"%string, Some "EST"%string)] in
  let w := DM_ENG_Device_ACSConnectionHandleNotification "Device.Time." data watching in
  map Value (dm w) = [Some "EST"%string] /\ informs w = [(LOCAL_TIME_ZONE, ACTIVE)] /\
  w = foldl (fun w x => notify_one (LOCAL_TIME_ZONE, ACTIVE).1 (LOCAL_TIME_ZONE, ACTIVE).2 x.2 w) watching (filter_notif data).
Proof.
  intros data w. split; [vm_compute; reflexivity|]. split; [vm_compute; reflexivity|].
  apply (notification_per_parameter the_sub "Device.Time." watching data (fun _ => (LOCAL_TIME_ZONE, ACTIVE))).
  - vm_compute. reflexivity.
  - constructor; [|constructor]. split; [apply time_zone_known|vm_compute; reflexivity].
Defined.

Lemma unsubscribed_parameter_misread_witness :
  let data := [("LocalTimeZone"%string, Some "EST"%string); ("Status"%string, Some "Error"%string)] in
  dm (DM_ENG_Device_ACSConnectionHandleNotification "Device.Time." data watching) =
    on_matching LOCAL_TIME_ZONE (set_value "Error") (dm watching) /\
  map Value (dm (DM_ENG_Device_ACSConnectionHandleNotification "Device.Time." data watching)) = [Some "Error"%string].
Proof.
  intros data. split; [|vm_compute; reflexivity].
  apply (unsubscribed_parameter_misread the_sub "Device.Time." "LocalTimeZone" "Status" LOCAL_TIME_ZONE "Error" "EST" ACTIVE []
           data watching); [vm_compute; reflexivity|reflexivity|apply time_zone_known|split; vm_compute; reflexivity|reflexivity| |reflexivity].
  intros x y E. cbn. by rewrite E.
Defined.

Lemma one_instance_per_path_witness :
  let es := [AddNotification answering LOCAL_TIME_ZONE PASSIVE; AddNotification answering LOCAL_TIME_ZONE ACTIVE] in
  NoDup (map Path (dm (run es empty))) /\ map Type_ (dm (run es empty)) = [Some "Active"%string].
Proof.
  intros es. split; [|vm_compute; reflexivity]. apply (one_instance_per_path es empty); [|constructor].
  assert (plain LOCAL_TIME_ZONE) by (apply (bool_decide_unpack _); vm_compute; reflexivity). by repeat constructor.
Defined.

Lemma add_remove_witness :
  let r1 := DM_ENG_Device_AddNotification answering LOCAL_TIME_ZONE ACTIVE empty in
  let r2 := DM_ENG_Device_RemoveNotification true LOCAL_TIME_ZONE (id_of LOCAL_TIME_ZONE) r1.1 in
  r1.2 = 0 /\ length (watched (subs r1.1)) = 1%nat /\ r2.2 = 0 /\ watched (subs r2.1) = watched (subs empty).
Proof.
  intros r1 r2. split; [vm_compute; reflexivity|]. split; [vm_compute; reflexivity|].
  destruct (add_remove answering LOCAL_TIME_ZONE empty) as (_ & H2 & _ & _ & H5).
  - split; [vm_compute; reflexivity|]. split; [reflexivity|]. split.
    + apply (bool_decide_unpack _). vm_compute. reflexivity.
    + apply streq_false. vm_compute. reflexivity.
  - split; [reflexivity|]. split; reflexivity.
  - reflexivity.
  - apply Subscriptions.subs_inv_initial.
  - constructor.
  - apply not_elem_of_nil.
  - split; [exact H2|exact H5].
Defined.

End ACSConnectionExamples.
