(* ===== verification/SystemParameters.v ===== *)
(** * SystemParameters: the parameters of the engine in the data model
    ([src/src/dmdeviceadapter/amx/adapter/DM_AmxSystemConnection.c])

    The engine keeps its configuration and state in the data model.  Two tables
    give the object and the name of the parameter for each identifier.  This
    file has the tables, the parameters that the plugin defines
    ([cwmp_plugin-definition.odl]), and what the tables have in common with
    them. *)

From Stdlib Require Import ZArith Lia Ascii.
From stdpp Require Import base list strings.
From S2P Require Import Prelude CString.

Module SystemParameters.
Import CString.

(** ** Paths *)

Definition MANAGEMENTSERVER_PATH : string := "Device.ManagementServer.".

Definition DEVICEINFO_PATH : string := "Device.DeviceInfo.".

Definition TIME_PATH : string := "Device.Time.".

Definition DIAGNOSTICS_PATH : string := "Device.IP.Diagnostics.".

(** ** The tables *)

(** The parameters of [DM_ENG_SystemParameter_t] that the tables name; [OTHER] is any
    other value. *)
Inductive DM_ENG_SystemParameter_t :=
| DM_ENG_USERNAME | DM_ENG_PASSWORD | DM_ENG_URL | DM_ENG_PERIODICINFORMINTERVAL
| DM_ENG_PERIODICINFORMTIME | DM_ENG_PERIODICINFORMENABLE | DM_ENG_PERIODICINFORMCOUNTER
| DM_ENG_INFORMFAILURECOUNT | DM_ENG_PARAMETERKEY | DM_ENG_ENABLECWMP
| DM_ENG_DEFAULTACTIVENOTIFICATIONTHROTTLE | DM_ENG_MANAGEABLEDEVICENOTIFICATIONLIMIT
| DM_ENG_INSTANCEWILDCARDSSUPPORTED | DM_ENG_CONNECTIONREQUESTUSERNAME
| DM_ENG_CONNECTIONREQUESTPASSWORD | DM_ENG_CONNECTIONREQUESTURL | DM_ENG_INTERFACE
| DM_ENG_MAXDOWNLOADDELAY | DM_ENG_MAXUPLOADDELAY | DM_ENG_BOOTPERSISTENTSCHEDULEINFORM
| DM_ENG_MAXDOWNLOADS | DM_ENG_MAXDOWNLOADSERRORCODE | DM_ENG_INSTANCEMODE
| DM_ENG_AUTOCREATEINSTANCES | DM_ENG_VERIFYPARAMETERTYPE | DM_ENG_ACCEPTUNSIGNEDINTASBOOLEAN
| DM_ENG_MANUFACTURER | DM_ENG_MANUFACTUREROUI | DM_ENG_SERIALNUMBER | DM_ENG_PRODUCTCLASS
| DM_ENG_NTPSTATUS | DM_ENG_ACSIPAFFINITY | DM_ENG_ACSADDRFAMILY
| DM_ENG_ALLOWCONNECTIONREQUESTFROMADDRESS | DM_ENG_DATAMODEL | DM_ENG_DATAMODELURL
| DM_ENG_MAXSTARTUPDELAY | DM_ENG_SSLACCEPTSELFSIGNED | DM_ENG_SSLVERIFYHOSTNAME
| DM_ENG_SSLACCEPTEXPIRED | DM_ENG_SSLVERIFYPARTIALCHAIN | DM_ENG_PERSISTENTRPCPATH
| DM_ENG_UPGRADEBOOTDELAY | DM_ENG_SESSIONTIMEOUT | DM_ENG_VERIFYSUPPORTEDACSMETHODS
| DM_ENG_INHIBIT_VALUE_CHANGE_UPON_BOOT | DM_ENG_ACSEVENTS | DM_ENG_DELIVEREDEVENTS
| DM_ENG_BLOCKEDEVENTS | DM_ENG_ALLOWMULTIPLESCHEDULEINFORM | DM_ENG_HEARTBEATENABLE
| DM_ENG_HEARTBEATINITIATIONTIME | DM_ENG_HEARTBEATREPORTINGINTERVAL
| DM_ENG_CONNECTIONREQUESTHOST | DM_ENG_CONNECTIONREQUESTPORT | DM_ENG_CONNECTIONREQUESTPATH
| DM_ENG_CONNECTIONREQUESTPATHTYPE | DM_ENG_FREQCONNECTIONREQUEST | DM_ENG_LOCALIPADDRESS
| DM_ENG_MAXCONNECTIONREQUEST | DM_ENG_REBOOTBYACS | DM_ENG_LASTSESSION | DM_ENG_BOOTSTRAPSENT
| DM_ENG_FACTORYRESETOCCURRED | DM_ENG_SESSIONSTATUS | DM_ENG_REBOOTCOMMANDKEY | DM_ENG_ACSIPTTL
| DM_ENG_ACSIP | DM_ENG_ACSIPLIST | DM_ENG_GETPARAMETERVALUEREQUESTS | DM_ENG_SESSIONSSINCEBOOT
| DM_ENG_SMM_MAPPING | DM_ENG_ALIASBASEDADDRESSING
| OTHER (n : Z).

(** [DM_ENG_Device_ConvertToObjectName] *)
Definition DM_ENG_Device_ConvertToObjectName (parameter : DM_ENG_SystemParameter_t) : option string :=
  match parameter with
  | DM_ENG_USERNAME | DM_ENG_PASSWORD | DM_ENG_URL | DM_ENG_PERIODICINFORMINTERVAL
  | DM_ENG_PERIODICINFORMTIME | DM_ENG_PERIODICINFORMENABLE | DM_ENG_PERIODICINFORMCOUNTER
  | DM_ENG_INFORMFAILURECOUNT | DM_ENG_PARAMETERKEY | DM_ENG_ENABLECWMP
  | DM_ENG_DEFAULTACTIVENOTIFICATIONTHROTTLE | DM_ENG_MANAGEABLEDEVICENOTIFICATIONLIMIT
  | DM_ENG_INSTANCEWILDCARDSSUPPORTED | DM_ENG_CONNECTIONREQUESTUSERNAME
  | DM_ENG_CONNECTIONREQUESTPASSWORD | DM_ENG_CONNECTIONREQUESTURL | DM_ENG_INTERFACE
  | DM_ENG_MAXDOWNLOADDELAY | DM_ENG_MAXUPLOADDELAY | DM_ENG_BOOTPERSISTENTSCHEDULEINFORM
  | DM_ENG_MAXDOWNLOADS | DM_ENG_MAXDOWNLOADSERRORCODE | DM_ENG_INSTANCEMODE
  | DM_ENG_AUTOCREATEINSTANCES | DM_ENG_VERIFYPARAMETERTYPE | DM_ENG_ACCEPTUNSIGNEDINTASBOOLEAN
      => Some "Device.ManagementServer."
  | DM_ENG_MANUFACTURER | DM_ENG_MANUFACTUREROUI | DM_ENG_SERIALNUMBER | DM_ENG_PRODUCTCLASS
      => Some "Device.DeviceInfo."
  | DM_ENG_NTPSTATUS
      => Some TIME_PATH
  | DM_ENG_ACSIPAFFINITY | DM_ENG_ACSADDRFAMILY | DM_ENG_ALLOWCONNECTIONREQUESTFROMADDRESS
  | DM_ENG_DATAMODEL | DM_ENG_DATAMODELURL | DM_ENG_MAXSTARTUPDELAY | DM_ENG_SSLACCEPTSELFSIGNED
  | DM_ENG_SSLVERIFYHOSTNAME | DM_ENG_SSLACCEPTEXPIRED | DM_ENG_SSLVERIFYPARTIALCHAIN
  | DM_ENG_PERSISTENTRPCPATH | DM_ENG_UPGRADEBOOTDELAY | DM_ENG_SESSIONTIMEOUT
  | DM_ENG_VERIFYSUPPORTEDACSMETHODS | DM_ENG_INHIBIT_VALUE_CHANGE_UPON_BOOT | DM_ENG_ACSEVENTS
  | DM_ENG_DELIVEREDEVENTS | DM_ENG_BLOCKEDEVENTS | DM_ENG_ALLOWMULTIPLESCHEDULEINFORM
      => Some "Device.ManagementServer.InternalSettings."
  | DM_ENG_HEARTBEATENABLE | DM_ENG_HEARTBEATINITIATIONTIME | DM_ENG_HEARTBEATREPORTINGINTERVAL
      => Some "Device.ManagementServer.HeartbeatPolicy."
  | DM_ENG_CONNECTIONREQUESTHOST | DM_ENG_CONNECTIONREQUESTPORT | DM_ENG_CONNECTIONREQUESTPATH
  | DM_ENG_CONNECTIONREQUESTPATHTYPE | DM_ENG_FREQCONNECTIONREQUEST | DM_ENG_LOCALIPADDRESS
  | DM_ENG_MAXCONNECTIONREQUEST
      => Some "Device.ManagementServer.ConnRequest."
  | DM_ENG_REBOOTBYACS | DM_ENG_LASTSESSION | DM_ENG_BOOTSTRAPSENT | DM_ENG_FACTORYRESETOCCURRED
  | DM_ENG_SESSIONSTATUS | DM_ENG_REBOOTCOMMANDKEY | DM_ENG_ACSIPTTL | DM_ENG_ACSIP
  | DM_ENG_ACSIPLIST
      => Some "Device.ManagementServer.State."
  | DM_ENG_GETPARAMETERVALUEREQUESTS | DM_ENG_SESSIONSSINCEBOOT
      => Some "Device.ManagementServer.Stats."
  | DM_ENG_SMM_MAPPING
      => Some "Device.ManagementServer.SMM."
  | _ => None
  end%string.

(** [DM_ENG_Device_ConvertToParameterName] *)
Definition DM_ENG_Device_ConvertToParameterName (parameter : DM_ENG_SystemParameter_t) : option string :=
  match parameter with
  | DM_ENG_USERNAME => Some "Username"
  | DM_ENG_PASSWORD => Some "Password"
  | DM_ENG_URL => Some "URL"
  | DM_ENG_ACSIPAFFINITY => Some "ACSIPAffinity"
  | DM_ENG_ACSIPTTL => Some "ACSIPTTL"
  | DM_ENG_ACSADDRFAMILY => Some "ACSAddrFamily"
  | DM_ENG_PERIODICINFORMINTERVAL => Some "PeriodicInformInterval"
  | DM_ENG_PERIODICINFORMTIME => Some "PeriodicInformTime"
  | DM_ENG_PERIODICINFORMENABLE => Some "PeriodicInformEnable"
  | DM_ENG_PERIODICINFORMCOUNTER => Some "PeriodicInformCounter"
  | DM_ENG_PARAMETERKEY => Some "ParameterKey"
  | DM_ENG_ENABLECWMP => Some "EnableCWMP"
  | DM_ENG_DEFAULTACTIVENOTIFICATIONTHROTTLE => Some "DefaultActiveNotificationThrottle"
  | DM_ENG_INSTANCEWILDCARDSSUPPORTED => Some "InstanceWildcardsSupported"
  | DM_ENG_CONNECTIONREQUESTUSERNAME => Some "ConnectionRequestUsername"
  | DM_ENG_CONNECTIONREQUESTURL => Some "ConnectionRequestURL"
  | DM_ENG_CONNECTIONREQUESTPASSWORD => Some "ConnectionRequestPassword"
  | DM_ENG_HEARTBEATENABLE => Some "Enable"
  | DM_ENG_HEARTBEATINITIATIONTIME => Some "InitiationTime"
  | DM_ENG_HEARTBEATREPORTINGINTERVAL => Some "ReportingInterval"
  | DM_ENG_CONNECTIONREQUESTHOST => Some "ConnRequestHost"
  | DM_ENG_CONNECTIONREQUESTPORT => Some "ConnRequestPort"
  | DM_ENG_CONNECTIONREQUESTPATH => Some "ConnRequestPath"
  | DM_ENG_CONNECTIONREQUESTPATHTYPE => Some "ConnRequestPathType"
  | DM_ENG_MAXCONNECTIONREQUEST => Some "MaxConnectionRequest"
  | DM_ENG_FREQCONNECTIONREQUEST => Some "FreqConnectionRequest"
  | DM_ENG_SESSIONTIMEOUT => Some "SessionTimeout"
  | DM_ENG_MANUFACTURER => Some "Manufacturer"
  | DM_ENG_MANUFACTUREROUI => Some "ManufacturerOUI"
  | DM_ENG_SERIALNUMBER => Some "SerialNumber"
  | DM_ENG_PRODUCTCLASS => Some "ProductClass"
  | DM_ENG_MAXSTARTUPDELAY => Some "MaxStartupDelay"
  | DM_ENG_REBOOTCOMMANDKEY => Some "RebootCommandKey"
  | DM_ENG_BOOTSTRAPSENT | DM_ENG_FACTORYRESETOCCURRED => Some "BootstrapSent"
  | DM_ENG_REBOOTBYACS => Some "RebootByACS"
  | DM_ENG_SESSIONSTATUS => Some "SessionStatus"
  | DM_ENG_SESSIONSSINCEBOOT => Some "SessionsSinceReboot"
  | DM_ENG_INFORMFAILURECOUNT => Some "InformFailureCount"
  | DM_ENG_LASTSESSION => Some "LastSession"
  | DM_ENG_SSLACCEPTSELFSIGNED => Some "SSLAcceptSelfSigned"
  | DM_ENG_SSLVERIFYHOSTNAME => Some "SSLVerifyHostname"
  | DM_ENG_SSLACCEPTEXPIRED => Some "SSLAcceptExpired"
  | DM_ENG_SSLVERIFYPARTIALCHAIN => Some "SSLVerifyPartialChain"
  | DM_ENG_INTERFACE => Some "Interface"
  | DM_ENG_VERIFYSUPPORTEDACSMETHODS => Some "VerifySupportedACSMethods"
  | DM_ENG_MAXDOWNLOADDELAY => Some "MaxDownloadDelay"
  | DM_ENG_MAXUPLOADDELAY => Some "MaxUploadDelay"
  | DM_ENG_BOOTPERSISTENTSCHEDULEINFORM => Some "BootPersistentScheduleInform"
  | DM_ENG_ACSIP => Some "ACSIP"
  | DM_ENG_ACSIPLIST => Some "ACSIPList"
  | DM_ENG_ALLOWCONNECTIONREQUESTFROMADDRESS => Some "AllowConnectionRequestFromAddress"
  | DM_ENG_GETPARAMETERVALUEREQUESTS => Some "GetParameterValuesRequests"
  | DM_ENG_MAXDOWNLOADS => Some "MaxDownloads"
  | DM_ENG_UPGRADEBOOTDELAY => Some "UpgradeBootDelay"
  | DM_ENG_ACSEVENTS => Some "ACSEvents"
  | DM_ENG_DELIVEREDEVENTS => Some "DeliveredEvents"
  | DM_ENG_BLOCKEDEVENTS => Some "BlockedEvents"
  | DM_ENG_MAXDOWNLOADSERRORCODE => Some "MaxDownloadsErrorCode"
  | DM_ENG_NTPSTATUS => Some "Status"
  | DM_ENG_DATAMODEL => Some "Datamodel"
  | DM_ENG_DATAMODELURL => Some "DatamodelURL"
  | DM_ENG_PERSISTENTRPCPATH => Some "PersistentRPCPath"
  | DM_ENG_ALIASBASEDADDRESSING => Some "AliasBasedAddressing"
  | DM_ENG_INSTANCEMODE => Some "InstanceMode"
  | DM_ENG_AUTOCREATEINSTANCES => Some "AutoCreateInstances"
  | DM_ENG_LOCALIPADDRESS => Some "LocalIPAddress"
  | DM_ENG_INHIBIT_VALUE_CHANGE_UPON_BOOT => Some "InhibitValueChangeUponBoot"
  | DM_ENG_ALLOWMULTIPLESCHEDULEINFORM => Some "AllowMultipleScheduleInform"
  | DM_ENG_VERIFYPARAMETERTYPE => Some "VerifyParameterType"
  | DM_ENG_ACCEPTUNSIGNEDINTASBOOLEAN => Some "AcceptUnsignedIntAsBoolean"
  | DM_ENG_SMM_MAPPING => Some "Mapping"
  | _ => None
  end%string.

(** The object and the name, as the callers use them *)
Definition slot (p : DM_ENG_SystemParameter_t) : option (string * string) :=
  match DM_ENG_Device_ConvertToObjectName p, DM_ENG_Device_ConvertToParameterName p with
  | Some o, Some n => Some (o, n)
  | _, _ => None
  end.

Definition slot_path (p : DM_ENG_SystemParameter_t) : option string :=
  (fun x => String.append x.1 x.2) <$> slot p.

(** ** The plugin's side *)

(** Parameters of the objects of [cwmp_plugin-definition.odl], which the bus also
    offers below [Device.]; the two whose names have the vendor's prefix are left
    out. *)

(** [ManagementServer] *)
Definition odl_management_server : list string :=
  ["EnableCWMP"; "URL"; "Username"; "Password"; "PeriodicInformEnable"; "PeriodicInformInterval";
   "PeriodicInformTime"; "PeriodicInformCounter"; "InstanceWildcardsSupported"; "ParameterKey";
   "Interface"; "ConnectionRequestURL"; "ConnectionRequestUsername"; "ConnectionRequestPassword";
   "UpgradesManaged"; "DefaultActiveNotificationThrottle"; "VerifyParameterType";
   "AcceptUnsignedIntAsBoolean"; "AliasBasedAddressing"; "InstanceMode"; "AutoCreateInstances";
   "ManageableDeviceNotificationLimit"]%string.

(** [ManagementServer.HeartbeatPolicy] *)
Definition odl_heartbeat_policy : list string :=
  ["Enable"; "ReportingInterval"; "InitiationTime"]%string.

(** [ManagementServer.ConnRequest] *)
Definition odl_conn_request : list string :=
  ["ConnRequestHost"; "LocalIPAddress"; "ConnRequestPort"; "ConnRequestPath"; "ConnRequestPathType";
   "UpdateConnRequestURL"; "UpdateConnRequestHost"]%string.

(** [ManagementServer.InternalSettings] *)
Definition odl_internal_settings : list string :=
  ["Datamodel"; "ACSIPAffinity"; "ACSAddrFamily"; "MaxStartupDelay"; "SessionTimeout";
   "SSLAcceptSelfSigned"; "SSLVerifyHostname"; "SSLAcceptExpired"; "SSLVerifyPartialChain";
   "UpgradeBootDelay"; "VerifySupportedACSMethods"; "AllowConnectionRequestFromAddress";
   "AllowMultipleScheduleInform"; "IPv6WaitTime"; "PreferredIPVersion"; "DeliveredEvents"; "ACSEvents";
   "BlockedEvents"; "InhibitValueChangeUponBoot"]%string.

(** [ManagementServer.State] *)
Definition odl_state : list string :=
  ["BootstrapSent"; "LastSession"; "RebootByACS"; "RebootCommandKey"; "SessionStatus"; "ACSIP";
   "ACSIPList"; "ACSIPTTL"]%string.

(** [ManagementServer.Stats] *)
Definition odl_stats : list string :=
  ["GetParameterValuesRequests"; "SessionsSinceReboot"; "InformFailureCount"]%string.

(** [ManagementServer.SMM] *)
Definition odl_smm : list string :=
  ["Mapping"]%string.

Definition odl_parameters : list (string * string) :=
  map (pair MANAGEMENTSERVER_PATH) odl_management_server ++
  map (pair "Device.ManagementServer.HeartbeatPolicy."%string) odl_heartbeat_policy ++
  map (pair "Device.ManagementServer.ConnRequest."%string) odl_conn_request ++
  map (pair "Device.ManagementServer.InternalSettings."%string) odl_internal_settings ++
  map (pair "Device.ManagementServer.State."%string) odl_state ++
  map (pair "Device.ManagementServer.Stats."%string) odl_stats ++
  map (pair "Device.ManagementServer.SMM."%string) odl_smm.

(** The identifier belongs to another component of the data model. *)
Definition is_foreign (p : DM_ENG_SystemParameter_t) : bool :=
  match p with
  | DM_ENG_MANUFACTURER | DM_ENG_MANUFACTUREROUI | DM_ENG_SERIALNUMBER | DM_ENG_PRODUCTCLASS | DM_ENG_NTPSTATUS => true
  | _ => false
  end.

(** Identifiers with an object and a name that the plugin does not define *)
Definition is_undefined (p : DM_ENG_SystemParameter_t) : bool :=
  match p with
  | DM_ENG_INFORMFAILURECOUNT | DM_ENG_MAXDOWNLOADDELAY | DM_ENG_MAXUPLOADDELAY | DM_ENG_BOOTPERSISTENTSCHEDULEINFORM
  | DM_ENG_MAXDOWNLOADS | DM_ENG_MAXDOWNLOADSERRORCODE | DM_ENG_DATAMODELURL | DM_ENG_PERSISTENTRPCPATH
  | DM_ENG_FREQCONNECTIONREQUEST | DM_ENG_MAXCONNECTIONREQUEST => true
  | _ => false
  end.

(** The two names of one parameter *)
Definition bootstrap_pair (p : DM_ENG_SystemParameter_t) : bool :=
  match p with DM_ENG_BOOTSTRAPSENT | DM_ENG_FACTORYRESETOCCURRED => true | _ => false end.

(** ** Facts *)

Definition named_parameters : list DM_ENG_SystemParameter_t :=
  [DM_ENG_USERNAME; DM_ENG_PASSWORD; DM_ENG_URL; DM_ENG_PERIODICINFORMINTERVAL; DM_ENG_PERIODICINFORMTIME;
   DM_ENG_PERIODICINFORMENABLE; DM_ENG_PERIODICINFORMCOUNTER; DM_ENG_INFORMFAILURECOUNT; DM_ENG_PARAMETERKEY;
   DM_ENG_ENABLECWMP; DM_ENG_DEFAULTACTIVENOTIFICATIONTHROTTLE; DM_ENG_MANAGEABLEDEVICENOTIFICATIONLIMIT;
   DM_ENG_INSTANCEWILDCARDSSUPPORTED; DM_ENG_CONNECTIONREQUESTUSERNAME; DM_ENG_CONNECTIONREQUESTPASSWORD;
   DM_ENG_CONNECTIONREQUESTURL; DM_ENG_INTERFACE; DM_ENG_MAXDOWNLOADDELAY; DM_ENG_MAXUPLOADDELAY;
   DM_ENG_BOOTPERSISTENTSCHEDULEINFORM; DM_ENG_MAXDOWNLOADS; DM_ENG_MAXDOWNLOADSERRORCODE;
   DM_ENG_INSTANCEMODE; DM_ENG_AUTOCREATEINSTANCES; DM_ENG_VERIFYPARAMETERTYPE;
   DM_ENG_ACCEPTUNSIGNEDINTASBOOLEAN; DM_ENG_MANUFACTURER; DM_ENG_MANUFACTUREROUI; DM_ENG_SERIALNUMBER;
   DM_ENG_PRODUCTCLASS; DM_ENG_NTPSTATUS; DM_ENG_ACSIPAFFINITY; DM_ENG_ACSADDRFAMILY;
   DM_ENG_ALLOWCONNECTIONREQUESTFROMADDRESS; DM_ENG_DATAMODEL; DM_ENG_DATAMODELURL; DM_ENG_MAXSTARTUPDELAY;
   DM_ENG_SSLACCEPTSELFSIGNED; DM_ENG_SSLVERIFYHOSTNAME; DM_ENG_SSLACCEPTEXPIRED;
   DM_ENG_SSLVERIFYPARTIALCHAIN; DM_ENG_PERSISTENTRPCPATH; DM_ENG_UPGRADEBOOTDELAY; DM_ENG_SESSIONTIMEOUT;
   DM_ENG_VERIFYSUPPORTEDACSMETHODS; DM_ENG_INHIBIT_VALUE_CHANGE_UPON_BOOT; DM_ENG_ACSEVENTS;
   DM_ENG_DELIVEREDEVENTS; DM_ENG_BLOCKEDEVENTS; DM_ENG_ALLOWMULTIPLESCHEDULEINFORM; DM_ENG_HEARTBEATENABLE;
   DM_ENG_HEARTBEATINITIATIONTIME; DM_ENG_HEARTBEATREPORTINGINTERVAL; DM_ENG_CONNECTIONREQUESTHOST;
   DM_ENG_CONNECTIONREQUESTPORT; DM_ENG_CONNECTIONREQUESTPATH; DM_ENG_CONNECTIONREQUESTPATHTYPE;
   DM_ENG_FREQCONNECTIONREQUEST; DM_ENG_LOCALIPADDRESS; DM_ENG_MAXCONNECTIONREQUEST; DM_ENG_REBOOTBYACS;
   DM_ENG_LASTSESSION; DM_ENG_BOOTSTRAPSENT; DM_ENG_FACTORYRESETOCCURRED; DM_ENG_SESSIONSTATUS;
   DM_ENG_REBOOTCOMMANDKEY; DM_ENG_ACSIPTTL; DM_ENG_ACSIP; DM_ENG_ACSIPLIST;
   DM_ENG_GETPARAMETERVALUEREQUESTS; DM_ENG_SESSIONSSINCEBOOT; DM_ENG_SMM_MAPPING;
   DM_ENG_ALIASBASEDADDRESSING].

Lemma named_parameter p : (exists n, p = OTHER n) \/ p ∈ named_parameters.
Proof.
  destruct p; try (left; by eexists); right; apply list_elem_of_In; cbv [In named_parameters];
    repeat (first [left; reflexivity | right]).
Qed.

(** All paths, with the two names of the bootstrap flag taken once *)
Lemma slot_paths_distinct :
  NoDup (map slot_path (List.filter (fun p => negb (bootstrap_pair p) && negb (is_null (slot p))) named_parameters)).
Proof. apply (bool_decide_unpack _). vm_compute. reflexivity. Qed.

Lemma slot_path_named p path : slot_path p = Some path -> p ∈ named_parameters /\ is_null (slot p) = false.
Proof.
  unfold slot_path. destruct (slot p) as [x|] eqn:E; [|done]. intros _. split; [|done].
  by destruct (named_parameter p) as [[n ->]|H].
Qed.

Lemma bootstrap_path_unique p q :
  bootstrap_pair p = true -> slot_path q = slot_path p -> bootstrap_pair q = true.
Proof. destruct p; try discriminate; intros _; destruct q; vm_compute; congruence. Qed.

(** The path determines the identifier, up to the two of the bootstrap flag. *)
Lemma slot_path_inj p q path :
  slot_path p = Some path -> slot_path q = Some path -> p = q \/ bootstrap_pair p && bootstrap_pair q = true.
Proof.
  intros Hp Hq. destruct (bootstrap_pair p) eqn:Bp.
  { right. rewrite (bootstrap_path_unique p q); [done..|congruence]. }
  destruct (bootstrap_pair q) eqn:Bq.
  { rewrite (bootstrap_path_unique q p) in Bp; [done..|congruence]. }
  left. destruct (slot_path_named _ _ Hp) as [Ip Np], (slot_path_named _ _ Hq) as [Iq Nq].
  apply (NoDup_map_inj slot_path _ p q slot_paths_distinct); [| |congruence];
    apply list_elem_of_In, List.filter_In; rewrite <- list_elem_of_In, ?Bp, ?Bq, ?Np, ?Nq; done.
Qed.

(** An identifier has a parameter of the data model exactly if both tables know it. *)
Lemma slot_none p :
  slot p = None <-> p = DM_ENG_MANAGEABLEDEVICENOTIFICATIONLIMIT \/ p = DM_ENG_ALIASBASEDADDRESSING \/ exists n, p = OTHER n.
Proof.
  split.
  - destruct p; try discriminate; intros _; eauto.
  - by intros [->|[->|[n ->]]].
Qed.

(** Every identifier that belongs to the plugin and that both tables know
    denotes a parameter that the plugin defines, except for ten
    ([is_undefined]), which are looked for in the wrong object or are in no object
    at all; and an identifier is missing in one of the tables only for
    ManageableDeviceNotificationLimit and AliasBasedAddressing, which the plugin
    does define. *)
Theorem parameters_defined_by_plugin (p : DM_ENG_SystemParameter_t) :
  match slot p with
  | Some x => is_foreign p = false -> (x ∈ odl_parameters <-> is_undefined p = false)
  | None =>
      p = DM_ENG_MANAGEABLEDEVICENOTIFICATIONLIMIT \/ p = DM_ENG_ALIASBASEDADDRESSING \/ exists n, p = OTHER n
  end.
Proof.
  assert (H : Forall (fun p => match slot p with
      | Some x => is_foreign p || eqb (bool_decide (x ∈ odl_parameters)) (negb (is_undefined p))
      | None => true end = true) named_parameters)
    by (apply (bool_decide_unpack _); vm_compute; reflexivity).
  destruct (slot p) as [x|] eqn:E; [|by apply slot_none]. intros Hf.
  destruct (named_parameter p) as [[n ->]|Hp]; [done|].
  rewrite Forall_forall in H. specialize (H p Hp). rewrite E, Hf in H. simpl in H.
  apply eqb_prop in H. destruct (is_undefined p); simpl in H; bool_prop; naive_solver.
Qed.

End SystemParameters.
