(* ===== verification/SystemConnection.v ===== *)
(** * SystemConnection: the connection of the adapter to the system bus
    ([src/src/dmdeviceadapter/amx/adapter/DM_AmxSystemConnection.c] and its callers
    in [DM_DeviceAdapter.c])

    The engine reads and writes its configuration through this connection, and
    hears of its changes through a handler that calls the engine back.  The
    class [system_library] has the bus with the plugins behind it, the variants of
    libamxc, and the engine's register of pending diagnostics. *)

From Stdlib Require Import ZArith Lia Ascii.
From stdpp Require Import base list strings.
From S2P Require Import Prelude CString Subscriptions SystemParameters.

Module SystemConnection.
Import CString.
Import SystemParameters.

(** The requests of diagnostics, [IPPING_DIAGNOSTIC_REQUEST] and so on *)
Inductive diagnostic := IPPING | TRACEROUTE | DOWNLOAD | UPLOAD.

#[export] Instance diagnostic_eq_dec : EqDecision diagnostic.
Proof. solve_decision. Defined.

Class system_library := {
  bus : Type;
  variant : Type;
  amxb_get : bus -> string -> Z * option (list (string * list (string * variant)));
  amxb_set : bus -> string -> string -> string -> bus * Z;
  call_updateParameterKey : bus -> string -> bus * Z;
  cstring_of : variant -> option string;
  const_cstring : variant -> option string;
  bool_of : variant -> bool;
  engine : Type;
  is_pending : diagnostic -> engine -> bool;
  set_pending : diagnostic -> engine -> engine;
  clear_pending : diagnostic -> engine -> engine;
}.

(** The calls into the engine; [DM_ENG_InformMessageScheduler_sendMessage] is
    started by a timer. *)
Inductive engine_call :=
| Heartbeat_configure
| initializePeriodicInform
| EVENT_ENG_SRV_RESTART
| EVENT_ENG_SRV_START
| EVENT_ENG_SRV_STOP
| EVENT_ENG_URL_CHANGED
| URLChanged
| sendMessage_timer
| blockedEventsChanged
| removeForcedParametersFromSession
| parameterValueChanged (name : string) (value : option string)
| time_synchronized_notification
| diagnosticsComplete.

Definition DM_ENG_INVALID_PARAMETER_NAME : Z := 9005.

(** [DM_ENG_Device_Common_AmxConnect] *)
Definition DM_ENG_Device_Common_AmxConnect (amxb_be_load amxb_connect : string -> Z) (backend uri : option string) :
    bool :=
  let backend_ptr := if str_empty backend then "/usr/bin/mods/amxb/mod-amxb-ubus.so"%string else default ""%string backend in
  let uri_ptr := if str_empty uri then "ubus:/var/run/ubus/ubus.sock"%string else default ""%string uri in
  if negb (amxb_be_load backend_ptr =? 0) then false
  else if negb (amxb_connect uri_ptr =? 0) then false
  else true.

Section Connection.

Context {L : system_library}.

(** ** Parameters *)

Definition assoc {A} (k : string) (l : list (string * A)) : option A :=
  snd <$> List.find (fun x => streq x.1 k) l.

(** [GETP_ARG (value, "0.'object'.param")] *)
Definition GETP (l : list (string * list (string * variant))) (object param : string) : option variant :=
  assoc object l ≫= assoc param.

(** [DM_ENG_Device_SystemConnectionSetParameter] *)
Definition DM_ENG_Device_SystemConnectionSetParameter (b : bus) (parameter : DM_ENG_SystemParameter_t)
    (pValue : string) : bus * bool :=
  match DM_ENG_Device_ConvertToObjectName parameter, DM_ENG_Device_ConvertToParameterName parameter with
  | Some object_name, Some param_name =>
      let r :=
        if streq param_name "ParameterKey" then call_updateParameterKey b pValue
        else amxb_set b object_name param_name pValue in
      if negb (r.2 =? 0) then (r.1, false) else (r.1, true)
  | _, _ => (b, false)
  end.

(** [DM_ENG_Device_SystemConnectionGetParameter] *)
Definition DM_ENG_Device_SystemConnectionGetParameter (b : bus) (parameter : DM_ENG_SystemParameter_t) : option string :=
  match DM_ENG_Device_ConvertToObjectName parameter, DM_ENG_Device_ConvertToParameterName parameter with
  | Some object_name, Some param_name =>
      match amxb_get b (String.append object_name param_name) with
      | (retcode, Some value) =>
          if negb (retcode =? 0) then None
          else GETP value object_name param_name ≫= cstring_of
      | (_, None) => None
      end
  | _, _ => None
  end.

(** [DM_ENG_Device_SystemConnectionExecuteFunction] *)
Definition DM_ENG_Device_SystemConnectionExecuteFunction (function : Z) : bool := true.

(** [DM_ENG_Device_SetConfigValue] *)
Definition DM_ENG_Device_SetConfigValue (b : bus) (parameter : DM_ENG_SystemParameter_t) (pValue : string) : bus * Z :=
  let r := DM_ENG_Device_SystemConnectionSetParameter b parameter pValue in
  (r.1, if r.2 then 0 else DM_ENG_INVALID_PARAMETER_NAME).

(** [DM_ENG_Device_GetConfigValue] *)
Definition DM_ENG_Device_GetConfigValue (b : bus) (parameter : DM_ENG_SystemParameter_t) : option string * Z :=
  let pResult := DM_ENG_Device_SystemConnectionGetParameter b parameter in
  (pResult, if is_null pResult then DM_ENG_INVALID_PARAMETER_NAME else 0).

(** [DM_ENG_Device_ExecuteConfigFunction] *)
Definition DM_ENG_Device_ExecuteConfigFunction (function : Z) : Z :=
  if DM_ENG_Device_SystemConnectionExecuteFunction function then 0 else DM_ENG_INVALID_PARAMETER_NAME.

(** ** Notifications *)

(** [instanceAlias] is the flag of the connection to the ACS data model. *)
Record state := { instanceAlias : bool; eng : engine; calls : list engine_call }.

Definition call (l : list engine_call) (w : state) : state :=
  {| instanceAlias := instanceAlias w; eng := eng w; calls := calls w ++ l |}.

Definition with_instanceAlias (b : bool) (w : state) : state :=
  {| instanceAlias := b; eng := eng w; calls := calls w |}.

Definition with_eng (e : engine) (w : state) : state :=
  {| instanceAlias := instanceAlias w; eng := e; calls := calls w |}.

(** The data of an event: the object, and for each changed parameter its new
    value *)
Record notification := { objpath : option string; parameters : list (string * option variant) }.

(** The engine's answers during the handler, and whether
    [DM_ENG_newParameterValueStruct] succeeds *)
Record answers := { value_of : DM_ENG_SystemParameter_t -> option string; new_ok : bool }.

(** [GETP_CHAR] of a value and [amxc_var_dyncast (cstring_t, _)] of one *)
Definition getp_char (v : option variant) : option string := v ≫= const_cstring.

Definition dyncast_cstring (v : option variant) : option string := v ≫= cstring_of.

(** [amxc_string_setf (_, "%s%s", objpath, key)] *)
Definition parameter_name (objpath : option string) (key : string) : string :=
  String.append (default "(null)"%string objpath) key.

(** The body of the loop over the parameters of [ManagementServer]; [None] is
    [strcmp] with a null pointer. *)
Definition handle_parameter (a : answers) (objpath : option string) (key : string) (to : option variant) (w : state) :
    option state :=
  if streq "PeriodicInformInterval" key then Some (call [initializePeriodicInform] w)
  else if streq "PeriodicInformTime" key || streq "PeriodicInformEnable" key then Some (call [initializePeriodicInform] w)
  else if streq "URL" key then Some (call [EVENT_ENG_SRV_RESTART; EVENT_ENG_URL_CHANGED; URLChanged] w)
  else if streq "AllowConnectionRequestFromUnknownHost" key then Some (call [EVENT_ENG_SRV_RESTART] w)
  else if streq "AllowConnectionRequestFromAddress" key then Some (call [EVENT_ENG_SRV_RESTART] w)
  else if streq "EnableCWMP" key then
    let enable_cwmp := match to with Some v => bool_of v | None => false end in
    Some (call [if enable_cwmp then EVENT_ENG_SRV_START else EVENT_ENG_SRV_STOP; sendMessage_timer] w)
  else if streq "BlockedEvents" key then Some (call [blockedEventsChanged] w)
  else if streq "InstanceMode" key then
    match dyncast_cstring to with
    | None => None
    | Some value => Some (with_instanceAlias (streq value "InstanceAlias") w)
    end
  else if streq key "ConnRequestHost" || streq key "ConnRequestPort" then
    let w := call [EVENT_ENG_SRV_RESTART; removeForcedParametersFromSession] w in
    Some (if new_ok a then call [parameterValueChanged (parameter_name objpath key) (dyncast_cstring to)] w else w)
  else Some w.

Fixpoint handle_all (a : answers) (objpath : option string) (l : list (string * option variant)) (w : state) :
    option state :=
  match l with
  | [] => Some w
  | (key, to) :: l' => handle_parameter a objpath key to w ≫= handle_all a objpath l'
  end.

Definition handle_management_server (a : answers) (data : notification) (w : state) : option state :=
  let w :=
    match objpath data with
    | Some o => if streq o "Device.ManagementServer.HeartbeatPolicy." then call [Heartbeat_configure] w else w
    | None => w
    end in
  handle_all a (objpath data) (parameters data) w.

(** [GETP_CHAR (parameters, "name.to")] *)
Definition changed_to (name : string) (data : notification) : option string :=
  assoc name (parameters data) ≫= getp_char.

Definition handle_time (a : answers) (data : notification) (w : state) : state :=
  match changed_to "Status" data with
  | Some s =>
      if streq "Synchronized" s then
        let w := call [time_synchronized_notification] w in
        match value_of a DM_ENG_PERIODICINFORMTIME with
        | Some t => if streq t "0001-01-01T00:00:00Z" then w else call [initializePeriodicInform] w
        | None => w
        end
      else w
  | None => w
  end.

Definition diagnostic_of (objpath : string) : option diagnostic :=
  if streq objpath "Device.IP.Diagnostics.IPPing." then Some IPPING
  else if streq objpath "Device.IP.Diagnostics.TraceRoute." then Some TRACEROUTE
  else if streq objpath "Device.IP.Diagnostics.DownloadDiagnostics." then Some DOWNLOAD
  else if streq objpath "Device.IP.Diagnostics.UploadDiagnostics." then Some UPLOAD
  else None.

(** The states in which a diagnostic has ended *)
Definition is_completed (s : string) : bool :=
  streq s "Complete" || streq s "Completed" || starts_with (cs "Error") (cs s).

Definition handle_diagnostics (o : string) (data : notification) (w : state) : state :=
  match diagnostic_of o with
  | None => w
  | Some d =>
      if is_pending d (eng w) then
        match changed_to "DiagnosticsState" data with
        | Some s =>
            if is_completed s then
              let w := call [diagnosticsComplete] w in with_eng (clear_pending d (eng w)) w
            else w
        | None => w
        end
      else w
  end.

(** [DM_ENG_Device_SystemConnectionHandleParameterChanged] *)
Definition DM_ENG_Device_SystemConnectionHandleParameterChanged (a : answers) (path : option string)
    (data : option notification) (w : state) : option state :=
  match path, data with
  | Some path, Some data =>
      if streq path MANAGEMENTSERVER_PATH then handle_management_server a data w
      else if streq path TIME_PATH then Some (handle_time a data w)
      else
        match objpath data with
        | Some o => Some (if streq path DIAGNOSTICS_PATH then handle_diagnostics o data w else w)
        | None => Some w
        end
  | _, _ => Some w
  end.

(** ** Start *)

(** [DM_ENG_Device_IsSoftwareReboot] *)
Definition DM_ENG_Device_IsSoftwareReboot (b : bus) (vendor_prefix : string) : bool :=
  match amxb_get b (String.append "Reboot." (String.append vendor_prefix "CurrentBootCycle")) with
  | (retcode, Some value) =>
      if retcode <? 0 then false
      else
        match head value ≫= (fun x => assoc (String.append vendor_prefix "CurrentBootCycle") x.2 ≫= const_cstring) with
        | Some reboot_reason => streq reboot_reason "Warm"
        | None => false
        end
  | (_, None) => false
  end.

(** [DM_ENG_Device_GetMaxStartupDelay] *)
Definition DM_ENG_Device_GetMaxStartupDelay (a : answers) (b : bus) (vendor_prefix : string) : Z :=
  if DM_ENG_Device_IsSoftwareReboot b vendor_prefix then 0
  else match value_of a DM_ENG_MAXSTARTUPDELAY with Some tmp => atoi tmp | None => 0 end.

(** [DM_ENG_Device_SystemConnectionSleepBeforeStarting]: the seconds that it
    sleeps; [urandom] is what was read from the device, if it could be. *)
Definition DM_ENG_Device_SystemConnectionSleepBeforeStarting (a : answers) (b : bus) (vendor_prefix : string)
    (urandom : option Z) : Z :=
  let upgradesAvailable := 0 in
  let max := DM_ENG_Device_GetMaxStartupDelay a b vendor_prefix in
  let upgradeBootDelay := match value_of a DM_ENG_UPGRADEBOOTDELAY with Some tmp => atoi tmp | None => 0 end in
  let initialDelay := if negb (upgradesAvailable =? 0) then upgradeBootDelay else 0 in
  let initialDelay := if 60 * 60 <? initialDelay then 60 * 60 else initialDelay in
  let r := match urandom with Some r => u32 r | None => 0 end in
  let max := if max =? 0 then 1 else max in
  let randomValue := r mod u32 max in
  let randomValue := if 60 * 60 <? randomValue then 60 * 60 else randomValue in
  u32 (initialDelay + randomValue).

(** The loop that waits for the device to be up: [polls] is the bus at each
    turn; the result is the number of times that it sleeps for 5 seconds. *)
Fixpoint wait_up (fuel : nat) (polls : nat -> bus) (cnt : nat) : option nat :=
  match fuel with
  | O => None
  | S fuel =>
      match amxb_get (polls cnt) (String.append DEVICEINFO_PATH "DeviceStatus") with
      | (retcode, Some value) =>
          if retcode <? 0 then Some 0%nat
          else
            let devstatus := getp_char (GETP value DEVICEINFO_PATH "DeviceStatus") in
            let cnt := S cnt in
            if Nat.ltb 24 cnt then Some 0%nat
            else
              match devstatus with
              | Some s => if streq s "Up" then Some 0%nat else S <$> wait_up fuel polls cnt
              | None => Some 0%nat
              end
      | (_, None) => Some 0%nat
      end
  end.

(** What happens around [SystemConnectionInitialize]: [subs_env] for each of the
    three subscriptions. *)
Record start_env := {
  be_load : string -> Z;
  connect : string -> Z;
  start_answers : answers;
  vendor_prefix : string;
  urandom : option Z;
  polls : nat -> bus;
  subs_env : string -> Subscriptions.add_env;
}.

Definition EVENT_DM_FILTER_OBJECT_CHANGED : string := "notification in ['dm:object-changed']".

(** [DM_ENG_Device_SystemConnectionHandleParameterChanged] as a handler of
    [Subscriptions] *)
Definition SYSTEM_HANDLER : nat := 2.

(** [DM_ENG_Device_Common_AddSubscription] for one path after the other, up to
    the first failure *)
Fixpoint subscribe_all (object_of param_of : string -> string) (hash : string -> Z)
    (env : string -> Subscriptions.add_env) (paths : list string) (subs : Subscriptions.state) :
    Subscriptions.state * bool :=
  match paths with
  | [] => (subs, true)
  | p :: paths' =>
      let r := Subscriptions.AddSubscription object_of param_of hash (env p) p EVENT_DM_FILTER_OBJECT_CHANGED
                 SYSTEM_HANDLER subs in
      if negb (r.2 =? 0) then (r.1, false) else subscribe_all object_of param_of hash env paths' r.1
  end.

Definition system_paths : list string := [MANAGEMENTSERVER_PATH; TIME_PATH; DIAGNOSTICS_PATH].

(** The subscriptions, the seconds that the start sleeps before the device is
    polled and while it is down, and the parameters that the engine is asked to
    set *)
Record started := {
  subs : Subscriptions.state;
  slept : Z;
  waited : Z;
  values_set : list (DM_ENG_SystemParameter_t * string);
}.

(** [DM_ENG_Device_SystemConnectionInitialize]; the result of setting the session
    status is only traced. *)
Definition DM_ENG_Device_SystemConnectionInitialize (fuel : nat) (object_of param_of : string -> string)
    (hash : string -> Z) (backend uri : option string) (env : start_env) : option (started * bool) :=
  if negb (DM_ENG_Device_Common_AmxConnect (be_load env) (connect env) backend uri) then
    Some ({| subs := Subscriptions.initial; slept := 0; waited := 0; values_set := [] |}, false)
  else
    let slept := DM_ENG_Device_SystemConnectionSleepBeforeStarting (start_answers env) (polls env 0) (vendor_prefix env)
                   (urandom env) in
    match wait_up fuel (polls env) 0 with
    | None => None
    | Some n =>
        let r := subscribe_all object_of param_of hash (subs_env env) system_paths Subscriptions.initial in
        Some ({| subs := r.1; slept := slept; waited := 5 * Z.of_nat n;
                 values_set := if r.2 then [(DM_ENG_SESSIONSTATUS, "Idle"%string)] else [] |}, r.2)
    end.

(** [DM_ENG_Device_SystemConnectionCleanup]: the subscriptions; the connection is
    freed. *)
Definition DM_ENG_Device_SystemConnectionCleanup (unsubscribe_ok : Subscriptions.sub -> bool)
    (subs : Subscriptions.state) : Subscriptions.state :=
  Subscriptions.Cleanup_Subscription unsubscribe_ok subs.

(** ** Steps *)

(** An event of the data model, and the engine that starts a diagnostic *)
Inductive event :=
| Changed (a : answers) (path : string) (data : notification)
| Requested (d : diagnostic).

Definition step (ev : event) (w : option state) : option state :=
  match ev with
  | Changed a path data => w ≫= DM_ENG_Device_SystemConnectionHandleParameterChanged a (Some path) (Some data)
  | Requested d => (fun w => with_eng (set_pending d (eng w)) w) <$> w
  end.

Definition run : list event -> option state -> option state := run_steps step.

End Connection.

End SystemConnection.
