(* ===== verification/SystemConnectionFacts.v ===== *)
(** * SystemConnectionFacts: properties of [SystemConnection] *)

From Stdlib Require Import ZArith Lia Ascii.
From stdpp Require Import base list strings.
From S2P Require Import Prelude CString Subscriptions SystemParameters SystemConnection.

Module SystemConnectionFacts.
Import CString.
Import SystemParameters.
Import SystemConnection.

(** The register of pending diagnostics is a set. *)
Class EngineLaws (L : system_library) : Prop := {
  clear_self d e : is_pending d (clear_pending d e) = false;
  clear_other d d' e : d <> d' -> is_pending d' (clear_pending d e) = is_pending d' e;
  set_self d e : is_pending d (set_pending d e) = true;
  set_others d d' e : d <> d' -> is_pending d' (set_pending d e) = is_pending d' e;
}.

(** ** Parameters *)

Section Parameters.

Context {L : system_library}.

(** A parameter of the engine is read from its place in the data model. *)
Lemma get_config_slot b p :
  DM_ENG_Device_GetConfigValue b p =
  match slot p with
  | Some (o, n) =>
      let r := match amxb_get b (String.append o n) with
               | (rc, Some l) => if rc =? 0 then GETP l o n ≫= cstring_of else None
               | (_, None) => None
               end in
      (r, if is_null r then DM_ENG_INVALID_PARAMETER_NAME else 0)
  | None => (None, DM_ENG_INVALID_PARAMETER_NAME)
  end.
Proof.
  unfold DM_ENG_Device_GetConfigValue, DM_ENG_Device_SystemConnectionGetParameter, slot.
  destruct (DM_ENG_Device_ConvertToObjectName p), (DM_ENG_Device_ConvertToParameterName p); try done.
  destruct (amxb_get b (String.append _ _)) as [rc [l|]]; [|done]. by destruct (rc =? 0).
Qed.

(** Each parameter of the engine has a place of its own: a request to set one
    reaches the place that another is read from only if they are the same or the two
    names of the bootstrap flag.  What the write does to other parameters is the
    matter of the plugin, which changes the connection request URL with its host
    and port, for instance. *)
Theorem config_places (b : bus) (p q : DM_ENG_SystemParameter_t) (v : string) :
  match slot p with
  | None => (DM_ENG_Device_SetConfigValue b p v).1 = b /\ (DM_ENG_Device_SetConfigValue b p v).2 <> 0
  | Some (o, n) =>
      let r := if streq n "ParameterKey" then call_updateParameterKey b v else amxb_set b o n v in
      (DM_ENG_Device_SetConfigValue b p v).1 = r.1 /\
      ((DM_ENG_Device_SetConfigValue b p v).2 = 0 <-> r.2 = 0) /\
      (forall o' n', slot q = Some (o', n') -> String.append o' n' = String.append o n ->
         p = q \/ bootstrap_pair p && bootstrap_pair q = true)
  end.
Proof.
  unfold DM_ENG_Device_SetConfigValue, DM_ENG_Device_SystemConnectionSetParameter.
  assert (Hs : slot p = match DM_ENG_Device_ConvertToObjectName p, DM_ENG_Device_ConvertToParameterName p with
                        | Some o, Some n => Some (o, n) | _, _ => None end) by reflexivity.
  destruct (slot p) as [[o n]|] eqn:Ep;
    destruct (DM_ENG_Device_ConvertToObjectName p) as [o1|], (DM_ENG_Device_ConvertToParameterName p) as [n1|]; try done.
  injection Hs as <- <-.
  destruct (if streq n "ParameterKey" then _ else _) as [b1 rc]. cbn [fst snd].
  split; [by destruct (rc =? 0)|]. split; [destruct (rc =? 0) eqn:Er; simpl; bool_prop; by split|].
  intros o' n' Hq E. apply (slot_path_inj p q (String.append o n)); unfold slot_path; rewrite ?Ep, ?Hq; simpl; by rewrite ?E.
Qed.

End Parameters.

(** ** Start *)

Section Start.

Context {L : system_library}.

Lemma sleep_range a b prefix r :
  let max := DM_ENG_Device_GetMaxStartupDelay a b prefix in
  let t := DM_ENG_Device_SystemConnectionSleepBeforeStarting a b prefix r in
  0 <= t <= 3600 /\ (max = 0 -> t = 0) /\ (0 < max -> t < max).
Proof.
  intros max. unfold DM_ENG_Device_SystemConnectionSleepBeforeStarting. fold max. cbv zeta.
  change (negb (0 =? 0)) with false. cbv iota. change (60 * 60 <? 0) with false. cbv iota.
  set (x := match r with Some r => u32 r | None => 0 end). rewrite Z.add_0_l.
  assert (Hx : 0 <= x) by (destruct r; [apply u32_range|done]).
  assert (Hm : 0 <= max < 2 ^ 31 \/ - 2 ^ 31 <= max < 0).
  { assert (- 2 ^ 31 <= max < 2 ^ 31); [|lia]. unfold max, DM_ENG_Device_GetMaxStartupDelay.
    destruct (DM_ENG_Device_IsSoftwareReboot b prefix); [lia|].
    destruct (value_of a DM_ENG_MAXSTARTUPDELAY); [apply atoi_range|lia]. }
  clearbody max x. set (m := if max =? 0 then 1 else max).
  assert (Hu : 0 < u32 m /\ (max = 0 -> u32 m = 1) /\ (0 < max -> u32 m = max)).
  { unfold m. destruct (max =? 0) eqn:E; bool_prop; [by rewrite E|].
    destruct Hm as [Hm|Hm]; [rewrite u32_id by lia; lia|rewrite u32_neg by lia; lia]. }
  pose proof (Z.mod_pos_bound x (u32 m)) as Hr.
  destruct (60 * 60 <? x mod u32 m) eqn:E; bool_prop; rewrite u32_id by lia; lia.
Qed.

(** The device is still down at a turn. *)
Definition down (b : bus) : bool :=
  match amxb_get b (String.append DEVICEINFO_PATH "DeviceStatus") with
  | (retcode, Some value) =>
      negb (retcode <? 0) &&
      match getp_char (GETP value DEVICEINFO_PATH "DeviceStatus") with Some s => negb (streq s "Up") | None => false end
  | (_, None) => false
  end.

Lemma wait_up_turn fuel polls cnt :
  wait_up (S fuel) polls cnt =
  if down (polls cnt) && Nat.leb (S cnt) 24 then S <$> wait_up fuel polls (S cnt) else Some 0%nat.
Proof.
  unfold down. cbn [wait_up]. destruct (amxb_get _ _) as [rc [l|]]; [|done]. destruct (rc <? 0); [done|].
  destruct (getp_char _) as [t|]; [|by case_goal]. rewrite Nat.ltb_antisym.
  by destruct (Nat.leb (S cnt) 24), (streq t "Up").
Qed.

(** The loop ends at the first turn that does not find the device down, and at
    the 25th at the latest. *)
Lemma wait_up_ends polls fuel cnt :
  (24 < cnt + fuel)%nat -> (cnt <= 24)%nat ->
  exists n, wait_up fuel polls cnt = Some n /\ (n + cnt <= 24)%nat /\
    (forall i, (cnt <= i < cnt + n)%nat -> down (polls i) = true) /\
    ((n + cnt < 24)%nat -> down (polls (n + cnt)%nat) = false).
Proof.
  revert cnt. induction fuel as [|fuel IH]; intros cnt Hf Hc; [lia|]. rewrite wait_up_turn.
  destruct (down (polls cnt)) eqn:Ed; cbn [andb].
  2: { exists 0%nat. split_and!; [done|lia|lia|by intros _]. }
  destruct (Nat.leb_spec (S cnt) 24) as [Hl|Hl].
  - destruct (IH (S cnt)) as (n & En & H1 & H2 & H3); [lia..|]. exists (S n). rewrite En.
    split_and!; [done|lia| |].
    + intros i Hi. destruct (decide (i = cnt)) as [->|]; [done|]. apply H2. lia.
    + intros Hn. replace (S n + cnt)%nat with (n + S cnt)%nat by lia. apply H3. lia.
  - exists 0%nat. split_and!; [done|lia|lia|lia].
Qed.

Context (object_of param_of : string -> string) (hash : string -> Z).

(** C27: the start always ends, whatever the bus, the device status, the random
    number and the configured delay (also a negative one, which is compared as an
    unsigned number) are: it sleeps at most an hour before it polls the device,
    not at all without a delay or after a software reboot and less than a
    positive delay, and then at most two minutes, until the first poll that does
    not find the device down. *)
Theorem startup_bounded (backend uri : option string) (env : start_env) :
  exists r ok, DM_ENG_Device_SystemConnectionInitialize 25 object_of param_of hash backend uri env = Some (r, ok) /\
  0 <= slept r <= 3600 /\
  (let max := DM_ENG_Device_GetMaxStartupDelay (start_answers env) (polls env 0) (vendor_prefix env) in
   (max = 0 -> slept r = 0) /\ (0 < max -> slept r < max)) /\
  exists n, waited r = 5 * Z.of_nat n /\ (n <= 24)%nat /\ (forall i, (i < n)%nat -> down (polls env i) = true) /\
    (ok = true -> (n < 24)%nat -> down (polls env n) = false).
Proof.
  unfold DM_ENG_Device_SystemConnectionInitialize.
  destruct (DM_ENG_Device_Common_AmxConnect _ _ _ _); cbn [negb].
  - destruct (wait_up_ends (polls env) 25 0) as (n & -> & H1 & H2 & H3); [lia..|].
    do 2 eexists. split; [done|]. cbn [slept waited].
    pose proof (sleep_range (start_answers env) (polls env 0) (vendor_prefix env) (urandom env)) as (Hs & H0 & Hp).
    split_and!; [lia|lia|done|done|]. exists n. rewrite Nat.add_0_r in *.
    split_and!; [done|lia|intros i Hi; apply H2; lia|auto].
  - do 2 eexists. split; [done|]. cbn [slept waited]. split_and!; [lia|lia|lia|lia|].
    exists 0%nat. split_and!; [done|lia|lia|done].
Qed.

Definition env_ok (e : Subscriptions.add_env) : bool :=
  Subscriptions.info_ok e && Subscriptions.sub_ok e && Subscriptions.subscribe_ok e.

(** What the subscriptions of the start keep: [paths] are watched, by the handler of
    this connection. *)
Definition watching (paths : list string) (s : Subscriptions.state) : Prop :=
  Subscriptions.inv s /\ Forall (fun x => Subscriptions.cb x = SYSTEM_HANDLER) (Subscriptions.slist s) /\
  map Subscriptions.objectpath (Subscriptions.slist s) = paths.

Lemma find_unwatched paths s p :
  watching paths s -> p ∉ paths -> Subscriptions.FindSubscription (Subscriptions.slist s) p = None.
Proof.
  intros (_ & _ & <-) Hp. destruct (Subscriptions.FindSubscription _ _) as [x|] eqn:E; [|done]. destruct Hp.
  apply Subscriptions.find_some_elem in E as [Hx E]. apply streq_true in E as <-. apply list_elem_of_fmap. eauto.
Qed.

(** One subscription of a path that is not watched *)
Lemma add_watch paths s p e :
  watching paths s -> p ∉ paths -> p <> "."%string -> object_of p = p ->
  let r := Subscriptions.AddSubscription object_of param_of hash e p EVENT_DM_FILTER_OBJECT_CHANGED SYSTEM_HANDLER s in
  (r.2 =? 0) = env_ok e /\ (env_ok e = true -> watching (paths ++ [p]) r.1).
Proof.
  intros Hw Hp Hd Ho. pose proof (find_unwatched _ _ _ Hw Hp) as Hf. cbv zeta. unfold Subscriptions.AddSubscription.
  rewrite Ho, Hf. apply streq_false in Hd as ->. unfold env_ok.
  destruct (Subscriptions.info_ok e), (Subscriptions.sub_ok e), (Subscriptions.subscribe_ok e); try done.
  split; [done|intros _]. destruct Hw as (Hi & Hc & <-). split_and!.
  - cbn. by apply (Subscriptions.inv_append _ p SYSTEM_HANDLER s).
  - apply Forall_app. split; [done|]. by repeat constructor.
  - cbn. by rewrite map_app.
Qed.

Lemma subscribe_all_watching paths done s env :
  watching done s -> NoDup (done ++ paths) -> "."%string ∉ paths -> (forall p, p ∈ paths -> object_of p = p) ->
  let r := subscribe_all object_of param_of hash env paths s in
  r.2 = forallb (fun p => env_ok (env p)) paths /\ (r.2 = true -> watching (done ++ paths) r.1).
Proof.
  revert done s. induction paths as [|p paths IH]; intros done s Hw Hn Hd Ho; cbn.
  { by rewrite app_nil_r. }
  assert (Hp : p ∉ done) by (apply NoDup_app in Hn as (_ & H & _); intros H'; destruct (H p H'); left).
  destruct (add_watch done s p (env p) Hw Hp) as [E1 E2];
    [intros ->; apply Hd; left|apply Ho; left|]. rewrite E1.
  destruct (env_ok (env p)); cbn; [|done].
  rewrite (cons_middle p done paths), app_assoc in *. apply IH; auto.
  - intros H. apply Hd. by right.
  - intros q Hq. apply Ho. by right.
Qed.

(** When the bus is connected and all allocations and registrations succeed,
    the start succeeds, and then the list of subscriptions is consistent with
    the bus and an event of each of the three objects reaches the handler of the
    system connection exactly once; when one of them fails the start fails. *)
Theorem system_events_delivered (backend uri : option string) (env : start_env) (r : started) (ok : bool)
    (Hobj : forall p, p ∈ system_paths -> object_of p = p)
    (Hr : DM_ENG_Device_SystemConnectionInitialize 25 object_of param_of hash backend uri env = Some (r, ok)) :
  ok = DM_ENG_Device_Common_AmxConnect (be_load env) (connect env) backend uri &&
       forallb (fun p => env_ok (subs_env env p)) system_paths /\
  (ok = true -> Subscriptions.inv (subs r) /\
    forall p, p ∈ system_paths -> Subscriptions.deliver p (subs r) = Some [(SYSTEM_HANDLER, p)]).
Proof.
  unfold DM_ENG_Device_SystemConnectionInitialize in Hr.
  destruct (DM_ENG_Device_Common_AmxConnect _ _ _ _); cbn [negb] in Hr; [|by injection Hr as <- <-].
  destruct (wait_up 25 (polls env) 0); [|done]. injection Hr as <- <-.
  destruct (subscribe_all_watching system_paths [] Subscriptions.initial (subs_env env)) as [H1 H2]; [..|done|].
  - split_and!; [apply Subscriptions.subs_inv_initial|done|done].
  - apply (bool_decide_unpack _). vm_compute. reflexivity.
  - apply (bool_decide_unpack _). vm_compute. reflexivity.
  - split; [done|]. cbn [subs]. intros H. destruct (H2 H) as (Hi & Hc & Hp). split; [done|].
    cbn [app] in Hp. intros p Hin. rewrite <- Hp in Hin. apply list_elem_of_fmap in Hin as (x & -> & Hx).
    etrans; [exact (Subscriptions.deliver_watched _ _ Hi Hx)|]. rewrite Forall_forall in Hc.
    by rewrite (Hc x Hx).
Qed.

End Start.

(** ** Notifications *)

Section Notifications.

Context {L : system_library}.

(** The event contains a change of the instance mode to no value. *)
Definition null_mode (data : notification) : bool :=
  existsb (fun x => streq x.1 "InstanceMode" && is_null (dyncast_cstring x.2)) (parameters data).

Definition crashes (ev : event) : bool :=
  match ev with
  | Changed _ path data => streq path MANAGEMENTSERVER_PATH && null_mode data
  | Requested _ => false
  end.

(** The instance mode after an event, from that before it *)
Definition mode_after (flag : bool) (ev : event) : bool :=
  match ev with
  | Changed _ path data =>
      if streq path MANAGEMENTSERVER_PATH then
        foldl (fun f x =>
          if streq x.1 "InstanceMode" then
            match dyncast_cstring x.2 with Some v => streq v "InstanceAlias" | None => f end
          else f) flag (parameters data)
      else flag
  | Requested _ => flag
  end.

(** The diagnostics that were reported as complete *)
Definition completions (w : state) : nat :=
  length (List.filter (fun c => match c with diagnosticsComplete => true | _ => false end) (calls w)).

Definition same_engine (w w' : state) : Prop := eng w' = eng w /\ completions w' = completions w.

Lemma same_engine_trans w1 w2 w3 : same_engine w1 w2 -> same_engine w2 w3 -> same_engine w1 w3.
Proof. intros [H1 H2] [H3 H4]. split; congruence. Qed.

Lemma completions_call l w :
  completions (call l w) =
    (completions w + length (List.filter (fun c => match c with diagnosticsComplete => true | _ => false end) l))%nat.
Proof. unfold completions. cbn [call calls]. by rewrite List.filter_app, length_app. Qed.

(** One parameter: it fails exactly for an instance mode without a value, and
    otherwise only an instance mode changes the flag and none the register. *)
Lemma handle_parameter_cases a o key to w :
  match handle_parameter a o key to w with
  | None => streq key "InstanceMode" && is_null (dyncast_cstring to) = true
  | Some w' =>
      streq key "InstanceMode" && is_null (dyncast_cstring to) = false /\
      instanceAlias w' =
        (if streq key "InstanceMode" then
           match dyncast_cstring to with Some v => streq v "InstanceAlias" | None => instanceAlias w end
         else instanceAlias w) /\
      same_engine w w'
  end.
Proof.
  unfold handle_parameter, same_engine. destruct (decide (key = "InstanceMode"%string)) as [->|Hk].
  - cbn. by destruct (dyncast_cstring to).
  - rewrite (proj2 (streq_false key _) Hk), (proj2 (streq_false _ key) (not_eq_sym Hk)). cbn [andb].
    repeat (case_goal; cbn [instanceAlias eng call]; rewrite ?completions_call; cbn; rewrite ?Nat.add_0_r; auto).
Qed.

Lemma handle_all_cases a o l w :
  match handle_all a o l w with
  | None => existsb (fun x => streq x.1 "InstanceMode" && is_null (dyncast_cstring x.2)) l = true
  | Some w' =>
      existsb (fun x => streq x.1 "InstanceMode" && is_null (dyncast_cstring x.2)) l = false /\
      instanceAlias w' = foldl (fun f x =>
        if streq x.1 "InstanceMode" then
          match dyncast_cstring x.2 with Some v => streq v "InstanceAlias" | None => f end
        else f) (instanceAlias w) l /\
      same_engine w w'
  end.
Proof.
  revert w. induction l as [|[key to] l IH]; intros w; [done|].
  cbn [handle_all existsb foldl fst snd]. pose proof (handle_parameter_cases a o key to w) as H.
  destruct (handle_parameter a o key to w) as [w1|]; cbn [mbind option_bind]; [|by rewrite H].
  destruct H as (-> & <- & He). cbn [orb]. specialize (IH w1).
  destruct (handle_all a o l w1); [|done]. naive_solver eauto using same_engine_trans.
Qed.

(** What an event does to the register *)
Definition register_step (ev : event) (w w' : state) : Prop :=
  match ev with
  | Changed _ _ _ =>
      same_engine w w' \/
      exists d, is_pending d (eng w) = true /\ eng w' = clear_pending d (eng w) /\ completions w' = S (completions w)
  | Requested d => eng w' = set_pending d (eng w) /\ completions w' = completions w
  end.

Lemma diagnostics_register o data w :
  let w' := handle_diagnostics o data w in
  instanceAlias w' = instanceAlias w /\
  (same_engine w w' \/
   exists d, is_pending d (eng w) = true /\ eng w' = clear_pending d (eng w) /\ completions w' = S (completions w)).
Proof.
  cbv zeta. unfold handle_diagnostics, same_engine. destruct (diagnostic_of o) as [d|]; [|by auto].
  destruct (is_pending d (eng w)) eqn:Ep; [|by auto]. destruct (changed_to _ _) as [s|]; [|by auto].
  destruct (is_completed s); [|by auto]. split; [done|]. right. exists d. split_and!; [done..|].
  change (completions (call [diagnosticsComplete] w) = S (completions w)). rewrite completions_call. cbn. lia.
Qed.

Lemma time_register a data w :
  instanceAlias (handle_time a data w) = instanceAlias w /\ same_engine w (handle_time a data w).
Proof.
  unfold handle_time, same_engine.
  repeat (case_goal; cbn [instanceAlias eng call]; rewrite ?completions_call; cbn; rewrite ?Nat.add_0_r; auto).
Qed.

Lemma step_cases ev w :
  match step ev (Some w) with
  | None => crashes ev = true
  | Some w' => crashes ev = false /\ instanceAlias w' = mode_after (instanceAlias w) ev /\ register_step ev w w'
  end.
Proof.
  destruct ev as [a path data|d]; cbn; [|done].
  destruct (streq path MANAGEMENTSERVER_PATH) eqn:E1; cbn.
  - unfold handle_management_server.
    match goal with |- context [handle_all _ _ _ ?x] => set (w1 := x) end.
    assert (H1 : instanceAlias w1 = instanceAlias w /\ same_engine w w1).
    { unfold w1, same_engine. repeat (case_goal; cbn [instanceAlias eng call]; rewrite ?completions_call; cbn; rewrite ?Nat.add_0_r; auto). }
    clearbody w1. destruct H1 as [<- H1]. pose proof (handle_all_cases a (objpath data) (parameters data) w1) as H.
    destruct (handle_all _ _ _ w1); [|done]. naive_solver eauto using same_engine_trans.
  - destruct (streq path TIME_PATH).
    { destruct (time_register a data w) as [E H]. auto. }
    destruct (objpath data) as [o|]; [|by split_and!; [..|left]].
    destruct (streq path DIAGNOSTICS_PATH); [|by split_and!; [..|left]].
    split; [done|]. apply diagnostics_register.
Qed.

Lemma run_none es : run es None = None.
Proof. induction es as [|[] es IH]; [done|exact IH..]. Qed.

(** The handler compares a null pointer exactly if an event of
    ManagementServer changes InstanceMode to something that has no text; all
    other events, in any number and order and with whatever they contain, are
    handled. *)
Theorem system_handler_undefined_iff (es : list event) (w : state) :
  run es (Some w) = None <-> Exists (fun ev => crashes ev = true) es.
Proof.
  revert w. induction es as [|ev es IH]; intros w; [by rewrite Exists_nil|].
  rewrite Exists_cons. change (run (ev :: es) (Some w)) with (run es (step ev (Some w))).
  pose proof (step_cases ev w) as H. destruct (step ev (Some w)) as [w'|].
  - rewrite IH. destruct H as (-> & _). naive_solver.
  - rewrite run_none. tauto.
Qed.

(** After any run the instance mode that the adapter uses is that of the last
    change of InstanceMode, and the one it had if there was none. *)
Theorem instance_mode_follows (es : list event) (w w' : state) (H : run es (Some w) = Some w') :
  instanceAlias w' = foldl mode_after (instanceAlias w) es.
Proof.
  revert w H. induction es as [|ev es IH]; intros w H; [by injection H as ->|].
  change (run (ev :: es) (Some w)) with (run es (step ev (Some w))) in H.
  pose proof (step_cases ev w) as Hs. destruct (step ev (Some w)) as [w1|]; [|by rewrite run_none in H].
  destruct Hs as (_ & E & _). cbn. rewrite <- E. by apply IH.
Qed.

Context {LE : EngineLaws L}.

Definition diagnostics : list diagnostic := [IPPING; TRACEROUTE; DOWNLOAD; UPLOAD].

Definition count_pending (e : engine) : nat := length (List.filter (fun d => is_pending d e) diagnostics).

Definition requests (es : list event) : nat :=
  length (List.filter (fun ev => match ev with Requested _ => true | _ => false end) es).

Lemma count_clear d e : is_pending d e = true -> S (count_pending (clear_pending d e)) = count_pending e.
Proof.
  intros H. unfold count_pending, diagnostics. cbn.
  destruct d; rewrite clear_self, !clear_other, H by done; by repeat case_goal.
Qed.

Lemma count_set d e : (count_pending (set_pending d e) <= S (count_pending e))%nat.
Proof.
  unfold count_pending, diagnostics. cbn.
  destruct d; rewrite set_self, !set_others by done;
    destruct (is_pending IPPING e), (is_pending TRACEROUTE e), (is_pending DOWNLOAD e), (is_pending UPLOAD e); cbn; lia.
Qed.

(** C28: every completion that is announced to the ACS answers a request of its
    own: in any run there are at most as many as were pending at the start and
    requested since, less those that are still pending, however often and in
    whatever order the diagnostics announce their end. *)
Theorem completions_answer_requests (es : list event) (w w' : state) (H : run es (Some w) = Some w') :
  (completions w' + count_pending (eng w') <= completions w + count_pending (eng w) + requests es)%nat.
Proof.
  revert w H. induction es as [|ev es IH]; intros w H; [injection H as ->; cbn; lia|].
  change (run (ev :: es) (Some w)) with (run es (step ev (Some w))) in H.
  pose proof (step_cases ev w) as Hs. destruct (step ev (Some w)) as [w1|]; [|by rewrite run_none in H].
  destruct Hs as (_ & _ & Hr). specialize (IH w1 H). unfold requests in *. destruct ev as [a path data|d]; cbn [register_step List.filter length] in *.
  - destruct Hr as [[E1 E2]|(d & Hd & E1 & E2)]; [rewrite E1, E2 in IH; lia|].
    rewrite E1, E2 in IH. pose proof (count_clear d (eng w) Hd). lia.
  - destruct Hr as [E1 E2]. rewrite E1, E2 in IH. pose proof (count_set d (eng w)). lia.
Qed.

(** The end of a pending diagnostic is announced and the request is no longer
    pending. *)
Theorem completion_announced (a : answers) (d : diagnostic) (o : string) (data : notification) (s : string) (w : state)
    (Ho : objpath data = Some o) (Hd : diagnostic_of o = Some d) (Hp : is_pending d (eng w) = true)
    (Hs : changed_to "DiagnosticsState" data = Some s) (Hc : is_completed s = true) :
  exists w', DM_ENG_Device_SystemConnectionHandleParameterChanged a (Some DIAGNOSTICS_PATH) (Some data) w = Some w' /\
    calls w' = calls w ++ [diagnosticsComplete] /\ is_pending d (eng w') = false.
Proof.
  unfold DM_ENG_Device_SystemConnectionHandleParameterChanged. cbn. rewrite Ho. eexists. split; [done|].
  unfold handle_diagnostics. rewrite Hd, Hp, Hs, Hc. cbn. split; [done|]. apply clear_self.
Qed.

End Notifications.

End SystemConnectionFacts.
