(* ===== verification/SystemConnectionExamples.v ===== *)
(** * SystemConnectionExamples: the system connection on a small bus

    The bus is a map from paths to an object, a name and a text; the register of
    pending diagnostics is a predicate. *)

From Stdlib Require Import ZArith Lia Ascii.
From stdpp Require Import base list strings.
From S2P Require Import Prelude CString Subscriptions SystemParameters SystemConnection SystemConnectionFacts.

Module SystemConnectionExamples.
Import SystemParameters.
Import SystemConnection.
Import SystemConnectionFacts.

Definition ex_bus : Type := string -> option (string * string * string).

Definition ex_get (b : ex_bus) (path : string) : Z * option (list (string * list (string * string))) :=
  match b path with
  | Some (o, n, v) => (0, Some [(o, [(n, v)])])
  | None => (4, None)
  end.

Definition ex_set (b : ex_bus) (o n v : string) : ex_bus * Z :=
  match b (String.append o n) with
  | Some (o', n', _) =>
      if streq o' o && streq n' n
      then (fun p => if streq p (String.append o n) then Some (o, n, v) else b p, 0)
      else (b, 4)
  | None => (b, 4)
  end.

#[local] Instance ex_library : system_library := {|
  bus := ex_bus;
  variant := string;
  amxb_get := ex_get;
  amxb_set := ex_set;
  call_updateParameterKey := fun b v => ex_set b MANAGEMENTSERVER_PATH "ParameterKey" v;
  cstring_of := Some;
  const_cstring := Some;
  bool_of := fun v => streq v "true";
  engine := diagnostic -> bool;
  is_pending := fun d e => e d;
  set_pending := fun d e d' => bool_decide (d = d') || e d';
  clear_pending := fun d e d' => negb (bool_decide (d = d')) && e d';
|}.

#[local] Instance ex_engine_laws : EngineLaws ex_library.
Proof.
  constructor; cbn; intros.
  - by rewrite bool_decide_eq_true_2.
  - by rewrite bool_decide_eq_false_2.
  - by rewrite bool_decide_eq_true_2.
  - by rewrite bool_decide_eq_false_2.
Qed.

Definition bus0 : ex_bus := fun p =>
  if streq p "Device.ManagementServer.State.BootstrapSent" then
    Some ("Device.ManagementServer.State.", "BootstrapSent", "0")%string
  else if streq p "Device.ManagementServer.URL" then Some ("Device.ManagementServer.", "URL", "http://acs")%string
  else if streq p "Device.DeviceInfo.DeviceStatus" then Some ("Device.DeviceInfo.", "DeviceStatus", "Up")%string
  else None.

Definition ex_sub_env : Subscriptions.add_env :=
  {| Subscriptions.info_ok := true; Subscriptions.sub_ok := true; Subscriptions.subscribe_ok := true |}.

Definition ex_answers : answers := {| value_of := fun _ => Some "3600"%string; new_ok := true |}.

Definition ex_start : start_env := {|
  be_load := fun _ => 0; connect := fun _ => 0; start_answers := ex_answers; vendor_prefix := "X_";
  urandom := Some 5000; polls := fun _ => bus0; subs_env := fun _ => ex_sub_env |}.

Definition ex_hash (s : string) : Z := Z.of_nat (String.length s).

Definition ex_started : started * bool :=
  default ({| subs := Subscriptions.initial; slept := 0; waited := 0; values_set := [] |}, false)
    (DM_ENG_Device_SystemConnectionInitialize 25 id id ex_hash None None ex_start).

Lemma system_events_delivered_witness :
  ex_started.2 = true /\
  Subscriptions.deliver TIME_PATH (subs ex_started.1) = Some [(SYSTEM_HANDLER, TIME_PATH)].
Proof.
  destruct (system_events_delivered id id ex_hash None None ex_start ex_started.1 ex_started.2) as [_ H].
  - reflexivity.
  - reflexivity.
  - split; [reflexivity|]. apply H; [reflexivity|]. right. left.
Defined.

Example ex_slept : slept ex_started.1 = 1400.
Proof. reflexivity. Qed.

Definition ex_state : state := {| instanceAlias := false; eng := fun _ => false; calls := [] |}.

Definition ping_done : event :=
  Changed ex_answers DIAGNOSTICS_PATH
    {| objpath := Some "Device.IP.Diagnostics.IPPing."%string;
       parameters := [("DiagnosticsState"%string, Some "Complete"%string)] |}.

Definition ex_events : list event :=
  [Requested IPPING; ping_done; ping_done;
   Changed ex_answers MANAGEMENTSERVER_PATH
     {| objpath := Some MANAGEMENTSERVER_PATH;
        parameters := [("InstanceMode", Some "InstanceAlias"); ("EnableCWMP", Some "true")]%string |}].

Definition ex_final : state := default ex_state (run ex_events (Some ex_state)).

Lemma instance_mode_follows_witness : run ex_events (Some ex_state) = Some ex_final /\ instanceAlias ex_final = true.
Proof.
  split; [reflexivity|].
  etrans; [exact (instance_mode_follows ex_events ex_state ex_final eq_refl)|reflexivity].
Defined.

Lemma completions_answer_requests_witness :
  (completions ex_final + count_pending (eng ex_final) <= 1)%nat /\ completions ex_final = 1%nat.
Proof. split; [exact (completions_answer_requests ex_events ex_state ex_final eq_refl)|reflexivity]. Defined.

Definition ex_pending : state := {| instanceAlias := false; eng := fun d => bool_decide (d = IPPING); calls := [] |}.

Definition ping_data : notification :=
  {| objpath := Some "Device.IP.Diagnostics.IPPing."%string;
     parameters := [("DiagnosticsState"%string, Some "Complete"%string)] |}.

Lemma completion_announced_witness :
  exists w', DM_ENG_Device_SystemConnectionHandleParameterChanged ex_answers (Some DIAGNOSTICS_PATH) (Some ping_data)
    ex_pending = Some w' /\ calls w' = [diagnosticsComplete] /\ is_pending IPPING (eng w') = false.
Proof.
  exact (completion_announced ex_answers IPPING "Device.IP.Diagnostics.IPPing." ping_data "Complete" ex_pending
    eq_refl eq_refl eq_refl eq_refl eq_refl).
Defined.

Lemma parameters_defined_by_plugin_witness :
  (MANAGEMENTSERVER_PATH, "URL"%string) ∈ odl_parameters /\
  ("Device.ManagementServer.ConnRequest.", "MaxConnectionRequest")%string ∉ odl_parameters.
Proof.
  pose proof (parameters_defined_by_plugin DM_ENG_URL) as H1.
  pose proof (parameters_defined_by_plugin DM_ENG_MAXCONNECTIONREQUEST) as H2.
  cbn in H1, H2. split; [by apply H1|]. intros H. by apply H2 in H.
Defined.

(** The start of the diagnostic is not announced, and a null instance mode is
    undefined. *)
Example ex_null_mode :
  run [Changed ex_answers MANAGEMENTSERVER_PATH
         {| objpath := None; parameters := [("InstanceMode"%string, None)] |}] (Some ex_state) = None.
Proof. reflexivity. Qed.

End SystemConnectionExamples.
