(* ===== verification/IndexAlias.v ===== *)
(** * IndexAlias: paths with aliases for instance numbers
    ([DM_ENG_Device_Common_IndexToAlias] of
    [src/src/dmdeviceadapter/amx/adapter/DM_AmxCommon.c])

    When the ACS chose the instance mode InstanceAlias, the adapter writes the
    paths of its answers with aliases: [Device.IP.Interface.3.] becomes
    [Device.IP.Interface.[lan].].  The part of the path that the ACS gave itself
    is kept as it gave it. *)

From Stdlib Require Import ZArith Lia Ascii.
From stdpp Require Import base list strings.
From S2P Require Import Prelude CString PathAlias.

Module IndexAlias.
Import CString.
Import PathAlias.

(** The path and string functions of the libraries, and the bus: [split] is
    [amxc_string_split_to_llist] at the dots, [get_alias] the first alias in the
    answer to [amxb_get]. *)
Class alias_library := {
  fixed_part : cstr -> option cstr;
  split : cstr -> option (list cstr);
  is_numeric : cstr -> bool;
  get_alias : cstr -> option cstr;
}.

(** What the code relies on: the split at the dots keeps empty parts. *)
Class AliasLaws (L : alias_library) : Prop := {
  split_elements s : split s = Some (elements s []);
}.

Section Alias.

Context {L : alias_library}.

(** [amxc_string_setf (_, "[%s]", alias)] *)
Definition bracket (alias : cstr) : cstr := "["%char :: alias ++ ["]"%char].

(** The loop over the parts: [origs] are the parts of the fixed part of the
    ACS path from [it_path] on, [resolved] is the path so far. *)
Fixpoint alias_parts (origs parts : list cstr) (resolved : cstr) : cstr :=
  match parts with
  | [] => resolved
  | val :: parts' =>
      match origs with
      | (c :: o) :: origs' => alias_parts origs' parts' (resolved ++ (c :: o) ++ ["."%char])
      | _ =>
          let alias := if is_numeric val then get_alias (resolved ++ val ++ cs ".Alias") else None in
          match alias with
          | Some (c :: a) => alias_parts origs parts' (resolved ++ bracket (c :: a) ++ ["."%char])
          | _ => alias_parts origs parts' (resolved ++ val ++ ["."%char])
          end
      end
  end.

(** [DM_ENG_Device_Common_IndexToAlias]: [*resolved], if it is set. *)
Definition IndexToAlias (acspath path : cstr) : option cstr :=
  match path with
  | [] => None
  | _ =>
      match split path with
      | None => None
      | Some string_list =>
          let origs := match fixed_part acspath with Some f => split f | None => Some [] end in
          match origs with
          | None => None
          | Some path_list =>
              let resolved_path := alias_parts path_list string_list [] in
              Some (take (length resolved_path - 1) resolved_path)
          end
      end
  end.

(** ** Specification *)

(** What one part becomes, after the parts before it *)
Definition shown (origs : list cstr) (before val : cstr) : cstr :=
  match origs with
  | (c :: o) :: _ => c :: o
  | _ =>
      match (if is_numeric val then get_alias (before ++ val ++ cs ".Alias") else None) with
      | Some (c :: a) => bracket (c :: a)
      | _ => val
      end
  end.

Definition rest (origs : list cstr) : list cstr :=
  match origs with (_ :: _) :: origs' => origs' | _ => origs end.

Fixpoint shown_parts (origs parts : list cstr) (before : cstr) : list cstr :=
  match parts with
  | [] => []
  | val :: parts' =>
      let s := shown origs before val in s :: shown_parts (rest origs) parts' (before ++ s ++ ["."%char])
  end.

Definition dotted (l : list cstr) : cstr := concat (map (fun s => s ++ ["."%char]) l).

Lemma alias_parts_shown origs parts before :
  alias_parts origs parts before = before ++ dotted (shown_parts origs parts before).
Proof.
  revert origs before. induction parts as [|val parts IH]; intros origs before.
  { symmetry. apply app_nil_r. }
  unfold dotted in *. destruct origs as [|[|c o] origs]; cbn [alias_parts shown_parts map concat]; unfold shown; cbn [rest].
  3: { rewrite IH. by rewrite <- !app_assoc. }
  all: destruct (if is_numeric val then _ else _) as [[|c a]|]; rewrite IH; by rewrite <- !app_assoc.
Qed.

Lemma elements_dotted s cur : dotted (elements s cur) = cur ++ s ++ ["."%char].
Proof.
  unfold dotted. revert cur. induction s as [|c s IH]; intros cur; cbn; [by rewrite app_nil_r|].
  destruct (Ascii.eqb_spec c "."); cbn; rewrite IH; [subst|]; by rewrite <- !app_assoc.
Qed.

Lemma elements_nonempty s cur : elements s cur <> [].
Proof. revert cur. induction s as [|c s IH]; intros cur; cbn; [done|]. by destruct (Ascii.eqb c "."). Qed.

Lemma shown_parts_length origs parts before : length (shown_parts origs parts before) = length parts.
Proof. revert origs before. induction parts as [|val parts IH]; intros origs before; cbn; [done|]. by rewrite IH. Qed.

Lemma take_dotted l : l <> [] -> exists s, dotted l = s ++ ["."%char] /\ take (length (dotted l) - 1) (dotted l) = s.
Proof.
  intros Hl. destruct (exists_last Hl) as (l' & x & ->). unfold dotted. rewrite map_app, concat_app. cbn.
  rewrite app_nil_r, app_assoc. eexists. split; [done|].
  rewrite length_app. cbn. rewrite Nat.add_sub. by rewrite take_app_length.
Qed.

Lemma index_to_alias_shown {LL : AliasLaws L} (acspath : cstr) (path : cstr) :
  path <> [] ->
  let parts := elements path [] in
  let origs := match fixed_part acspath with Some f => elements f [] | None => [] end in
  exists s, IndexToAlias acspath path = Some s /\ s ++ ["."%char] = dotted (shown_parts origs parts []).
Proof.
  intros Hp parts origs. unfold IndexToAlias. destruct path as [|c path]; [done|].
  rewrite split_elements. fold parts.
  assert (E : match fixed_part acspath with Some f => split f | None => Some [] end = Some origs).
  { unfold origs. destruct (fixed_part acspath); [apply split_elements|done]. }
  rewrite E, alias_parts_shown. cbn [app].
  destruct (take_dotted (shown_parts origs parts [])) as (s & H1 & H2).
  - intros H. apply (f_equal length) in H. rewrite shown_parts_length in H.
    by apply (elements_nonempty (c :: path) []), nil_length_inv.
  - exists s. by rewrite H2.
Qed.

(** Without aliases the parts stay as they are. *)
Lemma shown_parts_id parts before :
  (forall s, get_alias s = None \/ get_alias s = Some []) -> shown_parts [] parts before = parts.
Proof.
  intros H. revert before. induction parts as [|val parts IH]; intros before; [done|].
  cbn [shown_parts rest]. cbv zeta. assert (E : shown [] before val = val).
  { unfold shown. destruct (is_numeric val); [|done]. by destruct (H (before ++ val ++ cs ".Alias")) as [-> | ->]. }
  by rewrite E, IH.
Qed.

(** A path is rewritten part by part: the result has as many parts as the
    path (also when it ends with a dot), those of the fixed part of the ACS path
    come first, and after them a number becomes the alias of its instance in
    brackets if the bus knows one; nothing else changes. *)
Theorem index_to_alias_parts {LL : AliasLaws L} (acspath path : cstr) (Hp : path <> []) :
  exists s l, IndexToAlias acspath path = Some s /\ s ++ ["."%char] = dotted l /\
  l = shown_parts (match fixed_part acspath with Some f => elements f [] | None => [] end) (elements path []) [] /\
  length l = length (elements path []) /\
  ((forall t, get_alias t = None \/ get_alias t = Some []) -> fixed_part acspath = None -> s = path).
Proof.
  destruct (index_to_alias_shown acspath path Hp) as (s & Hs & E). exists s. eexists. split_and!; [done..| |].
  - apply shown_parts_length.
  - intros Ha Hf. rewrite Hf, shown_parts_id, elements_dotted in E by done. exact (app_inv_tail _ _ _ E).
Qed.

End Alias.

End IndexAlias.
