(* ===== verification/ParameterNames.v ===== *)
(** * ParameterNames: the GetParameterNames RPC
    ([src/src/dmdeviceadapter/amx/adapter/DM_AmxParameterNames.c] and
    [DM_ENG_Device_GetParameterNames] of [DM_DeviceAdapter.c])

    The request walks the objects below a path and lists their names and whether
    they can be written.  The class [names_library] has what the bus answers to
    [amxb_describe], the access rights, and the functions on paths. *)

From Stdlib Require Import ZArith Lia Ascii.
From stdpp Require Import base list strings.
From S2P Require Import Prelude CString PathAlias IndexAlias.

Module ParameterNames.
Import CString.
Import PathAlias.
Import IndexAlias.

(** ** Answers of the bus *)

(** An entry of [parameters] of a description; [read_only] is its attribute. *)
Record parameter_desc := { name : option cstr; read_only : Z }.

(** The first element of the answer to [amxb_describe]: [parameters] in the order
    of [amxc_htable_get_sorted_keys], with their keys *)
Record description := {
  type_id : Z;
  parameters : option (list (cstr * parameter_desc));
  instances : option (list cstr);
  objects : option (list cstr);
}.

Class names_library := {
  amxb_describe : cstr -> Z * option description;
  not_supported : Z -> bool;
  llist_sort : (cstr -> cstr -> Z) -> list cstr -> list cstr;
  filters : Type;
  get_filters : cstr -> filters;
  is_get_allowed : filters -> cstr -> bool;
  iwcs : Z * option string;
  is_search_path : cstr -> bool;
  get_param : cstr -> cstr;
  object_of : cstr -> cstr;
  amxb_resolve : cstr -> option (list cstr);
}.

(** [dm_amx_env_t] *)
Record amx_env := { bus_ctx : bool; prefix : cstr; instanceAlias : bool }.

Definition DM_ENG_INTERNAL_ERROR : Z := 9002.

Definition DM_ENG_INVALID_ARGUMENTS : Z := 9003.

Definition DM_ENG_INVALID_PARAMETER_NAME : Z := 9005.

(** [DM_ENG_ParameterInfoStruct]: the name and whether it can be written *)
Notation info := (cstr * bool)%type.

(** ** Order *)

(** [strcmp] *)
Fixpoint strcmp (a b : cstr) : Z :=
  match a, b with
  | [], [] => 0
  | [], d :: _ => - Z.of_nat (nat_of_ascii d)
  | c :: _, [] => Z.of_nat (nat_of_ascii c)
  | c :: a', d :: b' =>
      if Ascii.eqb c d then strcmp a' b' else Z.of_nat (nat_of_ascii c) - Z.of_nat (nat_of_ascii d)
  end.

(** [DM_ENG_Device_Common_String_Compare] *)
Definition String_Compare (key1 key2 : cstr) : Z := strcmp key1 key2.

(** [DM_ENG_Device_Common_CheckSystem] *)
Definition CheckSystem (amx : amx_env) : bool := bus_ctx amx.

Section Names.

Context {L : names_library} {A : alias_library}.

(** ** One object *)

(** [DM_ENG_Device_GetParameterNames_GetParameter]; [parameter] is null if the
    object does not have it. *)
Definition GetParameter (object_path : cstr) (parameter : option parameter_desc) (pnsList : list info) :
    list info * bool :=
  match parameter ≫= name with
  | None => (pnsList, false)
  | Some param_name =>
      let paramPath := object_path ++ param_name in
      if negb (is_get_allowed (get_filters paramPath) paramPath) then (pnsList, true)
      else
        let is_read_only := match parameter with Some p => read_only p | None => 0 end in
        (pnsList ++ [(paramPath, is_read_only =? 0)], true)
  end.

(** The loop over the parameters *)
Fixpoint GetParameter_all (object_path : cstr) (l : list (cstr * parameter_desc)) (pnsList : list info) :
    list info * bool :=
  match l with
  | [] => (pnsList, true)
  | (_, p) :: l' =>
      let r := GetParameter object_path (Some p) pnsList in
      if negb r.2 then (r.1, false) else GetParameter_all object_path l' r.1
  end.

(** Where the answer uses [object_path] if it is set, and [path] otherwise *)
Definition shown_path (amx : amx_env) (acspath path : cstr) : cstr :=
  if instanceAlias amx then default path (IndexToAlias acspath path) else path.

(** An object of this type can be deleted or created by the ACS. *)
Definition is_template_or_instance (type : Z) : bool := (type =? 2) || (type =? 3).

(** [DM_ENG_Device_GetParameterNames_GetParameters] *)
Definition GetParameters (amx : amx_env) (acspath path : cstr) (incObject : bool) (object : description)
    (pnsList : list info) : list info * bool :=
  if negb (is_get_allowed (get_filters path) path) then (pnsList, true)
  else
    let object_path := shown_path amx acspath path in
    let pnsList :=
      if incObject then pnsList ++ [(object_path, is_template_or_instance (type_id object))] else pnsList in
    if type_id object =? 2 then (pnsList, true)
    else
      match parameters object with
      | Some l => GetParameter_all object_path l pnsList
      | None => (pnsList, true)
      end.

(** ** The walk *)

(** [amxc_string_setf (&childPath, "%s%s.", path, childName)] *)
Definition child_path (path childName : cstr) : cstr := path ++ childName ++ ["."%char].

Definition children (object : description) : option (list cstr) :=
  if type_id object =? 2 then instances object else objects object.

(** The children of the next level: only their names *)
Definition next_level_child (amx : amx_env) (acspath path childName : cstr) (pnsList : list info) : list info :=
  let childPath := child_path path childName in
  match amxb_describe childPath with
  | (rv, childobject) =>
      if (rv =? 0) && is_get_allowed (get_filters path) childPath then
        let type_id := match childobject with Some o => type_id o | None => 0 end in
        pnsList ++ [(shown_path amx acspath childPath, is_template_or_instance type_id)]
      else pnsList
  end.

Fixpoint next_level (amx : amx_env) (acspath path : cstr) (l : list cstr) (pnsList : list info) : list info :=
  match l with
  | [] => pnsList
  | c :: l' => next_level amx acspath path l' (next_level_child amx acspath path c pnsList)
  end.

(** The loop over the children with their objects below: the error is that of
    the last one. *)
Fixpoint each_child (f : cstr -> list info -> option (list info * Z)) (l : list cstr) (pnsList : list info) (error : Z) :
    option (list info * Z) :=
  match l with
  | [] => Some (pnsList, error)
  | c :: l' =>
      match f c pnsList with
      | None => None
      | Some (pnsList, error) => each_child f l' pnsList error
      end
  end.

(** [DM_ENG_Device_GetParameterNames_GetNames]; [None] is no fuel left. *)
Fixpoint GetNames (fuel : nat) (amx : amx_env) (nextlevel : bool) (acspath path : cstr) (pnsList : list info) :
    option (list info * Z) :=
  match fuel with
  | O => None
  | S fuel =>
      match amxb_describe path with
      | (rv, result) =>
          match (if rv =? 0 then result else None) with
          | None => if not_supported rv then Some (pnsList, 0) else Some (pnsList, DM_ENG_INVALID_PARAMETER_NAME)
          | Some object =>
              let r := GetParameters amx acspath path (negb nextlevel) object pnsList in
              if negb r.2 then Some (r.1, DM_ENG_INVALID_PARAMETER_NAME)
              else
                match children object with
                | None => Some (r.1, 0)
                | Some childobjects =>
                    let childlist := llist_sort String_Compare childobjects in
                    if nextlevel then Some (next_level amx acspath path childlist r.1, 0)
                    else each_child (fun c => GetNames fuel amx false acspath (child_path path c)) childlist r.1 0
                end
          end
      end
  end.

(** ** The request *)

Fixpoint each_object (f : cstr -> list info -> option (list info * Z)) (l : list cstr) (infoList : list info) :
    option (list info * Z) :=
  match l with
  | [] => Some (infoList, 0)
  | objpath :: l' =>
      match f objpath infoList with
      | None => None
      | Some (infoList, error) => if negb (error =? 0) then Some (infoList, error) else each_object f l' infoList
      end
  end.

Definition resolve (amx : amx_env) (path : cstr) : option (list cstr) :=
  Resolve_Path iwcs is_search_path get_param amxb_resolve (prefix amx) path.

(** [DM_ENG_Device_GetParameterNames_PartialPath] *)
Definition PartialPath (fuel : nat) (amx : amx_env) (path : option cstr) (nextLevel : bool) (infoList : list info) :
    option (list info * Z) :=
  match path with
  | None => Some (infoList, DM_ENG_INVALID_PARAMETER_NAME)
  | Some p =>
      if negb (IsValidPath path) then Some (infoList, DM_ENG_INVALID_PARAMETER_NAME)
      else
        match resolve amx p with
        | Some path_list => each_object (fun objpath => GetNames fuel amx nextLevel p objpath) path_list infoList
        | None => Some (infoList, DM_ENG_INVALID_PARAMETER_NAME)
        end
  end.

(** The parameter [0.parameters.name] of an answer *)
Definition parameter_of (object : description) (param : cstr) : option parameter_desc :=
  match parameters object with
  | Some l => snd <$> List.find (fun x => bool_decide (x.1 = param)) l
  | None => None
  end.

(** The body of the loop of [GetParameterNames_Parameter] *)
Definition one_parameter (amx : amx_env) (path ppath : cstr) (infoList : list info) : list info * Z :=
  let objpath := object_of ppath in
  match amxb_describe objpath with
  | (rv, object) =>
      match (if rv =? 0 then object else None) with
      | None => (infoList, DM_ENG_INVALID_PARAMETER_NAME)
      | Some object =>
          let r := GetParameter (shown_path amx path objpath) (parameter_of object (get_param ppath)) infoList in
          (r.1, if r.2 then 0 else DM_ENG_INVALID_PARAMETER_NAME)
      end
  end.

(** [DM_ENG_Device_GetParameterNames_Parameter] *)
Definition Parameter_ (amx : amx_env) (path : cstr) (infoList : list info) : option (list info * Z) :=
  if negb (IsValidPath (Some path)) then Some (infoList, DM_ENG_INVALID_PARAMETER_NAME)
  else
    match resolve amx path with
    | Some path_list => each_object (fun ppath l => Some (one_parameter amx path ppath l)) path_list infoList
    | None => Some (infoList, DM_ENG_INVALID_PARAMETER_NAME)
    end.

(** [path[pathLength - 1] == '*'] *)
Definition EndsWithStar (s : cstr) : bool :=
  match last s with Some c => Ascii.eqb c "*" | None => false end.

(** [DM_ENG_Device_GetParameterNames]: the list is deleted after an error. *)
Definition DM_ENG_Device_GetParameterNames (fuel : nat) (amx : amx_env) (path : option cstr) (nextLevel : bool)
    (infoList : list info) : option (list info * Z) :=
  let r :=
    if negb (CheckSystem amx) then Some (infoList, DM_ENG_INTERNAL_ERROR)
    else
      match path with
      | None | Some [] =>
          if nextLevel then Some (infoList ++ [(prefix amx, false)], 0)
          else PartialPath fuel amx path nextLevel infoList
      | Some p =>
          if EndsWithDot p || EndsWithStar p then PartialPath fuel amx path nextLevel infoList
          else if nextLevel then Some (infoList, DM_ENG_INVALID_ARGUMENTS)
          else Parameter_ amx p infoList
      end in
  match r with
  | None => None
  | Some (l, error) => Some (if negb (error =? 0) then [] else l, error)
  end.

End Names.

End ParameterNames.
