(* ===== verification/ParameterNamesFacts.v ===== *)
(** * ParameterNamesFacts: properties of [ParameterNames]

    The specification is the tree of the objects below a path in the order of
    the answer ([tree], [reads]); the walk lists it in preorder. *)

From Stdlib Require Import ZArith Lia Ascii.
From stdpp Require Import base list strings.
From S2P Require Import Prelude CString PathAlias IndexAlias ParameterNames.

Module ParameterNamesFacts.
Import CString.
Import PathAlias.
Import IndexAlias.
Import ParameterNames.

(** What the code relies on: sorting permutes, and [AMXB_ERROR_NOT_SUPPORTED_SCHEME]
    and [_OP] are errors. *)
Class NamesLaws (L : names_library) : Prop := {
  sort_permutes f l : llist_sort f l ≡ₚ l;
  not_supported_error : not_supported 0 = false;
}.

(** ** The list only grows *)

Section Growth.

Context {L : names_library} {A : alias_library}.

Lemma GetParameter_app o p l : GetParameter o p l = (l ++ (GetParameter o p []).1, (GetParameter o p []).2).
Proof.
  unfold GetParameter. destruct (p ≫= name); [|cbn; by rewrite app_nil_r].
  destruct (negb _); cbn; by rewrite ?app_nil_r.
Qed.

Lemma GetParameter_all_app o ps l :
  GetParameter_all o ps l = (l ++ (GetParameter_all o ps []).1, (GetParameter_all o ps []).2).
Proof.
  revert l. induction ps as [|[k p] ps IH]; intros l; [cbn; by rewrite app_nil_r|].
  cbn [GetParameter_all]. rewrite GetParameter_app. cbn [fst snd].
  destruct (GetParameter o (Some p) []).2; cbn [negb]; [|done].
  rewrite IH, (IH (GetParameter o (Some p) []).1). cbn. by rewrite app_assoc.
Qed.

(** The entries of one object *)
Definition own_entries (amx : amx_env) (acspath path : cstr) (incObject : bool) (object : description) :
    list info * bool :=
  GetParameters amx acspath path incObject object [].

Lemma GetParameters_app amx acspath path inc object l :
  GetParameters amx acspath path inc object l =
    (l ++ (own_entries amx acspath path inc object).1, (own_entries amx acspath path inc object).2).
Proof.
  unfold own_entries, GetParameters. destruct (negb _); [cbn; by rewrite app_nil_r|]. cbv zeta.
  destruct inc, (type_id object =? 2); cbn [app fst snd]; rewrite ?app_nil_r; try done;
    (destruct (parameters object); [|cbn; by rewrite ?app_nil_r]);
    rewrite GetParameter_all_app; [rewrite (GetParameter_all_app _ _ [_])|done].
  cbn. by rewrite <- !app_assoc.
Qed.

End Growth.

(** ** The tree of the answer *)

(** The entries of an object, the error that it gives if it has no children, and
    the trees of the children *)
Inductive tree := Tree (own : list info) (outcome : Z) (subtrees : list tree).

Fixpoint flatten (t : tree) : list info :=
  match t with Tree own _ ts => own ++ concat (map flatten ts) end.

Fixpoint height (t : tree) : nat :=
  match t with Tree _ _ ts => S (max_list (map height ts)) end.

Lemma max_list_app l1 l2 : max_list (l1 ++ l2) = Nat.max (max_list l1) (max_list l2).
Proof. induction l1 as [|x l1 IH]; cbn; [done|]. rewrite IH. lia. Qed.

(** The error of the last object that was visited *)
Fixpoint error_of (t : tree) : Z :=
  match t with Tree _ e ts => fold_left (fun _ t => error_of t) ts e end.

Section Tree.

Context {L : names_library} {A : alias_library} (amx : amx_env) (acspath : cstr).

(** The description of an object, if the bus has one *)
Definition described (path : cstr) : option description :=
  match amxb_describe path with (rv, result) => if rv =? 0 then result else None end.

Definition describe_error (path : cstr) : Z :=
  if not_supported (amxb_describe path).1 then 0 else DM_ENG_INVALID_PARAMETER_NAME.

Definition sorted_children (object : description) : list cstr :=
  match children object with Some l => llist_sort String_Compare l | None => [] end.

Inductive reads : cstr -> tree -> Prop :=
| reads_failed path :
    described path = None -> reads path (Tree [] (describe_error path) [])
| reads_refused path object :
    described path = Some object -> (own_entries amx acspath path true object).2 = false ->
    reads path (Tree (own_entries amx acspath path true object).1 DM_ENG_INVALID_PARAMETER_NAME [])
| reads_object path object ts :
    described path = Some object -> (own_entries amx acspath path true object).2 = true ->
    Forall2 (fun c t => reads (child_path path c) t) (sorted_children object) ts ->
    reads path (Tree (own_entries amx acspath path true object).1 0 ts).

Lemma GetNames_described fuel nextlevel path l :
  GetNames (S fuel) amx nextlevel acspath path l =
  match described path with
  | None => Some (l, describe_error path)
  | Some object =>
      let own := own_entries amx acspath path (negb nextlevel) object in
      if negb own.2 then Some (l ++ own.1, DM_ENG_INVALID_PARAMETER_NAME)
      else if nextlevel then Some (next_level amx acspath path (sorted_children object) (l ++ own.1), 0)
      else each_child (fun c => GetNames fuel amx false acspath (child_path path c)) (sorted_children object) (l ++ own.1) 0
  end.
Proof.
  cbn [GetNames]. unfold described, describe_error. destruct (amxb_describe path) as [rv result]. cbn [fst].
  destruct (if rv =? 0 then result else None) as [object|]; [|by destruct (not_supported rv)].
  rewrite GetParameters_app. cbv zeta. cbn [fst snd]. destruct (negb _.2); [done|].
  unfold sorted_children. destruct (children object); [done|]. by destruct nextlevel.
Qed.

Lemma each_child_reads fuel path cs ts l e :
  (forall path t l, reads path t -> (height t <= fuel)%nat ->
     GetNames fuel amx false acspath path l = Some (l ++ flatten t, error_of t)) ->
  Forall2 (fun c t => reads (child_path path c) t) cs ts -> (max_list (map height ts) <= fuel)%nat ->
  each_child (fun c => GetNames fuel amx false acspath (child_path path c)) cs l e =
    Some (l ++ concat (map flatten ts), fold_left (fun _ t => error_of t) ts e).
Proof.
  intros IH H. revert l e. induction H as [|c t cs ts Hc Hf IHf]; intros l e Hh; cbn; [by rewrite app_nil_r|].
  cbn in Hh. rewrite (IH _ t) by (done || lia). rewrite IHf by lia. by rewrite app_assoc.
Qed.

Lemma GetNames_reads fuel path t l :
  reads path t -> (height t <= fuel)%nat -> GetNames fuel amx false acspath path l = Some (l ++ flatten t, error_of t).
Proof.
  revert path t l. induction fuel as [|fuel IH]; intros path t l Ht Hh; [destruct t; cbn in Hh; lia|].
  rewrite GetNames_described. destruct Ht as [path E|path object E Eo|path object ts E Eo Hts]; rewrite E.
  - cbn. by rewrite app_nil_r.
  - cbv zeta. change (negb false) with true. rewrite Eo. cbn. by rewrite app_nil_r.
  - cbv zeta. change (negb false) with true. rewrite Eo. cbn [negb].
    rewrite (each_child_reads fuel path _ ts) by (done || (cbn in Hh; lia)). cbn. by rewrite app_assoc.
Qed.

(** Objects of bounded depth *)
Context (rank : cstr -> nat) {LL : NamesLaws L}
  (Hrank : forall path object c, described path = Some object -> c ∈ default [] (children object) ->
     (rank (child_path path c) < rank path)%nat).

Lemma sorted_children_elem object c : c ∈ sorted_children object -> c ∈ default [] (children object).
Proof. unfold sorted_children. destruct (children object); [|done]. cbn. by rewrite sort_permutes. Qed.

Lemma reads_exists n path : (rank path < n)%nat -> exists t, reads path t /\ (height t <= n)%nat.
Proof.
  revert path. induction n as [|n IH]; intros path Hn; [lia|].
  destruct (described path) as [object|] eqn:E.
  2: { eexists. split; [by apply reads_failed|cbn; lia]. }
  destruct (own_entries amx acspath path true object).2 eqn:Eo.
  2: { eexists. split; [by apply reads_refused|cbn; lia]. }
  assert (H : exists ts, Forall2 (fun c t => reads (child_path path c) t) (sorted_children object) ts /\
      (max_list (map height ts) <= n)%nat).
  { pose proof (sorted_children_elem object) as Hc.
    induction (sorted_children object) as [|c cs IHc]; [exists []; split; [constructor|cbn; lia]|].
    destruct IHc as (ts & H1 & H2); [intros d Hd; apply Hc; by right|].
    destruct (IH (child_path path c)) as (t & Ht & Hh).
    { pose proof (Hrank path object c E (Hc c ltac:(left))). lia. }
    exists (t :: ts). split; [by constructor|cbn; lia]. }
  destruct H as (ts & H1 & H2). eexists. split; [by apply (reads_object path object ts)|cbn; lia].
Qed.

(** C20: on objects of bounded depth the walk below an object ends, and its list is
    the preorder of the tree of the objects below: for each object its own entries,
    then those of its children in the order of their names; its error is that
    of the last object that was visited. *)
Theorem names_in_preorder (path : cstr) (fuel : nat) (l : list info) (Hfuel : (rank path < fuel)%nat) :
  exists t, reads path t /\
    GetNames fuel amx false acspath path l = Some (l ++ flatten t, error_of t).
Proof.
  destruct (reads_exists fuel path Hfuel) as (t & Ht & Hh). exists t. split; [done|]. by apply GetNames_reads.
Qed.

(** Only the last child in the order of the names decides whether an object
    is reported as failed: a failure of any other object below it is
    forgotten, its names are missing in the list, and the request succeeds if the
    last one does. *)
Theorem failed_child_forgotten (path : cstr) (object : description) (cs : list cstr) (c : cstr) (l : list info)
    (fuel : nat) (Hfuel : (rank path < fuel)%nat) (Hd : described path = Some object)
    (Ho : (own_entries amx acspath path true object).2 = true) (Hc : sorted_children object = cs ++ [c]) :
  exists names_before names error,
    GetNames (pred fuel) amx false acspath (child_path path c) [] = Some (names, error) /\
    GetNames fuel amx false acspath path l = Some (l ++ names_before ++ names, error).
Proof.
  destruct (reads_exists fuel path Hfuel) as (t & Ht & Hh). destruct fuel as [|fuel]; [lia|].
  inversion Ht as [? E|? ? E Eo|path' object' ts E Eo Hts]; subst.
  - by rewrite Hd in E.
  - rewrite Hd in E. injection E as <-. by rewrite Ho in Eo.
  - rewrite Hd in E. injection E as <-. rewrite Hc in Hts.
    apply Forall2_app_inv_l in Hts as (ts1 & ts2 & H1 & H2 & ->). inversion H2 as [|? t' ? ? Ht' Hnil]; subst.
    inversion Hnil; subst. cbn [height] in Hh. rewrite map_app, max_list_app in Hh. cbn in Hh.
    exists ((own_entries amx acspath path true object).1 ++ concat (map flatten ts1)), (flatten t'), (error_of t').
    split; [exact (GetNames_reads fuel _ t' [] Ht' ltac:(lia))|].
    rewrite (GetNames_reads (S fuel) path _ l Ht) by (cbn; rewrite map_app, max_list_app; cbn; lia).
    cbn [flatten error_of]. rewrite fold_left_app, map_app, concat_app. cbn. rewrite app_nil_r. by rewrite <- !app_assoc.
Qed.

End Tree.

(** ** Access rights *)

Section Access.

Context {L : names_library} {A : alias_library} (amx : amx_env) (acspath : cstr).

Definition readable (p : cstr) : Prop := is_get_allowed (get_filters p) p = true.

(** The names of the children of an object, in the order of the walk *)
Definition child_names_of (parent : cstr) : list cstr :=
  match described parent with Some object => sorted_children object | None => [] end.

(** An entry that the rules let the ACS see: a parameter, an object, or with
    [nextLevel] a child that the rules of its parent let it see *)
Definition permitted (nextLevel : bool) (x : info) : Prop :=
  readable x.1 \/ (exists p, readable p /\ x.1 = shown_path amx acspath p) \/
  (nextLevel = true /\ exists parent c, c ∈ child_names_of parent /\ is_get_allowed (get_filters parent) (child_path parent c) = true /\
     x.1 = shown_path amx acspath (child_path parent c)).

Lemma GetParameter_permitted n o p l :
  Forall (permitted n) l -> Forall (permitted n) (GetParameter o p l).1.
Proof.
  intros Hl. unfold GetParameter. destruct (p ≫= name) as [nm|]; [|done]. cbv zeta.
  destruct (is_get_allowed _ _) eqn:E; [|done]. cbn. apply Forall_app. split; [done|].
  apply Forall_cons. split; [|constructor]. by left.
Qed.

Lemma GetParameters_permitted n path inc object l :
  Forall (permitted n) l -> Forall (permitted n) (GetParameters amx acspath path inc object l).1.
Proof.
  intros Hl. unfold GetParameters. destruct (is_get_allowed (get_filters path) path) eqn:E; [|done]. cbv zeta. cbn [negb].
  match goal with |- context [if inc then ?x else ?y] => set (l1 := if inc then x else y) end.
  assert (H1 : Forall (permitted n) l1).
  { unfold l1. destruct inc; [|done]. apply Forall_app. split; [done|]. apply Forall_cons. split; [|constructor].
    right. left. by exists path. }
  clearbody l1. destruct (type_id object =? 2); [done|]. destruct (parameters object) as [ps|]; [|done].
  revert l1 H1. induction ps as [|[k p] ps IH]; intros l1 H1; [done|]. cbn [GetParameter_all].
  pose proof (GetParameter_permitted n (shown_path amx acspath path) (Some p) l1 H1) as H2.
  destruct (GetParameter _ _ l1) as [l2 []]; cbn in *; [by apply IH|done].
Qed.

Lemma next_level_permitted path cs l :
  Forall (.∈ child_names_of path) cs -> Forall (permitted true) l ->
  Forall (permitted true) (next_level amx acspath path cs l).
Proof.
  revert l. induction cs as [|c cs IH]; intros l Hcs Hl; [done|].
  apply Forall_cons in Hcs as [Hc Hcs]. cbn. apply IH; [done|]. unfold next_level_child.
  destruct (amxb_describe _) as [rv o]. destruct (rv =? 0); [|done]. cbn [andb].
  destruct (is_get_allowed _ _) eqn:E; [|done]. apply Forall_app. split; [done|].
  apply Forall_cons. split; [|constructor]. right. right. split; [done|]. by exists path, c.
Qed.

Lemma each_child_inv (P : list info -> Prop) f cs l e l' e' :
  (forall c l l' e', P l -> f c l = Some (l', e') -> P l') -> P l -> each_child f cs l e = Some (l', e') -> P l'.
Proof.
  intros Hf. revert l e. induction cs as [|c cs IH]; intros l e Hl; cbn; [by intros [= <- <-]|].
  destruct (f c l) as [[l1 e1]|] eqn:E; [|done]. apply IH. by eapply Hf.
Qed.

Lemma each_object_inv (P : list info -> Prop) f os l l' e' :
  (forall c l l' e', P l -> f c l = Some (l', e') -> P l') -> P l -> each_object f os l = Some (l', e') -> P l'.
Proof.
  intros Hf. revert l. induction os as [|o os IH]; intros l Hl; cbn; [by intros [= <- <-]|].
  destruct (f o l) as [[l1 e1]|] eqn:E; [|done]. destruct (negb (e1 =? 0)); [|apply IH; by eapply Hf].
  intros [= <- <-]. by eapply Hf.
Qed.

Lemma GetNames_permitted fuel n path l l' e' :
  Forall (permitted n) l -> GetNames fuel amx n acspath path l = Some (l', e') -> Forall (permitted n) l'.
Proof.
  revert n path l l' e'. induction fuel as [|fuel IH]; intros n path l l' e' Hl; [done|].
  cbn [GetNames]. pose proof (eq_refl (described path)) as Hp. unfold described at 2 in Hp. destruct (amxb_describe path) as [rv r].
  destruct (if rv =? 0 then r else None) as [object|]; [|by destruct (not_supported rv); intros [= <- <-]].
  cbv zeta. pose proof (GetParameters_permitted n path (negb n) object l Hl) as H1.
  destruct (GetParameters _ _ _ _ _ _) as [l1 ok]; cbn [fst snd] in *.
  destruct (negb ok); [by intros [= <- <-]|].
  destruct (children object) as [cs|] eqn:Ec; [|by intros [= <- <-]]. destruct n.
  - intros [= <- <-]. apply next_level_permitted; [|done]. apply Forall_forall. intros c Hc.
    unfold child_names_of, sorted_children. by rewrite Hp, Ec.
  - apply (each_child_inv (Forall (permitted false))); [|done]. intros c l2 l3 e3. apply IH.
Qed.

End Access.

(** ** Names *)

(** What the data model promises about the names of an object: names of
    parameters and of children have no dots, are not empty and are different. *)
Record well_named (object : description) : Prop := {
  parameter_names : NoDup (omap (fun x => name x.2) (default [] (parameters object)));
  parameter_dots : Forall (fun n => "."%char ∉ n /\ n <> []) (omap (fun x => name x.2) (default [] (parameters object)));
  child_names : NoDup (default [] (children object));
  child_dots : Forall (fun n => "."%char ∉ n) (default [] (children object));
}.

Section Once.

Context {L : names_library} {A : alias_library} {LL : NamesLaws L} (amx : amx_env) (acspath : cstr).
Context (Halias : instanceAlias amx = false)
  (Hnames : forall path object, described path = Some object -> well_named object).

Notation names l := (map fst (l : list info)).

Lemma GetParameter_all_names o ps :
  sublist (names (GetParameter_all o ps []).1) (map (app o) (omap (fun x => name x.2) ps)).
Proof.
  induction ps as [|[k p] ps IH]; [done|]. cbn [GetParameter_all omap list_omap snd].
  rewrite GetParameter_all_app. unfold GetParameter. cbn [mbind option_bind].
  destruct (name p) as [nm|]; cbn [negb fst snd]; [|apply sublist_nil_l]. cbv zeta.
  destruct (negb (is_get_allowed _ _)); cbn; [by apply sublist_cons|by apply sublist_skip].
Qed.

(** The entries of an object: itself, then some of its parameters *)
Lemma own_names path object :
  well_named object ->
  let l := names (own_entries amx acspath path true object).1 in
  NoDup l /\ forall n, n ∈ l -> exists s, n = path ++ s /\ "."%char ∉ s.
Proof.
  intros Hw. unfold own_entries, GetParameters. destruct (negb _); [by split; [constructor|intros n ?%elem_of_nil]|].
  cbv zeta. assert (E : shown_path amx acspath path = path) by (unfold shown_path; by rewrite Halias). rewrite E.
  assert (H : forall l, sublist l (map (app path) (omap (fun x => name x.2) (default [] (parameters object)))) ->
      NoDup (path :: l) /\ forall n, n ∈ path :: l -> exists s, n = path ++ s /\ "."%char ∉ s).
  { intros l Hl. destruct Hw as [H1 H2 _ _]. rewrite Forall_forall in H2.
    assert (Hin : forall n, n ∈ l -> exists s, n = path ++ s /\ "."%char ∉ s /\ s <> []).
    { intros n Hn. apply (sublist_subseteq _ _ Hl), list_elem_of_fmap in Hn as (s & -> & Hs). exists s. by destruct (H2 s Hs). }
    split.
    - apply NoDup_cons. split.
      + intros Hp. destruct (Hin path Hp) as (s & Hs & _ & Hne). apply Hne.
        rewrite <- (app_nil_r path) in Hs at 1. by apply app_inv_head in Hs.
      + refine (sublist_NoDup _ _ _ Hl). apply NoDup_fmap_2; [|done]. intros x y Hxy. by apply app_inv_head in Hxy.
    - intros n [->|Hn]%elem_of_cons; [exists []; rewrite app_nil_r; split; [done|apply not_elem_of_nil]|].
      destruct (Hin n Hn) as (s & -> & ? & _). eauto. }
  destruct (type_id object =? 2); [apply (H []), sublist_nil_l|].
  destruct (parameters object) as [ps|] eqn:Ep; [|apply (H []), sublist_nil_l].
  rewrite GetParameter_all_app. cbn [fst app map]. apply H.
  apply GetParameter_all_names.
Qed.

Lemma children_disjoint (path c c' s s' : cstr) :
  "."%char ∉ c -> "."%char ∉ c' -> child_path path c ++ s = child_path path c' ++ s' -> c = c'.
Proof.
  intros Hc Hc' E. unfold child_path in E. rewrite <- !app_assoc in E. apply app_inv_head in E. cbn in E.
  pose proof (strchr_app "." c s Hc) as H1. rewrite E, (strchr_app "." c' s' Hc') in H1. congruence.
Qed.

Lemma subtrees_names path cs ts :
  Forall2 (fun c t => NoDup (names (flatten t)) /\ forall n, n ∈ names (flatten t) -> exists s, n = child_path path c ++ s) cs ts ->
  NoDup cs -> Forall (fun c => "."%char ∉ c) cs ->
  NoDup (names (concat (map flatten ts))) /\
  forall n, n ∈ names (concat (map flatten ts)) -> exists c s, c ∈ cs /\ n = child_path path c ++ s.
Proof.
  induction 1 as [|c t cs ts [Hn Hs] _ IH]; intros Hd Hc; cbn; [by split; [constructor|intros n ?%elem_of_nil]|].
  apply NoDup_cons in Hd as [Hd1 Hd2]. apply Forall_cons in Hc as [Hc1 Hc2].
  destruct (IH Hd2 Hc2) as [I1 I2]. rewrite map_app. split.
  - apply NoDup_app. split_and!; [done| |done]. intros n H1 H2.
    destruct (Hs n H1) as (s & ->), (I2 _ H2) as (c' & s' & Hin & E). rewrite Forall_forall in Hc2.
    apply children_disjoint in E as ->; auto.
  - intros n [H|H]%elem_of_app; [destruct (Hs n H) as (s & ->); exists c, s; split; [left|done]|].
    destruct (I2 n H) as (c' & s & ? & ->). exists c', s. split; [by right|done].
Qed.

Lemma reads_names k path t :
  (height t <= k)%nat -> reads amx acspath path t ->
  NoDup (names (flatten t)) /\ forall n, n ∈ names (flatten t) -> exists s, n = path ++ s.
Proof.
  revert path t. induction k as [|k IH]; intros path t Hk Ht; [destruct t; cbn in Hk; lia|].
  destruct Ht as [path E|path object E Eo|path object ts E Eo Hts]; cbn [flatten map concat];
    [by split; [constructor|intros n ?%elem_of_nil]|..];
    destruct (own_names path object (Hnames path object E)) as [O1 O2].
  { rewrite app_nil_r. split; [done|]. intros n Hn. destruct (O2 n Hn) as (s & ? & _). eauto. }
  assert (Hcs : NoDup (sorted_children object) /\ Forall (fun c => "."%char ∉ c) (sorted_children object)).
  { destruct (Hnames path object E) as [_ _ C1 C2]. unfold sorted_children.
    destruct (children object); [|by split; constructor]. by rewrite sort_permutes. }
  destruct (subtrees_names path (sorted_children object) ts) as [S1 S2]; [|apply Hcs..|].
  { cbn [height] in Hk. clear -Hts Hk IH. induction Hts as [|c t cs ts Hc Hts IHts]; [constructor|]. cbn in Hk.
    constructor; [apply IH; [lia|done]|apply IHts; lia]. }
  rewrite map_app. split.
  - apply NoDup_app. split_and!; [done| |done]. intros n H1 H2.
    destruct (O2 n H1) as (s & -> & Hs), (S2 _ H2) as (c & s' & _ & E'). unfold child_path in E'.
    rewrite <- !app_assoc in E'. apply app_inv_head in E' as ->. apply Hs. set_solver.
  - intros n [H|H]%elem_of_app; [destruct (O2 n H) as (s & -> & _); eauto|].
    destruct (S2 n H) as (c & s & _ & ->). unfold child_path. rewrite <- app_assoc. eauto.
Qed.

(** With instance numbers, the walk below an object lists every name at most
    once and only names that begin with the path of the object. *)
Theorem names_listed_once (rank : cstr -> nat)
    (Hrank : forall path object c, described path = Some object -> c ∈ default [] (children object) ->
       (rank (child_path path c) < rank path)%nat)
    (fuel : nat) (path : cstr) (Hfuel : (rank path < fuel)%nat) :
  exists l error, GetNames fuel amx false acspath path [] = Some (l, error) /\
    NoDup (names l) /\ forall n, n ∈ names l -> exists s, n = path ++ s.
Proof.
  destruct (reads_exists amx acspath rank Hrank fuel path Hfuel) as (t & Ht & Hh).
  exists (flatten t), (error_of t). split; [by apply (GetNames_reads amx acspath fuel path t [])|].
  by apply (reads_names fuel).
Qed.

End Once.

Section Request.

Context {L : names_library} {A : alias_library}.

(** C21: an answer names only what an access rule lets the ACS see ([permitted]):
    every entry is a parameter or an object that its own rules let the ACS read, or,
    in the request for the next level, a child of a described object whose path the
    rules of this object let it read -- whatever the child's own rules say --, or the
    root of the data model when the next level of the empty path was asked for; and
    an error answers with no names at all. *)
Theorem only_permitted_names (fuel : nat) (amx : amx_env) (path : option cstr) (nextLevel : bool) (l : list info)
    (error : Z) (H : DM_ENG_Device_GetParameterNames fuel amx path nextLevel [] = Some (l, error)) :
  Forall (fun x => permitted amx (default [] path) nextLevel x \/
                   (default [] path = [] /\ nextLevel = true /\ x = (prefix amx, false))) l /\
  (error <> 0 -> l = []).
Proof.
  unfold DM_ENG_Device_GetParameterNames in H. cbv zeta in H.
  match type of H with match ?x with _ => _ end = _ => destruct x as [[l1 e1]|] eqn:E; [|done] end.
  injection H as <- <-. destruct (e1 =? 0) eqn:Ee; cbn [negb]; bool_prop; [|by split; [constructor|]].
  split; [|done]. set (P := fun x => _ \/ _).
  assert (HG : forall p os, default [] path = p ->
    each_object (fun o => GetNames fuel amx nextLevel p o) os [] = Some (l1, e1) -> Forall P l1).
  { intros p os Hp Ho. apply (Forall_impl (permitted amx p nextLevel)); [|intros x Hx; left; by rewrite Hp].
    revert Ho. apply (each_object_inv (Forall (permitted amx p nextLevel))); [|constructor].
    intros c l2 l3 e3. apply GetNames_permitted. }
  assert (HP : PartialPath fuel amx path nextLevel [] = Some (l1, e1) -> Forall P l1).
  { unfold PartialPath. destruct path as [p|]; [|intros ?; simplify_eq; constructor].
    destruct (IsValidPath (Some p)); cbn [negb]; [|intros ?; simplify_eq; constructor].
    destruct (resolve amx p) as [os|]; [by apply HG|intros ?; simplify_eq; constructor]. }
  destruct (negb (CheckSystem amx)); [simplify_eq; constructor|].
  assert (Hroot : default [] path = [] -> nextLevel = true -> Some ([(prefix amx, false)], 0) = Some (l1, e1) -> Forall P l1).
  { intros H1 H2 [= <- <-]. apply Forall_cons. split; [by right|constructor]. }
  destruct path as [[|c p]|]; [destruct nextLevel; auto| |destruct nextLevel; auto].
  destruct (_ || _); [auto|]. destruct nextLevel; [simplify_eq; constructor|].
  unfold Parameter_ in E. destruct (IsValidPath _); cbn [negb] in E; [|simplify_eq; constructor].
  destruct (resolve amx (c :: p)) as [os|]; [|simplify_eq; constructor].
  apply (Forall_impl (permitted amx (c :: p) false)); [|by left]. revert E.
  apply (each_object_inv (Forall (permitted amx (c :: p) false))); [|constructor].
  intros o l2 l3 e3 H2. unfold one_parameter. destruct (amxb_describe _) as [rv r].
  destruct (if rv =? 0 then r else None); intros [= <- <-]; [|done]. by apply GetParameter_permitted.
Qed.

End Request.

End ParameterNamesFacts.
