(* ===== verification/ParameterNamesExamples.v ===== *)
(** * ParameterNamesExamples: the names of a small data model *)

From Stdlib Require Import ZArith Lia Ascii.
From stdpp Require Import base list strings.
From S2P Require Import Prelude CString PathAlias IndexAlias ParameterNames ParameterNamesFacts.

Module ParameterNamesExamples.
Import CString.
Import PathAlias.
Import IndexAlias.
Import ParameterNames.
Import ParameterNamesFacts.

Definition param (n : string) (ro : Z) : cstr * parameter_desc := (cs n, {| name := Some (cs n); read_only := ro |}).

Definition obj (type : Z) (ps : list (cstr * parameter_desc)) (insts objs : list string) : description :=
  {| type_id := type; parameters := Some ps; instances := Some (map cs insts); objects := Some (map cs objs) |}.

(** [Device.DeviceInfo.] is an object that the bus cannot describe. *)
Definition table : list (cstr * description) :=
  [(cs "Device.", obj 1 [] [] ["IP"; "DeviceInfo"]%string);
   (cs "Device.IP.", obj 1 [param "IPv4Enable" 0; param "IPv4Status" 1] [] ["Interface"]%string);
   (cs "Device.IP.Interface.", obj 2 [] ["1"]%string []);
   (cs "Device.IP.Interface.1.", obj 3 [param "Enable" 0; param "Name" 1] [] [])].

Definition find_row (path : cstr) : option description :=
  snd <$> List.find (fun x => bool_decide (x.1 = path)) table.

Fixpoint insert_name (c : cstr) (l : list cstr) : list cstr :=
  match l with
  | [] => [c]
  | d :: l' => if String_Compare c d <=? 0 then c :: l else d :: insert_name c l'
  end.

Definition sort_names (l : list cstr) : list cstr := foldr insert_name [] l.

#[local] Instance ex_names : names_library := {|
  amxb_describe := fun p => match find_row p with Some d => (0, Some d) | None => (4, None) end;
  not_supported := fun rv => rv =? 10;
  llist_sort := fun _ => sort_names;
  filters := unit;
  get_filters := fun _ => tt;
  is_get_allowed := fun _ p => negb (bool_decide (p = cs "Device.IP.Interface.1.Name"));
  iwcs := (0, Some "1"%string);
  is_search_path := fun _ => true;
  get_param := fun p => p;
  object_of := fun p => p;
  amxb_resolve := fun _ => None;
|}.

#[local] Instance ex_alias : alias_library := {|
  fixed_part := fun p => None;
  split := fun s => Some (elements s []);
  is_numeric := fun s => bool_decide (s = cs "1");
  get_alias := fun s => if bool_decide (s = cs "Device.IP.Interface.1.Alias") then Some (cs "lan") else None;
|}.

#[local] Instance ex_alias_laws : AliasLaws ex_alias.
Proof. by constructor. Qed.

Lemma insert_name_perm c l : insert_name c l ≡ₚ c :: l.
Proof.
  induction l as [|d l IH]; [done|]. cbn [insert_name]. destruct (_ <=? 0); [done|].
  etrans; [apply Permutation_skip, IH|constructor].
Qed.

#[local] Instance ex_names_laws : NamesLaws ex_names.
Proof.
  constructor; [|done]. intros f l. cbn. unfold sort_names. induction l as [|c l IH]; [done|].
  cbn [foldr]. etrans; [apply insert_name_perm|]. by constructor.
Qed.

Definition ex_env : amx_env := {| bus_ctx := true; prefix := cs "Device."; instanceAlias := false |}.

Definition ex_rank (p : cstr) : nat :=
  if bool_decide (p = cs "Device.") then 3
  else if bool_decide (p = cs "Device.IP.") then 2
  else if bool_decide (p = cs "Device.IP.Interface.") then 1 else 0.

Lemma table_row path object : described path = Some object -> (path, object) ∈ table.
Proof.
  unfold described. cbn [amxb_describe ex_names]. unfold find_row.
  destruct (List.find _ table) as [[p d]|] eqn:E; [|done]. cbn. intros [= <-].
  apply find_some in E as [H E]. apply bool_decide_eq_true in E. cbn in E. subst p. by apply list_elem_of_In.
Qed.

Lemma ex_ranked path object c :
  described path = Some object -> c ∈ default [] (children object) -> (ex_rank (child_path path c) < ex_rank path)%nat.
Proof.
  intros H%table_row Hc.
  assert (A : Forall (fun x => Forall (fun c => Nat.ltb (ex_rank (child_path x.1 c)) (ex_rank x.1) = true)
      (default [] (children x.2))) table)
    by (apply (bool_decide_unpack _); vm_compute; reflexivity).
  rewrite Forall_forall in A. specialize (A _ H). rewrite Forall_forall in A. specialize (A c Hc).
  by apply Nat.ltb_lt.
Qed.

Definition D := cs "Device.".

Definition ex_answer : list (cstr * bool) :=
  match DM_ENG_Device_GetParameterNames 4 ex_env (Some D) false [] with Some (l, _) => l | None => [] end.

Lemma names_in_preorder_witness :
  exists t, reads ex_env D D t /\ GetNames 4 ex_env false D D [] = Some (flatten t, error_of t) /\
    map fst (flatten t) =
      map cs ["Device."; "Device.IP."; "Device.IP.IPv4Enable"; "Device.IP.IPv4Status"; "Device.IP.Interface.";
              "Device.IP.Interface.1."; "Device.IP.Interface.1.Enable"]%string.
Proof.
  destruct (names_in_preorder ex_env D ex_rank ex_ranked D 4 []) as (t & H1 & H2).
  - vm_compute. lia.
  - exists t. split; [exact H1|]. split; [exact H2|].
    assert (E : GetNames 4 ex_env false D D [] = Some (ex_answer, 0)) by (vm_compute; reflexivity).
    rewrite E in H2. injection H2 as E1 _. rewrite <- E1. vm_compute. reflexivity.
Defined.

(** [Device.DeviceInfo.] fails and is forgotten: the request succeeds. *)
Lemma failed_child_forgotten_witness :
  exists names_before names error,
    GetNames 3 ex_env false D (child_path D (cs "IP")) [] = Some (names, error) /\
    GetNames 4 ex_env false D D [] = Some (names_before ++ names, error).
Proof.
  destruct (failed_child_forgotten ex_env D ex_rank ex_ranked D
    (obj 1 [] [] ["IP"; "DeviceInfo"]%string) [cs "DeviceInfo"] (cs "IP") [] 4) as (a & b & e & H1 & H2).
  - vm_compute. lia.
  - reflexivity.
  - reflexivity.
  - reflexivity.
  - exists a, b, e. split; [exact H1|exact H2].
Defined.

Lemma only_permitted_names_witness :
  length ex_answer = 7%nat /\
  Forall (fun x => permitted ex_env D false x \/ (D = [] /\ false = true /\ x = (prefix ex_env, false))) ex_answer.
Proof.
  split; [reflexivity|].
  assert (H : DM_ENG_Device_GetParameterNames 4 ex_env (Some D) false [] = Some (ex_answer, 0))
    by (vm_compute; reflexivity).
  exact (proj1 (only_permitted_names 4 ex_env (Some D) false ex_answer 0 H)).
Defined.

Lemma ex_well_named path object : described path = Some object -> well_named object.
Proof.
  intros H%table_row.
  assert (A : Forall (fun x =>
      NoDup (omap (fun y => name y.2) (default [] (parameters x.2))) /\
      Forall (fun n => "."%char ∉ n /\ n <> []) (omap (fun y => name y.2) (default [] (parameters x.2))) /\
      NoDup (default [] (children x.2)) /\ Forall (fun n => "."%char ∉ n) (default [] (children x.2))) table)
    by (apply (bool_decide_unpack _); vm_compute; reflexivity).
  rewrite Forall_forall in A. destruct (A _ H) as (H1 & H2 & H3 & H4). by constructor.
Qed.

Lemma names_listed_once_witness :
  exists l error, GetNames 4 ex_env false D D [] = Some (l, error) /\ NoDup (map fst l).
Proof.
  destruct (names_listed_once ex_env D eq_refl ex_well_named ex_rank ex_ranked 4 D) as (l & e & H1 & H2 & _).
  - vm_compute. lia.
  - exists l, e. split; [exact H1|exact H2].
Defined.

Lemma index_to_alias_parts_witness :
  exists s l, IndexToAlias (cs "Device.*.") (cs "Device.IP.Interface.1.Enable") = Some s /\
    s = cs "Device.IP.Interface.[lan].Enable" /\ s ++ ["."%char] = dotted l.
Proof.
  destruct (index_to_alias_parts (cs "Device.*.") (cs "Device.IP.Interface.1.Enable") ltac:(discriminate))
    as (s & l & H1 & H2 & _).
  exists s, l. split; [exact H1|]. split; [|exact H2]. vm_compute in H1. injection H1 as <-. reflexivity.
Defined.

(** An alias that the ACS used itself is kept, and the request for the next level
    names the children only. *)
Example ex_next_level :
  DM_ENG_Device_GetParameterNames 4 ex_env (Some D) true [] = Some ([(cs "Device.IP.", false)], 0).
Proof. vm_compute. reflexivity. Qed.

Example ex_parameter_next_level :
  DM_ENG_Device_GetParameterNames 4 ex_env (Some (cs "Device.IP.IPv4Enable")) true [] = Some ([], 9003).
Proof. vm_compute. reflexivity. Qed.

End ParameterNamesExamples.
