(* ===== verification/ReadValues.v ===== *)
(** * ReadValues: the GetParameterValues RPC and the complete answers
    ([DM_AmxParameterValues.c], [DM_AmxParameterValues_prpl.c] and
    [DM_DeviceAdapter.c] of [src/src/dmdeviceadapter/amx/adapter])

    The values of the objects below a path, in two forms: the list of structures
    that the engine encodes, and for all parameters or all attributes at once a
    part of the answer in XML.  The types of the parameters come from
    [amxb_describe], or from [amxb_get_supported] in the build with the
    supported data model (prpl).  The class [values_library] has the bus, the
    access rights, the variants and the attribute cache of the engine. *)

From Stdlib Require Import ZArith Lia Ascii.
From stdpp Require Import base list strings pretty.
From S2P Require Import Prelude CString PathAlias IndexAlias ParameterNames ACSConnection.

Module ReadValues.
Import CString.
Import PathAlias.
Import IndexAlias.
Import ParameterNames.

(** The answer to [amxb_get]: objects with their parameters, in the order in which
    they are visited *)
Notation answer V := (list (cstr * list (cstr * V))).

(** The libraries.  [xml_content] is the text of a node that [xmlNewChild] makes:
    it takes its content as XML, with entity references. *)
Class values_library := {
  variant : Type;
  amxb_get : cstr -> Z -> Z * option (answer variant);
  describe_types : cstr -> option (cstr -> option Z);
  supported : cstr -> option (cstr -> option (list (cstr * Z)));
  build_supported_path : cstr -> cstr;
  type_of : variant -> Z;
  cstring_of : variant -> option cstr;
  var_id : Z -> amxc_var_id;
  not_supported_scheme : Z -> bool;
  vfilters : Type;
  get_vfilters : cstr -> vfilters;
  allowed : vfilters -> cstr -> bool;
  filter_resp : vfilters -> answer variant -> answer variant;
  cache_info : cstr -> ACSConnection.DM_ENG_NotificationMode * option (list cstr);
  mode_number : ACSConnection.DM_ENG_NotificationMode -> Z;
  xml_content : cstr -> cstr;
}.

(** [DM_ENG_ParameterValueStruct] *)
Record pvs := { pname : cstr; ptype : DM_ENG_ParameterType; pvalue : option cstr }.

Section Values.

Context {L : values_library} {A : alias_library}.

(** ** Types *)

(** [GET_INT32 (GETP_ARG (&desc, "0.parameters.key"), "type_id")], of a
    description that may be missing *)
Definition described_type (key paramkey : cstr) : Z :=
  default 0 (describe_types key ≫= fun desc => desc paramkey).

(** The row of the supported data model: the path with [{i}.] first *)
Definition supported_row (key : cstr) : option (list (cstr * Z)) :=
  supported key ≫= fun desc =>
  let supported_path := build_supported_path key in
  match desc (supported_path ++ cs "{i}.") with
  | Some l => Some l
  | None => desc supported_path
  end.

(** The loop over [supported_params] *)
Definition supported_type (unknown : Z) (key paramkey : cstr) : Z :=
  match List.find (fun x => bool_decide (x.1 = paramkey)) (default [] (supported_row key)) with
  | Some x => x.2
  | None => unknown
  end.

(** ** GetParameterValues *)

(** The body of the two loops of [ParseValues] *)
Definition parse_parameter (find_type : cstr -> cstr -> Z) (amx : amx_env) (acspath key : cstr)
    (x : cstr * variant) : pvs :=
  let type := find_type key x.1 in
  let type := if type =? -1 then type_of x.2 else type in
  {| pname := shown_path amx acspath (key ++ x.1); ptype := ConvertParameterType (var_id type);
     pvalue := cstring_of x.2 |}.

Definition parse_objects (find_type : cstr -> cstr -> Z) (amx : amx_env) (acspath : cstr) (object : answer variant) :
    list pvs :=
  concat (map (fun o => map (parse_parameter find_type amx acspath o.1) o.2) object).

(** [DM_ENG_Device_GetParameterValues_ParseValues] *)
Definition ParseValues (amx : amx_env) (acspath : cstr) (object : option (answer variant)) (pvsList : list pvs) :
    list pvs * Z :=
  (pvsList ++ parse_objects described_type amx acspath (default [] object), 0).

(** The same in the prpl build *)
Definition ParseValues_prpl (amx : amx_env) (acspath : cstr) (object : option (answer variant)) (pvsList : list pvs) :
    list pvs * Z :=
  (pvsList ++ parse_objects (supported_type (-1)) amx acspath (default [] object), 0).

Definition root_if_empty (path : cstr) : cstr := match path with [] => cs "Device." | _ => path end.

(** [DM_ENG_Device_GetParameterValues_GetValues] *)
Definition GetValues (amx : amx_env) (path : cstr) (pvsList : list pvs) : list pvs * Z :=
  let path := root_if_empty path in
  if negb (allowed (get_vfilters path) path) then (pvsList, DM_ENG_INVALID_PARAMETER_NAME)
  else
    let partialPath := EndsWithDot path in
    let wildcardIsUsed := contains "*" path in
    let r := amxb_get path (if partialPath then 20 else 0) in
    if (partialPath || wildcardIsUsed) && (negb (r.1 =? 0) || is_null r.2) then (pvsList, 0)
    else if negb (r.1 =? 0) then
      (pvsList, if not_supported_scheme r.1 then 0 else DM_ENG_INVALID_PARAMETER_NAME)
    else
      let get := if partialPath then filter_resp (get_vfilters path) <$> r.2 else r.2 in
      ParseValues amx path get pvsList.

(** The same in the prpl build *)
Definition GetValues_prpl (amx : amx_env) (path : cstr) (pvsList : list pvs) : list pvs * Z :=
  let path := root_if_empty path in
  if negb (allowed (get_vfilters path) path) then (pvsList, DM_ENG_INVALID_PARAMETER_NAME)
  else
    let partialPath := EndsWithDot path in
    let r := amxb_get path (if partialPath then 20 else 0) in
    if negb (r.1 =? 0) then
      (pvsList, if not_supported_scheme r.1 then 0 else DM_ENG_INVALID_PARAMETER_NAME)
    else if is_null r.2 then (pvsList, if partialPath then 0 else DM_ENG_INVALID_PARAMETER_NAME)
    else
      let get := if partialPath then filter_resp (get_vfilters path) <$> r.2 else r.2 in
      ParseValues_prpl amx path get pvsList.

(** The loop over the names *)
Fixpoint get_all (get : cstr -> list pvs -> list pvs * Z) (names : list cstr) (pvsList : list pvs) : list pvs * Z :=
  match names with
  | [] => (pvsList, 0)
  | p :: names' =>
      let r := get p pvsList in
      if negb (r.2 =? 0) then (r.1, r.2) else get_all get names' r.1
  end.

(** [DM_ENG_Device_GetParameterValues] *)
Definition DM_ENG_Device_GetParameterValues (amx : amx_env) (parameterNames : list cstr) (pvsList : list pvs) :
    list pvs * Z :=
  let r := if CheckSystem amx then get_all (GetValues amx) parameterNames pvsList else (pvsList, DM_ENG_INTERNAL_ERROR) in
  (if negb (r.2 =? 0) then [] else r.1, r.2).

(** The same in the prpl build *)
Definition DM_ENG_Device_GetParameterValues_prpl (amx : amx_env) (parameterNames : list cstr) (pvsList : list pvs) :
    list pvs * Z :=
  let r :=
    if CheckSystem amx then get_all (GetValues_prpl amx) parameterNames pvsList else (pvsList, DM_ENG_INTERNAL_ERROR) in
  (if negb (r.2 =? 0) then [] else r.1, r.2).

(** ** Complete answers in XML *)

(** [xmlNode]: tag, attributes, text, children *)
Inductive xml := Node (tag : string) (props : list (string * string)) (content : cstr) (sub : list xml).

(** [amx_type_to_xml_type] *)
Definition amx_type_to_xml_type (type : amxc_var_id) : string :=
  match type with
  | AMXC_VAR_ID_INT8 | AMXC_VAR_ID_INT16 | AMXC_VAR_ID_INT32 | AMXC_VAR_ID_INT64 => "xsd:int"
  | AMXC_VAR_ID_UINT8 | AMXC_VAR_ID_UINT16 | AMXC_VAR_ID_UINT32 | AMXC_VAR_ID_UINT64 => "xsd:unsignedInt"
  | AMXC_VAR_ID_CSTRING | AMXC_VAR_ID_CSV_STRING | AMXC_VAR_ID_SSV_STRING => "xsd:string"
  | AMXC_VAR_ID_TIMESTAMP => "xsd:dateTime"
  | AMXC_VAR_ID_BOOL => "xsd:boolean"
  | _ => "xsd:any"
  end.

(** [xml_add_parameter_value_struct] *)
Definition xml_add_parameter_value_struct (node : list xml) (name : cstr) (value : option cstr) (type : string) :
    list xml :=
  node ++ [Node "ParameterValueStruct" [] []
    [Node "Name" [] (xml_content name) [];
     Node "Value" [("xsi:type"%string, type)] (xml_content (default [] value)) []]].

(** [amxc_string_appendf (_, "name[%d]", count)] *)
Definition array_type (element : string) (count : Z) : string :=
  String.append element (String.append "[" (String.append (pretty (s32 count)) "]")).

(** The inner loop of [build_gpv_all_body] *)
Definition gpv_parameter (find_type : cstr -> cstr -> Z) (amx : amx_env) (key : cstr) (w : list xml * Z)
    (x : cstr * variant) : list xml * Z :=
  let name := shown_path amx (cs "Device.") (key ++ x.1) in
  (xml_add_parameter_value_struct w.1 name (cstring_of x.2) (amx_type_to_xml_type (var_id (find_type key x.1))),
   u32 (w.2 + 1)).

(** The outer loop; [known] is whether the types of an object could be read. *)
Fixpoint gpv_objects (find_type : cstr -> cstr -> Z) (known : cstr -> bool) (amx : amx_env) (objects : answer variant)
    (w : list xml * Z) : list xml * Z :=
  match objects with
  | [] => w
  | (key, params) :: objects' =>
      match params with
      | [] => gpv_objects find_type known amx objects' w
      | _ =>
          if negb (known key) then gpv_objects find_type known amx objects' w
          else gpv_objects find_type known amx objects' (foldl (gpv_parameter find_type amx key) w params)
      end
  end.

Definition gpv_body (find_type : cstr -> cstr -> Z) (known : cstr -> bool) (amx : amx_env) (get_result : answer variant) :
    xml :=
  let w := gpv_objects find_type known amx get_result ([], 0) in
  Node "cwmp:GetParameterValuesResponse" [] []
    [Node "ParameterList" [("soap-enc:arrayType"%string, array_type "cwmp:ParameterValueStruct" w.2)] [] w.1].

(** [build_gpv_all_body] *)
Definition build_gpv_all_body (amx : amx_env) (node_body : list xml) (get_result : answer variant) : list xml :=
  node_body ++ [gpv_body described_type (fun key => negb (is_null (describe_types key))) amx get_result].

(** The same in the prpl build *)
Definition build_gpv_all_body_prpl (amx : amx_env) (node_body : list xml) (get_result : answer variant) : list xml :=
  node_body ++ [gpv_body (supported_type 0) (fun key => negb (is_null (supported key))) amx get_result].

(** The part that the two requests for everything share *)
Definition get_everything (build : amx_env -> list xml -> answer variant -> list xml) (amx : amx_env)
    (node_body : list xml) : list xml * Z :=
  let path := cs "Device." in
  if negb (allowed (get_vfilters path) path) then (node_body, DM_ENG_INVALID_PARAMETER_NAME)
  else
    match amxb_get path (-1) with
    | (0, Some get_result) => (build amx node_body (filter_resp (get_vfilters path) get_result), 0)
    | (ret, _) => (node_body, if not_supported_scheme ret then 0 else DM_ENG_INVALID_PARAMETER_NAME)
    end.

(** [DM_ENG_Device_GetParameterValuesAll] *)
Definition DM_ENG_Device_GetParameterValuesAll (amx : amx_env) (node_body : list xml) : list xml * Z :=
  get_everything build_gpv_all_body amx node_body.

(** [xml_add_parameter_attribute_struct] *)
Definition xml_add_parameter_attribute_struct (node : list xml) (name : cstr) (nm : ACSConnection.DM_ENG_NotificationMode)
    (al : option (list cstr)) : list xml :=
  let entries := default [] al in
  node ++ [Node "ParameterAttributeStruct" [] []
    [Node "Name" [] (xml_content name) []; Node "Notification" [] (xml_content (cs (pretty (mode_number nm)))) [];
     Node "AccessList" [("soap-enc:arrayType"%string, array_type "string" (u32 (Z.of_nat (length entries))))] []
       (map (fun a => Node "string" [] (xml_content a) []) entries)]].

(** The inner loop of [build_gpa_all_body] *)
Definition gpa_parameter (amx : amx_env) (key : cstr) (w : list xml * Z) (x : cstr * variant) : list xml * Z :=
  let param_name := key ++ x.1 in
  let info := cache_info param_name in
  let nm := match info.1 with ACSConnection.FORCED => ACSConnection.ACTIVE | nm => nm end in
  (xml_add_parameter_attribute_struct w.1 (shown_path amx (cs "Device.") param_name) nm info.2, u32 (w.2 + 1)).

Fixpoint gpa_objects (amx : amx_env) (objects : answer variant) (w : list xml * Z) : list xml * Z :=
  match objects with
  | [] => w
  | (key, params) :: objects' => gpa_objects amx objects' (foldl (gpa_parameter amx key) w params)
  end.

(** [build_gpa_all_body] *)
Definition build_gpa_all_body (amx : amx_env) (node_body : list xml) (get_result : answer variant) : list xml :=
  let w := gpa_objects amx get_result ([], 0) in
  node_body ++ [Node "cwmp:GetParameterAttributesResponse" [] []
    [Node "ParameterList" [("soap-enc:arrayType"%string, array_type "cwmp:ParameterAttributeStruct" w.2)] [] w.1]].

(** [DM_ENG_Device_GetParameterAttributesAll] *)
Definition DM_ENG_Device_GetParameterAttributesAll (amx : amx_env) (node_body : list xml) : list xml * Z :=
  get_everything build_gpa_all_body amx node_body.

End Values.

End ReadValues.
