(* ===== verification/ReadValuesFacts.v ===== *)
(** * ReadValuesFacts: properties of [ReadValues] *)

From Stdlib Require Import ZArith Lia Ascii.
From stdpp Require Import base list strings pretty.
From S2P Require Import Prelude CString PathAlias IndexAlias ParameterNames ACSConnection ReadValues.

Module ReadValuesFacts.
Import CString.
Import PathAlias.
Import IndexAlias.
Import ParameterNames.
Import ReadValues.

(** What the code relies on: the filter keeps only parameters that may be read,
    and the scheme error is not the status of success. *)
Class ValuesLaws (L : values_library) : Prop := {
  filter_keeps f l key params x :
    (key, params) ∈ filter_resp f l -> x ∈ params -> allowed f (key ++ x.1) = true;
  scheme_error : not_supported_scheme 0 = false;
}.

Section Facts.

Context {L : values_library} {A : alias_library}.

(** ** Lists of values *)

(** What one path contributes *)
Definition path_values (amx : amx_env) (path : cstr) : list pvs := (GetValues amx path []).1.

Definition path_error (amx : amx_env) (path : cstr) : Z := (GetValues amx path []).2.

Lemma GetValues_app amx path l : GetValues amx path l = (l ++ path_values amx path, path_error amx path).
Proof.
  unfold path_values, path_error, GetValues, ParseValues. cbv zeta.
  repeat case_goal; cbn; rewrite ?app_nil_r; reflexivity.
Qed.

(** The answer has all values or none: without an error the values of the
    requested paths in the order of the request, each path with those of the bus;
    with an error no values, and the error is that of the first path that fails. *)
Theorem values_all_or_nothing (amx : amx_env) (names : list cstr) :
  let r := DM_ENG_Device_GetParameterValues amx names [] in
  if CheckSystem amx then
    match List.find (fun p => negb (path_error amx p =? 0)) names with
    | Some p => r = ([], path_error amx p)
    | None => r = (concat (map (path_values amx) names), 0)
    end
  else r = ([], DM_ENG_INTERNAL_ERROR).
Proof.
  cbv zeta. unfold DM_ENG_Device_GetParameterValues. destruct (CheckSystem amx); [|done].
  assert (H : forall l, get_all (GetValues amx) names l =
    match List.find (fun p => negb (path_error amx p =? 0)) names with
    | Some p => ((get_all (GetValues amx) names l).1, path_error amx p)
    | None => (l ++ concat (map (path_values amx) names), 0)
    end).
  { induction names as [|p names IH]; intros l; cbn; [by rewrite app_nil_r|].
    rewrite GetValues_app. cbn. destruct (path_error amx p =? 0) eqn:E; cbn; [|done].
    rewrite IH. destruct (List.find _ names); [done|]. by rewrite app_assoc. }
  rewrite H. destruct (List.find _ names) as [p|] eqn:E; [|done]. cbn.
  apply find_some in E as [_ E]. by rewrite E.
Qed.

(** A value in an answer belongs to a parameter of the bus. *)
Lemma path_values_elem amx path v :
  v ∈ path_values amx path ->
  let path := root_if_empty path in
  exists objs key params x,
    (amxb_get path (if EndsWithDot path then 20 else 0)).2 = Some objs /\
    (key, params) ∈ (if EndsWithDot path then filter_resp (get_vfilters path) objs else objs) /\ x ∈ params /\
    v = parse_parameter described_type amx path key x /\ allowed (get_vfilters path) path = true.
Proof.
  cbv zeta. unfold path_values, GetValues, ParseValues. cbv zeta. set (p := root_if_empty path).
  destruct (allowed (get_vfilters p) p) eqn:Ea; cbn [negb]; [|by intros ?%elem_of_nil].
  destruct (amxb_get p _) as [ret r] eqn:Er. cbn [fst snd].
  destruct (_ && _); [by intros ?%elem_of_nil|]. destruct (negb (ret =? 0)); [by intros ?%elem_of_nil|].
  cbn [fst app]. unfold parse_objects. intros Hv.
  apply list_elem_of_In, in_concat in Hv as (l & Hl & Hv).
  apply in_map_iff in Hl as ([key params] & <- & Hl). apply in_map_iff in Hv as (x & <- & Hx).
  destruct r as [objs|]; [|destruct (EndsWithDot p); destruct Hl].
  exists objs, key, params, x. rewrite !list_elem_of_In. split_and!; [done| |done..].
  by destruct (EndsWithDot p).
Qed.

Context {LL : ValuesLaws L}.

(** The values of a partial path are only those that the access rules let the
    ACS read, however the bus answers; a path of a parameter is tested as it was
    written, so that a wildcard in it is not resolved before the test. *)
Theorem values_permitted (amx : amx_env) (names : list cstr) (l : list pvs) (error : Z) (v : pvs)
    (H : DM_ENG_Device_GetParameterValues amx names [] = (l, error)) (Hv : v ∈ l) :
  exists path key name,
    path ∈ map root_if_empty names /\ pname v = shown_path amx path (key ++ name) /\
    allowed (get_vfilters path) path = true /\
    (EndsWithDot path = true -> allowed (get_vfilters path) (key ++ name) = true).
Proof.
  pose proof (values_all_or_nothing amx names) as Hr. cbv zeta in Hr. rewrite H in Hr.
  destruct (CheckSystem amx); [|injection Hr as -> _; by apply elem_of_nil in Hv].
  destruct (List.find _ names); injection Hr as -> _; [by apply elem_of_nil in Hv|].
  apply list_elem_of_In, in_concat in Hv as (vs & Hvs & Hv). apply in_map_iff in Hvs as (p & <- & Hp).
  apply list_elem_of_In, path_values_elem in Hv as (objs & key & params & x & _ & Ho & Hx & -> & Ha).
  exists (root_if_empty p), key, x.1. split_and!; [by apply list_elem_of_In, in_map|done|done|].
  intros E. rewrite E in Ho. by eapply filter_keeps.
Qed.

(** ** Types and the two builds *)

(** A parameter that the description of its object does not have, or whose
    object cannot be described, is reported with the type of the number 0; the
    type of its value, which is meant to replace an unknown one, is used only in
    the build with the supported data model. *)
Theorem type_fallback_unused (amx : amx_env) (acspath key : cstr) (x : cstr * variant) :
  (describe_types key ≫= (fun desc => desc x.1) = None ->
   ptype (parse_parameter described_type amx acspath key x) = ConvertParameterType (var_id 0)) /\
  (List.find (fun y => bool_decide (y.1 = x.1)) (default [] (supported_row key)) = None ->
   ptype (parse_parameter (supported_type (-1)) amx acspath key x) = ConvertParameterType (var_id (type_of x.2))).
Proof.
  split; intros H; unfold parse_parameter; cbn [ptype]; cbv zeta.
  - unfold described_type. by rewrite H.
  - unfold supported_type. by rewrite H.
Qed.

(** The two builds answer a path differently. *)
Definition builds_differ (path : cstr) : bool :=
  let p := root_if_empty path in
  let r := amxb_get p (if EndsWithDot p then 20 else 0) in
  allowed (get_vfilters p) p &&
  (((EndsWithDot p || contains "*" p) && negb (r.1 =? 0) && negb (not_supported_scheme r.1)) ||
   (negb (EndsWithDot p) && (r.1 =? 0) && is_null r.2)).

Lemma parse_objects_ext f g amx path objs :
  (forall key name, f key name = g key name) -> parse_objects f amx path objs = parse_objects g amx path objs.
Proof.
  intros H. unfold parse_objects. f_equal. apply map_ext. intros [key params]. apply map_ext. intros x.
  unfold parse_parameter. by rewrite H.
Qed.

(** When the two builds know the same types, they answer a path alike, except
    that the one with descriptions answers an unresolved partial or wildcard path,
    and a parameter for which the bus answers nothing, without values and
    without an error, where the other one answers with an error. *)
Theorem builds_agree_on_values (amx : amx_env) (path : cstr) (l : list pvs)
    (Htypes : forall key name, described_type key name = supported_type (-1) key name) :
  if builds_differ path then
    GetValues amx path l = (l, 0) /\ GetValues_prpl amx path l = (l, DM_ENG_INVALID_PARAMETER_NAME)
  else GetValues amx path l = GetValues_prpl amx path l.
Proof.
  unfold builds_differ, GetValues, GetValues_prpl, ParseValues, ParseValues_prpl. cbv zeta.
  set (p := root_if_empty path). destruct (allowed (get_vfilters p) p); cbn [negb andb]; [|done].
  destruct (amxb_get p _) as [ret r]. cbn [fst snd].
  destruct (EndsWithDot p), (contains "*" p), (ret =? 0), (not_supported_scheme ret), r;
    cbn [negb andb orb is_null]; rewrite ?(parse_objects_ext _ _ _ _ _ Htypes); try done; cbn; by rewrite app_nil_r.
Qed.

(** ** Complete answers *)

Definition node_of (find_type : cstr -> cstr -> Z) (amx : amx_env) (o : cstr * (cstr * variant)) : xml :=
  Node "ParameterValueStruct" [] []
    [Node "Name" [] (xml_content (shown_path amx (cs "Device.") (o.1 ++ o.2.1))) [];
     Node "Value" [("xsi:type"%string, amx_type_to_xml_type (var_id (find_type o.1 o.2.1)))]
       (xml_content (default [] (cstring_of o.2.2))) []].

(** The parameters of the objects whose types are known *)
Definition listed (known : cstr -> bool) (objects : answer variant) : list (cstr * (cstr * variant)) :=
  concat (map (fun o => if known o.1 then map (pair o.1) o.2 else []) objects).

Lemma u32_add1 a n : u32 (u32 (a + 1) + n) = u32 (a + (n + 1)).
Proof. unfold u32. rewrite Z.add_mod_idemp_l by lia. f_equal. lia. Qed.

Lemma foldl_nodes {B} (f : list xml * Z -> B -> list xml * Z) (g : B -> xml) (ps : list B) nodes n :
  (forall w x, f w x = (w.1 ++ [g x], u32 (w.2 + 1))) -> u32 n = n ->
  foldl f (nodes, n) ps = (nodes ++ map g ps, u32 (n + Z.of_nat (length ps))).
Proof.
  intros Hf. revert nodes n. induction ps as [|x ps IH]; intros nodes n Hn.
  - cbn. by rewrite app_nil_r, Z.add_0_r, Hn.
  - cbn [foldl]. rewrite Hf. cbn [fst snd]. rewrite IH by (apply u32_id, u32_range).
    cbn [map length]. rewrite u32_add1, <- app_assoc. do 2 f_equal. lia.
Qed.

Lemma gpv_objects_listed find_type known amx objects nodes n :
  u32 n = n ->
  gpv_objects find_type known amx objects (nodes, n) =
    (nodes ++ map (node_of find_type amx) (listed known objects), u32 (n + Z.of_nat (length (listed known objects)))).
Proof.
  revert nodes n. induction objects as [|[key params] objects IH]; intros nodes n Hn; cbn [gpv_objects].
  { cbn. by rewrite app_nil_r, Z.add_0_r, Hn. }
  assert (E : gpv_objects find_type known amx objects
      (if known key then foldl (gpv_parameter find_type amx key) (nodes, n) params else (nodes, n)) =
    (nodes ++ map (node_of find_type amx) (listed known ((key, params) :: objects)),
     u32 (n + Z.of_nat (length (listed known ((key, params) :: objects)))))).
  { unfold listed. cbn [map concat fst snd]. fold (listed known objects). destruct (known key); [|by apply IH].
    rewrite (foldl_nodes _ (fun x => node_of find_type amx (key, x))) by done.
    rewrite IH by (apply u32_id, u32_range). rewrite map_app, length_app, length_map, map_map, <- app_assoc.
    f_equal. unfold u32. rewrite Z.add_mod_idemp_l by lia. f_equal. lia. }
  destruct params as [|x params]; [by rewrite <- E; destruct (known key)|]. destruct (known key); exact E.
Qed.

(** The value of an attribute of the list in an answer *)
Definition attribute (name : string) (node : xml) : option string :=
  match node with Node _ props _ _ => snd <$> List.find (fun x => streq x.1 name) props end.

Definition sub_nodes (node : xml) : list xml := match node with Node _ _ _ l => l end.

Lemma array_type_exact element n : Z.of_nat n < 2 ^ 31 -> array_type element (u32 (0 + Z.of_nat n)) =
  String.append element (String.append "[" (String.append (pretty (Z.of_nat n)) "]")).
Proof. intros H. unfold array_type. by rewrite u32_id, s32_id by lia. Qed.

(** The node of a value of GetParameterValues *)
Definition xml_type (t : DM_ENG_ParameterType) : string :=
  match t with
  | DM_ENG_ParameterType_INT | DM_ENG_ParameterType_LONG => "xsd:int"
  | DM_ENG_ParameterType_UINT | DM_ENG_ParameterType_ULONG => "xsd:unsignedInt"
  | DM_ENG_ParameterType_STRING => "xsd:string"
  | DM_ENG_ParameterType_BOOLEAN => "xsd:boolean"
  | DM_ENG_ParameterType_DATE => "xsd:dateTime"
  | _ => "xsd:any"
  end.

Definition xml_of_pvs (v : pvs) : xml :=
  Node "ParameterValueStruct" [] []
    [Node "Name" [] (pname v) []; Node "Value" [("xsi:type"%string, xml_type (ptype v))] (default [] (pvalue v)) []].

Lemma xml_type_convert type : amx_type_to_xml_type type = xml_type (ConvertParameterType type).
Proof. by destruct type. Qed.

Lemma listed_all known objects :
  (forall key params, (key, params) ∈ objects -> params <> [] -> known key = true) ->
  listed known objects = concat (map (fun o => map (pair o.1) o.2) objects).
Proof.
  intros H. unfold listed. f_equal. apply map_ext_in. intros [key params] Hin. cbn.
  destruct params as [|x params]; [by destruct (known key)|]. by rewrite (H key (x :: params)) by (by apply list_elem_of_In || done).
Qed.

(** The parameters of all objects, and what GetParameterValues makes of them *)
Lemma listed_parsed amx (objects : answer variant) o :
  In o (concat (map (fun o => map (pair o.1) o.2) objects)) ->
  parse_parameter described_type amx (cs "Device.") o.1 o.2 ∈ parse_objects described_type amx (cs "Device.") objects.
Proof.
  rewrite in_concat. intros (l & Hl & Hx). apply in_map_iff in Hl as ([key params] & <- & Hin).
  apply in_map_iff in Hx as (x & <- & Hx). apply list_elem_of_In. unfold parse_objects. apply in_concat.
  eexists. split; [by apply in_map|]. cbn. by apply in_map.
Qed.

(** A text without a reference to an entity *)
Definition plain (s : cstr) : Prop := "&"%char ∉ s.

Lemma node_of_plain amx (o : cstr * (cstr * variant)) :
  described_type o.1 o.2.1 <> -1 -> (forall s, plain s -> xml_content s = s) ->
  plain (pname (parse_parameter described_type amx (cs "Device.") o.1 o.2)) /\
    plain (default [] (pvalue (parse_parameter described_type amx (cs "Device.") o.1 o.2))) ->
  node_of described_type amx o = xml_of_pvs (parse_parameter described_type amx (cs "Device.") o.1 o.2).
Proof.
  intros Ht Hx [H1 H2]. unfold node_of, xml_of_pvs, parse_parameter in *. cbn [fst snd pname ptype pvalue] in *.
  cbv zeta. rewrite (proj2 (Z.eqb_neq _ _) Ht), xml_type_convert. by rewrite !Hx.
Qed.

(** C22: the request for all values in XML is the XML of GetParameterValues of
    [Device.], when the adapter is connected, the ACS may read [Device.], the
    answer of the bus does not depend on the depth that is asked for, every
    object with parameters can be described, with a type for each parameter, and
    no name or value has an ampersand, which [xmlNewChild] does not escape:
    the same parameters in the same order, with the same values and types, and
    the announced length of the array is their number, as long as that is an
    [int]. *)
Theorem all_values_match (amx : amx_env) (objs : answer variant)
    (Hsys : CheckSystem amx = true) (Hallowed : allowed (get_vfilters (cs "Device.")) (cs "Device.") = true)
    (Hget : amxb_get (cs "Device.") 20 = (0, Some objs)) (Hall : amxb_get (cs "Device.") (-1) = (0, Some objs))
    (Hdesc : forall key params, (key, params) ∈ filter_resp (get_vfilters (cs "Device.")) objs -> params <> [] ->
       describe_types key <> None)
    (Htype : forall key name, described_type key name <> -1)
    (Hxml : forall s, plain s -> xml_content s = s)
    (Hplain : Forall (fun v => plain (pname v) /\ plain (default [] (pvalue v))) (path_values amx (cs "Device.")))
    (Hfit : Z.of_nat (length (path_values amx (cs "Device."))) < 2 ^ 31) :
  exists l,
    DM_ENG_Device_GetParameterValues amx [cs "Device."] [] = (l, 0) /\
    DM_ENG_Device_GetParameterValuesAll amx [] =
      ([Node "cwmp:GetParameterValuesResponse" [] []
         [Node "ParameterList"
           [("soap-enc:arrayType"%string,
             String.append "cwmp:ParameterValueStruct[" (String.append (pretty (Z.of_nat (length l))) "]"))] []
           (map xml_of_pvs l)]], 0).
Proof.
  set (objs' := filter_resp (get_vfilters (cs "Device.")) objs) in *.
  assert (Hg : forall l, GetValues amx (cs "Device.") l = (l ++ parse_objects described_type amx (cs "Device.") objs', 0)).
  { intros l. unfold GetValues. change (root_if_empty (cs "Device.")) with (cs "Device."). cbv zeta.
    rewrite Hallowed. change (EndsWithDot (cs "Device.")) with true. cbv iota. by rewrite Hget. }
  set (l := parse_objects described_type amx (cs "Device.") objs'). exists l.
  assert (El : path_values amx (cs "Device.") = l) by (unfold path_values; by rewrite Hg).
  split.
  { unfold DM_ENG_Device_GetParameterValues. rewrite Hsys. cbn [get_all]. by rewrite Hg. }
  unfold DM_ENG_Device_GetParameterValuesAll, get_everything. cbv zeta. rewrite Hallowed, Hall. cbn [negb].
  unfold build_gpv_all_body, gpv_body. fold objs'. rewrite gpv_objects_listed by done. cbn [app fst snd].
  rewrite listed_all by (intros key params H1 H2; specialize (Hdesc key params H1 H2); by destruct (describe_types key)).
  set (all := concat (map (fun o : cstr * list (cstr * variant) => map (pair o.1) o.2) objs')).
  assert (E : map (node_of described_type amx) all = map xml_of_pvs l).
  { rewrite El in Hplain. rewrite Forall_forall in Hplain.
    etrans; [apply map_ext_in; intros o H; exact (node_of_plain amx o (Htype _ _) Hxml (Hplain _ (listed_parsed amx objs' o H)))|].
    unfold all, l, parse_objects. rewrite !concat_map, !map_map. f_equal. apply map_ext. intros [key params].
    by rewrite !map_map. }
  rewrite E. assert (En : length all = length l) by (rewrite <- (length_map xml_of_pvs l), <- E; by rewrite length_map).
  rewrite En, array_type_exact by congruence. done.
Qed.

(** The node of a parameter in the answer with all attributes *)
Definition attribute_node (amx : amx_env) (o : cstr * (cstr * variant)) : xml :=
  let info := cache_info (o.1 ++ o.2.1) in
  Node "ParameterAttributeStruct" [] []
    [Node "Name" [] (xml_content (shown_path amx (cs "Device.") (o.1 ++ o.2.1))) [];
     Node "Notification" []
       (xml_content (cs (pretty (mode_number
          (match info.1 with ACSConnection.FORCED => ACSConnection.ACTIVE | nm => nm end))))) [];
     Node "AccessList"
       [("soap-enc:arrayType"%string, array_type "string" (u32 (Z.of_nat (length (default [] info.2)))))] []
       (map (fun a => Node "string" [] (xml_content a) []) (default [] info.2))].

Lemma gpa_objects_nodes amx objects nodes n :
  u32 n = n ->
  let all := concat (map (fun o : cstr * list (cstr * variant) => map (pair o.1) o.2) objects) in
  gpa_objects amx objects (nodes, n) = (nodes ++ map (attribute_node amx) all, u32 (n + Z.of_nat (length all))).
Proof.
  cbv zeta. revert nodes n. induction objects as [|[key params] objects IH]; intros nodes n Hn; cbn [gpa_objects].
  { cbn. by rewrite app_nil_r, Z.add_0_r, Hn. }
  rewrite (foldl_nodes _ (fun x => attribute_node amx (key, x))) by done.
  rewrite IH by (apply u32_id, u32_range). cbn [map concat fst snd].
  rewrite map_app, length_app, length_map, map_map, <- app_assoc.
  f_equal. unfold u32. rewrite Z.add_mod_idemp_l by lia. f_equal. lia.
Qed.

(** The request for all attributes lists every parameter of the answer that
    the access rules keep, once and in its order, with the mode of the cache (a
    forced notification is shown as an active one) and its access list, and the
    announced length of the array is their number. *)
Theorem all_attributes_listed (amx : amx_env) (objs : answer variant)
    (Hallowed : allowed (get_vfilters (cs "Device.")) (cs "Device.") = true)
    (Hget : amxb_get (cs "Device.") (-1) = (0, Some objs)) :
  let all := concat (map (fun o : cstr * list (cstr * variant) => map (pair o.1) o.2)
    (filter_resp (get_vfilters (cs "Device.")) objs)) in
  Z.of_nat (length all) < 2 ^ 31 ->
  DM_ENG_Device_GetParameterAttributesAll amx [] =
    ([Node "cwmp:GetParameterAttributesResponse" [] []
       [Node "ParameterList"
         [("soap-enc:arrayType"%string,
           String.append "cwmp:ParameterAttributeStruct[" (String.append (pretty (Z.of_nat (length all))) "]"))] []
         (map (attribute_node amx) all)]], 0).
Proof.
  cbv zeta. intros Hfit. unfold DM_ENG_Device_GetParameterAttributesAll, get_everything. cbv zeta.
  rewrite Hallowed, Hget. cbn [negb]. unfold build_gpa_all_body. rewrite gpa_objects_nodes by done.
  cbn [app fst snd]. by rewrite array_type_exact.
Qed.

End Facts.

End ReadValuesFacts.
