(* ===== verification/ReadValuesExamples.v ===== *)
(** * ReadValuesExamples: the values of a small data model *)

From Stdlib Require Import ZArith Lia Ascii.
From stdpp Require Import base list strings pretty.
From S2P Require Import Prelude CString PathAlias IndexAlias ParameterNames ACSConnection ReadValues ReadValuesFacts.

Module ReadValuesExamples.
Import CString.
Import PathAlias.
Import IndexAlias.
Import ParameterNames.
Import ReadValues.
Import ReadValuesFacts.

Definition row (path : string) (ps : list (string * string)) : cstr * list (cstr * cstr) :=
  (cs path, map (fun x => (cs x.1, cs x.2)) ps).

Definition ex_objects : list (cstr * list (cstr * cstr)) :=
  [row "Device." [];
   row "Device.DeviceInfo." [("Manufacturer", "ACME"); ("UpTime", "42")]%string;
   row "Device.Users." [("Password", "secret")]%string].

Definition is_password (p : cstr) : bool := bool_decide (p = cs "Device.Users.Password").

(** [UpTime] has a type that the bus tells. *)
#[local] Instance ex_values : values_library := {|
  variant := cstr;
  amxb_get := fun p _ =>
    if bool_decide (p = cs "Device.") then (0, Some ex_objects)
    else if bool_decide (p = cs "Device.DeviceInfo.UpTime") then (0, Some [row "Device.DeviceInfo." [("UpTime", "42")]%string])
    else if bool_decide (p = cs "Device.DeviceInfo.Nothing") then (0, None)
    else (4, None);
  describe_types := fun key => Some (fun p => if bool_decide (p = cs "UpTime") then Some 8 else Some 1);
  supported := fun key => Some (fun _ => Some [(cs "UpTime", 8); (cs "Manufacturer", 1); (cs "Password", 1)]);
  build_supported_path := fun p => p;
  type_of := fun _ => 1;
  cstring_of := Some;
  var_id := fun z => if z =? 8 then AMXC_VAR_ID_UINT32 else if z =? 1 then AMXC_VAR_ID_CSTRING else AMXC_VAR_ID_OTHER z;
  not_supported_scheme := fun rv => rv =? 10;
  vfilters := unit;
  get_vfilters := fun _ => tt;
  allowed := fun _ p => negb (is_password p);
  filter_resp := fun _ => map (fun o => (o.1, List.filter (fun x => negb (is_password (o.1 ++ x.1))) o.2));
  cache_info := fun p => (if bool_decide (p = cs "Device.DeviceInfo.UpTime") then ACSConnection.FORCED else ACSConnection.OFF,
                          Some [cs "Subscriber"]);
  mode_number := fun m => match m with ACSConnection.OFF => 0 | ACSConnection.PASSIVE => 1 | _ => 2 end;
  xml_content := fun s => s;
|}.

#[local] Instance ex_alias : alias_library := {|
  fixed_part := fun p => None; split := fun s => Some (elements s []); is_numeric := fun s => false;
  get_alias := fun s => None;
|}.

#[local] Instance ex_values_laws : ValuesLaws ex_values.
Proof.
  constructor; [|done]. intros f l key params x. cbn. intros H Hx.
  apply list_elem_of_fmap in H as ([k ps] & E & _). injection E as -> ->.
  by apply list_elem_of_In, List.filter_In in Hx as [_ Hx].
Qed.

Definition ex_env : amx_env := {| bus_ctx := true; prefix := cs "Device."; instanceAlias := false |}.

Definition ex_values_of_device : list pvs := (DM_ENG_Device_GetParameterValues ex_env [cs "Device."] []).1.

Example ex_get_device :
  map (fun v => (pname v, ptype v)) ex_values_of_device =
    [(cs "Device.DeviceInfo.Manufacturer", DM_ENG_ParameterType_STRING);
     (cs "Device.DeviceInfo.UpTime", DM_ENG_ParameterType_UINT)].
Proof. vm_compute. reflexivity. Qed.

Definition uptime : pvs :=
  {| pname := cs "Device.DeviceInfo.UpTime"; ptype := DM_ENG_ParameterType_UINT; pvalue := Some (cs "42") |}.

Lemma values_permitted_witness :
  exists path key name,
    path ∈ map root_if_empty [cs "Device."] /\ pname uptime = shown_path ex_env path (key ++ name) /\
    allowed (get_vfilters path) path = true /\
    (EndsWithDot path = true -> allowed (get_vfilters path) (key ++ name) = true).
Proof.
  assert (H : DM_ENG_Device_GetParameterValues ex_env [cs "Device."] [] = (ex_values_of_device, 0))
    by (vm_compute; reflexivity).
  apply (values_permitted ex_env [cs "Device."] ex_values_of_device 0 uptime H).
  apply list_elem_of_In. right. left. vm_compute. reflexivity.
Defined.

Definition other : cstr * @variant ex_values := (cs "Other", cs "v").

Lemma type_fallback_unused_witness :
  ptype (parse_parameter (supported_type (-1)) ex_env [] (cs "Device.DeviceInfo.") other) = DM_ENG_ParameterType_STRING.
Proof.
  destruct (type_fallback_unused ex_env [] (cs "Device.DeviceInfo.") other) as [_ H].
  rewrite H; [reflexivity|vm_compute; reflexivity].
Defined.

Definition known_name (p : cstr) : bool :=
  bool_decide (p = cs "UpTime") || bool_decide (p = cs "Manufacturer") || bool_decide (p = cs "Password").

(** A library in which both builds know the same types *)
Definition ex_same : values_library := {|
  variant := cstr;
  amxb_get := @amxb_get ex_values;
  describe_types := fun key => Some (fun _ => Some (-1));
  supported := fun key => None;
  build_supported_path := fun p => p;
  type_of := fun _ => 1;
  cstring_of := Some;
  var_id := @var_id ex_values;
  not_supported_scheme := fun rv => rv =? 10;
  vfilters := unit;
  get_vfilters := fun _ => tt;
  allowed := fun _ p => true;
  filter_resp := fun _ l => l;
  cache_info := @cache_info ex_values;
  mode_number := @mode_number ex_values;
  xml_content := fun s => s;
|}.

Lemma builds_agree_on_values_witness :
  @GetValues ex_same ex_alias ex_env (cs "Device.") [] = @GetValues_prpl ex_same ex_alias ex_env (cs "Device.") [] /\
  @GetValues ex_same ex_alias ex_env (cs "Device.DeviceInfo.Nothing") [] = ([], 0) /\
  @GetValues_prpl ex_same ex_alias ex_env (cs "Device.DeviceInfo.Nothing") [] = ([], 9005).
Proof.
  assert (Ht : forall key name, @described_type ex_same key name = @supported_type ex_same (-1) key name) by reflexivity.
  split; [exact (@builds_agree_on_values ex_same ex_alias ex_env (cs "Device.") [] Ht)|].
  exact (@builds_agree_on_values ex_same ex_alias ex_env (cs "Device.DeviceInfo.Nothing") [] Ht).
Defined.

Lemma all_values_match_witness :
  exists l, DM_ENG_Device_GetParameterValues ex_env [cs "Device."] [] = (l, 0) /\
    DM_ENG_Device_GetParameterValuesAll ex_env [] =
      ([Node "cwmp:GetParameterValuesResponse" [] []
         [Node "ParameterList"
           [("soap-enc:arrayType"%string,
             String.append "cwmp:ParameterValueStruct[" (String.append (pretty (Z.of_nat (length l))) "]"))] []
           (map xml_of_pvs l)]], 0).
Proof.
  apply (@all_values_match ex_values ex_alias ex_env ex_objects).
  - reflexivity.
  - reflexivity.
  - reflexivity.
  - reflexivity.
  - intros key params _ _. discriminate.
  - intros key name. unfold described_type. cbn. destruct (bool_decide _); discriminate.
  - intros s _. reflexivity.
  - unfold plain. apply (bool_decide_unpack _). vm_compute. exact I.
  - vm_compute. reflexivity.
Defined.

Lemma all_attributes_listed_witness :
  DM_ENG_Device_GetParameterAttributesAll ex_env [] =
    ([Node "cwmp:GetParameterAttributesResponse" [] []
       [Node "ParameterList" [("soap-enc:arrayType", "cwmp:ParameterAttributeStruct[2]")%string] []
         (map (@attribute_node ex_values ex_alias ex_env)
           [(cs "Device.DeviceInfo.", (cs "Manufacturer", cs "ACME")); (cs "Device.DeviceInfo.", (cs "UpTime", cs "42"))])]], 0).
Proof.
  etrans; [apply (@all_attributes_listed ex_values ex_alias ex_env ex_objects)|]; [reflexivity|reflexivity|vm_compute; reflexivity|].
  vm_compute. reflexivity.
Defined.

End ReadValuesExamples.
