(* ===== verification/InformParameters.v ===== *)
(** * InformParameters: the configurable part of the Inform message
    ([DM_ENG_Device_GetInformParameterValues] of
    [src/src/dmdeviceadapter/amx/adapter/DM_DeviceAdapter.c])

    The instances of [ManagementServer.InformParameter] name parameters that are
    sent with an Inform, for some events, periodic intervals and numbers of
    messages.  The class [inform_library] has the bus, the functions on paths
    and strings, and the engine, which reads the values. *)

From Stdlib Require Import ZArith Lia Ascii.
From stdpp Require Import base list strings.
From S2P Require Import Prelude CString SystemParameters.

Module InformParameters.
Import CString.
Import SystemParameters.

(** An instance of [ManagementServer.InformParameter] *)
Record row := {
  Enable : bool;
  EventList : option string;
  Interval : Z;
  Count : Z;
  ParameterName : option cstr;
}.

(** [search] is the answer to [amxb_get] for a search path: objects with the
    names of their parameters; [value_of_parameter] the first element of the
    answer of [DM_ENG_GetParameterValues]. *)
Class inform_library := {
  rows : option (list row);
  csv : string -> list string;
  contains_event : list string -> string -> bool;
  value_of : DM_ENG_SystemParameter_t -> Z * option string;
  is_search_path : cstr -> bool;
  has_param : cstr -> bool;
  search : cstr -> option (list (cstr * list cstr));
  value : Type;
  value_of_parameter : cstr -> option value;
}.

Definition DM_ENG_INTERNAL_ERROR : Z := 9002.

Section Inform.

Context {L : inform_library}.

(** [DM_ENG_Device_MatchingEvent] of the events of the session; [None]: the exit
    cleans a string and a variant that were not initialised. *)
Definition MatchingEvent (dmEvents : option string) (eventList : list string) : option bool :=
  match dmEvents with
  | None | Some EmptyString => None
  | Some s => Some (existsb (contains_event eventList) (csv s))
  end.

(** [DM_ENG_Device_MatchingInterval] *)
Definition MatchingInterval (interval : Z) : bool :=
  if interval =? 0 then true
  else
    match value_of DM_ENG_PERIODICINFORMINTERVAL with
    | (0, Some s) => if str_empty (Some s) then false else u32 (atoi s) =? interval
    | _ => false
    end.

(** [DM_ENG_Device_MatchingCount] *)
Definition MatchingCount (count : Z) : bool :=
  if count =? 0 then true
  else
    match value_of DM_ENG_PERIODICINFORMCOUNTER with
    | (0, Some s) => if str_empty (Some s) then false else u32 (u32 (atoi s) + 1) mod count =? 0
    | _ => false
    end.

(** [DM_ENG_addParameterValueStruct] of the first value, if there is one *)
Definition add_value (path : cstr) (pvsList : list value) : list value :=
  match value_of_parameter path with Some v => pvsList ++ [v] | None => pvsList end.

(** The parameters that a name stands for *)
Definition parameters_of (parameterName : cstr) : list cstr :=
  if is_search_path parameterName then
    match search parameterName with
    | Some rsearch => concat (map (fun s => map (fun kv => s.1 ++ kv) s.2) rsearch)
    | None => []
    end
  else if has_param parameterName then [parameterName] else [].

(** The body of the loop over the rows *)
Definition inform_row (eventList : list string) (r : row) (pvsList : list value) : option (list value) :=
  if negb (Enable r) then Some pvsList
  else
    match MatchingEvent (EventList r) eventList with
    | None => None
    | Some false => Some pvsList
    | Some true =>
        if negb (MatchingInterval (Interval r)) then Some pvsList
        else if negb (MatchingCount (Count r)) then Some pvsList
        else
          match ParameterName r with
          | None => Some pvsList
          | Some name => Some (foldl (fun l p => add_value p l) pvsList (parameters_of name))
          end
    end.

Fixpoint inform_rows (eventList : list string) (l : list row) (pvsList : list value) : option (list value) :=
  match l with
  | [] => Some pvsList
  | r :: l' => inform_row eventList r pvsList ≫= inform_rows eventList l'
  end.

(** [DM_ENG_Device_GetInformParameterValues] *)
Definition DM_ENG_Device_GetInformParameterValues (eventList : list string) (pvsList : list value) :
    option (list value * Z) :=
  match rows with
  | None => Some ([], DM_ENG_INTERNAL_ERROR)
  | Some l => (fun r => (r, 0)) <$> inform_rows eventList l pvsList
  end.

(** ** Properties *)

(** A row without events that is used *)
Definition empty_events (r : row) : bool := Enable r && str_empty (EventList r).

(** A row whose parameters belong in the message *)
Definition selected (eventList : list string) (r : row) : bool :=
  Enable r && existsb (contains_event eventList) (csv (default ""%string (EventList r))) &&
  MatchingInterval (Interval r) && MatchingCount (Count r).

Definition row_values (r : row) : list value :=
  omap value_of_parameter (match ParameterName r with Some name => parameters_of name | None => [] end).

Lemma add_values l ps : foldl (fun l p => add_value p l) l ps = l ++ omap value_of_parameter ps.
Proof.
  revert l. induction ps as [|p ps IH]; intros l; cbn; [by rewrite app_nil_r|]. rewrite IH. unfold add_value.
  destruct (value_of_parameter p); [|done]. by rewrite <- app_assoc.
Qed.

Lemma inform_row_spec eventList r l :
  inform_row eventList r l =
    if empty_events r then None else Some (l ++ (if selected eventList r then row_values r else [])).
Proof.
  unfold inform_row, empty_events, selected, row_values, MatchingEvent.
  destruct (Enable r); cbn [negb andb]; [|by rewrite app_nil_r].
  destruct (EventList r) as [[|c s]|]; [done| |done]. cbn [str_empty default].
  rewrite bool_decide_eq_false_2 by done. destruct (existsb _ _); cbn [andb]; [|by rewrite app_nil_r].
  destruct (MatchingInterval _); cbn [negb andb]; [|by rewrite app_nil_r].
  destruct (MatchingCount _); cbn [negb]; [|by rewrite app_nil_r].
  destruct (ParameterName r) as [name|]; [by rewrite add_values|]. cbn. by rewrite app_nil_r.
Qed.

(** The request is undefined exactly if an enabled row lists no events, which
    is what the data model says for a row that holds for all events: then a
    string and a variant are cleaned that were never initialised.  Otherwise it
    returns the values of the selected rows in their order, leaves out what
    cannot be read, and it fails only when the rows cannot be read. *)
Theorem inform_values (eventList : list string) (l : list row) (H : rows = Some l) (pvsList : list value) :
  DM_ENG_Device_GetInformParameterValues eventList pvsList =
    if existsb empty_events l then None
    else Some (pvsList ++ concat (map row_values (List.filter (selected eventList) l)), 0).
Proof.
  unfold DM_ENG_Device_GetInformParameterValues. rewrite H.
  assert (E : inform_rows eventList l pvsList =
    if existsb empty_events l then None
    else Some (pvsList ++ concat (map row_values (List.filter (selected eventList) l)))).
  { clear H. revert pvsList. induction l as [|r l IH]; intros pvsList; cbn; [by rewrite app_nil_r|].
    rewrite inform_row_spec. destruct (empty_events r); cbn; [done|]. rewrite IH.
    destruct (existsb _ _); [done|]. destruct (selected eventList r); cbn; by rewrite <- ?app_assoc. }
  rewrite E. by destruct (existsb _ _).
Qed.

(** A row with a count is selected on every count-th message: the number of
    messages sent before, plus one for this message, is a multiple of the count,
    as long as the counter does not reach the largest [unsigned int]; there it
    starts again at zero, and every count matches. *)
Theorem count_selects_every (count : Z) (s : string)
    (Hcount : 0 < count) (Hs : value_of DM_ENG_PERIODICINFORMCOUNTER = (0, Some s)) (Hne : s <> EmptyString) :
  (0 <= atoi s -> MatchingCount count = true <-> (count | atoi s + 1)) /\
  (atoi s = -1 -> MatchingCount count = true).
Proof.
  pose proof (atoi_range s) as Hr. unfold MatchingCount. rewrite Hs.
  rewrite (proj2 (Z.eqb_neq count 0)) by lia. cbn [str_empty]. rewrite bool_decide_eq_false_2 by done.
  split; intros H.
  - rewrite (u32_id (atoi s)), u32_id by lia. rewrite Z.eqb_eq. split; intros D.
    + by apply Z.mod_divide; [lia|].
    + by apply Z.mod_divide in D; [|lia].
  - rewrite H. by rewrite (Z.mod_small (u32 (u32 (-1) + 1))) by (change (u32 (u32 (-1) + 1)) with 0; lia).
Qed.

End Inform.

(** ** Witnesses *)

Definition ex_rows : list row :=
  [{| Enable := true; EventList := Some "2 PERIODIC"%string; Interval := 0; Count := 3;
      ParameterName := Some (cs "Device.DeviceInfo.UpTime") |};
   {| Enable := true; EventList := Some "1 BOOT"%string; Interval := 0; Count := 0;
      ParameterName := Some (cs "Device.DeviceInfo.SerialNumber") |}].

#[local] Instance ex_library : inform_library := {|
  rows := Some ex_rows;
  csv := fun s => [s];
  contains_event := fun l e => existsb (streq e) l;
  value_of := fun p => (0, Some "5"%string);
  is_search_path := fun _ => false;
  has_param := fun _ => true;
  search := fun _ => None;
  value := cstr;
  value_of_parameter := Some;
|}.

Lemma inform_values_witness :
  DM_ENG_Device_GetInformParameterValues ["2 PERIODIC"%string] [] = Some ([cs "Device.DeviceInfo.UpTime"], 0).
Proof. etrans; [exact (inform_values ["2 PERIODIC"%string] ex_rows eq_refl [])|]. vm_compute. reflexivity. Defined.

Lemma count_selects_every_witness : MatchingCount 3 = true /\ (3 | atoi "5" + 1).
Proof.
  destruct (@count_selects_every ex_library 3 "5" ltac:(lia) eq_refl ltac:(discriminate)) as [H _].
  split; [apply H; [vm_compute; discriminate|by exists 2]|by exists 2].
Defined.

(** A row for all events *)
Example ex_undefined :
  @DM_ENG_Device_GetInformParameterValues
    {| rows := Some [{| Enable := true; EventList := Some ""%string; Interval := 0; Count := 0; ParameterName := None |}];
       csv := csv; contains_event := contains_event; value_of := value_of; is_search_path := is_search_path;
       has_param := has_param; search := search; value := cstr; value_of_parameter := Some |}
    ["2 PERIODIC"%string] [] = None.
Proof. reflexivity. Qed.

End InformParameters.
