(* ===== verification/SetValuesSupported.v ===== *)
(** * SetValuesSupported: SetParameterValues with the supported data model
    ([DM_AmxParameterValues_prpl.c])

    The build with the supported data model validates the parameters against
    [amxb_get_supported] instead of a description of each object; setting them
    is the code of [SetValues].  The function that frees the strings at the end
    of the validation also frees one that the first three error exits have not
    initialised, and the name of the parameter is compared although it is null
    for a name that ends with a dot: those runs are [Undefined] here.  The theorem of this file
    gives the result of every call: which lists are undefined, and that the
    others are answered as in the build with descriptions. *)

From Stdlib Require Import ZArith Lia Ascii.
From stdpp Require Import base list strings.
From S2P Require Import Prelude CString PathAlias SetValues.

Module SetValuesSupported.
Import CString PathAlias SetValues.

(** A row of [supported_params] *)
Record supported_param := {
  param_name : cstr;
  sp_type : amxc_var_id;
  sp_access : Z;
}.

(** How a call ends: the fuel is never used up (see [supported_set_exact]). *)
Inductive run (A : Type) := Done (a : A) | Undefined | OutOfFuel.
Arguments Done {A} a.
Arguments Undefined {A}.
Arguments OutOfFuel {A}.

Section Env.
Context (E : env).
(** [amxb_get_supported] with the flag for parameters: the status and, unless
    the answer is null, the rows of each supported object; the path of an
    instance in the supported data model *)
Context (amxb_get_supported : cstr -> Z * option (cstr -> option (list supported_param))).
Context (amxd_path_build_supported_path : cstr -> cstr).
(** Whether [amxd_path_get_param] of a name is not null; then it is [e_param]. *)
Context (has_param : cstr -> bool).

Definition amxd_path_get_param (p : pvs) : option cstr :=
  if has_param (name_of p) then Some (param_of E p) else None.

(** The row of the object, under the path of its instances first *)
Definition object_rows (desc : cstr -> option (list supported_param)) (object : cstr) : list supported_param :=
  let supported_path := amxd_path_build_supported_path object in
  match desc (supported_path ++ cs "{i}.") with
  | Some llist => llist
  | None => default [] (desc supported_path)
  end.

(** The loop over [supported_params]; [None] is [strcmp] on a null name. *)
Fixpoint find_parameter (llist : list supported_param) (name : option cstr) : option (option supported_param) :=
  match llist with
  | [] => Some None
  | param :: llist' =>
      match name with
      | None => None
      | Some n => if bool_decide (param_name param = n) then Some (Some param) else find_parameter llist' name
      end
  end.

(** The checks on one parameter; [None] is undefined. *)
Definition check_supported (llist : list supported_param) (before : list pvs) (p : pvs) : option (option fault_code) :=
  match find_parameter llist (amxd_path_get_param p) with
  | None => None
  | Some None => Some (Some DM_ENG_INVALID_PARAMETER_NAME)
  | Some (Some parameter) =>
      Some
        (if config_bool (e_verify_type E) &&
            negb (bool_decide (p_type p = ConvertParameterType (sp_type parameter)))
         then Some DM_ENG_INVALID_PARAMETER_TYPE
         else if CheckForDuplicates before p then Some DM_ENG_INVALID_ARGUMENTS
         else if sp_access parameter =? 0 then Some DM_ENG_READ_ONLY_PARAMETER
         else if negb (e_set_allowed E (object_of E p) (param_of E p)) then Some DM_ENG_READ_ONLY_PARAMETER
         else None)
  end.

(** The loop over the parameters of [object_path] *)
Fixpoint supported_loop (object_path : cstr) (llist : list supported_param) (before rest : list pvs) : option validated :=
  match rest with
  | [] => Some {| v_faults := []; v_error := None; v_before := before; v_rest := [] |}
  | p :: rest' =>
      if bool_decide (object_of E p = object_path) then
        match check_supported llist before p with
        | None => None
        | Some (Some f) => Some (fault_at p f before rest')
        | Some None =>
            match rest' with
            | [] => Some {| v_faults := []; v_error := None; v_before := before ++ [p]; v_rest := [] |}
            | q :: rest'' =>
                if negb (IsValidPath (parameterName q))
                then Some (fault_at q DM_ENG_INVALID_PARAMETER_NAME (before ++ [p]) rest'')
                else supported_loop object_path llist (before ++ [p]) rest'
            end
        end
      else Some {| v_faults := []; v_error := None; v_before := before; v_rest := rest |}
  end.

(** [DM_ENG_Device_SetParameterValues_Validate]: [None] when the exit cleans
    the uninitialised [supported_path_inst], or a null name is compared. *)
Definition Validate_supported (before : list pvs) (p : pvs) (rest : list pvs) : option validated :=
  if negb (IsValidPath (parameterName p)) then None
  else if incomplete E (object_of E p) then None
  else
    match amxb_get_supported (object_of E p) with
    | (0, Some obj_desc) =>
        supported_loop (object_of E p) (object_rows obj_desc (object_of E p)) before (p :: rest)
    | _ => None
    end.

(** The first loop of [DM_ENG_Device_SetParameterValues] *)
Fixpoint validate_all_supported (fuel : nat) (before rest : list pvs) (faults : list spv_fault)
    (error : option fault_code) : run (list spv_fault * option fault_code) :=
  match rest with
  | [] => Done (faults, error)
  | p :: rest' =>
      match fuel with
      | O => OutOfFuel
      | S fuel' =>
          match Validate_supported before p rest' with
          | None => Undefined
          | Some v =>
              validate_all_supported fuel' (v_before v) (v_rest v) (faults ++ v_faults v)
                (match error with None => v_error v | Some _ => error end)
          end
      end
  end.

(** [DM_ENG_Device_SetParameterValues] of the prpl build *)
Definition SetParameterValues_supported (parameterList : list pvs) : run outcome :=
  if negb (e_connected E)
  then Done {| o_error := Some DM_ENG_INTERNAL_ERROR; o_status := None; o_faults := []; o_calls := [] |}
  else
    match validate_all_supported (length parameterList) [] parameterList [] None with
    | OutOfFuel => OutOfFuel
    | Undefined => Undefined
    | Done (faults, Some e) => Done {| o_error := Some e; o_status := None; o_faults := faults; o_calls := [] |}
    | Done (faults, None) =>
        match set_all E (length parameterList) 0 parameterList [] faults None with
        | None => OutOfFuel
        | Some (calls, faults', e) =>
            Done {| o_error := e;
                    o_status := Some match e with
                                     | None => DM_ENG_ParameterStatus_APPLIED
                                     | Some _ => DM_ENG_ParameterStatus_UNDEFINED
                                     end;
                    o_faults := faults'; o_calls := calls |}
        end
    end.

(** ** Specification *)

(** The description that the other build would have of an object: the rows of
    the supported data model, read-only where there is no access *)
Definition described (object : cstr) : option (cstr -> option param_desc) :=
  match amxb_get_supported object with
  | (0, Some desc) => Some (fun name =>
      (fun row => {| pd_type_id := sp_type row; pd_read_only := if sp_access row =? 0 then 1 else 0 |})
        <$> List.find (fun row => bool_decide (param_name row = name)) (object_rows desc object))
  | _ => None
  end.

(** The environment of the other build, without unsigned integers for booleans *)
Definition described_env : env :=
  {| e_connected := e_connected E; e_object := e_object E; e_param := e_param E;
     e_is_search_path := e_is_search_path E; e_path_text := e_path_text E;
     e_describe := described; e_verify_type := e_verify_type E; e_uint_as_bool := (0, None);
     e_set_allowed := e_set_allowed E; e_amxb_set := e_amxb_set E |}.

(** The parameters at which the validation is undefined: [ok] says that the
    previous parameter has no fault.  An object that is no complete path or
    not supported always is, and a name without parameter of an object with
    parameters; a bad path only where a new object begins. *)
Definition undefined_at (ok : bool) (p : pvs) : bool :=
  if IsValidPath (parameterName p)
  then incomplete E (object_of E p) ||
       match amxb_get_supported (object_of E p) with
       | (0, Some desc) =>
           negb (has_param (name_of p)) &&
           match object_rows desc (object_of E p) with [] => false | _ => true end
       | _ => true
       end
  else negb ok.

Fixpoint list_undefined (ok : bool) (before rest : list pvs) : bool :=
  match rest with
  | [] => false
  | p :: rest' =>
      undefined_at ok p ||
      list_undefined (match parameter_fault described_env before p with None => true | Some _ => false end)
        (before ++ [p]) rest'
  end.

(** ** Lemmas *)

Lemma find_parameter_named llist n :
  find_parameter llist (Some n) = Some (List.find (fun row => bool_decide (param_name row = n)) llist).
Proof. induction llist as [|row llist IH]; simpl; [done|]. by case_bool_decide. Qed.

(** The object has parameters although the name has none. *)
Definition nameless (object : cstr) (desc : cstr -> option (list supported_param)) (p : pvs) : bool :=
  negb (has_param (name_of p)) && match object_rows desc object with [] => false | _ => true end.

Lemma check_supported_described object desc before p :
  amxb_get_supported object = (0, Some desc) ->
  exists parameters, described object = Some parameters /\
    check_supported (object_rows desc object) before p =
      if nameless object desc p then None else Some (check_parameter described_env parameters before p).
Proof.
  intros Hs. unfold described. rewrite Hs. eexists. split; [done|].
  unfold check_supported, check_parameter, amxd_path_get_param, nameless.
  change (param_of described_env p) with (param_of E p).
  change (object_of described_env p) with (object_of E p).
  destruct (has_param (name_of p)); cbn [negb andb].
  - rewrite find_parameter_named.
    destruct (List.find _ _) as [row|]; cbn [fmap option_fmap option_map pd_type_id pd_read_only]; [|done].
    rewrite andb_true_r. by destruct (sp_access row =? 0).
  - by destruct (object_rows desc object).
Qed.

(** Nothing in the group that the loop checks is a name without parameter. *)
Fixpoint group_nameless (object : cstr) (desc : cstr -> option (list supported_param))
    (parameters : cstr -> option param_desc) (before rest : list pvs) : bool :=
  match rest with
  | [] => false
  | p :: rest' =>
      bool_decide (object_of E p = object) &&
      (nameless object desc p ||
       match check_parameter described_env parameters before p, rest' with
       | None, q :: _ => IsValidPath (parameterName q) && group_nameless object desc parameters (before ++ [p]) rest'
       | _, _ => false
       end)
  end.

Lemma supported_loop_described object desc parameters before rest :
  amxb_get_supported object = (0, Some desc) -> described object = Some parameters ->
  supported_loop object (object_rows desc object) before rest =
    if group_nameless object desc parameters before rest then None
    else Some (validate_loop described_env object parameters before rest).
Proof.
  intros Hs Hd. revert before. induction rest as [|p rest IH]; intros before; [done|].
  cbn [supported_loop validate_loop group_nameless]. change (object_of described_env p) with (object_of E p).
  case_bool_decide; cbn [andb]; [|done].
  destruct (check_supported_described object desc before p Hs) as (ps & Hd' & ->).
  rewrite Hd in Hd'. injection Hd' as <-. destruct (nameless object desc p); cbn [orb]; [done|].
  destruct (check_parameter described_env parameters before p); [done|].
  destruct rest as [|q rest]; [done|]. destruct (IsValidPath (parameterName q)); [|done]. cbn [negb andb]. apply IH.
Qed.

Lemma Validate_supported_described before p rest :
  Validate_supported before p rest =
    match amxb_get_supported (object_of E p), described (object_of E p) with
    | (0, Some desc), Some parameters =>
        if negb (IsValidPath (parameterName p)) || incomplete E (object_of E p) ||
           group_nameless (object_of E p) desc parameters before (p :: rest)
        then None else Some (Validate described_env before p rest)
    | _, _ => None
    end.
Proof.
  unfold Validate_supported, Validate.
  change (object_of described_env p) with (object_of E p).
  change (incomplete described_env) with (incomplete E). cbn [e_describe described_env].
  destruct (amxb_get_supported (object_of E p)) as [[|z|z] [desc|]] eqn:Hs;
    try (destruct (IsValidPath (parameterName p)), (incomplete E (object_of E p)); done).
  destruct (check_supported_described _ _ before p Hs) as (ps & Hd & _). rewrite Hd.
  destruct (IsValidPath (parameterName p)); cbn [negb orb]; [|done].
  destruct (incomplete E (object_of E p)); cbn [orb]; [done|].
  exact (supported_loop_described _ _ _ _ _ Hs Hd).
Qed.

Lemma list_undefined_valid ok ok' before p rest :
  IsValidPath (parameterName p) = true ->
  list_undefined ok before (p :: rest) = list_undefined ok' before (p :: rest).
Proof. intros Hv. cbn [list_undefined]. unfold undefined_at. by rewrite Hv. Qed.

(** The loop over a group passes only parameters at which nothing is
    undefined. *)
Lemma validate_loop_defined object desc parameters before rest ok :
  amxb_get_supported object = (0, Some desc) -> described object = Some parameters -> incomplete E object = false ->
  (match rest with p :: _ => IsValidPath (parameterName p) = true | [] => True end) ->
  let v := validate_loop described_env object parameters before rest in
  list_undefined ok before rest =
    group_nameless object desc parameters before rest || list_undefined false (v_before v) (v_rest v).
Proof.
  intros Hs Hd Hi. revert before ok. induction rest as [|p rest IH]; intros before ok Hv; [done|].
  cbv zeta. cbn [validate_loop group_nameless]. change (object_of described_env p) with (object_of E p).
  case_bool_decide as Ho; cbn [andb]; [|by apply list_undefined_valid].
  cbn [list_undefined]. assert (undefined_at ok p = nameless object desc p) as ->.
  { unfold undefined_at. rewrite Hv, Ho, Hi, Hs. done. }
  destruct (nameless object desc p); cbn [orb]; [done|].
  assert (Hf : parameter_fault described_env before p = check_parameter described_env parameters before p).
  { unfold parameter_fault. change (object_of described_env p) with (object_of E p).
    change (incomplete described_env) with (incomplete E). cbn [e_describe described_env].
    by rewrite Hv, Ho, Hi, Hd. }
  rewrite Hf.
  destruct (check_parameter described_env parameters before p) as [f|]; [done|].
  destruct rest as [|q rest]; [done|].
  destruct (IsValidPath (parameterName q)) eqn:Eq; cbn [negb andb].
  - exact (IH (before ++ [p]) true eq_refl).
  - cbn [list_undefined orb]. unfold undefined_at, parameter_fault, fault_at. rewrite Eq. done.
Qed.

Lemma Validate_defined before p rest :
  list_undefined false before (p :: rest) =
    match Validate_supported before p rest with
    | None => true
    | Some v => list_undefined false (v_before v) (v_rest v)
    end.
Proof.
  rewrite Validate_supported_described.
  destruct (amxb_get_supported (object_of E p)) as [[|z|z] [desc|]] eqn:Hs;
    try (cbn [list_undefined]; unfold undefined_at; rewrite Hs;
         destruct (IsValidPath (parameterName p)); [|done]; by destruct (incomplete E (object_of E p))).
  destruct (check_supported_described _ _ before p Hs) as (ps & Hd & _). rewrite Hd.
  destruct (IsValidPath (parameterName p)) eqn:Hv; cbn [negb orb];
    [|cbn [list_undefined]; unfold undefined_at; by rewrite Hv].
  destruct (incomplete E (object_of E p)) eqn:Hi; cbn [orb];
    [cbn [list_undefined]; unfold undefined_at; by rewrite Hv, Hi|].
  rewrite (validate_loop_defined (object_of E p) desc ps before (p :: rest) false Hs Hd Hi Hv).
  destruct (group_nameless _ _ _ _ _); cbn [orb]; [done|]. unfold Validate.
  change (object_of described_env p) with (object_of E p).
  change (incomplete described_env) with (incomplete E). cbn [e_describe described_env].
  by rewrite Hv, Hi, Hd.
Qed.

(** Where it is defined, the validation is that of the other build. *)
Lemma Validate_supported_same before p rest v :
  Validate_supported before p rest = Some v -> v = Validate described_env before p rest.
Proof.
  rewrite Validate_supported_described.
  destruct (amxb_get_supported (object_of E p)) as [[|z|z] [desc|]]; try done.
  destruct (described (object_of E p)); [|done]. destruct (_ || _); [done|]. by intros [= <-].
Qed.

Lemma validate_all_supported_described fuel before rest faults error :
  (length rest <= fuel)%nat ->
  validate_all_supported fuel before rest faults error =
    if list_undefined false before rest then Undefined
    else match validate_all described_env fuel before rest faults error with
         | Some r => Done r | None => OutOfFuel end.
Proof.
  revert before rest faults error. induction fuel as [|fuel IH]; intros before [|p rest] faults error Hl;
    try done; [simpl in Hl; lia|].
  cbn [validate_all_supported validate_all length] in *. rewrite Validate_defined.
  destruct (Validate_supported before p rest) as [v|] eqn:Ev; [|done].
  apply Validate_supported_same in Ev as ->. apply IH.
  destruct (Validate_spec described_env before p rest) as (_ & _ & H). lia.
Qed.

(** ** Properties *)

(** C37: the result of every call in the build with the supported data model.
    It is undefined exactly when the adapter is connected and a parameter of the
    list has an object that is not a complete path or not supported, or a bad path
    while it is the first of the list or follows a faulty one (an uninitialised
    string is cleaned), or a name without parameter in an object that has
    parameters (a null name is compared); otherwise the answer, the faults and
    the bus calls are those of the build with descriptions on the same data and
    without its option to take an unsigned integer for a boolean, which this build
    does not know, and there always is one. *)
Theorem supported_set_exact (ps : list pvs) :
  exists o, SetValues.SetParameterValues described_env ps = Some o /\
    SetParameterValues_supported ps =
      if e_connected E && list_undefined false [] ps then Undefined else Done o.
Proof.
  unfold SetParameterValues_supported, SetValues.SetParameterValues. cbn [e_connected described_env].
  destruct (e_connected E); cbn [negb andb]; [|eauto].
  rewrite validate_all_supported_described, validate_all_spec by done. cbn [app].
  destruct (set_all_spec described_env (length ps) 0 ps []
    (list_faults described_env [] ps) None (le_n _)) as (calls & faults & e & H & _).
  change (set_all E) with (set_all described_env).
  destruct (list_faults described_env [] ps) as [|x l] eqn:Hf; [rewrite H|].
  all: eexists; split; [reflexivity|].
  all: destruct (list_undefined false [] ps); by rewrite ?H.
Qed.

End Env.

(** ** An example *)

(** The supported data model of [sample_env]: one parameter [p] in every object
    but "Device.X.". *)
Definition sample_supported (object : cstr) : Z * option (cstr -> option (list supported_param)) :=
  if bool_decide (object = cs "Device.X.") then (-1, None)
  else (0, Some (fun path => if bool_decide (path = object)
                             then Some [{| param_name := cs "p"; sp_type := AMXC_VAR_ID_CSTRING; sp_access := 1 |}]
                             else None)).

Definition sample_run (names : list string) : run outcome :=
  SetParameterValues_supported sample_env sample_supported (fun object => object)
    (fun name => negb (bool_decide (skipn 9 name = []))) (map sample_param names).

(** An object that is not supported is undefined wherever it is in the list, and so
    is a name without parameter; a bad path after a good parameter, and an unknown parameter, are answered
    with a fault. *)
Example sample_runs :
  sample_run ["Device.X.p"]%string = Undefined /\
  sample_run ["Device.A.p"; "Device.X.p"]%string = Undefined /\
  sample_run ["Device.A.x"; "System.p"]%string = Undefined /\
  sample_run ["Device.A."]%string = Undefined /\
  sample_run ["Device.A.p"; "System.p"]%string =
    Done {| o_error := Some DM_ENG_INVALID_ARGUMENTS; o_status := None;
            o_faults := [(Some (cs "System.p"), DM_ENG_INVALID_PARAMETER_NAME)]; o_calls := [] |} /\
  match sample_run ["Device.B.p"; "Device.C.p"]%string with Done o => o_error o = None | _ => False end.
Proof. vm_compute. done. Qed.

End SetValuesSupported.
