(* ===== verification/AddDelete.v ===== *)
(** * AddDelete: AddObject, DeleteObject, Reboot and FactoryReset
    ([DM_AmxAddDelete.c], [DM_AmxReset.c] and their callers in
    [DM_DeviceAdapter.c] of [src/src/dmdeviceadapter/amx/adapter])

    The class [objects_library] has the state of the bus with the objects, the
    functions on paths and the access rights. *)

From Stdlib Require Import ZArith Lia Ascii.
From stdpp Require Import base list strings.
From S2P Require Import Prelude CString PathAlias ParameterNames.

Module AddDelete.
Import CString.
Import PathAlias.
Import ParameterNames.

(** [DM_ENG_ParameterStatus] *)
Inductive parameter_status := APPLIED | READY_TO_APPLY | UNDEFINED.

(** [amxb_add] answers a status and, unless the answer is null, the index of the
    new instance; [amxb_del] a status and whether the answer is not null;
    [get_last] is [amxd_path_get_last (path, true)] with the path that remains. *)
Class objects_library := {
  bus : Type;
  is_search : cstr -> bool;
  get_last : cstr -> option cstr * cstr;
  terminated : cstr -> cstr;
  is_add_allowed : cstr -> bool;
  is_del_allowed : cstr -> bool;
  amxb_add : cstr -> option cstr -> bus -> bus * (Z * option Z);
  amxb_del : cstr -> bus -> bus * (Z * bool);
  amxb_call : string -> string -> list (string * string) -> bus -> bus * Z;
}.

(** What a request leaves: the error, and the results it has written *)
Record result := { error : Z; number : option Z; status : option parameter_status }.

Section Objects.

Context {L : objects_library}.

(** ** Adding *)

Definition ends_with_bracket (alias : cstr) : bool :=
  match alias with
  | "["%char :: _ =>
      match rev alias with "."%char :: "]"%char :: _ => true | _ => false end
  | _ => false
  end.

(** [get_acs_assigned_instance_alias] of a path that was parsed: the alias and the
    path without its last element *)
Definition get_acs_assigned_instance_alias (path : cstr) : option cstr * cstr :=
  match path with
  | [] => (None, [])
  | _ =>
      match get_last path with
      | (None, p) => (None, p)
      | (Some alias, p) =>
          if Nat.ltb 3 (length alias) && ends_with_bracket alias then (Some (take (length alias - 3) (drop 1 alias)), p)
          else (None, p)
      end
  end.

(** [amxc_string_replace (_, "[", "", UINT32_MAX)], then the other bracket *)
Definition without_brackets (s : cstr) : cstr :=
  List.filter (fun c => negb (Ascii.eqb c "]")) (List.filter (fun c => negb (Ascii.eqb c "[")) s).

(** The object that the bus is asked to extend, and the alias for the instance *)
Definition add_target (objectName : cstr) : cstr * option cstr :=
  match get_acs_assigned_instance_alias objectName with
  | (Some alias, path) => (terminated (without_brackets path), Some alias)
  | (None, _) => (objectName, None)
  end.

(** [DM_ENG_Device_AddDeleteObject_Add] *)
Definition DM_ENG_Device_AddDeleteObject_Add (objectName : option cstr) (b : bus) : bus * result :=
  let failed := {| error := DM_ENG_INVALID_PARAMETER_NAME; number := Some 0; status := Some UNDEFINED |} in
  match objectName with
  | None | Some [] => (b, failed)
  | Some name =>
      if negb (EndsWithDot name) then (b, failed)
      else if negb (IsValidPath (Some name)) then (b, failed)
      else if is_search name && negb (Is_Valid_Alias_Path (Some name)) then (b, failed)
      else
        let target := add_target name in
        if negb (is_add_allowed target.1) then (b, failed)
        else
          match amxb_add target.1 target.2 b with
          | (b, (0, Some index)) => (b, {| error := 0; number := Some (u32 index); status := Some APPLIED |})
          | (b, _) => (b, {| error := DM_ENG_INTERNAL_ERROR; number := Some 0; status := Some UNDEFINED |})
          end
  end.

(** [DM_ENG_Device_AddObject] *)
Definition DM_ENG_Device_AddObject (amx : amx_env) (objectName : option cstr) (b : bus) : bus * result :=
  if CheckSystem amx then DM_ENG_Device_AddDeleteObject_Add objectName b
  else (b, {| error := DM_ENG_INTERNAL_ERROR; number := None; status := None |}).

(** ** Deleting *)

(** [DM_ENG_Device_AddDeleteObject_Delete]; [None] is the character before the
    start of an empty name. *)
Definition DM_ENG_Device_AddDeleteObject_Delete (objectName : option cstr) (b : bus) : option (bus * result) :=
  let failed := {| error := DM_ENG_INVALID_PARAMETER_NAME; number := None; status := Some UNDEFINED |} in
  if negb (IsValidPath objectName) then Some (b, failed)
  else
    match objectName with
    | None => Some (b, failed)
    | Some [] => None
    | Some name =>
        if negb (EndsWithDot name) then Some (b, failed)
        else if is_search name then Some (b, failed)
        else if negb (is_del_allowed name) then Some (b, failed)
        else
          match amxb_del (terminated name) b with
          | (b, (0, true)) => Some (b, {| error := 0; number := None; status := Some APPLIED |})
          | (b, _) => Some (b, {| error := DM_ENG_INTERNAL_ERROR; number := None; status := Some UNDEFINED |})
          end
    end.

(** [DM_ENG_Device_DeleteObject] *)
Definition DM_ENG_Device_DeleteObject (amx : amx_env) (objectName : option cstr) (b : bus) : option (bus * result) :=
  if CheckSystem amx then DM_ENG_Device_AddDeleteObject_Delete objectName b
  else Some (b, {| error := DM_ENG_INTERNAL_ERROR; number := None; status := None |}).

(** ** Reset *)

(** [DM_ENG_Device_Reboot_DoReboot] *)
Definition DM_ENG_Device_Reboot_DoReboot (b : bus) : bus :=
  (amxb_call "Device." "Reboot" [("Cause", "RemoteReboot"); ("Reason", "Initiated by TR-069")]%string b).1.

(** [DM_ENG_Device_FactoryReset_DoReset] *)
Definition DM_ENG_Device_FactoryReset_DoReset (b : bus) : bus :=
  (amxb_call "Device." "FactoryReset" [("Cause", "RemoteFactoryReset"); ("Reason", "Initiated by TR-069")]%string b).1.

(** [DM_ENG_Device_Reboot] *)
Definition DM_ENG_Device_Reboot (amx : amx_env) (b : bus) : bus :=
  if CheckSystem amx then DM_ENG_Device_Reboot_DoReboot b else b.

(** [DM_ENG_Device_FactoryReset] *)
Definition DM_ENG_Device_FactoryReset (amx : amx_env) (b : bus) : bus :=
  if CheckSystem amx then DM_ENG_Device_FactoryReset_DoReset b else b.

End Objects.

(** ** What the code relies on

    [terminated] only adds a missing dot; the last element of a path is what
    follows the last dot but one, with its dot. *)
Class ObjectsLaws (L : objects_library) : Prop := {
  terminated_dot p : EndsWithDot p = true -> terminated p = p;
  get_last_element p e :
    "."%char ∉ e -> get_last (p ++ ["."%char] ++ e ++ ["."%char]) = (Some (e ++ ["."%char]), p ++ ["."%char]);
}.

(** ** Properties *)

Section Properties.

Context {L : objects_library} {LL : ObjectsLaws L}.

(** A deletion is undefined exactly for an empty name: it passes the test of
    the path and its last character is read before the start of the string.  An
    empty name is refused when an object is added. *)
Theorem delete_undefined_iff (amx : amx_env) (objectName : option cstr) (b : bus) :
  (DM_ENG_Device_DeleteObject amx objectName b = None <-> CheckSystem amx = true /\ objectName = Some []) /\
  (CheckSystem amx = true -> (DM_ENG_Device_AddObject amx (Some []) b).2.(error) = DM_ENG_INVALID_PARAMETER_NAME).
Proof.
  split.
  - unfold DM_ENG_Device_DeleteObject, DM_ENG_Device_AddDeleteObject_Delete.
    destruct (CheckSystem amx); [|naive_solver]. destruct objectName as [[|c name]|]; [done| |naive_solver].
    split; [|naive_solver]. repeat case_goal; discriminate.
  - intros H. unfold DM_ENG_Device_AddObject. by rewrite H.
Qed.

Lemma ends_with_bracket_alias a : ends_with_bracket ("["%char :: a ++ ["]"%char; "."%char]) = true.
Proof. unfold ends_with_bracket. cbn [rev]. rewrite rev_app_distr. done. Qed.

Lemma without_brackets_id s : "["%char ∉ s -> "]"%char ∉ s -> without_brackets s = s.
Proof.
  intros H1 H2. unfold without_brackets. induction s as [|c s IH]; [done|].
  apply not_elem_of_cons in H1 as [H1 H1'], H2 as [H2 H2']. cbn.
  destruct (Ascii.eqb_spec c "["); [by subst|]. cbn. destruct (Ascii.eqb_spec c "]"); [by subst|]. cbn. by rewrite IH.
Qed.

Lemma add_target_alias base alias :
  "["%char ∉ base -> "]"%char ∉ base -> "."%char ∉ alias -> alias <> [] ->
  add_target (base ++ ["."%char] ++ ("["%char :: alias ++ ["]"%char]) ++ ["."%char]) = @pair cstr (option cstr) (base ++ ["."%char]) (@Some cstr alias).
Proof.
  intros H1 H2 Ha Hne. unfold add_target, get_acs_assigned_instance_alias.
  destruct (base ++ _) eqn:E; [by destruct base|]. rewrite <- E.
  rewrite get_last_element by (rewrite not_elem_of_cons, not_elem_of_app, list_elem_of_singleton; split_and!; [done..]).
  assert (El : ("["%char :: alias ++ ["]"%char]) ++ ["."%char] = "["%char :: alias ++ ["]"%char; "."%char])
    by (cbn; by rewrite <- app_assoc).
  rewrite El, ends_with_bracket_alias. cbn [length]. rewrite length_app. cbn [length].
  replace (Nat.ltb 3 (S (length alias + 2))) with true
    by (symmetry; apply Nat.ltb_lt; destruct alias; [done|cbn; lia]).
  cbn [andb drop]. replace (S (length alias + 2) - 3)%nat with (length alias) by lia. rewrite drop_0, take_app_length.
  rewrite without_brackets_id.
  2-3: rewrite not_elem_of_app, list_elem_of_singleton; by split.
  rewrite terminated_dot; [done|]. unfold EndsWithDot. by rewrite last_snoc.
Qed.

Lemma add_valid (name : cstr) b :
  name <> [] -> EndsWithDot name = true -> IsValidPath (Some name) = true -> Is_Valid_Alias_Path (Some name) = true ->
  is_add_allowed (add_target name).1 = true ->
  DM_ENG_Device_AddDeleteObject_Add (Some name) b =
    match amxb_add (add_target name).1 (add_target name).2 b with
    | (b, (0, Some index)) => (b, {| error := 0; number := Some (u32 index); status := Some APPLIED |})
    | (b, _) => (b, {| error := DM_ENG_INTERNAL_ERROR; number := Some 0; status := Some UNDEFINED |})
    end.
Proof.
  intros Hne Hd Hv Ha Hall. destruct name as [|c name]; [done|]. unfold DM_ENG_Device_AddDeleteObject_Add.
  rewrite Hd, Hv, Ha, Hall. cbn [negb]. by rewrite andb_false_r.
Qed.

Lemma starts_with_app w p q : starts_with w p = true -> starts_with w (p ++ q) = true.
Proof.
  revert p. induction w as [|x w IH]; intros [|y p]; cbn; try done. destruct (Ascii.eqb x y); [apply IH|done].
Qed.

Lemma valid_path_app p q : p <> [] -> IsValidPath (Some p) = true -> IsValidPath (Some (p ++ q)) = true.
Proof.
  destruct p as [|d p]; [done|]. intros _. unfold IsValidPath. cbn [app].
  change (d :: p ++ q) with ((d :: p) ++ q). rewrite !andb_true_iff. intros [[H1 H2] H3]. split_and!; [|done..].
  by apply starts_with_app.
Qed.

(** An object that the ACS adds under an alias is added under this alias: the
    bus is asked for an instance of the object before the alias, with the alias
    without its brackets, and the answer is the index of the bus. *)
Theorem alias_reaches_bus (amx : amx_env) (base alias : cstr) (b b' : bus) (index : Z)
    (Hsys : CheckSystem amx = true) (Hb1 : "["%char ∉ base) (Hb2 : "]"%char ∉ base) (Ha : "."%char ∉ alias)
    (Hne : alias <> []) (Hvalid : IsValidPath (Some (base ++ ["."%char])) = true)
    (Halias : Is_Valid_Alias_Path (Some (base ++ ["."%char] ++ ("["%char :: alias ++ ["]"%char]) ++ ["."%char])) = true)
    (Hallowed : is_add_allowed (base ++ ["."%char]) = true)
    (Hadd : amxb_add (base ++ ["."%char]) (Some alias) b = (b', (0, Some index))) :
  DM_ENG_Device_AddObject amx (Some (base ++ ["."%char] ++ ("["%char :: alias ++ ["]"%char]) ++ ["."%char])) b =
    (b', {| error := 0; number := Some (u32 index); status := Some APPLIED |}).
Proof.
  pose proof (add_target_alias base alias Hb1 Hb2 Ha Hne) as Ht.
  unfold DM_ENG_Device_AddObject. rewrite Hsys, add_valid; [| | | |done|by rewrite Ht].
  - rewrite Ht. etrans; [exact (f_equal (fun r => match r with (b, (0, Some i)) => (b, _) | (b, _) => (b, _) end) Hadd)|done].
  - by destruct base.
  - unfold EndsWithDot. by rewrite !app_assoc, last_snoc.
  - rewrite app_assoc. apply valid_path_app; [by destruct base|done].
Qed.

(** An instance is deleted by its number and not by its alias: the deletion of
    a path with a search or an alias in it is refused whatever exists. *)
Theorem alias_cannot_be_deleted (amx : amx_env) (name : cstr) (b : bus)
    (Hsys : CheckSystem amx = true) (Hsearch : is_search name = true) (Hne : name <> []) :
  DM_ENG_Device_DeleteObject amx (Some name) b =
    Some (b, {| error := DM_ENG_INVALID_PARAMETER_NAME; number := None; status := Some UNDEFINED |}).
Proof.
  unfold DM_ENG_Device_DeleteObject, DM_ENG_Device_AddDeleteObject_Delete. rewrite Hsys.
  destruct (IsValidPath (Some name)); cbn [negb]; [|done]. destruct name as [|c name]; [done|].
  rewrite Hsearch. by destruct (EndsWithDot _).
Qed.

(** What is added can be deleted: when the ACS deletes the instance that it was
    told to have added, with the index it got, the objects of the bus are what they
    were before, if the bus keeps this promise and deletion is allowed. *)
Theorem added_object_deleted (amx : amx_env) (name : cstr) (b b1 : bus) (i : Z) (index : cstr)
    (Hsys : CheckSystem amx = true)
    (Hadd : DM_ENG_Device_AddObject amx (Some name) b = (b1, {| error := 0; number := Some i; status := Some APPLIED |}))
    (path := (add_target name).1 ++ index ++ ["."%char])
    (Hpath : IsValidPath (Some path) = true) (Hsearch : is_search path = false) (Hdel : is_del_allowed path = true)
    (Hbus : forall target alias n b b1, amxb_add target alias b = (b1, (0, Some n)) -> i = u32 n ->
       amxb_del (target ++ index ++ ["."%char]) b1 = (b, (0, true))) :
  DM_ENG_Device_DeleteObject amx (Some path) b1 = Some (b, {| error := 0; number := None; status := Some APPLIED |}).
Proof.
  unfold DM_ENG_Device_AddObject in Hadd. rewrite Hsys in Hadd.
  assert (H : exists n, amxb_add (add_target name).1 (add_target name).2 b = (b1, (0, Some n)) /\ i = u32 n).
  { unfold DM_ENG_Device_AddDeleteObject_Add in Hadd. destruct name as [|c name]; [done|].
    repeat (let H := fresh in destruct (negb _) eqn:H in Hadd; [discriminate Hadd|]).
    destruct (_ && _); [done|]. destruct (negb (is_add_allowed _)); [done|].
    destruct (amxb_add _ _ b) as [b2 [rc [n|]]]; [|by destruct rc].
    destruct rc; [|done|done]. injection Hadd as -> <-. by exists n. }
  destruct H as (n & Hn & Hi). pose proof (Hbus _ _ _ _ _ Hn Hi) as Hb.
  unfold DM_ENG_Device_DeleteObject, DM_ENG_Device_AddDeleteObject_Delete. rewrite Hsys, Hpath. cbn [negb].
  assert (Hdot : EndsWithDot path = true) by (unfold path, EndsWithDot; by rewrite !app_assoc, last_snoc).
  fold path in Hb. clearbody path. destruct path as [|c p]; [done|].
  rewrite Hdot, Hsearch, Hdel. cbn [negb]. by rewrite terminated_dot, Hb.
Qed.

End Properties.

(** ** Witnesses *)

(** A bus with the instances of [Device.NAT.PortMapping.] *)
#[local] Instance ex_library : objects_library := {|
  bus := list (cstr * option cstr);
  is_search := fun p => contains "[" p;
  get_last := fun p =>
    match rev (removelast p) with
    | r => match strchr "." r with
           | Some (e, rest) => (Some (rev e ++ ["."%char]), rev rest ++ ["."%char])
           | None => (None, p)
           end
    end;
  terminated := fun p => if EndsWithDot p then p else p ++ ["."%char];
  is_add_allowed := fun _ => true;
  is_del_allowed := fun _ => true;
  amxb_add := fun p a b => ((p, a) :: b, (0, Some (Z.of_nat (length b) + 1)));
  amxb_del := fun p b => match b with [] => (b, (2, false)) | _ :: b => (b, (0, true)) end;
  amxb_call := fun o m args b => (b, 0);
|}.

#[local] Instance ex_laws : ObjectsLaws ex_library.
Proof.
  constructor.
  - intros p H. cbn. by rewrite H.
  - intros p e He. cbn. assert (E : p ++ "."%char :: e ++ ["."%char] = (p ++ "."%char :: e) ++ ["."%char])
      by (by rewrite <- app_assoc).
    rewrite E, removelast_last, rev_app_distr. cbn. rewrite <- app_assoc. cbn.
    rewrite strchr_app by (by rewrite list_elem_of_In, <- in_rev, <- list_elem_of_In). by rewrite !rev_involutive.
Qed.

Definition ex_env : amx_env := {| bus_ctx := true; prefix := cs "Device."; instanceAlias := false |}.

Lemma alias_reaches_bus_witness :
  @DM_ENG_Device_AddObject ex_library ex_env (Some (cs "Device.NAT.PortMapping.[web].")) [] =
    ([(cs "Device.NAT.PortMapping.", Some (cs "web"))], {| error := 0; number := Some 1; status := Some APPLIED |}).
Proof.
  apply (@alias_reaches_bus ex_library ex_laws ex_env (cs "Device.NAT.PortMapping") (cs "web") [] _ 1);
    first [reflexivity | discriminate | apply (bool_decide_unpack _); vm_compute; reflexivity].
Defined.

Lemma alias_cannot_be_deleted_witness :
  @DM_ENG_Device_DeleteObject ex_library ex_env (Some (cs "Device.NAT.PortMapping.[web].")) [] =
    Some ([], {| error := DM_ENG_INVALID_PARAMETER_NAME; number := None; status := Some UNDEFINED |}).
Proof. apply (@alias_cannot_be_deleted ex_library ex_env); [reflexivity|reflexivity|discriminate]. Defined.

Lemma added_object_deleted_witness :
  @DM_ENG_Device_DeleteObject ex_library ex_env (Some (cs "Device.NAT.PortMapping.1."))
    [(cs "Device.NAT.PortMapping.", None)] =
    Some ([], {| error := 0; number := None; status := Some APPLIED |}).
Proof.
  apply (@added_object_deleted ex_library ex_laws ex_env (cs "Device.NAT.PortMapping.") [] _ 1 (cs "1")); try reflexivity.
  intros target alias n b b1 H _. cbn in H. by injection H as <- _.
Defined.

End AddDelete.
