(* ===== verification/ScheduleDownload.v ===== *)
(** * ScheduleDownload: the request of the ACS for a scheduled download

    Models [DM_AmxScheduleDownload.c] of [src/src/dmdeviceadapter/amx/adapter] and
    [DM_ENG_Device_ScheduleDownload] of [DM_DeviceAdapter.c], together with the
    plugin of [Transfers] that performs the download.  The state [world] has the
    plugin, the one-shot timers of the engine, the notifications of the bus that
    the adapter has not handled yet, whether it is subscribed, and the reports
    that the engine has accepted.  The plugin is another process: it steps between the calls of the
    adapter. *)

From Stdlib Require Import ZArith Lia Ascii.
From stdpp Require Import base list gmap strings pretty.
From S2P Require Import Prelude Timer EngineTimers Transfers.

Module ScheduleDownload.
Import Transfers.

Definition SCHEDULEDOWNLOAD_TRANSFERS : string := "ManagementServer.Transfers.ScheduleDownload.".

Definition instance_path (i : nat) : string := String.append SCHEDULEDOWNLOAD_TRANSFERS (String.append (pretty i) ".").

Definition transfercomplete_path (path : string) : string := String.append path "TransferComplete.".

(** [mktime] of the fields of a time in UTC, which it takes for local time *)
Class clock := { mktime_of_utc : Z -> Z }.

(** The answer for a [TransferComplete] object; a null answer has no fields *)
Record tc_row := {
  row_CommandKey : option string;
  row_FaultCode : Z;
  row_FaultString : option string;
  row_StartTime : option Z;
  row_CompleteTime : option Z;
  row_TransferType : option string;
}.

(** The arguments of [DM_ENG_InformMessageScheduler_SendTransferComplete] *)
Record report := {
  rp_path : string;
  rp_CommandKey : string;
  rp_FaultCode : Z;
  rp_FaultString : string;
  rp_StartTime : Z;
  rp_CompleteTime : Z;
}.

Record world {T : Type} := {
  pl : Transfers.world;
  engine : T;
  notifications : list (nat * string);
  subscribed : bool;
  reports : list report;
}.
Arguments world : clear implicits.

(** What lies outside at one call: whether the request reaches the plugin, whether
    its answer arrives in time, how many indices are skipped, whether objects can be
    read, the result of the report and of the subscription. *)
Record env := {
  rpc_reached : bool;
  rpc_answered : bool;
  skipped : nat;
  get_ok : bool;
  send_result : Z;
  subscribe_result : Z;
}.

(** [TimeWindowStruct], with its fields as the engine fills them *)
Record TimeWindowStruct := {
  windowStart : Z;
  windowEnd : Z;
  windowMode : string;
  userMessage : string;
  maxRetries : Z;
}.

Record request := {
  commandKey : string;
  fileType : string;
  url : string;
  username : string;
  password : string;
  fileSize : Z;
  targetFileName : string;
  timeWindowList : option TimeWindowStruct * option TimeWindowStruct;
}.

Section Adapter.

Context {C : clock} {T : Type} {ET : EngineTimers T}.
Context (E : Transfers.env).

Notation world := (world T).

Definition with_engine (t : T) (w : world) : world :=
  {| pl := pl w; engine := t; notifications := notifications w; subscribed := subscribed w; reports := reports w |}.

Definition send (r : report) (w : world) : world :=
  {| pl := pl w; engine := engine w; notifications := notifications w; subscribed := subscribed w;
     reports := reports w ++ [r] |}.

(** ** The bus *)

Definition tc_status (s : schedule_download) : string := tc_Status (sd_TransferComplete s).

Definition by_acs (s : schedule_download) : bool := streq (tc_Initiator (sd_TransferComplete s)) "ACS".

(** [dm:object-changed] of the transfers whose status is another one *)
Definition status_changes (p p' : Transfers.world) : list (nat * string) :=
  omap (fun x : nat * schedule_download =>
    match w_objs p !! x.1 with
    | Some s => if by_acs x.2 && negb (streq (tc_status s) (tc_status x.2)) then Some (x.1, tc_status x.2) else None
    | None => None
    end) (map_to_list (w_objs p')).

(** The plugin goes on to [p]. *)
Definition plugin_becomes (p : Transfers.world) (w : world) : world :=
  {| pl := p; engine := engine w;
     notifications := notifications w ++ (if subscribed w then status_changes (pl w) p else []);
     subscribed := subscribed w; reports := reports w |}.

Definition plugin_step (o : op) (w : world) : world := plugin_becomes (step E o (pl w)) w.

Definition find_path (path : string) (p : Transfers.world) : option (nat * schedule_download) :=
  List.find (fun x => streq (transfercomplete_path (instance_path x.1)) path) (map_to_list (w_objs p)).

Definition row_of (s : schedule_download) : tc_row :=
  let tc := sd_TransferComplete s in
  {| row_CommandKey := Some (tc_CommandKey tc); row_FaultCode := tc_FaultCode tc;
     row_FaultString := Some (tc_FaultString tc); row_StartTime := Some (tc_StartTime tc);
     row_CompleteTime := Some (tc_CompleteTime tc); row_TransferType := Some (tc_TransferType tc) |}.

(** [amxb_get] of a path without wildcards; a plugin that is gone answers nothing. *)
Definition amxb_get (e : env) (path : string) (w : world) : option tc_row :=
  if get_ok e && negb (w_fault (pl w)) then row_of ∘ snd <$> find_path path (pl w) else None.

(** The request of the TransferComplete objects that are done, in the order of their
    indices *)
Definition done_paths (e : env) (w : world) : list string :=
  if get_ok e && negb (w_fault (pl w)) then
    omap (fun i => match w_objs (pl w) !! i with
                   | Some s => if by_acs s && streq (tc_status s) "Done" then Some (instance_path i) else None
                   | None => None
                   end) (seq 1 (w_last_index (pl w)))
  else [].

(** ** The request *)

Definition window_args (t : TimeWindowStruct) : timewindow_args :=
  {| twa_WindowStart := u32 (windowStart t); twa_WindowEnd := u32 (windowEnd t); twa_WindowMode := windowMode t;
     twa_UserMessage := userMessage t; twa_MaxRetries := maxRetries t |}.

Definition request_args (r : request) : schedule_download_args :=
  {| sda_Initiator := "ACS"; sda_CommandKey := commandKey r; sda_FileType := fileType r; sda_URL := url r;
     sda_Username := username r; sda_Password := password r; sda_FileSize := u32 (fileSize r);
     sda_TargetFileName := targetFileName r;
     sda_TimeWindowList := map window_args (option_list (timeWindowList r).1 ++ option_list (timeWindowList r).2) |}.

(** [amxb_call] of [addScheduleDownload]: whether the call is answered with success *)
Definition call_addScheduleDownload (e : env) (args : schedule_download_args) (w : world) : world * bool :=
  if negb (rpc_reached e) || w_fault (pl w) then (w, false)
  else
    let '(p, status) := addScheduleDownload E (S (w_last_index (pl w) + skipped e)) args (pl w) in
    (plugin_becomes p w, rpc_answered e && match status with amxd_status_ok => true | _ => false end).

(** [DM_ENG_Device_DoScheduleDownload] *)
Definition DoScheduleDownload (e : env) (r : request) (w : world) : world * Z :=
  let '(w, ok) := call_addScheduleDownload e (request_args r) w in
  (w, if ok : bool then 0 else 9002).

(** [DM_ENG_Device_ScheduleDownload] *)
Definition DM_ENG_Device_ScheduleDownload (e : env) (r : request) (w : world) : world * Z := DoScheduleDownload e r w.

(** ** The end of a download *)

(** [amxc_tc_to_time_utc] *)
Definition amxc_tc_to_time_utc (ts : option Z) : Z :=
  match ts with Some t => mktime_of_utc t | None => -1 end.

(** [handle_transfercomplete]; [None] is the string that is released although the
    test of the path has jumped over its initialisation. *)
Definition handle_transfercomplete (e : env) (path : option string) (w : world) : option (world * Z) :=
  match path with
  | None => None
  | Some p =>
      if streq p "" then None
      else
        match amxb_get e (transfercomplete_path p) w with
        | None => Some (w, 2)
        | Some row =>
            match row_CommandKey row, row_FaultString row, row_TransferType row with
            | Some key, Some text, Some type =>
                if streq type "ScheduleDownload" then
                  let r := {| rp_path := p; rp_CommandKey := key; rp_FaultCode := row_FaultCode row; rp_FaultString := text;
                              rp_StartTime := amxc_tc_to_time_utc (row_StartTime row);
                              rp_CompleteTime := amxc_tc_to_time_utc (row_CompleteTime row) |} in
                  Some (if send_result e =? 0 then send r w else w, send_result e)
                else Some (w, 0)
            | _, _, _ => Some (w, 0)
            end
        end
  end.

(** The only handler that the adapter gives to these timers *)
Definition HANDLE_TRANSFERCOMPLETE : nat := 0.

(** [differ_transfercomplete_handling] *)
Definition differ_transfercomplete_handling (path : option string) (w : world) : world :=
  match path with
  | None => w
  | Some p => if streq p "" then w else with_engine (start p 0 HANDLE_TRANSFERCOMPLETE (engine w)) w
  end.

(** [amxc_string_replace (_, needle, "", 1)] *)
Fixpoint remove_first (needle s : string) : string :=
  if String.prefix needle s then Nat.iter (String.length needle) (fun s => match s with String _ s => s | _ => s end) s
  else match s with String c s => String c (remove_first needle s) | EmptyString => EmptyString end.

(** [transfercomplete_notification] *)
Definition transfercomplete_notification (e : env) (status obj_path : option string) (w : world) : option world :=
  match status, obj_path with
  | Some status, Some path =>
      if streq status "Done" then fst <$> handle_transfercomplete e (Some (remove_first "TransferComplete." path)) w
      else Some w
  | _, _ => Some w
  end.

(** [DM_AmxScheduleDownload_init] with a bus; the plugin performs the steps [gap]
    between the request for the objects and the subscription. *)
Definition DM_AmxScheduleDownload_init (e : env) (gap : list op) (w : world) : world * Z :=
  let w := foldl (fun w p => differ_transfercomplete_handling (Some p) w) w (done_paths e w) in
  let w := foldl (fun w o => plugin_step o w) w gap in
  ({| pl := pl w; engine := engine w; notifications := notifications w;
      subscribed := (subscribe_result e =? 0) || subscribed w; reports := reports w |}, subscribe_result e).

(** [DM_AmxScheduleDownload_clean]: no notification is delivered any more. *)
Definition DM_AmxScheduleDownload_clean (w : world) : world :=
  {| pl := pl w; engine := engine w; notifications := []; subscribed := false; reports := reports w |}.

(** ** Runs *)

(** The steps of the system: a request of the ACS, a step of the plugin, the next
    notification, a timer, the acknowledgement of a report, the start and the end
    of the daemon, and a restart of the device. *)
Inductive action :=
| Request (e : env) (r : request)
| Plugin (o : op)
| Notified (e : env)
| TimerFires (e : env) (name : string)
| Acknowledged (path : string)
| DaemonStarts (e : env) (gap : list op)
| DaemonStops
| Reboot.

(** [DM_ENG_Device_TransferDoneAcknowledged], when the deletion succeeds *)
Definition TransferDoneAcknowledged (path : string) (w : world) : world :=
  match find_path (transfercomplete_path path) (pl w) with
  | Some (i, _) => plugin_step (OpDelete i) w
  | None => w
  end.

(** The timers of the engine are gone with the daemon. *)
Definition daemon_stopped (w : world) : world := with_engine no_timers (DM_AmxScheduleDownload_clean w).

(** An action; an undefined one does not happen in a run of the system, which is
    proved, and is shown here as no step. *)
Definition act (w : world) (a : action) : world :=
  match a with
  | Request e r => (DM_ENG_Device_ScheduleDownload e r w).1
  | Plugin o => plugin_step o w
  | Notified e =>
      match notifications w with
      | [] => w
      | (i, status) :: rest =>
          let w' := {| pl := pl w; engine := engine w; notifications := rest; subscribed := subscribed w;
                       reports := reports w |} in
          default w' (transfercomplete_notification e (Some status) (Some (transfercomplete_path (instance_path i))) w')
      end
  | TimerFires e name =>
      match armed (engine w) name with
      | Some _ =>
          let w' := with_engine (expire name (engine w)) w in
          default w' (fst <$> handle_transfercomplete e (Some name) w')
      | None => w
      end
  | Acknowledged path => TransferDoneAcknowledged path w
  | DaemonStarts e gap => if subscribed w then w else (DM_AmxScheduleDownload_init e gap w).1
  | DaemonStops => daemon_stopped w
  | Reboot =>
      let w := daemon_stopped w in
      {| pl := restart (pl w); engine := engine w; notifications := []; subscribed := false; reports := reports w |}
  end.

Definition run (l : list action) (w : world) : world := foldl act w l.

(** A device that starts with an empty data model, before the daemon *)
Definition start_world : world :=
  {| pl := empty_world; engine := no_timers; notifications := []; subscribed := false; reports := [] |}.

End Adapter.

End ScheduleDownload.
