(* ===== verification/ScheduleDownloadFacts.v ===== *)
(** * ScheduleDownloadFacts: what becomes of a scheduled download

    The lemmas and the properties of [ScheduleDownload]: the arguments of a
    request arrive, a transfer that is done is reported, and what is reported are
    the fields of the transfer. *)

From Stdlib Require Import ZArith Lia Ascii.
From stdpp Require Import base list gmap strings pretty.
From S2P Require Import Prelude CString Timer EngineTimers Transfers TransfersFacts ScheduleDownload.

Module ScheduleDownloadFacts.
Import Transfers TransfersFacts ScheduleDownload.

(** ** Paths *)

Lemma sd_instance_path_inj i j : instance_path i = instance_path j -> i = j.
Proof. intros H. apply CString.append_inj, CString.append_inj_r in H. by apply (inj pretty). Qed.

Lemma transfercomplete_path_inj p q : transfercomplete_path p = transfercomplete_path q -> p = q.
Proof. apply CString.append_inj_r. Qed.

Lemma instance_path_not_empty i : streq (instance_path i) "" = false.
Proof. done. Qed.

(** No character is an uppercase T. *)
Fixpoint without_T (s : string) : Prop :=
  match s with EmptyString => True | String c s => c <> "T"%char /\ without_T s end.

Lemma pretty_digits_go (n : N) s : without_T s -> without_T (pretty_N_go n s).
Proof.
  revert s. induction (N.lt_wf_0 n) as [n _ IH]; intros s Hs. destruct (decide (n = 0%N)) as [->|Hn].
  - by rewrite pretty_N_go_0.
  - rewrite pretty_N_go_step by lia. apply IH; [apply N.div_lt; lia|]. split; [|done].
    unfold pretty_N_char. repeat case_match; discriminate.
Qed.

Lemma pretty_digits (i : nat) : without_T (pretty i).
Proof.
  unfold pretty, pretty_nat, pretty, pretty_N. case_decide; [split; [discriminate|done]|]. by apply pretty_digits_go.
Qed.

Lemma append_cons c (a b : string) : String.append (String c a) b = String c (String.append a b).
Proof. done. Qed.

Lemma remove_first_skip n c s : String.prefix n (String c s) = false ->
  remove_first n (String c s) = String c (remove_first n s).
Proof. intros H. cbn [remove_first]. by rewrite H. Qed.

Lemma remove_first_digits s : without_T s ->
  remove_first "TransferComplete." (String.append s ".TransferComplete.") = String.append s ".".
Proof.
  induction s as [|c s IH]; [done|]. intros [Hc Hs]. rewrite !append_cons, remove_first_skip; [by rewrite IH|].
  unfold String.prefix. by destruct (ascii_dec "T" c) as [<-|_].
Qed.

Lemma append_assoc (a b c : string) : String.append (String.append a b) c = String.append a (String.append b c).
Proof. induction a as [|x a IH]; [done|]. by rewrite !append_cons, IH. Qed.

(** The handler finds the instance from the path of its TransferComplete. *)
Lemma remove_first_path i :
  remove_first "TransferComplete." (transfercomplete_path (instance_path i)) = instance_path i.
Proof.
  unfold transfercomplete_path, instance_path. rewrite !append_assoc.
  change (String.append "." "TransferComplete.") with ".TransferComplete."%string.
  pose proof (remove_first_digits (pretty i) (pretty_digits i)) as H. revert H.
  generalize (String.append (pretty i) ".TransferComplete."). generalize (String.append (pretty i) ".").
  intros b a H. unfold SCHEDULEDOWNLOAD_TRANSFERS. rewrite !append_cons.
  repeat (rewrite remove_first_skip by reflexivity). change (String.append "" a) with a. by rewrite H.
Qed.

(** ** The bus *)

Lemma sd_find_path_index p i s :
  w_objs p !! i = Some s -> find_path (transfercomplete_path (instance_path i)) p = Some (i, s).
Proof.
  intros H. unfold find_path. destruct (List.find _ _) as [[j s']|] eqn:Ef.
  - apply find_some in Ef as [Hin Ej]. apply list_elem_of_In, elem_of_map_to_list in Hin. simpl in Ej.
    apply streq_true, transfercomplete_path_inj, sd_instance_path_inj in Ej as ->. congruence.
  - eapply find_none in Ef; [|apply list_elem_of_In, elem_of_map_to_list, H]. simpl in Ef.
    by rewrite streq_refl in Ef.
Qed.

Lemma sd_find_path_elem p path i s :
  find_path path p = Some (i, s) -> w_objs p !! i = Some s /\ path = transfercomplete_path (instance_path i).
Proof.
  unfold find_path. intros [Hin Ej]%find_some. apply list_elem_of_In, elem_of_map_to_list in Hin. simpl in Ej.
  by apply streq_true in Ej.
Qed.

Lemma status_changes_elem p p' (i : nat) (st : string) :
  (i, st) ∈ status_changes p p' <->
  exists s s' : schedule_download, w_objs p !! i = Some s /\ w_objs p' !! i = Some s' /\ by_acs s' = true /\
    tc_status s <> tc_status s' /\ st = tc_status s'.
Proof.
  unfold status_changes. rewrite list_elem_of_omap. split.
  - intros ([j s'] & Hin & H). apply elem_of_map_to_list in Hin. simpl in H.
    destruct (w_objs p !! j) as [s|] eqn:Es; [|done]. destruct (by_acs s') eqn:Ea; [|done]. simpl in H.
    destruct (streq (tc_status s) (tc_status s')) eqn:Et; [done|]. injection H as <- <-. apply streq_false in Et.
    by exists s, s'.
  - intros (s & s' & Hs & Hs' & Ha & Hn & ->). exists (i, s'). split; [by apply elem_of_map_to_list|]. simpl.
    rewrite Hs, Ha. simpl. by rewrite (proj2 (streq_false _ _) Hn).
Qed.

(** ** The plugin keeps what an instance is *)

Definition kept (p p' : Transfers.world) : Prop :=
  forall i s', w_objs p' !! i = Some s' -> exists s, w_objs p !! i = Some s /\ identity s' = identity s.

Lemma sd_kept_refl p : kept p p.
Proof. intros i s H. by exists s. Qed.

Lemma sd_kept_trans p1 p2 p3 : kept p1 p2 -> kept p2 p3 -> kept p1 p3.
Proof.
  intros H1 H2 i s3 H. destruct (H2 i s3 H) as (s2 & Hs2 & E2). destruct (H1 i s2 Hs2) as (s1 & Hs1 & E1).
  exists s1. split; [done|congruence].
Qed.

Lemma kept_objs p p' : w_objs p' = w_objs p -> kept p p'.
Proof. intros E i s H. rewrite E in H. by exists s. Qed.

Lemma kept_upd i f p : mild f -> kept p (upd_sd i f p).
Proof.
  intros Hf j s H. unfold upd_sd in H. cbn [set_objs w_objs] in H. rewrite lookup_alter in H.
  case_decide; [subst|by exists s]. destruct (w_objs p !! j) as [s0|]; [|done]. injection H as <-.
  exists s0. split; [done|]. apply Hf.
Qed.

Section Plugin.

Context (E : Transfers.env).

Lemma kept_apply i t p : trans_on i t -> kept p (fst (amxd_trans_apply E t p)).
Proof.
  intros Ht. unfold amxd_trans_apply. destruct (e_accepts E _ t); cbn [fst]; [|by apply kept_objs].
  match goal with |- kept _ (set_pending _ (trans_write t ?p0)) => set (p1 := p0) end.
  destruct (trans_write_upd i t p1 Ht) as (f & Hf & Ew).
  eapply (sd_kept_trans _ p1); [by apply kept_objs|]. eapply sd_kept_trans; [by apply (kept_upd i f)|].
  apply kept_objs. by rewrite Ew.
Qed.

Ltac by_kept lem := (lazymatch goal with |- kept _ _ => apply lem with (P := kept) end);
  first [ done | apply sd_kept_refl | apply sd_kept_trans | intros; by eapply kept_apply
        | intros; by apply kept_upd | intros; by apply kept_objs ].

Lemma kept_for_each f p : (forall i p, kept p (f i p)) -> kept p (for_each_instance f p).
Proof.
  intros Hf. unfold for_each_instance. generalize (seq 1 (w_last_index p)). intros l. revert p.
  induction l as [|i l IH]; intros p; cbn [foldl]; [apply sd_kept_refl|].
  destruct (w_objs p !! i); [|apply IH]. eapply sd_kept_trans; [apply Hf|apply IH].
Qed.

Lemma kept_priv i q p : kept p (upd_sd i (set_sd_priv q) p).
Proof.
  intros j s H. unfold upd_sd in H. cbn [set_objs w_objs] in H. rewrite lookup_alter in H.
  case_decide; [subst|by exists s]. destruct (w_objs p !! j) as [s0|]; [|done]. injection H as <-. by exists s0.
Qed.

Lemma kept_del_info i p : kept p (transfers_transfer_del_info i p).
Proof.
  unfold transfers_transfer_del_info. destruct (w_objs p !! i) as [s|]; [|by apply kept_objs].
  destruct (sd_priv s); [apply sd_kept_refl| |by apply kept_objs].
  eapply sd_kept_trans; [apply (kept_priv i Freed)|]. generalize (upd_sd i (set_sd_priv Freed) p). intros p1.
  apply (closed_on_windows i kept sd_kept_refl sd_kept_trans). intros. apply kept_upd, mild_tw.
Qed.

Lemma kept_status i k st p : kept p (timewindow_set_status E i k st p).
Proof. unfold timewindow_set_status. repeat case_match; [by apply (kept_apply i)|apply sd_kept_refl..]. Qed.

Lemma kept_deliver e p : kept p (deliver E e p).
Proof.
  destruct e as [i|i k|i k|i]; cbn [deliver].
  - unfold scheduleDownload_added. destruct (w_objs p !! i); [|apply sd_kept_refl].
    apply sd_kept_trans with (transfers_transfer_add_info i p); [by_kept closed_add_info|by_kept closed_tw_start].
  - destruct (find_timewindow i k p) eqn:Et; [|by unfold timewindow_started; rewrite Et; apply kept_objs].
    by_kept closed_started.
  - destruct (find_timewindow i k p) eqn:Et; [|by unfold timewindow_ended; rewrite Et; apply kept_objs].
    by_kept closed_ended.
  - by_kept closed_failed.
Qed.

Lemma kept_init_one st i p : kept p (transfers_timewindow_start i
  (transfers_handle_in_progress_transfer E st i (transfers_transfer_add_info i p))).
Proof.
  apply sd_kept_trans with (transfers_transfer_add_info i p); [by_kept closed_add_info|].
  eapply sd_kept_trans; [by_kept closed_in_progress|by_kept closed_tw_start].
Qed.

(** The instances of a state are instances of the state before, with the same
    identity, or scheduled downloads that were added and are not done. *)
Definition evolves (p p' : Transfers.world) : Prop :=
  forall i s', w_objs p' !! i = Some s' ->
    (exists s, w_objs p !! i = Some s /\ identity s' = identity s) \/
    (tc_TransferType (sd_TransferComplete s') = "ScheduleDownload"%string /\ tc_status s' <> "Done"%string /\
     (0 < i <= w_last_index p')%nat).

Lemma kept_evolves p p' : kept p p' -> evolves p p'.
Proof. intros H i s Hs. left. by apply H. Qed.

Lemma evolves_add i a p : (0 < i)%nat -> evolves p (fst (addScheduleDownload E i a p)).
Proof.
  intros Hi.   unfold addScheduleDownload. destruct (sda_TimeWindowList a) as [|w rest]; [by apply kept_evolves, sd_kept_refl|].
  unfold amxd_trans_apply. destruct (e_accepts E _ _); cbn [fst]; [|by apply kept_evolves, kept_objs].
  intros j s H. cbn [set_pending trans_write w_objs] in H. apply lookup_insert_Some in H as [[<- <-]|[_ H]].
  - right. cbn. split_and!; [done|discriminate|done..].
  - left. by exists s.
Qed.

Lemma evolves_step o p : evolves p (step E o p).
Proof.
  unfold step. destruct (w_fault p); [apply kept_evolves, sd_kept_refl|].
  destruct o as [i a|i| |i k|i k|st log r|r|st|].
  { destruct (Nat.ltb_spec (w_last_index p) i); [apply evolves_add; lia|apply kept_evolves, sd_kept_refl]. }
  all: apply kept_evolves.
  - unfold scheduleDownload_del_inst. destruct (w_objs p !! i); [|apply sd_kept_refl].
    eapply sd_kept_trans; [apply (kept_del_info i)|]. intros j s' H. cbn [set_objs w_objs] in H.
    apply lookup_delete_Some in H as [_ H]. by exists s'.
  - destruct (w_pending p) as [|e q]; [apply sd_kept_refl|].
    eapply sd_kept_trans; [|apply kept_deliver]. by apply kept_objs.
  - repeat (case_match; try apply sd_kept_refl). eapply sd_kept_trans; [|apply kept_status]. apply kept_upd, mild_tw.
  - repeat (case_match; try apply sd_kept_refl). eapply sd_kept_trans; [|apply kept_status]. apply kept_upd, mild_tw.
  - unfold firmwareimage_notification. destruct (transfer_in_progress p) as [i|]; [|apply sd_kept_refl].
    destruct st as [st|]; [|apply sd_kept_refl]. destruct (upgrade_failed st).
    + eapply sd_kept_trans; [by_kept (closed_firmwareupgrade_done E i)|by apply kept_objs].
    + destruct (streq st "Validating"); [|apply sd_kept_refl]. apply kept_for_each. intros; by_kept closed_save.
  - apply kept_for_each. intros; by_kept closed_save.
  - apply kept_for_each. intros; apply kept_init_one.
  - eapply sd_kept_trans; [apply kept_for_each; intros; apply kept_del_info|by apply kept_objs].
Qed.

Lemma kept_restart p : kept p (restart p).
Proof.
  intros i s H. cbn [restart w_objs] in H. rewrite lookup_fmap in H.
  destruct (w_objs p !! i) as [s0|] eqn:E0; [|done]. injection H as <-. by exists s0.
Qed.

Lemma step_no_fault o p : w_fault (step E o p) = false -> w_fault p = false.
Proof. unfold step. destruct (w_fault p) eqn:Ef; [by rewrite Ef|done]. Qed.

End Plugin.

(** ** The invariant *)

Section Adapter.

Context {C : clock} {T : Type} {ET : EngineTimers T} {LT : EngineTimersLaws T}.
Context (E : Transfers.env).

Notation world := (world T).
Implicit Types w : world.

(** The report of an instance *)
Definition report_of (i : nat) (s : schedule_download) : report :=
  let tc := sd_TransferComplete s in
  {| rp_path := instance_path i; rp_CommandKey := tc_CommandKey tc; rp_FaultCode := tc_FaultCode tc;
     rp_FaultString := tc_FaultString tc; rp_StartTime := mktime_of_utc (tc_StartTime tc);
     rp_CompleteTime := mktime_of_utc (tc_CompleteTime tc) |}.

Definition is_reported (i : nat) (w : world) : Prop := exists r, r ∈ reports w /\ rp_path r = instance_path i.

(** A transfer by the ACS that is done *)
Definition done_by_acs (i : nat) (w : world) : Prop :=
  exists s, w_objs (pl w) !! i = Some s /\ by_acs s = true /\ tc_status s = "Done"%string.

Definition covered (i : nat) (w : world) : Prop :=
  is_reported i w \/ (i, "Done"%string) ∈ notifications w \/ armed (engine w) (instance_path i) <> None.

(** Objects can be read, and the engine accepts the report. *)
Definition reporting (e : env) : Prop := get_ok e = true /\ send_result e = 0.

Record inv (w : world) : Prop := {
  inv_engine : timers_ok (engine w);
  inv_type : forall i s, w_objs (pl w) !! i = Some s ->
    tc_TransferType (sd_TransferComplete s) = "ScheduleDownload"%string /\ (0 < i <= w_last_index (pl w))%nat;
  inv_covered : forall i, subscribed w = true -> w_fault (pl w) = false -> done_by_acs i w -> covered i w;
}.

(** The steps at which objects can be read, reports are accepted, and the
    subscription is made without a step of the plugin since the objects were read *)
Definition answered (a : action) : Prop :=
  match a with
  | Notified e | TimerFires e _ => reporting e
  | DaemonStarts e gap => get_ok e = true /\ gap = []
  | _ => True
  end.

Lemma inv_plugin_becomes p w :
  evolves (pl w) p -> (w_last_index (pl w) <= w_last_index p)%nat -> (w_fault p = false -> w_fault (pl w) = false) ->
  inv w -> inv (plugin_becomes p w).
Proof.
  intros He Hl Hf [I1 I2 I3]. split; cbn [plugin_becomes engine pl subscribed]; [done| |].
  - intros i s' Hs'. destruct (He i s' Hs') as [(s & Hs & [= Et _ _])|(Ht & _ & Hi)]; [|done].
    destruct (I2 i s Hs). split; [congruence|lia].
  - intros i Hsub Hfp (s' & Hs' & Ha & Hd). cbn [plugin_becomes pl] in Hs'.
    destruct (He i s' Hs') as [(s & Hs & [= _ _ Ei])|(_ & Hn & _)]; [|done].
    assert (Ha' : by_acs s = true) by (unfold by_acs in *; by rewrite <- Ei).
    unfold covered. cbn [plugin_becomes notifications engine]. rewrite Hsub, elem_of_app, status_changes_elem.
    destruct (decide (tc_status s = "Done"%string)) as [Es|Es].
    + destruct (I3 i Hsub (Hf Hfp)) as [H|[H|H]]; [by exists s|left; exact H|tauto|tauto].
    + right; left; right. exists s, s'. rewrite Hd. auto.
Qed.

Lemma inv_plugin o w : inv w -> inv (plugin_step E o w).
Proof. apply inv_plugin_becomes; [apply evolves_step|apply last_step|apply step_no_fault]. Qed.

Lemma sd_inv_request e r w : inv w -> inv (DM_ENG_Device_ScheduleDownload E e r w).1.
Proof.
  intros Hi. unfold DM_ENG_Device_ScheduleDownload, DoScheduleDownload, call_addScheduleDownload.
  destruct (rpc_reached e); [|done]. destruct (w_fault (pl w)) eqn:Hf; [done|]. cbn [negb orb].
  set (i := S (w_last_index (pl w) + skipped e)). destruct (addScheduleDownload E i _ (pl w)) as [p st] eqn:Ea.
  cbn [fst]. assert (Ep : p = step E (OpAdd i (request_args r)) (pl w)).
  { unfold step. rewrite Hf. destruct (Nat.ltb_spec (w_last_index (pl w)) i); [by rewrite Ea|lia]. }
  rewrite Ep. by apply inv_plugin.
Qed.

(** *** Handling a notification or a timer *)

Lemma handle_cases e path w w' rc :
  handle_transfercomplete e path w = Some (w', rc) ->
  w' = w \/ exists i s, w_objs (pl w) !! i = Some s /\ path = Some (instance_path i) /\ w' = send (report_of i s) w.
Proof.
  unfold handle_transfercomplete. destruct path as [p|]; [|done]. destruct (streq p ""); [done|].
  unfold amxb_get. destruct (_ && _); [|intros [= <- <-]; by left].
  destruct (find_path _ (pl w)) as [[i s]|] eqn:Ef; cbn [option_map fmap option_fmap]; [|intros [= <- <-]; by left].
  apply sd_find_path_elem in Ef as [Hs ->%transfercomplete_path_inj]. cbn. destruct (streq _ _), (send_result e =? 0); intros [= <- <-]; try by left.
  right. by exists i, s.
Qed.

Lemma handle_ok e w i s :
  reporting e -> w_fault (pl w) = false -> w_objs (pl w) !! i = Some s ->
  tc_TransferType (sd_TransferComplete s) = "ScheduleDownload"%string ->
  handle_transfercomplete e (Some (instance_path i)) w = Some (send (report_of i s) w, 0).
Proof.
  intros [Hg Hr] Hf Hs Ht. unfold handle_transfercomplete. rewrite instance_path_not_empty. unfold amxb_get.
  rewrite Hg, Hf, (sd_find_path_index _ i s Hs). cbn. by rewrite Ht, Hr.
Qed.

Lemma notification_ok e w i s :
  reporting e -> w_fault (pl w) = false -> w_objs (pl w) !! i = Some s ->
  tc_TransferType (sd_TransferComplete s) = "ScheduleDownload"%string ->
  transfercomplete_notification e (Some "Done"%string) (Some (transfercomplete_path (instance_path i))) w =
    Some (send (report_of i s) w).
Proof.
  intros Hg Hf Hs Ht. unfold transfercomplete_notification. rewrite streq_refl, remove_first_path.
  by rewrite (handle_ok e w i s).
Qed.

(** What a handler leaves is the state with at most one report more. *)
Definition at_most_one_report (w w' : world) : Prop :=
  w' = w \/ exists i s, w_objs (pl w) !! i = Some s /\ w' = send (report_of i s) w.

Lemma timer_handled e path w : at_most_one_report w (default w (fst <$> handle_transfercomplete e path w)).
Proof.
  destruct (handle_transfercomplete e path w) as [[w' rc]|] eqn:Eh; cbn; [|by left].
  destruct (handle_cases _ _ _ _ _ Eh) as [->|(i & s & Hs & _ & ->)]; [by left|]. right. by exists i, s.
Qed.

Lemma notification_handled e status path w :
  at_most_one_report w (default w (transfercomplete_notification e status path w)).
Proof.
  unfold transfercomplete_notification. destruct status as [st|]; [|by left]. destruct path as [p|]; [|by left].
  destruct (streq st "Done"); [apply timer_handled|by left].
Qed.

Lemma inv_handled w w' :
  timers_ok (engine w) -> (forall i s, w_objs (pl w) !! i = Some s ->
    tc_TransferType (sd_TransferComplete s) = "ScheduleDownload"%string /\ (0 < i <= w_last_index (pl w))%nat) ->
  at_most_one_report w w' ->
  (forall i, subscribed w = true -> w_fault (pl w) = false -> done_by_acs i w -> covered i w') -> inv w'.
Proof. intros H1 H2 [->|(i & s & _ & ->)] H3; by split. Qed.

Lemma covered_handled w w' i : at_most_one_report w w' -> covered i w -> covered i w'.
Proof.
  intros [->|(j & s & _ & ->)]; [done|]. intros [(r & Hr & Hp)|H]; [|by right]. left. exists r. split; [|done].
  cbn [send reports]. rewrite elem_of_app. by left.
Qed.

Lemma sent_covers i s w : covered i (send (report_of i s) w).
Proof. left. exists (report_of i s). cbn [send reports]. rewrite elem_of_app, list_elem_of_singleton. auto. Qed.

Lemma sd_inv_notified e w : reporting e -> inv w -> inv (act E w (Notified e)).
Proof.
  intros Hg [I1 I2 I3]. cbn [act]. destruct (notifications w) as [|[i st] rest] eqn:En; [done|].
  match goal with |- inv (default ?x _) => set (w1 := x) end.
  apply (inv_handled w1); [done|done|apply notification_handled|].
  intros j Hsub Hf Hd. destruct (decide ((i, st) = (j, "Done"%string))) as [[= -> ->]|Hne].
  - destruct Hd as (s & Hs & _). rewrite (notification_ok e w1 j s) by (done || apply (I2 j s Hs)). apply sent_covers.
  - apply (covered_handled w1); [apply notification_handled|]. destruct (I3 j Hsub Hf Hd) as [H|[H|H]].
    + by left.
    + right; left. rewrite En in H. apply elem_of_cons in H as [H|H]; [by symmetry in H|done].
    + by right; right.
Qed.

Lemma sd_inv_timer e n w : reporting e -> inv w -> inv (act E w (TimerFires e n)).
Proof.
  intros Hg [I1 I2 I3]. cbn [act]. destruct (armed (engine w) n) as [h|] eqn:Ea; [|done].
  set (w1 := with_engine (expire n (engine w)) w).
  apply (inv_handled w1); [by apply ok_expire|done|apply timer_handled|].
  intros j Hsub Hf Hd. destruct (decide (n = instance_path j)) as [->|Hne].
  - destruct Hd as (s & Hs & _). rewrite (handle_ok e w1 j s) by (done || apply (I2 j s Hs)). apply sent_covers.
  - apply (covered_handled w1); [apply timer_handled|]. destruct (I3 j Hsub Hf Hd) as [H|[H|H]]; [by left|by right; left|].
    right; right. cbn [w1 with_engine engine]. rewrite armed_expire by done.
    destruct (streq (instance_path j) n) eqn:E1; [by apply streq_true in E1|done].
Qed.

(** *** The start of the daemon *)

Lemma differ_pl l w :
  let w' := foldl (fun w p => differ_transfercomplete_handling (Some p) w) w l in
  pl w' = pl w /\ reports w' = reports w /\ notifications w' = notifications w.
Proof.
  revert w. induction l as [|p l IH]; intros w; cbn [foldl]; [done|].
  destruct (IH (differ_transfercomplete_handling (Some p) w)) as (-> & -> & ->). unfold differ_transfercomplete_handling.
  by destruct (streq p "").
Qed.

Lemma differ_armed l w n :
  timers_ok (engine w) -> (forall p, p ∈ l -> p <> ""%string) ->
  let w' := foldl (fun w p => differ_transfercomplete_handling (Some p) w) w l in
  timers_ok (engine w') /\ (n ∈ l \/ armed (engine w) n <> None -> armed (engine w') n <> None).
Proof.
  revert w. induction l as [|p l IH]; intros w Ho Hl; cbn [foldl].
  { split; [done|]. intros [H|H]; [by apply not_elem_of_nil in H|done]. }
  assert (Hp : p <> ""%string) by (apply Hl; left). set (w1 := differ_transfercomplete_handling (Some p) w).
  assert (E1 : engine w1 = start p 0 HANDLE_TRANSFERCOMPLETE (engine w)).
  { unfold w1, differ_transfercomplete_handling. by rewrite (proj2 (streq_false _ _) Hp). }
  assert (Ho1 : timers_ok (engine w1)) by (rewrite E1; by apply ok_start).
  destruct (IH w1 Ho1) as [H1 H2]; [intros q Hq; apply Hl; by right|]. split; [done|]. intros H. apply H2.
  rewrite E1, armed_start, (proj2 (streq_false _ _) Hp) by done. destruct (streq n p) eqn:En; [by right|].
  apply streq_false in En. rewrite elem_of_cons in H. tauto.
Qed.

Lemma done_paths_elem e w i :
  inv w -> get_ok e = true -> w_fault (pl w) = false -> done_by_acs i w -> instance_path i ∈ done_paths e w.
Proof.
  intros [_ I2 _] Hg Hf (s & Hs & Ha & Hd). unfold done_paths. rewrite Hg, Hf. cbn [negb andb].
  apply list_elem_of_omap. exists i. destruct (I2 i s Hs) as [_ Hi]. split; [apply elem_of_seq; lia|].
  by rewrite Hs, Ha, Hd, streq_refl.
Qed.

Lemma done_paths_not_empty e w p : p ∈ done_paths e w -> p <> ""%string.
Proof.
  unfold done_paths. destruct (_ && _); [|by rewrite elem_of_nil].
  rewrite list_elem_of_omap. intros (i & _ & H). destruct (w_objs (pl w) !! i); [|done].
  destruct (_ && _); [|done]. by injection H as <-.
Qed.

Lemma inv_starts e w : get_ok e = true -> subscribed w = false -> inv w ->
  inv (DM_AmxScheduleDownload_init E e [] w).1.
Proof.
  intros Hg Hs Hi. unfold DM_AmxScheduleDownload_init. cbn [foldl fst].
  pose proof (differ_pl (done_paths e w) w) as (Ep & Er & En).
  set (w1 := foldl _ w (done_paths e w)) in *.
  assert (H1 := fun n => differ_armed (done_paths e w) w n (inv_engine _ Hi) (done_paths_not_empty e w)).
  fold w1 in H1. split; cbn [engine pl subscribed].
  - apply (H1 ""%string).
  - rewrite Ep. apply Hi.
  - intros i _ Hf (s & Hd). cbn [pl] in Hd. rewrite Ep in *. right; right. cbn [engine].
    apply H1. left. apply done_paths_elem; [done..|by exists s].
Qed.

Lemma inv_silent w p :
  kept (pl w) p -> w_last_index p = w_last_index (pl w) -> inv w ->
  inv {| pl := p; engine := no_timers; notifications := []; subscribed := false; reports := reports w |}.
Proof.
  intros Hk Hl [I1 I2 I3]. split; cbn [engine pl subscribed]; [apply ok_none| |done].
  intros i s' (s & Hs & [= Et _ _])%Hk. rewrite Et, Hl. by apply (I2 i s).
Qed.

Lemma sd_inv_act w a : answered a -> inv w -> inv (act E w a).
Proof.
  destruct a as [e r|o|e|e n|path|e gap| |]; cbn [answered]; intros Ha Hi.
  - by apply sd_inv_request.
  - by apply inv_plugin.
  - by apply sd_inv_notified.
  - by apply sd_inv_timer.
  - cbn [act]. unfold TransferDoneAcknowledged. destruct (find_path _ _) as [[i s]|]; [by apply inv_plugin|done].
  - cbn [act]. destruct (subscribed w) eqn:Es; [done|]. destruct Ha as [Hg ->]. by apply inv_starts.
  - apply (inv_silent w); [apply sd_kept_refl|done|done].
  - apply (inv_silent w); [apply kept_restart|done|done].
Qed.

Lemma sd_inv_run l w : Forall answered l -> inv w -> inv (run E l w).
Proof.
  revert w. induction l as [|a l IH]; intros w; [done|]. rewrite Forall_cons. intros [Ha Hl] Hi.
  by apply IH, sd_inv_act.
Qed.

Lemma sd_inv_start : inv start_world.
Proof.
  split; [apply ok_none| |done]. intros i s H. cbn in H. by rewrite lookup_empty in H.
Qed.

(** *** Handling everything that was notified *)

Lemma notified_silent e w :
  pl (act E w (Notified e)) = pl w /\ subscribed (act E w (Notified e)) = subscribed w /\
  notifications (act E w (Notified e)) = tail (notifications w).
Proof.
  cbn [act]. destruct (notifications w) as [|[i st] rest] eqn:En; [by rewrite En|].
  match goal with |- context [default ?x _] => set (w1 := x) end.
  by destruct (notification_handled e (Some st) (Some (transfercomplete_path (instance_path i))) w1)
    as [->|(j & s & _ & ->)].
Qed.

Lemma reported_act e w i : is_reported i w -> is_reported i (act E w (Notified e)).
Proof.
  intros (r & Hr & Hp). cbn [act]. destruct (notifications w) as [|[j st] rest]; [by exists r|].
  match goal with |- context [default ?x _] => set (w1 := x) end. exists r. split; [|done].
  destruct (notification_handled e (Some st) (Some (transfercomplete_path (instance_path j))) w1)
    as [->|(k & s & _ & ->)]; [done|]. cbn [send reports]. rewrite elem_of_app. by left.
Qed.

Lemma reported_replicate e n w i : is_reported i w -> is_reported i (run E (replicate n (Notified e)) w).
Proof. revert w. induction n as [|n IH]; intros w H; [done|]. apply IH. by apply reported_act. Qed.

Lemma notified_all e w i :
  reporting e -> inv w -> w_fault (pl w) = false -> done_by_acs i w -> (i, "Done"%string) ∈ notifications w ->
  is_reported i (run E (replicate (length (notifications w)) (Notified e)) w).
Proof.
  intros Hg. remember (notifications w) as l eqn:El. revert w El.
  induction l as [|[j st] l IH]; intros w El Hi Hf Hd Hin; [by apply not_elem_of_nil in Hin|].
  destruct (notified_silent e w) as (Ep & Es & En). cbn [length replicate run foldl].
  apply elem_of_cons in Hin as [[= <- <-]|Hin].
  - apply reported_replicate. cbn [act]. rewrite <- El. destruct Hd as (s & Hs & _).
    match goal with |- context [default ?x _] => set (w1 := x) end.
    rewrite (notification_ok e w1 i s) by (done || apply (inv_type _ Hi i s Hs)).
    exists (report_of i s). split; [|done]. cbn. rewrite elem_of_app, list_elem_of_singleton. by right.
  - apply IH; [by rewrite En, <- El|by apply sd_inv_notified|by rewrite Ep|unfold done_by_acs; by rewrite Ep|done].
Qed.

(** ** Properties *)

(** C7: the end of a scheduled download is reported.  In every run of the daemon
    and the plugin -- requests, windows, failures, deletions, restarts of the
    daemon and of the device in any order -- in which objects can be read, the
    engine accepts the reports, and the plugin makes no step between the request for
    the finished transfers and the subscription when the daemon starts: when a
    transfer that the ACS asked for is done, the daemon is subscribed and the plugin
    has not crashed, the report of the transfer has been accepted, or is when the
    daemon handles the notifications that wait, or when the timer of the transfer
    expires.  Without these conditions a transfer can be lost: between the request
    and the subscription ([transfer_lost_at_start] of ScheduleDownloadExamples), and
    by a report that fails, which is not tried again ([failed_report_lost]). *)
Theorem done_transfer_reported (l : list action) (i : nat) (e : env)
    (Hl : Forall answered l) (He : reporting e) :
  let w := run E l (@start_world T ET) in
  subscribed w = true -> w_fault (pl w) = false -> done_by_acs i w ->
  is_reported i w \/
  is_reported i (run E (replicate (length (notifications w)) (Notified e)) w) \/
  is_reported i (run E [TimerFires e (instance_path i)] w).
Proof.
  intros w Hs Hf Hd. assert (Hi : inv w) by (apply sd_inv_run; [done|apply sd_inv_start]).
  destruct (inv_covered _ Hi i Hs Hf Hd) as [H|[H|H]]; [by left| |].
  - right; left. by apply notified_all.
  - right; right. destruct Hd as (s & Ho & _). cbn [run foldl act]. destruct (armed (engine w) (instance_path i)); [|done].
    rewrite (handle_ok e _ i s) by (done || apply (inv_type _ Hi i s Ho)).
    exists (report_of i s). split; [|done]. cbn. rewrite elem_of_app, list_elem_of_singleton. by right.
Qed.

(** A step reports at most one transfer, and what it reports is what the data
    model has at this moment: the key of the request, the fault and the times of
    an instance that exists, under the path of this instance. *)
Theorem report_is_current (w : world) (a : action) :
  reports (act E w a) = reports w \/
  exists i s, w_objs (pl w) !! i = Some s /\ reports (act E w a) = reports w ++ [report_of i s].
Proof.
  assert (H : forall w1 w2, pl w1 = pl w -> reports w1 = reports w -> at_most_one_report w1 w2 ->
    reports w2 = reports w \/ exists i s, w_objs (pl w) !! i = Some s /\ reports w2 = reports w ++ [report_of i s]).
  { intros w1 w2 Ep Er [->|(i & s & Hs & ->)]; [by left|]. right. exists i, s. cbn [send reports]. by rewrite <- Ep, Er. }
  destruct a as [e r|o|e|e n|path|e gap| |]; cbn [act]; try by left.
  - left. unfold DM_ENG_Device_ScheduleDownload, DoScheduleDownload, call_addScheduleDownload.
    destruct (_ || _); [done|]. by destruct (addScheduleDownload _ _ _ _).
  - destruct (notifications w) as [|[i st] rest]; [by left|]. match goal with |- context [default ?x _] => set (w1 := x) end.
    by apply (H w1), notification_handled.
  - destruct (armed (engine w) n); [|by left]. match goal with |- context [default ?x _] => set (w1 := x) end.
    by apply (H w1), timer_handled.
  - left. unfold TransferDoneAcknowledged. by destruct (find_path _ _) as [[j s]|].
  - left. destruct (subscribed w); [done|]. unfold DM_AmxScheduleDownload_init. cbn [fst reports].
    match goal with |- reports (foldl _ ?x gap) = _ => set (w1 := x) end.
    assert (Hr : reports w1 = reports w) by apply differ_pl. clearbody w1. revert w1 Hr.
    induction gap as [|o gap IH]; intros w1 Hr; [done|]. by apply IH.
Qed.

(** The windows of an instance, by their indices: those of a request in its order *)
Definition windows_of (l : list TimeWindowStruct) : gmap Z timewindow :=
  list_to_map (zip [1; 2] (map (new_timewindow ∘ window_args) l)).

(** C19: a request arrives as it was made.  A request is answered with success only
    if it has a window and a new instance exists with all its arguments -- the size
    of the file modulo 2^32, the windows that are given in their order and with their
    fields, and no other window --, by the ACS and not begun; every other request is
    answered with 9002, and changes no instance unless its answer is lost. *)
Theorem request_arrives (e : env) (r : request) (w : world) :
  let '(w', rc) := DM_ENG_Device_ScheduleDownload E e r w in
  (rc = 0 /\ exists i s,
     (w_last_index (pl w) < i)%nat /\ w_objs (pl w') = <[i := s]> (w_objs (pl w)) /\
     (sd_CommandKey s, sd_FileType s, sd_URL s, sd_Username s, sd_Password s, sd_TargetFileName s) =
       (commandKey r, fileType r, url r, username r, password r, targetFileName r) /\
     sd_FileSize s = u32 (fileSize r) /\
     identity s = ("ScheduleDownload", commandKey r, "ACS")%string /\ tc_status s = "Idle"%string /\
     option_list (timeWindowList r).1 ++ option_list (timeWindowList r).2 <> [] /\
     sd_TimeWindowList s = windows_of (option_list (timeWindowList r).1 ++ option_list (timeWindowList r).2)) \/
  (rc = 9002 /\ (rpc_answered e = true -> w_objs (pl w') = w_objs (pl w))).
Proof.
  unfold DM_ENG_Device_ScheduleDownload, DoScheduleDownload, call_addScheduleDownload.
  destruct (_ || _); [by right|]. unfold addScheduleDownload. cbn [request_args sda_TimeWindowList].
  destruct (option_list _ ++ option_list _) as [|first rest] eqn:El; cbn [map]; [right; rewrite andb_false_r; by split|].
  unfold amxd_trans_apply. destruct (e_accepts E _ _); [|right; rewrite andb_false_r; by split].
  destruct (rpc_answered e); cbn [andb]; [|by right]. left. split; [done|].
  eexists (S (w_last_index (pl w) + skipped e)), _. split_and!; [lia|reflexivity|done..|].
  cbn [new_schedule_download sd_TimeWindowList]. revert El. destruct (timeWindowList r) as [[w1|] [w2|]]; intros [= <- <-]; done.
Qed.

(** The only undefined behaviour is of an event without a path: a string that
    was not initialised is released exactly for an empty path, that is for a
    notification [Done] whose object is empty without its TransferComplete.  In a
    run no timer and no notification of the plugin has such a path. *)
Theorem schedule_undefined_iff (e : env) (status path : option string) (w : world) :
  (handle_transfercomplete e path w = None <-> path = None \/ path = Some ""%string) /\
  (transfercomplete_notification e status path w = None <->
     status = Some "Done"%string /\ exists p, path = Some p /\ remove_first "TransferComplete." p = ""%string) /\
  (forall i, remove_first "TransferComplete." (transfercomplete_path (instance_path i)) <> ""%string) /\
  (inv w -> armed (engine w) "" = None).
Proof.
  assert (H : forall path, handle_transfercomplete e path w = None <-> path = None \/ path = Some ""%string).
  { intros [p|]; [|naive_solver]. unfold handle_transfercomplete. destruct (streq p "") eqn:Ep; bool_prop.
    - subst. naive_solver.
    - split; [|naive_solver]. destruct (amxb_get _ _ _) as [row|]; [|done].
      repeat (case_match; try discriminate). }
  split_and!; [apply H| | |intros Hi; by apply armed_nameless, inv_engine].
  - unfold transfercomplete_notification. destruct status as [st|]; [|naive_solver]. destruct path as [p|]; [|naive_solver].
    destruct (streq st "Done") eqn:Es; bool_prop; [subst|naive_solver]. specialize (H (Some (remove_first "TransferComplete." p))).
    destruct (handle_transfercomplete _ _ _) as [[w' rc]|]; cbn; [|naive_solver].
    split; [done|]. intros (_ & p' & [= <-] & E0). destruct H as [_ H]. discriminate H. right. by rewrite E0.
  - intros i. by rewrite remove_first_path.
Qed.

End Adapter.

End ScheduleDownloadFacts.
