(* ===== verification/ScheduleDownloadExamples.v ===== *)
(** * ScheduleDownloadExamples: runs of [ScheduleDownload]

    A download that fails and is reported, with the timers of the daemon and a
    clock in UTC, and runs in which a report is lost. *)

From Stdlib Require Import ZArith Lia Ascii.
From stdpp Require Import base list gmap strings pretty.
From S2P Require Import Prelude Timer EngineTimers Transfers TransfersSpec ScheduleDownload ScheduleDownloadFacts.

Module ScheduleDownloadExamples.
Import Transfers ScheduleDownload ScheduleDownloadFacts.
Import EngineTimers.Cwmpd.

#[local] Instance utc : clock := {| mktime_of_utc := fun t => t |}.

Definition ex_env : env :=
  {| rpc_reached := true; rpc_answered := true; skipped := 0; get_ok := true; send_result := 0; subscribe_result := 0 |}.

Definition ex_window : TimeWindowStruct :=
  {| windowStart := 10; windowEnd := 100; windowMode := "2 Immediately"; userMessage := ""; maxRetries := 0 |}.

Definition ex_request : request :=
  {| commandKey := "key"; fileType := FILETYPE_1_FIRMWARE_UPGRADE_IMAGE; url := "http://u/"; username := "";
     password := ""; fileSize := 0; targetFileName := ""; timeWindowList := (Some ex_window, None) |}.

(** The window opens, the download is refused and there is no retry. *)
Definition refused : list op := [OpEvent; OpStartTimer 1 1; OpEvent; OpEvent].

Notation E := TransfersSpec.TransfersSpec.refusing_env.

Definition ex_run : list action := [DaemonStarts ex_env []; Request ex_env ex_request] ++ map Plugin refused.

Definition ex_world : world Timer.timer_world := run E ex_run start_world.

Definition is_done (s : schedule_download) : bool := by_acs s && streq (tc_status s) "Done".

Lemma done_compute (w : world Timer.timer_world) i :
  match w_objs (pl w) !! i with Some s => is_done s | None => false end = true -> done_by_acs i w.
Proof.
  intros H. destruct (w_objs (pl w) !! i) as [s|] eqn:Es; [|done]. apply andb_true_iff in H as [H1 H2%streq_true].
  by exists s.
Qed.

Lemma done_transfer_reported_witness :
  is_reported 1 ex_world \/
  is_reported 1 (run E (replicate (length (notifications ex_world)) (Notified ex_env)) ex_world) \/
  is_reported 1 (run E [TimerFires ex_env (instance_path 1)] ex_world).
Proof.
  apply (done_transfer_reported E ex_run 1 ex_env); [|split; reflexivity|vm_compute; reflexivity|vm_compute; reflexivity|].
  - repeat first [apply Forall_cons; split | apply Forall_nil]; repeat split.
  - apply done_compute. vm_compute. reflexivity.
Defined.

(** What the ACS gets in this run. *)
Example ex_reports :
  reports (run E [Notified ex_env; Notified ex_env] ex_world) =
    [{| rp_path := "ManagementServer.Transfers.ScheduleDownload.1."; rp_CommandKey := "key"; rp_FaultCode := 9002;
        rp_FaultString := "Failed to perform upgrade"; rp_StartTime := 0; rp_CompleteTime := 0 |}].
Proof. vm_compute. reflexivity. Qed.

(** A transfer that ends between the request for the objects and the subscription,
    when the daemon starts again, is reported by nothing: no notification waits, no
    timer runs and no report was sent. *)
Example transfer_lost_at_start :
  let w := run E ([Request ex_env ex_request] ++ map Plugin (take 3 refused) ++ [DaemonStarts ex_env [OpEvent]]) start_world in
  done_by_acs 1 w /\ subscribed w = true /\ notifications w = [] /\ reports w = [] /\
  forall n, armed (engine w) n = None.
Proof.
  split; [apply done_compute; vm_compute; reflexivity|]. split_and!; [vm_compute; reflexivity..|].
  intros n. rewrite armed_view. vm_compute. reflexivity.
Qed.

Definition refusing_engine : env :=
  {| rpc_reached := true; rpc_answered := true; skipped := 0; get_ok := true; send_result := 9002; subscribe_result := 0 |}.

(** A report that the engine refuses is not tried again before the daemon starts
    again. *)
Example failed_report_lost :
  let w := run E [Notified refusing_engine; Notified refusing_engine] ex_world in
  done_by_acs 1 w /\ subscribed w = true /\ notifications w = [] /\ reports w = [] /\
  forall n, armed (engine w) n = None.
Proof.
  split; [apply done_compute; vm_compute; reflexivity|]. split_and!; [vm_compute; reflexivity..|].
  intros n. rewrite armed_view. vm_compute. reflexivity.
Qed.

End ScheduleDownloadExamples.
