(* ===== verification/SupportedModel.v ===== *)
(** * SupportedModel: what the adapter collects of the supported data model
    ([DM_ENG_Device_Common_Get_Gsdm_data] of [DM_AmxCommon.c] and
    [DM_AmxParameter_GetGsdmInfo] of [DM_AmxParameter.c], both of
    [src/src/dmdeviceadapter/amx/adapter])

    The answers of [amxb_get_supported] are collected in a variant with two tables:
    the requests that were made, and for every object of the supported data model
    whether it can be written, the objects right below it, and the type of its
    parameters and whether they can be written.  Here the variant is the record
    [gsdm_data]; a request is the pair of the path and the flags that its key
    ["%s_%04X"] is printed from.

    A key that exists in a table is not added again: [amxc_var_add_key] and
    [amxc_var_add_new_key] leave the value that is there. *)

From Stdlib Require Import ZArith Lia Ascii.
From stdpp Require Import base list gmap strings.
From S2P Require Import Prelude CString PathAlias ParameterNames.

Module SupportedModel.
Import CString.
Import PathAlias.
Import ParameterNames.

(** An element of [supported_params] *)
Record supported_param := { param_name : option cstr; param_type : Z; param_access : Z }.

(** An object in the answer of [amxb_get_supported] *)
Record supported_object := {
  access : option bool;
  is_multi_instance : bool;
  supported_params : option (list supported_param);
}.

(** The bus and the libraries.  [get_supported] answers nothing when it fails, and
    otherwise the objects in the order of their sorted keys; [get_last] is
    [amxd_path_get_last (_, true)], with the path that is left. *)
Class gsdm_library := {
  get_supported : cstr -> Z -> option (list (cstr * supported_object));
  build_supported_path : cstr -> cstr;
  get_last : cstr -> cstr * cstr;
  sfilters : Type;
  get_sfilters : cstr -> sfilters;
  sallowed : sfilters -> cstr -> bool;
  filter_supported : sfilters -> list (cstr * supported_object) -> list (cstr * supported_object);
}.

(** An entry of [parameters] *)
Record parameter_info := { info_type : Z; info_writable : bool }.

(** An entry of [Response] *)
Record object_info := {
  writable : option bool;
  objects : option (list cstr);
  parameters : option (gmap cstr parameter_info);
}.

Record gsdm_data := { Request : list (cstr * Z); Response : gmap cstr object_info }.

Definition no_data : gsdm_data := {| Request := []; Response := ∅ |}.

Definition AMXB_FLAG_PARAMETERS : Z := 1.

Definition AMXB_FLAG_FIRST_LVL : Z := 32.

Section Data.

Context {L : gsdm_library}.

(** [DM_ENG_Device_Common_Add_Object_To_Parent] *)
Definition Add_Object_To_Parent (parent_path : cstr) (template : cstr) (response : gmap cstr object_info) :
    gmap cstr object_info :=
  match response !! parent_path with
  | None => response
  | Some parent =>
      let l := default [] (objects parent) in
      <[parent_path := {| writable := writable parent;
                          objects := Some (if decide (template ∈ l) then l else l ++ [template]);
                          parameters := parameters parent |}]> response
  end.

(** The loop over [supported_params] *)
Definition parameter_infos (l : list supported_param) : gmap cstr parameter_info :=
  foldl (fun m p =>
    match param_name p with
    | Some (c :: n) =>
        match m !! (c :: n) with
        | Some _ => m
        | None => <[c :: n := {| info_type := param_type p; info_writable := param_access p =? 1 |}]> m
        end
    | _ => m
    end) ∅ l.

(** The access of the object goes to the entry of [key]. *)
Definition enter_object (key : cstr) (v : supported_object) (response : gmap cstr object_info) : gmap cstr object_info :=
  let key_var := default {| writable := None; objects := None; parameters := None |} (response !! key) in
  <[key := {| writable := match writable key_var with Some b => Some b | None => access v end;
              objects := objects key_var; parameters := parameters key_var |}]> response.

(** The object becomes an object of its parent. *)
Definition enter_child (parameter_name key : cstr) (v : supported_object) (response : gmap cstr object_info) :
    gmap cstr object_info :=
  if IsParameterPath (Some parameter_name) then response
  else if is_multi_instance v then
    let '(_, template) := get_last key in
    let '(object, parent) := get_last template in
    Add_Object_To_Parent parent object response
  else if negb (bool_decide (key = parameter_name)) then
    let '(object, parent) := get_last key in
    Add_Object_To_Parent parent object response
  else response.

(** The parameters go to the entry of [key]. *)
Definition enter_parameters (key : cstr) (v : supported_object) (response : gmap cstr object_info) :
    gmap cstr object_info :=
  match supported_params v with
  | None | Some [] => response
  | Some l =>
      alter (fun key_var =>
        {| writable := writable key_var; objects := objects key_var;
           parameters := match parameters key_var with Some m => Some m | None => Some (parameter_infos l) end |}) key response
  end.

(** One turn of the loop over the sorted keys *)
Definition enter (parameter_name : cstr) (response : gmap cstr object_info) (x : cstr * supported_object) :
    gmap cstr object_info :=
  enter_parameters x.1 x.2 (enter_child parameter_name x.1 x.2 (enter_object x.1 x.2 response)).

(** [DM_ENG_Device_Common_Get_Gsdm_data] with a table *)
Definition Get_Gsdm_data (parameter_name : cstr) (nextlevel : bool) (data : gsdm_data) : gsdm_data * Z :=
  match parameter_name with
  | [] => (data, 0)
  | _ =>
      let supported_path := build_supported_path parameter_name in
      match supported_path with
      | [] => (data, 0)
      | _ =>
          let flags := if nextlevel || IsParameterPath (Some parameter_name)
                       then Z.lor AMXB_FLAG_PARAMETERS AMXB_FLAG_FIRST_LVL else AMXB_FLAG_PARAMETERS in
          if decide ((supported_path, flags) ∈ Request data) then (data, 0)
          else
            let data := {| Request := Request data ++ [(supported_path, flags)]; Response := Response data |} in
            let filters := get_sfilters parameter_name in
            if negb (sallowed filters parameter_name) then (data, DM_ENG_INVALID_PARAMETER_NAME)
            else
              match get_supported supported_path flags with
              | None => (data, 0)
              | Some gsdm =>
                  ({| Request := Request data;
                      Response := foldl (enter parameter_name) (Response data) (filter_supported filters gsdm) |}, 0)
              end
      end
  end.

(** [DM_AmxParameter_GetGsdmInfo]; the data may be missing. *)
Definition GetGsdmInfo (parameter_name : cstr) (data : option gsdm_data) : option object_info :=
  match parameter_name, data with
  | [], _ | _, None => None
  | _, Some data =>
      match build_supported_path parameter_name with
      | [] => None
      | supported_path =>
          match Response data !! supported_path with
          | Some info => Some info
          | None => if EndsWithDot supported_path then Response data !! (supported_path ++ cs "{i}.") else None
          end
      end
  end.

End Data.

(** ** What the code relies on

    The last element of a path is what follows the last dot but one, with its dot;
    the key of a multi-instance object ends with [{i}.], every key with a dot; the
    path of an object in the supported data model is the one it is built for. *)
Class GsdmLaws (L : gsdm_library) : Prop := {
  get_last_parts p : let '(e, r) := get_last p in p = r ++ e;
  get_last_instance p : EndsWithDot p = true -> let '(e, r) := get_last (p ++ cs "{i}.") in e = cs "{i}." /\ r = p;
  supported_multi name flags rows k v :
    get_supported name flags = Some rows -> (k, v) ∈ rows -> is_multi_instance v = true ->
    exists p, EndsWithDot p = true /\ k = p ++ cs "{i}.";
  filter_keeps f rows : filter_supported f rows `sublist_of` rows;
}.

(** ** Properties *)

Section Properties.

Context {L : gsdm_library} {LL : GsdmLaws L}.

(** Every object below an object is known: its path, or the path of its
    instances, has an entry. *)
Definition known (response : gmap cstr object_info) (path : cstr) : Prop :=
  is_Some (response !! path) \/ is_Some (response !! (path ++ cs "{i}.")).

Definition children_known (response : gmap cstr object_info) : Prop :=
  forall p info o, response !! p = Some info -> o ∈ default [] (objects info) -> known response (p ++ o).

(** Entries are only added, and the objects of an entry change only with
    [Add_Object_To_Parent]. *)
Lemma known_mono r r' (p : cstr) : (forall k, is_Some (r !! k) -> is_Some (r' !! k)) -> known r p -> known r' p.
Proof. intros H [H1|H1]; [left|right]; by apply H. Qed.

Lemma enter_object_keys (key : cstr) v r (k : cstr) : is_Some (r !! k) -> is_Some (enter_object key v r !! k).
Proof. intros H. unfold enter_object. rewrite lookup_insert_is_Some. destruct (decide (key = k)); auto. Qed.

Lemma enter_object_known (key : cstr) v r : children_known r -> children_known (enter_object key v r).
Proof.
  intros H p info o Hp Ho. apply (known_mono r); [apply enter_object_keys|]. unfold enter_object in Hp.
  apply lookup_insert_Some in Hp as [[<- <-]|[_ Hp]]; [|by eapply H]. cbn [objects] in Ho.
  destruct (r !! key) as [info|] eqn:Er; [by eapply H|]. by apply not_elem_of_nil in Ho.
Qed.

Lemma add_object_keys (parent o : cstr) r (k : cstr) : is_Some (Add_Object_To_Parent parent o r !! k) <-> is_Some (r !! k).
Proof.
  unfold Add_Object_To_Parent. destruct (r !! parent) as [info|] eqn:Er; [|done].
  rewrite lookup_insert_is_Some. destruct (decide (parent = k)) as [<-|]; [rewrite Er|]; naive_solver.
Qed.

Lemma add_object_known (parent o : cstr) r :
  known r (parent ++ o) -> children_known r -> children_known (Add_Object_To_Parent parent o r).
Proof.
  intros Hk H p info x Hp Hx. apply (known_mono r); [intros k; by rewrite add_object_keys|].
  unfold Add_Object_To_Parent in Hp. destruct (r !! parent) as [pi|] eqn:Er; [|by eapply H].
  apply lookup_insert_Some in Hp as [[<- <-]|[_ Hp]]; [|by eapply H]. cbn [objects default] in Hx.
  destruct (decide (o ∈ default [] (objects pi))); [by eapply H|].
  apply elem_of_app in Hx as [Hx|Hx]; [by eapply H|]. apply list_elem_of_singleton in Hx as ->. done.
Qed.

Lemma enter_child_known (name key : cstr) v r :
  is_Some (r !! key) -> (is_multi_instance v = true -> exists p, EndsWithDot p = true /\ key = p ++ cs "{i}.") ->
  children_known r -> children_known (enter_child name key v r).
Proof.
  intros Hk Hm H. unfold enter_child. destruct (IsParameterPath _); [done|]. destruct (is_multi_instance v).
  - destruct (Hm eq_refl) as (p & Hd & ->). pose proof (get_last_instance p Hd) as Hi.
    destruct (get_last (p ++ cs "{i}.")) as [e t]. destruct Hi as [_ ->].
    pose proof (get_last_parts p) as Hp. destruct (get_last p) as [o parent]. subst p.
    apply add_object_known; [by right|done].
  - destruct (negb _); [|done]. pose proof (get_last_parts key) as Hp. destruct (get_last key) as [o parent]. subst key.
    apply add_object_known; [by left|done].
Qed.

Lemma enter_parameters_known (key : cstr) v r : children_known r -> children_known (enter_parameters key v r).
Proof.
  intros H. unfold enter_parameters. destruct (supported_params v) as [[|x l]|]; [done| |done].
  intros p info o Hp Ho. apply (known_mono r); [intros k; by rewrite lookup_alter_is_Some|].
  rewrite lookup_alter in Hp. case_decide; [subst|by eapply H]. destruct (r !! p) as [pi|] eqn:Er; [|done].
  injection Hp as <-. by eapply H.
Qed.

Lemma enter_known name x r :
  (is_multi_instance x.2 = true -> exists p, EndsWithDot p = true /\ x.1 = p ++ cs "{i}.") ->
  children_known r -> children_known (enter name r x).
Proof.
  intros Hm H. apply enter_parameters_known, enter_child_known; [|done|by apply enter_object_known].
  unfold enter_object. rewrite lookup_insert_eq. by eexists.
Qed.

(** The data after a sequence of requests *)
Definition collect (requests : list (cstr * bool)) (data : gsdm_data) : gsdm_data :=
  foldl (fun data x => (Get_Gsdm_data x.1 x.2 data).1) data requests.

Lemma collect_inv (P : gsdm_data -> Prop) requests data :
  (forall name nextlevel data, P data -> P (Get_Gsdm_data name nextlevel data).1) -> P data -> P (collect requests data).
Proof. intros Hs. revert data. induction requests as [|x l IH]; intros data H; [done|]. by apply IH, Hs. Qed.

Lemma known_step name nextlevel data :
  children_known (Response data) -> children_known (Response (Get_Gsdm_data name nextlevel data).1).
Proof.
  intros H. unfold Get_Gsdm_data. destruct name as [|c n]; [done|].
  destruct (build_supported_path (c :: n)) as [|d sp] eqn:Esp; [done|].
  match goal with |- context [get_supported _ ?f] => set (flags := f) end. case_decide; [done|].
  destruct (negb _); [done|]. destruct (get_supported _ flags) as [rows|] eqn:Eg; [|done]. cbn [fst Response].
  pose proof (filter_keeps (get_sfilters (c :: n)) rows) as Hsub.
  assert (Hrows : forall x, x ∈ filter_supported (get_sfilters (c :: n)) rows ->
    is_multi_instance x.2 = true -> exists p, EndsWithDot p = true /\ x.1 = p ++ cs "{i}.").
  { intros [k v] Hx Hm. eapply supported_multi; [exact Eg| |exact Hm]. by eapply elem_of_sublist. }
  clear Hsub. revert H Hrows. generalize (Response data).
  induction (filter_supported _ rows) as [|x l IH]; intros r H Hrows; [done|]. cbn [foldl].
  apply IH; [apply enter_known; [apply Hrows; left|done]|]. intros y Hy. apply Hrows. by right.
Qed.

Lemma collect_known requests : children_known (Response (collect requests no_data)).
Proof.
  apply (collect_inv (fun d => children_known (Response d))); [intros; by apply known_step|].
  intros k i x Hk. cbn in Hk. by rewrite lookup_empty in Hk.
Qed.

(** The collected data are closed: after any requests, each object that is
    listed below another one has an entry of its own, or its instances have. *)
Theorem gsdm_children_known (requests : list (cstr * bool)) (p o : cstr) (info : object_info)
    (Hp : Response (collect requests no_data) !! p = Some info) (Ho : o ∈ default [] (objects info)) :
  known (Response (collect requests no_data)) (p ++ o).
Proof. by apply (collect_known requests p info o). Qed.

End Properties.

(** ** Witness *)

(** The last element of a path *)
Definition ex_last (p : cstr) : cstr * cstr :=
  match strchr "." (rev (removelast p)) with
  | Some (e, _) => (drop (length p - length e - 1) p, take (length p - length e - 1) p)
  | None => (p, [])
  end.

Definition ex_object (multi : bool) (params : list string) : supported_object :=
  {| access := Some multi; is_multi_instance := multi;
     supported_params := Some (map (fun n => {| param_name := Some (cs n); param_type := 1; param_access := 1 |}) params) |}.

#[local] Instance ex_library : gsdm_library := {|
  get_supported := fun p flags =>
    if bool_decide (p = cs "Device.NAT.")
    then Some [(cs "Device.NAT.", ex_object false ["PortMappingNumberOfEntries"%string]);
               (cs "Device.NAT.PortMapping.{i}.", ex_object true ["Enable"%string; "Alias"%string])]
    else None;
  build_supported_path := fun p => p;
  get_last := ex_last;
  sfilters := unit;
  get_sfilters := fun _ => tt;
  sallowed := fun _ _ => true;
  filter_supported := fun _ l => l;
|}.

#[local] Instance ex_laws : GsdmLaws ex_library.
Proof.
  constructor.
  - intros p. cbn. unfold ex_last. destruct (strchr _ _) as [[e r]|]; [|done]. by rewrite take_drop.
  - intros p Hp. cbn [get_last ex_library]. unfold ex_last.
    replace (removelast (p ++ cs "{i}.")) with (p ++ cs "{i}")
      by (replace (p ++ cs "{i}.") with ((p ++ cs "{i}") ++ ["."%char]) by (by rewrite <- app_assoc); by rewrite removelast_last).
    unfold EndsWithDot in Hp. destruct (last p) as [c|] eqn:El; [|done]. apply last_Some in El as [q ->].
    destruct (Ascii.eqb_spec c "."); [|done]. subst. rewrite !rev_app_distr. cbn [rev app cs String.list_ascii_of_string].
    cbn [strchr]. cbn. rewrite !length_app. cbn [length].
    replace (length q + 1 + 4 - 3 - 1)%nat with (length (q ++ ["."%char])) by (rewrite length_app; cbn; lia).
    by rewrite drop_app_length, take_app_length.
  - intros name flags rows k v H Hin Hm. cbn in H. case_bool_decide; [|done]. injection H as <-.
    apply elem_of_cons in Hin as [[= -> ->]|Hin]; [done|]. apply list_elem_of_singleton in Hin as [= -> ->].
    exists (cs "Device.NAT.PortMapping."). split; reflexivity.
  - done.
Qed.

Lemma gsdm_children_known_witness :
  @known (Response (@collect ex_library [(cs "Device.NAT.", false)] no_data)) (cs "Device.NAT." ++ cs "PortMapping.").
Proof.
  eapply (@gsdm_children_known ex_library ex_laws); [vm_compute; reflexivity|].
  apply (bool_decide_unpack _). vm_compute. reflexivity.
Defined.

End SupportedModel.
