(* ===== verification/ParameterLists.v ===== *)
(** * ParameterLists: values and names with the supported data model
    ([DM_AmxParameter.c], and [DM_ENG_Device_GPV] and [DM_ENG_Device_GPN] of
    [DM_DeviceAdapter.c] and [DM_DeviceAdapter_prpl.c], all of
    [src/src/dmdeviceadapter/amx/adapter])

    The second interface of the engine for values and names.  Both requests read
    the objects below a path and take types and access from the data of
    [SupportedModel]; what they add to the list of the engine are three functions
    that [Parse] is given.  A list of the engine is the list of its entries, which
    it finds by their name. *)

From Stdlib Require Import ZArith Lia Ascii.
From stdpp Require Import base list gmap strings.
From S2P Require Import Prelude CString PathAlias IndexAlias ParameterNames ReadValues SupportedModel.

Module ParameterLists.
Import CString.
Import PathAlias.
Import IndexAlias.
Import ParameterNames.
Import ReadValues.
Import SupportedModel.

(** [dm_eng_pvs_t] and [dm_eng_pn_t] *)
Record eng_pvs := { pvs_path : cstr; pvs_type : Z; pvs_value : option cstr }.

Record eng_pn := { pn_path : cstr; pn_writable : bool }.

(** [amxd_path_get_depth] *)
Class depth_library := { get_depth : cstr -> Z }.

(** What [DM_AmxParameter_Parse] adds to the list *)
Record additions (V P : Type) := {
  add_acs_path_to_list : option (P -> cstr -> bool -> option object_info -> gsdm_data -> P);
  add_object_to_list : option (P -> cstr -> cstr -> bool -> object_info -> gsdm_data -> P);
  add_param_to_list : option (P -> cstr -> V -> cstr -> object_info -> P);
}.
Arguments add_acs_path_to_list {V P}.
Arguments add_object_to_list {V P}.
Arguments add_param_to_list {V P}.

Section Lists.

Context {L : values_library} {A : alias_library} {G : gsdm_library} {D : depth_library}.

(** The path under which an object or a parameter is added *)
Definition added_path (amx : amx_env) (acs_path path : cstr) (aliases : alias_list_t) : cstr :=
  match (if instanceAlias amx then IndexToAlias acs_path path else None) with
  | Some alias_path => alias_path
  | None => match al_entries aliases with [] => path | _ => Modify_Path_With_Aliases path aliases end
  end.

Section Parse.

Context {P : Type} (add : additions variant P).

(** [DM_AmxParameter_ParseForEachParameter] *)
Definition ParseForEachParameter (amx : amx_env) (acs_path object_path : cstr) (aliases : alias_list_t)
    (info : object_info) (plist : P) (param : cstr * variant) : P :=
  match add_param_to_list add with
  | None => plist
  | Some f => f plist (added_path amx acs_path (object_path ++ param.1) aliases) param.2 param.1 info
  end.

(** [DM_AmxParameter_ParseForEachObject] *)
Definition ParseForEachObject (amx : amx_env) (acs_path : cstr) (nextlevel : bool) (gsdm : gsdm_data)
    (aliases : alias_list_t) (plist : P) (object : cstr * list (cstr * variant)) : P :=
  match GetGsdmInfo object.1 (Some gsdm) with
  | None => plist
  | Some info =>
      let plist :=
        match add_object_to_list add with
        | None => plist
        | Some f => f plist acs_path (added_path amx acs_path object.1 aliases) nextlevel info gsdm
        end in
      if nextlevel && (get_depth acs_path <? get_depth object.1) then plist
      else foldl (ParseForEachParameter amx acs_path object.1 aliases info) plist object.2
  end.

(** [DM_AmxParameter_Parse] *)
Definition Parse (amx : amx_env) (acs_path : cstr) (nextlevel : bool) (object : option (answer variant)) (plist : P)
    (ext_gsdm_data : option gsdm_data) : P * Z :=
  let '(gsdm, error) :=
    match ext_gsdm_data with
    | Some gsdm => (gsdm, 0)
    | None => Get_Gsdm_data acs_path nextlevel no_data
    end in
  if negb (error =? 0) then (plist, error)
  else
    let aliases := if Is_Alias_Based acs_path then Extract_Aliases acs_path
                   else {| al_entries := []; al_total_alias_length := 0 |} in
    let plist :=
      match add_acs_path_to_list add with
      | None => plist
      | Some f => f plist acs_path nextlevel (GetGsdmInfo acs_path (Some gsdm)) gsdm
      end in
    (foldl (ParseForEachObject amx acs_path nextlevel gsdm aliases) plist (default [] object), 0).

End Parse.

(** ** What is added *)

Definition find_type (info : object_info) (param_key : cstr) : Z :=
  match parameters info ≫= fun m => m !! param_key with Some i => info_type i | None => 0 end.

(** [DM_AmxParameter_AddParameterToPVS]; the type of no variant is 0. *)
Definition AddParameterToPVS (pvs_list : list eng_pvs) (param_path : cstr) (param_var : variant) (param_key : cstr)
    (info : object_info) : list eng_pvs :=
  if decide (param_path ∈ map pvs_path pvs_list) then pvs_list
  else
    let type := find_type info param_key in
    let type := if type =? -1 then 0 else type in
    pvs_list ++ [{| pvs_path := param_path; pvs_type := type; pvs_value := cstring_of param_var |}].

(** [DM_AmxParameter_AddSingleObjectToPN] *)
Definition AddSingleObjectToPN (pn_list : list eng_pn) (object_path : cstr) (info : option object_info) : list eng_pn :=
  if decide (object_path ∈ map pn_path pn_list) then pn_list
  else pn_list ++ [{| pn_path := object_path; pn_writable := default false (info ≫= writable) |}].

(** The loop of [DM_AmxParameter_AddObjectsToPN], which ends at an object without
    data *)
Fixpoint add_objects (pn_list : list eng_pn) (object_path : cstr) (gsdm : gsdm_data) (l : list cstr) : list eng_pn :=
  match l with
  | [] => pn_list
  | object :: l =>
      match GetGsdmInfo (object_path ++ object) (Some gsdm) with
      | None => pn_list
      | Some info => add_objects (AddSingleObjectToPN pn_list (object_path ++ object) (Some info)) object_path gsdm l
      end
  end.

(** [DM_AmxParameter_AddObjectsToPN] *)
Definition AddObjectsToPN (pn_list : list eng_pn) (object_path : cstr) (info : option object_info) (gsdm : gsdm_data) :
    list eng_pn :=
  match info ≫= objects with
  | None => pn_list
  | Some l => add_objects pn_list object_path gsdm l
  end.

(** [DM_AmxParameter_AddAcsPathToPN] *)
Definition AddAcsPathToPN (pn_list : list eng_pn) (acs_path : cstr) (nextlevel : bool) (info : option object_info)
    (gsdm : gsdm_data) : list eng_pn :=
  if IsParameterPath (Some acs_path) then pn_list
  else if IsWildcardPath (Some acs_path) then pn_list
  else
    let pn_list := if nextlevel then pn_list else AddSingleObjectToPN pn_list acs_path info in
    AddObjectsToPN pn_list acs_path info gsdm.

(** [DM_AmxParameter_AddObjectToPN] *)
Definition AddObjectToPN (pn_list : list eng_pn) (acs_path object_path : cstr) (nextlevel : bool) (info : object_info)
    (gsdm : gsdm_data) : list eng_pn :=
  if IsParameterPath (Some acs_path) then pn_list
  else
    let pn_list :=
      if negb nextlevel || negb (bool_decide (acs_path = object_path)) then AddSingleObjectToPN pn_list object_path (Some info)
      else pn_list in
    if nextlevel then pn_list else AddObjectsToPN pn_list object_path (Some info) gsdm.

(** [DM_AmxParameter_AddParameterToPN] *)
Definition AddParameterToPN (pn_list : list eng_pn) (param_path : cstr) (param_var : variant) (param_key : cstr)
    (info : object_info) : list eng_pn :=
  if decide (param_path ∈ map pn_path pn_list) then pn_list
  else
    pn_list ++ [{| pn_path := param_path;
                   pn_writable := match parameters info ≫= fun m => m !! param_key with
                                  | Some i => info_writable i
                                  | None => false
                                  end |}].

(** [DM_AmxParameter_ParseValues] *)
Definition DM_AmxParameter_ParseValues : amx_env -> cstr -> bool -> option (answer variant) -> list eng_pvs ->
    option gsdm_data -> list eng_pvs * Z :=
  Parse {| add_acs_path_to_list := None; add_object_to_list := None; add_param_to_list := Some AddParameterToPVS |}.

(** [DM_AmxParameter_ParseNames] *)
Definition DM_AmxParameter_ParseNames : amx_env -> cstr -> bool -> option (answer variant) -> list eng_pn ->
    option gsdm_data -> list eng_pn * Z :=
  Parse {| add_acs_path_to_list := Some AddAcsPathToPN; add_object_to_list := Some AddObjectToPN;
           add_param_to_list := Some AddParameterToPN |}.

(** ** The requests *)

(** [DM_AmxParameter_Get] *)
Definition DM_AmxParameter_Get {P : Type} (amx : amx_env) (path : cstr) (nextlevel : bool) (plist : P)
    (gsdm : option gsdm_data)
    (parse_get : amx_env -> cstr -> bool -> option (answer variant) -> P -> option gsdm_data -> P * Z) : P * Z :=
  let path := root_if_empty path in
  let filters := get_vfilters path in
  if negb (allowed filters path) then (plist, DM_ENG_INVALID_PARAMETER_NAME)
  else
    let is_partialpath := EndsWithDot path in
    let is_wildcardpath := contains "*" path in
    let depth := if nextlevel then 0 else if is_partialpath then -1 else 0 in
    let r := amxb_get path depth in
    if (is_partialpath || is_wildcardpath) && (negb (r.1 =? 0) || is_null r.2) then (plist, 0)
    else if negb (r.1 =? 0) then (plist, if not_supported_scheme r.1 then 0 else DM_ENG_INVALID_PARAMETER_NAME)
    else parse_get amx path nextlevel (if is_partialpath then filter_resp filters <$> r.2 else r.2) plist gsdm.

(** [DM_AmxParameter_GetValues] *)
Definition DM_AmxParameter_GetValues (amx : amx_env) (path : cstr) (pvs_list : list eng_pvs) (gsdm : option gsdm_data) :
    list eng_pvs * Z :=
  DM_AmxParameter_Get amx path false pvs_list gsdm DM_AmxParameter_ParseValues.

(** [DM_AmxParameter_GetNames] *)
Definition DM_AmxParameter_GetNames (amx : amx_env) (path : cstr) (nextlevel : bool) (pn_list : list eng_pn)
    (gsdm : option gsdm_data) : list eng_pn * Z :=
  if bool_decide (path = []) && nextlevel then (AddSingleObjectToPN pn_list (cs "Device.") None, 0)
  else if IsParameterPath (Some path) && nextlevel then (pn_list, DM_ENG_INVALID_ARGUMENTS)
  else DM_AmxParameter_Get amx path nextlevel pn_list gsdm DM_AmxParameter_ParseNames.

(** The two loops of [DM_ENG_Device_GPV] over the names *)
Fixpoint collect_all (names : list cstr) (gsdm : gsdm_data) : gsdm_data * Z :=
  match names with
  | [] => (gsdm, 0)
  | n :: names =>
      let '(gsdm, error) := Get_Gsdm_data n false gsdm in
      if negb (error =? 0) then (gsdm, error) else collect_all names gsdm
  end.

Fixpoint get_all_values (amx : amx_env) (names : list cstr) (pvs_list : list eng_pvs) (gsdm : option gsdm_data) :
    list eng_pvs * Z :=
  match names with
  | [] => (pvs_list, 0)
  | n :: names =>
      let '(pvs_list, error) := DM_AmxParameter_GetValues amx n pvs_list gsdm in
      if negb (error =? 0) then (pvs_list, error) else get_all_values amx names pvs_list gsdm
  end.

(** [DM_ENG_Device_GPV]; [None] is the variant that is released although the test
    of the system has jumped over its initialisation. *)
Definition DM_ENG_Device_GPV (amx : amx_env) (parameterNames : list cstr) (pvs_list : list eng_pvs) :
    option (list eng_pvs * Z) :=
  if negb (CheckSystem amx) then None
  else
    let '(gsdm, error) := collect_all parameterNames no_data in
    if negb (error =? 0) then Some (pvs_list, error)
    else Some (get_all_values amx parameterNames pvs_list (Some gsdm)).

(** The same in the prpl build *)
Definition DM_ENG_Device_GPV_prpl (amx : amx_env) (parameterNames : list cstr) (pvs_list : list eng_pvs) :
    list eng_pvs * Z :=
  if negb (CheckSystem amx) then (pvs_list, DM_ENG_INTERNAL_ERROR)
  else get_all_values amx parameterNames pvs_list None.

(** [DM_ENG_Device_GPN], alike in both builds *)
Definition DM_ENG_Device_GPN (amx : amx_env) (path : cstr) (nextLevel : bool) (pn_list : list eng_pn) :
    list eng_pn * Z :=
  if negb (CheckSystem amx) then (pn_list, DM_ENG_INTERNAL_ERROR)
  else DM_AmxParameter_GetNames amx path nextLevel pn_list None.

End Lists.

End ParameterLists.
