(* ===== verification/ParameterListsFacts.v ===== *)
(** * ParameterListsFacts: the lists of values and names that the engine gets

    Properties of [ParameterLists]: no name is listed twice, what was listed is
    kept, nothing is listed for a path without access, and the objects right below
    a known object are all listed. *)

From Stdlib Require Import ZArith Lia Ascii.
From stdpp Require Import base list gmap strings.
From S2P Require Import Prelude CString PathAlias IndexAlias ParameterNames ReadValues SupportedModel ParameterLists.

Module ParameterListsFacts.
Import CString.
Import PathAlias.
Import IndexAlias.
Import ParameterNames.
Import ReadValues.
Import SupportedModel.
Import ParameterLists.

(** ** Lists that grow without a name twice *)

Section Grows.

Context {X : Type} (name : X -> cstr).

(** [l'] has what [l] has, and then entries with new names. *)
Definition grows (l l' : list X) : Prop :=
  exists new, l' = l ++ new /\ (NoDup (map name l) -> NoDup (map name l')).

Lemma grows_refl l : grows l l.
Proof. exists []. by rewrite app_nil_r. Qed.

Lemma grows_trans l1 l2 l3 : grows l1 l2 -> grows l2 l3 -> grows l1 l3.
Proof.
  intros (n1 & -> & H1) (n2 & -> & H2). exists (n1 ++ n2). rewrite app_assoc. auto.
Qed.

Lemma grows_one l x : name x ∉ map name l -> grows l (l ++ [x]).
Proof.
  intros Hx. exists [x]. split; [done|]. intros Hn. rewrite map_app. apply NoDup_app. split_and!; [done| |apply NoDup_singleton].
  intros n Hn1 ->%list_elem_of_singleton. done.
Qed.

Lemma grows_foldl {Y} (f : list X -> Y -> list X) ys l : (forall l y, grows l (f l y)) -> grows l (foldl f l ys).
Proof.
  intros Hf. revert l. induction ys as [|y ys IH]; intros l; [apply grows_refl|]. eapply grows_trans; [apply Hf|apply IH].
Qed.

End Grows.

Section Facts.

Context {L : values_library} {A : alias_library} {G : gsdm_library} {D : depth_library}.

Notation values_grow := (grows pvs_path).
Notation names_grow := (grows pn_path).

Lemma add_pvs_grows l path v key info : values_grow l (AddParameterToPVS l path v key info).
Proof. unfold AddParameterToPVS. case_decide; [apply grows_refl|by apply grows_one]. Qed.

Lemma add_single_grows l path info : names_grow l (AddSingleObjectToPN l path info).
Proof. unfold AddSingleObjectToPN. case_decide; [apply grows_refl|by apply grows_one]. Qed.

Lemma add_parameter_grows l path v key info : names_grow l (AddParameterToPN l path v key info).
Proof. unfold AddParameterToPN. case_decide; [apply grows_refl|by apply grows_one]. Qed.

Lemma add_objects_grows l path info gsdm : names_grow l (AddObjectsToPN l path info gsdm).
Proof.
  unfold AddObjectsToPN. destruct (info ≫= objects) as [os|]; [|apply grows_refl].
  revert l. induction os as [|o os IH]; intros l; cbn [add_objects]; [apply grows_refl|].
  destruct (GetGsdmInfo _ _); [|apply grows_refl]. eapply grows_trans; [apply add_single_grows|apply IH].
Qed.

Lemma add_acs_grows l path nextlevel info gsdm : names_grow l (AddAcsPathToPN l path nextlevel info gsdm).
Proof.
  unfold AddAcsPathToPN. destruct (IsParameterPath _); [apply grows_refl|]. destruct (IsWildcardPath _); [apply grows_refl|].
  eapply grows_trans; [|apply add_objects_grows]. destruct nextlevel; [apply grows_refl|apply add_single_grows].
Qed.

Lemma add_object_grows l acs path nextlevel info gsdm : names_grow l (AddObjectToPN l acs path nextlevel info gsdm).
Proof.
  unfold AddObjectToPN. destruct (IsParameterPath _); [apply grows_refl|].
  apply grows_trans with (if negb nextlevel || negb (bool_decide (acs = path)) then AddSingleObjectToPN l path (Some info) else l).
  - destruct (_ || _); [apply add_single_grows|apply grows_refl].
  - destruct nextlevel; [apply grows_refl|apply add_objects_grows].
Qed.

(** *** The walk *)

Section Walk.

Context {X : Type} (name : X -> cstr) (add : additions variant (list X)).
Hypothesis acs_grows : forall f l p n i g, add_acs_path_to_list add = Some f -> grows name l (f l p n i g).
Hypothesis object_grows : forall f l a p n i g, add_object_to_list add = Some f -> grows name l (f l a p n i g).
Hypothesis param_grows : forall f l p v k i, add_param_to_list add = Some f -> grows name l (f l p v k i).

Lemma object_walk_grows amx acs nextlevel gsdm aliases l o :
  grows name l (ParseForEachObject add amx acs nextlevel gsdm aliases l o).
Proof.
  unfold ParseForEachObject. destruct (GetGsdmInfo _ _) as [info|]; [|apply grows_refl].
  assert (H : forall l, grows name l (if nextlevel && (get_depth acs <? get_depth o.1) then l
    else foldl (ParseForEachParameter add amx acs o.1 aliases info) l o.2)).
  { intros l1. destruct (_ && _); [apply grows_refl|]. apply grows_foldl. intros l2 x. unfold ParseForEachParameter.
    destruct (add_param_to_list add) as [f|] eqn:Ef; [by apply param_grows|apply grows_refl]. }
  destruct (add_object_to_list add) as [f|] eqn:Ef; [|apply H].
  eapply grows_trans; [by apply object_grows|apply H].
Qed.

Lemma parse_grows amx acs nextlevel object l ext : grows name l (Parse add amx acs nextlevel object l ext).1.
Proof.
  unfold Parse. destruct (match ext with Some _ => _ | None => _ end) as [gsdm error].
  destruct (negb _); [apply grows_refl|]. cbn [fst].
  assert (H : forall aliases l, grows name l (foldl (ParseForEachObject add amx acs nextlevel gsdm aliases) l (default [] object)))
    by (intros; apply grows_foldl; intros; apply object_walk_grows).
  destruct (add_acs_path_to_list add) as [f|] eqn:Ef; [|apply H].
  eapply grows_trans; [by apply acs_grows|apply H].
Qed.

End Walk.

Lemma parse_values_grows amx acs nextlevel object l ext :
  values_grow l (DM_AmxParameter_ParseValues amx acs nextlevel object l ext).1.
Proof. apply parse_grows; try done. intros f l1 p v k i [= <-]. apply add_pvs_grows. Qed.

Lemma parse_names_grows amx acs nextlevel object l ext :
  names_grow l (DM_AmxParameter_ParseNames amx acs nextlevel object l ext).1.
Proof.
  apply parse_grows; [intros f l1 p n i g [= <-]; apply add_acs_grows|intros f l1 a p n i g [= <-]; apply add_object_grows|].
  intros f l1 p v k i [= <-]. apply add_parameter_grows.
Qed.

Lemma get_grows {X} (name : X -> cstr) amx path nextlevel l gsdm parse :
  (forall acs object l, grows name l (parse amx acs nextlevel object l gsdm).1) ->
  grows name l (DM_AmxParameter_Get amx path nextlevel l gsdm parse).1.
Proof.
  intros Hp. unfold DM_AmxParameter_Get. destruct (negb (allowed _ _)); [apply grows_refl|].
  destruct (_ && (_ || _)); [apply grows_refl|]. destruct (negb (_ =? 0)); [apply grows_refl|apply Hp].
Qed.

Lemma get_all_grows amx names l gsdm : values_grow l (get_all_values amx names l gsdm).1.
Proof.
  revert l. induction names as [|n names IH]; intros l; cbn [get_all_values]; [apply grows_refl|].
  assert (H : values_grow l (DM_AmxParameter_GetValues amx n l gsdm).1)
    by (apply get_grows; intros; apply parse_values_grows).
  destruct (DM_AmxParameter_GetValues amx n l gsdm) as [l1 e]. destruct (negb (e =? 0)); [done|].
  eapply grows_trans; [exact H|apply IH].
Qed.

(** ** Properties *)

(** C26: no request lists a name twice: in both builds, whatever the bus answers
    and whether the request fails or not, the list of values or names keeps the
    entries that it had, in their order and unchanged, and if they had different
    names all entries have. *)
Theorem parameter_lists_unique (amx : amx_env) (names : list cstr) (path : cstr) (nextLevel : bool)
    (values : list eng_pvs) (pns : list eng_pn) :
  (forall r, DM_ENG_Device_GPV amx names values = Some r -> values_grow values r.1) /\
  values_grow values (DM_ENG_Device_GPV_prpl amx names values).1 /\
  names_grow pns (DM_ENG_Device_GPN amx path nextLevel pns).1.
Proof.
  split_and!.
  - unfold DM_ENG_Device_GPV. destruct (negb (CheckSystem amx)); [done|].
    destruct (collect_all names no_data) as [gsdm error].
    destruct (negb _); intros r [= <-]; [apply grows_refl|apply get_all_grows].
  - unfold DM_ENG_Device_GPV_prpl. destruct (negb _); [apply grows_refl|apply get_all_grows].
  - unfold DM_ENG_Device_GPN, DM_AmxParameter_GetNames. destruct (negb _); [apply grows_refl|].
    destruct (_ && nextLevel); [apply add_single_grows|]. destruct (_ && nextLevel); [apply grows_refl|].
    apply get_grows. intros. apply parse_names_grows.
Qed.

(** Without a connection the request for values is undefined in one build,
    which releases a variant that it has not initialised, and an internal error in
    the other. *)
Theorem gpv_undefined_iff (amx : amx_env) (names : list cstr) (l : list eng_pvs) :
  (DM_ENG_Device_GPV amx names l = None <-> CheckSystem amx = false) /\
  (CheckSystem amx = false -> DM_ENG_Device_GPV_prpl amx names l = (l, DM_ENG_INTERNAL_ERROR)).
Proof.
  unfold DM_ENG_Device_GPV, DM_ENG_Device_GPV_prpl. destruct (CheckSystem amx); cbn [negb].
  - split; [|done]. destruct (collect_all names no_data) as [gsdm error]. by destruct (negb (error =? 0)).
  - by split.
Qed.

(** A path without access is refused with 9005 and lists nothing, neither
    values, in both builds, nor names, whatever the bus would answer. *)
Theorem denied_lists_nothing (amx : amx_env) (path : cstr) (nextLevel : bool) (l : list eng_pvs) (pns : list eng_pn)
    (Hsys : CheckSystem amx = true) (Hd : allowed (get_vfilters path) path = false)
    (Hs : sallowed (get_sfilters path) path = false) (Hp : path <> []) (Hb : build_supported_path path <> []) :
  DM_ENG_Device_GPV amx [path] l = Some (l, DM_ENG_INVALID_PARAMETER_NAME) /\
  DM_ENG_Device_GPV_prpl amx [path] l = (l, DM_ENG_INVALID_PARAMETER_NAME) /\
  (nextLevel && IsParameterPath (Some path) = false ->
   DM_ENG_Device_GPN amx path nextLevel pns = (pns, DM_ENG_INVALID_PARAMETER_NAME)).
Proof.
  destruct path as [|c p]; [done|].
  assert (Hg : forall {X} (l : list X) n g parse,
    DM_AmxParameter_Get amx (c :: p) n l g parse = (l, DM_ENG_INVALID_PARAMETER_NAME)).
  { intros X l1 n g parse. unfold DM_AmxParameter_Get. cbn [root_if_empty]. by rewrite Hd. }
  split_and!.
  - unfold DM_ENG_Device_GPV. rewrite Hsys. cbn [negb collect_all]. unfold Get_Gsdm_data.
    destruct (build_supported_path (c :: p)) as [|d q]; [done|]. cbn [Request no_data].
    case_decide as E; [by apply not_elem_of_nil in E|]. by rewrite Hs.
  - unfold DM_ENG_Device_GPV_prpl. rewrite Hsys. cbn [negb get_all_values]. unfold DM_AmxParameter_GetValues. by rewrite Hg.
  - intros Hn. unfold DM_ENG_Device_GPN, DM_AmxParameter_GetNames. rewrite Hsys. cbn [negb].
    rewrite (andb_comm (IsParameterPath _)), Hn, bool_decide_false by done. cbn [andb]. apply Hg.
Qed.

End Facts.

(** ** Objects right below an object *)

Section Children.

Context {L : values_library} {A : alias_library} {G : gsdm_library} {GL : GsdmLaws G} {D : depth_library}.

Lemma add_objects_kept l p data pns x : x ∈ map pn_path pns -> x ∈ map pn_path (add_objects pns p data l).
Proof.
  revert pns. induction l as [|o l IH]; intros pns Hx; cbn [add_objects]; [done|].
  destruct (GetGsdmInfo _ _) as [i|]; [|done]. apply IH. unfold AddSingleObjectToPN. case_decide; [done|].
  rewrite map_app, elem_of_app. by left.
Qed.

Lemma add_objects_all l p data pns :
  (forall o, o ∈ l -> is_Some (GetGsdmInfo (p ++ o) (Some data))) ->
  forall o, o ∈ l -> (p ++ o) ∈ map pn_path (add_objects pns p data l).
Proof.
  revert pns. induction l as [|x l IH]; intros pns Hk o Ho; [by apply not_elem_of_nil in Ho|].
  cbn [add_objects]. destruct (Hk x) as [ix Hx]; [left|]. rewrite Hx. apply elem_of_cons in Ho as [->|Ho].
  - apply add_objects_kept. unfold AddSingleObjectToPN. case_decide; [done|].
    rewrite map_app, elem_of_app. right. constructor.
  - apply IH; [|done]. intros y Hy. apply Hk. by right.
Qed.

Lemma info_of_known (path sp : cstr) data :
  path <> [] -> build_supported_path path = sp -> sp <> [] -> EndsWithDot sp = true -> known (Response data) sp ->
  is_Some (GetGsdmInfo path (Some data)).
Proof.
  intros Hp Hb Hn Hd Hk. unfold GetGsdmInfo. destruct path as [|c q]; [done|]. rewrite Hb. unfold known in Hk.
  destruct sp as [|d r]; [done|]. rewrite Hd. destruct (Response data !! _) eqn:E; [by eexists|].
  destruct Hk as [Hk|Hk]; [|done]. destruct Hk as [i Hi]. congruence.
Qed.

(** The objects right below an object are all listed: for data that were
    collected by any requests, and a path whose own supported path has an entry, the
    list has every object of this entry that is below the path, and the walk does
    not end early. *)
Theorem children_listed (requests : list (cstr * bool)) (p : cstr) (info : object_info) (pns : list eng_pn)
    (data := collect requests no_data)
    (Hinfo : Response data !! build_supported_path p = Some info) (Hp : p <> [])
    (Hbelow : forall o, o ∈ default [] (objects info) ->
       build_supported_path (p ++ o) = build_supported_path p ++ o /\ build_supported_path p ++ o <> [] /\
       EndsWithDot (build_supported_path p ++ o) = true) :
  forall o, o ∈ default [] (objects info) -> (p ++ o) ∈ map pn_path (AddObjectsToPN pns p (Some info) data).
Proof.
  assert (Hk : forall o, o ∈ default [] (objects info) -> is_Some (GetGsdmInfo (p ++ o) (Some data))).
  { intros o Ho. destruct (Hbelow o Ho) as (Eb & Hne & Hd).
    apply (info_of_known _ (build_supported_path p ++ o)); try done; [by destruct p|].
    exact (collect_known requests _ info o Hinfo Ho). }
  unfold AddObjectsToPN. cbn [mbind option_bind]. destruct (objects info) as [l|]; cbn [default] in *;
    [|by intros o Ho%not_elem_of_nil].
  by apply add_objects_all.
Qed.

End Children.

End ParameterListsFacts.
