(* ===== verification/ParameterListsExamples.v ===== *)
(** * ParameterListsExamples: the lists of a small data model

    The objects and values are those of [ReadValuesExamples]; the supported data
    model has a type for every parameter but one. *)

From Stdlib Require Import ZArith Lia Ascii.
From stdpp Require Import base list gmap strings.
From S2P Require Import Prelude CString PathAlias IndexAlias ParameterNames ReadValues ReadValuesExamples SupportedModel.
From S2P Require Import ParameterLists ParameterListsFacts.

Module ParameterListsExamples.
Import CString.
Import ParameterNames.
Import ReadValues.
Import ReadValuesExamples.
Import SupportedModel.
Import ParameterLists.
Import ParameterListsFacts.

Definition ex_supported (p : cstr) : list (cstr * supported_object) :=
  if bool_decide (p = cs "Device.") then
    [(cs "Device.", ex_object false []);
     (cs "Device.DeviceInfo.", ex_object false ["Manufacturer"%string]);
     (cs "Device.Users.", ex_object false ["Password"%string])]
  else [].

Definition ex_gsdm : gsdm_library := {|
  get_supported := fun p flags => Some (ex_supported p);
  build_supported_path := fun p => p;
  get_last := ex_last;
  sfilters := unit;
  get_sfilters := fun _ => tt;
  sallowed := fun _ p => negb (is_password p);
  filter_supported := fun _ l => l;
|}.

Definition ex_depth : depth_library := {| get_depth := fun p => Z.of_nat (length (List.filter (Ascii.eqb ".") p)) |}.

(** The parameter that is not in the supported data model has type 0. *)
Example ex_gpv :
  map (fun v => (pvs_path v, pvs_type v))
    (default ([], 0) (@DM_ENG_Device_GPV ex_values ex_alias ex_gsdm ex_depth ex_env [cs "Device."] [])).1 =
    [(cs "Device.DeviceInfo.Manufacturer", 1); (cs "Device.DeviceInfo.UpTime", 0)].
Proof. vm_compute. reflexivity. Qed.

Example ex_gpn :
  map pn_path (@DM_ENG_Device_GPN ex_values ex_alias ex_gsdm ex_depth ex_env (cs "Device.") true []).1 =
    [cs "Device.DeviceInfo."; cs "Device.Users."].
Proof. vm_compute. reflexivity. Qed.

Lemma denied_lists_nothing_witness :
  @DM_ENG_Device_GPV ex_values ex_alias ex_gsdm ex_depth ex_env [cs "Device.Users.Password"] [] =
    Some ([], DM_ENG_INVALID_PARAMETER_NAME).
Proof.
  apply (@denied_lists_nothing ex_values ex_alias ex_gsdm ex_depth ex_env (cs "Device.Users.Password") false [] []);
    [reflexivity|vm_compute; reflexivity|vm_compute; reflexivity|discriminate|discriminate].
Defined.

Definition ex_info : object_info :=
  {| writable := Some false; objects := Some [cs "PortMapping."];
     parameters := Some {[cs "PortMappingNumberOfEntries" := {| info_type := 1; info_writable := true |}]} |}.

Lemma children_listed_witness :
  cs "Device.NAT.PortMapping." ∈ map pn_path
    (@AddObjectsToPN SupportedModel.ex_library [] (cs "Device.NAT.") (Some ex_info)
       (@collect SupportedModel.ex_library [(cs "Device.NAT.", false)] no_data)).
Proof.
  apply (@children_listed SupportedModel.ex_library SupportedModel.ex_laws [(cs "Device.NAT.", false)] (cs "Device.NAT.") ex_info []
    ltac:(vm_compute; reflexivity) ltac:(discriminate)).
  - intros o Ho. cbn in Ho. apply list_elem_of_singleton in Ho as ->. split_and!; [reflexivity|discriminate|reflexivity].
  - cbn. apply (bool_decide_unpack _). vm_compute. reflexivity.
Defined.

End ParameterListsExamples.
