(* ===== verification/SupportedNames.v ===== *)
(** * SupportedNames: the GetParameterNames RPC of the build with the supported data
    model ([DM_AmxParameterNames_prpl.c] of [src/src/dmdeviceadapter/amx/adapter])

    Where [ParameterNames] walks over descriptions, this build reads all objects
    below the path at once and takes the parameters of each from the supported data
    model.  The functions on paths, the access rights and the resolution of
    wildcards are those of [ParameterNames]. *)

From Stdlib Require Import ZArith Lia Ascii.
From stdpp Require Import base list gmap strings.
From S2P Require Import Prelude CString PathAlias IndexAlias ParameterNames SupportedModel.

Module SupportedNames.
Import CString.
Import PathAlias.
Import IndexAlias.
Import SupportedModel.
Import ParameterNames.

(** The bus: [amxb_get] and [amxb_get_supported] answer nothing when they fail; the
    objects are in the order of their sorted keys. *)
Class objects_library := {
  get_objects : cstr -> Z -> option (list cstr);
  get_supported : cstr -> Z -> option (cstr -> option supported_object);
  build_supported_path : cstr -> cstr;
  path_depth : cstr -> Z;
  is_instance_path : cstr -> bool;
}.

Section Names.

Context {L : names_library} {A : alias_library} {O : objects_library}.

(** [DM_ENG_Device_GetParameterNames_GetParameter] *)
Definition GetParameter (object_path : cstr) (parameter : supported_param) (pnsList : list info) : list info * bool :=
  match param_name parameter with
  | None => (pnsList, false)
  | Some name =>
      let paramPath := object_path ++ name in
      if negb (is_get_allowed (get_filters paramPath) paramPath) then (pnsList, true)
      else (pnsList ++ [(paramPath, param_access parameter =? 1)], true)
  end.

(** The loop over [supported_params] *)
Fixpoint GetParameter_all (object_path : cstr) (l : list supported_param) (pnsList : list info) : list info * bool :=
  match l with
  | [] => (pnsList, true)
  | p :: l' =>
      let r := GetParameter object_path p pnsList in
      if negb r.2 then (r.1, false) else GetParameter_all object_path l' r.1
  end.

(** The row of an object: the one of its instances first *)
Definition find_row (desc : cstr -> option supported_object) (path : cstr) : option supported_object :=
  match desc (build_supported_path path ++ cs "{i}.") with
  | Some v => Some v
  | None => desc (build_supported_path path)
  end.

(** The row of [key]: in the answer for the whole path, or in one of its own;
    [None] if this one fails *)
Definition row_of_object (flags : Z) (rslt : cstr -> option supported_object) (key : cstr) :
    option (option supported_object) :=
  match find_row rslt key with
  | Some v => Some (Some v)
  | None => match get_supported key flags with Some ret_obj => Some (find_row ret_obj key) | None => None end
  end.

(** What an object adds *)
Definition add_object (amx : amx_env) (nextlevel : bool) (acspath path key : cstr) (v : supported_object)
    (pnsList : list info) : list info * bool :=
  let child_path := shown_path amx acspath key in
  let pnsList :=
    if negb nextlevel || negb (bool_decide (key = path)) then pnsList ++ [(child_path, is_multi_instance v)] else pnsList in
  if (negb nextlevel || bool_decide (key = path)) && (negb (is_multi_instance v) || is_instance_path key)
  then GetParameter_all child_path (default [] (supported_params v)) pnsList
  else (pnsList, true).

(** The loop over the objects *)
Fixpoint each_key (amx : amx_env) (nextlevel : bool) (acspath path : cstr) (flags : Z)
    (rslt : cstr -> option supported_object) (keys : list cstr) (pnsList : list info) : list info * Z :=
  match keys with
  | [] => (pnsList, 0)
  | key :: keys =>
      if nextlevel && (path_depth path + 1 <? path_depth key) then each_key amx nextlevel acspath path flags rslt keys pnsList
      else
        match row_of_object flags rslt key with
        | None => (pnsList, DM_ENG_INVALID_PARAMETER_NAME)
        | Some None => each_key amx nextlevel acspath path flags rslt keys pnsList
        | Some (Some v) =>
            let r := add_object amx nextlevel acspath path key v pnsList in
            if negb r.2 then (r.1, DM_ENG_INVALID_PARAMETER_NAME)
            else each_key amx nextlevel acspath path flags rslt keys r.1
        end
  end.

(** [DM_ENG_Device_GetParameterNames_GetNames] *)
Definition GetNames (amx : amx_env) (nextlevel : bool) (acspath path : cstr) (pnsList : list info) : list info * Z :=
  let flags := if nextlevel then Z.lor AMXB_FLAG_PARAMETERS AMXB_FLAG_FIRST_LVL else AMXB_FLAG_PARAMETERS in
  match get_objects path (if nextlevel then 1 else -1) with
  | None => (pnsList, DM_ENG_INVALID_PARAMETER_NAME)
  | Some keys =>
      match get_supported path flags with
      | None => (pnsList, DM_ENG_INVALID_PARAMETER_NAME)
      | Some rslt => each_key amx nextlevel acspath path flags rslt keys pnsList
      end
  end.

(** [DM_ENG_Device_GetParameterNames_PartialPath] *)
Definition PartialPath (amx : amx_env) (path : option cstr) (nextLevel : bool) (infoList : list info) :
    option (list info * Z) :=
  match path with
  | None => Some (infoList, DM_ENG_INVALID_PARAMETER_NAME)
  | Some p =>
      if negb (IsValidPath path) then Some (infoList, DM_ENG_INVALID_PARAMETER_NAME)
      else
        match resolve amx p with
        | Some path_list => each_object (fun objpath l => Some (GetNames amx nextLevel p objpath l)) path_list infoList
        | None => Some (infoList, DM_ENG_INVALID_PARAMETER_NAME)
        end
  end.

(** The search among [supported_params]; [None] if a parameter before the one that
    is looked for has no name, which is compared. *)
Fixpoint find_param (name : cstr) (l : list supported_param) : option (option supported_param) :=
  match l with
  | [] => Some None
  | p :: l =>
      match param_name p with
      | None => None
      | Some n => if bool_decide (n = name) then Some (Some p) else find_param name l
      end
  end.

(** The body of the loop of [GetParameterNames_Parameter] *)
Definition one_parameter (amx : amx_env) (path ppath : cstr) (infoList : list info) : option (list info * Z) :=
  let objpath := object_of ppath in
  match get_supported objpath AMXB_FLAG_PARAMETERS with
  | None => Some (infoList, DM_ENG_INVALID_PARAMETER_NAME)
  | Some object =>
      let supported := default [] (find_row object ppath ≫= supported_params) in
      match find_param (get_param ppath) supported with
      | None => None
      | Some None => Some (infoList, 0)
      | Some (Some parameter) =>
          let r := GetParameter (shown_path amx path objpath) parameter infoList in
          Some (r.1, if r.2 then 0 else DM_ENG_INVALID_PARAMETER_NAME)
      end
  end.

(** [DM_ENG_Device_GetParameterNames_Parameter] *)
Definition Parameter_ (amx : amx_env) (path : cstr) (infoList : list info) : option (list info * Z) :=
  if negb (IsValidPath (Some path)) then Some (infoList, DM_ENG_INVALID_PARAMETER_NAME)
  else
    match resolve amx path with
    | Some path_list => each_object (one_parameter amx path) path_list infoList
    | None => Some (infoList, DM_ENG_INVALID_PARAMETER_NAME)
    end.

(** [DM_ENG_Device_GetParameterNames] of [DM_DeviceAdapter_prpl.c]: the list is
    deleted after an error. *)
Definition DM_ENG_Device_GetParameterNames (amx : amx_env) (path : option cstr) (nextLevel : bool)
    (infoList : list info) : option (list info * Z) :=
  let r :=
    if negb (CheckSystem amx) then Some (infoList, DM_ENG_INTERNAL_ERROR)
    else
      match path with
      | None | Some [] =>
          if nextLevel then Some (infoList ++ [(prefix amx, false)], 0) else PartialPath amx path nextLevel infoList
      | Some p =>
          if EndsWithDot p || EndsWithStar p then PartialPath amx path nextLevel infoList
          else if nextLevel then Some (infoList, DM_ENG_INVALID_ARGUMENTS)
          else Parameter_ amx p infoList
      end in
  match r with
  | None => None
  | Some (l, error) => Some (if negb (error =? 0) then [] else l, error)
  end.

(** ** Specification *)

(** The parameters that the rules show *)
Definition shown_parameters (object_path : cstr) (l : list supported_param) : list info :=
  omap (fun p => match param_name p with
                 | Some n => if is_get_allowed (get_filters (object_path ++ n)) (object_path ++ n)
                             then Some (object_path ++ n, param_access p =? 1) else None
                 | None => None
                 end) l.

(** What an object adds to the answer *)
Definition entries (amx : amx_env) (nextlevel : bool) (acspath path key : cstr) (v : supported_object) : list info :=
  let child_path := shown_path amx acspath key in
  (if negb nextlevel || negb (bool_decide (key = path)) then [(child_path, is_multi_instance v)] else []) ++
  (if (negb nextlevel || bool_decide (key = path)) && (negb (is_multi_instance v) || is_instance_path key)
   then shown_parameters child_path (default [] (supported_params v)) else []).

(** The objects of the answer with their rows *)
Definition described (nextlevel : bool) (path : cstr) (flags : Z) (rslt : cstr -> option supported_object) (keys : list cstr) :
    list (cstr * supported_object) :=
  omap (fun key =>
    if nextlevel && (path_depth path + 1 <? path_depth key) then None
    else match row_of_object flags rslt key with Some (Some v) => Some (key, v) | _ => None end) keys.

(** ** Properties *)

Definition named (v : supported_object) : Prop :=
  Forall (fun p => is_Some (param_name p)) (default [] (supported_params v)).

Lemma GetParameter_all_shown object_path ps l :
  Forall (fun p => is_Some (param_name p)) ps ->
  GetParameter_all object_path ps l = (l ++ shown_parameters object_path ps, true).
Proof.
  intros Hp. revert l. induction Hp as [|p ps [n Hn] Hps IH]; intros l; cbn [GetParameter_all shown_parameters omap list_omap].
  { by rewrite app_nil_r. }
  unfold GetParameter. rewrite Hn. destruct (is_get_allowed _ _); cbn [negb fst snd].
  - rewrite IH. by rewrite <- app_assoc.
  - by rewrite IH.
Qed.

Lemma add_object_entries amx nextlevel acspath path key v l :
  named v -> add_object amx nextlevel acspath path key v l = (l ++ entries amx nextlevel acspath path key v, true).
Proof.
  intros Hv. unfold add_object, entries.
  assert (H : forall (b : bool) (x y : list info), (if b then l ++ x else l) ++ y = l ++ (if b then x else []) ++ y)
    by (intros [] x y; by rewrite <- ?app_assoc).
  destruct (_ && _).
  - rewrite GetParameter_all_shown by done. by rewrite H.
  - by rewrite <- H, app_nil_r.
Qed.

(** The names of this build: the answer has the objects in the order of their
    keys, each with its parameters that the access rules show -- for the next level
    the parameters of the object that was asked for and the objects right below --
    unless an object cannot be found in the supported data model at all. *)
Theorem supported_names_listed (amx : amx_env) (nextlevel : bool) (acspath path : cstr) (keys : list cstr)
    (rslt : cstr -> option supported_object) (l : list info)
    (flags := if nextlevel then Z.lor AMXB_FLAG_PARAMETERS AMXB_FLAG_FIRST_LVL else AMXB_FLAG_PARAMETERS)
    (Hobjects : get_objects path (if nextlevel then 1 else -1) = Some keys)
    (Hsupported : get_supported path flags = Some rslt)
    (Hanswered : forall key, key ∈ keys -> row_of_object flags rslt key <> None)
    (Hnamed : forall key v, row_of_object flags rslt key = Some (Some v) -> named v) :
  GetNames amx nextlevel acspath path l =
    (l ++ concat (map (fun x => entries amx nextlevel acspath path x.1 x.2) (described nextlevel path flags rslt keys)), 0).
Proof.
  unfold GetNames. fold flags. rewrite Hobjects, Hsupported. clear Hobjects Hsupported. revert l.
  induction keys as [|key keys IH]; intros l; cbn [each_key described omap list_omap]; [by rewrite app_nil_r|].
  assert (IH' := IH (fun k Hk => Hanswered k (list_elem_of_further _ _ _ Hk))). clear IH.
  destruct (nextlevel && _); [apply IH'|].
  destruct (row_of_object flags rslt key) as [[v|]|] eqn:Er; [|apply IH'|by destruct (Hanswered key (list_elem_of_here _ _))].
  rewrite add_object_entries by (by apply (Hnamed key)). cbn [snd fst negb]. rewrite IH', <- app_assoc. done.
Qed.

(** A parameter that does not exist is found by this build, with no name and
    without an error, where the other build answers 9005. *)
Theorem unknown_parameter_succeeds (amx : amx_env) (path ppath : cstr) (rows : cstr -> option supported_object)
    (object : description) (l : list info)
    (Hsupported : get_supported (object_of ppath) AMXB_FLAG_PARAMETERS = Some rows)
    (Hunknown : forall p, p ∈ default [] (find_row rows ppath ≫= supported_params) ->
       exists n, param_name p = Some n /\ n <> get_param ppath)
    (Hdescribed : amxb_describe (object_of ppath) = (0, Some object))
    (Hother : parameter_of object (get_param ppath) = None) :
  one_parameter amx path ppath l = Some (l, 0) /\
  ParameterNames.one_parameter amx path ppath l = (l, DM_ENG_INVALID_PARAMETER_NAME).
Proof.
  split.
  - unfold one_parameter. rewrite Hsupported.
    assert (E : find_param (get_param ppath) (default [] (find_row rows ppath ≫= supported_params)) = Some None); [|by rewrite E].
    revert Hunknown. induction (default [] _) as [|p ps IH]; intros Hu; [done|]. cbn [find_param].
    destruct (Hu p) as (n & -> & Hn); [left|]. rewrite bool_decide_false by done. apply IH. intros q Hq. apply Hu. by right.
  - unfold ParameterNames.one_parameter. rewrite Hdescribed. cbn [Z.eqb]. by rewrite Hother.
Qed.

(** A request is undefined only through a parameter without a name: a request
    for the names below a path never is, and a request for a parameter is only if
    the supported data model has a parameter without a name, which is compared. *)
Theorem names_undefined_only (amx : amx_env) (path : option cstr) (nextLevel : bool) (l : list info)
    (Hnamed : forall p flags rows key v, get_supported p flags = Some rows -> rows key = Some v -> named v) :
  DM_ENG_Device_GetParameterNames amx path nextLevel l <> None.
Proof.
  assert (Ho : forall f, (forall o l, f o l <> None) -> forall os l, each_object f os l <> None).
  { intros f Hf os. induction os as [|o os IH]; intros l1; [done|]. cbn [each_object].
    destruct (f o l1) as [[l2 e]|] eqn:Ef; [|by apply Hf in Ef]. destruct (negb (e =? 0)); [done|apply IH]. }
  assert (H1 : forall p o l, one_parameter amx p o l <> None).
  { intros p o l1. unfold one_parameter. destruct (get_supported (object_of o) _) as [rows|] eqn:Eg; [|done].
    assert (Hf : find_param (get_param o) (default [] (find_row rows o ≫= supported_params)) <> None).
    { assert (Hn : Forall (fun p => is_Some (param_name p)) (default [] (find_row rows o ≫= supported_params))).
      { destruct (find_row rows o) as [v|] eqn:Er; [|constructor]. unfold find_row in Er.
        destruct (rows (_ ++ _)) as [v1|] eqn:E1; [injection Er as ->; by eapply (Hnamed _ _ rows)|].
        by eapply (Hnamed _ _ rows). }
      induction Hn as [|q ps [n Hq] Hps IH]; [done|]. cbn [find_param]. rewrite Hq. by case_bool_decide. }
    destruct (find_param _ _) as [[q|]|]; done. }
  unfold DM_ENG_Device_GetParameterNames. cbv zeta.
  assert (Hp : PartialPath amx path nextLevel l <> None).
  { unfold PartialPath. destruct path as [p|]; [|done]. destruct (negb _); [done|].
    destruct (resolve amx p); [by apply Ho|done]. }
  assert (H2 : forall p, Parameter_ amx p l <> None).
  { intros p. unfold Parameter_. destruct (negb _); [done|]. destruct (resolve amx p); [by apply Ho|done]. }
  match goal with |- match ?x with _ => _ end <> None => assert (x <> None); [|by destruct x as [[l1 e]|]] end.
  destruct (negb (CheckSystem amx)); [done|]. destruct path as [[|c p]|]; [by destruct nextLevel| |by destruct nextLevel].
  destruct (_ || _); [done|]. by destruct nextLevel.
Qed.

End Names.

End SupportedNames.
