(* ===== verification/SupportedNamesExamples.v ===== *)
(** * SupportedNamesExamples: the names of a small data model, in both builds

    The objects are those of [ParameterNamesExamples]. *)

From Stdlib Require Import ZArith Lia Ascii.
From stdpp Require Import base list gmap strings.
From S2P Require Import Prelude CString PathAlias IndexAlias ParameterNames ParameterNamesExamples SupportedModel SupportedNames.

Module SupportedNamesExamples.
Import CString.
Import SupportedModel.
Import ParameterNames.
Import ParameterNamesExamples.
Import SupportedNames.

Definition sparam (n : string) (acc : Z) : supported_param :=
  {| param_name := Some (cs n); param_type := 1; param_access := acc |}.

Definition sobj (multi : bool) (ps : list supported_param) : supported_object :=
  {| access := Some multi; is_multi_instance := multi; supported_params := Some ps |}.

Definition rows : list (cstr * supported_object) :=
  [(cs "Device.IP.", sobj false [sparam "IPv4Enable" 1; sparam "IPv4Status" 0]);
   (cs "Device.IP.Interface.{i}.", sobj true [sparam "Enable" 1; sparam "Name" 0])].

Definition desc (p : cstr) : option supported_object := snd <$> List.find (fun x => bool_decide (x.1 = p)) rows.

Definition supported_path (p : cstr) : cstr :=
  if bool_decide (p = cs "Device.IP.Interface.1.") then cs "Device.IP.Interface.{i}." else p.

Definition ex_objects : objects_library := {|
  get_objects := fun p _ =>
    if bool_decide (p = cs "Device.IP.") then Some [cs "Device.IP."; cs "Device.IP.Interface."; cs "Device.IP.Interface.1."]
    else None;
  get_supported := fun _ _ => Some desc;
  build_supported_path := supported_path;
  path_depth := fun p => Z.of_nat (length (List.filter (Ascii.eqb ".") p));
  is_instance_path := fun p => bool_decide (p = cs "Device.IP.Interface.1.");
|}.

Definition ex_keys : list cstr := [cs "Device.IP."; cs "Device.IP.Interface."; cs "Device.IP.Interface.1."].

(** Here the two builds list the same names in the same order. *)
Example ex_both_builds :
  map fst (@GetNames ex_names ex_alias ex_objects ex_env false (cs "Device.IP.") (cs "Device.IP.") []).1 =
    map fst (default ([], 0) (@ParameterNames.GetNames ex_names ex_alias 9 ex_env false (cs "Device.IP.") (cs "Device.IP.") [])).1.
Proof. vm_compute. reflexivity. Qed.

Lemma desc_named p v : desc p = Some v -> named v.
Proof.
  unfold desc. destruct (List.find _ rows) as [[q w]|] eqn:E; [|done]. intros [= <-].
  apply find_some in E as [[[= <- <-]|[[= <- <-]|[]]] _]; repeat constructor; by eexists.
Qed.

Lemma supported_names_listed_witness :
  @GetNames ex_names ex_alias ex_objects ex_env true (cs "Device.IP.") (cs "Device.IP.") [] =
    ([(cs "Device.IP.IPv4Enable", true); (cs "Device.IP.IPv4Status", false); (cs "Device.IP.Interface.", true)], 0).
Proof.
  rewrite (@supported_names_listed ex_names ex_alias ex_objects ex_env true (cs "Device.IP.") (cs "Device.IP.") ex_keys desc []).
  - vm_compute. reflexivity.
  - reflexivity.
  - reflexivity.
  - intros key _. unfold row_of_object. destruct (find_row desc key); discriminate.
  - intros key v. unfold row_of_object, find_row. cbn [get_supported ex_objects].
    destruct (desc (_ ++ _)) as [u|] eqn:E1; [intros [= <-]; by eapply desc_named|].
    destruct (desc (build_supported_path key)) as [u|] eqn:E2; [intros [= <-]; by eapply desc_named|].
    intros [= H]; by eapply desc_named.
Defined.

Lemma unknown_parameter_succeeds_witness :
  @one_parameter ex_names ex_alias ex_objects ex_env (cs "Device.IP.") (cs "Device.IP.") [] = Some ([], 0).
Proof.
  apply (@unknown_parameter_succeeds ex_names ex_alias ex_objects ex_env (cs "Device.IP.") (cs "Device.IP.") desc
    (obj 1 [param "IPv4Enable" 0; param "IPv4Status" 1] [] ["Interface"]%string) []); try reflexivity.
  intros p Hp. vm_compute in Hp. apply list_elem_of_In in Hp.
  destruct Hp as [<-|[<-|[]]]; eexists; (split; [reflexivity|]); vm_compute; discriminate.
Defined.

Lemma names_undefined_only_witness :
  @DM_ENG_Device_GetParameterNames ex_names ex_alias ex_objects ex_env (Some (cs "Device.IP.IPv4Enable")) false [] <> None.
Proof.
  apply (@names_undefined_only ex_names ex_alias ex_objects ex_env).
  intros p flags rs key v [= <-]. apply desc_named.
Defined.

End SupportedNamesExamples.
