(* ===== verification/AcsAddress.v ===== *)
(** * AcsAddress: the resolver and the client of the daemon together
    ([cwmpd_dns.c], [cwmpd_client.c] and the event [EVENT_ENG_URL_CHANGED] of
    [cwmpd_main.c])

    The resolver publishes the addresses of the host of the ACS in the parameter
    ACSIPLIST of the data model; the client takes the address of a session from
    it.  Both read the URL of the ACS by themselves, and an event of the engine
    tells the daemon that it was changed.  This file puts [Dns] and [Client] into
    one world with these parameters and shows that a session that starts after
    the event was handled uses an address of the host that the URL names then,
    whatever lookups were under way. *)

From Stdlib Require Import ZArith Lia Ascii.
From stdpp Require Import base list strings.
From S2P Require Import Prelude CString CookieJar Dns Client.

Module AcsAddress.
Import CString CookieJar.

Section AcsAddress.

(** The libraries, as in [Dns] and [Client]; both use the same parser of URLs
    and the same test for a literal address. *)
Context {J : Type} `{!CookieStore J}.
Context {sockaddr in_addr : Type}.
Context (sin_addr sin6_addr : sockaddr -> in_addr).
Context (inet_ntop : Z -> sockaddr -> option string).
Context (ares_inet_ntop : Z -> option in_addr -> option string).
Context (b64_encode : cstr -> nat -> option cstr).
Context (digest_response : cstr -> cstr -> option cstr -> cstr -> cstr -> option cstr).
Context (translate : bool -> cstr -> cstr) (check_namespace : cstr -> cstr) (env_tag : cstr).
Context (csv_fields : cstr -> list cstr).
(** [lws_parse_uri]: scheme, host, port and path *)
Context (lws_parse_uri : string -> option (string * string * Z * option string)).
Context (is_ipaddr : string -> bool).

Definition uri_text (x : string * string * Z * option string) : cstr * cstr * Z * option cstr :=
  let '(scheme, host, port, path) := x in
  (cs scheme, cs host, port, match path with Some p => Some (cs p) | None => None end).

Definition host_of (url : string) : option string := (fun x => x.1.1.2) <$> lws_parse_uri url.

Notation ai_node := (Dns.ai_node (sockaddr := sockaddr)).
Notation resolve_env := (Dns.resolve_env (sockaddr := sockaddr)).
Notation ares_cb := (Dns.ares_cb (sockaddr := sockaddr)).
Notation dns_resolve := (Dns.cwmp_dns_resolve sin_addr sin6_addr inet_ntop ares_inet_ntop host_of is_ipaddr).
Notation dns_step := (Dns.dns_step sin_addr sin6_addr inet_ntop ares_inet_ntop host_of is_ipaddr).
Notation read_nodes := (Dns.read_nodes sin_addr sin6_addr inet_ntop ares_inet_ntop).
Notation client_step := (Client.step b64_encode digest_response translate check_namespace env_tag
  (fun a => is_ipaddr (String.string_of_list_ascii a)) csv_fields).
Notation client_start := (Client.client_startSession b64_encode digest_response
  (fun a => is_ipaddr (String.string_of_list_ascii a)) csv_fields).

(** ** World *)

(** The URL, whether its change has not been handled, the ACSIPLIST that the
    data model had when the daemon started, and the state of the two parts *)
Record world := {
  url : string;
  changed : bool;
  loaded : string;
  dns : Dns.dns;
  client : Client.client (J := J);
}.

Definition with_dns (d : Dns.dns) (w : world) : world :=
  {| url := url w; changed := changed w; loaded := loaded w; dns := d; client := client w |}.

Definition with_client (c : Client.client) (w : world) : world :=
  {| url := url w; changed := changed w; loaded := loaded w; dns := dns w; client := c |}.

(** ACSIPLIST after the calls of the resolver *)
Definition last_list (init : string) (cs : list Dns.call) : string :=
  foldl (fun s c => match c with Dns.SetAcsIpList t => t | _ => s end) init cs.

Definition published (w : world) : string := last_list (loaded w) (Dns.calls (dns w)).

(** What a resolution reads is the URL of the world, unless reading it fails. *)
Definition read_url (w : world) (env : resolve_env) : resolve_env :=
  {| Dns.acsurl := match Dns.acsurl env with Some _ => Some (url w) | None => None end;
     Dns.ai_family_str := Dns.ai_family_str env; Dns.calloc_ok := Dns.calloc_ok env;
     Dns.ares_init_ok := Dns.ares_init_ok env; Dns.ttl_remaining := Dns.ttl_remaining env;
     Dns.sync_cbs := Dns.sync_cbs env |}.

(** The same for the URL and the list that the client reads *)
Definition read_dm (w : world) (e : Client.start_env) : Client.start_env :=
  {| Client.dm_crhost := Client.dm_crhost e;
     Client.dm_url :=
       match Client.dm_url e with
       | Some _ => Some (uri_text <$> lws_parse_uri (url w))
       | None => None
       end;
     Client.dm_acsip := Client.dm_acsip e;
     Client.dm_acsiplist := match Client.dm_acsiplist e with Some _ => Some (cs (published w)) | None => None end;
     Client.env_rand := Client.env_rand e; Client.dm_session_timeout := Client.dm_session_timeout e;
     Client.dm_verify_hostname := Client.dm_verify_hostname e;
     Client.dm_accept_selfsigned := Client.dm_accept_selfsigned e;
     Client.dm_accept_expired := Client.dm_accept_expired e; Client.dm_ntp_status := Client.dm_ntp_status e;
     Client.env_credentials := Client.env_credentials e |}.

(** ** Steps *)

(** The resolution when the services start; the URL is set; its event is
    handled; a callback of the resolver; the start of a session, with the
    resolution that it may ask for; another callback of the client *)
Inductive event :=
| First (env : resolve_env)
| SetUrl (u : string)
| UrlChanged (env : resolve_env)
| Ttl (env : resolve_env)
| Fd (rv : nat) (fd flags : Z) (cbs : list ares_cb)
| Timeout (rv : nat) (cbs : list ares_cb)
| Clean (rv : nat) (fds : list Z)
| Start (e : Client.start_env) (env : resolve_env)
| ClientEvent (e : Client.event).

(** Whether the start of a session has asked for a resolution *)
Definition resolution_asked (before after : Client.client (J := J)) : bool :=
  existsb (fun c => match c with Client.DnsResolve => true | _ => false end)
    (drop (length (Client.calls before)) (Client.calls after)).

(** [client_startSession] in the world: the result and the return code *)
Definition start_session (e : Client.start_env) (env : resolve_env) (w : world) : world * Z :=
  let '(c, rc) := client_start (read_dm w e) (client w) in
  let w' := with_client c w in
  (if resolution_asked (client w) c then with_dns (dns_resolve false (read_url w env) (dns w)).1 w' else w', rc).

(** The event [EVENT_ENG_URL_CHANGED] in [cwmp_app_engineEventHandler] *)
Definition acs_url_changed (env : resolve_env) (w : world) : world :=
  {| url := url w; changed := false; loaded := loaded w;
     dns := (dns_resolve true (read_url w env) (dns w)).1;
     client := Client.cwmp_client_clear_ACSIP (client w) |}.

(** One step; a callback of the client that is undefined (see [Client]) is not
    followed further. *)
Definition step (ev : event) (w : world) : world :=
  match ev with
  | First env => with_dns (dns_resolve false (read_url w env) (dns w)).1 w
  | SetUrl u => {| url := u; changed := true; loaded := loaded w; dns := dns w; client := client w |}
  | UrlChanged env => acs_url_changed env w
  | Ttl env => with_dns (dns_step (Dns.EvTtl (read_url w env)) (dns w)) w
  | Fd a fd flags cbs => with_dns (dns_step (Dns.EvFd a fd flags cbs) (dns w)) w
  | Timeout a cbs => with_dns (dns_step (Dns.EvTimeout a cbs) (dns w)) w
  | Clean a fds => with_dns (dns_step (Dns.EvClean a fds) (dns w)) w
  | Start e env => (start_session e env w).1
  | ClientEvent e => match client_step e (client w) with Some c => with_client c w | None => w end
  end.

Definition run : list event -> world -> world := run_steps step.

(** The daemon when its services start *)
Definition started (u acsiplist : string) : world :=
  {| url := u; changed := false; loaded := acsiplist; dns := Dns.cwmp_dns_init; client := Client.initial |}.

(** ** The environment *)

(** The addresses of a host, as names *)
Context (resolves : string -> string -> Prop).

(** An address that belongs to a host: the host itself if it is one *)
Definition belongs (h a : string) : Prop := if is_ipaddr h then a = h else resolves h a.

(** The answers of the library to the query for a host have its addresses. *)
Definition answer_of (h : string) (cb : ares_cb) : Prop :=
  match cb with
  | Dns.CbResult status (Some nodes) _ =>
      status = Dns.ARES_SUCCESS -> Forall (fun a => resolves h (Dns.ip a)) (read_nodes nodes "" None Dns.INT_MAX []).2
  | _ => True
  end.

(** The answers in a step are those for the hosts that were asked for, and the
    handler of a changed URL can read it. *)
Definition faithful (w : world) (ev : event) : Prop :=
  match ev with
  | UrlChanged env =>
      is_Some (Dns.acsurl env) /\ forall h, host_of (url w) = Some h -> Forall (answer_of h) (Dns.sync_cbs env)
  | First env | Ttl env | Start _ env => forall h, host_of (url w) = Some h -> Forall (answer_of h) (Dns.sync_cbs env)
  | Fd a _ _ cbs | Timeout a cbs =>
      forall r, r ∈ Dns.resolver_list (dns w) -> Dns.rv_id r = a -> Forall (answer_of (Dns.rv_host r)) cbs
  | _ => True
  end.

Fixpoint faithful_run (l : list event) (w : world) : Prop :=
  match l with
  | [] => True
  | ev :: l => faithful w ev /\ faithful_run l (step ev w)
  end.

(** A list of addresses as it is published *)
Definition list_for (h : string) (s : string) : Prop :=
  exists l, s = String.concat "," l /\ Forall (belongs h) l.

(** ** Lemmas on the resolver *)

Section Resolver.

Context (init : string).

Notation list_of d := (last_list init (Dns.calls d)).
Notation callback := (Dns.callback sin_addr sin6_addr inet_ntop ares_inet_ntop).
Notation callbacks := (Dns.callbacks sin_addr sin6_addr inet_ntop ares_inet_ntop).
Notation resolve_cb := (Dns.cwmp_dns_resolve_cb sin_addr sin6_addr inet_ntop ares_inet_ntop).

Lemma list_of_log l d : list_of (Dns.log l d) = last_list (list_of d) l.
Proof. unfold last_list. cbn [Dns.log Dns.calls]. by rewrite foldl_app. Qed.

Lemma list_of_release p s : last_list s (Dns.event_release p) = s.
Proof. unfold Dns.event_release. by destruct (Dns.ep_event p). Qed.

Lemma list_of_releases l s : last_list s (Dns.event_list_clean l) = s.
Proof.
  unfold Dns.event_list_clean. induction l as [|p l IH]; [done|]. cbn [map concat].
  unfold last_list in *. rewrite foldl_app. fold (last_list s (Dns.event_release p)). by rewrite list_of_release.
Qed.

(** The callbacks of sockets publish nothing. *)
Lemma poll_stop_quiet fd r d :
  let '(r', d') := Dns.cwmp_dns_fd_poll_stop fd r d in Dns.rv_host r' = Dns.rv_host r /\ list_of d' = list_of d.
Proof.
  unfold Dns.cwmp_dns_fd_poll_stop. destruct (Dns.event_list_findby_fd _ _); [|done]. split; [done|]. by rewrite list_of_log, list_of_release.
Qed.

Lemma poll_start_quiet ok events fd r d :
  let '(r', d') := Dns.cwmp_dns_fd_poll_start ok events fd r d in Dns.rv_host r' = Dns.rv_host r /\ list_of d' = list_of d.
Proof.
  unfold Dns.cwmp_dns_fd_poll_start. destruct (Dns.event_list_findby_fd _ _) as [p|].
  - split; [done|]. rewrite list_of_log. cbn [last_list foldl].
    transitivity (list_of (Dns.log (Dns.event_release p) d)); [done|]. by rewrite list_of_log, list_of_release.
  - destruct ok; [|done]. split; [done|]. by rewrite list_of_log.
Qed.

Lemma sock_quiet ok fd read write r d :
  let '(r', d') := Dns.cwmp_dns_ares_sock_cb ok fd read write r d in
  Dns.rv_host r' = Dns.rv_host r /\ list_of d' = list_of d.
Proof.
  unfold Dns.cwmp_dns_ares_sock_cb. destruct (read + write =? 0).
  - pose proof (poll_stop_quiet fd r d) as H. destruct (Dns.cwmp_dns_fd_poll_stop fd r d) as [r1 d1].
    destruct (Dns.rv_events r1); [|done]. unfold Dns.resolver_clean_timer_start. by destruct (Dns.rv_clean_timer _).
  - pose proof (poll_start_quiet ok (Z.lor (if read =? 0 then 0 else Dns.EV_READ) (if write =? 0 then 0 else Dns.EV_WRITE)) fd r d) as H.
    destruct (Dns.cwmp_dns_fd_poll_start _ _ _ _ _) as [r1 d1]. by destruct (Dns.rv_timeout_timer r1).
Qed.

(** What a result publishes *)
Lemma flush_list d : list_of (Dns.flush_bootstrap d) = list_of d.
Proof. unfold Dns.flush_bootstrap. destruct (Dns.send_bootstrap d); [|done]. 
  change (list_of (Dns.log [Dns.BootstrapInform] d) = list_of d). by rewrite list_of_log.
Qed.

Lemma resolve_cb_list h status ai interval r d :
  (Dns.rv_dirty r = false -> is_ipaddr h = false /\ answer_of h (Dns.CbResult status ai interval)) ->
  list_for h (list_of d) ->
  Dns.rv_host (resolve_cb status ai interval r d).1 = Dns.rv_host r /\
  list_for h (list_of (resolve_cb status ai interval r d).2).
Proof.
  intros Ha Hl. unfold Dns.cwmp_dns_resolve_cb. set (r1 := Dns.resolver_clean_timer_start _).
  assert (H1 : Dns.rv_host r1 = Dns.rv_host r /\ Dns.rv_dirty r1 = Dns.rv_dirty r).
  { unfold r1, Dns.resolver_clean_timer_start. by case_match. }
  destruct H1 as [Hh Hd]. rewrite Hd. destruct (Dns.rv_dirty r) eqn:Er; [done|]. destruct (Ha eq_refl) as [Hip Hans].
  cbn [fst snd]. split; [done|]. rewrite flush_list.
  destruct ai as [[|n nodes]|]; [done| |done]. destruct (status =? Dns.ARES_SUCCESS) eqn:Es; [|done].
  apply Z.eqb_eq in Es. specialize (Hans Es). unfold Dns.cwmp_dns_read_ai.
  destruct (read_nodes (n :: nodes) "" None Dns.INT_MAX []) as [v l]. cbn [snd] in Hans.
  exists (map Dns.ip l). split.
  { change (list_of (Dns.log [Dns.SetAcsIpList (Dns.addr_list_str l)] (Dns.with_ainfo v l d)) = String.concat "," (map Dns.ip l)).
    rewrite list_of_log. exact (Dns.addr_list_str_concat l). }
  apply Forall_map.
  eapply Forall_impl; [exact Hans|]. intros x Hx. cbn beta. unfold belongs. by rewrite Hip.
Qed.

Lemma callback_list h cb r d :
  (Dns.rv_dirty r = false -> is_ipaddr h = false /\ answer_of h cb) -> list_for h (list_of d) ->
  Dns.rv_host (callback cb r d).1 = Dns.rv_host r /\ list_for h (list_of (callback cb r d).2).
Proof.
  intros Ha Hl. destruct cb as [ok fd rd wr|status ai interval]; cbn [Dns.callback].
  - pose proof (sock_quiet ok fd rd wr r d) as H. destruct (Dns.cwmp_dns_ares_sock_cb ok fd rd wr r d) as [r' d'].
    destruct H as [H1 H2]. cbn [fst snd]. by rewrite H2.
  - case_decide; [|done]. by apply resolve_cb_list.
Qed.

Lemma callbacks_list h cbs r d :
  (Dns.rv_dirty r = false -> is_ipaddr h = false /\ Forall (answer_of h) cbs) -> list_for h (list_of d) ->
  Dns.rv_host (callbacks cbs r d).1 = Dns.rv_host r /\ list_for h (list_of (callbacks cbs r d).2).
Proof.
  unfold Dns.callbacks. revert r d. induction cbs as [|cb cbs IH]; intros r d Ha Hl; [done|]. cbn [foldl].
  destruct (callback_list h cb r d) as [H1 H2]; [|done|].
  { intros Hd. destruct (Ha Hd) as [Hi Hf]. by apply Forall_cons in Hf as [Hf _]. }
  pose proof (Dns.so_dirty _ _ _ _ (Dns.step_ok_callback sin_addr sin6_addr inet_ntop ares_inet_ntop cb r d)) as Hd'.
  destruct (callback cb r d) as [r1 d1]. cbn [fst snd] in *.
  destruct (IH r1 d1) as [H3 H4]; [|done|by rewrite H3].
  intros Hd. rewrite Hd' in Hd. destruct (Ha Hd) as [Hi Hf]. by apply Forall_cons in Hf as [_ Hf].
Qed.

(** The invariant of the resolver for a host: what is published is a list for
    it, and only lookups for it still count. *)
Record serves (h : string) (d : Dns.dns) : Prop := {
  serves_list : list_for h (list_of d);
  serves_lookups : forall r, r ∈ Dns.resolver_list d -> Dns.rv_dirty r = false -> Dns.rv_host r = h /\ is_ipaddr h = false;
}.

Lemma serves_same h d d' :
  Dns.calls d' = Dns.calls d -> Dns.resolver_list d' = Dns.resolver_list d -> serves h d -> serves h d'.
Proof. intros Hc Hr [H1 H2]. split; [by rewrite Hc|by rewrite Hr]. Qed.

Lemma serves_on_resolver h a f d :
  (forall r d, Dns.step_ok r d (f r d).1 (f r d).2) ->
  (forall r, r ∈ Dns.resolver_list d -> Dns.rv_id r = a -> Dns.rv_host (f r d).1 = Dns.rv_host r /\
     (list_for h (list_of d) -> list_for h (list_of (f r d).2))) ->
  serves h d -> serves h (Dns.on_resolver a f d).
Proof.
  intros Hok Hf [H1 H2]. unfold Dns.on_resolver. destruct (Dns.split_at a _) as [[[l1 r] l2]|] eqn:Es; [|done].
  apply Dns.split_at_Some in Es as [Hl Ha]. rewrite Hl in *.
  destruct (Hf r) as [Hh Hs]; [set_solver|done|]. specialize (Hok r d). destruct Hok as [_ Hd _ _ _ _ _ _ _ _ _].
  destruct (f r d) as [r' d']. cbn [fst snd] in *. split; [by apply Hs|].
  cbn [Dns.with_resolvers Dns.resolver_list]. intros x Hx Hxd.
  apply elem_of_app in Hx as [Hx|[->|Hx]%elem_of_cons].
  - apply H2; [set_solver|done].
  - rewrite Hh. apply H2; [set_solver|congruence].
  - apply H2; [set_solver|done].
Qed.

Lemma list_for_empty h : list_for h "".
Proof. by exists []. Qed.

Lemma serves_mark h d : list_for h (list_of d) -> serves h (Dns.mark_resolvers_as_dirty d).
Proof.
  intros H. split; [done|]. intros r Hr Hd. cbn in Hr. apply list_elem_of_fmap in Hr as (x & -> & _). done.
Qed.

Lemma callbacks_ok a h cbs d :
  (is_ipaddr h = false -> Forall (answer_of h) cbs) -> serves h d ->
  serves h (Dns.on_resolver a (callbacks cbs) d).
Proof.
  intros Ha Hs. apply serves_on_resolver; [intros; apply Dns.step_ok_callbacks| |done].
  intros r Hr _. destruct (Dns.rv_dirty r) eqn:Hd.
  - split; [|intros Hl; apply (callbacks_list h cbs r d); [by rewrite Hd|done]].
    refine (proj1 (callbacks_list h cbs r d _ (serves_list _ _ Hs))). by rewrite Hd.
  - destruct (serves_lookups _ _ Hs r Hr Hd) as [_ Hi].
    split; [|intros Hl; by apply (callbacks_list h cbs r d); [intros _; auto|]].
    refine (proj1 (callbacks_list h cbs r d _ (serves_list _ _ Hs))). auto.
Qed.

(** A resolution that can read the URL serves its host afterwards: if it was
    told of the change, whatever was published before. *)
Lemma serves_resolve h u b env d :
  Dns.acsurl env = Some u -> host_of u = Some h -> Forall (answer_of h) (Dns.sync_cbs env) ->
  (b = true \/ list_for h (list_of d)) -> serves h (dns_resolve b env d).1.
Proof.
  intros Hu Hh Hans Hb. unfold Dns.cwmp_dns_resolve, Dns.cwmp_dns_get_host. rewrite Hu. cbn [mbind option_bind]. rewrite Hh.
  set (d1 := if b then _ else d).
  assert (H1 : list_for h (list_of d1)).
  { destruct b; [|by destruct Hb]. unfold d1.
    change (list_for h (list_of (Dns.log [Dns.SetAcsIpList ""] (Dns.with_ainfo (Dns.dns_ttl_val d) [] d)))).
    rewrite list_of_log. apply list_for_empty. }
  set (d2 := if 0 <? Dns.ttl_remaining env then _ else d1).
  assert (H2 : list_for h (list_of d2)) by (unfold d2; by destruct (0 <? _)).
  apply serves_mark in H2. revert H2. generalize (Dns.mark_resolvers_as_dirty d2). intros d3 H3.
  destruct (streq h ""); [done|]. destruct (is_ipaddr h) eqn:Hi.
  - cbn [fst]. split.
    + rewrite flush_list. unfold Dns.cwmp_dns_set_static_ip. rewrite list_of_log. exists [h]. split; [done|].
      apply Forall_singleton. unfold belongs. by rewrite Hi.
    + unfold Dns.flush_bootstrap. intros r Hr Hd.
      apply (serves_lookups _ _ H3); [|done]. by destruct (Dns.send_bootstrap _).
  - unfold Dns.cwmp_dns_ares_resolution, Dns.resolver_create.
    assert (Hretry : serves h (Dns.retry d3)) by (by apply (serves_same h d3)).
    destruct (streq h ""); [done|]. destruct (Dns.calloc_ok env); cbn [negb]; [|done].
    destruct (Dns.ares_init_ok env); cbn [negb fst]; [|done].
    apply callbacks_ok; [auto|]. split.
    + match goal with |- list_for h (list_of (Dns.log ?l ?x)) => change (list_for h (last_list init (Dns.calls d3 ++ l))) end.
      unfold last_list. rewrite foldl_app. apply (serves_list _ _ H3).
    + intros r Hr Hd. cbn in Hr. apply elem_of_app in Hr as [Hr|Hr].
      * by apply (serves_lookups _ _ H3).
      * by apply list_elem_of_singleton in Hr as ->.
Qed.

(** The removal of a resolver publishes nothing. *)
Lemma close_list h fds r d :
  list_for h (list_of d) ->
  list_for h (list_of (foldl (fun '(r, d) fd => Dns.cwmp_dns_ares_sock_cb true fd 0 0 r d) (r, d) fds).2).
Proof.
  revert r d. induction fds as [|fd fds IH]; intros r d H; [done|]. cbn [foldl].
  pose proof (sock_quiet true fd 0 0 r d) as Hq. destruct (Dns.cwmp_dns_ares_sock_cb true fd 0 0 r d) as [r1 d1].
  destruct Hq as [_ Hq]. apply IH. by rewrite Hq.
Qed.

Lemma clean_list h fds r d :
  (Dns.rv_dirty r = false -> is_ipaddr h = false) -> list_for h (list_of d) ->
  list_for h (list_of (Dns.resolver_clean sin_addr sin6_addr inet_ntop ares_inet_ntop fds r d)).
Proof.
  intros Hr Hl. unfold Dns.resolver_clean, Dns.ares_destroy.
  set (d1 := Dns.log [_] _). assert (H1 : list_for h (list_of d1)).
  { unfold d1. rewrite !list_of_log, list_of_releases. exact Hl. }
  destruct (decide _).
  - pose proof (resolve_cb_list h Dns.ARES_EDESTRUCTION None None (Dns.rv_with_events [] r)
      (Dns.with_queries (filter (.≠ Dns.rv_id (Dns.rv_with_events [] r)) (Dns.queries d1)) d1)) as H.
    destruct (resolve_cb _ _ _ _ _) as [r2 d2]. destruct H as [_ H]; [intros Hd; split; [by apply Hr|done]|done|].
    by apply close_list.
  - by apply close_list.
Qed.

(** Callbacks after a change of the resolver and of the log that publishes
    nothing *)
Lemma callbacks_after h cbs r r1 d d1 :
  Dns.rv_host r1 = Dns.rv_host r -> Dns.rv_dirty r1 = Dns.rv_dirty r -> list_of d1 = list_of d ->
  (Dns.rv_dirty r = false -> is_ipaddr h = false /\ Forall (answer_of h) cbs) -> list_for h (list_of d) ->
  Dns.rv_host (callbacks cbs r1 d1).1 = Dns.rv_host r /\ list_for h (list_of (callbacks cbs r1 d1).2).
Proof.
  intros Hh Hd Hl Ha Hs. destruct (callbacks_list h cbs r1 d1) as [H1 H2]; [by rewrite Hd|by rewrite Hl|].
  by rewrite H1.
Qed.

(** The answers to the lookups that count are for the host. *)
Lemma counted h d r cbs :
  serves h d -> r ∈ Dns.resolver_list d -> Forall (answer_of (Dns.rv_host r)) cbs ->
  Dns.rv_dirty r = false -> is_ipaddr h = false /\ Forall (answer_of h) cbs.
Proof. intros Hs Hr Ha Hd. by destruct (serves_lookups _ _ Hs r Hr Hd) as [<- Hi]. Qed.

Lemma serves_fd h a fd flags cbs d :
  (forall r, r ∈ Dns.resolver_list d -> Dns.rv_id r = a -> Forall (answer_of (Dns.rv_host r)) cbs) ->
  serves h d -> serves h (dns_step (Dns.EvFd a fd flags cbs) d).
Proof.
  intros Ha Hs. cbn [Dns.dns_step]. apply serves_on_resolver; [| |done].
  { intros r d1. destruct (Dns.event_list_findby_fd _ _); [apply Dns.step_ok_fd_event|apply Dns.step_ok_refl]. }
  intros r Hr Hi. destruct (Dns.event_list_findby_fd _ _); [|done]. unfold Dns.cwmp_dns_fd_event_cb.
  match goal with |- context [Dns.log ?l d] => assert (Hl : list_of (Dns.log l d) = list_of d) by (by rewrite list_of_log) end.
  pose proof (callbacks_after h cbs r r d _ eq_refl eq_refl Hl (counted h d r cbs Hs Hr (Ha r Hr Hi)) (serves_list _ _ Hs)) as [H1 H2].
  by split.
Qed.

Lemma serves_timeout h a cbs d :
  (forall r, r ∈ Dns.resolver_list d -> Dns.rv_id r = a -> Forall (answer_of (Dns.rv_host r)) cbs) ->
  serves h d -> serves h (dns_step (Dns.EvTimeout a cbs) d).
Proof.
  intros Ha Hs. cbn [Dns.dns_step]. apply serves_on_resolver; [| |done].
  { intros r d1. destruct (Dns.running _); [|apply Dns.step_ok_refl].
    eapply Dns.step_ok_trans; [apply Dns.step_ok_timers|apply Dns.step_ok_timeout]. }
  intros r Hr Hi. destruct (Dns.running _); [|done]. unfold Dns.resolver_timeout_timer_cb.
  match goal with |- context [Dns.log ?l d] => assert (Hl : list_of (Dns.log l d) = list_of d) by (by rewrite list_of_log) end.
  match goal with |- context [callbacks cbs ?r1 _] =>
    pose proof (callbacks_after h cbs r r1 d _ eq_refl eq_refl Hl (counted h d r cbs Hs Hr (Ha r Hr Hi)) (serves_list _ _ Hs)) as [H1 H2] end.
  by split.
Qed.

Lemma serves_clean h a fds d : serves h d -> serves h (dns_step (Dns.EvClean a fds) d).
Proof.
  intros Hs. cbn [Dns.dns_step]. unfold Dns.resolver_clean_timer_cb.
  destruct (Dns.split_at a _) as [[[l1 r] l2]|] eqn:Es; [|done]. apply Dns.split_at_Some in Es as [Hl _].
  destruct (Dns.running _); [|done]. destruct Hs as [H1 H2]. rewrite Hl in H2.
  match goal with |- serves h (Dns.resolver_clean _ _ _ _ ?f ?x ?y) =>
    destruct (Dns.resolver_clean_frame sin_addr sin6_addr inet_ntop ares_inet_ntop f x y) as [Hf _];
    pose proof (clean_list h f x y) as Hc end.
  split; [apply Hc; [intros Hd; apply (H2 r); [set_solver|exact Hd]|exact H1]|].
  rewrite Hf. cbn [Dns.with_resolvers Dns.resolver_list]. intros x Hx. apply H2. set_solver.
Qed.

Lemma serves_ttl h u env d :
  (is_Some (Dns.acsurl env) -> Dns.acsurl env = Some u) -> host_of u = Some h -> Forall (answer_of h) (Dns.sync_cbs env) ->
  serves h d -> serves h (dns_step (Dns.EvTtl env) d).
Proof.
  intros Hu Hh Ha Hs. cbn [Dns.dns_step]. unfold Dns.dns_ttl_timer_cb. destruct (Dns.running _); [|done].
  destruct (Dns.acsurl env) as [x|] eqn:E.
  - apply (serves_resolve h u); [rewrite E; by apply Hu|done|done|]. right. apply (serves_list _ _ Hs).
  - unfold Dns.cwmp_dns_resolve. rewrite E. cbn [mbind option_bind fst]. by apply (serves_same h d).
Qed.

End Resolver.

(** ** The world *)

(** Unless a change of the URL waits to be handled, the resolver serves the host
    that it names. *)
Definition current (w : world) : Prop :=
  changed w = false -> forall h, host_of (url w) = Some h -> serves (loaded w) h (dns w).

Lemma read_url_reads w env : is_Some (Dns.acsurl (read_url w env)) -> Dns.acsurl (read_url w env) = Some (url w).
Proof. unfold read_url. cbn [Dns.acsurl]. destruct (Dns.acsurl env); [done|]. by intros [? ?]. Qed.

Lemma resolve_current w env :
  (forall h, host_of (url w) = Some h -> Forall (answer_of h) (Dns.sync_cbs env)) -> current w ->
  current (with_dns (dns_resolve false (read_url w env) (dns w)).1 w).
Proof.
  intros Ha Hw Hc h Hh. cbn [with_dns changed url loaded dns] in *. specialize (Hw Hc h Hh).
  destruct (Dns.acsurl (read_url w env)) as [x|] eqn:E.
  - apply (serves_resolve _ h (url w)); [by apply read_url_reads; rewrite E|done|by apply Ha|]. right. apply (serves_list _ _ _ Hw).
  - unfold Dns.cwmp_dns_resolve. rewrite E. cbn [mbind option_bind fst]. by apply (serves_same _ h (dns w)).
Qed.

Lemma step_current ev w : faithful w ev -> current w -> current (step ev w).
Proof.
  intros Hf Hw. destruct ev as [env|u|env|env|a fd flags cbs|a cbs|a fds|e env|e]; cbn [step faithful] in *.
  - by apply resolve_current.
  - by intros Hc.
  - intros _ h Hh. destruct Hf as [[x Hx] Ha]. cbn [acs_url_changed url loaded dns] in *.
    apply (serves_resolve _ h (url w)); [unfold read_url; cbn [Dns.acsurl]; by rewrite Hx|done|by apply Ha|by left].
  - intros Hc h Hh. apply (serves_ttl _ h (url w)); [apply read_url_reads|done|by apply Hf|by apply Hw].
  - intros Hc h Hh. apply serves_fd; [done|by apply Hw].
  - intros Hc h Hh. apply serves_timeout; [done|by apply Hw].
  - intros Hc h Hh. apply serves_clean. by apply Hw.
  - unfold start_session. destruct (client_start _ _) as [c rc]. cbn [fst].
    destruct (resolution_asked _ _); [|done]. exact (resolve_current w env Hf Hw).
  - by destruct (client_step e (client w)).
Qed.

Lemma run_current l w : faithful_run l w -> current w -> current (run l w).
Proof.
  unfold run. revert w. induction l as [|ev l IH]; intros w Hf Hw; [done|]. destruct Hf as [Hf Hl].
  apply IH; [done|by apply step_current].
Qed.

(** ** Lemmas on the client *)

Notation server_of c := (Client.cl_server (J := J) c).

Lemma prepare_server e c : server_of (Client.cwmp_client_prepare_session b64_encode digest_response e c) = server_of c.
Proof.
  unfold Client.cwmp_client_prepare_session. case_bool_decide; [|done]. unfold Client.cwmp_client_gen_auth_hdr.
  by destruct (Client.dm_username (Client.env_credentials e)), (Client.dm_password (Client.env_credentials e)).
Qed.

Lemma qos_server ip port c : server_of (Client.update_qos_info (fun a => is_ipaddr (String.string_of_list_ascii a)) ip port c) = server_of c.
Proof. unfold Client.update_qos_info. by destruct (_ || _). Qed.

(** A session that starts has the host of the URL and the address that is
    chosen for it. *)
Lemma start_server e c c' :
  client_start e c = (c', 0) ->
  exists scheme host port path c1 c2, Client.dm_url e = Some (Some (scheme, host, port, path)) /\
    Client.acs_server_host (server_of c1) = Some host /\
    Client.cwmp_client_get_acsip (fun a => is_ipaddr (String.string_of_list_ascii a)) csv_fields e c1 = (c2, Client.cwmp_status_ok) /\
    server_of c' = server_of c2.
Proof.
  unfold Client.client_startSession. destruct (Client.dm_crhost e) as [[|x y]|]; [done| |done].
  destruct (decide _); [done|]. unfold Client.cwmp_client_parse_url.
  destruct (Client.dm_url e) as [[[[[scheme host] port] path]|]|]; [|done..]. cbn [mjoin option_join].
  match goal with |- context [Client.cwmp_client_get_acsip _ _ _ ?x] => set (c1 := x) end.
  destruct (Client.cwmp_client_get_acsip _ _ e c1) as [c2 []] eqn:Eg; [|done]. intros [= <-].
  exists scheme, host, port, path, c1, c2. split; [done|]. split; [|split; [done|]].
  - unfold c1. by rewrite qos_server.
  - cbn. by rewrite prepare_server.
Qed.

Lemma acsip_host e c c2 st :
  Client.cwmp_client_get_acsip (fun a => is_ipaddr (String.string_of_list_ascii a)) csv_fields e c = (c2, st) ->
  Client.acs_server_host (server_of c2) = Client.acs_server_host (server_of c).
Proof.
  unfold Client.cwmp_client_get_acsip. cbv zeta.
  destruct (Client.is_ip _ _); [intros [= <- _]; by rewrite qos_server|].
  destruct (match Client.dm_acsip e with Some a => Some a | None => _ end) as [[|x a]|];
    [intros [= <- _]; by rewrite qos_server| |intros [= <- _]; by rewrite qos_server].
  destruct (Client.dm_acsiplist e); [|by intros [= <- _]].
  destruct (is_null _); intros [= <- _]; by rewrite qos_server.
Qed.

(** ** Properties *)

(** C11: the address of a session belongs to the host of its URL.  In every run
    in which the library answers for the hosts that it was asked for and the handler
    of a changed URL can read it ([faithful]), and whose first list belongs to the
    host of the first URL, whatever lookups overlap with changes of the URL, a
    session that starts when no change waits to be handled connects to the host that the URL names, with the host
    itself if it is an address, and otherwise with an address of this host or with
    the one of the last session, as long as that occurs in the text of the
    addresses of this host. *)
Theorem session_uses_current_host (u acsiplist : string) (l : list event) (e : Client.start_env) (env : resolve_env)
    (Hload : forall h, host_of u = Some h -> list_for h acsiplist)
    (Hcsv : forall h addrs a, Forall (belongs h) addrs -> a ∈ csv_fields (cs (String.concat "," addrs)) ->
       exists b, b ∈ addrs /\ a = cs b)
    (Hl : faithful_run l (started u acsiplist)) :
  let w := run l (started u acsiplist) in
  let w' := (start_session e env w).1 in
  changed w = false -> (start_session e env w).2 = 0 ->
  exists h ip, host_of (url w) = Some h /\ Client.acs_server_host (server_of (client w')) = Some (cs h) /\
    Client.acs_server_ip (server_of (client w')) = Some ip /\
    ((is_ipaddr h = true /\ ip = cs h) \/
     exists addrs, Forall (belongs h) addrs /\ published w = String.concat "," addrs /\
       ((exists a, a ∈ addrs /\ ip = cs a) \/ (ip <> [] /\ strstr ip (cs (published w)) <> None))).
Proof.
  intros w w' Hc Hrc. unfold w'. clear w'. unfold start_session in *.
  destruct (client_start (read_dm w e) (client w)) as [c rc] eqn:Es. cbn [fst snd] in *. subst rc.
  assert (Hw : current w).
  { apply run_current; [done|]. intros _ h Hh. split; [by apply Hload|]. intros r Hr. by apply elem_of_nil in Hr. }
  destruct (start_server _ _ _ Es) as (scheme & host & port & path & c1 & c2 & Hu & Hh & Hg & Hs).
  assert (Hcl : forall d, client (if resolution_asked (client w) c then with_dns d (with_client c w) else with_client c w) = c)
    by (intros d; by destruct (resolution_asked _ _)).
  rewrite Hcl, Hs, (acsip_host _ _ _ _ Hg), Hh.
  unfold read_dm in Hu. cbn [Client.dm_url] in Hu. destruct (Client.dm_url e); [|done]. injection Hu as Hu.
  destruct (lws_parse_uri (url w)) as [[[[scheme' h] port'] path']|] eqn:Ep; [|done]. injection Hu as _ <- _ _.
  destruct (Client.acsip_chosen _ _ _ _ _ Hg) as (ip & Hip & _ & _ & Hcase).
  assert (Hho : host_of (url w) = Some h) by (unfold host_of; by rewrite Ep).
  exists h, ip. split; [done|]. split; [done|]. split; [done|].
  destruct Hcase as [[Hhost Hlit]|(text & Ht & Hcase)].
  - left. rewrite Hh in Hhost. injection Hhost as <-. split; [|done].
    unfold cs in Hlit. by rewrite String.string_of_list_ascii_of_string in Hlit.
  - right. destruct (serves_list _ _ _ (Hw Hc h Hho)) as (addrs & Hp & Hb). exists addrs. split; [done|]. split; [exact Hp|].
    cbn [read_dm Client.dm_acsiplist] in Ht. destruct (Client.dm_acsiplist e); [|done]. injection Ht as <-.
    destruct Hcase as [(Hne & Hst & _)|Hin]; [by right|left]. apply (Hcsv h); [done|].
    change (last_list (loaded w) (Dns.calls (dns w))) with (published w) in Hp. by rewrite <- Hp.
Qed.

(** The resolution that follows a change is repeated when it fails, the change is
    not: if the handler cannot read the URL, the addresses of the old host stay
    published, the lookups for it still count and no bootstrap is asked for, and
    the next lookup is planned as one without a change. *)
Theorem unread_change_forgotten (env : resolve_env) (w : world) (Hu : Dns.acsurl env = None) :
  let w' := step (UrlChanged env) w in
  published w' = published w /\ Dns.resolver_list (dns w') = Dns.resolver_list (dns w) /\
  Dns.send_bootstrap (dns w') = Dns.send_bootstrap (dns w) /\ Dns.queries (dns w') = Dns.queries (dns w) /\
  Dns.dns_ttl_timer (dns w') = Dns.amxp_timer_start 5000 (Dns.dns_ttl_timer (dns w)) /\ changed w' = false.
Proof.
  cbv zeta. cbn [step]. unfold acs_url_changed, published. cbn [dns loaded changed].
  unfold Dns.cwmp_dns_resolve, read_url. cbn [Dns.acsurl]. rewrite Hu. by split_and!.
Qed.

End AcsAddress.

(** ** Witness *)

(** Two hosts, of one address each; a URL is its host. *)
Definition ex_parse (u : string) : option (string * string * Z * option string) := Some ("http", u, 80, None)%string.

Definition ex_resolves (h a : string) : Prop :=
  (h = "old.example" /\ a = "192.0.2.9" \/ h = "acs.example" /\ a = "192.0.2.7")%string.

Definition ex_csv (s : cstr) : list cstr := strtok "," s [].

Definition ex_answer (a : string) : Dns.ares_cb (sockaddr := string) :=
  Dns.CbResult Dns.ARES_SUCCESS (Some [{| Dns.ai_family := Dns.AF_INET; Dns.ai_addr := a; Dns.ai_ttl := 60 |}]) None.

(** The URL changes while the first lookup is under way; its answer comes after
    the change was handled. *)
Definition ex_events : list (event (sockaddr := string)) :=
  [First (Dns.ex_env ""); SetUrl "acs.example"; UrlChanged (Dns.ex_env "");
   Fd 2 7 Dns.EV_READ [ex_answer "192.0.2.7"]; Fd 0 7 Dns.EV_READ [ex_answer "192.0.2.9"]].

Notation ex_run := (run (J := cookie_jar_t) id id Dns.ex_ntop Dns.ex_ares_ntop Client.ex_b64 Client.ex_digest (fun _ s => s) id
  (cs "<Env") ex_csv ex_parse Dns.ex_is_ip).

Definition ex_world : world (J := cookie_jar_t) := ex_run ex_events (started "old.example" "").

Definition ex_session : Client.start_env :=
  {| Client.dm_crhost := Some (cs "192.0.2.1"); Client.dm_url := Some None; Client.dm_acsip := None;
     Client.dm_acsiplist := Some []; Client.env_rand := 0; Client.dm_session_timeout := None;
     Client.dm_verify_hostname := None; Client.dm_accept_selfsigned := None; Client.dm_accept_expired := None;
     Client.dm_ntp_status := None; Client.env_credentials := Client.ex_credentials |}.

Lemma cs_concat l : cs (String.concat "," l) = join ","%char (map cs l).
Proof.
  induction l as [|a l IH]; [done|]. destruct l as [|b l]; [done|].
  change (String.concat "," (a :: b :: l)) with (String.append a (String.append "," (String.concat "," (b :: l)))).
  rewrite !cs_append, IH. done.
Qed.

(** The names of the example have no commas, so that the list is cut into them. *)
Lemma ex_csv_names h l :
  Forall (belongs Dns.ex_is_ip ex_resolves h) l -> ex_csv (cs (String.concat "," l)) = map cs l.
Proof.
  intros Hl. unfold ex_csv. rewrite cs_concat.
  assert (Ha : Forall (fun a => a = "192.0.2.9" \/ a = "192.0.2.7" \/ a = "10.0.0.1")%string l).
  { eapply Forall_impl; [exact Hl|]. intros a. unfold belongs, Dns.ex_is_ip. cbn beta.
    destruct (streq h "10.0.0.1") eqn:E; [apply streq_true in E; naive_solver|]. intros [[_ ->]|[_ ->]]; auto. }
  apply strtok_join; apply Forall_map; (eapply Forall_impl; [exact Ha|]);
    intros a [-> | [-> | ->]]; apply (bool_decide_unpack _); vm_compute; exact I.
Qed.

Lemma ex_names_cut h addrs a :
  Forall (belongs Dns.ex_is_ip ex_resolves h) addrs -> a ∈ ex_csv (cs (String.concat "," addrs)) -> exists b, b ∈ addrs /\ a = cs b.
Proof.
  intros Hb Hin. rewrite (ex_csv_names h addrs Hb) in Hin. apply list_elem_of_fmap in Hin as (b & -> & Hb'). by exists b.
Qed.

Lemma ex_loaded h : host_of ex_parse "old.example" = Some h -> list_for Dns.ex_is_ip ex_resolves h "".
Proof. intros _. exists []. split; [reflexivity|constructor]. Qed.

Notation ex_answers := (answer_of id id Dns.ex_ntop Dns.ex_ares_ntop ex_resolves).

Lemma ex_answer_old : ex_answers "old.example" (ex_answer "192.0.2.9").
Proof. intros _. apply Forall_singleton. left. by split. Qed.

Lemma ex_answer_new : ex_answers "acs.example" (ex_answer "192.0.2.7").
Proof. intros _. apply Forall_singleton. right. by split. Qed.

(** The resolvers after a number of events *)
Definition ex_lookups (n : nat) : list (nat * string) :=
  map (fun r => (Dns.rv_id r, Dns.rv_host r))
    (Dns.resolver_list (dns (ex_run (firstn n ex_events) (started "old.example" "")))).

Lemma ex_lookup n a h cb :
  bool_decide (Forall (fun x => x.1 = a -> x.2 = h) (ex_lookups n)) = true -> ex_answers h cb ->
  forall r, r ∈ Dns.resolver_list (dns (ex_run (firstn n ex_events) (started "old.example" ""))) -> Dns.rv_id r = a ->
    Forall (ex_answers (Dns.rv_host r)) [cb].
Proof.
  intros Hb Ha r Hr Hi. apply bool_decide_eq_true in Hb. rewrite Forall_forall in Hb.
  specialize (Hb (Dns.rv_id r, Dns.rv_host r)). cbn [fst snd] in Hb. rewrite Hb; [by apply Forall_singleton| |exact Hi].
  apply list_elem_of_fmap. by exists r.
Qed.

Lemma ex_faithful : faithful_run (J := cookie_jar_t) id id Dns.ex_ntop Dns.ex_ares_ntop Client.ex_b64 Client.ex_digest (fun _ s => s) id
  (cs "<Env") ex_csv ex_parse Dns.ex_is_ip ex_resolves ex_events (started "old.example" "").
Proof.
  split; [intros h _; repeat constructor|]. split; [exact I|]. split; [split; [by eexists|intros h _; repeat constructor]|].
  split; [exact (ex_lookup 3 2 "acs.example" _ ltac:(vm_compute; reflexivity) ex_answer_new)|].
  split; [exact (ex_lookup 4 0 "old.example" _ ltac:(vm_compute; reflexivity) ex_answer_old)|exact I].
Qed.

(** The late answer for the old host is not used. *)
Lemma session_uses_current_host_witness :
  exists h ip, host_of ex_parse (url ex_world) = Some h /\
    Client.acs_server_ip (Client.cl_server (client (start_session id id Dns.ex_ntop Dns.ex_ares_ntop Client.ex_b64 Client.ex_digest
      ex_csv ex_parse Dns.ex_is_ip ex_session (Dns.ex_env "") ex_world).1)) = Some ip /\
    h = "acs.example"%string /\ ip = cs "192.0.2.7".
Proof.
  destruct (session_uses_current_host (J := cookie_jar_t) id id Dns.ex_ntop Dns.ex_ares_ntop Client.ex_b64 Client.ex_digest
    (fun _ s => s) id (cs "<Env") ex_csv ex_parse Dns.ex_is_ip ex_resolves "old.example" "" ex_events ex_session (Dns.ex_env "")
    ex_loaded ex_names_cut ex_faithful eq_refl eq_refl) as (h & ip & Hh & _ & Hip & _).
  exists h, ip. split; [exact Hh|]. split; [exact Hip|].
  vm_compute in Hh. vm_compute in Hip. injection Hh as <-. injection Hip as <-. by split.
Defined.

(** The session then uses an address of the old host for the new one. *)
Definition ex_unread : Dns.resolve_env (sockaddr := string) :=
  {| Dns.acsurl := None; Dns.ai_family_str := None; Dns.calloc_ok := true; Dns.ares_init_ok := true;
     Dns.ttl_remaining := 0; Dns.sync_cbs := [] |}.

Definition ex_old : world (J := cookie_jar_t) :=
  ex_run [First (Dns.ex_env ""); Fd 0 7 Dns.EV_READ [ex_answer "192.0.2.9"]; SetUrl "acs.example"] (started "old.example" "").

Lemma unread_change_forgotten_witness :
  published (ex_run [UrlChanged ex_unread] ex_old) = "192.0.2.9"%string /\
  host_of ex_parse (url (ex_run [UrlChanged ex_unread] ex_old)) = Some "acs.example"%string.
Proof.
  destruct (unread_change_forgotten (J := cookie_jar_t) id id Dns.ex_ntop Dns.ex_ares_ntop Client.ex_b64 Client.ex_digest
    (fun _ s => s) id (cs "<Env") ex_csv ex_parse Dns.ex_is_ip ex_unread ex_old eq_refl) as (H & _).
  split; [refine (eq_trans H _); vm_compute; reflexivity|vm_compute; reflexivity].
Defined.

End AcsAddress.
