(* ===== verification/DaemonMain.v ===== *)
(** * DaemonMain: start, event loop and end of the daemon
    ([cwmpd_main.c] and [cwmpd_evlp.c] of [src/src/dmmain])

    The main program reads its configuration, connects the engine to the data
    model, starts the services, runs the event loop until it is stopped and cleans
    up.  What it calls of the other components is logged with the result that the
    environment gives; the events of the loop are the signals and the events of the
    engine that the environment delivers. *)

From Stdlib Require Import ZArith Lia.
From stdpp Require Import base list strings.
From S2P Require Import Prelude.

Module DaemonMain.

(** ** State *)

(** [server_state_t] *)
Inductive server_state_t := INIT | RUN | EXIT | ERROR.

Inductive trace_type := TRACE_TYPE_SYSLOG | TRACE_TYPE_STDOUT.

(** [application_t]; the two keys that are not set by [cwmp_app_parse_config] alone
    are [pidFile] and [daemonize]. *)
Record application := {
  odl_config : option string;
  daemonize : bool;
  traceLevel : Z;
  traceType : trace_type;
  state : server_state_t;
  prefix : option string;
  trustedCA : option string;
  ssl_client_priv_key : option string;
  ssl_client_cert : option string;
  ssl_certificate : option string;
  pidFile : option string;
  persistent_rpc_path : option string;
  backend : option string;
  uri : option string;
  da_path : option string;
  aclfile : option string;
}.

(** [static application_t cwmp_app], in zeroed memory *)
Definition zeroed : application :=
  {| odl_config := None; daemonize := false; traceLevel := 0; traceType := TRACE_TYPE_SYSLOG; state := INIT; prefix := None;
     trustedCA := None; ssl_client_priv_key := None; ssl_client_cert := None; ssl_certificate := None; pidFile := None;
     persistent_rpc_path := None; backend := None; uri := None; da_path := None; aclfile := None |}.

(** The static variables of [cwmpd_evlp.c]: which of them are set *)
Record evlp := { main_loop : bool; sig_alarm : bool; amxp_sig : bool; acs_bus_ev : bool; sys_bus_ev : bool }.

Definition no_evlp : evlp :=
  {| main_loop := false; sig_alarm := false; amxp_sig := false; acs_bus_ev := false; sys_bus_ev := false |}.

(** The calls of the other components and of the event library *)
Inductive call :=
| Device_Load
| DMConnect
| event_base_new
| server_start
| server_stop
| dns_init
| dns_resolve (url_changed : bool)
| dns_clean
| client_init
| client_stop
| client_clear_ACSIP
| COM_INIT
| event_base_dispatch
| event_base_loopbreak
| COM_STOP
| Device_Unload
| timer_remove_all.

(** What the loop delivers *)
Inductive loop_event := Signal (s : Z) | Engine (eventType : string).

(** The configuration: the values of the keys that the ODL files set *)
Notation config := (string -> option string).

(** The names of the events of the engine, which its header defines *)
Record event_names := {
  EVENT_ENG_SRV_RESTART : string;
  EVENT_ENG_SRV_STOP : string;
  EVENT_ENG_SRV_START : string;
  EVENT_ENG_URL_CHANGED : string;
}.

Record env := {
  getenv : string -> option string;
  parse_file : config -> option string -> option config;
  parse_level : option string -> Z;
  no_pem : bool;
  daemon_ok : bool;
  answers : nat -> call -> bool;
  delivered : list loop_event;
  names : event_names;
}.

Record world := { app : application; loop : evlp; broken : bool; calls : list call }.

Definition with_app (a : application) (w : world) : world :=
  {| app := a; loop := loop w; broken := broken w; calls := calls w |}.

Definition with_loop (l : evlp) (w : world) : world :=
  {| app := app w; loop := l; broken := broken w; calls := calls w |}.

Definition set_state (s : server_state_t) (a : application) : application :=
  {| odl_config := odl_config a; daemonize := daemonize a; traceLevel := traceLevel a; traceType := traceType a; state := s;
     prefix := prefix a; trustedCA := trustedCA a; ssl_client_priv_key := ssl_client_priv_key a;
     ssl_client_cert := ssl_client_cert a; ssl_certificate := ssl_certificate a; pidFile := pidFile a;
     persistent_rpc_path := persistent_rpc_path a; backend := backend a; uri := uri a; da_path := da_path a; aclfile := aclfile a |}.

Section Daemon.

Context (E : env).

(** A call, and whether it succeeds *)
Definition do (c : call) (w : world) : world * bool :=
  ({| app := app w; loop := loop w; broken := broken w; calls := calls w ++ [c] |}, answers E (length (calls w)) c).

(** A call without a result that is used *)
Definition do_ (c : call) (w : world) : world := (do c w).1.

(** ** Addresses *)

(** [inet_pton] answers 0 for a text that is no address, and this is tested. *)
Definition is_valid_ip (inet_pton : string -> Z) (ip : option string) : bool :=
  match ip with Some ip => negb (inet_pton ip =? 0) | None => false end.

(** [ip_type] *)
Definition ip_type (inet_pton4 inet_pton6 : string -> Z) (ip : option string) : Z :=
  if is_valid_ip inet_pton4 ip then 4 else if is_valid_ip inet_pton6 ip then 6 else -1.

(** [is_ipaddr] *)
Definition is_ipaddr (inet_pton4 inet_pton6 : string -> Z) (ip : option string) : bool :=
  is_valid_ip inet_pton4 ip || is_valid_ip inet_pton6 ip.

(** ** Configuration *)

(** [cwmp_app_configureDefaults] *)
Definition cwmp_app_configureDefaults (a : application) : application :=
  {| odl_config := odl_config a; daemonize := true; traceLevel := 200; traceType := TRACE_TYPE_SYSLOG; state := state a;
     prefix := prefix a; trustedCA := if no_pem E then None else Some "/etc/ca.pem"%string;
     ssl_client_priv_key := if no_pem E then ssl_client_priv_key a else None;
     ssl_client_cert := if no_pem E then ssl_client_cert a else None; ssl_certificate := ssl_certificate a;
     pidFile := match getenv E "CWMPD_PID_FILE" with Some p => Some p | None => Some "/var/run/cwmpd.pid"%string end;
     persistent_rpc_path := Some "/tmp/"%string; backend := backend a; uri := uri a; da_path := da_path a;
     aclfile := aclfile a |}.

(** The options that [getopt_long] finds: [f], [h], [c] with its argument, [D] or
    another one *)
Inductive option_t := Opt_f | Opt_h | Opt_c (optarg : string) | Opt_D | Opt_other.

Definition set_options (c : option string) (t : trace_type) (d : bool) (a : application) : application :=
  {| odl_config := c; daemonize := d; traceLevel := traceLevel a; traceType := t; state := state a;
     prefix := prefix a; trustedCA := trustedCA a; ssl_client_priv_key := ssl_client_priv_key a;
     ssl_client_cert := ssl_client_cert a; ssl_certificate := ssl_certificate a; pidFile := pidFile a;
     persistent_rpc_path := persistent_rpc_path a; backend := backend a; uri := uri a; da_path := da_path a; aclfile := aclfile a |}.

(** [cwmp_app_configureOptions]; [None] is the help, which ends the program. *)
Fixpoint cwmp_app_configureOptions (argv : list option_t) (a : application) : option application :=
  match argv with
  | [] => Some a
  | Opt_f :: l => cwmp_app_configureOptions l (set_options (odl_config a) TRACE_TYPE_STDOUT false a)
  | Opt_h :: _ => None
  | Opt_c c :: l => cwmp_app_configureOptions l (set_options (Some c) (traceType a) (daemonize a) a)
  | Opt_D :: l => cwmp_app_configureOptions l (set_options (odl_config a) TRACE_TYPE_SYSLOG false a)
  | Opt_other :: l => cwmp_app_configureOptions l a
  end.

(** A path of the configuration under [AMXRT_PREFIX_PATH]; [None] is the copy of a
    null string. *)
Definition prefixed (amxrt_prefix path : option string) : option string :=
  match amxrt_prefix with
  | Some (String _ _ as p) => Some (String.append p (default "(null)"%string path))
  | _ => path
  end.

(** [cwmp_app_parse_config]: [None] is the undefined copy, otherwise the result with
    whether the second file could be parsed *)
Definition cwmp_app_parse_config (cfg : config) (a : application) : option (application * bool) :=
  let amxrt_prefix := getenv E "AMXRT_PREFIX_PATH" in
  match prefixed amxrt_prefix (cfg "tr069-service.cwmpd_adapter_path"%string) with
  | None => None
  | Some da =>
      match prefixed amxrt_prefix (cfg "prefix_file"%string) with
      | None => None
      | Some prefix_file =>
          let a :=
            {| odl_config := odl_config a; daemonize := daemonize a; traceLevel := traceLevel a; traceType := traceType a;
               state := state a; prefix := prefix a; trustedCA := cfg "tr069-service.cwmpd_certs_file"%string;
               ssl_client_priv_key := cfg "tr069-service.cwmpd_client_privatekey"%string;
               ssl_client_cert := cfg "tr069-service.cwmpd_client_certs"%string;
               ssl_certificate := cfg "tr069-service.cwmpd_certificate"%string;
               pidFile := cfg "tr069-service.cwmpd_pid_file"%string;
               persistent_rpc_path := cfg "tr069-service.cwmpd_persistent_rpc_path"%string;
               backend := backend a; uri := uri a; da_path := Some da; aclfile := cfg "tr069-service.cwmpd_acl_file"%string |} in
          match parse_file E cfg (Some prefix_file) with
          | None => Some (a, false)
          | Some cfg =>
              Some ({| odl_config := odl_config a; daemonize := daemonize a; traceLevel := traceLevel a; traceType := traceType a;
                       state := state a; prefix := cfg "vendor_prefix"%string; trustedCA := trustedCA a;
                       ssl_client_priv_key := ssl_client_priv_key a; ssl_client_cert := ssl_client_cert a;
                       ssl_certificate := ssl_certificate a; pidFile := pidFile a;
                       persistent_rpc_path := persistent_rpc_path a; backend := cfg "cwmpd_backend"%string;
                       uri := cfg "cwmpd_uri"%string; da_path := da_path a; aclfile := aclfile a |}, true)
          end
      end
  end.

Definition set_level (z : Z) (a : application) : application :=
  {| odl_config := odl_config a; daemonize := daemonize a; traceLevel := z; traceType := traceType a; state := state a;
     prefix := prefix a; trustedCA := trustedCA a; ssl_client_priv_key := ssl_client_priv_key a;
     ssl_client_cert := ssl_client_cert a; ssl_certificate := ssl_certificate a; pidFile := pidFile a;
     persistent_rpc_path := persistent_rpc_path a; backend := backend a; uri := uri a; da_path := da_path a; aclfile := aclfile a |}.

(** How the settings end: the program has shown the help, has copied a null string,
    or goes on with the result *)
Inductive settings := Help | Undefined | Settings (a : application) (ok : bool).

(** [cwmp_app_settings] *)
Definition cwmp_app_settings (argv : list option_t) (a : application) : settings :=
  match cwmp_app_configureOptions argv (cwmp_app_configureDefaults a) with
  | None => Help
  | Some a =>
      match parse_file E (fun _ => None) (odl_config a) with
      | None => Settings a false
      | Some cfg =>
          match cwmp_app_parse_config cfg (set_level (parse_level E (cfg "sahtrace.level"%string)) a) with
          | None => Undefined
          | Some (a, false) => Settings a false
          | Some (a, true) => Settings a (negb (daemonize a) || daemon_ok E)
          end
      end
  end.

(** ** Event loop *)

(** [cwmp_evlp_create] *)
Definition cwmp_evlp_create (w : world) : world * bool :=
  let '(w, ok) := do event_base_new w in
  if ok then
    (with_loop {| main_loop := true; sig_alarm := true; amxp_sig := true; acs_bus_ev := true; sys_bus_ev := true |} w, true)
  else
    (with_loop {| main_loop := false; sig_alarm := sig_alarm (loop w); amxp_sig := amxp_sig (loop w);
                  acs_bus_ev := acs_bus_ev (loop w); sys_bus_ev := sys_bus_ev (loop w) |} w, false).

(** [cwmp_evlp_stop] *)
Definition cwmp_evlp_stop (w : world) : world * bool :=
  if main_loop (loop w) then
    let '(w, ok) := do event_base_loopbreak w in
    ({| app := app w; loop := loop w; broken := broken w || ok; calls := calls w |}, ok)
  else (w, false).

(** [cwmp_evlp_clean] *)
Definition cwmp_evlp_clean (w : world) : world := with_loop no_evlp w.

Definition SIGINT : Z := 2.

Definition SIGTERM : Z := 15.

(** [cwmp_app_handleSignal] *)
Definition cwmp_app_handleSignal (signal : Z) (w : world) : world :=
  if (signal =? SIGINT) || (signal =? SIGTERM) then (cwmp_evlp_stop (with_app (set_state EXIT (app w)) w)).1 else w.

(** ** Events of the engine *)

(** [cwmp_app_http_server_restart] *)
Definition cwmp_app_http_server_restart (w : world) : world * bool := do server_start (do_ server_stop w).

(** [cwmp_app_engineEventHandler]; the signal that it raises is handled at once. *)
Definition cwmp_app_engineEventHandler (eventType : string) (w : world) : world :=
  if streq eventType (EVENT_ENG_SRV_RESTART (names E)) then
    let '(w, ok) := cwmp_app_http_server_restart w in
    if ok then w else cwmp_app_handleSignal SIGTERM w
  else if streq eventType (EVENT_ENG_SRV_STOP (names E)) then do_ server_stop w
  else if streq eventType (EVENT_ENG_SRV_START (names E)) then
    let '(w, ok) := do server_start w in
    if ok then w else cwmp_app_handleSignal SIGTERM w
  else if streq eventType (EVENT_ENG_URL_CHANGED (names E)) then do_ (dns_resolve true) (do_ client_clear_ACSIP w)
  else w.

Definition handle (w : world) (e : loop_event) : world :=
  match e with Signal s => cwmp_app_handleSignal s w | Engine t => cwmp_app_engineEventHandler t w end.

(** The dispatch: events are delivered until the loop is broken. *)
Fixpoint dispatch (l : list loop_event) (w : world) : world :=
  match l with
  | [] => w
  | e :: l => if broken w then w else dispatch l (handle w e)
  end.

(** [cwmp_evlp_start] *)
Definition cwmp_evlp_start (w : world) : world * bool :=
  if main_loop (loop w) then
    let '(w, ok) := do event_base_dispatch w in
    (dispatch (delivered E) w, ok)
  else (w, false).

(** ** Start and end *)

(** [cwmp_app_init_dmengine] *)
Definition cwmp_app_init_dmengine (w : world) : world * bool :=
  let '(w, ok) := do Device_Load w in
  if negb ok then (w, false)
  else
    let '(w, ok) := do DMConnect w in
    if negb ok then (w, false) else cwmp_evlp_create w.

(** [cwmp_app_init_services] *)
Definition cwmp_app_init_services (w : world) : world * bool :=
  let '(w, ok) := do server_start w in
  if negb ok then (w, false)
  else
    let '(w, ok) := do dns_init w in
    if negb ok then (w, false)
    else
      let '(w, ok) := do (dns_resolve false) w in
      if negb ok then (w, false) else do client_init w.

(** [cwmp_app_enable_notifications] *)
Definition cwmp_app_enable_notifications (w : world) : world * bool :=
  let '(w, com) := do COM_INIT w in
  let '(w, started) := cwmp_evlp_start w in
  (w, com && started).

(** [cwmp_app_clean] *)
Definition cwmp_app_clean (w : world) : world * bool :=
  let '(w, client) := do client_stop w in
  let '(w, server) := do server_stop w in
  let '(w, dns) := do dns_clean w in
  let w := cwmp_evlp_clean w in
  (do_ Device_Unload (do_ COM_STOP w), client && server && dns).

(** How the program ends: with an exit code, or undefined *)
Inductive ending := Exit (rc : Z) | Crash.

(** The end of [main] after [error:] *)
Definition finish (w : world) : world * ending :=
  let '(w, ok) := cwmp_app_clean w in
  let w := if ok then w else with_app (set_state ERROR (app w)) w in
  let rc := match state (app w) with ERROR => 1 | _ => 0 end in
  (do_ timer_remove_all w, Exit rc).

(** [main] *)
Definition main (argv : list option_t) (w : world) : world * ending :=
  match cwmp_app_settings argv (app w) with
  | Help => (w, Exit 0)
  | Undefined => (w, Crash)
  | Settings a false => (with_app a w, Exit 1)
  | Settings a true =>
      let '(w, ok) := cwmp_app_init_dmengine (with_app a w) in
      if negb ok then (w, Exit 1)
      else
        let '(w, ok) := cwmp_app_init_services w in
        if negb ok then finish w else finish (cwmp_app_enable_notifications w).1
  end.

(** The program as it is started *)
Definition started : world := {| app := zeroed; loop := no_evlp; broken := false; calls := [] |}.

(** ** Properties *)

(** The calls of a start in order, those that events make, and those of the end *)
Definition startup : list call :=
  [Device_Load; DMConnect; event_base_new; server_start; dns_init; dns_resolve false; client_init; COM_INIT; event_base_dispatch].

Definition opening : list call := [Device_Load; DMConnect; event_base_new].

Definition event_call (c : call) : Prop :=
  c ∈ [server_start; server_stop; client_clear_ACSIP; dns_resolve true; event_base_loopbreak].

Definition cleanup : list call := [client_stop; server_stop; dns_clean; COM_STOP; Device_Unload; timer_remove_all].

(** What the delivery of events can do to the state: it adds calls of events, and
    does not touch the loop's variables or make an error of the state. *)
Record delivers (w w' : world) : Prop := {
  delivers_calls : exists ev, calls w' = calls w ++ ev /\ Forall event_call ev;
  delivers_loop : loop w' = loop w;
  delivers_state : state (app w) <> ERROR -> state (app w') <> ERROR;
}.

Lemma delivers_refl w : delivers w w.
Proof. split; [|done|done]. exists []. by rewrite app_nil_r. Qed.

Lemma delivers_trans w1 w2 w3 : delivers w1 w2 -> delivers w2 w3 -> delivers w1 w3.
Proof.
  intros [(e1 & C1 & F1) L1 S1] [(e2 & C2 & F2) L2 S2]. split; [|congruence|auto].
  exists (e1 ++ e2). rewrite C2, C1, app_assoc. split; [done|]. by apply Forall_app.
Qed.

Lemma delivers_do c w : event_call c -> delivers w (do_ c w).
Proof. intros Hc. split; [|done|done]. exists [c]. split; [done|]. by apply Forall_singleton. Qed.

Lemma event_calls : event_call server_start /\ event_call server_stop /\ event_call client_clear_ACSIP /\
  event_call (dns_resolve true) /\ event_call event_base_loopbreak.
Proof. unfold event_call. rewrite !elem_of_cons. split_and!; auto 10. Qed.

Lemma delivers_signal s w : delivers w (cwmp_app_handleSignal s w).
Proof.
  unfold cwmp_app_handleSignal. destruct (_ || _); [|apply delivers_refl]. unfold cwmp_evlp_stop.
  destruct (main_loop _); cbn [do with_app fst]; (split; [|done|done]).
  - eexists. split; [done|]. apply Forall_singleton, event_calls.
  - exists []. by rewrite app_nil_r.
Qed.

Lemma delivers_engine t w : delivers w (cwmp_app_engineEventHandler t w).
Proof.
  unfold cwmp_app_engineEventHandler. destruct event_calls as (H1 & H2 & H3 & H4 & _).
  destruct (streq t (EVENT_ENG_SRV_RESTART _)); [|destruct (streq t (EVENT_ENG_SRV_STOP _)); [by apply delivers_do|];
    destruct (streq t (EVENT_ENG_SRV_START _)); [|destruct (streq t (EVENT_ENG_URL_CHANGED _)); [|apply delivers_refl]]].
  - unfold cwmp_app_http_server_restart. destruct (do server_start (do_ server_stop w)) as [w1 ok] eqn:Ed.
    assert (Hd : delivers w w1).
    { eapply delivers_trans; [by apply (delivers_do server_stop)|]. injection Ed as <- _. by apply (delivers_do server_start). }
    destruct ok; [done|]. eapply delivers_trans; [exact Hd|apply delivers_signal].
  - destruct (do server_start w) as [w1 ok] eqn:Ed. injection Ed as <- _.
    destruct ok; [by apply (delivers_do server_start)|].
    eapply delivers_trans; [by apply (delivers_do server_start)|apply delivers_signal].
  - eapply delivers_trans; by apply delivers_do.
Qed.

Lemma delivers_all l w : delivers w (dispatch l w).
Proof.
  revert w. induction l as [|e l IH]; intros w; cbn [dispatch]; [apply delivers_refl|].
  destruct (broken w); [apply delivers_refl|]. eapply delivers_trans; [|apply IH].
  destruct e; [apply delivers_signal|apply delivers_engine].
Qed.

(** The state after the engine was set up *)
Record ready (w : world) : Prop := {
  ready_calls : calls w = opening;
  ready_loop : main_loop (loop w) = true;
  ready_state : state (app w) <> ERROR;
}.

(** How far the set-up of the engine gets: the number of the call that fails, or 4 *)
Definition opened : nat :=
  if negb (answers E 0 Device_Load) then 1
  else if negb (answers E 1 DMConnect) then 2
  else if negb (answers E 2 event_base_new) then 3 else 4.

Lemma init_dmengine_cases a :
  state a <> ERROR ->
  let '(w, ok) := cwmp_app_init_dmengine (with_app a started) in
  calls w = take opened opening /\ ok = bool_decide (opened = 4%nat) /\ (ok = true -> ready w).
Proof.
  intros Ha. unfold cwmp_app_init_dmengine, opened. cbn [do calls started with_app length app Datatypes.app].
  destruct (answers E 0 Device_Load); cbn [negb do calls length app Datatypes.app]; [|split; [reflexivity|split; [reflexivity|discriminate]]].
  destruct (answers E 1 DMConnect); cbn [negb do calls length app Datatypes.app]; [|split; [reflexivity|split; [reflexivity|discriminate]]].
  unfold cwmp_evlp_create. cbn [do calls length app Datatypes.app].
  destruct (answers E 2 event_base_new).
  - split; [reflexivity|split; [reflexivity|intros _; by split]].
  - split; [reflexivity|split; [reflexivity|discriminate]].
Qed.

(** What follows the start of the engine, up to the end *)
Definition serve (w : world) : world :=
  let '(w, ok) := cwmp_app_init_services w in if negb ok then w else (cwmp_app_enable_notifications w).1.

Lemma finish_serve w :
  (let '(w, ok) := cwmp_app_init_services w in
   if negb ok then finish w else finish (cwmp_app_enable_notifications w).1) = finish (serve w).
Proof. unfold serve. by destruct (cwmp_app_init_services w) as [w1 []]. Qed.

Lemma serve_calls w :
  ready w -> state (app (serve w)) <> ERROR /\
  exists s ev, calls (serve w) = s ++ ev /\ opening `prefix_of` s /\ s `prefix_of` startup /\ Forall event_call ev /\
    (ev = [] \/ s = startup).
Proof.
  intros [Hc Hl Hs]. unfold serve, cwmp_app_init_services. cbn [do].
  destruct (answers E _ server_start); cbn [negb do calls].
  2: { split; [done|]. rewrite Hc. eexists _, []. rewrite app_nil_r. split_and!; [done|by eexists|by eexists|done|by left]. }
  destruct (answers E _ dns_init); cbn [negb do calls].
  2: { split; [done|]. rewrite Hc. eexists _, []. rewrite app_nil_r. split_and!; [done|by eexists|by eexists|done|by left]. }
  destruct (answers E _ (dns_resolve false)); cbn [negb do calls].
  2: { split; [done|]. rewrite Hc. eexists _, []. rewrite app_nil_r. split_and!; [done|by eexists|by eexists|done|by left]. }
  destruct (answers E _ client_init); cbn [negb do calls].
  2: { split; [done|]. rewrite Hc. eexists _, []. rewrite app_nil_r. split_and!; [done|by eexists|by eexists|done|by left]. }
  unfold cwmp_app_enable_notifications, cwmp_evlp_start. cbn [do loop]. rewrite Hl.
  match goal with |- context [dispatch _ ?x] => destruct (delivers_all (delivered E) x) as [(ev & Hev & Hf) _ Hst] end.
  cbn [fst]. split; [by apply Hst|]. exists startup, ev. rewrite Hev. cbn [calls]. rewrite Hc.
  split_and!; [done|by eexists|done..|by right].
Qed.

Lemma finish_cases w :
  state (app w) <> ERROR ->
  let '(w', e) := finish w in
  calls w' = calls w ++ cleanup /\ loop w' = no_evlp /\
  e = Exit (if answers E (length (calls w)) client_stop && answers E (S (length (calls w))) server_stop &&
               answers E (S (S (length (calls w)))) dns_clean then 0 else 1).
Proof.
  intros Hs. unfold finish, cwmp_app_clean. cbn [do fst snd calls do_ cwmp_evlp_clean with_loop].
  rewrite !length_app. cbn [length].
  replace (length (calls w) + 1 + 1)%nat with (S (S (length (calls w)))) by lia.
  replace (length (calls w) + 1)%nat with (S (length (calls w))) by lia.
  destruct (_ && _); cbn [do_ do fst calls loop with_app app set_state state].
  - split_and!; [by rewrite <- !app_assoc|done|].
    cbn [cwmp_evlp_clean with_loop app]. by destruct (state (app w)).
  - split_and!; [by rewrite <- !app_assoc|done|done].
Qed.

Lemma settings_state argv a a' ok : cwmp_app_settings argv a = Settings a' ok -> state a' = state a.
Proof.
  assert (Ho : forall argv a a', cwmp_app_configureOptions argv a = Some a' -> state a' = state a).
  { intros l. induction l as [|[] l IH]; intros b b' H; cbn in H; try done; try (by injection H as ->); by apply IH in H. }
  unfold cwmp_app_settings. destruct (cwmp_app_configureOptions _ _) as [b|] eqn:Eo; [|done]. apply Ho in Eo.
  destruct (parse_file E _ _) as [cfg|]; [|by intros [= <- _]].
  unfold cwmp_app_parse_config. destruct (prefixed _ _); [|done]. destruct (prefixed _ _); [|done].
  by destruct (parse_file E cfg _); intros [= <- _].
Qed.

(** C23: how the daemon ends.  With settings it accepts, it loads the adapter,
    connects and makes the event loop.  If all three succeed it always cleans up:
    whatever fails afterwards and whatever events are delivered, its calls are these
    three and a further part of the start in its order, then those of events if the
    start was complete, then the whole clean-up in its order, and the event loop is
    freed.  If one of the three fails, it exits with 1 right after it, and undoes
    nothing: neither the adapter that was loaded nor the connection.  With other
    settings it does none of these calls. *)
Theorem main_cleans_up (argv : list option_t) :
  let '(w, e) := main argv started in
  match cwmp_app_settings argv zeroed with
  | Settings _ true =>
      if answers E 0 Device_Load && answers E 1 DMConnect && answers E 2 event_base_new then
        loop w = no_evlp /\
        exists s ev, calls w = s ++ ev ++ cleanup /\ opening `prefix_of` s /\ s `prefix_of` startup /\
          Forall event_call ev /\ (ev = [] \/ s = startup)
      else
        e = Exit 1 /\
        calls w = if negb (answers E 0 Device_Load) then [Device_Load]
                  else if negb (answers E 1 DMConnect) then [Device_Load; DMConnect] else opening
  | _ => calls w = []
  end.
Proof.
  unfold main. cbn [app started]. destruct (cwmp_app_settings argv zeroed) as [| |a [|]] eqn:Es; [done..| |done].
  assert (Ha : state a <> ERROR) by (by rewrite (settings_state _ _ _ _ Es)).
  pose proof (init_dmengine_cases a Ha) as Hi. destruct (cwmp_app_init_dmengine _) as [w ok].
  destruct Hi as (Hp & -> & Hr). revert Hp Hr. unfold opened.
  destruct (answers E 0 Device_Load), (answers E 1 DMConnect), (answers E 2 event_base_new);
    cbn [negb andb]; intros Hp Hr; try done.
  destruct (serve_calls w (Hr eq_refl)) as (Hst & s & ev & Hc & H). pose proof (finish_cases (serve w) Hst) as Hf.
  rewrite bool_decide_eq_true_2 by done. cbn [negb]. rewrite finish_serve.
  destruct (finish (serve w)) as [w' e]. destruct Hf as (Hc' & Hl & _). split; [done|].
  exists s, ev. by rewrite Hc', Hc, app_assoc.
Qed.

(** The exit code tells how the end went and not the start: a daemon that has
    connected its engine exits with 0 exactly if its client and server stop and the
    resolver is cleaned, also when one of its services could not be started at all;
    it exits with 1 when the settings or the connection fail. *)
Theorem main_exit_code (argv : list option_t) (a : application)
    (Hset : cwmp_app_settings argv zeroed = Settings a true) :
  let '(w, ok) := cwmp_app_init_dmengine (with_app a started) in
  (ok = false -> (main argv started).2 = Exit 1) /\
  (ok = true ->
   let n := length (calls (serve w)) in
   (main argv started).2 =
     Exit (if answers E n client_stop && answers E (S n) server_stop && answers E (S (S n)) dns_clean then 0 else 1)).
Proof.
  assert (Ha : state a <> ERROR) by (by rewrite (settings_state _ _ _ _ Hset)).
  pose proof (init_dmengine_cases a Ha) as Hi. unfold main. cbn [app started]. rewrite Hset.
  destruct (cwmp_app_init_dmengine _) as [w ok]. destruct Hi as (_ & _ & Hr). destruct ok; cbn [negb]; [|by split].
  split; [done|]. intros _. destruct (serve_calls w (Hr eq_refl)) as (Hst & _).
  pose proof (finish_cases (serve w) Hst) as Hf.
  rewrite finish_serve. destruct (finish (serve w)) as [w' e]. apply Hf.
Qed.

(** When the engine asks for the server, the server runs or the daemon ends:
    after a start or a restart the last call is a start that succeeded, with nothing
    else changed, or the state is [EXIT] and the loop is told to break. *)
Theorem server_runs_or_exit (t : string) (w : world)
    (Hn : NoDup [EVENT_ENG_SRV_RESTART (names E); EVENT_ENG_SRV_STOP (names E); EVENT_ENG_SRV_START (names E)])
    (Ht : t = EVENT_ENG_SRV_RESTART (names E) \/ t = EVENT_ENG_SRV_START (names E)) (Hl : main_loop (loop w) = true) :
  let w' := cwmp_app_engineEventHandler t w in
  exists pre, calls w' = pre ++ [server_start] /\ answers E (length pre) server_start = true /\ app w' = app w /\ broken w' = broken w \/
  calls w' = pre ++ [server_start; event_base_loopbreak] /\ answers E (length pre) server_start = false /\
    state (app w') = EXIT /\ broken w' = broken w || answers E (S (length pre)) event_base_loopbreak.
Proof.
  assert (H : forall w0, main_loop (loop w0) = true ->
    let w' := if answers E (length (calls w0)) server_start then do_ server_start w0
              else cwmp_app_handleSignal SIGTERM (do_ server_start w0) in
    exists pre, calls w' = pre ++ [server_start] /\ answers E (length pre) server_start = true /\ app w' = app w0 /\ broken w' = broken w0 \/
    calls w' = pre ++ [server_start; event_base_loopbreak] /\ answers E (length pre) server_start = false /\
      state (app w') = EXIT /\ broken w' = broken w0 || answers E (S (length pre)) event_base_loopbreak).
  { intros w0 Hl0. exists (calls w0). destruct (answers E (length (calls w0)) server_start) eqn:Ea; [by left|right].
    unfold cwmp_app_handleSignal, cwmp_evlp_stop, SIGTERM, SIGINT. cbn [Z.eqb Pos.eqb orb with_app loop do_ do fst].
    rewrite Hl0. cbn [calls app broken with_app set_state state do fst]. rewrite length_app. cbn [length].
    rewrite <- app_assoc, Nat.add_1_r. by split_and!. }
  unfold cwmp_app_engineEventHandler. destruct Ht as [-> | ->].
  - specialize (H (do_ server_stop w) Hl). destruct H as [pre H]. exists pre.
    rewrite streq_refl. unfold cwmp_app_http_server_restart, do_ in *. cbn [do fst] in *. exact H.
  - apply NoDup_cons in Hn as [Hr Hn]. apply NoDup_cons in Hn as [Hs _].
    assert (streq (EVENT_ENG_SRV_START (names E)) (EVENT_ENG_SRV_RESTART (names E)) = false) as -> by (apply streq_false; set_solver).
    assert (streq (EVENT_ENG_SRV_START (names E)) (EVENT_ENG_SRV_STOP (names E)) = false) as -> by (apply streq_false; set_solver).
    rewrite streq_refl. specialize (H w Hl). destruct H as [pre H]. exists pre. exact H.
Qed.

End Daemon.

(** ** Witnesses *)

(** A configuration with a path for the adapter, and an HTTP server that cannot be
    started *)
Definition ex_config : config := fun k =>
  if streq k "prefix_file" then Some "/etc/prefix.odl"%string
  else if streq k "tr069-service.cwmpd_adapter_path" then Some "/usr/lib/da.so"%string else None.

Definition ex_names : event_names :=
  {| EVENT_ENG_SRV_RESTART := "restart"; EVENT_ENG_SRV_STOP := "stop"; EVENT_ENG_SRV_START := "start";
     EVENT_ENG_URL_CHANGED := "url" |}.

Definition ex_env : env :=
  {| getenv := fun _ => None; parse_file := fun cfg p => Some ex_config; parse_level := fun _ => 200; no_pem := false;
     daemon_ok := true; answers := fun _ c => match c with server_start => false | _ => true end; delivered := []; names := ex_names |}.

Definition ex_app : application :=
  match cwmp_app_settings ex_env [Opt_c "/etc/cwmpd.odl"%string] zeroed with Settings a _ => a | _ => zeroed end.

Lemma main_exit_code_witness : (main ex_env [Opt_c "/etc/cwmpd.odl"%string] started).2 = Exit 0.
Proof.
  assert (H := main_exit_code ex_env [Opt_c "/etc/cwmpd.odl"%string] ex_app ltac:(reflexivity)).
  destruct H as [_ H]. etransitivity; [apply H; reflexivity|vm_compute; reflexivity].
Defined.

Lemma server_runs_or_exit_witness :
  exists pre, calls (cwmp_app_engineEventHandler ex_env "start"
    (with_loop {| main_loop := true; sig_alarm := true; amxp_sig := true; acs_bus_ev := true; sys_bus_ev := true |} started)) =
    pre ++ [server_start; event_base_loopbreak].
Proof.
  destruct (server_runs_or_exit ex_env "start"
    (with_loop {| main_loop := true; sig_alarm := true; amxp_sig := true; acs_bus_ev := true; sys_bus_ev := true |} started)
    ltac:(apply (bool_decide_unpack _); vm_compute; exact I) (or_intror eq_refl) eq_refl) as [pre [(_ & H & _)|(H & _)]]; [discriminate H|by exists pre].
Defined.

(** The defaults do not survive a configuration without the keys. *)
Example ex_defaults_lost :
  persistent_rpc_path (cwmp_app_configureDefaults ex_env zeroed) = Some "/tmp/"%string /\
  persistent_rpc_path ex_app = None /\ trustedCA ex_app = None /\ pidFile ex_app = None.
Proof. repeat split. Qed.

End DaemonMain.
