(* ===== verification/UrlChange.v ===== *)
(** * UrlChange: a change of the URL of the ACS, from the bus to the client
    ([DM_AmxSystemConnection.c], [cwmp_app_engineEventHandler] of [cwmpd_main.c],
    [cwmpd_dns.c] and [cwmpd_client.c])

    The adapter hears of a change of [ManagementServer] on the bus
    ([SystemConnection]) and raises events of the engine, the daemon handles them
    ([DaemonMain]) by calls of its parts, among them the resolver and the client
    ([AcsAddress]).  The engine between them hands each event to the handler that
    the daemon has registered.  This file composes the three and shows what a
    notification comes to at the resolver and the client. *)

From Stdlib Require Import ZArith Lia Ascii.
From stdpp Require Import base list strings.
From S2P Require Import Prelude CString CookieJar Dns Client SystemParameters SystemConnection SystemConnectionExamples DaemonMain AcsAddress.

Module UrlChange.
Import CString CookieJar.

Section UrlChange.

Context {L : SystemConnection.system_library}.
Context (E : DaemonMain.env).
(** The libraries, as in [AcsAddress] *)
Context {J : Type} `{!CookieStore J}.
Context {sockaddr in_addr : Type}.
Context (sin_addr sin6_addr : sockaddr -> in_addr).
Context (inet_ntop : Z -> sockaddr -> option string).
Context (ares_inet_ntop : Z -> option in_addr -> option string).
Context (lws_parse_uri : string -> option (string * string * Z * option string)).
Context (is_ipaddr : string -> bool).

Notation address_world := (AcsAddress.world (J := J)).
Notation resolve_env := (Dns.resolve_env (sockaddr := sockaddr)).
Notation dns_resolve :=
  (Dns.cwmp_dns_resolve sin_addr sin6_addr inet_ntop ares_inet_ntop (AcsAddress.host_of lws_parse_uri) is_ipaddr).
Notation acs_url_changed :=
  (AcsAddress.acs_url_changed sin_addr sin6_addr inet_ntop ares_inet_ntop lws_parse_uri is_ipaddr).

(** ** The events of the engine *)

(** The event that a call of the adapter raises *)
Definition event_of (c : SystemConnection.engine_call) : option string :=
  match c with
  | SystemConnection.EVENT_ENG_SRV_RESTART => Some (DaemonMain.EVENT_ENG_SRV_RESTART (DaemonMain.names E))
  | SystemConnection.EVENT_ENG_SRV_START => Some (DaemonMain.EVENT_ENG_SRV_START (DaemonMain.names E))
  | SystemConnection.EVENT_ENG_SRV_STOP => Some (DaemonMain.EVENT_ENG_SRV_STOP (DaemonMain.names E))
  | SystemConnection.EVENT_ENG_URL_CHANGED => Some (DaemonMain.EVENT_ENG_URL_CHANGED (DaemonMain.names E))
  | _ => None
  end.

Definition deliver (d : DaemonMain.world) (c : SystemConnection.engine_call) : DaemonMain.world :=
  match event_of c with Some t => DaemonMain.cwmp_app_engineEventHandler E t d | None => d end.

(** A call of the daemon at its resolver and its client; [env] is what the
    resolver reads. *)
Definition perform (env : resolve_env) (w : address_world) (c : DaemonMain.call) : address_world :=
  match c with
  | DaemonMain.client_clear_ACSIP => AcsAddress.with_client (Client.cwmp_client_clear_ACSIP (AcsAddress.client w)) w
  | DaemonMain.dns_resolve url_changed =>
      {| AcsAddress.url := AcsAddress.url w;
         AcsAddress.changed := if url_changed then false else AcsAddress.changed w;
         AcsAddress.loaded := AcsAddress.loaded w;
         AcsAddress.dns := (dns_resolve url_changed (AcsAddress.read_url w env) (AcsAddress.dns w)).1;
         AcsAddress.client := AcsAddress.client w |}
  | _ => w
  end.

(** ** The system *)

Record system := {
  conn : SystemConnection.state;
  daemon : DaemonMain.world;
  address : address_world;
}.

(** A notification of the bus *)
Definition notify (a : SystemConnection.answers) (path : option string) (data : option SystemConnection.notification)
    (env : resolve_env) (s : system) : option system :=
  match SystemConnection.DM_ENG_Device_SystemConnectionHandleParameterChanged a path data (conn s) with
  | None => None
  | Some c =>
      let d := foldl deliver (daemon s) (drop (length (SystemConnection.calls (conn s))) (SystemConnection.calls c)) in
      Some {| conn := c; daemon := d;
              address := foldl (perform env) (address s)
                (drop (length (DaemonMain.calls (daemon s))) (DaemonMain.calls d)) |}
  end.

(** The changes of the URL in a notification, and the events that tell of one *)
Definition url_changes (l : list (string * option SystemConnection.variant)) : nat :=
  length (List.filter (fun x => streq "URL" x.1) l).

Definition url_events (cs : list SystemConnection.engine_call) : nat :=
  length (List.filter
    (fun c => match c with SystemConnection.EVENT_ENG_URL_CHANGED => true | _ => false end) cs).

(** ** Lemmas on the adapter *)

Lemma url_events_app cs1 cs2 : url_events (cs1 ++ cs2) = (url_events cs1 + url_events cs2)%nat.
Proof. unfold url_events. by rewrite List.filter_app, length_app. Qed.

(** The calls between two states of the connection, and how many tell of a
    change of the URL *)
Definition raises (n : nat) (w w' : SystemConnection.state) : Prop :=
  exists cs, SystemConnection.calls w' = SystemConnection.calls w ++ cs /\ url_events cs = n.

Lemma raises_none w w' : SystemConnection.calls w' = SystemConnection.calls w -> raises 0 w w'.
Proof. intros H. exists []. by rewrite H, app_nil_r. Qed.

Lemma raises_call n cs w : url_events cs = n -> raises n w (SystemConnection.call cs w).
Proof. by exists cs. Qed.

Lemma raises_trans n m w1 w2 w3 : raises n w1 w2 -> raises m w2 w3 -> raises (n + m) w1 w3.
Proof.
  intros (c1 & E1 & H1) (c2 & E2 & H2). exists (c1 ++ c2). by rewrite E2, E1, app_assoc, url_events_app, H1, H2.
Qed.

Lemma handle_parameter_raises a o key to w w' :
  SystemConnection.handle_parameter a o key to w = Some w' -> raises (url_changes [(key, to)]) w w'.
Proof.
  unfold SystemConnection.handle_parameter, url_changes. cbn [List.filter fst]. intros H.
  destruct (streq "URL" key) eqn:Eu.
  - apply streq_true in Eu as <-. injection H as <-. by apply raises_call.
  - cbn [length]. repeat match type of H with
      | (if ?b then _ else _) = _ => destruct b
      | match ?b with Some _ => _ | None => _ end = _ => destruct b; [|done]
      end; injection H as <-; try (by apply raises_none); try (by apply raises_call).
    + apply raises_call. destruct to as [v|]; [by destruct (SystemConnection.bool_of v)|done].
    + destruct (SystemConnection.new_ok a); [|by apply raises_call]. by eapply (raises_trans 0 0); apply raises_call.
Qed.

Lemma handle_all_raises a o l w w' :
  SystemConnection.handle_all a o l w = Some w' -> raises (url_changes l) w w'.
Proof.
  revert w. induction l as [|[key to] l IH]; intros w; cbn [SystemConnection.handle_all].
  - intros [= <-]. by apply raises_none.
  - destruct (SystemConnection.handle_parameter a o key to w) as [w1|] eqn:E1; [|done]. simpl. intros H.
    pose proof (raises_trans _ _ _ _ _ (handle_parameter_raises _ _ _ _ _ _ E1) (IH _ H)) as Hr.
    unfold url_changes in *. cbn [List.filter fst] in *. by destruct (streq "URL" key).
Qed.

Lemma notification_raises a data w w' :
  SystemConnection.DM_ENG_Device_SystemConnectionHandleParameterChanged a (Some SystemParameters.MANAGEMENTSERVER_PATH) (Some data) w = Some w' ->
  raises (url_changes (SystemConnection.parameters data)) w w'.
Proof.
  unfold SystemConnection.DM_ENG_Device_SystemConnectionHandleParameterChanged, SystemConnection.handle_management_server.
  rewrite streq_refl. intros H%handle_all_raises.
  apply (raises_trans 0 _ w _ _) in H; [done|]. destruct (SystemConnection.objpath data) as [o|]; [|by apply raises_none].
  destruct (streq o _); [by apply raises_call|by apply raises_none].
Qed.

(** ** Lemmas on the daemon *)

Definition distinct_names : Prop :=
  let n := DaemonMain.names E in
  DaemonMain.EVENT_ENG_URL_CHANGED n <> DaemonMain.EVENT_ENG_SRV_RESTART n /\
  DaemonMain.EVENT_ENG_URL_CHANGED n <> DaemonMain.EVENT_ENG_SRV_STOP n /\
  DaemonMain.EVENT_ENG_URL_CHANGED n <> DaemonMain.EVENT_ENG_SRV_START n.

(** What the calls between two states of the daemon come to *)
Definition comes_to (env : resolve_env) (n : nat) (d d' : DaemonMain.world) : Prop :=
  exists cs, DaemonMain.calls d' = Datatypes.app (DaemonMain.calls d) cs /\
    forall w, foldl (perform env) w cs = Nat.iter n (acs_url_changed env) w.

Lemma comes_refl env d : comes_to env 0 d d.
Proof. exists []. by rewrite app_nil_r. Qed.

Lemma comes_trans env n m d1 d2 d3 : comes_to env n d1 d2 -> comes_to env m d2 d3 -> comes_to env (n + m) d1 d3.
Proof.
  intros (c1 & E1 & H1) (c2 & E2 & H2). exists (Datatypes.app c1 c2). rewrite E2, E1, app_assoc. split; [done|].
  intros w. rewrite foldl_app, H1, H2, Nat.add_comm. by rewrite Nat.iter_add.
Qed.

Lemma comes_quiet env c d :
  (forall w, perform env w c = w) -> comes_to env 0 d (DaemonMain.do_ E c d).
Proof. intros H. exists [c]. split; [done|]. intros w. apply H. Qed.

Lemma comes_signal env s d : comes_to env 0 d (DaemonMain.cwmp_app_handleSignal E s d).
Proof.
  unfold DaemonMain.cwmp_app_handleSignal. destruct (_ || _); [|apply comes_refl].
  unfold DaemonMain.cwmp_evlp_stop. destruct (DaemonMain.main_loop _); [|exists []; by rewrite app_nil_r].
  by exists [DaemonMain.event_base_loopbreak].
Qed.

Lemma comes_engine env t d :
  distinct_names ->
  comes_to env (if streq t (DaemonMain.EVENT_ENG_URL_CHANGED (DaemonMain.names E)) then 1 else 0) d
    (DaemonMain.cwmp_app_engineEventHandler E t d).
Proof.
  intros (H1 & H2 & H3). unfold DaemonMain.cwmp_app_engineEventHandler.
  destruct (streq t (DaemonMain.EVENT_ENG_URL_CHANGED _)) eqn:Eu.
  - apply streq_true in Eu as ->. rewrite (proj2 (streq_false _ _) H1), (proj2 (streq_false _ _) H2), (proj2 (streq_false _ _) H3).
    exists [DaemonMain.client_clear_ACSIP; DaemonMain.dns_resolve true]. split; [|done].
    cbn [DaemonMain.do_ DaemonMain.do fst DaemonMain.calls]. by rewrite <- app_assoc.
  - assert (Hd : forall c d, (forall w, perform env w c = w) ->
      comes_to env 0 d (if (DaemonMain.do E c d).2 then (DaemonMain.do E c d).1
        else DaemonMain.cwmp_app_handleSignal E DaemonMain.SIGTERM (DaemonMain.do E c d).1)).
    { intros c d1 Hc. pose proof (comes_quiet env c d1 Hc) as Hq. destruct (DaemonMain.do E c d1).2; [done|].
      apply (comes_trans env 0 0 _ _ _ Hq), comes_signal. }
    destruct (streq t (DaemonMain.EVENT_ENG_SRV_RESTART _));
      [|destruct (streq t (DaemonMain.EVENT_ENG_SRV_STOP _)); [by apply comes_quiet|];
        destruct (streq t (DaemonMain.EVENT_ENG_SRV_START _)); [by apply (Hd DaemonMain.server_start)|apply comes_refl]].
    apply (comes_trans env 0 0 _ (DaemonMain.do_ E DaemonMain.server_stop d)); [by apply comes_quiet|].
    by apply (Hd DaemonMain.server_start).
Qed.

Lemma comes_events env cs d : distinct_names -> comes_to env (url_events cs) d (foldl deliver d cs).
Proof.
  intros Hn. revert d. induction cs as [|c cs IH]; intros d; [apply comes_refl|]. cbn [foldl].
  assert (Hc : comes_to env (url_events [c]) d (deliver d c)); [|change (c :: cs) with ([c] ++ cs); rewrite url_events_app; exact (comes_trans env _ _ _ _ _ Hc (IH _))].
  unfold deliver. pose proof (fun t => comes_engine env t d Hn) as Hd. destruct Hn as (H1 & H2 & H3).
  destruct c; cbn [event_of]; try apply comes_refl.
  - specialize (Hd (DaemonMain.EVENT_ENG_SRV_RESTART (DaemonMain.names E))).
    by rewrite (proj2 (streq_false _ _) (not_eq_sym H1)) in Hd.
  - specialize (Hd (DaemonMain.EVENT_ENG_SRV_START (DaemonMain.names E))).
    by rewrite (proj2 (streq_false _ _) (not_eq_sym H3)) in Hd.
  - specialize (Hd (DaemonMain.EVENT_ENG_SRV_STOP (DaemonMain.names E))).
    by rewrite (proj2 (streq_false _ _) (not_eq_sym H2)) in Hd.
  - specialize (Hd (DaemonMain.EVENT_ENG_URL_CHANGED (DaemonMain.names E))). by rewrite streq_refl in Hd.
Qed.

(** ** Properties *)

(** C12: refinement.  Whatever parameters of [ManagementServer] a notification
    says have changed, and in whatever order, it comes for the resolver and the
    client to one handled change of the URL, as [AcsAddress] has it, for each time
    that it names the URL, and to nothing else: the other parameters touch
    neither, and a server that does not restart, which ends the daemon, does not
    keep the change from them. *)
Theorem notification_changes_url (a : SystemConnection.answers) (data : SystemConnection.notification)
    (env : resolve_env) (s s' : system) :
  distinct_names -> notify a (Some SystemParameters.MANAGEMENTSERVER_PATH) (Some data) env s = Some s' ->
  address s' = Nat.iter (url_changes (SystemConnection.parameters data)) (acs_url_changed env) (address s).
Proof.
  intros Hn. unfold notify.
  destruct (SystemConnection.DM_ENG_Device_SystemConnectionHandleParameterChanged _ _ _ _) as [c|] eqn:Ec; [|done].
  apply notification_raises in Ec as (cs & E1 & E2). intros [= <-]. cbn [address]. rewrite E1, drop_app_length.
  destruct (comes_events env cs (daemon s) Hn) as (ds & E3 & H). rewrite E3, drop_app_length, H. by rewrite E2.
Qed.

End UrlChange.

(** ** Witness *)

#[local] Existing Instance SystemConnectionExamples.ex_library.

(** A notification with the URL among other parameters, at a daemon whose server
    cannot be started *)
Definition ex_data : SystemConnection.notification :=
  {| SystemConnection.objpath := Some "Device.ManagementServer."%string;
     SystemConnection.parameters := [("EnableCWMP", Some "true"); ("URL", Some "acs.example"); ("BlockedEvents", None)]%string |}.

Definition ex_system : system (J := cookie_jar_t) :=
  {| conn := SystemConnectionExamples.ex_state;
     daemon := DaemonMain.with_loop {| DaemonMain.main_loop := true; DaemonMain.sig_alarm := true; DaemonMain.amxp_sig := true;
       DaemonMain.acs_bus_ev := true; DaemonMain.sys_bus_ev := true |} DaemonMain.started;
     address := AcsAddress.ex_old |}.

Notation ex_notify := (notify DaemonMain.ex_env id id Dns.ex_ntop Dns.ex_ares_ntop AcsAddress.ex_parse Dns.ex_is_ip
  SystemConnectionExamples.ex_answers (Some SystemParameters.MANAGEMENTSERVER_PATH) (Some ex_data) (Dns.ex_env "")).

Definition ex_notified : system := default ex_system (ex_notify ex_system).

Lemma notification_changes_url_witness :
  DaemonMain.broken (daemon ex_notified) = true /\ AcsAddress.changed (address ex_notified) = false /\
  AcsAddress.changed (address ex_system) = true.
Proof.
  split; [vm_compute; reflexivity|]. split; [|vm_compute; reflexivity].
  rewrite (notification_changes_url DaemonMain.ex_env id id Dns.ex_ntop Dns.ex_ares_ntop AcsAddress.ex_parse Dns.ex_is_ip
    SystemConnectionExamples.ex_answers ex_data (Dns.ex_env "") ex_system ex_notified).
  - vm_compute. reflexivity.
  - split; [discriminate|split; discriminate].
  - vm_compute. reflexivity.
Defined.

End UrlChange.
