(* ===== verification/ClientTls.v ===== *)
(** * ClientTls: certificates and TLS context of the HTTP client
    ([cwmpd_client.c] from [cwmp_prepare_ssl_data] to [cwmp_client_stop], and
    [cwmpd_get_certificate_uri.c])

    When the daemon starts its client it takes the certificate, the key and the
    trusted authority from the configuration or asks the bus for them, loads a
    key of a PKCS#11 token through an engine, and creates the context of the
    HTTP library.  The configuration is that of [DaemonMain]; OpenSSL, the HTTP
    library and the bus are asked through a log of calls with their results. *)

From Stdlib Require Import ZArith Lia Ascii.
From stdpp Require Import base list strings.
From S2P Require Import Prelude DaemonMain.

Module ClientTls.
Import DaemonMain.

(** ** State *)

(** [ssl_client_cert], [ssl_client_key] and [ssl_ca_cert] *)
Record identity := { client_cert : option string; client_key : option string; ca_cert : option string }.

(** What [lws_client_ctx_info] says of TLS: a context or three files *)
Inductive tls_info := Provided_ctx | Files (i : identity).

Inductive tls_call :=
| access (file : option string)
| ENGINE_by_id
| ENGINE_init
| SSL_CTX_use_certificate_file (file : option string)
| SSL_CTX_load_verify_locations (file : option string)
| ENGINE_load_private_key (key : option string)
| SSL_CTX_use_PrivateKey
| SSL_CTX_check_private_key
| EVP_PKEY_free
| ENGINE_finish
| ENGINE_free
| SSL_CTX_new
| lws_create_context (i : tls_info)
| lws_context_destroy.

(** [lws_client_ctx]: the pointer is kept when the context is destroyed. *)
Inductive context_state := No_context | Context | Destroyed.

Record tls := { ident : identity; context : context_state; log : list (tls_call * bool) }.

Definition no_identity : identity := {| client_cert := None; client_key := None; ca_cert := None |}.

Definition tls_started : tls := {| ident := no_identity; context := No_context; log := [] |}.

Section Tls.

(** The answer of the object of a certificate to [GetCertificateURI] *)
Context (GetCertificateURI : string -> Z * (option string * option string)).
(** Whether a call succeeds, given the calls before *)
Context (succeeds : list (tls_call * bool) -> tls_call -> bool).

Definition ask (c : tls_call) (w : tls) : tls * bool :=
  let ok := succeeds (log w) c in
  ({| ident := ident w; context := context w; log := log w ++ [(c, ok)] |}, ok).

Definition ask_ (c : tls_call) (w : tls) : tls := (ask c w).1.

(** ** Certificates *)

(** [cwmp_get_certificate_uri] from two null pointers: its result is not used *)
Definition cwmp_get_certificate_uri (fullpath : string) : option string * option string :=
  match GetCertificateURI fullpath with
  | (0, (cert, key)) => (cert, key)
  | _ => (None, None)
  end.

(** The prefix [file://] is cut off in place. *)
Definition without_file_prefix (uri : string) : string :=
  if String.prefix "file://" uri then String.substring 7 (String.length uri - 7) uri else uri.

(** What [cwmp_prepare_ssl_data] stores; [None] is the copy of a null string. *)
Definition identity_of (app_conf : application) : option identity :=
  match
    match ssl_certificate app_conf with
    | Some (String _ _ as path) =>
        let '(cert, key) := cwmp_get_certificate_uri path in
        Some (without_file_prefix <$> cert, without_file_prefix <$> key)
    | _ =>
        match ssl_client_cert app_conf, ssl_client_priv_key app_conf with
        | Some cert, Some key => Some (Some cert, Some key)
        | _, _ => None
        end
    end, trustedCA app_conf
  with
  | Some (cert, key), Some ca => Some {| client_cert := cert; client_key := key; ca_cert := Some ca |}
  | _, _ => None
  end.

(** [cwmp_prepare_ssl_data] *)
Definition cwmp_prepare_ssl_data (app_conf : application) (w : tls) : option tls :=
  (fun i => {| ident := i; context := context w; log := log w |}) <$> identity_of app_conf.

(** ** Key of a token *)

(** The end of [cwmp_client_ssl_ctx] once the engine is known *)
Definition ssl_ctx_cleanup (pkey : bool) (w : tls) : tls :=
  ask_ ENGINE_free (ask_ ENGINE_finish (if pkey then ask_ EVP_PKEY_free w else w)).

(** [cwmp_client_ssl_ctx]: [ctx] says that the context is not null; [None] is the
    use of a null context or of a null name of a file. *)
Definition cwmp_client_ssl_ctx (ctx : bool) (w : tls) : option (tls * bool) :=
  let '(w, engine) := ask ENGINE_by_id w in
  if negb engine then Some (w, false)
  else
    let '(w, ok) := ask ENGINE_init w in
    if negb ok then Some (ssl_ctx_cleanup false w, false)
    else if negb ctx || is_null (client_cert (ident w)) then None
    else
      let '(w, ok) := ask (SSL_CTX_use_certificate_file (client_cert (ident w))) w in
      if negb ok then Some (ssl_ctx_cleanup false w, false)
      else
        let '(w, ok) := ask (SSL_CTX_load_verify_locations (ca_cert (ident w))) w in
        if negb ok then Some (ssl_ctx_cleanup false w, false)
        else
          let '(w, pkey) := ask (ENGINE_load_private_key (client_key (ident w))) w in
          if negb pkey then Some (ssl_ctx_cleanup false w, false)
          else
            let '(w, ok) := ask SSL_CTX_use_PrivateKey w in
            if negb ok then Some (ssl_ctx_cleanup true w, false)
            else
              let '(w, ok) := ask SSL_CTX_check_private_key w in
              Some (ssl_ctx_cleanup true w, ok).

(** ** Start and stop *)

Definition is_pkcs11 (key : option string) : bool :=
  match key with Some key => String.prefix "pkcs11:" key | None => false end.

(** The end of [cwmp_client_init] *)
Definition create_context (i : tls_info) (w : tls) : tls * bool :=
  let '(w, ok) := ask (lws_create_context i) w in
  ({| ident := ident w; context := if ok then Context else No_context; log := log w |}, ok).

(** [cwmp_client_init]; [None] is undefined.  [access] is called for the three
    files, and its result only causes a warning. *)
Definition cwmp_client_init (app_conf : application) (w : tls) : option (tls * bool) :=
  match cwmp_prepare_ssl_data app_conf w with
  | None => None
  | Some w =>
      if is_pkcs11 (client_key (ident w)) then
        let '(w, ctx) := ask SSL_CTX_new w in
        match cwmp_client_ssl_ctx ctx w with
        | None => None
        | Some (w, false) => Some (w, false)
        | Some (w, true) => Some (create_context Provided_ctx w)
        end
      else if is_null (client_cert (ident w)) || is_null (client_key (ident w)) then None
      else
        let w := ask_ (access (client_cert (ident w))) w in
        let w := ask_ (access (client_key (ident w))) w in
        let w := ask_ (access (ca_cert (ident w))) w in
        Some (create_context (Files (ident w)) w)
  end.

(** [cwmp_client_stop], without the session that it closes (see [Client]) *)
Definition cwmp_client_stop (w : tls) : tls :=
  let w := ask_ lws_context_destroy w in
  {| ident := no_identity; context := match context w with No_context => No_context | _ => Destroyed end; log := log w |}.

(** ** References held *)

(** The successful calls of a kind *)
Definition acquired (f : tls_call -> bool) (l : list (tls_call * bool)) : Z :=
  Z.of_nat (length (List.filter (fun x => f x.1 && x.2) l)).

(** All calls of a kind *)
Definition released (f : tls_call -> bool) (l : list (tls_call * bool)) : Z :=
  Z.of_nat (length (List.filter (fun x => f x.1) l)).

Definition engine_refs (l : list (tls_call * bool)) : Z :=
  acquired (fun c => match c with ENGINE_by_id => true | _ => false end) l -
  released (fun c => match c with ENGINE_free => true | _ => false end) l.

(** Functional references, which [ENGINE_init] gives and [ENGINE_finish] takes *)
Definition engine_functional (l : list (tls_call * bool)) : Z :=
  acquired (fun c => match c with ENGINE_init => true | _ => false end) l -
  released (fun c => match c with ENGINE_finish => true | _ => false end) l.

Definition key_refs (l : list (tls_call * bool)) : Z :=
  acquired (fun c => match c with ENGINE_load_private_key _ => true | _ => false end) l -
  released (fun c => match c with EVP_PKEY_free => true | _ => false end) l.

(** The TLS contexts made and not handed over to a context of the HTTP library *)
Definition contexts_held (l : list (tls_call * bool)) : Z :=
  acquired (fun c => match c with SSL_CTX_new => true | _ => false end) l -
  acquired (fun c => match c with lws_create_context Provided_ctx => true | _ => false end) l.

(** The calls that a start makes *)
Definition made (w w' : tls) (l : list (tls_call * bool)) : Prop := log w' = log w ++ l.

(** ** Lemmas *)

(** Whether an engine is found that cannot be initialised *)
Definition init_failed (l : list (tls_call * bool)) : bool :=
  existsb (fun x => match x with (ENGINE_init, false) => true | _ => false end) l.

(** What the setting of the context leaves *)
Record released_all (l : list (tls_call * bool)) : Prop := {
  rel_engine : engine_refs l = 0;
  rel_key : key_refs l = 0;
  rel_functional : engine_functional l = (if init_failed l then -1 else 0);
}.

(** The calls that load the key of a token when all succeed *)
Definition token_loaded (i : identity) : list (tls_call * bool) :=
  map (fun c => (c, true))
    [ENGINE_by_id; ENGINE_init; SSL_CTX_use_certificate_file (client_cert i); SSL_CTX_load_verify_locations (ca_cert i);
     ENGINE_load_private_key (client_key i); SSL_CTX_use_PrivateKey; SSL_CTX_check_private_key].

Lemma ssl_ctx_calls ctx w w' ok :
  cwmp_client_ssl_ctx ctx w = Some (w', ok) ->
  exists l, made w w' l /\ ident w' = ident w /\ context w' = context w /\ released_all l /\ contexts_held l = 0 /\
    (ok = true -> ctx = true /\ token_loaded (ident w) `prefix_of` l).
Proof.
  unfold cwmp_client_ssl_ctx, ssl_ctx_cleanup, made. cbn [ask ident].
  destruct (succeeds _ ENGINE_by_id); cbn [negb ask];
    [|intros [= <- <-]; eexists; split; [done|]; by split_and!].
  destruct (succeeds _ ENGINE_init); cbn [negb ask];
    [|intros [= <- <-]; cbn; rewrite <- !app_assoc; eexists; split; [done|]; by split_and!].
  destruct ctx; cbn [negb ask orb]; [|done]. destruct (is_null (client_cert (ident w))); [done|].
  destruct (succeeds _ (SSL_CTX_use_certificate_file _)); cbn [negb ask];
    [|intros [= <- <-]; cbn; rewrite <- !app_assoc; eexists; split; [done|]; by split_and!].
  destruct (succeeds _ (SSL_CTX_load_verify_locations _)); cbn [negb ask];
    [|intros [= <- <-]; cbn; rewrite <- !app_assoc; eexists; split; [done|]; by split_and!].
  destruct (succeeds _ (ENGINE_load_private_key _)); cbn [negb ask];
    [|intros [= <- <-]; cbn; rewrite <- !app_assoc; eexists; split; [done|]; by split_and!].
  destruct (succeeds _ SSL_CTX_use_PrivateKey); cbn [negb ask];
    [|intros [= <- <-]; cbn; rewrite <- !app_assoc; eexists; split; [done|]; by split_and!].
  destruct (succeeds _ SSL_CTX_check_private_key);
    intros [= <- <-]; cbn; rewrite <- !app_assoc; eexists; (split; [done|]); split_and!; try done.
  intros _. split; [done|]. by eexists.
Qed.

Lemma acquired_app f l1 l2 : acquired f (l1 ++ l2) = acquired f l1 + acquired f l2.
Proof. unfold acquired. rewrite List.filter_app, length_app. lia. Qed.

Lemma released_app f l1 l2 : released f (l1 ++ l2) = released f l1 + released f l2.
Proof. unfold released. rewrite List.filter_app, length_app. lia. Qed.

(** The calls around the setting of the context touch neither engine nor key. *)
Lemma released_all_around x l y :
  released_all l -> released_all x -> released_all y -> init_failed x = false -> init_failed y = false ->
  released_all (x ++ l ++ y).
Proof.
  intros [] [] [] Hx Hy. unfold engine_refs, engine_functional, key_refs in *.
  assert (Hi : init_failed (x ++ l ++ y) = init_failed l).
  { unfold init_failed in *. by rewrite !existsb_app, Hx, Hy, orb_false_r. }
  rewrite Hx in *. rewrite Hy in *.
  split; unfold engine_refs, engine_functional, key_refs; rewrite ?Hi, !acquired_app, !released_app; lia.
Qed.

(** ** Properties *)

(** The start of the client.  When it returns, the three names are those of the
    configuration or of the bus.  Without the key of a token the client starts
    exactly if the HTTP library takes the files, whether they can be read or
    not; with one it starts only with all of certificate, authority and key
    loaded and matched.  Every reference to the engine and the key is given
    back, and one too many if the engine is found but not initialised; the TLS
    context is kept if and only if it was made and the start fails. *)
Theorem client_start_references (a : application) (w' : tls) (ok : bool)
    (Hinit : cwmp_client_init a tls_started = Some (w', ok)) :
  identity_of a = Some (ident w') /\ (ok = true <-> context w' = Context) /\ released_all (log w') /\
  (if is_pkcs11 (client_key (ident w'))
   then contexts_held (log w') =
          (if ok then 0 else match log w' with (SSL_CTX_new, true) :: _ => 1 | _ => 0 end) /\
        (ok = true -> exists l, log w' = (SSL_CTX_new, true) :: token_loaded (ident w') ++ l)
   else client_cert (ident w') <> None /\ client_key (ident w') <> None /\
        exists checks, log w' = checks ++ [(lws_create_context (Files (ident w')), ok)] /\
          map fst checks = [access (client_cert (ident w')); access (client_key (ident w')); access (ca_cert (ident w'))]).
Proof.
  unfold cwmp_client_init, cwmp_prepare_ssl_data in Hinit. destruct (identity_of a) as [i|]; cbn [fmap option_fmap option_map] in Hinit; [|done].
  cbn [ident] in Hinit. destruct (is_pkcs11 (client_key i)) eqn:Hk.
  - cbn [ask log tls_started app context ident] in Hinit. cbn [List.app] in Hinit.
    set (ctx := succeeds [] SSL_CTX_new) in *.
    destruct (cwmp_client_ssl_ctx ctx _) as [[w1 ok1]|] eqn:Es; [|done].
    destruct (ssl_ctx_calls _ _ _ _ Es) as (l & Hm & Hi & Hc & Hr & Hh & Hok).
    unfold made in Hm. cbn [log ident context tls_started] in *.
    destruct ok1.
    + unfold create_context in Hinit. cbn [ask] in Hinit. injection Hinit as <- <-.
      destruct (Hok eq_refl) as (Hctx & l' & Hl). cbn [ident context log]. rewrite Hi, Hk, Hm.
      split; [done|]. split; [destruct (succeeds _ (lws_create_context _)); by split|]. split.
      { apply (released_all_around [_] l [_]); [done|..]; by split. }
      rewrite Hctx in *. generalize (succeeds ([(SSL_CTX_new, true)] ++ l) (lws_create_context Provided_ctx)). intros c.
      split; [|intros _; eexists; by rewrite Hl, <- !app_assoc].
      unfold contexts_held in *. rewrite !acquired_app. unfold acquired in *. destruct c; cbn in *; lia.
    + injection Hinit as <- <-. rewrite Hi, Hk, Hm. split; [done|]. split; [rewrite Hc; by split|]. split.
      { rewrite <- (app_nil_r l). apply (released_all_around [_] l []); [done|..]; by split. }
      split; [|done]. unfold contexts_held in *. rewrite !acquired_app. unfold acquired in *. destruct ctx; cbn in *; lia.
  - destruct (is_null (client_cert i)) eqn:H1; [done|]. destruct (is_null (client_key i)) eqn:H2; [done|]. cbn [orb] in Hinit.
    unfold create_context in Hinit. cbn [ask ask_ fst log tls_started Datatypes.app context ident] in Hinit.
    injection Hinit as <- <-. cbn [ident context log]. rewrite Hk. split; [done|].
    split; [destruct (succeeds _ (lws_create_context _)); by split|]. split; [by split|].
    split; [by destruct (client_cert i)|]. split; [by destruct (client_key i)|]. by eexists [_; _; _].
Qed.

(** The names of certificate and key that a configuration leads to: those of the
    object of its certificate, if it names one, or its two files.  [None]: a
    name that is copied is missing. *)
Definition configured (cfg : config) : option (option string * option string) :=
  match cfg "tr069-service.cwmpd_certs_file"%string, cfg "tr069-service.cwmpd_certificate"%string with
  | None, _ => None
  | Some _, Some (String _ _ as path) =>
      let uris := cwmp_get_certificate_uri path in
      Some (without_file_prefix <$> uris.1, without_file_prefix <$> uris.2)
  | Some _, _ =>
      match cfg "tr069-service.cwmpd_client_certs"%string, cfg "tr069-service.cwmpd_client_privatekey"%string with
      | Some cert, Some key => Some (Some cert, Some key)
      | _, _ => None
      end
  end.

(** The engine of the token is found and initialised. *)
Definition engine_ready : bool :=
  let made := [(SSL_CTX_new, succeeds [] SSL_CTX_new)] in
  succeeds made ENGINE_by_id && succeeds (made ++ [(ENGINE_by_id, true)]) ENGINE_init.

(** The start of the client with these names uses a null pointer. *)
Definition names_undefined (cert key : option string) : bool :=
  if is_pkcs11 key then engine_ready && (negb (succeeds [] SSL_CTX_new) || is_null cert)
  else is_null cert || is_null key.

Lemma init_undefined_iff a :
  cwmp_client_init a tls_started = None <->
  match identity_of a with None => True | Some i => names_undefined (client_cert i) (client_key i) = true end.
Proof.
  unfold cwmp_client_init, cwmp_prepare_ssl_data, names_undefined.
  destruct (identity_of a) as [i|]; cbn [fmap option_fmap option_map ident]; [|by split].
  destruct (is_pkcs11 (client_key i)) eqn:Hk; [|by destruct (_ || _)].
  cbn [ask log ident context tls_started Datatypes.app]. set (ctx := succeeds [] SSL_CTX_new).
  assert (Hc : cwmp_client_ssl_ctx ctx {| ident := i; context := No_context; log := [(SSL_CTX_new, ctx)] |} = None <->
    engine_ready && (negb ctx || is_null (client_cert i)) = true).
  { unfold cwmp_client_ssl_ctx, engine_ready. fold ctx. cbn [ask log ident Datatypes.app].
    destruct (succeeds _ ENGINE_by_id); cbn [negb andb ask log Datatypes.app]; [|by split].
    destruct (succeeds _ ENGINE_init); cbn [negb andb ask log Datatypes.app ident]; [|by split].
    destruct (negb ctx || is_null (client_cert i)); [by split|].
    repeat (match goal with |- context [if negb ?b then _ else _] => destruct b; cbn [negb] end; [|by split]). by split. }
  rewrite <- Hc. by destruct (cwmp_client_ssl_ctx _ _) as [[w1 []]|].
Qed.

(** The settings keep the names of the first file, present or not. *)
Lemma settings_names (E : env) argv a cfg :
  cwmp_app_settings E argv zeroed = Settings a true ->
  parse_file E (fun _ => None) (odl_config a) = Some cfg ->
  trustedCA a = cfg "tr069-service.cwmpd_certs_file"%string /\
  ssl_certificate a = cfg "tr069-service.cwmpd_certificate"%string /\
  ssl_client_cert a = cfg "tr069-service.cwmpd_client_certs"%string /\
  ssl_client_priv_key a = cfg "tr069-service.cwmpd_client_privatekey"%string.
Proof.
  unfold cwmp_app_settings. destruct (cwmp_app_configureOptions _ _) as [b|]; [|done].
  destruct (parse_file E _ (odl_config b)) as [cfg'|] eqn:Ep; [|done]. unfold cwmp_app_parse_config.
  destruct (prefixed _ _); [|done]. destruct (prefixed _ _); [|done].
  destruct (parse_file E cfg' _); [|done]. intros [= <- _]. cbn. rewrite Ep. by intros [= <-].
Qed.

(** C25: whatever the options, and whatever the bus, OpenSSL and the HTTP library
    answer, the daemon that reaches the start of its client uses a null pointer
    there exactly in these cases.  Its configuration lacks the name of the trusted
    authority (the built-in default does not help), or both the name of a
    certificate and one of the two files.  Or, with a key that is not one of a
    token, the object of the certificate does not tell both names -- it may not
    answer at all -- and a null name is given to [access].  Or, with the key of a
    token whose engine can be initialised, it does not tell the certificate, or
    the TLS context could not be made. *)
Theorem daemon_tls_undefined_iff (E : env) (argv : list option_t) (a : application) (cfg : config)
    (Hset : cwmp_app_settings E argv zeroed = Settings a true)
    (Hcfg : parse_file E (fun _ => None) (odl_config a) = Some cfg) :
  cwmp_client_init a tls_started = None <->
  match configured cfg with
  | None => True
  | Some (cert, key) =>
      if is_pkcs11 key then engine_ready = true /\ (succeeds [] SSL_CTX_new = false \/ cert = None)
      else cert = None \/ key = None
  end.
Proof.
  rewrite init_undefined_iff. destruct (settings_names E argv a cfg Hset Hcfg) as (H1 & H2 & H3 & H4).
  assert (Hi : identity_of a =
      (fun x => {| client_cert := x.1; client_key := x.2; ca_cert := cfg "tr069-service.cwmpd_certs_file"%string |})
        <$> configured cfg).
  { unfold identity_of, configured. rewrite H1, H2, H3, H4.
    destruct (cfg "tr069-service.cwmpd_certs_file"%string), (cfg "tr069-service.cwmpd_certificate"%string) as [[|? ?]|],
      (cfg "tr069-service.cwmpd_client_certs"%string), (cfg "tr069-service.cwmpd_client_privatekey"%string);
      try destruct (cwmp_get_certificate_uri _); done. }
  rewrite Hi. destruct (configured cfg) as [[cert key]|]; cbn [fmap option_fmap option_map client_cert client_key fst snd]; [|done].
  unfold names_undefined. destruct (is_pkcs11 key).
  - rewrite andb_true_iff, orb_true_iff, negb_true_iff. destruct cert; cbn; naive_solver.
  - rewrite orb_true_iff. destruct cert, key; cbn; naive_solver.
Qed.

End Tls.

(** ** Witnesses *)

(** A key in a token; the engine is found and cannot be initialised. *)
Definition ex_uri (path : string) : Z * (option string * option string) :=
  (0, (Some "file:///tmp/cert.pem"%string, Some "pkcs11:token=cpe"%string)).

Definition ex_succeeds (before : list (tls_call * bool)) (c : tls_call) : bool :=
  match c with ENGINE_init => false | _ => true end.

(** The configuration of the daemon with the names that are copied *)
Definition ex_tls_config (ca : option string) : config := fun k =>
  if streq k "tr069-service.cwmpd_certs_file" then ca
  else if streq k "tr069-service.cwmpd_certificate" then Some "Security.Certificate.1."%string
  else ex_config k.

Definition ex_tls_env (ca : option string) : env :=
  {| getenv := fun _ => None; parse_file := fun cfg p => Some (ex_tls_config ca); parse_level := fun _ => 200; no_pem := false;
     daemon_ok := true; answers := fun _ _ => true; delivered := []; names := ex_names |}.

Definition ex_tls_app (ca : option string) : application :=
  match cwmp_app_settings (ex_tls_env ca) [Opt_c "/etc/cwmpd.odl"%string] zeroed with Settings a _ => a | _ => zeroed end.

Definition ex_tls_end : tls :=
  match cwmp_client_init ex_uri ex_succeeds (ex_tls_app (Some "/etc/ca.pem"%string)) tls_started with
  | Some (w, _) => w | None => tls_started end.

(** The functional reference that was not given is taken back, and the TLS
    context is kept. *)
Lemma client_start_references_witness :
  engine_functional (log ex_tls_end) = -1 /\ contexts_held (log ex_tls_end) = 1 /\
  client_cert (ident ex_tls_end) = Some "/tmp/cert.pem"%string.
Proof.
  destruct (client_start_references ex_uri ex_succeeds (ex_tls_app (Some "/etc/ca.pem"%string)) ex_tls_end false
    ltac:(reflexivity)) as (_ & _ & [_ _ Hf] & Hc & _).
  split; [exact Hf|]. split; [exact Hc|reflexivity].
Defined.

Lemma daemon_tls_undefined_iff_witness :
  cwmp_client_init ex_uri ex_succeeds (ex_tls_app None) tls_started = None.
Proof.
  apply (daemon_tls_undefined_iff ex_uri ex_succeeds (ex_tls_env None) [Opt_c "/etc/cwmpd.odl"%string] (ex_tls_app None)
    (ex_tls_config None)); [reflexivity|reflexivity|]. exact I.
Defined.

(** The bus does not know the certificate: null names are given to [access]. *)
Example unknown_certificate_undefined :
  cwmp_client_init (fun _ => (2, (None, None))) ex_succeeds (ex_tls_app (Some "/etc/ca.pem"%string)) tls_started = None.
Proof. reflexivity. Qed.

End ClientTls.
