(* ===== verification/PluginDaemon.v ===== *)
(** * PluginDaemon: from the plugin to the daemon that it starts
    ([cwmp_plugin.c] and [cwmp_plugin_service.c] of the plugin, [cwmpd_main.c]
    and [cwmpd_client.c] of the daemon)

    The plugin starts the daemon with a command line ([ConnRequest]); the daemon
    reads it with [getopt_long], then the configuration that it names
    ([DaemonMain]), and starts its client with the certificates named there
    ([ClientTls]).  This file composes the three: what every daemon that the
    plugin starts reads, and what becomes of it with the configuration that is
    shipped in the repository.  It also models how the plugin saves its data
    model. *)

From Stdlib Require Import ZArith Lia Ascii.
From stdpp Require Import base list strings relations.
From S2P Require Import Prelude DaemonMain ConnRequest ConnRequestFacts ConnRequestSpec ClientTls.

Module PluginDaemon.
Import DaemonMain ClientTls.

(** ** Options *)

(** One character of the options [hDfit:c:] without an argument *)
Definition flag (c : ascii) : option_t :=
  if Ascii.eqb c "f" then Opt_f
  else if Ascii.eqb c "h" then Opt_h
  else if Ascii.eqb c "D" then Opt_D
  else Opt_other.

(** One of the two options with an argument *)
Definition with_argument (c : ascii) (optarg : string) : option_t :=
  if Ascii.eqb c "c" then Opt_c optarg else Opt_other.

(** The characters of one argument after its hyphen; an option takes what
    follows it as its argument, or the next argument of the program. *)
Fixpoint short_options (l : string) (rest : list string) : list option_t * list string :=
  match l with
  | EmptyString => ([], rest)
  | String c l' =>
      if Ascii.eqb c "c" || Ascii.eqb c "t" then
        match l', rest with
        | String _ _, _ => ([with_argument c l'], rest)
        | EmptyString, optarg :: rest' => ([with_argument c optarg], rest')
        | EmptyString, [] => ([Opt_other], [])
        end
      else let '(opts, rest') := short_options l' rest in (flag c :: opts, rest')
  end.

(** The loop over [getopt_long] in [cwmp_app_configureOptions], for arguments
    without long options ([None] with one); [--] ends the options, and what is
    no option is passed over. *)
Fixpoint getopt_long (fuel : nat) (args : list string) : option (list option_t) :=
  match fuel, args with
  | _, [] => Some []
  | O, _ => None
  | S fuel, arg :: rest =>
      match arg with
      | String "-" (String "-" EmptyString) => Some []
      | String "-" (String "-" _) => None
      | String "-" (String c l) =>
          let '(opts, rest) := short_options (String c l) rest in
          (fun more => opts ++ more) <$> getopt_long fuel rest
      | _ => getopt_long fuel rest
      end
  end.

(** What the daemon makes of a command line *)
Definition daemon_options (command : list string) : option (list option_t) :=
  getopt_long (length command) (tail command).

(** ** Saving of the plugin *)

Section Save.

(** [amxc_string_resolve] in the configuration, and [amxo_parser_save_object]
    of the root to a file *)
Context (resolve : string -> string) (save_object : string -> Z).

(** [cwmp_plugin_app_t] without [init_done]: the parser by its configuration *)
Record plugin_app := { app_dm : bool; app_parser : option config }.

(** [cwmp_plugin_get_directory] *)
Definition cwmp_plugin_get_directory (cfg : config) : option string :=
  resolve <$> (match cfg "odl.directory"%string with Some d => Some d | None => cfg "storage-path"%string end).

(** [cwmp_plugin_dm_save_object]: the file and the status *)
Definition cwmp_plugin_dm_save_object (dir name : string) : string * Z :=
  let file := String.append dir (String.append "/" (String.append name ".odl")) in (file, save_object file).

(** [cwmp_plugin_dm_save_impl]: the file that is written, if one is, and the
    status *)
Definition cwmp_plugin_dm_save_impl (a : plugin_app) : option string * Z :=
  match app_dm a, app_parser a with
  | true, Some cfg =>
      match cwmp_plugin_get_directory cfg with
      | Some (String _ _ as odl_dir) =>
          match cfg "name"%string with
          | None => (None, -1)
          | Some name => let '(file, status) := cwmp_plugin_dm_save_object odl_dir name in (Some file, status)
          end
      | _ => (None, -1)
      end
  | _, _ => (None, -1)
  end.

(** [cwmp_plugin_set_app], and what [cwmp_plugin_exit] does to it *)
Definition cwmp_plugin_set_app (cfg : config) : plugin_app := {| app_dm := true; app_parser := Some cfg |}.

Definition cwmp_plugin_unset_app (a : plugin_app) : plugin_app := {| app_dm := false; app_parser := None |}.

(** [load_fw_controller]: the module that is opened *)
Definition load_fw_controller (cfg : config) (amxm_so_open : string -> Z) : option string :=
  match cfg "firewall.controller"%string with
  | None => None
  | Some controller => if amxm_so_open controller =? 0 then Some controller else None
  end.

End Save.

(** ** The configuration that is shipped *)

(** [cwmpd-config.odl], as the keys that the daemon reads *)
Definition shipped_config : config := fun k =>
  if streq k "prefix_file" then Some "/etc/amx/cwmp_plugin/cwmp_plugin-prefix.odl"
  else if streq k "tr069-service.cwmpd_persistent_rpc_path" then Some "/etc/config/cwmp_plugin"
  else if streq k "tr069-service.cwmpd_pid_file" then Some "/var/run/cwmp.pid"
  else if streq k "tr069-service.cwmpd_certs_file" then Some "/usr/share/ca-certificates/ca.crt"
  else if streq k "tr069-service.cwmpd_certificate" then Some "Security.Certificate.2."
  else if streq k "tr069-service.cwmpd_client_certs" then Some ""
  else if streq k "tr069-service.cwmpd_client_privatekey" then Some ""
  else if streq k "tr069-service.cwmpd_adapter_path" then Some "/usr/lib/libdmda_amx.so"
  else if streq k "tr069-service.cwmpd_acl_file" then Some "/cfg/etc/acl/merged/cwmp.json"
  else if streq k "cwmpd_backend" then Some "/usr/bin/mods/amxb/mod-amxb-ubus.so"
  else if streq k "cwmpd_uri" then Some "ubus:/var/run/ubus/ubus.sock"
  else if streq k "sahtrace.level" then Some "200"
  else None%string.

(** ** Lemmas *)

Section Compose.

Context {Sys : ConnRequest.system}.

(** The file that the plugin names, and the option that keeps the daemon in the
    foreground *)
Definition prefixed_start : bool :=
  match ConnRequest.AMXRT_PREFIX_PATH with Some (String _ _) => true | _ => false end.

Definition named_file : string :=
  match ConnRequest.AMXRT_PREFIX_PATH with
  | Some prefix => String.append prefix ConnRequest.odl_config
  | None => ConnRequest.odl_config
  end.

Lemma plugin_command :
  exists path, ConnRequest.build_cwmpd_proc_args =
    [path; String.append "-c" named_file; if prefixed_start then "-f" else "-D"]%string.
Proof.
  unfold ConnRequest.build_cwmpd_proc_args, named_file, prefixed_start.
  destruct ConnRequest.AMXRT_PREFIX_PATH as [[|c s]|]; by eexists.
Qed.

(** The daemon reads the file name as the argument of its option; an empty one
    would take the next option as its name. *)
Lemma plugin_options :
  daemon_options ConnRequest.build_cwmpd_proc_args =
    Some (if streq named_file "" then [Opt_c "-D"] else [Opt_c named_file; if prefixed_start then Opt_f else Opt_D]).
Proof.
  destruct plugin_command as [path ->]. unfold daemon_options.
  destruct named_file as [|c l] eqn:Hn; [|by destruct prefixed_start].
  unfold prefixed_start. unfold named_file in Hn. by destruct ConnRequest.AMXRT_PREFIX_PATH as [[|? ?]|].
Qed.

(** Every command line of a run of the plugin is the one that it builds. *)
Notation built := (Forall (eq ConnRequest.build_cwmpd_proc_args)).

Lemma dsteps_built d d' :
  rtc ConnRequestSpec.dstep d d' -> built (ConnRequest.commands d) -> built (ConnRequest.commands d').
Proof.
  induction 1 as [|d1 d2 d3 Hs _ IH]; [done|]. intros H. apply IH.
  destruct Hs; try exact H. apply Forall_app. split; [exact H|by apply Forall_singleton].
Qed.

Lemma exit_commands w : ConnRequest.commands (ConnRequest.proc (ConnRequest.cwmp_plugin_exit w)) = ConnRequest.commands (ConnRequest.proc w).
Proof.
  unfold ConnRequest.cwmp_plugin_exit, ConnRequest.stop_cwmpd, ConnRequest.close_cwmpd_listening_port.
  destruct ConnRequest.standalone; destruct (ConnRequest.cwmpd_proc _); done.
Qed.

Lemma commands_built (t : bool) (d : ConnRequest.dm) (l : list ConnRequest.event) :
  built (ConnRequest.commands (ConnRequest.proc (ConnRequest.run l (ConnRequest.cwmp_plugin_start t d)))).
Proof.
  assert (H : let w := ConnRequest.run l (ConnRequest.cwmp_plugin_start t d) in
    (ConnRequestSpec.single (ConnRequest.proc w) /\ ConnRequestSpec.slotted (ConnRequest.proc w)) /\
    built (ConnRequest.commands (ConnRequest.proc w))); [|exact (proj2 H)].
  apply (run_invariant_all ConnRequest.step (fun w =>
    (ConnRequestSpec.single (ConnRequest.proc w) /\ ConnRequestSpec.slotted (ConnRequest.proc w)) /\
    built (ConnRequest.commands (ConnRequest.proc w)))).
  - intros ev w [Hs Hb]. split; [by apply ConnRequestSpec.step_single|].
    assert (Hd : ev = ConnRequest.Exit \/ ev <> ConnRequest.Exit) by (destruct ev; auto).
    destruct Hd as [->|Hd]; [|exact (dsteps_built _ _ (ConnRequestSpec.dsteps_step ev w Hd (proj2 Hs)) Hb)].
    unfold ConnRequest.step. destruct (ConnRequest.stopped w); [done|]. by rewrite exit_commands.
  - split; [split; by left|done].
Qed.

(** What [cwmp_app_settings] makes of the options of the plugin *)
Lemma plugin_settings (E : env) (argv : list option_t) (a : application) (ok : bool) :
  daemon_options ConnRequest.build_cwmpd_proc_args = Some argv ->
  cwmp_app_settings E argv zeroed = Settings a ok ->
  odl_config a = Some (if streq named_file "" then "-D"%string else named_file) /\ daemonize a = streq named_file "".
Proof.
  rewrite plugin_options. intros [= <-] H.
  assert (Hc : forall b, cwmp_app_configureOptions
      (if streq named_file "" then [Opt_c "-D"] else [Opt_c named_file; if prefixed_start then Opt_f else Opt_D])
      (cwmp_app_configureDefaults E zeroed) = Some b ->
    odl_config b = Some (if streq named_file "" then "-D"%string else named_file) /\ daemonize b = streq named_file "").
  { intros b. destruct (streq named_file ""), prefixed_start; by intros [= <-]. }
  unfold cwmp_app_settings in H. destruct (cwmp_app_configureOptions _ _) as [b|]; [|done]. specialize (Hc b eq_refl).
  destruct (parse_file E _ _) as [cfg|]; [|by injection H as <- _].
  unfold cwmp_app_parse_config in H. destruct (prefixed _ _); [|done]. destruct (prefixed _ _); [|done].
  by destruct (parse_file E cfg _); injection H as <- _.
Qed.

(** ** Properties *)

(** C24: whatever happens to the plugin, every daemon that it starts reads the
    configuration file that the plugin names and stays attached to it, so that
    its end is noticed, and never only shows its help; an empty name is the one
    exception: the daemon then takes the option that would keep it attached for
    the name. *)
Theorem started_daemon_attached (t : bool) (d : ConnRequest.dm) (l : list ConnRequest.event) (E : env) :
  Forall (fun command => exists argv, daemon_options command = Some argv /\
      cwmp_app_settings E argv zeroed <> Help /\
      forall a ok, cwmp_app_settings E argv zeroed = Settings a ok ->
        odl_config a = Some (if streq named_file "" then "-D"%string else named_file) /\
        daemonize a = streq named_file "")
    (ConnRequest.commands (ConnRequest.proc (ConnRequest.run l (ConnRequest.cwmp_plugin_start t d)))).
Proof.
  eapply Forall_impl; [apply commands_built|]. intros command <-.
  eexists. split; [apply plugin_options|]. split.
  - unfold cwmp_app_settings. destruct (streq named_file ""), prefixed_start; cbn [cwmp_app_configureOptions];
      (destruct (parse_file E _ _); [|done]); destruct (cwmp_app_parse_config E _ _) as [[? []]|]; done.
  - intros a ok H. exact (plugin_settings E _ a ok plugin_options H).
Qed.

(** The plugin, the daemon and its client with the shipped configuration: the
    daemon that reads it from the file that the plugin names copies no null
    string when it starts its client, asks for the second certificate of the
    table, and trusts the shipped authority. *)
Theorem shipped_daemon_has_identity (GetCertificateURI : string -> Z * (option string * option string))
    (E : env) (argv : list option_t) (a : application)
    (Hfile : named_file <> ""%string)
    (Hopts : daemon_options ConnRequest.build_cwmpd_proc_args = Some argv)
    (Hset : cwmp_app_settings E argv zeroed = Settings a true)
    (Hparse : parse_file E (fun _ => None) (Some named_file) = Some shipped_config) :
  exists i, identity_of GetCertificateURI a = Some i /\ ca_cert i = Some "/usr/share/ca-certificates/ca.crt"%string /\
    client_cert i = without_file_prefix <$> (cwmp_get_certificate_uri GetCertificateURI "Security.Certificate.2.").1 /\
    client_key i = without_file_prefix <$> (cwmp_get_certificate_uri GetCertificateURI "Security.Certificate.2.").2.
Proof.
  destruct (plugin_settings E argv a true Hopts Hset) as [Ho _].
  apply streq_false in Hfile. rewrite Hfile in Ho.
  destruct (settings_names E argv a shipped_config Hset) as (H1 & H2 & _); [by rewrite Ho|].
  unfold identity_of. rewrite H1, H2.
  change (shipped_config "tr069-service.cwmpd_certificate") with (Some "Security.Certificate.2."%string).
  change (shipped_config "tr069-service.cwmpd_certs_file") with (Some "/usr/share/ca-certificates/ca.crt"%string).
  cbv beta iota. destruct (cwmp_get_certificate_uri _ _) as [cert key]. eexists. split; [reflexivity|]. by split_and!.
Qed.

End Compose.

(** The plugin saves to one file, [name.odl] in its directory, exactly while it
    runs with a name and with a directory that does not resolve to nothing; the
    status then is that of the write. *)
Theorem saved_while_running (resolve : string -> string) (save_object : string -> Z) (a : plugin_app) :
  (forall file status, cwmp_plugin_dm_save_impl resolve save_object a = (Some file, status) <->
     exists cfg dir name, a = cwmp_plugin_set_app cfg /\ cwmp_plugin_get_directory resolve cfg = Some dir /\ dir <> ""%string /\
       cfg "name"%string = Some name /\ file = String.append dir (String.append "/" (String.append name ".odl")) /\
       status = save_object file) /\
  cwmp_plugin_dm_save_impl resolve save_object (cwmp_plugin_unset_app a) = (None, -1).
Proof.
  split; [|done]. intros file status. unfold cwmp_plugin_dm_save_impl, cwmp_plugin_dm_save_object. destruct a as [dm parser].
  cbn [app_dm app_parser]. split.
  - destruct dm; [|done]. destruct parser as [cfg|]; [|done].
    destruct (cwmp_plugin_get_directory resolve cfg) as [[|c dir]|] eqn:Hd; [done| |done].
    destruct (cfg "name"%string) as [name|] eqn:Hn; [|done]. intros [= <- <-]. by exists cfg, (String c dir), name.
  - intros (cfg & dir & name & Ha & Hd & Hne & Hn & -> & ->). injection Ha as -> ->. rewrite Hd, Hn. by destruct dir.
Qed.

(** ** Witnesses *)

#[local] Instance ex_gateway : ConnRequest.system := {
  ConnRequest.standalone := false;
  ConnRequest.TR069_URL_PATH := None;
  ConnRequest.AMXRT_PREFIX_PATH := None;
  ConnRequest.odl_config := "/etc/amx/cwmp_plugin/cwmpd-config.odl";
  ConnRequest.inet_pton6 _ := false;
  ConnRequest.accepts _ := true;
}.

Definition ex_shipped_env : env :=
  {| getenv := fun _ => None; parse_file := fun cfg p => Some shipped_config; parse_level := fun _ => 200; no_pem := false;
     daemon_ok := true; answers := fun _ _ => true; delivered := []; names := ex_names |}.

Definition ex_options : list option_t := [Opt_c "/etc/amx/cwmp_plugin/cwmpd-config.odl"; Opt_D].

Lemma shipped_daemon_has_identity_witness :
  exists i, identity_of ex_uri
    (match cwmp_app_settings ex_shipped_env ex_options zeroed with Settings a _ => a | _ => zeroed end) = Some i /\
    client_cert i = Some "/tmp/cert.pem"%string /\ client_key i = Some "pkcs11:token=cpe"%string.
Proof.
  destruct (@shipped_daemon_has_identity ex_gateway ex_uri ex_shipped_env ex_options
    (match cwmp_app_settings ex_shipped_env ex_options zeroed with Settings a _ => a | _ => zeroed end)
    ltac:(discriminate) eq_refl eq_refl eq_refl) as (i & Hi & _ & Hc & Hk).
  exists i. split; [exact Hi|]. split; [exact Hc|exact Hk].
Defined.

(** The options of the shell are read in the same way. *)
Example ex_getopt :
  daemon_options ["cwmpd"; "-Df"; "x"; "-c"; "a.odl"; "--"; "-h"]%string = Some [Opt_D; Opt_f; Opt_c "a.odl"] /\
  daemon_options ["cwmpd"; "-c"]%string = Some [Opt_other] /\ daemon_options ["cwmpd"; "--help"]%string = None.
Proof. by split_and!. Qed.

End PluginDaemon.
