(* ===== verification/AdapterLifecycle.v ===== *)
(** * AdapterLifecycle: start, sessions and end of the device adapter
    ([DM_ENG_Device_Init], [_OpenSession], [_LoadConfig] and [_Release] of
    [DM_DeviceAdapter.c], [DM_AmxRPCInterface.c], both of
    [src/src/dmdeviceadapter/amx/adapter], and [_sendInformMessage] of
    [cwmp_plugin.c])

    The parameters of the ACS connection that the configuration decides, the
    address that a session tells the engine, the scheduled Informs that a restart
    finds, and the request of another process for an Inform message. *)

From Stdlib Require Import ZArith Lia.
From stdpp Require Import base list strings.
From S2P Require Import Prelude SystemParameters SystemConnection ACSConnection.

Module AdapterLifecycle.
Import SystemParameters.SystemParameters.
Import SystemConnection.SystemConnection.

(** ** State *)

(** What the adapter asks the other components and the engine to do *)
Inductive request :=
| SystemConnectionInitialize
| ACSConnectionInitialize
| TR181SetExternalIPAddressPath (path : string)
| AddCachedValue (path : string) (value : option string)
| addScheduleInform (commandKey : string) (time : Z)
| EventScheduleInform (commandKey : string)
| ScheduleDownload_init
| ChangeDUState_init
| RPCInterface_init
| UpDownloadInitialize
| ScheduleDownload_clean
| ChangeDUState_clean
| RPCInterface_clean
| ACSConnectionCleanup
| SystemConnectionCleanup
| be_remove_all
| SendEvents (events : string) (immediately : bool) (source : option string).

(** [dm_deviceadapter_t], its static neighbours and the log *)
Record adapter := {
  vendor_prefix : option string;
  prefix : option string;
  acsInstanceAlias : bool;
  autoCreateInstances : bool;
  acl : option string;
  externalIPAddress : option string;
  persistentRPCPath : option string;
  requests : list request;
}.

Definition log (l : list request) (w : adapter) : adapter :=
  {| vendor_prefix := vendor_prefix w; prefix := prefix w; acsInstanceAlias := acsInstanceAlias w;
     autoCreateInstances := autoCreateInstances w; acl := acl w; externalIPAddress := externalIPAddress w;
     persistentRPCPath := persistentRPCPath w; requests := requests w ++ l |}.

Definition with_externalIPAddress (a : option string) (w : adapter) : adapter :=
  {| vendor_prefix := vendor_prefix w; prefix := prefix w; acsInstanceAlias := acsInstanceAlias w;
     autoCreateInstances := autoCreateInstances w; acl := acl w; externalIPAddress := a;
     persistentRPCPath := persistentRPCPath w; requests := requests w |}.

Section Adapter.

Context {L : system_library}.

(** ** Start *)

(** [DM_ENG_Device_Init]: [system_ok] and [acs_ok] are the results of the two
    connections, [dm_prefix] is [DM_ENG_getDatamodelPrefix ()] and [value] is
    [DM_ENG_GetManagementServerValue], both of the engine. *)
Definition DM_ENG_Device_Init (system_ok acs_ok : bool) (dm_prefix : option string)
    (value : DM_ENG_SystemParameter_t -> option string) (rpcPath aclfile vendorPrefix : option string) (w : adapter) : adapter * bool :=
  let w :=
    {| vendor_prefix := vendorPrefix; prefix := prefix w; acsInstanceAlias := acsInstanceAlias w;
       autoCreateInstances := autoCreateInstances w; acl := acl w; externalIPAddress := externalIPAddress w;
       persistentRPCPath := persistentRPCPath w; requests := requests w ++ [SystemConnectionInitialize] |} in
  if negb system_ok then (w, false)
  else
    let w :=
      {| vendor_prefix := vendor_prefix w; prefix := dm_prefix; acsInstanceAlias := acsInstanceAlias w;
         autoCreateInstances := autoCreateInstances w; acl := acl w; externalIPAddress := externalIPAddress w;
         persistentRPCPath := persistentRPCPath w; requests := requests w ++ [ACSConnectionInitialize] |} in
    if negb acs_ok then (w, false)
    else
      let instance_alias := value DM_ENG_INSTANCEMODE in
      let tmp := value DM_ENG_AUTOCREATEINSTANCES in
      ({| vendor_prefix := vendor_prefix w; prefix := prefix w;
          acsInstanceAlias := match instance_alias with Some v => streq v "InstanceAlias" | None => false end;
          autoCreateInstances := match tmp with Some v => negb (atoi v =? 0) | None => true end;
          acl := aclfile; externalIPAddress := externalIPAddress w;
          persistentRPCPath := match rpcPath with Some p => Some p | None => persistentRPCPath w end;
          requests := requests w |}, true).

(** ** Sessions *)

(** [DM_ENG_Device_OpenSession]: [wan] is
    [DM_ENG_Device_ACSConnectionHandleGetwaninterface] for the address. *)
Definition DM_ENG_Device_OpenSession (b : bus) (wan : option string -> option string) (w : adapter) : adapter :=
  match prefix w with
  | Some p =>
      if streq p "InternetGatewayDevice." then
        let '(ipAddress, error) := DM_ENG_Device_GetConfigValue b DM_ENG_CONNECTIONREQUESTHOST in
        if error =? -1 then w else with_externalIPAddress None w
      else if streq p "Device." then
        let '(ipAddress, error) := DM_ENG_Device_GetConfigValue b DM_ENG_CONNECTIONREQUESTHOST in
        if error =? -1 then w
        else
          let w := match wan ipAddress with
                   | Some paramName => log [TR181SetExternalIPAddressPath paramName; AddCachedValue paramName ipAddress] w
                   | None => w
                   end in
          with_externalIPAddress ipAddress w
      else w
  | None => w
  end.

(** ** Configuration *)

(** The loop of [DM_ENG_Device_LoadScheduleInform]: the lines of the file that can
    be read, and whether the structure for each can be allocated *)
Fixpoint load_lines (lines : list (string * Z * bool)) (w : adapter) : adapter :=
  match lines with
  | [] => w
  | (commandKey, time, allocated) :: lines =>
      load_lines lines
        (if allocated : bool then log [addScheduleInform commandKey time; EventScheduleInform commandKey] w else w)
  end.

(** [DM_ENG_Device_LoadScheduleInform] of the file of a path, if it can be opened *)
Definition DM_ENG_Device_LoadScheduleInform (file : option (list (string * Z * bool))) (w : adapter) : adapter * Z :=
  match file with
  | None => (w, -1)
  | Some lines => (load_lines lines w, 0)
  end.

(** [DM_ENG_Device_LoadConfig]: the results of the three initialisations are only
    traced. *)
Definition DM_ENG_Device_LoadConfig (open_read : option string -> option (list (string * Z * bool)))
    (updownload_ok : bool) (w : adapter) : adapter * Z :=
  let w := (DM_ENG_Device_LoadScheduleInform (open_read (persistentRPCPath w)) w).1 in
  (log [ScheduleDownload_init; ChangeDUState_init; RPCInterface_init; UpDownloadInitialize] w,
   if updownload_ok then 0 else -1).

(** [DM_ENG_Device_Release] *)
Definition DM_ENG_Device_Release (w : adapter) : adapter * bool :=
  let w := log [ScheduleDownload_clean; ChangeDUState_clean; RPCInterface_clean; ACSConnectionCleanup; SystemConnectionCleanup] w in
  ({| vendor_prefix := vendor_prefix w; prefix := prefix w; acsInstanceAlias := acsInstanceAlias w;
      autoCreateInstances := autoCreateInstances w; acl := acl w; externalIPAddress := externalIPAddress w;
      persistentRPCPath := None; requests := requests w ++ [be_remove_all] |}, true).

(** ** Requests for an Inform message *)

(** The arguments of [sendInformMessage], which are the data of the signal *)
Record inform_args := { events : option string; immediately : bool; source : option string }.

(** [_sendInformMessage] of the plugin: the data of the signal, if it is sent *)
Definition _sendInformMessage (args : option inform_args) : option inform_args :=
  match args with
  | None => None
  | Some a => if str_empty (events a) then None else if str_empty (source a) then None else Some a
  end.

(** [handle_sendInformMessage] *)
Definition handle_sendInformMessage (data : inform_args) (w : adapter) : adapter :=
  log [SendEvents (default ""%string (events data)) (immediately data) (source data)] w.

(** [rpc_req_cb]: [strcmp] is true for another name. *)
Definition rpc_req_cb (sig_name : option string) (data : inform_args) (w : adapter) : adapter :=
  match sig_name with
  | None => w
  | Some n =>
      if streq n "" then w else if negb (streq n "SendInformMessage!") then handle_sendInformMessage data w else w
  end.

(** [DM_AmxRPCInterface_init] *)
Definition DM_AmxRPCInterface_init (ctx : bool) (subscribe_result : Z) : Z := if ctx then subscribe_result else -1.

(** ** Properties *)

(** The start takes the two modes from the configuration: aliases are used
    exactly if the instance mode is InstanceAlias, and instances are created
    automatically unless the value is a number that is zero, also if there is no
    value; if a connection fails the modes are not touched. *)
Theorem init_modes (system_ok acs_ok : bool) (dm_prefix : option string) (value : DM_ENG_SystemParameter_t -> option string)
    (rpcPath aclfile vendorPrefix : option string) (w : adapter) :
  let '(w', result) := DM_ENG_Device_Init system_ok acs_ok dm_prefix value rpcPath aclfile vendorPrefix w in
  result = system_ok && acs_ok /\
  (result = true -> prefix w' = dm_prefix /\ acl w' = aclfile /\
     (acsInstanceAlias w' = true <-> value DM_ENG_INSTANCEMODE = Some "InstanceAlias"%string) /\
     (autoCreateInstances w' = false <-> exists v, value DM_ENG_AUTOCREATEINSTANCES = Some v /\ atoi v = 0)) /\
  (result = false -> acsInstanceAlias w' = acsInstanceAlias w /\ autoCreateInstances w' = autoCreateInstances w).
Proof.
  unfold DM_ENG_Device_Init. destruct system_ok; cbn [negb andb]; [|by split_and!].
  destruct acs_ok; cbn [negb]; [|by split_and!]. split_and!; [done| |done]. intros _. cbn. split_and!; [done..| |].
  - destruct (value DM_ENG_INSTANCEMODE) as [v|]; [|done]. rewrite streq_true. naive_solver.
  - destruct (value DM_ENG_AUTOCREATEINSTANCES) as [v|]; [|naive_solver].
    destruct (atoi v =? 0) eqn:Ev; cbn [negb]; bool_prop; naive_solver.
Qed.

(** A session tells the engine the address of the device.  With the data model
    [Device.], the external address becomes the host of the connection requests,
    and if an interface has it, the engine gets the path of this address with the
    same value in its cache, so that its change is reported.  A host that cannot be
    read is not noticed, since its error is tested for -1 and is never -1: the
    address is cleared. *)
Theorem session_tells_address (b : bus) (wan : option string -> option string) (w : adapter)
    (Hp : prefix w = Some "Device."%string) :
  let host := (DM_ENG_Device_GetConfigValue b DM_ENG_CONNECTIONREQUESTHOST).1 in
  let w' := DM_ENG_Device_OpenSession b wan w in
  externalIPAddress w' = host /\
  requests w' = requests w ++
    match wan host with
    | Some path => [TR181SetExternalIPAddressPath path; AddCachedValue path host]
    | None => []
    end.
Proof.
  intros host w'. unfold w', DM_ENG_Device_OpenSession. rewrite Hp.
  change (streq "Device." "InternetGatewayDevice.") with false. change (streq "Device." "Device.") with true.
  cbv iota. unfold host, DM_ENG_Device_GetConfigValue. cbn [fst].
  set (r := DM_ENG_Device_SystemConnectionGetParameter b DM_ENG_CONNECTIONREQUESTHOST).
  replace ((if is_null r then DM_ENG_INVALID_PARAMETER_NAME else 0) =? -1) with false by (by destruct (is_null r)).
  destruct (wan r) as [path|]; cbn [with_externalIPAddress externalIPAddress requests log]; [done|by rewrite app_nil_r].
Qed.

(** What a line of the file becomes *)
Definition restored (x : string * Z * bool) : list request :=
  if x.2 then [addScheduleInform x.1.1 x.1.2; EventScheduleInform x.1.1] else [].

Lemma load_lines_requests lines w :
  requests (load_lines lines w) = requests w ++ concat (map restored lines) /\
  persistentRPCPath (load_lines lines w) = persistentRPCPath w.
Proof.
  revert w. induction lines as [|[[k t] a] lines IH]; intros w; cbn [load_lines]; [by rewrite app_nil_r|].
  destruct (IH (if a then log [addScheduleInform k t; EventScheduleInform k] w else w)) as [-> ->].
  destruct a; [|done]. split; [|done]. cbn [log requests map concat restored snd fst]. by rewrite <- app_assoc.
Qed.

(** The configuration is loaded whole: the scheduled Informs of the file that
    is in the path of the configuration are restored in their order, each with the
    event that reports it, before the transfers, the software modules and the
    requests are set up; a file that cannot be opened restores nothing and hinders
    nothing, and the result is that of the transfers alone. *)
Theorem config_loaded (open_read : option string -> option (list (string * Z * bool))) (ok : bool) (w : adapter) :
  let '(w', rc) := DM_ENG_Device_LoadConfig open_read ok w in
  requests w' = requests w ++ concat (map restored (default [] (open_read (persistentRPCPath w)))) ++
    [ScheduleDownload_init; ChangeDUState_init; RPCInterface_init; UpDownloadInitialize] /\
  rc = if ok then 0 else -1.
Proof.
  unfold DM_ENG_Device_LoadConfig, DM_ENG_Device_LoadScheduleInform. split; [|done].
  destruct (open_read (persistentRPCPath w)) as [lines|]; cbn [fst log requests default]; [|done].
  destruct (load_lines_requests lines w) as [-> _]. by rewrite <- app_assoc.
Qed.

(** A request for an Inform message reaches the engine as it was made: it is
    refused exactly if it has no events or no source, and otherwise the engine is
    asked once to send these events, with their source and whether at once --
    unless the signal comes under the very name of the request, which the callback
    takes for an unknown one. *)
Theorem inform_request_delivered (args : option inform_args) (name : string) (w : adapter)
    (Hname : name <> ""%string) :
  (_sendInformMessage args = None <->
     match args with None => True | Some a => str_empty (events a) = true \/ str_empty (source a) = true end) /\
  (forall data, _sendInformMessage args = Some data ->
     args = Some data /\
     exists e, events data = Some e /\ e <> ""%string /\
       requests (rpc_req_cb (Some name) data w) =
         requests w ++ if streq name "SendInformMessage!" then [] else [SendEvents e (immediately data) (source data)]).
Proof.
  split.
  - destruct args as [a|]; [|done]. unfold _sendInformMessage.
    destruct (str_empty (events a)), (str_empty (source a)); naive_solver.
  - intros data H. destruct args as [a|]; [|done]. unfold _sendInformMessage in H.
    destruct (str_empty (events a)) eqn:Ee; [done|]. destruct (str_empty (source a)); [done|]. injection H as <-.
    split; [done|]. destruct (events a) as [e|] eqn:Ea; [|done]. exists e. split; [done|]. split; [by intros ->|].
    unfold rpc_req_cb. rewrite (proj2 (streq_false name "") Hname). destruct (streq name "SendInformMessage!"); cbn [negb].
    + by rewrite app_nil_r.
    + unfold handle_sendInformMessage. by rewrite Ea.
Qed.

End Adapter.

(** ** Witnesses *)

(** A bus whose configuration has the host of the connection requests *)
Definition ex_library : system_library := {|
  bus := unit; variant := string;
  amxb_get := fun _ p => (0, Some [("Device.ManagementServer.ConnRequest.", [("ConnRequestHost", "192.0.2.1")])]%string);
  amxb_set := fun b _ _ _ => (b, 0); call_updateParameterKey := fun b _ => (b, 0);
  cstring_of := Some; const_cstring := Some; bool_of := fun _ => true;
  engine := unit; is_pending := fun _ _ => false; set_pending := fun _ e => e; clear_pending := fun _ e => e;
|}.

Definition ex_adapter : adapter :=
  {| vendor_prefix := None; prefix := Some "Device."%string; acsInstanceAlias := false; autoCreateInstances := true; acl := None;
     externalIPAddress := None; persistentRPCPath := None; requests := [] |}.

Definition ex_wan : option string -> option string :=
  ACSConnection.DM_ENG_Device_ACSConnectionHandleGetwaninterface true (fun _ => false)
    (fun _ => Some (Some "Device.IP.Interface.2.IPv4Address.1."%string)) "".

Lemma session_tells_address_witness :
  requests (@DM_ENG_Device_OpenSession ex_library tt ex_wan ex_adapter) =
    [TR181SetExternalIPAddressPath "Device.IP.Interface.2.IPv4Address.1.IPAddress";
     AddCachedValue "Device.IP.Interface.2.IPv4Address.1.IPAddress" (Some "192.0.2.1")]%string.
Proof.
  destruct (@session_tells_address ex_library tt ex_wan ex_adapter eq_refl) as [_ H].
  etransitivity; [exact H|vm_compute; reflexivity].
Defined.

Lemma inform_request_delivered_witness :
  requests (rpc_req_cb (Some "ManagementServer."%string)
    {| events := Some "6 CONNECTION REQUEST"%string; immediately := true; source := Some "XMPP"%string |} ex_adapter) =
    [SendEvents "6 CONNECTION REQUEST" true (Some "XMPP")]%string.
Proof.
  destruct (inform_request_delivered
    (Some {| events := Some "6 CONNECTION REQUEST"%string; immediately := true; source := Some "XMPP"%string |})
    "ManagementServer." ex_adapter ltac:(discriminate)) as [_ H].
  destruct (H _ eq_refl) as (_ & e & [= <-] & _ & Hr). exact Hr.
Defined.

End AdapterLifecycle.
