(* ===== verification/BusHelpers.v ===== *)
(** * BusHelpers: the small functions on the bus
    ([cwmp_plugin_common.c] of the plugin, [DM_ENG_Device_Set],
    [DM_ENG_Device_GetMapping] and [DM_ENG_Device_DUStateChangeCompleteAcknowledged]
    of [DM_DeviceAdapter.c])

    Each of them calls the bus once.  The class [bus_library] has the bus with
    whatever is behind it, and the functions of libamxd on paths. *)

From Stdlib Require Import ZArith Lia.
From stdpp Require Import base list strings.
From S2P Require Import Prelude.

Module BusHelpers.

Class bus_library := {
  bus : Type;
  context : Type;
  variant : Type;
  (** [amxd_path_get_fixed_part] and [amxb_be_who_has] *)
  fixed_part : string -> option string;
  who_has : string -> option context;
  (** [amxb_subscribe] and [amxb_unsubscribe] with a callback, by number *)
  subscribe : context -> string -> option string -> option nat -> bus -> bus * Z;
  unsubscribe : context -> string -> option nat -> bus -> bus * Z;
  (** [amxb_set] and [amxb_del]: the status and what is returned; [amxb_get] *)
  set : context -> string -> variant -> bus -> bus * variant * Z;
  del : context -> string -> bus -> bus * option variant * Z;
  get : context -> string -> bus -> variant * Z;
}.

Section Helpers.

Context {L : bus_library}.

(** ** Plugin *)

(** [get_bus_ctx]; [None]: the exit cleans a path that was not initialised. *)
Definition get_bus_ctx (inpath : option string) : option (option context) :=
  match inpath with
  | None | Some EmptyString => None
  | Some inpath => Some (fixed_part inpath ≫= who_has)
  end.

(** [cwmp_plugin_add_subscription] *)
Definition cwmp_plugin_add_subscription (path filter : option string) (cb : option nat) (b : bus) : option (bus * Z) :=
  match get_bus_ctx path, path with
  | Some (Some bus_ctx), Some path =>
      let r := subscribe bus_ctx path filter cb b in
      Some (r.1, if negb (r.2 =? 0) then r.2 else 0)
  | Some _, _ => Some (b, -1)
  | None, _ => None
  end.

(** [cwmp_plugin_del_subscription] *)
Definition cwmp_plugin_del_subscription (path : option string) (cb : option nat) (b : bus) : option (bus * Z) :=
  match get_bus_ctx path, path with
  | Some (Some bus_ctx), Some path =>
      let r := unsubscribe bus_ctx path cb b in
      Some (r.1, if negb (r.2 =? 0) then r.2 else 0)
  | Some _, _ => Some (b, -1)
  | None, _ => None
  end.

(** ** Adapter *)

(** [DM_ENG_Device_Set]: [ret] is the variant of the caller, if there is one;
    the bus is that of the system connection. *)
Definition DM_ENG_Device_Set (system : context) (object : string) (values : option variant) (ret : option variant) (b : bus) :
    bus * option variant * Z :=
  match values, ret with
  | Some values, Some _ => let '(b, ret, retval) := set system object values b in (b, Some ret, retval)
  | _, _ => (b, ret, -1)
  end.

(** [DM_ENG_Device_GetMapping]: the variant of the caller, and the status *)
Definition DM_ENG_Device_GetMapping (system : context) (data : option variant) (b : bus) : option variant * Z :=
  match data with
  | None => (None, -1)
  | Some _ =>
      let '(get_result, status) := get system "ManagementServer.Mapping." b in
      if negb (status =? 0) then (data, -1) else (Some get_result, 0)
  end.

(** [DM_ENG_Device_DUStateChangeCompleteAcknowledged] *)
Definition DM_ENG_Device_DUStateChangeCompleteAcknowledged (system : context) (path : string) (b : bus) : bus * Z :=
  let '(b, ret, rv) := del system path b in
  (b, if negb (rv =? 0) || is_null ret then -1 else 0).

(** ** Properties *)

(** The helpers of the plugin are undefined for an empty path only; for any
    other path, a subscription is there when 0 is returned, and when another
    value is, the bus has either not been asked or has refused. *)
Theorem subscription_helpers (path : option string) (filter : option string) (cb : option nat) (b : bus) :
  (cwmp_plugin_add_subscription path filter cb b = None <-> path = None \/ path = Some ""%string) /\
  (forall b' r, cwmp_plugin_add_subscription path filter cb b = Some (b', r) ->
     exists p, path = Some p /\
       match fixed_part p ≫= who_has with
       | Some c => subscribe c p filter cb b = (b', r)
       | None => b' = b /\ r = -1
       end).
Proof.
  unfold cwmp_plugin_add_subscription, get_bus_ctx. destruct path as [[|a p]|].
  - split; [|done]. split; [by right|done].
  - destruct (fixed_part (String a p) ≫= who_has) as [c|] eqn:E.
    + split; [split; [done|by intros [|]]|]. intros b' r [= <- <-]. exists (String a p). split; [done|]. rewrite E.
      destruct (subscribe c (String a p) filter cb b) as [b1 r1]. simpl. by destruct (Z.eqb_spec r1 0) as [->|].
    + split; [split; [done|by intros [|]]|]. intros b' r [= <- <-]. exists (String a p). by rewrite E.
  - split; [|done]. split; [by left|done].
Qed.

(** The mapping of the caller is replaced only when 0 is returned. *)
Theorem mapping_kept (system : context) (data : option variant) (b : bus) :
  (DM_ENG_Device_GetMapping system data b).2 <> 0 -> (DM_ENG_Device_GetMapping system data b).1 = data.
Proof.
  unfold DM_ENG_Device_GetMapping. destruct data as [v|]; [|done]. destruct (get _ _ _) as [g s].
  by destruct (negb (s =? 0)).
Qed.

End Helpers.

End BusHelpers.
