(* ===== verification/SupportedBuild.v ===== *)
(** * SupportedBuild: the adapter of the build with the supported data model
    ([DM_DeviceAdapter_prpl.c] and [DM_AmxParameterValues_prpl.c])

    This build compiles these two files in the place of [DM_DeviceAdapter.c] and
    [DM_AmxParameterValues.c].  Most of their functions are word for word those of
    the other build; they are given here under their own names as the models of
    those.  What is different is modelled beside the function that it replaces:
    the types of values in [ReadValues] and [ParameterLists], the validation of
    SetParameterValues in [SetValuesSupported], GetParameterNames in
    [SupportedNames].  The request for all values is the function of the other
    build around another body; the theorem of this file compares the two. *)

From Stdlib Require Import ZArith Lia Ascii.
From stdpp Require Import base list strings.
From S2P Require Import Prelude CString PathAlias IndexAlias ParameterNames ReadValues ReadValuesFacts ReadValuesExamples.
From S2P Require Import ACSConnection AdapterLifecycle AddDelete BusHelpers InformParameters ParameterLists ReadValues ScheduleDownload SetValues SystemConnection UpDownload.

Module SupportedBuild.
Import CString PathAlias IndexAlias ParameterNames ReadValues ReadValuesFacts.

(** ** Life of the adapter *)

Definition DM_ENG_Device_Init := @AdapterLifecycle.DM_ENG_Device_Init.

Definition DM_ENG_Device_Release := @AdapterLifecycle.DM_ENG_Device_Release.

Definition DM_ENG_Device_OpenSession := @AdapterLifecycle.DM_ENG_Device_OpenSession.

Definition DM_ENG_Device_LoadScheduleInform := @AdapterLifecycle.DM_ENG_Device_LoadScheduleInform.

Definition DM_ENG_Device_LoadConfig := @AdapterLifecycle.DM_ENG_Device_LoadConfig.

(** ** Complete answers in XML *)

Definition amx_type_to_xml_type := @ReadValues.amx_type_to_xml_type.

Definition xml_add_parameter_value_struct := @ReadValues.xml_add_parameter_value_struct.

Definition xml_add_parameter_attribute_struct := @ReadValues.xml_add_parameter_attribute_struct.

Definition build_gpa_all_body := @ReadValues.build_gpa_all_body.

Definition DM_ENG_Device_GetParameterAttributesAll := @ReadValues.DM_ENG_Device_GetParameterAttributesAll.

(** ** Names and the Inform message *)

Definition DM_ENG_Device_GPN := @ParameterLists.DM_ENG_Device_GPN.

Definition DM_ENG_Device_MatchingEvent := @InformParameters.MatchingEvent.

Definition DM_ENG_Device_MatchingInterval := @InformParameters.MatchingInterval.

Definition DM_ENG_Device_MatchingCount := @InformParameters.MatchingCount.

Definition DM_ENG_Device_GetInformParameterValues := @InformParameters.DM_ENG_Device_GetInformParameterValues.

(** ** Setting of parameters *)

Definition DM_ENG_Device_SetParameterValues_CheckForDuplicates := @SetValues.CheckForDuplicates.

Definition tr069_spv_amxd_status_to_spv_fault_code := @SetValues.tr069_spv_amxd_status_to_spv_fault_code.

Definition tr069_spv_build_spv_faults := @SetValues.tr069_spv_build_spv_faults.

Definition DM_ENG_Device_SetParameterValues_SetValues := @SetValues.SetValues.

(** ** Objects and the device *)

Definition DM_ENG_Device_AddObject := @AddDelete.DM_ENG_Device_AddObject.

Definition DM_ENG_Device_DeleteObject := @AddDelete.DM_ENG_Device_DeleteObject.

Definition DM_ENG_Device_Reboot := @AddDelete.DM_ENG_Device_Reboot.

Definition DM_ENG_Device_FactoryReset := @AddDelete.DM_ENG_Device_FactoryReset.

(** ** Transfers *)

Definition DM_ENG_Device_ScheduleDownload := @ScheduleDownload.DM_ENG_Device_ScheduleDownload.

Definition DM_ENG_Device_Download := @UpDownload.Device_Download.

Definition DM_ENG_Device_Upload := @UpDownload.Device_Upload.

Definition DM_ENG_Device_GetAllQueuedTransfers := @UpDownload.GetAllQueuedTransfers.

Definition DM_ENG_Device_TransferDoneAcknowledged := @UpDownload.TransferDoneAcknowledged.

(** ** Subscriptions of the ACS *)

Definition DM_ENG_Device_AddNotification := @ACSConnection.DM_ENG_Device_AddNotification.

Definition DM_ENG_Device_RemoveNotification := @ACSConnection.DM_ENG_Device_RemoveNotification.

Definition DM_ENG_Device_GetSubscriptions := @ACSConnection.DM_ENG_Device_GetSubscriptions.

(** ** Configuration of the engine and the bus *)

Definition DM_ENG_Device_SetConfigValue := @SystemConnection.DM_ENG_Device_SetConfigValue.

Definition DM_ENG_Device_GetConfigValue := @SystemConnection.DM_ENG_Device_GetConfigValue.

Definition DM_ENG_Device_ExecuteConfigFunction := @SystemConnection.DM_ENG_Device_ExecuteConfigFunction.

Definition DM_ENG_Device_Set := @BusHelpers.DM_ENG_Device_Set.

Definition DM_ENG_Device_GetMapping := @BusHelpers.DM_ENG_Device_GetMapping.

Definition DM_ENG_Device_DUStateChangeCompleteAcknowledged := @BusHelpers.DM_ENG_Device_DUStateChangeCompleteAcknowledged.

Section Values.

Context {L : values_library} {A : alias_library}.

(** [DM_ENG_Device_GetParameterValuesAll], around [build_gpv_all_body] of this
    build *)
Definition DM_ENG_Device_GetParameterValuesAll (amx : amx_env) (node_body : list xml) : list xml * Z :=
  get_everything build_gpv_all_body_prpl amx node_body.

Lemma listed_ext f g objects :
  (forall key params, (key, params) ∈ objects -> params <> [] -> f key = g key) -> listed f objects = listed g objects.
Proof.
  intros H. unfold listed. f_equal. apply map_ext_in. intros [key params] Hin%list_elem_of_In. cbn.
  destruct params as [|x params]; [by destruct (f key), (g key)|]. by rewrite (H key (x :: params)).
Qed.

Lemma listed_elem f objects key x :
  (key, x) ∈ listed f objects -> exists params, (key, params) ∈ objects /\ x ∈ params /\ f key = true.
Proof.
  unfold listed. rewrite list_elem_of_In, in_concat. intros (l & Hl & Hx).
  apply in_map_iff in Hl as ([k params] & <- & Hin). cbn in Hx. destruct (f k) eqn:E; [|done].
  apply in_map_iff in Hx as (y & [= <- <-] & Hy). exists params. by rewrite !list_elem_of_In.
Qed.

(** Equivalence of the two builds.  When the supported data model has the
    objects that can be described, with the same types, the request for all
    values is answered alike by both, whatever the access rules and the status
    of the bus; no type of an object without parameters, or that neither knows,
    matters. *)
Theorem builds_agree_on_all_values (amx : amx_env) (node_body : list xml)
    (Hknown : forall objs key params, amxb_get (cs "Device.") (-1) = (0, Some objs) ->
       (key, params) ∈ filter_resp (get_vfilters (cs "Device.")) objs -> params <> [] ->
       is_null (describe_types key) = is_null (supported key))
    (Htypes : forall objs key params x, amxb_get (cs "Device.") (-1) = (0, Some objs) ->
       (key, params) ∈ filter_resp (get_vfilters (cs "Device.")) objs -> x ∈ params -> describe_types key <> None ->
       described_type key x.1 = supported_type 0 key x.1) :
  DM_ENG_Device_GetParameterValuesAll amx node_body = ReadValues.DM_ENG_Device_GetParameterValuesAll amx node_body.
Proof.
  unfold DM_ENG_Device_GetParameterValuesAll, ReadValues.DM_ENG_Device_GetParameterValuesAll, get_everything. cbv zeta.
  destruct (negb _); [done|]. destruct (amxb_get (cs "Device.") (-1)) as [ret [objs|]]; [|by destruct ret].
  destruct ret; [|done..]. set (objs' := filter_resp _ objs). do 2 f_equal.
  unfold build_gpv_all_body, build_gpv_all_body_prpl, gpv_body. rewrite !gpv_objects_listed by done.
  assert (E : listed (fun key => negb (is_null (supported key))) objs' =
      listed (fun key => negb (is_null (describe_types key))) objs').
  { apply listed_ext. intros key params Hin Hp. by rewrite (Hknown objs key params). }
  rewrite E. do 5 f_equal. cbn [app fst]. apply map_ext_in. intros [key x] Hin%list_elem_of_In.
  apply listed_elem in Hin as (params & H1 & H2 & H3). unfold node_of. cbn [fst snd].
  rewrite <- (Htypes objs key params x eq_refl H1 H2); [done|]. by destruct (describe_types key).
Qed.

(** A parameter that the supported data model lacks has the type of its value in
    the answer of GetParameterValues, and no known type (0) in the answer with all
    values. *)
Theorem missing_row_types (amx : amx_env) (acspath key : cstr) (x : cstr * variant) :
  List.find (fun r => bool_decide (r.1 = x.1)) (default [] (supported_row key)) = None ->
  ptype (parse_parameter (supported_type (-1)) amx acspath key x) = ConvertParameterType (var_id (type_of x.2)) /\
  node_of (supported_type 0) amx (key, x) = node_of (fun _ _ => 0) amx (key, x).
Proof. intros H. unfold parse_parameter, node_of, supported_type. cbn [fst snd ptype]. by rewrite H. Qed.

End Values.

(** ** Witnesses *)

Definition ex_rows : list (cstr * Z) := [(cs "UpTime", 8); (cs "Manufacturer", 1)].

(** A library in which both builds know these rows *)
Definition ex_both : values_library := {|
  variant := cstr;
  amxb_get := fun _ _ => (0, Some ReadValuesExamples.ex_objects);
  describe_types := fun key => Some (fun name => snd <$> List.find (fun r => bool_decide (r.1 = name)) ex_rows);
  supported := fun key => Some (fun _ => Some ex_rows);
  build_supported_path := fun p => p;
  type_of := fun _ => 1;
  cstring_of := Some;
  var_id := fun z => if z =? 8 then AMXC_VAR_ID_UINT32 else if z =? 1 then AMXC_VAR_ID_CSTRING else AMXC_VAR_ID_OTHER z;
  not_supported_scheme := fun rv => rv =? 10;
  vfilters := unit;
  get_vfilters := fun _ => tt;
  allowed := fun _ p => true;
  filter_resp := fun _ l => l;
  cache_info := fun _ => (ACSConnection.OFF, None);
  mode_number := fun _ => 0;
  xml_content := fun s => s;
|}.

Lemma builds_agree_on_all_values_witness :
  @DM_ENG_Device_GetParameterValuesAll ex_both ReadValuesExamples.ex_alias ReadValuesExamples.ex_env [] =
    @ReadValues.DM_ENG_Device_GetParameterValuesAll ex_both ReadValuesExamples.ex_alias ReadValuesExamples.ex_env [].
Proof.
  apply (@builds_agree_on_all_values ex_both ReadValuesExamples.ex_alias ReadValuesExamples.ex_env []).
  - intros objs key params _ _ _. reflexivity.
  - intros objs key params x _ _ _ _. unfold described_type, supported_type. cbn.
    repeat (destruct (bool_decide _); [reflexivity|]). reflexivity.
Defined.

Lemma missing_row_types_witness :
  ptype (@parse_parameter ex_both ReadValuesExamples.ex_alias (@supported_type ex_both (-1)) ReadValuesExamples.ex_env []
    (cs "Device.") (cs "Other", cs "text")) = ConvertParameterType AMXC_VAR_ID_CSTRING.
Proof.
  destruct (@missing_row_types ex_both ReadValuesExamples.ex_alias ReadValuesExamples.ex_env [] (cs "Device.")
    (cs "Other", cs "text")) as [H _]; [reflexivity|exact H].
Defined.

End SupportedBuild.
